(* ===== verification/_CoqProject ===== *)
-Q . S2P
Prelude.v
Text.v
Net.v
Protocol.v
StoreApi.v
Sql.v
Tables.v
Hub.v
Ledger.v
Work.v
WorkFacts.v
Waits.v
WaitFacts.v
Seats.v
Attention.v
Chat.v
ChatFacts.v
Access.v
Membership.v
Joins.v
Rooms.v
AccessFacts.v
Scheduler.v
RoomFacts.v
SchedulerFacts.v
AttentionFacts.v
Queries.v
WikiTypes.v
Http.v
Doors.v
Identity.v
Operators.v
Admission.v
StoreAttention.v
StoreWork.v
StoreMessages.v
BlobFiles.v
Skills.v
Boot.v
Memory.v
WikiMaintenance.v
Wiki.v
WikiOps.v
Attachments.v
Sockets.v
Server.v
ServerFacts.v
Building.v
RouteWork.v
RouteRooms.v
RouteMembers.v
RouteMemory.v
RouteWiki.v
RouteAttachments.v
Router.v
RouterFacts.v
PolicyFacts.v
BlobFacts.v
SkillFacts.v
SkillRecover.v
SkillInstall.v
MemoryFacts.v
WikiFacts.v
WikiPublish.v
Reviews.v
ReviewRounds.v
AttachmentFacts.v
Files.v
UploadFacts.v
StoreFacts.v
DurableFacts.v
DurableOps.v
RestartFacts.v
MessageFacts.v
Durability.v
SocketFacts.v
Connections.v
AdmissionFacts.v
OperatorFacts.v
IdentityFacts.v
