(* ===== verification/Prelude.v ===== *)
(** * Loca: a verified model of the room server and of its skill library

    Loca is a chat building for people and agents: a server keeps rooms
    ("locas"), who sits in them, what was said, the work the rooms declare, the
    reminders for what waits, and the memberships ("davets" are invitations) that
    open the doors.  This development is a model of the server
    (src/crates/server, src/crates/protocol) and of the library that installs the
    agents' skills on a user's machine (src/crates/skill-bundles), written from
    their sources, with the theorems that make the parts correct.  File and function names below are those
    of src/crates/server/src unless they say otherwise.

    ** How the model reads

    A function of the source is a definition of the same name.  A method of the
    hub is a pure transition: it takes the hub and answers the new hub and the
    result, [Hub St -> Hub St * result]; the mutexes of the source are held for the
    whole of a method, so a method is one step and an interleaving of requests is a
    sequence of steps.  An early return keeps what was changed before it.  Two
    simplifications: a handler that asks [is_writable] and then changes the room, and
    a socket that enters ([ws_enter]: its number, its session, the history, the seat),
    make several calls in the sources and are one step here.

    - Numbers: [u64], [u32] and [i64] are [N] and [Z] with the bounds of their
      width where the source wraps, saturates or checks ([sat_add64],
      [checked_add64], [as_i64]); a [usize] that counts a container is a [nat].
      SQLite stores [i64], so a [u64] parameter beyond it makes a statement fail
      ([binds]).
    - Strings are their UTF-8 bytes.  What needs Unicode tables is behind the class
      [Unicode] of Text.v; [ascii_unicode] is exact on ASCII and used by witnesses.
    - Time is a field of the hub, [h_clock]; a step reads it at one instant, and a
      step of a theorem about sequences may set it to anything.
    - Randomness ([Csprng]), SHA-256 ([Digest]), the process' environment
      ([Environment]), the start of the process ([ProcessStamp]), the wall clock
      ([WallClock]), paths and headers as text are classes: their code is not part
      of the sources.  A theorem names the laws it needs as hypotheses.
    - A broadcast channel is the list of the frames sent on it ([r_tx],
      [h_lobby_tx]).  A receiver is given its frames one at a time, or learns that
      it lagged; the theorems on sockets hold for any frames at any moment.
    - Code that awaits is a state machine ([ws_step]): one step from an await to the
      next, between which anything may happen in the hub.
    - A [HashMap] is a [gmap]; where the source iterates over one, or reads rows
      without ORDER BY, the order is that of [map_to_list].
    - JSON text is not modelled: a column of JSON, a request body and an answer are
      the values they stand for.  A panic is the status [Panicked].

    ** The store

    The hub is proved against the type classes of StoreApi.v (and those of
    Memory.v, WikiOps.v and Attachments.v), one per group of store methods.  They
    are implemented by the tables: Tables.v is the schema, Sql.v a monad of
    statements over one connection.  A connection is the tables and an oracle that
    says which of the next writes fail; a statement that fails changes nothing, a
    transaction is kept as a whole or dropped, and a fault may also hit the commit.
    Reads do not fail.  The theorems about the disk hold for every oracle.  SQLite
    itself is not modelled, nor are the full-text index and [last_used_at].

    ** The files, and what they model

    - Prelude.v, Text.v, Net.v: lists, maps, results, integers; strings; addresses.
    - Protocol.v: the types of src/crates/protocol/src/lib.rs.
    - StoreApi.v, Sql.v, Tables.v: the store as above (store.rs).
    - Hub.v: the records [Hub] and [Room] of hub.rs.  Ledger.v, Work.v, Waits.v,
      Seats.v, Attention.v, Chat.v, Access.v, Membership.v, Joins.v, Rooms.v,
      Scheduler.v and Queries.v: the methods of hub.rs and hub/, one component a
      file.
    - Memory.v, WikiOps.v and Attachments.v hold the methods of the hub for the
      memory, the wiki and the files of a room next to the store's.
    - Server.v: the operations of the hub as one type and their sequences.
    - Http.v, Doors.v: headers, statuses, who a request speaks for, the gate
      (routes/access.rs).  RouteWork.v, RouteRooms.v, RouteMembers.v,
      RouteMemory.v, RouteWiki.v and RouteAttachments.v: one definition per handler
      (routes/).  Router.v: the table of routes, and the master's desk (main.rs).
    - Sockets.v: a room's websocket ([ws_handler] and [ws_session] of main.rs) and
      the lobby's (routes/lobby.rs): the door, then a session with its stages, its
      queue of messages and its sends, which may fail.
    - Identity.v, Operators.v, Admission.v, StoreAttention.v, StoreWork.v,
      StoreMessages.v: the statements of store/identity.rs,
      operators.rs, store.rs, attention.rs, work.rs and rooms.rs (StoreWork.v), content.rs
      and messages.rs with their transactions, and the instances of the classes.
    - BlobFiles.v: the blob store of store/attachments.rs on a model of the file
      system with directories, links and failing operations; Attachments.v:
      store/attachment_index.rs.
    - WikiTypes.v, WikiMaintenance.v, Wiki.v: store/wiki*.rs.
    - Boot.v: what [Store::open] does to the rows of an older database, and
      [Hub::build], what a restart reads back.
    - Skills.v: src/crates/skill-bundles/src/lib.rs on a tree of directories with
      permissions, links and files: installing a version, verifying it, the lock,
      the staging directory, the name of the current version.  An archive and its
      manifest are the class [Library]; every operation of the file system may fail
      at any time, and everybody may read.

    ** The theorems

    - The disk (Durability.v, over StoreFacts.v, DurableFacts.v, DurableOps.v,
      RestartFacts.v, MessageFacts.v): in every state reached by any
      operations with any failing writes the declared work and the seals in memory
      are those on disk; a restart brings them back; an accepted message is on disk
      under a fresh id, and its operation is answered once, across restarts too.  A
      restart there is [Hub::build]; opening the database, which comes first, is
      idempotent (RestartFacts.v) and revives no credential (IdentityFacts.v).
    - Requests (RouterFacts.v, PolicyFacts.v, over ServerFacts.v, Building.v): every
      request is a few session lookups and at most one operation; so the invariants
      of all components hold of any traffic; the access policy, written as a table,
      is what the handlers enforce; a refused request changes nothing; no handler
      reaches its unreachable arms.
    - Sockets (SocketFacts.v, Connections.v): the server as a system of the hub and
      its open connections, with requests, periodic tasks and the steps of sessions
      interleaved at will ([on_traffic]); its invariant; what a session may do, that
      messages are told once, in order and in time, that reminders reach only whom
      they name, that dead credentials and taken seats end a connection.
    - Chat, work, waits, attention, rooms (ChatFacts.v, WorkFacts.v, WaitFacts.v,
      AttentionFacts.v, SchedulerFacts.v, RoomFacts.v, AccessFacts.v):
      what is refused and why, who is woken, that the circles
      of waits are found exactly, that reminders are bounded, that a seal is final.
    - Identity and admission (IdentityFacts.v, OperatorFacts.v, AdmissionFacts.v):
      revocation is final, an operator's seat is single with a history, and the
      SQL of admission refines an abstract ledger of requests and rights.
    - Files (Files.v, UploadFacts.v, over BlobFacts.v, AttachmentFacts.v): a file is
      served exactly where a message cites it, with the bytes of its hash; quotas;
      the sweep; nothing outside of the store's directory is touched.
    - Memory (MemoryFacts.v): the long text is the join of its entries, what is
      handed out is its longest recent part, paging ends and misses nothing.
    - The wiki (Reviews.v, ReviewRounds.v, over WikiFacts.v, WikiPublish.v): the
      batches of reviews refine an abstract state machine ([batch_step]); one review
      under one lease, for its window; a publication is what readers see; every
      message is reviewed.
    - Skills (SkillInstall.v, over SkillFacts.v, SkillRecover.v): a version is
      accepted exactly when its tree is the archive's, file by file; whatever the
      installs before met and wherever they stopped, the next one in which nothing
      fails ends with the version whole and current, and none of them touches
      another version or another file.

    ** Fuel and bounds

    [wait_cycles] walks with a fuel of three more than the number of waits and is exact with it
    (WaitFacts.v).  Paths are walked through at most forty links, as the kernel
    does.  The walk over an installed tree has its depth as fuel; the wait for the lock
    ends after the 601 tries its deadline and its pause allow.  [follow_pages] and [review_rounds] take the number of requests and of
    rounds a client makes; their theorems say how many are enough.

    ** Not modelled

    - The reading of the environment into the configuration, the listeners, the
      timers that call the periodic tasks, the embedded pages, documents and skill
      downloads of main.rs and routes/downloads.rs: constants and I/O around the
      modelled parts; sync.rs, which goes on after a panic with a poisoned lock.
    - [rename_room], a migration of the admin tool, and the tool itself
      (src/crates/admin); the desktop application, which starts processes and windows;
      the unpacking of archives, done by a library; the Windows variants of the
      file operations. *)

From stdpp Require Export base gmap strings list fin_maps sorting pretty.
From Stdlib Require Export NArith Lia.

(** Projections of a state whose other fields were changed. *)
Create Rewrite HintDb room_frame.
Ltac room_frame :=
  repeat first [progress cbn | progress autorewrite with room_frame]; try done.

Declare Scope loca_scope.
Delimit Scope loca_scope with loca.

(** ** Results, as the source's [Result<T, E>] *)

Inductive result (T E : Type) : Type :=
  | Ok (t : T)
  | Err (e : E).
Arguments Ok {_ _} _.
Arguments Err {_ _} _.

Definition is_ok {T E} (r : result T E) : bool :=
  match r with Ok _ => true | Err _ => false end.

(** [option::is_none] *)
Definition is_none {A} (o : option A) : bool := match o with None => true | Some _ => false end.

(** [option::ok_or] *)
Definition ok_or {T E} (o : option T) (e : E) : result T E :=
  match o with Some t => Ok t | None => Err e end.

Notation "'let?' x ':=' m 'in' k" :=
  (match m with Ok x => k | Err e => Err e end)
  (at level 10, x pattern, m at level 100, k at level 200) : loca_scope.

(** ** Machine integers

    [u64] and [u32] values are [N]; the operations the source uses are the
    saturating ones, whose bounds are written out here, and the wrapping ones
    of [AtomicU64::fetch_add] and of [+] in a release build. *)

Definition u64_max : N := 2 ^ 64 - 1.
Definition u32_max : N := 2 ^ 32 - 1.
Definition sat_add64 (a b : N) : N := N.min (a + b) u64_max.
Definition sat_add32 (a b : N) : N := N.min (a + b) u32_max.
(** [u64::saturating_sub]: truncated subtraction on [N]. *)
Definition sat_sub (a b : N) : N := a - b.
Definition wrap_add64 (a b : N) : N := (a + b) `mod` (2 ^ 64).
(** [clamp(lo, hi)] with [lo <= hi]. *)
Definition clamp (x lo hi : N) : N := N.max lo (N.min x hi).

Lemma sat_add64_bound a b : (sat_add64 a b <= u64_max)%N.
Proof. unfold sat_add64. lia. Qed.

Lemma sat_add64_small a b : (a + b <= u64_max)%N -> sat_add64 a b = (a + b)%N.
Proof. unfold sat_add64. lia. Qed.

Lemma sat_add32_bound a b : (sat_add32 a b <= u32_max)%N.
Proof. unfold sat_add32. lia. Qed.

Lemma sat_add32_small a b : (a + b <= u32_max)%N -> sat_add32 a b = (a + b)%N.
Proof. unfold sat_add32. lia. Qed.

Lemma wrap_add64_small a b : (a + b <= u64_max)%N -> wrap_add64 a b = (a + b)%N.
Proof.
  intros H. unfold wrap_add64. apply N.mod_small.
  unfold u64_max in H. lia.
Qed.

Lemma clamp_bounds x lo hi :
  (lo <= hi)%N -> (lo <= clamp x lo hi /\ clamp x lo hi <= hi)%N.
Proof. unfold clamp. lia. Qed.

Lemma clamp_id x lo hi : (lo <= x)%N -> (x <= hi)%N -> clamp x lo hi = x.
Proof. unfold clamp. lia. Qed.

(** ** Strings *)

(** Decimal rendering, as [{n}] in a format string. *)
Definition dec (n : N) : string := pretty n.

#[global] Instance dec_inj : Inj (=) (=) dec.
Proof. apply pretty_N_inj. Qed.

(** [strip_prefix] *)
Fixpoint strip_prefix (s p : string) {struct p} : option string :=
  match p, s with
  | EmptyString, _ => Some s
  | String a p', String b s' =>
      if Ascii.eqb a b then strip_prefix s' p' else None
  | String _ _, EmptyString => None
  end.

Lemma strip_prefix_app p s : strip_prefix (p +:+ s) p = Some s.
Proof.
  induction p as [|a p IH]; simpl; [done|].
  by rewrite Ascii.eqb_refl.
Qed.

Lemma strip_prefix_Some s p r : strip_prefix s p = Some r -> s = p +:+ r.
Proof.
  revert s. induction p as [|a p IH]; intros s; simpl.
  - by intros [= ->].
  - destruct s as [|b s]; [done|].
    destruct (Ascii.eqb_spec a b) as [->|]; [|done].
    intros H%IH. by subst.
Qed.

(** [starts_with] *)
Definition starts_with (s p : string) : bool :=
  match strip_prefix s p with Some _ => true | None => false end.

Lemma starts_with_app p s : starts_with (p +:+ s) p = true.
Proof. unfold starts_with. by rewrite strip_prefix_app. Qed.

Lemma starts_with_inv s p : starts_with s p = true -> exists r, s = p +:+ r.
Proof.
  unfold starts_with. destruct (strip_prefix s p) as [r|] eqn:E; [|done].
  apply strip_prefix_Some in E. eauto.
Qed.

Lemma starts_with_iff s p : starts_with s p = true <-> exists r, s = p +:+ r.
Proof.
  split; [apply starts_with_inv|]. intros [r ->]. apply starts_with_app.
Qed.

Lemma string_app_assoc (a b c : string) : (a +:+ b) +:+ c = a +:+ (b +:+ c).
Proof. induction a as [|x a IH]; [done|]. exact (f_equal (String x) IH). Qed.

Lemma string_app_nil_r (a : string) : a +:+ "" = a.
Proof. induction a as [|x a IH]; [done|]. exact (f_equal (String x) IH). Qed.

(** [is_empty] *)
Definition str_is_empty (s : string) : bool := bool_decide (s = ""%string).

(** [names.join(sep)] *)
Fixpoint join (sep : string) (l : list string) : string :=
  match l with
  | [] => ""
  | [x] => x
  | x :: rest => x +:+ sep +:+ join sep rest
  end.

(** ** HashMap helpers

    [HashMap]s are [gmap]s.  The iteration order of a [HashMap] is not
    specified; [values] fixes the order of [map_to_list].  Results that go
    through [any], a sort, or a match that an invariant makes unique do not
    depend on it, and the lemmas below state them by lookup only. *)

Section map_helpers.
Context `{Countable K} {V : Type}.
Implicit Types m : gmap K V.

Definition values m : list V := (map_to_list m).*2.
Definition keys m : list K := (map_to_list m).*1.
(** [map.values().any(f)] *)
Definition any_value (f : V -> bool) m : bool := existsb f (values m).
(** [map.values().find(f)] *)
Definition find_value (f : V -> bool) m : option V := List.find f (values m).

Lemma elem_of_values m v : v ∈ values m <-> exists k, m !! k = Some v.
Proof.
  unfold values. rewrite list_elem_of_fmap. split.
  - intros ([k w] & -> & Hin). apply elem_of_map_to_list in Hin. eauto.
  - intros [k Hk]. exists (k, v). by rewrite elem_of_map_to_list.
Qed.

Lemma elem_of_keys m k : k ∈ keys m <-> is_Some (m !! k).
Proof.
  unfold keys. rewrite list_elem_of_fmap. split.
  - intros ([k' w] & -> & Hin). apply elem_of_map_to_list in Hin. eauto.
  - intros [v Hk]. exists (k, v). by rewrite elem_of_map_to_list.
Qed.

Lemma NoDup_keys m : NoDup (keys m).
Proof. apply NoDup_fst_map_to_list. Qed.

Lemma any_value_true f m :
  any_value f m = true <-> exists k v, m !! k = Some v /\ f v = true.
Proof.
  unfold any_value. rewrite existsb_exists. split.
  - intros (v & Hin%list_elem_of_In & Hf).
    apply elem_of_values in Hin as [k Hk]. eauto.
  - intros (k & v & Hk & Hf). exists v. split; [|done].
    apply list_elem_of_In, elem_of_values. eauto.
Qed.

Lemma any_value_false f m :
  any_value f m = false <-> forall k v, m !! k = Some v -> f v = false.
Proof.
  split.
  - intros Ha k v Hk. destruct (f v) eqn:Hf; [|done].
    assert (any_value f m = true) by (apply any_value_true; eauto). congruence.
  - intros Hall. destruct (any_value f m) eqn:Ha; [|done].
    apply any_value_true in Ha as (k & v & Hk & Hf).
    rewrite (Hall _ _ Hk) in Hf. done.
Qed.

Lemma find_value_Some f m v :
  find_value f m = Some v -> f v = true /\ exists k, m !! k = Some v.
Proof.
  intros Hf. apply find_some in Hf as [Hin Hf]. split; [done|].
  by apply elem_of_values, list_elem_of_In.
Qed.

Lemma find_value_None f m :
  find_value f m = None -> forall k v, m !! k = Some v -> f v = false.
Proof.
  intros Hf k v Hk. apply (find_none f _ Hf).
  apply list_elem_of_In, elem_of_values. eauto.
Qed.

(** A match that is unique is found, whatever the iteration order. *)
Lemma find_value_unique f m k v :
  m !! k = Some v -> f v = true ->
  (forall k' v', m !! k' = Some v' -> f v' = true -> v' = v) ->
  find_value f m = Some v.
Proof.
  intros Hk Hf Huniq. destruct (find_value f m) as [w|] eqn:E.
  - apply find_value_Some in E as [Hw [k' Hk']]. f_equal. eauto.
  - by rewrite (find_value_None _ _ E _ _ Hk) in Hf.
Qed.
End map_helpers.

(** ** Sorting, as [sort_by_key] / [sort] / [dedup] *)

Definition by_N {A} (key : A -> N) (x y : A) : Prop := (key x <= key y)%N.
Definition by_str {A} (key : A -> string) (x y : A) : Prop :=
  String.le (key x) (key y).
#[global] Instance by_N_dec {A} (key : A -> N) : RelDecision (by_N key).
Proof. intros x y. unfold by_N. apply _. Defined.
#[global] Instance by_str_dec {A} (key : A -> string) : RelDecision (by_str key).
Proof. intros x y. unfold by_str. apply _. Defined.

Definition sort_by_N {A} (key : A -> N) (l : list A) : list A :=
  merge_sort (by_N key) l.
Definition sort_by_str {A} (key : A -> string) (l : list A) : list A :=
  merge_sort (by_str key) l.
Definition sort_strings : list string -> list string := merge_sort String.le.
Definition sort_Ns : list N -> list N := merge_sort N.le.

(** [Vec::dedup]: drops an element equal to its predecessor. *)
Fixpoint dedup `{EqDecision A} (l : list A) : list A :=
  match l with
  | [] => []
  | x :: rest =>
      match rest with
      | [] => [x]
      | y :: _ => if decide (x = y) then dedup rest else x :: dedup rest
      end
  end.

Lemma sort_by_N_Permutation {A} (key : A -> N) l : sort_by_N key l ≡ₚ l.
Proof. apply merge_sort_Permutation. Qed.
Lemma sort_by_str_Permutation {A} (key : A -> string) l : sort_by_str key l ≡ₚ l.
Proof. apply merge_sort_Permutation. Qed.
Lemma sort_strings_Permutation l : sort_strings l ≡ₚ l.
Proof. apply merge_sort_Permutation. Qed.
Lemma sort_Ns_Permutation l : sort_Ns l ≡ₚ l.
Proof. apply merge_sort_Permutation. Qed.

Lemma sort_by_N_sorted {A} (key : A -> N) l :
  StronglySorted (by_N key) (sort_by_N key l).
Proof.
  apply StronglySorted_merge_sort; unfold by_N.
  - intros x y z. lia.
  - intros x y. destruct (N.le_ge_cases (key x) (key y)); [by left|right; lia].
Qed.

Lemma sort_strings_sorted l : StronglySorted String.le (sort_strings l).
Proof. apply StronglySorted_merge_sort; apply _. Qed.

Lemma sort_Ns_sorted l : StronglySorted N.le (sort_Ns l).
Proof.
  apply StronglySorted_merge_sort.
  - intros x y z. lia.
  - intros x y. destruct (N.le_ge_cases x y); [by left|right; lia].
Qed.

Section dedup_lemmas.
Context `{EqDecision A}.
Implicit Types l : list A.

Lemma dedup_cons2 x y l :
  dedup (x :: y :: l) =
    if decide (x = y) then dedup (y :: l) else x :: dedup (y :: l).
Proof. done. Qed.

Lemma elem_of_dedup l x : x ∈ dedup l <-> x ∈ l.
Proof.
  induction l as [|a l IH]; [done|]. destruct l as [|b l]; [done|].
  rewrite dedup_cons2. case_decide as E.
  - rewrite IH. subst. rewrite elem_of_cons, (elem_of_cons (b :: l)).
    rewrite elem_of_cons. tauto.
  - by rewrite elem_of_cons, IH, (elem_of_cons (b :: l)).
Qed.

Lemma dedup_NoDup (R : relation A) `{!AntiSymm (=) R} l :
  StronglySorted R l -> NoDup (dedup l).
Proof.
  induction 1 as [|a l Hs IH Hall]; [constructor|].
  destruct l as [|b l]; [apply NoDup_singleton|].
  rewrite dedup_cons2. case_decide as E; [done|]. constructor; [|done].
  rewrite elem_of_dedup, elem_of_cons. intros [->|Hin]; [done|].
  apply E. inversion Hs as [|? ? ? Hb]; subst.
  rewrite Forall_forall in Hall, Hb.
  apply (anti_symm R).
  - apply Hall. by left.
  - by apply Hb.
Qed.

Lemma dedup_NoDup_id l : NoDup l -> dedup l = l.
Proof.
  induction 1 as [|a l Hn Hl IH]; [done|].
  destruct l as [|b l]; [done|]. rewrite dedup_cons2. case_decide as E.
  - subst. set_solver.
  - by rewrite IH.
Qed.
End dedup_lemmas.

Definition sort_dedup_strings (l : list string) : list string :=
  dedup (sort_strings l).
Definition sort_dedup_Ns (l : list N) : list N := dedup (sort_Ns l).

Lemma elem_of_sort_dedup_strings l x : x ∈ sort_dedup_strings l <-> x ∈ l.
Proof.
  unfold sort_dedup_strings. by rewrite elem_of_dedup, sort_strings_Permutation.
Qed.
Lemma elem_of_sort_dedup_Ns l x : x ∈ sort_dedup_Ns l <-> x ∈ l.
Proof. unfold sort_dedup_Ns. by rewrite elem_of_dedup, sort_Ns_Permutation. Qed.
Lemma NoDup_sort_dedup_strings l : NoDup (sort_dedup_strings l).
Proof. apply (dedup_NoDup String.le), sort_strings_sorted. Qed.
Lemma NoDup_sort_dedup_Ns l : NoDup (sort_dedup_Ns l).
Proof. apply (dedup_NoDup N.le), sort_Ns_sorted. Qed.

(** ** Counting the elements a predicate selects *)

Lemma filter_length_Permutation {A} (f : A -> bool) l l' :
  l ≡ₚ l' -> length (List.filter f l) = length (List.filter f l').
Proof.
  induction 1; cbn; try congruence.
  - destruct (f x); cbn; congruence.
  - by destruct (f x), (f y).
Qed.

Lemma values_insert `{Countable K} {V} (m : gmap K V) k v :
  values (<[k := v]> m) ≡ₚ v :: values (delete k m).
Proof.
  unfold values. rewrite <- insert_delete_eq.
  by rewrite map_to_list_insert by apply lookup_delete_eq.
Qed.

(** Replacing one value moves the count of a predicate by that value. *)
Lemma count_insert `{Countable K} {V} (f : V -> bool) (m : gmap K V) k v v' :
  m !! k = Some v ->
  length (List.filter f (values (<[k := v']> m))) + (if f v then 1 else 0)
    = length (List.filter f (values m)) + (if f v' then 1 else 0).
Proof.
  intros E. rewrite (filter_length_Permutation f _ _ (values_insert m k v')).
  rewrite <- (insert_id m k v E) at 2.
  rewrite (filter_length_Permutation f _ _ (values_insert m k v)). cbn.
  destruct (f v), (f v'); cbn; lia.
Qed.

Lemma count_insert_new `{Countable K} {V} (f : V -> bool) (m : gmap K V) k v :
  m !! k = None ->
  length (List.filter f (values (<[k := v]> m)))
    = (if f v then 1 else 0) + length (List.filter f (values m)).
Proof.
  intros E. rewrite (filter_length_Permutation f _ _ (values_insert m k v)).
  rewrite delete_id by done. cbn. by destruct (f v).
Qed.

Lemma length_values `{Countable K} {V} (m : gmap K V) : length (values m) = size m.
Proof. unfold values. by rewrite length_map, length_map_to_list. Qed.
