(* ===== verification/Text.v ===== *)
(** * Text operations of the Rust standard library

    A Rust [String] is the list of its UTF-8 bytes, a Rocq [string].  What the
    source does byte-wise ([==], [cmp], [len], [starts_with],
    [eq_ignore_ascii_case]) is defined on it directly.  The operations that
    need Unicode tables are the fields of the class [Unicode]; the ones the
    source builds from them ([split] on a predicate, [trim]) are defined here
    over those fields.  [ascii_unicode] is the instance that is exact on ASCII
    text; the witnesses of the development run on it. *)

From Stdlib Require Import Ascii.
From Stdlib Require String.
From S2P Require Import Prelude.

(** The tables of [char] and the decoding of a [str] into its [char]s, each
    [char] given by its UTF-8 encoding. *)
Class Unicode : Type := {
  chars : string -> list string;
  chars_concat : forall s, String.concat "" (chars s) = s;
  (* no byte of a longer encoding is ASCII *)
  chars_bytes : forall s c, c ∈ chars s ->
    String.length c = 1 \/ forall a, a ∈ String.list_ascii_of_string c -> (128 <= N_of_ascii a)%N;
  to_lowercase : string -> string;
  is_alphanumeric : string -> bool;
  is_whitespace : string -> bool;
}.

Definition concat_chars (cs : list string) : string := String.concat "" cs.

(** ** ASCII helpers *)

Definition ascii_in (lo hi : N) (a : ascii) : bool :=
  let n := N_of_ascii a in (lo <=? n)%N && (n <=? hi)%N.
Definition ascii_lower (a : ascii) : ascii :=
  if ascii_in 65 90 a then ascii_of_N (N_of_ascii a + 32) else a.
Fixpoint map_ascii (f : ascii -> ascii) (s : string) : string :=
  match s with
  | EmptyString => EmptyString
  | String a s' => String (f a) (map_ascii f s')
  end.
(** [str::eq_ignore_ascii_case] *)
Definition eq_ignore_ascii_case (s t : string) : bool :=
  bool_decide (map_ascii ascii_lower s = map_ascii ascii_lower t).

Lemma eq_ignore_ascii_case_refl s : eq_ignore_ascii_case s s = true.
Proof. by apply bool_decide_eq_true. Qed.

(** ** [split] and [trim] over [char]s *)

Section text.
Context `{Unicode}.

(** [s.split(f)]: the maximal segments between separator characters, the
    empty ones included. *)
Fixpoint split_go (f : string -> bool) (cur : string) (cs : list string) : list string :=
  match cs with
  | [] => [cur]
  | c :: rest =>
      if f c then cur :: split_go f "" rest
      else split_go f (cur +:+ c) rest
  end.
Definition split_on (f : string -> bool) (s : string) : list string :=
  split_go f "" (chars s).

Fixpoint drop_while {A} (f : A -> bool) (l : list A) : list A :=
  match l with
  | [] => []
  | x :: rest => if f x then drop_while f rest else l
  end.
(** [str::trim] *)
Definition trim (s : string) : string :=
  concat_chars
    (rev (drop_while is_whitespace
           (rev (drop_while is_whitespace (chars s))))).
End text.

(** ** The ASCII instance *)

Fixpoint bytes_as_chars (s : string) : list string :=
  match s with
  | EmptyString => []
  | String a s' => String a EmptyString :: bytes_as_chars s'
  end.

Lemma bytes_as_chars_concat s : String.concat "" (bytes_as_chars s) = s.
Proof.
  induction s as [|a s IH]; [done|].
  change (bytes_as_chars (String a s)) with (String a "" :: bytes_as_chars s).
  destruct (bytes_as_chars s) as [|c cs] eqn:E.
  - destruct s; [done|]. cbn in E. done.
  - transitivity (String a "" +:+ ("" +:+ String.concat "" (c :: cs))); [done|].
    by rewrite IH.
Qed.

Lemma bytes_as_chars_bytes s c :
  c ∈ bytes_as_chars s ->
  String.length c = 1 \/ forall a, a ∈ String.list_ascii_of_string c -> (128 <= N_of_ascii a)%N.
Proof.
  induction s as [|a s IH]; cbn; [by intros ?%elem_of_nil|].
  intros [->|Hin]%elem_of_cons; [by left|by apply IH].
Qed.

Definition ascii_alnum (c : string) : bool :=
  match c with
  | String a EmptyString =>
      ascii_in 48 57 a || ascii_in 65 90 a || ascii_in 97 122 a
  | _ => false
  end.
Definition ascii_space (c : string) : bool :=
  match c with
  | String a EmptyString => ascii_in 9 13 a || ascii_in 32 32 a
  | _ => false
  end.

Definition ascii_unicode : Unicode := {|
  chars := bytes_as_chars;
  chars_concat := bytes_as_chars_concat;
  chars_bytes := bytes_as_chars_bytes;
  to_lowercase := map_ascii ascii_lower;
  is_alphanumeric := ascii_alnum;
  is_whitespace := ascii_space;
|}.

Example trim_example : @trim ascii_unicode "  hi there " = "hi there"%string.
Proof. reflexivity. Qed.
Example split_example :
  @split_on ascii_unicode (fun c => bool_decide (c = " "%string)) "a bc  d"
  = ["a"; "bc"; ""; "d"]%string.
Proof. reflexivity. Qed.
