(* ===== verification/Net.v ===== *)
(** * Addresses

    [std::net::IpAddr] and its parser, as far as routes/membership.rs and the
    per-source limits of the hub use them. *)

From Stdlib Require Import Ascii.
From Stdlib Require String.
From S2P Require Import Prelude Text.

(** The octets of an IPv4 address, the 16-bit groups of an IPv6 one. *)
Inductive IpAddr : Type :=
  | V4 (octets : list N)
  | V6 (groups : list N).
#[global] Instance IpAddr_eq_dec : EqDecision IpAddr.
Proof. solve_decision. Defined.
#[global] Program Instance IpAddr_countable : Countable IpAddr :=
  inj_countable' (fun ip => match ip with V4 l => inl l | V6 l => inr l end)
    (fun s => match s with inl l => V4 l | inr l => V6 l end) _.
Next Obligation. by intros []. Qed.

(** [IpAddr::is_loopback]: 127.0.0.0/8, or ::1. *)
Definition is_loopback (ip : IpAddr) : bool :=
  match ip with
  | V4 octets => bool_decide (head octets = Some 127%N)
  | V6 groups => bool_decide (groups = [0; 0; 0; 0; 0; 0; 0; 1]%N)
  end.

(** ** The parser

    [core::net::parser] backtracks by restarting from the saved text, so a
    parser is a function from the text to a value and the rest of it. *)

Definition digit_value (radix : N) (a : ascii) : option N :=
  let n := N_of_ascii a in
  let v := if ascii_in 48 57 a then Some (n - 48)%N
           else if ascii_in 97 122 a then Some (n - 87)%N
           else if ascii_in 65 90 a then Some (n - 55)%N else None in
  match v with Some d => if (d <? radix)%N then Some d else None | None => None end.

(** The value and the number of the leading digits. *)
Fixpoint read_digits (radix : N) (acc : N) (count : nat) (s : list ascii) : N * nat * list ascii :=
  match s with
  | a :: rest =>
      match digit_value radix a with
      | Some d => read_digits radix (acc * radix + d) (S count) rest
      | None => (acc, count, s)
      end
  | [] => (acc, count, s)
  end.

(** [read_number] *)
Definition read_number (radix bound : N) (max_digits : nat) (allow_zero_prefix : bool)
    (s : list ascii) : option (N * list ascii) :=
  let '(value, count, rest) := read_digits radix 0 0 s in
  if (max_digits <? count)%nat || (count =? 0)%nat then None
  else if negb allow_zero_prefix && bool_decide (head s = Some "0"%char) && (1 <? count)%nat
  then None
  else if (value <=? bound)%N then Some (value, rest) else None.

(** [read_given_char] *)
Definition given (c : ascii) (s : list ascii) : option (list ascii) :=
  match s with
  | a :: rest => if decide (a = c) then Some rest else None
  | [] => None
  end.

(** [read_separator] *)
Definition separated {A} (sep : ascii) (index : nat) (inner : list ascii -> option (A * list ascii))
    (s : list ascii) : option (A * list ascii) :=
  match index with
  | O => inner s
  | S _ => given sep s ≫= inner
  end.

Fixpoint read_octets (index n : nat) (s : list ascii) : option (list N * list ascii) :=
  match n with
  | O => Some ([], s)
  | S n =>
      '(octet, s) ← separated "."%char index (read_number 10 255 3 false) s;
      '(octets, s) ← read_octets (S index) n s;
      Some (octet :: octets, s)
  end.
(** [read_ipv4_addr] *)
Definition read_ipv4 (s : list ascii) : option (list N * list ascii) := read_octets 0 4 s.

(** The groups read before the text stops being groups, at most [slots] of
    them, and whether they end with an embedded IPv4 address. *)
Fixpoint read_groups (index slots : nat) (s : list ascii) : list N * bool * list ascii :=
  match slots with
  | O => ([], false, s)
  | S slots =>
      let group :=
        match separated ":"%char index (read_number 16 65535 4 true) s with
        | Some (g, s) =>
            let '(groups, v4, s) := read_groups (S index) slots s in (g :: groups, v4, s)
        | None => ([], false, s)
        end in
      match slots with
      | O => group
      | S _ =>
          match separated ":"%char index read_ipv4 s with
          | Some ([a; b; c; d], s) => ([a * 256 + b; c * 256 + d]%N, true, s)
          | _ => group
          end
      end
  end.

(** [read_ipv6_addr] *)
Definition read_ipv6 (s : list ascii) : option (list N * list ascii) :=
  let '(head, head_ipv4, s) := read_groups 0 8 s in
  if (length head =? 8)%nat then Some (head, s)
  else if head_ipv4 then None
  else
    s ← given ":"%char s;
    s ← given ":"%char s;
    let '(tail, _, s) := read_groups 0 (8 - (length head + 1)) s in
    Some (head ++ replicate (8 - length head - length tail) 0%N ++ tail, s).

(** [s.parse::<IpAddr>().ok()] *)
Definition parse_ip (text : string) : option IpAddr :=
  let s := String.list_ascii_of_string text in
  match
    match read_ipv4 s with
    | Some (octets, rest) => Some (V4 octets, rest)
    | None => '(groups, rest) ← read_ipv6 s; Some (V6 groups, rest)
    end
  with
  | Some (ip, []) => Some ip
  | _ => None
  end.

Example parse_v4 : parse_ip "203.0.113.9" = Some (V4 [203; 0; 113; 9]%N).
Proof. reflexivity. Qed.
Example parse_v4_padded : parse_ip "203.0.113.09" = None.
Proof. reflexivity. Qed.
Example parse_loopback : is_loopback <$> parse_ip "::1" = Some true.
Proof. reflexivity. Qed.
Example parse_mapped : parse_ip "::ffff:1.2.3.4" = Some (V6 [0; 0; 0; 0; 0; 65535; 258; 772]%N).
Proof. reflexivity. Qed.
Example parse_full : parse_ip "2001:DB8:0:0:8:800:200c:417a"
  = Some (V6 [8193; 3512; 0; 0; 8; 2048; 8204; 16762]%N).
Proof. reflexivity. Qed.
Example parse_nine_groups : parse_ip "1:2:3:4:5:6:7:8:9" = None.
Proof. reflexivity. Qed.
