(* ===== verification/Protocol.v ===== *)
(** * Wire types

    The types of [crates/protocol/src/lib.rs]: messages, room settings, the
    work objects (tasks, goals, waits), notes and journal, the attention
    ledger, invitations and memberships, and the frames the server pushes.
    A field [f] of a struct [S] is the projection with the prefix of [S]; an
    enum keeps its constructors.  [u64], [u32] and [usize] fields are [N]
    ([usize] counts of containers are [nat]); [with_*] are the field updates
    the operations use. *)

From S2P Require Import Prelude.

(** @src proto enum SenderType *)
Inductive SenderType : Type :=
  | Agent
  | User.
#[global] Instance SenderType_eq_dec : EqDecision SenderType.
Proof. solve_decision. Defined.

(** @src proto struct Attachment *)
Record Attachment : Type := mkAttachment {
  att_id : string;
  att_sha256 : string;
  att_name : string;
  att_mime : string;
  att_size : N;
}.
#[global] Instance Attachment_eq_dec : EqDecision Attachment.
Proof. solve_decision. Defined.

(** @src proto enum MessageKind *)
Inductive MessageKind : Type :=
  | Say
  | Announce.
#[global] Instance MessageKind_eq_dec : EqDecision MessageKind.
Proof. solve_decision. Defined.

(** @src proto fn is_default *)
Definition message_kind_is_default (k : MessageKind) : bool :=
  match k with Say => true | Announce => false end.

(** @src proto struct Message *)
Record Message : Type := mkMessage {
  msg_id : N;
  msg_room : string;
  msg_sender : string;
  msg_sender_type : SenderType;
  msg_target : option string;
  msg_text : string;
  msg_kind : MessageKind;
  msg_reply_to : option N;
  msg_reply_to_sender : option string;
  msg_ts : N;
  msg_attachments : list Attachment;
}.
#[global] Instance Message_eq_dec : EqDecision Message.
Proof. solve_decision. Defined.

(** @src proto struct Member *)
Record Member : Type := mkMember {
  member_name : string;
  member_kind : SenderType;
}.

(** @src proto struct PostMessage *)
Record PostMessage : Type := mkPostMessage {
  pm_kind : MessageKind;
  pm_sender : string;
  pm_sender_type : SenderType;
  pm_target : option string;
  pm_text : string;
  pm_reply_to : option N;
  pm_op_id : option string;
  pm_attachments : list string;
}.

(** @src proto struct MessageReaction *)
Record MessageReaction : Type := mkMessageReaction {
  mr_message_id : N;
  mr_emoji : string;
  mr_actors : list string;
}.

(** @src proto struct MessageReactionEvent *)
Record MessageReactionEvent : Type := mkMessageReactionEvent {
  mre_message_id : N;
  mre_emoji : string;
  mre_actors : list string;
  mre_owner : string;
  mre_reactor : string;
  mre_active : bool;
  mre_ts : N;
}.

(** @src proto enum ChatMode *)
Inductive ChatMode : Type :=
  | Free
  | Restricted (allow : list string)
  | RoundRobin (order : list string) (turn : nat)
  | Paused.
#[global] Instance ChatMode_eq_dec : EqDecision ChatMode.
Proof. solve_decision. Defined.

(** @src proto enum ReminderRecipient *)
Inductive ReminderRecipient : Type :=
  | RecipientLead
  | RecipientAll
  | RecipientPerson (name : string).
#[global] Instance ReminderRecipient_eq_dec : EqDecision ReminderRecipient.
Proof. solve_decision. Defined.

(** @src proto struct RoomSettings *)
Record RoomSettings : Type := mkRoomSettings {
  rs_lead : option string;
  rs_rate_limit : N;
  rs_rate_window_secs : N;
  rs_live : bool;
  rs_archived : bool;
  rs_live_timeout_secs : N;
  rs_operators : list string;
  rs_turn_max_messages : N;
  rs_turn_idle_ms : N;
  rs_turn_max_wait_ms : N;
  rs_care_wait_secs : N;
  rs_care_cooldown_secs : N;
  rs_care_max_attempts : N;
  rs_care_context_messages : N;
  rs_care_recipient : ReminderRecipient;
  rs_care_goal_secs : N;
  rs_care_task_secs : N;
  rs_care_silence_secs : N;
}.
#[global] Instance RoomSettings_eq_dec : EqDecision RoomSettings.
Proof. solve_decision. Defined.
Definition with_rs_lead (v : option string) (r : RoomSettings) : RoomSettings :=
  mkRoomSettings v (rs_rate_limit r) (rs_rate_window_secs r) (rs_live r)
    (rs_archived r) (rs_live_timeout_secs r) (rs_operators r)
    (rs_turn_max_messages r) (rs_turn_idle_ms r) (rs_turn_max_wait_ms r)
    (rs_care_wait_secs r) (rs_care_cooldown_secs r) (rs_care_max_attempts
    r) (rs_care_context_messages r) (rs_care_recipient r)
    (rs_care_goal_secs r) (rs_care_task_secs r) (rs_care_silence_secs r).
Definition with_rs_live (v : bool) (r : RoomSettings) : RoomSettings :=
  mkRoomSettings (rs_lead r) (rs_rate_limit r) (rs_rate_window_secs r) v
    (rs_archived r) (rs_live_timeout_secs r) (rs_operators r)
    (rs_turn_max_messages r) (rs_turn_idle_ms r) (rs_turn_max_wait_ms r)
    (rs_care_wait_secs r) (rs_care_cooldown_secs r) (rs_care_max_attempts
    r) (rs_care_context_messages r) (rs_care_recipient r)
    (rs_care_goal_secs r) (rs_care_task_secs r) (rs_care_silence_secs r).
Definition with_rs_operators (v : list string) (r : RoomSettings) : RoomSettings :=
  mkRoomSettings (rs_lead r) (rs_rate_limit r) (rs_rate_window_secs r)
    (rs_live r) (rs_archived r) (rs_live_timeout_secs r) v
    (rs_turn_max_messages r) (rs_turn_idle_ms r) (rs_turn_max_wait_ms r)
    (rs_care_wait_secs r) (rs_care_cooldown_secs r) (rs_care_max_attempts
    r) (rs_care_context_messages r) (rs_care_recipient r)
    (rs_care_goal_secs r) (rs_care_task_secs r) (rs_care_silence_secs r).
Definition with_rs_archived (v : bool) (r : RoomSettings) : RoomSettings :=
  mkRoomSettings (rs_lead r) (rs_rate_limit r) (rs_rate_window_secs r)
    (rs_live r) v (rs_live_timeout_secs r) (rs_operators r)
    (rs_turn_max_messages r) (rs_turn_idle_ms r) (rs_turn_max_wait_ms r)
    (rs_care_wait_secs r) (rs_care_cooldown_secs r) (rs_care_max_attempts
    r) (rs_care_context_messages r) (rs_care_recipient r)
    (rs_care_goal_secs r) (rs_care_task_secs r) (rs_care_silence_secs r).

(** @src proto:337-360 RoomSettings::default *)
Definition room_settings_default : RoomSettings := {|
  rs_lead := None;
  rs_rate_limit := 10;
  rs_rate_window_secs := 30;
  rs_live := false;
  rs_archived := false;
  rs_live_timeout_secs := 120;
  rs_operators := [];
  rs_turn_max_messages := 4;
  rs_turn_idle_ms := 5000;
  rs_turn_max_wait_ms := 15000;
  rs_care_wait_secs := 120;
  rs_care_cooldown_secs := 300;
  rs_care_max_attempts := 2;
  rs_care_context_messages := 8;
  rs_care_recipient := RecipientLead;
  rs_care_goal_secs := 0;
  rs_care_task_secs := 0;
  rs_care_silence_secs := 0;
|}.

(** @src proto struct SetSettings *)
Record SetSettings : Type := mkSetSettings {
  ss_rate_limit : option N;
  ss_rate_window_secs : option N;
  ss_live : option bool;
  ss_archived : option bool;
  ss_live_timeout_secs : option N;
  ss_operators : option (list string);
  ss_turn_max_messages : option N;
  ss_turn_idle_ms : option N;
  ss_turn_max_wait_ms : option N;
  ss_care_wait_secs : option N;
  ss_care_cooldown_secs : option N;
  ss_care_max_attempts : option N;
  ss_care_context_messages : option N;
  ss_care_recipient : option ReminderRecipient;
  ss_care_goal_secs : option N;
  ss_care_task_secs : option N;
  ss_care_silence_secs : option N;
}.

(** @src proto struct Note *)
Record Note : Type := mkNote {
  note_key : string;
  note_title : string;
  note_body : string;
  note_can_write : list string;
  note_updated_by : string;
  note_updated_at : N;
  note_rev : N;
}.
#[global] Instance Note_eq_dec : EqDecision Note.
Proof. solve_decision. Defined.
Definition with_note_title (v : string) (r : Note) : Note :=
  mkNote (note_key r) v (note_body r) (note_can_write r) (note_updated_by
    r) (note_updated_at r) (note_rev r).
Definition with_note_body (v : string) (r : Note) : Note :=
  mkNote (note_key r) (note_title r) v (note_can_write r) (note_updated_by
    r) (note_updated_at r) (note_rev r).
Definition with_note_can_write (v : list string) (r : Note) : Note :=
  mkNote (note_key r) (note_title r) (note_body r) v (note_updated_by r)
    (note_updated_at r) (note_rev r).
Definition with_note_updated_by (v : string) (r : Note) : Note :=
  mkNote (note_key r) (note_title r) (note_body r) (note_can_write r) v
    (note_updated_at r) (note_rev r).
Definition with_note_updated_at (v : N) (r : Note) : Note :=
  mkNote (note_key r) (note_title r) (note_body r) (note_can_write r)
    (note_updated_by r) v (note_rev r).
Definition with_note_rev (v : N) (r : Note) : Note :=
  mkNote (note_key r) (note_title r) (note_body r) (note_can_write r)
    (note_updated_by r) (note_updated_at r) v.

(** @src proto struct CreateNote *)
Record CreateNote : Type := mkCreateNote {
  cn_key : string;
  cn_title : string;
  cn_body : string;
  cn_by : string;
  cn_by_type : option SenderType;
  cn_can_write : list string;
}.

(** @src proto struct UpdateNote *)
Record UpdateNote : Type := mkUpdateNote {
  un_title : option string;
  un_body : option string;
  un_by : string;
  un_by_type : option SenderType;
  un_can_write : option (list string);
}.

(** @src proto struct CreateSession *)
Record CreateSession : Type := mkCreateSession {
  cs_name : string;
  cs_kind : option SenderType;
  cs_runtime : option string;
  cs_capabilities : list string;
}.

(** @src proto struct SessionInfo *)
Record SessionInfo : Type := mkSessionInfo {
  si_participant_id : string;
  si_session_token : string;
  si_name : string;
  si_admin : bool;
  si_expires_at : option N;
}.

(** @src proto struct JournalEntry *)
Record JournalEntry : Type := mkJournalEntry {
  je_id : N;
  je_room : string;
  je_by : string;
  je_by_type : SenderType;
  je_text : string;
  je_at : N;
}.
#[global] Instance JournalEntry_eq_dec : EqDecision JournalEntry.
Proof. solve_decision. Defined.

(** @src proto enum TaskStatus *)
Inductive TaskStatus : Type :=
  | TaskOpen
  | TaskTaken
  | TaskDone
  | TaskCancelled.
#[global] Instance TaskStatus_eq_dec : EqDecision TaskStatus.
Proof. solve_decision. Defined.

(** @src proto struct Task *)
Record Task : Type := mkTask {
  task_id : N;
  task_room : string;
  task_title : string;
  task_created_by : string;
  task_from_message : option N;
  task_assigned_to : option string;
  task_status : TaskStatus;
  task_created_at : N;
  task_progress_at : N;
  task_closed_at : option N;
}.
#[global] Instance Task_eq_dec : EqDecision Task.
Proof. solve_decision. Defined.
Definition with_task_assigned_to (v : option string) (r : Task) : Task :=
  mkTask (task_id r) (task_room r) (task_title r) (task_created_by r)
    (task_from_message r) v (task_status r) (task_created_at r)
    (task_progress_at r) (task_closed_at r).
Definition with_task_status (v : TaskStatus) (r : Task) : Task :=
  mkTask (task_id r) (task_room r) (task_title r) (task_created_by r)
    (task_from_message r) (task_assigned_to r) v (task_created_at r)
    (task_progress_at r) (task_closed_at r).
Definition with_task_progress_at (v : N) (r : Task) : Task :=
  mkTask (task_id r) (task_room r) (task_title r) (task_created_by r)
    (task_from_message r) (task_assigned_to r) (task_status r)
    (task_created_at r) v (task_closed_at r).
Definition with_task_closed_at (v : option N) (r : Task) : Task :=
  mkTask (task_id r) (task_room r) (task_title r) (task_created_by r)
    (task_from_message r) (task_assigned_to r) (task_status r)
    (task_created_at r) (task_progress_at r) v.

(** @src proto struct CreateTask *)
Record CreateTask : Type := mkCreateTask {
  ct_title : string;
  ct_from_message : option N;
  ct_assigned_to : option string;
  ct_by : string;
}.

(** @src proto struct UpdateTask *)
Record UpdateTask : Type := mkUpdateTask {
  ut_status : option TaskStatus;
  ut_assigned_to : option string;
  ut_by : string;
}.

(** @src proto enum GoalCompletion *)
Inductive GoalCompletion : Type :=
  | Manual
  | AllTasks.
#[global] Instance GoalCompletion_eq_dec : EqDecision GoalCompletion.
Proof. solve_decision. Defined.

(** @src proto enum GoalStatus *)
Inductive GoalStatus : Type :=
  | GoalActive
  | GoalAchieved
  | GoalCancelled.
#[global] Instance GoalStatus_eq_dec : EqDecision GoalStatus.
Proof. solve_decision. Defined.

(** @src proto struct Goal *)
Record Goal : Type := mkGoal {
  goal_id : N;
  goal_room : string;
  goal_outcome : string;
  goal_checkpoint : option string;
  goal_stale_after_secs : option N;
  goal_created_by : string;
  goal_completion : GoalCompletion;
  goal_task_ids : list N;
  goal_status : GoalStatus;
  goal_created_at : N;
  goal_progress_at : N;
  goal_closed_at : option N;
}.
#[global] Instance Goal_eq_dec : EqDecision Goal.
Proof. solve_decision. Defined.
Definition with_goal_outcome (v : string) (r : Goal) : Goal :=
  mkGoal (goal_id r) (goal_room r) v (goal_checkpoint r)
    (goal_stale_after_secs r) (goal_created_by r) (goal_completion r)
    (goal_task_ids r) (goal_status r) (goal_created_at r)
    (goal_progress_at r) (goal_closed_at r).
Definition with_goal_checkpoint (v : option string) (r : Goal) : Goal :=
  mkGoal (goal_id r) (goal_room r) (goal_outcome r) v
    (goal_stale_after_secs r) (goal_created_by r) (goal_completion r)
    (goal_task_ids r) (goal_status r) (goal_created_at r)
    (goal_progress_at r) (goal_closed_at r).
Definition with_goal_stale_after_secs (v : option N) (r : Goal) : Goal :=
  mkGoal (goal_id r) (goal_room r) (goal_outcome r) (goal_checkpoint r) v
    (goal_created_by r) (goal_completion r) (goal_task_ids r) (goal_status
    r) (goal_created_at r) (goal_progress_at r) (goal_closed_at r).
Definition with_goal_completion (v : GoalCompletion) (r : Goal) : Goal :=
  mkGoal (goal_id r) (goal_room r) (goal_outcome r) (goal_checkpoint r)
    (goal_stale_after_secs r) (goal_created_by r) v (goal_task_ids r)
    (goal_status r) (goal_created_at r) (goal_progress_at r)
    (goal_closed_at r).
Definition with_goal_task_ids (v : list N) (r : Goal) : Goal :=
  mkGoal (goal_id r) (goal_room r) (goal_outcome r) (goal_checkpoint r)
    (goal_stale_after_secs r) (goal_created_by r) (goal_completion r) v
    (goal_status r) (goal_created_at r) (goal_progress_at r)
    (goal_closed_at r).
Definition with_goal_status (v : GoalStatus) (r : Goal) : Goal :=
  mkGoal (goal_id r) (goal_room r) (goal_outcome r) (goal_checkpoint r)
    (goal_stale_after_secs r) (goal_created_by r) (goal_completion r)
    (goal_task_ids r) v (goal_created_at r) (goal_progress_at r)
    (goal_closed_at r).
Definition with_goal_progress_at (v : N) (r : Goal) : Goal :=
  mkGoal (goal_id r) (goal_room r) (goal_outcome r) (goal_checkpoint r)
    (goal_stale_after_secs r) (goal_created_by r) (goal_completion r)
    (goal_task_ids r) (goal_status r) (goal_created_at r) v
    (goal_closed_at r).
Definition with_goal_closed_at (v : option N) (r : Goal) : Goal :=
  mkGoal (goal_id r) (goal_room r) (goal_outcome r) (goal_checkpoint r)
    (goal_stale_after_secs r) (goal_created_by r) (goal_completion r)
    (goal_task_ids r) (goal_status r) (goal_created_at r)
    (goal_progress_at r) v.

(** @src proto struct CreateGoal *)
Record CreateGoal : Type := mkCreateGoal {
  cg_outcome : string;
  cg_checkpoint : option string;
  cg_stale_after_secs : option N;
  cg_completion : GoalCompletion;
  cg_task_ids : list N;
  cg_by : string;
}.

(** @src proto struct UpdateGoal *)
Record UpdateGoal : Type := mkUpdateGoal {
  ug_outcome : option string;
  ug_checkpoint : option string;
  ug_stale_after_secs : option (option N);
  ug_completion : option GoalCompletion;
  ug_task_ids : option (list N);
  ug_status : option GoalStatus;
  ug_by : string;
}.

(** @src proto struct WaitState *)
Record WaitState : Type := mkWaitState {
  wait_room : string;
  wait_waiter : string;
  wait_waiting_for : string;
  wait_reason : string;
  wait_since : N;
  wait_last_signal_at : option N;
  wait_signal_count : N;
}.
#[global] Instance WaitState_eq_dec : EqDecision WaitState.
Proof. solve_decision. Defined.
Definition with_wait_last_signal_at (v : option N) (r : WaitState) : WaitState :=
  mkWaitState (wait_room r) (wait_waiter r) (wait_waiting_for r)
    (wait_reason r) (wait_since r) v (wait_signal_count r).
Definition with_wait_signal_count (v : N) (r : WaitState) : WaitState :=
  mkWaitState (wait_room r) (wait_waiter r) (wait_waiting_for r)
    (wait_reason r) (wait_since r) (wait_last_signal_at r) v.

(** @src proto struct SetWait *)
Record SetWait : Type := mkSetWait {
  sw_waiting_for : string;
  sw_reason : string;
  sw_by : string;
}.

(** @src proto enum CareReason *)
Inductive CareReason : Type :=
  | ReasonManual
  | DirectSummon
  | WaitOverdue
  | WaitCycle
  | WaitReplied
  | GoalReminder
  | TaskReminder
  | RoomSilence.
#[global] Instance CareReason_eq_dec : EqDecision CareReason.
Proof. solve_decision. Defined.

(** @src proto enum AttentionAudience *)
Inductive AttentionAudience : Type :=
  | AudienceLead
  | AudiencePerson (name : string)
  | AudienceGroup (names : list string).
#[global] Instance AttentionAudience_eq_dec : EqDecision AttentionAudience.
Proof. solve_decision. Defined.

(** @src proto enum AttentionStatus *)
Inductive AttentionStatus : Type :=
  | AttnOpen
  | AttnClaimed
  | AttnResolved.
#[global] Instance AttentionStatus_eq_dec : EqDecision AttentionStatus.
Proof. solve_decision. Defined.

(** @src proto struct Attention *)
Record Attention : Type := mkAttention {
  attn_id : string;
  attn_room : string;
  attn_reason : CareReason;
  attn_subject : string;
  attn_audience : AttentionAudience;
  attn_owner : option string;
  attn_group : option string;
  attn_participants : list string;
  attn_created_by : string;
  attn_created_at : N;
  attn_attempt : N;
  attn_escalated : bool;
  attn_status : AttentionStatus;
  attn_delivered_at : option N;
  attn_claimed_by : option string;
  attn_claimed_at : option N;
  attn_resolved_at : option N;
}.
#[global] Instance Attention_eq_dec : EqDecision Attention.
Proof. solve_decision. Defined.
Definition with_attn_status (v : AttentionStatus) (r : Attention) : Attention :=
  mkAttention (attn_id r) (attn_room r) (attn_reason r) (attn_subject r)
    (attn_audience r) (attn_owner r) (attn_group r) (attn_participants r)
    (attn_created_by r) (attn_created_at r) (attn_attempt r)
    (attn_escalated r) v (attn_delivered_at r) (attn_claimed_by r)
    (attn_claimed_at r) (attn_resolved_at r).
Definition with_attn_delivered_at (v : option N) (r : Attention) : Attention :=
  mkAttention (attn_id r) (attn_room r) (attn_reason r) (attn_subject r)
    (attn_audience r) (attn_owner r) (attn_group r) (attn_participants r)
    (attn_created_by r) (attn_created_at r) (attn_attempt r)
    (attn_escalated r) (attn_status r) v (attn_claimed_by r)
    (attn_claimed_at r) (attn_resolved_at r).
Definition with_attn_claimed_by (v : option string) (r : Attention) : Attention :=
  mkAttention (attn_id r) (attn_room r) (attn_reason r) (attn_subject r)
    (attn_audience r) (attn_owner r) (attn_group r) (attn_participants r)
    (attn_created_by r) (attn_created_at r) (attn_attempt r)
    (attn_escalated r) (attn_status r) (attn_delivered_at r) v
    (attn_claimed_at r) (attn_resolved_at r).
Definition with_attn_claimed_at (v : option N) (r : Attention) : Attention :=
  mkAttention (attn_id r) (attn_room r) (attn_reason r) (attn_subject r)
    (attn_audience r) (attn_owner r) (attn_group r) (attn_participants r)
    (attn_created_by r) (attn_created_at r) (attn_attempt r)
    (attn_escalated r) (attn_status r) (attn_delivered_at r)
    (attn_claimed_by r) v (attn_resolved_at r).
Definition with_attn_resolved_at (v : option N) (r : Attention) : Attention :=
  mkAttention (attn_id r) (attn_room r) (attn_reason r) (attn_subject r)
    (attn_audience r) (attn_owner r) (attn_group r) (attn_participants r)
    (attn_created_by r) (attn_created_at r) (attn_attempt r)
    (attn_escalated r) (attn_status r) (attn_delivered_at r)
    (attn_claimed_by r) (attn_claimed_at r) v.

(** @src proto struct CreateAttention *)
Record CreateAttention : Type := mkCreateAttention {
  ca_subject : string;
  ca_audience : AttentionAudience;
  ca_by : string;
}.

(** @src proto enum ReminderState *)
Inductive ReminderState : Type :=
  | Running
  | Overdue
  | Stalled.
#[global] Instance ReminderState_eq_dec : EqDecision ReminderState.
Proof. solve_decision. Defined.

(** @src proto struct CareSignal *)
Record CareSignal : Type := mkCareSignal {
  sig_id : string;
  sig_attention_id : string;
  sig_room : string;
  sig_source_room : string;
  sig_reason : CareReason;
  sig_audience : AttentionAudience;
  sig_owner : option string;
  sig_owner_principal_id : option string;
  sig_group : option string;
  sig_target : option string;
  sig_participants : list string;
  sig_subject : string;
  sig_created_by : string;
  sig_context : list Message;
  sig_attempt : N;
  sig_at : N;
  sig_escalated : bool;
  sig_state : ReminderState;
}.
#[global] Instance CareSignal_eq_dec : EqDecision CareSignal.
Proof. solve_decision. Defined.
Definition with_sig_room (v : string) (r : CareSignal) : CareSignal :=
  mkCareSignal (sig_id r) (sig_attention_id r) v (sig_source_room r)
    (sig_reason r) (sig_audience r) (sig_owner r) (sig_owner_principal_id
    r) (sig_group r) (sig_target r) (sig_participants r) (sig_subject r)
    (sig_created_by r) (sig_context r) (sig_attempt r) (sig_at r)
    (sig_escalated r) (sig_state r).
Definition with_sig_source_room (v : string) (r : CareSignal) : CareSignal :=
  mkCareSignal (sig_id r) (sig_attention_id r) (sig_room r) v (sig_reason
    r) (sig_audience r) (sig_owner r) (sig_owner_principal_id r)
    (sig_group r) (sig_target r) (sig_participants r) (sig_subject r)
    (sig_created_by r) (sig_context r) (sig_attempt r) (sig_at r)
    (sig_escalated r) (sig_state r).

(** @src proto fn origin_room *)
Definition origin_room (s : CareSignal) : string :=
  if str_is_empty (sig_source_room s) then sig_room s else sig_source_room s.

(** @src proto enum ModAction *)
Inductive ModAction : Type :=
  | Mute
  | Unmute
  | Kick
  | Ban
  | Release
  | Unban.
#[global] Instance ModAction_eq_dec : EqDecision ModAction.
Proof. solve_decision. Defined.

(** @src proto struct ModState *)
Record ModState : Type := mkModState {
  ms_muted : list string;
  ms_banned : list string;
}.

(** @src proto struct Invite *)
Record Invite : Type := mkInvite {
  inv_token : string;
  inv_room : string;
  inv_member : string;
  inv_name : string;
  inv_kind : string;
  inv_issued_at : N;
  inv_issued_by : string;
}.
#[global] Instance Invite_eq_dec : EqDecision Invite.
Proof. solve_decision. Defined.
Definition with_inv_member (v : string) (r : Invite) : Invite :=
  mkInvite (inv_token r) (inv_room r) v (inv_name r) (inv_kind r)
    (inv_issued_at r) (inv_issued_by r).

(** @src proto struct Membership *)
Record Membership : Type := mkMembership {
  mb_token : string;
  mb_name : string;
  mb_kind : string;
  mb_joined_at : N;
  mb_admitted_by : string;
}.
#[global] Instance Membership_eq_dec : EqDecision Membership.
Proof. solve_decision. Defined.

(** @src proto struct RuntimeHealth *)
Record RuntimeHealth : Type := mkRuntimeHealth {
  rh_wake : string;
  rh_ack : string;
  rh_delivery_id : option string;
  rh_attention_id : option string;
  rh_stored : bool;
  rh_accepted : bool;
  rh_first_response : bool;
  rh_final_response : bool;
  rh_turn_completed : bool;
  rh_seen_at : N;
  rh_progress_at : N;
  rh_ready : bool;
}.

(** @src proto struct RuntimeHealthUpdate *)
Record RuntimeHealthUpdate : Type := mkRuntimeHealthUpdate {
  rhu_wake : string;
  rhu_ack : string;
  rhu_delivery_id : option string;
  rhu_attention_id : option string;
  rhu_stored : bool;
  rhu_accepted : bool;
  rhu_first_response : bool;
  rhu_final_response : bool;
  rhu_turn_completed : bool;
}.

(** @src proto struct LocaMemory *)
Record LocaMemory : Type := mkLocaMemory {
  lm_room : string;
  lm_owner : option string;
  lm_short : string;
  lm_long : string;
  lm_short_updated_at : option N;
  lm_long_updated_at : option N;
  lm_over_budget : bool;
  lm_version : N;
}.

(** @src proto struct LocaMemorySnapshot *)
Record LocaMemorySnapshot : Type := mkLocaMemorySnapshot {
  lms_memory : LocaMemory;
  lms_provenance_inconsistent : bool;
  lms_long_truncated : bool;
  lms_long_omitted_bytes : nat;
  lms_long_omitted_entries : nat;
  lms_long_uninjectable_entry_ids : list N;
}.

(** @src proto enum LocaMemoryStatus *)
Inductive LocaMemoryStatus : Type :=
  | MemReady
  | MemAbsent
  | MemEmpty
  | MemInconsistent.
#[global] Instance LocaMemoryStatus_eq_dec : EqDecision LocaMemoryStatus.
Proof. solve_decision. Defined.

(** @src proto struct LocaMemoryEntry *)
Record LocaMemoryEntry : Type := mkLocaMemoryEntry {
  lme_id : N;
  lme_room : string;
  lme_text : string;
  lme_decided_by : option string;
  lme_decided_at : option N;
  lme_over_budget : bool;
}.

(** @src proto struct LocaMemoryEntryProvenance *)
Record LocaMemoryEntryProvenance : Type := mkLocaMemoryEntryProvenance {
  lmp_id : N;
  lmp_text : string;
  lmp_decided_by : option string;
  lmp_decided_at : option N;
}.

(** @src proto struct LocaMemoryEntryPage *)
Record LocaMemoryEntryPage : Type := mkLocaMemoryEntryPage {
  lmep_entries : list LocaMemoryEntryProvenance;
  lmep_next_after_id : option N;
}.

(** @src proto struct LocaMemoryMetadata *)
Record LocaMemoryMetadata : Type := mkLocaMemoryMetadata {
  lmm_loca : string;
  lmm_owner : option string;
  lmm_short_updated_at : option N;
  lmm_long_updated_at : option N;
  lmm_long_entries_without_provenance : N;
  lmm_over_budget : bool;
}.

(** Frames pushed down a room's channel. *)
(** @src proto enum ServerFrame *)
Inductive ServerFrame : Type :=
  | SF_History (messages : list Message)
  | SF_Memory (room : string) (owner : option string)
      (status : LocaMemoryStatus) (short long : string)
      (short_updated_at long_updated_at : option N) (over_budget : bool)
      (version : N) (long_truncated : bool)
      (long_omitted_bytes long_omitted_entries long_uninjectable_entries : nat)
      (long_uninjectable_entry_ids : list N)
  | SF_MemoryVersion (room : string) (version : N)
  | SF_Msg (message : Message)
  | SF_Reaction (reaction : MessageReactionEvent)
  | SF_Caretaker (message : Message)
  | SF_Turn (messages : list Message)
  | SF_Members (members : list Member)
  | SF_Control (cmd : string)
  | SF_Note (note : Note)
  | SF_NoteWarn (key by_ : string) (can_write : list string)
  | SF_Mode (mode : ChatMode)
  | SF_Settings (settings : RoomSettings)
  | SF_Typing (name : string) (on : bool)
  | SF_Kicked (name : string) (banned : bool)
  | SF_Evicted (name identity : string) (session : N)
  | SF_Mod (state : ModState)
  | SF_Journal (entry : JournalEntry)
  | SF_Task (task : Task)
  | SF_Goal (goal : Goal)
  | SF_Care (signal : CareSignal)
  | SF_Attention (attention : Attention)
  | SF_Wait (waiter : string) (wait : option WaitState).

(** @src proto fn memory *)
Definition server_frame_memory (room : string)
    (snapshot : option LocaMemorySnapshot) : ServerFrame :=
  match snapshot with
  | None =>
      SF_Memory room None MemAbsent "" "" None None false 0 false 0 0 0 []
  | Some s =>
      let m := lms_memory s in
      let status :=
        if lms_provenance_inconsistent s then MemInconsistent
        else if str_is_empty (lm_short m) && str_is_empty (lm_long m)
             then MemEmpty else MemReady in
      SF_Memory (lm_room m) (lm_owner m) status (lm_short m) (lm_long m)
        (lm_short_updated_at m) (lm_long_updated_at m) (lm_over_budget m)
        (lm_version m) (lms_long_truncated s) (lms_long_omitted_bytes s)
        (lms_long_omitted_entries s)
        (length (lms_long_uninjectable_entry_ids s))
        (lms_long_uninjectable_entry_ids s)
  end.
