(* ===== verification/StoreApi.v ===== *)
(** * The store, as the hub sees it

    [Hub] keeps every room in memory and writes through to [Store]
    (crates/server/src/store.rs and store/*.rs).  The hub components are
    modelled and proved against the classes of this file, one per group of
    store methods; a method that writes returns the new store and the
    [rusqlite::Result], a method that only reads does not change it.
    [memory_only] is the instance the source's [let Some(c) = self.conn()
    else { ... }] branches define: the store without a connection. *)

From S2P Require Import Prelude Protocol.

(** ** Identity types of store.rs *)

(** @src store.rs enum BuildingRole *)
Inductive BuildingRole : Type :=
  | RoleMaster
  | RoleSmaster
  | RoleMember.
#[global] Instance BuildingRole_eq_dec : EqDecision BuildingRole.
Proof. solve_decision. Defined.

(** @src store.rs struct LocaOperatorAssignment *)
Record LocaOperatorAssignment : Type := mkLocaOperatorAssignment {
  loa_room : string;
  loa_principal_id : string;
  loa_display_name : string;
  loa_kind : SenderType;
  loa_appointed_by_principal_id : string;
  loa_appointed_by_role : BuildingRole;
  loa_appointed_at : N;
  loa_revoked_at : option N;
}.

(** @src store.rs struct PrincipalIdentity *)
Record PrincipalIdentity : Type := mkPrincipalIdentity {
  pi_id : string;
  pi_display_name : string;
  pi_kind : SenderType;
  pi_role : BuildingRole;
}.

(** [rusqlite::Error]: the hub never looks inside it. *)
Inductive db_error : Type := DbError.
Abbreviation dbres T := (result T db_error).

(** Whether there is a connection, and the principal behind a membership. *)
Class StoreBase (S : Type) : Type := {
  is_persistent : S -> bool;
  principal_id_for_member_record : S -> string -> option string;
}.

(** ** store/messages.rs *)
Class MessageStore (S : Type) : Type := {
  message_by_operation : S -> string -> string -> string -> dbres (option Message);
  message_owner : S -> string -> N -> dbres (option string);
  resolve_room_attachment : S -> string -> string -> option Attachment;
  insert_message : Message -> option (string * string) -> S -> S * dbres unit;
  insert_message_with_room :
    Message -> ChatMode -> RoomSettings -> option (string * string) ->
    S -> S * dbres unit;
  insert_message_with_care :
    Message -> option (ChatMode * RoomSettings) -> option (string * string) ->
    string -> list CareSignal -> S -> S * dbres unit;
  insert_message_with_wait_wake :
    Message -> option (ChatMode * RoomSettings) -> option (string * string) ->
    string -> string -> N -> WaitState -> CareSignal -> S -> S * dbres unit;
  set_message_reaction :
    string -> N -> string -> string -> string -> bool -> N ->
    S -> S * dbres (list MessageReaction);
}.

(** ** store/work.rs *)
Class WorkStore (S : Type) : Type := {
  upsert_task : Task -> S -> S * dbres unit;
  upsert_goal : Goal -> S -> S * dbres unit;
  upsert_goal_with_care_reset : Goal -> bool -> S -> S * dbres unit;
  upsert_task_with_goal_progress :
    Task -> option Goal -> bool -> S -> S * dbres unit;
  replace_wait_with_care : WaitState -> N -> S -> S * dbres unit;
  store_delete_wait : string -> string -> N -> S -> S * dbres unit;
}.

(** ** store/attention.rs *)
Class CareStore (S : Type) : Type := {
  enqueue_care : string -> CareSignal -> S -> S * dbres unit;
  enqueue_care_with_mark :
    string -> string -> N -> N -> string -> CareSignal -> S -> S * dbres unit;
  enqueue_everyone_care :
    string -> string -> N -> N -> list CareSignal -> S -> S * dbres unit;
  enqueue_care_with_waits :
    list WaitState -> string -> CareSignal -> S -> S * dbres unit;
  store_attention : S -> string -> option Attention;
  attention_owner_principal_id : S -> string -> dbres (option (option string));
  store_claim_attention : string -> string -> N -> S -> S * dbres bool;
  store_resolve_attention : string -> N -> S -> S * dbres bool;
  store_pending_care_scoped : S -> string -> string -> option string -> list CareSignal;
  attention_id_for_delivery : S -> string -> option string;
  ack_care_scoped : string -> string -> option string -> N -> S -> S * dbres bool;
}.

(** ** store/rooms.rs and store/content.rs *)
Class RoomStore (S : Type) : Type := {
  save_room : string -> ChatMode -> RoomSettings -> S -> S * dbres unit;
  seal_room : string -> N -> S -> S * dbres unit;
  store_append_journal : JournalEntry -> S -> S * dbres unit;
  upsert_note : string -> Note -> S -> S * dbres unit;
  replace_note : string -> Note -> Note -> S -> S * dbres unit;
  store_delete_note : string -> string -> S -> S * dbres unit;
}.

(** ** store/identity.rs and store/operators.rs *)
Class IdentityStore (S : Type) : Type := {
  principal_for_credential : S -> string -> option PrincipalIdentity;
  active_principal : S -> string -> option PrincipalIdentity;
  active_master_principal : S -> option PrincipalIdentity;
  credential_is_revoked : S -> string -> bool;
  credential_id_for_secret : S -> string -> option string;
  loca_operator : S -> string -> option LocaOperatorAssignment;
  store_member_suspended : S -> string -> dbres bool;
  principal_session_active : S -> string -> N -> bool;
  save_admin_session : string -> string -> SenderType -> N -> S -> S * dbres unit;
  delete_admin_session : string -> S -> S * dbres unit;
  save_principal_session :
    string -> string -> string -> N -> N -> S -> S * dbres unit;
  revoke_principal_session : string -> N -> S -> S * dbres unit;
  insert_invite : Invite -> S -> S * dbres unit;
  store_revoke_invite : string -> N -> S -> S * dbres unit;
  store_revoke_invites_for : string -> string -> N -> S -> S * dbres unit;
  add_member : Membership -> S -> S * dbres unit;
  revoke_member_cascade : string -> N -> S -> S * dbres unit;
  suspend_member : string -> string -> N -> S -> S * dbres bool;
  resume_member : string -> S -> S * dbres bool;
  set_ban : string -> string -> string -> N -> S -> S * dbres unit;
  clear_ban : string -> string -> string -> S -> S * dbres unit;
  store_add_smaster : string -> string -> N -> S -> S * dbres unit;
  store_revoke_smaster : string -> N -> S -> S * dbres unit;
}.

(** ** store/operators.rs *)

(** @src store.rs enum LocaOperatorError *)
Inductive LocaOperatorError : Type :=
  | LoePrincipalNotFound
  | LoePrincipalMustBeHuman
  | LoeAppointerNotFound
  | LoeAppointerNotAuthorized
  | LoeEmptySeatRequired
  | LoeNotFound
  | LoeConflict
  | LoeStorage.

Class OperatorStore (S : Type) : Type := {
  create_room_with_operator :
    string -> RoomSettings -> string -> N -> S ->
    S * result LocaOperatorAssignment LocaOperatorError;
  store_appoint_loca_operator :
    string -> string -> string -> N -> S ->
    S * result LocaOperatorAssignment LocaOperatorError;
  store_revoke_loca_operator :
    string -> string -> N -> S -> S * result LocaOperatorAssignment LocaOperatorError;
}.

(** ** Reads of store/messages.rs and store/content.rs, and credentials *)

(** @src store.rs struct CredentialSummary *)
Record CredentialSummary : Type := mkCredentialSummary {
  cred_id : string;
  cred_label : string;
  cred_created_at : N;
  cred_last_used_at : option N;
  cred_revoked_at : option N;
  cred_root_recovery : bool;
}.

(** @src store.rs enum CredentialError *)
Inductive CredentialError : Type :=
  | CredNotFound
  | CredRootRecovery
  | CredStorage.
#[global] Instance CredentialError_eq_dec : EqDecision CredentialError.
Proof. solve_decision. Defined.

Class ReadStore (S : Type) : Type := {
  message_reactions : S -> string -> dbres (list MessageReaction);
  store_note_history : S -> string -> string -> dbres (list Note);
  search_messages : S -> string -> string -> nat -> dbres (list Message);
  (* [None] without a connection *)
  store_messages_after : S -> string -> N -> nat -> dbres (option (list Message));
  loca_operator_history : S -> string -> list LocaOperatorAssignment;
  active_principals : S -> list PrincipalIdentity;
}.

Class CredentialStore (S : Type) : Type := {
  list_credentials : S -> string -> list CredentialSummary;
  credential_id_for_session : S -> string -> N -> option string;
  create_credential :
    string -> string -> string -> N -> S -> S * result CredentialSummary CredentialError;
  legacy_credential_source : S -> string -> string -> option (string * string);
  revoke_credential : string -> string -> N -> S -> S * result unit CredentialError;
  session_uses_credential : S -> string -> string -> bool;
}.

(** ** Admission rights and join requests, of store.rs *)

(** @src store.rs enum ApproveTxn *)
Inductive ApproveTxn : Type :=
  | TxnCommitted (member : Membership)
  | TxnAlreadyDecided
  | TxnNameTaken
  | TxnNoStock
  | TxnFailed.

Class AdmissionStore (S : Type) : Type := {
  mint_admission_rights : list string -> string -> N -> N -> S -> S * dbres nat;
  (* ever minted, available now *)
  admission_stock_counts : S -> N -> N * N;
  store_create_join_request :
    string -> string -> string -> string -> N -> S -> S * dbres unit;
  (* status, name, whether the credential can be fetched *)
  store_join_request_view : S -> string -> string -> option (string * string * bool);
  (* id, name, kind, creation *)
  store_list_pending_join_requests : S -> list (string * string * string * N);
  has_pending_join_request_named : S -> string -> bool;
  approve_join_request_atomic : string -> string -> string -> N -> S -> S * ApproveTxn;
  store_deny_join_request : string -> string -> N -> S -> S * bool;
  store_claim_join_request_bootstrap : string -> string -> N -> S -> S * option string;
  store_ack_join_request_bootstrap : string -> string -> N -> S -> S * option bool;
}.

(** ** The store without a connection

    Every method is the [None] branch of the corresponding Rust method. *)
Definition write_ok {T} (t : T) (s : unit) : unit * dbres T := (s, Ok t).

#[export] Instance memory_only_base : StoreBase unit := {|
  is_persistent _ := false;
  principal_id_for_member_record _ _ := None;
|}.
#[export] Instance memory_only_messages : MessageStore unit := {|
  message_by_operation _ _ _ _ := Ok None;
  message_owner _ _ _ := Ok None;
  resolve_room_attachment _ _ _ := None;
  insert_message _ _ := write_ok tt;
  insert_message_with_room _ _ _ _ := write_ok tt;
  insert_message_with_care _ _ _ _ _ := write_ok tt;
  insert_message_with_wait_wake _ _ _ _ _ _ _ _ := write_ok tt;
  set_message_reaction _ _ _ _ _ _ _ := write_ok [];
|}.
#[export] Instance memory_only_work : WorkStore unit := {|
  upsert_task _ := write_ok tt;
  upsert_goal _ := write_ok tt;
  upsert_goal_with_care_reset _ _ := write_ok tt;
  upsert_task_with_goal_progress _ _ _ := write_ok tt;
  replace_wait_with_care _ _ := write_ok tt;
  store_delete_wait _ _ _ := write_ok tt;
|}.
#[export] Instance memory_only_care : CareStore unit := {|
  enqueue_care _ _ := write_ok tt;
  enqueue_care_with_mark _ _ _ _ _ _ := write_ok tt;
  enqueue_everyone_care _ _ _ _ _ := write_ok tt;
  enqueue_care_with_waits _ _ _ := write_ok tt;
  store_attention _ _ := None;
  attention_owner_principal_id _ _ := Ok None;
  store_claim_attention _ _ _ := write_ok true;
  store_resolve_attention _ _ := write_ok true;
  store_pending_care_scoped _ _ _ _ := [];
  attention_id_for_delivery _ _ := None;
  ack_care_scoped _ _ _ _ := write_ok false;
|}.
#[export] Instance memory_only_rooms : RoomStore unit := {|
  save_room _ _ _ := write_ok tt;
  seal_room _ _ := write_ok tt;
  store_append_journal _ := write_ok tt;
  upsert_note _ _ := write_ok tt;
  replace_note _ _ _ := write_ok tt;
  store_delete_note _ _ := write_ok tt;
|}.
#[export] Instance memory_only_identity : IdentityStore unit := {|
  principal_for_credential _ _ := None;
  active_principal _ _ := None;
  active_master_principal _ := None;
  credential_is_revoked _ _ := false;
  credential_id_for_secret _ _ := None;
  loca_operator _ _ := None;
  store_member_suspended _ _ := Ok false;
  principal_session_active _ _ _ := true;
  save_admin_session _ _ _ _ := write_ok tt;
  delete_admin_session _ := write_ok tt;
  save_principal_session _ _ _ _ _ := write_ok tt;
  revoke_principal_session _ _ := write_ok tt;
  insert_invite _ := write_ok tt;
  store_revoke_invite _ _ := write_ok tt;
  store_revoke_invites_for _ _ _ := write_ok tt;
  add_member _ := write_ok tt;
  revoke_member_cascade _ _ := write_ok tt;
  suspend_member _ _ _ s := (s, Err DbError);
  resume_member _ s := (s, Err DbError);
  set_ban _ _ _ _ := write_ok tt;
  clear_ban _ _ _ := write_ok tt;
  store_add_smaster _ _ _ := write_ok tt;
  store_revoke_smaster _ _ := write_ok tt;
|}.
#[export] Instance memory_only_operators : OperatorStore unit := {|
  create_room_with_operator _ _ _ _ s := (s, Err LoeStorage);
  store_appoint_loca_operator _ _ _ _ s := (s, Err LoeStorage);
  store_revoke_loca_operator _ _ _ s := (s, Err LoeStorage);
|}.
#[export] Instance memory_only_reads : ReadStore unit := {|
  message_reactions _ _ := Ok [];
  store_note_history _ _ _ := Ok [];
  search_messages _ _ _ _ := Ok [];
  store_messages_after _ _ _ _ := Ok None;
  loca_operator_history _ _ := [];
  active_principals _ := [];
|}.
#[export] Instance memory_only_credentials : CredentialStore unit := {|
  list_credentials _ _ := [];
  credential_id_for_session _ _ _ := None;
  create_credential _ _ _ _ s := (s, Err CredStorage);
  legacy_credential_source _ _ _ := None;
  revoke_credential _ _ _ s := (s, Err CredStorage);
  session_uses_credential _ _ _ := false;
|}.
#[export] Instance memory_only_admission : AdmissionStore unit := {|
  mint_admission_rights _ _ _ _ := write_ok 0;
  admission_stock_counts _ _ := (0%N, 0%N);
  store_create_join_request _ _ _ _ _ := write_ok tt;
  store_join_request_view _ _ _ := None;
  store_list_pending_join_requests _ := [];
  has_pending_join_request_named _ _ := false;
  approve_join_request_atomic _ _ _ _ s := (s, TxnFailed);
  store_deny_join_request _ _ _ s := (s, false);
  store_claim_join_request_bootstrap _ _ _ s := (s, None);
  store_ack_join_request_bootstrap _ _ _ s := (s, None);
|}.
