(* ===== verification/Sql.v ===== *)
(** * SQLite, as the store uses it

    [Store] holds one connection behind a mutex and runs its statements in
    autocommit mode or in a transaction.  A connection is the tables and the
    outcomes of the input and output to come: an oracle that says which of the
    next writes fail.  SQLite itself is not modelled; what the source relies on
    is that a statement that fails changes nothing, and that a transaction is
    kept as a whole at its commit or dropped. *)

From S2P Require Import Prelude StoreApi.

(** rusqlite refuses to bind a [u64] that is no [i64]. *)
Definition i64_max : N := 2 ^ 63 - 1.
Definition binds (params : list N) : bool := forallb (fun n => (n <=? i64_max)%N) params.

Section sql.
Context {T : Type}.

Record Conn : Type := mkConn { tables : T; faults : list bool }.

(** Whether the next write fails; without an entry it does not. *)
Definition next_fault (c : Conn) : bool := default false (head (faults c)).
Definition past_fault (c : Conn) : Conn := mkConn (tables c) (tail (faults c)).

(** A computation on the connection that may stop with an error. *)
Definition Sql (E A : Type) : Type := Conn -> Conn * result A E.

Definition ret {E A} (a : A) : Sql E A := fun c => (c, Ok a).
Definition stop {E A} (e : E) : Sql E A := fun c => (c, Err e).
Definition bind {E A B} (m : Sql E A) (k : A -> Sql E B) : Sql E B :=
  fun c => match m c with (c, Ok a) => k a c | (c, Err e) => (c, Err e) end.

(** A query. *)
Definition query {E A} (f : T -> A) : Sql E A := fun c => (c, Ok (f (tables c))).

(** A statement: its parameters, and what it does to the tables with the number
    of rows it changed; [None] when a constraint refuses it. *)
Definition execute {E} (e : E) (params : list N) (stmt : T -> option (T * nat)) : Sql E nat :=
  fun c =>
    if negb (binds params) then (c, Err e)
    else if next_fault c then (past_fault c, Err e)
    else
      match stmt (tables c) with
      | None => (past_fault c, Err e)
      | Some (t, n) => (mkConn t (tail (faults c)), Ok n)
      end.

(** A transaction around [m]: begun, run, and committed if [m] ends well; at an
    error of any step the tables are what they were. *)
Definition transaction {E A} (e : E) (m : Sql E A) : Sql E A :=
  fun c =>
    if next_fault c then (past_fault c, Err e)
    else
      match m (past_fault c) with
      | (c', Err e') => (mkConn (tables c) (faults c'), Err e')
      | (c', Ok a) =>
          if next_fault c' then (mkConn (tables c) (tail (faults c')), Err e)
          else (past_fault c', Ok a)
      end.

Lemma transaction_err {E A} (e : E) (m : Sql E A) c c' e' :
  transaction e m c = (c', Err e') -> tables c' = tables c.
Proof.
  unfold transaction. destruct (next_fault c); [by intros [= <- _]|].
  destruct (m (past_fault c)) as [c2 [a|e2]]; [|by intros [= <- _]].
  destruct (next_fault c2); by intros [= <- _].
Qed.

(** What a committed transaction did is what its body did. *)
Lemma transaction_ok {E A} (e : E) (m : Sql E A) c c' a :
  transaction e m c = (c', Ok a) ->
  exists c2, m (past_fault c) = (c2, Ok a) /\ tables c' = tables c2.
Proof.
  unfold transaction. destruct (next_fault c); [done|].
  destruct (m (past_fault c)) as [c2 [b|e2]]; [|done].
  destruct (next_fault c2); [done|]. intros [= <- <-]. by exists c2.
Qed.

(** Without faults a transaction whose body ends well commits. *)
Lemma transaction_faultless {E A} (e : E) (m : Sql E A) c c2 a :
  faults c = [] -> m c = (c2, Ok a) -> faults c2 = [] -> transaction e m c = (c2, Ok a).
Proof.
  intros Hf Hm Hf2. unfold transaction, next_fault, past_fault. rewrite Hf. cbn.
  assert (mkConn (tables c) [] = c) as -> by (destruct c; cbn in Hf; by subst).
  rewrite Hm, Hf2. cbn. destruct c2; cbn in Hf2; by subst.
Qed.

Lemma bind_ok {E A B} (m : Sql E A) (k : A -> Sql E B) c c' b :
  bind m k c = (c', Ok b) -> exists c1 a, m c = (c1, Ok a) /\ k a c1 = (c', Ok b).
Proof. unfold bind. destruct (m c) as [c1 [a|e]]; [by eexists _, _|done]. Qed.

Lemma ret_ok {E A} (a : A) c c' b : ret (E := E) a c = (c', Ok b) -> c' = c /\ b = a.
Proof. by intros [= <- <-]. Qed.

Lemma query_ok {E A} (f : T -> A) c c' b :
  query (E := E) f c = (c', Ok b) -> c' = c /\ b = f (tables c).
Proof. by intros [= <- <-]. Qed.

Lemma execute_ok {E} (e : E) params stmt c c' n :
  execute e params stmt c = (c', Ok n) ->
  stmt (tables c) = Some (tables c', n) /\ binds params = true.
Proof.
  unfold execute. destruct (binds params); [|done]. cbn [negb]. destruct (next_fault c); [done|].
  destruct (stmt (tables c)) as [[t k]|]; by intros [= <- <-].
Qed.

Lemma execute_err {E} (e : E) params stmt c c' e' :
  execute e params stmt c = (c', Err e') -> tables c' = tables c /\ e' = e.
Proof.
  unfold execute. destruct (negb (binds params)); [by intros [= <- <-]|].
  destruct (next_fault c); [by intros [= <- <-]|].
  destruct (stmt (tables c)) as [[t k]|]; by intros [= <- <-].
Qed.

Lemma execute_faultless {E} (e : E) params stmt c t n :
  faults c = [] -> binds params = true -> stmt (tables c) = Some (t, n) ->
  execute e params stmt c = (mkConn t [], Ok n).
Proof. intros Hf Hp Hs. unfold execute, next_fault. by rewrite Hp, Hf, Hs. Qed.
End sql.
Arguments Conn : clear implicits.
Arguments Sql : clear implicits.

Notation "'let!' x ':=' m 'in' k" := (bind m (fun x => k))
  (at level 10, x pattern, m at level 100, k at level 200) : loca_scope.

(** ** What a computation keeps *)

(** Every run relates the tables before to those after, whatever fails. *)
Section keeps.
Context {T : Type} (R : relation T) `{!Reflexive R} `{!Transitive R}.

Definition keeps {E A} (m : Sql T E A) : Prop := forall c, R (tables c) (tables (m c).1).

Lemma keeps_ret {E A} (a : A) : keeps (ret (E := E) a).
Proof. intros c. by cbn. Qed.
Lemma keeps_stop {E A} (e : E) : keeps (stop (A := A) e).
Proof. intros c. by cbn. Qed.
Lemma keeps_query {E A} (f : T -> A) : keeps (query (E := E) f).
Proof. intros c. by cbn. Qed.
Lemma keeps_bind {E A B} (m : Sql T E A) (k : A -> Sql T E B) :
  keeps m -> (forall a, keeps (k a)) -> keeps (bind m k).
Proof.
  intros Hm Hk c. unfold bind. pose proof (Hm c) as Hc. destruct (m c) as [c1 [a|e]]; [|done].
  etransitivity; [exact Hc|apply Hk].
Qed.
Lemma keeps_execute {E} (e : E) params stmt :
  (forall t t' n, stmt t = Some (t', n) -> R t t') -> keeps (execute e params stmt).
Proof.
  intros Hs c. destruct (execute e params stmt c) as [c' [n|e']] eqn:Ex.
  - apply execute_ok in Ex as [Ex _]. by eapply Hs.
  - apply execute_err in Ex as [Ex _]. cbn. by rewrite Ex.
Qed.
Lemma keeps_transaction {E A} (e : E) (m : Sql T E A) : keeps m -> keeps (transaction e m).
Proof.
  intros Hm c. destruct (transaction e m c) as [c' [a|e']] eqn:Et.
  - apply transaction_ok in Et as (c2 & Em & Et). cbn. rewrite Et.
    pose proof (Hm (past_fault c)) as Hc. by rewrite Em in Hc.
  - apply transaction_err in Et. cbn. by rewrite Et.
Qed.
End keeps.

(** [.map(|_| ())] *)
Definition unit_of {T E} (m : Sql T E nat) : Sql T E unit := bind m (fun _ => ret tt).

(** Inversion of a computation that ended well. *)
Ltac sql_step :=
  match goal with
  | H : bind _ _ _ = (_, Ok _) |- _ =>
      let c := fresh "c" in let a := fresh "a" in
      apply bind_ok in H as (c & a & ? & H)
  | H : unit_of _ _ = (_, Ok _) |- _ => unfold unit_of in H
  | H : query _ _ = (_, Ok _) |- _ => apply query_ok in H as [-> ?]
  | H : ret _ _ = (_, Ok _) |- _ => apply ret_ok in H as [-> ?]
  | H : stop _ _ = (_, Ok _) |- _ => discriminate H
  | H : execute _ _ _ _ = (_, Ok _) |- _ => apply execute_ok in H as [H _]
  end.
Ltac sql := repeat sql_step.

(** ** Statements on a table *)

Section table.
Context `{Countable K} {V : Type}.
Implicit Types t : gmap K V.

(** [INSERT]: refused when the key is taken. *)
Definition insert_row (k : K) (v : V) t : option (gmap K V * nat) :=
  match t !! k with Some _ => None | None => Some (<[k := v]> t, 1) end.
(** [INSERT OR IGNORE] *)
Definition insert_or_ignore (k : K) (v : V) t : gmap K V * nat :=
  match t !! k with Some _ => (t, 0) | None => (<[k := v]> t, 1) end.
(** [UPDATE .. SET f WHERE p], as a table and a row count *)
Definition update_where (p : K -> V -> bool) (f : V -> V) t : gmap K V * nat :=
  (map_imap (fun k v => Some (if p k v then f v else v)) t,
   length (List.filter (fun kv => p kv.1 kv.2) (map_to_list t))).
(** [DELETE WHERE p] *)
Definition delete_where (p : K -> V -> bool) t : gmap K V :=
  filter (fun kv => p kv.1 kv.2 = false) t.
(** [SELECT .. WHERE p LIMIT 1] on a condition that at most one row meets *)
Definition select_where (p : K -> V -> bool) t : option (K * V) :=
  List.find (fun kv => p kv.1 kv.2) (map_to_list t).

Lemma update_where_lookup p f t k :
  (update_where p f t).1 !! k = (fun v => if p k v then f v else v) <$> t !! k.
Proof. cbn. rewrite map_lookup_imap. by destruct (t !! k). Qed.

Lemma update_where_eq p f t m n :
  update_where p f t = (m, n) -> forall k, m !! k = (fun v => if p k v then f v else v) <$> t !! k.
Proof. intros Eu k. by rewrite <- update_where_lookup, Eu. Qed.

Lemma select_where_Some p t k v :
  select_where p t = Some (k, v) -> t !! k = Some v /\ p k v = true.
Proof.
  intros [Hin Hp]%find_some. apply list_elem_of_In, elem_of_map_to_list in Hin. done.
Qed.

Lemma select_where_None p t :
  select_where p t = None <-> forall k v, t !! k = Some v -> p k v = false.
Proof.
  unfold select_where. split.
  - intros Hn k v E. apply (find_none _ _ Hn (k, v)), list_elem_of_In. by apply elem_of_map_to_list.
  - intros Hn. destruct (List.find _ _) as [[k v]|] eqn:E; [|done].
    apply select_where_Some in E as [E Hp]. by rewrite (Hn k v E) in Hp.
Qed.

(** The row a condition selects, when only that one meets it. *)
Lemma select_where_unique p t k v :
  t !! k = Some v -> p k v = true ->
  (forall k' v', t !! k' = Some v' -> p k' v' = true -> k' = k) ->
  select_where p t = Some (k, v).
Proof.
  intros E Hp Hu. destruct (select_where p t) as [[k' v']|] eqn:Es.
  - apply select_where_Some in Es as [E' Hp']. pose proof (Hu k' v' E' Hp') as ->. congruence.
  - by rewrite (proj1 (select_where_None p t) Es k v E) in Hp.
Qed.

(** A statement about one row. *)
Lemma filter_key_length (p : V -> bool) t k :
  length (List.filter (fun kv => bool_decide (kv.1 = k) && p kv.2) (map_to_list t))
    = match t !! k with Some v => if p v then 1 else 0 | None => 0 end.
Proof.
  assert (forall m, m !! k = None ->
    length (List.filter (fun kv => bool_decide (kv.1 = k) && p kv.2) (map_to_list m)) = 0) as Hnone.
  { intros m Hm. induction m as [|j v m Hj IH] using map_ind; [by rewrite map_to_list_empty|].
    apply lookup_insert_None in Hm as [Hm Hne].
    rewrite (filter_length_Permutation _ _ _ (map_to_list_insert m j v Hj)).
    cbn. rewrite bool_decide_eq_false_2 by done. by apply IH. }
  destruct (t !! k) as [v|] eqn:E; [|by apply Hnone].
  rewrite <- (insert_delete_id t k v E).
  rewrite (filter_length_Permutation _ _ _
    (map_to_list_insert (delete k t) k v (lookup_delete_eq t k))).
  cbn. rewrite bool_decide_eq_true_2 by done. cbn.
  destruct (p v); cbn; rewrite Hnone by apply lookup_delete_eq; done.
Qed.

Lemma update_key (p : V -> bool) f t k :
  update_where (fun k' v => bool_decide (k' = k) && p v) f t
    = match t !! k with
      | Some v => if p v then (<[k := f v]> t, 1) else (t, 0)
      | None => (t, 0)
      end.
Proof.
  apply injective_projections.
  - apply map_eq. intros j. rewrite update_where_lookup.
    destruct (t !! k) as [v|] eqn:E.
    + destruct (p v) eqn:Hp; cbn.
      * destruct (decide (j = k)) as [->|Hne].
        { rewrite lookup_insert_eq, E. cbn. by rewrite bool_decide_eq_true_2, Hp by done. }
        { rewrite lookup_insert_ne by done. destruct (t !! j); [|done].
          cbn. by rewrite bool_decide_eq_false_2 by done. }
      * destruct (t !! j) eqn:Ej; [|done]. cbn. case_bool_decide; [|done]. subst.
        assert (v = v0) as <- by congruence. by rewrite Hp.
    + cbn. destruct (t !! j) eqn:Ej; [|done]. cbn. case_bool_decide; [congruence|done].
  - cbn [update_where snd]. rewrite filter_key_length. destruct (t !! k); [|done].
    by destruct (p _).
Qed.
End table.
