(* ===== verification/Tables.v ===== *)
(** * The tables

    The schema of crates/server/src/store.rs.  A table is a map from its primary
    key; a column with a CHECK constraint, or a status the source writes as
    constants only, is an inductive type; a column of JSON text is the value the
    source serialises into it.  The receipts of contexts, which are trimmed by
    their row id, are a list per room and principal, the newest first. *)

From S2P Require Import Prelude Protocol StoreApi.

(** ** Rows *)

(** The CHECK constraint of the column. *)
(** @src store.rs:558-559 open *)
Inductive JoinStatus : Type :=
  | JoinPending
  | JoinApproving
  | JoinApproved
  | JoinDenied.
#[global] Instance JoinStatus_eq_dec : EqDecision JoinStatus.
Proof. solve_decision. Defined.

(** The statuses the source writes; the active ones are the first three. *)
(** @src store.rs:276-291 open *)
Inductive BatchStatus : Type :=
  | BatchQueued
  | BatchRunning
  | BatchBlocked
  | BatchCancelled
  | BatchCompleted.
#[global] Instance BatchStatus_eq_dec : EqDecision BatchStatus.
Proof. solve_decision. Defined.

(** @src store/wiki.rs struct WikiPage *)
Record WikiPage : Type := mkWikiPage {
  wp_slug : string;
  wp_title : string;
  wp_body : string;
  wp_sources : list N;
  wp_revision : N;
}.
#[global] Instance WikiPage_eq_dec : EqDecision WikiPage.
Proof. solve_decision. Defined.

(** @src store/wiki.rs struct WikiCommit *)
Record WikiCommit : Type := mkWikiCommit {
  wc_expected_revision : N;
  wc_reviewed_through : N;
  wc_reason : string;
  wc_pages : list WikiPage;
}.
#[global] Instance WikiCommit_eq_dec : EqDecision WikiCommit.
Proof. solve_decision. Defined.

(** @src store.rs:437-444 open *)
Record MemberRow : Type := mkMemberRow {
  mr_name : string;
  mr_kind : string;
  mr_joined_at : N;
  mr_admitted_by : string;
  mr_revoked_at : option N;
}.
Definition with_mr_revoked_at (v : option N) (r : MemberRow) : MemberRow :=
  mkMemberRow (mr_name r) (mr_kind r) (mr_joined_at r) (mr_admitted_by r)
    v.

(** @src store.rs:445-450 open *)
Record SmasterRow : Type := mkSmasterRow {
  sr_name : string;
  sr_issued_at : N;
  sr_revoked_at : option N;
}.
Definition with_sr_revoked_at (v : option N) (r : SmasterRow) : SmasterRow :=
  mkSmasterRow (sr_name r) (sr_issued_at r) v.

(** @src store.rs:473-480 open *)
Record PrincipalRow : Type := mkPrincipalRow {
  pr_display_name : string;
  pr_kind : string;
  pr_building_role : string;
  pr_created_at : N;
  pr_disabled_at : option N;
}.
Definition with_pr_disabled_at (v : option N) (r : PrincipalRow) : PrincipalRow :=
  mkPrincipalRow (pr_display_name r) (pr_kind r) (pr_building_role r)
    (pr_created_at r) v.

(** @src store.rs:489-498 open *)
Record CredentialRow : Type := mkCredentialRow {
  cr_principal_id : string;
  cr_label : string;
  cr_secret_hash : string;
  cr_created_at : N;
  cr_last_used_at : option N;
  cr_revoked_at : option N;
  cr_legacy_source : option string;
}.
Definition with_cr_revoked_at (v : option N) (r : CredentialRow) : CredentialRow :=
  mkCredentialRow (cr_principal_id r) (cr_label r) (cr_secret_hash r)
    (cr_created_at r) (cr_last_used_at r) v (cr_legacy_source r).

(** @src store.rs:503-512 open *)
Record SessionRow : Type := mkSessionRow {
  ps_principal_id : string;
  ps_credential_id : string;
  ps_created_at : N;
  ps_expires_at : N;
  ps_revoked_at : option N;
}.
Definition with_ps_revoked_at (v : option N) (r : SessionRow) : SessionRow :=
  mkSessionRow (ps_principal_id r) (ps_credential_id r) (ps_created_at r)
    (ps_expires_at r) v.

(** @src store.rs:405-413 open *)
Record InviteRow : Type := mkInviteRow {
  ir_invite : Invite;
  ir_revoked_at : option N;
}.
Definition with_ir_revoked_at (v : option N) (r : InviteRow) : InviteRow :=
  mkInviteRow (ir_invite r) v.

(** @src store.rs:465-470 open *)
Record AdminSessionRow : Type := mkAdminSessionRow {
  ad_name : string;
  ad_kind : string;
  ad_expires_at : N;
}.

(** @src store.rs:397-401 open *)
Record RoomRow : Type := mkRoomRow {
  rr_mode : ChatMode;
  rr_settings : RoomSettings;
  rr_sealed_at : option N;
}.
Definition with_rr_sealed_at (v : option N) (r : RoomRow) : RoomRow :=
  mkRoomRow (rr_mode r) (rr_settings r) v.

(** @src store.rs:518-527 open *)
Record AssignmentRow : Type := mkAssignmentRow {
  as_room : string;
  as_principal_id : string;
  as_appointed_by_principal_id : string;
  as_appointed_by_role : string;
  as_appointed_at : N;
  as_revoked_at : option N;
}.
Definition with_as_revoked_at (v : option N) (r : AssignmentRow) : AssignmentRow :=
  mkAssignmentRow (as_room r) (as_principal_id r)
    (as_appointed_by_principal_id r) (as_appointed_by_role r)
    (as_appointed_at r) v.

(** @src store.rs:536-543 open *)
Record StockRow : Type := mkStockRow {
  sk_minted_by : string;
  sk_created_at : N;
  sk_expires_at : N;
  sk_consumed_at : option N;
  sk_consumed_by_name : option string;
}.

(** @src store.rs:553-565 open *)
Record JoinRow : Type := mkJoinRow {
  jr_secret_hash : string;
  jr_name : string;
  jr_kind : string;
  jr_status : JoinStatus;
  jr_created_at : N;
  jr_decided_at : option N;
  jr_decided_by : option string;
  jr_mb_token : option string;
  jr_bootstrap_delivered_at : option N;
  jr_bootstrap_acked_at : option N;
}.
Definition with_jr_status (v : JoinStatus) (r : JoinRow) : JoinRow :=
  mkJoinRow (jr_secret_hash r) (jr_name r) (jr_kind r) v (jr_created_at r)
    (jr_decided_at r) (jr_decided_by r) (jr_mb_token r)
    (jr_bootstrap_delivered_at r) (jr_bootstrap_acked_at r).
Definition with_jr_decided_at (v : option N) (r : JoinRow) : JoinRow :=
  mkJoinRow (jr_secret_hash r) (jr_name r) (jr_kind r) (jr_status r)
    (jr_created_at r) v (jr_decided_by r) (jr_mb_token r)
    (jr_bootstrap_delivered_at r) (jr_bootstrap_acked_at r).
Definition with_jr_decided_by (v : option string) (r : JoinRow) : JoinRow :=
  mkJoinRow (jr_secret_hash r) (jr_name r) (jr_kind r) (jr_status r)
    (jr_created_at r) (jr_decided_at r) v (jr_mb_token r)
    (jr_bootstrap_delivered_at r) (jr_bootstrap_acked_at r).
Definition with_jr_mb_token (v : option string) (r : JoinRow) : JoinRow :=
  mkJoinRow (jr_secret_hash r) (jr_name r) (jr_kind r) (jr_status r)
    (jr_created_at r) (jr_decided_at r) (jr_decided_by r) v
    (jr_bootstrap_delivered_at r) (jr_bootstrap_acked_at r).
Definition with_jr_bootstrap_delivered_at (v : option N) (r : JoinRow) : JoinRow :=
  mkJoinRow (jr_secret_hash r) (jr_name r) (jr_kind r) (jr_status r)
    (jr_created_at r) (jr_decided_at r) (jr_decided_by r) (jr_mb_token r)
    v (jr_bootstrap_acked_at r).
Definition with_jr_bootstrap_acked_at (v : option N) (r : JoinRow) : JoinRow :=
  mkJoinRow (jr_secret_hash r) (jr_name r) (jr_kind r) (jr_status r)
    (jr_created_at r) (jr_decided_at r) (jr_decided_by r) (jr_mb_token r)
    (jr_bootstrap_delivered_at r) v.

(** @src store.rs:180-190 open *)
Record MessageRow : Type := mkMessageRow {
  mg_message : Message;
  mg_principal : option string;
  mg_op_id : option string;
}.

(** @src store.rs:192-201 open *)
Record ReactionRow : Type := mkReactionRow {
  rx_reactor : string;
  rx_created_at : N;
}.

(** @src store.rs:384-394 open *)
Record AttentionRow : Type := mkAttentionRow {
  ar_room : string;
  ar_signal : CareSignal;
  ar_owner : option string;
  ar_created_at : N;
  ar_delivered_at : option N;
  ar_claimed_by : option string;
  ar_claimed_at : option N;
  ar_resolved_at : option N;
}.
Definition with_ar_signal (v : CareSignal) (r : AttentionRow) : AttentionRow :=
  mkAttentionRow (ar_room r) v (ar_owner r) (ar_created_at r)
    (ar_delivered_at r) (ar_claimed_by r) (ar_claimed_at r)
    (ar_resolved_at r).
Definition with_ar_owner (v : option string) (r : AttentionRow) : AttentionRow :=
  mkAttentionRow (ar_room r) (ar_signal r) v (ar_created_at r)
    (ar_delivered_at r) (ar_claimed_by r) (ar_claimed_at r)
    (ar_resolved_at r).
Definition with_ar_delivered_at (v : option N) (r : AttentionRow) : AttentionRow :=
  mkAttentionRow (ar_room r) (ar_signal r) (ar_owner r) (ar_created_at r)
    v (ar_claimed_by r) (ar_claimed_at r) (ar_resolved_at r).
Definition with_ar_claimed_by (v : option string) (r : AttentionRow) : AttentionRow :=
  mkAttentionRow (ar_room r) (ar_signal r) (ar_owner r) (ar_created_at r)
    (ar_delivered_at r) v (ar_claimed_at r) (ar_resolved_at r).
Definition with_ar_claimed_at (v : option N) (r : AttentionRow) : AttentionRow :=
  mkAttentionRow (ar_room r) (ar_signal r) (ar_owner r) (ar_created_at r)
    (ar_delivered_at r) (ar_claimed_by r) v (ar_resolved_at r).
Definition with_ar_resolved_at (v : option N) (r : AttentionRow) : AttentionRow :=
  mkAttentionRow (ar_room r) (ar_signal r) (ar_owner r) (ar_created_at r)
    (ar_delivered_at r) (ar_claimed_by r) (ar_claimed_at r) v.

(** @src store.rs:369-378 open *)
Record OutboxRow : Type := mkOutboxRow {
  ob_attention_id : string;
  ob_delivery_room : string;
  ob_owner : string;
  ob_owner_principal_id : option string;
  ob_signal : CareSignal;
  ob_created_at : N;
  ob_acked_at : option N;
}.
Definition with_ob_acked_at (v : option N) (r : OutboxRow) : OutboxRow :=
  mkOutboxRow (ob_attention_id r) (ob_delivery_room r) (ob_owner r)
    (ob_owner_principal_id r) (ob_signal r) (ob_created_at r) v.

(** @src store.rs:577-582 open *)
Record BlobRow : Type := mkBlobRow {
  bl_mime : string;
  bl_size : N;
  bl_created_at : N;
}.

(** @src store.rs:588-597 open *)
Record PendingRow : Type := mkPendingRow {
  pd_uploader : string;
  pd_name : string;
  pd_mime : string;
  pd_size : N;
  pd_created_at : N;
}.

(** @src store.rs:610-620 open *)
Record RefRow : Type := mkRefRow {
  rf_name : string;
  rf_mime : string;
  rf_size : N;
  rf_created_at : N;
}.

(** @src store.rs:227-235 open *)
Record MemoryRow : Type := mkMemoryRow {
  mm_owner : option string;
  mm_owner_principal_id : option string;
  mm_short : string;
  mm_long : string;
  mm_short_updated_at : option N;
  mm_long_updated_at : option N;
  mm_version : N;
}.

(** @src store.rs:236-242 open *)
Record EntryRow : Type := mkEntryRow {
  me_room : string;
  me_text : string;
  me_decided_by : string;
  me_decided_at : N;
}.

(** @src store.rs:245-254 open *)
Record WikiRow : Type := mkWikiRow {
  wk_editor : string;
  wk_enabled : bool;
  wk_interval : N;
  wk_revision : N;
  wk_reviewed_through : N;
  wk_reviewed_at : option N;
  wk_edited_at : option N;
}.

(** @src store.rs:255-263 open *)
Record PageRow : Type := mkPageRow {
  pg_title : string;
  pg_body : string;
  pg_sources : list N;
  pg_revision : N;
}.

(** @src store.rs:264-275 open *)
Record HistoryRow : Type := mkHistoryRow {
  hs_title : string;
  hs_body : string;
  hs_sources : list N;
  hs_editor : string;
  hs_reason : string;
  hs_edited_at : N;
}.

(** @src store.rs:276-288 open *)
Record BatchRow : Type := mkBatchRow {
  bt_room : string;
  bt_editor : string;
  bt_after : N;
  bt_through : N;
  bt_status : BatchStatus;
  bt_reason : string;
  bt_created_at : N;
  bt_epoch : N;
  bt_attempts : N;
  bt_lease_expires_at : N;
}.
Definition with_bt_status (v : BatchStatus) (r : BatchRow) : BatchRow :=
  mkBatchRow (bt_room r) (bt_editor r) (bt_after r) (bt_through r) v
    (bt_reason r) (bt_created_at r) (bt_epoch r) (bt_attempts r)
    (bt_lease_expires_at r).
Definition with_bt_lease_expires_at (v : N) (r : BatchRow) : BatchRow :=
  mkBatchRow (bt_room r) (bt_editor r) (bt_after r) (bt_through r)
    (bt_status r) (bt_reason r) (bt_created_at r) (bt_epoch r)
    (bt_attempts r) v.

(** @src store.rs:298-306 open *)
Record ReceiptRow : Type := mkReceiptRow {
  rc_editor : string;
  rc_request : WikiCommit;
  rc_revision : N;
}.

(** @src store.rs:311-315 open *)
Record SelectionRow : Type := mkSelectionRow {
  sl_slugs : list string;
  sl_reason : string;
  sl_version : N;
  sl_requested_at : N;
}.

(** ** The tables *)

Record Tables : Type := mkTables {
  t_members : gmap string MemberRow;
  t_smasters : gmap string SmasterRow;
  t_principals : gmap string PrincipalRow;
  t_credentials : gmap string CredentialRow;
  t_principal_sessions : gmap string SessionRow;
  t_member_suspensions : gmap string (N * string);
  t_invites : gmap string InviteRow;
  t_bans : gmap (string * string * string) N;
  t_admin_sessions : gmap string AdminSessionRow;
  t_rooms : gmap string RoomRow;
  t_assignments : gmap N AssignmentRow;
  t_stock : gmap string StockRow;
  t_joins : gmap string JoinRow;
  t_messages : gmap N MessageRow;
  t_reactions : gmap (string * N * string * string) ReactionRow;
  t_notes : gmap (string * string) Note;
  t_note_revisions : gmap (string * string * N) Note;
  t_tasks : gmap (string * N) Task;
  t_goals : gmap (string * N) Goal;
  t_waits : gmap (string * string) WaitState;
  t_care_marks : gmap (string * string) (N * N);
  t_attentions : gmap string AttentionRow;
  t_outbox : gmap string OutboxRow;
  t_journal : gmap (string * N) JournalEntry;
  t_blobs : gmap string BlobRow;
  t_pending : gmap (string * string) PendingRow;
  t_refs : gmap (string * N * string) RefRow;
  t_memory : gmap string MemoryRow;
  t_entries : gmap N EntryRow;
  t_wiki : gmap string WikiRow;
  t_pages : gmap (string * string) PageRow;
  t_history : gmap (string * string * N) HistoryRow;
  t_batches : gmap N BatchRow;
  t_leases : gmap (N * N) N;
  t_receipts : gmap (string * N * N) ReceiptRow;
  t_runtime : gmap (string * string) (string * N);
  t_selection : gmap (string * string) SelectionRow;
  t_context_receipts : gmap (string * string) (list (string * string * N * N * N));
}.
Definition with_t_members (v : gmap string MemberRow) (r : Tables) : Tables :=
  mkTables v (t_smasters r) (t_principals r) (t_credentials r) (t_principal_sessions r)
    (t_member_suspensions r) (t_invites r) (t_bans r) (t_admin_sessions r) (t_rooms r)
    (t_assignments r) (t_stock r) (t_joins r) (t_messages r) (t_reactions r) (t_notes r)
    (t_note_revisions r) (t_tasks r) (t_goals r) (t_waits r) (t_care_marks r)
    (t_attentions r) (t_outbox r) (t_journal r) (t_blobs r) (t_pending r) (t_refs r)
    (t_memory r) (t_entries r) (t_wiki r) (t_pages r) (t_history r) (t_batches r)
    (t_leases r) (t_receipts r) (t_runtime r) (t_selection r) (t_context_receipts r).
Definition with_t_smasters (v : gmap string SmasterRow) (r : Tables) : Tables :=
  mkTables (t_members r) v (t_principals r) (t_credentials r) (t_principal_sessions r)
    (t_member_suspensions r) (t_invites r) (t_bans r) (t_admin_sessions r) (t_rooms r)
    (t_assignments r) (t_stock r) (t_joins r) (t_messages r) (t_reactions r) (t_notes r)
    (t_note_revisions r) (t_tasks r) (t_goals r) (t_waits r) (t_care_marks r)
    (t_attentions r) (t_outbox r) (t_journal r) (t_blobs r) (t_pending r) (t_refs r)
    (t_memory r) (t_entries r) (t_wiki r) (t_pages r) (t_history r) (t_batches r)
    (t_leases r) (t_receipts r) (t_runtime r) (t_selection r) (t_context_receipts r).
Definition with_t_principals (v : gmap string PrincipalRow) (r : Tables) : Tables :=
  mkTables (t_members r) (t_smasters r) v (t_credentials r) (t_principal_sessions r)
    (t_member_suspensions r) (t_invites r) (t_bans r) (t_admin_sessions r) (t_rooms r)
    (t_assignments r) (t_stock r) (t_joins r) (t_messages r) (t_reactions r) (t_notes r)
    (t_note_revisions r) (t_tasks r) (t_goals r) (t_waits r) (t_care_marks r)
    (t_attentions r) (t_outbox r) (t_journal r) (t_blobs r) (t_pending r) (t_refs r)
    (t_memory r) (t_entries r) (t_wiki r) (t_pages r) (t_history r) (t_batches r)
    (t_leases r) (t_receipts r) (t_runtime r) (t_selection r) (t_context_receipts r).
Definition with_t_credentials (v : gmap string CredentialRow) (r : Tables) : Tables :=
  mkTables (t_members r) (t_smasters r) (t_principals r) v (t_principal_sessions r)
    (t_member_suspensions r) (t_invites r) (t_bans r) (t_admin_sessions r) (t_rooms r)
    (t_assignments r) (t_stock r) (t_joins r) (t_messages r) (t_reactions r) (t_notes r)
    (t_note_revisions r) (t_tasks r) (t_goals r) (t_waits r) (t_care_marks r)
    (t_attentions r) (t_outbox r) (t_journal r) (t_blobs r) (t_pending r) (t_refs r)
    (t_memory r) (t_entries r) (t_wiki r) (t_pages r) (t_history r) (t_batches r)
    (t_leases r) (t_receipts r) (t_runtime r) (t_selection r) (t_context_receipts r).
Definition with_t_principal_sessions (v : gmap string SessionRow) (r : Tables) : Tables :=
  mkTables (t_members r) (t_smasters r) (t_principals r) (t_credentials r) v
    (t_member_suspensions r) (t_invites r) (t_bans r) (t_admin_sessions r) (t_rooms r)
    (t_assignments r) (t_stock r) (t_joins r) (t_messages r) (t_reactions r) (t_notes r)
    (t_note_revisions r) (t_tasks r) (t_goals r) (t_waits r) (t_care_marks r)
    (t_attentions r) (t_outbox r) (t_journal r) (t_blobs r) (t_pending r) (t_refs r)
    (t_memory r) (t_entries r) (t_wiki r) (t_pages r) (t_history r) (t_batches r)
    (t_leases r) (t_receipts r) (t_runtime r) (t_selection r) (t_context_receipts r).
Definition with_t_member_suspensions (v : gmap string (N * string)) (r : Tables) : Tables :=
  mkTables (t_members r) (t_smasters r) (t_principals r) (t_credentials r)
    (t_principal_sessions r) v (t_invites r) (t_bans r) (t_admin_sessions r) (t_rooms r)
    (t_assignments r) (t_stock r) (t_joins r) (t_messages r) (t_reactions r) (t_notes r)
    (t_note_revisions r) (t_tasks r) (t_goals r) (t_waits r) (t_care_marks r)
    (t_attentions r) (t_outbox r) (t_journal r) (t_blobs r) (t_pending r) (t_refs r)
    (t_memory r) (t_entries r) (t_wiki r) (t_pages r) (t_history r) (t_batches r)
    (t_leases r) (t_receipts r) (t_runtime r) (t_selection r) (t_context_receipts r).
Definition with_t_invites (v : gmap string InviteRow) (r : Tables) : Tables :=
  mkTables (t_members r) (t_smasters r) (t_principals r) (t_credentials r)
    (t_principal_sessions r) (t_member_suspensions r) v (t_bans r) (t_admin_sessions r)
    (t_rooms r) (t_assignments r) (t_stock r) (t_joins r) (t_messages r) (t_reactions r)
    (t_notes r) (t_note_revisions r) (t_tasks r) (t_goals r) (t_waits r) (t_care_marks r)
    (t_attentions r) (t_outbox r) (t_journal r) (t_blobs r) (t_pending r) (t_refs r)
    (t_memory r) (t_entries r) (t_wiki r) (t_pages r) (t_history r) (t_batches r)
    (t_leases r) (t_receipts r) (t_runtime r) (t_selection r) (t_context_receipts r).
Definition with_t_bans (v : gmap (string * string * string) N) (r : Tables) : Tables :=
  mkTables (t_members r) (t_smasters r) (t_principals r) (t_credentials r)
    (t_principal_sessions r) (t_member_suspensions r) (t_invites r) v (t_admin_sessions r)
    (t_rooms r) (t_assignments r) (t_stock r) (t_joins r) (t_messages r) (t_reactions r)
    (t_notes r) (t_note_revisions r) (t_tasks r) (t_goals r) (t_waits r) (t_care_marks r)
    (t_attentions r) (t_outbox r) (t_journal r) (t_blobs r) (t_pending r) (t_refs r)
    (t_memory r) (t_entries r) (t_wiki r) (t_pages r) (t_history r) (t_batches r)
    (t_leases r) (t_receipts r) (t_runtime r) (t_selection r) (t_context_receipts r).
Definition with_t_admin_sessions (v : gmap string AdminSessionRow) (r : Tables) : Tables :=
  mkTables (t_members r) (t_smasters r) (t_principals r) (t_credentials r)
    (t_principal_sessions r) (t_member_suspensions r) (t_invites r) (t_bans r) v
    (t_rooms r) (t_assignments r) (t_stock r) (t_joins r) (t_messages r) (t_reactions r)
    (t_notes r) (t_note_revisions r) (t_tasks r) (t_goals r) (t_waits r) (t_care_marks r)
    (t_attentions r) (t_outbox r) (t_journal r) (t_blobs r) (t_pending r) (t_refs r)
    (t_memory r) (t_entries r) (t_wiki r) (t_pages r) (t_history r) (t_batches r)
    (t_leases r) (t_receipts r) (t_runtime r) (t_selection r) (t_context_receipts r).
Definition with_t_rooms (v : gmap string RoomRow) (r : Tables) : Tables :=
  mkTables (t_members r) (t_smasters r) (t_principals r) (t_credentials r)
    (t_principal_sessions r) (t_member_suspensions r) (t_invites r) (t_bans r)
    (t_admin_sessions r) v (t_assignments r) (t_stock r) (t_joins r) (t_messages r)
    (t_reactions r) (t_notes r) (t_note_revisions r) (t_tasks r) (t_goals r) (t_waits r)
    (t_care_marks r) (t_attentions r) (t_outbox r) (t_journal r) (t_blobs r) (t_pending r)
    (t_refs r) (t_memory r) (t_entries r) (t_wiki r) (t_pages r) (t_history r)
    (t_batches r) (t_leases r) (t_receipts r) (t_runtime r) (t_selection r)
    (t_context_receipts r).
Definition with_t_assignments (v : gmap N AssignmentRow) (r : Tables) : Tables :=
  mkTables (t_members r) (t_smasters r) (t_principals r) (t_credentials r)
    (t_principal_sessions r) (t_member_suspensions r) (t_invites r) (t_bans r)
    (t_admin_sessions r) (t_rooms r) v (t_stock r) (t_joins r) (t_messages r)
    (t_reactions r) (t_notes r) (t_note_revisions r) (t_tasks r) (t_goals r) (t_waits r)
    (t_care_marks r) (t_attentions r) (t_outbox r) (t_journal r) (t_blobs r) (t_pending r)
    (t_refs r) (t_memory r) (t_entries r) (t_wiki r) (t_pages r) (t_history r)
    (t_batches r) (t_leases r) (t_receipts r) (t_runtime r) (t_selection r)
    (t_context_receipts r).
Definition with_t_stock (v : gmap string StockRow) (r : Tables) : Tables :=
  mkTables (t_members r) (t_smasters r) (t_principals r) (t_credentials r)
    (t_principal_sessions r) (t_member_suspensions r) (t_invites r) (t_bans r)
    (t_admin_sessions r) (t_rooms r) (t_assignments r) v (t_joins r) (t_messages r)
    (t_reactions r) (t_notes r) (t_note_revisions r) (t_tasks r) (t_goals r) (t_waits r)
    (t_care_marks r) (t_attentions r) (t_outbox r) (t_journal r) (t_blobs r) (t_pending r)
    (t_refs r) (t_memory r) (t_entries r) (t_wiki r) (t_pages r) (t_history r)
    (t_batches r) (t_leases r) (t_receipts r) (t_runtime r) (t_selection r)
    (t_context_receipts r).
Definition with_t_joins (v : gmap string JoinRow) (r : Tables) : Tables :=
  mkTables (t_members r) (t_smasters r) (t_principals r) (t_credentials r)
    (t_principal_sessions r) (t_member_suspensions r) (t_invites r) (t_bans r)
    (t_admin_sessions r) (t_rooms r) (t_assignments r) (t_stock r) v (t_messages r)
    (t_reactions r) (t_notes r) (t_note_revisions r) (t_tasks r) (t_goals r) (t_waits r)
    (t_care_marks r) (t_attentions r) (t_outbox r) (t_journal r) (t_blobs r) (t_pending r)
    (t_refs r) (t_memory r) (t_entries r) (t_wiki r) (t_pages r) (t_history r)
    (t_batches r) (t_leases r) (t_receipts r) (t_runtime r) (t_selection r)
    (t_context_receipts r).
Definition with_t_messages (v : gmap N MessageRow) (r : Tables) : Tables :=
  mkTables (t_members r) (t_smasters r) (t_principals r) (t_credentials r)
    (t_principal_sessions r) (t_member_suspensions r) (t_invites r) (t_bans r)
    (t_admin_sessions r) (t_rooms r) (t_assignments r) (t_stock r) (t_joins r) v
    (t_reactions r) (t_notes r) (t_note_revisions r) (t_tasks r) (t_goals r) (t_waits r)
    (t_care_marks r) (t_attentions r) (t_outbox r) (t_journal r) (t_blobs r) (t_pending r)
    (t_refs r) (t_memory r) (t_entries r) (t_wiki r) (t_pages r) (t_history r)
    (t_batches r) (t_leases r) (t_receipts r) (t_runtime r) (t_selection r)
    (t_context_receipts r).
Definition with_t_reactions (v : gmap (string * N * string * string) ReactionRow) (r : Tables) : Tables :=
  mkTables (t_members r) (t_smasters r) (t_principals r) (t_credentials r)
    (t_principal_sessions r) (t_member_suspensions r) (t_invites r) (t_bans r)
    (t_admin_sessions r) (t_rooms r) (t_assignments r) (t_stock r) (t_joins r)
    (t_messages r) v (t_notes r) (t_note_revisions r) (t_tasks r) (t_goals r) (t_waits r)
    (t_care_marks r) (t_attentions r) (t_outbox r) (t_journal r) (t_blobs r) (t_pending r)
    (t_refs r) (t_memory r) (t_entries r) (t_wiki r) (t_pages r) (t_history r)
    (t_batches r) (t_leases r) (t_receipts r) (t_runtime r) (t_selection r)
    (t_context_receipts r).
Definition with_t_notes (v : gmap (string * string) Note) (r : Tables) : Tables :=
  mkTables (t_members r) (t_smasters r) (t_principals r) (t_credentials r)
    (t_principal_sessions r) (t_member_suspensions r) (t_invites r) (t_bans r)
    (t_admin_sessions r) (t_rooms r) (t_assignments r) (t_stock r) (t_joins r)
    (t_messages r) (t_reactions r) v (t_note_revisions r) (t_tasks r) (t_goals r)
    (t_waits r) (t_care_marks r) (t_attentions r) (t_outbox r) (t_journal r) (t_blobs r)
    (t_pending r) (t_refs r) (t_memory r) (t_entries r) (t_wiki r) (t_pages r)
    (t_history r) (t_batches r) (t_leases r) (t_receipts r) (t_runtime r) (t_selection r)
    (t_context_receipts r).
Definition with_t_note_revisions (v : gmap (string * string * N) Note) (r : Tables) : Tables :=
  mkTables (t_members r) (t_smasters r) (t_principals r) (t_credentials r)
    (t_principal_sessions r) (t_member_suspensions r) (t_invites r) (t_bans r)
    (t_admin_sessions r) (t_rooms r) (t_assignments r) (t_stock r) (t_joins r)
    (t_messages r) (t_reactions r) (t_notes r) v (t_tasks r) (t_goals r) (t_waits r)
    (t_care_marks r) (t_attentions r) (t_outbox r) (t_journal r) (t_blobs r) (t_pending r)
    (t_refs r) (t_memory r) (t_entries r) (t_wiki r) (t_pages r) (t_history r)
    (t_batches r) (t_leases r) (t_receipts r) (t_runtime r) (t_selection r)
    (t_context_receipts r).
Definition with_t_tasks (v : gmap (string * N) Task) (r : Tables) : Tables :=
  mkTables (t_members r) (t_smasters r) (t_principals r) (t_credentials r)
    (t_principal_sessions r) (t_member_suspensions r) (t_invites r) (t_bans r)
    (t_admin_sessions r) (t_rooms r) (t_assignments r) (t_stock r) (t_joins r)
    (t_messages r) (t_reactions r) (t_notes r) (t_note_revisions r) v (t_goals r)
    (t_waits r) (t_care_marks r) (t_attentions r) (t_outbox r) (t_journal r) (t_blobs r)
    (t_pending r) (t_refs r) (t_memory r) (t_entries r) (t_wiki r) (t_pages r)
    (t_history r) (t_batches r) (t_leases r) (t_receipts r) (t_runtime r) (t_selection r)
    (t_context_receipts r).
Definition with_t_goals (v : gmap (string * N) Goal) (r : Tables) : Tables :=
  mkTables (t_members r) (t_smasters r) (t_principals r) (t_credentials r)
    (t_principal_sessions r) (t_member_suspensions r) (t_invites r) (t_bans r)
    (t_admin_sessions r) (t_rooms r) (t_assignments r) (t_stock r) (t_joins r)
    (t_messages r) (t_reactions r) (t_notes r) (t_note_revisions r) (t_tasks r) v
    (t_waits r) (t_care_marks r) (t_attentions r) (t_outbox r) (t_journal r) (t_blobs r)
    (t_pending r) (t_refs r) (t_memory r) (t_entries r) (t_wiki r) (t_pages r)
    (t_history r) (t_batches r) (t_leases r) (t_receipts r) (t_runtime r) (t_selection r)
    (t_context_receipts r).
Definition with_t_waits (v : gmap (string * string) WaitState) (r : Tables) : Tables :=
  mkTables (t_members r) (t_smasters r) (t_principals r) (t_credentials r)
    (t_principal_sessions r) (t_member_suspensions r) (t_invites r) (t_bans r)
    (t_admin_sessions r) (t_rooms r) (t_assignments r) (t_stock r) (t_joins r)
    (t_messages r) (t_reactions r) (t_notes r) (t_note_revisions r) (t_tasks r)
    (t_goals r) v (t_care_marks r) (t_attentions r) (t_outbox r) (t_journal r) (t_blobs r)
    (t_pending r) (t_refs r) (t_memory r) (t_entries r) (t_wiki r) (t_pages r)
    (t_history r) (t_batches r) (t_leases r) (t_receipts r) (t_runtime r) (t_selection r)
    (t_context_receipts r).
Definition with_t_care_marks (v : gmap (string * string) (N * N)) (r : Tables) : Tables :=
  mkTables (t_members r) (t_smasters r) (t_principals r) (t_credentials r)
    (t_principal_sessions r) (t_member_suspensions r) (t_invites r) (t_bans r)
    (t_admin_sessions r) (t_rooms r) (t_assignments r) (t_stock r) (t_joins r)
    (t_messages r) (t_reactions r) (t_notes r) (t_note_revisions r) (t_tasks r)
    (t_goals r) (t_waits r) v (t_attentions r) (t_outbox r) (t_journal r) (t_blobs r)
    (t_pending r) (t_refs r) (t_memory r) (t_entries r) (t_wiki r) (t_pages r)
    (t_history r) (t_batches r) (t_leases r) (t_receipts r) (t_runtime r) (t_selection r)
    (t_context_receipts r).
Definition with_t_attentions (v : gmap string AttentionRow) (r : Tables) : Tables :=
  mkTables (t_members r) (t_smasters r) (t_principals r) (t_credentials r)
    (t_principal_sessions r) (t_member_suspensions r) (t_invites r) (t_bans r)
    (t_admin_sessions r) (t_rooms r) (t_assignments r) (t_stock r) (t_joins r)
    (t_messages r) (t_reactions r) (t_notes r) (t_note_revisions r) (t_tasks r)
    (t_goals r) (t_waits r) (t_care_marks r) v (t_outbox r) (t_journal r) (t_blobs r)
    (t_pending r) (t_refs r) (t_memory r) (t_entries r) (t_wiki r) (t_pages r)
    (t_history r) (t_batches r) (t_leases r) (t_receipts r) (t_runtime r) (t_selection r)
    (t_context_receipts r).
Definition with_t_outbox (v : gmap string OutboxRow) (r : Tables) : Tables :=
  mkTables (t_members r) (t_smasters r) (t_principals r) (t_credentials r)
    (t_principal_sessions r) (t_member_suspensions r) (t_invites r) (t_bans r)
    (t_admin_sessions r) (t_rooms r) (t_assignments r) (t_stock r) (t_joins r)
    (t_messages r) (t_reactions r) (t_notes r) (t_note_revisions r) (t_tasks r)
    (t_goals r) (t_waits r) (t_care_marks r) (t_attentions r) v (t_journal r) (t_blobs r)
    (t_pending r) (t_refs r) (t_memory r) (t_entries r) (t_wiki r) (t_pages r)
    (t_history r) (t_batches r) (t_leases r) (t_receipts r) (t_runtime r) (t_selection r)
    (t_context_receipts r).
Definition with_t_journal (v : gmap (string * N) JournalEntry) (r : Tables) : Tables :=
  mkTables (t_members r) (t_smasters r) (t_principals r) (t_credentials r)
    (t_principal_sessions r) (t_member_suspensions r) (t_invites r) (t_bans r)
    (t_admin_sessions r) (t_rooms r) (t_assignments r) (t_stock r) (t_joins r)
    (t_messages r) (t_reactions r) (t_notes r) (t_note_revisions r) (t_tasks r)
    (t_goals r) (t_waits r) (t_care_marks r) (t_attentions r) (t_outbox r) v (t_blobs r)
    (t_pending r) (t_refs r) (t_memory r) (t_entries r) (t_wiki r) (t_pages r)
    (t_history r) (t_batches r) (t_leases r) (t_receipts r) (t_runtime r) (t_selection r)
    (t_context_receipts r).
Definition with_t_blobs (v : gmap string BlobRow) (r : Tables) : Tables :=
  mkTables (t_members r) (t_smasters r) (t_principals r) (t_credentials r)
    (t_principal_sessions r) (t_member_suspensions r) (t_invites r) (t_bans r)
    (t_admin_sessions r) (t_rooms r) (t_assignments r) (t_stock r) (t_joins r)
    (t_messages r) (t_reactions r) (t_notes r) (t_note_revisions r) (t_tasks r)
    (t_goals r) (t_waits r) (t_care_marks r) (t_attentions r) (t_outbox r) (t_journal r) v
    (t_pending r) (t_refs r) (t_memory r) (t_entries r) (t_wiki r) (t_pages r)
    (t_history r) (t_batches r) (t_leases r) (t_receipts r) (t_runtime r) (t_selection r)
    (t_context_receipts r).
Definition with_t_pending (v : gmap (string * string) PendingRow) (r : Tables) : Tables :=
  mkTables (t_members r) (t_smasters r) (t_principals r) (t_credentials r)
    (t_principal_sessions r) (t_member_suspensions r) (t_invites r) (t_bans r)
    (t_admin_sessions r) (t_rooms r) (t_assignments r) (t_stock r) (t_joins r)
    (t_messages r) (t_reactions r) (t_notes r) (t_note_revisions r) (t_tasks r)
    (t_goals r) (t_waits r) (t_care_marks r) (t_attentions r) (t_outbox r) (t_journal r)
    (t_blobs r) v (t_refs r) (t_memory r) (t_entries r) (t_wiki r) (t_pages r)
    (t_history r) (t_batches r) (t_leases r) (t_receipts r) (t_runtime r) (t_selection r)
    (t_context_receipts r).
Definition with_t_refs (v : gmap (string * N * string) RefRow) (r : Tables) : Tables :=
  mkTables (t_members r) (t_smasters r) (t_principals r) (t_credentials r)
    (t_principal_sessions r) (t_member_suspensions r) (t_invites r) (t_bans r)
    (t_admin_sessions r) (t_rooms r) (t_assignments r) (t_stock r) (t_joins r)
    (t_messages r) (t_reactions r) (t_notes r) (t_note_revisions r) (t_tasks r)
    (t_goals r) (t_waits r) (t_care_marks r) (t_attentions r) (t_outbox r) (t_journal r)
    (t_blobs r) (t_pending r) v (t_memory r) (t_entries r) (t_wiki r) (t_pages r)
    (t_history r) (t_batches r) (t_leases r) (t_receipts r) (t_runtime r) (t_selection r)
    (t_context_receipts r).
Definition with_t_memory (v : gmap string MemoryRow) (r : Tables) : Tables :=
  mkTables (t_members r) (t_smasters r) (t_principals r) (t_credentials r)
    (t_principal_sessions r) (t_member_suspensions r) (t_invites r) (t_bans r)
    (t_admin_sessions r) (t_rooms r) (t_assignments r) (t_stock r) (t_joins r)
    (t_messages r) (t_reactions r) (t_notes r) (t_note_revisions r) (t_tasks r)
    (t_goals r) (t_waits r) (t_care_marks r) (t_attentions r) (t_outbox r) (t_journal r)
    (t_blobs r) (t_pending r) (t_refs r) v (t_entries r) (t_wiki r) (t_pages r)
    (t_history r) (t_batches r) (t_leases r) (t_receipts r) (t_runtime r) (t_selection r)
    (t_context_receipts r).
Definition with_t_entries (v : gmap N EntryRow) (r : Tables) : Tables :=
  mkTables (t_members r) (t_smasters r) (t_principals r) (t_credentials r)
    (t_principal_sessions r) (t_member_suspensions r) (t_invites r) (t_bans r)
    (t_admin_sessions r) (t_rooms r) (t_assignments r) (t_stock r) (t_joins r)
    (t_messages r) (t_reactions r) (t_notes r) (t_note_revisions r) (t_tasks r)
    (t_goals r) (t_waits r) (t_care_marks r) (t_attentions r) (t_outbox r) (t_journal r)
    (t_blobs r) (t_pending r) (t_refs r) (t_memory r) v (t_wiki r) (t_pages r)
    (t_history r) (t_batches r) (t_leases r) (t_receipts r) (t_runtime r) (t_selection r)
    (t_context_receipts r).
Definition with_t_wiki (v : gmap string WikiRow) (r : Tables) : Tables :=
  mkTables (t_members r) (t_smasters r) (t_principals r) (t_credentials r)
    (t_principal_sessions r) (t_member_suspensions r) (t_invites r) (t_bans r)
    (t_admin_sessions r) (t_rooms r) (t_assignments r) (t_stock r) (t_joins r)
    (t_messages r) (t_reactions r) (t_notes r) (t_note_revisions r) (t_tasks r)
    (t_goals r) (t_waits r) (t_care_marks r) (t_attentions r) (t_outbox r) (t_journal r)
    (t_blobs r) (t_pending r) (t_refs r) (t_memory r) (t_entries r) v (t_pages r)
    (t_history r) (t_batches r) (t_leases r) (t_receipts r) (t_runtime r) (t_selection r)
    (t_context_receipts r).
Definition with_t_pages (v : gmap (string * string) PageRow) (r : Tables) : Tables :=
  mkTables (t_members r) (t_smasters r) (t_principals r) (t_credentials r)
    (t_principal_sessions r) (t_member_suspensions r) (t_invites r) (t_bans r)
    (t_admin_sessions r) (t_rooms r) (t_assignments r) (t_stock r) (t_joins r)
    (t_messages r) (t_reactions r) (t_notes r) (t_note_revisions r) (t_tasks r)
    (t_goals r) (t_waits r) (t_care_marks r) (t_attentions r) (t_outbox r) (t_journal r)
    (t_blobs r) (t_pending r) (t_refs r) (t_memory r) (t_entries r) (t_wiki r) v
    (t_history r) (t_batches r) (t_leases r) (t_receipts r) (t_runtime r) (t_selection r)
    (t_context_receipts r).
Definition with_t_history (v : gmap (string * string * N) HistoryRow) (r : Tables) : Tables :=
  mkTables (t_members r) (t_smasters r) (t_principals r) (t_credentials r)
    (t_principal_sessions r) (t_member_suspensions r) (t_invites r) (t_bans r)
    (t_admin_sessions r) (t_rooms r) (t_assignments r) (t_stock r) (t_joins r)
    (t_messages r) (t_reactions r) (t_notes r) (t_note_revisions r) (t_tasks r)
    (t_goals r) (t_waits r) (t_care_marks r) (t_attentions r) (t_outbox r) (t_journal r)
    (t_blobs r) (t_pending r) (t_refs r) (t_memory r) (t_entries r) (t_wiki r) (t_pages r)
    v (t_batches r) (t_leases r) (t_receipts r) (t_runtime r) (t_selection r)
    (t_context_receipts r).
Definition with_t_batches (v : gmap N BatchRow) (r : Tables) : Tables :=
  mkTables (t_members r) (t_smasters r) (t_principals r) (t_credentials r)
    (t_principal_sessions r) (t_member_suspensions r) (t_invites r) (t_bans r)
    (t_admin_sessions r) (t_rooms r) (t_assignments r) (t_stock r) (t_joins r)
    (t_messages r) (t_reactions r) (t_notes r) (t_note_revisions r) (t_tasks r)
    (t_goals r) (t_waits r) (t_care_marks r) (t_attentions r) (t_outbox r) (t_journal r)
    (t_blobs r) (t_pending r) (t_refs r) (t_memory r) (t_entries r) (t_wiki r) (t_pages r)
    (t_history r) v (t_leases r) (t_receipts r) (t_runtime r) (t_selection r)
    (t_context_receipts r).
Definition with_t_leases (v : gmap (N * N) N) (r : Tables) : Tables :=
  mkTables (t_members r) (t_smasters r) (t_principals r) (t_credentials r)
    (t_principal_sessions r) (t_member_suspensions r) (t_invites r) (t_bans r)
    (t_admin_sessions r) (t_rooms r) (t_assignments r) (t_stock r) (t_joins r)
    (t_messages r) (t_reactions r) (t_notes r) (t_note_revisions r) (t_tasks r)
    (t_goals r) (t_waits r) (t_care_marks r) (t_attentions r) (t_outbox r) (t_journal r)
    (t_blobs r) (t_pending r) (t_refs r) (t_memory r) (t_entries r) (t_wiki r) (t_pages r)
    (t_history r) (t_batches r) v (t_receipts r) (t_runtime r) (t_selection r)
    (t_context_receipts r).
Definition with_t_receipts (v : gmap (string * N * N) ReceiptRow) (r : Tables) : Tables :=
  mkTables (t_members r) (t_smasters r) (t_principals r) (t_credentials r)
    (t_principal_sessions r) (t_member_suspensions r) (t_invites r) (t_bans r)
    (t_admin_sessions r) (t_rooms r) (t_assignments r) (t_stock r) (t_joins r)
    (t_messages r) (t_reactions r) (t_notes r) (t_note_revisions r) (t_tasks r)
    (t_goals r) (t_waits r) (t_care_marks r) (t_attentions r) (t_outbox r) (t_journal r)
    (t_blobs r) (t_pending r) (t_refs r) (t_memory r) (t_entries r) (t_wiki r) (t_pages r)
    (t_history r) (t_batches r) (t_leases r) v (t_runtime r) (t_selection r)
    (t_context_receipts r).
Definition with_t_runtime (v : gmap (string * string) (string * N)) (r : Tables) : Tables :=
  mkTables (t_members r) (t_smasters r) (t_principals r) (t_credentials r)
    (t_principal_sessions r) (t_member_suspensions r) (t_invites r) (t_bans r)
    (t_admin_sessions r) (t_rooms r) (t_assignments r) (t_stock r) (t_joins r)
    (t_messages r) (t_reactions r) (t_notes r) (t_note_revisions r) (t_tasks r)
    (t_goals r) (t_waits r) (t_care_marks r) (t_attentions r) (t_outbox r) (t_journal r)
    (t_blobs r) (t_pending r) (t_refs r) (t_memory r) (t_entries r) (t_wiki r) (t_pages r)
    (t_history r) (t_batches r) (t_leases r) (t_receipts r) v (t_selection r)
    (t_context_receipts r).
Definition with_t_selection (v : gmap (string * string) SelectionRow) (r : Tables) : Tables :=
  mkTables (t_members r) (t_smasters r) (t_principals r) (t_credentials r)
    (t_principal_sessions r) (t_member_suspensions r) (t_invites r) (t_bans r)
    (t_admin_sessions r) (t_rooms r) (t_assignments r) (t_stock r) (t_joins r)
    (t_messages r) (t_reactions r) (t_notes r) (t_note_revisions r) (t_tasks r)
    (t_goals r) (t_waits r) (t_care_marks r) (t_attentions r) (t_outbox r) (t_journal r)
    (t_blobs r) (t_pending r) (t_refs r) (t_memory r) (t_entries r) (t_wiki r) (t_pages r)
    (t_history r) (t_batches r) (t_leases r) (t_receipts r) (t_runtime r) v
    (t_context_receipts r).
Definition with_t_context_receipts (v : gmap (string * string) (list (string * string * N * N * N))) (r : Tables) : Tables :=
  mkTables (t_members r) (t_smasters r) (t_principals r) (t_credentials r)
    (t_principal_sessions r) (t_member_suspensions r) (t_invites r) (t_bans r)
    (t_admin_sessions r) (t_rooms r) (t_assignments r) (t_stock r) (t_joins r)
    (t_messages r) (t_reactions r) (t_notes r) (t_note_revisions r) (t_tasks r)
    (t_goals r) (t_waits r) (t_care_marks r) (t_attentions r) (t_outbox r) (t_journal r)
    (t_blobs r) (t_pending r) (t_refs r) (t_memory r) (t_entries r) (t_wiki r) (t_pages r)
    (t_history r) (t_batches r) (t_leases r) (t_receipts r) (t_runtime r) (t_selection r)
    v.

Definition no_tables : Tables :=
  mkTables ∅ ∅ ∅ ∅ ∅ ∅ ∅ ∅ ∅ ∅ ∅ ∅ ∅ ∅ ∅ ∅ ∅ ∅ ∅ ∅ ∅ ∅ ∅ ∅ ∅ ∅ ∅ ∅ ∅ ∅ ∅ ∅ ∅ ∅ ∅ ∅ ∅ ∅.
