(* ===== verification/Hub.v ===== *)
(** * The hub's state

    [Room] and [Hub] of crates/server/src/hub.rs.  A [tokio::broadcast]
    channel is the list of frames sent on it, oldest first ([r_tx],
    [h_lobby_tx]); a mutex-guarded map of the hub is a field, and an operation
    that holds the [rooms] lock from start to end is one transition of the
    state.  [h_clock] is what [(self.now_ms)()] returns; an operation reads it
    at one instant.  The operating system's CSPRNG is the class [Csprng], and
    [h_entropy] counts the draws made from it. *)

From Stdlib Require Import Ascii.
From S2P Require Import Prelude Text Net Protocol StoreApi.

(** @src hub struct RuntimeRecord *)
Record RuntimeRecord : Type := mkRuntimeRecord {
  rr_wake : string;
  rr_ack : string;
  rr_delivery_id : option string;
  rr_attention_id : option string;
  rr_stored : bool;
  rr_accepted : bool;
  rr_first_response : bool;
  rr_final_response : bool;
  rr_turn_completed : bool;
  rr_seen_at : N;
  rr_progress_at : N;
}.

(** @src hub const HISTORY_LIMIT *)
Definition HISTORY_LIMIT : nat := 200.
(** @src hub const MAX_ATTACHMENTS_PER_MESSAGE *)
Definition MAX_ATTACHMENTS_PER_MESSAGE : nat := 4.
(** @src hub const LOCA_KAPASITE *)
Definition LOCA_KAPASITE : nat := 7.

(** @src hub struct CareMark *)
Record CareMark : Type := mkCareMark {
  mark_last_signal_at : N;
  mark_signal_count : N;
}.
#[global] Instance CareMark_eq_dec : EqDecision CareMark.
Proof. solve_decision. Defined.

(** @src hub struct CareDraft *)
Record CareDraft : Type := mkCareDraft {
  draft_attention_key : string;
  draft_owner : option string;
  draft_owner_principal_id : option string;
  draft_group : option string;
  draft_reason : CareReason;
  draft_target : option string;
  draft_participants : list string;
  draft_subject : string;
  draft_attempt : N;
  draft_at : N;
  draft_escalated : bool;
}.

(** @src hub struct Room *)
Record Room : Type := mkRoom {
  r_history : list Message;
  r_operations : gmap (string * string) Message;
  r_operation_order : list (string * string);
  r_tx : list ServerFrame;
  r_members : gmap string (string * SenderType * N);
  r_notes : gmap string Note;
  r_journal : list JournalEntry;
  r_next_journal_id : N;
  r_next_rev : N;
  r_mode : ChatMode;
  r_settings : RoomSettings;
  r_post_times : gmap string (list N);
  r_muted : gset string;
  r_banned : gset string;
  r_last_msg_ms : N;
  r_tasks : gmap N Task;
  r_next_task_id : N;
  r_goals : gmap N Goal;
  r_next_goal_id : N;
  r_waits : gmap string WaitState;
  r_care_marks : gmap string CareMark;
  r_attentions : gmap string Attention;
}.
Definition with_r_history (v : list Message) (r : Room) : Room :=
  mkRoom v (r_operations r) (r_operation_order r) (r_tx r) (r_members r)
    (r_notes r) (r_journal r) (r_next_journal_id r) (r_next_rev r) (r_mode
    r) (r_settings r) (r_post_times r) (r_muted r) (r_banned r)
    (r_last_msg_ms r) (r_tasks r) (r_next_task_id r) (r_goals r)
    (r_next_goal_id r) (r_waits r) (r_care_marks r) (r_attentions r).
Definition with_r_operations (v : gmap (string * string) Message) (r : Room) : Room :=
  mkRoom (r_history r) v (r_operation_order r) (r_tx r) (r_members r)
    (r_notes r) (r_journal r) (r_next_journal_id r) (r_next_rev r) (r_mode
    r) (r_settings r) (r_post_times r) (r_muted r) (r_banned r)
    (r_last_msg_ms r) (r_tasks r) (r_next_task_id r) (r_goals r)
    (r_next_goal_id r) (r_waits r) (r_care_marks r) (r_attentions r).
Definition with_r_operation_order (v : list (string * string)) (r : Room) : Room :=
  mkRoom (r_history r) (r_operations r) v (r_tx r) (r_members r) (r_notes
    r) (r_journal r) (r_next_journal_id r) (r_next_rev r) (r_mode r)
    (r_settings r) (r_post_times r) (r_muted r) (r_banned r)
    (r_last_msg_ms r) (r_tasks r) (r_next_task_id r) (r_goals r)
    (r_next_goal_id r) (r_waits r) (r_care_marks r) (r_attentions r).
Definition with_r_tx (v : list ServerFrame) (r : Room) : Room :=
  mkRoom (r_history r) (r_operations r) (r_operation_order r) v (r_members
    r) (r_notes r) (r_journal r) (r_next_journal_id r) (r_next_rev r)
    (r_mode r) (r_settings r) (r_post_times r) (r_muted r) (r_banned r)
    (r_last_msg_ms r) (r_tasks r) (r_next_task_id r) (r_goals r)
    (r_next_goal_id r) (r_waits r) (r_care_marks r) (r_attentions r).
Definition with_r_members (v : gmap string (string * SenderType * N)) (r : Room) : Room :=
  mkRoom (r_history r) (r_operations r) (r_operation_order r) (r_tx r) v
    (r_notes r) (r_journal r) (r_next_journal_id r) (r_next_rev r) (r_mode
    r) (r_settings r) (r_post_times r) (r_muted r) (r_banned r)
    (r_last_msg_ms r) (r_tasks r) (r_next_task_id r) (r_goals r)
    (r_next_goal_id r) (r_waits r) (r_care_marks r) (r_attentions r).
Definition with_r_notes (v : gmap string Note) (r : Room) : Room :=
  mkRoom (r_history r) (r_operations r) (r_operation_order r) (r_tx r)
    (r_members r) v (r_journal r) (r_next_journal_id r) (r_next_rev r)
    (r_mode r) (r_settings r) (r_post_times r) (r_muted r) (r_banned r)
    (r_last_msg_ms r) (r_tasks r) (r_next_task_id r) (r_goals r)
    (r_next_goal_id r) (r_waits r) (r_care_marks r) (r_attentions r).
Definition with_r_journal (v : list JournalEntry) (r : Room) : Room :=
  mkRoom (r_history r) (r_operations r) (r_operation_order r) (r_tx r)
    (r_members r) (r_notes r) v (r_next_journal_id r) (r_next_rev r)
    (r_mode r) (r_settings r) (r_post_times r) (r_muted r) (r_banned r)
    (r_last_msg_ms r) (r_tasks r) (r_next_task_id r) (r_goals r)
    (r_next_goal_id r) (r_waits r) (r_care_marks r) (r_attentions r).
Definition with_r_next_journal_id (v : N) (r : Room) : Room :=
  mkRoom (r_history r) (r_operations r) (r_operation_order r) (r_tx r)
    (r_members r) (r_notes r) (r_journal r) v (r_next_rev r) (r_mode r)
    (r_settings r) (r_post_times r) (r_muted r) (r_banned r)
    (r_last_msg_ms r) (r_tasks r) (r_next_task_id r) (r_goals r)
    (r_next_goal_id r) (r_waits r) (r_care_marks r) (r_attentions r).
Definition with_r_next_rev (v : N) (r : Room) : Room :=
  mkRoom (r_history r) (r_operations r) (r_operation_order r) (r_tx r)
    (r_members r) (r_notes r) (r_journal r) (r_next_journal_id r) v
    (r_mode r) (r_settings r) (r_post_times r) (r_muted r) (r_banned r)
    (r_last_msg_ms r) (r_tasks r) (r_next_task_id r) (r_goals r)
    (r_next_goal_id r) (r_waits r) (r_care_marks r) (r_attentions r).
Definition with_r_mode (v : ChatMode) (r : Room) : Room :=
  mkRoom (r_history r) (r_operations r) (r_operation_order r) (r_tx r)
    (r_members r) (r_notes r) (r_journal r) (r_next_journal_id r)
    (r_next_rev r) v (r_settings r) (r_post_times r) (r_muted r) (r_banned
    r) (r_last_msg_ms r) (r_tasks r) (r_next_task_id r) (r_goals r)
    (r_next_goal_id r) (r_waits r) (r_care_marks r) (r_attentions r).
Definition with_r_settings (v : RoomSettings) (r : Room) : Room :=
  mkRoom (r_history r) (r_operations r) (r_operation_order r) (r_tx r)
    (r_members r) (r_notes r) (r_journal r) (r_next_journal_id r)
    (r_next_rev r) (r_mode r) v (r_post_times r) (r_muted r) (r_banned r)
    (r_last_msg_ms r) (r_tasks r) (r_next_task_id r) (r_goals r)
    (r_next_goal_id r) (r_waits r) (r_care_marks r) (r_attentions r).
Definition with_r_post_times (v : gmap string (list N)) (r : Room) : Room :=
  mkRoom (r_history r) (r_operations r) (r_operation_order r) (r_tx r)
    (r_members r) (r_notes r) (r_journal r) (r_next_journal_id r)
    (r_next_rev r) (r_mode r) (r_settings r) v (r_muted r) (r_banned r)
    (r_last_msg_ms r) (r_tasks r) (r_next_task_id r) (r_goals r)
    (r_next_goal_id r) (r_waits r) (r_care_marks r) (r_attentions r).
Definition with_r_muted (v : gset string) (r : Room) : Room :=
  mkRoom (r_history r) (r_operations r) (r_operation_order r) (r_tx r)
    (r_members r) (r_notes r) (r_journal r) (r_next_journal_id r)
    (r_next_rev r) (r_mode r) (r_settings r) (r_post_times r) v (r_banned
    r) (r_last_msg_ms r) (r_tasks r) (r_next_task_id r) (r_goals r)
    (r_next_goal_id r) (r_waits r) (r_care_marks r) (r_attentions r).
Definition with_r_banned (v : gset string) (r : Room) : Room :=
  mkRoom (r_history r) (r_operations r) (r_operation_order r) (r_tx r)
    (r_members r) (r_notes r) (r_journal r) (r_next_journal_id r)
    (r_next_rev r) (r_mode r) (r_settings r) (r_post_times r) (r_muted r)
    v (r_last_msg_ms r) (r_tasks r) (r_next_task_id r) (r_goals r)
    (r_next_goal_id r) (r_waits r) (r_care_marks r) (r_attentions r).
Definition with_r_last_msg_ms (v : N) (r : Room) : Room :=
  mkRoom (r_history r) (r_operations r) (r_operation_order r) (r_tx r)
    (r_members r) (r_notes r) (r_journal r) (r_next_journal_id r)
    (r_next_rev r) (r_mode r) (r_settings r) (r_post_times r) (r_muted r)
    (r_banned r) v (r_tasks r) (r_next_task_id r) (r_goals r)
    (r_next_goal_id r) (r_waits r) (r_care_marks r) (r_attentions r).
Definition with_r_tasks (v : gmap N Task) (r : Room) : Room :=
  mkRoom (r_history r) (r_operations r) (r_operation_order r) (r_tx r)
    (r_members r) (r_notes r) (r_journal r) (r_next_journal_id r)
    (r_next_rev r) (r_mode r) (r_settings r) (r_post_times r) (r_muted r)
    (r_banned r) (r_last_msg_ms r) v (r_next_task_id r) (r_goals r)
    (r_next_goal_id r) (r_waits r) (r_care_marks r) (r_attentions r).
Definition with_r_next_task_id (v : N) (r : Room) : Room :=
  mkRoom (r_history r) (r_operations r) (r_operation_order r) (r_tx r)
    (r_members r) (r_notes r) (r_journal r) (r_next_journal_id r)
    (r_next_rev r) (r_mode r) (r_settings r) (r_post_times r) (r_muted r)
    (r_banned r) (r_last_msg_ms r) (r_tasks r) v (r_goals r)
    (r_next_goal_id r) (r_waits r) (r_care_marks r) (r_attentions r).
Definition with_r_goals (v : gmap N Goal) (r : Room) : Room :=
  mkRoom (r_history r) (r_operations r) (r_operation_order r) (r_tx r)
    (r_members r) (r_notes r) (r_journal r) (r_next_journal_id r)
    (r_next_rev r) (r_mode r) (r_settings r) (r_post_times r) (r_muted r)
    (r_banned r) (r_last_msg_ms r) (r_tasks r) (r_next_task_id r) v
    (r_next_goal_id r) (r_waits r) (r_care_marks r) (r_attentions r).
Definition with_r_next_goal_id (v : N) (r : Room) : Room :=
  mkRoom (r_history r) (r_operations r) (r_operation_order r) (r_tx r)
    (r_members r) (r_notes r) (r_journal r) (r_next_journal_id r)
    (r_next_rev r) (r_mode r) (r_settings r) (r_post_times r) (r_muted r)
    (r_banned r) (r_last_msg_ms r) (r_tasks r) (r_next_task_id r) (r_goals
    r) v (r_waits r) (r_care_marks r) (r_attentions r).
Definition with_r_waits (v : gmap string WaitState) (r : Room) : Room :=
  mkRoom (r_history r) (r_operations r) (r_operation_order r) (r_tx r)
    (r_members r) (r_notes r) (r_journal r) (r_next_journal_id r)
    (r_next_rev r) (r_mode r) (r_settings r) (r_post_times r) (r_muted r)
    (r_banned r) (r_last_msg_ms r) (r_tasks r) (r_next_task_id r) (r_goals
    r) (r_next_goal_id r) v (r_care_marks r) (r_attentions r).
Definition with_r_care_marks (v : gmap string CareMark) (r : Room) : Room :=
  mkRoom (r_history r) (r_operations r) (r_operation_order r) (r_tx r)
    (r_members r) (r_notes r) (r_journal r) (r_next_journal_id r)
    (r_next_rev r) (r_mode r) (r_settings r) (r_post_times r) (r_muted r)
    (r_banned r) (r_last_msg_ms r) (r_tasks r) (r_next_task_id r) (r_goals
    r) (r_next_goal_id r) (r_waits r) v (r_attentions r).
Definition with_r_attentions (v : gmap string Attention) (r : Room) : Room :=
  mkRoom (r_history r) (r_operations r) (r_operation_order r) (r_tx r)
    (r_members r) (r_notes r) (r_journal r) (r_next_journal_id r)
    (r_next_rev r) (r_mode r) (r_settings r) (r_post_times r) (r_muted r)
    (r_banned r) (r_last_msg_ms r) (r_tasks r) (r_next_task_id r) (r_goals
    r) (r_next_goal_id r) (r_waits r) (r_care_marks r) v.

(** @src hub:155-181 Room::with *)
Definition room_with (mode : ChatMode) (settings : RoomSettings) (next_rev : N) : Room := {|
  r_history := []; r_operations := ∅; r_operation_order := []; r_tx := [];
  r_members := ∅; r_notes := ∅; r_journal := []; r_next_journal_id := 1;
  r_next_rev := next_rev; r_mode := mode; r_settings := settings;
  r_post_times := ∅; r_muted := ∅; r_banned := ∅; r_last_msg_ms := 0;
  r_tasks := ∅; r_next_task_id := 1; r_goals := ∅; r_next_goal_id := 1;
  r_waits := ∅; r_care_marks := ∅; r_attentions := ∅;
|}.

(** @src hub fn member_list *)
Definition member_list (r : Room) : list Member :=
  sort_by_str member_name
    ((fun m : string * SenderType * N => mkMember m.1.1 m.1.2) <$> values (r_members r)).

(** [let _ = r.tx.send(frame)] *)
Definition send (f : ServerFrame) (r : Room) : Room :=
  with_r_tx (r_tx r ++ [f]) r.

(** @src hub struct AdminPairing *)
Record AdminPairing : Type := mkAdminPairing {
  ap_code : string;
  ap_session_ttl_ms : N;
  ap_expires_at_ms : N;
}.

(** @src hub enum LobbyEvent *)
Inductive LobbyEvent : Type :=
  | Called (member room token : string)
  | MembershipRevoked (member : string)
  | MembershipSuspended (member : string).
#[global] Instance LobbyEvent_eq_dec : EqDecision LobbyEvent.
Proof. solve_decision. Defined.

(** @src hub enum EnterDecision *)
Inductive EnterDecision : Type :=
  | Allowed
  | Denied
  | Banned.
#[global] Instance EnterDecision_eq_dec : EqDecision EnterDecision.
Proof. solve_decision. Defined.

(** @src hub enum InviteError *)
Inductive InviteError : Type :=
  | InvMissingRoom
  | InvMemberNotFound
  | InvAlreadyInvited
  | InvFull
  | InvStorage
  | InvReserved
  | InvSealed.
#[global] Instance InviteError_eq_dec : EqDecision InviteError.
Proof. solve_decision. Defined.

(** @src hub enum LeadError *)
Inductive LeadError : Type :=
  | LeadActiveGoal
  | LeadStorage.
#[global] Instance LeadError_eq_dec : EqDecision LeadError.
Proof. solve_decision. Defined.

(** @src hub struct SessionIdentity *)
Record SessionIdentity : Type := mkSessionIdentity {
  sess_principal_id : option string;
  sess_building_role : BuildingRole;
  sess_name : string;
  sess_kind : SenderType;
  sess_loca : option string;
  sess_member : option string;
  sess_admin : bool;
  sess_expires_at : N;
}.

(** @src hub struct RequestAuthority *)
Record RequestAuthority : Type := mkRequestAuthority {
  ra_principal_id : option string;
  ra_display_name : option string;
  ra_kind : option SenderType;
  ra_building_role : option BuildingRole;
}.

(** @src hub struct Hub *)
Record Hub (St : Type) : Type := mkHub {
  h_rooms : gmap string Room;
  h_deleted : gset string;
  h_next_id : N;
  h_condition_generation : N;
  h_clock : N;
  h_entropy : N;
  h_admin_token : string;
  h_room_token : string;
  h_store : St;
  h_default_settings : RoomSettings;
  h_epoch : N;
  h_members : gmap string Membership;
  h_smasters : gmap string string;
  h_sessions : gmap string SessionIdentity;
  h_admin_pairing : AdminPairing;
  h_join_create_times : gmap IpAddr (list N);
  h_require_sessions : bool;
  h_require_invite : bool;
  h_invites : gmap string Invite;
  h_lobby_tx : list LobbyEvent;
  h_lobby_online : gmap string N;
  h_runtime_health : gmap string RuntimeRecord;
  h_care_deliveries : gmap string string;
  h_home_room : string;
  h_reserved_room : string;
  h_caretakers : gset string;
}.
Arguments mkHub {_}.
Arguments h_rooms {_} _.
Arguments h_deleted {_} _.
Arguments h_next_id {_} _.
Arguments h_condition_generation {_} _.
Arguments h_clock {_} _.
Arguments h_entropy {_} _.
Arguments h_admin_token {_} _.
Arguments h_room_token {_} _.
Arguments h_store {_} _.
Arguments h_default_settings {_} _.
Arguments h_epoch {_} _.
Arguments h_members {_} _.
Arguments h_smasters {_} _.
Arguments h_sessions {_} _.
Arguments h_admin_pairing {_} _.
Arguments h_join_create_times {_} _.
Arguments h_require_sessions {_} _.
Arguments h_require_invite {_} _.
Arguments h_invites {_} _.
Arguments h_lobby_tx {_} _.
Arguments h_lobby_online {_} _.
Arguments h_runtime_health {_} _.
Arguments h_care_deliveries {_} _.
Arguments h_home_room {_} _.
Arguments h_reserved_room {_} _.
Arguments h_caretakers {_} _.
Definition with_h_rooms {St : Type} (v : gmap string Room) (r : Hub St) : Hub St :=
  mkHub v (h_deleted r) (h_next_id r) (h_condition_generation r) (h_clock
    r) (h_entropy r) (h_admin_token r) (h_room_token r) (h_store r)
    (h_default_settings r) (h_epoch r) (h_members r) (h_smasters r)
    (h_sessions r) (h_admin_pairing r) (h_join_create_times r)
    (h_require_sessions r) (h_require_invite r) (h_invites r) (h_lobby_tx
    r) (h_lobby_online r) (h_runtime_health r) (h_care_deliveries r)
    (h_home_room r) (h_reserved_room r) (h_caretakers r).
Definition with_h_deleted {St : Type} (v : gset string) (r : Hub St) : Hub St :=
  mkHub (h_rooms r) v (h_next_id r) (h_condition_generation r) (h_clock r)
    (h_entropy r) (h_admin_token r) (h_room_token r) (h_store r)
    (h_default_settings r) (h_epoch r) (h_members r) (h_smasters r)
    (h_sessions r) (h_admin_pairing r) (h_join_create_times r)
    (h_require_sessions r) (h_require_invite r) (h_invites r) (h_lobby_tx
    r) (h_lobby_online r) (h_runtime_health r) (h_care_deliveries r)
    (h_home_room r) (h_reserved_room r) (h_caretakers r).
Definition with_h_next_id {St : Type} (v : N) (r : Hub St) : Hub St :=
  mkHub (h_rooms r) (h_deleted r) v (h_condition_generation r) (h_clock r)
    (h_entropy r) (h_admin_token r) (h_room_token r) (h_store r)
    (h_default_settings r) (h_epoch r) (h_members r) (h_smasters r)
    (h_sessions r) (h_admin_pairing r) (h_join_create_times r)
    (h_require_sessions r) (h_require_invite r) (h_invites r) (h_lobby_tx
    r) (h_lobby_online r) (h_runtime_health r) (h_care_deliveries r)
    (h_home_room r) (h_reserved_room r) (h_caretakers r).
Definition with_h_condition_generation {St : Type} (v : N) (r : Hub St) : Hub St :=
  mkHub (h_rooms r) (h_deleted r) (h_next_id r) v (h_clock r) (h_entropy
    r) (h_admin_token r) (h_room_token r) (h_store r) (h_default_settings
    r) (h_epoch r) (h_members r) (h_smasters r) (h_sessions r)
    (h_admin_pairing r) (h_join_create_times r) (h_require_sessions r)
    (h_require_invite r) (h_invites r) (h_lobby_tx r) (h_lobby_online r)
    (h_runtime_health r) (h_care_deliveries r) (h_home_room r)
    (h_reserved_room r) (h_caretakers r).
Definition with_h_clock {St : Type} (v : N) (r : Hub St) : Hub St :=
  mkHub (h_rooms r) (h_deleted r) (h_next_id r) (h_condition_generation r)
    v (h_entropy r) (h_admin_token r) (h_room_token r) (h_store r)
    (h_default_settings r) (h_epoch r) (h_members r) (h_smasters r)
    (h_sessions r) (h_admin_pairing r) (h_join_create_times r)
    (h_require_sessions r) (h_require_invite r) (h_invites r) (h_lobby_tx
    r) (h_lobby_online r) (h_runtime_health r) (h_care_deliveries r)
    (h_home_room r) (h_reserved_room r) (h_caretakers r).
Definition with_h_entropy {St : Type} (v : N) (r : Hub St) : Hub St :=
  mkHub (h_rooms r) (h_deleted r) (h_next_id r) (h_condition_generation r)
    (h_clock r) v (h_admin_token r) (h_room_token r) (h_store r)
    (h_default_settings r) (h_epoch r) (h_members r) (h_smasters r)
    (h_sessions r) (h_admin_pairing r) (h_join_create_times r)
    (h_require_sessions r) (h_require_invite r) (h_invites r) (h_lobby_tx
    r) (h_lobby_online r) (h_runtime_health r) (h_care_deliveries r)
    (h_home_room r) (h_reserved_room r) (h_caretakers r).
Definition with_h_store {St : Type} (v : St) (r : Hub St) : Hub St :=
  mkHub (h_rooms r) (h_deleted r) (h_next_id r) (h_condition_generation r)
    (h_clock r) (h_entropy r) (h_admin_token r) (h_room_token r) v
    (h_default_settings r) (h_epoch r) (h_members r) (h_smasters r)
    (h_sessions r) (h_admin_pairing r) (h_join_create_times r)
    (h_require_sessions r) (h_require_invite r) (h_invites r) (h_lobby_tx
    r) (h_lobby_online r) (h_runtime_health r) (h_care_deliveries r)
    (h_home_room r) (h_reserved_room r) (h_caretakers r).
Definition with_h_members {St : Type} (v : gmap string Membership) (r : Hub St) : Hub St :=
  mkHub (h_rooms r) (h_deleted r) (h_next_id r) (h_condition_generation r)
    (h_clock r) (h_entropy r) (h_admin_token r) (h_room_token r) (h_store
    r) (h_default_settings r) (h_epoch r) v (h_smasters r) (h_sessions r)
    (h_admin_pairing r) (h_join_create_times r) (h_require_sessions r)
    (h_require_invite r) (h_invites r) (h_lobby_tx r) (h_lobby_online r)
    (h_runtime_health r) (h_care_deliveries r) (h_home_room r)
    (h_reserved_room r) (h_caretakers r).
Definition with_h_smasters {St : Type} (v : gmap string string) (r : Hub St) : Hub St :=
  mkHub (h_rooms r) (h_deleted r) (h_next_id r) (h_condition_generation r)
    (h_clock r) (h_entropy r) (h_admin_token r) (h_room_token r) (h_store
    r) (h_default_settings r) (h_epoch r) (h_members r) v (h_sessions r)
    (h_admin_pairing r) (h_join_create_times r) (h_require_sessions r)
    (h_require_invite r) (h_invites r) (h_lobby_tx r) (h_lobby_online r)
    (h_runtime_health r) (h_care_deliveries r) (h_home_room r)
    (h_reserved_room r) (h_caretakers r).
Definition with_h_sessions {St : Type} (v : gmap string SessionIdentity) (r : Hub St) : Hub St :=
  mkHub (h_rooms r) (h_deleted r) (h_next_id r) (h_condition_generation r)
    (h_clock r) (h_entropy r) (h_admin_token r) (h_room_token r) (h_store
    r) (h_default_settings r) (h_epoch r) (h_members r) (h_smasters r) v
    (h_admin_pairing r) (h_join_create_times r) (h_require_sessions r)
    (h_require_invite r) (h_invites r) (h_lobby_tx r) (h_lobby_online r)
    (h_runtime_health r) (h_care_deliveries r) (h_home_room r)
    (h_reserved_room r) (h_caretakers r).
Definition with_h_admin_pairing {St : Type} (v : AdminPairing) (r : Hub St) : Hub St :=
  mkHub (h_rooms r) (h_deleted r) (h_next_id r) (h_condition_generation r)
    (h_clock r) (h_entropy r) (h_admin_token r) (h_room_token r) (h_store
    r) (h_default_settings r) (h_epoch r) (h_members r) (h_smasters r)
    (h_sessions r) v (h_join_create_times r) (h_require_sessions r)
    (h_require_invite r) (h_invites r) (h_lobby_tx r) (h_lobby_online r)
    (h_runtime_health r) (h_care_deliveries r) (h_home_room r)
    (h_reserved_room r) (h_caretakers r).
Definition with_h_join_create_times {St : Type} (v : gmap IpAddr (list N)) (r : Hub St) : Hub St :=
  mkHub (h_rooms r) (h_deleted r) (h_next_id r) (h_condition_generation r)
    (h_clock r) (h_entropy r) (h_admin_token r) (h_room_token r) (h_store
    r) (h_default_settings r) (h_epoch r) (h_members r) (h_smasters r)
    (h_sessions r) (h_admin_pairing r) v (h_require_sessions r)
    (h_require_invite r) (h_invites r) (h_lobby_tx r) (h_lobby_online r)
    (h_runtime_health r) (h_care_deliveries r) (h_home_room r)
    (h_reserved_room r) (h_caretakers r).
Definition with_h_invites {St : Type} (v : gmap string Invite) (r : Hub St) : Hub St :=
  mkHub (h_rooms r) (h_deleted r) (h_next_id r) (h_condition_generation r)
    (h_clock r) (h_entropy r) (h_admin_token r) (h_room_token r) (h_store
    r) (h_default_settings r) (h_epoch r) (h_members r) (h_smasters r)
    (h_sessions r) (h_admin_pairing r) (h_join_create_times r)
    (h_require_sessions r) (h_require_invite r) v (h_lobby_tx r)
    (h_lobby_online r) (h_runtime_health r) (h_care_deliveries r)
    (h_home_room r) (h_reserved_room r) (h_caretakers r).
Definition with_h_lobby_tx {St : Type} (v : list LobbyEvent) (r : Hub St) : Hub St :=
  mkHub (h_rooms r) (h_deleted r) (h_next_id r) (h_condition_generation r)
    (h_clock r) (h_entropy r) (h_admin_token r) (h_room_token r) (h_store
    r) (h_default_settings r) (h_epoch r) (h_members r) (h_smasters r)
    (h_sessions r) (h_admin_pairing r) (h_join_create_times r)
    (h_require_sessions r) (h_require_invite r) (h_invites r) v
    (h_lobby_online r) (h_runtime_health r) (h_care_deliveries r)
    (h_home_room r) (h_reserved_room r) (h_caretakers r).
Definition with_h_lobby_online {St : Type} (v : gmap string N) (r : Hub St) : Hub St :=
  mkHub (h_rooms r) (h_deleted r) (h_next_id r) (h_condition_generation r)
    (h_clock r) (h_entropy r) (h_admin_token r) (h_room_token r) (h_store
    r) (h_default_settings r) (h_epoch r) (h_members r) (h_smasters r)
    (h_sessions r) (h_admin_pairing r) (h_join_create_times r)
    (h_require_sessions r) (h_require_invite r) (h_invites r) (h_lobby_tx
    r) v (h_runtime_health r) (h_care_deliveries r) (h_home_room r)
    (h_reserved_room r) (h_caretakers r).
Definition with_h_runtime_health {St : Type} (v : gmap string RuntimeRecord) (r : Hub St) : Hub St :=
  mkHub (h_rooms r) (h_deleted r) (h_next_id r) (h_condition_generation r)
    (h_clock r) (h_entropy r) (h_admin_token r) (h_room_token r) (h_store
    r) (h_default_settings r) (h_epoch r) (h_members r) (h_smasters r)
    (h_sessions r) (h_admin_pairing r) (h_join_create_times r)
    (h_require_sessions r) (h_require_invite r) (h_invites r) (h_lobby_tx
    r) (h_lobby_online r) v (h_care_deliveries r) (h_home_room r)
    (h_reserved_room r) (h_caretakers r).
Definition with_h_care_deliveries {St : Type} (v : gmap string string) (r : Hub St) : Hub St :=
  mkHub (h_rooms r) (h_deleted r) (h_next_id r) (h_condition_generation r)
    (h_clock r) (h_entropy r) (h_admin_token r) (h_room_token r) (h_store
    r) (h_default_settings r) (h_epoch r) (h_members r) (h_smasters r)
    (h_sessions r) (h_admin_pairing r) (h_join_create_times r)
    (h_require_sessions r) (h_require_invite r) (h_invites r) (h_lobby_tx
    r) (h_lobby_online r) (h_runtime_health r) v (h_home_room r)
    (h_reserved_room r) (h_caretakers r).

(** ** Errors *)

(** @src hub enum PostReject *)
Inductive PostReject : Type :=
  | RejPaused
  | RejNotAllowed
  | RejNotYourTurn (whose : option string)
  | RejRateLimited (retry_after_secs : N)
  | RejMuted
  | RejBanned
  | RejArchived
  | RejDeleted
  | RejStorage
  | RejTooManyAttachments (max : nat)
  | RejUnknownAttachment.
#[global] Instance PostReject_eq_dec : EqDecision PostReject.
Proof. solve_decision. Defined.

(** @src hub enum ReactionReject *)
Inductive ReactionReject : Type :=
  | ReactInvalidEmoji
  | ReactNotFound
  | ReactOwnMessage
  | ReactReadOnly
  | ReactStorage.
#[global] Instance ReactionReject_eq_dec : EqDecision ReactionReject.
Proof. solve_decision. Defined.

(** @src hub enum DeleteReject *)
Inductive DeleteReject : Type :=
  | DelNotArchived
  | DelStorage.
#[global] Instance DeleteReject_eq_dec : EqDecision DeleteReject.
Proof. solve_decision. Defined.

(** @src hub enum AttentionError *)
Inductive AttentionError : Type :=
  | AttnErrNotFound
  | AttnErrNoRecipient
  | AttnErrForbidden
  | AttnErrConflict
  | AttnErrStorage.
#[global] Instance AttentionError_eq_dec : EqDecision AttentionError.
Proof. solve_decision. Defined.

(** @src hub enum NoteError *)
Inductive NoteError : Type :=
  | NoteExists
  | NoteNotFound
  | NoteStorage.
#[global] Instance NoteError_eq_dec : EqDecision NoteError.
Proof. solve_decision. Defined.

(** @src hub/work/mod.rs enum TaskError *)
Inductive TaskError : Type :=
  | TaskErrNotFound
  | TaskErrForbidden
  | TaskErrStorage.
#[global] Instance TaskError_eq_dec : EqDecision TaskError.
Proof. solve_decision. Defined.

(** @src hub/work/mod.rs enum GoalError *)
Inductive GoalError : Type :=
  | GoalErrNotFound
  | GoalErrActiveExists
  | GoalErrLeadRequired
  | GoalErrInvalidTasks
  | GoalErrStorage.
#[global] Instance GoalError_eq_dec : EqDecision GoalError.
Proof. solve_decision. Defined.

(** @src hub/work/mod.rs enum WaitError *)
Inductive WaitError : Type :=
  | WaitErrNotFound
  | WaitErrSelfWait
  | WaitErrStorage.
#[global] Instance WaitError_eq_dec : EqDecision WaitError.
Proof. solve_decision. Defined.

(** ** Randomness

    [secure_token] draws from the operating system's CSPRNG; the [k]-th draw
    of [n] bytes is a parameter. *)
Class Csprng : Type := {
  random_bytes : N -> nat -> list N;
  random_bytes_length : forall k n, length (random_bytes k n) = n;
}.

Definition hex_digit (n : N) : ascii :=
  if (n <? 10)%N then ascii_of_N (48 + n) else ascii_of_N (87 + n).
(** [{byte:02x}] *)
Definition hex_byte (b : N) : string :=
  String (hex_digit (b / 16)) (String (hex_digit (b mod 16)) EmptyString).
Fixpoint hex_bytes (l : list N) : string :=
  match l with [] => EmptyString | b :: rest => hex_byte b +:+ hex_bytes rest end.

(** ** Basic access to the state *)

Section hub.
Context {St : Type}.
Implicit Types h : Hub St.

Definition put_room (name : string) (r : Room) h : Hub St :=
  with_h_rooms (<[name := r]> (h_rooms h)) h.

(** The entry [room_mut] returns a reference to. *)
Definition entry_room (name : string) h : Room :=
  default (room_with Free (h_default_settings h) 1) (h_rooms h !! name).

(** Get-or-create: the room is in the map afterwards. *)
(** @src hub fn room_mut *)
Definition room_mut (name : string) h : Hub St :=
  put_room name (entry_room name h) h.

(** @src hub fn room_exists *)
Definition room_exists h (room : string) : bool :=
  match h_rooms h !! room with Some _ => true | None => false end.

(** @src hub fn is_deleted *)
Definition is_deleted h (room : string) : bool :=
  negb (bool_decide (room = h_home_room h)) && bool_decide (room ∈ h_deleted h).

(** @src hub fn is_archived *)
Definition is_archived h (room : string) : bool :=
  match h_rooms h !! room with
  | Some r => rs_archived (r_settings r)
  | None => false
  end.

(** @src hub fn is_writable *)
Definition is_writable h (room : string) : bool :=
  negb (is_deleted h room) && negb (is_archived h room).

(** [self.next_id.fetch_add(1, Relaxed)]: the value before the addition. *)
(** @src hub fn next_session_id *)
Definition fetch_next_id h : Hub St * N :=
  (with_h_next_id (wrap_add64 (h_next_id h) 1) h, h_next_id h).

(** The compare-exchange loop installs the value it computed from the
    generation it read. *)
(** @src hub fn next_condition_generation *)
Definition next_condition_generation (now previous : N) h : Hub St * N :=
  let floor := N.max now (sat_add64 previous 1) in
  let next := N.max floor (sat_add64 (h_condition_generation h) 1) in
  (with_h_condition_generation next h, next).

(** @src hub fn secure_token *)
Definition secure_token `{Csprng} (prefix : string) (bytes : nat) h : Hub St * string :=
  (with_h_entropy (h_entropy h + 1) h,
   prefix +:+ hex_bytes (random_bytes (h_entropy h) bytes)).

(** A call of a writing store method. *)
Definition run_store {A} (f : St -> St * A) h : Hub St * A :=
  let '(s, a) := f (h_store h) in (with_h_store s h, a).

(** *** The condition generation

    Every generation is later than the one before it, than the previous
    value of the condition, and than the clock, short of the end of [u64]. *)
Lemma next_condition_generation_gt now previous h h' g :
  next_condition_generation now previous h = (h', g) ->
  (h_condition_generation h < u64_max)%N -> (previous < u64_max)%N ->
  (previous < g)%N /\ (h_condition_generation h < g)%N /\ (now <= g)%N /\
  h_condition_generation h' = g.
Proof.
  unfold next_condition_generation, sat_add64. intros [= <- <-] H1 H2. cbn. lia.
Qed.

Lemma next_condition_generation_state now previous h h' g :
  next_condition_generation now previous h = (h', g) ->
  h' = with_h_condition_generation g h.
Proof. by intros [= <- <-]. Qed.

Lemma entry_room_Some h name r : h_rooms h !! name = Some r -> entry_room name h = r.
Proof. intros E. unfold entry_room. by rewrite E. Qed.

(** A property of every room of the building. *)
Definition all_rooms (P : Room -> Prop) h : Prop :=
  forall name r, h_rooms h !! name = Some r -> P r.

Lemma all_rooms_put (P : Room -> Prop) h name r :
  all_rooms P h -> P r -> all_rooms P (put_room name r h).
Proof.
  intros Hall Hr n r'. cbn. rewrite lookup_insert_Some.
  intros [[<- <-]|[_ Hn]]; eauto.
Qed.

Lemma all_rooms_entry (P : Room -> Prop) h name :
  all_rooms P h -> P (room_with Free (h_default_settings h) 1) -> P (entry_room name h).
Proof.
  intros Hall Hnew. unfold entry_room. destruct (h_rooms h !! name) eqn:E; cbn; eauto.
Qed.

Lemma all_rooms_mut (P : Room -> Prop) h name :
  all_rooms P h -> P (room_with Free (h_default_settings h) 1) ->
  all_rooms P (room_mut name h).
Proof. intros. apply all_rooms_put; [done|]. by apply all_rooms_entry. Qed.

Lemma run_store_state {A} (f : St -> St * A) h h' a :
  run_store f h = (h', a) -> h' = with_h_store (f (h_store h)).1 h /\ a = (f (h_store h)).2.
Proof. unfold run_store. destruct (f (h_store h)). by intros [= <- <-]. Qed.

Lemma put_room_put_room name r r' h :
  put_room name r (put_room name r' h) = put_room name r h.
Proof. unfold put_room. cbn. unfold with_h_rooms at 1 2 3. cbn. by rewrite insert_insert_eq. Qed.

Lemma entry_room_mut name h : entry_room name (room_mut name h) = entry_room name h.
Proof. unfold entry_room at 1. cbn. by rewrite lookup_insert_eq. Qed.

Lemma is_writable_true h room :
  is_writable h room = true <-> is_deleted h room = false /\ is_archived h room = false.
Proof.
  unfold is_writable. destruct (is_deleted h room), (is_archived h room); cbn; intuition congruence.
Qed.
End hub.

Lemma hex_bytes_length l : String.length (hex_bytes l) = 2 * length l.
Proof.
  induction l as [|b l IH]; [done|]. cbn [hex_bytes length].
  change (S (S (String.length (hex_bytes l))) = 2 * S (length l)). lia.
Qed.

(** ** A concrete generator, for the witnesses *)
Definition counter_csprng : Csprng := {|
  random_bytes k n := replicate n (k mod 256)%N;
  random_bytes_length k n := length_replicate n _;
|}.

(** A hub without a database, as a development server starts. *)
Definition empty_hub {St} (s : St) : Hub St := {|
  h_rooms := ∅; h_deleted := ∅; h_next_id := 1; h_condition_generation := 0;
  h_clock := 1000; h_entropy := 0; h_admin_token := "root"; h_room_token := "";
  h_store := s; h_default_settings := room_settings_default; h_epoch := 1;
  h_members := ∅; h_smasters := ∅; h_sessions := ∅;
  h_admin_pairing := mkAdminPairing "pair_00" 43200000 301000;
  h_join_create_times := ∅; h_require_sessions := true; h_require_invite := true;
  h_invites := ∅; h_lobby_tx := []; h_lobby_online := ∅; h_runtime_health := ∅;
  h_care_deliveries := ∅; h_home_room := "home"; h_reserved_room := "home";
  h_caretakers := {["loca-care"]};
|}.
