(* ===== verification/Ledger.v ===== *)
(** * The attention ledger of one room

    The two sweeps that retire attentions when their condition is over
    (crates/server/src/hub/attention/lifecycle.rs).  Both walk a set of ids
    and resolve each attention that is not resolved yet; the lemmas give the
    room they produce in closed form, so that the components that call them
    reason by lookup. *)

From S2P Require Import Prelude Protocol StoreApi Hub.

(** [format!("attention:{room}:{key}")] *)
Definition attention_key_id (room_name key : string) : string :=
  "attention:" +:+ room_name +:+ ":" +:+ key.

(** The id of a condition, or of one of its generations. *)
Definition id_or_generation (id candidate : string) : bool :=
  bool_decide (candidate = id) || starts_with candidate (id +:+ ":").

Definition resolve_at (at_ : N) (a : Attention) : Attention :=
  with_attn_resolved_at (Some at_) (with_attn_status AttnResolved a).

(** The body of the loops: resolve [id] unless it is resolved or gone. *)
Definition resolve_one (at_ : N) (r : Room) (id : string) : Room :=
  match r_attentions r !! id with
  | None => r
  | Some a =>
      if decide (attn_status a = AttnResolved) then r
      else
        let a' := resolve_at at_ a in
        send (SF_Attention a') (with_r_attentions (<[id := a']> (r_attentions r)) r)
  end.

(** @src hub/attention/lifecycle.rs fn resolve_condition_attention *)
Definition resolve_condition_attention (room : Room) (room_name key : string)
    (at_ : N) : Room :=
  let id := attention_key_id room_name key in
  let ids := filter (fun c => id_or_generation id c = true) (keys (r_attentions room)) in
  foldl (resolve_one at_) room ids.

(** The same body, which also drops the reminder mark of a wait cycle. *)
Definition resolve_one_wait (room_name : string) (at_ : N) (r : Room) (id : string) : Room :=
  match r_attentions r !! id with
  | None => r
  | Some a =>
      if decide (attn_status a = AttnResolved) then r
      else
        let a' := resolve_at at_ a in
        let r := with_r_attentions (<[id := a']> (r_attentions r)) r in
        let r :=
          if decide (attn_reason a' = WaitCycle) then
            match strip_prefix id ("attention:" +:+ room_name +:+ ":") with
            | Some signal_key => with_r_care_marks (delete signal_key (r_care_marks r)) r
            | None => r
            end
          else r in
        send (SF_Attention a') r
  end.

(** Is [a], filed under [id], an overdue attention of [waiter] or a wait cycle
    [waiter] takes part in? *)
Definition wait_attention_of (room_name waiter id : string) (a : Attention) : bool :=
  id_or_generation (attention_key_id room_name ("wait:" +:+ waiter)) id
  || (bool_decide (attn_reason a = WaitCycle)
      && bool_decide (waiter ∈ attn_participants a)).

(** @src hub/attention/lifecycle.rs fn resolve_wait_attentions *)
Definition resolve_wait_attentions (room : Room) (room_name waiter : string)
    (at_ : N) : Room :=
  let ids :=
    (filter (fun p : string * Attention => wait_attention_of room_name waiter p.1 p.2 = true)
       (map_to_list (r_attentions room))).*1 in
  foldl (resolve_one_wait room_name at_) room ids.

(** ** Closed forms *)

(** Resolve the selected attentions that are not resolved. *)
Definition resolve_if (at_ : N) (sel : bool) (a : Attention) : Attention :=
  if sel then
    if decide (attn_status a = AttnResolved) then a else resolve_at at_ a
  else a.

Definition resolve_map (at_ : N) (sel : string -> Attention -> bool)
    (m : gmap string Attention) : gmap string Attention :=
  map_imap (fun id a => Some (resolve_if at_ (sel id a) a)) m.

Lemma lookup_resolve_map at_ sel m id :
  resolve_map at_ sel m !! id = (fun a => resolve_if at_ (sel id a) a) <$> (m !! id).
Proof. unfold resolve_map. rewrite map_lookup_imap. by destruct (m !! id). Qed.

Lemma resolve_if_idemp at_ sel a :
  resolve_if at_ sel (resolve_if at_ sel a) = resolve_if at_ sel a.
Proof.
  unfold resolve_if, resolve_at. destruct sel; [|done].
  repeat (case_decide; cbn in *); congruence.
Qed.

Lemma ledger_unchanged r A :
  A = r_attentions r ->
  r = with_r_tx (r_tx r ++ []) (with_r_care_marks (r_care_marks r)
        (with_r_attentions A r)).
Proof. intros ->. destruct r; cbn. by rewrite app_nil_r. Qed.

Lemma ledger_overwrite t t' m m' A A' r :
  with_r_tx t (with_r_care_marks m (with_r_attentions A
    (with_r_tx t' (with_r_care_marks m' (with_r_attentions A' r)))))
  = with_r_tx t (with_r_care_marks m (with_r_attentions A r)).
Proof. reflexivity. Qed.

Section fold.
Context (at_ : N) (step : Room -> string -> Room).
(** What the loop bodies share: they change the channel, the marks and the
    attention they are given, nothing else. *)
Definition resolves_id (r r' : Room) (id : string) : Prop :=
  exists frames marks,
    r' = with_r_tx (r_tx r ++ frames) (with_r_care_marks marks
           (with_r_attentions (alter (resolve_if at_ true) id (r_attentions r)) r)) /\
    marks ⊆ r_care_marks r.
Hypothesis step_resolves : forall r id, resolves_id r (step r id) id.

Lemma foldl_resolves ids r :
  exists frames marks,
    foldl step r ids = with_r_tx (r_tx r ++ frames) (with_r_care_marks marks
      (with_r_attentions
         (resolve_map at_ (fun id _ => bool_decide (id ∈ ids)) (r_attentions r)) r)) /\
    marks ⊆ r_care_marks r.
Proof.
  revert r. induction ids as [|i ids IH]; intros r.
  - exists [], (r_care_marks r). split; [|done]. apply ledger_unchanged.
    apply map_eq. intros j. rewrite lookup_resolve_map.
    rewrite bool_decide_eq_false_2 by set_solver. by destruct (_ !! j).
  - cbn [foldl]. destruct (step_resolves r i) as (f & m & Hs & Hm).
    destruct (IH (step r i)) as (f' & m' & Hf & Hm').
    exists (f ++ f'), m'. rewrite Hf. rewrite Hs in *. clear Hf IH Hs.
    split; [|by etrans]. rewrite ledger_overwrite. rewrite app_assoc.
    do 2 f_equal. apply (f_equal (fun A => with_r_attentions A r)), map_eq. intros j.
    rewrite !lookup_resolve_map.
    cbn [r_attentions with_r_tx with_r_care_marks with_r_attentions].
    rewrite lookup_alter. case_decide as E; [subst j|].
    + rewrite (bool_decide_eq_true_2 (i ∈ i :: ids)) by set_solver.
      destruct (_ !! i) as [a|]; [|done]. cbn. f_equal.
      case_bool_decide; [exact (resolve_if_idemp at_ true a)|done].
    + destruct (_ !! j); [|done]. cbn. do 2 f_equal.
      apply bool_decide_ext. set_solver.
Qed.
End fold.

Lemma resolve_one_resolves at_ r id : resolves_id at_ r (resolve_one at_ r id) id.
Proof.
  unfold resolves_id, resolve_one. destruct (r_attentions r !! id) as [a|] eqn:E.
  - assert (Ha : alter (resolve_if at_ true) id (r_attentions r)
                 = <[id := resolve_if at_ true a]> (r_attentions r)).
    { apply map_eq. intros j. rewrite lookup_alter, lookup_insert.
      case_decide; [by subst; rewrite E|done]. }
    rewrite Ha. unfold resolve_if. case_decide.
    + exists [], (r_care_marks r). split; [|done]. apply ledger_unchanged.
      by apply insert_id.
    + exists [SF_Attention (resolve_at at_ a)], (r_care_marks r). split; done.
  - exists [], (r_care_marks r). split; [|done].
    apply ledger_unchanged, map_eq. intros j. rewrite lookup_alter.
    case_decide; [by subst; rewrite E|done].
Qed.

Lemma resolve_one_wait_resolves room_name at_ r id :
  resolves_id at_ r (resolve_one_wait room_name at_ r id) id.
Proof.
  unfold resolves_id, resolve_one_wait.
  destruct (r_attentions r !! id) as [a|] eqn:E.
  - assert (Ha : alter (resolve_if at_ true) id (r_attentions r)
                 = <[id := resolve_if at_ true a]> (r_attentions r)).
    { apply map_eq. intros j. rewrite lookup_alter, lookup_insert.
      case_decide; [by subst; rewrite E|done]. }
    rewrite Ha. unfold resolve_if. case_decide.
    + exists [], (r_care_marks r). split; [|done]. apply ledger_unchanged.
      by apply insert_id.
    + exists [SF_Attention (resolve_at at_ a)].
      case_decide; [|exists (r_care_marks r); split; done].
      destruct (strip_prefix _ _) as [k|]; [|exists (r_care_marks r); split; done].
      exists (delete k (r_care_marks r)). split; [done|apply delete_subseteq].
  - exists [], (r_care_marks r). split; [|done].
    apply ledger_unchanged, map_eq. intros j. rewrite lookup_alter.
    case_decide; [by subst; rewrite E|done].
Qed.

Lemma resolve_map_ext at_ sel sel' m :
  (forall id a, m !! id = Some a -> sel id a = sel' id a) ->
  resolve_map at_ sel m = resolve_map at_ sel' m.
Proof.
  intros Heq. apply map_eq. intros id. rewrite !lookup_resolve_map.
  destruct (m !! id) as [a|] eqn:E; [|done]. cbn. by rewrite (Heq _ _ E).
Qed.

(** [resolve_condition_attention] resolves exactly the attentions of the
    condition and of its generations. *)
Lemma resolve_condition_attention_eq room room_name key at_ :
  exists frames marks,
    resolve_condition_attention room room_name key at_ =
      with_r_tx (r_tx room ++ frames) (with_r_care_marks marks (with_r_attentions
        (resolve_map at_ (fun id _ => id_or_generation (attention_key_id room_name key) id)
           (r_attentions room)) room)) /\
    marks ⊆ r_care_marks room.
Proof.
  unfold resolve_condition_attention.
  destruct (foldl_resolves at_ _ (resolve_one_resolves at_)
    (filter (fun c => id_or_generation (attention_key_id room_name key) c = true)
       (keys (r_attentions room))) room) as (f & m & Hf & Hm).
  exists f, m. rewrite Hf. split; [|done]. do 3 f_equal.
  apply resolve_map_ext. intros id a Hid.
  destruct (id_or_generation _ id) eqn:E.
  - apply bool_decide_eq_true_2, list_elem_of_filter. split; [done|].
    apply elem_of_keys. eauto.
  - apply bool_decide_eq_false_2. intros [Ht _]%list_elem_of_filter. congruence.
Qed.

(** [resolve_wait_attentions] resolves exactly the overdue attentions of the
    waiter and the cycles the waiter is part of. *)
Lemma resolve_wait_attentions_eq room room_name waiter at_ :
  exists frames marks,
    resolve_wait_attentions room room_name waiter at_ =
      with_r_tx (r_tx room ++ frames) (with_r_care_marks marks (with_r_attentions
        (resolve_map at_ (wait_attention_of room_name waiter) (r_attentions room)) room)) /\
    marks ⊆ r_care_marks room.
Proof.
  unfold resolve_wait_attentions.
  set (ids := (filter _ _).*1).
  destruct (foldl_resolves at_ _ (resolve_one_wait_resolves room_name at_) ids room)
    as (f & m & Hf & Hm).
  exists f, m. rewrite Hf. split; [|done]. do 3 f_equal.
  apply resolve_map_ext. intros id a Hid.
  destruct (wait_attention_of room_name waiter id a) eqn:E.
  - apply bool_decide_eq_true_2, list_elem_of_fmap. exists (id, a). split; [done|].
    apply list_elem_of_filter. split; [done|]. by apply elem_of_map_to_list.
  - apply bool_decide_eq_false_2. subst ids.
    intros ([id' a'] & -> & [Ht Hin%elem_of_map_to_list]%list_elem_of_filter)%list_elem_of_fmap.
    cbn in *. congruence.
Qed.

(** ** Frames: what the two sweeps leave alone *)
Section frames.
Context (r : Room) (room_name key : string) (at_ : N).
Local Ltac by_wait :=
  by destruct (resolve_wait_attentions_eq r room_name key at_) as (? & ? & -> & _).
Local Ltac by_condition :=
  by destruct (resolve_condition_attention_eq r room_name key at_) as (? & ? & -> & _).
Lemma resolve_wait_goals : r_goals (resolve_wait_attentions r room_name key at_) = r_goals r.
Proof. by_wait. Qed.
Lemma resolve_wait_tasks : r_tasks (resolve_wait_attentions r room_name key at_) = r_tasks r.
Proof. by_wait. Qed.
Lemma resolve_wait_waits : r_waits (resolve_wait_attentions r room_name key at_) = r_waits r.
Proof. by_wait. Qed.
Lemma resolve_wait_settings : r_settings (resolve_wait_attentions r room_name key at_) = r_settings r.
Proof. by_wait. Qed.
Lemma resolve_wait_mode : r_mode (resolve_wait_attentions r room_name key at_) = r_mode r.
Proof. by_wait. Qed.
Lemma resolve_wait_history : r_history (resolve_wait_attentions r room_name key at_) = r_history r.
Proof. by_wait. Qed.
Lemma resolve_wait_members : r_members (resolve_wait_attentions r room_name key at_) = r_members r.
Proof. by_wait. Qed.
Lemma resolve_wait_notes : r_notes (resolve_wait_attentions r room_name key at_) = r_notes r.
Proof. by_wait. Qed.
Lemma resolve_wait_journal : r_journal (resolve_wait_attentions r room_name key at_) = r_journal r.
Proof. by_wait. Qed.
Lemma resolve_wait_muted : r_muted (resolve_wait_attentions r room_name key at_) = r_muted r.
Proof. by_wait. Qed.
Lemma resolve_wait_banned : r_banned (resolve_wait_attentions r room_name key at_) = r_banned r.
Proof. by_wait. Qed.
Lemma resolve_wait_operations : r_operations (resolve_wait_attentions r room_name key at_) = r_operations r.
Proof. by_wait. Qed.
Lemma resolve_wait_post_times : r_post_times (resolve_wait_attentions r room_name key at_) = r_post_times r.
Proof. by_wait. Qed.
Lemma resolve_wait_next_rev : r_next_rev (resolve_wait_attentions r room_name key at_) = r_next_rev r.
Proof. by_wait. Qed.
Lemma resolve_wait_operation_order : r_operation_order (resolve_wait_attentions r room_name key at_) = r_operation_order r.
Proof. by_wait. Qed.
Lemma resolve_condition_goals :
  r_goals (resolve_condition_attention r room_name key at_) = r_goals r.
Proof. by_condition. Qed.
Lemma resolve_condition_tasks :
  r_tasks (resolve_condition_attention r room_name key at_) = r_tasks r.
Proof. by_condition. Qed.
Lemma resolve_condition_waits :
  r_waits (resolve_condition_attention r room_name key at_) = r_waits r.
Proof. by_condition. Qed.
Lemma resolve_condition_settings :
  r_settings (resolve_condition_attention r room_name key at_) = r_settings r.
Proof. by_condition. Qed.
Lemma resolve_condition_mode :
  r_mode (resolve_condition_attention r room_name key at_) = r_mode r.
Proof. by_condition. Qed.
Lemma resolve_condition_history :
  r_history (resolve_condition_attention r room_name key at_) = r_history r.
Proof. by_condition. Qed.
Lemma resolve_condition_members :
  r_members (resolve_condition_attention r room_name key at_) = r_members r.
Proof. by_condition. Qed.
Lemma resolve_condition_notes :
  r_notes (resolve_condition_attention r room_name key at_) = r_notes r.
Proof. by_condition. Qed.
Lemma resolve_condition_journal :
  r_journal (resolve_condition_attention r room_name key at_) = r_journal r.
Proof. by_condition. Qed.
Lemma resolve_condition_muted :
  r_muted (resolve_condition_attention r room_name key at_) = r_muted r.
Proof. by_condition. Qed.
Lemma resolve_condition_banned :
  r_banned (resolve_condition_attention r room_name key at_) = r_banned r.
Proof. by_condition. Qed.
Lemma resolve_condition_operations :
  r_operations (resolve_condition_attention r room_name key at_) = r_operations r.
Proof. by_condition. Qed.
Lemma resolve_condition_post_times :
  r_post_times (resolve_condition_attention r room_name key at_) = r_post_times r.
Proof. by_condition. Qed.
Lemma resolve_condition_next_rev :
  r_next_rev (resolve_condition_attention r room_name key at_) = r_next_rev r.
Proof. by_condition. Qed.
Lemma resolve_condition_operation_order :
  r_operation_order (resolve_condition_attention r room_name key at_) = r_operation_order r.
Proof. by_condition. Qed.
End frames.
#[export] Hint Rewrite resolve_wait_goals resolve_wait_tasks
  resolve_wait_waits resolve_wait_settings resolve_wait_mode
  resolve_wait_history resolve_wait_members resolve_wait_notes
  resolve_wait_journal resolve_wait_muted resolve_wait_banned
  resolve_wait_operations resolve_wait_post_times resolve_wait_next_rev
  resolve_wait_operation_order : room_frame.
#[export] Hint Rewrite resolve_condition_goals resolve_condition_tasks
  resolve_condition_waits resolve_condition_settings resolve_condition_mode
  resolve_condition_history resolve_condition_members resolve_condition_notes
  resolve_condition_journal resolve_condition_muted resolve_condition_banned
  resolve_condition_operations resolve_condition_post_times
  resolve_condition_next_rev resolve_condition_operation_order : room_frame.

(** ** Rooms that differ in their channel, marks and attentions only

    What publishing a care signal, or retiring one, changes.  Every other
    component of the room is untouched. *)
Definition wire_eq (r r' : Room) : Prop :=
  exists tx marks atts,
    r' = with_r_tx tx (with_r_care_marks marks (with_r_attentions atts r)).

#[export] Instance wire_eq_refl : Reflexive wire_eq.
Proof. intros r. exists (r_tx r), (r_care_marks r), (r_attentions r). by destruct r. Qed.
#[export] Instance wire_eq_trans : Transitive wire_eq.
Proof.
  intros r1 r2 r3 (t1 & m1 & a1 & ->) (t2 & m2 & a2 & ->). by exists t2, m2, a2.
Qed.
#[export] Instance wire_eq_sym : Symmetric wire_eq.
Proof.
  intros r1 r2 (t & m & a & ->). exists (r_tx r1), (r_care_marks r1), (r_attentions r1).
  by destruct r1.
Qed.

Lemma wire_eq_send f r : wire_eq r (send f r).
Proof. exists (r_tx r ++ [f]), (r_care_marks r), (r_attentions r). by destruct r. Qed.
Lemma wire_eq_attentions a r : wire_eq r (with_r_attentions a r).
Proof. exists (r_tx r), (r_care_marks r), a. by destruct r. Qed.
Lemma wire_eq_marks m r : wire_eq r (with_r_care_marks m r).
Proof. exists (r_tx r), m, (r_attentions r). by destruct r. Qed.
Lemma wire_eq_resolve_condition r n k t : wire_eq r (resolve_condition_attention r n k t).
Proof.
  destruct (resolve_condition_attention_eq r n k t) as (f & m & -> & _). by do 3 eexists.
Qed.
Lemma wire_eq_resolve_wait r n k t : wire_eq r (resolve_wait_attentions r n k t).
Proof.
  destruct (resolve_wait_attentions_eq r n k t) as (f & m & -> & _). by do 3 eexists.
Qed.

(** Two hubs with the same rooms, up to the wire. *)
Definition rooms_wire {St} (h h' : Hub St) : Prop :=
  forall n, option_relation wire_eq (const False) (const False)
              (h_rooms h !! n) (h_rooms h' !! n).

#[export] Instance rooms_wire_refl {St} : Reflexive (@rooms_wire St).
Proof. intros h n. destruct (h_rooms h !! n); cbn; [reflexivity|done]. Qed.
#[export] Instance rooms_wire_trans {St} : Transitive (@rooms_wire St).
Proof.
  intros h1 h2 h3 H12 H23 n. specialize (H12 n). specialize (H23 n).
  destruct (h_rooms h1 !! n), (h_rooms h2 !! n), (h_rooms h3 !! n); cbn in *; try done.
  by etransitivity.
Qed.

Lemma rooms_wire_put {St} (h : Hub St) n r r' :
  h_rooms h !! n = Some r -> wire_eq r r' -> rooms_wire h (put_room n r' h).
Proof.
  intros Hr Hw m. cbn. destruct (decide (n = m)) as [<-|Hne].
  - by rewrite lookup_insert_eq, Hr.
  - rewrite lookup_insert_ne by done. destruct (h_rooms h !! m); cbn; [reflexivity|done].
Qed.

Lemma rooms_wire_Some {St} (h h' : Hub St) n r :
  rooms_wire h h' -> h_rooms h !! n = Some r ->
  exists r', h_rooms h' !! n = Some r' /\ wire_eq r r'.
Proof.
  intros Hw Hr. specialize (Hw n). rewrite Hr in Hw.
  destruct (h_rooms h' !! n) as [r'|]; [|done]. eauto.
Qed.

Lemma rooms_wire_put_Some {St} (h h' : Hub St) n r :
  rooms_wire (put_room n r h) h' -> exists r', h_rooms h' !! n = Some r' /\ wire_eq r r'.
Proof. intros Hw. apply (rooms_wire_Some _ _ n r Hw). cbn. by rewrite lookup_insert_eq. Qed.

Lemma all_rooms_wire {St} (P : Room -> Prop) (h h' : Hub St) :
  (forall r r', wire_eq r r' -> P r -> P r') ->
  rooms_wire h h' -> all_rooms P h -> all_rooms P h'.
Proof.
  intros Hp Hw Hall n r Hr. specialize (Hw n). rewrite Hr in Hw.
  destruct (h_rooms h !! n) as [r0|] eqn:E; [|done]. cbn in Hw. eauto.
Qed.
