(* ===== verification/Work.v ===== *)
(** * Declared work: tasks, goals and waits

    crates/server/src/hub/work/: [task.rs], [goal.rs], [wait.rs] and the goal
    policy of [policy.rs].  Every handler is one transition of the hub; an
    error leaves in the state what the code has done before the early
    return. *)

From S2P Require Import Prelude Protocol StoreApi Hub Ledger.

(** [format!("task:{id}")], [format!("goal:{id}")], [format!("wait:{waiter}")] *)
Definition task_key (id : N) : string := "task:" +:+ dec id.
Definition goal_key (id : N) : string := "goal:" +:+ dec id.
Definition wait_key (waiter : string) : string := "wait:" +:+ waiter.

(** ** Policy *)

(** @src hub/work/policy.rs fn normalize_goal_tasks *)
Definition normalize_goal_tasks (room : Room) (completion : GoalCompletion)
    (task_ids : list N) : result (list N) GoalError :=
  let task_ids := sort_dedup_Ns task_ids in
  if decide (completion = Manual) then Ok []
  else if bool_decide (task_ids = [])
       || existsb (fun id => bool_decide (r_tasks room !! id = None)) task_ids
  then Err GoalErrInvalidTasks
  else Ok task_ids.

Definition task_is_done (room : Room) (id : N) : bool :=
  match r_tasks room !! id with
  | Some task => bool_decide (task_status task = TaskDone)
  | None => false
  end.

(** @src hub/work/policy.rs fn all_goal_tasks_done *)
Definition all_goal_tasks_done (room : Room) (goal : Goal) : bool :=
  bool_decide (goal_completion goal = AllTasks)
  && negb (bool_decide (goal_task_ids goal = []))
  && forallb (task_is_done room) (goal_task_ids goal).

Definition goal_is_active (g : Goal) : bool := bool_decide (goal_status g = GoalActive).

Section work.
Context {St : Type} `{WorkStore St}.
Implicit Types h : Hub St.

(** @src hub/work/policy.rs fn linked_goal_after_task_progress *)
Definition linked_goal_after_task_progress (room : Room) (task : Task) (now : N) h
    : Hub St * option Goal :=
  match find_value (fun g => goal_is_active g
                     && bool_decide (task_id task ∈ goal_task_ids g)) (r_goals room) with
  | None => (h, None)
  | Some found =>
      match r_goals room !! goal_id found with
      | None => (h, None)
      | Some goal =>
          let '(h, progress) := next_condition_generation now (goal_progress_at goal) h in
          let goal := with_goal_progress_at progress goal in
          let all_done :=
            forallb (fun id => if decide (id = task_id task)
                               then bool_decide (task_status task = TaskDone)
                               else task_is_done room id) (goal_task_ids goal) in
          let goal :=
            if all_done
            then with_goal_closed_at (Some now) (with_goal_status GoalAchieved goal)
            else goal in
          (h, Some goal)
      end
  end.

(** ** Goals *)

(** @src hub/work/goal.rs fn goals *)
Definition goals h (room : string) : list Goal :=
  match h_rooms h !! room with
  | Some r => sort_by_N goal_id (values (r_goals r))
  | None => []
  end.

(** @src hub/work/goal.rs fn create_goal *)
Definition create_goal (room : string) (req : CreateGoal) h
    : Hub St * result Goal GoalError :=
  let now := h_clock h in
  let h := room_mut room h in
  let r := entry_room room h in
  match rs_lead (r_settings r) with
  | None => (h, Err GoalErrLeadRequired)
  | Some _ =>
      if any_value goal_is_active (r_goals r) then (h, Err GoalErrActiveExists)
      else
        match normalize_goal_tasks r (cg_completion req) (cg_task_ids req) with
        | Err e => (h, Err e)
        | Ok task_ids =>
            let id := r_next_goal_id r in
            let goal := {|
              goal_id := id; goal_room := room; goal_outcome := cg_outcome req;
              goal_checkpoint := cg_checkpoint req;
              goal_stale_after_secs := cg_stale_after_secs req;
              goal_created_by := cg_by req; goal_completion := cg_completion req;
              goal_task_ids := task_ids; goal_status := GoalActive;
              goal_created_at := now; goal_progress_at := now;
              goal_closed_at := None |} in
            let goal :=
              if all_goal_tasks_done r goal
              then with_goal_closed_at (Some now) (with_goal_status GoalAchieved goal)
              else goal in
            let '(h, written) := run_store (upsert_goal goal) h in
            match written with
            | Err _ => (h, Err GoalErrStorage)
            | Ok _ =>
                let r := with_r_next_goal_id (wrap_add64 (r_next_goal_id r) 1) r in
                let r := with_r_goals (<[id := goal]> (r_goals r)) r in
                (put_room room (send (SF_Goal goal) r) h, Ok goal)
            end
        end
  end.

(** The fields [update_goal] compares before and after. *)
Definition goal_content (g : Goal) :=
  (goal_outcome g, goal_checkpoint g, goal_stale_after_secs g,
   goal_completion g, goal_task_ids g, goal_status g).

(** The field updates of the request, before the task ids are normalised. *)
(** @src hub/work/goal.rs:72-86 update_goal *)
Definition apply_goal_update (req : UpdateGoal) (goal : Goal) : Goal :=
  let goal := match ug_outcome req with
              | Some outcome => with_goal_outcome outcome goal | None => goal end in
  let goal := match ug_checkpoint req with
              | Some checkpoint =>
                  with_goal_checkpoint
                    (if str_is_empty checkpoint then None else Some checkpoint) goal
              | None => goal end in
  let goal := match ug_stale_after_secs req with
              | Some stale => with_goal_stale_after_secs stale goal | None => goal end in
  let goal := match ug_completion req with
              | Some completion => with_goal_completion completion goal | None => goal end in
  match ug_task_ids req with
  | Some task_ids => with_goal_task_ids task_ids goal
  | None => goal
  end.

(** The requested status, with its closing time. *)
(** @src hub/work/goal.rs:96-103 update_goal *)
Definition set_goal_status (now : N) (status : GoalStatus) (goal : Goal) : Goal :=
  let changed := negb (bool_decide (goal_status goal = status)) in
  let goal := with_goal_status status goal in
  if changed
  then with_goal_closed_at
         (match status with GoalActive => None | _ => Some now end) goal
  else goal.

Definition another_goal_active (r : Room) (id : N) : bool :=
  any_value (fun other => negb (bool_decide (goal_id other = id)) && goal_is_active other)
    (r_goals r).

(** The goal [update_goal] is about to write: everything between the lookup
    and the progress test. *)
(** @src hub/work/goal.rs:87-111 update_goal *)
Definition updated_goal (r : Room) (id now : N) (req : UpdateGoal) (goal : Goal)
    : result Goal GoalError :=
  let goal := apply_goal_update req goal in
  match normalize_goal_tasks r (goal_completion goal) (goal_task_ids goal) with
  | Err e => Err e
  | Ok task_ids =>
      let goal := with_goal_task_ids task_ids goal in
      let conflict :=
        match ug_status req with
        | Some GoalActive => another_goal_active r id
        | _ => false
        end in
      if conflict then Err GoalErrActiveExists
      else
        let goal := match ug_status req with
                    | Some status => set_goal_status now status goal
                    | None => goal end in
        if goal_is_active goal && bool_decide (rs_lead (r_settings r) = None)
        then Err GoalErrLeadRequired
        else if goal_is_active goal && all_goal_tasks_done r goal
        then Ok (with_goal_closed_at (Some now) (with_goal_status GoalAchieved goal))
        else Ok goal
  end.

(** Dropping the reminder of a condition that progressed. *)
Definition clear_condition (room : string) (key : string) (at_ : N) (r : Room) : Room :=
  resolve_condition_attention (with_r_care_marks (delete key (r_care_marks r)) r)
    room key at_.

(** @src hub/work/goal.rs fn update_goal *)
Definition update_goal (room : string) (id : N) (req : UpdateGoal) h
    : Hub St * result Goal GoalError :=
  let now := h_clock h in
  match h_rooms h !! room with
  | None => (h, Err GoalErrNotFound)
  | Some r =>
      match r_goals r !! id with
      | None => (h, Err GoalErrNotFound)
      | Some previous =>
          match updated_goal r id now req previous with
          | Err e => (h, Err e)
          | Ok goal =>
              let progressed :=
                negb (bool_decide (goal_content previous = goal_content goal)) in
              let '(h, goal) :=
                if progressed then
                  let '(h, p) := next_condition_generation now (goal_progress_at goal) h in
                  (h, with_goal_progress_at p goal)
                else (h, goal) in
              let '(h, written) := run_store (upsert_goal_with_care_reset goal progressed) h in
              match written with
              | Err _ => (h, Err GoalErrStorage)
              | Ok _ =>
                  let r := if progressed
                           then clear_condition room (goal_key id) (goal_progress_at goal) r
                           else r in
                  let r := with_r_goals (<[id := goal]> (r_goals r)) r in
                  (put_room room (send (SF_Goal goal) r) h, Ok goal)
              end
          end
      end
  end.

(** ** Tasks *)

(** @src hub/work/task.rs fn tasks *)
Definition tasks h (room : string) : list Task :=
  match h_rooms h !! room with
  | Some r => sort_by_N task_id (values (r_tasks r))
  | None => []
  end.

(** @src hub/work/task.rs fn create_task *)
Definition create_task (room : string) (req : CreateTask) h
    : Hub St * dbres Task :=
  let now := h_clock h in
  let id := match h_rooms h !! room with Some r => r_next_task_id r | None => 1%N end in
  let t := {|
    task_id := id; task_room := room; task_title := ct_title req;
    task_created_by := ct_by req; task_from_message := ct_from_message req;
    task_assigned_to := ct_assigned_to req; task_status := TaskOpen;
    task_created_at := now; task_progress_at := now; task_closed_at := None |} in
  let '(h, written) := run_store (upsert_task t) h in
  match written with
  | Err e => (h, Err e)
  | Ok _ =>
      let h := room_mut room h in
      let r := entry_room room h in
      let r := with_r_next_task_id (wrap_add64 id 1) r in
      let r := with_r_tasks (<[id := t]> (r_tasks r)) r in
      (put_room room (send (SF_Task t) r) h, Ok t)
  end.

(** House rules on the assignee: who may set it, and whether it moved. *)
(** @src hub/work/task.rs:56-70 update_task *)
Definition update_task_assignee (req : UpdateTask) (is_operator : bool) (out : Task)
    : result (Task * bool) TaskError :=
  match ut_assigned_to req with
  | None => Ok (out, false)
  | Some assignee =>
      if negb is_operator
         && (match task_assigned_to out with
             | Some owner => negb (bool_decide (owner = ut_by req))
             | None => false
             end
             || negb (bool_decide (assignee = ut_by req)))
      then Err TaskErrForbidden
      else Ok (with_task_assigned_to (Some assignee) out,
               negb (bool_decide (task_assigned_to out = Some assignee)))
  end.

(** House rules on the status. *)
(** @src hub/work/task.rs:71-89 update_task *)
Definition update_task_status (req : UpdateTask) (is_operator : bool) (now : N)
    (out : Task) : result (Task * bool) TaskError :=
  match ut_status req with
  | None => Ok (out, false)
  | Some st =>
      let mine := bool_decide (task_assigned_to out = Some (ut_by req)) in
      let allowed :=
        match st with
        | TaskTaken | TaskDone => is_operator || mine
        | TaskCancelled | TaskOpen => is_operator
        end in
      if negb allowed then Err TaskErrForbidden
      else
        let changed := negb (bool_decide (task_status out = st)) in
        let out' := with_task_status st out in
        Ok (if changed
            then with_task_closed_at
                   (match st with
                    | TaskDone | TaskCancelled => Some now
                    | _ => None
                    end) out'
            else out', changed)
  end.

(** @src hub/work/task.rs fn update_task *)
Definition update_task (room : string) (id : N) (req : UpdateTask)
    (is_operator : bool) h : Hub St * result Task TaskError :=
  let now := h_clock h in
  match h_rooms h !! room with
  | None => (h, Err TaskErrNotFound)
  | Some r =>
      match r_tasks r !! id with
      | None => (h, Err TaskErrNotFound)
      | Some task =>
          match update_task_assignee req is_operator task with
          | Err e => (h, Err e)
          | Ok (out, moved) =>
              match update_task_status req is_operator now out with
              | Err e => (h, Err e)
              | Ok (out, changed) =>
                  let progressed := moved || changed in
                  let '(h, out) :=
                    if progressed then
                      let '(h, p) := next_condition_generation now (task_progress_at out) h in
                      (h, with_task_progress_at p out)
                    else (h, out) in
                  let '(h, linked_goal) :=
                    if progressed
                    then linked_goal_after_task_progress r out (task_progress_at out) h
                    else (h, None) in
                  let '(h, written) :=
                    run_store (upsert_task_with_goal_progress out linked_goal progressed) h in
                  match written with
                  | Err _ => (h, Err TaskErrStorage)
                  | Ok _ =>
                      let r := if progressed
                               then clear_condition room (task_key id) (task_progress_at out) r
                               else r in
                      let r := with_r_tasks (<[id := out]> (r_tasks r)) r in
                      let r := send (SF_Task out) r in
                      let r :=
                        match linked_goal with
                        | None => r
                        | Some goal =>
                            let r := clear_condition room (goal_key (goal_id goal))
                                       (goal_progress_at goal) r in
                            let r := with_r_goals (<[goal_id goal := goal]> (r_goals r)) r in
                            send (SF_Goal goal) r
                        end in
                      (put_room room r h, Ok out)
                  end
              end
          end
      end
  end.
End work.
