(* ===== verification/WorkFacts.v ===== *)
(** * Properties of declared work

    The invariant of a room's tasks and goals, the house rules, and the
    completion of a goal by its tasks, for the operations of [Work]. *)

From S2P Require Import Prelude Protocol StoreApi Hub Ledger Work.

(** ** The invariant

    What the goals and tasks of a room satisfy between two operations.  It
    reads the goals, the tasks and the lead, nothing else of the room. *)
Record work_inv (r : Room) : Prop := {
  (** Goals and tasks are filed under their own id. *)
  wi_goal_key : forall i g, r_goals r !! i = Some g -> goal_id g = i;
  wi_task_key : forall i t, r_tasks r !! i = Some t -> task_id t = i;
  (** At most one goal is active. *)
  wi_one_active : forall i j g g',
    r_goals r !! i = Some g -> r_goals r !! j = Some g' ->
    goal_status g = GoalActive -> goal_status g' = GoalActive -> i = j;
  (** An active goal has a lead to watch it. *)
  wi_lead : forall i g, r_goals r !! i = Some g -> goal_status g = GoalActive ->
    rs_lead (r_settings r) <> None;
  (** A manual goal links no tasks, the others link existing ones. *)
  wi_manual : forall i g, r_goals r !! i = Some g ->
    goal_completion g = Manual -> goal_task_ids g = [];
  wi_linked : forall i g id, r_goals r !! i = Some g ->
    id ∈ goal_task_ids g -> is_Some (r_tasks r !! id);
  (** An active goal still waits for something. *)
  wi_incomplete : forall i g, r_goals r !! i = Some g ->
    goal_status g = GoalActive -> all_goal_tasks_done r g = false;
  (** Closed exactly when a closing time is recorded. *)
  wi_goal_closed : forall i g, r_goals r !! i = Some g ->
    (goal_closed_at g = None <-> goal_status g = GoalActive);
  wi_task_closed : forall i t, r_tasks r !! i = Some t ->
    (task_closed_at t = None <-> task_status t = TaskOpen \/ task_status t = TaskTaken);
}.

(** What a goal must satisfy to be written into the room. *)
Record goal_ok (r : Room) (g : Goal) : Prop := {
  go_alone : goal_status g = GoalActive -> forall j g', r_goals r !! j = Some g' ->
    goal_status g' = GoalActive -> j = goal_id g;
  go_lead : goal_status g = GoalActive -> rs_lead (r_settings r) <> None;
  go_manual : goal_completion g = Manual -> goal_task_ids g = [];
  go_linked : forall id, id ∈ goal_task_ids g -> is_Some (r_tasks r !! id);
  go_incomplete : goal_status g = GoalActive -> all_goal_tasks_done r g = false;
  go_closed : goal_closed_at g = None <-> goal_status g = GoalActive;
}.

(** ** Frame lemmas *)

Lemma work_inv_ext r r' :
  r_goals r' = r_goals r -> r_tasks r' = r_tasks r ->
  rs_lead (r_settings r') = rs_lead (r_settings r) ->
  work_inv r -> work_inv r'.
Proof.
  intros Hg Ht Hl [? ? ? ? ? ? Hinc ? ?].
  constructor; rewrite ?Hg, ?Ht, ?Hl; try done.
  intros i g Hi Ha. rewrite <- (Hinc i g Hi Ha).
  unfold all_goal_tasks_done, task_is_done. by rewrite Ht.
Qed.

Lemma work_inv_room_with m s n : work_inv (room_with m s n).
Proof. constructor; cbn; intros *; rewrite lookup_empty; done. Qed.

Lemma work_inv_insert_goal r g :
  work_inv r -> goal_ok r g ->
  work_inv (with_r_goals (<[goal_id g := g]> (r_goals r)) r).
Proof.
  intros [] []. constructor; cbn; try done.
  - intros i g'. rewrite lookup_insert_Some. naive_solver.
  - intros i j g1 g2 [[<- <-]|[? ?]]%lookup_insert_Some
      [[<- <-]|[? ?]]%lookup_insert_Some ??; [done|..]; try symmetry; eauto.
    by symmetry; eauto.
  - intros i g'. rewrite lookup_insert_Some. naive_solver.
  - intros i g'. rewrite lookup_insert_Some. naive_solver.
  - intros i g' id. rewrite lookup_insert_Some. naive_solver.
  - intros i g'. rewrite lookup_insert_Some. naive_solver.
  - intros i g'. rewrite lookup_insert_Some. naive_solver.
Qed.

Lemma task_is_done_insert r t id :
  task_is_done (with_r_tasks (<[task_id t := t]> (r_tasks r)) r) id =
  if decide (id = task_id t) then bool_decide (task_status t = TaskDone)
  else task_is_done r id.
Proof.
  unfold task_is_done; cbn. rewrite lookup_insert.
  repeat case_decide; try done; congruence.
Qed.

Lemma work_inv_insert_task r t :
  work_inv r ->
  (task_closed_at t = None <-> task_status t = TaskOpen \/ task_status t = TaskTaken) ->
  (forall i g, r_goals r !! i = Some g -> goal_status g = GoalActive ->
     all_goal_tasks_done (with_r_tasks (<[task_id t := t]> (r_tasks r)) r) g = false) ->
  work_inv (with_r_tasks (<[task_id t := t]> (r_tasks r)) r).
Proof.
  intros [] Hclosed Hinc. constructor; cbn; try done.
  - intros i t'. rewrite lookup_insert_Some. naive_solver.
  - intros i g id Hi Hid. rewrite lookup_insert_is_Some'. eauto.
  - intros i t'. rewrite lookup_insert_Some. naive_solver.
Qed.

Lemma clear_condition_eq room key at_ r :
  clear_condition room key at_ r =
    resolve_condition_attention (with_r_care_marks (delete key (r_care_marks r)) r)
      room key at_.
Proof. done. Qed.
#[export] Hint Rewrite clear_condition_eq : room_frame.

(** ** Goals *)

Lemma normalize_goal_tasks_ok r c ids ids' :
  normalize_goal_tasks r c ids = Ok ids' ->
  (c = Manual -> ids' = []) /\ (c <> Manual -> ids' <> []) /\
  (forall id, id ∈ ids' -> id ∈ ids /\ is_Some (r_tasks r !! id)).
Proof.
  unfold normalize_goal_tasks. case_decide as Hc.
  - intros [= <-]. repeat split; set_solver.
  - case_bool_decide as Hn; [done|]. cbn.
    destruct (existsb _ _) eqn:He; [done|]. intros [= <-].
    split; [done|]. split; [done|]. intros id Hid. split.
    { by apply elem_of_sort_dedup_Ns. }
    apply not_eq_None_Some. intros HN.
    rewrite <- not_true_iff_false in He. apply He, existsb_exists.
    exists id. split; [by apply list_elem_of_In|]. by apply bool_decide_eq_true_2.
Qed.

Lemma apply_goal_update_keeps req g :
  goal_id (apply_goal_update req g) = goal_id g /\
  goal_status (apply_goal_update req g) = goal_status g /\
  goal_closed_at (apply_goal_update req g) = goal_closed_at g.
Proof.
  unfold apply_goal_update.
  destruct (ug_outcome req), (ug_checkpoint req), (ug_stale_after_secs req),
    (ug_completion req), (ug_task_ids req); done.
Qed.

Lemma goal_ok_progress r g p : goal_ok r g -> goal_ok r (with_goal_progress_at p g).
Proof. intros []. constructor; done. Qed.

(** Closing a goal asks nothing more of it. *)
Lemma goal_ok_close r g now st :
  st <> GoalActive ->
  (goal_completion g = Manual -> goal_task_ids g = []) ->
  (forall id, id ∈ goal_task_ids g -> is_Some (r_tasks r !! id)) ->
  goal_ok r (with_goal_closed_at (Some now) (with_goal_status st g)).
Proof. intros Hst Hm Hl. constructor; cbn; try done. Qed.

Lemma set_goal_status_keeps now st g :
  goal_id (set_goal_status now st g) = goal_id g /\
  goal_status (set_goal_status now st g) = st /\
  goal_completion (set_goal_status now st g) = goal_completion g /\
  goal_task_ids (set_goal_status now st g) = goal_task_ids g.
Proof. unfold set_goal_status. case_bool_decide; done. Qed.

Lemma set_goal_status_closed now st g :
  (goal_closed_at g = None <-> goal_status g = GoalActive) ->
  (goal_closed_at (set_goal_status now st g) = None <-> st = GoalActive).
Proof.
  intros Hg. unfold set_goal_status. case_bool_decide as E; cbn.
  - rewrite Hg. by subst.
  - by destruct st.
Qed.

Lemma another_goal_active_false r id :
  another_goal_active r id = false <->
  forall j g, r_goals r !! j = Some g -> goal_status g = GoalActive -> goal_id g = id.
Proof.
  unfold another_goal_active, goal_is_active. rewrite any_value_false.
  split; intros H j g Hj.
  - intros Ha. specialize (H _ _ Hj). rewrite (bool_decide_eq_true_2 _ Ha), andb_true_r in H.
    apply negb_false_iff in H. by apply bool_decide_eq_true_1 in H.
  - case_bool_decide as E1; [done|]. cbn. apply bool_decide_eq_false_2. eauto.
Qed.

(** The request's status on top of the request's fields. *)
Definition requested_goal (now : N) (req : UpdateGoal) (ids : list N) (g : Goal) : Goal :=
  let g := with_goal_task_ids ids (apply_goal_update req g) in
  match ug_status req with Some st => set_goal_status now st g | None => g end.

Lemma requested_goal_keeps now req ids g :
  goal_id (requested_goal now req ids g) = goal_id g /\
  goal_task_ids (requested_goal now req ids g) = ids /\
  goal_completion (requested_goal now req ids g)
    = goal_completion (apply_goal_update req g) /\
  goal_status (requested_goal now req ids g) = default (goal_status g) (ug_status req).
Proof.
  unfold requested_goal. destruct (apply_goal_update_keeps req g) as (? & ? & _).
  destruct (ug_status req) as [st|]; cbn; [|done].
  destruct (set_goal_status_keeps now st (with_goal_task_ids ids (apply_goal_update req g)))
    as (-> & -> & -> & ->). done.
Qed.

Lemma requested_goal_closed now req ids g :
  (goal_closed_at g = None <-> goal_status g = GoalActive) ->
  (goal_closed_at (requested_goal now req ids g) = None <->
   goal_status (requested_goal now req ids g) = GoalActive).
Proof.
  intros Hg. destruct (requested_goal_keeps now req ids g) as (_ & _ & _ & ->).
  destruct (apply_goal_update_keeps req g) as (_ & Hs & Hc).
  unfold requested_goal. destruct (ug_status req) as [st|]; cbn.
  - apply set_goal_status_closed. cbn. by rewrite Hs, Hc.
  - by rewrite Hc.
Qed.

(** Every branch of [updated_goal], by the goal the request describes. *)
Lemma updated_goal_inv r id now req prev g :
  updated_goal r id now req prev = Ok g ->
  exists ids,
    let c := requested_goal now req ids prev in
    normalize_goal_tasks r (goal_completion (apply_goal_update req prev))
      (goal_task_ids (apply_goal_update req prev)) = Ok ids /\
    (ug_status req = Some GoalActive -> another_goal_active r id = false) /\
    (goal_status c = GoalActive -> rs_lead (r_settings r) <> None) /\
    g = (if goal_is_active c && all_goal_tasks_done r c
         then with_goal_closed_at (Some now) (with_goal_status GoalAchieved c) else c).
Proof.
  unfold updated_goal. destruct (normalize_goal_tasks _ _ _) as [ids|] eqn:Hn; [|done].
  set (conf := match ug_status req with Some GoalActive => _ | _ => false end).
  destruct conf eqn:Hconf; [done|].
  change (match ug_status req with
          | Some status => set_goal_status now status
              (with_goal_task_ids ids (apply_goal_update req prev))
          | None => with_goal_task_ids ids (apply_goal_update req prev)
          end) with (requested_goal now req ids prev).
  intros Hg. exists ids. cbn zeta.
  set (c := requested_goal now req ids prev) in *.
  split; [done|]. split.
  { intros E. subst conf. by rewrite E in Hconf. }
  unfold goal_is_active in *. split.
  - intros Ha Hl. by rewrite (bool_decide_eq_true_2 _ Ha), (bool_decide_eq_true_2 _ Hl) in Hg.
  - destruct (bool_decide _ && bool_decide _); [done|].
    destruct (bool_decide _ && all_goal_tasks_done r c); congruence.
Qed.

Lemma updated_goal_ok r id now req prev g :
  work_inv r -> r_goals r !! id = Some prev ->
  updated_goal r id now req prev = Ok g -> goal_ok r g /\ goal_id g = id.
Proof.
  intros Hi Hp (ids & Hn & Hother & Hlead & ->)%updated_goal_inv.
  destruct (requested_goal_keeps now req ids prev) as (Hid & Hids & Hcomp & Hst).
  apply normalize_goal_tasks_ok in Hn as (Hm & _ & Hl).
  rewrite (wi_goal_key _ Hi _ _ Hp) in Hid.
  pose proof (requested_goal_closed now req ids prev (wi_goal_closed _ Hi _ _ Hp)) as Hcl.
  revert Hid Hids Hcomp Hst Hlead Hcl. generalize (requested_goal now req ids prev).
  intros c Hid Hids Hcomp Hst Hlead Hcl.
  assert (Hmc : goal_completion c = Manual -> goal_task_ids c = []) by (rewrite Hcomp, Hids; auto).
  assert (Hlc : forall x, x ∈ goal_task_ids c -> is_Some (r_tasks r !! x)) by (intros x; rewrite Hids; intros Hx%Hl; tauto).
  destruct (goal_is_active c && all_goal_tasks_done r c) eqn:Hdone.
  { split; [|done]. by apply goal_ok_close. }
  split; [|done]. unfold goal_is_active in Hdone. constructor; auto.
  - intros Ha j g' Hj Hg'. rewrite Hid. rewrite <- (wi_goal_key _ Hi _ _ Hj).
    rewrite Hst in Ha. destruct (ug_status req) as [st|]; cbn in Ha; [rewrite Ha in Hother|].
    + by eapply (proj1 (another_goal_active_false r id)); eauto.
    + rewrite (wi_goal_key _ Hi _ _ Hj). eapply (wi_one_active _ Hi); eauto.
  - intros Ha. by rewrite (bool_decide_eq_true_2 _ Ha) in Hdone.
Qed.

Section ops.
Context {St : Type} `{WorkStore St}.
Implicit Types h : Hub St.

Definition work_ok h : Prop := all_rooms work_inv h.

Lemma work_ok_entry h room : work_ok h -> work_inv (entry_room room h).
Proof. intros Hw. apply all_rooms_entry; [done|]. apply work_inv_room_with. Qed.

Lemma work_ok_mut h room : work_ok h -> work_ok (room_mut room h).
Proof. intros Hw. apply all_rooms_mut; [done|]. apply work_inv_room_with. Qed.

(** The goal [create_goal] writes. *)
Lemma new_goal_ok r room req now ids :
  rs_lead (r_settings r) <> None -> any_value goal_is_active (r_goals r) = false ->
  normalize_goal_tasks r (cg_completion req) (cg_task_ids req) = Ok ids ->
  let g := mkGoal (r_next_goal_id r) room (cg_outcome req) (cg_checkpoint req)
             (cg_stale_after_secs req) (cg_by req) (cg_completion req) ids GoalActive
             now now None in
  goal_ok r (if all_goal_tasks_done r g
             then with_goal_closed_at (Some now) (with_goal_status GoalAchieved g) else g).
Proof.
  intros Hlead Hnone (Hm & _ & Hl)%normalize_goal_tasks_ok g.
  assert (Hl' : forall x, x ∈ ids -> is_Some (r_tasks r !! x)) by (intros x Hx%Hl; tauto).
  destruct (all_goal_tasks_done r g) eqn:Hdone; [by apply goal_ok_close|].
  constructor; cbn; try done.
  intros _ j g' Hj Hg'. apply (any_value_false _ _) with (k := j) (v := g') in Hnone; [|done].
  apply bool_decide_eq_false_1 in Hnone. done.
Qed.

Lemma create_goal_work_ok room req h :
  work_ok h -> work_ok (create_goal room req h).1.
Proof.
  intros Hw. unfold create_goal.
  pose proof (work_ok_mut h room Hw) as Hw'. rewrite entry_room_mut.
  destruct (rs_lead _) as [lead|] eqn:Hlead; [|done].
  destruct (any_value _ _) eqn:Hany; [done|].
  destruct (normalize_goal_tasks _ _ _) as [ids|] eqn:Hn; [|done].
  pose proof (new_goal_ok (entry_room room h) room req (h_clock h) ids) as Hok.
  cbn zeta in Hok. specialize (Hok ltac:(by rewrite Hlead) Hany Hn).
  cbn zeta. set (g := if all_goal_tasks_done _ _ then _ else _) in *.
  destruct (run_store _ _) as [h' w] eqn:Hst. apply run_store_state in Hst as [-> _].
  destruct w; [|done]. cbn [fst].
  apply all_rooms_put; [done|].
  assert (Hgid : goal_id g = r_next_goal_id (entry_room room h)).
  { subst g. by destruct (all_goal_tasks_done _ _). }
  eapply work_inv_ext, (work_inv_insert_goal _ _ (work_ok_entry h room Hw) Hok);
    [by rewrite Hgid|done|done].
Qed.

Lemma update_goal_work_ok room id req h :
  work_ok h -> work_ok (update_goal room id req h).1.
Proof.
  intros Hw. unfold update_goal.
  destruct (h_rooms h !! room) as [r|] eqn:Hr; [|done].
  destruct (r_goals r !! id) as [prev|] eqn:Hp; [|done].
  destruct (updated_goal _ _ _ _ _) as [g|] eqn:Hg; [|done].
  specialize (Hw _ _ Hr) as Hi.
  apply (updated_goal_ok _ _ _ _ _ _ Hi Hp) in Hg as [Hg Hid].
  set (progressed := negb _).
  destruct (if progressed then _ else _) as [h' g'] eqn:Hgen.
  assert (h_rooms h' = h_rooms h /\ goal_ok r g' /\ goal_id g' = id) as (Hrooms & Hg' & Hid').
  { destruct progressed; [|by injection Hgen as <- <-].
    injection Hgen as <- <-. split; [done|]. split; [by apply goal_ok_progress|done]. }
  destruct (run_store _ _) as [h'' w] eqn:Hst. apply run_store_state in Hst as [-> _].
  assert (Hw' : work_ok h') by (intros n r'; rewrite Hrooms; apply Hw).
  destruct w; [|done]. cbn [fst]. apply all_rooms_put; [done|].
  eapply work_inv_ext, (work_inv_insert_goal _ _ Hi Hg');
    rewrite Hid'; destruct progressed; room_frame.
Qed.

(** ** Tasks *)

Lemma create_task_work_ok room req h :
  work_ok h -> work_ok (create_task room req h).1.
Proof.
  intros Hw. unfold create_task.
  set (id := match h_rooms h !! room with Some _ => _ | None => _ end).
  destruct (run_store _ _) as [h' w] eqn:Hst. apply run_store_state in Hst as [-> _].
  destruct w; [|done]. cbn [fst]. apply all_rooms_put; [by apply work_ok_mut|].
  rewrite entry_room_mut. set (new := mkTask _ _ _ _ _ _ _ _ _ _).
  eapply work_inv_ext; [..|eapply (work_inv_insert_task (entry_room room h) new)]; try done.
  - by apply work_ok_entry.
  - cbn. tauto.
  - intros i g Hg Ha.
    pose proof (wi_incomplete _ (work_ok_entry h room Hw) _ _ Hg Ha) as Hinc.
    unfold all_goal_tasks_done in *. apply andb_false_iff in Hinc as [Hinc|Hinc].
    { apply andb_false_iff. by left. }
    apply andb_false_iff. right. rewrite <- not_true_iff_false in *. intros Hall.
    apply Hinc, forallb_forall. intros x Hx.
    rewrite forallb_forall in Hall. specialize (Hall x Hx).
    rewrite task_is_done_insert in Hall. by case_decide.
Qed.

(** What the two house rules leave of a task. *)
Lemma update_task_assignee_ok req op t t' moved :
  update_task_assignee req op t = Ok (t', moved) ->
  t' = with_task_assigned_to (task_assigned_to t') t /\
  (moved = false -> t' = t) /\
  (moved = true -> task_assigned_to t' <> task_assigned_to t).
Proof.
  unfold update_task_assignee. destruct (ut_assigned_to req) as [a|].
  - destruct (negb op && _); [done|]. intros [= <- <-]. cbn. split; [done|]. split.
    + intros Hm%negb_false_iff%bool_decide_eq_true_1. destruct t; cbn in *. by rewrite Hm.
    + intros Hm%negb_true_iff%bool_decide_eq_false_1. done.
  - intros [= <- <-]. split; [by destruct t|done].
Qed.

Lemma update_task_status_ok req op now t t' changed :
  update_task_status req op now t = Ok (t', changed) ->
  task_id t' = task_id t /\ task_assigned_to t' = task_assigned_to t /\
  (changed = false -> t' = t) /\
  (changed = true -> task_status t' <> task_status t /\
     task_closed_at t' = match task_status t' with
                         | TaskDone | TaskCancelled => Some now | _ => None end).
Proof.
  unfold update_task_status. destruct (ut_status req) as [st|]; [|by intros [= <- <-]].
  destruct (negb _); [done|]. intros [= <- <-].
  case_bool_decide as E; cbn; repeat split; try done.
  intros _. destruct t; cbn in *. by subst.
Qed.

Definition task_closed_ok (t : Task) : Prop :=
  task_closed_at t = None <-> task_status t = TaskOpen \/ task_status t = TaskTaken.

Lemma update_task_status_closed req op now t t' changed :
  update_task_status req op now t = Ok (t', changed) -> task_closed_ok t -> task_closed_ok t'.
Proof.
  intros (_ & _ & Hf & Ht)%update_task_status_ok Hok. destruct changed.
  - destruct (Ht eq_refl) as [_ Hc]. unfold task_closed_ok. rewrite Hc.
    destruct (task_status t'); naive_solver.
  - by rewrite Hf.
Qed.

(** The successful runs of [update_task], step by step. *)
Inductive update_task_run (room : string) (id : N) (req : UpdateTask) (op : bool)
    h h' (out : Task) : Prop :=
  UpdateTaskRun (r : Room) (t mid new : Task) (moved changed : bool) (h1 h2 : Hub St)
    (linked : option Goal) (r' : Room)
    (Hroom : h_rooms h !! room = Some r)
    (Htask : r_tasks r !! id = Some t)
    (Hassignee : update_task_assignee req op t = Ok (mid, moved))
    (Hstatus : update_task_status req op (h_clock h) mid = Ok (new, changed))
    (Hgen : (if moved || changed then
         let '(h1, p) := next_condition_generation (h_clock h) (task_progress_at new) h in
         (h1, with_task_progress_at p new)
       else (h, new)) = (h1, out))
    (Hlinked : (if moved || changed
       then linked_goal_after_task_progress r out (task_progress_at out) h1
       else (h1, None)) = (h2, linked))
    (Hrooms : h_rooms h' = <[room := r']> (h_rooms h))
    (Htasks : r_tasks r' = <[id := out]> (r_tasks r))
    (Hgoals : r_goals r' = match linked with
                           | None => r_goals r
                           | Some g => <[goal_id g := g]> (r_goals r)
                           end)
    (Hsettings : r_settings r' = r_settings r)
    (Hsent : match linked with
             | None => last (r_tx r') = Some (SF_Task out)
             | Some g => last (r_tx r') = Some (SF_Goal g)
             end).

Lemma linked_goal_rooms r t now h h' og :
  linked_goal_after_task_progress r t now h = (h', og) -> h_rooms h' = h_rooms h.
Proof.
  unfold linked_goal_after_task_progress. destruct (find_value _ _); [|by intros [= <- <-]].
  destruct (r_goals r !! _); [|by intros [= <- <-]]. by intros [= <- <-].
Qed.

Lemma update_task_ok_run room id req op h h' out :
  update_task room id req op h = (h', Ok out) -> update_task_run room id req op h h' out.
Proof.
  unfold update_task.
  destruct (h_rooms h !! room) as [r|] eqn:Hr; [|done].
  destruct (r_tasks r !! id) as [t|] eqn:Ht; [|done].
  destruct (update_task_assignee req op t) as [[mid moved]|] eqn:Ha; [|done].
  destruct (update_task_status _ _ _ _) as [[new changed]|] eqn:Hs; [|done].
  destruct (if moved || changed then let '(h1, p) := _ in _ else (h, new))
    as [h1 o] eqn:Hgen.
  destruct (if moved || changed then _ else (h1, None)) as [h2 og] eqn:Hl.
  destruct (run_store _ _) as [h3 w] eqn:Hst. apply run_store_state in Hst as [-> _].
  destruct w; [|done]. intros [= <- <-].
  assert (Hrooms : h_rooms h2 = h_rooms h).
  { transitivity (h_rooms h1); destruct (moved || changed).
    - by eapply linked_goal_rooms.
    - by injection Hl as <- <-.
    - by injection Hgen as <- <-.
    - by injection Hgen as <- <-. }
  refine (UpdateTaskRun _ _ _ _ _ _ _ r t mid new moved changed h1 h2 og _
    Hr Ht Ha Hs Hgen Hl _ _ _ _ _); [rewrite <- Hrooms; reflexivity|..].
  all: destruct og as [g|]; try apply last_snoc.
  all: destruct (moved || changed); room_frame.
Qed.

(** The goal a task's progress moves: the active goal that links the task. *)
Lemma linked_goal_spec r t now h h' og :
  work_inv r -> linked_goal_after_task_progress r t now h = (h', og) ->
  match og with
  | None => h' = h /\ forall i g, r_goals r !! i = Some g -> goal_status g = GoalActive ->
              task_id t ∉ goal_task_ids g
  | Some g => exists g0 p,
      r_goals r !! goal_id g0 = Some g0 /\ goal_status g0 = GoalActive /\
      task_id t ∈ goal_task_ids g0 /\
      next_condition_generation now (goal_progress_at g0) h = (h', p) /\
      g = if forallb (fun id => if decide (id = task_id t)
                                then bool_decide (task_status t = TaskDone)
                                else task_is_done r id) (goal_task_ids g0)
          then with_goal_closed_at (Some now) (with_goal_status GoalAchieved
                 (with_goal_progress_at p g0))
          else with_goal_progress_at p g0
  end.
Proof.
  intros Hi. unfold linked_goal_after_task_progress.
  destruct (find_value _ _) as [g0|] eqn:Hf.
  - apply find_value_Some in Hf as [[Ha Hin]%andb_prop [i Hg]].
    apply bool_decide_eq_true_1 in Ha, Hin.
    pose proof (wi_goal_key _ Hi _ _ Hg) as <-. rewrite Hg.
    destruct (next_condition_generation _ _ _) as [h1 p] eqn:Hgen. intros [= <- <-].
    by exists g0, p.
  - intros [= <- <-]. split; [done|]. intros i g Hg Ha Hin.
    pose proof (find_value_None _ _ Hf _ _ Hg) as Hno.
    unfold goal_is_active in Hno.
    by rewrite (bool_decide_eq_true_2 _ Ha), (bool_decide_eq_true_2 _ Hin) in Hno.
Qed.

Lemma all_goal_tasks_done_insert r t g :
  task_id t ∉ goal_task_ids g ->
  all_goal_tasks_done (with_r_tasks (<[task_id t := t]> (r_tasks r)) r) g
    = all_goal_tasks_done r g.
Proof.
  intros Hn. unfold all_goal_tasks_done. f_equal.
  assert (Hin : forall x, x ∈ goal_task_ids g -> x <> task_id t) by (intros x Hx ->; done).
  clear Hn. induction (goal_task_ids g) as [|x l IH]; [done|]. cbn.
  rewrite task_is_done_insert, decide_False by (apply Hin; by left).
  f_equal. apply IH. intros y Hy. apply Hin. by right.
Qed.

Lemma all_goal_tasks_done_insert_same r t t0 g :
  r_tasks r !! task_id t = Some t0 -> task_status t = task_status t0 ->
  all_goal_tasks_done (with_r_tasks (<[task_id t := t]> (r_tasks r)) r) g
    = all_goal_tasks_done r g.
Proof.
  intros Ht Hs. unfold all_goal_tasks_done. f_equal. induction (goal_task_ids g); [done|].
  cbn. rewrite task_is_done_insert, IHl. f_equal. case_decide; [|done].
  subst. unfold task_is_done. by rewrite Ht, Hs.
Qed.

Lemma update_task_room_inv room id req op h h' out :
  work_ok h -> update_task_run room id req op h h' out ->
  exists r', h_rooms h' = <[room := r']> (h_rooms h) /\ work_inv r'.
Proof.
  intros Hw []. exists r'. split; [done|].
  pose proof (Hw _ _ Hroom) as Hi.
  pose proof (wi_task_key _ Hi _ _ Htask) as Hid.
  pose proof (update_task_assignee_ok _ _ _ _ _ Hassignee) as (Hmid & Hmid0 & _).
  pose proof (update_task_status_ok _ _ _ _ _ _ Hstatus) as (Hnid & _ & Hnew0 & _).
  pose proof (update_task_status_closed _ _ _ _ _ _ Hstatus) as Hclosed.
  assert (Hout : task_id out = id /\ task_closed_ok out).
  { assert (Hn : task_id new = id /\ task_closed_ok new).
    { rewrite Hnid, Hmid. split; [done|]. apply Hclosed. rewrite Hmid.
      exact (wi_task_closed _ Hi _ _ Htask). }
    destruct (moved || changed); [|by injection Hgen as <- <-].
    destruct (next_condition_generation _ _ _). by injection Hgen as <- <-. }
  destruct Hout as [Hoid Hoc].
  destruct (moved || changed) eqn:Hp.
  - pose proof (linked_goal_spec _ _ _ _ _ _ Hi Hlinked) as Hl.
    destruct linked as [g|].
    + destruct Hl as (g0 & p & Hg0 & Ha & Hin & _ & ->).
      set (g := if forallb _ _ then _ else _) in *.
      assert (Hgok : goal_ok r g /\ goal_id g = goal_id g0 /\
          (goal_status g = GoalActive -> all_goal_tasks_done
             (with_r_tasks (<[task_id out := out]> (r_tasks r)) r) g = false)).
      { subst g. destruct (forallb _ _) eqn:Hall; cbn.
        - split; [|done]. apply goal_ok_close; [done|..].
          + exact (wi_manual _ Hi _ _ Hg0).
          + intros x. exact (wi_linked _ Hi _ _ x Hg0).
        - split; [|split; [done|]].
          + apply goal_ok_progress. constructor.
            * intros _ j g' Hj Hg'. by eapply (wi_one_active _ Hi).
            * by eapply (wi_lead _ Hi).
            * by eapply (wi_manual _ Hi).
            * intros x. by eapply (wi_linked _ Hi).
            * by eapply (wi_incomplete _ Hi).
            * by eapply (wi_goal_closed _ Hi).
          + intros _. unfold all_goal_tasks_done. apply andb_false_iff. right.
            etrans; [|exact Hall]. cbn. clear. induction (goal_task_ids g0); [done|].
            cbn. by rewrite task_is_done_insert, IHl. }
      destruct Hgok as (Hgok & Hgid & Hginc).
      eapply work_inv_ext, (work_inv_insert_task
        (with_r_goals (<[goal_id g := g]> (r_goals r)) r) out).
      * by rewrite Hgoals, Hgid.
      * by rewrite Htasks, Hoid.
      * by rewrite Hsettings.
      * by apply work_inv_insert_goal.
      * done.
      * cbn. intros i g' [[<- <-]|[Hne Hg']]%lookup_insert_Some Ha'; [exact (Hginc Ha')|].
        exfalso. apply Hne. rewrite Hgid. by eapply (wi_one_active _ Hi).
    + destruct Hl as [_ Hno].
      eapply work_inv_ext, (work_inv_insert_task r out); try done.
      * by rewrite Htasks, Hoid.
      * by rewrite Hsettings.
      * intros i g Hg Ha. rewrite all_goal_tasks_done_insert by eauto.
        by eapply (wi_incomplete _ Hi).
  - apply orb_false_iff in Hp as [-> ->]. injection Hgen as <- <-.
    injection Hlinked as <- <-. rewrite Hnew0, Hmid0 in * by done.
    eapply work_inv_ext, Hi; [done|..|by rewrite Hsettings].
    rewrite Htasks. by apply insert_id.
Qed.

Lemma update_task_err_rooms room id req op h h' e :
  update_task room id req op h = (h', Err e) -> h_rooms h' = h_rooms h.
Proof.
  unfold update_task.
  destruct (h_rooms h !! room) as [r|]; [|by intros [= <- <-]].
  destruct (r_tasks r !! id) as [t|]; [|by intros [= <- <-]].
  destruct (update_task_assignee req op t) as [[mid moved]|]; [|by intros [= <- <-]].
  destruct (update_task_status _ _ _ _) as [[new changed]|]; [|by intros [= <- <-]].
  destruct (if moved || changed then let '(h1, p) := _ in _ else (h, new))
    as [h1 o] eqn:Hgen.
  destruct (if moved || changed then _ else (h1, None)) as [h2 og] eqn:Hl.
  destruct (run_store _ _) as [h3 w] eqn:Hst. apply run_store_state in Hst as [-> _].
  destruct w; [done|]. intros [= <- <-]. cbn.
  transitivity (h_rooms h1); destruct (moved || changed).
  - by eapply linked_goal_rooms.
  - by injection Hl as <- <-.
  - by injection Hgen as <- <-.
  - by injection Hgen as <- <-.
Qed.

Lemma update_task_work_ok room id req op h :
  work_ok h -> work_ok (update_task room id req op h).1.
Proof.
  intros Hw. destruct (update_task room id req op h) as [h' [out|e]] eqn:E; cbn.
  - apply update_task_ok_run, update_task_room_inv in E as (r' & Hr & Hi); [|done].
    intros n r. rewrite Hr. intros [[<- <-]|[_ Hn]]%lookup_insert_Some; eauto.
  - apply update_task_err_rooms in E. intros n r. rewrite E. apply Hw.
Qed.
End ops.

(** ** House rules *)

(** What an agent may not do to a task: touch the assignee of somebody else's
    task, assign anybody but itself, move a task that would not be its own,
    cancel or reopen. *)
Definition breaks_house_rules (req : UpdateTask) (t : Task) : Prop :=
  (exists a, ut_assigned_to req = Some a /\
     (a <> ut_by req \/ exists o, task_assigned_to t = Some o /\ o <> ut_by req)) \/
  (exists st, ut_status req = Some st /\
     (st = TaskOpen \/ st = TaskCancelled \/
      (ut_assigned_to req = None /\ task_assigned_to t <> Some (ut_by req)))).

Lemma house_rules_decided req op now t :
  (exists mid moved, update_task_assignee req op t = Ok (mid, moved) /\
     exists new changed, update_task_status req op now mid = Ok (new, changed)) \/
  (op = false /\ breaks_house_rules req t).
Proof.
  unfold update_task_assignee, update_task_status, breaks_house_rules.
  destruct op; cbn [negb andb orb].
  { left. destruct (ut_assigned_to req); do 2 eexists; (split; [reflexivity|]).
    all: destruct (ut_status req) as [[]|]; do 2 eexists; reflexivity. }
  destruct (ut_assigned_to req) as [a|] eqn:Ea.
  - destruct (_ || negb _) eqn:Hc.
    { right. split; [done|]. left. exists a. split; [done|].
      apply orb_true_iff in Hc as [Hc|Hc%negb_true_iff%bool_decide_eq_false_1]; [|by left].
      right. destruct (task_assigned_to t) as [o|]; [|done].
      apply negb_true_iff, bool_decide_eq_false_1 in Hc. eauto. }
    apply orb_false_iff in Hc as [_ ->%negb_false_iff%bool_decide_eq_true_1].
    destruct (ut_status req) as [[]|] eqn:Es.
    1,4: right; split; [done|]; right; eexists; split; [done|tauto].
    all: left; do 2 eexists; (split; [reflexivity|]);
      cbn [task_assigned_to with_task_assigned_to];
      rewrite ?(bool_decide_eq_true_2 (Some (ut_by req) = Some (ut_by req))) by done;
      do 2 eexists; reflexivity.
  - destruct (ut_status req) as [st|] eqn:Es; [|left; do 2 eexists; split; [done|]; do 2 eexists; reflexivity].
    destruct (decide (task_assigned_to t = Some (ut_by req))) as [Hmine|Hmine].
    + destruct st.
      1,4: right; split; [done|]; right; eexists; split; [done|tauto].
      all: left; do 2 eexists; split; [done|]; rewrite (bool_decide_eq_true_2 _ Hmine);
        do 2 eexists; reflexivity.
    + right. split; [done|]. right. exists st. tauto.
Qed.

Section properties.
Context {St : Type} `{WorkStore St}.
Implicit Types h : Hub St.

(** C32: The house rules of a task are enforced exactly: [update_task] answers
    [Forbidden] if and only if the caller is not an operator and the request
    breaks one of the rules, and then nothing at all has changed, the store
    included. *)
Theorem update_task_house_rules room id req op h r t :
  h_rooms h !! room = Some r -> r_tasks r !! id = Some t ->
  update_task room id req op h = (h, Err TaskErrForbidden) <->
  op = false /\ breaks_house_rules req t.
Proof.
  intros Hr Ht. unfold update_task. rewrite Hr, Ht. split.
  - destruct (house_rules_decided req op (h_clock h) t)
      as [(mid & moved & -> & new & changed & ->)|]; [|done].
    destruct (if moved || changed then let '(h1, p) := _ in _ else (h, new)) as [h1 o].
    destruct (if moved || changed then _ else (h1, None)) as [h2 og].
    destruct (run_store _ _) as [h3 w]. by destruct w.
  - intros [-> Hb]. unfold update_task_assignee, update_task_status.
    destruct Hb as [(a & Ha & Hb)|(st & Hst & Hb)].
    + rewrite Ha. cbn [negb andb].
      destruct Hb as [Hne|(o & -> & Hne)].
      * rewrite (bool_decide_eq_false_2 _ Hne). by rewrite orb_true_r.
      * by rewrite (bool_decide_eq_false_2 _ Hne).
    + rewrite Hst. destruct (ut_assigned_to req) as [a|] eqn:Ea.
      * destruct (negb false && _); [done|]. destruct Hb as [->|[->|[? _]]]; done.
      * destruct Hb as [->|[->|[_ Hne]]]; [done|done|].
        rewrite (bool_decide_eq_false_2 _ Hne). by destruct st.
Qed.

(** The last linked task closes the goal: when an active goal waits for
    its tasks, all of them are done but one, and that one is marked done, the
    goal is achieved in the same update, closed at the
    generation of the update, and the
    achieved goal is broadcast. *)
Theorem last_task_achieves_goal room id req op h h' r t g out :
  work_ok h -> h_rooms h !! room = Some r -> r_tasks r !! id = Some t ->
  r_goals r !! goal_id g = Some g -> goal_status g = GoalActive ->
  id ∈ goal_task_ids g ->
  (forall x, x ∈ goal_task_ids g -> x <> id -> task_is_done r x = true) ->
  task_status t <> TaskDone -> ut_status req = Some TaskDone ->
  update_task room id req op h = (h', Ok out) ->
  exists r' g', h_rooms h' !! room = Some r' /\ r_goals r' !! goal_id g = Some g' /\
    goal_status g' = GoalAchieved /\ goal_closed_at g' = Some (task_progress_at out) /\
    last (r_tx r') = Some (SF_Goal g').
Proof.
  intros Hw Hr Ht Hg Ha Hin Hothers Hnot Hreq Hok.
  apply update_task_ok_run in Hok as [].
  assert (r0 = r) as -> by congruence. assert (t0 = t) as -> by congruence.
  specialize (Hw _ _ Hr) as Hi.
  pose proof (update_task_assignee_ok _ _ _ _ _ Hassignee) as (Hmid & _).
  assert (Hnew : changed = true /\ task_status new = TaskDone /\ task_id new = id).
  { pose proof (update_task_status_ok _ _ _ _ _ _ Hstatus) as (Hnid & _).
    assert (Hmt : task_id mid = id /\ task_status mid = task_status t).
    { rewrite Hmid. split; [exact (wi_task_key _ Hi _ _ Ht)|done]. }
    destruct Hmt as [Hmt Hms]. rewrite Hnid, Hmt.
    unfold update_task_status in Hstatus. rewrite Hreq in Hstatus.
    destruct (negb _); [done|]. injection Hstatus as <- <-.
    rewrite bool_decide_eq_false_2; [done|]. by rewrite Hms. }
  destruct Hnew as (-> & Hdone & Hid). rewrite orb_true_r in Hgen, Hlinked.
  destruct (next_condition_generation _ _ _). injection Hgen as -> <-.
  pose proof (linked_goal_spec _ _ _ _ _ _ Hi Hlinked) as Hl.
  destruct linked as [g'|]; cycle 1.
  { destruct Hl as [_ Hno]. by destruct (Hno _ _ Hg Ha); rewrite <- Hid in Hin. }
  destruct Hl as (g0 & p & Hg0 & Ha0 & _ & _ & ->).
  pose proof (wi_one_active _ Hi _ _ _ _ Hg0 Hg Ha0 Ha) as Heq.
  rewrite Heq in Hg0. assert (g0 = g) as -> by congruence.
  assert (forallb (fun x => if decide (x = task_id (with_task_progress_at n new))
      then bool_decide (task_status (with_task_progress_at n new) = TaskDone)
      else task_is_done r x) (goal_task_ids g) = true) as Hall.
  { apply forallb_forall. intros x Hx%list_elem_of_In. cbn. rewrite Hid.
    destruct (decide (x = id)); [by apply bool_decide_eq_true_2|eauto]. }
  cbn in Hall. cbn in Hgoals, Hsent. rewrite Hall in Hgoals, Hsent.
  eexists r', _. rewrite Hrooms, lookup_insert_eq.
  split; [done|]. rewrite Hgoals. split; [apply lookup_insert_eq|done].
Qed.
End properties.

(** A task of [ada] and the goal that waits for it. *)
Definition demo_task : Task :=
  mkTask 1 "lab" "ship" "lead" None (Some "ada") TaskTaken 900 900 None.
Definition demo_goal : Goal :=
  mkGoal 1 "lab" "release" None None "lead" AllTasks [1%N] GoalActive 900 900 None.
Definition demo_room : Room :=
  with_r_goals {[1%N := demo_goal]} (with_r_tasks {[1%N := demo_task]}
    (room_with Free (with_rs_lead (Some "lead") room_settings_default) 1)).
Definition demo_hub : Hub unit := put_room "lab" demo_room (empty_hub tt).

Lemma demo_hub_ok : work_ok demo_hub.
Proof.
  apply all_rooms_put; [by intros ??|].
  constructor; cbn; intros *; rewrite ?lookup_singleton_Some; try naive_solver.
  intros [<- <-] ->%list_elem_of_singleton. by rewrite lookup_singleton.
Qed.

Lemma update_task_house_rules_witness :
  let req := mkUpdateTask (Some TaskDone) None "bob" in
  update_task "lab" 1 req false demo_hub = (demo_hub, Err TaskErrForbidden) <->
  false = false /\ breaks_house_rules req demo_task.
Proof. by apply (update_task_house_rules "lab" 1 _ false demo_hub demo_room demo_task). Defined.

Lemma last_task_achieves_goal_witness :
  let req := mkUpdateTask (Some TaskDone) None "ada" in
  exists h' out, update_task "lab" 1 req false demo_hub = (h', Ok out) /\
  exists r' g', h_rooms h' !! "lab" = Some r' /\ r_goals r' !! 1%N = Some g' /\
    goal_status g' = GoalAchieved /\ goal_closed_at g' = Some (task_progress_at out) /\
    last (r_tx r') = Some (SF_Goal g').
Proof.
  cbn zeta. do 2 eexists. split; [vm_compute; reflexivity|].
  eapply (last_task_achieves_goal "lab" 1 (mkUpdateTask (Some TaskDone) None "ada") false
    demo_hub _ demo_room demo_task demo_goal).
  - apply demo_hub_ok.
  - done.
  - done.
  - done.
  - done.
  - by apply list_elem_of_singleton.
  - intros x ->%list_elem_of_singleton. done.
  - done.
  - done.
  - vm_compute. reflexivity.
Defined.

