(* ===== verification/Waits.v ===== *)
(** * Waits

    crates/server/src/hub/work/wait.rs: who waits for whom in a room, and the
    detection of waits that close a circle. *)

From Stdlib Require Import Ascii.
From S2P Require Import Prelude Protocol StoreApi Hub Ledger Work.

(** ** Cycles *)

(** The next participant on the chain of [proposed]. *)
Definition wait_next (room : Room) (proposed : WaitState) (current : string)
    : option string :=
  if decide (current = wait_waiter proposed) then Some (wait_waiting_for proposed)
  else wait_waiting_for <$> (r_waits room !! current).

(** The [while seen.insert(..)] loop.  [None] is out of fuel. *)
(** @src hub/work/wait.rs:15-35 wait_cycle_after *)
Fixpoint wait_cycle_loop (fuel : nat) (room : Room) (proposed : WaitState)
    (seen : gset string) (path : list string) (current : string)
    : option (list string) :=
  match fuel with
  | O => None
  | S fuel =>
      if decide (current ∈ seen) then Some []
      else
        let seen := {[current]} ∪ seen in
        let path := path ++ [current] in
        match wait_next room proposed current with
        | None => Some []
        | Some next =>
            if decide (next = wait_waiter proposed) then Some path
            else wait_cycle_loop fuel room proposed seen path next
        end
  end.

(** Each round but the last two adds a key of [waits] to [seen]. *)
Definition wait_cycle_fuel (room : Room) : nat := size (r_waits room) + 3.

(** @src hub/work/wait.rs fn wait_cycle_after *)
Definition wait_cycle_after (room : Room) (proposed : WaitState) : list string :=
  default [] (wait_cycle_loop (wait_cycle_fuel room) room proposed ∅ []
                (wait_waiter proposed)).

Definition nul : string := String "000" EmptyString.
(** [canonical.sort(); canonical.join("\0")] *)
Definition cycle_identity (cycle : list string) : string := join nul (sort_strings cycle).

(** The body of the loop over the sorted names. *)
(** @src hub/work/wait.rs:42-55 wait_cycles *)
Definition wait_cycles_step (room : Room) (acc : gset string * list (list string))
    (name : string) : gset string * list (list string) :=
  let '(seen, cycles) := acc in
  match r_waits room !! name with
  | None => (seen, cycles)
  | Some edge =>
      let cycle := wait_cycle_after room edge in
      if bool_decide (cycle = []) then (seen, cycles)
      else if decide (cycle_identity cycle ∈ seen) then (seen, cycles)
      else ({[cycle_identity cycle]} ∪ seen, cycles ++ [cycle])
  end.

(** @src hub/work/wait.rs fn wait_cycles *)
Definition wait_cycles (room : Room) : list (list string) :=
  (foldl (wait_cycles_step room) (∅, []) (sort_strings (keys (r_waits room)))).2.

(** ** Operations *)

Section waits.
Context {St : Type} `{WorkStore St}.
Implicit Types h : Hub St.

(** @src hub/work/wait.rs fn waits *)
Definition waits h (room : string) : list WaitState :=
  match h_rooms h !! room with
  | Some r => sort_by_str wait_waiter (values (r_waits r))
  | None => []
  end.

(** @src hub/work/wait.rs fn set_wait *)
Definition set_wait (room : string) (req : SetWait) h : Hub St * result WaitState WaitError :=
  if decide (sw_by req = sw_waiting_for req) then (h, Err WaitErrSelfWait)
  else
    let now := h_clock h in
    let h := room_mut room h in
    let r := entry_room room h in
    let unchanged :=
      match r_waits r !! sw_by req with
      | Some existing =>
          if decide (wait_waiting_for existing = sw_waiting_for req
                     /\ wait_reason existing = sw_reason req)
          then Some existing else None
      | None => None
      end in
    match unchanged with
    | Some existing => (h, Ok existing)
    | None =>
        let previous_since := default 0%N (wait_since <$> (r_waits r !! sw_by req)) in
        let '(h, since) := next_condition_generation now previous_since h in
        let wait := {|
          wait_room := room; wait_waiter := sw_by req;
          wait_waiting_for := sw_waiting_for req; wait_reason := sw_reason req;
          wait_since := since; wait_last_signal_at := None; wait_signal_count := 0 |} in
        let '(h, written) := run_store (replace_wait_with_care wait since) h in
        match written with
        | Err _ => (h, Err WaitErrStorage)
        | Ok _ =>
            let r := with_r_care_marks (delete (wait_key (sw_by req)) (r_care_marks r)) r in
            let r := resolve_wait_attentions r room (sw_by req) since in
            let r := with_r_waits (<[sw_by req := wait]> (r_waits r)) r in
            (put_room room (send (SF_Wait (sw_by req) (Some wait)) r) h, Ok wait)
        end
    end.

(** @src hub/work/wait.rs fn clear_wait *)
Definition clear_wait (room waiter : string) h : Hub St * result unit WaitError :=
  let now := h_clock h in
  match h_rooms h !! room with
  | None => (h, Err WaitErrNotFound)
  | Some r =>
      if bool_decide (r_waits r !! waiter = None) then (h, Err WaitErrNotFound)
      else
        let '(h, written) := run_store (store_delete_wait room waiter now) h in
        match written with
        | Err _ => (h, Err WaitErrStorage)
        | Ok _ =>
            let r := with_r_waits (delete waiter (r_waits r)) r in
            let r := resolve_wait_attentions r room waiter now in
            (put_room room (send (SF_Wait waiter None) r) h, Ok tt)
        end
  end.
End waits.
