(* ===== verification/WaitFacts.v ===== *)
(** * Properties of waits

    The cycle detection terminates within its fuel, and reports exactly the
    circles of the waits-for relation; the invariant of a room's waits. *)

From Stdlib Require Import Ascii.
From S2P Require Import Prelude Protocol StoreApi Hub Ledger Work Waits.

(** ** The loop *)

Section loop.
Context (room : Room) (w : WaitState).
Abbreviation start := (wait_waiter w).

(** The edges the loop follows. *)
Definition wait_edge (x y : string) : Prop := wait_next room w x = Some y.

Lemma wait_edge_det x y z : wait_edge x y -> wait_edge x z -> y = z.
Proof. unfold wait_edge. congruence. Qed.

(** The path of the loop before a round at [current]. *)
Record on_path (path : list string) (current : string) : Prop := {
  op_nodup : NoDup path;
  op_head : path = [] /\ current = start \/
            exists rest, path = start :: rest /\ current <> start;
  op_linked : forall i x y, path !! i = Some x ->
    (path ++ [current]) !! S i = Some y -> wait_edge x y;
  op_away : forall i x, path !! S i = Some x -> x <> start;
}.

(** No circle through [start] when the set of participants reached is closed
    and does not contain [start]. *)
Lemma closed_no_cycle (P : string -> Prop) :
  ~ P start ->
  (forall x y, x = start \/ P x -> wait_edge x y -> P y) ->
  ~ tc wait_edge start start.
Proof.
  intros Hn Hc Ht. apply Hn.
  assert (forall x y, tc wait_edge x y -> x = start \/ P x -> P y) as Htc.
  { induction 1 as [x y He|x y z He _ IH]; intros Hx; [by eapply Hc|].
    apply IH. right. by eapply Hc. }
  apply (Htc _ _ Ht). by left.
Qed.

(** What the loop returns, whatever its fuel. *)
Definition cycle_result (c : list string) : Prop :=
  (c = [] /\ ~ tc wait_edge start start) \/
  (exists last rest,
    c = start :: rest /\ NoDup c /\
    (forall i x y, c !! i = Some x -> c !! S i = Some y -> wait_edge x y) /\
    c !! (length rest) = Some last /\ wait_edge last start).

Lemma on_path_successor path current x y :
  on_path path current -> x ∈ path -> wait_edge x y -> y <> start /\ (y ∈ path \/ y = current).
Proof.
  intros Hp [i Hi]%list_elem_of_lookup He.
  assert (Hlt : i < length path) by by eapply lookup_lt_Some.
  destruct ((path ++ [current]) !! S i) as [z|] eqn:Hz.
  2:{ apply lookup_ge_None in Hz. rewrite length_app in Hz. cbn in Hz. lia. }
  pose proof (wait_edge_det _ _ _ He (op_linked _ _ Hp _ _ _ Hi Hz)) as ->.
  apply lookup_app_Some in Hz as [Hz|[Hge Hz]].
  - split; [by eapply (op_away _ _ Hp)|]. left. by eapply list_elem_of_lookup_2.
  - assert (z = current) as ->.
    { apply list_lookup_singleton_Some in Hz. naive_solver. }
    split; [|by right]. destruct (op_head _ _ Hp) as [[-> ->]|(? & _ & ?)]; [|done].
    cbn in Hlt. lia.
Qed.

Lemma on_path_step path current next :
  on_path path current -> current ∉ path -> wait_edge current next -> next <> start ->
  on_path (path ++ [current]) next.
Proof.
  intros Hp Hfresh Hnext Hback. constructor.
  - apply NoDup_app. split; [apply (op_nodup _ _ Hp)|].
    split; [set_solver|apply NoDup_singleton].
  - right. destruct (op_head _ _ Hp) as [[-> ->]|(rest & -> & Hne)]; eexists; done.
  - intros i x y Hx Hy. apply lookup_app_Some in Hx as [Hx|[Hge Hx]].
    + apply (op_linked _ _ Hp i); [done|].
      rewrite lookup_app_l in Hy; [done|].
      apply lookup_lt_Some in Hx. rewrite length_app. cbn. lia.
    + apply list_lookup_singleton_Some in Hx as [Hi <-].
      rewrite lookup_app_r in Hy by (rewrite length_app; cbn; lia).
      apply list_lookup_singleton_Some in Hy as [_ <-]. done.
  - intros i x Hx. apply lookup_app_Some in Hx as [Hx|[Hge Hx]].
    + by eapply (op_away _ _ Hp).
    + apply list_lookup_singleton_Some in Hx as [Hi <-].
      destruct (op_head _ _ Hp) as [[-> _]|(rest & -> & Hne)]; cbn in *; [lia|done].
Qed.

Lemma loop_result fuel path current c :
  on_path path current ->
  wait_cycle_loop fuel room w (list_to_set path) path current = Some c ->
  cycle_result c.
Proof.
  revert path current. induction fuel as [|fuel IH]; intros path current Hp; [done|].
  cbn [wait_cycle_loop]. case_decide as Hseen.
  - (* back on the path, away from the start *)
    intros [= <-]. left. split; [done|].
    apply (closed_no_cycle (fun x => x ∈ path /\ x <> start)); [tauto|].
    intros x y Hx He.
    assert (Hin : x ∈ path).
    { destruct Hx as [->|[? _]]; [|done]. destruct (op_head _ _ Hp) as [[-> _]|(? & -> & _)].
      - set_solver.
      - by left. }
    destruct (on_path_successor _ _ _ _ Hp Hin He) as [Hne [Hy|Hy]]; [done|].
    subst y. apply elem_of_list_to_set in Hseen. done.
  - assert (Hfresh : current ∉ path) by (intros Hin; apply Hseen; by apply elem_of_list_to_set).
    destruct (wait_next room w current) as [next|] eqn:Hnext.
    + case_decide as Hback.
      * (* closed the circle *)
        intros [= <-]. right. subst next.
        destruct (op_head _ _ Hp) as [[-> ->]|(rest & -> & Hne)].
        -- exists start, []. repeat split; [apply NoDup_singleton|by intros [|] ?|done].
        -- exists current, (rest ++ [current]). split; [done|]. split.
           { apply NoDup_app. split; [apply (op_nodup _ _ Hp)|].
             split; [set_solver|apply NoDup_singleton]. }
           split.
           { intros i x y Hx Hy. apply lookup_app_Some in Hx as [Hx|[Hge Hx]].
             - by eapply (op_linked _ _ Hp).
             - apply lookup_lt_Some in Hy. rewrite length_app in Hy. cbn in *. lia. }
           split; [|done]. rewrite length_app. cbn [length].
           rewrite lookup_app_r by (cbn; lia). cbn [length].
           by replace (length rest + 1 - S (length rest)) with 0 by lia.
      * intros Hl.
        apply (IH (path ++ [current]) next).
        { by apply on_path_step. }
        rewrite <- Hl. f_equal. set_solver.
    + (* the chain ends *)
      intros [= <-]. left. split; [done|].
      apply (closed_no_cycle (fun x => (x ∈ path \/ x = current) /\ x <> start)); [tauto|].
      intros x y Hx He.
      assert (Hin : x ∈ path \/ x = current).
      { destruct Hx as [->|[? _]]; [|done].
        destruct (op_head _ _ Hp) as [[-> ->]|(? & -> & _)]; [by right|left; by left]. }
      destruct Hin as [Hin| ->].
      * destruct (on_path_successor _ _ _ _ Hp Hin He). tauto.
      * unfold wait_edge in He. congruence.
Qed.

(** The fuel is enough: every visited participant after the first, but the
    last, has a wait of its own. *)
Lemma path_length path :
  NoDup path -> (forall x, x ∈ path -> x <> start -> is_Some (r_waits room !! x)) ->
  length path <= size (r_waits room) + 1.
Proof.
  intros Hnd Hkeys.
  assert (Hsub : (list_to_set path : gset string) ⊆ {[start]} ∪ dom (r_waits room)).
  { intros x Hx%elem_of_list_to_set. destruct (decide (x = start)); [set_solver|].
    apply elem_of_union. right. apply elem_of_dom. eauto. }
  apply subseteq_size in Hsub.
  rewrite size_list_to_set in Hsub by done.
  etrans; [exact Hsub|]. rewrite size_union_alt, size_singleton.
  assert (size (dom (r_waits room) ∖ {[start]}) <= size (dom (r_waits room))) as Hs
    by (apply subseteq_size; set_solver).
  rewrite size_dom in Hs. lia.
Qed.

Lemma loop_fuel fuel path current :
  on_path path current ->
  (forall x, x ∈ path -> x <> start -> is_Some (r_waits room !! x)) ->
  size (r_waits room) + 3 <= fuel + length path ->
  is_Some (wait_cycle_loop fuel room w (list_to_set path) path current).
Proof.
  revert path current. induction fuel as [|fuel IH]; intros path current Hp Hkeys Hle.
  { pose proof (path_length path (op_nodup _ _ Hp) Hkeys). lia. }
  cbn [wait_cycle_loop]. case_decide as Hseen; [done|].
  assert (Hfresh : current ∉ path) by (intros Hin; apply Hseen; by apply elem_of_list_to_set).
  destruct (wait_next room w current) as [next|] eqn:Hnext; [|done].
  case_decide as Hback; [done|].
  assert (Hl : list_to_set (path ++ [current]) = ({[current]} ∪ list_to_set path : gset string))
    by set_solver.
  rewrite <- Hl. clear Hl. apply IH.
  - by apply on_path_step.
  - intros x [Hx|Hx]%elem_of_app Hne; [eauto|]. apply list_elem_of_singleton in Hx as ->.
    unfold wait_next in Hnext. rewrite decide_False in Hnext by done.
    destruct (r_waits room !! current); [done|discriminate].
  - rewrite length_app. cbn. lia.
Qed.

Lemma on_path_start : on_path [] start.
Proof. constructor; [constructor|by left|done|done]. Qed.

Lemma wait_cycle_after_fuel :
  exists c, wait_cycle_loop (wait_cycle_fuel room) room w ∅ [] start = Some c /\
    wait_cycle_after room w = c.
Proof.
  destruct (loop_fuel (wait_cycle_fuel room) [] start on_path_start) as [c Hc].
  - intros x Hx. by apply not_elem_of_nil in Hx.
  - unfold wait_cycle_fuel. cbn. lia.
  - exists c. split; [done|]. unfold wait_cycle_after. cbn in Hc. by rewrite Hc.
Qed.

Lemma wait_cycle_after_result : cycle_result (wait_cycle_after room w).
Proof.
  destruct wait_cycle_after_fuel as (c & Hc & ->).
  by eapply (loop_result _ [] start), Hc; [apply on_path_start].
Qed.
End loop.

(** ** The waits-for relation of a room *)

Definition waits_for (r : Room) (x y : string) : Prop :=
  exists w, r_waits r !! x = Some w /\ wait_waiting_for w = y.

(** A wait is filed under its waiter, and nobody waits for themselves. *)
Definition waits_inv (r : Room) : Prop :=
  forall x w, r_waits r !! x = Some w -> wait_waiter w = x /\ wait_waiting_for w <> x.

Section cycles.
Context (r : Room) (Hinv : waits_inv r).

Lemma wait_edge_waits_for a w x y :
  r_waits r !! a = Some w -> wait_edge r w x y <-> waits_for r x y.
Proof.
  intros Ha. destruct (Hinv _ _ Ha) as [Hw _]. unfold wait_edge, wait_next, waits_for.
  rewrite Hw. case_decide as E.
  - subst x. rewrite Ha. naive_solver.
  - destruct (r_waits r !! x); naive_solver.
Qed.

Lemma tc_waits_for a w x y :
  r_waits r !! a = Some w -> tc (wait_edge r w) x y <-> tc (waits_for r) x y.
Proof.
  intros Ha. split; induction 1 as [? ? He|? ? ? He _ IH].
  - by apply tc_once, (wait_edge_waits_for a w).
  - eapply tc_l; [|done]. by apply (wait_edge_waits_for a w).
  - by apply tc_once, (wait_edge_waits_for a w).
  - eapply tc_l; [|done]. by apply (wait_edge_waits_for a w).
Qed.

Lemma waits_for_det x y z : waits_for r x y -> waits_for r x z -> y = z.
Proof. intros (w & ? & ?) (w' & ? & ?). congruence. Qed.

(** A participant on a circle: the detected cycle is its whole orbit, each
    participant once. *)
Lemma wait_cycle_after_members a w :
  r_waits r !! a = Some w -> wait_cycle_after r w <> [] ->
  tc (waits_for r) a a /\ NoDup (wait_cycle_after r w) /\
  (forall x, x ∈ wait_cycle_after r w <-> tc (waits_for r) a x).
Proof.
  intros Ha Hne. destruct (Hinv _ _ Ha) as [Hw _].
  destruct (wait_cycle_after_result r w) as [[? _]|(last & rest & Hc & Hnd & Hl & Hlast & Hback)];
    [done|]. rewrite Hw in Hc, Hback. rewrite Hc in *.
  assert (Hrtc : forall i x, (a :: rest) !! i = Some x -> rtc (waits_for r) a x).
  { induction i as [|i IH]; intros x Hx; [by injection Hx as ->|].
    destruct ((a :: rest) !! i) as [y|] eqn:Hy.
    - eapply rtc_r; [by apply IH|]. apply (wait_edge_waits_for a w); [done|]. by eapply Hl.
    - apply lookup_ge_None in Hy. apply lookup_lt_Some in Hx. lia. }
  assert (Haa : tc (waits_for r) a a).
  { eapply tc_rtc_l; [by eapply Hrtc|]. by apply tc_once, (wait_edge_waits_for a w). }
  split; [done|]. split; [done|]. intros x. split.
  - intros [i Hi]%list_elem_of_lookup. eapply tc_rtc_r; [exact Haa|]. by eapply Hrtc.
  - assert (Hstep : forall y z, y ∈ a :: rest -> waits_for r y z -> z ∈ a :: rest).
    { intros y z [i Hi]%list_elem_of_lookup Hyz.
      destruct ((a :: rest) !! S i) as [z'|] eqn:Hz.
      - pose proof (Hl _ _ _ Hi Hz) as He. apply (wait_edge_waits_for a w) in He; [|done].
        rewrite (waits_for_det _ _ _ Hyz He). by eapply list_elem_of_lookup_2.
      - assert (i = length rest) as ->.
        { apply lookup_ge_None in Hz. apply lookup_lt_Some in Hi. cbn in *. lia. }
        assert (y = last) as -> by congruence.
        apply (wait_edge_waits_for a w) in Hback; [|done].
        rewrite (waits_for_det _ _ _ Hyz Hback). by left. }
    intros Ht.
    assert (forall y z, tc (waits_for r) y z -> y ∈ a :: rest -> z ∈ a :: rest) as Htc.
    { induction 1; eauto. }
    apply (Htc _ _ Ht). by left.
Qed.

Lemma wait_cycle_after_nil a w :
  r_waits r !! a = Some w -> wait_cycle_after r w = [] <-> ~ tc (waits_for r) a a.
Proof.
  intros Ha. split.
  - intros Hc. destruct (Hinv _ _ Ha) as [Hw _].
    destruct (wait_cycle_after_result r w) as [[_ Hn]|(? & ? & Hc' & _)]; [|congruence].
    rewrite Hw in Hn. by rewrite (tc_waits_for a w _ _ Ha) in Hn.
  - intros Hn. destruct (decide (wait_cycle_after r w = [])) as [|Hne]; [done|].
    by destruct (wait_cycle_after_members a w Ha Hne).
Qed.
End cycles.

(** ** Identities

    The source identifies a cycle by its sorted members joined with NUL; the
    identity determines the members when no name contains a NUL. *)
Fixpoint no_nul (s : string) : bool :=
  match s with
  | EmptyString => true
  | String c s => negb (Ascii.eqb c "000") && no_nul s
  end.

Lemma no_nul_app_inj a b s t :
  no_nul a = true -> no_nul b = true -> a +:+ nul +:+ s = b +:+ nul +:+ t -> a = b /\ s = t.
Proof.
  revert b. induction a as [|c a IH]; intros [|d b] Ha Hb Heq.
  - split; [done|]. by injection Heq.
  - injection Heq as <- _. discriminate Hb.
  - injection Heq as -> _. discriminate Ha.
  - apply andb_prop in Ha as [_ Ha]. apply andb_prop in Hb as [_ Hb].
    injection Heq as <- Heq. destruct (IH b Ha Hb Heq) as [<- <-]. done.
Qed.

Lemma no_nul_app_free a b t : no_nul a = true -> a <> b +:+ nul +:+ t.
Proof.
  revert a. induction b as [|d b IH]; intros a Ha ->.
  - discriminate Ha.
  - apply andb_prop in Ha as [_ Ha]. by eapply IH.
Qed.

Lemma join_nul_inj l l' :
  l <> [] -> l' <> [] -> (forall x, x ∈ l \/ x ∈ l' -> no_nul x = true) ->
  join nul l = join nul l' -> l = l'.
Proof.
  revert l'. induction l as [|a l IH]; intros [|b l'] Hl Hl' Hn Heq; try done.
  assert (no_nul a = true) by (apply Hn; left; by left).
  assert (no_nul b = true) by (apply Hn; right; by left).
  destruct l as [|a' l], l' as [|b' l'].
  - cbn in Heq. by subst.
  - exfalso. by eapply no_nul_app_free, Heq.
  - exfalso. by eapply no_nul_app_free, eq_sym, Heq.
  - change (a +:+ nul +:+ join nul (a' :: l) = b +:+ nul +:+ join nul (b' :: l')) in Heq.
    apply no_nul_app_inj in Heq as [<- Heq]; [|done..]. f_equal.
    apply IH; [done..| |done]. intros x Hx. apply Hn. set_solver.
Qed.

Lemma cycle_identity_members c c' :
  c <> [] -> c' <> [] -> (forall x, x ∈ c \/ x ∈ c' -> no_nul x = true) ->
  cycle_identity c = cycle_identity c' <-> c ≡ₚ c'.
Proof.
  intros Hc Hc' Hn. unfold cycle_identity. split.
  - intros Heq. apply join_nul_inj in Heq.
    + rewrite <- (sort_strings_Permutation c), <- (sort_strings_Permutation c'). by rewrite Heq.
    + intros E. apply Hc, Permutation_nil_r. by rewrite <- E, sort_strings_Permutation.
    + intros E. apply Hc', Permutation_nil_r. by rewrite <- E, sort_strings_Permutation.
    + intros x. rewrite !sort_strings_Permutation. apply Hn.
  - intros Hp. f_equal. apply (StronglySorted_unique String.le).
    + apply sort_strings_sorted.
    + apply sort_strings_sorted.
    + by rewrite !sort_strings_Permutation.
Qed.

(** ** All the cycles of a room *)

Definition names_no_nul (r : Room) : Prop :=
  forall x w, r_waits r !! x = Some w -> no_nul x = true.

Section all_cycles.
Context (r : Room) (Hinv : waits_inv r) (Hnul : names_no_nul r).

(** After the names [done_names]. *)
Record cycles_ok (done_names : list string) (acc : gset string * list (list string)) : Prop := {
  co_seen : acc.1 = list_to_set (cycle_identity <$> acc.2);
  co_distinct : NoDup (cycle_identity <$> acc.2);
  co_cycle : forall c, c ∈ acc.2 -> exists a w,
    r_waits r !! a = Some w /\ c = wait_cycle_after r w /\ c <> [];
  co_all : forall a, a ∈ done_names -> tc (waits_for r) a a ->
    exists c, c ∈ acc.2 /\ a ∈ c;
}.

(** Everybody on a circle is on a circle. *)
Lemma circle_back a x :
  tc (waits_for r) a a -> tc (waits_for r) a x -> tc (waits_for r) x a.
Proof.
  intros Haa Hax.
  assert (Hstep : forall y z, tc (waits_for r) y a -> waits_for r y z -> tc (waits_for r) z a).
  { intros y z Hy Hyz. inversion_clear Hy as [? ? Hya|? y' ? Hyy' Hy'].
    - by rewrite (waits_for_det r _ _ _ Hyz Hya).
    - by rewrite (waits_for_det r _ _ _ Hyz Hyy'). }
  assert (forall y z, tc (waits_for r) y z -> tc (waits_for r) y a -> tc (waits_for r) z a) as Hgo.
  { induction 1; eauto. }
  by eapply Hgo.
Qed.

Lemma tc_waits_for_wait x y : tc (waits_for r) x y -> exists w, r_waits r !! x = Some w.
Proof.
  intros Ht. by inversion_clear Ht as [? ? (w & ? & _)|? ? ? (w & ? & _)]; exists w.
Qed.

Lemma cycle_no_nul a w x :
  r_waits r !! a = Some w -> wait_cycle_after r w <> [] ->
  x ∈ wait_cycle_after r w -> no_nul x = true.
Proof.
  intros Ha Hne Hx. destruct (wait_cycle_after_members r Hinv a w Ha Hne) as (Haa & _ & Hm).
  apply Hm, circle_back, tc_waits_for_wait in Hx as [w' Hw']; [|done]. by eapply Hnul.
Qed.

Lemma same_identity_members a w b w' :
  r_waits r !! a = Some w -> r_waits r !! b = Some w' ->
  wait_cycle_after r w <> [] -> wait_cycle_after r w' <> [] ->
  cycle_identity (wait_cycle_after r w) = cycle_identity (wait_cycle_after r w') <->
  wait_cycle_after r w ≡ₚ wait_cycle_after r w'.
Proof.
  intros Ha Hb Hna Hnb. apply cycle_identity_members; [done..|].
  intros x [Hx|Hx].
  - exact (cycle_no_nul a w x Ha Hna Hx).
  - exact (cycle_no_nul b w' x Hb Hnb Hx).
Qed.

Lemma cycles_ok_step done_names acc name :
  cycles_ok done_names acc -> cycles_ok (done_names ++ [name]) (wait_cycles_step r acc name).
Proof.
  intros [Hs Hd Hc Ha]. destruct acc as [seen cycles]. cbn in *. subst seen.
  unfold wait_cycles_step.
  assert (Hskip : (tc (waits_for r) name name -> exists c, c ∈ cycles /\ name ∈ c) ->
    cycles_ok (done_names ++ [name]) (list_to_set (cycle_identity <$> cycles), cycles)).
  { intros Hname. constructor; cbn; [done..|].
    intros a [Hin|E%list_elem_of_singleton]%elem_of_app; [eauto|subst a; eauto]. }
  destruct (r_waits r !! name) as [w|] eqn:Hw.
  2:{ apply Hskip. intros [w Hw']%tc_waits_for_wait. congruence. }
  case_bool_decide as Hnil.
  { apply Hskip. by apply (wait_cycle_after_nil r Hinv name w) in Hnil. }
  destruct (wait_cycle_after_members r Hinv name w Hw Hnil) as (Hnn & _ & Hm).
  case_decide as Hseen.
  - apply Hskip. intros _. apply elem_of_list_to_set, list_elem_of_fmap in Hseen as (c & Heq & Hin).
    destruct (Hc _ Hin) as (a & w' & Ha' & -> & Hne).
    apply (same_identity_members name w a w') in Heq; [|done..].
    exists (wait_cycle_after r w'). split; [done|]. rewrite <- Heq. by apply Hm.
  - constructor; cbn.
    + rewrite fmap_app. cbn. set_solver.
    + rewrite fmap_app. apply NoDup_app. split; [done|]. split; [|apply NoDup_singleton].
      intros i Hi Hi'%list_elem_of_singleton. subst i. apply Hseen. by apply elem_of_list_to_set.
    + intros c [Hin|Hin%list_elem_of_singleton]%elem_of_app; [eauto|].
      subst c. by exists name, w.
    + intros a [Hin|Hin%list_elem_of_singleton]%elem_of_app Haa; [|subst a].
      * destruct (Ha a Hin Haa) as (c & ? & ?). exists c. set_solver.
      * exists (wait_cycle_after r w). split; [set_solver|]. by apply Hm.
Qed.

Lemma cycles_ok_all : exists seen,
  cycles_ok (sort_strings (keys (r_waits r))) (seen, wait_cycles r).
Proof.
  unfold wait_cycles. set (l := sort_strings _). clearbody l.
  assert (forall done_names acc, cycles_ok done_names acc ->
    cycles_ok (done_names ++ l) (foldl (wait_cycles_step r) acc l)) as Hfold.
  { induction l as [|n l IH]; intros done_names acc Hok; [by rewrite app_nil_r|].
    cbn. replace (done_names ++ n :: l) with ((done_names ++ [n]) ++ l)
      by by rewrite <- app_assoc.
    by apply IH, cycles_ok_step. }
  specialize (Hfold [] (∅, [])). cbn in Hfold.
  destruct (foldl _ _ _) as [seen cycles]. exists seen. apply Hfold.
  constructor; cbn; [done|constructor|..]; intros ? Hin; by apply not_elem_of_nil in Hin.
Qed.

(** The cycles have no member in common. *)
Lemma cycles_disjoint a w b w' x :
  r_waits r !! a = Some w -> r_waits r !! b = Some w' ->
  wait_cycle_after r w <> [] -> wait_cycle_after r w' <> [] ->
  x ∈ wait_cycle_after r w -> x ∈ wait_cycle_after r w' ->
  cycle_identity (wait_cycle_after r w) = cycle_identity (wait_cycle_after r w').
Proof.
  intros Ha Hb Hna Hnb Hx Hx'. apply (same_identity_members a w b w'); [done..|].
  destruct (wait_cycle_after_members r Hinv a w Ha Hna) as (Haa & Hnda & Hma).
  destruct (wait_cycle_after_members r Hinv b w' Hb Hnb) as (Hbb & Hndb & Hmb).
  apply NoDup_Permutation; [done..|]. intros y. rewrite Hma, Hmb.
  apply Hma in Hx. apply Hmb in Hx'.
  assert (tc (waits_for r) a b) by (eapply tc_transitive; [exact Hx|]; by apply circle_back).
  assert (tc (waits_for r) b a) by (eapply tc_transitive; [exact Hx'|]; by apply circle_back).
  split; intros Hy; by eapply tc_transitive.
Qed.
End all_cycles.

Lemma NoDup_concat {A} (ls : list (list A)) :
  (forall l, l ∈ ls -> NoDup l) ->
  (forall i j l l' x, ls !! i = Some l -> ls !! j = Some l' -> x ∈ l -> x ∈ l' -> i = j) ->
  NoDup (concat ls).
Proof.
  induction ls as [|l ls IH]; intros Hnd Hdis; [constructor|]. cbn.
  apply NoDup_app. split; [apply Hnd; by left|]. split.
  - intros x Hx (l' & Hl' & Hx')%list_elem_of_In%in_concat.
    apply list_elem_of_In, list_elem_of_lookup in Hl' as [j Hj]. apply list_elem_of_In in Hx'.
    specialize (Hdis 0 (S j) l l' x eq_refl Hj Hx Hx'). done.
  - apply IH.
    + intros l' Hl'. apply Hnd. by right.
    + intros i j l1 l2 x H1 H2 Hx1 Hx2. specialize (Hdis (S i) (S j) l1 l2 x H1 H2 Hx1 Hx2). lia.
Qed.

(** C31: Circular waits are detected exactly: the cycles [wait_cycles] reports
    (and the scheduler escalates) contain precisely the participants that
    transitively wait for themselves, each of them once, provided no
    participant's name contains a NUL, which the identity of a cycle uses as
    its separator. *)
Theorem wait_cycles_exact r :
  waits_inv r -> names_no_nul r ->
  NoDup (concat (wait_cycles r)) /\
  forall x, x ∈ concat (wait_cycles r) <-> tc (waits_for r) x x.
Proof.
  intros Hinv Hnul. destruct (cycles_ok_all r Hinv Hnul) as [seen [_ Hd Hc Ha]]. cbn in *.
  split.
  - apply NoDup_concat.
    + intros c (a & w & Hw & -> & Hne)%Hc. by destruct (wait_cycle_after_members r Hinv a w Hw Hne) as (_ & ? & _).
    + intros i j c c' x Hi Hj Hx Hx'.
      destruct (Hc c) as (a & w & Hw & -> & Hne); [by eapply list_elem_of_lookup_2|].
      destruct (Hc c') as (b & w' & Hw' & -> & Hne'); [by eapply list_elem_of_lookup_2|].
      pose proof (cycles_disjoint r Hinv Hnul _ _ _ _ _ Hw Hw' Hne Hne' Hx Hx') as Heq.
      eapply NoDup_lookup; [exact Hd|..]; rewrite list_lookup_fmap.
      * by rewrite Hi.
      * by rewrite Hj, Heq.
  - intros x. split.
    + intros (c & Hin%list_elem_of_In & Hx%list_elem_of_In)%list_elem_of_In%in_concat.
      destruct (Hc c Hin) as (a & w & Hw & -> & Hne).
      destruct (wait_cycle_after_members r Hinv a w Hw Hne) as (Haa & _ & Hm).
      apply Hm in Hx. eapply tc_transitive; [|exact Hx]. by apply circle_back.
    + intros Hxx. destruct (tc_waits_for_wait r x x Hxx) as [w Hw].
      destruct (Ha x) as (c & Hin & Hx); [|done|].
      * rewrite sort_strings_Permutation. apply elem_of_keys. eauto.
      * apply list_elem_of_In, in_concat. exists c. by split; apply list_elem_of_In.
Qed.

(** A circle of two next to a chain that leads into it. *)
Definition circle_room : Room :=
  let edge x y := (x, mkWaitState "lab" x y "r" 1 None 0) in
  with_r_waits (list_to_map [edge "ada" "bob"; edge "bob" "ada"; edge "cem" "ada"])
    (room_with Free room_settings_default 1).

Lemma wait_cycles_exact_witness :
  wait_cycles circle_room = [["ada"; "bob"]] /\
  (NoDup (concat (wait_cycles circle_room)) /\
   forall x, x ∈ concat (wait_cycles circle_room) <-> tc (waits_for circle_room) x x).
Proof.
  split; [by vm_compute|]. apply (wait_cycles_exact circle_room).
  - intros x w Hx. apply elem_of_list_to_map_2 in Hx.
    repeat (apply elem_of_cons in Hx as [E|Hx]; [injection E as -> ->; done|]).
    by apply not_elem_of_nil in Hx.
  - intros x w Hx. apply elem_of_list_to_map_2 in Hx.
    repeat (apply elem_of_cons in Hx as [E|Hx]; [injection E as -> ->; done|]).
    by apply not_elem_of_nil in Hx.
Defined.

(** ** The operations *)

Section ops.
Context {St : Type} `{WorkStore St}.
Implicit Types h : Hub St.

Lemma waits_inv_insert r w :
  waits_inv r -> wait_waiting_for w <> wait_waiter w ->
  waits_inv (with_r_waits (<[wait_waiter w := w]> (r_waits r)) r).
Proof.
  intros Hi Hne x w'. cbn. intros [[<- <-]|[_ Hx]]%lookup_insert_Some; [done|eauto].
Qed.

Lemma waits_inv_ext r r' : r_waits r' = r_waits r -> waits_inv r -> waits_inv r'.
Proof. unfold waits_inv. by intros ->. Qed.

Lemma waits_inv_room_with m s n : waits_inv (room_with m s n).
Proof. intros x w. cbn. by rewrite lookup_empty. Qed.

(** The successful, effective runs of [set_wait]. *)
Lemma set_wait_ok_run room req h h' w :
  set_wait room req h = (h', Ok w) ->
  sw_by req <> sw_waiting_for req /\
  wait_waiting_for w = sw_waiting_for req /\ wait_reason w = sw_reason req /\
  ((r_waits (entry_room room h) !! sw_by req = Some w /\ h' = room_mut room h) \/
   wait_waiter w = sw_by req /\
   exists r', h_rooms h' = <[room := r']> (h_rooms h) /\
     r_waits r' = <[sw_by req := w]> (r_waits (entry_room room h)) /\
     r_settings r' = r_settings (entry_room room h) /\
     r_goals r' = r_goals (entry_room room h) /\
     r_tasks r' = r_tasks (entry_room room h)).
Proof.
  unfold set_wait. case_decide as Hself; [done|]. rewrite entry_room_mut.
  set (r := entry_room room h).
  destruct (match r_waits r !! sw_by req with Some _ => _ | None => _ end)
    as [existing|] eqn:Hex.
  - intros [= <- <-]. destruct (r_waits r !! sw_by req) as [e|]; [|done].
    case_decide as Hsame; [|done]. injection Hex as ->. destruct Hsame.
    split; [done|]. split; [done|]. split; [done|]. by left.
  - destruct (next_condition_generation _ _ _) as [h1 since] eqn:Hg.
    apply next_condition_generation_state in Hg as ->.
    destruct (run_store _ _) as [h3 wr] eqn:Hst.
    apply run_store_state in Hst as [-> _]. destruct wr; [|done]. intros [= <- <-].
    split; [done|]. split; [done|]. split; [done|]. right. split; [done|].
    eexists. split.
    { cbn. by rewrite insert_insert_eq. }
    repeat split; room_frame.
Qed.

Lemma set_wait_err_rooms room req h h' e :
  set_wait room req h = (h', Err e) -> h_rooms h' = h_rooms h \/ h_rooms h' = h_rooms (room_mut room h).
Proof.
  unfold set_wait. case_decide as Hself; [intros [= <- <-]; by left|].
  destruct (match r_waits _ !! sw_by req with Some _ => _ | None => _ end); [done|].
  destruct (next_condition_generation _ _ _) as [h1 since] eqn:Hg.
  apply next_condition_generation_state in Hg as ->.
  destruct (run_store _ _) as [h3 wr] eqn:Hst.
  apply run_store_state in Hst as [-> _]. destruct wr; [done|]. intros [= <- <-]. by right.
Qed.

Lemma set_wait_waits_ok room req h :
  all_rooms waits_inv h -> all_rooms waits_inv (set_wait room req h).1.
Proof.
  intros Hw. pose proof (all_rooms_mut _ h room Hw (waits_inv_room_with _ _ _)) as Hm.
  pose proof (all_rooms_entry _ h room Hw (waits_inv_room_with _ _ _)) as He.
  destruct (set_wait room req h) as [h' [w|e]] eqn:E; cbn.
  - apply set_wait_ok_run in E as (Hself & Hfor & _ & [[_ ->]|(Hby & r' & Hr & Hws & _)]);
      [done|].
    intros n r. rewrite Hr. intros [[<- <-]|[_ Hn]]%lookup_insert_Some; [|eauto].
    eapply waits_inv_ext, (waits_inv_insert _ w He); rewrite ?Hws, ?Hby, ?Hfor; done.
  - apply set_wait_err_rooms in E as [E|E]; intros n r; rewrite E; [apply Hw|apply Hm].
Qed.

Lemma clear_wait_waits_ok room waiter h :
  all_rooms waits_inv h -> all_rooms waits_inv (clear_wait room waiter h).1.
Proof.
  intros Hw. unfold clear_wait. destruct (h_rooms h !! room) as [r|] eqn:Hr; [|done].
  case_bool_decide; [done|]. destruct (run_store _ _) as [h3 wr] eqn:Hst.
  apply run_store_state in Hst as [-> _]. destruct wr; [|done]. cbn [fst].
  apply all_rooms_put; [done|]. specialize (Hw _ _ Hr).
  intros x w. room_frame. intros [_ Hx]%lookup_delete_Some. by apply Hw.
Qed.

(** Declaring the same wait again changes nothing: once [set_wait] has
    recorded an edge, the same declaration at any later state in which the
    room is unchanged returns the recorded wait, with its original [since],
    writes nothing to the store and sends nothing. *)
Theorem set_wait_idempotent room req h h' w later :
  set_wait room req h = (h', Ok w) ->
  h_rooms later !! room = h_rooms h' !! room ->
  set_wait room req later = (later, Ok w).
Proof.
  intros Hok Hsame. apply set_wait_ok_run in Hok as (Hself & Hfor & Hreason & Hcase).
  assert (exists r, h_rooms h' !! room = Some r /\ r_waits r !! sw_by req = Some w)
    as (r & Hr & Hx).
  { destruct Hcase as [[Hx ->]|(_ & r' & -> & Hw & _)].
    - exists (entry_room room h). cbn. by rewrite lookup_insert_eq.
    - exists r'. rewrite lookup_insert_eq, Hw, lookup_insert_eq. done. }
  rewrite Hr in Hsame.
  assert (Hmut : room_mut room later = later).
  { unfold room_mut, put_room. rewrite (entry_room_Some _ _ _ Hsame), insert_id by done.
    by destruct later. }
  unfold set_wait. rewrite decide_False by done. rewrite Hmut, (entry_room_Some _ _ _ Hsame), Hx.
  by rewrite decide_True by done.
Qed.
End ops.

Lemma set_wait_idempotent_witness :
  let req := mkSetWait "bob" "review" "ada" in
  let h' := (set_wait "lab" req (empty_hub tt)).1 in
  let later := with_h_clock 5000 h' in
  exists w, wait_since w = 1000%N /\ set_wait "lab" req later = (later, Ok w).
Proof.
  cbn zeta. eexists. split; cycle 1.
  - eapply (set_wait_idempotent "lab" _ (empty_hub tt)); [vm_compute; reflexivity|done].
  - done.
Defined.
