(* ===== verification/Seats.v ===== *)
(** * Seats

    [subscribe], [join] and [leave] of crates/server/src/hub.rs: who sits in a
    room, under which identity, and over how many connections. *)

From S2P Require Import Prelude Protocol StoreApi Hub Work WorkFacts Waits WaitFacts.

Section seats.
Context {St : Type}.
Implicit Types h : Hub St.

(** The history replayed to the joiner; the receiver itself is a position in
    [r_tx]. *)
(** @src hub fn subscribe *)
Definition subscribe (room : string) h : Hub St * list Message :=
  if is_deleted h room then (h, [])
  else
    let h := room_mut room h in
    (h, r_history (entry_room room h)).

(** The same identity under the same name, a human on both sides. *)
(** @src hub:2356-2363 join *)
Definition additional_human_reader (r : Room) (identity name : string) (kind : SenderType)
    : bool :=
  match r_members r !! identity with
  | Some (existing_name, existing_kind, _) =>
      bool_decide (existing_name = name) && bool_decide (existing_kind = User)
      && bool_decide (kind = User)
  | None => false
  end.

(** [usize::saturating_add] on a 64-bit machine. *)
(** @src hub fn join *)
Definition join_room (room identity name : string) (kind : SenderType) (session : N) h
    : Hub St * bool :=
  if is_deleted h room then (h, false)
  else
    let h := room_mut room h in
    let r := entry_room room h in
    if bool_decide (r_members r !! identity = None)
       && (LOCA_KAPASITE <=? size (r_members r))%nat
    then (h, false)
    else
      let r :=
        match r_members r !! identity with
        | Some (existing_name, existing_kind, count) =>
            if additional_human_reader r identity name kind then
              with_r_members
                (<[identity := (existing_name, existing_kind, sat_add64 count 1)]>
                   (r_members r)) r
            else
              let r := send (SF_Evicted name identity session) r in
              with_r_members (<[identity := (name, kind, 1%N)]> (r_members r)) r
        | None => with_r_members (<[identity := (name, kind, 1%N)]> (r_members r)) r
        end in
      (put_room room (send (SF_Members (member_list r)) r) h, true).

(** @src hub fn leave *)
Definition leave (room identity : string) h : Hub St :=
  match h_rooms h !! room with
  | None => h
  | Some r =>
      let r :=
        match r_members r !! identity with
        | None => r
        | Some (name, kind, count) =>
            let count := sat_sub count 1 in
            if decide (count = 0%N)
            then with_r_members (delete identity (r_members r)) r
            else with_r_members (<[identity := (name, kind, count)]> (r_members r)) r
        end in
      put_room room (send (SF_Members (member_list r)) r) h
  end.
End seats.

(** ** The seats of a room *)

(** A room seats at most [LOCA_KAPASITE] identities, each over at least one
    connection. *)
Record seats_inv (r : Room) : Prop := {
  si_capacity : size (r_members r) <= LOCA_KAPASITE;
  si_counted : forall i n k c, r_members r !! i = Some (n, k, c) -> (1 <= c)%N;
}.

Lemma seats_inv_ext r r' : r_members r' = r_members r -> seats_inv r -> seats_inv r'.
Proof. intros Hm [? ?]. split; by rewrite Hm. Qed.

Lemma seats_inv_room_with m s n : seats_inv (room_with m s n).
Proof. split; cbn; [rewrite map_size_empty; lia|intros *; by rewrite lookup_empty]. Qed.

(** The seat [join_room] gives. *)
Definition joined_seat (r : Room) (identity name : string) (kind : SenderType)
    : string * SenderType * N :=
  match r_members r !! identity with
  | Some (n, k, count) =>
      if additional_human_reader r identity name kind then (n, k, sat_add64 count 1)
      else (name, kind, 1%N)
  | None => (name, kind, 1%N)
  end.

Lemma joined_seat_counted r identity name kind :
  (1 <= (joined_seat r identity name kind).2)%N.
Proof.
  unfold joined_seat. destruct (r_members r !! identity) as [[[n k] c]|]; [|done].
  destruct (additional_human_reader _ _ _ _); [|done]. cbn. unfold sat_add64, u64_max. lia.
Qed.

Section seat_facts.
Context {St : Type}.
Implicit Types h : Hub St.

Definition seat_free (r : Room) (identity : string) : bool :=
  negb (bool_decide (r_members r !! identity = None)
        && (LOCA_KAPASITE <=? size (r_members r))%nat).

(** When a seat is given, and what the room looks like then. *)
Lemma join_room_true room identity name kind session h h' :
  join_room room identity name kind session h = (h', true) ->
  is_deleted h room = false /\ seat_free (entry_room room h) identity = true /\
  exists r', h' = put_room room r' (room_mut room h) /\
    r_members r' = <[identity := joined_seat (entry_room room h) identity name kind]>
                     (r_members (entry_room room h)) /\
    r_goals r' = r_goals (entry_room room h) /\ r_tasks r' = r_tasks (entry_room room h) /\
    r_waits r' = r_waits (entry_room room h) /\
    r_settings r' = r_settings (entry_room room h) /\
    r_history r' = r_history (entry_room room h).
Proof.
  unfold join_room, seat_free. destruct (is_deleted h room); [done|].
  rewrite entry_room_mut. destruct (bool_decide _ && _); [done|].
  intros [= <-]. split; [done|]. split; [done|]. eexists. split; [done|].
  unfold joined_seat. destruct (r_members _ !! identity) as [[[n k] c]|]; [|done].
  by destruct (additional_human_reader _ _ _ _).
Qed.

Lemma join_room_false room identity name kind session h h' :
  join_room room identity name kind session h = (h', false) ->
  h' = h \/ h' = room_mut room h.
Proof.
  unfold join_room. destruct (is_deleted h room); [intros [= <-]; by left|].
  destruct (bool_decide _ && _); [intros [= <-]; by right|done].
Qed.

Lemma join_seats_inv r identity name kind :
  seats_inv r -> seat_free r identity = true ->
  seats_inv (with_r_members (<[identity := joined_seat r identity name kind]> (r_members r)) r).
Proof.
  intros [Hcap Hcount] Hfree. split; cbn.
  - unfold seat_free in Hfree. apply negb_true_iff in Hfree.
    destruct (r_members r !! identity) as [s|] eqn:E.
    + rewrite map_size_insert_Some; [done|by eexists].
    + rewrite map_size_insert_None by done.
      rewrite bool_decide_eq_true_2 in Hfree by done.
      apply Nat.leb_gt in Hfree. lia.
  - intros i n k c [[<- E]|[_ Hi]]%lookup_insert_Some; [|eauto].
    pose proof (joined_seat_counted r identity name kind). by rewrite E in *.
Qed.

Lemma join_room_seats_ok room identity name kind session h :
  all_rooms seats_inv h -> all_rooms seats_inv (join_room room identity name kind session h).1.
Proof.
  intros Hs. destruct (join_room _ _ _ _ _ _) as [h' []] eqn:E; cbn.
  - apply join_room_true in E as (_ & Hfree & r' & -> & Hm & _).
    apply all_rooms_put; [apply all_rooms_mut; [done|apply seats_inv_room_with]|].
    eapply seats_inv_ext; [|apply (join_seats_inv (entry_room room h) identity name kind)].
    + by rewrite Hm.
    + apply all_rooms_entry; [done|apply seats_inv_room_with].
    + done.
  - apply join_room_false in E as [->| ->]; [done|].
    apply all_rooms_mut; [done|apply seats_inv_room_with].
Qed.

(** The seat after one connection of [identity] is gone. *)
Definition left_members (r : Room) (identity : string)
    : gmap string (string * SenderType * N) :=
  match r_members r !! identity with
  | None => r_members r
  | Some (name, kind, count) =>
      if decide ((count - 1)%N = 0%N) then delete identity (r_members r)
      else <[identity := (name, kind, (count - 1)%N)]> (r_members r)
  end.

Lemma leave_Some room identity h r :
  h_rooms h !! room = Some r ->
  exists r', leave room identity h = put_room room r' h /\
    r_members r' = left_members r identity /\
    r_goals r' = r_goals r /\ r_tasks r' = r_tasks r /\ r_waits r' = r_waits r /\
    r_settings r' = r_settings r /\ r_history r' = r_history r.
Proof.
  intros Hr. unfold leave, left_members. rewrite Hr. eexists. split; [done|].
  unfold sat_sub. destruct (r_members r !! identity) as [[[n k] c]|]; [|done].
  by destruct (decide _).
Qed.

Lemma left_seats_inv r identity :
  seats_inv r -> seats_inv (with_r_members (left_members r identity) r).
Proof.
  intros [Hcap Hcount]. unfold left_members.
  destruct (r_members r !! identity) as [[[n k] c]|] eqn:E; [|by split].
  destruct (decide _) as [Hz|Hz]; split; cbn.
  - rewrite map_size_delete, E. cbn. lia.
  - intros i n' k' c' [_ Hi]%lookup_delete_Some. eauto.
  - rewrite map_size_insert_Some; [done|by eexists].
  - intros i n' k' c' [[<- [= <- <- <-]]|[_ Hi]]%lookup_insert_Some; [lia|eauto].
Qed.

Lemma leave_seats_ok room identity h :
  all_rooms seats_inv h -> all_rooms seats_inv (leave room identity h).
Proof.
  intros Hs. destruct (h_rooms h !! room) as [r|] eqn:Hr.
  - destruct (leave_Some room identity h r Hr) as (r' & -> & Hm & _).
    apply all_rooms_put; [done|].
    eapply seats_inv_ext; [|apply (left_seats_inv r identity)]; [by rewrite Hm|].
    by eapply Hs.
  - unfold leave. by rewrite Hr.
Qed.

(** [n] connections of one human, under one name. *)
Definition human_joins (room identity name : string) (sessions : list N) h : Hub St :=
  foldl (fun h s => (join_room room identity name User s h).1) h sessions.

Lemma human_rejoin room identity name s h r c :
  is_deleted h room = false -> h_rooms h !! room = Some r ->
  r_members r !! identity = Some (name, User, c) ->
  exists r', (join_room room identity name User s h).1 = put_room room r' (room_mut room h) /\
    r_members r' = <[identity := (name, User, sat_add64 c 1)]> (r_members r).
Proof.
  intros Hd Hr Hm. destruct (join_room room identity name User s h) as [h' b] eqn:E.
  assert (b = true) as ->.
  { unfold join_room in E. rewrite Hd, entry_room_mut, (entry_room_Some _ _ _ Hr), Hm in E.
    rewrite bool_decide_eq_false_2 in E by done. by injection E as _ <-. }
  apply join_room_true in E as (_ & _ & r' & -> & Hmem & _).
  exists r'. split; [done|]. rewrite Hmem, (entry_room_Some _ _ _ Hr). f_equal.
  unfold joined_seat, additional_human_reader. rewrite Hm.
  by rewrite !bool_decide_eq_true_2.
Qed.

Lemma leave_is_deleted room identity other h :
  is_deleted (leave room identity h) other = is_deleted h other.
Proof. unfold leave. by destruct (h_rooms h !! room). Qed.

Lemma join_is_deleted room identity name kind s other h :
  is_deleted (join_room room identity name kind s h).1 other = is_deleted h other.
Proof.
  unfold join_room. destruct (is_deleted h room); [done|]. by destruct (bool_decide _ && _).
Qed.

Lemma human_joins_more room identity name sessions h r c :
  is_deleted h room = false -> h_rooms h !! room = Some r ->
  r_members r !! identity = Some (name, User, c) ->
  (c + N.of_nat (length sessions) <= u64_max)%N ->
  exists r', h_rooms (human_joins room identity name sessions h) !! room = Some r' /\
    r_members r' !! identity = Some (name, User, (c + N.of_nat (length sessions))%N).
Proof.
  revert h r c. induction sessions as [|s sessions IH]; intros h r c Hd Hr Hm Hle; cbn.
  { exists r. rewrite N.add_0_r. done. }
  destruct (human_rejoin room identity name s h r c Hd Hr Hm) as (r' & Hj & Hm').
  cbn [length] in Hle.
  destruct (IH (join_room room identity name User s h).1 r' (c + 1)%N) as (r'' & Hr'' & Hm'').
  - by rewrite join_is_deleted.
  - rewrite Hj. cbn. by rewrite lookup_insert_eq.
  - rewrite Hm', lookup_insert_eq. unfold sat_add64. do 2 f_equal. lia.
  - lia.
  - exists r''. split; [done|]. rewrite Hm''. do 2 f_equal. lia.
Qed.

Lemma leave_many room identity h r name c k :
  h_rooms h !! room = Some r -> r_members r !! identity = Some (name, User, c) ->
  (N.of_nat k <= c)%N ->
  exists r', h_rooms (Nat.iter k (leave room identity) h) !! room = Some r' /\
    r_members r' !! identity =
      if decide (N.of_nat k = c /\ c <> 0%N) then None
      else Some (name, User, (c - N.of_nat k)%N).
Proof.
  intros Hr Hm. induction k as [|k IH]; intros Hle.
  { exists r. split; [done|]. rewrite decide_False by lia. by rewrite N.sub_0_r. }
  destruct IH as (r1 & Hr1 & Hm1); [lia|]. rewrite decide_False in Hm1 by lia.
  destruct (leave_Some room identity _ _ Hr1) as (r2 & Hl & Hm2 & _).
  exists r2. cbn [Nat.iter]. change (Nat.iter (S k) (leave room identity) h)
    with (leave room identity (Nat.iter k (leave room identity) h)).
  rewrite Hl. cbn. rewrite lookup_insert_eq. split; [done|]. rewrite Hm2.
  unfold left_members. rewrite Hm1. destruct (decide (_ = 0%N)) as [Hz|Hz].
  - rewrite lookup_delete_eq, decide_True by lia. done.
  - rewrite lookup_insert_eq, decide_False by lia. do 2 f_equal. lia.
Qed.

(** A human seat is freed by the last reader only.  When an identity that
    holds no seat opens [1 + n] connections as the same human in a room that
    has a place for it, and then closes [k] of them, the seat is in the roster
    with the connections that are left, and it is gone exactly when none is. *)
Theorem human_seat_refcount room identity name s sessions k h :
  is_deleted h room = false ->
  r_members (entry_room room h) !! identity = None ->
  size (r_members (entry_room room h)) < LOCA_KAPASITE ->
  (N.of_nat (S (length sessions)) <= u64_max)%N -> k <= S (length sessions) ->
  exists r, h_rooms (Nat.iter k (leave room identity)
                       (human_joins room identity name (s :: sessions) h)) !! room = Some r /\
    r_members r !! identity =
      if decide (k = S (length sessions)) then None
      else Some (name, User, (N.of_nat (S (length sessions)) - N.of_nat k)%N).
Proof.
  intros Hd Hm Hsize Hmax Hk. cbn [human_joins foldl].
  destruct (join_room room identity name User s h) as [h1 b] eqn:E. cbn [fst].
  assert (Hd1 : is_deleted h1 room = false).
  { change h1 with (h1, b).1. rewrite <- E. by rewrite join_is_deleted. }
  assert (b = true) as ->.
  { unfold join_room in E. rewrite Hd, entry_room_mut, Hm in E.
    rewrite (proj2 (Nat.leb_gt _ _) Hsize), andb_false_r in E. by injection E as _ <-. }
  apply join_room_true in E as (_ & _ & r1 & -> & Hm1 & _).
  destruct (human_joins_more room identity name sessions _ r1 1 Hd1) as (r2 & Hr2 & Hm2).
  - cbn. by rewrite lookup_insert_eq.
  - rewrite Hm1, lookup_insert_eq. unfold joined_seat. by rewrite Hm.
  - lia.
  - destruct (leave_many room identity _ _ _ _ k Hr2 Hm2) as (r3 & Hr3 & Hm3); [lia|].
    exists r3. split; [done|]. rewrite Hm3.
    destruct (decide (k = _)) as [->|Hne].
    + by rewrite decide_True by lia.
    + rewrite decide_False by lia. do 2 f_equal. lia.
Qed.

(** An agent's newer connection takes the seat over: joining under a
    seated identity as anything but the same human resets the seat to exactly
    one connection under the new name, tells the older connections to go, and
    one [leave] frees it. *)
Theorem agent_rejoin_takes_over room identity name kind s h r :
  is_deleted h room = false -> h_rooms h !! room = Some r ->
  r_members r !! identity <> None -> additional_human_reader r identity name kind = false ->
  exists h' r', join_room room identity name kind s h = (h', true) /\
    h_rooms h' !! room = Some r' /\
    r_members r' = <[identity := (name, kind, 1%N)]> (r_members r) /\
    r_tx r' = r_tx r ++ [SF_Evicted name identity s; SF_Members (member_list r')] /\
    exists r'', h_rooms (leave room identity h') !! room = Some r'' /\
      r_members r'' = delete identity (r_members r).
Proof.
  intros Hd Hr Hm Hadd. unfold join_room. rewrite Hd, entry_room_mut, (entry_room_Some _ _ _ Hr).
  rewrite (bool_decide_eq_false_2 _ Hm). cbn [andb].
  destruct (r_members r !! identity) as [[[n k] c]|] eqn:E; [|done]. rewrite Hadd.
  eexists _, _. split; [done|]. split; [cbn; by rewrite lookup_insert_eq|].
  split; [done|]. split; [cbn; by rewrite <- app_assoc|].
  edestruct (leave_Some room identity) as (r'' & -> & Hm'' & _).
  { cbn. by rewrite lookup_insert_eq. }
  exists r''. split; [cbn; by rewrite lookup_insert_eq|]. rewrite Hm''.
  unfold left_members. cbn. rewrite lookup_insert_eq. cbn.
  apply delete_insert_eq.
Qed.
End seat_facts.

Lemma human_seat_refcount_witness :
  exists r, h_rooms (Nat.iter 2 (leave "lab" "id1")
              (human_joins "lab" "id1" "ada" [1%N; 2%N; 3%N] (empty_hub tt))) !! "lab" = Some r /\
    r_members r !! "id1" = Some ("ada", User, 1%N).
Proof.
  apply (human_seat_refcount "lab" "id1" "ada" 1 [2%N; 3%N] 2 (empty_hub tt)); try done.
  - vm_compute. lia.
  - cbn. lia.
Defined.

Lemma agent_rejoin_takes_over_witness :
  let h := (join_room "lab" "id1" "bot" Agent 1 (empty_hub tt)).1 in
  exists h' r', join_room "lab" "id1" "bot" Agent 2 h = (h', true) /\
    h_rooms h' !! "lab" = Some r' /\
    exists r'', h_rooms (leave "lab" "id1" h') !! "lab" = Some r'' /\
      r_members r'' = delete "id1" (r_members (entry_room "lab" h)).
Proof.
  cbn zeta. destruct (agent_rejoin_takes_over "lab" "id1" "bot" Agent 2
    (join_room "lab" "id1" "bot" Agent 1 (empty_hub tt)).1
    (entry_room "lab" (join_room "lab" "id1" "bot" Agent 1 (empty_hub tt)).1))
    as (h' & r' & Hj & Hr & _ & _ & Hl); [vm_compute; done..|].
  eauto.
Defined.
