(* ===== verification/Attention.v ===== *)
(** * Attention: recipients, runtimes, lifecycle

    crates/server/src/hub/attention/: who a message or a reminder is addressed
    to ([addressing.rs], [owner.rs]), which runtimes are ready
    ([runtime_health.rs]), and the life of a durable attention
    ([lifecycle.rs]).  The scheduler is [Scheduler]. *)

From Stdlib Require Import Ascii.
From S2P Require Import Prelude Text Protocol StoreApi Hub.

(** [self.caretakers.contains(..)] *)
Abbreviation is_caretaker h name := (bool_decide (name ∈ h_caretakers h)).

(** ** Addressing *)

Section addressing.
Context {St : Type} `{Unicode}.
Implicit Types h : Hub St.

(** The separator of the token split: not alphanumeric and none of [@-_]. *)
Definition token_separator (c : string) : bool :=
  negb (is_alphanumeric c || bool_decide (c = "@"%string)
        || bool_decide (c = "-"%string) || bool_decide (c = "_"%string)).

(** @src hub/attention/addressing.rs:27-38 addressed_caretakers *)
Definition mentioned_caretakers h (text : string) : list string :=
  omap (fun token =>
          match strip_prefix token "@" with
          | Some name => if is_caretaker h name then Some name else None
          | None => None
          end)
    (split_on token_separator (to_lowercase text)).

(** @src hub/attention/addressing.rs fn addressed_caretakers *)
Definition addressed_caretakers h (message : Message) : list string :=
  let lowered (name : option string) :=
    match name with
    | Some name =>
        let name := to_lowercase name in
        if is_caretaker h name then [name] else []
    | None => []
    end in
  sort_dedup_strings
    (lowered (msg_target message) ++ lowered (msg_reply_to_sender message)
     ++ mentioned_caretakers h (msg_text message)).
End addressing.

(** ** Runtimes *)

(** @src hub const RUNTIME_SEEN_TTL_MS *)
Definition RUNTIME_SEEN_TTL_MS : N := 20000.
(** @src hub const RUNTIME_WAKE_GRACE_MS *)
Definition RUNTIME_WAKE_GRACE_MS : N := 10000.
(** @src hub const RUNTIME_ACK_GRACE_MS *)
Definition RUNTIME_ACK_GRACE_MS : N := 360000.

Section runtime.
Context {St : Type}.
Implicit Types h : Hub St.

(** @src hub/attention/runtime_health.rs fn runtime_record_ready *)
Definition runtime_record_ready h (record : RuntimeRecord) : bool :=
  let now := h_clock h in
  if (RUNTIME_SEEN_TTL_MS <? sat_sub now (rr_seen_at record))%N then false
  else if decide (rr_wake record = "IDLE"%string) then true
  else if decide (rr_wake record = "OK"%string) then
    negb (bool_decide (rr_ack record = "PENDING"%string))
    || (sat_sub now (rr_progress_at record) <=? RUNTIME_ACK_GRACE_MS)%N
  else if decide (rr_wake record = "RUNNING"%string) then
    (sat_sub now (rr_progress_at record) <=? RUNTIME_WAKE_GRACE_MS)%N
  else false.

(** @src hub/attention/runtime_health.rs fn runtime_health_for *)
Definition runtime_health_for h (name : string) : option RuntimeHealth :=
  match h_runtime_health h !! name with
  | None => None
  | Some record =>
      Some {| rh_wake := rr_wake record; rh_ack := rr_ack record;
              rh_delivery_id := rr_delivery_id record;
              rh_attention_id := rr_attention_id record;
              rh_stored := rr_stored record; rh_accepted := rr_accepted record;
              rh_first_response := rr_first_response record;
              rh_final_response := rr_final_response record;
              rh_turn_completed := rr_turn_completed record;
              rh_seen_at := rr_seen_at record; rh_progress_at := rr_progress_at record;
              rh_ready := runtime_record_ready h record |}
  end.

Definition wake_states : list string :=
  ["IDLE"; "RUNNING"; "OK"; "FAILED"; "RESTARTING"; "MANUAL"; "UNVERIFIED"]%string.
Definition ack_states : list string := ["IDLE"; "PENDING"; "OK"; "UNVERIFIED"]%string.

Definition longer_than (n : nat) (value : option string) : bool :=
  match value with Some v => (n <? String.length v)%nat | None => false end.

(** The comparison that decides whether a report is progress. *)
(** @src hub/attention/runtime_health.rs:74-86 report_runtime_health *)
Definition runtime_changed (old : option RuntimeRecord) (update : RuntimeHealthUpdate) : bool :=
  match old with
  | None => true
  | Some old =>
      negb (bool_decide (rr_wake old = rhu_wake update)
            && bool_decide (rr_ack old = rhu_ack update)
            && bool_decide (rr_delivery_id old = rhu_delivery_id update)
            && bool_decide (rr_attention_id old = rhu_attention_id update)
            && Bool.eqb (rr_stored old) (rhu_stored update)
            && Bool.eqb (rr_accepted old) (rhu_accepted update)
            && Bool.eqb (rr_first_response old) (rhu_first_response update)
            && Bool.eqb (rr_final_response old) (rhu_final_response update)
            && Bool.eqb (rr_turn_completed old) (rhu_turn_completed update))
  end.

(** @src hub/attention/runtime_health.rs fn report_runtime_health *)
Definition report_runtime_health (name : string) (update : RuntimeHealthUpdate) h
    : Hub St * option RuntimeHealth :=
  if negb (bool_decide (rhu_wake update ∈ wake_states))
     || negb (bool_decide (rhu_ack update ∈ ack_states))
     || longer_than 200 (rhu_delivery_id update)
     || longer_than 300 (rhu_attention_id update)
  then (h, None)
  else
    let now := h_clock h in
    let old := h_runtime_health h !! name in
    let progress_at :=
      if runtime_changed old update then now
      else default now (rr_progress_at <$> old) in
    let record := {|
      rr_wake := rhu_wake update; rr_ack := rhu_ack update;
      rr_delivery_id := rhu_delivery_id update;
      rr_attention_id := rhu_attention_id update;
      rr_stored := rhu_stored update; rr_accepted := rhu_accepted update;
      rr_first_response := rhu_first_response update;
      rr_final_response := rhu_final_response update;
      rr_turn_completed := rhu_turn_completed update;
      rr_seen_at := now; rr_progress_at := progress_at |} in
    let h := with_h_runtime_health (<[name := record]> (h_runtime_health h)) h in
    (h, runtime_health_for h name).

(** [self.runtime_health_for(name).is_some_and(|runtime| runtime.ready)] *)
Definition runtime_ready h (name : string) : bool :=
  match runtime_health_for h name with Some runtime => rh_ready runtime | None => false end.

(** Some seat of the room wears this name over a live connection. *)
Definition seated (r : Room) (name : string) : bool :=
  any_value (fun m : string * SenderType * N =>
    bool_decide (m.1.1 = name) && (0 <? m.2)%N) (r_members r).

(** The distinct names over live connections, sorted. *)
Definition connected_names (r : Room) : list string :=
  sort_dedup_strings
    ((fun m : string * SenderType * N => m.1.1)
       <$> filter (fun m : string * SenderType * N => (0 <? m.2)%N = true)
             (values (r_members r))).
End runtime.

(** ** Owners *)

Section owner.
Context {St : Type} `{Unicode} `{StoreBase St}.
Implicit Types h : Hub St.

(** Davets of the room whose membership is live, with the display name. *)
(** @src hub/attention/owner.rs:36-49 everyone_recipients *)
Definition everyone_pairs h (room : string) : list (string * string) :=
  omap (fun invite =>
          if bool_decide (inv_room invite = room) && negb (str_is_empty (inv_member invite))
          then match h_members h !! inv_member invite with
               | Some membership => Some (inv_member invite, mb_name membership)
               | None => None
               end
          else None)
    (values (h_invites h)).

(** @src hub/attention/owner.rs:50-71 everyone_recipients *)
Fixpoint everyone_go (s : St) (pairs : list (string * string)) (seen : gset string)
    (out : list (string * string)) : option (list (string * string)) :=
  match pairs with
  | [] => Some out
  | (member_token, display_name) :: rest =>
      match principal_id_for_member_record s member_token with
      | None => None
      | Some principal_id =>
          if decide (principal_id ∈ seen) then everyone_go s rest seen out
          else everyone_go s rest ({[principal_id]} ∪ seen)
                 (out ++ [(principal_id, display_name)])
      end
  end.

(** The tuples are sorted by principal; no two have the same. *)
(** @src hub/attention/owner.rs fn everyone_recipients *)
Definition everyone_recipients h (room : string) : option (list (string * string)) :=
  sort_by_str fst <$> everyone_go (h_store h) (everyone_pairs h room) ∅ [].

(** @src hub/attention/owner.rs fn everyone_recipient_active *)
Definition everyone_recipient_active h (room principal_id : string) : bool :=
  any_value (fun invite =>
    bool_decide (inv_room invite = room) && negb (str_is_empty (inv_member invite))
    && match h_members h !! inv_member invite with Some _ => true | None => false end
    && bool_decide (principal_id_for_member_record (h_store h) (inv_member invite)
                    = Some principal_id)) (h_invites h).

(** @src hub/attention/owner.rs:113-133 care_owner *)
Definition care_candidates (room : Room) : list string :=
  match rs_care_recipient (r_settings room) with
  | RecipientLead => match rs_lead (r_settings room) with Some l => [l] | None => [] end
  | RecipientPerson name => [name]
  | RecipientAll =>
      let names := connected_names room in
      match rs_lead (r_settings room) with
      | Some lead => lead :: filter (fun name => name <> lead) names
      | None => names
      end
  end.

(** @src hub/attention/owner.rs fn care_owner *)
Definition care_owner h (room_name : string) : option string :=
  match h_rooms h !! room_name with
  | None => None
  | Some room =>
      match List.find (fun recipient => seated room recipient && runtime_ready h recipient)
              (care_candidates room) with
      | Some recipient => Some recipient
      | None =>
          if negb (is_caretaker h "loca-care"%string) then None
          else
            match h_rooms h !! h_home_room h with
            | None => None
            | Some home =>
                if seated home "loca-care" && runtime_ready h "loca-care"
                then Some "loca-care"%string else None
            end
      end
  end.

(** @src hub/attention/owner.rs fn rehome_caretaker_signal *)
Definition rehome_caretaker_signal h (signal : CareSignal) (source_room : string)
    : CareSignal :=
  if bool_decide (sig_owner signal = Some "loca-care"%string)
     && negb (bool_decide (source_room = h_home_room h))
  then with_sig_room (h_home_room h) (with_sig_source_room source_room signal)
  else signal.

(** @src hub/attention/owner.rs fn caretaker_owns_attention *)
Definition caretaker_owns_attention h (room id actor : string) : bool :=
  is_caretaker h actor
  && match h_rooms h !! room with
     | Some r =>
         match r_attentions r !! id with
         | Some a => bool_decide (attn_owner a = Some actor)
         | None => false
         end
     | None => false
     end.

(** @src hub/attention/owner.rs fn resolve_attention_owner *)
Definition resolve_attention_owner h (room : Room) (audience : AttentionAudience)
    : option (string * list string) :=
  match audience with
  | AudienceLead =>
      match rs_lead (r_settings room) with
      | Some lead => Some (lead, [lead])
      | None => None
      end
  | AudiencePerson name =>
      let name := trim name in
      if str_is_empty name then None else Some (name, [name])
  | AudienceGroup names =>
      let names :=
        sort_dedup_strings (filter (fun n => str_is_empty n = false) (trim <$> names)) in
      match List.find (fun name => seated room name && runtime_ready h name) names with
      | Some owner => Some (owner, names)
      | None => match names with [] => None | first :: _ => Some (first, names) end
      end
  end.
End owner.

(** ** Lifecycle *)

(** The attention a signal opens when the store has no row for it. *)
(** @src hub/attention/lifecycle.rs:218-236 create_attention *)
Definition opened_attention (id room : string) (signal : CareSignal) : Attention := {|
  attn_id := id; attn_room := room; attn_reason := sig_reason signal;
  attn_subject := sig_subject signal; attn_audience := sig_audience signal;
  attn_owner := sig_owner signal; attn_group := sig_group signal;
  attn_participants := sig_participants signal;
  attn_created_by := sig_created_by signal; attn_created_at := sig_at signal;
  attn_attempt := sig_attempt signal; attn_escalated := sig_escalated signal;
  attn_status := AttnOpen; attn_delivered_at := None; attn_claimed_by := None;
  attn_claimed_at := None; attn_resolved_at := None |}.

(** The last [care_context_messages] messages. *)
Definition care_context (room : Room) : list Message :=
  drop (length (r_history room) - N.to_nat (rs_care_context_messages (r_settings room)))
    (r_history room).

Section lifecycle.
Context {St : Type} `{Unicode} `{Csprng} `{StoreBase St} `{CareStore St}.
Implicit Types h : Hub St.

(** @src hub/attention/lifecycle.rs fn pending_care_scoped *)
Definition pending_care_scoped h (delivery_room owner : string)
    (principal_id : option string) : list CareSignal :=
  List.filter (fun signal =>
      match sig_owner_principal_id signal with
      | Some pid => everyone_recipient_active h delivery_room pid
      | None => true
      end)
    (store_pending_care_scoped (h_store h) delivery_room owner principal_id).

(** The room that files the attention, with the attention. *)
Definition find_attention h (id : string) : option (string * Attention) :=
  head (omap (fun p : string * Room =>
                match r_attentions p.2 !! id with
                | Some a => Some (p.1, a)
                | None => None
                end) (map_to_list (h_rooms h))).

(** [delivered_at.get_or_insert(now)] and the broadcast. *)
(** @src hub/attention/lifecycle.rs:149-161 ack_care *)
Definition mark_delivered (attention_id : string) (now : N) h : Hub St :=
  match find_attention h attention_id with
  | None => h
  | Some (room, a) =>
      let r := entry_room room h in
      let a := with_attn_delivered_at
                 (Some (default now (attn_delivered_at a))) a in
      put_room room
        (send (SF_Attention a)
           (with_r_attentions (<[attention_id := a]> (r_attentions r)) r)) h
  end.

(** @src hub/attention/lifecycle.rs fn ack_care *)
Definition ack_care (signal_id owner : string) (principal_id : option string) h
    : Hub St * dbres bool :=
  let now := h_clock h in
  let hot_attention_id := h_care_deliveries h !! signal_id in
  match (match hot_attention_id with
         | Some id => Some id
         | None => attention_id_for_delivery (h_store h) signal_id
         end) with
  | None => (h, Ok false)
  | Some attention_id =>
      let memory_attention := snd <$> find_attention h attention_id in
      let attention :=
        match memory_attention with
        | Some a => Some a
        | None => store_attention (h_store h) attention_id
        end in
      if negb (bool_decide (attention ≫= attn_owner = Some owner)) then (h, Ok false)
      else
        let '(h, written) :=
          run_store (ack_care_scoped signal_id owner principal_id now) h in
        match written with
        | Err e => (h, Err e)
        | Ok acked =>
            let acked :=
              acked ||
              (negb (is_persistent (h_store h))
               && match hot_attention_id with Some _ => true | None => false end
               && match memory_attention with
                  | Some a => bool_decide (attn_delivered_at a = None)
                  | None => false
                  end) in
            if acked then
              let h := with_h_care_deliveries (delete signal_id (h_care_deliveries h)) h in
              (mark_delivered attention_id now h, Ok true)
            else (h, Ok false)
        end
  end.

(** @src hub/attention/lifecycle.rs fn attentions *)
Definition attentions h (room : string) : list Attention :=
  match h_rooms h !! room with
  | Some r => sort_by_N attn_created_at (values (r_attentions r))
  | None => []
  end.

(** @src hub/attention/lifecycle.rs fn create_attention *)
Definition create_attention (room_name : string) (req : CreateAttention) h
    : Hub St * result Attention AttentionError :=
  let now := h_clock h in
  match h_rooms h !! room_name with
  | None => (h, Err AttnErrNotFound)
  | Some room =>
      match resolve_attention_owner h room (ca_audience req) with
      | None => (h, Err AttnErrNoRecipient)
      | Some (owner, participants) =>
          let '(h, id) := secure_token "delivery_" 16 h in
          let '(h, attention_id) := secure_token "att_" 16 h in
          let signal := {|
            sig_id := id; sig_attention_id := attention_id; sig_room := room_name;
            sig_source_room := ""; sig_reason := ReasonManual;
            sig_audience := ca_audience req; sig_owner := Some owner;
            sig_owner_principal_id := None; sig_group := None;
            sig_target := Some owner; sig_participants := participants;
            sig_subject := ca_subject req; sig_created_by := ca_by req;
            sig_context := care_context room; sig_attempt := 1; sig_at := now;
            sig_escalated := false; sig_state := Running |} in
          let '(h, written) := run_store (enqueue_care room_name signal) h in
          match written with
          | Err _ => (h, Err AttnErrStorage)
          | Ok _ =>
              let h := with_h_care_deliveries
                         (<[id := attention_id]> (h_care_deliveries h)) h in
              let attention :=
                default (opened_attention attention_id (origin_room signal) signal)
                  (store_attention (h_store h) attention_id) in
              let room := with_r_attentions
                            (<[attn_id attention := attention]> (r_attentions room)) room in
              let room := send (SF_Care signal) (send (SF_Attention attention) room) in
              (put_room room_name room h, Ok attention)
          end
      end
  end.

(** @src hub/attention/lifecycle.rs fn claim_attention *)
Definition claim_attention (room_name id actor : string) h
    : Hub St * result Attention AttentionError :=
  let now := h_clock h in
  match h_rooms h !! room_name with
  | None => (h, Err AttnErrNotFound)
  | Some room =>
      match r_attentions room !! id with
      | None => (h, Err AttnErrNotFound)
      | Some attention =>
          if negb (bool_decide (attn_owner attention = Some actor))
          then (h, Err AttnErrForbidden)
          else if negb (bool_decide (attn_status attention = AttnOpen))
          then (h, Err AttnErrConflict)
          else
            let '(h, claimed) := run_store (store_claim_attention id actor now) h in
            match claimed with
            | Err _ => (h, Err AttnErrStorage)
            | Ok false => (h, Err AttnErrConflict)
            | Ok true =>
                let out := with_attn_claimed_at (Some now)
                             (with_attn_claimed_by (Some actor)
                                (with_attn_status AttnClaimed attention)) in
                let room := with_r_attentions (<[id := out]> (r_attentions room)) room in
                (put_room room_name (send (SF_Attention out) room) h, Ok out)
            end
      end
  end.

(** The owner by display name, the legacy authorization. *)
Definition owns_by_name (a : Attention) (actor : string) : bool :=
  bool_decide (attn_owner a = Some actor) || bool_decide (attn_claimed_by a = Some actor).

(** @src hub/attention/lifecycle.rs:311-327 resolve_attention *)
Definition resolve_authorized (owner_principal_id : option (option string))
    (current : Attention) (actor : string) (actor_principal_id : option string) : bool :=
  match owner_principal_id with
  | Some (Some pid) => bool_decide (actor_principal_id = Some pid)
  | Some None => owns_by_name current actor
  | None =>
      match attn_group current with
      | Some _ => false
      | None => owns_by_name current actor
      end
  end.

(** @src hub/attention/lifecycle.rs fn resolve_attention *)
Definition resolve_attention (room_name id actor : string)
    (actor_principal_id : option string) (is_operator : bool) h
    : Hub St * result Attention AttentionError :=
  let now := h_clock h in
  match h_rooms h !! room_name with
  | None => (h, Err AttnErrNotFound)
  | Some room =>
      match r_attentions room !! id with
      | None => (h, Err AttnErrNotFound)
      | Some current =>
          let authorized : result bool AttentionError :=
            if is_operator then Ok true
            else
              match attention_owner_principal_id (h_store h) id with
              | Err _ => Err AttnErrStorage
              | Ok pid => Ok (resolve_authorized pid current actor actor_principal_id)
              end in
          match authorized with
          | Err e => (h, Err e)
          | Ok false => (h, Err AttnErrForbidden)
          | Ok true =>
              if decide (attn_status current = AttnResolved) then (h, Err AttnErrConflict)
              else
                let '(h, resolved) := run_store (store_resolve_attention id now) h in
                match resolved with
                | Err _ => (h, Err AttnErrStorage)
                | Ok false => (h, Err AttnErrConflict)
                | Ok true =>
                    let out := with_attn_resolved_at (Some now)
                                 (with_attn_status AttnResolved current) in
                    let room := with_r_attentions (<[id := out]> (r_attentions room)) room in
                    (put_room room_name (send (SF_Attention out) room) h, Ok out)
                end
          end
      end
  end.
End lifecycle.
