(* ===== verification/Chat.v ===== *)
(** * Posting a message

    [post] of crates/server/src/hub.rs, the operation every word of a room
    goes through: what it refuses, what one message wakes, what is made
    durable, and what the room remembers.  The body of the source's function
    is split at its own sections; [post] composes them in its order. *)

From Stdlib Require Import Ascii.
From S2P Require Import Prelude Text Protocol StoreApi Hub Ledger Attention.

(** ** Attachments *)

Section attachments.
Context {St : Type} `{MessageStore St}.

(** One reference per cited file, in order; an id the room cannot serve
    refuses the post. *)
(** @src hub:2454-2468 post *)
Fixpoint resolve_attachments (s : St) (room : string) (ids : list string)
    (resolved : list Attachment) : result (list Attachment) PostReject :=
  match ids with
  | [] => Ok resolved
  | id :: rest =>
      if existsb (fun a => bool_decide (att_id a = id)) resolved
      then resolve_attachments s room rest resolved
      else
        match resolve_room_attachment s room id with
        | Some a => resolve_attachments s room rest (resolved ++ [a])
        | None => Err RejUnknownAttachment
        end
  end.

(** @src hub:2446-2469 post *)
Definition cited_attachments (s : St) (room : string) (ids : list string)
    : result (list Attachment) PostReject :=
  match ids with
  | [] => Ok []
  | _ =>
      if (MAX_ATTACHMENTS_PER_MESSAGE <? length ids)%nat
      then Err (RejTooManyAttachments MAX_ATTACHMENTS_PER_MESSAGE)
      else resolve_attachments s room ids []
  end.
End attachments.

(** ** The gates *)

(** Moderation and chat mode; an admin passes both. *)
(** @src hub:2493-2522 post *)
Definition post_gate (r : Room) (is_admin : bool) (sender : string) : option PostReject :=
  if is_admin then None
  else if decide (sender ∈ r_banned r) then Some RejBanned
  else if decide (sender ∈ r_muted r) then Some RejMuted
  else
    match r_mode r with
    | Free => None
    | Paused => Some RejPaused
    | Restricted allow => if decide (sender ∈ allow) then None else Some RejNotAllowed
    | RoundRobin order turn =>
        if decide (order !! turn = Some sender) then None
        else Some (RejNotYourTurn (order !! turn))
    end.

(** The sender's posts inside the window, as the deque is after the pops. *)
Definition rate_window (r : Room) : N := rs_rate_window_secs (r_settings r) * 1000.
Definition recent_posts (r : Room) (now : N) (sender : string) : list N :=
  let cutoff := sat_sub now (rate_window r) in
  drop_while (fun t => (t <=? cutoff)%N) (default [] (r_post_times r !! sender)).

Definition records_rate (r : Room) (is_admin : bool) : bool :=
  negb is_admin && (0 <? rs_rate_limit (r_settings r))%N.

(** [a.div_ceil(b)] *)
Definition div_ceil (a b : N) : N := (a + b - 1) / b.

(** The room after the window was pruned, and the refusal. *)
(** @src hub:2524-2542 post *)
Definition rate_check (r : Room) (is_admin : bool) (now : N) (sender : string)
    : Room * option PostReject :=
  if records_rate r is_admin then
    let times := recent_posts r now sender in
    let r' := with_r_post_times (<[sender := times]> (r_post_times r)) r in
    if (rs_rate_limit (r_settings r) <=? N.of_nat (length times) mod 2 ^ 32)%N then
      let retry_ms :=
        match times with
        | t :: _ => sat_sub (wrap_add64 t (rate_window r)) now
        | [] => rate_window r
        end in
      (r', Some (RejRateLimited (div_ceil retry_ms 1000)))
    else (r', None)
  else (r, None).

(** The author a reply addresses: from the tail of the room, then from the
    store; never the sender itself. *)
(** @src hub:2554-2570 post *)
Definition reply_owner {St} `{MessageStore St} (s : St) (room : string) (r : Room)
    (reply_to : option N) (sender : string) : result (option string) PostReject :=
  match reply_to with
  | None => Ok None
  | Some rid =>
      let addressed owner :=
        match owner with
        | Some owner =>
            if bool_decide (owner = sender) || str_is_empty owner then None else Some owner
        | None => None
        end in
      match List.find (fun m => (msg_id m =? rid)%N) (rev (r_history r)) with
      | Some m => Ok (addressed (Some (msg_sender m)))
      | None =>
          match message_owner s room rid with
          | Err _ => Err RejStorage
          | Ok owner => Ok (addressed owner)
          end
      end
  end.

(** ** What the message wakes *)

(** @src hub:2588-2615 post *)
Definition summon_signal (home room : string) (msg : Message) (now : N) (owner : string)
    : CareSignal := {|
  sig_id := "summon:" +:+ room +:+ ":" +:+ dec (msg_id msg) +:+ ":" +:+ owner;
  sig_attention_id := "attention:" +:+ room +:+ ":summon:" +:+ dec (msg_id msg)
                        +:+ ":" +:+ owner;
  sig_room := home; sig_source_room := room; sig_reason := DirectSummon;
  sig_audience := AudiencePerson owner; sig_owner := Some owner;
  sig_owner_principal_id := None; sig_group := None; sig_target := Some owner;
  sig_participants := [msg_sender msg; owner];
  sig_subject := msg_sender msg +:+ " directly summoned a caretaker";
  sig_created_by := msg_sender msg; sig_context := [msg]; sig_attempt := 1;
  sig_at := now; sig_escalated := false; sig_state := Running |}.

Section wake.
Context {St : Type} `{Unicode} `{Csprng}.
Implicit Types h : Hub St.

(** @src hub:2584-2616 post *)
Definition caretaker_summons h (room : string) (msg : Message) (now : N)
    : list CareSignal :=
  if decide (room = h_home_room h) then []
  else summon_signal (h_home_room h) room msg now <$> addressed_caretakers h msg.

(** The wait the message answers: the addressed participant waits for the
    sender. *)
(** @src hub:2628-2638 post *)
Definition answered_wait (r : Room) (msg : Message) (summons : list CareSignal)
    : option (string * WaitState) :=
  match msg_kind msg, summons, msg_target msg with
  | Say, [], Some target =>
      if eq_ignore_ascii_case target "all" || bool_decide (target = msg_sender msg)
      then None
      else
        match r_waits r !! target with
        | Some existing =>
            if decide (wait_waiting_for existing = msg_sender msg)
            then Some (target, existing) else None
        | None => None
        end
  | _, _, _ => None
  end.

(** @src hub:2649-2671 post *)
Definition wake_signal (room : string) (msg : Message) (now : N) (target id : string)
    (new_since : N) : CareSignal := {|
  sig_id := id;
  sig_attention_id := "attention:" +:+ room +:+ ":wait-reply:" +:+ target
                        +:+ ":" +:+ dec new_since;
  sig_room := room; sig_source_room := ""; sig_reason := WaitReplied;
  sig_audience := AudiencePerson target; sig_owner := Some target;
  sig_owner_principal_id := None; sig_group := None; sig_target := Some target;
  sig_participants := [msg_sender msg; target];
  sig_subject := msg_sender msg +:+ " replied to " +:+ target;
  sig_created_by := msg_sender msg; sig_context := [msg]; sig_attempt := 1;
  sig_at := now; sig_escalated := false; sig_state := Running |}.

(** @src hub:2628-2674 post *)
Definition wait_wake (room : string) (r : Room) (msg : Message)
    (summons : list CareSignal) (now : N) h
    : Hub St * option (WaitState * CareSignal) :=
  match answered_wait r msg summons with
  | None => (h, None)
  | Some (target, existing) =>
      let '(h, new_since) := next_condition_generation now (wait_since existing) h in
      let updated := {|
        wait_room := room; wait_waiter := target;
        wait_waiting_for := wait_waiting_for existing;
        wait_reason := wait_reason existing; wait_since := new_since;
        wait_last_signal_at := None; wait_signal_count := 0 |} in
      let '(h, id) := secure_token "delivery_" 16 h in
      (h, Some (updated, wake_signal room msg now target id new_since))
  end.
End wake.

(** The baton: the mode after the sender's turn, and the turn before it. *)
(** @src hub:2682-2688 post *)
Definition advance_turn (mode : ChatMode) (sender : string) : ChatMode * option nat :=
  match mode with
  | RoundRobin order turn =>
      if negb (bool_decide (order = [])) && bool_decide (order !! turn = Some sender)
      then (RoundRobin order (S turn mod length order), Some turn)
      else (mode, None)
  | _ => (mode, None)
  end.

(** ** Committing *)

Section commit.
Context {St : Type} `{MessageStore St} `{CareStore St}.
Implicit Types h : Hub St.

(** Which transaction of the store carries the message. *)
(** @src hub:2694-2722 post *)
Definition persist_post (room home : string) (r : Room) (msg : Message)
    (operation : option (string * string)) (turn_moved : bool) (now : N)
    (wake : option (WaitState * CareSignal)) (summons : list CareSignal)
    : St -> St * dbres unit :=
  let room_state := if turn_moved then Some (r_mode r, r_settings r) else None in
  match wake, summons with
  | Some (updated_wait, wake), _ =>
      insert_message_with_wait_wake msg room_state operation room
        (wait_waiter updated_wait) now updated_wait wake
  | None, _ :: _ => insert_message_with_care msg room_state operation home summons
  | None, [] =>
      if turn_moved then insert_message_with_room msg (r_mode r) (r_settings r) operation
      else insert_message msg operation
  end.

(** [while operation_order.len() > HISTORY_LIMIT { .. }] *)
(** @src hub:2756-2760 post *)
Fixpoint trim_operations (order : list (string * string))
    (ops : gmap (string * string) Message)
    : list (string * string) * gmap (string * string) Message :=
  match order with
  | [] => ([], ops)
  | oldest :: rest =>
      if (HISTORY_LIMIT <? length order)%nat
      then trim_operations rest (delete oldest ops)
      else (order, ops)
  end.

(** @src hub:2752-2761 post *)
Definition remember_operation (operation : option (string * string)) (msg : Message)
    (r : Room) : Room :=
  match operation with
  | None => r
  | Some key =>
      let '(order, ops) :=
        trim_operations (r_operation_order r ++ [key]) (<[key := msg]> (r_operations r)) in
      with_r_operation_order order (with_r_operations ops r)
  end.

(** [history.push(msg)] and the drain of the overflow. *)
(** @src hub:2773-2779 post *)
Definition push_history (msg : Message) (r : Room) : Room :=
  let history := r_history r ++ [msg] in
  with_r_history (drop (length history - HISTORY_LIMIT) history) r.

(** The silence reminder is over, the message is in the history and on the
    channel. *)
(** @src hub:2767-2782 post *)
Definition broadcast_message (room : string) (msg : Message) (r : Room) : Room :=
  let r := with_r_care_marks (delete "silence"%string (r_care_marks r)) r in
  let r := resolve_condition_attention r room "silence" (msg_ts msg) in
  let r := with_r_last_msg_ms (msg_ts msg) r in
  send (SF_Msg msg) (push_history msg r).

(** @src hub:2746-2751 post *)
Definition record_post_time (record_rate : bool) (sender : string) (now : N) (r : Room)
    : Room :=
  if record_rate
  then with_r_post_times
         (<[sender := default [] (r_post_times r !! sender) ++ [now]]> (r_post_times r)) r
  else r.

(** The room once the message is durable, up to its broadcast. *)
(** @src hub:2746-2782 post *)
Definition commit_message (room : string) (msg : Message) (now : N) (record_rate : bool)
    (operation : option (string * string)) (turn_moved : bool) (r : Room) : Room :=
  let r := record_post_time record_rate (msg_sender msg) now r in
  let r := remember_operation operation msg r in
  let r := if turn_moved then send (SF_Mode (r_mode r)) r else r in
  broadcast_message room msg r.

(** One summons: the ledger entry in the room, the delivery, and the frame on
    the home room's channel if it existed when the post began. *)
(** @src hub:2788-2823 post *)
Definition publish_summon (room : string) (home : option string) h (signal : CareSignal)
    : Hub St :=
  let attention :=
    default (opened_attention (sig_attention_id signal) (origin_room signal) signal)
      (store_attention (h_store h) (sig_attention_id signal)) in
  let r := entry_room room h in
  let r := with_r_attentions (<[attn_id attention := attention]> (r_attentions r)) r in
  let h := put_room room (send (SF_Attention attention) r) h in
  let h := with_h_care_deliveries
             (<[sig_id signal := sig_attention_id signal]> (h_care_deliveries h)) h in
  match home with
  | Some home => put_room home (send (SF_Care signal) (entry_room home h)) h
  | None => h
  end.

(** @src hub:2829-2865 post *)
Definition publish_wake (room : string) (now : N) (updated_wait : WaitState)
    (wake : CareSignal) h : Hub St :=
  let waiter := wait_waiter updated_wait in
  let r := entry_room room h in
  let r := with_r_waits (<[waiter := updated_wait]> (r_waits r)) r in
  let r := resolve_wait_attentions r room waiter now in
  let attention :=
    default (opened_attention (sig_attention_id wake) (sig_room wake) wake)
      (store_attention (h_store h) (sig_attention_id wake)) in
  let r := with_r_attentions (<[attn_id attention := attention]> (r_attentions r)) r in
  let h := with_h_care_deliveries
             (<[sig_id wake := sig_attention_id wake]> (h_care_deliveries h)) h in
  let r := send (SF_Care wake) r in
  let r := send (SF_Attention attention) r in
  let r := send (SF_Wait waiter (Some updated_wait)) r in
  put_room room r h.
End commit.

(** ** The operation *)

Section post.
Context {St : Type} `{Unicode} `{Csprng} `{MessageStore St} `{CareStore St}.
Implicit Types h : Hub St.

Definition nonempty (o : option string) : option string :=
  match o with Some s => if str_is_empty s then None else Some s | None => None end.

(** The message, once every gate is passed; its id and its timestamp are drawn
    from the counters in this order. *)
(** @src hub:2571-2583 post *)
Definition build_message (room : string) (r : Room) (body : PostMessage)
    (attachments : list Attachment) (reply_to_sender : option string) h
    : Hub St * Message :=
  let now := h_clock h in
  let '(h, id) := fetch_next_id h in
  let '(h, ts) := next_condition_generation now (r_last_msg_ms r) h in
  (h, {| msg_id := id; msg_room := room; msg_sender := pm_sender body;
         msg_sender_type := pm_sender_type body; msg_target := nonempty (pm_target body);
         msg_text := pm_text body; msg_kind := pm_kind body;
         msg_reply_to := pm_reply_to body; msg_reply_to_sender := reply_to_sender;
         msg_ts := ts; msg_attachments := attachments |}).

(** From an accepted message to the broadcast. *)
(** @src hub:2690-2866 post *)
Definition deliver_post (room : string) (home : option string) (is_admin : bool)
    (operation : option (string * string)) (now : N) (msg : Message) h
    : Hub St * result Message PostReject :=
  let r := entry_room room h in
  let summons := caretaker_summons h room msg now in
  let '(h, wake) := wait_wake room r msg summons now h in
  let '(mode, previous_turn) := advance_turn (r_mode r) (msg_sender msg) in
  let turn_moved := match previous_turn with Some _ => true | None => false end in
  let moved := with_r_mode mode r in
  let '(h, persisted) :=
    run_store (persist_post room (h_home_room h) moved msg operation turn_moved now
                 wake summons) h in
  match persisted with
  | Err _ =>
      (* the turn is put back; the room is as it was before the write *)
      let vanished :=
        existsb (fun a => bool_decide
                   (resolve_room_attachment (h_store h) room (att_id a) = None))
          (msg_attachments msg) in
      (put_room room r h,
       Err (if negb (bool_decide (msg_attachments msg = [])) && vanished
            then RejUnknownAttachment else RejStorage))
  | Ok _ =>
      let h := put_room room
                 (commit_message room msg now (records_rate r is_admin) operation
                    turn_moved moved) h in
      let h := if decide (room = h_home_room h) then h
               else foldl (publish_summon room home) h summons in
      let h := match wake with
               | Some (updated_wait, wake) => publish_wake room now updated_wait wake h
               | None => h
               end in
      (h, Ok msg)
  end.

(** The room's part of [post]: after the lookups that need no room. *)
(** @src hub:2470-2570 post *)
Definition post_in_room (room : string) (body : PostMessage) (is_admin : bool)
    (operation : option (string * string)) (attachments : list Attachment) h
    : Hub St * result Message PostReject :=
  let now := h_clock h in
  let home :=
    if decide (room = h_home_room h) then None
    else match h_rooms h !! h_home_room h with
         | Some _ => Some (h_home_room h) | None => None end in
  let h := room_mut room h in
  let r := entry_room room h in
  match operation ≫= (fun key => r_operations r !! key) with
  | Some message => (h, Ok message)
  | None =>
      if rs_archived (r_settings r) then (h, Err RejArchived)
      else
        match post_gate r is_admin (pm_sender body) with
        | Some reject => (h, Err reject)
        | None =>
            let '(r, limited) := rate_check r is_admin now (pm_sender body) in
            let h := put_room room r h in
            match limited with
            | Some reject => (h, Err reject)
            | None =>
                match reply_owner (h_store h) room r (pm_reply_to body) (pm_sender body) with
                | Err reject => (h, Err reject)
                | Ok reply_to_sender =>
                    let '(h, msg) :=
                      build_message room r body attachments reply_to_sender h in
                    deliver_post room home is_admin operation now msg h
                end
            end
        end
  end.

(** @src hub fn post *)
Definition post (room : string) (body : PostMessage) (is_admin : bool)
    (principal : string) h : Hub St * result Message PostReject :=
  if is_deleted h room then (h, Err RejDeleted)
  else
    let operation := (fun id => (principal, id)) <$> nonempty (pm_op_id body) in
    let replayed : dbres (option Message) :=
      match operation with
      | Some (principal, id) => message_by_operation (h_store h) room principal id
      | None => Ok None
      end in
    match replayed with
    | Err _ => (h, Err RejStorage)
    | Ok (Some message) => (h, Ok message)
    | Ok None =>
        match cited_attachments (h_store h) room (pm_attachments body) with
        | Err reject => (h, Err reject)
        | Ok attachments => post_in_room room body is_admin operation attachments h
        end
    end.
End post.
