(* ===== verification/ChatFacts.v ===== *)
(** * Properties of posting

    What a refused post leaves behind, what an accepted one changes, the order
    of messages, replay of an operation id, the rate limit, the round-robin
    baton and the wake of a waiter. *)

From Stdlib Require Import Ascii.
From S2P Require Import Prelude Text Protocol StoreApi Hub Ledger Attention Chat.

(** ** The parts of [post] *)

Section parts.
Context {St : Type} `{Unicode} `{Csprng} `{MessageStore St} `{CareStore St}.
Implicit Types h : Hub St.

Lemma publish_summon_wire room home h sig :
  is_Some (h_rooms h !! room) ->
  (forall x, home = Some x -> is_Some (h_rooms h !! x)) ->
  rooms_wire h (publish_summon room home h sig).
Proof.
  intros [r Hr] Hhome. unfold publish_summon. rewrite (entry_room_Some _ _ _ Hr).
  set (a := default _ _).
  set (h1 := put_room room _ h).
  assert (Hw : rooms_wire h h1).
  { apply (rooms_wire_put _ _ _ _ Hr). etransitivity; [apply wire_eq_attentions|apply wire_eq_send]. }
  set (h2 := with_h_care_deliveries _ h1).
  assert (Hw2 : rooms_wire h h2) by exact Hw.
  destruct home as [x|]; [|exact Hw2].
  destruct (Hhome x eq_refl) as [rx Hx].
  destruct (rooms_wire_Some _ _ _ _ Hw2 Hx) as (rx' & Hx' & _).
  etransitivity; [exact Hw2|]. rewrite (entry_room_Some _ _ _ Hx').
  apply (rooms_wire_put _ _ _ _ Hx'), wire_eq_send.
Qed.

Lemma publish_summons_wire room home h sigs :
  is_Some (h_rooms h !! room) ->
  (forall x, home = Some x -> is_Some (h_rooms h !! x)) ->
  rooms_wire h (foldl (publish_summon room home) h sigs).
Proof.
  revert h. induction sigs as [|s sigs IH]; intros h Hr Hh; [reflexivity|]. cbn [foldl].
  pose proof (publish_summon_wire room home h s Hr Hh) as Hw.
  assert (Hsome : forall x, is_Some (h_rooms h !! x) ->
    is_Some (h_rooms (publish_summon room home h s) !! x)).
  { intros x [rx Hx]. destruct (rooms_wire_Some _ _ _ _ Hw Hx) as (? & ? & _). eauto. }
  etransitivity; [exact Hw|]. apply IH; eauto.
Qed.

Lemma send_thrice a b c r : r_tx (send c (send b (send a r))) = r_tx r ++ [a; b; c].
Proof. unfold send. cbn. by rewrite <- !app_assoc. Qed.

Lemma publish_wake_rooms room now w sig h r :
  h_rooms h !! room = Some r ->
  exists r', h_rooms (publish_wake room now w sig h) = <[room := r']> (h_rooms h) /\
    wire_eq (with_r_waits (<[wait_waiter w := w]> (r_waits r)) r) r' /\
    exists before a, r_tx r' =
      before ++ [SF_Care sig; SF_Attention a; SF_Wait (wait_waiter w) (Some w)].
Proof.
  intros Hr. unfold publish_wake. rewrite (entry_room_Some _ _ _ Hr). eexists. split; [done|].
  split; [|do 2 eexists; apply send_thrice].
  etransitivity; [apply wire_eq_resolve_wait|].
  etransitivity; [apply wire_eq_attentions|].
  do 2 (etransitivity; [apply wire_eq_send|]). apply wire_eq_send.
Qed.

Lemma wait_wake_rooms room r msg summons now h h' w :
  wait_wake room r msg summons now h = (h', w) ->
  h_rooms h' = h_rooms h /\ h_home_room h' = h_home_room h /\ h_store h' = h_store h /\
  match w, answered_wait r msg summons with
  | None, None => True
  | Some (updated, sig), Some (target, existing) =>
      wait_waiter updated = target /\ wait_waiting_for updated = wait_waiting_for existing /\
      wait_reason updated = wait_reason existing /\
      (exists h1, next_condition_generation now (wait_since existing) h
                  = (h1, wait_since updated)) /\
      wait_last_signal_at updated = None /\ wait_signal_count updated = 0%N /\
      sig_owner sig = Some target /\ sig_room sig = room /\ sig_reason sig = WaitReplied
  | _, _ => False
  end.
Proof.
  unfold wait_wake. destruct (answered_wait r msg summons) as [[target existing]|].
  - destruct (next_condition_generation _ _ _) as [h1 g] eqn:Hg.
    pose proof (next_condition_generation_state _ _ _ _ _ Hg) as ->.
    destruct (secure_token _ _ _) as [h2 id] eqn:Hs. injection Hs as <- <-.
    intros [= <- <-]. cbn. repeat split; eauto.
  - intros [= <- <-]. done.
Qed.

Lemma trim_operations_spec order ops :
  trim_operations order ops =
    (drop (length order - HISTORY_LIMIT) order,
     foldr delete ops (rev (take (length order - HISTORY_LIMIT) order))).
Proof.
  revert ops. induction order as [|o order IH]; intros ops; [done|].
  cbn [trim_operations length].
  destruct (Nat.ltb_spec HISTORY_LIMIT (S (length order))) as [Hlt|Hge].
  - rewrite IH. replace (S (length order) - HISTORY_LIMIT)
      with (S (length order - HISTORY_LIMIT)) by lia. cbn. f_equal.
    by rewrite foldr_app.
  - by replace (S (length order) - HISTORY_LIMIT) with 0 by lia.
Qed.

(** The components of a room that no step of [post] but [mode] touches. *)
Record post_frame (r r' : Room) : Prop := {
  pf_members : r_members r' = r_members r;
  pf_settings : r_settings r' = r_settings r;
  pf_goals : r_goals r' = r_goals r;
  pf_tasks : r_tasks r' = r_tasks r;
  pf_waits : r_waits r' = r_waits r;
  pf_notes : r_notes r' = r_notes r;
  pf_journal : r_journal r' = r_journal r;
  pf_muted : r_muted r' = r_muted r;
  pf_banned : r_banned r' = r_banned r;
}.

#[local] Instance post_frame_trans : Transitive post_frame.
Proof. intros r1 r2 r3 [] []. constructor; congruence. Qed.

Lemma broadcast_message_fields room msg r :
  post_frame r (broadcast_message room msg r) /\
  r_history (broadcast_message room msg r) = r_history (push_history msg r) /\
  r_last_msg_ms (broadcast_message room msg r) = msg_ts msg /\
  r_mode (broadcast_message room msg r) = r_mode r /\
  r_post_times (broadcast_message room msg r) = r_post_times r /\
  r_operation_order (broadcast_message room msg r) = r_operation_order r /\
  r_operations (broadcast_message room msg r) = r_operations r.
Proof.
  unfold broadcast_message, push_history.
  set (r0 := with_r_care_marks _ r). set (r1 := resolve_condition_attention _ _ _ _).
  destruct (wire_eq_resolve_condition r0 room "silence" (msg_ts msg)) as (tx & m & a & E).
  fold r1 in E. clearbody r1. subst r1 r0. by repeat split.
Qed.

Lemma record_post_time_fields rate sender now r :
  post_frame r (record_post_time rate sender now r) /\
  r_history (record_post_time rate sender now r) = r_history r /\
  r_mode (record_post_time rate sender now r) = r_mode r /\
  r_operation_order (record_post_time rate sender now r) = r_operation_order r /\
  r_operations (record_post_time rate sender now r) = r_operations r.
Proof. by destruct rate. Qed.

Lemma remember_operation_fields operation msg r :
  post_frame r (remember_operation operation msg r) /\
  r_history (remember_operation operation msg r) = r_history r /\
  r_mode (remember_operation operation msg r) = r_mode r /\
  r_post_times (remember_operation operation msg r) = r_post_times r /\
  (r_operation_order (remember_operation operation msg r),
   r_operations (remember_operation operation msg r)) =
    match operation with
    | None => (r_operation_order r, r_operations r)
    | Some key => trim_operations (r_operation_order r ++ [key]) (<[key := msg]> (r_operations r))
    end.
Proof.
  unfold remember_operation. destruct operation; [|done]. by destruct (trim_operations _ _).
Qed.

Lemma push_history_ext msg r r' :
  r_history r = r_history r' -> r_history (push_history msg r) = r_history (push_history msg r').
Proof. unfold push_history. cbn. by intros ->. Qed.

(** The fields an accepted message moves in its room. *)
Lemma commit_message_fields room msg now rate operation moved r :
  let r' := commit_message room msg now rate operation moved r in
  post_frame r r' /\
  r_history r' = r_history (push_history msg r) /\
  r_last_msg_ms r' = msg_ts msg /\ r_mode r' = r_mode r /\
  r_post_times r' = r_post_times (record_post_time rate (msg_sender msg) now r) /\
  (r_operation_order r', r_operations r') =
    match operation with
    | None => (r_operation_order r, r_operations r)
    | Some key => trim_operations (r_operation_order r ++ [key]) (<[key := msg]> (r_operations r))
    end.
Proof.
  cbn zeta. unfold commit_message.
  destruct (record_post_time_fields rate (msg_sender msg) now r) as (F1 & A1 & B1 & C1 & D1).
  set (r1 := record_post_time _ _ _ _) in *.
  destruct (remember_operation_fields operation msg r1) as (F2 & A2 & B2 & C2 & D2).
  set (r2 := remember_operation _ _ _) in *.
  set (r3 := if moved then _ else _).
  assert (post_frame r2 r3 /\ r_history r3 = r_history r2 /\ r_mode r3 = r_mode r2 /\
    r_post_times r3 = r_post_times r2 /\ r_operation_order r3 = r_operation_order r2 /\
    r_operations r3 = r_operations r2) as (F3 & A3 & B3 & C3 & D3 & E3)
    by (subst r3; by destruct moved).
  destruct (broadcast_message_fields room msg r3) as (F4 & A4 & -> & -> & -> & -> & ->).
  rewrite A4, B3, C3, D3, E3, B2, C2, D2, B1, C1, D1.
  split; [by do 3 (etransitivity; [eassumption|])|].
  split; [apply push_history_ext; congruence|done].
Qed.

Lemma advance_turn_mode mode sender mode' turn :
  advance_turn mode sender = (mode', turn) ->
  match turn with
  | None => mode' = mode
  | Some t => exists order, mode = RoundRobin order t /\ order !! t = Some sender /\
      mode' = RoundRobin order (S t mod length order)
  end.
Proof.
  unfold advance_turn. destruct mode; try (by intros [= <- <-]).
  destruct (_ && _) eqn:E; [|by intros [= <- <-]]. intros [= <- <-].
  apply andb_true_iff in E as [_ E%bool_decide_eq_true_1]. eauto.
Qed.

(** ** Delivering *)

Lemma deliver_post_ok room home is_admin operation now msg h h' m r :
  h_rooms h !! room = Some r ->
  (forall x, home = Some x -> is_Some (h_rooms h !! x)) ->
  deliver_post room home is_admin operation now msg h = (h', Ok m) ->
  m = msg /\ exists moved waits' summons,
    let mode := (advance_turn (r_mode r) (msg_sender msg)).1 in
    rooms_wire
      (put_room room (with_r_waits waits'
         (commit_message room msg now (records_rate r is_admin) operation moved
            (with_r_mode mode r))) h) h' /\
    match answered_wait r msg summons with
    | None => waits' = r_waits r
    | Some (target, existing) => exists updated,
        waits' = <[target := updated]> (r_waits r) /\ wait_waiter updated = target /\
        wait_waiting_for updated = wait_waiting_for existing /\
        wait_reason updated = wait_reason existing /\
        (wait_since updated = (let '(_, g) := next_condition_generation now
                                 (wait_since existing) h in g)) /\
        wait_last_signal_at updated = None /\ wait_signal_count updated = 0%N /\
        exists r' before sig a, h_rooms h' !! room = Some r' /\
          r_tx r' = before ++ [SF_Care sig; SF_Attention a; SF_Wait target (Some updated)] /\
          sig_owner sig = Some target /\ sig_reason sig = WaitReplied
    end /\ summons = caretaker_summons h room msg now.
Proof.
  intros Hr Hhome. unfold deliver_post. rewrite (entry_room_Some _ _ _ Hr).
  set (summons := caretaker_summons h room msg now).
  destruct (wait_wake _ _ _ _ _ _) as [h1 wake] eqn:Hwk.
  apply wait_wake_rooms in Hwk as (Hrooms & Hhm & _ & Hwake).
  destruct (advance_turn _ _) as [mode turn]. cbn [fst].
  set (moved := match turn with Some _ => true | None => false end).
  destruct (run_store _ _) as [h2 w] eqn:Hst. apply run_store_state in Hst as [-> _].
  destruct w; [|done]. cbn zeta. intros [= <- <-]. split; [done|].
  set (committed := commit_message _ _ _ _ _ _ _).
  exists moved.
  set (h3 := put_room room committed _).
  set (h4 := if decide (room = _) then h3 else _).
  assert (Hw4 : rooms_wire h3 h4).
  { subst h4. destruct (decide _); [reflexivity|]. apply publish_summons_wire.
    - cbn. rewrite lookup_insert_eq. eauto.
    - intros x Hx. cbn. rewrite Hrooms. destruct (decide (room = x)) as [<-|Hne].
      + rewrite lookup_insert_eq. eauto.
      + rewrite lookup_insert_ne by done. eauto. }
  assert (H3 : h_rooms h3 !! room = Some committed) by (cbn; by rewrite lookup_insert_eq).
  assert (Hsame' : rooms_wire (put_room room committed h) h3).
  { intros n. subst h3. cbn [h_rooms put_room with_h_rooms with_h_store]. rewrite Hrooms.
    destruct (<[room := committed]> (h_rooms h) !! n); cbn; [reflexivity|done]. }
  destruct wake as [[updated sig]|], (answered_wait r msg summons) as [[target existing]|] eqn:Ha;
    try done.
  - destruct Hwake as (Ht & Hfor & Hreason & (h5 & Hgen) & Hlast & Hcount & Howner & _ & Hrs).
    exists (<[target := updated]> (r_waits r)), summons.
    destruct (rooms_wire_Some _ _ _ _ Hw4 H3) as (c4 & Hc4 & Hwire).
    destruct (publish_wake_rooms room now updated sig h4 c4 Hc4)
      as (c5 & Hr5 & Hwire5 & before & a & Htx).
    split.
    2:{ rewrite Ha. split; [|done]. exists updated. rewrite Hgen. do 7 (split; [done|]).
        exists c5, before, sig, a. rewrite Hr5, lookup_insert_eq, Htx, Ht. done. }
    intros n. rewrite Hr5. destruct (decide (room = n)) as [<-|Hne]; cbn.
    + rewrite !lookup_insert_eq. cbn. etransitivity; [|exact Hwire5].
      destruct Hwire as (tx & marks & atts & ->). cbn [r_waits with_r_tx with_r_care_marks with_r_attentions].
      rewrite Ht. assert (r_waits committed = r_waits r) as Hcw.
      { by destruct (commit_message_fields room msg now (records_rate r is_admin) operation
          moved (with_r_mode mode r)) as ([] & _). }
      rewrite <- Hcw at 1. by exists tx, marks, atts.
    + rewrite !lookup_insert_ne by done. specialize (Hw4 n). cbn in Hw4.
      rewrite Hrooms, lookup_insert_ne in Hw4 by done. exact Hw4.
  - exists (r_waits r), summons. split; [|by rewrite Ha].
    assert (with_r_waits (r_waits r) committed = committed) as Heq.
    { destruct (commit_message_fields room msg now (records_rate r is_admin) operation
          moved (with_r_mode mode r)) as ([] & _).
      assert (r_waits committed = r_waits r) as <- by done. by destruct committed. }
    fold committed. rewrite Heq. etransitivity; [|exact Hw4]. apply Hsame'.
Qed.

Lemma deliver_post_err room home is_admin operation now msg h h' e r :
  h_rooms h !! room = Some r ->
  deliver_post room home is_admin operation now msg h = (h', Err e) ->
  h_rooms h' = h_rooms h.
Proof.
  intros Hr. unfold deliver_post. rewrite (entry_room_Some _ _ _ Hr).
  destruct (wait_wake _ _ _ _ _ _) as [h1 wake] eqn:Hwk.
  apply wait_wake_rooms in Hwk as (Hrooms & _).
  destruct (advance_turn _ _) as [mode turn].
  destruct (run_store _ _) as [h2 w] eqn:Hst. apply run_store_state in Hst as [-> _].
  destruct w; [done|]. intros [= <- _]. cbn. rewrite Hrooms. by apply insert_id.
Qed.

(** ** The whole operation *)

Lemma rate_check_room r is_admin now sender r' limited :
  rate_check r is_admin now sender = (r', limited) ->
  r' = with_r_post_times (r_post_times r') r /\
  r_post_times r' =
    (if records_rate r is_admin then <[sender := recent_posts r now sender]> (r_post_times r)
     else r_post_times r) /\
  (limited = None -> records_rate r is_admin = true ->
   (N.of_nat (length (recent_posts r now sender)) mod 2 ^ 32 < rs_rate_limit (r_settings r))%N).
Proof.
  unfold rate_check. destruct (records_rate r is_admin).
  - destruct (N.leb_spec (rs_rate_limit (r_settings r))
      (N.of_nat (length (recent_posts r now sender)) mod 2 ^ 32)) as [Hle|Hlt];
      intros [= <- <-]; done.
  - intros [= <- <-]. split; [by destruct r|]. split; [done|]. done.
Qed.

(** How [post] ends. *)
Inductive post_run (room : string) (body : PostMessage) (is_admin : bool)
    (principal : string) h h' : result Message PostReject -> Prop :=
  | PostRefused e
      (Hrooms : h_rooms h' = h_rooms h \/
         exists pt, h_rooms h' = <[room := with_r_post_times pt (entry_room room h)]> (h_rooms h))
      (Hdeliveries : h_care_deliveries h' = h_care_deliveries h) :
      post_run room body is_admin principal h h' (Err e)
  | PostReplayedByStore m id
      (Hstate : h' = h) (Hop : nonempty (pm_op_id body) = Some id)
      (Hstored : message_by_operation (h_store h) room principal id = Ok (Some m)) :
      post_run room body is_admin principal h h' (Ok m)
  | PostReplayed m id
      (Hstate : h' = room_mut room h) (Hop : nonempty (pm_op_id body) = Some id)
      (Hknown : r_operations (entry_room room h) !! (principal, id) = Some m) :
      post_run room body is_admin principal h h' (Ok m)
  | PostAccepted m r moved waits' summons
      (operation := (fun id => (principal, id)) <$> nonempty (pm_op_id body))
      (Hdeleted : is_deleted h room = false)
      (Hnew : operation ≫= (fun key => r_operations (entry_room room h) !! key) = None)
      (Harchived : rs_archived (r_settings (entry_room room h)) = false)
      (Hgate : post_gate (entry_room room h) is_admin (pm_sender body) = None)
      (Hrate : rate_check (entry_room room h) is_admin (h_clock h) (pm_sender body) = (r, None))
      (Hid : msg_id m = h_next_id h) (Hsender : msg_sender m = pm_sender body)
      (Hkind : msg_kind m = pm_kind body) (Htarget : msg_target m = nonempty (pm_target body))
      (Htext : msg_text m = pm_text body)
      (Hts : exists h1, next_condition_generation (h_clock h) (r_last_msg_ms r)
                          (with_h_next_id (wrap_add64 (h_next_id h) 1) (put_room room r h))
                        = (h1, msg_ts m))
      (Hroom : rooms_wire
         (put_room room (with_r_waits waits'
            (commit_message room m (h_clock h) (records_rate r is_admin) operation moved
               (with_r_mode (advance_turn (r_mode r) (msg_sender m)).1 r))) h) h')
      (Hwake : match answered_wait r m summons with
         | None => waits' = r_waits r
         | Some (target, existing) => exists updated,
             waits' = <[target := updated]> (r_waits r) /\ wait_waiter updated = target /\
             wait_waiting_for updated = wait_waiting_for existing /\
             wait_reason updated = wait_reason existing /\
             wait_since updated =
               N.max (N.max (h_clock h) (sat_add64 (wait_since existing) 1))
                 (sat_add64 (msg_ts m) 1) /\
             wait_last_signal_at updated = None /\ wait_signal_count updated = 0%N /\
             exists r' before sig a, h_rooms h' !! room = Some r' /\
               r_tx r' = before ++ [SF_Care sig; SF_Attention a; SF_Wait target (Some updated)] /\
               sig_owner sig = Some target /\ sig_reason sig = WaitReplied
         end)
      (Hsummons : summons = caretaker_summons h room m (h_clock h)) :
      post_run room body is_admin principal h h' (Ok m).

Lemma with_r_post_times_id r : with_r_post_times (r_post_times r) r = r.
Proof. by destruct r. Qed.

Lemma deliver_post_deliveries room home is_admin operation now msg h h' e :
  deliver_post room home is_admin operation now msg h = (h', Err e) ->
  h_care_deliveries h' = h_care_deliveries h.
Proof.
  unfold deliver_post. destruct (wait_wake _ _ _ _ _ _) as [h1 wake] eqn:Hwk.
  assert (h_care_deliveries h1 = h_care_deliveries h) as Hd.
  { unfold wait_wake in Hwk. destruct (answered_wait _ _ _) as [[]|]; by injection Hwk as <- _. }
  destruct (advance_turn _ _) as [mode turn].
  destruct (run_store _ _) as [h2 w] eqn:Hst. apply run_store_state in Hst as [-> _].
  destruct w; [done|]. by intros [= <- _].
Qed.

Lemma post_runs room body is_admin principal h h' res :
  post room body is_admin principal h = (h', res) ->
  post_run room body is_admin principal h h' res.
Proof.
  unfold post. destruct (is_deleted h room) eqn:Hdel.
  { intros [= <- <-]. apply PostRefused; [by left|done]. }
  set (operation := (fun id => (principal, id)) <$> nonempty (pm_op_id body)).
  destruct (match operation with Some _ => _ | None => _ end) as [[m|]|] eqn:Hrep; cycle 2.
  { intros [= <- <-]. apply PostRefused; [by left|done]. }
  { intros [= <- <-]. subst operation. destruct (nonempty (pm_op_id body)) as [id|] eqn:Hop; [|done].
    by eapply PostReplayedByStore. }
  destruct (cited_attachments _ _ _) as [atts|]; cycle 1.
  { intros [= <- <-]. apply PostRefused; [by left|done]. }
  unfold post_in_room. rewrite entry_room_mut. set (r0 := entry_room room h).
  destruct (operation ≫= _) as [m|] eqn:Hknown.
  { intros [= <- <-]. subst operation. destruct (nonempty (pm_op_id body)) as [id|] eqn:Hop; [|done].
    by eapply PostReplayed. }
  assert (Hcreated : h_rooms (room_mut room h) =
    <[room := with_r_post_times (r_post_times r0) r0]> (h_rooms h)).
  { by rewrite with_r_post_times_id. }
  destruct (rs_archived (r_settings r0)) eqn:Harch.
  { intros [= <- <-]. apply PostRefused; [right; eauto|done]. }
  destruct (post_gate r0 is_admin (pm_sender body)) as [reject|] eqn:Hgate.
  { intros [= <- <-]. apply PostRefused; [right; eauto|done]. }
  destruct (rate_check _ _ _ _) as [r limited] eqn:Hrate.
  pose proof (rate_check_room _ _ _ _ _ _ Hrate) as (Hr & _ & _).
  assert (Hput : put_room room r (room_mut room h) = put_room room r h)
    by apply put_room_put_room.
  rewrite Hput. cbn [h_clock room_mut put_room with_h_rooms].
  assert (Hrooms : h_rooms (put_room room r h) =
    <[room := with_r_post_times (r_post_times r) r0]> (h_rooms h)) by by rewrite <- Hr.
  destruct limited as [reject|].
  { intros [= <- <-]. apply PostRefused; [right; eauto|done]. }
  destruct (reply_owner _ _ _ _ _) as [owner|reject]; cycle 1.
  { intros [= <- <-]. apply PostRefused; [right; eauto|done]. }
  destruct (build_message _ _ _ _ _ _) as [h1 msg] eqn:Hb.
  unfold build_message in Hb.
  destruct (fetch_next_id _) as [h2 id] eqn:Hf. injection Hf as <- <-.
  destruct (next_condition_generation _ _ _) as [h3 ts] eqn:Hg.
  pose proof (next_condition_generation_state _ _ _ _ _ Hg) as ->.
  injection Hb as <- <-.
  set (msg := mkMessage _ _ _ _ _ _ _ _ _ _ _).
  set (h2 := with_h_condition_generation _ _).
  set (home := if decide (room = _) then None else _).
  assert (Hr2 : h_rooms h2 !! room = Some r) by (cbn; by rewrite lookup_insert_eq).
  assert (Hhome : forall x, home = Some x -> is_Some (h_rooms h2 !! x)).
  { subst home. intros x. case_decide as Hne; [done|].
    destruct (h_rooms h !! h_home_room h) eqn:Eh; [|done]. intros [= <-]. cbn.
    rewrite lookup_insert_ne by done. eauto. }
  intros Hd. destruct res as [m|e].
  - destruct (deliver_post_ok _ _ _ _ _ _ _ _ _ _ Hr2 Hhome Hd)
      as (-> & moved & waits' & summons & Hw & Hwake & Hs).
    apply (PostAccepted _ _ _ _ _ _ msg r moved waits' summons); try done.
    + eexists. exact Hg.
    + intros n. specialize (Hw n). cbn in Hw |- *. by rewrite insert_insert_eq in Hw.
  - apply PostRefused; [|by rewrite (deliver_post_deliveries _ _ _ _ _ _ _ _ _ Hd)].
    right. exists (r_post_times r).
    rewrite (deliver_post_err _ _ _ _ _ _ _ _ _ _ Hr2 Hd). exact Hrooms.
Qed.
End parts.

(** ** Invariants of the replay table *)

(** The replay table holds the last [HISTORY_LIMIT] operations, oldest first. *)
Record ops_inv (r : Room) : Prop := {
  oi_nodup : NoDup (r_operation_order r);
  oi_known : forall key, is_Some (r_operations r !! key) <-> key ∈ r_operation_order r;
  oi_bound : length (r_operation_order r) <= HISTORY_LIMIT;
}.

Lemma ops_inv_ext r r' :
  r_operation_order r' = r_operation_order r -> r_operations r' = r_operations r ->
  ops_inv r -> ops_inv r'.
Proof. intros Ho Hm [? ? ?]. constructor; by rewrite ?Ho, ?Hm. Qed.

Lemma ops_inv_room_with m s n : ops_inv (room_with m s n).
Proof.
  constructor; cbn; [constructor| |lia]. intros key. rewrite lookup_empty.
  split; [by intros [? ?]|intros E; by apply not_elem_of_nil in E].
Qed.

Lemma lookup_foldr_delete {V} (m : gmap (string * string) V) l key :
  foldr delete m l !! key = if decide (key ∈ l) then None else m !! key.
Proof.
  induction l as [|a l IH]; cbn; [done|]. rewrite lookup_delete. rewrite IH.
  destruct (decide (a = key)) as [->|Hne].
  - by rewrite decide_True by by left.
  - apply decide_ext. rewrite elem_of_cons. naive_solver.
Qed.

Lemma elem_of_take_in {A} (x : A) n l : x ∈ take n l -> x ∈ l.
Proof. intros (i & Hi & _)%elem_of_take. by eapply list_elem_of_lookup_2. Qed.

(** Recording a fresh operation keeps the table, and the operation is in it. *)
Lemma trim_operations_inv order ops key (msg : Message) :
  NoDup order -> (forall k, is_Some (ops !! k) <-> k ∈ order) -> length order <= HISTORY_LIMIT ->
  ops !! key = None ->
  let '(order', ops') := trim_operations (order ++ [key]) (<[key := msg]> ops) in
  NoDup order' /\ (forall k, is_Some (ops' !! k) <-> k ∈ order') /\
  length order' <= HISTORY_LIMIT /\ ops' !! key = Some msg.
Proof.
  intros Hnd Hk Hlen Hfresh. rewrite trim_operations_spec.
  set (n := length (order ++ [key]) - HISTORY_LIMIT).
  assert (Hkey : key ∉ order) by (rewrite <- Hk, Hfresh; by intros [? ?]).
  assert (Hnd' : NoDup (order ++ [key])).
  { apply NoDup_app. split; [done|]. split; [set_solver|apply NoDup_singleton]. }
  assert (Hn : n <= 1) by (subst n; rewrite length_app; cbn; unfold HISTORY_LIMIT in *; lia).
  assert (Hle : n <= length order).
  { subst n. rewrite length_app. cbn. unfold HISTORY_LIMIT in *. lia. }
  assert (Hsplit : NoDup (take n (order ++ [key]) ++ drop n (order ++ [key])))
    by by rewrite take_drop.
  apply NoDup_app in Hsplit as (_ & Hdis & Hnd2).
  assert (Htake : take n (order ++ [key]) = take n order) by by apply take_app_le.
  assert (Hdrop : drop n (order ++ [key]) = drop n order ++ [key]) by by apply drop_app_le.
  assert (Hlook : forall k, foldr delete (<[key:=msg]> ops) (rev (take n (order ++ [key]))) !! k
            = if decide (k ∈ take n order) then None else <[key:=msg]> ops !! k).
  { intros k. rewrite lookup_foldr_delete, Htake.
    apply decide_ext. by rewrite <- Permutation_rev. }
  split; [done|]. split; [|split].
  - intros k. rewrite Hlook, Hdrop. rewrite elem_of_app, list_elem_of_singleton.
    destruct (decide (k = key)) as [->|Hne].
    + rewrite decide_False by (intros Hin; apply Hkey; by eapply elem_of_take_in).
      rewrite lookup_insert_eq. split; [by right|by eexists].
    + destruct (decide (k ∈ take n order)) as [Ht|Ht].
      * split; [by intros [? ?]|]. intros [Hd|?]; [|done]. exfalso.
        apply (Hdis k); [by rewrite Htake|]. rewrite Hdrop. set_solver.
      * rewrite lookup_insert_ne by done. rewrite Hk. rewrite <- (take_drop n order) at 1.
        rewrite elem_of_app. naive_solver.
  - rewrite length_drop. subst n. lia.
  - rewrite Hlook, decide_False, lookup_insert_eq; [done|].
    intros Hin. apply Hkey. by eapply elem_of_take_in.
Qed.

(** ** What a post leaves of every room *)

Section after.
Context {St : Type} `{Unicode} `{Csprng} `{MessageStore St} `{CareStore St}.
Implicit Types h : Hub St.

(** The components the invariants of the other files read. *)
Record post_after (r r' : Room) : Prop := {
  pa_members : r_members r' = r_members r;
  pa_settings : r_settings r' = r_settings r;
  pa_goals : r_goals r' = r_goals r;
  pa_tasks : r_tasks r' = r_tasks r;
  pa_waits : r_waits r' = r_waits r \/ exists target e u,
    r_waits r !! target = Some e /\ r_waits r' = <[target := u]> (r_waits r) /\
    wait_waiter u = target /\ wait_waiting_for u = wait_waiting_for e;
  pa_mode : r_mode r' = r_mode r \/ exists sender, r_mode r' = (advance_turn (r_mode r) sender).1;
}.

Lemma post_after_refl r : post_after r r.
Proof. constructor; try done; by left. Qed.

Lemma post_after_wire r r1 r2 : post_after r r1 -> wire_eq r1 r2 -> post_after r r2.
Proof. by intros [? ? ? ? ? ?] (tx & marks & atts & ->). Qed.

Lemma answered_wait_Some r m summons target e :
  answered_wait r m summons = Some (target, e) ->
  msg_kind m = Say /\ summons = [] /\ msg_target m = Some target /\
  target <> msg_sender m /\ r_waits r !! target = Some e /\
  wait_waiting_for e = msg_sender m.
Proof.
  unfold answered_wait. destruct (msg_kind m), summons, (msg_target m); try done.
  destruct (eq_ignore_ascii_case _ _); [done|]. case_bool_decide; [done|].
  cbn. destruct (r_waits r !! s) as [e'|] eqn:E; [|done]. case_decide; [|done].
  by intros [= <- <-].
Qed.

Lemma post_room_after room body adm p h h' res n r' :
  post room body adm p h = (h', res) -> h_rooms h' !! n = Some r' ->
  exists r, (h_rooms h !! n = Some r \/ n = room /\ r = entry_room room h) /\ post_after r r'.
Proof.
  intros Hpost%post_runs Hr'.
  assert (Hold : forall r0, h_rooms h !! n = Some r0 -> r' = r0 ->
    exists r, (h_rooms h !! n = Some r \/ n = room /\ r = entry_room room h) /\ post_after r r').
  { intros r0 Hn ->. exists r0. split; [by left|apply post_after_refl]. }
  destruct Hpost.
  - destruct Hrooms as [E|[pt E]]; rewrite E in Hr'; [eauto|].
    apply lookup_insert_Some in Hr' as [[<- <-]|[_ Hr']]; [|eauto].
    exists (entry_room room h). split; [by right|]. constructor; try done; by left.
  - subst. eauto.
  - subst h'. cbn in Hr'. apply lookup_insert_Some in Hr' as [[<- <-]|[_ Hr']]; [|eauto].
    exists (entry_room room h). split; [by right|]. apply post_after_refl.
  - specialize (Hroom n). rewrite Hr' in Hroom.
    destruct (h_rooms _ !! n) as [r1|] eqn:E1; [|done]. cbn in E1, Hroom.
    apply lookup_insert_Some in E1 as [[<- <-]|[_ E1]].
    + exists (entry_room room h). split; [by right|].
      eapply post_after_wire, Hroom.
      destruct (rate_check_room _ _ _ _ _ _ Hrate) as (Hr & _ & _).
      destruct (commit_message_fields room m (h_clock h) (records_rate r adm) operation moved
        (with_r_mode (advance_turn (r_mode r) (msg_sender m)).1 r)) as ([] & _ & _ & Hmode & _).
      cbn in *. rewrite Hr in *. cbn in *. constructor; try done;
        [|right; exists (msg_sender m); exact Hmode].
      destruct (answered_wait _ m summons) as [[target e]|] eqn:Ha; [|by left].
      apply answered_wait_Some in Ha as (_ & _ & _ & _ & He & _).
      destruct Hwake as (u & Hw & Hu & Hfor & _). right. exists target, e, u. done.
    + exists r1. split; [by left|]. eapply post_after_wire, Hroom. apply post_after_refl.
Qed.

(** Any property of a room that depends on those components only. *)
Lemma post_all_rooms (P : Room -> Prop) room body adm p h :
  (forall r r', post_after r r' -> P r -> P r') ->
  P (room_with Free (h_default_settings h) 1) ->
  all_rooms P h -> all_rooms P (post room body adm p h).1.
Proof.
  intros Hp Hnew Hall. destruct (post room body adm p h) as [h' res] eqn:E. intros n r' Hr'.
  destruct (post_room_after _ _ _ _ _ _ _ _ _ E Hr') as (r & Hr & Ha).
  eapply Hp; [exact Ha|]. destruct Hr as [Hr|[-> ->]]; [by eapply Hall|].
  by apply all_rooms_entry.
Qed.

Lemma post_ops_ok room body adm p h :
  all_rooms ops_inv h -> all_rooms ops_inv (post room body adm p h).1.
Proof.
  intros Hall. pose proof (all_rooms_entry _ h room Hall (ops_inv_room_with _ _ _)) as He.
  destruct (post room body adm p h) as [h' res] eqn:E. apply post_runs in E. cbn.
  assert (Hput : forall h1 r1, h_rooms h1 = <[room := r1]> (h_rooms h) -> ops_inv r1 ->
    all_rooms ops_inv h1).
  { intros h1 r1 Hh1 Hr1 n r'. rewrite Hh1. intros [[<- <-]|[_ Hn]]%lookup_insert_Some; eauto. }
  destruct E.
  - destruct Hrooms as [E|[pt E]]; [by intros n r'; rewrite E; apply Hall|].
    eapply Hput; [exact E|]. by eapply ops_inv_ext, He.
  - by subst.
  - subst h'. by eapply Hput.
  - apply (all_rooms_wire ops_inv _ _) in Hroom; [done|..].
    { intros r1 r2 (? & ? & ? & ->). by apply ops_inv_ext. }
    apply all_rooms_put; [done|].
    destruct (rate_check_room _ _ _ _ _ _ Hrate) as (Hr & _ & _).
    assert (Hor : r_operation_order r = r_operation_order (entry_room room h) /\
      r_operations r = r_operations (entry_room room h)) by (by rewrite Hr).
    destruct Hor as [Ho Hm].
    destruct (commit_message_fields room m (h_clock h) (records_rate r adm) operation moved
        (with_r_mode (advance_turn (r_mode r) (msg_sender m)).1 r)) as (_ & _ & _ & _ & _ & Hops).
    cbn in Hops. rewrite Ho, Hm in Hops. destruct He as [He1 He2 He3].
    destruct operation as [key|]; cbn in Hnew.
    + pose proof (trim_operations_inv (r_operation_order (entry_room room h))
        (r_operations (entry_room room h)) key m He1 He2 He3 Hnew) as Ht.
      rewrite <- Hops in Ht. destruct Ht as (? & ? & ? & _). by constructor.
    + injection Hops as Ho' Hm'. constructor; cbn; by rewrite ?Ho', ?Hm'.
Qed.
End after.

(** ** Properties *)

Lemma filter_all {A} (P : A -> Prop) `{!forall x, Decision (P x)} l : Forall P l -> filter P l = l.
Proof. induction 1 as [|x l Hx _ IH]; [done|]. by rewrite filter_cons_True, IH. Qed.

#[local] Arguments commit_message : simpl never.
#[local] Arguments trim_operations : simpl never.

Section properties.
Context {St : Type} `{Unicode} `{Csprng} `{MessageStore St} `{CareStore St}.
Implicit Types h : Hub St.

(** A refused post has no effect on the building: whatever the reason -
    a gate, the rate limit, an unknown attachment, a failed transaction - no
    frame is sent, no message, turn, wait, reminder or attention changes in any
    room, and no delivery is opened; at most the room was created and the
    sender's rate window was pruned. *)
Theorem post_refused_no_effect room body is_admin principal h h' e :
  post room body is_admin principal h = (h', Err e) ->
  h_care_deliveries h' = h_care_deliveries h /\
  (h_rooms h' = h_rooms h \/
   exists pt, h_rooms h' = <[room := with_r_post_times pt (entry_room room h)]> (h_rooms h)).
Proof. intros Hp%post_runs. by inversion_clear Hp. Qed.

(** Not the replay of an operation the store or the room knows. *)
Definition fresh_post room (body : PostMessage) (principal : string) h : Prop :=
  match nonempty (pm_op_id body) with
  | None => True
  | Some id => message_by_operation (h_store h) room principal id = Ok None /\
               r_operations (entry_room room h) !! (principal, id) = None
  end.

(** C30: Messages of a room are totally ordered: a freshly accepted message has
    a timestamp later than the room's last one, later than every generation
    drawn before in the building, and not before the clock; it takes the next
    message id, is appended to the history, of which at most the last
    [HISTORY_LIMIT] messages stay in memory, and becomes the room's last. *)
Theorem post_accepted_order room body is_admin principal h h' m :
  post room body is_admin principal h = (h', Ok m) -> fresh_post room body principal h ->
  (r_last_msg_ms (entry_room room h) < u64_max)%N ->
  (h_condition_generation h < u64_max)%N ->
  msg_id m = h_next_id h /\
  (r_last_msg_ms (entry_room room h) < msg_ts m)%N /\
  (h_condition_generation h < msg_ts m)%N /\ (h_clock h <= msg_ts m)%N /\
  exists r', h_rooms h' !! room = Some r' /\ r_last_msg_ms r' = msg_ts m /\
    length (r_history r') <= HISTORY_LIMIT /\
    r_history r' =
      drop (S (length (r_history (entry_room room h))) - HISTORY_LIMIT)
        (r_history (entry_room room h) ++ [m]).
Proof.
  intros Hp%post_runs Hfresh Hlast Hgen. unfold fresh_post in Hfresh.
  inversion_clear Hp.
  { rewrite Hop in Hfresh. destruct Hfresh. congruence. }
  { rewrite Hop in Hfresh. destruct Hfresh. congruence. }
  destruct (rate_check_room _ _ _ _ _ _ Hrate) as (Hr & _ & _).
  assert (Hl : r_last_msg_ms r = r_last_msg_ms (entry_room room h)) by by rewrite Hr.
  assert (Hh : r_history r = r_history (entry_room room h)) by by rewrite Hr.
  destruct Hts as [h1 Hts]. rewrite Hl in Hts.
  apply next_condition_generation_gt in Hts as (? & ? & ? & _); [|done..].
  do 4 (split; [done|]).
  destruct (rooms_wire_put_Some _ _ _ _ Hroom) as (r' & Hr' & tx & marks & atts & ->).
  destruct (commit_message_fields room m (h_clock h) (records_rate r is_admin)
    operation moved
    (with_r_mode (advance_turn (r_mode r) (msg_sender m)).1 r)) as (_ & Hhist & Hms & _).
  eexists. split; [exact Hr'|]. cbn. split; [exact Hms|].
  rewrite Hhist. unfold push_history. cbn.
  rewrite Hh. split.
  - rewrite length_drop, length_app. unfold HISTORY_LIMIT. lia.
  - rewrite length_app. by replace (length (r_history (entry_room room h)) + length [m])
      with (S (length (r_history (entry_room room h)))) by (cbn; lia).
Qed.

(** The mode after an accepted message, and the gate it passed. *)
Lemma post_fresh_mode room body adm principal h h' m :
  post room body adm principal h = (h', Ok m) -> fresh_post room body principal h ->
  let r := entry_room room h in
  is_deleted h room = false /\ rs_archived (r_settings r) = false /\
  post_gate r adm (pm_sender body) = None /\ msg_sender m = pm_sender body /\
  exists r', h_rooms h' !! room = Some r' /\
    r_mode r' = (advance_turn (r_mode r) (pm_sender body)).1.
Proof.
  intros Hp%post_runs Hfresh. unfold fresh_post in Hfresh. cbn zeta.
  inversion_clear Hp.
  { rewrite Hop in Hfresh. destruct Hfresh. congruence. }
  { rewrite Hop in Hfresh. destruct Hfresh. congruence. }
  do 4 (split; [done|]).
  destruct (rooms_wire_put_Some _ _ _ _ Hroom) as (r' & Hr' & tx & marks & atts & ->).
  eexists. split; [exact Hr'|].
  destruct (commit_message_fields room m (h_clock h) (records_rate r adm)
    operation moved
    (with_r_mode (advance_turn (r_mode r) (msg_sender m)).1 r)) as (_ & _ & _ & Hmode & _).
  cbn in Hmode |- *. rewrite Hmode, Hsender.
  destruct (rate_check_room _ _ _ _ _ _ Hrate) as (Hr & _ & _). by rewrite Hr.
Qed.

(** C29: The gates are enforced: an agent's message is accepted only in a room
    that is neither sealed nor archived, from a sender neither banned nor
    muted, and only as the chat mode allows; in round-robin the sender is the
    one whose turn it is, and the baton moves to the next. *)
Theorem post_gates_enforced room body principal h h' m :
  post room body false principal h = (h', Ok m) -> fresh_post room body principal h ->
  let r := entry_room room h in
  is_deleted h room = false /\ rs_archived (r_settings r) = false /\
  (pm_sender body ∉ r_banned r) /\ (pm_sender body ∉ r_muted r) /\
  exists r', h_rooms h' !! room = Some r' /\
    match r_mode r with
    | Free => r_mode r' = Free
    | Paused => False
    | Restricted allow => pm_sender body ∈ allow /\ r_mode r' = Restricted allow
    | RoundRobin order turn =>
        order !! turn = Some (pm_sender body) /\
        r_mode r' = RoundRobin order (S turn mod length order)
    end.
Proof.
  intros Hp Hfresh. cbn zeta.
  destruct (post_fresh_mode _ _ _ _ _ _ _ Hp Hfresh) as (Hd & Ha & Hgate & _ & r' & Hr' & Hmode).
  unfold post_gate in Hgate.
  destruct (decide (_ ∈ r_banned _)); [done|]. destruct (decide (_ ∈ r_muted _)); [done|].
  do 4 (split; [done|]). exists r'. split; [done|]. rewrite Hmode.
  destruct (r_mode (entry_room room h)) as [|allow|order turn|]; [done|..|done].
  - by destruct (decide _).
  - destruct (decide _) as [Hcur|]; [|done]. split; [done|]. cbn.
    rewrite (bool_decide_eq_true_2 _ Hcur), bool_decide_eq_false_2; [done|].
    by intros ->.
Qed.

(** ** A conversation

    Attempts of agents to post, each at its own time, accepted or not. *)
Record attempt : Type := mkAttempt {
  at_clock : N; at_principal : string; at_body : PostMessage;
}.

(** The attempt repeats an operation that was answered before, as the store or the
    room remembers. *)
Definition repeats room (body : PostMessage) (principal : string) h : bool :=
  match nonempty (pm_op_id body) with
  | None => false
  | Some id =>
      match message_by_operation (h_store h) room principal id with
      | Ok (Some _) => true
      | _ => negb (is_none (r_operations (entry_room room h) !! (principal, id)))
      end
  end.

(** The answers, each with whether its attempt repeats an operation. *)
Fixpoint converse (room : string) (l : list attempt) h
    : Hub St * list (bool * result Message PostReject) :=
  match l with
  | [] => (h, [])
  | a :: l =>
      let h := with_h_clock (at_clock a) h in
      let again := repeats room (at_body a) (at_principal a) h in
      let '(h, res) := post room (at_body a) false (at_principal a) h in
      let '(h, rest) := converse room l h in
      (h, (again, res) :: rest)
  end.

(** The messages that were new when they were accepted. *)
Definition accepted (l : list (bool * result Message PostReject)) : list Message :=
  omap (fun res => match res with (false, Ok m) => Some m | _ => None end) l.

(** A repeated operation leaves the mode alone. *)
Lemma post_repeated_mode room body adm principal h h' res :
  post room body adm principal h = (h', res) -> repeats room body principal h = true ->
  r_mode (entry_room room h') = r_mode (entry_room room h).
Proof.
  unfold post, repeats. destruct (is_deleted h room); [by intros [= <- _]|].
  destruct (nonempty (pm_op_id body)) as [id|]; [|done]. cbn [fmap option_fmap option_map].
  destruct (message_by_operation _ _ _ _) as [[m|]|]; [by intros [= <- _]| |by intros [= <- _]].
  destruct (cited_attachments _ _ _) as [atts|]; [|by intros [= <- _]].
  unfold post_in_room. rewrite entry_room_mut. cbn [mbind option_bind].
  destruct (r_operations _ !! _); [|done]. intros [= <- _] _. by rewrite entry_room_mut.
Qed.

Lemma repeats_fresh room body principal h h' adm m :
  post room body adm principal h = (h', Ok m) -> repeats room body principal h = false ->
  fresh_post room body principal h.
Proof.
  unfold fresh_post, repeats, post. destruct (is_deleted _ _); [done|].
  destruct (nonempty (pm_op_id body)) as [id|]; [|done]. cbn [fmap option_fmap option_map].
  destruct (message_by_operation _ _ _ _) as [[m'|]|]; [done| |done].
  intros _ Hn. split; [done|]. by destruct (r_operations _ !! _).
Qed.

Lemma post_refused_mode room body adm principal h h' e m :
  post room body adm principal h = (h', Err e) -> r_mode (entry_room room h) = m ->
  m <> Free -> r_mode (entry_room room h') = m.
Proof.
  intros Hp%post_runs Hm Hne. inversion_clear Hp. unfold entry_room in *.
  destruct Hrooms as [->|[pt ->]].
  - by destruct (h_rooms h !! room).
  - rewrite lookup_insert_eq. by destruct (h_rooms h !! room).
Qed.

Lemma converse_turns room l order turn h h' res :
  r_mode (entry_room room h) = RoundRobin order turn -> turn < length order ->
  converse room l h = (h', res) ->
  (forall i m, accepted res !! i = Some m ->
     order !! ((turn + i) mod length order) = Some (msg_sender m)) /\
  r_mode (entry_room room h')
    = RoundRobin order ((turn + length (accepted res)) mod length order).
Proof.
  revert turn h h' res. induction l as [|a l IH]; intros turn h h' res Hmode Hlt; cbn.
  { intros [= <- <-]. cbn. rewrite Nat.add_0_r, Nat.mod_small by done. done. }
  set (h0 := with_h_clock (at_clock a) h).
  change (entry_room room h) with (entry_room room h0) in Hmode.
  destruct (post _ _ _ _ _) as [h1 res1] eqn:Hp.
  destruct (converse room l h1) as [h2 rest] eqn:Hc. intros [= <- <-].
  destruct (repeats room (at_body a) (at_principal a) h0) eqn:Hrep; cbn.
  { eapply IH; [|done|exact Hc]. by rewrite (post_repeated_mode _ _ _ _ _ _ _ Hp Hrep). }
  destruct res1 as [m|e]; cbn; cycle 1.
  { eapply IH; [|done|exact Hc]. by eapply post_refused_mode; [exact Hp|exact Hmode|]. }
  destruct (post_fresh_mode _ _ _ _ _ _ _ Hp (repeats_fresh _ _ _ _ _ _ _ Hp Hrep))
    as (_ & _ & Hgate & Hs & r' & Hr' & Hmode').
  rewrite Hmode in Hmode'. unfold post_gate in Hgate. rewrite Hmode in Hgate.
  destruct (decide (_ ∈ r_banned _)); [done|]. destruct (decide (_ ∈ r_muted _)); [done|].
  destruct (decide _) as [Hcur|]; [|done]. cbn in Hmode'.
  rewrite (bool_decide_eq_true_2 _ Hcur), bool_decide_eq_false_2 in Hmode' by (by intros ->).
  pose proof (Nat.mod_upper_bound (S turn) (length order) ltac:(lia)) as Hlt'.
  rewrite <- (entry_room_Some _ _ _ Hr') in Hmode'.
  destruct (IH _ _ _ _ Hmode' Hlt' Hc) as [Hi Hend]. split.
  - intros [|i] m'; cbn.
    + intros [= <-]. rewrite Nat.add_0_r, Nat.mod_small by done. by rewrite Hs.
    + intros Hm'. apply Hi in Hm'. rewrite Nat.Div0.add_mod_idemp_l in Hm'.
      by rewrite Nat.add_succ_r.
  - by rewrite Hend, Nat.Div0.add_mod_idemp_l, Nat.add_succ_r.
Qed.

(** Positions of a round, one after another, are different. *)
Lemma round_positions n a b c : a < b < a + n -> (c + a) mod n <> (c + b) mod n.
Proof.
  intros Hab He. pose proof (Nat.div_mod_eq (c + a) n). pose proof (Nat.div_mod_eq (c + b) n).
  rewrite He in *. generalize dependent ((c + a) / n). generalize dependent ((c + b) / n).
  intros q2 E2 q1 E1. destruct (Nat.le_gt_cases q2 q1); nia.
Qed.

(** C35: Round-robin is fair: whatever a room's agents attempt to post, with or without
    an operation id, and whenever they do, the new messages a round-robin room
    accepts come from the positions of its order in turn, from the one that held
    the baton at the beginning, and the baton ends up with the next one; so when
    nobody is listed twice, each of them speaks once before anybody speaks again.
    The answer to a repeated operation is no new message and moves no baton. *)
Theorem round_robin_takes_turns room l order turn h h' res :
  r_mode (entry_room room h) = RoundRobin order turn -> turn < length order ->
  converse room l h = (h', res) ->
  (forall i m, accepted res !! i = Some m ->
     order !! ((turn + i) mod length order) = Some (msg_sender m)) /\
  r_mode (entry_room room h')
    = RoundRobin order ((turn + length (accepted res)) mod length order) /\
  (NoDup order -> forall i j mi mj, accepted res !! i = Some mi -> accepted res !! j = Some mj ->
     i < j < i + length order -> msg_sender mi <> msg_sender mj).
Proof.
  intros Hmode Hlt Hc. pose proof (converse_turns room l order turn h h' res Hmode Hlt Hc) as [Hi He].
  split_and!; [done|done|]. intros Hnd i j mi mj Ei Ej Hij Heq.
  apply Hi in Ei, Ej. rewrite Heq in Ei. eapply round_positions; [exact Hij|].
  eapply NoDup_lookup; [exact Hnd|exact Ei|exact Ej].
Qed.

(** The rate limit holds over every window: after an agent's message is
    accepted, the timestamps the room keeps for the sender are exactly its
    earlier posts inside the window and this one, and there are at most
    [rate_limit] of them. *)
Theorem post_rate_limited room body principal h h' m :
  let r := entry_room room h in
  let times := default [] (r_post_times r !! pm_sender body) in
  post room body false principal h = (h', Ok m) -> fresh_post room body principal h ->
  (0 < rs_rate_limit (r_settings r) <= u32_max)%N ->
  (N.of_nat (length times) <= u32_max)%N -> StronglySorted N.le times ->
  exists r' times', h_rooms h' !! room = Some r' /\
    r_post_times r' !! pm_sender body = Some times' /\
    times' = filter (fun t => (sat_sub (h_clock h) (rate_window r) < t)%N) times
               ++ [h_clock h] /\
    (N.of_nat (length times') <= rs_rate_limit (r_settings r))%N.
Proof.
  cbn zeta. intros Hp%post_runs Hfresh Hlimit Hlen Hsorted. unfold fresh_post in Hfresh.
  inversion_clear Hp.
  { rewrite Hop in Hfresh. destruct Hfresh. congruence. }
  { rewrite Hop in Hfresh. destruct Hfresh. congruence. }
  set (r0 := entry_room room h) in *.
  assert (Hrec : records_rate r0 false = true).
  { unfold records_rate. cbn. apply N.ltb_lt. lia. }
  destruct (rate_check_room _ _ _ _ _ _ Hrate) as (Hr & Hpt & Hlt).
  rewrite Hrec in Hpt. specialize (Hlt eq_refl Hrec).
  destruct (rooms_wire_put_Some _ _ _ _ Hroom) as (r' & Hr' & tx & marks & atts & ->).
  destruct (commit_message_fields room m (h_clock h) (records_rate r false)
    operation moved
    (with_r_mode (advance_turn (r_mode r) (msg_sender m)).1 r)) as (_ & _ & _ & _ & Htimes & _).
  assert (records_rate r false = true) as Hrec' by by rewrite Hr.
  rewrite Hrec' in *. cbn in Htimes. rewrite Hpt, Hsender, lookup_insert_eq in Htimes. cbn in Htimes.
  assert (Hrecent : recent_posts r0 (h_clock h) (pm_sender body) =
    filter (fun t => (sat_sub (h_clock h) (rate_window r0) < t)%N)
      (default [] (r_post_times r0 !! pm_sender body))).
  { unfold recent_posts. induction Hsorted as [|t l Hl IH Hall]; [done|]. cbn [drop_while].
    destruct (N.leb_spec t (sat_sub (h_clock h) (rate_window r0))) as [Hle|Hgt].
    - rewrite filter_cons_False by lia. apply IH. cbn in Hlen. lia.
    - symmetry. apply filter_all. constructor; [done|].
      eapply Forall_impl; [exact Hall|]. cbn. lia. }
  eexists _, _. split; [exact Hr'|]. cbn. rewrite ?Hsender, Htimes, lookup_insert_eq. split; [done|].
  rewrite Hrecent. split; [done|]. rewrite Hrecent in Hlt.
  rewrite length_app. cbn [length]. rewrite N.mod_small in Hlt; [lia|].
  pose proof (length_filter (fun t => (sat_sub (h_clock h) (rate_window r0) < t)%N)
    (default [] (r_post_times r0 !! pm_sender body))). unfold u32_max in *. lia.
Qed.

(** Posting is idempotent under an operation id: once a post with an
    operation id was accepted, repeating the operation as the same principal -
    with whatever content, at any later state in which the room is unchanged
    and neither sealed - returns the same message and changes nothing, even
    when the store does not remember the operation. *)
Theorem post_operation_idempotent room body is_admin principal id h h' m later body' is_admin' atts :
  post room body is_admin principal h = (h', Ok m) -> all_rooms ops_inv h ->
  nonempty (pm_op_id body) = Some id ->
  message_by_operation (h_store h) room principal id = Ok None ->
  h_rooms later !! room = h_rooms h' !! room -> is_deleted later room = false ->
  message_by_operation (h_store later) room principal id = Ok (Some m) \/
  message_by_operation (h_store later) room principal id = Ok None ->
  nonempty (pm_op_id body') = Some id ->
  cited_attachments (h_store later) room (pm_attachments body') = Ok atts ->
  post room body' is_admin' principal later = (later, Ok m).
Proof.
  intros Hp%post_runs Hops Hop Hnone Hsame Hdel Hstore Hop' Hatts.
  assert (exists r', h_rooms h' !! room = Some r' /\ r_operations r' !! (principal, id) = Some m)
    as (r' & Hr' & Hm).
  { inversion_clear Hp.
    - congruence.
    - assert (id0 = id) as -> by congruence. exists (entry_room room h). subst h'. cbn.
      by rewrite lookup_insert_eq.
    - unfold operation in *. rewrite Hop in *. cbn in Hnew.
      destruct (rooms_wire_put_Some _ _ _ _ Hroom) as (r' & Hr' & tx & marks & ats & ->).
      eexists. split; [exact Hr'|]. cbn.
      destruct (rate_check_room _ _ _ _ _ _ Hrate) as (Hr & _ & _).
      assert (Hor : r_operation_order r = r_operation_order (entry_room room h) /\
        r_operations r = r_operations (entry_room room h)) by (by rewrite Hr).
      destruct Hor as [Ho Hmm].
      destruct (commit_message_fields room m (h_clock h) (records_rate r is_admin)
        (Some (principal, id)) moved
        (with_r_mode (advance_turn (r_mode r) (msg_sender m)).1 r)) as (_ & _ & _ & _ & _ & Hout).
      cbn in Hout. rewrite Ho, Hmm in Hout.
      destruct (all_rooms_entry _ h room Hops (ops_inv_room_with _ _ _)) as [He1 He2 He3].
      pose proof (trim_operations_inv _ _ (principal, id) m He1 He2 He3 Hnew) as Ht.
      rewrite <- Hout in Ht. cbn. tauto. }
  rewrite Hr' in Hsame. unfold post. rewrite Hdel, Hop'. cbn [fmap option_fmap option_map].
  destruct Hstore as [->| ->]; [done|]. rewrite Hatts. unfold post_in_room.
  rewrite entry_room_mut, (entry_room_Some _ _ _ Hsame). cbn. rewrite Hm.
  f_equal. unfold room_mut, put_room. rewrite (entry_room_Some _ _ _ Hsame), insert_id by done.
  by destruct later.
Qed.

(** An explicit reply wakes exactly the waiter it answers: an ordinary
    message addressed to a participant who waits for its sender, and that
    summons no caretaker, leaves that participant's wait in place with the same
    edge and reason, restarts it at a later generation with no nudges counted,
    changes no other wait, and ends with the waiter's wake-up on the room's
    channel. *)
Theorem reply_wakes_waiter room body is_admin principal h h' m target existing :
  let r := entry_room room h in
  post room body is_admin principal h = (h', Ok m) -> fresh_post room body principal h ->
  answered_wait r m (caretaker_summons h room m (h_clock h)) = Some (target, existing) ->
  (wait_since existing < u64_max)%N ->
  target <> msg_sender m /\ wait_waiting_for existing = msg_sender m /\
  exists r' updated before sig a, h_rooms h' !! room = Some r' /\
    r_waits r' = <[target := updated]> (r_waits r) /\
    wait_waiting_for updated = wait_waiting_for existing /\
    wait_reason updated = wait_reason existing /\
    (wait_since existing < wait_since updated)%N /\ wait_signal_count updated = 0%N /\
    r_tx r' = before ++ [SF_Care sig; SF_Attention a; SF_Wait target (Some updated)] /\
    sig_owner sig = Some target /\ sig_reason sig = WaitReplied.
Proof.
  cbn zeta. intros Hp%post_runs Hfresh Hans Hsince. unfold fresh_post in Hfresh.
  apply answered_wait_Some in Hans as Hinfo. destruct Hinfo as (_ & _ & _ & Hself & He & Hfor).
  split; [done|]. split; [done|].
  inversion_clear Hp.
  { rewrite Hop in Hfresh. destruct Hfresh. congruence. }
  { rewrite Hop in Hfresh. destruct Hfresh. congruence. }
  destruct (rate_check_room _ _ _ _ _ _ Hrate) as (Hr & _ & _).
  assert (Hws : r_waits r = r_waits (entry_room room h)) by by rewrite Hr.
  assert (Hans' : answered_wait r m summons = Some (target, existing)).
  { rewrite <- Hans, Hsummons. unfold answered_wait. by rewrite Hws. }
  rewrite Hans' in Hwake.
  destruct Hwake as (u & Hw & _ & Hf & Hrs & Hs & _ & Hc & r' & before & sig & a & Hr' & Htx & Ho & Hreason).
  exists r', u, before, sig, a. rewrite Hr'. split; [done|].
  destruct (rooms_wire_put_Some _ _ _ _ Hroom) as (r2 & Hr2 & tx & marks & atts & ->).
  rewrite Hr' in Hr2. injection Hr2 as ->. cbn in *. rewrite Hw, Hws. split; [done|].
  split; [done|]. split; [done|]. split; [|done].
  rewrite Hs. unfold sat_add64. lia.
Qed.
End properties.

(** ** Witnesses: a round-robin room where [bob] waits for [ada] *)

#[local] Existing Instance ascii_unicode.
#[local] Existing Instance counter_csprng.

Definition chat_room : Room :=
  with_r_waits {["bob" := mkWaitState "lab" "bob" "ada" "review" 900 (Some 950%N) 2]}
    (room_with (RoundRobin ["ada"; "bob"] 0) room_settings_default 1).
Definition chat_hub : Hub unit := put_room "lab" chat_room (empty_hub tt).
Definition chat_body : PostMessage :=
  mkPostMessage Say "ada" Agent (Some "bob") "done" None (Some "op1") [].

Lemma chat_hub_ops : all_rooms ops_inv chat_hub.
Proof.
  apply all_rooms_put; [by intros ??|].
  eapply ops_inv_ext, (ops_inv_room_with Free room_settings_default 1); done.
Qed.

(** [ada]'s turn, answered by the code. *)
Definition posted : Hub unit * result Message PostReject :=
  post "lab" chat_body false "p" chat_hub.
Definition posted_message : Message :=
  match posted.2 with
  | Ok m => m
  | Err _ => mkMessage 0 "" "" User None "" Say None None 0 []
  end.
Lemma posted_ok : post "lab" chat_body false "p" chat_hub = (posted.1, Ok posted_message).
Proof. vm_compute. reflexivity. Qed.

Lemma post_refused_no_effect_witness :
  let body := mkPostMessage Say "bob" Agent None "mine" None None [] in
  exists h', post "lab" body false "p" chat_hub = (h', Err (RejNotYourTurn (Some "ada"))) /\
    h_care_deliveries h' = h_care_deliveries chat_hub.
Proof.
  cbn zeta. eexists. split; [vm_compute; reflexivity|].
  eapply (post_refused_no_effect "lab" (mkPostMessage Say "bob" Agent None "mine" None None [])
    false "p" chat_hub). vm_compute. reflexivity.
Defined.

Lemma post_accepted_order_witness :
  msg_id posted_message = h_next_id chat_hub /\ (h_clock chat_hub <= msg_ts posted_message)%N.
Proof.
  destruct (post_accepted_order "lab" chat_body false "p" chat_hub posted.1 posted_message posted_ok)
    as (Hid & _ & _ & Hclock & _); [done..|].
  exact (conj Hid Hclock).
Defined.

Lemma post_gates_enforced_witness :
  exists r', h_rooms posted.1 !! "lab" = Some r' /\ r_mode r' = RoundRobin ["ada"; "bob"] 1.
Proof.
  destruct (post_gates_enforced "lab" chat_body "p" chat_hub posted.1 posted_message posted_ok)
    as (_ & _ & _ & _ & r' & Hr' & _ & Hmode); [done|].
  exact (ex_intro _ r' (conj Hr' Hmode)).
Defined.

Lemma post_rate_limited_witness :
  exists r' times', h_rooms posted.1 !! "lab" = Some r' /\
    r_post_times r' !! "ada" = Some times' /\ times' = [1000%N].
Proof.
  destruct (post_rate_limited "lab" chat_body "p" chat_hub posted.1 posted_message posted_ok)
    as (r' & times' & Hr' & Ht & Heq & _); [done..|constructor|].
  exists r', times'. split; [exact Hr'|]. split; [exact Ht|]. exact Heq.
Defined.

Lemma post_operation_idempotent_witness :
  post "lab" chat_body true "p" posted.1 = (posted.1, Ok posted_message).
Proof.
  apply (post_operation_idempotent "lab" chat_body false "p" "op1" chat_hub posted.1
    posted_message posted.1 chat_body true [] posted_ok chat_hub_ops); try done. by right.
Defined.

Lemma reply_wakes_waiter_witness :
  exists r' updated, h_rooms posted.1 !! "lab" = Some r' /\
    r_waits r' !! "bob" = Some updated /\ (900 < wait_since updated)%N.
Proof.
  destruct (reply_wakes_waiter "lab" chat_body false "p" chat_hub posted.1 posted_message
    "bob" (mkWaitState "lab" "bob" "ada" "review" 900 (Some 950%N) 2) posted_ok)
    as (_ & _ & r' & u & _ & _ & _ & Hr' & Hw & _ & _ & Hs & _);
    [done|vm_compute; reflexivity|done|].
  exists r', u. split; [exact Hr'|]. split; [rewrite Hw; apply lookup_insert_eq|exact Hs].
Defined.

(** [ada] speaks, repeats her operation, speaks again out of turn, [bob] speaks,
    [ada] again. *)
Definition chat_attempts : list attempt :=
  let say n who op := mkAttempt n "p" (mkPostMessage Say who Agent None "hi" None op []) in
  [say 1000%N "ada" (Some "op1"); say 1001%N "ada" (Some "op1"); say 1002%N "ada" None;
   say 1003%N "bob" None; say 1004%N "ada" None]%string.
Definition conversed : Hub unit * list (bool * result Message PostReject) :=
  converse "lab" chat_attempts chat_hub.
Lemma conversed_senders :
  msg_sender <$> accepted conversed.2 = ["ada"; "bob"; "ada"]%string /\ fst <$> conversed.2
    = [false; true; false; false; false].
Proof. by vm_compute. Qed.

Lemma round_robin_takes_turns_witness :
  r_mode (entry_room "lab" conversed.1) = RoundRobin ["ada"; "bob"] 1.
Proof.
  destruct (round_robin_takes_turns "lab" chat_attempts ["ada"; "bob"] 0 chat_hub conversed.1
    conversed.2) as (_ & Hmode & _).
  - done.
  - cbn. lia.
  - apply surjective_pairing.
  - rewrite <- (length_fmap msg_sender), (proj1 conversed_senders) in Hmode. exact Hmode.
Defined.
