(* ===== verification/Access.v ===== *)
(** * Who may do what: authority, the door, seats, sessions

    crates/server/src/hub.rs: the authority behind a credential or a session
    ([resolve_authority]), the single door decision ([enter_decision]), the
    seat a credential takes ([seat_identity]), and bearer sessions. *)

From Stdlib Require Import Ascii.
From S2P Require Import Prelude Protocol StoreApi Hub.

(** [a.or(b)] *)
Definition or_else {A} (a b : option A) : option A :=
  match a with Some _ => a | None => b end.

(** ** Authority *)

(** @src hub:412-417 is_building_admin *)
Definition is_building_admin (a : RequestAuthority) : bool :=
  match ra_building_role a with
  | Some RoleMaster | Some RoleSmaster => true
  | _ => false
  end.

(** @src hub fn authority_from_principal *)
Definition authority_from_principal (principal : option PrincipalIdentity)
    : option RequestAuthority :=
  match principal with
  | Some identity =>
      Some {| ra_principal_id := Some (pi_id identity);
              ra_display_name := Some (pi_display_name identity);
              ra_kind := Some (pi_kind identity);
              ra_building_role := Some (pi_role identity) |}
  | None => None
  end.

Definition no_authority : RequestAuthority := mkRequestAuthority None None None None.
Definition dev_operator : RequestAuthority :=
  mkRequestAuthority None (Some "operator"%string) (Some User) (Some RoleMaster).

(** @src hub struct AdminSessionGrant *)
Record AdminSessionGrant : Type := mkAdminSessionGrant {
  grant_ttl_ms : N;
  grant_authority : RequestAuthority;
  grant_credential_id : option string;
}.

Section access.
Context {St : Type} `{StoreBase St} `{IdentityStore St}.
Implicit Types h : Hub St.

(** @src hub fn admin_open *)
Definition admin_open h : bool := str_is_empty (h_admin_token h).

(** [!self.admin_token.is_empty() && token == Some(self.admin_token.as_str())] *)
Definition holds_admin_token h (token : option string) : bool :=
  negb (admin_open h) && bool_decide (token = Some (h_admin_token h)).

(** @src hub:852-854 is_master *)
Definition is_master h (token : option string) : bool :=
  admin_open h || bool_decide (token = Some (h_admin_token h)).

(** @src hub fn smaster_name *)
Definition smaster_name h (token : option string) : option string :=
  match token with
  | None => None
  | Some token => if str_is_empty token then None else h_smasters h !! token
  end.

(** @src hub fn is_admin *)
Definition is_admin h (token : option string) : bool :=
  is_master h token || match smaster_name h token with Some _ => true | None => false end.

(** The authority of a bare credential: [resolve_authority] without a
    session. *)
(** @src hub:880-928 resolve_authority *)
Definition credential_authority h (admin_token : option string) : RequestAuthority :=
  match admin_token with
  | Some token =>
      if str_is_empty token then
        (if admin_open h then dev_operator else no_authority)
      else
        match authority_from_principal (principal_for_credential (h_store h) token) with
        | Some authority => authority
        | None =>
            if is_master h (Some token) then dev_operator
            else
              match smaster_name h (Some token) with
              | Some name =>
                  mkRequestAuthority None (Some name) (Some User) (Some RoleSmaster)
              | None => no_authority
              end
        end
  | None => if admin_open h then dev_operator else no_authority
  end.

(** ** Sessions *)

(** Whether the session behind [token] is still good; an expired one is
    dropped. *)
(** @src hub fn session_identity *)
Definition session_identity (token : option string) h : Hub St * option SessionIdentity :=
  match token with
  | None => (h, None)
  | Some token =>
      match h_sessions h !! token with
      | None => (h, None)
      | Some idy =>
          let dropped := with_h_sessions (delete token (h_sessions h)) h in
          if negb (bool_decide (sess_principal_id idy = None))
             && is_persistent (h_store h)
             && negb (principal_session_active (h_store h) token (h_clock h))
          then (dropped, None)
          else if negb (sess_expires_at idy =? 0)%N && (sess_expires_at idy <=? h_clock h)%N
          then
            let '(h, _) :=
              if sess_admin idy then run_store (delete_admin_session token) dropped
              else (dropped, Ok tt) in
            (h, None)
          else (h, Some idy)
      end
  end.

(** @src hub fn resolve_authority *)
Definition resolve_authority (admin_token session_token : option string) h
    : Hub St * RequestAuthority :=
  let '(h, session) := session_identity session_token h in
  match session with
  | Some session =>
      match sess_principal_id session with
      | Some principal_id =>
          (h, default no_authority
                (authority_from_principal (active_principal (h_store h) principal_id)))
      | None =>
          (h, {| ra_principal_id := None; ra_display_name := Some (sess_name session);
                 ra_kind := Some (sess_kind session);
                 ra_building_role := Some (sess_building_role session) |})
      end
  | None => (h, credential_authority h admin_token)
  end.

(** @src hub fn is_admin_session *)
Definition is_admin_session (session_token : option string) h : Hub St * bool :=
  let '(h, authority) := resolve_authority None session_token h in
  (h, is_building_admin authority).

(** @src hub fn admin_session_grant *)
Definition admin_session_grant (credential : option string) (ttl_ms : N) h
    : option AdminSessionGrant :=
  let authority := credential_authority h credential in
  if negb (bool_decide (ra_principal_id authority = None)) || is_building_admin authority
  then Some {| grant_ttl_ms := ttl_ms;
               grant_credential_id := credential ≫= credential_id_for_secret (h_store h);
               grant_authority := authority |}
  else None.

(** @src hub fn master_pairing_grant *)
Definition master_pairing_grant (ttl_ms : N) h : AdminSessionGrant := {|
  grant_ttl_ms := ttl_ms;
  grant_credential_id := credential_id_for_secret (h_store h) (h_admin_token h);
  grant_authority :=
    default dev_operator
      (authority_from_principal (active_master_principal (h_store h))) |}.

(** @src hub fn revoke_session *)
Definition revoke_session (token : string) h : Hub St * dbres bool :=
  let admin := match h_sessions h !! token with
               | Some identity => sess_admin identity | None => false end in
  let '(h, deleted) :=
    if admin then run_store (delete_admin_session token) h else (h, Ok tt) in
  match deleted with
  | Err e => (h, Err e)
  | Ok _ =>
      let '(h, revoked) := run_store (revoke_principal_session token (h_clock h)) h in
      match revoked with
      | Err e => (h, Err e)
      | Ok _ =>
          (with_h_sessions (delete token (h_sessions h)) h,
           Ok (negb (bool_decide (h_sessions h !! token = None))))
      end
  end.

(** ** Members and davets *)

(** An unreadable suspension counts as suspended. *)
(** @src hub fn member_suspended *)
Definition member_suspended h (token : string) : bool :=
  match store_member_suspended (h_store h) token with Ok b => b | Err _ => true end.

(** @src hub fn member_of *)
Definition member_of h (token : option string) : option Membership :=
  match token with
  | None => None
  | Some token => if member_suspended h token then None else h_members h !! token
  end.

(** @src hub fn member_for_credential *)
Definition member_for_credential h (token : option string) : option Membership :=
  if negb (is_persistent (h_store h)) then member_of h token
  else
    match token ≫= principal_for_credential (h_store h) with
    | None => None
    | Some principal =>
        if negb (bool_decide (pi_role principal = RoleMember)) then None
        else
          find_value (fun member =>
            bool_decide (principal_id_for_member_record (h_store h) (mb_token member)
                         = Some (pi_id principal))) (h_members h)
    end.

(** @src hub fn invite_by_token *)
Definition invite_by_token h (token : string) : option Invite :=
  match h_invites h !! token with
  | None => None
  | Some invite =>
      if negb (str_is_empty (inv_member invite)) && member_suspended h (inv_member invite)
      then None else Some invite
  end.

(** @src hub fn invite_for *)
Definition invite_for h (room : string) (token : option string) : option Invite :=
  match token ≫= invite_by_token h with
  | Some inv => if decide (inv_room inv = room) then Some inv else None
  | None => None
  end.

(** @src hub fn principal_id_for_invite *)
Definition principal_id_for_invite h (room : string) (token : option string) : option string :=
  match invite_for h room token with
  | None => None
  | Some invite =>
      if str_is_empty (inv_member invite) then None
      else principal_id_for_member_record (h_store h) (inv_member invite)
  end.

(** ** The door *)

(** @src hub fn is_member *)
Definition is_member h (token : option string) : bool :=
  if str_is_empty (h_room_token h) then negb (h_require_invite h) || holds_admin_token h token
  else bool_decide (token = Some (h_room_token h)) || holds_admin_token h token.

(** @src hub fn may_enter *)
Definition may_enter h (room : string) (token : option string) : bool :=
  match invite_for h room token with
  | Some _ => true
  | None =>
      match token with
      | None => is_member h None
      | Some t =>
          if credential_is_revoked (h_store h) t then false
          else
            match member_for_credential h (Some t) with
            | Some member => is_member h (Some (mb_token member))
            | None => is_member h (Some t)
            end
      end
  end.

(** @src hub fn is_banned *)
Definition is_banned h (room name : string) : bool :=
  match h_rooms h !! room with
  | Some r => bool_decide (name ∈ r_banned r)
  | None => false
  end.

(** The name a ban is checked against. *)
(** @src hub:1184-1192 enter_decision *)
Definition ban_name h (admin_tok davet_tok : option string)
    (session : option SessionIdentity) (name_hint : option string) : option string :=
  or_else (sess_name <$> session)
    (or_else (inv_name <$> (davet_tok ≫= invite_by_token h))
       (or_else (ra_display_name (credential_authority h admin_tok)) name_hint)).

(** A session opens the loca it was minted for; one without a loca opens the
    building while there is a building key. *)
(** @src hub:1216-1235 enter_decision *)
Definition session_opens h (room : string) (session : option SessionIdentity) : bool :=
  match session with
  | None => false
  | Some s =>
      match sess_loca s with
      | Some l => bool_decide (l = room)
      | None => negb (str_is_empty (h_room_token h))
      end
  end.

(** @src hub fn enter_decision *)
Definition enter_decision h (room : string) (admin_tok davet_tok : option string)
    (session : option SessionIdentity) (name_hint : option string) : EnterDecision :=
  let authority := credential_authority h admin_tok in
  if is_building_admin authority && negb (bool_decide (admin_tok = None)) then Allowed
  else if (match session with Some s => sess_admin s | None => false end) then Allowed
  else if (match ban_name h admin_tok davet_tok session name_hint with
           | Some n => is_banned h room n
           | None => false
           end) then Banned
  else
    let principal_at_door :=
      or_else (session ≫= sess_principal_id) (ra_principal_id authority) in
    let appointed :=
      match principal_at_door, loca_operator (h_store h) room with
      | Some principal_id, Some assignment =>
          bool_decide (loa_principal_id assignment = principal_id)
      | _, _ => false
      end in
    if appointed then Allowed
    else if may_enter h room davet_tok then Allowed
    else if session_opens h room session then Allowed
    else Denied.

(** ** Seats *)

(** @src hub:1259-1268 seat_identity *)
Definition admin_seat h (admin_tok : option string) : option string :=
  match admin_tok with
  | None => None
  | Some t =>
      match smaster_name h (Some t) with
      | Some _ => Some ("sm:" +:+ t)
      | None => if holds_admin_token h (Some t) then Some "@master"%string else None
      end
  end.

(** @src hub:1269-1279 seat_identity *)
Definition davet_seat h (davet_tok : option string) : option string :=
  match davet_tok ≫= invite_by_token h with
  | Some inv =>
      Some (if str_is_empty (inv_member inv) then "dv:" +:+ inv_token inv
            else "mb:" +:+ inv_member inv)
  | None =>
      match member_for_credential h davet_tok with
      | Some member => Some ("mb:" +:+ mb_token member)
      | None => None
      end
  end.

(** @src hub:1280-1293 seat_identity *)
Definition session_seat (session : option SessionIdentity) (session_tok : option string)
    : option string :=
  match session with
  | Some s =>
      if sess_admin s then Some "@master"%string
      else
        match sess_member s with
        | Some m => Some ("mb:" +:+ m)
        | None => match session_tok with Some t => Some ("st:" +:+ t) | None => None end
        end
  | None => None
  end.

(** @src hub fn seat_identity *)
Definition seat_identity h (admin_tok davet_tok : option string)
    (session : option SessionIdentity) (session_tok : option string) (name : string)
    : string :=
  default ("name:" +:+ name)
    (or_else (admin_seat h admin_tok)
       (or_else (davet_seat h davet_tok) (session_seat session session_tok))).

(** ** Taking a session *)

(** @src hub:2136-2159 create_session_scoped *)
Definition davet_session h (inv : Invite) : SessionIdentity :=
  let '(name, kind) :=
    match member_of h (Some (inv_member inv)) with
    | Some m => (mb_name m, mb_kind m)
    | None => (inv_name inv, inv_kind inv)
    end in
  {| sess_principal_id := pi_id <$> principal_for_credential (h_store h) (inv_member inv);
     sess_building_role := RoleMember; sess_name := name;
     sess_kind := if decide (kind = "user"%string) then User else Agent;
     sess_loca := Some (inv_room inv); sess_member := Some (inv_member inv);
     sess_admin := false; sess_expires_at := 0 |}.

(** @src hub:2168-2191 create_session_scoped *)
Definition key_session h (req : CreateSession) (grant : option AdminSessionGrant)
    : SessionIdentity :=
  let authority := grant_authority <$> grant in
  {| sess_principal_id := authority ≫= ra_principal_id;
     sess_building_role := default RoleMember (authority ≫= ra_building_role);
     sess_name := default (cs_name req) (authority ≫= ra_display_name);
     sess_kind := default (default Agent (cs_kind req)) (authority ≫= ra_kind);
     sess_loca := None; sess_member := None;
     sess_admin := match authority with Some a => is_building_admin a | None => false end;
     sess_expires_at :=
       match grant with Some g => sat_add64 (h_clock h) (grant_ttl_ms g) | None => 0%N end |}.

(** @src hub fn create_session_scoped *)
Definition create_session_scoped `{Csprng} (req : CreateSession) (davet : option Invite)
    (admin_grant : option AdminSessionGrant) h : Hub St * dbres SessionInfo :=
  let '(h, id) := fetch_next_id h in
  let '(h, t) := secure_token "st_" 32 h in
  let identity :=
    match davet with
    | Some inv => davet_session h inv
    | None => key_session h req admin_grant
    end in
  let expires_at :=
    if (sess_expires_at identity =? 0)%N then None else Some (sess_expires_at identity) in
  let '(h, saved) :=
    if sess_admin identity
    then run_store (save_admin_session t (sess_name identity) (sess_kind identity)
                      (sess_expires_at identity)) h
    else (h, Ok tt) in
  match saved with
  | Err e => (h, Err e)
  | Ok _ =>
      let credential_id :=
        match davet with
        | Some inv => credential_id_for_secret (h_store h) (inv_member inv)
        | None => admin_grant ≫= grant_credential_id
        end in
      let '(h, saved) :=
        match sess_principal_id identity, credential_id with
        | Some principal_id, Some credential_id =>
            run_store (save_principal_session t principal_id credential_id (h_clock h)
                         (sess_expires_at identity)) h
        | _, _ => (h, Ok tt)
        end in
      match saved with
      | Err e => (h, Err e)
      | Ok _ =>
          (with_h_sessions (<[t := identity]> (h_sessions h)) h,
           Ok {| si_participant_id := "p_" +:+ dec id; si_session_token := t;
                 si_name := sess_name identity; si_admin := sess_admin identity;
                 si_expires_at := expires_at |})
      end
  end.
End access.
