(* ===== verification/Membership.v ===== *)
(** * Memberships, davets, pairing

    crates/server/src/hub.rs: admission to the building, the davets that seat
    a member in a room, their revocation with everything they authorized, the
    lobby, the one-use pairing code of the master's browser, and the rate limit
    of join requests. *)

From Stdlib Require Import Ascii.
From S2P Require Import Prelude Text Net Protocol StoreApi Hub Access.

(** SHA-256 is the [sha2] crate's; [hashed_id] shows a prefix of it. *)
Class Digest : Type := { sha256 : string -> list N }.

(** @src store.rs fn hashed_id *)
Definition hashed_id `{Digest} (prefix value : string) : string :=
  prefix +:+ hex_bytes (take 16 (sha256 value)).

(** [token.replacen("dv_", with, 1)] on a token that starts with [dv_]. *)
Definition retag (token tag : string) : string :=
  match strip_prefix token "dv_" with Some rest => tag +:+ rest | None => token end.

Section membership.
Context {St : Type} `{Csprng} `{Digest} `{StoreBase St} `{IdentityStore St}.
Implicit Types h : Hub St.

(** @src hub fn new_invite_token *)
Definition new_invite_token h : Hub St * string := secure_token "dv_" 32 h.

(** ** What dies with a davet or a membership *)

(** Frames on the channel of a room that is live. *)
(** @src hub fn close_connections *)
Definition close_connections (room name : string) h : Hub St :=
  match h_rooms h !! room with
  | Some r => put_room room (send (SF_Kicked name false) r) h
  | None => h
  end.

(** @src hub fn revoke_sessions_for_member *)
Definition revoke_sessions_for_member (member : string) h : Hub St :=
  with_h_sessions (filter (fun p => sess_member p.2 <> Some member) (h_sessions h)) h.

(** @src hub fn revoke_sessions_for_davet *)
Definition revoke_sessions_for_davet (room member : string) h : Hub St :=
  if str_is_empty member then h
  else with_h_sessions
         (filter (fun p => ~ (sess_member p.2 = Some member /\ sess_loca p.2 = Some room))
            (h_sessions h)) h.

(** The davets a condition selects. *)
Definition davets_where (f : Invite -> bool) h : list Invite :=
  List.filter f (values (h_invites h)).

Definition drop_davets (davets : list Invite) h : Hub St :=
  with_h_invites (foldl (fun m inv => delete (inv_token inv) m) (h_invites h) davets) h.

(** The loop bodies of the revocations. *)
(** @src hub:1355-1358 revoke_member *)
Definition retire_davet h (inv : Invite) : Hub St :=
  close_connections (inv_room inv) (inv_name inv)
    (revoke_sessions_for_davet (inv_room inv) (inv_member inv) h).

(** @src hub fn revoke_invite *)
Definition revoke_invite (token : string) h : Hub St * dbres bool :=
  match h_invites h !! token with
  | None => (h, Ok false)
  | Some inv =>
      let '(h, revoked) := run_store (store_revoke_invite token (h_clock h)) h in
      match revoked with
      | Err e => (h, Err e)
      | Ok _ =>
          let h := with_h_invites (delete token (h_invites h)) h in
          (retire_davet h inv, Ok true)
      end
  end.

(** @src hub fn revoke_invites_for *)
Definition revoke_invites_for (room name : string) h : Hub St * dbres unit :=
  let matches :=
    davets_where (fun i => bool_decide (inv_room i = room) && bool_decide (inv_name i = name)) h in
  match matches with
  | [] => (h, Ok tt)
  | _ =>
      let '(h, revoked) := run_store (store_revoke_invites_for room name (h_clock h)) h in
      match revoked with
      | Err e => (h, Err e)
      | Ok _ => (foldl retire_davet (drop_davets matches h) matches, Ok tt)
      end
  end.

(** ** Members *)

(** @src hub fn member_by_name *)
Definition member_by_name h (name : string) : option Membership :=
  find_value (fun m => bool_decide (mb_name m = name)) (h_members h).

(** @src hub fn admit_member *)
Definition admit_member (name kind by_ : string) h : Hub St * dbres Membership :=
  match member_by_name h name with
  | Some existing => (h, Ok existing)
  | None =>
      let '(h, token) := new_invite_token h in
      let m := {| mb_token := retag token "mb_"; mb_name := name; mb_kind := kind;
                  mb_joined_at := h_clock h; mb_admitted_by := by_ |} in
      let '(h, added) := run_store (add_member m) h in
      match added with
      | Err e => (h, Err e)
      | Ok _ => (with_h_members (<[mb_token m := m]> (h_members h)) h, Ok m)
      end
  end.

(** @src hub fn revoke_member *)
Definition revoke_member (token : string) h : Hub St * dbres bool :=
  if bool_decide (h_members h !! token = None) then (h, Ok false)
  else
    let '(h, revoked) := run_store (revoke_member_cascade token (h_clock h)) h in
    match revoked with
    | Err e => (h, Err e)
    | Ok _ =>
        let davets := davets_where (fun i => bool_decide (inv_member i = token)) h in
        let h := foldl retire_davet (drop_davets davets h) davets in
        let h := revoke_sessions_for_member token h in
        let h := with_h_members (delete token (h_members h)) h in
        (with_h_lobby_tx (h_lobby_tx h ++ [MembershipRevoked token]) h, Ok true)
    end.

(** @src hub fn member_management_id *)
Definition member_management_id (token : string) : string :=
  hashed_id "mbid_" ("member:" +:+ token).

(** @src hub fn set_member_suspended *)
Definition set_member_suspended (reference : string) (suspended : bool) (reason : string) h
    : Hub St * dbres bool :=
  match List.find (fun token => bool_decide (member_management_id token = reference))
          (keys (h_members h)) with
  | None => (h, Ok false)
  | Some token =>
      if negb suspended then run_store (resume_member token) h
      else
        let '(h, done_) := run_store (suspend_member token reason (h_clock h)) h in
        match done_ with
        | Err e => (h, Err e)
        | Ok false => (h, Ok false)
        | Ok true =>
            let davets := davets_where (fun i => bool_decide (inv_member i = token)) h in
            let h := drop_davets davets h in
            let h := foldl (fun h inv => close_connections (inv_room inv) (inv_name inv) h)
                       h davets in
            let h := revoke_sessions_for_member token h in
            (with_h_lobby_tx (h_lobby_tx h ++ [MembershipSuspended token]) h, Ok true)
        end
  end.

(** @src hub fn revoke_member_ref *)
Definition revoke_member_ref (reference : string) h : Hub St * dbres bool :=
  match List.find (fun token => bool_decide (token = reference)
                     || bool_decide (member_management_id token = reference))
          (keys (h_members h)) with
  | Some token => revoke_member token h
  | None => (h, Ok false)
  end.

(** ** Davets *)

(** @src hub fn has_active_invite *)
Definition has_active_invite h (room member : string) : bool :=
  any_value (fun i => bool_decide (inv_room i = room) && bool_decide (inv_member i = member))
    (h_invites h).

Definition davets_of_room h (room : string) : list Invite :=
  davets_where (fun i => bool_decide (inv_room i = room)) h.

(** @src hub fn invites_of *)
Definition invites_of h (room : string) : list Invite :=
  sort_by_N inv_issued_at (davets_of_room h room).

(** @src hub fn add_invite *)
Definition add_invite (inv : Invite) h : Hub St * dbres unit :=
  if negb (str_is_empty (inv_member inv))
     && bool_decide (member_of h (Some (inv_member inv)) = None)
  then (h, Err DbError)
  else if is_deleted h (inv_room inv) then (h, Err DbError)
  else
    let '(h, inserted) := run_store (insert_invite inv) h in
    match inserted with
    | Err e => (h, Err e)
    | Ok _ => (with_h_invites (<[inv_token inv := inv]> (h_invites h)) h, Ok tt)
    end.

(** @src hub fn invite_member_to_room *)
Definition invite_member_to_room (member_token room issued_by : string) h
    : Hub St * result Invite InviteError :=
  if is_deleted h room then (h, Err InvSealed)
  else if negb (admin_open h) && negb (room_exists h room) then (h, Err InvMissingRoom)
  else
    match member_of h (Some member_token) with
    | None => (h, Err InvMemberNotFound)
    | Some member =>
        if bool_decide (room = h_reserved_room h)
           && negb (bool_decide (mb_name member ∈ h_caretakers h))
        then (h, Err InvReserved)
        else if has_active_invite h room member_token then (h, Err InvAlreadyInvited)
        else if (LOCA_KAPASITE <=? length (davets_of_room h room))%nat then (h, Err InvFull)
        else
          let '(h, token) := new_invite_token h in
          let inv := {|
            inv_token := token; inv_room := room; inv_member := mb_token member;
            inv_name := mb_name member; inv_kind := mb_kind member;
            inv_issued_at := h_clock h; inv_issued_by := issued_by |} in
          let '(h, added) := add_invite inv h in
          match added with
          | Err _ => (h, Err InvStorage)
          | Ok _ =>
              (with_h_lobby_tx (h_lobby_tx h ++ [Called (mb_token member) room token]) h,
               Ok inv)
          end
    end.

(** ** The lobby *)

(** @src hub fn lobby_join *)
Definition lobby_join (member : string) h : Hub St :=
  with_h_lobby_online
    (<[member := wrap_add64 (default 0%N (h_lobby_online h !! member)) 1]> (h_lobby_online h)) h.

(** @src hub fn lobby_leave *)
Definition lobby_leave (member : string) h : Hub St :=
  match h_lobby_online h !! member with
  | None => h
  | Some count =>
      let count := sat_sub count 1 in
      with_h_lobby_online
        (if (count =? 0)%N then delete member (h_lobby_online h)
         else <[member := count]> (h_lobby_online h)) h
  end.

(** @src hub fn lobby_is_online *)
Definition lobby_is_online h (member : string) : bool :=
  (0 <? default 0 (h_lobby_online h !! member))%N.

(** ** Second masters *)

(** @src hub fn add_smaster *)
Definition add_smaster (name : string) h : Hub St * dbres string :=
  let '(h, token) := new_invite_token h in
  let token := retag token "sm_" in
  let '(h, added) := run_store (store_add_smaster token name (h_clock h)) h in
  match added with
  | Err e => (h, Err e)
  | Ok _ => (with_h_smasters (<[token := name]> (h_smasters h)) h, Ok token)
  end.

(** @src hub fn revoke_smaster *)
Definition revoke_smaster (token : string) h : Hub St * dbres bool :=
  if bool_decide (h_smasters h !! token = None) then (h, Ok false)
  else
    let '(h, revoked) := run_store (store_revoke_smaster token (h_clock h)) h in
    match revoked with
    | Err e => (h, Err e)
    | Ok _ => (with_h_smasters (delete token (h_smasters h)) h, Ok true)
    end.

(** ** Pairing *)

(** @src hub const ADMIN_SESSION_TTL_MS *)
Definition ADMIN_SESSION_TTL_MS : N := 12 * 60 * 60 * 1000.
(** @src hub const MIN_ADMIN_SESSION_TTL_MS *)
Definition MIN_ADMIN_SESSION_TTL_MS : N := 60 * 60 * 1000.
(** @src hub const MAX_ADMIN_SESSION_TTL_MS *)
Definition MAX_ADMIN_SESSION_TTL_MS : N := 365 * 24 * 60 * 60 * 1000.
(** @src hub const ADMIN_PAIRING_TTL_MS *)
Definition ADMIN_PAIRING_TTL_MS : N := 5 * 60 * 1000.

(** @src hub fn admin_pairing_code *)
Definition admin_pairing_code h : option string :=
  if str_is_empty (h_admin_token h) then None
  else if (h_clock h <? ap_expires_at_ms (h_admin_pairing h))%N
       then Some (ap_code (h_admin_pairing h)) else None.

(** @src hub fn rotate_admin_pairing_for *)
Definition rotate_admin_pairing_for (session_ttl_ms : N) h : Hub St * option (string * N) :=
  if str_is_empty (h_admin_token h) then (h, None)
  else
    let expires := sat_add64 (h_clock h) ADMIN_PAIRING_TTL_MS in
    let '(h, code) := secure_token "pair_" 16 h in
    let pairing := {| ap_code := code;
      ap_session_ttl_ms :=
        clamp session_ttl_ms MIN_ADMIN_SESSION_TTL_MS MAX_ADMIN_SESSION_TTL_MS;
      ap_expires_at_ms := expires |} in
    (with_h_admin_pairing pairing h, Some (code, expires)).

(** The next code, after a use or an expiry. *)
(** @src hub:1884-1888 consume_admin_pairing *)
Definition fresh_pairing h : Hub St :=
  let '(h, code) := secure_token "pair_" 16 h in
  with_h_admin_pairing {| ap_code := code; ap_session_ttl_ms := ADMIN_SESSION_TTL_MS;
    ap_expires_at_ms := sat_add64 (h_clock h) ADMIN_PAIRING_TTL_MS |} h.

(** The bytes of a string. *)
Fixpoint bytes (s : string) : list N :=
  match s with EmptyString => [] | String a s => N_of_ascii a :: bytes s end.

(** [difference |= a.get(i).unwrap_or(0) ^ b.get(i).unwrap_or(0)] over the
    longer length, on top of the difference of the lengths. *)
(** @src hub:1891-1898 consume_admin_pairing *)
Definition code_difference (a b : list N) : N :=
  foldl (fun difference index =>
           N.lor difference (N.lxor (default 0%N (a !! index)) (default 0%N (b !! index))))
    (N.lxor (N.of_nat (length a)) (N.of_nat (length b)))
    (seq 0 (Nat.max (length a) (length b))).

(** @src hub fn consume_admin_pairing *)
Definition consume_admin_pairing (candidate : string) h : Hub St * option N :=
  if str_is_empty (h_admin_token h) then (h, None)
  else
    let current := h_admin_pairing h in
    if (ap_expires_at_ms current <=? h_clock h)%N then (fresh_pairing h, None)
    else if negb (code_difference (bytes (ap_code current)) (bytes candidate) =? 0)%N
    then (h, None)
    else (fresh_pairing h, Some (ap_session_ttl_ms current)).

(** ** Join requests *)

(** @src hub const JOIN_CREATE_WINDOW_MS *)
Definition JOIN_CREATE_WINDOW_MS : N := 60000.
(** @src hub const JOIN_CREATE_MAX_IN_WINDOW *)
Definition JOIN_CREATE_MAX_IN_WINDOW : nat := 30.

(** The buckets once old attempts and empty buckets are reaped. *)
(** @src hub:1956-1959 join_request_rate_ok *)
Definition reaped_times h : gmap IpAddr (list N) :=
  map_imap (fun _ times =>
      match filter (fun t => (sat_sub (h_clock h) t < JOIN_CREATE_WINDOW_MS)%N) times with
      | [] => None
      | recent => Some recent
      end) (h_join_create_times h).

(** @src hub fn join_request_rate_ok *)
Definition join_request_rate_ok (ip : IpAddr) h : Hub St * bool :=
  let by_ip := reaped_times h in
  let times := default [] (by_ip !! ip) in
  if (JOIN_CREATE_MAX_IN_WINDOW <=? length times)%nat
  then (with_h_join_create_times (<[ip := times]> by_ip) h, false)
  else (with_h_join_create_times (<[ip := times ++ [h_clock h]]> by_ip) h, true).

(** The announcement of a join request in the home room; it is shown even when
    the write fails. *)
(** @src hub fn announce_join_request *)
Definition announce_join_request `{MessageStore St} (name kind : string) h : Hub St :=
  let room := h_home_room h in
  let '(mode, settings) :=
    match h_rooms h !! room with
    | Some r => (r_mode r, r_settings r)
    | None => (Free, h_default_settings h)
    end in
  let '(h, id) := fetch_next_id h in
  let msg := {|
    msg_id := id; msg_room := room; msg_sender := "loca"; msg_sender_type := User;
    msg_target := or_else (rs_lead settings) (Some "all"%string);
    msg_text := name +:+ " (" +:+ kind
      +:+ ") wants to join — approve or deny it in Join requests.";
    msg_kind := Announce; msg_reply_to := None; msg_reply_to_sender := None;
    msg_ts := h_clock h; msg_attachments := [] |} in
  let '(h, _) := run_store (insert_message_with_room msg mode settings None) h in
  let h := room_mut room h in
  let r := entry_room room h in
  put_room room (send (SF_Msg msg) (with_r_history (r_history r ++ [msg]) r)) h.
End membership.
