(* ===== verification/Joins.v ===== *)
(** * Admission stock and join requests

    crates/server/src/hub.rs: the master mints single-use admission rights, an
    outside agent asks to join, and the approval of its request spends one right
    and issues a membership.  The tables and the approval transaction are the
    store's ([AdmissionStore]; their SQL is in Admission.v).  Davets and second
    masters under their management ids, and the credentials of a profile, follow. *)

From S2P Require Import Prelude Text Net Protocol StoreApi Hub Access Membership.

(** @src hub enum Approve *)
Inductive Approve : Type :=
  | Approved
  | AlreadyDecided
  | ApproveNameTaken
  | NoStock
  | ApproveFailed.
#[global] Instance Approve_eq_dec : EqDecision Approve.
Proof. solve_decision. Defined.

(** @src hub enum JoinRequestCreate *)
Inductive JoinRequestCreate : Type :=
  | JoinCreated (request_id request_secret : string)
  | JoinNameTaken
  | JoinBacklogFull.

Section joins.
Context {St : Type} `{Csprng} `{StoreBase St} `{IdentityStore St} `{MessageStore St}
  `{AdmissionStore St}.
Implicit Types h : Hub St.

(** [(0..count).map(|_| Self::secure_token(prefix, bytes))] *)
Fixpoint secure_tokens (prefix : string) (bytes count : nat) h : Hub St * list string :=
  match count with
  | O => (h, [])
  | S count =>
      let '(h, token) := secure_token prefix bytes h in
      let '(h, tokens) := secure_tokens prefix bytes count h in
      (h, token :: tokens)
  end.

(** How many rights were minted, how many exist, how many can be used. *)
(** @src hub fn mint_admission_stock *)
Definition mint_admission_stock (count : nat) (ttl_ms : N) h : Hub St * (N * N * N) :=
  let now := h_clock h in
  let expires_at := sat_add64 now ttl_ms in
  let minted_by := default "master"%string (pi_id <$> active_master_principal (h_store h)) in
  let '(h, ids) := secure_tokens "adm_" 24 count h in
  let '(h, minted) := run_store (mint_admission_rights ids minted_by now expires_at) h in
  let minted := match minted with Ok n => N.of_nat n | Err _ => 0%N end in
  let '(total, available) := admission_stock_counts (h_store h) now in
  (h, (minted, total, available)).

(** @src hub fn admission_stock_summary *)
Definition admission_stock_summary h : N * N := admission_stock_counts (h_store h) (h_clock h).

(** @src hub const MAX_PENDING_JOIN_REQUESTS *)
Definition MAX_PENDING_JOIN_REQUESTS : nat := 200.

(** The insertion's result is dropped: the request is announced and answered
    either way. *)
(** @src hub fn create_join_request *)
Definition create_join_request (name kind : string) (ip : IpAddr) h
    : Hub St * JoinRequestCreate :=
  let '(h, rate_ok) := join_request_rate_ok ip h in
  if negb rate_ok then (h, JoinBacklogFull)
  else if negb (bool_decide (member_by_name h name = None))
          || has_pending_join_request_named (h_store h) name
  then (h, JoinNameTaken)
  else if (MAX_PENDING_JOIN_REQUESTS
           <=? length (store_list_pending_join_requests (h_store h)))%nat
  then (h, JoinBacklogFull)
  else
    let '(h, request_id) := secure_token "jr_" 12 h in
    let '(h, request_secret) := secure_token "jrs_" 24 h in
    let '(h, _) :=
      run_store (store_create_join_request request_id request_secret name kind (h_clock h)) h in
    (announce_join_request name kind h, JoinCreated request_id request_secret).

(** @src hub fn join_request_view *)
Definition join_request_view h (id secret : string) : option (string * string * bool) :=
  store_join_request_view (h_store h) id secret.

(** @src hub fn list_pending_join_requests *)
Definition list_pending_join_requests h : list (string * string * string * N) :=
  store_list_pending_join_requests (h_store h).

(** @src hub fn approve_join_request *)
Definition approve_join_request (id by_ : string) h : Hub St * Approve :=
  let '(h, token) := new_invite_token h in
  let mb_token := retag token "mb_" in
  let '(h, txn) := run_store (approve_join_request_atomic id mb_token by_ (h_clock h)) h in
  match txn with
  | TxnCommitted member =>
      (with_h_members (<[Protocol.mb_token member := member]> (h_members h)) h, Approved)
  | TxnAlreadyDecided => (h, AlreadyDecided)
  | TxnNameTaken => (h, ApproveNameTaken)
  | TxnNoStock => (h, NoStock)
  | TxnFailed => (h, ApproveFailed)
  end.

(** @src hub fn deny_join_request *)
Definition deny_join_request (id by_ : string) h : Hub St * bool :=
  run_store (store_deny_join_request id by_ (h_clock h)) h.

(** @src hub fn claim_join_request_bootstrap *)
Definition claim_join_request_bootstrap (id secret : string) h : Hub St * option string :=
  run_store (store_claim_join_request_bootstrap id secret (h_clock h)) h.

(** @src hub fn ack_join_request_bootstrap *)
Definition ack_join_request_bootstrap (id secret : string) h : Hub St * option bool :=
  run_store (store_ack_join_request_bootstrap id secret (h_clock h)) h.
End joins.

(** ** Management references and profile credentials *)

Section credentials.
Context {St : Type} `{Digest} `{Csprng} `{StoreBase St} `{IdentityStore St}
  `{CredentialStore St}.
Implicit Types h : Hub St.

(** ** References *)

(** @src hub fn invite_management_id *)
Definition invite_management_id (token : string) : string :=
  hashed_id "ivid_" ("invite:" +:+ token).

(** A davet under its token or its management id. *)
(** @src hub fn invite_by_ref *)
Definition invite_by_ref h (reference : string) : option Invite :=
  List.find (fun invite => bool_decide (inv_token invite = reference)
                           || bool_decide (invite_management_id (inv_token invite) = reference))
    (values (h_invites h)).

(** @src hub fn revoke_invite_ref *)
Definition revoke_invite_ref (reference : string) h : Hub St * dbres bool :=
  match invite_by_ref h reference with
  | Some invite => revoke_invite (inv_token invite) h
  | None => (h, Ok false)
  end.

(** @src hub fn smaster_management_id *)
Definition smaster_management_id (token : string) : string :=
  hashed_id "smid_" ("smaster:" +:+ token).

(** @src hub fn revoke_smaster_ref *)
Definition revoke_smaster_ref (reference : string) h : Hub St * dbres bool :=
  match List.find (fun token => bool_decide (token = reference)
                                || bool_decide (smaster_management_id token = reference))
          (keys (h_smasters h)) with
  | Some token => revoke_smaster token h
  | None => (h, Ok false)
  end.

(** @src hub fn credential_id_for_request *)
Definition credential_id_for_request h (credential session : option string) : option string :=
  or_else (session ≫= (fun secret => credential_id_for_session (h_store h) secret (h_clock h)))
    (credential ≫= credential_id_for_secret (h_store h)).

(** @src hub fn create_profile_credential *)
Definition create_profile_credential (principal_id label : string) h
    : Hub St * result (CredentialSummary * string) CredentialError :=
  let '(h, secret) := secure_token "ak_" 32 h in
  let '(h, made) := run_store (create_credential principal_id label secret (h_clock h)) h in
  (h, match made with Ok summary => Ok (summary, secret) | Err e => Err e end).

(** The sessions minted from the credential go with it, and so does the
    in-memory key of a second master. *)
(** @src hub fn revoke_profile_credential *)
Definition revoke_profile_credential (principal_id credential_id : string) h
    : Hub St * result unit CredentialError :=
  let legacy := legacy_credential_source (h_store h) principal_id credential_id in
  let '(h, revoked) :=
    run_store (revoke_credential principal_id credential_id (h_clock h)) h in
  match revoked with
  | Err e => (h, Err e)
  | Ok _ =>
      let h := with_h_sessions
        (filter (fun p => session_uses_credential (h_store h) p.1 credential_id = false)
           (h_sessions h)) h in
      (match legacy with
       | Some (role, token) =>
           if decide (role = "smaster"%string)
           then with_h_smasters (delete token (h_smasters h)) h else h
       | None => h
       end, Ok tt)
  end.
End credentials.
