(* ===== verification/Rooms.v ===== *)
(** * Running a room

    crates/server/src/hub.rs: reactions, the lead, the chat mode, settings,
    moderation, sealing, the expiry of live mode, the creation of a room and
    its operator, the journal and the notes. *)

From Stdlib Require Import Ascii.
From S2P Require Import Prelude Protocol StoreApi Hub Work Access Membership.

(** @src hub enum OperatorAssignmentError *)
Inductive OperatorAssignmentError : Type :=
  | OaeAuthorityRequired
  | OaeEmptySeatRequired
  | OaeMasterProtected
  | OaePrincipalNotFound
  | OaePrincipalMustBeHuman
  | OaeNotFound
  | OaeConflict
  | OaeStorage.

(** @src hub fn map_loca_operator_error *)
Definition map_loca_operator_error (e : LocaOperatorError) : OperatorAssignmentError :=
  match e with
  | LoePrincipalNotFound | LoeAppointerNotFound => OaePrincipalNotFound
  | LoePrincipalMustBeHuman => OaePrincipalMustBeHuman
  | LoeAppointerNotAuthorized => OaeAuthorityRequired
  | LoeEmptySeatRequired => OaeEmptySeatRequired
  | LoeNotFound => OaeNotFound
  | LoeConflict => OaeConflict
  | LoeStorage => OaeStorage
  end.

(** [result.map_err(f)] *)
Definition map_err {T E F} (f : E -> F) (r : result T E) : result T F :=
  match r with Ok t => Ok t | Err e => Err (f e) end.

Definition allowed_emoji : list string := ["✓"; "✦"; "!"; "♥"]%string.

(** The settings a request asks for. *)
(** @src hub:3085-3138 set_settings *)
Definition merge_settings (req : SetSettings) (s : RoomSettings) : RoomSettings :=
  let keep {A} (o : option A) (a : A) := default a o in
  let idle := match ss_turn_idle_ms req with
              | Some idle => clamp idle 100 30000 | None => rs_turn_idle_ms s end in
  let max_wait := match ss_turn_max_wait_ms req with
                  | Some max_wait => clamp max_wait 100 60000
                  | None => rs_turn_max_wait_ms s end in
  {| rs_lead := rs_lead s;
     rs_rate_limit := keep (ss_rate_limit req) (rs_rate_limit s);
     rs_rate_window_secs := match ss_rate_window_secs req with
                            | Some w => N.max w 1 | None => rs_rate_window_secs s end;
     rs_live := keep (ss_live req) (rs_live s);
     rs_archived := keep (ss_archived req) (rs_archived s);
     rs_live_timeout_secs := keep (ss_live_timeout_secs req) (rs_live_timeout_secs s);
     rs_operators := keep (ss_operators req) (rs_operators s);
     rs_turn_max_messages := match ss_turn_max_messages req with
                             | Some max => clamp max 1 16
                             | None => rs_turn_max_messages s end;
     rs_turn_idle_ms := idle;
     rs_turn_max_wait_ms := N.max max_wait idle;
     rs_care_wait_secs := keep (ss_care_wait_secs req) (rs_care_wait_secs s);
     rs_care_cooldown_secs := keep (ss_care_cooldown_secs req) (rs_care_cooldown_secs s);
     rs_care_max_attempts := match ss_care_max_attempts req with
                             | Some value => clamp value 1 10
                             | None => rs_care_max_attempts s end;
     rs_care_context_messages := match ss_care_context_messages req with
                                 | Some value => clamp value 0 20
                                 | None => rs_care_context_messages s end;
     rs_care_recipient := keep (ss_care_recipient req) (rs_care_recipient s);
     rs_care_goal_secs := keep (ss_care_goal_secs req) (rs_care_goal_secs s);
     rs_care_task_secs := keep (ss_care_task_secs req) (rs_care_task_secs s);
     rs_care_silence_secs := keep (ss_care_silence_secs req) (rs_care_silence_secs s) |}.

(** An out-of-range turn starts over. *)
(** @src hub:3010-3014 set_mode *)
Definition normalize_mode (mode : ChatMode) : ChatMode :=
  match mode with
  | RoundRobin order turn =>
      if bool_decide (order = []) || (length order <=? turn)%nat
      then RoundRobin order 0 else mode
  | _ => mode
  end.

(** @src hub fn mod_state *)
Definition room_mod_state (r : Room) : ModState :=
  {| ms_muted := sort_strings (elements (r_muted r));
     ms_banned := sort_strings (elements (r_banned r)) |}.

(** [members.retain(|_id, (n, _, _)| n != name)] *)
Definition drop_seats (name : string) (r : Room) : Room :=
  with_r_members (filter (fun p : string * (string * SenderType * N) => p.2.1.1 <> name)
                    (r_members r)) r.

Section rooms.
Context {St : Type} `{Csprng} `{StoreBase St} `{IdentityStore St}.
Implicit Types h : Hub St.

(** ** Reactions *)

(** @src hub fn set_reaction *)
Definition set_reaction `{MessageStore St} (room : string) (message_id : N)
    (principal reactor emoji : string) (active : bool) h
    : Hub St * result MessageReactionEvent ReactionReject :=
  if negb (bool_decide (emoji ∈ allowed_emoji)) then (h, Err ReactInvalidEmoji)
  else if negb (is_writable h room) then (h, Err ReactReadOnly)
  else
    let owner : result string ReactionReject :=
      match message_owner (h_store h) room message_id with
      | Err _ => Err ReactStorage
      | Ok owner =>
          ok_or
            (or_else owner
               (match h_rooms h !! room with
                | Some r => msg_sender <$>
                    List.find (fun m => (msg_id m =? message_id)%N) (r_history r)
                | None => None
                end)) ReactNotFound
      end in
    match owner with
    | Err e => (h, Err e)
    | Ok owner =>
        if decide (owner = reactor) then (h, Err ReactOwnMessage)
        else
          let at_ := h_clock h in
          let '(h, reactions) :=
            run_store (set_message_reaction room message_id principal reactor emoji
                         active at_) h in
          match reactions with
          | Err _ => (h, Err ReactStorage)
          | Ok reactions =>
              let actors :=
                match List.find (fun r => (mr_message_id r =? message_id)%N
                                   && bool_decide (mr_emoji r = emoji)) reactions with
                | Some r => mr_actors r
                | None => if active then [reactor] else []
                end in
              let event := {|
                mre_message_id := message_id; mre_emoji := emoji; mre_actors := actors;
                mre_owner := owner; mre_reactor := reactor; mre_active := active;
                mre_ts := at_ |} in
              (match h_rooms h !! room with
               | Some r => put_room room (send (SF_Reaction event) r) h
               | None => h
               end, Ok event)
          end
    end.

(** ** Lead, mode, settings *)

(** @src hub fn settings *)
Definition settings h (room : string) : RoomSettings :=
  match h_rooms h !! room with Some r => r_settings r | None => h_default_settings h end.

(** @src hub fn mode *)
Definition mode h (room : string) : ChatMode :=
  match h_rooms h !! room with Some r => r_mode r | None => Free end.

(** @src hub fn set_lead *)
Definition set_lead `{MessageStore St} (room : string) (lead : option string) (by_ : string) h
    : Hub St * result RoomSettings LeadError :=
  if is_deleted h room then (h, Ok (settings h room))
  else
    let mode := mode h room in
    let settings := settings h room in
    if bool_decide (lead = None)
       && match h_rooms h !! room with
          | Some r => any_value goal_is_active (r_goals r)
          | None => false
          end
    then (h, Err LeadActiveGoal)
    else
      let settings := with_rs_lead lead settings in
      let '(h, id) := fetch_next_id h in
      let msg := {|
        msg_id := id; msg_room := room; msg_sender := "loca"; msg_sender_type := User;
        msg_target := or_else lead (Some "all"%string);
        msg_text := by_ +:+ " set @lead " +:+ default "none" lead +:+ ".";
        msg_kind := Announce; msg_reply_to := None; msg_reply_to_sender := None;
        msg_ts := h_clock h; msg_attachments := [] |} in
      let '(h, written) := run_store (insert_message_with_room msg mode settings None) h in
      match written with
      | Err _ => (h, Err LeadStorage)
      | Ok _ =>
          let h := room_mut room h in
          let r := with_r_settings settings (entry_room room h) in
          let r := with_r_history (r_history r ++ [msg]) r in
          (put_room room (send (SF_Msg msg) (send (SF_Settings settings) r)) h, Ok settings)
      end.

(** @src hub fn set_mode *)
Definition set_mode `{RoomStore St} (room : string) (mode' : ChatMode) h
    : Hub St * dbres ChatMode :=
  if is_deleted h room then (h, Ok (mode h room))
  else
    let mode' := normalize_mode mode' in
    let h := room_mut room h in
    let r := entry_room room h in
    let '(h, saved) := run_store (save_room room mode' (r_settings r)) h in
    match saved with
    | Err e => (h, Err e)
    | Ok _ => (put_room room (send (SF_Mode mode') (with_r_mode mode' r)) h, Ok mode')
    end.

(** @src hub fn set_settings *)
Definition set_settings `{RoomStore St} (room : string) (req : SetSettings) h
    : Hub St * dbres RoomSettings :=
  if is_deleted h room then (h, Err DbError)
  else
    let h := room_mut room h in
    let r := entry_room room h in
    let s := merge_settings req (r_settings r) in
    let was_archived := rs_archived (r_settings r) in
    let '(h, saved) := run_store (save_room room (r_mode r) s) h in
    match saved with
    | Err e => (h, Err e)
    | Ok _ =>
        let r := if negb was_archived && rs_archived s then with_r_care_marks ∅ r else r in
        let r := if bool_decide (ss_live req = Some true)
                 then with_r_last_msg_ms (h_clock h) r else r in
        (put_room room (send (SF_Settings s) (with_r_settings s r)) h, Ok s)
    end.

(** @src hub fn control *)
Definition control (room cmd : string) h : Hub St :=
  match h_rooms h !! room with
  | Some r => put_room room (send (SF_Control cmd) r) h
  | None => h
  end.

(** @src hub fn typing *)
Definition typing (room name : string) (on : bool) h : Hub St :=
  match h_rooms h !! room with
  | Some r => put_room room (send (SF_Typing name on) r) h
  | None => h
  end.

(** ** Moderation *)

(** @src hub fn mod_state *)
Definition mod_state h (room : string) : ModState :=
  match h_rooms h !! room with
  | Some r => room_mod_state r
  | None => mkModState [] []
  end.

(** What the store does before the room changes. *)
(** @src hub:3212-3221 moderate *)
Definition moderate_store (room : string) (action : ModAction) (name : string) h
    : Hub St * dbres unit :=
  match action with
  | Mute => run_store (set_ban room name "mute" (h_clock h)) h
  | Unmute => run_store (clear_ban room name "mute") h
  | Ban =>
      let '(h, banned) := run_store (set_ban room name "ban" (h_clock h)) h in
      match banned with
      | Err e => (h, Err e)
      | Ok _ => revoke_invites_for room name h
      end
  | Unban => run_store (clear_ban room name "ban") h
  | Kick | Release => revoke_invites_for room name h
  end.

(** What the action does to the room. *)
(** @src hub:3224-3292 moderate *)
Definition moderate_room (action : ModAction) (name : string) (r : Room) : Room :=
  let roster r := send (SF_Members (member_list r)) r in
  let announce r := send (SF_Mod (room_mod_state r)) r in
  match action with
  | Mute => announce (with_r_muted ({[name]} ∪ r_muted r) r)
  | Unmute => announce (with_r_muted (r_muted r ∖ {[name]}) r)
  | Kick | Release => roster (drop_seats name (send (SF_Kicked name false) r))
  | Ban =>
      let r := drop_seats name (with_r_banned ({[name]} ∪ r_banned r) r) in
      roster (send (SF_Kicked name true) r)
  | Unban => announce (with_r_banned (r_banned r ∖ {[name]}) r)
  end.

(** @src hub fn moderate *)
Definition moderate (room : string) (action : ModAction) (name : string) h
    : Hub St * dbres ModState :=
  if is_deleted h room then (h, Ok (mod_state h room))
  else
    let '(h, stored) := moderate_store room action name h in
    match stored with
    | Err e => (h, Err e)
    | Ok _ =>
        let h := room_mut room h in
        let h := put_room room (moderate_room action name (entry_room room h)) h in
        (h, Ok (mod_state h room))
    end.

(** ** Sealing and live mode *)

(** @src hub fn delete_room *)
Definition delete_room `{RoomStore St} (room : string) h : Hub St * result bool DeleteReject :=
  match h_rooms h !! room with
  | None => (h, Ok false)
  | Some r =>
      if negb (rs_archived (r_settings r)) then (h, Err DelNotArchived)
      else
        let '(h, sealed) := run_store (seal_room room (h_clock h)) h in
        match sealed with
        | Err _ => (h, Err DelStorage)
        | Ok _ =>
            let h := with_h_rooms (delete room (h_rooms h)) h in
            (with_h_deleted ({[room]} ∪ h_deleted h) h, Ok true)
        end
  end.

(** Silent past its timeout. *)
(** @src hub:3355-3359 expire_live *)
Definition live_expired (now : N) (r : Room) : bool :=
  let t := rs_live_timeout_secs (r_settings r) in
  rs_live (r_settings r) && (0 <? t)%N && (0 <? r_last_msg_ms r)%N
  && (t * 1000 <? sat_sub now (r_last_msg_ms r))%N.

(** The body of the sweep. *)
(** @src hub:3354-3376 expire_live *)
Definition expire_room_live `{RoomStore St} (now : N) h (name : string) : Hub St :=
  match h_rooms h !! name with
  | None => h
  | Some r =>
      if live_expired now r then
        let t := rs_live_timeout_secs (r_settings r) in
        let s := with_rs_live false (r_settings r) in
        let r := with_r_settings s r in
        let r := send (SF_Settings s) r in
        let r := send (SF_Control ("live-expired:" +:+ dec t)) r in
        let '(h, saved) := run_store (save_room name (r_mode r) s) h in
        match saved with
        | Err _ => put_room name (with_r_settings (with_rs_live true s) r) h
        | Ok _ => put_room name r h
        end
      else h
  end.

(** @src hub fn expire_live *)
Definition expire_live `{RoomStore St} h : Hub St :=
  foldl (expire_room_live (h_clock h)) h (keys (h_rooms h)).

(** ** Rooms and their operator *)

(** @src hub fn create_loca *)
Definition create_loca `{RoomStore St} `{OperatorStore St} (room : string)
    (actor : RequestAuthority) h
    : Hub St * result (option LocaOperatorAssignment) OperatorAssignmentError :=
  if negb (is_building_admin actor) then (h, Err OaeAuthorityRequired)
  else if is_deleted h room then (h, Err OaeConflict)
  else if room_exists h room then (h, Err OaeConflict)
  else
    let '(h, assignment) :=
      if is_persistent (h_store h) && negb (admin_open h) then
        match ra_principal_id actor with
        | None => (h, Err OaeAuthorityRequired)
        | Some founder =>
            let '(h, made) :=
              run_store (create_room_with_operator room (h_default_settings h) founder
                           (h_clock h)) h in
            (h, match made with
                | Ok a => Ok (Some a) | Err e => Err (map_loca_operator_error e) end)
        end
      else
        let '(h, saved) := run_store (save_room room Free (h_default_settings h)) h in
        (h, match saved with Ok _ => Ok None | Err _ => Err OaeStorage end) in
    match assignment with
    | Err e => (h, Err e)
    | Ok a => (put_room room (room_with Free (h_default_settings h) 1) h, Ok a)
    end.

(** @src hub fn appoint_loca_operator *)
Definition appoint_loca_operator `{OperatorStore St} (room target : string)
    (actor : RequestAuthority) h
    : Hub St * result LocaOperatorAssignment OperatorAssignmentError :=
  if negb (is_building_admin actor) then (h, Err OaeAuthorityRequired)
  else
    match ra_principal_id actor with
    | None => (h, Err OaeAuthorityRequired)
    | Some actor_id =>
        let '(h, made) :=
          run_store (store_appoint_loca_operator room target actor_id (h_clock h)) h in
        (h, map_err map_loca_operator_error made)
    end.

(** A second master undoes only appointments of its own. *)
(** @src hub fn revoke_loca_operator *)
Definition revoke_loca_operator `{OperatorStore St} (room : string)
    (actor : RequestAuthority) h
    : Hub St * result LocaOperatorAssignment OperatorAssignmentError :=
  if negb (is_building_admin actor) then (h, Err OaeAuthorityRequired)
  else
    match ra_principal_id actor with
    | None => (h, Err OaeAuthorityRequired)
    | Some actor_id =>
        match loca_operator (h_store h) room with
        | None => (h, Err OaeNotFound)
        | Some current =>
            if bool_decide (ra_building_role actor = Some RoleSmaster)
               && (negb (bool_decide (loa_appointed_by_role current = RoleSmaster))
                   || negb (bool_decide (loa_appointed_by_principal_id current = actor_id)))
            then (h, Err OaeMasterProtected)
            else
              let '(h, made) :=
                run_store (store_revoke_loca_operator room (loa_principal_id current)
                             (h_clock h)) h in
              (h, map_err map_loca_operator_error made)
        end
    end.

(** @src hub fn is_loca_operator *)
Definition is_loca_operator (room : string) (admin_token session_token : option string)
    (name : string) h : Hub St * bool :=
  let '(h, authority) := resolve_authority admin_token session_token h in
  (h,
   if is_building_admin authority then true
   else if admin_open h then true
   else
     match ra_principal_id authority, loca_operator (h_store h) room with
     | Some principal_id, Some assignment =>
         bool_decide (loa_principal_id assignment = principal_id)
     | _, _ =>
         if is_persistent (h_store h) then false
         else
           match h_rooms h !! room with
           | Some r => bool_decide (name ∈ rs_operators (r_settings r))
           | None => false
           end
     end).

(** ** Journal and notes *)

(** @src hub fn append_journal *)
Definition append_journal `{RoomStore St} (room by_ : string) (by_type : SenderType)
    (text : string) h : Hub St * dbres JournalEntry :=
  let id := match h_rooms h !! room with Some r => r_next_journal_id r | None => 1%N end in
  let entry := {| je_id := id; je_room := room; je_by := by_; je_by_type := by_type;
                  je_text := text; je_at := h_clock h |} in
  let '(h, written) := run_store (store_append_journal entry) h in
  match written with
  | Err e => (h, Err e)
  | Ok _ =>
      let h := room_mut room h in
      let r := with_r_next_journal_id (wrap_add64 id 1) (entry_room room h) in
      let r := with_r_journal (r_journal r ++ [entry]) r in
      (put_room room (send (SF_Journal entry) r) h, Ok entry)
  end.

(** @src hub fn create_note *)
Definition create_note `{RoomStore St} (room : string) (req : CreateNote) h
    : Hub St * result Note NoteError :=
  let known := match h_rooms h !! room with
               | Some r => negb (bool_decide (r_notes r !! cn_key req = None))
               | None => false end in
  if known then (h, Err NoteExists)
  else
    let rev := match h_rooms h !! room with Some r => r_next_rev r | None => 1%N end in
    let note := {|
      note_key := cn_key req; note_title := cn_title req; note_body := cn_body req;
      note_can_write := cn_can_write req; note_updated_by := cn_by req;
      note_updated_at := h_clock h; note_rev := rev |} in
    let '(h, written) := run_store (upsert_note room note) h in
    match written with
    | Err _ => (h, Err NoteStorage)
    | Ok _ =>
        let h := room_mut room h in
        let r := with_r_next_rev (wrap_add64 rev 1) (entry_room room h) in
        let r := with_r_notes (<[cn_key req := note]> (r_notes r)) r in
        (put_room room (send (SF_Note note) r) h, Ok note)
    end.

(** The note after the request; only an operator moves [can_write]. *)
(** @src hub:3956-3971 update_note *)
Definition updated_note (req : UpdateNote) (is_operator : bool) (now rev : N) (n : Note)
    : Note := {|
  note_key := note_key n;
  note_title := default (note_title n) (un_title req);
  note_body := default (note_body n) (un_body req);
  note_can_write :=
    if is_operator then default (note_can_write n) (un_can_write req) else note_can_write n;
  note_updated_by := un_by req; note_updated_at := now; note_rev := rev |}.

(** @src hub fn update_note *)
Definition update_note `{RoomStore St} (room key : string) (req : UpdateNote)
    (is_operator : bool) h : Hub St * result Note NoteError :=
  match h_rooms h !! room with
  | None => (h, Err NoteNotFound)
  | Some r =>
      match r_notes r !! key with
      | None => (h, Err NoteNotFound)
      | Some previous =>
          let allowed := bool_decide (note_can_write previous = [])
                         || bool_decide (un_by req ∈ note_can_write previous) in
          let updated := updated_note req is_operator (h_clock h) (r_next_rev r) previous in
          let '(h, written) := run_store (replace_note room previous updated) h in
          match written with
          | Err _ => (h, Err NoteStorage)
          | Ok _ =>
              let r := with_r_next_rev (wrap_add64 (r_next_rev r) 1) r in
              let r := with_r_notes (<[key := updated]> (r_notes r)) r in
              let r := send (SF_Note updated) r in
              let r := if allowed then r
                       else send (SF_NoteWarn key (un_by req) (note_can_write previous)) r in
              (put_room room r h, Ok updated)
          end
      end
  end.

(** @src hub fn delete_note *)
Definition delete_note `{RoomStore St} (room key : string) h : Hub St * dbres bool :=
  match h_rooms h !! room with
  | None => (h, Ok false)
  | Some r =>
      if bool_decide (r_notes r !! key = None) then (h, Ok false)
      else
        let '(h, deleted) := run_store (store_delete_note room key) h in
        match deleted with
        | Err e => (h, Err e)
        | Ok _ =>
            let r := with_r_notes (delete key (r_notes r)) r in
            (put_room room (send (SF_Control ("note-deleted:" +:+ key)) r) h, Ok true)
        end
  end.
End rooms.
