(* ===== verification/AccessFacts.v ===== *)
(** * Properties of access and membership

    The door decision, the seat of a credential, the life of a session, what
    dies with a membership, how many davets a room has, and the one-use pairing
    code. *)

From Stdlib Require Import Ascii.
From S2P Require Import Prelude Protocol StoreApi Hub Ledger Access Membership.

(** ** The door *)

Section door.
Context {St : Type} `{StoreBase St} `{IdentityStore St}.
Implicit Types h : Hub St.

(** A ban closes the door: whoever neither presents a credential of
    building authority nor holds an admin session is turned away as banned
    when the name they bear at the door is banned from the room, whatever
    davet, session, appointment or building key they hold. *)
Theorem banned_are_turned_away h room admin_tok davet_tok session name_hint n :
  (is_building_admin (credential_authority h admin_tok) = false \/ admin_tok = None) ->
  (forall s, session = Some s -> sess_admin s = false) ->
  ban_name h admin_tok davet_tok session name_hint = Some n ->
  is_banned h room n = true ->
  enter_decision h room admin_tok davet_tok session name_hint = Banned.
Proof.
  intros Hadmin Hsession Hname Hban. unfold enter_decision. rewrite Hname, Hban.
  assert (is_building_admin (credential_authority h admin_tok)
          && negb (bool_decide (admin_tok = None)) = false) as ->.
  { destruct Hadmin as [->| ->]; [done|]. by rewrite andb_false_r. }
  destruct session as [s|]; [|done]. by rewrite (Hsession s eq_refl).
Qed.

(** A building whose door opens to davets only. *)
Record davet_only h : Prop := {
  do_admin : h_admin_token h <> ""%string;
  do_no_key : h_room_token h = ""%string;
  do_invite : h_require_invite h = true;
}.

Lemma davet_only_is_member h token :
  davet_only h -> is_member h token = bool_decide (token = Some (h_admin_token h)).
Proof.
  intros [Ha Hk Hi]. unfold is_member, holds_admin_token, admin_open, str_is_empty.
  by rewrite Hk, Hi, (bool_decide_eq_false_2 _ Ha).
Qed.

(** A davet opens one loca and no other: in a building that admits by
    davet only, a caller who presents nothing but a davet token is allowed into
    a room if and only if the token is a live davet for that very room and its
    bearer is not banned there. *)
Theorem davet_opens_one_loca h room t :
  davet_only h -> t <> h_admin_token h ->
  (forall m, member_for_credential h (Some t) = Some m -> mb_token m <> h_admin_token h) ->
  enter_decision h room None (Some t) None None = Allowed <->
  exists inv, invite_by_token h t = Some inv /\ inv_room inv = room /\
    is_banned h room (inv_name inv) = false.
Proof.
  intros Hd Ht Hm. pose proof Hd as [Hadm _ _].
  assert (Hauth : credential_authority h None = no_authority).
  { unfold credential_authority, admin_open, str_is_empty.
    by rewrite (bool_decide_eq_false_2 _ Hadm). }
  unfold enter_decision, ban_name. rewrite Hauth. cbn.
  assert (Hmay : may_enter h room (Some t) = true <->
    exists inv, invite_by_token h t = Some inv /\ inv_room inv = room).
  { unfold may_enter, invite_for. cbn.
    assert (Hclosed : (if credential_is_revoked (h_store h) t then false
      else match member_for_credential h (Some t) with
           | Some member => is_member h (Some (mb_token member))
           | None => is_member h (Some t) end) = false).
    { destruct (credential_is_revoked _ _); [done|].
      destruct (member_for_credential h (Some t)) as [m|] eqn:E;
        rewrite davet_only_is_member by done; apply bool_decide_eq_false_2; [|congruence].
      specialize (Hm m eq_refl). congruence. }
    destruct (invite_by_token h t) as [inv|]; [|rewrite Hclosed; naive_solver].
    destruct (decide (inv_room inv = room)) as [E|E]; [naive_solver|].
    rewrite Hclosed. naive_solver. }
  destruct (invite_by_token h t) as [inv|] eqn:Einv; cbn.
  - destruct (is_banned h room (inv_name inv)) eqn:Eban.
    + split; [done|]. intros (inv' & [= <-] & _ & ?). congruence.
    + destruct (may_enter h room (Some t)) eqn:Em.
      * destruct (proj1 Hmay eq_refl) as (? & [= <-] & ?). split; [eauto|done].
      * split; [done|]. intros (inv' & [= <-] & Hroom & _).
        discriminate (proj2 Hmay (ex_intro _ inv (conj eq_refl Hroom))).
  - destruct (may_enter h room (Some t)) eqn:Em.
    + by destruct (proj1 Hmay eq_refl) as (? & ? & _).
    + split; [done|]. naive_solver.
Qed.

(** ** Seats *)

(** The master's seat cannot be forged: the seat identity [@master] is given
    only to the bearer of the configured admin token and to an admin session;
    no display name, davet, membership or other session lands on it. *)
Theorem master_seat_unforgeable h admin_tok davet_tok session session_tok name :
  seat_identity h admin_tok davet_tok session session_tok name = "@master"%string ->
  holds_admin_token h admin_tok = true \/ exists s, session = Some s /\ sess_admin s = true.
Proof.
  unfold seat_identity, admin_seat.
  assert (Hdavet : davet_seat h davet_tok <> Some "@master"%string).
  { unfold davet_seat. destruct (_ ≫= _); [by destruct (str_is_empty _)|].
    by destruct (member_for_credential _ _). }
  assert (Hsession : session_seat session session_tok = Some "@master"%string ->
    exists s, session = Some s /\ sess_admin s = true).
  { unfold session_seat. destruct session as [s|]; [|done].
    destruct (sess_admin s) eqn:E; [by eauto|]. destruct (sess_member s); [done|].
    by destruct session_tok. }
  assert (Hrest : default ("name:" +:+ name)
      (or_else (davet_seat h davet_tok) (session_seat session session_tok)) = "@master"%string ->
    exists s, session = Some s /\ sess_admin s = true).
  { destruct (davet_seat h davet_tok); cbn; [congruence|].
    destruct (session_seat session session_tok); cbn; [intros ->; auto|done]. }
  destruct admin_tok as [t|]; [|by right; apply Hrest].
  destruct (smaster_name h (Some t)); [done|].
  destruct (holds_admin_token h (Some t)); [by left|by right; apply Hrest].
Qed.

(** One member is one seat: two davets of the same membership, whatever
    sessions and display names come with them, take the same seat, and a davet
    of another membership takes another one. *)
Theorem one_seat_per_member h t t' inv inv' session session' st st' name name' :
  invite_by_token h t = Some inv -> invite_by_token h t' = Some inv' ->
  inv_member inv <> ""%string -> inv_member inv' <> ""%string ->
  seat_identity h None (Some t) session st name
    = seat_identity h None (Some t') session' st' name' <->
  inv_member inv = inv_member inv'.
Proof.
  intros Hi Hi' Hne Hne'. unfold seat_identity, davet_seat. cbn. rewrite Hi, Hi'. cbn.
  unfold str_is_empty. rewrite !bool_decide_eq_false_2 by done. split; [|congruence].
  intros E. by injection E.
Qed.

(** ** Sessions *)

(** A session never outlives its expiry: an identity [session_identity]
    returns is the one filed under the token and has not expired by the hub's
    clock, and an expired token is removed, so that it resolves to nothing from
    then on. *)
Theorem session_never_outlives token h h' res :
  session_identity (Some token) h = (h', res) ->
  match res with
  | Some idy => h' = h /\ h_sessions h !! token = Some idy /\
      (sess_expires_at idy = 0%N \/ (h_clock h < sess_expires_at idy)%N)
  | None => h_sessions h' = delete token (h_sessions h) /\
      forall later, h_sessions later = h_sessions h' ->
        session_identity (Some token) later = (later, None)
  end.
Proof.
  unfold session_identity. destruct (h_sessions h !! token) as [idy|] eqn:E.
  - destruct (negb _ && _ && _).
    { intros [= <- <-]. split; [done|]. intros later ->. cbn. by rewrite lookup_delete_eq. }
    destruct (N.eqb_spec (sess_expires_at idy) 0) as [Hz|Hz]; cbn.
    { intros [= <- <-]. auto. }
    destruct (N.leb_spec (sess_expires_at idy) (h_clock h)).
    + destruct (sess_admin idy).
      * destruct (run_store _ _) as [h1 r] eqn:Hs. apply run_store_state in Hs as [-> _].
        intros [= <- <-]. split; [done|]. intros later ->. cbn. by rewrite lookup_delete_eq.
      * intros [= <- <-]. split; [done|]. intros later ->. cbn. by rewrite lookup_delete_eq.
    + intros [= <- <-]. auto.
  - intros [= <- <-]. split; [by rewrite delete_id|]. intros later ->. by rewrite E.
Qed.
End door.

(** ** Witnesses *)

(** A davet-only building with one member, seated in [lab] and banned from
    [attic]. *)
Definition door_hub : Hub unit :=
  with_h_members {["mb_1" := mkMembership "mb_1" "ada" "agent" 1 "root"]}
    (with_h_invites {["dv_1" := mkInvite "dv_1" "lab" "mb_1" "ada" "agent" 1 "root"]}
      (put_room "lab" (room_with Free room_settings_default 1)
        (put_room "attic" (with_r_banned {["ada"]} (room_with Free room_settings_default 1))
          (empty_hub tt)))).

Lemma banned_are_turned_away_witness :
  enter_decision door_hub "attic" None (Some "dv_1") None None = Banned.
Proof.
  apply (banned_are_turned_away door_hub "attic" None (Some "dv_1") None None "ada");
    try done. by right.
Defined.

Lemma davet_opens_one_loca_witness :
  enter_decision door_hub "lab" None (Some "dv_1") None None = Allowed <->
  exists inv, invite_by_token door_hub "dv_1" = Some inv /\ inv_room inv = "lab" /\
    is_banned door_hub "lab" (inv_name inv) = false.
Proof.
  apply (davet_opens_one_loca door_hub "lab" "dv_1"); try done.
Defined.

Lemma master_seat_unforgeable_witness :
  holds_admin_token door_hub (Some "root") = true \/
  exists s : SessionIdentity, None = Some s /\ sess_admin s = true.
Proof. by apply (master_seat_unforgeable door_hub (Some "root") None None None "x"). Defined.

Lemma one_seat_per_member_witness :
  seat_identity door_hub None (Some "dv_1") None None "a"
    = seat_identity door_hub None (Some "dv_1") None (Some "st") "b" <-> "mb_1" = "mb_1".
Proof.
  by apply (one_seat_per_member door_hub "dv_1" "dv_1"
    (mkInvite "dv_1" "lab" "mb_1" "ada" "agent" 1 "root")
    (mkInvite "dv_1" "lab" "mb_1" "ada" "agent" 1 "root")).
Defined.

Definition session_hub : Hub unit :=
  with_h_sessions {["st_1" :=
    mkSessionIdentity None RoleMaster "op" User None None true 900]} (empty_hub tt).
Lemma session_never_outlives_witness :
  h_sessions (session_identity (Some "st_1") session_hub).1
    = delete "st_1" (h_sessions session_hub).
Proof.
  apply (session_never_outlives "st_1" session_hub
    (session_identity (Some "st_1") session_hub).1 None). reflexivity.
Defined.

(** * Memberships, davets and pairing

    What a revoked membership leaves nothing of, how many davets a room has,
    and that a pairing code works once. *)

(** ** Counting in a map *)

Section counting.
Context `{Countable K} {V : Type} (f : V -> bool).
Implicit Types m : gmap K V.

(** The values a predicate selects, as a map. *)
Definition selected m : gmap K V := filter (fun p => f p.2 = true) m.

Lemma length_filter_values m : length (List.filter f (values m)) = size (selected m).
Proof.
  unfold selected. induction m as [|k v m Hk IH] using map_ind.
  { by rewrite map_filter_empty, map_size_empty. }
  assert (values (<[k:=v]> m) ≡ₚ v :: values m) as Hp
    by (unfold values; by rewrite map_to_list_insert).
  rewrite (filter_length_Permutation f _ _ Hp), map_filter_insert. cbn [List.filter snd].
  destruct (f v); [rewrite decide_True by done|rewrite decide_False by done].
  - rewrite map_size_insert_None; [cbn [length]; by rewrite IH|].
    apply map_lookup_filter_None. by left.
  - by rewrite delete_id, IH.
Qed.

Lemma selected_insert_size k v m : size (selected (<[k := v]> m)) <= S (size (selected m)).
Proof.
  unfold selected. rewrite map_filter_insert. destruct (decide _).
  - rewrite map_size_insert. destruct (_ !! _); unfold id; lia.
  - rewrite map_filter_delete, map_size_delete. destruct (_ !! _); unfold id; lia.
Qed.

Lemma selected_insert_other k v m :
  f v = false -> size (selected (<[k := v]> m)) <= size (selected m).
Proof.
  intros Hf. unfold selected. rewrite map_filter_insert, decide_False by (cbn; congruence).
  rewrite map_filter_delete, map_size_delete. destruct (_ !! _); unfold id; lia.
Qed.

Lemma selected_subseteq m m' : m ⊆ m' -> size (selected m) <= size (selected m').
Proof. intros Hm. by apply map_subseteq_size, map_filter_subseteq_mono. Qed.
End counting.

(** ** The davets of the building *)

Section davets.
Context {St : Type} `{Csprng} `{Digest} `{StoreBase St} `{IdentityStore St}.
Implicit Types h : Hub St.

(** Davets are filed under their token and memberships under theirs; a room has
    no more davets than seats; a member has at most one davet per room. *)
Record davets_inv h : Prop := {
  di_keyed : forall t i, h_invites h !! t = Some i -> inv_token i = t;
  di_members : forall t m, h_members h !! t = Some m -> mb_token m = t;
  di_capacity : forall room, length (davets_of_room h room) <= LOCA_KAPASITE;
  di_single : forall t t' i i', h_invites h !! t = Some i -> h_invites h !! t' = Some i' ->
    inv_room i = inv_room i' -> inv_member i = inv_member i' -> t = t';
}.

Lemma davets_inv_ext h h' :
  h_invites h' ⊆ h_invites h -> h_members h' ⊆ h_members h -> davets_inv h -> davets_inv h'.
Proof.
  intros Hi Hm [Hk Hmk Hc Hs]. constructor.
  - intros t i Ht. apply Hk. by eapply lookup_weaken.
  - intros t m Ht. apply Hmk. by eapply lookup_weaken.
  - intros room. etrans; [|apply (Hc room)]. unfold davets_of_room, davets_where.
    rewrite !length_filter_values. by apply selected_subseteq.
  - intros t t' i i' Ht Ht'. apply Hs; by eapply lookup_weaken.
Qed.

Lemma drop_davets_lookup h f t :
  davets_inv h ->
  h_invites (drop_davets (davets_where f h) h) !! t =
    match h_invites h !! t with Some i => if f i then None else Some i | None => None end.
Proof.
  intros Hinv. unfold drop_davets. cbn.
  assert (forall l (m : gmap string Invite), foldl (fun m inv => delete (inv_token inv) m) m l !! t =
    if decide (t ∈ inv_token <$> l) then None else m !! t) as Hfold.
  { induction l as [|i l IH]; intros m; [done|]. cbn. rewrite IH, lookup_delete.
    destruct (decide (inv_token i = t)) as [->|Hne].
    - destruct (decide (t ∈ inv_token <$> l)); by rewrite decide_True by by left.
    - apply decide_ext. rewrite elem_of_cons. naive_solver. }
  rewrite Hfold. destruct (h_invites h !! t) as [i|] eqn:E; [|by destruct (decide _)].
  pose proof (di_keyed _ Hinv _ _ E) as Ht.
  destruct (f i) eqn:Hf.
  - rewrite decide_True; [done|]. apply list_elem_of_fmap. exists i. split; [done|].
    unfold davets_where. apply list_elem_of_In, filter_In. split; [|done].
    apply list_elem_of_In, elem_of_values. eauto.
  - rewrite decide_False; [done|]. intros (i' & Hti & Hi')%list_elem_of_fmap.
    unfold davets_where in Hi'. apply list_elem_of_In, filter_In in Hi' as [Hi' Hf'].
    apply list_elem_of_In, elem_of_values in Hi' as [t' Ht'].
    pose proof (di_keyed _ Hinv _ _ Ht'). congruence.
Qed.

(** ** Retiring davets *)

Lemma close_connections_frame room name h :
  rooms_wire h (close_connections room name h) /\
  h_sessions (close_connections room name h) = h_sessions h /\
  h_invites (close_connections room name h) = h_invites h /\
  h_members (close_connections room name h) = h_members h.
Proof.
  unfold close_connections. destruct (h_rooms h !! room) as [r|] eqn:E; [|done].
  split; [|done]. by eapply rooms_wire_put, wire_eq_send.
Qed.

Lemma revoke_sessions_for_davet_frame room member h :
  let h' := revoke_sessions_for_davet room member h in
  h_rooms h' = h_rooms h /\ h_invites h' = h_invites h /\ h_members h' = h_members h /\
  forall st idy, h_sessions h' !! st = Some idy <->
    h_sessions h !! st = Some idy /\
    (member = ""%string \/ ~ (sess_member idy = Some member /\ sess_loca idy = Some room)).
Proof.
  cbn zeta. unfold revoke_sessions_for_davet, str_is_empty.
  case_bool_decide as E; cbn; do 3 (split; [done|]).
  - naive_solver.
  - intros st idy. rewrite map_lookup_filter_Some. naive_solver.
Qed.

Lemma retire_davet_frame h inv :
  rooms_wire h (retire_davet h inv) /\
  h_invites (retire_davet h inv) = h_invites h /\
  h_members (retire_davet h inv) = h_members h /\
  forall st idy, h_sessions (retire_davet h inv) !! st = Some idy <->
    h_sessions h !! st = Some idy /\
    (inv_member inv = ""%string \/
     ~ (sess_member idy = Some (inv_member inv) /\ sess_loca idy = Some (inv_room inv))).
Proof.
  unfold retire_davet.
  destruct (revoke_sessions_for_davet_frame (inv_room inv) (inv_member inv) h)
    as (Hr & Hi & Hm & Hs).
  set (h1 := revoke_sessions_for_davet _ _ h) in *.
  destruct (close_connections_frame (inv_room inv) (inv_name inv) h1) as (Hw & -> & -> & ->).
  split; [|done]. intros n. rewrite <- Hr. apply Hw.
Qed.

Lemma retire_davets_frame l h :
  rooms_wire h (foldl retire_davet h l) /\
  h_invites (foldl retire_davet h l) = h_invites h /\
  h_members (foldl retire_davet h l) = h_members h /\
  forall st idy, h_sessions (foldl retire_davet h l) !! st = Some idy <->
    h_sessions h !! st = Some idy /\
    forall inv, inv ∈ l -> inv_member inv = ""%string \/
      ~ (sess_member idy = Some (inv_member inv) /\ sess_loca idy = Some (inv_room inv)).
Proof.
  revert h. induction l as [|inv l IH]; intros h; cbn [foldl].
  { split; [reflexivity|]. do 2 (split; [done|]). intros st idy. split; [|naive_solver].
    intros Hs. split; [done|]. intros i Hi. by apply not_elem_of_nil in Hi. }
  destruct (retire_davet_frame h inv) as (Hw & Hi & Hm & Hs).
  destruct (IH (retire_davet h inv)) as (Hw' & Hi' & Hm' & Hs').
  split; [by etransitivity|]. split; [congruence|]. split; [congruence|].
  intros st idy. rewrite Hs', Hs. setoid_rewrite elem_of_cons. naive_solver.
Qed.

(** Revoking a membership takes everything it authorized: afterwards the
    member is not in the building, no davet of theirs is left, no session
    proves their identity, and every connection of a davet of theirs was told
    to close; the davets of everybody else, and the sessions that are not
    theirs, are untouched. *)
Theorem revoke_member_cascades token h h' :
  davets_inv h -> revoke_member token h = (h', Ok true) -> token <> ""%string ->
  h_members h' = delete token (h_members h) /\
  (forall t i, h_invites h' !! t = Some i <->
     h_invites h !! t = Some i /\ inv_member i <> token) /\
  (forall st idy, h_sessions h' !! st = Some idy <->
     h_sessions h !! st = Some idy /\ sess_member idy <> Some token) /\
  last (h_lobby_tx h') = Some (MembershipRevoked token) /\ rooms_wire h h'.
Proof.
  intros Hinv Hrev Hne. unfold revoke_member in Hrev. case_bool_decide; [done|].
  destruct (run_store _ _) as [h1 r] eqn:Hs. apply run_store_state in Hs as [-> _].
  destruct r as [[]|]; [|done]. injection Hrev as <-.
  set (h1 := with_h_store _ h). set (f := fun i => bool_decide (inv_member i = token)).
  assert (Hinv1 : davets_inv h1) by (by eapply davets_inv_ext, Hinv).
  destruct (retire_davets_frame (davets_where f h1) (drop_davets (davets_where f h1) h1))
    as (Hw & Hi & Hm & Hss).
  set (h2 := foldl retire_davet _ _) in *. cbn.
  split; [by rewrite Hm|]. split; [|split; [|split; [apply last_snoc|exact Hw]]].
  - intros t i. rewrite Hi, drop_davets_lookup by done. cbn. unfold f.
    destruct (h_invites h !! t) as [i'|]; [|naive_solver].
    case_bool_decide; naive_solver.
  - intros st idy. rewrite map_lookup_filter_Some, Hss. cbn. split; [naive_solver|].
    intros [Hst Hmem]. split; [|done]. split; [done|]. intros inv Hinv'.
    unfold davets_where in Hinv'. apply list_elem_of_In, filter_In in Hinv' as [_ Hf].
    apply bool_decide_eq_true_1 in Hf as ->. right. naive_solver.
Qed.

(** ** How many davets *)

Lemma member_of_keyed h token m :
  davets_inv h -> member_of h (Some token) = Some m -> mb_token m = token.
Proof.
  intros Hinv. unfold member_of. destruct (member_suspended h token); [done|].
  apply (di_members _ Hinv).
Qed.

Lemma invite_davets_ok member room by_ h :
  davets_inv h -> davets_inv (invite_member_to_room member room by_ h).1.
Proof.
  intros Hinv. unfold invite_member_to_room.
  destruct (is_deleted h room); [done|]. destruct (negb _ && _); [done|].
  destruct (member_of h (Some member)) as [m|] eqn:Hm; [|done].
  destruct (_ && _); [done|]. destruct (has_active_invite h room member) eqn:Hact; [done|].
  destruct (Nat.leb_spec LOCA_KAPASITE (length (davets_of_room h room))) as [|Hlt]; [done|].
  destruct (new_invite_token h) as [h1 token] eqn:Ht. injection Ht as <- <-.
  pose proof (member_of_keyed _ _ _ Hinv Hm) as Hmt.
  set (h1 := with_h_entropy _ h). set (inv := mkInvite _ _ _ _ _ _ _).
  assert (Hinv1 : davets_inv h1) by (by eapply davets_inv_ext, Hinv).
  unfold add_invite. destruct (_ && _); [done|]. destruct (is_deleted h1 _); [done|].
  destruct (run_store _ _) as [h2 r] eqn:Hs. apply run_store_state in Hs as [-> _].
  destruct r as [[]|]; [|by eapply davets_inv_ext, Hinv]. cbn [fst].
  destruct Hinv as [Hk Hmk Hc Hs]. constructor; cbn.
  - intros t i [[<- <-]|[_ Hi]]%lookup_insert_Some; [done|by apply Hk].
  - apply Hmk.
  - intros n. unfold davets_of_room, davets_where. rewrite length_filter_values. cbn.
    specialize (Hc n). unfold davets_of_room, davets_where in Hc, Hlt.
    rewrite length_filter_values in Hc, Hlt. destruct (decide (room = n)) as [<-|Hne].
    + etrans; [apply selected_insert_size|]. lia.
    + etrans; [apply selected_insert_other|exact Hc]. cbn. by apply bool_decide_eq_false_2.
  - assert (Hnone : forall t i, h_invites h !! t = Some i -> inv_room i = room ->
      inv_member i = mb_token m -> False).
    { intros t i Hi Hr Hmi. unfold has_active_invite in Hact.
      pose proof (proj1 (any_value_false _ _) Hact t i Hi) as Hf. cbn in Hf.
      rewrite Hr, Hmi, Hmt in Hf. by rewrite !bool_decide_eq_true_2 in Hf. }
    intros t t' i i' [[<- <-]|[_ Hi]]%lookup_insert_Some
      [[<- <-]|[_ Hi']]%lookup_insert_Some Hr Hmem; cbn in *; [done|..].
    + exfalso. by eapply Hnone.
    + exfalso. by eapply Hnone.
    + by eapply Hs.
Qed.

(** A room never has more davets than seats, and no member holds two davets
    of one room: both stay true whatever invitation is attempted, whatever token
    the generator draws and whether or not the store accepts it. *)
Theorem invitations_bounded member room by_ h :
  davets_inv h ->
  let h' := (invite_member_to_room member room by_ h).1 in
  (forall n, length (davets_of_room h' n) <= LOCA_KAPASITE) /\
  (forall t t' i i', h_invites h' !! t = Some i -> h_invites h' !! t' = Some i' ->
     inv_room i = inv_room i' -> inv_member i = inv_member i' -> t = t').
Proof. intros Hinv. by destruct (invite_davets_ok member room by_ h Hinv). Qed.
End davets.

(** ** Pairing *)

Lemma bytes_inj s t : bytes s = bytes t -> s = t.
Proof.
  revert t. induction s as [|a s IH]; intros [|b t] E; try done.
  injection E as Ea E. f_equal; [|auto].
  rewrite <- (ascii_N_embedding a), <- (ascii_N_embedding b). by f_equal.
Qed.

(** The full-length comparison is equality. *)
Lemma code_difference_zero a b : code_difference a b = 0%N <-> a = b.
Proof.
  unfold code_difference.
  assert (forall l d, foldl (fun d i =>
      N.lor d (N.lxor (default 0%N (a !! i)) (default 0%N (b !! i)))) d l = 0%N <->
    d = 0%N /\ forall i, i ∈ l -> default 0%N (a !! i) = default 0%N (b !! i)) as Hfold.
  { induction l as [|i l IH]; intros d; cbn [foldl].
    - split; [|tauto]. intros ->. split; [done|]. intros i Hi. by apply not_elem_of_nil in Hi.
    - rewrite IH, N.lor_eq_0_iff, N.lxor_eq_0_iff. setoid_rewrite elem_of_cons. naive_solver. }
  rewrite Hfold, N.lxor_eq_0_iff. split.
  - intros [Hlen Hall]. apply Nat2N.inj in Hlen. apply list_eq_same_length with (length a); [done..|].
    intros i x y Hi Hx Hy. specialize (Hall i). rewrite Hx, Hy in Hall. apply Hall.
    apply elem_of_seq. lia.
  - by intros ->.
Qed.

Section pairing.
Context {St : Type} `{Csprng}.
Implicit Types h : Hub St.

(** A pairing code works once: a candidate is accepted exactly when an admin
    token is configured, the code has not expired and the candidate is the
    code, byte for byte; it grants the lifetime bound to that code; and the
    accepted code is replaced, so that it is refused from then on unless the
    generator draws the very same code again. *)
Theorem pairing_code_once candidate h :
  let next := "pair_" +:+ hex_bytes (random_bytes (h_entropy h) 16) in
  (forall ttl, (consume_admin_pairing candidate h).2 = Some ttl <->
     h_admin_token h <> ""%string /\
     (h_clock h < ap_expires_at_ms (h_admin_pairing h))%N /\
     candidate = ap_code (h_admin_pairing h) /\
     ttl = ap_session_ttl_ms (h_admin_pairing h)) /\
  (candidate = ap_code (h_admin_pairing h) -> candidate <> next ->
   forall ttl (later : Hub St), (consume_admin_pairing candidate h).2 = Some ttl ->
     h_admin_pairing later = h_admin_pairing (consume_admin_pairing candidate h).1 ->
     (consume_admin_pairing candidate later).2 = None).
Proof.
  cbn zeta.
  assert (Hok : forall c h1, (consume_admin_pairing c h1).2 <> None ->
    c = ap_code (h_admin_pairing h1)).
  { intros c h1. unfold consume_admin_pairing. destruct (str_is_empty _); [done|].
    destruct (N.leb_spec (ap_expires_at_ms (h_admin_pairing h1)) (h_clock h1)); [done|].
    destruct (N.eqb_spec (code_difference (bytes (ap_code (h_admin_pairing h1))) (bytes c)) 0)
      as [E|]; cbn; [|done]. intros _. by apply code_difference_zero, bytes_inj in E. }
  split.
  - intros ttl. unfold consume_admin_pairing, str_is_empty.
    case_bool_decide as Ea; [split; [done|naive_solver]|].
    destruct (N.leb_spec (ap_expires_at_ms (h_admin_pairing h)) (h_clock h)) as [Hle|Hlt].
    { split; [done|]. intros (_ & ? & _). lia. }
    destruct (N.eqb_spec (code_difference (bytes (ap_code (h_admin_pairing h))) (bytes candidate)) 0)
      as [E|E]; cbn.
    + apply code_difference_zero, bytes_inj in E. split; [intros [= <-]; eauto|].
      by intros (_ & _ & _ & ->).
    + split; [done|]. intros (_ & _ & -> & _). exfalso. apply E. by apply code_difference_zero.
  - intros Hcode Hne ttl later Hsome Hpair.
    destruct ((consume_admin_pairing candidate later).2) eqn:E; [|done]. exfalso.
    apply Hne. rewrite (Hok candidate later) by congruence. rewrite Hpair.
    unfold consume_admin_pairing in Hsome |- *. destruct (str_is_empty _); [done|].
    destruct (_ <=? _)%N; [done|]. by destruct (negb _).
Qed.
End pairing.

(** ** Witnesses *)

#[local] Existing Instance counter_csprng.
#[local] Instance zero_digest : Digest := {| sha256 _ := replicate 32 0%N |}.

Definition member_hub : Hub unit :=
  with_h_members {["mb_1" := mkMembership "mb_1" "ada" "agent" 1 "root"]}
    (with_h_sessions {["st_1" :=
        mkSessionIdentity None RoleMember "ada" Agent (Some "lab") (Some "mb_1") false 0]}
      (with_h_invites {["dv_1" := mkInvite "dv_1" "lab" "mb_1" "ada" "agent" 1 "root"]}
        (put_room "lab" (room_with Free room_settings_default 1) (empty_hub tt)))).

Lemma member_hub_inv : davets_inv member_hub.
Proof.
  constructor; cbn.
  - by intros t i [<- <-]%lookup_singleton_Some.
  - by intros t m [<- <-]%lookup_singleton_Some.
  - intros room. unfold davets_of_room, davets_where. rewrite length_filter_values.
    unfold selected. etrans; [apply map_size_filter|]. cbn. rewrite map_size_singleton.
    unfold LOCA_KAPASITE. lia.
  - by intros t t' i i' [<- <-]%lookup_singleton_Some [<- <-]%lookup_singleton_Some.
Qed.

Lemma revoke_member_cascades_witness :
  exists h', revoke_member "mb_1" member_hub = (h', Ok true) /\
    h_members h' = delete "mb_1" (h_members member_hub).
Proof.
  exists (revoke_member "mb_1" member_hub).1.
  assert (E : revoke_member "mb_1" member_hub = ((revoke_member "mb_1" member_hub).1, Ok true))
    by (vm_compute; reflexivity).
  split; [exact E|].
  exact (proj1 (revoke_member_cascades "mb_1" member_hub _ member_hub_inv E ltac:(done))).
Defined.

Lemma invitations_bounded_witness :
  length (davets_of_room
    (invite_member_to_room "mb_1" "lab" "root" member_hub).1 "lab") <= LOCA_KAPASITE.
Proof.
  exact (proj1 (invitations_bounded "mb_1" "lab" "root" member_hub member_hub_inv) "lab"%string).
Defined.

Lemma pairing_code_once_witness :
  (consume_admin_pairing "pair_00" member_hub).2 = Some 43200000%N /\
  (consume_admin_pairing "pair_00" (consume_admin_pairing "pair_00" member_hub).1).2 = None.
Proof.
  split.
  - by apply (proj1 (pairing_code_once "pair_00" member_hub)).
  - refine (proj2 (pairing_code_once "pair_00" member_hub) eq_refl _ 43200000%N _ eq_refl eq_refl).
    vm_compute. intros E. discriminate E.
Defined.
