(* ===== verification/Scheduler.v ===== *)
(** * The reminder scheduler

    crates/server/src/hub/attention/scheduler.rs: the periodic sweep that
    turns circular and overdue waits, stale tasks and goals and silence into
    durable attentions, and the publication of what it made durable. *)

From Stdlib Require Import Ascii.
From S2P Require Import Prelude Text Protocol StoreApi Hub Work Waits Attention.

(** ** Signals *)

(** @src hub/attention/scheduler.rs fn goal_caretaker_subject *)
Definition goal_caretaker_subject (subject : string) (escalated : bool) : string :=
  subject +:+
  if escalated then " · Lead remains unavailable · operator review needed"
  else " · Lead unavailable · loca-care holding continuity".

(** @src hub/attention/scheduler.rs fn reminder_state *)
Definition reminder_state (owner : option string) (attempt : N) (escalated : bool)
    : ReminderState :=
  if bool_decide (owner = Some "loca-care"%string) then Stalled
  else if escalated || (1 <? attempt)%N then Overdue
  else Running.

(** A signal to one member is for that person; the others are for the room's
    reminder recipient. *)
(** @src hub/attention/scheduler.rs:59-82 make_care_signal *)
Definition care_audience (room : Room) (draft : CareDraft) : AttentionAudience :=
  match draft_owner_principal_id draft with
  | Some _ =>
      match draft_owner draft with
      | Some name => AudiencePerson name
      | None => AudienceLead
      end
  | None =>
      match rs_care_recipient (r_settings room) with
      | RecipientLead => AudienceLead
      | RecipientAll => AudienceGroup (connected_names room)
      | RecipientPerson name => AudiencePerson name
      end
  end.

(** ** Marks: how often a condition was signalled, and when *)

(** [room.care_marks.get(&key).copied().unwrap_or(..)] *)
Definition care_mark (room : Room) (key : string) : CareMark :=
  default (mkCareMark 0 0) (r_care_marks room !! key).

(** [N] bounded nudges, then one escalation; never inside the cooldown. *)
(** @src hub/attention/scheduler.rs:455-460 tick_care *)
Definition mark_ready (room : Room) (mark : CareMark) (now : N) : bool :=
  (mark_signal_count mark <=? rs_care_max_attempts (r_settings room))%N
  && negb ((0 <? mark_last_signal_at mark)%N
           && (sat_sub now (mark_last_signal_at mark)
                 <? rs_care_cooldown_secs (r_settings room) * 1000)%N).

(** @src hub/attention/scheduler.rs:461-464 tick_care *)
Definition next_mark (mark : CareMark) (now : N) : CareMark :=
  mkCareMark now (sat_add32 (mark_signal_count mark) 1).

(** What a sweep found to be due in a room. *)
Record Reminder : Type := mkReminder {
  rem_key : string;
  rem_attention_key : string;
  rem_reason : CareReason;
  rem_target : option string;
  rem_participants : list string;
  rem_subject : string;
}.

(** @src hub/attention/scheduler.rs:381-412 tick_care *)
Definition task_reminders (room : Room) (now : N) : list Reminder :=
  let secs := rs_care_task_secs (r_settings room) in
  if (0 <? secs)%N then
    omap (fun task =>
        let baseline := N.max (task_progress_at task) (task_created_at task) in
        if (secs * 1000 <=? sat_sub now baseline)%N then
          Some {|
            rem_key := "task:" +:+ dec (task_id task);
            rem_attention_key := "task:" +:+ dec (task_id task) +:+ ":" +:+ dec baseline;
            rem_reason := TaskReminder; rem_target := task_assigned_to task;
            rem_participants := option_list (task_assigned_to task);
            rem_subject :=
              "task #" +:+ dec (task_id task) +:+ " is still "
              +:+ match task_status task with TaskTaken => "taken" | _ => "open" end
              +:+ ": " +:+ task_title task |}
        else None)
      (sort_by_N task_id
         (filter (fun t => task_status t = TaskOpen \/ task_status t = TaskTaken)
            (values (r_tasks room))))
  else [].

(** @src hub/attention/scheduler.rs:413-434 tick_care *)
Definition goal_reminders (room : Room) (now : N) : list Reminder :=
  match find_value goal_is_active (r_goals room) with
  | None => []
  | Some goal =>
      let stale_after_secs :=
        default (rs_care_goal_secs (r_settings room)) (goal_stale_after_secs goal) in
      let baseline := N.max (goal_progress_at goal) (goal_created_at goal) in
      if (0 <? stale_after_secs)%N && (stale_after_secs * 1000 <=? sat_sub now baseline)%N
      then [{| rem_key := "goal:" +:+ dec (goal_id goal);
               rem_attention_key := "goal:" +:+ dec (goal_id goal) +:+ ":" +:+ dec baseline;
               rem_reason := GoalReminder; rem_target := None; rem_participants := [];
               rem_subject := "Goal: " +:+ goal_outcome goal |}]
      else []
  end.

(** @src hub/attention/scheduler.rs:435-448 tick_care *)
Definition silence_reminders (room : Room) (now : N) : list Reminder :=
  let secs := rs_care_silence_secs (r_settings room) in
  if (0 <? secs)%N && (0 <? r_last_msg_ms room)%N
     && (secs * 1000 <=? sat_sub now (r_last_msg_ms room))%N
  then [{| rem_key := "silence"; rem_attention_key := "silence:" +:+ dec (r_last_msg_ms room);
           rem_reason := RoomSilence; rem_target := None; rem_participants := [];
           rem_subject := "operator-enabled room silence check" |}]
  else [].

(** @src hub/attention/scheduler.rs:380-448 tick_care *)
Definition room_reminders (room : Room) (now : N) : list Reminder :=
  task_reminders room now ++ goal_reminders room now ++ silence_reminders room now.

(** The generation of a cycle: the latest of its waits. *)
(** @src hub/attention/scheduler.rs:231-235 tick_care *)
Definition cycle_baseline (room : Room) (now : N) (cycle : list string) : N :=
  match omap (fun name => wait_since <$> (r_waits room !! name)) cycle with
  | [] => now
  | s :: rest => foldl N.max s rest
  end.

(** The wait, nudged once more. *)
(** @src hub/attention/scheduler.rs:325-327 tick_care *)
Definition nudged (now : N) (w : WaitState) : WaitState := {|
  wait_room := wait_room w; wait_waiter := wait_waiter w;
  wait_waiting_for := wait_waiting_for w; wait_reason := wait_reason w;
  wait_since := wait_since w; wait_last_signal_at := Some now;
  wait_signal_count := sat_add32 (wait_signal_count w) 1 |}.

(** Overdue, outside the cooldown, and not nudged and escalated already. *)
(** @src hub/attention/scheduler.rs:312-324 tick_care *)
Definition wait_due (room : Room) (now : N) (w : WaitState) : bool :=
  negb (sat_sub now (wait_since w) <? rs_care_wait_secs (r_settings room) * 1000)%N
  && negb match wait_last_signal_at w with
          | Some last => (sat_sub now last <? rs_care_cooldown_secs (r_settings room) * 1000)%N
          | None => false
          end
  && (wait_signal_count w <=? rs_care_max_attempts (r_settings room))%N.

Section scheduler.
Context {St : Type} `{Csprng} `{StoreBase St} `{CareStore St}.
Implicit Types h : Hub St.

(** @src hub/attention/scheduler.rs fn make_care_signal *)
Definition make_care_signal (room_name : string) (room : Room) (draft : CareDraft) h
    : Hub St * CareSignal :=
  let '(h, id) := secure_token "delivery_" 16 h in
  let signal := {|
    sig_id := id;
    sig_attention_id := "attention:" +:+ room_name +:+ ":" +:+ draft_attention_key draft;
    sig_room := room_name; sig_source_room := ""; sig_reason := draft_reason draft;
    sig_audience := care_audience room draft; sig_owner := draft_owner draft;
    sig_owner_principal_id := draft_owner_principal_id draft;
    sig_group := draft_group draft; sig_target := draft_target draft;
    sig_participants := draft_participants draft; sig_subject := draft_subject draft;
    sig_created_by := "care"; sig_context := care_context room;
    sig_attempt := draft_attempt draft; sig_at := draft_at draft;
    sig_escalated := draft_escalated draft;
    sig_state := reminder_state (draft_owner draft) (draft_attempt draft)
                   (draft_escalated draft) |} in
  (h, rehome_caretaker_signal h signal room_name).

(** ** Publication *)

Definition attention_resolved (a : option Attention) : bool :=
  match a with Some a => bool_decide (attn_status a = AttnResolved) | None => false end.

(** The attention a signal is about. *)
Definition stable_attention_id (signal : CareSignal) : string :=
  if str_is_empty (sig_attention_id signal) then sig_id signal else sig_attention_id signal.

(** The durable part; [false] when the enqueue failed. *)
(** @src hub/attention/scheduler.rs:127-142 publish_care_signal *)
Definition deliver_care (signal : CareSignal) (already_persisted : bool) h : Hub St * bool :=
  match sig_owner signal with
  | None => (h, true)
  | Some _ =>
      let '(h, queued) :=
        if already_persisted then (h, Ok tt)
        else run_store (enqueue_care (sig_room signal) signal) h in
      match queued with
      | Err _ => (h, false)
      | Ok _ =>
          (with_h_care_deliveries
             (<[sig_id signal := sig_attention_id signal]> (h_care_deliveries h)) h, true)
      end
  end.

(** @src hub/attention/scheduler.rs fn publish_care_signal *)
Definition publish_care_signal (source_room : string) (signal : CareSignal)
    (already_persisted : bool) h : Hub St :=
  let id := stable_attention_id signal in
  let already_resolved :=
    attention_resolved (h_rooms h !! source_room ≫= (fun r => r_attentions r !! id))
    || attention_resolved (store_attention (h_store h) id) in
  if already_resolved then h
  else
    let '(h, delivered) := deliver_care signal already_persisted h in
    if negb delivered then h
    else
      let attention :=
        default (opened_attention id (origin_room signal) signal)
          (store_attention (h_store h) id) in
      let h :=
        match h_rooms h !! source_room with
        | Some source =>
            let source := send (SF_Care signal) source in
            let source := with_r_attentions
                            (<[attn_id attention := attention]> (r_attentions source)) source in
            put_room source_room (send (SF_Attention attention) source) h
        | None => h
        end in
      if bool_decide (sig_owner signal = Some "loca-care"%string)
         && negb (bool_decide (source_room = h_home_room h))
      then
        let h := room_mut (h_home_room h) h in
        put_room (h_home_room h) (send (SF_Care signal) (entry_room (h_home_room h) h)) h
      else h.

(** ** The sweep of one room *)

(** What a sweep decided for a room: the room after it, and the signals to
    publish, all of them durable. *)
Definition emission : Type := Room * list CareSignal.

(** The loops of [tick_care]: try the candidates in order, stop at the first
    that emits. *)
Fixpoint first_emission {A} (f : A -> Hub St -> Hub St * option emission) (l : list A) h
    : Hub St * option emission :=
  match l with
  | [] => (h, None)
  | x :: l =>
      let '(h, e) := f x h in
      match e with Some e => (h, Some e) | None => first_emission f l h end
  end.

(** [already_owned_or_done] *)
(** @src hub/attention/scheduler.rs:266-273 tick_care *)
Definition owned_or_done (room : Room) (id : string) h : bool :=
  let not_open (a : option Attention) :=
    match a with Some a => negb (bool_decide (attn_status a = AttnOpen)) | None => false end in
  not_open (r_attentions room !! id) || not_open (store_attention (h_store h) id).

(** @src hub/attention/scheduler.rs:230-297 tick_care *)
Definition signal_cycle (room_name : string) (room : Room) (owner : option string)
    (cycle : list string) h : Hub St * option emission :=
  let now := h_clock h in
  let max_attempts := rs_care_max_attempts (r_settings room) in
  let key := "wait-cycle:" +:+ join "+" cycle +:+ ":"
               +:+ dec (cycle_baseline room now cycle) in
  let mark := care_mark room key in
  if negb (mark_ready room mark now) then (h, None)
  else
    let next := next_mark mark now in
    let '(h, signal) := make_care_signal room_name room {|
      draft_attention_key := key; draft_owner := owner; draft_owner_principal_id := None;
      draft_group := None; draft_reason := WaitCycle; draft_target := None;
      draft_participants := cycle;
      draft_subject := "wait cycle: " +:+ join " → " cycle;
      draft_attempt := mark_signal_count next; draft_at := now;
      draft_escalated := (max_attempts <? mark_signal_count next)%N |} h in
    if owned_or_done room (sig_attention_id signal) h then (h, None)
    else
      let '(h, queued) :=
        run_store (enqueue_care_with_mark room_name key (mark_last_signal_at next)
                     (mark_signal_count next) (sig_room signal) signal) h in
      match queued with
      | Err _ => (h, None)
      | Ok _ =>
          (h, Some (with_r_care_marks (<[key := next]> (r_care_marks room)) room, [signal]))
      end.

(** @src hub/attention/scheduler.rs:308-378 tick_care *)
Definition signal_wait (room_name : string) (room : Room) (owner : option string)
    (name : string) h : Hub St * option emission :=
  let now := h_clock h in
  match r_waits room !! name with
  | None => (h, None)
  | Some w =>
      if negb (wait_due room now w) then (h, None)
      else
        let updated := nudged now w in
        let '(h, signal) := make_care_signal room_name room {|
          draft_attention_key := "wait:" +:+ name +:+ ":" +:+ dec (wait_since updated);
          draft_owner := owner; draft_owner_principal_id := None; draft_group := None;
          draft_reason := WaitOverdue; draft_target := Some (wait_waiting_for updated);
          draft_participants := [wait_waiter updated; wait_waiting_for updated];
          draft_subject := wait_waiter updated +:+ " waits for " +:+ wait_waiting_for updated
                             +:+ ": " +:+ wait_reason updated;
          draft_attempt := wait_signal_count updated; draft_at := now;
          draft_escalated :=
            (rs_care_max_attempts (r_settings room) <? wait_signal_count updated)%N |} h in
        if owned_or_done room (sig_attention_id signal) h then (h, None)
        else
          let '(h, queued) :=
            run_store (enqueue_care_with_waits [updated] (sig_room signal) signal) h in
          match queued with
          | Err _ => (h, None)
          | Ok _ =>
              (h, Some (with_r_waits (<[name := updated]> (r_waits room)) room, [signal]))
          end
  end.

(** *** Reminders to everyone *)

(** The roster of the first emission of a generation, or the open attentions
    of the generation itself. *)
(** @src hub/attention/scheduler.rs:478-503 tick_care *)
Definition generation_roster (room_name : string) (room : Room) (mark : CareMark)
    (attention_key : string) h : option (list (string * string)) :=
  if (mark_signal_count mark =? 0)%N then everyone_recipients h room_name
  else
    let prefix := "attention:" +:+ room_name +:+ ":" +:+ attention_key +:+ ":" in
    Some (sort_by_str fst
      (omap (fun p : string * Attention =>
               if bool_decide (attn_status p.2 = AttnOpen) then
                 match strip_prefix p.1 prefix, attn_owner p.2 with
                 | Some principal_id, Some name => Some (principal_id, name)
                 | _, _ => None
                 end
               else None) (map_to_list (r_attentions room)))).

(** The draft of a room reminder. *)
Definition reminder_draft (rem : Reminder) (room : Room) (attempt now : N)
    (attention_key subject : string) (owner owner_principal_id group : option string)
    : CareDraft := {|
  draft_attention_key := attention_key; draft_owner := owner;
  draft_owner_principal_id := owner_principal_id; draft_group := group;
  draft_reason := rem_reason rem; draft_target := rem_target rem;
  draft_participants := rem_participants rem; draft_subject := subject;
  draft_attempt := attempt; draft_at := now;
  draft_escalated := (rs_care_max_attempts (r_settings room) <? attempt)%N |}.

(** A goal reminder that falls to the caretaker says so. *)
Definition reminder_subject (rem : Reminder) (owner : option string) (escalated : bool)
    : string :=
  if bool_decide (rem_reason rem = GoalReminder)
     && bool_decide (owner = Some "loca-care"%string)
  then goal_caretaker_subject (rem_subject rem) escalated
  else rem_subject rem.

(** One signal per member who is still active and has not owned or resolved
    its attention. *)
(** @src hub/attention/scheduler.rs:507-548 tick_care *)
Fixpoint everyone_signals (room_name : string) (room : Room) (rem : Reminder)
    (attempt : N) (recipients : list (string * string)) (signals : list CareSignal) h
    : Hub St * list CareSignal :=
  match recipients with
  | [] => (h, signals)
  | (principal_id, display_name) :: rest =>
      if negb (everyone_recipient_active h room_name principal_id)
      then everyone_signals room_name room rem attempt rest signals h
      else
        let escalated := (rs_care_max_attempts (r_settings room) <? attempt)%N in
        let '(h, signal) := make_care_signal room_name room
          (reminder_draft rem room attempt (h_clock h)
             (rem_attention_key rem +:+ ":" +:+ principal_id)
             (reminder_subject rem (Some display_name) escalated)
             (Some display_name) (Some principal_id)
             (Some ("attention:" +:+ room_name +:+ ":" +:+ rem_attention_key rem))) h in
        everyone_signals room_name room rem attempt rest
          (if owned_or_done room (sig_attention_id signal) h then signals
           else signals ++ [signal]) h
  end.

(** @src hub/attention/scheduler.rs:465-569 tick_care *)
Definition remind_everyone (room_name : string) (room : Room) (rem : Reminder)
    (mark : CareMark) h : Hub St * option emission :=
  let next := next_mark mark (h_clock h) in
  match generation_roster room_name room mark (rem_attention_key rem) h with
  | None => (h, None)
  | Some recipients =>
      let '(h, signals) :=
        everyone_signals room_name room rem (mark_signal_count next) recipients [] h in
      match signals with
      | [] => (h, None)
      | _ =>
          let '(h, queued) :=
            run_store (enqueue_everyone_care room_name (rem_key rem)
                         (mark_last_signal_at next) (mark_signal_count next) signals) h in
          match queued with
          | Err _ => (h, None)
          | Ok _ =>
              (h, Some (with_r_care_marks
                          (<[rem_key rem := next]> (r_care_marks room)) room, signals))
          end
      end
  end.

(** *** Reminders to one recipient *)

(** Without an owner the reminder is made visible once and consumes no
    attempt. *)
(** @src hub/attention/scheduler.rs:571-634 tick_care *)
Definition remind_one (room_name : string) (room : Room) (owner : option string)
    (rem : Reminder) (mark : CareMark) h : Hub St * option emission :=
  let next := next_mark mark (h_clock h) in
  let attempt := mark_signal_count next in
  let escalated := (rs_care_max_attempts (r_settings room) <? attempt)%N in
  let '(h, signal) := make_care_signal room_name room
    (reminder_draft rem room attempt (h_clock h) (rem_attention_key rem)
       (reminder_subject rem owner escalated) owner None None) h in
  let id := sig_attention_id signal in
  if owned_or_done room id h then (h, None)
  else
    match owner with
    | None =>
        let already_visible :=
          negb (bool_decide (r_attentions room !! id = None))
          || negb (bool_decide (store_attention (h_store h) id = None)) in
        if already_visible then (h, None)
        else
          let '(h, queued) := run_store (enqueue_care (sig_room signal) signal) h in
          match queued with
          | Err _ => (h, None)
          | Ok _ => (h, Some (room, [signal]))
          end
    | Some _ =>
        let '(h, queued) :=
          run_store (enqueue_care_with_mark room_name (rem_key rem)
                       (mark_last_signal_at next) (mark_signal_count next)
                       (sig_room signal) signal) h in
        match queued with
        | Err _ => (h, None)
        | Ok _ =>
            (h, Some (with_r_care_marks (<[rem_key rem := next]> (r_care_marks room)) room,
                      [signal]))
        end
    end.

(** @src hub/attention/scheduler.rs:450-634 tick_care *)
Definition signal_reminder (room_name : string) (room : Room) (owner : option string)
    (rem : Reminder) h : Hub St * option emission :=
  let mark := care_mark room (rem_key rem) in
  if negb (mark_ready room mark (h_clock h)) then (h, None)
  else
    match rs_care_recipient (r_settings room) with
    | RecipientAll => remind_everyone room_name room rem mark h
    | _ => remind_one room_name room owner rem mark h
    end.

(** ** The sweep *)

(** Circular waits first, then overdue ones, then reminders; waits are only
    signalled while somebody can own the wake-up. *)
(** @src hub/attention/scheduler.rs:217-635 tick_care *)
Definition room_emission (room_name : string) (room : Room) (owner : option string) h
    : Hub St * option emission :=
  let now := h_clock h in
  let owned := match owner with Some _ => true | None => false end in
  let cycles := if owned then wait_cycles room else [] in
  let '(h, e) := first_emission (signal_cycle room_name room owner) cycles h in
  match e with
  | Some e => (h, Some e)
  | None =>
      let names :=
        if owned
        then sort_strings (filter (fun name => name ∉ concat cycles) (keys (r_waits room)))
        else [] in
      let '(h, e) := first_emission (signal_wait room_name room owner) names h in
      match e with
      | Some e => (h, Some e)
      | None =>
          first_emission (signal_reminder room_name room owner) (room_reminders room now) h
      end
  end.

(** @src hub/attention/scheduler.rs:196-638 tick_care *)
Definition tick_room (acc : Hub St * list (string * CareSignal)) (room_name : string)
    : Hub St * list (string * CareSignal) :=
  let '(h, pending) := acc in
  match h_rooms h !! room_name with
  | None => (h, pending)
  | Some room =>
      if rs_archived (r_settings room) then (h, pending)
      else
        let '(h, e) := room_emission room_name room (care_owner h room_name) h in
        match e with
        | None => (h, pending)
        | Some (room, signals) =>
            (put_room room_name room h, pending ++ ((fun s => (room_name, s)) <$> signals))
        end
  end.

(** @src hub/attention/scheduler.rs fn tick_care *)
Definition tick_care h : Hub St :=
  let '(h, pending) := foldl tick_room (h, []) (keys (h_rooms h)) in
  foldl (fun h p => publish_care_signal p.1 p.2 true h) h pending.
End scheduler.
