(* ===== verification/RoomFacts.v ===== *)
(** * Properties of running a room

    What a ban leaves behind, the ranges a settings request cannot leave, the
    silence of a sealed room, the revisions of notes, the protection of the
    master's appointments, and what the expiry of live mode tells clients. *)

From Stdlib Require Import Ascii.
From S2P Require Import Prelude Text Protocol StoreApi Hub Ledger Access Seats Attention Chat.
From S2P Require Import Membership Rooms AccessFacts.

(** ** Revoking the davets of a name *)

Section bans.
Context {St : Type} `{Csprng} `{Digest} `{StoreBase St} `{IdentityStore St}.
Implicit Types h : Hub St.

Lemma revoke_invites_for_ok room name h h' :
  davets_inv h -> revoke_invites_for room name h = (h', Ok tt) ->
  rooms_wire h h' /\
  (forall t i, h_invites h' !! t = Some i <->
     h_invites h !! t = Some i /\ ~ (inv_room i = room /\ inv_name i = name)) /\
  h_members h' = h_members h.
Proof.
  intros Hinv. unfold revoke_invites_for.
  set (f := fun i => bool_decide (inv_room i = room) && bool_decide (inv_name i = name)).
  assert (Hf : forall i, f i = true <-> inv_room i = room /\ inv_name i = name).
  { intros i. unfold f. rewrite andb_true_iff, !bool_decide_eq_true. done. }
  assert (Hdrop : forall l t, davets_where f h = l ->
    h_invites (drop_davets l h) !! t =
      match h_invites h !! t with Some i => if f i then None else Some i | None => None end).
  { intros l t <-. by apply drop_davets_lookup. }
  destruct (davets_where f h) as [|i0 l] eqn:Hl.
  - intros [= <-]. split; [reflexivity|]. split; [|done]. intros t i.
    specialize (Hdrop _ t eq_refl). cbn in Hdrop.
    destruct (h_invites h !! t) as [i'|]; [|naive_solver].
    destruct (f i') eqn:E; [done|]. split; [|tauto]. intros [= <-]. split; [done|].
    rewrite <- Hf. by rewrite E.
  - destruct (run_store _ _) as [h1 res] eqn:Hs. apply run_store_state in Hs as [-> _].
    destruct res as [[]|]; [|done]. intros E. apply (f_equal fst) in E. cbn [fst] in E.
    rewrite <- E. clear E. set (h1 := with_h_store _ h).
    destruct (retire_davets_frame (i0 :: l) (drop_davets (i0 :: l) h1))
      as (Hw & Hi & Hm & _).
    split; [exact Hw|]. split; [|by rewrite Hm]. intros t i. rewrite Hi.
    change (h_invites (drop_davets (i0 :: l) h1)) with (h_invites (drop_davets (i0 :: l) h)).
    rewrite (Hdrop _ t eq_refl).
    destruct (h_invites h !! t) as [i'|]; [|split; [done|by intros [? _]]].
    rewrite <- Hf. destruct (f i') eqn:E; split.
    { done. } { intros [[= <-] Hn]. by rewrite E in Hn. }
    { intros [= <-]. by rewrite E. } { by intros [? _]. }
Qed.

(** A ban closes the door behind it: after a ban the name is on the room's
    ban list, no seat of the room wears it, none of its davets to the room is
    left while every other davet stands, and the room's last two frames tell
    the banned connection to go and everybody else who is left. *)
Theorem ban_closes_the_door room name h h' ms :
  davets_inv h -> is_deleted h room = false ->
  moderate room Ban name h = (h', Ok ms) ->
  is_banned h' room name = true /\ name ∈ ms_banned ms /\
  (forall t i, h_invites h' !! t = Some i <->
     h_invites h !! t = Some i /\ ~ (inv_room i = room /\ inv_name i = name)) /\
  exists r', h_rooms h' !! room = Some r' /\
    r_members r' = filter (fun p : string * (string * SenderType * N) => p.2.1.1 <> name)
                     (r_members (entry_room room h)) /\
    exists before, r_tx r' = before ++ [SF_Kicked name true; SF_Members (member_list r')].
Proof.
  intros Hinv Hdel. unfold moderate, moderate_store. rewrite Hdel.
  destruct (run_store _ h) as [h1 b] eqn:Hs. apply run_store_state in Hs as [-> _].
  destruct b as [[]|]; [|done]. set (h1 := with_h_store _ h).
  destruct (revoke_invites_for room name h1) as [h2 res] eqn:Hrev.
  destruct res as [[]|]; [|done]. intros [= <- <-].
  assert (Hinv1 : davets_inv h1) by (by eapply davets_inv_ext, Hinv).
  apply revoke_invites_for_ok in Hrev as (Hw & Hi & Hm); [|done].
  assert (Hmem : r_members (entry_room room h2) = r_members (entry_room room h)).
  { specialize (Hw room). unfold entry_room. cbn in Hw.
    destruct (h_rooms h !! room) as [r|], (h_rooms h2 !! room) as [r2|]; try done.
    by destruct Hw as (tx & m & a & ->). }
  rewrite entry_room_mut. set (r2 := entry_room room h2) in *. clearbody r2.
  split; [|split; [|split; [exact Hi|]]].
  - unfold is_banned. cbn. rewrite lookup_insert_eq. cbn.
    apply bool_decide_eq_true_2. set_solver.
  - unfold mod_state. cbn. rewrite lookup_insert_eq. cbn [moderate_room room_mod_state ms_banned].
    cbn.
    rewrite sort_strings_Permutation, elem_of_elements. set_solver.
  - eexists. cbn [put_room h_rooms with_h_rooms]. rewrite lookup_insert_eq. split; [done|].
    cbn. rewrite Hmem. split; [done|]. eexists. by rewrite <- app_assoc.
Qed.
End bans.

(** ** Settings *)

(** The ranges the source clamps a request to. *)
Record settings_ok (s : RoomSettings) : Prop := {
  so_window : (1 <= rs_rate_window_secs s)%N;
  so_turn_max : (1 <= rs_turn_max_messages s <= 16)%N;
  so_idle : (100 <= rs_turn_idle_ms s <= 30000)%N;
  so_max_wait : (rs_turn_idle_ms s <= rs_turn_max_wait_ms s <= 60000)%N;
  so_attempts : (1 <= rs_care_max_attempts s <= 10)%N;
  so_context : (rs_care_context_messages s <= 20)%N;
}.

Lemma settings_default_ok : settings_ok room_settings_default.
Proof. constructor; cbn; lia. Qed.

Lemma merge_settings_ok req s : settings_ok s -> settings_ok (merge_settings req s).
Proof.
  intros [? ? ? ? ? ?]. unfold merge_settings, clamp.
  constructor; cbn;
    repeat match goal with
    | |- context [match ?o with Some _ => _ | None => _ end] => destruct o
    end; lia.
Qed.

(** A request touches the fields it names and no other. *)
Lemma merge_settings_lead req s : rs_lead (merge_settings req s) = rs_lead s.
Proof. done. Qed.

(** ** Chat mode *)

(** A round-robin's turn points into its order. *)
Definition mode_ok (m : ChatMode) : Prop :=
  match m with RoundRobin order turn => order = [] \/ turn < length order | _ => True end.

Lemma normalize_mode_ok m : mode_ok (normalize_mode m).
Proof.
  destruct m as [|allow|order turn|]; cbn; try done.
  destruct (bool_decide_reflect (order = [])) as [E|E]; cbn; [by left|].
  destruct (Nat.leb_spec (length order) turn); cbn; right; [|done].
  destruct order; cbn; [done|lia].
Qed.

Lemma advance_turn_ok m sender : mode_ok m -> mode_ok (advance_turn m sender).1.
Proof.
  destruct m as [|allow|order turn|]; cbn; try done. intros Hok.
  destruct (negb _ && _) eqn:E; cbn; [|done].
  apply andb_true_iff in E as [E _]. apply negb_true_iff, bool_decide_eq_false_1 in E.
  right. apply Nat.mod_upper_bound. by destruct order.
Qed.

(** ** Notes *)

(** A note is filed under its key, with a revision the room has drawn. *)
Definition notes_inv (r : Room) : Prop :=
  forall k n, r_notes r !! k = Some n -> note_key n = k /\ (note_rev n < r_next_rev r)%N.

Lemma notes_inv_insert r k n :
  notes_inv r -> note_key n = k -> note_rev n = r_next_rev r -> (r_next_rev r < u64_max)%N ->
  forall r', r_notes r' = <[k := n]> (r_notes r) ->
    r_next_rev r' = wrap_add64 (r_next_rev r) 1 -> notes_inv r'.
Proof.
  intros Hinv Hk Hrev Hmax r' Hn Hnext k' n'. rewrite Hn, Hnext.
  assert (wrap_add64 (r_next_rev r) 1 = r_next_rev r + 1)%N as ->.
  { unfold wrap_add64, u64_max in *. apply N.mod_small. lia. }
  intros [[<- <-]|[_ Hn']]%lookup_insert_Some; [split; [done|lia]|].
  destruct (Hinv _ _ Hn'). split; [done|lia].
Qed.

Section notes.
Context {St : Type} `{RoomStore St}.
Implicit Types h : Hub St.

(** A note's revisions grow and its permissions are advisory: every accepted
    update replaces exactly that note, gives it a revision later than its own
    and every other's in the room, keeps the fields the request does not
    name, moves [can_write] for an operator only, and tells the room - with a
    warning when, and only when, the writer was not on the note's list. *)
Theorem note_update_exact room key req op h h' out :
  all_rooms notes_inv h -> (r_next_rev (entry_room room h) < u64_max)%N ->
  update_note room key req op h = (h', Ok out) ->
  exists r prev r', h_rooms h !! room = Some r /\ r_notes r !! key = Some prev /\
    h_rooms h' !! room = Some r' /\ r_notes r' = <[key := out]> (r_notes r) /\
    (forall k n, r_notes r !! k = Some n -> note_rev n < note_rev out)%N /\
    notes_inv r' /\
    note_title out = default (note_title prev) (un_title req) /\
    note_body out = default (note_body prev) (un_body req) /\
    (op = false -> note_can_write out = note_can_write prev) /\
    r_tx r' = r_tx r ++
      if decide (note_can_write prev = [] \/ un_by req ∈ note_can_write prev)
      then [SF_Note out] else [SF_Note out; SF_NoteWarn key (un_by req) (note_can_write prev)].
Proof.
  intros Hall Hmax. unfold update_note, entry_room in *.
  destruct (h_rooms h !! room) as [r|] eqn:Hr; [|done]. cbn in Hmax.
  destruct (r_notes r !! key) as [prev|] eqn:Hp; [|done].
  destruct (run_store _ h) as [h1 w] eqn:Hs. apply run_store_state in Hs as [-> _].
  destruct w as [[]|]; [|done]. intros [= <- <-].
  set (out := updated_note _ _ _ _ _). exists r, prev.
  pose proof (Hall _ _ Hr) as Hinv. destruct (Hinv _ _ Hp) as [Hkey _].
  eexists. do 2 (split; [done|]). split; [cbn; by rewrite lookup_insert_eq|].
  assert (Hallowed : bool_decide (note_can_write prev = [])
    || bool_decide (un_by req ∈ note_can_write prev) =
    bool_decide (note_can_write prev = [] \/ un_by req ∈ note_can_write prev)).
  { by rewrite bool_decide_or. }
  rewrite Hallowed. clear Hallowed. set (told := bool_decide _).
  split; [by destruct told|]. split.
  { intros k n Hn. by destruct (Hinv _ _ Hn). }
  split; [eapply (notes_inv_insert r key out); [done..| |]; by destruct told|].
  do 2 (split; [done|]). split; [by intros ->|]. cbn zeta. subst told.
  destruct (bool_decide_reflect (note_can_write prev = [] \/ un_by req ∈ note_can_write prev));
    [rewrite decide_True by done|rewrite decide_False by done]; cbn; [done|].
  by rewrite <- app_assoc.
Qed.
End notes.

(** ** Expiry of live mode *)

(** A sweep whose step touches the room it is given only, seen from one of the
    rooms it visits. *)
Lemma sweep_one_room {St} (f : Hub St -> string -> Hub St) n l h :
  (forall h x m, m <> x -> h_rooms (f h x) !! m = h_rooms h !! m) -> NoDup l ->
  if decide (n ∈ l)
  then exists h0, h_rooms h0 !! n = h_rooms h !! n /\
         h_rooms (foldl f h l) !! n = h_rooms (f h0 n) !! n
  else h_rooms (foldl f h l) !! n = h_rooms h !! n.
Proof.
  intros Hf Hnd. revert h. induction Hnd as [|x l Hx Hnd IH]; intros h.
  { by rewrite decide_False by apply not_elem_of_nil. }
  cbn [foldl]. specialize (IH (f h x)). destruct (decide (n = x)) as [->|Hne].
  - rewrite decide_True by by left. rewrite decide_False in IH by done. by exists h.
  - rewrite Hf in IH by done. destruct (decide (n ∈ l)) as [Hin|Hnin].
    + rewrite decide_True by by right. exact IH.
    + rewrite decide_False by (rewrite elem_of_cons; tauto). exact IH.
Qed.

Section expiry.
Context {St : Type} `{StoreBase St} `{RoomStore St}.
Implicit Types h : Hub St.

Lemma expire_room_live_other now h x m :
  m <> x -> h_rooms (expire_room_live now h x) !! m = h_rooms h !! m.
Proof.
  intros Hne. unfold expire_room_live. destruct (h_rooms h !! x) as [r|]; [|done].
  destruct (live_expired now r); [|done]. destruct (run_store _ h) as [h1 w] eqn:Hs.
  apply run_store_state in Hs as [-> _].
  destruct w; cbn; by rewrite lookup_insert_ne.
Qed.

(** Live mode goes off in the rooms that were silent past their timeout and
    in no other, and their clients are told exactly twice, by the new settings
    and by the expiry notice.  When the change cannot be saved the room is live
    again, although its clients have already been told that it is not. *)
Theorem live_expiry_exact h n r :
  h_rooms h !! n = Some r ->
  exists r', h_rooms (expire_live h) !! n = Some r' /\
    if live_expired (h_clock h) r then
      r_tx r' = r_tx r ++
        [SF_Settings (with_rs_live false (r_settings r));
         SF_Control ("live-expired:" +:+ dec (rs_live_timeout_secs (r_settings r)))] /\
      r_mode r' = r_mode r /\ r_history r' = r_history r /\
      ((forall m s (st : St), (save_room n m s st).2 = Ok tt) ->
         r_settings r' = with_rs_live false (r_settings r)) /\
      ((forall m s (st : St), (save_room n m s st).2 = Err DbError) ->
         r_settings r' = r_settings r)
    else r' = r.
Proof.
  intros Hr.
  pose proof (sweep_one_room (expire_room_live (h_clock h)) n (keys (h_rooms h)) h
    (expire_room_live_other (h_clock h)) (NoDup_keys _)) as Hsweep.
  rewrite decide_True in Hsweep by (apply elem_of_keys; eauto).
  destruct Hsweep as (h0 & Hh0 & Hend). unfold expire_live. rewrite Hend.
  unfold expire_room_live. rewrite Hh0, Hr.
  destruct (live_expired (h_clock h) r) eqn:Hexp; [|rewrite Hh0, Hr; eauto].
  assert (Hlive : with_rs_live true (with_rs_live false (r_settings r)) = r_settings r).
  { unfold live_expired in Hexp. destruct (rs_live (r_settings r)) eqn:E; [|done].
    destruct (r_settings r). cbn in E. by subst. }
  cbn [send with_r_tx with_r_settings r_mode r_settings].
  destruct (run_store _ h0) as [h1 w] eqn:Hs. apply run_store_state in Hs as [-> Hw].
  destruct w as [[]|[]]; cbn; rewrite lookup_insert_eq; eexists; (split; [done|]); cbn;
    rewrite <- app_assoc; do 3 (split; [done|]); split.
  - done.
  - intros Hfail. by rewrite Hfail in Hw.
  - intros Hok. by rewrite Hok in Hw.
  - intros _. exact Hlive.
Qed.
End expiry.

(** ** Sealing *)

Section sealing.
Context {St : Type} `{Unicode} `{Csprng} `{StoreBase St} `{MessageStore St} `{CareStore St}
  `{RoomStore St} `{IdentityStore St} `{OperatorStore St}.
Implicit Types h : Hub St.

(** Sealing is final: a room is sealed only when it is archived, and is
    gone from memory then, every other room as it was; unless it is the home
    room it never comes back: at any later time, whoever tries, no message is
    accepted, no seat given, no davet written and no room created under its
    name, and none of these attempts changes the building. *)
Theorem sealing_is_final room h h' :
  delete_room room h = (h', Ok true) ->
  (exists r, h_rooms h !! room = Some r /\ rs_archived (r_settings r) = true) /\
  h_rooms h' = delete room (h_rooms h) /\
  (room <> h_home_room h -> forall later : Hub St,
     h_home_room later = h_home_room h -> h_deleted h' ⊆ h_deleted later ->
     (forall body adm p, post room body adm p later = (later, Err RejDeleted)) /\
     (forall i name kind s, join_room room i name kind s later = (later, false)) /\
     (forall member by_, exists e,
        invite_member_to_room member room by_ later = (later, Err e)) /\
     (forall actor, exists e, create_loca room actor later = (later, Err e))).
Proof.
  unfold delete_room. destruct (h_rooms h !! room) as [r|] eqn:Hr; [|done].
  destruct (rs_archived (r_settings r)) eqn:Harch; cbn [negb]; [|done].
  destruct (run_store _ h) as [h1 w] eqn:Hs. apply run_store_state in Hs as [-> _].
  destruct w as [[]|]; [|done]. intros [= <-]. split; [eauto|]. split; [done|].
  intros Hhome later Hsame Hsub.
  assert (Hdel : is_deleted later room = true).
  { unfold is_deleted. rewrite Hsame, bool_decide_eq_false_2 by done.
    apply bool_decide_eq_true_2, Hsub. cbn. set_solver. }
  split; [|split; [|split]]; intros.
  - unfold post. by rewrite Hdel.
  - unfold join_room. by rewrite Hdel.
  - unfold invite_member_to_room. rewrite Hdel. eauto.
  - unfold create_loca. rewrite Hdel. destruct (is_building_admin actor); cbn; eauto.
Qed.
End sealing.

(** ** The room's operator *)

Section operators.
Context {St : Type} `{StoreBase St} `{OperatorStore St} `{IdentityStore St}.
Implicit Types h : Hub St.

(** A second master undoes only appointments of its own: the appointment of a
    room's operator is revoked for a building authority only; when that is a
    second master, only one the same principal made as a second master, and
    any other attempt leaves the building as it is. *)
Theorem second_master_undoes_own room actor h h' res :
  revoke_loca_operator room actor h = (h', res) ->
  ra_building_role actor = Some RoleSmaster ->
  (is_building_admin actor = true /\ exists current,
     loca_operator (h_store h) room = Some current /\
     loa_appointed_by_role current = RoleSmaster /\
     ra_principal_id actor = Some (loa_appointed_by_principal_id current)) \/
  (h' = h /\ exists e, res = Err e).
Proof.
  unfold revoke_loca_operator. intros Hrev Hrole.
  destruct (is_building_admin actor); cbn in Hrev; [|injection Hrev as <- <-; right; eauto].
  destruct (ra_principal_id actor) as [id|] eqn:Hid; [|injection Hrev as <- <-; right; eauto].
  destruct (loca_operator (h_store h) room) as [current|] eqn:Hc;
    [|injection Hrev as <- <-; right; eauto].
  rewrite (bool_decide_eq_true_2 _ Hrole) in Hrev. cbn [andb] in Hrev.
  destruct (bool_decide_reflect (loa_appointed_by_role current = RoleSmaster)) as [Hr|];
    cbn in Hrev; [|injection Hrev as <- <-; right; eauto].
  destruct (bool_decide_reflect (loa_appointed_by_principal_id current = id)) as [<-|];
    cbn in Hrev; [|injection Hrev as <- <-; right; eauto].
  left. eauto.
Qed.
End operators.

(** ** Witnesses *)

#[local] Existing Instance ascii_unicode.
#[local] Existing Instance counter_csprng.
#[local] Instance room_digest : Digest := {| sha256 _ := replicate 32 0%N |}.

(** A live room, silent for an hour, where [bob] sits and may not write the note. *)
Definition lab_settings : RoomSettings := with_rs_live true room_settings_default.
Definition lab_note : Note := mkNote "plan" "Plan" "draft" ["ada"] "ada" 500 1.
Definition lab_room : Room :=
  with_r_members {["mb:1" := ("bob", Agent, 1%N)]}
    (with_r_notes {["plan" := lab_note]}
       (with_r_next_rev 2 (with_r_last_msg_ms 1 (room_with Free lab_settings 1)))).
Definition lab_hub : Hub unit :=
  with_h_clock 36000000
    (with_h_invites {["dv_1" := mkInvite "dv_1" "lab" "mb_1" "bob" "agent" 1 "master"]}
       (put_room "lab" lab_room (empty_hub tt))).

Lemma lab_hub_davets : davets_inv lab_hub.
Proof.
  constructor; cbn.
  - intros t i [<- <-]%lookup_singleton_Some. done.
  - intros t m. by rewrite lookup_empty.
  - intros room. unfold davets_of_room, davets_where. rewrite length_filter_values.
    etrans; [apply map_subseteq_size, map_filter_subseteq|]. cbn.
    rewrite map_size_singleton. unfold LOCA_KAPASITE. lia.
  - intros t t' i i' [<- <-]%lookup_singleton_Some [<- <-]%lookup_singleton_Some. done.
Qed.

Definition lab_banned : Hub unit * dbres ModState := moderate "lab" Ban "bob" lab_hub.
Lemma lab_banned_ok : moderate "lab" Ban "bob" lab_hub = (lab_banned.1, Ok (mkModState [] ["bob"])).
Proof. vm_compute. reflexivity. Qed.

Lemma ban_closes_the_door_witness :
  is_banned lab_banned.1 "lab" "bob" = true /\ h_invites lab_banned.1 !! "dv_1" = None.
Proof.
  destruct (ban_closes_the_door "lab" "bob" lab_hub lab_banned.1 (mkModState [] ["bob"])
    lab_hub_davets eq_refl lab_banned_ok) as (Hb & _ & Hi & _).
  split; [exact Hb|]. destruct (h_invites lab_banned.1 !! "dv_1") as [i|] eqn:E; [|done].
  exfalso. apply Hi in E as [Hl Hn]. injection Hl as <-. exact (Hn (conj eq_refl eq_refl)).
Defined.

Definition lab_update : UpdateNote :=
  mkUpdateNote None (Some "final"%string) "bob" None (Some ["bob"]%string).
Definition lab_noted : Hub unit * result Note NoteError :=
  update_note "lab" "plan" lab_update false lab_hub.
Definition lab_note' : Note := updated_note lab_update false 36000000 2 lab_note.
Lemma lab_noted_ok : update_note "lab" "plan" lab_update false lab_hub = (lab_noted.1, Ok lab_note').
Proof. vm_compute. reflexivity. Qed.

Lemma note_update_exact_witness :
  exists r', h_rooms lab_noted.1 !! "lab" = Some r' /\ r_notes r' !! "plan" = Some lab_note'.
Proof.
  destruct (note_update_exact "lab" "plan" lab_update false lab_hub lab_noted.1 lab_note')
    as (r & prev & r' & _ & _ & Hr' & Hn & _).
  - apply all_rooms_put; [by intros ??|]. intros k n Hn.
    change (({["plan"%string := lab_note]} : gmap string Note) !! k = Some n) in Hn.
    apply lookup_singleton_Some in Hn as [<- <-]. done.
  - done.
  - exact lab_noted_ok.
  - exists r'. split; [exact Hr'|]. rewrite Hn. apply lookup_insert_eq.
Defined.

Lemma live_expiry_exact_witness :
  exists r', h_rooms (expire_live lab_hub) !! "lab" = Some r' /\ rs_live (r_settings r') = false.
Proof.
  destruct (live_expiry_exact lab_hub "lab" lab_room eq_refl) as (r' & Hr' & Hsplit).
  exists r'. split; [exact Hr'|].
  change (live_expired (h_clock lab_hub) lab_room) with true in Hsplit.
  destruct Hsplit as (_ & _ & _ & Hok & _). rewrite Hok; [done|]. intros m s []. done.
Defined.

Definition lab_archived : Hub unit :=
  put_room "lab" (with_r_settings (with_rs_archived true lab_settings) lab_room) lab_hub.
Definition lab_sealed : Hub unit := (delete_room "lab" lab_archived).1.

Lemma lab_sealed_ok : delete_room "lab" lab_archived = (lab_sealed, Ok true).
Proof. vm_compute. reflexivity. Qed.

Lemma sealing_is_final_witness :
  join_room "lab" "mb:1" "bob" Agent 7 lab_sealed = (lab_sealed, false).
Proof.
  destruct (sealing_is_final "lab" lab_archived lab_sealed lab_sealed_ok) as (_ & _ & Hfinal).
  apply (Hfinal ltac:(done) lab_sealed eq_refl (reflexivity _)).
Defined.

Definition smaster_actor : RequestAuthority :=
  mkRequestAuthority (Some "p2"%string) (Some "deniz"%string) (Some User) (Some RoleSmaster).

Lemma second_master_undoes_own_witness :
  exists e, (revoke_loca_operator "lab" smaster_actor lab_hub).2
            = Err (T := LocaOperatorAssignment) e.
Proof.
  destruct (revoke_loca_operator "lab" smaster_actor lab_hub) as [h' res] eqn:E.
  destruct (second_master_undoes_own "lab" smaster_actor lab_hub h' res E eq_refl)
    as [(_ & c & Hc & _)|[_ He]]; [discriminate Hc|exact He].
Defined.
