(* ===== verification/SchedulerFacts.v ===== *)
(** * Properties of the reminder scheduler

    What one sweep may change in a room, when it signals a condition, where its
    signals go, and that archived rooms are left alone. *)

From Stdlib Require Import Ascii.
From S2P Require Import Prelude Text Protocol StoreApi Hub Ledger Work Waits Attention.
From S2P Require Import Scheduler.

(** ** What an emission changes *)

(** The room after an emission: unchanged (a reminder without an owner), one
    wait nudged that was due, or one mark advanced that was ready. *)
Inductive emission_step (now : N) (r : Room) : Room -> Prop :=
  | StepVisible : emission_step now r r
  | StepNudge x w :
      r_waits r !! x = Some w -> wait_due r now w = true ->
      emission_step now r (with_r_waits (<[x := nudged now w]> (r_waits r)) r)
  | StepMark key :
      mark_ready r (care_mark r key) now = true ->
      emission_step now r
        (with_r_care_marks (<[key := next_mark (care_mark r key) now]> (r_care_marks r)) r).

Section facts.
Context {St : Type} `{Csprng} `{StoreBase St} `{CareStore St}.
Implicit Types h : Hub St.

(** A hub whose store and entropy moved on, and nothing else. *)
Definition quiet h h' : Prop := exists s k, h' = with_h_store s (with_h_entropy k h).

#[local] Instance quiet_refl : Reflexive quiet.
Proof. intros h. exists (h_store h), (h_entropy h). by destruct h. Qed.
#[local] Instance quiet_trans : Transitive quiet.
Proof. intros h1 h2 h3 (s & k & ->) (s' & k' & ->). by exists s', k'. Qed.

Lemma quiet_rooms h h' : quiet h h' -> h_rooms h' = h_rooms h.
Proof. by intros (s & k & ->). Qed.
Lemma quiet_clock h h' : quiet h h' -> h_clock h' = h_clock h.
Proof. by intros (s & k & ->). Qed.
Lemma quiet_home h h' : quiet h h' -> h_home_room h' = h_home_room h.
Proof. by intros (s & k & ->). Qed.

Lemma run_store_quiet {A} (f : St -> St * A) h h' a : run_store f h = (h', a) -> quiet h h'.
Proof.
  intros [-> _]%run_store_state. exists (f (h_store h)).1, (h_entropy h). by destruct h.
Qed.

(** A signal is delivered in the room it is about, or it is the caretaker's and
    delivered in the home room, with the room it is about on the envelope. *)
Definition homed (home room : string) (s : CareSignal) : Prop :=
  (sig_room s = room /\ sig_source_room s = ""%string) \/
  (sig_owner s = Some "loca-care"%string /\ room <> home /\
   sig_room s = home /\ sig_source_room s = room).

Lemma homed_origin home room s : homed home room s -> room <> ""%string -> origin_room s = room.
Proof.
  unfold origin_room, str_is_empty. intros [[-> ->]|(_ & _ & _ & ->)] Hne; [done|].
  by rewrite bool_decide_eq_false_2.
Qed.

(** How a signal relates to the draft it was made from. *)
Definition drafted (home room_name : string) (draft : CareDraft) (s : CareSignal) : Prop :=
  homed home room_name s /\ sig_owner s = draft_owner draft /\
  sig_owner_principal_id s = draft_owner_principal_id draft /\
  sig_group s = draft_group draft /\ sig_attempt s = draft_attempt draft /\
  sig_escalated s = draft_escalated draft /\
  sig_attention_id s = "attention:" +:+ room_name +:+ ":" +:+ draft_attention_key draft.

Lemma make_care_signal_ok room_name room draft h h' s :
  make_care_signal room_name room draft h = (h', s) ->
  quiet h h' /\ drafted (h_home_room h) room_name draft s.
Proof.
  unfold make_care_signal. destruct (secure_token _ _ h) as [h1 id] eqn:Hs.
  assert (Hq : quiet h h1).
  { unfold secure_token in Hs. injection Hs as <- _.
    exists (h_store h), (h_entropy h + 1)%N. by destruct h. }
  intros [= <- <-]. split; [done|]. unfold rehome_caretaker_signal. cbn [sig_owner].
  rewrite (quiet_home _ _ Hq).
  destruct (bool_decide_reflect (draft_owner draft = Some "loca-care"%string)) as [Ho|Ho];
    cbn [andb]; [|split; [by left|done]].
  destruct (bool_decide_reflect (room_name = h_home_room h)) as [Hr|Hr]; cbn.
  - split; [by left|done].
  - split; [by right|done].
Qed.

(** ** The loops *)

#[local] Arguments make_care_signal : simpl never.
#[local] Arguments everyone_recipient_active : simpl never.

Lemma first_emission_ok {A} (f : A -> Hub St -> Hub St * option emission)
    (P : emission -> Prop) l h0 h h' e :
  (forall x h1 h2 e, quiet h0 h1 -> f x h1 = (h2, e) ->
     quiet h1 h2 /\ forall em, e = Some em -> P em) ->
  quiet h0 h -> first_emission f l h = (h', e) ->
  quiet h0 h' /\ forall em, e = Some em -> P em.
Proof.
  intros Hf. revert h. induction l as [|x l IH]; intros h Hq; cbn; [by intros [= <- <-]|].
  destruct (f x h) as [h1 [em|]] eqn:Hx; destruct (Hf x h h1 _ Hq Hx) as [Hq1 HP].
  - intros [= <- <-]. split; [by etransitivity|done].
  - apply IH. by etransitivity.
Qed.

(** What a sweep decides for a room it visits. *)
Definition emission_ok (now : N) (home room_name : string) (r : Room) (em : emission) : Prop :=
  emission_step now r em.1 /\ Forall (homed home room_name) em.2 /\
  (rs_care_recipient (r_settings r) <> RecipientAll -> length em.2 = 1).

Ltac care_signal :=
  lazymatch goal with
  | |- context [make_care_signal ?n ?r ?d ?h] =>
      let h1 := fresh "h1" in let s := fresh "s" in let E := fresh "Hmake" in
      destruct (make_care_signal n r d h) as [h1 s] eqn:E;
      let Q := fresh "Hq" in let D := fresh "Hd" in
      apply make_care_signal_ok in E as [Q D]
  end.
Ltac queued :=
  lazymatch goal with
  | |- context [run_store ?f ?h] =>
      let h2 := fresh "h2" in let w := fresh "w" in let E := fresh "Hst" in
      destruct (run_store f h) as [h2 w] eqn:E; apply run_store_quiet in E;
      destruct w as [[]|]
  end.

Lemma signal_cycle_ok room_name r owner cycle h h' e :
  signal_cycle room_name r owner cycle h = (h', e) ->
  quiet h h' /\ forall em, e = Some em -> emission_ok (h_clock h) (h_home_room h) room_name r em.
Proof.
  unfold signal_cycle. destruct (mark_ready _ _ _) eqn:Hready; cbn [negb];
    [|by intros [= <- <-]].
  care_signal. destruct (owned_or_done _ _ _); [by intros [= <- <-]|]. queued;
    intros [= <- <-]; (split; [by etransitivity|]); [|done].
  intros em [= <-]. split; [|split]; cbn.
  - by apply StepMark.
  - apply Forall_singleton, Hd.
  - done.
Qed.

Lemma signal_wait_ok room_name r owner name h h' e :
  signal_wait room_name r owner name h = (h', e) ->
  quiet h h' /\ forall em, e = Some em -> emission_ok (h_clock h) (h_home_room h) room_name r em.
Proof.
  unfold signal_wait. destruct (r_waits r !! name) as [w|] eqn:Hw; [|by intros [= <- <-]].
  destruct (wait_due _ _ _) eqn:Hdue; cbn [negb]; [|by intros [= <- <-]].
  care_signal. destruct (owned_or_done _ _ _); [by intros [= <- <-]|]. queued;
    intros [= <- <-]; (split; [by etransitivity|]); [|done].
  intros em [= <-]. split; [|split]; cbn.
  - by apply StepNudge.
  - apply Forall_singleton, Hd.
  - done.
Qed.

Lemma everyone_signals_ok room_name r rem attempt recips sigs h h' sigs' :
  everyone_signals room_name r rem attempt recips sigs h = (h', sigs') ->
  Forall (homed (h_home_room h) room_name) sigs ->
  quiet h h' /\ Forall (homed (h_home_room h) room_name) sigs'.
Proof.
  revert sigs h. induction recips as [|[pid name] recips IH]; intros sigs h; cbn.
  { by intros [= <- <-]. }
  destruct (everyone_recipient_active _ _ _); cbn [negb]; [|apply IH].
  care_signal. intros Hrest Hsigs.
  destruct (IH _ _ Hrest) as [Hq' Hs'].
  { rewrite (quiet_home _ _ Hq). destruct (owned_or_done _ _ _); [done|].
    apply Forall_app_2; [done|]. apply Forall_singleton, Hd. }
  split; [by etransitivity|]. by rewrite (quiet_home _ _ Hq) in Hs'.
Qed.

Lemma signal_reminder_ok room_name r owner rem h h' e :
  signal_reminder room_name r owner rem h = (h', e) ->
  quiet h h' /\ forall em, e = Some em -> emission_ok (h_clock h) (h_home_room h) room_name r em.
Proof.
  unfold signal_reminder. destruct (mark_ready _ _ _) eqn:Hready; cbn [negb];
    [|by intros [= <- <-]].
  assert (Hone : remind_one room_name r owner rem (care_mark r (rem_key rem)) h = (h', e) ->
    quiet h h' /\
    forall em, e = Some em -> emission_ok (h_clock h) (h_home_room h) room_name r em).
  { unfold remind_one. care_signal. destruct (owned_or_done _ _ _); [by intros [= <- <-]|].
    destruct owner as [owner|].
    - queued; intros [= <- <-]; (split; [by etransitivity|]); [|done].
      intros em [= <-]. split; [by apply StepMark|]. split; [|done].
      apply Forall_singleton, Hd.
    - destruct (_ || _); [by intros [= <- <-]|]. queued;
        intros [= <- <-]; (split; [by etransitivity|]); [|done].
      intros em [= <-]. split; [apply StepVisible|]. split; [|done].
      apply Forall_singleton, Hd. }
  destruct (rs_care_recipient (r_settings r)) eqn:Hrec; [exact Hone| |exact Hone].
  clear Hone. unfold remind_everyone. destruct (generation_roster _ _ _ _ _); [|by intros [= <- <-]].
  destruct (everyone_signals _ _ _ _ _ _ h) as [h1 sigs] eqn:Hev.
  apply everyone_signals_ok in Hev as [Hq Hs]; [|constructor].
  destruct sigs as [|s sigs]; [by intros [= <- <-]|]. queued;
    intros [= <- <-]; (split; [by etransitivity|]); [|done].
  intros em [= <-]. split; [by apply StepMark|]. split; [done|]. by intros ?.
Qed.

Lemma emission_ok_quiet h h1 room_name r em :
  quiet h h1 -> emission_ok (h_clock h1) (h_home_room h1) room_name r em ->
  emission_ok (h_clock h) (h_home_room h) room_name r em.
Proof. intros Hq. by rewrite (quiet_clock _ _ Hq), (quiet_home _ _ Hq). Qed.

Lemma room_emission_ok room_name r owner h h' e :
  room_emission room_name r owner h = (h', e) ->
  quiet h h' /\ forall em, e = Some em -> emission_ok (h_clock h) (h_home_room h) room_name r em.
Proof.
  unfold room_emission.
  set (cycles := if match owner with Some _ => true | None => false end then _ else _).
  set (names := if match owner with Some _ => true | None => false end then _ else _).
  assert (Hloop : forall A (f : A -> Hub St -> Hub St * option emission) l h0 h1 e,
    (forall x h1 h2 e, f x h1 = (h2, e) -> quiet h1 h2 /\ forall em, e = Some em ->
       emission_ok (h_clock h1) (h_home_room h1) room_name r em) ->
    quiet h h0 -> first_emission f l h0 = (h1, e) ->
    quiet h h1 /\ forall em, e = Some em ->
      emission_ok (h_clock h) (h_home_room h) room_name r em).
  { intros A f l h0 h1 e0 Hf Hq Hl.
    eapply (first_emission_ok f (emission_ok (h_clock h) (h_home_room h) room_name r));
      [|exact Hq|exact Hl].
    intros x h2 h3 e1 Hq2 Hx. destruct (Hf _ _ _ _ Hx) as [Hq3 HP]. split; [done|].
    intros em Hem. apply (emission_ok_quiet h h2); [done|]. by apply HP. }
  destruct (first_emission (signal_cycle _ _ _) cycles h) as [h1 e1] eqn:Hc1.
  apply Hloop in Hc1 as [Hq1 HP1]; [|by intros; eapply signal_cycle_ok|reflexivity].
  destruct e1 as [em|]; [by intros [= <- <-]|].
  destruct (first_emission (signal_wait _ _ _) names h1) as [h2 e2] eqn:Hc2.
  apply Hloop in Hc2 as [Hq2 HP2]; [|by intros; eapply signal_wait_ok|done].
  destruct e2 as [em|]; [by intros [= <- <-]|].
  intros Hc3. eapply Hloop; [|exact Hq2|exact Hc3]. by intros; eapply signal_reminder_ok.
Qed.

(** ** The sweep over the building *)

(** The signals a sweep holds for one room. *)
Definition signals_for (n : string) (pending : list (string * CareSignal)) : list CareSignal :=
  omap (fun p : string * CareSignal => if decide (p.1 = n) then Some p.2 else None) pending.

Lemma signals_for_app n p q : signals_for n (p ++ q) = signals_for n p ++ signals_for n q.
Proof. apply omap_app. Qed.

Lemma signals_for_room n m sigs :
  signals_for n ((fun s => (m, s)) <$> sigs) = if decide (m = n) then sigs else [].
Proof.
  induction sigs as [|s sigs IH]; cbn; [by destruct (decide _)|].
  unfold signals_for in IH. rewrite IH. by destruct (decide _).
Qed.

(** What the first phase made of a room. *)
Definition visited (now : N) (home n : string) (r r1 : Room) (sigs : list CareSignal) : Prop :=
  (r1 = r /\ sigs = []) \/
  (rs_archived (r_settings r) = false /\ emission_ok now home n r (r1, sigs) /\
   exists owner h0 h1, h_clock h0 = now /\ room_emission n r owner h0 = (h1, Some (r1, sigs))).

Lemma tick_room_ok h p n h1 p1 :
  tick_room (h, p) n = (h1, p1) ->
  h_clock h1 = h_clock h /\ h_home_room h1 = h_home_room h /\
  (forall m, m <> n -> h_rooms h1 !! m = h_rooms h !! m) /\
  exists sigs, p1 = p ++ ((fun s => (n, s)) <$> sigs) /\
    match h_rooms h !! n with
    | None => h_rooms h1 !! n = None /\ sigs = []
    | Some r => exists r1, h_rooms h1 !! n = Some r1 /\
        visited (h_clock h) (h_home_room h) n r r1 sigs
    end.
Proof.
  unfold tick_room. destruct (h_rooms h !! n) as [r|] eqn:Hr; cycle 1.
  { intros [= <- <-]. do 3 (split; [done|]). exists []. by rewrite app_nil_r. }
  assert (Hnone : forall h2 : Hub St, h_rooms h2 = h_rooms h ->
    exists r1, h_rooms h2 !! n = Some r1 /\
      visited (h_clock h) (h_home_room h) n r r1 []).
  { intros h2 E. exists r. rewrite E. split; [done|by left]. }
  destruct (rs_archived (r_settings r)) eqn:Ha.
  { intros [= <- <-]. do 3 (split; [done|]). exists []. rewrite app_nil_r. eauto. }
  destruct (room_emission _ _ _ _) as [h2 e] eqn:He.
  pose proof He as Hem. apply room_emission_ok in He as [Hq Hok].
  pose proof (quiet_rooms _ _ Hq) as Hrooms.
  destruct e as [[r1 sigs]|]; intros [= <- <-]; cbn;
    rewrite ?(quiet_clock _ _ Hq), ?(quiet_home _ _ Hq); do 2 (split; [done|]).
  - split; [intros m Hm; by rewrite lookup_insert_ne, Hrooms|].
    exists sigs. split; [done|]. exists r1. rewrite lookup_insert_eq. split; [done|].
    right. split; [done|]. split; [by apply Hok|]. by eexists _, h, _.
  - split; [by intros; rewrite Hrooms|]. exists []. rewrite app_nil_r. eauto.
Qed.

Lemma tick_rooms_ok l h p h1 p1 :
  NoDup l -> foldl tick_room (h, p) l = (h1, p1) ->
  h_clock h1 = h_clock h /\ h_home_room h1 = h_home_room h /\
  forall n, exists sigs, signals_for n p1 = signals_for n p ++ sigs /\
    if decide (n ∈ l) then
      match h_rooms h !! n with
      | None => h_rooms h1 !! n = None /\ sigs = []
      | Some r => exists r1, h_rooms h1 !! n = Some r1 /\
          visited (h_clock h) (h_home_room h) n r r1 sigs
      end
    else h_rooms h1 !! n = h_rooms h !! n /\ sigs = [].
Proof.
  intros Hnd. revert h p. induction Hnd as [|x l Hx Hnd IH]; intros h p; cbn [foldl].
  { intros [= <- <-]. do 2 (split; [done|]). intros n. exists []. rewrite app_nil_r.
    by rewrite decide_False by apply not_elem_of_nil. }
  destruct (tick_room (h, p) x) as [h2 p2] eqn:Ht. intros Hf.
  apply tick_room_ok in Ht as (Hc & Hh & Hother & sigs & -> & Hroom).
  destruct (IH _ _ Hf) as (Hc' & Hh' & Hall). rewrite Hc in *. rewrite Hh in *.
  do 2 (split; [done|]). intros n. destruct (Hall n) as (sigs' & Hs & Hn).
  rewrite signals_for_app, signals_for_room in Hs.
  destruct (decide (n = x)) as [->|Hne].
  - rewrite decide_False in Hn by done. destruct Hn as [Hn ->].
    rewrite decide_True in Hs by done. rewrite app_nil_r in Hs.
    exists sigs. split; [done|]. rewrite decide_True by by left.
    destruct (h_rooms h !! x); rewrite Hn; exact Hroom.
  - rewrite decide_False in Hs by done. rewrite app_nil_r in Hs.
    exists sigs'. split; [done|]. rewrite Hother in Hn by done.
    destruct (decide (n ∈ l)) as [Hl|Hl], (decide (n ∈ x :: l)) as [Hl'|Hl']; try done; exfalso.
    + by apply Hl'; right.
    + by apply elem_of_cons in Hl' as [?|?].
Qed.

(** Publication touches the channel and the attentions only. *)
Definition publish_eq (r r' : Room) : Prop :=
  exists tx atts, r' = with_r_tx tx (with_r_attentions atts r).

#[local] Instance publish_eq_refl : Reflexive publish_eq.
Proof. intros r. exists (r_tx r), (r_attentions r). by destruct r. Qed.
#[local] Instance publish_eq_trans : Transitive publish_eq.
Proof. intros r1 r2 r3 (t & a & ->) (t' & a' & ->). by exists t', a'. Qed.

(** A room before and after a publication from [src]. *)
Definition published (src home n : string) (r r' : Room) : Prop :=
  publish_eq r r' /\ (n <> src -> n <> home -> r' = r).

Lemma deliver_care_rooms sig b h h' ok :
  deliver_care sig b h = (h', ok) -> h_rooms h' = h_rooms h /\ h_home_room h' = h_home_room h.
Proof.
  unfold deliver_care. destruct (sig_owner sig); [|by intros [= <- _]].
  destruct (if b then _ else _) as [h2 w] eqn:Hq.
  assert (quiet h h2) as Hqq.
  { destruct b; [by injection Hq as <- _|by eapply run_store_quiet]. }
  destruct w; intros [= <- _]; cbn; by rewrite (quiet_rooms _ _ Hqq), (quiet_home _ _ Hqq).
Qed.

Lemma publish_care_signal_ok src sig b h n r :
  h_rooms h !! n = Some r ->
  exists r', h_rooms (publish_care_signal src sig b h) !! n = Some r' /\
    published src (h_home_room h) n r r' /\
    h_home_room (publish_care_signal src sig b h) = h_home_room h.
Proof.
  intros Hr. assert (Hsame : published src (h_home_room h) n r r) by (split; [reflexivity|done]).
  unfold publish_care_signal. destruct (_ || _); [by exists r|].
  destruct (deliver_care sig b h) as [h1 ok] eqn:Hd.
  apply deliver_care_rooms in Hd as [Hrooms Hhome]. destruct ok; cbn [negb]; [|rewrite Hrooms; by exists r].
  set (attention := default _ _). set (h2 := match h_rooms h1 !! src with Some _ => _ | None => _ end).
  assert (Hh2 : exists r2, h_rooms h2 !! n = Some r2 /\ published src (h_home_room h) n r r2 /\
    h_home_room h2 = h_home_room h).
  { subst h2. rewrite Hrooms. destruct (h_rooms h !! src) as [s|] eqn:Hs;
      [|rewrite Hrooms, Hhome; by exists r]. cbn.
    rewrite Hrooms. destruct (decide (src = n)) as [<-|Hne].
    - rewrite lookup_insert_eq. eexists. split; [done|]. split; [|done].
      rewrite Hs in Hr. injection Hr as ->. split; [|done]. by do 2 eexists.
    - rewrite lookup_insert_ne by done. by exists r. }
  destruct Hh2 as (r2 & Hr2 & [Hp Hk] & Hhome2).
  destruct (_ && _); [|by exists r2]. rewrite entry_room_mut.
  unfold room_mut. rewrite put_room_put_room. cbn. rewrite Hhome2.
  destruct (decide (h_home_room h = n)) as [<-|Hne].
  - rewrite lookup_insert_eq. eexists. split; [done|]. split; [|done].
    rewrite (entry_room_Some _ _ _ Hr2). split; [|done].
    etransitivity; [exact Hp|]. exists (r_tx r2 ++ [SF_Care sig]), (r_attentions r2).
    by destruct r2.
  - rewrite lookup_insert_ne by done. exists r2. split; [done|]. by split; [|].
Qed.

Lemma publish_all_ok pending h n r :
  h_rooms h !! n = Some r ->
  exists r', h_rooms (foldl (fun h p => publish_care_signal p.1 p.2 true h) h pending) !! n
               = Some r' /\ publish_eq r r' /\
    (signals_for n pending = [] -> n <> h_home_room h -> r' = r).
Proof.
  revert h r. induction pending as [|[src sig] pending IH]; intros h r Hr; cbn [foldl].
  { exists r. split; [done|]. split; [reflexivity|done]. }
  destruct (publish_care_signal_ok src sig true h n r Hr) as (r1 & Hr1 & [Hp Hk] & Hhome).
  cbn [fst snd]. destruct (IH _ _ Hr1) as (r' & Hr' & Hp' & Hk').
  exists r'. split; [done|]. split; [by etransitivity|]. rewrite Hhome in Hk'.
  intros Hs Hne. unfold signals_for in Hs. cbn in Hs.
  destruct (decide (src = n)) as [|Hsrc]; [done|].
  rewrite Hk' by done. apply Hk; [congruence|done].
Qed.

(** The signals a sweep decides on, each of which [tick_care] then publishes. *)
Definition tick_signals h : list (string * CareSignal) := (foldl tick_room (h, []) (keys (h_rooms h))).2.

(** One sweep, seen from one room, with its signals. *)
Lemma tick_care_emits h n r :
  h_rooms h !! n = Some r ->
  exists r1 r', h_rooms (tick_care h) !! n = Some r' /\ publish_eq r1 r' /\
    visited (h_clock h) (h_home_room h) n r r1 (signals_for n (tick_signals h)).
Proof.
  intros Hr. unfold tick_care, tick_signals. destruct (foldl tick_room _ _) as [h1 pending] eqn:Ht.
  destruct (tick_rooms_ok _ _ _ _ _ (NoDup_keys _) Ht) as (Hc & Hh & Hall).
  destruct (Hall n) as (sigs & Hs & Hn). cbn [snd] in Hs |- *. cbn [app signals_for omap list_omap] in Hs. rewrite Hs.
  rewrite decide_True in Hn by (apply elem_of_keys; eauto). rewrite Hr in Hn.
  destruct Hn as (r1 & Hr1 & Hv).
  destruct (publish_all_ok pending h1 n r1 Hr1) as (r' & Hr' & Hp & _). by exists r1, r'.
Qed.

(** One sweep, seen from one room. *)
Lemma tick_care_room h n r :
  h_rooms h !! n = Some r ->
  exists r1 r', h_rooms (tick_care h) !! n = Some r' /\ publish_eq r1 r' /\
    (r1 = r \/ (rs_archived (r_settings r) = false /\ emission_step (h_clock h) r r1)) /\
    (rs_archived (r_settings r) = true -> n <> h_home_room h -> r' = r).
Proof.
  intros Hr. unfold tick_care. destruct (foldl tick_room _ _) as [h1 pending] eqn:Ht.
  destruct (tick_rooms_ok _ _ _ _ _ (NoDup_keys _) Ht) as (Hc & Hh & Hall).
  destruct (Hall n) as (sigs & Hs & Hn). cbn in Hs.
  rewrite decide_True in Hn by (apply elem_of_keys; eauto). rewrite Hr in Hn.
  destruct Hn as (r1 & Hr1 & Hv).
  destruct (publish_all_ok pending h1 n r1 Hr1) as (r' & Hr' & Hp & Hk).
  exists r1, r'. split; [done|]. split; [done|]. rewrite Hh in Hk.
  destruct Hv as [[-> ->]|(Ha & Hok & _)]; [split; [by left|]; by intros _; apply Hk|].
  split; [right; split; [done|apply Hok]|]. intros Ha'. congruence.
Qed.

(** ** Properties *)

(** An archived room is left in peace: whatever is overdue in it, a sweep
    changes nothing of an archived room that is not the caretaker's home. *)
Theorem archived_room_undisturbed h n r :
  h_rooms h !! n = Some r -> rs_archived (r_settings r) = true -> n <> h_home_room h ->
  h_rooms (tick_care h) !! n = Some r.
Proof.
  intros Hr Ha Hne. destruct (tick_care_room h n r Hr) as (r1 & r' & Hr' & _ & _ & Hsame).
  by rewrite Hr', Hsame.
Qed.

Lemma wait_due_spec r now w :
  wait_due r now w = true <->
  (rs_care_wait_secs (r_settings r) * 1000 <= sat_sub now (wait_since w))%N /\
  (forall last, wait_last_signal_at w = Some last ->
     rs_care_cooldown_secs (r_settings r) * 1000 <= sat_sub now last)%N /\
  (wait_signal_count w <= rs_care_max_attempts (r_settings r))%N.
Proof.
  unfold wait_due. rewrite !andb_true_iff, !negb_true_iff, N.ltb_ge, N.leb_le.
  destruct (wait_last_signal_at w) as [last|]; rewrite ?N.ltb_ge; naive_solver.
Qed.

(** A wait is nudged only when it is due: a sweep leaves a wait as it is, or
    records one more signal at the time of the sweep; and then the room is not
    archived, the wait has lasted its allowance, the cooldown since its last
    signal is over, and it has been neither nudged [max_attempts] times and
    escalated already. *)
Theorem wait_nudged_when_due h n r x w :
  h_rooms h !! n = Some r -> r_waits r !! x = Some w ->
  exists r' w', h_rooms (tick_care h) !! n = Some r' /\ r_waits r' !! x = Some w' /\
    (w' = w \/
     (w' = nudged (h_clock h) w /\ rs_archived (r_settings r) = false /\
      (rs_care_wait_secs (r_settings r) * 1000 <= sat_sub (h_clock h) (wait_since w))%N /\
      (forall last, wait_last_signal_at w = Some last ->
         rs_care_cooldown_secs (r_settings r) * 1000 <= sat_sub (h_clock h) last)%N /\
      (wait_signal_count w <= rs_care_max_attempts (r_settings r))%N)).
Proof.
  intros Hr Hw. destruct (tick_care_room h n r Hr) as (r1 & r' & Hr' & (tx & a & ->) & Hv & _).
  exists (with_r_tx tx (with_r_attentions a r1)). rewrite Hr'. clear Hr'. cbn.
  destruct Hv as [->|[Ha [|y v Hy Hdue|key _]]].
  - exists w. split; [done|]. split; [done|by left].
  - exists w. split; [done|]. split; [done|by left].
  - destruct (decide (y = x)) as [->|Hne].
    + exists (nudged (h_clock h) w). split; [done|]. rewrite Hw in Hy. injection Hy as <-.
      split; [cbn; by rewrite lookup_insert_eq|]. right. do 2 (split; [done|]).
      by apply wait_due_spec.
    + exists w. split; [done|]. split; [cbn; by rewrite lookup_insert_ne|by left].
  - exists w. split; [done|]. split; [done|by left].
Qed.

(** Sweeps at the given times, one after the other. *)
Definition sweeps (clocks : list N) h : Hub St :=
  foldl (fun h t => tick_care (with_h_clock t h)) h clocks.

(** The counts of a room stay within the attempts and one escalation. *)
Definition counts_within (limit : N) (r r' : Room) : Prop :=
  r_settings r' = r_settings r /\
  (forall x w, r_waits r !! x = Some w -> exists w', r_waits r' !! x = Some w' /\
     wait_waiting_for w' = wait_waiting_for w /\ wait_since w' = wait_since w /\
     (wait_signal_count w' <= N.max (wait_signal_count w) limit)%N) /\
  forall key, (mark_signal_count (care_mark r' key)
                 <= N.max (mark_signal_count (care_mark r key)) limit)%N.

Lemma counts_within_refl limit r : counts_within limit r r.
Proof. split; [done|]. split; [|intros; lia]. intros x w Hw. exists w. by repeat split; [|lia]. Qed.

Lemma counts_within_trans limit r1 r2 r3 :
  counts_within limit r1 r2 -> counts_within limit r2 r3 -> counts_within limit r1 r3.
Proof.
  intros (Hs & Hw & Hm) (Hs' & Hw' & Hm'). split; [congruence|]. split.
  - intros x w Hx. destruct (Hw _ _ Hx) as (w2 & Hx2 & ? & ? & ?).
    destruct (Hw' _ _ Hx2) as (w3 & Hx3 & ? & ? & ?). exists w3.
    repeat split; [done|congruence|congruence|lia].
  - intros key. specialize (Hm key). specialize (Hm' key). lia.
Qed.

Lemma counts_within_publish limit r r1 r2 :
  publish_eq r1 r2 -> counts_within limit r r1 -> counts_within limit r r2.
Proof. by intros (tx & a & ->). Qed.

Lemma emission_step_counts now r r1 :
  emission_step now r r1 ->
  counts_within (rs_care_max_attempts (r_settings r) + 1) r r1.
Proof.
  assert (Hinc : forall a limit, (a <= limit)%N -> (sat_add32 a 1 <= limit + 1)%N)
    by (unfold sat_add32; lia).
  destruct 1 as [|y v Hy Hdue|key Hready]; [apply counts_within_refl|..].
  - destruct (counts_within_refl (rs_care_max_attempts (r_settings r) + 1) r) as (? & Hw & Hm).
    split; [done|]. split; [|done]. intros x w Hx. cbn. destruct (decide (y = x)) as [->|Hne].
    + exists (nudged now w). rewrite lookup_insert_eq. rewrite Hx in Hy. injection Hy as <-.
      apply wait_due_spec in Hdue as (_ & _ & Hc). repeat split; [done..|].
      cbn. specialize (Hinc _ _ Hc). lia.
    + rewrite lookup_insert_ne by done. by apply Hw.
  - destruct (counts_within_refl (rs_care_max_attempts (r_settings r) + 1) r) as (? & Hw & Hm).
    split; [done|]. split; [done|]. intros k. unfold care_mark at 1. cbn.
    destruct (decide (key = k)) as [->|Hne]; [|rewrite lookup_insert_ne by done; apply Hm].
    rewrite lookup_insert_eq. cbn. unfold mark_ready in Hready.
    apply andb_true_iff in Hready as [Hc%N.leb_le _]. specialize (Hinc _ _ Hc). lia.
Qed.

(** A sweep keeps the counts of a room within the limit. *)
Lemma tick_counts h n r :
  h_rooms h !! n = Some r ->
  exists r', h_rooms (tick_care h) !! n = Some r' /\
    counts_within (rs_care_max_attempts (r_settings r) + 1) r r'.
Proof.
  intros Hr. destruct (tick_care_room h n r Hr) as (r1 & r' & Hr' & Hp & Hv & _).
  exists r'. split; [done|]. apply (counts_within_publish _ _ _ _ Hp).
  destruct Hv as [->|[_ Hstep%emission_step_counts]]; [apply counts_within_refl|exact Hstep].
Qed.

(** Care stays home: in one sweep a room that is not reminding everyone emits at
    most one signal; and every signal it emits is delivered in that room itself,
    or, when the caretaker owns it, in the caretaker's home room with the room it
    is about on the envelope - never in a third room. *)
Theorem care_stays_home room_name r owner h h' r' signals :
  room_emission room_name r owner h = (h', Some (r', signals)) ->
  (rs_care_recipient (r_settings r) <> RecipientAll -> length signals = 1) /\
  (forall s, s ∈ signals ->
     (sig_room s = room_name /\ sig_source_room s = ""%string) \/
     (sig_owner s = Some "loca-care"%string /\ room_name <> h_home_room h /\
      sig_room s = h_home_room h /\ sig_source_room s = room_name)) /\
  h_rooms h' = h_rooms h.
Proof.
  intros He. apply room_emission_ok in He as [Hq Hok].
  destruct (Hok _ eq_refl) as (_ & Hs & Hone). split; [done|].
  split; [by apply Forall_forall|by apply quiet_rooms].
Qed.
End facts.

(** ** Witnesses: [bob] has waited for [ada], the room's reachable lead, for a
    quarter of an hour *)

#[local] Existing Instance counter_csprng.

Definition ready_record : RuntimeRecord :=
  mkRuntimeRecord "IDLE" "IDLE" None None false false false false false 1000000 1000000.
Definition waiting : WaitState := mkWaitState "lab" "bob" "ada" "review" 100000 None 0.
Definition waiting_room : Room :=
  with_r_waits {["bob" := waiting]}
    (with_r_members {["mb:1" := ("ada", Agent, 1%N)]}
       (room_with Free (with_rs_lead (Some "ada") room_settings_default) 1)).
Definition waiting_hub : Hub unit :=
  with_h_runtime_health {["ada" := ready_record]}
    (with_h_clock 1000000 (put_room "lab" waiting_room (empty_hub tt))).

Lemma waiting_is_nudged :
  (r_waits (entry_room "lab" (tick_care waiting_hub)) !! "bob")%string
    = Some (nudged 1000000 waiting).
Proof. vm_compute. reflexivity. Qed.

Lemma wait_nudged_when_due_witness :
  exists r', h_rooms (tick_care waiting_hub) !! "lab" = Some r' /\
    r_waits r' !! "bob" = Some (nudged 1000000 waiting).
Proof.
  destruct (wait_nudged_when_due waiting_hub "lab" waiting_room "bob" waiting eq_refl eq_refl)
    as (r' & w' & Hr' & _).
  exists r'. split; [exact Hr'|]. pose proof waiting_is_nudged as Hn.
  rewrite (entry_room_Some _ _ _ Hr') in Hn. exact Hn.
Defined.

Lemma archived_room_undisturbed_witness :
  let r := with_r_settings (with_rs_archived true (r_settings waiting_room)) waiting_room in
  h_rooms (tick_care (put_room "lab" r waiting_hub)) !! "lab" = Some r.
Proof.
  cbn zeta. apply (archived_room_undisturbed (put_room "lab" _ waiting_hub) "lab");
    [apply lookup_insert_eq|reflexivity|done].
Defined.

Definition emitted : Hub unit * option emission :=
  room_emission "lab" waiting_room (Some "ada"%string) waiting_hub.
Definition emitted_room : emission := default (waiting_room, []) emitted.2.
Lemma emitted_ok :
  room_emission "lab" waiting_room (Some "ada"%string) waiting_hub
    = (emitted.1, Some (emitted_room.1, emitted_room.2)).
Proof. vm_compute. reflexivity. Qed.

Lemma care_stays_home_witness : length emitted_room.2 = 1.
Proof.
  destruct (care_stays_home "lab" waiting_room (Some "ada"%string) waiting_hub emitted.1
    emitted_room.1 emitted_room.2 emitted_ok) as [Hone _]. by apply Hone.
Defined.
