(* ===== verification/AttentionFacts.v ===== *)
(** * Properties of attention

    Whom an everyone reminder is for, who is chosen as the caretaker, when a
    runtime counts as ready, how often the sweeps signal a condition, and who may
    claim and resolve an attention. *)

From Stdlib Require Import Ascii.
From S2P Require Import Prelude Text Protocol StoreApi Hub Ledger Work Waits Attention.
From S2P Require Import Scheduler SchedulerFacts.

(** ** Runtimes *)

Section runtimes.
Context {St : Type}.
Implicit Types h : Hub St.

(** The same report, sent at each of the given times. *)
Definition reports (name : string) (update : RuntimeHealthUpdate) (clocks : list N) h : Hub St :=
  foldl (fun h t => (report_runtime_health name update (with_h_clock t h)).1) h clocks.

(** A record an update repeats. *)
Definition repeats (rec : RuntimeRecord) (update : RuntimeHealthUpdate) : Prop :=
  runtime_changed (Some rec) update = false.

Lemma report_repeated name update h t rec :
  h_runtime_health h !! name = Some rec -> repeats rec update ->
  exists rec', h_runtime_health (report_runtime_health name update (with_h_clock t h)).1 !! name
                 = Some rec' /\
    repeats rec' update /\ rr_wake rec' = rr_wake rec /\
    rr_progress_at rec' = rr_progress_at rec.
Proof.
  intros Hrec Hrep. unfold report_runtime_health.
  destruct (_ || _); [by exists rec|]. cbn. rewrite Hrec. rewrite lookup_insert_eq.
  unfold repeats in *. rewrite Hrep. eexists. split; [done|]. cbn in Hrep |- *.
  apply negb_false_iff in Hrep. repeat rewrite andb_true_iff in Hrep.
  destruct Hrep as [[[[[[[[Hw _] _] _] _] _] _] _] _]. apply bool_decide_eq_true_1 in Hw.
  split; [|by rewrite Hw].
  by rewrite !bool_decide_eq_true_2, !eqb_reflx by done.
Qed.

(** A heartbeat is not progress: a runtime that keeps reporting the same
    running turn, however often and until whenever, is not ready once the grace
    period since its last progress is over, and so is not chosen to take
    care of anything. *)
Theorem stalled_runtime_not_ready name update clocks now h rec :
  h_runtime_health h !! name = Some rec -> repeats rec update ->
  rr_wake rec = "RUNNING"%string ->
  (RUNTIME_WAKE_GRACE_MS < sat_sub now (rr_progress_at rec))%N ->
  runtime_ready (with_h_clock now (reports name update clocks h)) name = false.
Proof.
  revert h rec. induction clocks as [|t clocks IH]; intros h rec Hrec Hrep Hw Hlate.
  - unfold runtime_ready, runtime_health_for. cbn. rewrite Hrec. cbn.
    unfold runtime_record_ready. cbn. destruct (_ <? _)%N; [done|]. rewrite Hw.
    apply N.leb_gt. exact Hlate.
  - destruct (report_repeated name update h t rec Hrec Hrep) as (rec' & Hrec' & Hrep' & Hw' & Hp).
    apply (IH _ rec'); [done|done|congruence|by rewrite Hp].
Qed.
End runtimes.

(** ** The caretaker of a room *)

Section owners.
Context {St : Type} `{Unicode} `{StoreBase St}.
Implicit Types h : Hub St.

(** Seated in the room over a live connection, with a ready runtime. *)
Definition reachable_in h (room : string) (name : string) : Prop :=
  exists r, h_rooms h !! room = Some r /\ seated r name = true /\ runtime_ready h name = true.

(** Care goes to somebody who can take it: the owner [care_owner] names is
    seated in the room over a live connection with a ready runtime, and is the
    first such of the room's reminder recipients; only when none of them is
    reachable it is the configured caretaker, and then that one is seated and
    ready in the home room; and if there is no owner, none of these is
    reachable. *)
Theorem care_owner_is_reachable h room r :
  h_rooms h !! room = Some r ->
  match care_owner h room with
  | Some owner =>
      (exists before after, care_candidates r = before ++ owner :: after /\
         reachable_in h room owner /\ forall x, x ∈ before -> ~ reachable_in h room x) \/
      (owner = "loca-care"%string /\ "loca-care"%string ∈ h_caretakers h /\
       reachable_in h (h_home_room h) owner /\
       forall x, x ∈ care_candidates r -> ~ reachable_in h room x)
  | None =>
      (forall x, x ∈ care_candidates r -> ~ reachable_in h room x) /\
      ("loca-care"%string ∈ h_caretakers h -> ~ reachable_in h (h_home_room h) "loca-care")
  end.
Proof.
  intros Hr. unfold care_owner. rewrite Hr.
  set (ok := fun recipient => seated r recipient && runtime_ready h recipient).
  assert (Hok : forall x, ok x = true <-> reachable_in h room x).
  { intros x. unfold ok, reachable_in. rewrite andb_true_iff, Hr. naive_solver. }
  assert (Hfind : forall l, match List.find ok l with
    | Some o => exists before after, l = before ++ o :: after /\ ok o = true /\
        forall x, x ∈ before -> ok x = false
    | None => forall x, x ∈ l -> ok x = false end).
  { induction l as [|y l IH]; cbn; [by intros x ?%elem_of_nil|].
    destruct (ok y) eqn:Ey.
    - exists [], l. split; [done|]. split; [done|]. by intros x ?%elem_of_nil.
    - destruct (List.find ok l) as [o|].
      + destruct IH as (b & a & -> & Ho & Hb). exists (y :: b), a. split; [done|].
        split; [done|]. by intros x [->|Hx]%elem_of_cons; [|apply Hb].
      + by intros x [->|Hx]%elem_of_cons; [|apply IH]. }
  specialize (Hfind (care_candidates r)). destruct (List.find ok _) as [o|].
  { left. destruct Hfind as (b & a & E & Ho & Hb). exists b, a. split; [done|].
    split; [by apply Hok|]. intros x Hx. rewrite <- Hok. by rewrite Hb. }
  assert (Hnone : forall x, x ∈ care_candidates r -> ~ reachable_in h room x).
  { intros x Hx. rewrite <- Hok. by rewrite Hfind. }
  case_bool_decide as Hcare; cbn [negb]; [|by split].
  destruct (h_rooms h !! h_home_room h) as [home|] eqn:Hhome.
  - destruct (_ && _) eqn:Hready.
    + right. do 2 (split; [done|]). split; [|done]. exists home.
      by apply andb_true_iff in Hready.
    + split; [done|]. intros _ (x & Hx & Hs & Hre). rewrite Hhome in Hx. injection Hx as <-.
      by rewrite Hs, Hre in Hready.
  - split; [done|]. intros _ (x & Hx & _). congruence.
Qed.

(** ** Everyone *)

(** A live davet of the room whose membership stands for the principal. *)
Definition member_principal h (room : string) (pid : option string) : Prop :=
  exists t inv m, h_invites h !! t = Some inv /\ inv_room inv = room /\
    inv_member inv <> ""%string /\ h_members h !! inv_member inv = Some m /\
    principal_id_for_member_record (h_store h) (inv_member inv) = pid.

Lemma everyone_pairs_spec h room pid :
  member_principal h room pid <->
  exists token name, (token, name) ∈ everyone_pairs h room /\
    principal_id_for_member_record (h_store h) token = pid.
Proof.
  unfold everyone_pairs, member_principal. split.
  - intros (t & inv & m & Hi & Hr & Hm & Hmem & Hp).
    exists (inv_member inv), (mb_name m). split; [|done].
    apply list_elem_of_omap. exists inv. split; [apply elem_of_values; eauto|].
    unfold str_is_empty.
    rewrite bool_decide_eq_true_2, bool_decide_eq_false_2 by done. cbn. by rewrite Hmem.
  - intros (token & name & Hin & Hp). apply list_elem_of_omap in Hin as (inv & Hi & Hsel).
    apply elem_of_values in Hi as [t Hi]. unfold str_is_empty in Hsel.
    destruct (bool_decide_reflect (inv_room inv = room)) as [Hr|]; cbn in Hsel; [|done].
    destruct (bool_decide_reflect (inv_member inv = ""%string)) as [|Hm]; cbn in Hsel; [done|].
    destruct (h_members h !! inv_member inv) as [m|] eqn:Hmem; [|done].
    injection Hsel as <- <-. by exists t, inv, m.
Qed.

Lemma everyone_go_spec (s : St) pairs seen out :
  NoDup (out.*1) -> (forall p, p ∈ out.*1 <-> p ∈ seen) ->
  match everyone_go s pairs seen out with
  | None => exists t n, (t, n) ∈ pairs /\ principal_id_for_member_record s t = None
  | Some l => NoDup (l.*1) /\
      (forall t n, (t, n) ∈ pairs -> principal_id_for_member_record s t <> None) /\
      forall p, p ∈ l.*1 <-> p ∈ out.*1 \/
        exists t n, (t, n) ∈ pairs /\ principal_id_for_member_record s t = Some p
  end.
Proof.
  revert seen out. induction pairs as [|[t n] pairs IH]; intros seen out Hnd Hseen; cbn.
  { split; [done|]. split; [by intros t n ?%elem_of_nil|]. intros p. split; [by left|].
    intros [?|(t & n & ?%elem_of_nil & _)]; done. }
  destruct (principal_id_for_member_record s t) as [pid|] eqn:Ht; cycle 1.
  { exists t, n. split; [by left|done]. }
  assert (Hcase : forall seen' out', NoDup (out'.*1) -> (forall p, p ∈ out'.*1 <-> p ∈ seen') ->
    (forall p, p ∈ out'.*1 <-> p ∈ out.*1 \/ p = pid) ->
    match everyone_go s pairs seen' out' with
    | None => exists t' n', (t', n') ∈ (t, n) :: pairs /\
        principal_id_for_member_record s t' = None
    | Some l => NoDup (l.*1) /\
        (forall t' n', (t', n') ∈ (t, n) :: pairs ->
           principal_id_for_member_record s t' <> None) /\
        forall p, p ∈ l.*1 <-> p ∈ out.*1 \/
          exists t' n', (t', n') ∈ (t, n) :: pairs /\
            principal_id_for_member_record s t' = Some p
    end).
  { intros seen' out' Hnd' Hseen' Hout. specialize (IH seen' out' Hnd' Hseen').
    destruct (everyone_go s pairs seen' out') as [l|].
    - destruct IH as (Hl & Hall & Hp). split; [done|]. split.
      + intros t' n' [[= -> ->]|Hin]%elem_of_cons; [congruence|by eapply Hall].
      + intros p. rewrite Hp, Hout. split.
        * intros [[?| ->]|(t' & n' & ? & ?)]; [by left| |].
          { right. exists t, n. split; [by left|done]. }
          right. exists t', n'. split; [by right|done].
        * intros [?|(t' & n' & [[= -> ->]|?]%elem_of_cons & Hpid)]; [by left; left| |].
          { left. right. congruence. }
          right. by exists t', n'.
    - destruct IH as (t' & n' & ? & ?). exists t', n'. split; [by right|done]. }
  case_decide as Hin; apply Hcase; [done|done| | | |].
  - intros p. split; [by left|]. intros [?| ->]; [done|by apply Hseen].
  - rewrite fmap_app, NoDup_app. split; [done|]. cbn. split; [|apply NoDup_singleton].
    intros p Hp ->%list_elem_of_singleton. by apply Hin, Hseen.
  - intros p. rewrite fmap_app, elem_of_app, Hseen. cbn.
    rewrite list_elem_of_singleton. set_solver.
  - intros p. rewrite fmap_app, elem_of_app. cbn. by rewrite list_elem_of_singleton.
Qed.

Lemma everyone_recipients_facts h room l :
  everyone_recipients h room = Some l ->
  NoDup (l.*1) /\ forall p, p ∈ l.*1 <-> member_principal h room (Some p).
Proof.
  unfold everyone_recipients. intros (l0 & Hl & ->)%fmap_Some.
  pose proof (everyone_go_spec (h_store h) (everyone_pairs h room) ∅ []
    ltac:(constructor) ltac:(set_solver)) as Hgo.
  rewrite Hl in Hgo. destruct Hgo as (Hnd & Hall & Hp).
  assert (Hperm : (sort_by_str fst l0).*1 ≡ₚ l0.*1) by by rewrite sort_by_str_Permutation.
  split; [by rewrite Hperm|]. intros p. rewrite Hperm, Hp, everyone_pairs_spec. set_solver.
Qed.

(** Everyone means every member, once: the recipients of an everyone reminder
    are exactly the principals behind the live davets of the room, each of them
    once however many davets and display names they have; and when the principal
    of a single one of them is unknown there are no recipients at all, rather
    than some. *)
Theorem everyone_recipients_exact h room :
  match everyone_recipients h room with
  | Some l => NoDup (l.*1) /\ (forall p, p ∈ l.*1 <-> member_principal h room (Some p)) /\
      ~ member_principal h room None
  | None => member_principal h room None
  end.
Proof.
  destruct (everyone_recipients h room) as [l|] eqn:E.
  { destruct (everyone_recipients_facts h room l E) as [Hnd Hp]. split; [done|]. split; [done|].
    unfold everyone_recipients in E. apply fmap_Some in E as (l0 & E & _).
    rewrite everyone_pairs_spec. intros (t & n & Hin & Hnone).
    pose proof (everyone_go_spec (h_store h) (everyone_pairs h room) ∅ []
      ltac:(constructor) ltac:(set_solver)) as Hgo.
    rewrite E in Hgo. by eapply Hgo. }
  unfold everyone_recipients in E. apply fmap_None in E.
  pose proof (everyone_go_spec (h_store h) (everyone_pairs h room) ∅ []
    ltac:(constructor) ltac:(set_solver)) as Hgo.
  rewrite E in Hgo. destruct Hgo as (t & n & Hin & Hnone). apply everyone_pairs_spec. eauto.
Qed.
End owners.

(** ** The batch of an everyone reminder *)

Section everyone.
Context {St : Type} `{Csprng} `{StoreBase St} `{CareStore St}.
Implicit Types h : Hub St.

(** A signal for one member of the roster. *)
Definition personal h (room_name attention_key : string) (recipients : list (string * string))
    (s : CareSignal) : Prop :=
  exists pid name, (pid, name) ∈ recipients /\ everyone_recipient_active h room_name pid = true /\
    sig_owner_principal_id s = Some pid /\ sig_owner s = Some name /\
    sig_audience s = AudiencePerson name /\
    sig_attention_id s = "attention:" +:+ room_name +:+ ":" +:+ attention_key +:+ ":" +:+ pid.

Lemma personal_cons h n k p l s : personal h n k l s -> personal h n k (p :: l) s.
Proof. intros (pid & name & ? & ?). exists pid, name. split; [by right|done]. Qed.

Lemma rehome_fields h s room :
  sig_attention_id (rehome_caretaker_signal h s room) = sig_attention_id s /\
  sig_audience (rehome_caretaker_signal h s room) = sig_audience s /\
  sig_owner (rehome_caretaker_signal h s room) = sig_owner s /\
  sig_owner_principal_id (rehome_caretaker_signal h s room) = sig_owner_principal_id s.
Proof. unfold rehome_caretaker_signal. by destruct (_ && _). Qed.

Lemma everyone_signals_personal room_name r rem attempt recips sigs h h' sigs' :
  everyone_signals room_name r rem attempt recips sigs h = (h', sigs') ->
  exists new, sigs' = sigs ++ new /\
    sublist (sig_owner_principal_id <$> new)
      ((fun p : string * string => Some p.1) <$> recips) /\
    Forall (personal h room_name (rem_attention_key rem) recips) new.
Proof.
  revert sigs h. induction recips as [|[pid name] recips IH]; intros sigs h.
  { intros [= <- <-]. exists []. by rewrite app_nil_r. }
  cbn [everyone_signals]. destruct (everyone_recipient_active h room_name pid) eqn:Hact; cbn [negb];
    cycle 1.
  { intros (new & -> & Hsub & Hall)%IH. exists new. split; [done|]. split.
    - by apply sublist_cons.
    - eapply Forall_impl; [exact Hall|]. intros s. apply personal_cons. }
  set (draft := reminder_draft _ _ _ _ _ _ _ _ _).
  destruct (make_care_signal room_name r draft h) as [h1 s] eqn:Hm.
  intros (new & -> & Hsub & Hall)%IH.
  assert (Hh1 : h1 = with_h_entropy (h_entropy h + 1) h) by (by injection Hm as <- _).
  assert (Hall' : Forall (personal h room_name (rem_attention_key rem) ((pid, name) :: recips)) new).
  { eapply Forall_impl; [exact Hall|]. intros s' Hs'. apply personal_cons with (p := (pid, name)) in Hs'.
    by rewrite Hh1 in Hs'. }
  assert (Hs : personal h room_name (rem_attention_key rem) ((pid, name) :: recips) s).
  { exists pid, name. split; [by left|]. split; [done|]. injection Hm as _ <-.
    match goal with |- context [rehome_caretaker_signal ?hh ?ss ?rr] =>
      destruct (rehome_fields hh ss rr) as (-> & -> & -> & ->) end. done. }
  assert (Hpid : sig_owner_principal_id s = Some pid).
  { by destruct (make_care_signal_ok _ _ _ _ _ _ Hm) as [_ (_ & _ & -> & _)]. }
  destruct (owned_or_done _ _ _).
  - exists new. split; [done|]. split; [by apply sublist_cons|done].
  - exists (s :: new). rewrite <- app_assoc. split; [done|]. split; [|by constructor].
    cbn. rewrite Hpid. by apply sublist_skip.
Qed.

(** An everyone reminder is a batch of personal ones: each signal of the first
    emission is for one live member of the room, known by the principal and not
    by the display name, addressed to that person alone and filed under an
    attention of its own, and no member gets two. *)
Theorem everyone_batch_is_personal room_name r rem mark h h' r' signals :
  mark_signal_count mark = 0%N ->
  remind_everyone room_name r rem mark h = (h', Some (r', signals)) ->
  NoDup (sig_owner_principal_id <$> signals) /\
  (forall s, s ∈ signals -> exists pid name,
     member_principal h room_name (Some pid) /\
     everyone_recipient_active h room_name pid = true /\
     sig_owner_principal_id s = Some pid /\ sig_owner s = Some name /\
     sig_audience s = AudiencePerson name /\
     sig_attention_id s
       = "attention:" +:+ room_name +:+ ":" +:+ rem_attention_key rem +:+ ":" +:+ pid) /\
  r_care_marks r' !! rem_key rem = Some (mkCareMark (h_clock h) 1).
Proof.
  intros Hzero. unfold remind_everyone, generation_roster. rewrite Hzero. cbn [N.eqb].
  destruct (everyone_recipients h room_name) as [l|] eqn:Hl; [|done].
  destruct (everyone_recipients_facts h room_name l Hl) as (Hnd & Hmem).
  destruct (everyone_signals _ _ _ _ _ _ h) as [h1 sigs] eqn:Hs.
  apply everyone_signals_personal in Hs as (new & -> & Hsub & Hall). cbn [app].
  destruct new as [|s new]; [done|]. destruct (run_store _ h1) as [h2 w].
  destruct w as [[]|]; [|done]. intros [= <- <- <-]. split; [|split].
  - eapply sublist_NoDup; [|exact Hsub].
    change (NoDup ((Some ∘ fst) <$> l)). rewrite (list_fmap_compose fst Some).
    by apply (NoDup_fmap_2 Some).
  - intros s' Hs'. rewrite Forall_forall in Hall.
    destruct (Hall _ Hs') as (pid & name & Hin & Hrest). exists pid, name. split; [|done].
    apply Hmem, list_elem_of_fmap. by exists (pid, name).
  - cbn. rewrite lookup_insert_eq. unfold next_mark. by rewrite Hzero.
Qed.
End everyone.

(** ** How often a condition is signalled *)

(** *** The conditions that attention ids name *)

(** A text without a colon. *)
Definition plain (s : string) : Prop := ":"%char ∉ String.list_ascii_of_string s.

Lemma dec_plain n : plain (dec n).
Proof.
  unfold dec, pretty, pretty_N. case_decide; [unfold plain; cbn; set_solver|].
  assert (plain "") as Hs by (unfold plain; cbn; set_solver).
  revert Hs. generalize ""%string. clear. induction (N.lt_wf_0 n) as [n _ IH]. intros s Hs.
  destruct (decide (0 < n)%N); [|by replace n with 0%N by lia].
  rewrite pretty_N_go_step by done. apply IH; [by apply N.div_lt; lia|].
  unfold plain in *. cbn. intros [E|?]%elem_of_cons; [|done]. revert E.
  unfold pretty_N_char. by repeat case_match.
Qed.

Lemma split_first a : forall a' b b', plain a -> plain a' ->
  a +:+ ":" +:+ b = a' +:+ ":" +:+ b' -> a = a'.
Proof.
  unfold plain. induction a as [|x a IH]; intros [|y a'] b b' Ha Ha' E; [done|..]; cbn in *.
  - injection E as <- _. set_solver.
  - injection E as -> _. set_solver.
  - injection E as -> E. f_equal. eapply IH; [set_solver..|exact E].
Qed.

Lemma plain_suffix x b : ~ plain (x +:+ ":" +:+ b).
Proof. unfold plain. induction x; cbn in *; set_solver. Qed.

Lemma split_last a : forall a' b b', plain b -> plain b' ->
  a +:+ ":" +:+ b = a' +:+ ":" +:+ b' -> a = a'.
Proof.
  induction a as [|x a IH]; intros [|y a'] b b' Hb Hb' E; [done|..]; cbn in *.
  - injection E as _ E. change (b = a' +:+ ":" +:+ b') in E. subst b. by apply plain_suffix in Hb.
  - injection E as _ E. change (a +:+ ":" +:+ b = b') in E. subst b'. by apply plain_suffix in Hb'.
  - injection E as -> E. f_equal. eapply IH; [exact Hb|exact Hb'|exact E].
Qed.

(** What a sweep counts the signals of: a wait, or the condition of a mark. *)
Inductive condition : Type := OnWait (waiter : string) | OnMark (key : string).

Definition attention_of (room key : string) : string := "attention:" +:+ room +:+ ":" +:+ key.

(** The condition an attention is about, by its id. *)
Inductive about (room : string) : string -> condition -> Prop :=
  | about_wait x since :
      about room (attention_of room ("wait:" +:+ x +:+ ":" +:+ dec since)) (OnWait x)
  | about_cycle k : about room (attention_of room ("wait-cycle:" +:+ k)) (OnMark ("wait-cycle:" +:+ k))
  | about_task i rest :
      about room (attention_of room ("task:" +:+ dec i +:+ ":" +:+ rest)) (OnMark ("task:" +:+ dec i))
  | about_goal i rest :
      about room (attention_of room ("goal:" +:+ dec i +:+ ":" +:+ rest)) (OnMark ("goal:" +:+ dec i))
  | about_silence rest : about room (attention_of room ("silence:" +:+ rest)) (OnMark "silence").

Lemma attention_of_inj room k k' : attention_of room k = attention_of room k' -> k = k'.
Proof.
  unfold attention_of. intros E. apply (inj (String.append _)) in E. apply (inj (String.append _)) in E.
  by apply (inj (String.append _)) in E.
Qed.

Lemma about_fun room id c c' : about room id c -> about room id c' -> c = c'.
Proof.
  intros Hc Hc'. destruct Hc as [x since|k|i rest|i rest|rest];
    (match type of Hc' with about _ ?id _ => remember id as k0 eqn:E end);
    destruct Hc' as [y n|k'|j r|j r|r];
    apply attention_of_inj in E; try discriminate E; try done.
  - apply (inj (String.append _)) in E. f_equal. symmetry. eapply split_last; [apply dec_plain..|exact E].
  - by rewrite E.
  - apply (inj (String.append _)) in E. do 2 f_equal. symmetry. eapply split_first; [apply dec_plain..|exact E].
  - apply (inj (String.append _)) in E. do 2 f_equal. symmetry. eapply split_first; [apply dec_plain..|exact E].
Qed.

(** *** Counting *)

Definition signal_count (r : Room) (c : condition) : N :=
  match c with
  | OnWait x => default 0%N (wait_signal_count <$> r_waits r !! x)
  | OnMark key => mark_signal_count (care_mark r key)
  end.

(** An emission counts what it signals: every signal with an owner is the next one
    of the condition its attention is about, within the limit, and the only one of
    the emission for that attention. *)
Record counted (room : string) (r : Room) (em : emission) : Prop := {
  ct_mono : forall c, (signal_count r c <= signal_count em.1 c)%N;
  ct_owned : forall s, s ∈ em.2 -> sig_owner s <> None -> exists c,
    about room (sig_attention_id s) c /\
    (signal_count r c <= rs_care_max_attempts (r_settings r))%N /\
    signal_count em.1 c = (signal_count r c + 1)%N;
  ct_once : NoDup (sig_attention_id <$> em.2);
}.

Section counting.
Context {St : Type} `{Csprng} `{StoreBase St} `{CareStore St}.
Implicit Types h : Hub St.
Variables (room : string) (r : Room).
Hypothesis Hmax : (rs_care_max_attempts (r_settings r) < u32_max)%N.

Lemma counted_mark key now sigs :
  mark_ready r (care_mark r key) now = true ->
  (forall s, s ∈ sigs -> about room (sig_attention_id s) (OnMark key)) ->
  NoDup (sig_attention_id <$> sigs) ->
  counted room r (with_r_care_marks (<[key := next_mark (care_mark r key) now]> (r_care_marks r)) r, sigs).
Proof.
  unfold mark_ready. intros [Hc%N.leb_le _]%andb_true_iff Ha Hn.
  assert (sat_add32 (mark_signal_count (care_mark r key)) 1 = mark_signal_count (care_mark r key) + 1)%N as Hadd
    by (apply sat_add32_small; lia).
  constructor; [|intros s Hs _; exists (OnMark key); split_and!; [by apply Ha|done|]|done].
  - intros [x|k]; cbn; [lia|]. unfold care_mark at 2. cbn. destruct (decide (key = k)) as [->|Hne].
    + rewrite lookup_insert_eq. cbn. lia.
    + by rewrite lookup_insert_ne.
  - cbn. unfold care_mark at 1. cbn. by rewrite lookup_insert_eq.
Qed.

Lemma counted_wait x w now s :
  r_waits r !! x = Some w -> wait_due r now w = true ->
  about room (sig_attention_id s) (OnWait x) ->
  counted room r (with_r_waits (<[x := nudged now w]> (r_waits r)) r, [s]).
Proof.
  intros Hw (_ & _ & Hc)%wait_due_spec Ha.
  assert (sat_add32 (wait_signal_count w) 1 = wait_signal_count w + 1)%N as Hadd
    by (apply sat_add32_small; lia).
  constructor; [| |apply NoDup_singleton].
  - intros [y|k]; cbn; [|apply N.le_refl]. destruct (decide (x = y)) as [<-|Hne].
    + rewrite lookup_insert_eq, Hw. cbn. lia.
    + by rewrite lookup_insert_ne.
  - intros s' ->%list_elem_of_singleton _. exists (OnWait x). cbn. rewrite lookup_insert_eq, Hw. by split_and!.
Qed.

Lemma counted_visible s : sig_owner s = None -> counted room r (r, [s]).
Proof.
  intros Ho. constructor; [done| |apply NoDup_singleton]. by intros s' ->%list_elem_of_singleton ?.
Qed.

Lemma first_emission_some {A} (f : A -> Hub St -> Hub St * option emission) l h h' em :
  first_emission f l h = (h', Some em) -> exists x h1 h2, x ∈ l /\ f x h1 = (h2, Some em).
Proof.
  revert h. induction l as [|x l IH]; intros h; cbn; [done|].
  destruct (f x h) as [h1 [e|]] eqn:E.
  - intros [= _ <-]. exists x, h, h1. split; [by left|done].
  - intros (y & h2 & h3 & Hy & Ey)%IH. exists y, h2, h3. split; [by right|done].
Qed.

Lemma signal_cycle_counted owner cycle h h' em :
  signal_cycle room r owner cycle h = (h', Some em) -> counted room r em.
Proof.
  unfold signal_cycle. destruct (mark_ready _ _ _) eqn:Hready; cbn [negb]; [|done].
  destruct (make_care_signal _ _ _ _) as [h1 s] eqn:Hs. apply make_care_signal_ok in Hs as [_ Hd].
  destruct (owned_or_done _ _ _); [done|]. destruct (run_store _ h1) as [h2 [[]|]]; [|done].
  intros [= _ <-]. apply counted_mark; [done| |apply NoDup_singleton].
  intros s' ->%list_elem_of_singleton. destruct Hd as (_ & _ & _ & _ & _ & _ & ->). apply about_cycle.
Qed.

Lemma signal_wait_counted owner name h h' em :
  signal_wait room r owner name h = (h', Some em) -> counted room r em.
Proof.
  unfold signal_wait. destruct (r_waits r !! name) as [w|] eqn:Hw; [|done].
  destruct (wait_due _ _ _) eqn:Hdue; cbn [negb]; [|done].
  destruct (make_care_signal _ _ _ _) as [h1 s] eqn:Hs. apply make_care_signal_ok in Hs as [_ Hd].
  destruct (owned_or_done _ _ _); [done|]. destruct (run_store _ h1) as [h2 [[]|]]; [|done].
  intros [= _ <-]. apply counted_wait; [done..|].
  destruct Hd as (_ & _ & _ & _ & _ & _ & ->). apply (about_wait room name (wait_since w)).
Qed.

(** The ids of a reminder name its mark. *)
Lemma reminder_about rem now :
  rem ∈ room_reminders r now ->
  about room (attention_of room (rem_attention_key rem)) (OnMark (rem_key rem)) /\
  forall pid, about room (attention_of room (rem_attention_key rem +:+ ":" +:+ pid)) (OnMark (rem_key rem)).
Proof.
  unfold room_reminders. rewrite !elem_of_app. intros [Hin|[Hin|Hin]].
  - unfold task_reminders in Hin. destruct (0 <? _)%N; [|by apply elem_of_nil in Hin].
    apply list_elem_of_omap in Hin as (task & _ & Hk). cbv zeta in Hk. destruct (_ <=? _)%N; [|done].
    injection Hk as <-. cbn [rem_attention_key rem_key]. split; [apply about_task|]. intros pid.
    rewrite !string_app_assoc. apply about_task.
  - unfold goal_reminders in Hin. destruct (find_value _ _) as [goal|]; [|by apply elem_of_nil in Hin].
    cbv zeta in Hin. destruct (_ && _); [|by apply elem_of_nil in Hin].
    apply list_elem_of_singleton in Hin as ->. cbn [rem_attention_key rem_key]. split; [apply about_goal|]. intros pid.
    rewrite !string_app_assoc. apply about_goal.
  - unfold silence_reminders in Hin. destruct (_ && _); [|by apply elem_of_nil in Hin].
    apply list_elem_of_singleton in Hin as ->. cbn [rem_attention_key rem_key]. split; [apply about_silence|]. intros pid.
    rewrite !string_app_assoc. apply about_silence.
Qed.

(** No member is twice in the roster of a generation. *)
Lemma roster_nodup mark key h l : generation_roster room r mark key h = Some l -> NoDup l.*1.
Proof.
  unfold generation_roster. destruct (_ =? 0)%N.
  { intros Hl. by apply everyone_recipients_facts in Hl as [Hnd _]. }
  cbv zeta. generalize ("attention:" +:+ room +:+ ":" +:+ key +:+ ":"). intros prefix [= <-].
  rewrite sort_by_str_Permutation.
  pose proof (NoDup_fst_map_to_list (r_attentions r)) as Hnd. revert Hnd.
  generalize (map_to_list (r_attentions r)). intros l. induction l as [|[id a] l IH]; [constructor|].
  rewrite fmap_cons. intros [Hni Hnd]%NoDup_cons. cbn. case_bool_decide; [|by apply IH].
  destruct (strip_prefix id _) as [pid|] eqn:Ep; [|by apply IH].
  destruct (attn_owner a) as [name|]; [|by apply IH]. cbn. constructor; [|by apply IH].
  intros ([pid' name'] & E & ([id' a'] & Hin & E')%list_elem_of_omap)%list_elem_of_fmap. cbn in *. subst pid'.
  case_bool_decide; [|done]. destruct (strip_prefix id' _) as [pid'|] eqn:Ep'; [|done].
  destruct (attn_owner a'); [|done]. injection E' as -> _.
  apply strip_prefix_Some in Ep, Ep'. apply Hni, list_elem_of_fmap. exists (id', a'). split; [|done]. cbn. congruence.
Qed.

Lemma remind_everyone_counted rem now h h' em :
  rem ∈ room_reminders r now -> mark_ready r (care_mark r (rem_key rem)) (h_clock h) = true ->
  remind_everyone room r rem (care_mark r (rem_key rem)) h = (h', Some em) -> counted room r em.
Proof.
  intros Hrem Hready. unfold remind_everyone. destruct (generation_roster _ _ _ _ _) as [l|] eqn:Hl; [|done].
  apply roster_nodup in Hl. destruct (everyone_signals _ _ _ _ _ _ h) as [h1 sigs] eqn:Hs.
  apply everyone_signals_personal in Hs as (new & -> & Hsub & Hall). cbn [app].
  assert (counted room r (with_r_care_marks (<[rem_key rem := next_mark (care_mark r (rem_key rem)) (h_clock h)]>
    (r_care_marks r)) r, new)) as Hc.
  { rewrite Forall_forall in Hall. destruct (reminder_about _ _ Hrem) as [_ Hab].
    assert (forall s, s ∈ new -> exists pid, sig_owner_principal_id s = Some pid /\
      sig_attention_id s = attention_of room (rem_attention_key rem +:+ ":" +:+ pid)) as Hids.
    { intros s Hin. destruct (Hall s Hin) as (pid & name & _ & _ & Hp & _ & _ & Hid). by exists pid. }
    apply counted_mark; [done| |].
    - intros s Hin. destruct (Hids s Hin) as (pid & _ & ->). apply Hab.
    - assert (NoDup (sig_owner_principal_id <$> new)) as Hnd.
      { eapply sublist_NoDup; [|exact Hsub].
        change (NoDup ((Some ∘ fst) <$> l)). rewrite (list_fmap_compose fst Some). by apply (NoDup_fmap_2 Some). }
      revert Hnd Hids. clear. induction new as [|s new IH]; [constructor|]. rewrite !fmap_cons.
      intros [Hni Hnd]%NoDup_cons Hids. constructor; [|apply IH; [done|intros; apply Hids; by right] ].
      intros (s' & E & Hin)%list_elem_of_fmap. apply Hni, list_elem_of_fmap. exists s'. split; [|done].
      destruct (Hids s ltac:(by left)) as (pid & -> & Ei). destruct (Hids s' ltac:(by right)) as (pid' & -> & Ei').
      rewrite Ei, Ei' in E. apply attention_of_inj in E. apply (inj (String.append _)) in E.
      apply (inj (String.append _)) in E. by subst. }
  destruct new as [|s new]; [done|]. destruct (run_store _ h1) as [h2 [[]|]]; [|done]. by intros [= _ <-].
Qed.

Lemma remind_one_counted owner rem now h h' em :
  rem ∈ room_reminders r now -> mark_ready r (care_mark r (rem_key rem)) (h_clock h) = true ->
  remind_one room r owner rem (care_mark r (rem_key rem)) h = (h', Some em) -> counted room r em.
Proof.
  intros Hrem Hready. unfold remind_one. destruct (make_care_signal _ _ _ _) as [h1 s] eqn:Hs.
  apply make_care_signal_ok in Hs as [_ (_ & Ho & _ & _ & _ & _ & Hid)].
  destruct (owned_or_done _ _ _); [done|]. destruct owner as [owner|].
  - destruct (run_store _ h1) as [h2 [[]|]]; [|done]. intros [= _ <-].
    apply counted_mark; [done| |apply NoDup_singleton]. intros s' ->%list_elem_of_singleton.
    rewrite Hid. by apply (reminder_about rem now).
  - destruct (_ || _); [done|]. destruct (run_store _ h1) as [h2 [[]|]]; [|done]. intros [= _ <-].
    by apply counted_visible.
Qed.

Lemma signal_reminder_counted owner rem now h h' em :
  rem ∈ room_reminders r now -> signal_reminder room r owner rem h = (h', Some em) -> counted room r em.
Proof.
  intros Hrem. unfold signal_reminder. destruct (mark_ready _ _ _) eqn:Hready; cbn [negb]; [|done].
  destruct (rs_care_recipient (r_settings r)); first
    [by eapply remind_one_counted|by eapply remind_everyone_counted].
Qed.

Lemma room_emission_counted owner h h' em :
  room_emission room r owner h = (h', Some em) -> counted room r em.
Proof.
  unfold room_emission. destruct (first_emission (signal_cycle _ _ _) _ h) as [h1 [e1|]] eqn:E1.
  { intros [= _ <-]. apply first_emission_some in E1 as (x & ? & ? & _ & E1). by eapply signal_cycle_counted. }
  destruct (first_emission (signal_wait _ _ _) _ h1) as [h2 [e2|]] eqn:E2.
  { intros [= _ <-]. apply first_emission_some in E2 as (x & ? & ? & _ & E2). by eapply signal_wait_counted. }
  intros (x & ? & ? & Hx & E3)%first_emission_some. by eapply signal_reminder_counted.
Qed.
End counting.

(** *** Over the sweeps *)

Section over_sweeps.
Context {St : Type} `{Csprng} `{StoreBase St} `{CareStore St}.
Implicit Types h : Hub St.

(** The signals of [sweeps], in order, each with its room. *)
Fixpoint sweep_signals (clocks : list N) h : list (string * CareSignal) :=
  match clocks with
  | [] => []
  | t :: clocks =>
      let h := with_h_clock t h in tick_signals h ++ sweep_signals clocks (tick_care h)
  end.

(** How many of them a room made about an attention, for somebody to receive. *)
Definition signals_about (room id : string) (l : list (string * CareSignal)) : nat :=
  length (filter (fun s => sig_attention_id s = id /\ sig_owner s <> None) (signals_for room l)).

Lemma signals_about_app room id l l' :
  signals_about room id (l ++ l') = signals_about room id l + signals_about room id l'.
Proof. unfold signals_about. by rewrite signals_for_app, filter_app, length_app. Qed.

Lemma filter_id_once id (l : list CareSignal) :
  NoDup (sig_attention_id <$> l) ->
  length (filter (fun s => sig_attention_id s = id /\ sig_owner s <> None) l) <= 1.
Proof.
  induction l as [|s l IH]; [cbn; lia|]. rewrite fmap_cons. intros [Hni Hnd]%NoDup_cons.
  rewrite filter_cons. destruct (decide _) as [[E _]|]; [|by apply IH]. cbn.
  assert (filter (fun s => sig_attention_id s = id /\ sig_owner s <> None) l = []) as ->; [|cbn; lia].
  apply elem_of_nil_inv. intros s' ([E' _] & Hin)%list_elem_of_filter. apply Hni, list_elem_of_fmap.
  exists s'. split; [congruence|done].
Qed.

(** One sweep: the room's signals about [id] are counted. *)
Lemma tick_counted h n r id c :
  h_rooms h !! n = Some r -> (rs_care_max_attempts (r_settings r) < u32_max)%N -> about n id c ->
  exists r', h_rooms (tick_care h) !! n = Some r' /\ r_settings r' = r_settings r /\
    (signal_count r c <= signal_count r' c)%N /\
    (signals_about n id (tick_signals h) = 0 \/
     signals_about n id (tick_signals h) = 1 /\
     (signal_count r c <= rs_care_max_attempts (r_settings r))%N /\
     signal_count r' c = (signal_count r c + 1)%N).
Proof.
  intros Hr Hmax Hab. destruct (tick_care_emits h n r Hr) as (r1 & r' & Hr' & Hp & Hv).
  destruct (tick_counts h n r Hr) as (r'' & Hr'' & Hset & _). assert (r'' = r') as -> by congruence.
  exists r'. split; [done|]. split; [done|].
  assert (signal_count r' c = signal_count r1 c) as -> by (destruct Hp as (tx & a & ->); by destruct c).
  unfold signals_about. destruct Hv as [[-> ->]|(_ & _ & owner & h0 & h1 & _ & He)]; [split; [lia|by left]|].
  apply room_emission_counted in He as [Hmono Howned Honce]; [|done]. cbn [fst snd] in *.
  split; [apply Hmono|]. pose proof (filter_id_once id _ Honce) as Hle.
  destruct (filter _ _) as [|s l] eqn:Ef; [by left|right]. cbn in Hle |- *. split; [lia|].
  assert (s ∈ s :: l) as Hs by by left. rewrite <- Ef in Hs.
  apply list_elem_of_filter in Hs as [[Hid Ho] Hin]. destruct (Howned s Hin Ho) as (c' & Hab' & Hc).
  rewrite Hid in Hab'. by rewrite (about_fun _ _ _ _ Hab Hab').
Qed.

Lemma sweeps_counted clocks h n r id c :
  h_rooms h !! n = Some r -> (rs_care_max_attempts (r_settings r) < u32_max)%N -> about n id c ->
  (N.of_nat (signals_about n id (sweep_signals clocks h))
     <= rs_care_max_attempts (r_settings r) + 1 - signal_count r c)%N.
Proof.
  revert h r. induction clocks as [|t clocks IH]; intros h r Hr Hmax Hab; [cbn; lia|].
  cbn [sweep_signals]. rewrite signals_about_app.
  destruct (tick_counted (with_h_clock t h) n r id c Hr Hmax Hab) as (r' & Hr' & Hset & Hmono & Hk).
  specialize (IH (tick_care (with_h_clock t h)) r' Hr'). rewrite Hset in IH. specialize (IH Hmax Hab). lia.
Qed.

Lemma sweeps_within clocks h n r :
  h_rooms h !! n = Some r ->
  exists r', h_rooms (sweeps clocks h) !! n = Some r' /\
    counts_within (rs_care_max_attempts (r_settings r) + 1) r r'.
Proof.
  revert h r. induction clocks as [|t clocks IH]; intros h r Hr.
  { exists r. split; [done|apply counts_within_refl]. }
  destruct (tick_counts (with_h_clock t h) n r Hr) as (r' & Hr' & Hc1).
  destruct (IH _ _ Hr') as (r2 & Hr2 & Hc2). exists r2. split; [exact Hr2|].
  eapply counts_within_trans; [exact Hc1|]. destruct Hc1 as [Hs _]. by rewrite Hs in Hc2.
Qed.

(** An owned signal is about some condition. *)
Lemma signal_has_condition clocks h n r s :
  h_rooms h !! n = Some r -> (rs_care_max_attempts (r_settings r) < u32_max)%N ->
  s ∈ signals_for n (sweep_signals clocks h) -> sig_owner s <> None ->
  exists c, about n (sig_attention_id s) c.
Proof.
  revert h r. induction clocks as [|t clocks IH]; intros h r Hr Hmax; cbn [sweep_signals].
  { by intros ?%elem_of_nil. }
  rewrite signals_for_app, elem_of_app. intros [Hin|Hin] Ho.
  - destruct (tick_care_emits (with_h_clock t h) n r Hr) as (r1 & r' & _ & _ & Hv).
    destruct Hv as [[_ E]|(_ & _ & owner & h0 & h1 & _ & He)]; [by rewrite E in Hin; apply elem_of_nil in Hin|].
    apply room_emission_counted in He as [_ Howned _]; [|done]. destruct (Howned s Hin Ho) as (c & Hc & _).
    by exists c.
  - destruct (tick_counts (with_h_clock t h) n r Hr) as (r' & Hr' & Hs & _).
    eapply IH; [exact Hr'|by rewrite Hs|exact Hin|exact Ho].
Qed.

(** C36: Reminders end: however often and whenever the sweep runs, it sends a room's
    members at most [max_attempts] signals about one attention, and once more to
    escalate: a wait, a circle of waits, a task, a goal or a silence, for each
    member when everyone is reminded.  (A signal without an owner is shown in the
    room and reaches nobody; it is not counted.)  The counts the room keeps stay
    within that bound, and the waits themselves, who waits for whom and since when,
    are not touched. *)
Theorem reminders_are_bounded clocks h n r id :
  h_rooms h !! n = Some r -> (rs_care_max_attempts (r_settings r) < u32_max)%N ->
  (N.of_nat (signals_about n id (sweep_signals clocks h)) <= rs_care_max_attempts (r_settings r) + 1)%N /\
  exists r', h_rooms (sweeps clocks h) !! n = Some r' /\
    counts_within (rs_care_max_attempts (r_settings r) + 1) r r'.
Proof.
  intros Hr Hmax. split; [|by apply sweeps_within].
  destruct (filter (fun s => sig_attention_id s = id /\ sig_owner s <> None)
    (signals_for n (sweep_signals clocks h))) as [|s l] eqn:Ef.
  { unfold signals_about. rewrite Ef. cbn. lia. }
  assert (s ∈ s :: l) as Hs by by left. rewrite <- Ef in Hs.
  apply list_elem_of_filter in Hs as [[<- Ho] Hin].
  destruct (signal_has_condition clocks h n r s Hr Hmax Hin Ho) as [c Hc].
  pose proof (sweeps_counted clocks h n r _ c Hr Hmax Hc). lia.
Qed.
End over_sweeps.

(** ** Claiming and resolving *)

Section lifecycle.
Context {St : Type} `{Csprng} `{StoreBase St} `{CareStore St}.
Implicit Types h : Hub St.

(** An attention is claimed once, by its owner: a claim succeeds only for the
    owner of an open attention, which is then claimed in their name, and at any
    later state in which the room is unchanged every further claim, by whomever,
    is refused and changes nothing. *)
Theorem claim_is_exclusive room id actor h h' a :
  claim_attention room id actor h = (h', Ok a) ->
  (exists r prev, h_rooms h !! room = Some r /\ r_attentions r !! id = Some prev /\
     attn_status prev = AttnOpen /\ attn_owner prev = Some actor) /\
  attn_status a = AttnClaimed /\ attn_claimed_by a = Some actor /\
  attn_claimed_at a = Some (h_clock h) /\
  forall other (later : Hub St), h_rooms later !! room = h_rooms h' !! room ->
    exists e, claim_attention room id other later = (later, Err e).
Proof.
  unfold claim_attention at 1. destruct (h_rooms h !! room) as [r|] eqn:Hr; [|done].
  destruct (r_attentions r !! id) as [prev|] eqn:Hp; [|done].
  case_bool_decide as Ho; cbn [negb]; [|done]. case_bool_decide as Hs; cbn [negb]; [|done].
  destruct (run_store _ h) as [h1 w] eqn:Hst. apply run_store_state in Hst as [-> _].
  destruct w as [[|]|]; [|done..]. intros [= <- <-]. split; [by exists r, prev|].
  do 3 (split; [done|]). intros other later Hl. cbn in Hl. rewrite lookup_insert_eq in Hl.
  unfold claim_attention. rewrite Hl. cbn. rewrite lookup_insert_eq.
  case_bool_decide; cbn; eauto.
Qed.

(** Who may resolve: an operator; the principal the attention belongs to; and
    by display name only where no principal is on record and it is not part
    of an everyone reminder. *)
Definition may_resolve h (current : Attention) (id actor : string) (pid : option string)
    (op : bool) : Prop :=
  op = true \/
  (exists p, attention_owner_principal_id (h_store h) id = Ok (Some (Some p)) /\ pid = Some p) \/
  ((attn_owner current = Some actor \/ attn_claimed_by current = Some actor) /\
   (attention_owner_principal_id (h_store h) id = Ok (Some None) \/
    (attention_owner_principal_id (h_store h) id = Ok None /\ attn_group current = None))).

Lemma owns_by_name_true a actor :
  owns_by_name a actor = true <-> attn_owner a = Some actor \/ attn_claimed_by a = Some actor.
Proof. unfold owns_by_name. by rewrite orb_true_iff, !bool_decide_eq_true. Qed.

Lemma resolve_authorized_sound pid0 current actor pid :
  resolve_authorized pid0 current actor pid = true ->
  (exists p, pid0 = Some (Some p) /\ pid = Some p) \/
  ((attn_owner current = Some actor \/ attn_claimed_by current = Some actor) /\
   (pid0 = Some None \/ (pid0 = None /\ attn_group current = None))).
Proof.
  unfold resolve_authorized. destruct pid0 as [[p|]|].
  - rewrite bool_decide_eq_true. eauto.
  - rewrite owns_by_name_true. eauto.
  - destruct (attn_group current); [done|]. rewrite owns_by_name_true. eauto.
Qed.

(** A resolution is authorized and final: an attention is resolved by an
    operator or by its owner - the authenticated principal on record, a display
    name only where none is - and from then on, at any later state in which the
    room is unchanged, it can neither be claimed nor resolved again. *)
Theorem resolution_is_final room id actor pid op h h' a :
  resolve_attention room id actor pid op h = (h', Ok a) ->
  (exists r prev, h_rooms h !! room = Some r /\ r_attentions r !! id = Some prev /\
     attn_status prev <> AttnResolved /\ may_resolve h prev id actor pid op) /\
  attn_status a = AttnResolved /\ attn_resolved_at a = Some (h_clock h) /\
  forall (later : Hub St), h_rooms later !! room = h_rooms h' !! room ->
    (forall other, exists e, claim_attention room id other later = (later, Err e)) /\
    (forall other opid oop, exists e,
       resolve_attention room id other opid oop later = (later, Err e)).
Proof.
  unfold resolve_attention at 1. destruct (h_rooms h !! room) as [r|] eqn:Hr; [|done].
  destruct (r_attentions r !! id) as [prev|] eqn:Hp; [|done].
  destruct (if op then Ok true else _) as [auth|e] eqn:Hauth; [|done].
  destruct auth; [|done]. destruct (decide _) as [|Hs]; [done|].
  destruct (run_store _ h) as [h1 w] eqn:Hst. apply run_store_state in Hst as [-> _].
  destruct w as [[|]|]; [|done..]. intros [= <- <-]. split.
  { exists r, prev. do 3 (split; [done|]). unfold may_resolve.
    destruct op; [by left|]. right.
    destruct (attention_owner_principal_id (h_store h) id) as [o|]; [|done].
    injection Hauth as Hauth.
    destruct (resolve_authorized_sound _ _ _ _ Hauth) as [(p & -> & ->)|[Hn [->|[-> Hg]]]];
      eauto 6. }
  do 2 (split; [done|]). intros later Hl. cbn in Hl. rewrite lookup_insert_eq in Hl.
  split.
  - intros other. unfold claim_attention. rewrite Hl. cbn. rewrite lookup_insert_eq.
    case_bool_decide; cbn; eauto.
  - intros other opid oop. unfold resolve_attention. rewrite Hl. cbn. rewrite lookup_insert_eq.
    destruct (if oop then Ok true else _) as [[|]|]; cbn; eauto.
Qed.

(** ** Resolved attentions and the scheduler *)

(** The store files an attention under its id. *)
Class CareStoreLaws : Prop := {
  store_attention_id : forall (s : St) id a, store_attention s id = Some a -> attn_id a = id;
}.

Lemma publish_keeps_resolved `{CareStoreLaws} src sig b h n r id a :
  h_rooms h !! n = Some r -> r_attentions r !! id = Some a -> attn_status a = AttnResolved ->
  exists r', h_rooms (publish_care_signal src sig b h) !! n = Some r' /\
    r_attentions r' !! id = Some a.
Proof.
  intros Hr Ha Hres. unfold publish_care_signal.
  destruct (_ || _) eqn:Hdone; [by exists r|]. apply orb_false_iff in Hdone as [Hdone _].
  destruct (deliver_care sig b h) as [h1 ok] eqn:Hd. apply deliver_care_rooms in Hd as [Hrooms Hhome].
  destruct ok; cbn [negb]; [|rewrite Hrooms; by exists r].
  set (att := default _ _).
  assert (Hid : attn_id att = stable_attention_id sig).
  { subst att. destruct (store_attention (h_store h1) _) as [a'|] eqn:E; cbn; [|done].
    by eapply store_attention_id. }
  set (h2 := match h_rooms h1 !! src with Some _ => _ | None => _ end).
  assert (Hh2 : exists r2, h_rooms h2 !! n = Some r2 /\ r_attentions r2 !! id = Some a).
  { subst h2. rewrite Hrooms. destruct (h_rooms h !! src) as [s|] eqn:Hs;
      [|rewrite Hrooms; by exists r]. cbn. rewrite Hrooms.
    destruct (decide (src = n)) as [<-|Hne].
    - rewrite lookup_insert_eq. eexists. split; [done|]. cbn.
      rewrite Hs in Hr. injection Hr as ->. rewrite lookup_insert_ne; [done|].
      rewrite Hid. intros E. cbn in Hdone. rewrite E, Ha in Hdone. cbn in Hdone.
      by rewrite bool_decide_eq_true_2 in Hdone.
    - rewrite lookup_insert_ne by done. by exists r. }
  destruct Hh2 as (r2 & Hr2 & Ha2). destruct (_ && _); [|by exists r2].
  rewrite entry_room_mut. unfold room_mut. rewrite put_room_put_room. cbn.
  destruct (decide (h_home_room h2 = n)) as [<-|Hne].
  - rewrite lookup_insert_eq. eexists. split; [done|]. by rewrite (entry_room_Some _ _ _ Hr2).
  - rewrite lookup_insert_ne by done. by exists r2.
Qed.

(** The scheduler never reopens an attention: once an attention of a room is
    resolved, no sweep changes it, however often the condition it was about
    comes up again under the same id. *)
Theorem sweep_keeps_resolved `{CareStoreLaws} h n r id a :
  h_rooms h !! n = Some r -> r_attentions r !! id = Some a -> attn_status a = AttnResolved ->
  exists r', h_rooms (tick_care h) !! n = Some r' /\ r_attentions r' !! id = Some a.
Proof.
  intros Hr Ha Hres. unfold tick_care. destruct (foldl tick_room _ _) as [h1 pending] eqn:Ht.
  destruct (tick_rooms_ok _ _ _ _ _ (NoDup_keys _) Ht) as (_ & _ & Hall).
  destruct (Hall n) as (sigs & _ & Hn).
  rewrite decide_True in Hn by (apply elem_of_keys; eauto). rewrite Hr in Hn.
  destruct Hn as (r1 & Hr1 & Hv).
  assert (Ha1 : r_attentions r1 !! id = Some a).
  { destruct Hv as [[-> _]|(_ & [Hstep _] & _)]; [done|]. cbn in Hstep. by destruct Hstep. }
  clear - Hr1 Ha1 Hres H2. revert h1 r1 Hr1 Ha1.
  induction pending as [|[src sig] pending IH]; intros h1 r1 Hr1 Ha1; cbn; [by exists r1|].
  destruct (publish_keeps_resolved src sig true h1 n r1 id a Hr1 Ha1 Hres) as (r2 & Hr2 & Ha2).
  by eapply IH.
Qed.
End lifecycle.

(** ** Witnesses *)

#[local] Existing Instance counter_csprng.

(** [ada], whose runtime has been running the same turn since the start. *)
Definition running_update : RuntimeHealthUpdate :=
  mkRuntimeHealthUpdate "RUNNING" "IDLE" None None false false false false false.
Definition running_record : RuntimeRecord :=
  mkRuntimeRecord "RUNNING" "IDLE" None None false false false false false 1000 1000.
Definition running_hub : Hub unit :=
  with_h_runtime_health {["ada" := running_record]} (empty_hub tt).

(** Four sweeps, five minutes apart, of a room that allows two signals and one more,
    while [ada] is heard of. *)
Definition four_sweeps : list N := [1000000; 1300000; 1600000; 1900000]%N.
Definition attended_hub : Hub unit :=
  with_h_runtime_health
    {["ada" := mkRuntimeRecord "IDLE" "IDLE" None None false false false false false 1900000 1900000]}
    waiting_hub.
Lemma three_signals :
  signals_about "lab" "attention:lab:wait:bob:100000" (sweep_signals four_sweeps attended_hub) = 3.
Proof. vm_compute. reflexivity. Qed.

Lemma reminders_are_bounded_witness :
  (N.of_nat (signals_about "lab" "attention:lab:wait:bob:100000" (sweep_signals four_sweeps attended_hub)) <= 3)%N.
Proof.
  exact (proj1 (reminders_are_bounded four_sweeps attended_hub "lab" waiting_room
    "attention:lab:wait:bob:100000" eq_refl eq_refl)).
Defined.

Lemma stalled_runtime_not_ready_witness :
  runtime_ready (with_h_clock 20000
    (reports "ada" running_update [6000; 12000; 18000]%N running_hub)) "ada" = false.
Proof.
  apply (stalled_runtime_not_ready "ada" running_update [6000; 12000; 18000]%N 20000 running_hub
    running_record); reflexivity.
Defined.

Lemma care_owner_is_reachable_witness :
  care_owner waiting_hub "lab" = Some "ada"%string /\ reachable_in waiting_hub "lab" "ada".
Proof.
  split; [vm_compute; reflexivity|].
  pose proof (care_owner_is_reachable waiting_hub "lab" waiting_room eq_refl) as Hown.
  replace (care_owner waiting_hub "lab") with (Some "ada"%string) in Hown
    by (vm_compute; reflexivity).
  destruct Hown as [(b & a & _ & Hreach & _)|(He & _)]; [exact Hreach|discriminate He].
Defined.

(** A room that reminds everyone: [ada] and [bob] hold davets, [ada] two of
    them under two names. *)
#[local] Instance named_principals : StoreBase unit := {|
  is_persistent _ := true;
  principal_id_for_member_record _ m :=
    if decide (m = "mb_3"%string) then Some "pr_mb_1"%string else Some ("pr_" +:+ m) |}.
Definition everyone_hub : Hub unit :=
  with_h_members
    {["mb_1" := mkMembership "mb_1" "ada" "agent" 1 "master";
      "mb_2" := mkMembership "mb_2" "bob" "agent" 1 "master";
      "mb_3" := mkMembership "mb_3" "ada-old" "agent" 1 "master"]}
    (with_h_invites
       {["dv_1" := mkInvite "dv_1" "lab" "mb_1" "ada" "agent" 1 "master";
         "dv_2" := mkInvite "dv_2" "lab" "mb_2" "bob" "agent" 1 "master";
         "dv_3" := mkInvite "dv_3" "lab" "mb_3" "ada-old" "agent" 1 "master"]}
       (with_h_clock 9000 (put_room "lab" waiting_room (empty_hub tt)))).
Definition quiet_reminder : Reminder :=
  mkReminder "silence" "silence:1" RoomSilence None [] "operator-enabled room silence check".
Definition batch : Hub unit * option emission :=
  remind_everyone "lab" waiting_room quiet_reminder (mkCareMark 0 0) everyone_hub.
Definition batch_room : emission := default (waiting_room, []) batch.2.
Lemma batch_ok :
  remind_everyone "lab" waiting_room quiet_reminder (mkCareMark 0 0) everyone_hub
    = (batch.1, Some (batch_room.1, batch_room.2)).
Proof. vm_compute. reflexivity. Qed.

Lemma everyone_batch_is_personal_witness :
  length batch_room.2 = 2 /\ NoDup (sig_owner_principal_id <$> batch_room.2).
Proof.
  split; [vm_compute; reflexivity|].
  destruct (everyone_batch_is_personal "lab" waiting_room quiet_reminder (mkCareMark 0 0)
    everyone_hub batch.1 batch_room.1 batch_room.2 eq_refl batch_ok) as [Hnd _]. exact Hnd.
Defined.

(** An attention of [ada]'s, open and then resolved. *)
Definition call (status : AttentionStatus) : Attention :=
  mkAttention "att_1" "lab" ReasonManual "help" (AudiencePerson "ada") (Some "ada"%string) None
    ["ada"%string] "bob" 900 1 false status None None None None.
Definition call_hub (status : AttentionStatus) : Hub unit :=
  put_room "lab" (with_r_attentions {["att_1" := call status]} waiting_room) (empty_hub tt).

Definition claimed : Hub unit * result Attention AttentionError :=
  claim_attention "lab" "att_1" "ada" (call_hub AttnOpen).
Definition claimed_call : Attention :=
  with_attn_claimed_at (Some 1000%N)
    (with_attn_claimed_by (Some "ada"%string) (with_attn_status AttnClaimed (call AttnOpen))).
Lemma claimed_ok :
  claim_attention "lab" "att_1" "ada" (call_hub AttnOpen) = (claimed.1, Ok claimed_call).
Proof. vm_compute. reflexivity. Qed.

Lemma claim_is_exclusive_witness :
  exists e, claim_attention "lab" "att_1" "ada" claimed.1 = (claimed.1, Err e).
Proof.
  destruct (claim_is_exclusive "lab" "att_1" "ada" (call_hub AttnOpen) claimed.1 claimed_call
    claimed_ok) as (_ & _ & _ & _ & Hlater). exact (Hlater "ada"%string claimed.1 eq_refl).
Defined.

Definition resolved : Hub unit * result Attention AttentionError :=
  resolve_attention "lab" "att_1" "ada" None false (call_hub AttnOpen).
Definition resolved_call : Attention := resolve_at 1000 (call AttnOpen).
Lemma resolved_ok :
  resolve_attention "lab" "att_1" "ada" None false (call_hub AttnOpen)
    = (resolved.1, Ok resolved_call).
Proof. vm_compute. reflexivity. Qed.

Lemma resolution_is_final_witness :
  exists e, resolve_attention "lab" "att_1" "root" None true resolved.1 = (resolved.1, Err e).
Proof.
  destruct (resolution_is_final "lab" "att_1" "ada" None false (call_hub AttnOpen) resolved.1
    resolved_call resolved_ok) as (_ & _ & _ & Hlater).
  destruct (Hlater resolved.1 eq_refl) as [_ Hres]. exact (Hres "root"%string None true).
Defined.

#[local] Instance memory_only_care_laws : CareStoreLaws (St := unit).
Proof. constructor. intros s id a E. discriminate E. Qed.

Lemma sweep_keeps_resolved_witness :
  exists r', h_rooms (tick_care (call_hub AttnResolved)) !! "lab" = Some r' /\
    r_attentions r' !! "att_1" = Some (call AttnResolved).
Proof.
  exact (sweep_keeps_resolved (call_hub AttnResolved) "lab"
    (with_r_attentions {["att_1" := call AttnResolved]} waiting_room) "att_1" (call AttnResolved)
    eq_refl eq_refl eq_refl).
Defined.
