(* ===== verification/Queries.v ===== *)
(** * What the hub answers

    The reads of crates/server/src/hub.rs and
    hub/attention/runtime_health.rs that the HTTP handlers serve: none of them
    changes the hub. *)

From Stdlib Require Import Ascii.
From S2P Require Import Prelude Text Protocol StoreApi Hub Seats Attention Access Membership Rooms.

(** @src proto struct RoomSummary *)
Record RoomSummary : Type := mkRoomSummary {
  sum_room : string;
  sum_members : nat;
  sum_humans : nat;
  sum_agents : nat;
  sum_mode : ChatMode;
  sum_archived : bool;
  sum_last : option string;
  sum_last_id : N;
  sum_special : bool;
}.

(** @src proto struct Resident *)
Record Resident : Type := mkResident {
  res_name : string;
  res_kind : string;
  res_locas : list string;
  res_online : bool;
  res_runtime : option RuntimeHealth;
  res_membership_id : option string;
  res_suspended : bool;
}.
Definition with_res_locas (v : list string) (r : Resident) : Resident :=
  mkResident (res_name r) (res_kind r) v (res_online r) (res_runtime r)
    (res_membership_id r) (res_suspended r).
Definition with_res_online (v : bool) (r : Resident) : Resident :=
  mkResident (res_name r) (res_kind r) (res_locas r) v (res_runtime r)
    (res_membership_id r) (res_suspended r).

Section queries.
Context {St : Type} `{Unicode} `{Digest} `{StoreBase St} `{IdentityStore St} `{ReadStore St}.
Implicit Types h : Hub St.

(** ** Messages *)

(** @src hub fn recent_messages *)
Definition recent_messages h (room : string) : list Message :=
  match h_rooms h !! room with Some r => r_history r | None => [] end.

(** @src hub fn messages_after *)
Definition messages_after h (room : string) (since : N) (limit : nat) : dbres (list Message) :=
  match store_messages_after (h_store h) room since limit with
  | Err e => Err e
  | Ok (Some messages) => Ok messages
  | Ok None =>
      Ok (take limit (filter (fun m => (since < msg_id m)%N) (recent_messages h room)))
  end.

(** @src hub fn reactions *)
Definition reactions h (room : string) : list MessageReaction :=
  match message_reactions (h_store h) room with Ok l => l | Err _ => [] end.

(** ** The room *)

(** @src hub fn members *)
Definition members h (room : string) : list Member :=
  match h_rooms h !! room with Some r => member_list r | None => [] end.

(** @src hub fn is_live *)
Definition is_live h (room : string) : bool :=
  match h_rooms h !! room with Some r => rs_live (r_settings r) | None => false end.

(** @src hub fn is_lead *)
Definition is_lead h (room name : string) : bool :=
  bool_decide ((h_rooms h !! room) ≫= (fun r => rs_lead (r_settings r)) = Some name).

(** @src hub fn journal *)
Definition journal h (room : string) : list JournalEntry :=
  match h_rooms h !! room with Some r => r_journal r | None => [] end.

(** @src hub fn notes *)
Definition notes h (room : string) : list Note :=
  match h_rooms h !! room with Some r => sort_by_str note_key (values (r_notes r)) | None => [] end.

(** @src hub fn note *)
Definition note h (room key : string) : option Note :=
  match h_rooms h !! room with Some r => r_notes r !! key | None => None end.

(** @src hub fn note_history *)
Definition note_history h (room key : string) : dbres (list Note) :=
  store_note_history (h_store h) room key.

(** [str::contains] on a string *)
Fixpoint str_contains (s t : string) : bool :=
  String.prefix t s || match s with EmptyString => false | String _ s => str_contains s t end.

(** The capital dotted i (U+0130). *)
Definition dotted_i : string := String "196" (String "176" EmptyString).
(** @src store.rs fn search_fold *)
Definition search_fold (text : string) : string :=
  to_lowercase
    (concat_chars (map (fun c => if decide (c = dotted_i) then "i"%string else c) (chars text))).

(** @src hub:3993-4019 search *)
Definition search h (room q : string) (limit : nat) : dbres (list Message * list Note) :=
  match search_messages (h_store h) room q limit with
  | Err e => Err e
  | Ok msgs =>
      let ql := search_fold q in
      Ok (msgs,
          match h_rooms h !! room with
          | Some r =>
              filter (fun n => str_contains (search_fold (note_title n)) ql
                               || str_contains (search_fold (note_body n)) ql
                               || str_contains (search_fold (note_key n)) ql)
                (values (r_notes r))
          | None => []
          end)
  end.

(** ** The building *)

(** @src hub fn is_reserved_room *)
Definition is_reserved_room h (room : string) : bool :=
  negb (str_is_empty (h_reserved_room h)) && bool_decide (room = h_reserved_room h).

(** Connected seats of a kind. *)
Definition present (kind : SenderType) (r : Room) : nat :=
  length (filter (fun p : string * SenderType * N => (0 < p.2)%N /\ p.1.2 = kind)
            (values (r_members r))).

(** @src hub:4083-4107 room_summaries_for *)
Definition room_summary h (name : string) (r : Room) : RoomSummary :=
  let humans := present User r in
  let agents := present Agent r in
  {| sum_room := name; sum_members := humans + agents; sum_humans := humans;
     sum_agents := agents; sum_mode := r_mode r; sum_archived := rs_archived (r_settings r);
     sum_last := (fun m => msg_sender m +:+ ": " +:+ concat_chars (take 48 (chars (msg_text m))))
                   <$> last (r_history r);
     sum_last_id := default 0%N (msg_id <$> last (r_history r));
     sum_special := is_reserved_room h name |}.

(** @src hub fn room_summaries_for *)
Definition room_summaries_for h (reach : string -> bool) : list RoomSummary :=
  sort_by_str sum_room
    (map (fun p => room_summary h p.1 p.2)
       (filter (fun p : string * Room => reach p.1) (map_to_list (h_rooms h)))).

(** @src hub fn memberships *)
Definition memberships h : list Membership := values (h_members h).

(** @src hub fn smasters *)
Definition smasters h : list (string * string) := map_to_list (h_smasters h).

(** @src hub fn invite_room *)
Definition invite_room h (token : string) : option string := inv_room <$> h_invites h !! token.

(** @src hub fn is_invite_token *)
Definition is_invite_token h (token : option string) : bool :=
  match token ≫= invite_by_token h with Some _ => true | None => false end.

(** @src hub fn invites_for_member *)
Definition invites_for_member h (member_token : string) : list Invite :=
  davets_where (fun i => bool_decide (inv_member i = member_token)) h.

(** @src hub fn member_suspension_supported *)
Definition member_suspension_supported h : bool := is_persistent (h_store h).

(** @src hub fn is_caretaker *)
Definition is_caretaker h (name : string) : bool := bool_decide (name ∈ h_caretakers h).

(** @src hub fn master_principal *)
Definition master_principal h : option PrincipalIdentity := active_master_principal (h_store h).

(** @src hub fn profiles *)
Definition profiles h : list PrincipalIdentity := active_principals (h_store h).

(** *** Residents *)

(** @src hub/attention/runtime_health.rs:117-130 residents *)
Definition member_resident h (m : Membership) : Resident := {|
  res_name := mb_name m; res_kind := mb_kind m; res_locas := [];
  res_online := lobby_is_online h (mb_token m);
  res_runtime := runtime_health_for h (mb_name m);
  res_membership_id := Some (member_management_id (mb_token m));
  res_suspended := member_suspended h (mb_token m) |}.

Definition add_loca (room : string) (e : Resident) : Resident :=
  if bool_decide (room ∈ res_locas e) then e else with_res_locas (res_locas e ++ [room]) e.

(** [if let Some(e) = by_name.get_mut(name) { .. }] *)
Definition decorate (name : string) (f : Resident -> Resident)
    (by_name : gmap string Resident) : gmap string Resident :=
  alter f name by_name.

(** @src hub/attention/runtime_health.rs fn residents *)
Definition residents h : list Resident :=
  let by_name :=
    foldl (fun acc m => <[mb_name m := member_resident h m]> acc) ∅ (values (h_members h)) in
  let by_name :=
    foldl (fun acc inv => decorate (inv_name inv) (add_loca (inv_room inv)) acc)
      by_name (values (h_invites h)) in
  let by_name :=
    foldl (fun acc (p : string * Room) =>
             foldl (fun acc (seat : string * SenderType * N) =>
                      decorate seat.1.1 (fun e => add_loca p.1 (with_res_online true e)) acc)
               acc (values (r_members p.2)))
      by_name (map_to_list (h_rooms h)) in
  sort_by_str res_name (values by_name).
End queries.
