(* ===== verification/WikiTypes.v ===== *)
(** * The data of the wiki

    crates/server/src/store/wiki.rs, wiki_maintenance.rs and wiki_context.rs: what
    the wiki of a room is asked and answers.  [WikiPage] and [WikiCommit], which
    are columns too, are in Tables.v. *)

From S2P Require Import Prelude Protocol StoreApi Tables.

(** @src store/wiki.rs enum WikiError *)
Inductive WikiError : Type :=
  | WkPersistenceUnavailable
  | WkNotConfigured
  | WkPageNotFound
  | WkNotEditor
  | WkConflict
  | WkInvalidInput
  | WkStorage.
#[global] Instance WikiError_eq_dec : EqDecision WikiError.
Proof. solve_decision. Defined.

(** @src store/wiki.rs struct WikiSnapshot *)
Record WikiSnapshot : Type := mkWikiSnapshot {
  ws_room : string;
  ws_editor_principal : string;
  ws_editor_name : option string;
  ws_enabled : bool;
  ws_interval_messages : N;
  ws_revision : N;
  ws_reviewed_through : N;
  ws_reviewed_at : option N;
  ws_edited_at : option N;
  ws_pages : list WikiPage;
}.

(** @src store/wiki.rs struct WikiPageSnapshot *)
Record WikiPageSnapshot : Type := mkWikiPageSnapshot {
  wps_room : string;
  wps_revision : N;
  wps_reviewed_through : N;
  wps_reviewed_at : option N;
  wps_page : WikiPage;
}.

(** @src store/wiki.rs struct WikiPageEdit *)
Record WikiPageEdit : Type := mkWikiPageEdit {
  we_expected_revision : N;
  we_title : string;
  we_body : string;
}.

(** @src store/wiki.rs struct WikiPageRemoval *)
Record WikiPageRemoval : Type := mkWikiPageRemoval {
  wr_expected_revision : N;
  wr_reason : string;
}.

(** @src store/wiki_maintenance.rs struct WikiLease *)
Record WikiLease : Type := mkWikiLease {
  wl_batch_id : N;
  wl_epoch : N;
}.

(** @src store/wiki_maintenance.rs struct WikiBatch *)
Record WikiBatch : Type := mkWikiBatch {
  wb_lease : WikiLease;
  wb_room : string;
  wb_after_id : N;
  wb_through_id : N;
  wb_reason : string;
  wb_lease_expires_at : N;
  wb_attempts : N;
  wb_messages : list Message;
}.

(** @src store/wiki_context.rs struct WikiContextSelection *)
Record WikiContextSelection : Type := mkWikiContextSelection {
  wcs_slugs : list string;
  wcs_reason : string;
}.

(** @src store/wiki_context.rs struct WikiContextAck *)
Record WikiContextAck : Type := mkWikiContextAck {
  wca_context_id : string;
  wca_packet_id : string;
  wca_revision : N;
  wca_selection_version : N;
}.

(** The object [wiki_context_for] answers with. *)
(** @src store/wiki_context.rs:164-166 wiki_context_for *)
Record WikiContext : Type := mkWikiContext {
  wx_room : string;
  wx_revision : N;
  wx_selection_version : N;
  wx_slugs : list string;
  wx_pages : list WikiPage;
  wx_missing : list string;
}.

(** One of the requests [wiki_context_requests] answers with. *)
(** @src store/wiki_context.rs:48-48 wiki_context_requests *)
Record WikiContextRequest : Type := mkWikiContextRequest {
  wq_target : string;
  wq_slugs : list string;
  wq_reason : string;
  wq_version : N;
}.
