(* ===== verification/Http.v ===== *)
(** * Requests and responses

    What crates/server/src/main.rs and routes/*.rs see of HTTP: the headers of
    a request and the status and body of an answer.  A body is the value the
    handler serialises; its JSON text is not modelled. *)

From Stdlib Require Import Ascii.
From S2P Require Import Prelude Text Protocol StoreApi Hub Chat Access Membership Queries Tables WikiTypes.

(** ** Headers *)

(** [HeaderValue::to_str]: the text of a header value, when it is visible
    ASCII. *)
Class HeaderText : Type := { header_to_str : string -> option string }.

(** The first value of each header, under its lower-case name. *)
Abbreviation HeaderMap := (gmap string string).

(** @src main.rs const ADMIN_HEADER *)
Definition ADMIN_HEADER : string := "x-admin-token".
(** @src main.rs const ROOM_HEADER *)
Definition ROOM_HEADER : string := "x-room-token".
(** @src main.rs const SESSION_HEADER *)
Definition SESSION_HEADER : string := "x-session-token".
(** @src main.rs const PAIRING_HEADER *)
Definition PAIRING_HEADER : string := "x-pairing-code".

Section headers.
Context `{HeaderText}.

(** [headers.get(name).and_then(|v| v.to_str().ok())] *)
Definition header (headers : HeaderMap) (name : string) : option string :=
  headers !! name ≫= header_to_str.

(** @src routes/access.rs fn admin_token_of *)
Definition admin_token_of (headers : HeaderMap) : option string := header headers ADMIN_HEADER.
(** @src routes/access.rs fn session_of *)
Definition session_of (headers : HeaderMap) : option string := header headers SESSION_HEADER.
(** @src routes/access.rs fn pairing_code_of *)
Definition pairing_code_of (headers : HeaderMap) : option string := header headers PAIRING_HEADER.
(** @src routes/access.rs fn member_token_of *)
Definition member_token_of (headers : HeaderMap) : option string :=
  or_else (header headers ROOM_HEADER) (admin_token_of headers).
(** @src routes/membership.rs fn join_secret_of *)
Definition join_secret_of (headers : HeaderMap) : option string := header headers "x-join-secret".
End headers.

(** ** Answers *)

(** [Panicked] is no status: the handler reached an [unreachable!()]. *)
Inductive StatusCode : Type :=
  | OK | CREATED | NO_CONTENT
  | BAD_REQUEST | UNAUTHORIZED | FORBIDDEN | NOT_FOUND | CONFLICT
  | PAYLOAD_TOO_LARGE | UNSUPPORTED_MEDIA_TYPE | TOO_MANY_REQUESTS | SERVICE_UNAVAILABLE
  | Panicked.
#[global] Instance StatusCode_eq_dec : EqDecision StatusCode.
Proof. solve_decision. Defined.

(** The values handlers answer with: a bare status, a text, a protocol type, or
    one of the [serde_json::json!] objects. *)
Inductive Body : Type :=
  | BNone
  | BText (s : string)
  (* rooms *)
  | BMessage (m : Message)
  | BMessages (l : list Message)
  | BReaction (e : MessageReactionEvent)
  | BReactions (l : list MessageReaction)
  | BMembers (l : list Member)
  | BMode (m : ChatMode)
  | BSettings (s : RoomSettings)
  | BModState (s : ModState)
  | BRooms (l : list RoomSummary)
  | BNote (n : Note)
  | BNotes (l : list Note)
  | BJournalEntry (e : JournalEntry)
  | BJournal (l : list JournalEntry)
  | BSearch (messages : list Message) (notes : list Note)
  | BLocaCreated (room : string) (operator : option LocaOperatorAssignment)
  | BOperator (a : LocaOperatorAssignment)
  | BOperators (master : option PrincipalIdentity) (appointed : option LocaOperatorAssignment)
      (history : list LocaOperatorAssignment)
  | BAttachment (a : Attachment)
  (* a file: its type, its disposition, its bytes *)
  | BFile (mime disposition bytes : string)
  (* the memory of a room *)
  | BMemory (m : LocaMemory)
  | BMemoryFrame (f : ServerFrame)
  | BMemoryEntry (e : LocaMemoryEntry)
  | BMemoryEntries (p : LocaMemoryEntryPage)
  | BMemoryMetadata (l : list LocaMemoryMetadata)
  (* the wiki of a room *)
  | BWiki (s : WikiSnapshot)
  | BWikiPage (p : WikiPageSnapshot)
  | BPageRevision (room slug : string) (revision : N)
  | BRevision (revision : N)
  | BWikiBatch (b : option WikiBatch)
  | BLeaseExpires (at_ : N)
  | BBatchStatus (s : option BatchStatus)
  | BWikiContext (c : WikiContext)
  | BWikiRequests (l : list WikiContextRequest)
  (* an object with this one field, which is true *)
  | BDone (field : string)
  (* work *)
  | BTask (t : Task)
  | BTasks (l : list Task)
  | BGoal (g : Goal)
  | BGoals (l : list Goal)
  | BWait (w : WaitState)
  | BWaits (l : list WaitState)
  | BAttention (a : Attention)
  | BAttentions (l : list Attention)
  | BRuntime (r : RuntimeHealth)
  (* the building *)
  | BInvite (i : Invite)
  | BInvites (rows : list (string * string * Invite))
  | BCalled (name loca token : string)
  | BAlreadyCalled (name : string)
  | BMembership (m : Membership)
  | BMemberships (rows : list (string * Membership))
  | BProfiles (l : list PrincipalIdentity)
  | BProfile (principal_id display_name : string) (authority : RequestAuthority)
      (room : option (string * list string)) (session : option N) (credential_id : option string)
  | BCredential (c : CredentialSummary) (secret : string)
  | BCredentials (rows : list (CredentialSummary * bool))
  | BResidents (l : list Resident)
  | BSmaster (token name : string)
  | BSmasters (rows : list (string * string))
  | BSuspended (b : bool)
  | BWhoSession (s : SessionIdentity)
  | BWhoMember (m : Membership) (locas : list string)
  | BWhoDavet (loca : string)
  | BWhoBuilding
  | BClaimed (m : Membership)
  | BSession (s : SessionInfo)
  | BHealth (version : string) (epoch : N) (needs_token admin_open : bool) (caretakers : list string)
      (home_room : string)
  | BPairing (code : string) (session_ttl_hours pairing_expires_at : N)
  | BStock (minted : option N) (total available : N)
  | BJoinRequest (request_id request_secret : string)
  | BJoinView (status : string) (bootstrap_ready : bool)
  | BJoinPending (rows : list (string * string * string * N))
  | BDavet (mb : string)
  | BAcknowledged
  (* the master's desk *)
  | BDesk (locas : list RoomSummary) (residents : list Resident) (server : string)
  | BDeskMember (name kind : string)
  | BDeskDavet (token loca name kind : string)
  | BDeskJoins (pending : list (string * string * string * N)) (total available : N)
  | BStatus (s : string).

Definition Response : Type := StatusCode * Body.

(** [(code, "text").into_response()] *)
Definition refuse (code : StatusCode) (text : string) : Response := (code, BText text).

(** [unreachable!()] *)
Definition unreachable : Response := (Panicked, BNone).

(** ** Bodies of requests that have no type of their own elsewhere *)

(** @src proto struct SetMessageReaction *)
Record SetMessageReaction : Type := mkSetMessageReaction {
  smr_emoji : string;
  smr_active : bool;
  smr_reactor : string;
  smr_reactor_type : option SenderType;
}.

(** @src proto struct CreateJournalEntry *)
Record CreateJournalEntry : Type := mkCreateJournalEntry {
  cj_text : string;
  cj_by : option string;
  cj_by_type : option SenderType;
}.

(** [matches!(..)] of the refusals of [post]. *)
(** @src hub fn is_rate_limit *)
Definition is_rate_limit (e : PostReject) : bool :=
  match e with RejRateLimited _ => true | _ => false end.
(** @src hub fn is_bad_request *)
Definition is_bad_request (e : PostReject) : bool :=
  match e with RejTooManyAttachments _ | RejUnknownAttachment => true | _ => false end.

(** @src hub:4235-4258 message *)
Definition post_reject_message (e : PostReject) : string :=
  match e with
  | RejPaused => "chat is paused by the admin"
  | RejNotAllowed => "restricted mode: you are not on the allowlist"
  | RejNotYourTurn (Some w) => "round-robin: it is " +:+ w +:+ "'s turn"
  | RejNotYourTurn None => "round-robin: no turn available"
  | RejRateLimited secs =>
      "rate limit exceeded — slow down, retry in ~" +:+ dec secs +:+ "s"
  | RejMuted => "you are muted by the admin"
  | RejBanned => "you are banned from this room"
  | RejArchived => "this room is closed (archived) — read-only"
  | RejDeleted => "this loca no longer exists"
  | RejStorage => "could not save the message — try again"
  | RejTooManyAttachments max =>
      "too many attachments — at most " +:+ dec (N.of_nat max) +:+ " per message"
  | RejUnknownAttachment => "an attachment id is not an available upload in this loca"
  end.
