(* ===== verification/Doors.v ===== *)
(** * The doors of the HTTP interface

    crates/server/src/routes/access.rs and the authority helpers of
    routes/rooms.rs: who a request speaks for, whether it may enter a room,
    and the gate every non-public path passes first.  Looking a session up
    drops it when it has expired, so these functions thread the hub. *)

From Stdlib Require Import Ascii.
From S2P Require Import Prelude Text Protocol StoreApi Hub Access Membership Rooms Queries Http.

(** [u8::is_ascii_alphanumeric] *)
Definition ascii_alphanumeric (a : ascii) : bool :=
  ascii_in 48 57 a || ascii_in 65 90 a || ascii_in 97 122 a.
(** [matches!(byte, b'.' | b'_' | b'-')] *)
Definition name_punctuation (a : ascii) : bool :=
  bool_decide (a = "."%char) || bool_decide (a = "_"%char) || bool_decide (a = "-"%char).
Fixpoint all_bytes (f : ascii -> bool) (s : string) : bool :=
  match s with EmptyString => true | String a s => f a && all_bytes f s end.

(** @src routes/access.rs fn valid_identity_name *)
Definition valid_identity_name (name : string) : bool :=
  match name with
  | EmptyString => false
  | String first _ =>
      (String.length name <=? 64)%nat && ascii_alphanumeric first
      && all_bytes (fun a => ascii_alphanumeric a || name_punctuation a) name
  end.

(** [RequestAuthority::is_master] *)
(** @src hub:419-421 is_master *)
Definition is_master_authority (a : RequestAuthority) : bool :=
  bool_decide (ra_building_role a = Some RoleMaster).

(** The paths served without a credential. *)
(** @src routes/access.rs fn is_public_path *)
Definition is_public_path (path : string) : bool :=
  bool_decide (path = "/"%string)
  || String.prefix "/assets/" path
  || bool_decide (path = "/PRINCIPLES.md"%string)
  || bool_decide (path = "/PRINCIPLES.en.md"%string)
  || bool_decide (path = "/docs/getting-started.md"%string)
  || bool_decide (path = "/health"%string)
  || bool_decide (path = "/downloads/skills"%string)
  || String.prefix "/downloads/skills/" path
  || bool_decide (path = "/sessions"%string)
  || bool_decide (path = "/membership/claim"%string)
  || String.prefix "/join-requests" path
  || String.prefix "/ws" path
  || String.prefix "/lobby/ws" path.

Section doors.
Context {St : Type} `{HeaderText} `{StoreBase St} `{IdentityStore St}.
Implicit Types h : Hub St.
Implicit Types headers : HeaderMap.

(** ** Who is asking *)

(** @src routes/access.rs fn mutation_actor *)
Definition mutation_actor headers (claimed : string) (kind : SenderType) h
    : Hub St * result (string * SenderType) StatusCode :=
  let token := session_of headers in
  let '(h, session) := session_identity token h in
  match session with
  | Some idy => (h, Ok (sess_name idy, sess_kind idy))
  | None =>
      if negb (bool_decide (headers !! SESSION_HEADER = None)) || h_require_sessions h
      then (h, Err UNAUTHORIZED) else (h, Ok (claimed, kind))
  end.

(** @src routes/access.rs fn is_admin_req *)
Definition is_admin_req headers h : Hub St * bool :=
  let '(h, authority) := resolve_authority (admin_token_of headers) (session_of headers) h in
  (h, is_building_admin authority).

(** @src routes/access.rs fn is_master_req *)
Definition is_master_req headers h : Hub St * bool :=
  let '(h, authority) := resolve_authority (admin_token_of headers) (session_of headers) h in
  (h, is_master_authority authority).

(** @src routes/rooms.rs fn actor_of *)
Definition actor_of headers (claimed : string) h : Hub St * result string StatusCode :=
  let sess := session_of headers in
  let '(h, session) := session_identity sess h in
  if h_require_sessions h
  then (h, match session with Some idy => Ok (sess_name idy) | None => Err UNAUTHORIZED end)
  else
    let '(h, authority) := resolve_authority (admin_token_of headers) sess h in
    let legacy_root :=
      negb (bool_decide (admin_token_of headers = None))
      && is_master h (admin_token_of headers) in
    if negb legacy_root && negb (bool_decide (ra_principal_id authority = None))
       && negb (bool_decide (ra_display_name authority = None))
    then (h, Ok (default ""%string (ra_display_name authority)))
    else
      match session with
      | Some idy => (h, Ok (sess_name idy))
      | None => if negb (bool_decide (sess = None)) then (h, Err UNAUTHORIZED) else (h, Ok claimed)
      end.

(** @src routes/rooms.rs fn room_decision_of *)
Definition room_decision_of (room : string) headers h : Hub St * EnterDecision :=
  let '(h, session) := session_identity (session_of headers) h in
  (h, enter_decision h room (admin_token_of headers) (member_token_of headers) session None).

(** [!is_admin_req(..) && !hub.is_loca_operator(..)], negated: an operator act
    of [name] in [room]. *)
(** @src routes/work.rs:31-33 create_task *)
Definition may_operate (room : string) headers (name : string) h : Hub St * bool :=
  let '(h, admin) := is_admin_req headers h in
  if admin then (h, true)
  else is_loca_operator room (admin_token_of headers) (session_of headers) name h.

(** @src routes/rooms.rs fn is_room_operator_req *)
Definition is_room_operator_req (room : string) headers h : Hub St * bool :=
  let '(h, admin) := is_admin_req headers h in
  if admin then (h, true)
  else
    let '(h, session) := session_identity (session_of headers) h in
    let name := default ""%string (sess_name <$> session) in
    if str_is_empty name then (h, false)
    else is_loca_operator room (admin_token_of headers) (session_of headers) name h.

(** Who signed a membership or a davet. *)
(** @src routes/rooms.rs:373-376 create_invite *)
Definition signed_by headers h : string :=
  match smaster_name h (admin_token_of headers) with
  | Some n => "smaster:" +:+ n
  | None => "master"
  end.

(** ** The door of a room *)

(** The [RoomAccess] extractor. *)
(** @src routes/access.rs:85-127 from_request_parts *)
Definition room_access (room : string) headers h : Hub St * result unit Response :=
  if is_deleted h room then (h, Err (refuse NOT_FOUND "this loca no longer exists"))
  else
    let '(h, decision) := room_decision_of room headers h in
    (h, match decision with
        | Allowed => Ok tt
        | Banned => Err (refuse FORBIDDEN "banned from this loca")
        | Denied => Err (refuse UNAUTHORIZED "davet required for this loca")
        end).

(** A handler that takes a [RoomAccess]. *)
Definition with_access (room : string) headers (handler : Hub St -> Hub St * Response) h
    : Hub St * Response :=
  let '(h, access) := room_access room headers h in
  match access with Ok _ => handler h | Err refusal => (h, refusal) end.

(** ** The street *)

(** What lets a caller off the street. *)
(** @src routes/access.rs:197-230 require_membership *)
Definition known_caller headers h : Hub St * bool :=
  let '(h, session) :=
    match session_of headers with
    | Some t => session_identity (Some t) h
    | None => (h, None)
    end in
  let holds_davet := is_invite_token h (member_token_of headers) in
  let '(h, authority) := resolve_authority (admin_token_of headers) (session_of headers) h in
  let is_legacy_smaster :=
    match smaster_name h (admin_token_of headers) with Some _ => true | None => false end in
  let holds_membership :=
    match member_for_credential h (member_token_of headers) with
    | Some _ => true | None => false end in
  (h,
   holds_membership || is_member h (member_token_of headers)
   || negb (bool_decide (session = None)) || holds_davet
   || negb (bool_decide (ra_principal_id authority = None)) || is_legacy_smaster).

(** [params] is the [:id] segment of the path, if its route has one; [None] when
    a segment of the path does not decode. *)
(** @src routes/access.rs fn require_membership *)
Definition require_membership (path : string) (params : option (option string)) headers
    (next : Hub St -> Hub St * Response) h : Hub St * Response :=
  if is_public_path path then next h
  else
    let supplied := admin_token_of headers in
    let '(h, authority) := resolve_authority supplied (session_of headers) h in
    if negb (bool_decide (supplied = None))
       && bool_decide (ra_principal_id authority = None)
       && negb (is_building_admin authority)
    then (h, refuse UNAUTHORIZED "credential revoked or unknown")
    else if (match header headers ROOM_HEADER with
             | Some credential => credential_is_revoked (h_store h) credential
             | None => false
             end)
    then (h, refuse UNAUTHORIZED "credential revoked")
    else
      let '(h, known) := known_caller headers h in
      if known then
        if negb (admin_open h) && String.prefix "/rooms/" path then
          match params with
          | None => (h, refuse BAD_REQUEST "invalid loca path")
          | Some params =>
              if (match params with
                  | Some room => negb (room_exists h room) && negb (is_deleted h room)
                  | None => false
                  end)
              then (h, refuse NOT_FOUND "loca does not exist; create it first")
              else next h
          end
        else next h
      else (h, refuse UNAUTHORIZED "davet required").
End doors.
