(* ===== verification/Identity.v ===== *)
(** * The identity tables

    crates/server/src/store/identity.rs: who a credential proves, sessions,
    members, davets, bans and second masters, as the statements on the tables of
    Tables.v.  [last_used_at], which only the profile page shows, is not
    written. *)

From S2P Require Import Prelude Protocol StoreApi Sql Tables Hub Access Membership.

Open Scope loca_scope.

(** The wall clock of [current_time_ms], for the statements that stamp a row
    without being given a time. *)
Class WallClock : Type := { current_time_ms : N }.

(** A statement on one table. *)
Definition on_table {V} (get : Tables -> V) (put : V -> Tables -> Tables) (f : V -> V * nat)
    (t : Tables) : option (Tables * nat) :=
  let '(v, n) := f (get t) in Some (put v t, n).

(** [s.expires_at = 0 OR s.expires_at > ?2] *)
Definition unexpired (expires_at now : N) : bool := (expires_at =? 0)%N || (now <? expires_at)%N.

(** @src store.rs fn parse_sender_type *)
Definition parse_sender_type (s : string) : SenderType :=
  if decide (s = "agent"%string) then Agent else User.
(** @src store.rs fn sender_type_str *)
Definition sender_type_str (t : SenderType) : string :=
  match t with Agent => "agent" | User => "user" end.

(** @src store/identity.rs fn parse_building_role *)
Definition parse_building_role (role : string) : BuildingRole :=
  if decide (role = "master"%string) then RoleMaster
  else if decide (role = "smaster"%string) then RoleSmaster
  else RoleMember.

Section identity.
Context `{Digest} `{WallClock}.
Implicit Types t : Tables.

(** @src store.rs fn secret_hash *)
Definition secret_hash (secret : string) : string := hex_bytes (sha256 secret).

(** The row of [SELECT id, display_name, kind, building_role]. *)
(** @src store/identity.rs:86-95 principal_for_credential *)
Definition principal_identity (id : string) (p : PrincipalRow) : PrincipalIdentity := {|
  pi_id := id; pi_display_name := pr_display_name p; pi_kind := parse_sender_type (pr_kind p);
  pi_role := parse_building_role (pr_building_role p) |}.

(** ** Principals and credentials *)

(** @src store/identity.rs fn active_principal *)
Definition active_principal_row t (id : string) : option PrincipalIdentity :=
  p ← t_principals t !! id;
  if is_none (pr_disabled_at p) then Some (principal_identity id p) else None.

(** The credential with the hash of this secret; the hash is UNIQUE. *)
Definition credential_with_hash t (hash : string) : option (string * CredentialRow) :=
  select_where (fun _ c => bool_decide (cr_secret_hash c = hash)) (t_credentials t).

(** @src store/identity.rs fn principal_for_credential *)
Definition db_principal_for_credential t (credential : string) : option PrincipalIdentity :=
  if str_is_empty credential then None
  else
    '(_, c) ← credential_with_hash t (secret_hash credential);
    if is_none (cr_revoked_at c) then active_principal_row t (cr_principal_id c) else None.

(** @src store/identity.rs fn credential_id_for_secret *)
Definition db_credential_id_for_secret t (credential : string) : option string :=
  '(id, c) ← credential_with_hash t (secret_hash credential);
  if is_none (cr_revoked_at c) then Some id else None.

(** @src store/identity.rs fn credential_is_revoked *)
Definition db_credential_is_revoked t (credential : string) : bool :=
  match credential_with_hash t (secret_hash credential) with
  | Some (_, c) => negb (is_none (cr_revoked_at c))
  | None => false
  end.

(** @src store/identity.rs fn principal_id_for_member_record *)
Definition db_principal_id_for_member_record t (member_token : string) : option string :=
  '(_, c) ← select_where (fun _ c =>
      bool_decide (cr_legacy_source c = Some ("member:" +:+ secret_hash member_token)))
    (t_credentials t);
  Some (cr_principal_id c).

(** The roles are those [split_once] leaves before the colon. *)
(** @src store/identity.rs fn legacy_credential_source *)
Definition db_legacy_credential_source t (principal_id credential_id : string)
    : option (string * string) :=
  c ← t_credentials t !! credential_id;
  if bool_decide (cr_principal_id c = principal_id) && is_none (cr_revoked_at c) then
    source ← cr_legacy_source c;
    match strip_prefix source "member:", strip_prefix source "smaster:" with
    | Some hash, _ =>
        token ← List.find (fun token => bool_decide (secret_hash token = hash))
                  (keys (t_members t));
        Some ("member"%string, token)
    | None, Some hash =>
        token ← List.find (fun token => bool_decide (secret_hash token = hash))
                  (keys (t_smasters t));
        Some ("smaster"%string, token)
    | None, None => None
    end
  else None.

(** [legacy_source LIKE 'admin:%'] *)
Definition is_root_recovery (c : CredentialRow) : bool :=
  match cr_legacy_source c with Some source => starts_with source "admin:" | None => false end.

(** [ORDER BY created_at, id] *)
Definition by_created {A} (created_at : A -> N) (id : A -> string) (x y : A) : Prop :=
  (created_at x < created_at y)%N \/ created_at x = created_at y /\ String.le (id x) (id y).
#[export] Instance by_created_dec {A} (c : A -> N) (id : A -> string) :
  RelDecision (by_created c id).
Proof. intros x y. unfold by_created. apply _. Defined.

(** @src store/identity.rs fn list_credentials *)
Definition db_list_credentials t (principal_id : string) : list CredentialSummary :=
  merge_sort (by_created cred_created_at cred_id)
    (map (fun kc => {|
       cred_id := kc.1; cred_label := cr_label kc.2; cred_created_at := cr_created_at kc.2;
       cred_last_used_at := cr_last_used_at kc.2; cred_revoked_at := cr_revoked_at kc.2;
       cred_root_recovery := is_root_recovery kc.2 |})
      (List.filter (fun kc => bool_decide (cr_principal_id kc.2 = principal_id))
         (map_to_list (t_credentials t)))).

(** Whether the constraints of [credentials] admit a row: the hash and the
    legacy source are UNIQUE, the principal exists. *)
Definition credential_conflicts t (id : string) (c : CredentialRow) : bool :=
  negb (is_none (t_credentials t !! id))
  || negb (is_none (credential_with_hash t (cr_secret_hash c)))
  || match cr_legacy_source c with
     | Some source =>
         negb (is_none (select_where (fun _ c' => bool_decide (cr_legacy_source c' = Some source))
                          (t_credentials t)))
     | None => false
     end.
Definition insert_credential (id : string) (c : CredentialRow) t : option (Tables * nat) :=
  if credential_conflicts t id c || is_none (t_principals t !! cr_principal_id c) then None
  else Some (with_t_credentials (<[id := c]> (t_credentials t)) t, 1).
Definition insert_or_ignore_credential (id : string) (c : CredentialRow) t
    : option (Tables * nat) :=
  if credential_conflicts t id c then Some (t, 0) else insert_credential id c t.

(** [INSERT OR IGNORE INTO principals]: the id is the key, and there is at most
    one master. *)
Definition insert_or_ignore_principal (id : string) (p : PrincipalRow) t
    : option (Tables * nat) :=
  if bool_decide (pr_building_role p = "master"%string)
     && negb (is_none (select_where (fun _ p' =>
          bool_decide (pr_building_role p' = "master"%string) && is_none (pr_disabled_at p'))
          (t_principals t)))
  then Some (t, 0)
  else Some (let '(m, n) := insert_or_ignore id p (t_principals t) in (with_t_principals m t, n)).

(** @src store/identity.rs fn insert_principal_credential *)
Definition insert_principal_credential {E} (e : E) (role token name kind : string) (at_ : N)
    (label : string) : Sql Tables E unit :=
  let principal_id := hashed_id "pr_" (role +:+ ":" +:+ token) in
  let credential_id := hashed_id "cr_" (role +:+ ":" +:+ token) in
  let kind := if decide (kind = "agent"%string) then "agent"%string else "human"%string in
  let! _ := execute e [at_]
    (insert_or_ignore_principal principal_id (mkPrincipalRow name kind role at_ None)) in
  unit_of (execute e [at_]
    (insert_or_ignore_credential credential_id
       (mkCredentialRow principal_id label (secret_hash token) at_ None None
          (Some (role +:+ ":" +:+ secret_hash token))))).

(** The principals of the credentials with this hash. *)
Definition proves t (hash principal_id : string) : bool :=
  match credential_with_hash t hash with
  | Some (_, c) => bool_decide (cr_principal_id c = principal_id)
  | None => false
  end.

(** Rows with an open end are closed at [at_]. *)
Definition revoke_credentials (p : string -> CredentialRow -> bool) (at_ : N)
    : Tables -> option (Tables * nat) :=
  on_table t_credentials with_t_credentials
    (update_where (fun id c => p id c && is_none (cr_revoked_at c)) (with_cr_revoked_at (Some at_))).
Definition revoke_sessions (p : string -> SessionRow -> bool) (at_ : N)
    : Tables -> option (Tables * nat) :=
  on_table t_principal_sessions with_t_principal_sessions
    (update_where (fun id s => p id s && is_none (ps_revoked_at s)) (with_ps_revoked_at (Some at_))).
Definition revoke_invites (p : string -> InviteRow -> bool) (at_ : N)
    : Tables -> option (Tables * nat) :=
  on_table t_invites with_t_invites
    (update_where (fun id i => p id i && is_none (ir_revoked_at i)) (with_ir_revoked_at (Some at_))).
Definition disable_principals (p : string -> bool) (at_ : N) : Tables -> option (Tables * nat) :=
  on_table t_principals with_t_principals
    (update_where (fun id r => p id && is_none (pr_disabled_at r)) (with_pr_disabled_at (Some at_))).

(** @src store/identity.rs fn revoke_principal_credential *)
Definition revoke_principal_credential {E} (e : E) (token : string) (at_ : N)
    : Sql Tables E unit :=
  let hash := secret_hash token in
  let! _ := execute e [at_] (revoke_credentials (fun _ c => bool_decide (cr_secret_hash c = hash)) at_) in
  unit_of (execute e [at_] (fun t => disable_principals (proves t hash) at_ t)).

(** @src store/identity.rs fn create_credential *)
Definition db_create_credential (principal_id label secret : string) (at_ : N)
    : Sql Tables CredentialError CredentialSummary :=
  let id := hashed_id "cr_" ("credential:" +:+ secret) in
  let! _ := execute CredStorage [at_]
    (insert_credential id (mkCredentialRow principal_id label (secret_hash secret) at_ None None None)) in
  ret {| cred_id := id; cred_label := label; cred_created_at := at_; cred_last_used_at := None;
         cred_revoked_at := None; cred_root_recovery := false |}.

(** The second master whose key the credential was made from. *)
(** @src store/identity.rs:311-338 revoke_credential *)
Definition revoke_legacy_smaster (legacy_source : option string) (at_ : N)
    : Sql Tables CredentialError unit :=
  match legacy_source ≫= (fun source => strip_prefix source "smaster:") with
  | None => ret tt
  | Some expected_hash =>
      let! token := query (fun t => List.find (fun token =>
          bool_decide (secret_hash token = expected_hash)
          && match t_smasters t !! token with
             | Some s => is_none (sr_revoked_at s) | None => false end)
        (keys (t_smasters t))) in
      match token with
      | None => ret tt
      | Some token =>
          unit_of (execute CredStorage [at_] (on_table t_smasters with_t_smasters
            (update_where (fun k s => bool_decide (k = token) && is_none (sr_revoked_at s))
               (with_sr_revoked_at (Some at_)))))
      end
  end.

(** @src store/identity.rs fn revoke_credential *)
Definition db_revoke_credential (principal_id credential_id : string) (at_ : N)
    : Sql Tables CredentialError unit :=
  transaction CredStorage (
    let! row := query (fun t => t_credentials t !! credential_id) in
    match row with
    | None => stop CredNotFound
    | Some c =>
        if negb (bool_decide (cr_principal_id c = principal_id)) then stop CredNotFound
        else if is_root_recovery c then stop CredRootRecovery
        else if negb (is_none (cr_revoked_at c)) then stop CredNotFound
        else
          let! _ := execute CredStorage [at_] (revoke_credentials
            (fun id c => bool_decide (id = credential_id)
                         && bool_decide (cr_principal_id c = principal_id)) at_) in
          let! _ := execute CredStorage [at_] (revoke_sessions
            (fun _ s => bool_decide (ps_credential_id s = credential_id)) at_) in
          revoke_legacy_smaster (cr_legacy_source c) at_
    end).

(** ** Sessions *)

(** [principal_sessions] joined with its credential and principal, both live. *)
(** @src store/identity.rs:184-202 credential_id_for_session *)
Definition live_session t (secret : string) (now : N) : option (SessionRow * PrincipalIdentity) :=
  s ← t_principal_sessions t !! secret_hash secret;
  c ← t_credentials t !! ps_credential_id s;
  if is_none (ps_revoked_at s) && unexpired (ps_expires_at s) now
     && bool_decide (cr_principal_id c = ps_principal_id s) && is_none (cr_revoked_at c)
  then p ← active_principal_row t (ps_principal_id s); Some (s, p)
  else None.

(** @src store/identity.rs fn credential_id_for_session *)
Definition db_credential_id_for_session t (secret : string) (now : N) : option string :=
  '(s, _) ← live_session t secret now; Some (ps_credential_id s).

(** @src store/identity.rs fn principal_session_active *)
Definition db_principal_session_active t (secret : string) (now : N) : bool :=
  negb (is_none (live_session t secret now)).

(** @src store/identity.rs fn principal_for_session *)
Definition db_principal_for_session t (secret : string) (now : N) : option PrincipalIdentity :=
  '(_, p) ← live_session t secret now; Some p.

(** @src store/identity.rs fn session_uses_credential *)
Definition db_session_uses_credential t (secret credential_id : string) : bool :=
  match t_principal_sessions t !! secret_hash secret with
  | Some s => bool_decide (ps_credential_id s = credential_id)
  | None => false
  end.

(** The foreign keys: the credential exists and is the principal's. *)
(** @src store/identity.rs fn save_principal_session *)
Definition db_save_principal_session (secret principal_id credential_id : string)
    (created_at expires_at : N) : Sql Tables db_error unit :=
  unit_of (execute DbError [created_at; expires_at] (fun t =>
    match t_credentials t !! credential_id with
    | Some c =>
        if bool_decide (cr_principal_id c = principal_id)
           && negb (is_none (t_principals t !! principal_id))
        then Some (with_t_principal_sessions
               (<[secret_hash secret :=
                    mkSessionRow principal_id credential_id created_at expires_at None]>
                  (t_principal_sessions t)) t, 1)
        else None
    | None => None
    end)).

(** @src store/identity.rs fn revoke_principal_session *)
Definition db_revoke_principal_session (secret : string) (at_ : N) : Sql Tables db_error unit :=
  unit_of (execute DbError [at_]
    (revoke_sessions (fun id _ => bool_decide (id = secret_hash secret)) at_)).

(** @src store/identity.rs fn save_admin_session *)
Definition db_save_admin_session (token name : string) (kind : SenderType) (expires_at : N)
    : Sql Tables db_error unit :=
  unit_of (execute DbError [expires_at] (fun t =>
    Some (with_t_admin_sessions
            (<[token := mkAdminSessionRow name (sender_type_str kind) expires_at]>
               (t_admin_sessions t)) t, 1))).

(** Two statements, each on its own. *)
(** @src store/identity.rs fn delete_admin_session *)
Definition db_delete_admin_session (token : string) : Sql Tables db_error unit :=
  let! _ := execute DbError [] (fun t =>
    Some (with_t_admin_sessions (delete token (t_admin_sessions t)) t, 1)) in
  unit_of (execute DbError [current_time_ms]
    (revoke_sessions (fun id _ => bool_decide (id = secret_hash token)) current_time_ms)).

(** @src store/identity.rs fn load_admin_sessions *)
Definition db_load_admin_sessions (now : N)
    : Sql Tables db_error (list (string * string * SenderType * N)) :=
  fun c =>
    let '(c, _) := execute DbError [now] (fun t =>
      Some (with_t_admin_sessions
              (delete_where (fun _ a => (ad_expires_at a <=? now)%N) (t_admin_sessions t)) t, 1)) c in
    (c, Ok (map (fun ka => (ka.1, ad_name ka.2, parse_sender_type (ad_kind ka.2), ad_expires_at ka.2))
              (List.filter (fun ka => (now <? ad_expires_at ka.2)%N)
                 (map_to_list (t_admin_sessions (tables c)))))).

(** ** Principals *)

Definition is_active_master (p : PrincipalRow) : bool :=
  bool_decide (pr_building_role p = "master"%string) && is_none (pr_disabled_at p).

(** @src store/identity.rs fn active_master_principal *)
Definition db_active_master_principal t : option PrincipalIdentity :=
  '(id, p) ← select_where (fun _ p => is_active_master p) (t_principals t);
  Some {| pi_id := id; pi_display_name := pr_display_name p;
          pi_kind := parse_sender_type (pr_kind p); pi_role := RoleMaster |}.

Definition role_rank (r : BuildingRole) : N :=
  match r with RoleMaster => 0 | RoleSmaster => 1 | RoleMember => 2 end.
Definition by_rank (x y : PrincipalIdentity) : Prop :=
  (role_rank (pi_role x) < role_rank (pi_role y))%N \/
  role_rank (pi_role x) = role_rank (pi_role y) /\
  (pi_display_name x <> pi_display_name y /\ String.le (pi_display_name x) (pi_display_name y) \/
   pi_display_name x = pi_display_name y /\ String.le (pi_id x) (pi_id y)).
#[local] Instance by_rank_dec : RelDecision by_rank.
Proof. intros x y. unfold by_rank. apply _. Defined.

(** @src store/identity.rs fn active_principals *)
Definition db_active_principals t : list PrincipalIdentity :=
  merge_sort by_rank (omap (active_principal_row t) (keys (t_principals t))).

(** The root credential of the configuration becomes the recovery credential of
    the one master; an earlier one is revoked with its sessions. *)
(** @src store/identity.rs fn ensure_master_principal *)
Definition db_ensure_master_principal (root_credential display_name : string) (at_ : N)
    : Sql Tables db_error unit :=
  if str_is_empty root_credential then ret tt
  else
    transaction DbError (
      let! master := query (fun t => select_where (fun _ p => is_active_master p) (t_principals t)) in
      let principal_id :=
        match master with
        | Some (id, _) => id
        | None => hashed_id "pr_" ("master:" +:+ root_credential)
        end in
      let! _ := execute DbError [at_] (insert_or_ignore_principal principal_id
        (mkPrincipalRow display_name "human" "master" at_ None)) in
      let hash := secret_hash root_credential in
      let superseded (c : CredentialRow) :=
        bool_decide (cr_principal_id c = principal_id) && is_root_recovery c
        && negb (bool_decide (cr_secret_hash c = hash)) in
      let! _ := execute DbError [at_] (fun t => revoke_sessions (fun _ s =>
        match t_credentials t !! ps_credential_id s with
        | Some c => superseded c | None => false end) at_ t) in
      let! _ := execute DbError [at_] (revoke_credentials (fun _ c => superseded c) at_) in
      let id := hashed_id "cr_" ("master:" +:+ root_credential) in
      let row := mkCredentialRow principal_id "Root recovery" hash at_ None None
                   (Some ("admin:" +:+ hash)) in
      unit_of (execute DbError [at_] (fun t =>
        match t_credentials t !! id with
        | Some c =>
            Some (with_t_credentials (<[id := with_cr_revoked_at None c]> (t_credentials t)) t, 1)
        | None => insert_credential id row t
        end))).

(** ** Members *)

(** The principal of a live membership. *)
(** @src store/identity.rs:11-19 suspend_member *)
Definition member_principal t (token : string) : option string :=
  m ← t_members t !! token;
  '(_, c) ← credential_with_hash t (secret_hash token);
  p ← t_principals t !! cr_principal_id c;
  if is_none (mr_revoked_at m) && bool_decide (pr_building_role p = "member"%string)
  then Some (cr_principal_id c) else None.

(** [return Ok(false)] before the commit: the transaction is dropped. *)
Definition or_false (r : result bool (option db_error)) : dbres bool :=
  match r with Ok b => Ok b | Err None => Ok false | Err (Some e) => Err e end.

(** @src store/identity.rs fn suspend_member *)
Definition db_suspend_member (token reason : string) (at_ : N) (c : Conn Tables)
    : Conn Tables * dbres bool :=
  let '(c, r) := transaction (Some DbError) (
    let! principal := query (fun t => member_principal t token) in
    match principal with
    | None => stop None
    | Some principal =>
        let! _ := execute (Some DbError) [at_] (on_table t_member_suspensions
          with_t_member_suspensions (insert_or_ignore token (at_, reason))) in
        let! _ := execute (Some DbError) [at_]
          (disable_principals (fun id => bool_decide (id = principal)) at_) in
        let! _ := execute (Some DbError) [at_]
          (revoke_sessions (fun _ s => bool_decide (ps_principal_id s = principal)) at_) in
        let! _ := execute (Some DbError) [at_]
          (revoke_invites (fun _ i => bool_decide (inv_member (ir_invite i) = token)) at_) in
        ret true
    end) c in
  (c, or_false r).

(** @src store/identity.rs fn resume_member *)
Definition db_resume_member (token : string) (c : Conn Tables) : Conn Tables * dbres bool :=
  let '(c, r) := transaction (Some DbError) (
    let! changed := execute (Some DbError) [] (fun t =>
      if (match t_members t !! token with Some m => is_none (mr_revoked_at m) | None => false end)
         && negb (is_none (t_member_suspensions t !! token))
      then Some (with_t_member_suspensions (delete token (t_member_suspensions t)) t, 1)
      else Some (t, 0)) in
    match changed with
    | O => stop None
    | S _ =>
        let! _ := execute (Some DbError) [] (fun t =>
          on_table t_principals with_t_principals
            (update_where (fun id p => proves t (secret_hash token) id
                                       && bool_decide (pr_building_role p = "member"%string))
               (with_pr_disabled_at None)) t) in
        ret true
    end) c in
  (c, or_false r).

(** @src store/identity.rs fn member_suspended *)
Definition db_member_suspended t (token : string) : dbres bool :=
  Ok (negb (is_none (t_member_suspensions t !! token))).

(** @src store/identity.rs fn add_member *)
Definition db_add_member (m : Membership) : Sql Tables db_error unit :=
  transaction DbError (
    let! _ := execute DbError [mb_joined_at m] (fun t =>
      Some (with_t_members (<[mb_token m :=
        mkMemberRow (mb_name m) (mb_kind m) (mb_joined_at m) (mb_admitted_by m) None]>
        (t_members t)) t, 1)) in
    insert_principal_credential DbError "member" (mb_token m) (mb_name m) (mb_kind m)
      (mb_joined_at m) "Member access").

(** @src store/identity.rs fn revoke_member_cascade *)
Definition db_revoke_member_cascade (token : string) (at_ : N) : Sql Tables db_error unit :=
  transaction DbError (
    let! _ := execute DbError [at_] (on_table t_members with_t_members
      (update_where (fun k m => bool_decide (k = token) && is_none (mr_revoked_at m))
         (with_mr_revoked_at (Some at_)))) in
    let! _ := execute DbError [at_]
      (revoke_invites (fun _ i => bool_decide (inv_member (ir_invite i) = token)) at_) in
    revoke_principal_credential DbError token at_).

Definition membership_of (token : string) (m : MemberRow) : Membership :=
  mkMembership token (mr_name m) (mr_kind m) (mr_joined_at m) (mr_admitted_by m).
(** @src store/identity.rs fn load_members *)
Definition db_load_members t : list Membership :=
  map (fun km => membership_of km.1 km.2)
    (List.filter (fun km => is_none (mr_revoked_at km.2)) (map_to_list (t_members t))).

(** ** Davets *)

(** @src store/rooms.rs fn require_unsealed_room *)
Definition require_unsealed_room {E} (e : E) (room : string) : Sql Tables E unit :=
  let! sealed := query (fun t =>
    match t_rooms t !! room with Some r => negb (is_none (rr_sealed_at r)) | None => false end) in
  if sealed then stop e else ret tt.

(** @src store/identity.rs fn insert_invite *)
Definition db_insert_invite (inv : Invite) : Sql Tables db_error unit :=
  transaction DbError (
    let! suspended := query (fun t => negb (is_none (t_member_suspensions t !! inv_member inv))) in
    if suspended then stop DbError
    else
      let! _ := require_unsealed_room DbError (inv_room inv) in
      unit_of (execute DbError [] (fun t =>
        Some (with_t_invites (<[inv_token inv := mkInviteRow inv None]> (t_invites t)) t, 1)))).

(** @src store/identity.rs fn load_invites *)
Definition db_load_invites t : list Invite :=
  map ir_invite (List.filter (fun i => is_none (ir_revoked_at i)) (values (t_invites t))).

(** @src store/identity.rs fn revoke_invite *)
Definition db_revoke_invite (token : string) (at_ : N) : Sql Tables db_error unit :=
  unit_of (execute DbError [] (revoke_invites (fun k _ => bool_decide (k = token)) at_)).

(** @src store/identity.rs fn revoke_invites_for *)
Definition db_revoke_invites_for (room name : string) (at_ : N) : Sql Tables db_error unit :=
  unit_of (execute DbError [] (revoke_invites (fun _ i =>
    bool_decide (inv_room (ir_invite i) = room) && bool_decide (inv_name (ir_invite i) = name)) at_)).

(** ** Bans *)

(** @src store/identity.rs fn set_ban *)
Definition db_set_ban (room name kind : string) (at_ : N) : Sql Tables db_error unit :=
  unit_of (execute DbError [] (fun t =>
    Some (with_t_bans (<[(room, name, kind) := at_]> (t_bans t)) t, 1))).
(** @src store/identity.rs fn clear_ban *)
Definition db_clear_ban (room name kind : string) : Sql Tables db_error unit :=
  unit_of (execute DbError [] (fun t =>
    Some (with_t_bans (delete (room, name, kind) (t_bans t)) t, 1))).
(** @src store/identity.rs fn load_bans *)
Definition db_load_bans t : list (string * string * string) := keys (t_bans t).

(** ** Second masters *)

(** @src store/identity.rs fn add_smaster *)
Definition db_add_smaster (token name : string) (at_ : N) : Sql Tables db_error unit :=
  transaction DbError (
    let! _ := execute DbError [at_] (fun t =>
      Some (with_t_smasters (<[token := mkSmasterRow name at_ None]> (t_smasters t)) t, 1)) in
    insert_principal_credential DbError "smaster" token name "user" at_ "Smaster access").
(** @src store/identity.rs fn revoke_smaster *)
Definition db_revoke_smaster (token : string) (at_ : N) : Sql Tables db_error unit :=
  transaction DbError (
    let! _ := execute DbError [at_] (on_table t_smasters with_t_smasters
      (update_where (fun k s => bool_decide (k = token) && is_none (sr_revoked_at s))
         (with_sr_revoked_at (Some at_)))) in
    revoke_principal_credential DbError token at_).
(** @src store/identity.rs fn load_smasters *)
Definition db_load_smasters t : list (string * string) :=
  map (fun ks => (ks.1, sr_name ks.2))
    (List.filter (fun ks => is_none (sr_revoked_at ks.2)) (map_to_list (t_smasters t))).
End identity.
