(* ===== verification/Operators.v ===== *)
(** * The operator assignments

    crates/server/src/store/operators.rs, and the row of a room that
    store/rooms.rs writes.  Assignments are closed, never overwritten. *)

From S2P Require Import Prelude Protocol StoreApi Sql Tables Hub Membership Identity.

Open Scope loca_scope.

(** @src store/operators.rs fn role_str *)
Definition role_str (role : BuildingRole) : string :=
  match role with RoleMaster => "master" | RoleSmaster => "smaster" | RoleMember => "member" end.
(** @src store/operators.rs fn parse_role *)
Definition parse_role (role : string) : BuildingRole :=
  if decide (role = "master"%string) then RoleMaster
  else if decide (role = "smaster"%string) then RoleSmaster
  else RoleMember.

Implicit Types t : Tables.

(** ** Rooms *)

(** [INSERT .. ON CONFLICT(room) DO UPDATE .. WHERE sealed_at IS NULL]; the JSON
    text of the mode and the settings is not modelled. *)
(** @src store/rooms.rs fn write_room_state *)
Definition write_room_state {E} (e : E) (room : string) (mode : ChatMode)
    (settings : RoomSettings) : Sql Tables E unit :=
  let! changed := execute e [] (fun t =>
    match t_rooms t !! room with
    | None => Some (with_t_rooms (<[room := mkRoomRow mode settings None]> (t_rooms t)) t, 1)
    | Some r =>
        if is_none (rr_sealed_at r)
        then Some (with_t_rooms (<[room := mkRoomRow mode settings None]> (t_rooms t)) t, 1)
        else Some (t, 0)
    end) in
  match changed with O => stop e | S _ => ret tt end.

(** ** Assignments *)

(** The columns of [operator_query], joined with the principal. *)
(** @src store/operators.rs fn assignment_from_row *)
Definition assignment_from_row t (a : AssignmentRow) : option LocaOperatorAssignment :=
  p ← t_principals t !! as_principal_id a;
  Some {| loa_room := as_room a; loa_principal_id := as_principal_id a;
          loa_display_name := pr_display_name p; loa_kind := parse_sender_type (pr_kind p);
          loa_appointed_by_principal_id := as_appointed_by_principal_id a;
          loa_appointed_by_role := parse_role (as_appointed_by_role a);
          loa_appointed_at := as_appointed_at a; loa_revoked_at := as_revoked_at a |}.

Definition is_active_in (room : string) (a : AssignmentRow) : bool :=
  bool_decide (as_room a = room) && is_none (as_revoked_at a).

(** [WHERE a.room = ?1 AND a.revoked_at IS NULL] *)
(** @src store/operators.rs fn loca_operator *)
Definition db_loca_operator t (room : string) : option LocaOperatorAssignment :=
  '(_, a) ← select_where (fun _ a => is_active_in room a) (t_assignments t);
  assignment_from_row t a.

(** @src store/operators.rs fn query_active *)
Definition query_active {E} (room : string) : Sql Tables E (option LocaOperatorAssignment) :=
  query (fun t => db_loca_operator t room).

Definition by_appointment (x y : N * AssignmentRow) : Prop :=
  (as_appointed_at x.2 < as_appointed_at y.2)%N \/
  as_appointed_at x.2 = as_appointed_at y.2 /\ (x.1 <= y.1)%N.
#[local] Instance by_appointment_dec : RelDecision by_appointment.
Proof. intros x y. unfold by_appointment. apply _. Defined.

(** @src store/operators.rs fn loca_operator_history *)
Definition db_loca_operator_history t (room : string) : list LocaOperatorAssignment :=
  omap (fun ka => assignment_from_row t ka.2)
    (merge_sort by_appointment
       (List.filter (fun ka => bool_decide (as_room ka.2 = room)) (map_to_list (t_assignments t)))).

(** AUTOINCREMENT: rows are never deleted, so the next id is past every key. *)
Definition next_assignment_id t : N :=
  N.succ (foldr N.max 0%N (keys (t_assignments t))).

(** The two principals exist, and the room has no other active assignment. *)
(** @src store/operators.rs fn insert_assignment *)
Definition insert_assignment (room principal_id by_ : string) (role : BuildingRole) (at_ : N)
    : Sql Tables LocaOperatorError unit :=
  unit_of (execute LoeStorage [at_] (fun t =>
    if is_none (t_principals t !! principal_id) || is_none (t_principals t !! by_)
       || negb (is_none (select_where (fun _ a => is_active_in room a) (t_assignments t)))
    then None
    else Some (with_t_assignments
           (<[next_assignment_id t := mkAssignmentRow room principal_id by_ (role_str role) at_ None]>
              (t_assignments t)) t, 1))).

(** An active principal. *)
Definition enabled t (id : string) : option PrincipalRow :=
  p ← t_principals t !! id; if is_none (pr_disabled_at p) then Some p else None.

(** @src store/operators.rs fn validate_target *)
Definition validate_target (principal_id : string) : Sql Tables LocaOperatorError unit :=
  let! p := query (fun t => enabled t principal_id) in
  match p with
  | None => stop LoePrincipalNotFound
  | Some p => if decide (pr_kind p = "human"%string) then ret tt else stop LoePrincipalMustBeHuman
  end.

(** @src store/operators.rs fn validate_appointer *)
Definition validate_appointer (principal_id : string)
    : Sql Tables LocaOperatorError BuildingRole :=
  let! p := query (fun t => enabled t principal_id) in
  match p with
  | None => stop LoeAppointerNotFound
  | Some p => ret (parse_role (pr_building_role p))
  end.

(** [query_active(..)?.ok_or(e)?] *)
Definition require_active (room : string) (e : LocaOperatorError)
    : Sql Tables LocaOperatorError LocaOperatorAssignment :=
  let! current := query_active room in
  match current with Some a => ret a | None => stop e end.

(** @src store/operators.rs fn create_room_with_operator *)
Definition db_create_room_with_operator (room : string) (settings : RoomSettings)
    (founder : string) (at_ : N) : Sql Tables LocaOperatorError LocaOperatorAssignment :=
  transaction LoeStorage (
    let! _ := validate_target founder in
    let! role := validate_appointer founder in
    if decide (role = RoleMember) then stop LoeAppointerNotAuthorized
    else
      let! exists_ := query (fun t => negb (is_none (t_rooms t !! room))) in
      let! current := query_active room in
      if exists_ || negb (is_none current) then stop LoeConflict
      else
        let! _ := write_room_state LoeStorage room Free settings in
        let! _ := insert_assignment room founder founder role at_ in
        require_active room LoeStorage).

(** Closes the active assignment of a room. *)
Definition close_assignment (p : AssignmentRow -> bool) (at_ : N)
    : Tables -> option (Tables * nat) :=
  on_table t_assignments with_t_assignments
    (update_where (fun _ a => p a) (with_as_revoked_at (Some at_))).

(** @src store/operators.rs:113-121 appoint_loca_operator *)
Definition fill_seat (room principal_id by_ : string) (role : BuildingRole) (at_ : N)
    : Sql Tables LocaOperatorError LocaOperatorAssignment :=
  let! _ := insert_assignment room principal_id by_ role at_ in
  require_active room LoeStorage.

(** @src store/operators.rs fn appoint_loca_operator *)
Definition db_appoint_loca_operator (room principal_id by_ : string) (at_ : N)
    : Sql Tables LocaOperatorError LocaOperatorAssignment :=
  transaction LoeStorage (
    let! _ := validate_target principal_id in
    let! role := validate_appointer by_ in
    if decide (role = RoleMember) then stop LoeAppointerNotAuthorized
    else
      let! current := query_active room in
      match current with
      | Some current =>
          if decide (loa_principal_id current = principal_id) then ret current
          else if decide (role = RoleSmaster) then stop LoeEmptySeatRequired
          else
            let! _ := execute LoeStorage [at_] (close_assignment (is_active_in room) at_) in
            fill_seat room principal_id by_ role at_
      | None => fill_seat room principal_id by_ role at_
      end).

(** Only the assignment the caller saw is revoked. *)
(** @src store/operators.rs fn revoke_loca_operator *)
Definition db_revoke_loca_operator (room expected : string) (at_ : N)
    : Sql Tables LocaOperatorError LocaOperatorAssignment :=
  transaction LoeStorage (
    let! assignment := require_active room LoeNotFound in
    if negb (bool_decide (loa_principal_id assignment = expected)) then stop LoeConflict
    else
      let! changed := execute LoeStorage [at_] (close_assignment
        (fun a => is_active_in room a && bool_decide (as_principal_id a = expected)) at_) in
      if (changed =? 1)%nat then
        ret (mkLocaOperatorAssignment (loa_room assignment) (loa_principal_id assignment)
               (loa_display_name assignment) (loa_kind assignment)
               (loa_appointed_by_principal_id assignment) (loa_appointed_by_role assignment)
               (loa_appointed_at assignment) (Some at_))
      else stop LoeConflict).
