(* ===== verification/Admission.v ===== *)
(** * The admission tables

    crates/server/src/store.rs: the stock of admission rights and the join
    requests, with the transaction that approves one; and the instances of the
    interfaces of StoreApi.v on the tables. *)

From S2P Require Import Prelude Protocol StoreApi Sql Tables Hub Membership Identity Operators.

Open Scope loca_scope.

Section admission.
Context `{Digest} `{WallClock}.
Implicit Types t : Tables.

(** The text of the column. *)
(** @src store.rs:558-559 open *)
Definition status_str (s : JoinStatus) : string :=
  match s with
  | JoinPending => "pending"
  | JoinApproving => "approving"
  | JoinApproved => "approved"
  | JoinDenied => "denied"
  end.

(** [INSERT] into one table. *)
Definition on_stock (f : gmap string StockRow -> option (gmap string StockRow * nat)) t
    : option (Tables * nat) :=
  match f (t_stock t) with Some (m, n) => Some (with_t_stock m t, n) | None => None end.
Definition on_joins (f : gmap string JoinRow -> option (gmap string JoinRow * nat)) t
    : option (Tables * nat) :=
  match f (t_joins t) with Some (m, n) => Some (with_t_joins m t, n) | None => None end.
Definition on_members (f : gmap string MemberRow -> option (gmap string MemberRow * nat)) t
    : option (Tables * nat) :=
  match f (t_members t) with Some (m, n) => Some (with_t_members m t, n) | None => None end.

(** ** The stock *)

(** [consumed_at IS NULL AND expires_at > now] *)
Definition usable (now : N) (r : StockRow) : bool :=
  is_none (sk_consumed_at r) && (now <? sk_expires_at r)%N.

(** The rows inserted one by one. *)
(** @src store.rs:835-842 mint_admission_rights *)
Fixpoint mint_rows (ids : list string) (minted_by : string) (created_at expires_at : N)
    (inserted : nat) : Sql Tables db_error nat :=
  match ids with
  | [] => ret inserted
  | id :: ids =>
      let! n := execute DbError [created_at; expires_at] (on_stock (insert_row id
        (mkStockRow minted_by created_at expires_at None None))) in
      mint_rows ids minted_by created_at expires_at (inserted + n)
  end.
(** @src store.rs fn mint_admission_rights *)
Definition db_mint_admission_rights (ids : list string) (minted_by : string)
    (created_at expires_at : N) : Sql Tables db_error nat :=
  transaction DbError (mint_rows ids minted_by created_at expires_at 0).

Definition count_where (p : StockRow -> bool) t : nat :=
  length (List.filter p (values (t_stock t))).
(** @src store.rs fn admission_stock_counts *)
Definition db_admission_stock_counts t (now : N) : N * N :=
  (N.of_nat (count_where (fun _ => true) t), N.of_nat (count_where (usable now) t)).

(** ** Requests *)

(** @src store.rs fn create_join_request *)
Definition db_create_join_request (id secret name kind : string) (created_at : N)
    : Sql Tables db_error unit :=
  unit_of (execute DbError [created_at] (on_joins (insert_row id
    (mkJoinRow (secret_hash secret) name kind JoinPending created_at None None None None None)))).

(** The request, for who holds its secret. *)
(** @src store.rs:887-901 join_request_view *)
Definition owned_request t (id secret : string) : option JoinRow :=
  r ← t_joins t !! id;
  if bool_decide (jr_secret_hash r = secret_hash secret) then Some r else None.

(** @src store.rs fn join_request_view *)
Definition db_join_request_view t (id secret : string) : option (string * string * bool) :=
  r ← owned_request t id secret;
  Some (status_str (jr_status r), jr_name r,
        negb (is_none (jr_mb_token r)) && is_none (jr_bootstrap_acked_at r)).

(** @src store.rs fn list_pending_join_requests *)
Definition db_list_pending_join_requests t : list (string * string * string * N) :=
  merge_sort (by_created snd (fun row => row.1.1.1))
    (map (fun kr => (kr.1, jr_name kr.2, jr_kind kr.2, jr_created_at kr.2))
       (List.filter (fun kr => bool_decide (jr_status kr.2 = JoinPending))
          (map_to_list (t_joins t)))).

(** @src store.rs fn has_pending_join_request_named *)
Definition db_has_pending_join_request_named t (name : string) : bool :=
  negb (is_none (select_where (fun _ r => bool_decide (jr_name r = name)
    && (bool_decide (jr_status r = JoinPending) || bool_decide (jr_status r = JoinApproving)))
    (t_joins t))).

(** ** Approval *)

(** [UPDATE join_requests SET .. WHERE id = ?1 AND p] *)
Definition update_join (id : string) (p : JoinRow -> bool) (f : JoinRow -> JoinRow)
    : Tables -> option (Tables * nat) :=
  on_table t_joins with_t_joins (update_where (fun k r => bool_decide (k = id) && p r) f).

(** The oldest right that can be used. *)
(** @src store.rs:1022-1034 approve_join_request_atomic *)
Definition oldest_right t (now : N) : option string :=
  head (map fst (merge_sort (by_created (fun kr => sk_created_at kr.2) fst)
    (List.filter (fun kr => usable now kr.2) (map_to_list (t_stock t))))).

Definition live_member_named t (name : string) : bool :=
  negb (is_none (select_where (fun _ m => bool_decide (mr_name m = name) && is_none (mr_revoked_at m))
    (t_members t))).

Definition is_status (s : JoinStatus) (r : JoinRow) : bool := bool_decide (jr_status r = s).

Definition approved_row (mb_token by_ : string) (now : N) (r : JoinRow) : JoinRow :=
  with_jr_status JoinApproved (with_jr_mb_token (Some mb_token)
    (with_jr_decided_by (Some by_) (with_jr_decided_at (Some now) r))).

(** The right is consumed, the membership issued, the request finished. *)
(** @src store.rs:1035-1100 approve_join_request_atomic *)
Definition issue (request_id mb_token by_ : string) (now : N) (name kind right_id : string)
    : Sql Tables ApproveTxn Membership :=
  let! consumed := execute TxnNoStock [now] (on_table t_stock with_t_stock
    (update_where (fun k s => bool_decide (k = right_id) && is_none (sk_consumed_at s))
       (fun s => mkStockRow (sk_minted_by s) (sk_created_at s) (sk_expires_at s)
                   (Some now) (Some name)))) in
  if negb (consumed =? 1)%nat then stop TxnNoStock
  else
    let! _ := execute TxnFailed [now]
      (on_members (insert_row mb_token (mkMemberRow name kind now by_ None))) in
    let! _ := insert_principal_credential TxnFailed "member" mb_token name kind now
                "Member access" in
    let! finished := execute TxnFailed [now]
      (update_join request_id (is_status JoinApproving) (approved_row mb_token by_ now)) in
    if negb (finished =? 1)%nat then stop TxnFailed
    else ret (mkMembership mb_token name kind now by_).

(** @src store.rs:973-1034 approve_join_request_atomic *)
Definition approval (request_id mb_token by_ : string) (now : N)
    : Sql Tables ApproveTxn Membership :=
  let! claimed := execute TxnFailed []
    (update_join request_id (is_status JoinPending) (with_jr_status JoinApproving)) in
  if negb (claimed =? 1)%nat then stop TxnAlreadyDecided
  else
    let! row := query (fun t => t_joins t !! request_id) in
    match row with
    | None => stop TxnFailed
    | Some r =>
        let! taken := query (fun t => live_member_named t (jr_name r)) in
        if taken then stop TxnNameTaken
        else
          let! right_ := query (fun t => oldest_right t now) in
          match right_ with
          | None => stop TxnNoStock
          | Some right_id =>
              issue request_id mb_token by_ now (jr_name r) (jr_kind r) right_id
          end
    end.

(** @src store.rs fn approve_join_request_atomic *)
Definition db_approve_join_request (request_id mb_token by_ : string) (now : N)
    (c : Conn Tables) : Conn Tables * ApproveTxn :=
  match transaction TxnFailed (approval request_id mb_token by_ now) c with
  | (c, Ok member) => (c, TxnCommitted member)
  | (c, Err e) => (c, e)
  end.

(** [.map(|n| n == 1).unwrap_or(false)] *)
Definition changed_one (r : result nat db_error) : bool :=
  match r with Ok n => (n =? 1)%nat | Err _ => false end.

(** @src store.rs fn deny_join_request *)
Definition db_deny_join_request (id decided_by : string) (decided_at : N) (c : Conn Tables)
    : Conn Tables * bool :=
  let '(c, changed) := execute DbError [decided_at]
    (update_join id (is_status JoinPending)
       (fun r => with_jr_status JoinDenied
          (with_jr_decided_by (Some decided_by) (with_jr_decided_at (Some decided_at) r)))) c in
  (c, changed_one changed).

(** ** Delivery *)

(** @src store.rs:1129-1137 claim_join_request_bootstrap *)
Definition deliverable t (id secret : string) : option string :=
  r ← owned_request t id secret;
  mb ← jr_mb_token r;
  if is_status JoinApproved r && is_none (jr_bootstrap_acked_at r) then Some mb else None.

(** @src store.rs fn claim_join_request_bootstrap *)
Definition db_claim_join_request_bootstrap (id secret : string) (now : N) (c : Conn Tables)
    : Conn Tables * option string :=
  match deliverable (tables c) id secret with
  | None => (c, None)
  | Some mb =>
      let '(c, _) := execute DbError [now]
        (update_join id (fun r => is_none (jr_bootstrap_delivered_at r))
           (with_jr_bootstrap_delivered_at (Some now))) c in
      (c, Some mb)
  end.

(** @src store.rs fn ack_join_request_bootstrap *)
Definition db_ack_join_request_bootstrap (id secret : string) (now : N) (c : Conn Tables)
    : Conn Tables * option bool :=
  match owned_request (tables c) id secret with
  | None => (c, None)
  | Some r =>
      if negb (is_status JoinApproved r) then (c, None)
      else if negb (is_none (jr_bootstrap_acked_at r)) then (c, Some false)
      else
        let '(c, changed) := execute DbError [now]
          (update_join id (fun r => is_none (jr_bootstrap_acked_at r))
             (fun r => with_jr_bootstrap_acked_at (Some now) (with_jr_mb_token None r))) c in
        (c, match changed with Ok n => Some (n =? 1)%nat | Err _ => None end)
  end.

(** ** The instances *)

#[export] Instance db_base : StoreBase (Conn Tables) := {|
  is_persistent _ := true;
  principal_id_for_member_record c := db_principal_id_for_member_record (tables c);
|}.
#[export] Instance db_identity : IdentityStore (Conn Tables) := {|
  principal_for_credential c := db_principal_for_credential (tables c);
  active_principal c := active_principal_row (tables c);
  active_master_principal c := db_active_master_principal (tables c);
  credential_is_revoked c := db_credential_is_revoked (tables c);
  credential_id_for_secret c := db_credential_id_for_secret (tables c);
  loca_operator c := db_loca_operator (tables c);
  store_member_suspended c := db_member_suspended (tables c);
  principal_session_active c := db_principal_session_active (tables c);
  save_admin_session := db_save_admin_session;
  delete_admin_session := db_delete_admin_session;
  save_principal_session := db_save_principal_session;
  revoke_principal_session := db_revoke_principal_session;
  insert_invite := db_insert_invite;
  store_revoke_invite := db_revoke_invite;
  store_revoke_invites_for := db_revoke_invites_for;
  add_member := db_add_member;
  revoke_member_cascade := db_revoke_member_cascade;
  suspend_member := db_suspend_member;
  resume_member := db_resume_member;
  set_ban := db_set_ban;
  clear_ban := db_clear_ban;
  store_add_smaster := db_add_smaster;
  store_revoke_smaster := db_revoke_smaster;
|}.
#[export] Instance db_credentials : CredentialStore (Conn Tables) := {|
  list_credentials c := db_list_credentials (tables c);
  credential_id_for_session c := db_credential_id_for_session (tables c);
  create_credential := db_create_credential;
  legacy_credential_source c := db_legacy_credential_source (tables c);
  revoke_credential := db_revoke_credential;
  session_uses_credential c := db_session_uses_credential (tables c);
|}.
#[export] Instance db_operators : OperatorStore (Conn Tables) := {|
  create_room_with_operator := db_create_room_with_operator;
  store_appoint_loca_operator := db_appoint_loca_operator;
  store_revoke_loca_operator := db_revoke_loca_operator;
|}.
#[export] Instance db_admission : AdmissionStore (Conn Tables) := {|
  mint_admission_rights := db_mint_admission_rights;
  admission_stock_counts c := db_admission_stock_counts (tables c);
  store_create_join_request := db_create_join_request;
  store_join_request_view c := db_join_request_view (tables c);
  store_list_pending_join_requests c := db_list_pending_join_requests (tables c);
  has_pending_join_request_named c := db_has_pending_join_request_named (tables c);
  approve_join_request_atomic := db_approve_join_request;
  store_deny_join_request := db_deny_join_request;
  store_claim_join_request_bootstrap := db_claim_join_request_bootstrap;
  store_ack_join_request_bootstrap := db_ack_join_request_bootstrap;
|}.
End admission.
