(* ===== verification/StoreAttention.v ===== *)
(** * The attention tables

    crates/server/src/store/attention.rs: the attentions of a room, the outbox
    of deliveries, and the marks of the reminder scheduler, as statements on the
    tables of Tables.v. *)

From S2P Require Import Prelude Protocol StoreApi Sql Tables Hub Ledger Identity.

Open Scope loca_scope.

Implicit Types t : Tables.

(** ** A condition that is over *)

(** [UPDATE attentions SET resolved_at = COALESCE(resolved_at, at) WHERE p] *)
Definition resolve_rows (p : string -> bool) (at_ : N) : Tables -> option (Tables * nat) :=
  on_table t_attentions with_t_attentions
    (update_where (fun id _ => p id)
       (fun r => with_ar_resolved_at (Some (default at_ (ar_resolved_at r))) r)).
(** [UPDATE care_outbox SET acked_at = COALESCE(acked_at, at) WHERE p] *)
Definition ack_rows (p : string -> bool) (at_ : N) : Tables -> option (Tables * nat) :=
  on_table t_outbox with_t_outbox
    (update_where (fun _ o => p (ob_attention_id o))
       (fun o => with_ob_acked_at (Some (default at_ (ob_acked_at o))) o)).
(** [DELETE FROM care_marks WHERE room = ?1 AND signal_key = ?2] *)
Definition delete_mark (room key : string) (t : Tables) : option (Tables * nat) :=
  Some (with_t_care_marks (delete (room, key) (t_care_marks t)) t, 1).

(** The statements that end the reminders of one condition: the attention with
    this id and those of its generations, and their deliveries. *)
(** @src store/messages.rs:311-321 reset_silence_care *)
Definition resolve_condition (id : string) (at_ : N) : Sql Tables db_error unit :=
  let! _ := execute DbError [at_] (resolve_rows (id_or_generation id) at_) in
  unit_of (execute DbError [at_] (ack_rows (id_or_generation id) at_)).

(** [SELECT id, signal FROM attentions WHERE room AND resolved_at IS NULL], those
    of circles [waiter] is part of. *)
(** @src store/attention.rs:11-37 resolve_wait_attentions *)
Definition open_cycles t (room waiter : string) : list string :=
  map fst (List.filter (fun kr =>
      bool_decide (ar_room kr.2 = room) && is_none (ar_resolved_at kr.2)
      && bool_decide (sig_reason (ar_signal kr.2) = WaitCycle)
      && bool_decide (waiter ∈ sig_participants (ar_signal kr.2)))
    (map_to_list (t_attentions t))).

(** @src store/attention.rs:48-66 resolve_wait_attentions *)
Fixpoint resolve_cycles (room : string) (at_ : N) (ids : list string)
    : Sql Tables db_error unit :=
  match ids with
  | [] => ret tt
  | id :: ids =>
      let! _ :=
        match strip_prefix id ("attention:" +:+ room +:+ ":") with
        | Some signal_key => unit_of (execute DbError [] (delete_mark room signal_key))
        | None => ret tt
        end in
      let! _ := execute DbError [at_] (resolve_rows (fun i => bool_decide (i = id)) at_) in
      let! _ := execute DbError [at_] (ack_rows (fun i => bool_decide (i = id)) at_) in
      resolve_cycles room at_ ids
  end.

(** @src store/attention.rs fn resolve_wait_attentions *)
Definition db_resolve_wait_attentions (room waiter : string) (at_ : N)
    : Sql Tables db_error unit :=
  let! cycle_ids := query (fun t => open_cycles t room waiter) in
  let! _ := resolve_condition (attention_key_id room ("wait:" +:+ waiter)) at_ in
  resolve_cycles room at_ cycle_ids.

(** ** Delivery *)

(** The row of a signal; the JSON text of the signal is the signal. *)
Definition attention_of_signal (s : CareSignal) : AttentionRow :=
  mkAttentionRow (origin_room s) s (sig_owner s) (sig_at s) None None None None.

Definition signal_attention_id (s : CareSignal) : string :=
  if str_is_empty (sig_attention_id s) then sig_id s else sig_attention_id s.

(** [INSERT .. ON CONFLICT(id) DO UPDATE .. WHERE claimed_at IS NULL AND
    resolved_at IS NULL] *)
(** @src store/attention.rs:180-192 write_care *)
Definition upsert_attention (id : string) (s : CareSignal) (t : Tables) : option (Tables * nat) :=
  match t_attentions t !! id with
  | None => Some (with_t_attentions (<[id := attention_of_signal s]> (t_attentions t)) t, 1)
  | Some r =>
      if is_none (ar_claimed_at r) && is_none (ar_resolved_at r)
      then Some (with_t_attentions
             (<[id := with_ar_owner (sig_owner s) (with_ar_signal s r)]> (t_attentions t)) t, 1)
      else Some (t, 0)
  end.

(** @src store/attention.rs fn write_care *)
Definition write_care (delivery_room : string) (s : CareSignal) : Sql Tables db_error unit :=
  let id := signal_attention_id s in
  let! writable := execute DbError [sig_at s] (upsert_attention id s) in
  match writable with
  | O => ret tt
  | S _ =>
      match sig_owner s with
      | None => ret tt
      | Some owner =>
          unit_of (execute DbError [sig_at s] (fun t =>
            let '(m, n) := insert_or_ignore (sig_id s)
              (mkOutboxRow id delivery_room owner (sig_owner_principal_id s) s (sig_at s) None)
              (t_outbox t) in
            Some (with_t_outbox m t, n)))
      end
  end.

(** Several signals, each delivered where [place] says. *)
Fixpoint write_cares (place : CareSignal -> string) (signals : list CareSignal)
    : Sql Tables db_error unit :=
  match signals with
  | [] => ret tt
  | s :: signals => let! _ := write_care (place s) s in write_cares place signals
  end.

Definition put_mark (room key : string) (last count : N) (t : Tables) : option (Tables * nat) :=
  Some (with_t_care_marks (<[(room, key) := (last, count)]> (t_care_marks t)) t, 1).

(** [INSERT OR REPLACE INTO waits] *)
(** @src store/work.rs fn write_wait *)
Definition write_wait (w : WaitState) : Sql Tables db_error unit :=
  unit_of (execute DbError (wait_since w :: option_list (wait_last_signal_at w)) (fun t =>
    Some (with_t_waits (<[(wait_room w, wait_waiter w) := w]> (t_waits t)) t, 1))).

Fixpoint write_waits (waits : list WaitState) : Sql Tables db_error unit :=
  match waits with
  | [] => ret tt
  | w :: waits => let! _ := write_wait w in write_waits waits
  end.

(** @src store/attention.rs fn enqueue_care *)
Definition db_enqueue_care (delivery_room : string) (s : CareSignal) : Sql Tables db_error unit :=
  transaction DbError (write_care delivery_room s).
(** @src store/attention.rs fn enqueue_care_with_mark *)
Definition db_enqueue_care_with_mark (room key : string) (last count : N)
    (delivery_room : string) (s : CareSignal) : Sql Tables db_error unit :=
  transaction DbError (
    let! _ := execute DbError [last] (put_mark room key last count) in
    write_care delivery_room s).
(** @src store/attention.rs fn enqueue_everyone_care *)
Definition db_enqueue_everyone_care (room key : string) (last count : N)
    (signals : list CareSignal) : Sql Tables db_error unit :=
  transaction DbError (
    let! _ := execute DbError [last] (put_mark room key last count) in
    write_cares sig_room signals).
(** @src store/attention.rs fn enqueue_care_with_waits *)
Definition db_enqueue_care_with_waits (waits : list WaitState) (delivery_room : string)
    (s : CareSignal) : Sql Tables db_error unit :=
  transaction DbError (
    let! _ := write_waits waits in
    write_care delivery_room s).

(** ** Reading *)

(** @src store/attention.rs fn attention_from_row *)
Definition attention_from_row (r : AttentionRow) : Attention :=
  let s := ar_signal r in
  {| attn_id := signal_attention_id s; attn_room := origin_room s;
     attn_reason := sig_reason s; attn_subject := sig_subject s;
     attn_audience := sig_audience s; attn_owner := sig_owner s; attn_group := sig_group s;
     attn_participants := sig_participants s; attn_created_by := sig_created_by s;
     attn_created_at := ar_created_at r; attn_attempt := sig_attempt s;
     attn_escalated := sig_escalated s;
     attn_status :=
       if negb (is_none (ar_resolved_at r)) then AttnResolved
       else if negb (is_none (ar_claimed_at r)) then AttnClaimed else AttnOpen;
     attn_delivered_at := ar_delivered_at r; attn_claimed_by := ar_claimed_by r;
     attn_claimed_at := ar_claimed_at r; attn_resolved_at := ar_resolved_at r |}.

(** @src store/attention.rs fn attentions *)
Definition db_attentions t (room : string) : list Attention :=
  map (fun kr => attention_from_row kr.2)
    (merge_sort (by_created (fun kr => ar_created_at kr.2) fst)
       (List.filter (fun kr => bool_decide (ar_room kr.2 = room)) (map_to_list (t_attentions t)))).
(** @src store/attention.rs fn attention *)
Definition db_attention t (id : string) : option Attention :=
  attention_from_row <$> t_attentions t !! id.
(** @src store/attention.rs fn attention_owner_principal_id *)
Definition db_attention_owner_principal_id t (id : string) : dbres (option (option string)) :=
  Ok ((fun r => sig_owner_principal_id (ar_signal r)) <$> t_attentions t !! id).
(** @src store/attention.rs fn load_care_marks *)
Definition db_load_care_marks t (room : string) : list (string * N * N) :=
  map (fun kv => (kv.1.2, kv.2.1, kv.2.2))
    (List.filter (fun kv => bool_decide (kv.1.1 = room)) (map_to_list (t_care_marks t))).

(** Whether a delivery is for this reader: the principal when the row names one,
    the display name otherwise. *)
(** @src store/attention.rs:405-408 pending_care_scoped *)
Definition delivered_to (owner : string) (principal_id : option string) (o : OutboxRow) : bool :=
  match ob_owner_principal_id o with
  | None => bool_decide (ob_owner o = owner)
  | Some p => bool_decide (principal_id = Some p)
  end.

(** @src store/attention.rs fn pending_care_scoped *)
Definition db_pending_care_scoped t (delivery_room owner : string) (principal_id : option string)
    : list CareSignal :=
  List.filter (fun s => bool_decide (sig_room s = delivery_room))
    (map (fun ko => ob_signal ko.2)
      (merge_sort (by_created (fun ko => ob_created_at ko.2) fst)
        (List.filter (fun ko =>
            bool_decide (ob_delivery_room ko.2 = delivery_room) && is_none (ob_acked_at ko.2)
            && match t_attentions t !! ob_attention_id ko.2 with
               | None => true | Some a => is_none (ar_resolved_at a) end
            && delivered_to owner principal_id ko.2)
          (map_to_list (t_outbox t))))).

(** @src store/attention.rs fn attention_id_for_delivery *)
Definition db_attention_id_for_delivery t (id : string) : option string :=
  ob_attention_id <$> t_outbox t !! id.

(** ** Claiming, resolving, acknowledging *)

(** @src store/attention.rs fn claim_attention *)
Definition db_claim_attention (id by_ : string) (at_ : N) : Sql Tables db_error bool :=
  let! changed := execute DbError [at_] (on_table t_attentions with_t_attentions
    (update_where (fun k r => bool_decide (k = id)
                     && (is_none (ar_claimed_at r) && is_none (ar_resolved_at r)))
       (fun r => with_ar_claimed_at (Some at_) (with_ar_claimed_by (Some by_) r)))) in
  ret (0 <? changed)%nat.

(** @src store/attention.rs fn resolve_attention *)
Definition db_resolve_attention (id : string) (at_ : N) : Sql Tables db_error bool :=
  transaction DbError (
    let! changed := execute DbError [at_] (on_table t_attentions with_t_attentions
      (update_where (fun k r => bool_decide (k = id) && is_none (ar_resolved_at r))
         (with_ar_resolved_at (Some at_)))) in
    let! _ :=
      match changed with
      | O => ret O
      | S _ => execute DbError [at_] (ack_rows (fun i => bool_decide (i = id)) at_)
      end in
    ret (0 <? changed)%nat).

(** @src store/attention.rs fn ack_care_scoped *)
Definition db_ack_care_scoped (id owner : string) (principal_id : option string) (at_ : N)
    : Sql Tables db_error bool :=
  let mine (o : OutboxRow) := is_none (ob_acked_at o) && delivered_to owner principal_id o in
  transaction DbError (
    let! attention_id := query (fun t =>
      match t_outbox t !! id with
      | Some o => if mine o then Some (ob_attention_id o) else None
      | None => None
      end) in
    let! changed := execute DbError [at_] (on_table t_outbox with_t_outbox
      (update_where (fun k o => bool_decide (k = id) && mine o) (with_ob_acked_at (Some at_)))) in
    let! _ :=
      match changed with
      | O => ret O
      | S _ => execute DbError [at_] (on_table t_attentions with_t_attentions
          (update_where (fun k _ => bool_decide (k = default id attention_id))
             (fun r => with_ar_delivered_at (Some (default at_ (ar_delivered_at r))) r)))
      end in
    ret (0 <? changed)%nat).

(** ** The interface *)

#[export] Instance db_care : CareStore (Conn Tables) := {|
  enqueue_care := db_enqueue_care;
  enqueue_care_with_mark := db_enqueue_care_with_mark;
  enqueue_everyone_care := db_enqueue_everyone_care;
  enqueue_care_with_waits := db_enqueue_care_with_waits;
  store_attention c := db_attention (tables c);
  attention_owner_principal_id c := db_attention_owner_principal_id (tables c);
  store_claim_attention := db_claim_attention;
  store_resolve_attention := db_resolve_attention;
  store_pending_care_scoped c := db_pending_care_scoped (tables c);
  attention_id_for_delivery c := db_attention_id_for_delivery (tables c);
  ack_care_scoped := db_ack_care_scoped;
|}.
