(* ===== verification/StoreWork.v ===== *)
(** * The work tables

    crates/server/src/store/work.rs: tasks, goals and waits, written together
    with the end of the reminders they settle. *)

From S2P Require Import Prelude Protocol StoreApi Sql Tables Hub Ledger Identity Operators.
From S2P Require Import StoreAttention.

Open Scope loca_scope.

Implicit Types t : Tables.

(** ** Tasks and goals *)

(** [INSERT OR REPLACE INTO tasks] *)
(** @src store/work.rs fn write_task *)
Definition write_task (k : Task) : Sql Tables db_error unit :=
  unit_of (execute DbError
    (task_id k :: task_created_at k :: task_progress_at k
     :: option_list (task_from_message k) ++ option_list (task_closed_at k)) (fun t =>
    Some (with_t_tasks (<[(task_room k, task_id k) := k]> (t_tasks t)) t, 1))).

(** [INSERT OR REPLACE INTO goals]: a row that is in the way of the key or of the
    unique index on the active goal of a room is deleted. *)
Definition displaced_by (g : Goal) (k : string * N) (g' : Goal) : bool :=
  bool_decide (k = (goal_room g, goal_id g))
  || (bool_decide (goal_status g = GoalActive) && bool_decide (k.1 = goal_room g)
      && bool_decide (goal_status g' = GoalActive)).
(** @src store/work.rs fn write_goal *)
Definition write_goal (g : Goal) : Sql Tables db_error unit :=
  unit_of (execute DbError
    (goal_id g :: goal_created_at g :: goal_progress_at g
     :: option_list (goal_stale_after_secs g) ++ option_list (goal_closed_at g)) (fun t =>
    Some (with_t_goals (<[(goal_room g, goal_id g) := g]>
            (delete_where (displaced_by g) (t_goals t))) t, 1))).

(** @src store/work.rs fn upsert_task *)
Definition db_upsert_task (k : Task) : Sql Tables db_error unit := write_task k.
(** @src store/work.rs fn upsert_goal *)
Definition db_upsert_goal (g : Goal) : Sql Tables db_error unit := write_goal g.

(** The mark and the attentions of a condition of a room. *)
(** @src store/work.rs:40-54 upsert_goal_with_care_reset *)
Definition settle (room key : string) (at_ : N) : Sql Tables db_error unit :=
  let! _ := execute DbError [] (delete_mark room key) in
  resolve_condition (attention_key_id room key) at_.

Definition goal_key (g : Goal) : string := "goal:" +:+ dec (goal_id g).
Definition task_key (k : Task) : string := "task:" +:+ dec (task_id k).

(** @src store/work.rs fn upsert_goal_with_care_reset *)
Definition db_upsert_goal_with_care_reset (g : Goal) (clear_care : bool)
    : Sql Tables db_error unit :=
  transaction DbError (
    let! _ := write_goal g in
    if clear_care then settle (goal_room g) (goal_key g) (goal_progress_at g) else ret tt).

(** @src store/work.rs fn upsert_task_with_goal_progress *)
Definition db_upsert_task_with_goal_progress (k : Task) (goal : option Goal)
    (clear_task_care : bool) : Sql Tables db_error unit :=
  transaction DbError (
    let! _ := write_task k in
    let! _ := match goal with Some g => write_goal g | None => ret tt end in
    let! _ :=
      if clear_task_care then settle (task_room k) (task_key k) (task_progress_at k)
      else ret tt in
    match goal with
    | Some g => settle (goal_room g) (goal_key g) (goal_progress_at g)
    | None => ret tt
    end).

(** ** Waits *)

(** @src store/work.rs fn replace_wait_with_care *)
Definition db_replace_wait_with_care (w : WaitState) (at_ : N) : Sql Tables db_error unit :=
  transaction DbError (
    let! _ := write_wait w in
    let! _ := execute DbError [] (delete_mark (wait_room w) ("wait:" +:+ wait_waiter w)) in
    db_resolve_wait_attentions (wait_room w) (wait_waiter w) at_).

(** @src store/work.rs fn delete_wait *)
Definition db_delete_wait (room waiter : string) (at_ : N) : Sql Tables db_error unit :=
  transaction DbError (
    let! _ := execute DbError [] (fun t =>
      Some (with_t_waits (delete (room, waiter) (t_waits t)) t, 1)) in
    let! _ := execute DbError [] (delete_mark room ("wait:" +:+ waiter)) in
    db_resolve_wait_attentions room waiter at_).

(** ** Loading *)

Definition of_room {K V} `{Countable K} (key_room : K -> string) (room : string)
    (m : gmap K V) : list (K * V) :=
  List.filter (fun kv => bool_decide (key_room kv.1 = room)) (map_to_list m).

(** @src store/work.rs fn load_tasks *)
Definition db_load_tasks t (room : string) : list Task :=
  sort_by_N task_id (map snd (of_room fst room (t_tasks t))).
(** @src store/work.rs fn load_goals *)
Definition db_load_goals t (room : string) : list Goal :=
  sort_by_N goal_id (map snd (of_room fst room (t_goals t))).
(** @src store/work.rs fn load_waits *)
Definition db_load_waits t (room : string) : list WaitState :=
  map snd (merge_sort (fun x y => String.le x.1.2 y.1.2) (of_room fst room (t_waits t))).

#[export] Instance db_work : WorkStore (Conn Tables) := {|
  upsert_task := db_upsert_task;
  upsert_goal := db_upsert_goal;
  upsert_goal_with_care_reset := db_upsert_goal_with_care_reset;
  upsert_task_with_goal_progress := db_upsert_task_with_goal_progress;
  replace_wait_with_care := db_replace_wait_with_care;
  store_delete_wait := db_delete_wait;
|}.

(** * The room tables

    crates/server/src/store/rooms.rs and store/content.rs: mode and settings,
    the seal, the journal and the notes.  [rename_room], a migration that is run
    from the command line, is not modelled. *)

Section rooms.
Context `{WallClock}.

(** ** The room row *)

(** @src store/rooms.rs fn pause_room_attentions *)
Definition pause_room_attentions (room : string) (at_ : N) : Sql Tables db_error unit :=
  let! _ := execute DbError [at_] (fun t =>
    ack_rows (fun id => match t_attentions t !! id with
                        | Some a => bool_decide (ar_room a = room) | None => false end) at_ t) in
  unit_of (execute DbError [] (fun t =>
    Some (with_t_care_marks (delete_where (fun k _ => bool_decide (k.1 = room)) (t_care_marks t)) t, 1))).

(** @src store/rooms.rs fn retire_room_attentions *)
Definition retire_room_attentions (room : string) (at_ : N) : Sql Tables db_error unit :=
  let! _ := pause_room_attentions room at_ in
  unit_of (execute DbError [at_] (on_table t_attentions with_t_attentions
    (update_where (fun _ r => bool_decide (ar_room r = room))
       (fun r => with_ar_resolved_at (Some (default at_ (ar_resolved_at r))) r)))).

(** The settings of the text ['{}'] are the serde defaults of the struct. *)
(** @src store/rooms.rs fn seal_room *)
Definition db_seal_room (room : string) (at_ : N) : Sql Tables db_error unit :=
  transaction DbError (
    let! _ := execute DbError [] (fun t =>
      let '(m, n) := insert_or_ignore room (mkRoomRow Free room_settings_default None) (t_rooms t) in
      Some (with_t_rooms m t, n)) in
    let! _ := execute DbError [] (on_table t_rooms with_t_rooms
      (update_where (fun k _ => bool_decide (k = room)) (with_rr_sealed_at (Some at_)))) in
    retire_room_attentions room at_).

(** @src store/rooms.rs fn sealed_rooms *)
Definition db_sealed_rooms t : list string :=
  map fst (List.filter (fun kr => negb (is_none (rr_sealed_at kr.2))) (map_to_list (t_rooms t))).

(** @src store/rooms.rs fn save_room *)
Definition db_save_room (room : string) (mode : ChatMode) (settings : RoomSettings)
    : Sql Tables db_error unit :=
  transaction DbError (
    let! _ := write_room_state DbError room mode settings in
    if rs_archived settings then pause_room_attentions room current_time_ms else ret tt).

(** ** The journal and the notes *)

(** @src store/content.rs fn append_journal *)
Definition db_append_journal (e : JournalEntry) : Sql Tables db_error unit :=
  unit_of (execute DbError [je_id e; je_at e] (fun t =>
    match insert_row (je_room e, je_id e) e (t_journal t) with
    | Some (m, n) => Some (with_t_journal m t, n)
    | None => None
    end)).
(** @src store/content.rs fn load_journal *)
Definition db_load_journal t (room : string) : list JournalEntry :=
  sort_by_N je_id (map snd (of_room fst room (t_journal t))).

Definition write_note (room : string) (n : Note) : Sql Tables db_error unit :=
  unit_of (execute DbError [note_updated_at n; note_rev n] (fun t =>
    Some (with_t_notes (<[(room, note_key n) := n]> (t_notes t)) t, 1))).
(** @src store/content.rs fn upsert_note *)
Definition db_upsert_note (room : string) (n : Note) : Sql Tables db_error unit := write_note room n.
(** @src store/content.rs fn replace_note *)
Definition db_replace_note (room : string) (previous updated : Note) : Sql Tables db_error unit :=
  transaction DbError (
    let! _ := execute DbError [note_rev previous; note_updated_at previous] (fun t =>
      match insert_row (room, note_key previous, note_rev previous) previous (t_note_revisions t) with
      | Some (m, n) => Some (with_t_note_revisions m t, n)
      | None => None
      end) in
    write_note room updated).
(** @src store/content.rs fn delete_note *)
Definition db_delete_note (room key : string) : Sql Tables db_error unit :=
  unit_of (execute DbError [] (fun t =>
    Some (with_t_notes (delete (room, key) (t_notes t)) t, 1))).

(** The columns of a revision: who may write is not kept. *)
(** @src store/content.rs fn note_history *)
Definition db_note_history t (room key : string) : dbres (list Note) :=
  Ok (rev (sort_by_N note_rev (map (fun kn => with_note_can_write [] kn.2)
    (List.filter (fun kn => bool_decide (kn.1.1 = (room, key))) (map_to_list (t_note_revisions t)))))).

(** @src store/rooms.rs:353-383 load_room *)
Definition db_load_notes t (room : string) : list Note :=
  map snd (of_room fst room (t_notes t)).

#[export] Instance db_rooms : RoomStore (Conn Tables) := {|
  save_room := db_save_room;
  seal_room := db_seal_room;
  store_append_journal := db_append_journal;
  upsert_note := db_upsert_note;
  replace_note := db_replace_note;
  store_delete_note := db_delete_note;
|}.
End rooms.
