(* ===== verification/StoreMessages.v ===== *)
(** * The message tables

    crates/server/src/store/messages.rs: messages and reactions, and the claim of
    the files a message cites (store/attachment_index.rs).  What accepting a
    message settles, and what it starts, is written in its transaction. *)

From Stdlib Require Import Ascii.
From S2P Require Import Prelude Text Protocol StoreApi Sql Tables Hub Ledger Identity Operators.
From S2P Require Import StoreAttention StoreWork.

Open Scope loca_scope.

Section messages.
Context `{Unicode}.
Implicit Types t : Tables.

(** ** Files *)

(** A file can be cited in a room where it waits or has been cited before. *)
Definition claimable t (room sha : string) : bool :=
  negb (is_none (t_pending t !! (sha, room)))
  || negb (is_none (select_where (fun k _ => bool_decide (k.1.1 = room) && bool_decide (k.2 = sha))
                      (t_refs t))).

(** @src store/attachment_index.rs fn write_attachment_refs *)
Fixpoint write_attachment_refs (m : Message) (files : list Attachment) : Sql Tables db_error unit :=
  match files with
  | [] => ret tt
  | a :: files =>
      let! inserted := execute DbError [] (fun t =>
        if claimable t (msg_room m) (att_sha256 a) then
          match insert_row (msg_room m, msg_id m, att_sha256 a)
                  (mkRefRow (att_name a) (att_mime a) (att_size a) (msg_ts m)) (t_refs t) with
          | Some (refs, n) =>
              if is_none (t_messages t !! msg_id m) then None else Some (with_t_refs refs t, n)
          | None => None
          end
        else Some (t, 0)) in
      match inserted with
      | O => stop DbError
      | S _ =>
          let! _ := execute DbError [] (fun t =>
            Some (with_t_pending (delete (att_sha256 a, msg_room m) (t_pending t)) t, 1)) in
          write_attachment_refs m files
      end
  end.

(** ** Inserting *)

(** The primary key and the unique index on the operation of a principal. *)
(** @src store/messages.rs:119-137 insert_message *)
Definition insert_message_row (m : Message) (operation : option (string * string))
    (t : Tables) : option (Tables * nat) :=
  let taken :=
    match operation with
    | Some (p, o) => negb (is_none (select_where (fun _ r =>
        bool_decide (msg_room (mg_message r) = msg_room m) && bool_decide (mg_principal r = Some p)
        && bool_decide (mg_op_id r = Some o)) (t_messages t)))
    | None => false
    end in
  if taken then None
  else
    match insert_row (msg_id m) (mkMessageRow m (fst <$> operation) (snd <$> operation))
            (t_messages t) with
    | Some (rows, n) => Some (with_t_messages rows t, n)
    | None => None
    end.

(** @src store/messages.rs fn reset_silence_care *)
Definition reset_silence_care (room : string) (at_ : N) : Sql Tables db_error unit :=
  let! _ := execute DbError [] (delete_mark room "silence") in
  resolve_condition (attention_key_id room "silence") at_.

(** What every way of inserting a message has in common. *)
(** @src store/messages.rs:164-187 insert_message_with_room *)
Definition place_message (m : Message) (operation : option (string * string))
    : Sql Tables db_error unit :=
  let! _ := execute DbError (msg_id m :: msg_ts m :: option_list (msg_reply_to m))
              (insert_message_row m operation) in
  let! _ := reset_silence_care (msg_room m) (msg_ts m) in
  write_attachment_refs m (msg_attachments m).

Definition write_room_opt (room : string) (state : option (ChatMode * RoomSettings))
    : Sql Tables db_error unit :=
  match state with
  | Some (mode, settings) => write_room_state DbError room mode settings
  | None => ret tt
  end.

(** @src store/messages.rs fn insert_message *)
Definition db_insert_message (m : Message) (operation : option (string * string))
    : Sql Tables db_error unit :=
  transaction DbError (
    let! _ := require_unsealed_room DbError (msg_room m) in
    place_message m operation).

(** @src store/messages.rs fn insert_message_with_room *)
Definition db_insert_message_with_room (m : Message) (mode : ChatMode) (settings : RoomSettings)
    (operation : option (string * string)) : Sql Tables db_error unit :=
  transaction DbError (
    let! _ := write_room_state DbError (msg_room m) mode settings in
    place_message m operation).

(** @src store/messages.rs fn insert_message_with_care *)
Definition db_insert_message_with_care (m : Message) (state : option (ChatMode * RoomSettings))
    (operation : option (string * string)) (delivery_room : string) (signals : list CareSignal)
    : Sql Tables db_error unit :=
  transaction DbError (
    let! _ := require_unsealed_room DbError (msg_room m) in
    let! _ := write_room_opt (msg_room m) state in
    let! _ := place_message m operation in
    write_cares (fun _ => delivery_room) signals).

(** @src store/messages.rs fn insert_message_with_wait_wake *)
Definition db_insert_message_with_wait_wake (m : Message)
    (state : option (ChatMode * RoomSettings)) (operation : option (string * string))
    (delivery_room waiter : string) (at_ : N) (w : WaitState) (wake : CareSignal)
    : Sql Tables db_error unit :=
  transaction DbError (
    let! _ := require_unsealed_room DbError (msg_room m) in
    let! _ := write_room_opt (msg_room m) state in
    let! _ := place_message m operation in
    let! _ := db_resolve_wait_attentions (msg_room m) waiter at_ in
    let! _ := write_wait w in
    write_care delivery_room wake).

(** ** Reading *)

(** The columns of a message; who was replied to is not one of them. *)
(** @src store/messages.rs:338-350 message_by_operation *)
Definition message_from_row (r : MessageRow) : Message :=
  let m := mg_message r in
  mkMessage (msg_id m) (msg_room m) (msg_sender m) (msg_sender_type m) (msg_target m)
    (msg_text m) (msg_kind m) (msg_reply_to m) None (msg_ts m) (msg_attachments m).

(** [WHERE room = ?1 AND p ORDER BY id] *)
Definition messages_where t (p : MessageRow -> bool) : list Message :=
  sort_by_N msg_id (map message_from_row (List.filter p (values (t_messages t)))).

Definition in_room (room : string) (r : MessageRow) : bool :=
  bool_decide (msg_room (mg_message r) = room).

(** @src store/messages.rs fn message_owner *)
Definition db_message_owner t (room : string) (id : N) : dbres (option string) :=
  if negb (binds [id]) then Err DbError
  else Ok (r ← t_messages t !! id; if in_room room r then Some (msg_sender (mg_message r)) else None).

(** @src store/messages.rs fn message_by_operation *)
Definition db_message_by_operation t (room principal op_id : string) : dbres (option Message) :=
  Ok ('(_, r) ← select_where (fun _ r => in_room room r && bool_decide (mg_principal r = Some principal)
                  && bool_decide (mg_op_id r = Some op_id)) (t_messages t);
      Some (message_from_row r)).

(** @src store/messages.rs fn messages_after *)
Definition db_messages_after t (room : string) (after_id : N) (limit : nat)
    : dbres (option (list Message)) :=
  if negb (binds [after_id]) then Err DbError
  else Ok (Some (take limit
         (messages_where t (fun r => in_room room r && (after_id <? msg_id (mg_message r))%N)))).

(** @src store/messages.rs fn max_message_id *)
Definition db_max_message_id t : N := foldr N.max 0%N (keys (t_messages t)).

(** @src store/rooms.rs:321-351 load_room *)
Definition db_hot_tail t (room : string) : list Message :=
  let all := messages_where t (in_room room) in
  drop (length all - 200) all.

(** U+0130, LATIN CAPITAL LETTER I WITH DOT ABOVE, in UTF-8. *)
Definition dotted_capital_i : string :=
  String (ascii_of_N 196) (String (ascii_of_N 176) EmptyString).
(** @src store.rs fn search_fold *)
Definition search_fold (text : string) : string :=
  to_lowercase (concat_chars (map (fun ch =>
    if decide (ch = dotted_capital_i) then "i"%string else ch) (chars text))).

(** [instr(x, needle) > 0] *)
Fixpoint contains (needle text : string) : bool :=
  starts_with text needle ||
  match text with EmptyString => false | String _ text => contains needle text end.

(** @src store/content.rs fn search_messages *)
Definition db_search_messages t (room q : string) (limit : nat) : dbres (list Message) :=
  let needle := search_fold q in
  Ok (take limit (rev (messages_where t (fun r => in_room room r &&
        (contains needle (search_fold (msg_text (mg_message r)))
         || contains needle (search_fold (msg_sender (mg_message r)))))))).

(** ** Reactions *)

(** [ORDER BY message_id, emoji, created_at, reactor] *)
Definition reaction_order (x y : N * string * N * string) : Prop :=
  let '(i, e, c, r) := x in let '(i', e', c', r') := y in
  (i < i')%N \/ i = i' /\
  (e <> e' /\ String.le e e' \/ e = e' /\ ((c < c')%N \/ c = c' /\ String.le r r')).
#[local] Instance reaction_order_dec : RelDecision reaction_order.
Proof. intros [[[i e] c] r] [[[i' e'] c'] r']. unfold reaction_order. apply _. Defined.

(** Consecutive rows of one message and emoji are one reaction. *)
(** @src store/messages.rs:74-90 read_message_reactions *)
Definition group_row (grouped : list MessageReaction) (row : N * string * N * string)
    : list MessageReaction :=
  let '(id, emoji, _, actor) := row in
  match last grouped with
  | Some g =>
      if bool_decide (mr_message_id g = id) && bool_decide (mr_emoji g = emoji)
      then removelast grouped ++ [mkMessageReaction id emoji (mr_actors g ++ [actor])]
      else grouped ++ [mkMessageReaction id emoji [actor]]
  | None => [mkMessageReaction id emoji [actor]]
  end.
(** @src store/messages.rs fn read_message_reactions *)
Definition read_message_reactions t (room : string) (message_id : option N)
    : list MessageReaction :=
  foldl group_row [] (merge_sort reaction_order
    (map (fun kr => (kr.1.1.1.2, kr.1.2, rx_created_at kr.2, rx_reactor kr.2))
      (List.filter (fun kr => bool_decide (kr.1.1.1.1 = room)
          && match message_id with Some i => bool_decide (kr.1.1.1.2 = i) | None => true end)
        (map_to_list (t_reactions t))))).

(** @src store/messages.rs fn message_reactions *)
Definition db_message_reactions t (room : string) : dbres (list MessageReaction) :=
  Ok (read_message_reactions t room None).

(** @src store/messages.rs fn set_message_reaction *)
Definition db_set_message_reaction (room : string) (message_id : N)
    (principal reactor emoji : string) (active : bool) (at_ : N)
    : Sql Tables db_error (list MessageReaction) :=
  let key := (room, message_id, principal, emoji) in
  transaction DbError (
    let! _ :=
      if active then execute DbError [message_id; at_] (fun t =>
        if is_none (t_messages t !! message_id) then None
        else let '(m, n) := insert_or_ignore key (mkReactionRow reactor at_) (t_reactions t) in
             Some (with_t_reactions m t, n))
      else execute DbError [message_id] (fun t =>
        Some (with_t_reactions (delete key (t_reactions t)) t, 1)) in
    query (fun t => read_message_reactions t room (Some message_id))).

(** @src store/attachment_index.rs fn resolve_room_attachment *)
Definition db_resolve_room_attachment t (room id : string) : option Attachment :=
  match t_pending t !! (id, room) with
  | Some p => Some (mkAttachment id id (pd_name p) (pd_mime p) (pd_size p))
  | None =>
      '(_, r) ← select_where (fun k _ => bool_decide (k.2 = id) && bool_decide (k.1.1 = room)) (t_refs t);
      Some (mkAttachment id id (rf_name r) (rf_mime r) (rf_size r))
  end.

#[export] Instance db_messages : MessageStore (Conn Tables) := {|
  message_by_operation c := db_message_by_operation (tables c);
  message_owner c := db_message_owner (tables c);
  resolve_room_attachment c := db_resolve_room_attachment (tables c);
  insert_message := db_insert_message;
  insert_message_with_room := db_insert_message_with_room;
  insert_message_with_care := db_insert_message_with_care;
  insert_message_with_wait_wake := db_insert_message_with_wait_wake;
  set_message_reaction := db_set_message_reaction;
|}.
#[export] Instance db_reads `{Digest} : ReadStore (Conn Tables) := {|
  message_reactions c := db_message_reactions (tables c);
  store_note_history c := db_note_history (tables c);
  search_messages c := db_search_messages (tables c);
  store_messages_after c := db_messages_after (tables c);
  loca_operator_history c := db_loca_operator_history (tables c);
  active_principals c := db_active_principals (tables c);
|}.
End messages.
