(* ===== verification/BlobFiles.v ===== *)
(** * The files of the attachments

    [BlobStore] of crates/server/src/store/attachments.rs on a unix system: where
    a blob lies, how it is written, read and deleted, and the checks that keep a
    planted symbolic link from leading out of the tree.

    The file system is a map from absolute paths to entries.  The operations of
    [std::fs] the source calls are given as they are documented: a path is walked
    component by component, following links but for the last one; links are
    followed at most forty times.  An operation that changes the file system may
    fail by the oracle of [Sql]; one that only looks fails as the tree says.  What
    a crash leaves of an unsynced file is not modelled. *)

From Stdlib Require Import Ascii.
From Stdlib Require String.
From S2P Require Import Prelude Text StoreApi Sql Hub Membership.

Open Scope loca_scope.

(** ** A file system *)

(** A path from the root of the file system, by its components. *)
Abbreviation Path := (list string).

Inductive Entry : Type :=
  | Dir (mode : N)
  | Reg (mode : N) (data : string)
  | Symlink (target : Path)
  | Special.

Record Files : Type := mkFiles {
  entries : gmap Path Entry;
  temp_counter : N;
}.
Definition with_entries (es : gmap Path Entry) (fs : Files) : Files :=
  mkFiles es (temp_counter fs).

(** The kinds of [io::Error] the source tells apart. *)
Inductive io_error : Type :=
  | NotFound
  | AlreadyExists
  | InvalidData
  | InvalidInput
  | OtherIo.
#[global] Instance io_error_eq_dec : EqDecision io_error.
Proof. solve_decision. Defined.

Abbreviation Io := (Sql Files io_error).

(** The process and its clock name the temporary files. *)
Class ProcessStamp : Type := { process_id : N; nanos_now : N }.

(** The root of the file system is a directory. *)
Definition entry_at (fs : Files) (p : Path) : option Entry :=
  match p with [] => Some (Dir 493) | _ => entries fs !! p end.

Definition LINKS_MAX : nat := 40.

(** The directory that [cur] followed by the components [rest] names. *)
Fixpoint walk (fs : Files) (links : nat) (cur rest : Path) {struct links} : result Path io_error :=
  (fix go (cur rest : Path) {struct rest} : result Path io_error :=
     match rest with
     | [] => Ok cur
     | name :: rest =>
         match entry_at fs (cur ++ [name]) with
         | None => Err NotFound
         | Some (Dir _) => go (cur ++ [name]) rest
         | Some (Symlink target) =>
             match links with
             | O => Err OtherIo
             | S links => walk fs links [] (target ++ rest)
             end
         | Some _ => Err OtherIo
         end
     end) cur rest.

Fixpoint split_last (p : Path) : option (Path * string) :=
  match p with
  | [] => None
  | name :: rest =>
      match split_last rest with
      | None => Some ([], name)
      | Some (dir, last) => Some (name :: dir, last)
      end
  end.

(** The entry a path names, its last component not followed. *)
Definition locate (fs : Files) (path : Path) : result Path io_error :=
  match split_last path with
  | None => Ok []
  | Some (dir, name) => let? d := walk fs LINKS_MAX [] dir in Ok (d ++ [name])
  end.

(** The same with its last component followed. *)
Fixpoint follow (fs : Files) (links : nat) (path : Path) : result Path io_error :=
  let? p := locate fs path in
  match entry_at fs p with
  | None => Err NotFound
  | Some (Symlink target) =>
      match links with O => Err OtherIo | S links => follow fs links target end
  | Some _ => Ok p
  end.

(** ** The operations of [std::fs] *)

(** [fs::symlink_metadata] *)
Definition symlink_metadata (fs : Files) (path : Path) : result Entry io_error :=
  let? p := locate fs path in ok_or (entry_at fs p) NotFound.

(** [.map(|m| m.is_file()).unwrap_or(false)] *)
Definition is_regular (fs : Files) (path : Path) : bool :=
  match symlink_metadata fs path with Ok (Reg _ _) => true | _ => false end.

(** One operation that changes the tree. *)
Definition io_step (f : Files -> result Files io_error) : Io unit := fun c =>
  if next_fault c then (past_fault c, Err OtherIo)
  else
    match f (tables c) with
    | Ok fs => (mkConn fs (tail (faults c)), Ok tt)
    | Err e => (past_fault c, Err e)
    end.

(** What the outcome of [m] is used for, errors included. *)
Definition catch {A B} (m : Io A) (k : result A io_error -> Io B) : Io B :=
  fun c => let '(c, r) := m c in k r c.
Definition give {A} (r : result A io_error) : Io A := fun c => (c, r).

Definition put_entry (p : Path) (e : Entry) (fs : Files) : Files :=
  with_entries (<[p := e]> (entries fs)) fs.
Definition drop_entry (p : Path) (fs : Files) : Files :=
  with_entries (delete p (entries fs)) fs.

(** A new entry where there is none. *)
Definition make_entry (path : Path) (e : Entry) (fs : Files) : result Files io_error :=
  let? p := locate fs path in
  match entry_at fs p with
  | None => Ok (put_entry p e fs)
  | Some _ => Err AlreadyExists
  end.

(** [fs::create_dir], under the usual mask *)
Definition create_dir (path : Path) : Io unit := io_step (make_entry path (Dir 493)).
(** [OpenOptions::create_new] *)
Definition open_new (path : Path) (mode : N) : Io unit := io_step (make_entry path (Reg mode "")).

(** [fs::set_permissions] *)
Definition set_permissions (path : Path) (mode : N) : Io unit := io_step (fun fs =>
  let? p := follow fs LINKS_MAX path in
  match entry_at fs p with
  | Some (Dir _) => Ok (match p with [] => fs | _ => put_entry p (Dir mode) fs end)
  | Some (Reg _ data) => Ok (put_entry p (Reg mode data) fs)
  | _ => Ok fs
  end).

(** [File::write_all] on the file opened at [path]; a failure leaves it empty. *)
Definition write_all (path : Path) (bytes : string) : Io unit := io_step (fun fs =>
  let? p := locate fs path in
  match entry_at fs p with
  | Some (Reg mode _) => Ok (put_entry p (Reg mode bytes) fs)
  | _ => Err OtherIo
  end).

(** [File::sync_all] *)
Definition sync_all : Io unit := io_step Ok.

(** [fs::rename] of a file: what was at the new name, unless a directory, is
    replaced.  The source moves no directory. *)
Definition rename (from to : Path) : Io unit := io_step (fun fs =>
  let? a := locate fs from in
  let? b := locate fs to in
  match entry_at fs a with
  | None => Err NotFound
  | Some (Dir _) => Err OtherIo
  | Some e =>
      match entry_at fs b with
      | Some (Dir _) => Err OtherIo
      | _ => Ok (put_entry b e (drop_entry a fs))
      end
  end).

(** [fs::remove_file] *)
Definition remove_file (path : Path) : Io unit := io_step (fun fs =>
  let? p := locate fs path in
  match entry_at fs p with
  | None => Err NotFound
  | Some (Dir _) => Err OtherIo
  | Some _ => Ok (drop_entry p fs)
  end).

(** ** The store *)

(** @src store/attachments.rs const DIR_MODE *)
Definition DIR_MODE : N := 448.
(** @src store/attachments.rs const FILE_MODE *)
Definition FILE_MODE : N := 384.
(** @src store/attachments.rs const MAX_BLOB_BYTES *)
Definition MAX_BLOB_BYTES : N := 32 * 1024 * 1024.

(** @src store/attachments.rs struct BlobStore *)
Record BlobStore : Type := mkBlobStore { bs_root : Path }.

(** @src store/attachments.rs fn is_sha256_hex *)
Definition is_sha256_hex (s : string) : bool :=
  bool_decide (String.length s = 64)
  && forallb (fun a => ascii_in 48 57 a || ascii_in 97 102 a) (String.list_ascii_of_string s).

(** @src store/attachments.rs fn set_mode *)
Definition set_mode (path : Path) (mode : N) : Io unit := set_permissions path mode.

(** @src store/attachments.rs fn ensure_dir *)
Definition ensure_dir (path : Path) : Io unit :=
  let! found := query (fun fs => symlink_metadata fs path) in
  match found with
  | Ok (Symlink _) => stop AlreadyExists
  | Ok (Dir _) => set_mode path DIR_MODE
  | Ok _ => stop AlreadyExists
  | Err NotFound =>
      let! _ := create_dir path in
      set_mode path DIR_MODE
  | Err e => stop e
  end.

(** @src store/attachments.rs fn fsync_dir *)
Definition fsync_dir (path : Path) : Io unit :=
  let! opened := query (fun fs => follow fs LINKS_MAX path) in
  match opened with Ok _ => sync_all | Err e => stop e end.

Section blobs.
Context `{Digest} `{ProcessStamp}.

(** [format!("{:x}", Sha256::digest(bytes))] *)
Definition sha_hex (bytes : string) : string := hex_bytes (sha256 bytes).

(** [&sha[..2]] *)
Definition shard_of (sha : string) : string := String.substring 0 2 sha.

(** @src store/attachments.rs fn unique_name *)
Definition unique_name : Io string := fun c =>
  let n := temp_counter (tables c) in
  (mkConn (mkFiles (entries (tables c)) (wrap_add64 n 1)) (faults c),
   Ok (pretty process_id +:+ "-" +:+ pretty nanos_now +:+ "-" +:+ pretty n)).

(** @src store/attachments.rs:89-95 new *)
Definition blob_store_new (root : Path) : Io BlobStore :=
  let! _ := ensure_dir root in
  let! _ := set_mode root DIR_MODE in
  let! _ := ensure_dir (root ++ ["tmp"%string]) in
  ret (mkBlobStore root).

(** @src store/attachments.rs fn path_for *)
Definition path_for (bs : BlobStore) (sha : string) : option Path :=
  if negb (is_sha256_hex sha) then None
  else Some (bs_root bs ++ [shard_of sha] ++ [sha]).

(** @src store/attachments.rs fn exists *)
Definition blob_exists (bs : BlobStore) (fs : Files) (sha : string) : bool :=
  match path_for bs sha with Some p => is_regular fs p | None => false end.

(** The open refuses a link at the end of the path. *)
(** @src store/attachments.rs:262-283 read_no_follow *)
Definition read_no_follow (fs : Files) (path : Path) : result string io_error :=
  let? p := locate fs path in
  match entry_at fs p with
  | None => Err NotFound
  | Some (Symlink _) => Err OtherIo
  | Some (Reg _ data) =>
      if (MAX_BLOB_BYTES <? N.of_nat (String.length data))%N then Err InvalidData else Ok data
  | Some _ => Err NotFound
  end.

(** @src store/attachments.rs fn read_at *)
Definition read_at (fs : Files) (path : Path) (expect : option string) : result string io_error :=
  let? buf := read_no_follow fs path in
  match expect with
  | Some sha => if bool_decide (sha_hex buf = sha) then Ok buf else Err InvalidData
  | None => Ok buf
  end.

(** @src store/attachments.rs:192-202 replace_existing *)
Definition replace_existing (tmp final_path : Path) (orig : io_error) : Io unit :=
  let! blocked := query (fun fs => is_regular fs final_path) in
  if blocked : bool then
    let! _ := remove_file final_path in
    rename tmp final_path
  else stop orig.

(** @src store/attachments.rs fn publish *)
Definition publish (tmp final_path : Path) (sha : string) : Io unit :=
  catch (rename tmp final_path) (fun r =>
    match r with
    | Ok _ => ret tt
    | Err e =>
        let! there := query (fun fs => is_ok (read_at fs final_path (Some sha))) in
        if there : bool then ret tt else replace_existing tmp final_path e
    end).

(** The temporary file is removed on every way out; its removal may fail. *)
(** @src store/attachments.rs:509-519 drop *)
Definition with_temp_guard {A} (tmp : Path) (m : Io A) : Io A :=
  catch m (fun r => catch (remove_file tmp) (fun _ => give r)).

(** What is found where the blob goes. *)
(** @src store/attachments.rs:137-159 put *)
Definition dedup (final_path : Path) (sha : string) (fs : Files) : result bool io_error :=
  match symlink_metadata fs final_path with
  | Ok (Symlink _) => Err AlreadyExists
  | Ok (Reg _ _) => Ok (is_ok (read_at fs final_path (Some sha)))
  | Ok _ => Err AlreadyExists
  | Err NotFound => Ok false
  | Err e => Err e
  end.

(** @src store/attachments.rs fn put *)
Definition put (bs : BlobStore) (bytes : string) : Io string :=
  let sha := sha_hex bytes in
  let! _ := ensure_dir (bs_root bs) in
  let! _ := ensure_dir (bs_root bs ++ ["tmp"%string]) in
  let shard := bs_root bs ++ [shard_of sha] in
  let! _ := ensure_dir shard in
  let final_path := shard ++ [sha] in
  let! found := query (dedup final_path sha) in
  match found with
  | Err e => stop e
  | Ok true => ret sha
  | Ok false =>
      let! name := unique_name in
      let tmp := bs_root bs ++ ["tmp"%string] ++ [name] in
      with_temp_guard tmp (
        let! _ := open_new tmp FILE_MODE in
        let! _ := write_all tmp bytes in
        let! _ := sync_all in
        let! _ := set_mode tmp FILE_MODE in
        let! _ := publish tmp final_path sha in
        let! _ := fsync_dir shard in
        ret sha)
  end.

(** @src store/attachments.rs:359-364 read *)
Definition read (bs : BlobStore) (fs : Files) (sha : string) : result string io_error :=
  let? p := ok_or (path_for bs sha) InvalidInput in
  read_at fs p (Some sha).

(** The directory of the blob is opened without following a link in its place,
    and the entry removed by its name in it. *)
(** @src store/attachments.rs:384-422 delete_no_follow *)
Definition delete_no_follow (dir : Path) (name : string) : Io unit :=
  let! opened := query (fun fs => let? p := locate fs dir in
                                  match entry_at fs p with
                                  | None => Err NotFound
                                  | Some (Dir _) => Ok p
                                  | Some _ => Err OtherIo
                                  end) in
  match opened with
  | Err NotFound => ret tt
  | Err e => stop e
  | Ok d =>
      catch (io_step (fun fs =>
        match entry_at fs (d ++ [name]) with
        | None => Err NotFound
        | Some (Dir _) => Err OtherIo
        | Some _ => Ok (drop_entry (d ++ [name]) fs)
        end)) (fun r =>
        match r with
        | Ok _ | Err NotFound => ret tt
        | Err e => stop e
        end)
  end.

(** @src store/attachments.rs:372-377 delete *)
Definition blob_delete (bs : BlobStore) (sha : string) : Io unit :=
  match path_for bs sha with
  | None => ret tt
  | Some _ => delete_no_follow (bs_root bs ++ [shard_of sha]) sha
  end.
End blobs.

(** ** The interface to the index *)

(** What the index of the attachments uses of the files; [D] is their state. *)
Class BlobFiles (D : Type) : Type := {
  file_put : string -> D -> D * result string io_error;
  file_read : D -> string -> result string io_error;
  file_delete : string -> D -> D * result unit io_error;
}.

(** What the files promise: a write that ends well can be read under its hash, a
    write loses nothing that could be read, a file that was deleted is gone and
    the others stay. *)
Class BlobLaws (D : Type) `{Digest} `{BlobFiles D} : Type := {
  files_sound : D -> Prop;
  put_keeps_sound : forall bytes d, files_sound d -> files_sound (file_put bytes d).1;
  delete_keeps_sound : forall sha d, files_sound d -> files_sound (file_delete sha d).1;
  put_names_hash : forall bytes d sha,
    files_sound d -> (file_put bytes d).2 = Ok sha -> sha = sha_hex bytes;
  put_is_read : forall bytes d sha,
    files_sound d -> (file_put bytes d).2 = Ok sha ->
    (N.of_nat (String.length bytes) <= MAX_BLOB_BYTES)%N ->
    exists found, file_read (file_put bytes d).1 sha = Ok found;
  put_loses_nothing : forall bytes d sha found,
    files_sound d -> file_read d sha = Ok found -> file_read (file_put bytes d).1 sha = Ok found;
  read_is_verified : forall d sha found, file_read d sha = Ok found -> sha_hex found = sha;
  read_is_bounded : forall d sha found,
    file_read d sha = Ok found -> (N.of_nat (String.length found) <= MAX_BLOB_BYTES)%N;
  delete_removes : forall sha d found,
    files_sound d -> is_ok (file_delete sha d).2 = true ->
    file_read (file_delete sha d).1 sha <> Ok found;
  delete_spares : forall sha other d found,
    files_sound d -> sha <> other -> file_read d other = Ok found ->
    file_read (file_delete sha d).1 other = Ok found;
  delete_adds_nothing : forall sha other d found,
    files_sound d -> file_read (file_delete sha d).1 other = Ok found -> file_read d other = Ok found;
}.

(** The store below a directory, on the file system. *)
#[export] Instance disk_files `{Digest} `{ProcessStamp} (bs : BlobStore) : BlobFiles (Conn Files) := {|
  file_put bytes := put bs bytes;
  file_read c sha := read bs (tables c) sha;
  file_delete sha := blob_delete bs sha;
|}.
