(* ===== verification/Skills.v ===== *)
(** * The skill library on a user's machine

    src/crates/skill-bundles/src/lib.rs: the archives of skills that are built into
    the program are unpacked under a directory, one directory a version, checked
    against their manifests at every start, and unpacked anew when anything differs.

    The file system is that of BlobFiles.v.  Here the owner's write permission
    counts: an entry is created, renamed or removed only in a directory that can be
    written, and a directory is renamed only when it can be written itself (POSIX
    lets a system ask for it).  Reading asks for no permission.  The text of an
    error is not modelled, its kind is.

    The archives and manifests are made by the build and read by third-party code:
    they are the class [Library].  A name in an archive or a manifest is a list of
    names, so that [..] would be a name like another. *)

From Stdlib Require Import Ascii.
From Stdlib Require String.
From S2P Require Import Prelude Text StoreApi Sql Hub Membership BlobFiles.

Open Scope loca_scope.

(** ** More operations of [std::fs] *)

Definition look {A} (f : Files -> result A io_error) : Io A :=
  let! r := query f in give r.

(** [for x in l { f(x)?; }] *)
Fixpoint for_each {A} (f : A -> Io unit) (l : list A) : Io unit :=
  match l with
  | [] => ret tt
  | x :: rest => let! _ := f x in for_each f rest
  end.

(** The bits 0o222, of which the owner's is the highest. *)
Definition WRITE_BITS : N := 146.
(** [Permissions::readonly] *)
Definition readonly (mode : N) : bool := (N.land mode WRITE_BITS =? 0)%N.
(** [Permissions::set_readonly] *)
Definition readonly_mode (ro : bool) (mode : N) : N :=
  if ro then N.ldiff mode WRITE_BITS else N.lor mode WRITE_BITS.
Definition owner_write (mode : N) : bool := N.testbit mode 7.

(** [Path::strip_prefix]: what is left of a path below a directory. *)
Fixpoint strip_path (dir p : Path) : option Path :=
  match dir, p with
  | [], _ => Some p
  | x :: dir, y :: p => if bool_decide (x = y) then strip_path dir p else None
  | _ :: _, [] => None
  end.
Definition under (dir p : Path) : bool := negb (is_none (strip_path dir p)).

(** The names in a directory, in some order. *)
Definition children (fs : Files) (dir : Path) : list string :=
  omap (fun e => match strip_path dir e.1 with Some [name] => Some name | _ => None end)
    (map_to_list (entries fs)).

(** [fs::metadata] *)
Definition metadata (fs : Files) (path : Path) : result Entry io_error :=
  let? p := follow fs LINKS_MAX path in ok_or (entry_at fs p) NotFound.
(** [Path::exists] *)
Definition path_exists (fs : Files) (path : Path) : bool := is_ok (metadata fs path).
(** [Path::is_dir] *)
Definition path_is_dir (fs : Files) (path : Path) : bool :=
  match metadata fs path with Ok (Dir _) => true | _ => false end.
(** [fs::read_dir] *)
Definition read_dir (fs : Files) (path : Path) : result (list string) io_error :=
  let? p := follow fs LINKS_MAX path in
  match entry_at fs p with Some (Dir _) => Ok (children fs p) | _ => Err OtherIo end.
(** [fs::read], [fs::read_to_string] *)
Definition read_file (fs : Files) (path : Path) : result string io_error :=
  let? e := metadata fs path in
  match e with Reg _ data => Ok data | _ => Err OtherIo end.

(** Whether entries may come and go where [p] lies. *)
Definition parent_writable (fs : Files) (p : Path) : bool :=
  match split_last p with
  | None => false
  | Some (dir, _) =>
      match entry_at fs dir with Some (Dir mode) => owner_write mode | _ => false end
  end.

(** [fs::create_dir] *)
Definition mkdir (path : Path) : Io unit := io_step (fun fs =>
  let? p := locate fs path in
  match entry_at fs p with
  | Some _ => Err AlreadyExists
  | None => if parent_writable fs p then Ok (put_entry p (Dir 493) fs) else Err OtherIo
  end).

(** [fs::create_dir_all]; the components of the path from the last to the first. *)
Fixpoint make_dirs (last_first : Path) : Io unit :=
  let path := rev last_first in
  catch (mkdir path) (fun r =>
    match r with
    | Ok _ => ret tt
    | Err NotFound =>
        match last_first with
        | [] => stop OtherIo
        | _ :: up =>
            let! _ := make_dirs up in
            catch (mkdir path) (fun r =>
              match r with
              | Ok _ => ret tt
              | Err e =>
                  let! there := query (fun fs => path_is_dir fs path) in
                  if there : bool then ret tt else stop e
              end)
        end
    | Err e =>
        let! there := query (fun fs => path_is_dir fs path) in
        if there : bool then ret tt else stop e
    end).
Definition create_dir_all (path : Path) : Io unit := make_dirs (rev path).

(** The file an open for writing leads to, or where it will be created. *)
Fixpoint open_at (fs : Files) (links : nat) (path : Path) : result Path io_error :=
  let? p := locate fs path in
  match entry_at fs p with
  | Some (Symlink target) =>
      match links with O => Err OtherIo | S links => open_at fs links target end
  | Some (Reg mode _) => if owner_write mode then Ok p else Err OtherIo
  | Some _ => Err OtherIo
  | None => if parent_writable fs p then Ok p else Err OtherIo
  end.

(** [OpenOptions] with [create(true).write(true)] *)
Definition open_write (path : Path) (truncate : bool) : Io unit := io_step (fun fs =>
  let? p := open_at fs LINKS_MAX path in
  match entry_at fs p with
  | Some (Reg mode data) => Ok (put_entry p (Reg mode (if truncate then "" else data)) fs)
  | _ => Ok (put_entry p (Reg 420 "") fs)
  end).

(** [fs::write] *)
Definition fs_write (path : Path) (bytes : string) : Io unit :=
  let! _ := open_write path true in
  io_step (fun fs =>
    let? p := follow fs LINKS_MAX path in
    match entry_at fs p with
    | Some (Reg mode _) => Ok (put_entry p (Reg mode bytes) fs)
    | _ => Err OtherIo
    end).

(** What lies at [from] and below goes to [to]. *)
Definition move_tree (from to : Path) (es : gmap Path Entry) : gmap Path Entry :=
  list_to_map (omap (fun e => (fun rel => (to ++ rel, e.2)) <$> strip_path from e.1) (map_to_list es))
    ∪ filter (fun e => (under from e.1 || under to e.1) = false) es.

(** [fs::rename] of a file or a directory *)
Definition fs_rename (from to : Path) : Io unit := io_step (fun fs =>
  let? a := locate fs from in
  let? b := locate fs to in
  if negb (parent_writable fs a && parent_writable fs b) then Err OtherIo
  else
    match entry_at fs a with
    | None => Err NotFound
    | Some (Dir mode) =>
        if negb (owner_write mode) then Err OtherIo
        else if bool_decide (a = b) then Ok fs
        else if under a b then Err InvalidInput
        else
          match entry_at fs b with
          | None => Ok (with_entries (move_tree a b (entries fs)) fs)
          | Some (Dir _) =>
              match children fs b with
              | [] => Ok (with_entries (move_tree a b (entries fs)) fs)
              | _ => Err OtherIo
              end
          | Some _ => Err OtherIo
          end
    | Some e =>
        match entry_at fs b with
        | Some (Dir _) => Err OtherIo
        | _ => Ok (put_entry b e (drop_entry a fs))
        end
    end).

Definition unlink (path : Path) : Io unit := io_step (fun fs =>
  let? p := locate fs path in
  match entry_at fs p with
  | None => Err NotFound
  | Some (Dir _) => Err OtherIo
  | Some _ => if parent_writable fs p then Ok (drop_entry p fs) else Err OtherIo
  end).
Definition rmdir (path : Path) : Io unit := io_step (fun fs =>
  let? p := locate fs path in
  match entry_at fs p with
  | None => Err NotFound
  | Some (Dir _) =>
      match children fs p with
      | [] => if parent_writable fs p then Ok (drop_entry p fs) else Err OtherIo
      | _ => Err OtherIo
      end
  | Some _ => Err OtherIo
  end).

(** The longest path bounds the depth of the tree. *)
Definition tree_depth (fs : Files) : nat :=
  S (max_list (map (fun e => length e.1) (map_to_list (entries fs)))).

(** [fs::remove_dir_all]: a link is removed itself, a file refused. *)
Fixpoint remove_below (fuel : nat) (path : Path) : Io unit :=
  match fuel with
  | O => stop OtherIo
  | S fuel =>
      let! names := look (fun fs => read_dir fs path) in
      let! _ := for_each (fun name =>
        let! e := query (fun fs => symlink_metadata fs (path ++ [name])) in
        match e with
        | Ok (Dir _) => remove_below fuel (path ++ [name])
        | Ok _ => unlink (path ++ [name])
        | Err NotFound => ret tt
        | Err e => stop e
        end) names in
      rmdir path
  end.
Definition remove_dir_all (path : Path) : Io unit :=
  let! e := look (fun fs => symlink_metadata fs path) in
  match e with
  | Symlink _ => unlink path
  | Dir _ => let! fuel := query tree_depth in remove_below fuel path
  | _ => stop OtherIo
  end.

(** ** Permissions and trees *)

(** @src crates/skill-bundles/src/lib.rs fn set_readonly *)
Definition set_readonly (path : Path) (ro : bool) : Io unit :=
  let! e := look (fun fs => metadata fs path) in
  match e with
  | Dir mode | Reg mode _ => set_permissions path (readonly_mode ro mode)
  | _ => set_permissions path 0
  end.

(** @src crates/skill-bundles/src/lib.rs fn make_readonly_recursive *)
Fixpoint make_readonly_recursive (fuel : nat) (path : Path) : Io unit :=
  match fuel with
  | O => stop OtherIo
  | S fuel =>
      let! dir := query (fun fs => path_is_dir fs path) in
      let! _ := if dir : bool then
          let! names := look (fun fs => read_dir fs path) in
          for_each (fun name => make_readonly_recursive fuel (path ++ [name])) names
        else ret tt in
      set_readonly path true
  end.

(** @src crates/skill-bundles/src/lib.rs fn make_writable_recursive *)
Fixpoint make_writable_recursive (fuel : nat) (path : Path) : Io unit :=
  match fuel with
  | O => stop OtherIo
  | S fuel =>
      let! meta := look (fun fs => symlink_metadata fs path) in
      match meta with
      | Symlink _ => ret tt
      | _ =>
          catch (set_readonly path false) (fun _ =>
            match meta with
            | Dir _ =>
                let! names := look (fun fs => read_dir fs path) in
                for_each (fun name => make_writable_recursive fuel (path ++ [name])) names
            | _ => ret tt
            end)
      end
  end.

(** @src crates/skill-bundles/src/lib.rs fn remove_tree *)
Definition remove_tree (path : Path) : Io unit :=
  let! there := query (fun fs => path_exists fs path) in
  if negb there then ret tt
  else
    let! fuel := query tree_depth in
    catch (make_writable_recursive fuel path) (fun _ =>
      catch (remove_dir_all path) (fun r =>
        match r with
        | Ok _ | Err NotFound => ret tt
        | Err e => stop e
        end)).

(** ** The embedded library *)

(** @src crates/skill-bundles/src/lib.rs const VERSION *)
Definition VERSION : string := "0.12.10".

(** @src crates/skill-bundles/build.rs:67-71 Bundle *)
Record Bundle : Type := mkBundle { b_name : string; b_zip : string; b_manifest : string }.

(** One entry of an archive: [enclosed_name()], [is_dir()] and its bytes. *)
Record ZipEntry : Type := mkZipEntry {
  ze_name : option Path;
  ze_is_dir : bool;
  ze_data : result string io_error;
}.

(** The generated table of bundles, [ZipArchive::new] with [by_index], and the files
    of a manifest: none when [files] is no array, and for each its [path] and its
    [sha256] where they are texts. *)
Class Library : Type := {
  BUNDLES : list Bundle;
  zip_archive : string -> result (list (result ZipEntry io_error)) io_error;
  manifest_files : string -> result (option (list (option string * option string))) io_error;
}.

(** [Path::new(s)] by its components; the first tells an absolute path. *)
Fixpoint segments (cur s : string) : list string :=
  match s with
  | EmptyString => [cur]
  | String a s =>
      if Ascii.eqb a "/" then cur :: segments "" s else segments (cur +:+ String a "") s
  end.
Definition path_of (s : string) : Path :=
  match segments "" s with
  | first :: rest =>
      (if str_is_empty s then [] else if str_is_empty first then ["/"%string] else [first])
      ++ List.filter (fun x => negb (str_is_empty x || bool_decide (x = "."%string))) rest
  | [] => []
  end.

(** [dir.join(path)] *)
Definition path_join (dir path : Path) : Path :=
  match path with
  | first :: rest =>
      if bool_decide (first = "/"%string) then rest
      else if bool_decide (first = "."%string) then dir ++ rest
      else dir ++ path
  | [] => dir
  end.

(** [path.parent()] and on, while not empty *)
Definition ancestors (p : Path) : list Path := map (fun n => take n p) (rev (seq 1 (length p - 1))).

Abbreviation FileMap := (gmap Path string).
Abbreviation DirSet := (gset Path).

Section library.
Context `{Library} `{Digest}.

(** @src crates/skill-bundles/src/lib.rs fn bundle *)
Definition bundle (name : string) : option Bundle :=
  List.find (fun b => bool_decide (b_name b = name)) BUNDLES.

(** @src crates/skill-bundles/src/lib.rs fn all *)
Definition all_bundles : list Bundle := BUNDLES.

(** One file of a manifest. *)
(** @src crates/skill-bundles/src/lib.rs:191-213 expected_entries *)
Definition expect_file (file : option string * option string) (files : FileMap) (dirs : DirSet)
    : result (FileMap * DirSet) io_error :=
  let? name := ok_or file.1 InvalidData in
  let path := path_of name in
  let? sha := ok_or file.2 InvalidData in
  Ok (<[path := sha]> files, list_to_set (ancestors path) ∪ dirs).

Fixpoint expect_files (l : list (option string * option string)) (files : FileMap) (dirs : DirSet)
    : result (FileMap * DirSet) io_error :=
  match l with
  | [] => Ok (files, dirs)
  | file :: rest =>
      let? (files, dirs) := expect_file file files dirs in
      expect_files rest files dirs
  end.

Fixpoint expect_bundles (l : list Bundle) (files : FileMap) (dirs : DirSet)
    : result (FileMap * DirSet) io_error :=
  match l with
  | [] => Ok (files, dirs)
  | b :: rest =>
      let? manifest := manifest_files (b_manifest b) in
      let? listed := ok_or manifest InvalidData in
      let? (files, dirs) := expect_files listed files dirs in
      expect_bundles rest files dirs
  end.

(** @src crates/skill-bundles/src/lib.rs fn expected_entries *)
Definition expected_entries : result (FileMap * DirSet) io_error := expect_bundles BUNDLES ∅ ∅.

(** The names of one directory, each looked at in turn; [below] is the check of a
    directory among them.  [None] is the answer [false]. *)
(** @src crates/skill-bundles/src/lib.rs:225-258 check_tree *)
Fixpoint check_names (below : Path -> FileMap -> DirSet -> result (option (FileMap * DirSet)) io_error)
    (fs : Files) (root dir : Path) (names : list string) (files : FileMap) (dirs : DirSet)
    : result (option (FileMap * DirSet)) io_error :=
  match names with
  | [] => Ok (Some (files, dirs))
  | name :: rest =>
      let path := dir ++ [name] in
      let? meta := symlink_metadata fs path in
      match meta with
      | Symlink _ | Special => Ok None
      | Dir mode =>
          if negb (readonly mode) then Ok None
          else
            let? rel := ok_or (strip_path root path) InvalidData in
            if negb (bool_decide (rel ∈ dirs)) then Ok None
            else
              let? checked := below path files (dirs ∖ {[rel]}) in
              match checked with
              | None => Ok None
              | Some (files, dirs) => check_names below fs root dir rest files dirs
              end
      | Reg mode _ =>
          if negb (readonly mode) then Ok None
          else
            let? rel := ok_or (strip_path root path) InvalidData in
            match files !! rel with
            | None => Ok None
            | Some want =>
                let? bytes := read_file fs path in
                if bool_decide (sha_hex bytes = want)
                then check_names below fs root dir rest (delete rel files) dirs
                else Ok None
            end
      end
  end.

(** @src crates/skill-bundles/src/lib.rs fn check_tree *)
Fixpoint check_tree (fuel : nat) (fs : Files) (root dir : Path) (files : FileMap) (dirs : DirSet)
    : result (option (FileMap * DirSet)) io_error :=
  match fuel with
  | O => Err OtherIo
  | S fuel =>
      let? names := read_dir fs dir in
      check_names (check_tree fuel fs root) fs root dir names files dirs
  end.

(** @src crates/skill-bundles/src/lib.rs fn verify *)
Definition verify (fs : Files) (dir : Path) : result bool io_error :=
  match symlink_metadata fs dir with
  | Ok (Dir mode) =>
      if negb (readonly mode) then Ok false
      else
        let? (files, dirs) := expected_entries in
        let? checked := check_tree (tree_depth fs) fs dir dir files dirs in
        match checked with
        | None => Ok false
        | Some (files, dirs) => Ok (bool_decide (files = ∅) && bool_decide (dirs = ∅))
        end
  | _ => Ok false
  end.

(** ** Unpacking *)

(** One entry of an archive. *)
(** @src crates/skill-bundles/src/lib.rs:51-72 extract_zip *)
Definition extract_entry (dest : Path) (e : result ZipEntry io_error) : Io unit :=
  let! entry := give e in
  let! rel := give (ok_or (ze_name entry) InvalidData) in
  let out := dest ++ rel in
  if negb (under dest out) then stop InvalidData
  else if ze_is_dir entry then create_dir_all out
  else
    let! _ := match split_last out with
              | Some (parent, _) => create_dir_all parent
              | None => ret tt
              end in
    let! buf := give (ze_data entry) in
    fs_write out buf.

(** @src crates/skill-bundles/src/lib.rs fn extract_zip *)
Definition extract_zip (zip_bytes : string) (dest : Path) : Io unit :=
  let! archive := give (zip_archive zip_bytes) in
  for_each (extract_entry dest) archive.

(** @src crates/skill-bundles/src/lib.rs fn extract_one *)
Definition extract_one (b : Bundle) (dest : Path) : Io unit := extract_zip (b_zip b) dest.

(** @src crates/skill-bundles/src/lib.rs fn extract_all *)
Definition extract_all (dest : Path) : Io unit :=
  let! _ := for_each (fun b => extract_one b dest) BUNDLES in
  let! fuel := query tree_depth in
  make_readonly_recursive fuel dest.

(** ** Installing *)

Context `{ProcessStamp}.

(** @src crates/skill-bundles/src/lib.rs fn unique_suffix *)
Definition unique_suffix : Io string := unique_name.

(** @src crates/skill-bundles/src/lib.rs fn set_current *)
Definition set_current (root : Path) (version : string) : Io unit :=
  let! suffix := unique_suffix in
  let tmp := root ++ [(".current." +:+ suffix +:+ ".tmp")%string] in
  let! _ := fs_write tmp version in
  fs_rename tmp (root ++ ["current"%string]).
End library.

(** @src crates/skill-bundles/src/lib.rs fn current_dir *)
Definition current_dir `{Unicode} (fs : Files) (root : Path) : option Path :=
  match read_file fs (root ++ ["current"%string]) with
  | Err _ => None
  | Ok version =>
      let dir := path_join root (path_of (trim version)) in
      if path_is_dir fs dir then Some dir else None
  end.

(** What [try_lock] says of the lock file. *)
Inductive TryLock : Type := Locked | WouldBlock | LockFailed (e : io_error).

(** The other holders of the lock and the clock: the answer to the k-th try, and the
    milliseconds that have gone by then. *)
Class LockWait : Type := {
  try_lock : nat -> TryLock;
  elapsed_ms : nat -> N;
}.

Definition LOCK_WAIT_MS : N := 30000.
Definition LOCK_SLEEP_MS : N := 50.
Definition LOCK_TRIES : nat := 601.

Section install.
Context `{Library} `{Digest} `{ProcessStamp} `{LockWait}.

(** @src crates/skill-bundles/src/lib.rs:304-317 acquire *)
Fixpoint wait_for_lock (fuel k : nat) : Io unit :=
  match fuel with
  | O => stop OtherIo
  | S fuel =>
      match try_lock k with
      | Locked => ret tt
      | WouldBlock =>
          if (LOCK_WAIT_MS <=? elapsed_ms k)%N then stop InvalidData else wait_for_lock fuel (S k)
      | LockFailed e => stop e
      end
  end.

(** @src crates/skill-bundles/src/lib.rs fn acquire *)
Definition acquire (root : Path) : Io unit :=
  let! _ := open_write (root ++ [".install.lock"%string]) false in
  wait_for_lock LOCK_TRIES 0.

(** Unpacking beside the version, and its promotion. *)
(** @src crates/skill-bundles/src/lib.rs:115-127 install_versioned_with *)
Definition stage (promote : Path -> Path -> Io unit) (staging version_dir : Path) : Io unit :=
  let! _ := extract_all staging in
  let! _ := remove_tree version_dir in
  let! _ := set_readonly staging false in
  let! _ := promote staging version_dir in
  set_readonly version_dir true.

(** @src crates/skill-bundles/src/lib.rs:107-143 install_versioned_with *)
Definition reinstall (promote : Path -> Path -> Io unit) (root version_dir : Path) : Io unit :=
  let! _ := remove_tree version_dir in
  let! suffix := unique_suffix in
  let staging := root ++ [(".staging-" +:+ suffix)%string] in
  let! _ := remove_tree staging in
  let! _ := create_dir_all staging in
  catch (stage promote staging version_dir) (fun staged =>
    match staged with
    | Ok _ => ret tt
    | Err primary => catch (remove_tree staging) (fun _ => stop primary)
    end).

(** @src crates/skill-bundles/src/lib.rs fn install_versioned_with *)
Definition install_versioned_with (promote : Path -> Path -> Io unit) (root : Path) : Io Path :=
  let! _ := create_dir_all root in
  let! _ := acquire root in
  let version_dir := root ++ [VERSION] in
  let! intact := query (fun fs =>
    path_is_dir fs version_dir && match verify fs version_dir with Ok b => b | Err _ => false end) in
  let! _ := if intact : bool then ret tt else reinstall promote root version_dir in
  let! _ := set_current root VERSION in
  ret version_dir.

(** @src crates/skill-bundles/src/lib.rs fn install_versioned *)
Definition install_versioned (root : Path) : Io Path := install_versioned_with fs_rename root.
End install.
