(* ===== verification/Boot.v ===== *)
(** * Starting the server

    [Hub::build] of crates/server/src/hub.rs and [Store::load] of
    store/rooms.rs: what a restart reads back from the tables.  The order in
    which the source walks a [HashMap] is [map_to_list]'s; an [expect] that fails
    is [None].  [LOCA_MASTER_NAME] is the argument [master_name]. *)

From Stdlib Require Import Ascii.
From Stdlib Require String.
From S2P Require Import Prelude Text Net Protocol StoreApi Sql Tables Hub Access Membership.
From S2P Require Import Identity Operators StoreAttention StoreWork StoreMessages.

Open Scope loca_scope.

(** [str::parse::<u64>] *)
Definition parse_u64 (s : string) : option N :=
  let digits := match String.list_ascii_of_string s with
                | "+"%char :: rest => rest | rest => rest end in
  match read_digits 10 0 0 digits with
  | (value, S _, []) => if (value <=? u64_max)%N then Some value else None
  | _ => None
  end.

(** [id.rsplit(':').next()] *)
Fixpoint last_part_go (cur : list ascii) (s : list ascii) : list ascii :=
  match s with
  | [] => cur
  | a :: s => if decide (a = ":"%char) then last_part_go [] s else last_part_go (cur ++ [a]) s
  end.
Definition last_part (s : string) : string :=
  String.string_of_list_ascii (last_part_go [] (String.list_ascii_of_string s)).

(** @src hub struct HubConfig *)
Record HubConfig : Type := mkHubConfig {
  cfg_admin_token : string;
  cfg_room_token : string;
  cfg_require_sessions : bool;
  cfg_require_invite : bool;
  cfg_home_room : string;
  cfg_reserved_room : string;
  cfg_caretakers : gset string;
}.

(** ** Opening the store

    What [Store::open] does to the rows of an older database.  The schema is that of
    Tables.v, in which every column is there: a column that is being added holds
    its default. *)

Section open.
Context `{Digest}.
Implicit Types t : Tables.

(** [let _ = ..] *)
Definition regardless {E E' A} (m : Sql Tables E A) : Sql Tables E' unit := fun c => ((m c).1, Ok tt).

(** @src store.rs:683-696 open *)
Definition backfill_progress : Sql Tables db_error unit :=
  let! _ := regardless (execute DbError [] (on_table t_tasks with_t_tasks
    (update_where (fun _ k => (task_progress_at k =? 0)%N)
       (fun k => with_task_progress_at (task_created_at k) k)))) in
  regardless (execute DbError [] (on_table t_goals with_t_goals
    (update_where (fun _ g => (goal_progress_at g =? 0)%N)
       (fun g => with_goal_progress_at (goal_created_at g) g)))).

(** A delivery without an attention is one of its own. *)
Definition own_attention (id : string) (o : OutboxRow) : OutboxRow :=
  if str_is_empty (ob_attention_id o)
  then mkOutboxRow id (ob_delivery_room o) (ob_owner o) (ob_owner_principal_id o) (ob_signal o)
         (ob_created_at o) (ob_acked_at o)
  else o.
(** @src store.rs:701-704 open *)
Definition name_deliveries : Sql Tables db_error unit :=
  regardless (execute DbError [] (on_table t_outbox with_t_outbox
    (fun m => (map_imap (fun id o => Some (own_attention id o)) m,
               length (List.filter (fun o => str_is_empty (ob_attention_id o.2)) (map_to_list m)))))).

(** [signal.attention_id = attention_id.clone()] *)
Definition with_sig_attention_id (v : string) (s : CareSignal) : CareSignal :=
  mkCareSignal (sig_id s) v (sig_room s) (sig_source_room s) (sig_reason s) (sig_audience s)
    (sig_owner s) (sig_owner_principal_id s) (sig_group s) (sig_target s) (sig_participants s)
    (sig_subject s) (sig_created_by s) (sig_context s) (sig_attempt s) (sig_at s) (sig_escalated s)
    (sig_state s).
(** @src store.rs:737-748 open *)
Definition named_signal (o : OutboxRow) : CareSignal :=
  if str_is_empty (sig_attention_id (ob_signal o))
  then with_sig_attention_id (ob_attention_id o) (ob_signal o) else ob_signal o.
Definition with_signal (s : CareSignal) (o : OutboxRow) : OutboxRow :=
  mkOutboxRow (ob_attention_id o) (ob_delivery_room o) (ob_owner o) (ob_owner_principal_id o) s
    (ob_created_at o) (ob_acked_at o).
Definition attention_of_delivery (o : OutboxRow) : AttentionRow :=
  mkAttentionRow (sig_room (named_signal o)) (named_signal o) (Some (ob_owner o)) (ob_created_at o)
    (ob_acked_at o) None None None.

(** @src store.rs:737-768 open *)
Fixpoint promote_deliveries (rows : list (string * OutboxRow)) : Sql Tables db_error unit :=
  match rows with
  | [] => ret tt
  | (id, o) :: rows =>
      let! _ := execute DbError [] (on_table t_outbox with_t_outbox
        (update_where (fun k _ => bool_decide (k = id)) (with_signal (named_signal o)))) in
      let! _ := execute DbError (ob_created_at o :: option_list (ob_acked_at o))
        (on_table t_attentions with_t_attentions
          (insert_or_ignore (ob_attention_id o) (attention_of_delivery o))) in
      promote_deliveries rows
  end.

(** A principal and its credential for a key of an older database. *)
(** @src store.rs:1265-1289 migrate_legacy_principals *)
Definition insert_legacy (role label token name kind : string) (at_ : N) (revoked_at : option N)
    : Sql Tables db_error unit :=
  let principal_id := hashed_id "pr_" (role +:+ ":" +:+ token) in
  let credential_id := hashed_id "cr_" (role +:+ ":" +:+ token) in
  let! _ := execute DbError (at_ :: option_list revoked_at)
    (insert_or_ignore_principal principal_id (mkPrincipalRow name kind role at_ revoked_at)) in
  unit_of (execute DbError (at_ :: option_list revoked_at)
    (insert_or_ignore_credential credential_id
       (mkCredentialRow principal_id label (secret_hash token) at_ None revoked_at
          (Some (role +:+ ":" +:+ secret_hash token))))).

(** @src store.rs:1251-1264 migrate_legacy_principals *)
Fixpoint migrate_members (rows : list (string * MemberRow)) : Sql Tables db_error unit :=
  match rows with
  | [] => ret tt
  | (token, m) :: rows =>
      let kind := if decide (mr_kind m = "agent"%string) then "agent"%string else "human"%string in
      let! _ := insert_legacy "member" "Legacy member access" token (mr_name m) kind
                  (mr_joined_at m) (mr_revoked_at m) in
      migrate_members rows
  end.

(** @src store.rs:1291-1323 migrate_legacy_principals *)
Fixpoint migrate_smasters (rows : list (string * SmasterRow)) : Sql Tables db_error unit :=
  match rows with
  | [] => ret tt
  | (token, s) :: rows =>
      let! _ := insert_legacy "smaster" "Legacy Smaster access" token (sr_name s) "human"
                  (sr_issued_at s) (sr_revoked_at s) in
      migrate_smasters rows
  end.

(** @src store.rs fn migrate_legacy_principals *)
Definition migrate_legacy_principals : Sql Tables db_error unit :=
  transaction DbError (
    let! members := query (fun t => map_to_list (t_members t)) in
    let! _ := migrate_members members in
    let! smasters := query (fun t => map_to_list (t_smasters t)) in
    migrate_smasters smasters).

(** The owner of a memory by name: bound when exactly one principal, an active or a
    disabled one, has it. *)
Definition bind_owner t (m : MemoryRow) : MemoryRow :=
  match mm_owner m with
  | None => m
  | Some owner =>
      match List.filter (fun p => bool_decide (pr_display_name p.2 = owner)) (map_to_list (t_principals t)) with
      | [(id, p)] =>
          mkMemoryRow (mm_owner m) (if is_none (pr_disabled_at p) then Some id else None) (mm_short m)
            (mm_long m) (mm_short_updated_at m) (mm_long_updated_at m) (mm_version m)
      | _ => m
      end
  end.
(** @src store.rs:780-795 open *)
Definition bind_owners : Sql Tables db_error unit :=
  transaction DbError (
    let! _ := execute DbError [] (fun t => Some (t, 0)) in
    unit_of (execute DbError [] (fun t =>
      Some (with_t_memory (bind_owner t <$> t_memory t) t, size (t_memory t))))).

(** [owner_column]: whether the memory's table has the column already. *)
(** @src store.rs:683-796 open *)
Definition db_open (owner_column : bool) : Sql Tables db_error unit :=
  let! _ := backfill_progress in
  let! _ := name_deliveries in
  let! _ := transaction DbError (
    let! rows := query (fun t => map_to_list (t_outbox t)) in
    promote_deliveries rows) in
  let! _ := migrate_legacy_principals in
  if owner_column then ret tt else bind_owners.
End open.

Section boot.
Context `{Unicode} `{Digest} `{Csprng} `{WallClock}.
Implicit Types t : Tables.
Implicit Types h : Hub (Conn Tables).

(** ** The rooms on disk *)

Definition rooms_of {V} `{Countable K} (room : K -> V -> string) (m : gmap K V) : gset string :=
  list_to_set (map (fun kv => room kv.1 kv.2) (map_to_list m)).

(** A room begins with any durable record; a sealed one does not come back. *)
(** @src store/rooms.rs fn load *)
Definition stored_rooms t : gset string :=
  (rooms_of (fun _ r => msg_room (mg_message r)) (t_messages t)
   ∪ rooms_of (fun k _ => k.1) (t_notes t) ∪ rooms_of (fun k _ => k.1) (t_tasks t)
   ∪ rooms_of (fun k _ => k.1) (t_goals t) ∪ rooms_of (fun k _ => k.1) (t_waits t)
   ∪ rooms_of (fun k _ => k.1) (t_care_marks t)
   ∪ rooms_of (fun _ r => ar_room r) (t_attentions t)
   ∪ rooms_of (fun k _ => k.1) (t_journal t) ∪ rooms_of (fun k _ => k) (t_rooms t)
   ∪ list_to_set (map inv_room (db_load_invites t)))
  ∖ list_to_set (db_sealed_rooms t).

(** @src store/rooms.rs:393-415 load_room *)
Definition stored_mode t (room : string) : ChatMode * RoomSettings :=
  match t_rooms t !! room with
  | Some r => (rr_mode r, rr_settings r)
  | None => (Free, room_settings_default)
  end.

Definition max_of (l : list N) : N := foldr N.max 0%N l.

Definition by_key `{Countable K} {V} (key : V -> K) (l : list V) : gmap K V :=
  foldl (fun m v => <[key v := v]> m) ∅ l.

(** @src hub:536-586 build *)
Definition restore_room t (room : string) : Room :=
  let '(mode, settings) := stored_mode t room in
  let notes := db_load_notes t room in
  let tasks := db_load_tasks t room in
  let goals := db_load_goals t room in
  let history := db_hot_tail t room in
  let journal := db_load_journal t room in
  let r := room_with mode settings (max_of (map note_rev notes) + 1) in
  let r := with_r_history history r in
  let r := with_r_notes (by_key note_key notes) r in
  let r := with_r_tasks (by_key task_id tasks)
             (with_r_next_task_id (N.max 1 (max_of (map (fun k => task_id k + 1)%N tasks))) r) in
  let r := with_r_goals (by_key goal_id goals)
             (with_r_next_goal_id (N.max 1 (max_of (map (fun g => goal_id g + 1)%N goals))) r) in
  let r := with_r_waits (by_key wait_waiter (db_load_waits t room)) r in
  let r := with_r_care_marks (foldl (fun m x => <[x.1.1 := mkCareMark x.1.2 x.2]> m) ∅
             (db_load_care_marks t room)) r in
  let r := with_r_attentions (by_key attn_id (db_attentions t room)) r in
  let r := with_r_last_msg_ms (default 0%N (msg_ts <$> last history)) r in
  with_r_next_journal_id (default 1%N ((fun e => je_id e + 1)%N <$> last journal))
    (with_r_journal journal r).

(** The generations a room has used. *)
(** @src hub:538-575 build *)
Definition room_generations (r : Room) : list N :=
  option_list (msg_ts <$> last (r_history r))
  ++ map task_progress_at (values (r_tasks r)) ++ map goal_progress_at (values (r_goals r))
  ++ map wait_since (values (r_waits r)) ++ map attn_created_at (values (r_attentions r))
  ++ omap (fun a => parse_u64 (last_part (attn_id a))) (values (r_attentions r)).

(** @src hub:523-592 build *)
Definition restore_rooms h : Hub (Conn Tables) :=
  let t := tables (h_store h) in
  let rooms : gmap string Room :=
    list_to_map (map (fun name => (name, restore_room t name)) (elements (stored_rooms t))) in
  let max_id := db_max_message_id t in
  with_h_next_id (max_id + 1)
    (with_h_condition_generation (max_of (concat (map room_generations (values rooms))))
      (with_h_rooms rooms h)).

(** ** Identities *)

(** @src store/identity.rs fn active_human_principals_named *)
Definition db_active_human_principals_named t (name : string) : list PrincipalIdentity :=
  omap (fun id => p ← t_principals t !! id;
          if bool_decide (pr_display_name p = name) && bool_decide (pr_kind p = "human"%string)
             && is_none (pr_disabled_at p)
          then Some (principal_identity id p) else None)
    (sort_strings (keys (t_principals t))).

(** One legacy label of an operator, bound to a principal when it names exactly one. *)
(** @src hub:622-668 build *)
Definition migrate_operator (room : string) (settings : RoomSettings) h
    : Hub (Conn Tables) * bool :=
  let t := tables (h_store h) in
  match db_loca_operator t room with
  | Some _ => (h, true)
  | None =>
      match rs_operators settings with
      | [label] =>
          match db_active_human_principals_named t label with
          | [p] =>
              match db_active_master_principal t with
              | Some master =>
                  let '(h, made) :=
                    run_store (db_appoint_loca_operator room (pi_id p) (pi_id master) (h_clock h)) h in
                  (h, is_ok made)
              | None => (h, false)
              end
          | _ => (h, false)
          end
      | _ => (h, false)
      end
  end.

(** @src hub:612-682 build *)
Definition migrate_room_operators h (entry : string * Room) : Hub (Conn Tables) :=
  let '(room, r) := entry in
  let settings := r_settings r in
  let '(h, migrated) := migrate_operator room settings h in
  if migrated then
    let settings := with_rs_operators [] settings in
    let '(h, saved) := run_store (db_save_room room (r_mode r) settings) h in
    match saved with
    | Err _ => h
    | Ok _ =>
        match h_rooms h !! room with
        | Some r => put_room room (with_r_settings settings r) h
        | None => h
        end
    end
  else h.
Definition migrate_operators h : Hub (Conn Tables) :=
  foldl migrate_room_operators h
    (List.filter (fun e => negb (bool_decide (rs_operators (r_settings e.2) = [])))
       (map_to_list (h_rooms h))).

(** An admin session is kept when it proves a master or a second master. *)
(** @src hub:683-714 build *)
Fixpoint restore_sessions (found : list (string * string * SenderType * N)) h
    : option (Hub (Conn Tables)) :=
  match found with
  | [] => Some h
  | (token, _, _, expires_at) :: found =>
      let principal := db_principal_for_session (tables (h_store h)) token (h_clock h) in
      let admin p := bool_decide (pi_role p = RoleMaster) || bool_decide (pi_role p = RoleSmaster) in
      match principal with
      | Some p =>
          if admin p then
            restore_sessions found
              (with_h_sessions (<[token := mkSessionIdentity (Some (pi_id p)) (pi_role p)
                 (pi_display_name p) (pi_kind p) None None true expires_at]> (h_sessions h)) h)
          else
            let '(h, deleted) := run_store (db_delete_admin_session token) h in
            match deleted with Ok _ => restore_sessions found h | Err _ => None end
      | None =>
          let '(h, deleted) := run_store (db_delete_admin_session token) h in
          match deleted with Ok _ => restore_sessions found h | Err _ => None end
      end
  end.
Definition load_sessions h : option (Hub (Conn Tables)) :=
  let '(h, found) := run_store (db_load_admin_sessions (h_clock h)) h in
  match found with Ok found => restore_sessions found h | Err _ => restore_sessions [] h end.

(** A davet without a member gets one of its name. *)
(** @src hub:730-755 build *)
Definition bind_orphan h (token : string) : Hub (Conn Tables) :=
  match h_invites h !! token with
  | None => h
  | Some i =>
      let '(h, member_token) :=
        match find_value (fun m => bool_decide (mb_name m = inv_name i)) (h_members h) with
        | Some m => (h, mb_token m)
        | None =>
            let '(h, drawn) := new_invite_token h in
            let token := match strip_prefix drawn "dv_" with
                         | Some rest => "mb_" +:+ rest | None => drawn end in
            let m := mkMembership token (inv_name i) (inv_kind i) (h_clock h)
                       "migration:legacy-invite" in
            let '(h, _) := run_store (db_add_member m) h in
            (with_h_members (<[token := m]> (h_members h)) h, token)
        end in
      let i := mkInvite (inv_token i) (inv_room i) member_token (inv_name i) (inv_kind i)
                 (inv_issued_at i) (inv_issued_by i) in
      let h := with_h_invites (<[token := i]> (h_invites h)) h in
      (run_store (db_insert_invite i) h).1
  end.
Definition bind_orphans h : Hub (Conn Tables) :=
  foldl bind_orphan h
    (map inv_token (List.filter (fun i => str_is_empty (inv_member i)) (values (h_invites h)))).

(** @src hub:762-778 build *)
Fixpoint revoke_stale (stale : list string) h : option (Hub (Conn Tables)) :=
  match stale with
  | [] => Some h
  | token :: stale =>
      let '(h, revoked) := run_store (db_revoke_invite token (h_clock h)) h in
      match revoked with
      | Ok _ => revoke_stale stale (with_h_invites (delete token (h_invites h)) h)
      | Err _ => None
      end
  end.
Definition clean_reserved h : option (Hub (Conn Tables)) :=
  if str_is_empty (h_reserved_room h) then Some h
  else revoke_stale (map inv_token (List.filter (fun i =>
         bool_decide (inv_room i = h_reserved_room h)
         && negb (bool_decide (inv_name i ∈ h_caretakers h))) (values (h_invites h)))) h.

(** @src hub:784-796 build *)
Definition restore_home h : Hub (Conn Tables) :=
  let r := entry_room (h_home_room h) h in
  let r :=
    match r_journal r with
    | [] =>
        let journal := db_load_journal (tables (h_store h)) (h_home_room h) in
        with_r_next_journal_id (default 1%N ((fun e => je_id e + 1)%N <$> last journal))
          (with_r_journal journal r)
    | _ :: _ => r
    end in
  put_room (h_home_room h) r h.

(** @src hub:802-816 build *)
Definition restore_ban h (ban : string * string * string) : Hub (Conn Tables) :=
  let '(room, name, kind) := ban in
  let r := entry_room room h in
  let r :=
    if decide (kind = "ban"%string) then with_r_banned ({[name]} ∪ r_banned r) r
    else if decide (kind = "mute"%string) then with_r_muted ({[name]} ∪ r_muted r) r
    else r in
  put_room room r h.

(** ** The constructor *)

(** @src hub fn build *)
Definition build (cfg : HubConfig) (master_name : string) (default_settings : RoomSettings)
    (epoch entropy : N) (c : Conn Tables) : option (Hub (Conn Tables)) :=
  let '(c, ensured) :=
    db_ensure_master_principal (cfg_admin_token cfg) master_name current_time_ms c in
  match ensured with
  | Err _ => None
  | Ok _ =>
      let h : Hub (Conn Tables) := {|
        h_rooms := ∅; h_deleted := ∅; h_next_id := 1; h_condition_generation := 0;
        h_clock := current_time_ms; h_entropy := entropy;
        h_admin_token := cfg_admin_token cfg; h_room_token := cfg_room_token cfg;
        h_store := c; h_default_settings := default_settings; h_epoch := epoch;
        h_members := ∅; h_smasters := ∅; h_sessions := ∅;
        h_admin_pairing := mkAdminPairing "" 0 0;
        h_join_create_times := ∅;
        h_require_sessions := cfg_require_sessions cfg;
        h_require_invite := cfg_require_invite cfg;
        h_invites := by_key inv_token (db_load_invites (tables c));
        h_lobby_tx := []; h_lobby_online := ∅; h_runtime_health := ∅; h_care_deliveries := ∅;
        h_home_room := cfg_home_room cfg; h_reserved_room := cfg_reserved_room cfg;
        h_caretakers := cfg_caretakers cfg |} in
      let h := restore_rooms (fresh_pairing h) in
      let h := with_h_members (by_key mb_token (db_load_members (tables c))) h in
      let h := with_h_smasters (list_to_map (db_load_smasters (tables c))) h in
      let h := migrate_operators h in
      h ← load_sessions h;
      h ← clean_reserved (bind_orphans h);
      let h := restore_home h in
      let h := foldl restore_ban h (db_load_bans (tables (h_store h))) in
      Some (with_h_deleted (list_to_set (db_sealed_rooms (tables (h_store h)))) h)
  end.
End boot.
