(* ===== verification/Memory.v ===== *)
(** * The memory of a room

    crates/server/src/store/memory.rs: a short text that is replaced and a long
    one that only grows, with the entries it was made of; what of it is handed to
    an agent that wakes, and the pages of its entries. *)

From Stdlib Require Import Ascii.
From Stdlib Require String.
From S2P Require Import Prelude Text Protocol StoreApi Sql Tables Hub Access Identity Boot.

Open Scope loca_scope.

(** @src store/memory.rs const SHORT_MEMORY_MAX_BYTES *)
Definition SHORT_MEMORY_MAX_BYTES : nat := 4 * 1024.
(** @src store/memory.rs const LONG_MEMORY_ENTRY_MAX_BYTES *)
Definition LONG_MEMORY_ENTRY_MAX_BYTES : nat := 8 * 1024.
(** @src store/memory.rs const LONG_MEMORY_SOFT_BYTES *)
Definition LONG_MEMORY_SOFT_BYTES : N := 32 * 1024.
(** @src store/memory.rs const LONG_MEMORY_HARD_BYTES *)
Definition LONG_MEMORY_HARD_BYTES : N := 64 * 1024.

(** @src store.rs enum MemoryWriteError *)
Inductive MemoryWriteError : Type :=
  | MwPersistenceUnavailable
  | MwOwnerUnassigned
  | MwNotOwner
  | MwShortTooLarge
  | MwEntryTooLarge
  | MwLongTooLarge
  | MwStorage.
#[global] Instance MemoryWriteError_eq_dec : EqDecision MemoryWriteError.
Proof. solve_decision. Defined.

(** @src store.rs enum MemoryReadError *)
Inductive MemoryReadError : Type :=
  | MrPersistenceUnavailable
  | MrNotConfigured
  | MrInvariantViolation
  | MrStorage.

(** @src store.rs struct MemoryActor *)
Record MemoryActor : Type := mkMemoryActor {
  ma_name : string;
  ma_principal_id : option string;
  ma_allow_legacy_name : bool;
}.

(** Two line feeds stand between the entries of the long text. *)
Definition separator : string := String (ascii_of_N 10) (String (ascii_of_N 10) EmptyString).
Definition join_entries (texts : list string) : string := String.concat separator texts.

Definition bytes_N (s : string) : N := N.of_nat (String.length s).

Section memory.
Implicit Types t : Tables.

(** [WHERE room = ?1 ORDER BY id] *)
Definition room_entries t (room : string) : list (N * EntryRow) :=
  sort_by_N fst (List.filter (fun e => bool_decide (me_room e.2 = room)) (map_to_list (t_entries t))).
Definition entry_texts (entries : list (N * EntryRow)) : list string := map (fun e => me_text e.2) entries.

(** ** Reading *)

(** @src store/memory.rs fn loca_memory_version *)
Definition db_loca_memory_version t (room : string) : N := default 0%N (mm_version <$> t_memory t !! room).

(** @src store/memory.rs fn loca_memory *)
Definition db_loca_memory t (room : string) : option LocaMemory :=
  m ← t_memory t !! room;
  Some (mkLocaMemory room (mm_owner m) (mm_short m) (mm_long m) (mm_short_updated_at m)
          (mm_long_updated_at m) (LONG_MEMORY_SOFT_BYTES <? bytes_N (mm_long m))%N (mm_version m)).

(** The choice of the entries that are handed out, from the newest on: the ones
    taken so far with their size, whether an entry was left out already, and the
    ids of those that fit nowhere. *)
Record injection : Type := mkInjection {
  ij_selected : list string;
  ij_bytes : nat;
  ij_closed : bool;
  ij_uninjectable : list N;
}.
(** @src store/memory.rs:77-95 loca_memory_snapshot *)
Definition inject (s : injection) (e : N * EntryRow) : injection :=
  let text := me_text e.2 in
  if (LONG_MEMORY_ENTRY_MAX_BYTES <? String.length text)%nat
  then mkInjection (ij_selected s) (ij_bytes s) (ij_closed s) (ij_uninjectable s ++ [e.1])
  else if ij_closed s then s
  else
    let separator_bytes := match ij_selected s with [] => 0 | _ => 2 end in
    let candidate_bytes := ij_bytes s + separator_bytes + String.length text in
    if (candidate_bytes <=? LONG_MEMORY_ENTRY_MAX_BYTES)%nat
    then mkInjection (ij_selected s ++ [text]) candidate_bytes false (ij_uninjectable s)
    else mkInjection (ij_selected s) (ij_bytes s) true (ij_uninjectable s).
Definition injected (newest_first : list (N * EntryRow)) : injection :=
  foldl inject (mkInjection [] 0 false []) newest_first.

(** @src store/memory.rs fn loca_memory_snapshot *)
Definition db_loca_memory_snapshot t (room : string) : option LocaMemorySnapshot :=
  m ← db_loca_memory t room;
  let full_long := lm_long m in
  let entries := rev (room_entries t room) in
  let flattened := join_entries (rev (entry_texts entries)) in
  let chosen := injected entries in
  let long := join_entries (rev (ij_selected chosen)) in
  let omitted_bytes := String.length full_long - String.length long in
  Some (mkLocaMemorySnapshot
          (mkLocaMemory (lm_room m) (lm_owner m) (lm_short m) long (lm_short_updated_at m)
             (lm_long_updated_at m) (lm_over_budget m) (lm_version m))
          (negb (bool_decide (flattened = full_long)))
          (0 <? omitted_bytes)%nat omitted_bytes
          (length entries - length (ij_selected chosen))
          (ij_uninjectable chosen)).

(** SQLite's [trim(x) = '']. *)
Definition sql_blank (s : string) : bool :=
  forallb (fun a => Ascii.eqb a " ") (String.list_ascii_of_string s).

(** @src store/memory.rs fn loca_memory_metadata *)
Definition db_loca_memory_metadata t : list LocaMemoryMetadata :=
  omap (fun room =>
    m ← t_memory t !! room;
    Some (mkLocaMemoryMetadata room (mm_owner m) (mm_short_updated_at m) (mm_long_updated_at m)
            (N.of_nat (length (List.filter
               (fun e => sql_blank (me_decided_by e.2) || (me_decided_at e.2 =? 0)%N)
               (room_entries t room))))
            (LONG_MEMORY_SOFT_BYTES <? bytes_N (mm_long m))%N))
    (sort_strings (keys (t_memory t))).

Section pages.
Context `{Unicode}.

(** @src store/memory.rs:188-197 loca_memory_entries *)
Definition entry_provenance (e : N * EntryRow) : LocaMemoryEntryProvenance :=
  let '(id, r) := e in
  mkLocaMemoryEntryProvenance id (me_text r)
    (if str_is_empty (trim (me_decided_by r)) then None else Some (me_decided_by r))
    (if (me_decided_at r =? 0)%N then None else Some (me_decided_at r)).

(** [limit] is clamped by the handler; [limit + 1] does not overflow there. *)
(** @src store/memory.rs fn loca_memory_entries *)
Definition db_loca_memory_entries t (room : string) (after_id : N) (limit : nat)
    : result LocaMemoryEntryPage MemoryReadError :=
  match t_memory t !! room with
  | None => Err MrNotConfigured
  | Some m =>
      if negb (bool_decide (join_entries (entry_texts (room_entries t room)) = mm_long m))
      then Err MrInvariantViolation
      else if negb (binds [after_id]) then Err MrStorage
      else
        let found := take (limit + 1)
          (List.filter (fun e => (after_id <? e.1)%N) (room_entries t room)) in
        let entries := take limit (map entry_provenance found) in
        Ok (mkLocaMemoryEntryPage entries
              (if (limit <? length found)%nat then lmp_id <$> last entries else None))
  end.
End pages.

(** ** Writing *)

(** @src store/memory.rs fn set_memory_owner *)
Definition db_set_memory_owner (room : string) (owner principal_id : option string)
    : Sql Tables db_error unit :=
  unit_of (execute DbError [] (fun t =>
    let row :=
      match t_memory t !! room with
      | None => mkMemoryRow owner principal_id "" "" None None 1
      | Some m => mkMemoryRow owner principal_id (mm_short m) (mm_long m) (mm_short_updated_at m)
                    (mm_long_updated_at m) (mm_version m + 1)
      end in
    Some (with_t_memory (<[room := row]> (t_memory t)) t, 1))).

(** @src store/memory.rs fn require_memory_owner *)
Definition memory_owner_check t (room : string) (actor : MemoryActor) : option MemoryWriteError :=
  match t_memory t !! room with
  | None => Some MwOwnerUnassigned
  | Some m =>
      match mm_owner m, mm_owner_principal_id m with
      | None, _ => Some MwOwnerUnassigned
      | Some name, Some principal =>
          if bool_decide (ma_principal_id actor = Some principal) then None else Some MwNotOwner
      | Some name, None =>
          if ma_allow_legacy_name actor && bool_decide (name = ma_name actor) then None
          else Some MwNotOwner
      end
  end.
Definition require_memory_owner (room : string) (actor : MemoryActor)
    : Sql Tables MemoryWriteError unit :=
  let! refused := query (fun t => memory_owner_check t room actor) in
  match refused with Some e => stop e | None => ret tt end.

(** [UPDATE loca_memory .. WHERE room = ?1] *)
Definition update_memory (at_ : N) (room : string) (f : MemoryRow -> MemoryRow)
    : Sql Tables MemoryWriteError nat :=
  execute MwStorage [at_] (fun t =>
    Some (match t_memory t !! room with
          | Some m => (with_t_memory (<[room := f m]> (t_memory t)) t, 1)
          | None => (t, 0)
          end)).

(** The answer is read back after the commit. *)
(** @src store/memory.rs fn write_short_memory *)
Definition db_write_short_memory (room : string) (actor : MemoryActor) (text : string) (at_ : N)
    : Sql Tables MemoryWriteError LocaMemory :=
  let! _ := transaction MwStorage (
    let! _ := require_memory_owner room actor in
    if (SHORT_MEMORY_MAX_BYTES <? String.length text)%nat then stop MwShortTooLarge
    else
      update_memory at_ room (fun m =>
        mkMemoryRow (mm_owner m) (mm_owner_principal_id m) text (mm_long m) (Some at_)
          (mm_long_updated_at m) (mm_version m + 1))) in
  let! memory := query (fun t => db_loca_memory t room) in
  match memory with Some m => ret m | None => stop MwStorage end.

(** [INTEGER PRIMARY KEY AUTOINCREMENT] on a table nothing is deleted from. *)
Definition next_entry_id t : N := (max_of (keys (t_entries t)) + 1)%N.

(** @src store/memory.rs fn append_long_memory *)
Definition db_append_long_memory (room : string) (actor : MemoryActor) (text : string) (at_ : N)
    : Sql Tables MemoryWriteError LocaMemoryEntry :=
  transaction MwStorage (
    let! _ := require_memory_owner room actor in
    if (LONG_MEMORY_ENTRY_MAX_BYTES <? String.length text)%nat then stop MwEntryTooLarge
    else
      let! current_bytes := query (fun t => default 0%N ((fun m => bytes_N (mm_long m)) <$> t_memory t !! room)) in
      let separator_bytes := (if 0 <? current_bytes then 2 else 0)%N in
      let next_bytes := (current_bytes + separator_bytes + bytes_N text)%N in
      if (LONG_MEMORY_HARD_BYTES <? next_bytes)%N then stop MwLongTooLarge
      else
        let! id := query next_entry_id in
        let! _ := execute MwStorage [id; at_] (fun t =>
          match insert_row id (mkEntryRow room text (ma_name actor) at_) (t_entries t) with
          | Some (entries, n) => Some (with_t_entries entries t, n)
          | None => None
          end) in
        let! _ := update_memory at_ room (fun m =>
          mkMemoryRow (mm_owner m) (mm_owner_principal_id m) (mm_short m)
            (if str_is_empty (mm_long m) then text else mm_long m +:+ separator +:+ text)
            (mm_short_updated_at m) (Some at_) (mm_version m + 1)) in
        ret (mkLocaMemoryEntry id room text (Some (ma_name actor)) (Some at_)
               (LONG_MEMORY_SOFT_BYTES <? next_bytes)%N)).
End memory.

(** @src store/identity.rs fn active_principals_named *)
Definition db_active_principals_named (t : Tables) (name : string) : list PrincipalIdentity :=
  omap (fun id => p ← t_principals t !! id;
          if bool_decide (pr_display_name p = name) && is_none (pr_disabled_at p)
          then Some (principal_identity id p) else None)
    (sort_strings (keys (t_principals t))).

(** ** The methods of the store the hub uses *)

Class MemoryStore (S : Type) : Type := {
  memory_persistence_available : S -> bool;
  store_loca_memory_version : S -> string -> dbres N;
  store_loca_memory : S -> string -> dbres (option LocaMemory);
  store_loca_memory_snapshot : S -> string -> dbres (option LocaMemorySnapshot);
  store_loca_memory_metadata : S -> dbres (list LocaMemoryMetadata);
  store_loca_memory_entries : S -> string -> N -> nat -> result LocaMemoryEntryPage MemoryReadError;
  active_principals_named : S -> string -> dbres (list PrincipalIdentity);
  store_set_memory_owner : string -> option string -> option string -> S -> S * dbres unit;
  store_write_short_memory :
    string -> MemoryActor -> string -> N -> S -> S * result LocaMemory MemoryWriteError;
  store_append_long_memory :
    string -> MemoryActor -> string -> N -> S -> S * result LocaMemoryEntry MemoryWriteError;
}.

#[export] Instance memory_only_memory : MemoryStore unit := {|
  memory_persistence_available _ := false;
  store_loca_memory_version _ _ := Ok 0%N;
  store_loca_memory _ _ := Ok None;
  store_loca_memory_snapshot _ _ := Ok None;
  store_loca_memory_metadata _ := Ok [];
  store_loca_memory_entries _ _ _ _ := Err MrPersistenceUnavailable;
  active_principals_named _ _ := Ok [];
  store_set_memory_owner _ _ _ := write_ok tt;
  store_write_short_memory _ _ _ _ s := (s, Err MwPersistenceUnavailable);
  store_append_long_memory _ _ _ _ s := (s, Err MwPersistenceUnavailable);
|}.
#[export] Instance db_memory `{Unicode} : MemoryStore (Conn Tables) := {|
  memory_persistence_available _ := true;
  store_loca_memory_version c room := Ok (db_loca_memory_version (tables c) room);
  store_loca_memory c room := Ok (db_loca_memory (tables c) room);
  store_loca_memory_snapshot c room := Ok (db_loca_memory_snapshot (tables c) room);
  store_loca_memory_metadata c := Ok (db_loca_memory_metadata (tables c));
  store_loca_memory_entries c := db_loca_memory_entries (tables c);
  active_principals_named c name := Ok (db_active_principals_named (tables c) name);
  store_set_memory_owner := db_set_memory_owner;
  store_write_short_memory := db_write_short_memory;
  store_append_long_memory := db_append_long_memory;
|}.

(** ** The hub *)

(** The errors of [set_memory_owner]: the name is not that of one identity, or
    the store's own. *)
Inductive OwnerError : Type := OwnerNotOne | OwnerStorage.

Section hub.
Context {St : Type} `{StoreBase St} `{IdentityStore St} `{MemoryStore St}.
Implicit Types h : Hub St.

(** @src hub fn loca_memory *)
Definition loca_memory h (room : string) : dbres (option LocaMemory) := store_loca_memory (h_store h) room.
(** @src hub fn loca_memory_version *)
Definition loca_memory_version h (room : string) : dbres N := store_loca_memory_version (h_store h) room.
(** @src hub fn loca_memory_snapshot *)
Definition loca_memory_snapshot h (room : string) : dbres (option LocaMemorySnapshot) :=
  store_loca_memory_snapshot (h_store h) room.
(** @src hub fn loca_memory_metadata *)
Definition loca_memory_metadata h : dbres (list LocaMemoryMetadata) := store_loca_memory_metadata (h_store h).
(** @src hub fn loca_memory_entries *)
Definition loca_memory_entries h (room : string) (after_id : N) (limit : nat)
    : result LocaMemoryEntryPage MemoryReadError :=
  store_loca_memory_entries (h_store h) room after_id limit.

(** @src hub fn broadcast_memory_snapshot *)
Definition broadcast_memory_snapshot (room : string) h : Hub St :=
  match loca_memory_snapshot h room with
  | Err _ => h
  | Ok snapshot =>
      match h_rooms h !! room with
      | Some state => put_room room (send (server_frame_memory room snapshot) state) h
      | None => h
      end
  end.

(** The principal that is to own the memory, if [owner] names one. *)
(** @src hub:3807-3817 set_memory_owner *)
Definition owner_principal (owner : option string) h : result (option string) OwnerError :=
  match owner with
  | None => Ok None
  | Some name =>
      match active_principals_named (h_store h) name with
      | Err _ => Err OwnerStorage
      | Ok [principal] => Ok (Some (pi_id principal))
      | Ok [] => if admin_open h then Ok None else Err OwnerNotOne
      | Ok _ => Err OwnerNotOne
      end
  end.

(** @src hub fn set_memory_owner *)
Definition set_memory_owner (room : string) (owner : option string) h
    : Hub St * result unit OwnerError :=
  match owner_principal owner h with
  | Err e => (h, Err e)
  | Ok principal =>
      let '(h, written) := run_store (store_set_memory_owner room owner principal) h in
      match written with
      | Err _ => (h, Err OwnerStorage)
      | Ok _ => (broadcast_memory_snapshot room h, Ok tt)
      end
  end.

(** @src hub:3832-3836 write_short_memory *)
Definition actor_for_memory (actor : SessionIdentity) h : MemoryActor :=
  mkMemoryActor (sess_name actor) (sess_principal_id actor) (admin_open h).

(** @src hub fn write_short_memory *)
Definition write_short_memory (room : string) (actor : SessionIdentity) (text : string) h
    : Hub St * result LocaMemory MemoryWriteError :=
  let '(h, written) :=
    run_store (store_write_short_memory room (actor_for_memory actor h) text (h_clock h)) h in
  match written with
  | Err e => (h, Err e)
  | Ok memory => (broadcast_memory_snapshot room h, Ok memory)
  end.

(** @src hub fn append_long_memory *)
Definition append_long_memory (room : string) (actor : SessionIdentity) (text : string) h
    : Hub St * result LocaMemoryEntry MemoryWriteError :=
  let '(h, written) :=
    run_store (store_append_long_memory room (actor_for_memory actor h) text (h_clock h)) h in
  match written with
  | Err e => (h, Err e)
  | Ok entry => (broadcast_memory_snapshot room h, Ok entry)
  end.
End hub.
