(* ===== verification/WikiMaintenance.v ===== *)
(** * The reviews of a wiki

    crates/server/src/store/wiki_maintenance.rs: when messages have gathered a
    review of them is queued, the editor of the wiki claims it under a lease and
    renews the lease while it works.  A review covers the messages after the cursor
    of the wiki up to a bound that is fixed when it is queued. *)

From Stdlib Require Import Ascii.
From S2P Require Import Prelude Text Protocol StoreApi Sql Tables Hub Identity Operators.
From S2P Require Import StoreAttention StoreWork StoreMessages WikiTypes.

Open Scope loca_scope.

(** @src store/wiki_maintenance.rs const MAX_BATCH_MESSAGES *)
Definition MAX_BATCH_MESSAGES : nat := 100.
(** @src store/wiki_maintenance.rs const MAX_PENDING_AGE_MS *)
Definition MAX_PENDING_AGE_MS : N := 15 * 60 * 1000.
(** @src store/wiki_maintenance.rs const LEASE_MS *)
Definition LEASE_MS : N := 5 * 60 * 1000.
(** @src store/wiki_maintenance.rs const MAX_WORKER_MS *)
Definition MAX_WORKER_MS : N := 30 * 60 * 1000.

(** ** Steps of the wiki's transactions *)

Abbreviation Wiki := (Sql Tables WikiError).

(** A query with parameters, which must be representable. *)
Definition read {A} (params : list N) (f : Tables -> A) : Wiki A :=
  if binds params then query f else stop WkStorage.
(** [.ok_or(e)?] *)
Definition require {A} (e : WikiError) (o : option A) : Wiki A :=
  match o with Some a => ret a | None => stop e end.
(** [if b { return Err(e) }] *)
Definition refuse_if (b : bool) (e : WikiError) : Wiki unit := if b then stop e else ret tt.
(** [a.checked_add(b)] *)
Definition checked_add64 (a b : N) : option N := if (a + b <=? u64_max)%N then Some (a + b)%N else None.

(** A transaction whose body tells with its answer whether it reaches [tx.commit()];
    where it does not, the function is left and the transaction dropped. *)
Definition transaction_if {A} (m : Wiki (bool * A)) : Wiki A :=
  fun c =>
    if next_fault c then (past_fault c, Err WkStorage)
    else
      match m (past_fault c) with
      | (c', Err e) => (mkConn (tables c) (faults c'), Err e)
      | (c', Ok (false, a)) => (mkConn (tables c) (faults c'), Ok a)
      | (c', Ok (true, a)) =>
          if next_fault c' then (mkConn (tables c) (tail (faults c')), Err WkStorage)
          else (past_fault c', Ok a)
      end.
Definition leave {A} (a : A) : Wiki (bool * A) := ret (false, a).
Definition commit {A} (a : A) : Wiki (bool * A) := ret (true, a).

Section maintenance.
Context `{Unicode}.
Implicit Types t : Tables.

(** [status IN ('queued','running','blocked')] *)
Definition batch_active (b : BatchRow) : bool :=
  match bt_status b with BatchQueued | BatchRunning | BatchBlocked => true | _ => false end.
Definition room_batch (room : string) (b : BatchRow) : bool := bool_decide (bt_room b = room).

(** @src store/wiki_maintenance.rs:52-57 cancel_wiki_review *)
Definition cancel_where (p : N -> BatchRow -> bool) : Tables -> option (Tables * nat) :=
  on_table t_batches with_t_batches (update_where p (with_bt_status BatchCancelled)).

(** @src store/wiki_maintenance.rs fn lease_valid *)
Definition lease_valid (room principal : string) (lease : WikiLease) (at_ : N) : Wiki bool :=
  read [wl_batch_id lease; wl_epoch lease; at_] (fun t =>
    match t_batches t !! wl_batch_id lease, t_wiki t !! room with
    | Some b, Some w =>
        (bt_epoch b =? wl_epoch lease)%N && room_batch room b && bool_decide (bt_editor b = principal)
        && bool_decide (bt_status b = BatchRunning) && (at_ <? bt_lease_expires_at b)%N
        && wk_enabled w && bool_decide (wk_editor w = bt_editor b)
    | _, _ => false
    end).

(** @src store/wiki_maintenance.rs fn cancel_wiki_review *)
Definition db_cancel_wiki_review (room : string) : Wiki unit :=
  let! _ := execute WkStorage [] (cancel_where (fun _ b => room_batch room b && batch_active b)) in
  ret tt.

(** In no particular order. *)
(** @src store/wiki_maintenance.rs fn wiki_maintenance_rooms *)
Definition db_wiki_maintenance_rooms t : list string :=
  omap (fun '(room, w) => if wk_enabled w then Some room else None) (map_to_list (t_wiki t)).

(** @src store/wiki_maintenance.rs fn wiki_batch_status *)
Definition db_wiki_batch_status t (room : string) : option BatchStatus :=
  (fun b => bt_status b.2) <$>
    last (sort_by_N fst (List.filter (fun b => room_batch room b.2) (map_to_list (t_batches t)))).

(** ** Queueing *)

(** [AND kind='say' AND sender_type IN ('user','agent') AND sender!='loca'] *)
Definition reviewable (room : string) (r : MessageRow) : bool :=
  in_room room r && bool_decide (msg_kind (mg_message r) = Say)
  && negb (bool_decide (msg_sender (mg_message r) = "loca"%string)).

(** What a review of the messages after [cursor] would start from. *)
(** @src store/wiki_maintenance.rs:101-114 schedule_wiki_review *)
Definition review_inputs t (room : string) (cursor : N) : list (N * N) :=
  take 1000 (map (fun m => (msg_id m, msg_ts m))
    (messages_where t (fun r => reviewable room r && (cursor <? msg_id (mg_message r))%N))).

Definition min_of (l : list N) : option N :=
  match l with [] => None | x :: l => Some (foldr N.min x l) end.

(** Why a review is due, if it is. *)
(** @src store/wiki_maintenance.rs:115-124 schedule_wiki_review *)
Definition review_reason (inputs : list (N * N)) (interval at_ : N) : option string :=
  oldest_ts ← min_of (map snd inputs);
  if (interval <=? N.of_nat (length inputs))%N then Some "message_threshold"%string
  else if (MAX_PENDING_AGE_MS <=? at_ - oldest_ts)%N then Some "source_age"%string
  else None.

(** The unique index on the active batch of a room. *)
(** @src store.rs:289-291 open *)
Definition insert_batch (id : N) (b : BatchRow) (t : Tables) : option (Tables * nat) :=
  if negb (is_none (select_where (fun _ b' => room_batch (bt_room b) b' && batch_active b')
                      (t_batches t)))
  then None
  else
    match insert_row id b (t_batches t) with
    | Some (batches, n) => Some (with_t_batches batches t, n)
    | None => None
    end.

(** [INTEGER PRIMARY KEY AUTOINCREMENT] on a table nothing is deleted from. *)
Definition next_batch_id t : N := (foldr N.max 0 (keys (t_batches t)) + 1)%N.

(** @src store/wiki_maintenance.rs fn schedule_wiki_review *)
Definition db_schedule_wiki_review (room : string) (at_ : N) : Wiki bool :=
  transaction_if (
    let! wiki := query (fun t => t_wiki t !! room) in
    match wiki with
    | Some w =>
        if negb (wk_enabled w) then leave false
        else
          let! active := query (fun t =>
            negb (is_none (select_where (fun _ b => room_batch room b && batch_active b) (t_batches t)))) in
          if (active : bool) then leave false
          else
            let cursor := wk_reviewed_through w in
            let! inputs := query (fun t => review_inputs t room cursor) in
            match review_reason inputs (wk_interval w) at_ with
            | None => leave false
            | Some reason =>
                let through :=
                  default 0%N (fst <$> inputs !! (Nat.min (length inputs) MAX_BATCH_MESSAGES - 1)) in
                let! id := query next_batch_id in
                let! _ := execute WkStorage [id; cursor; through; at_]
                  (insert_batch id (mkBatchRow room (wk_editor w) cursor through BatchQueued reason
                     at_ 0 0 0)) in
                commit true
            end
    | None => leave false
    end).

(** ** Claiming *)

(** The batch that is queued, or whose lease has run out; the index leaves at most
    one. *)
(** @src store/wiki_maintenance.rs:174-178 claim_wiki_review *)
Definition claimable_batch t (room principal : string) (at_ : N) : option (N * BatchRow) :=
  select_where (fun _ b =>
    room_batch room b && bool_decide (bt_editor b = principal)
    && (bool_decide (bt_status b = BatchQueued)
        || bool_decide (bt_status b = BatchRunning) && (bt_lease_expires_at b <=? at_)%N))
    (t_batches t).

(** [UPDATE .. WHERE id = ?1] *)
Definition update_batch (id : N) (f : BatchRow -> BatchRow) : Tables -> option (Tables * nat) :=
  on_table t_batches with_t_batches (update_where (fun k _ => bool_decide (k = id)) f).

(** @src store/wiki_maintenance.rs:192-216 claim_wiki_review *)
Definition review_messages t (room : string) (after through : N) : list Message :=
  take 100 (messages_where t (fun r =>
    reviewable room r && (after <? msg_id (mg_message r))%N && (msg_id (mg_message r) <=? through)%N)).

(** @src store/wiki_maintenance.rs:183-186 claim_wiki_review *)
Definition claimed_batch (epoch expires : N) (b : BatchRow) : BatchRow :=
  mkBatchRow (bt_room b) (bt_editor b) (bt_after b) (bt_through b) BatchRunning (bt_reason b)
    (bt_created_at b) epoch (bt_attempts b + 1) expires.
(** @src store/wiki_maintenance.rs:168-173 claim_wiki_review *)
Definition block_exhausted (room : string) (at_ : N) : Tables -> option (Tables * nat) :=
  on_table t_batches with_t_batches
    (update_where (fun _ b => room_batch room b && bool_decide (bt_status b = BatchRunning)
                     && (bt_lease_expires_at b <=? at_)%N && (3 <=? bt_attempts b)%N)
       (with_bt_status BatchBlocked)).

(** @src store/wiki_maintenance.rs fn claim_wiki_review *)
Definition db_claim_wiki_review (room principal : string) (at_ : N) : Wiki (option WikiBatch) :=
  transaction_if (
    let! wiki := query (fun t => t_wiki t !! room) in
    let! w := require WkNotConfigured wiki in
    let! _ := refuse_if (negb (bool_decide (wk_editor w = principal))) WkNotEditor in
    if negb (wk_enabled w) then leave None
    else
      let! _ := execute WkStorage [at_] (block_exhausted room at_) in
      let! job := query (fun t => claimable_batch t room principal at_) in
      match job with
      | None => commit None
      | Some (id, b) =>
          let! expires := require WkInvalidInput (checked_add64 at_ LEASE_MS) in
          let! next_epoch := require WkStorage (checked_add64 (bt_epoch b) 1) in
          let! _ := execute WkStorage [id; next_epoch; expires]
            (update_batch id (claimed_batch next_epoch expires)) in
          let! _ := execute WkStorage [id; next_epoch; at_] (fun t =>
            match insert_row (id, next_epoch) at_ (t_leases t) with
            | Some (leases, n) => Some (with_t_leases leases t, n)
            | None => None
            end) in
          let! messages := query (fun t => review_messages t room (bt_after b) (bt_through b)) in
          commit (Some (mkWikiBatch (mkWikiLease id next_epoch) room (bt_after b) (bt_through b)
                             (bt_reason b) expires (bt_attempts b + 1) messages))
      end).

(** ** Renewing *)

(** @src store/wiki_maintenance.rs fn renew_wiki_review *)
Definition db_renew_wiki_review (room principal : string) (lease : WikiLease) (at_ : N) : Wiki N :=
  transaction WkStorage (
    let! valid := lease_valid room principal lease at_ in
    let! _ := refuse_if (negb valid) WkConflict in
    let! row := query (fun t =>
      started ← t_leases t !! (wl_batch_id lease, wl_epoch lease);
      b ← t_batches t !! wl_batch_id lease; Some (started, bt_lease_expires_at b)) in
    let! (started, existing) := require WkStorage row in
    let! deadline := require WkInvalidInput (checked_add64 started MAX_WORKER_MS) in
    let! next := require WkInvalidInput (checked_add64 at_ LEASE_MS) in
    let expires := N.min (N.max existing next) deadline in
    let! _ := refuse_if (expires <=? at_)%N WkConflict in
    let! _ := execute WkStorage [wl_batch_id lease; expires]
      (update_batch (wl_batch_id lease) (with_bt_lease_expires_at expires)) in
    ret expires).
End maintenance.
