(* ===== verification/Wiki.v ===== *)
(** * The pages of a wiki

    crates/server/src/store/wiki.rs: the wiki of a room as it is configured, read,
    reviewed by its editor, edited by an operator, and the removal of a page.  What
    is published is also written to a history that only grows. *)

From Stdlib Require Import Ascii.
From Stdlib Require String.
From S2P Require Import Prelude Text Protocol StoreApi Sql Tables Hub WikiTypes Doors Identity.
From S2P Require Import Operators StoreAttention StoreWork StoreMessages WikiMaintenance.

Open Scope loca_scope.

(** @src store/wiki.rs const PAGE_MAX_BYTES *)
Definition PAGE_MAX_BYTES : nat := 32 * 1024.
(** @src store/wiki.rs const COMMIT_MAX_PAGES *)
Definition COMMIT_MAX_PAGES : nat := 32.

(** [b.is_ascii_lowercase() || b.is_ascii_digit() || b == b'-'] *)
Definition slug_byte (a : ascii) : bool := ascii_in 97 122 a || ascii_in 48 57 a || bool_decide (a = "-"%char).
(** @src store/wiki.rs:123-127 remove_wiki_page *)
Definition bad_slug (slug : string) : bool :=
  str_is_empty slug || (80 <? String.length slug)%nat || negb (all_bytes slug_byte slug).

Section wiki.
Context `{Unicode}.
Implicit Types t : Tables.

(** ** Reading *)

(** @src store/wiki.rs fn pages *)
Definition pages_of t (room : string) : list WikiPage :=
  omap (fun slug => p ← t_pages t !! (room, slug);
          Some (mkWikiPage slug (pg_title p) (pg_body p) (pg_sources p) (pg_revision p)))
    (sort_strings (omap (fun k => if bool_decide (k.1 = room) then Some k.2 else None) (keys (t_pages t)))).

(** @src store/wiki.rs fn wiki_snapshot *)
Definition db_wiki_snapshot t (room : string) : result WikiSnapshot WikiError :=
  match t_wiki t !! room with
  | None => Err WkNotConfigured
  | Some w =>
      let editor_name := p ← t_principals t !! wk_editor w;
                         if is_none (pr_disabled_at p) then Some (pr_display_name p) else None in
      Ok (mkWikiSnapshot room (wk_editor w) editor_name (wk_enabled w) (wk_interval w) (wk_revision w)
            (wk_reviewed_through w) (wk_reviewed_at w) (wk_edited_at w) (pages_of t room))
  end.

(** @src store/wiki.rs fn wiki_page *)
Definition db_wiki_page t (room slug : string) : result WikiPageSnapshot WikiError :=
  match t_wiki t !! room with
  | None => Err WkNotConfigured
  | Some w =>
      match t_pages t !! (room, slug) with
      | None => Err WkPageNotFound
      | Some p =>
          Ok (mkWikiPageSnapshot room (wk_revision w) (wk_reviewed_through w) (wk_reviewed_at w)
                (mkWikiPage slug (pg_title p) (pg_body p) (pg_sources p) (pg_revision p)))
      end
  end.

(** ** Removing a page *)

(** @src store/wiki.rs:122-132 remove_wiki_page *)
Definition removal_refused (slug : string) (removal : WikiPageRemoval) : bool :=
  bool_decide (slug = "overview"%string) || bool_decide (slug = "working"%string) || bad_slug slug
  || str_is_empty (trim (wr_reason removal)) || (4096 <? String.length (wr_reason removal))%nat.

(** [INSERT INTO loca_wiki_history .. SELECT .. FROM loca_wiki_pages] *)
(** @src store/wiki.rs:153-168 remove_wiki_page *)
Definition archive_page (room slug : string) (next : N) (principal reason : string) (at_ : N)
    (t : Tables) : option (Tables * nat) :=
  match t_pages t !! (room, slug) with
  | None => Some (t, 0)
  | Some p =>
      match insert_row (room, slug, next)
              (mkHistoryRow (pg_title p) (pg_body p) (pg_sources p) principal reason at_) (t_history t) with
      | Some (history, n) => Some (with_t_history history t, n)
      | None => None
      end
  end.

(** [UPDATE loca_wiki SET .. WHERE room = ?1] *)
Definition update_wiki (room : string) (f : WikiRow -> WikiRow) : Tables -> option (Tables * nat) :=
  on_table t_wiki with_t_wiki (update_where (fun k _ => bool_decide (k = room)) f).

Definition active_in (room : string) (_ : N) (b : BatchRow) : bool := room_batch room b && batch_active b.

(** @src store/wiki.rs fn remove_wiki_page *)
Definition db_remove_wiki_page (room principal slug : string) (removal : WikiPageRemoval) (at_ : N)
    : Wiki N :=
  if removal_refused slug removal then stop WkInvalidInput
  else transaction WkStorage (
    let! wiki := query (fun t => t_wiki t !! room) in
    let! w := require WkNotConfigured wiki in
    let! _ := refuse_if (negb (bool_decide (wk_editor w = principal))) WkNotEditor in
    let! _ := refuse_if (negb (wk_revision w =? wr_expected_revision removal)%N) WkConflict in
    let! next := require WkStorage (checked_add64 (wk_revision w) 1) in
    let! copied := execute WkStorage [next; at_]
      (archive_page room slug next principal ("page removed: " +:+ wr_reason removal) at_) in
    let! _ := refuse_if (negb (copied =? 1)%nat) WkPageNotFound in
    let! _ := execute WkStorage [] (fun t => Some (with_t_pages (delete (room, slug) (t_pages t)) t, 1)) in
    let! _ := execute WkStorage [next; at_] (update_wiki room (fun w =>
      mkWikiRow (wk_editor w) (wk_enabled w) (wk_interval w) next (wk_reviewed_through w)
        (wk_reviewed_at w) (Some at_))) in
    let! _ := execute WkStorage [] (cancel_where (active_in room)) in
    ret next).

(** ** Configuring *)

(** @src store/wiki.rs:202-204 configure_wiki *)
Definition configuration_refused (editor : string) (interval : N) : bool :=
  str_is_empty (trim editor) || negb ((1 <=? interval)%N && (interval <=? 1000)%N).

(** @src store/wiki.rs:221-228 configure_wiki *)
Definition first_page (room slug title : string) : Tables -> option (Tables * nat) :=
  on_table t_pages with_t_pages (insert_or_ignore (room, slug) (mkPageRow title "" [] 0)).

(** @src store/wiki.rs fn configure_wiki *)
Definition db_configure_wiki (room editor : string) (enabled : bool) (interval : N) : Wiki unit :=
  if configuration_refused editor interval then stop WkInvalidInput
  else transaction WkStorage (
    let! _ := execute WkStorage [] (cancel_where (fun id b =>
      active_in room id b && (negb (bool_decide (bt_editor b = editor)) || negb enabled))) in
    let! _ := execute WkStorage [interval] (fun t =>
      let row :=
        match t_wiki t !! room with
        | None => mkWikiRow editor enabled interval 0 0 None None
        | Some w => mkWikiRow editor enabled interval (wk_revision w) (wk_reviewed_through w)
                      (wk_reviewed_at w) (wk_edited_at w)
        end in
      Some (with_t_wiki (<[room := row]> (t_wiki t)) t, 1)) in
    let! _ := execute WkStorage [] (first_page room "overview" "Overview") in
    let! _ := execute WkStorage [] (first_page room "working" "Working area") in
    ret tt).

(** ** Publishing *)

(** @src store/wiki.rs:355-360 commit_wiki_checked *)
Definition commit_refused (update : WikiCommit) : bool :=
  (COMMIT_MAX_PAGES <? length (wc_pages update))%nat
  || str_is_empty (trim (wc_reason update)) || (4096 <? String.length (wc_reason update))%nat.

(** [SELECT EXISTS(SELECT 1 FROM messages WHERE room=?1 AND id=?2)] *)
Definition message_in (room : string) (id : N) : Wiki bool :=
  read [id] (fun t => match t_messages t !! id with Some r => in_room room r | None => false end).

(** What a leased review must still be: the revision of its receipt when it was
    published already, or nothing. *)
(** @src store/wiki.rs:378-412 commit_wiki_checked *)
Definition check_lease (room principal : string) (update : WikiCommit) (lease : WikiLease) (cursor at_ : N)
    : Wiki (option N) :=
  let! receipt := read [wl_batch_id lease; wl_epoch lease] (fun t =>
    t_receipts t !! (room, wl_batch_id lease, wl_epoch lease)) in
  match receipt with
  | Some r =>
      if bool_decide (rc_editor r = principal) && bool_decide (rc_request r = update)
      then ret (Some (rc_revision r)) else stop WkConflict
  | None =>
      let! valid := lease_valid room principal lease at_ in
      let! _ := refuse_if (negb valid) WkConflict in
      let! row := query (fun t => t_batches t !! wl_batch_id lease) in
      let! b := require WkStorage row in
      let! _ := refuse_if (negb (cursor =? bt_after b)%N
                           || negb (wc_reviewed_through update =? bt_through b)%N) WkConflict in
      ret None
  end.

(** @src store/wiki.rs:446-458 commit_wiki_checked *)
Fixpoint check_sources (room : string) (through : N) (sources : list N) : Wiki unit :=
  match sources with
  | [] => ret tt
  | source :: sources =>
      let! _ := refuse_if (through <? source)%N WkInvalidInput in
      let! known := message_in room source in
      let! _ := refuse_if (negb known) WkInvalidInput in
      check_sources room through sources
  end.

(** @src store/wiki.rs:432-445 commit_wiki_checked *)
Definition bad_page (seen : list string) (page : WikiPage) : bool :=
  bad_slug (wp_slug page) || bool_decide (wp_slug page ∈ seen)
  || str_is_empty (trim (wp_title page)) || (256 <? String.length (wp_title page))%nat
  || (PAGE_MAX_BYTES <? String.length (wp_body page))%nat || (256 <? length (wp_sources page))%nat.

(** @src store/wiki.rs:459-466 commit_wiki_checked *)
Definition page_unchanged (existing : list WikiPage) (page : WikiPage) : bool :=
  existsb (fun p => bool_decide (wp_slug p = wp_slug page) && bool_decide (wp_title p = wp_title page)
                    && bool_decide (wp_body p = wp_body page)
                    && bool_decide (wp_sources p = wp_sources page)) existing.

(** The pages that are new or differ from what is published. *)
(** @src store/wiki.rs:431-467 commit_wiki_checked *)
Fixpoint check_pages (room : string) (through : N) (existing : list WikiPage) (seen : list string)
    (pages : list WikiPage) : Wiki (list WikiPage) :=
  match pages with
  | [] => ret []
  | page :: pages =>
      let! _ := refuse_if (bad_page seen page) WkInvalidInput in
      let! _ := check_sources room through (wp_sources page) in
      let! changed := check_pages room through existing (wp_slug page :: seen) pages in
      ret (if page_unchanged existing page then changed else page :: changed)
  end.

(** @src store/wiki.rs:471-498 commit_wiki_checked *)
Fixpoint publish_pages (room principal reason : string) (next at_ : N) (changed : list WikiPage)
    : Wiki unit :=
  match changed with
  | [] => ret tt
  | page :: changed =>
      let! _ := execute WkStorage [next] (fun t =>
        Some (with_t_pages (<[(room, wp_slug page) :=
                mkPageRow (wp_title page) (wp_body page) (wp_sources page) next]> (t_pages t)) t, 1)) in
      let! _ := execute WkStorage [next; at_] (fun t =>
        match insert_row (room, wp_slug page, next)
                (mkHistoryRow (wp_title page) (wp_body page) (wp_sources page) principal reason at_)
                (t_history t) with
        | Some (history, n) => Some (with_t_history history t, n)
        | None => None
        end) in
      publish_pages room principal reason next at_ changed
  end.

(** @src store/wiki.rs:499-512 commit_wiki_checked *)
Definition published_wiki (next through at_ : N) (changed human_edit : bool) (w : WikiRow) : WikiRow :=
  mkWikiRow (wk_editor w) (wk_enabled w) (wk_interval w) next through
    (if human_edit then wk_reviewed_at w else Some at_)
    (if changed then Some at_ else wk_edited_at w).

(** What becomes of the batches of the room. *)
(** @src store/wiki.rs:513-543 commit_wiki_checked *)
Definition settle_batches (room principal : string) (update : WikiCommit) (lease : option WikiLease)
    (human_edit changed : bool) (next : N) : Wiki unit :=
  match lease with
  | Some lease =>
      let! _ := execute WkStorage [wl_batch_id lease; wl_epoch lease; next] (fun t =>
        match insert_row (room, wl_batch_id lease, wl_epoch lease) (mkReceiptRow principal update next)
                (t_receipts t) with
        | Some (receipts, n) => Some (with_t_receipts receipts t, n)
        | None => None
        end) in
      let! _ := execute WkStorage [wl_batch_id lease]
        (update_batch (wl_batch_id lease) (with_bt_status BatchCompleted)) in
      ret tt
  | None =>
      if human_edit && changed then
        let! _ := execute WkStorage [] (cancel_where (active_in room)) in ret tt
      else if negb human_edit then
        let! _ := execute WkStorage [wc_reviewed_through update] (cancel_where (fun id b =>
          active_in room id b && (bt_after b <? wc_reviewed_through update)%N)) in ret tt
      else ret tt
  end.

(** What is done once the lease is in order. *)
(** @src store/wiki.rs:413-545 commit_wiki_checked *)
Definition publish (room principal : string) (update : WikiCommit) (at_ : N) (lease : option WikiLease)
    (human_edit : bool) (w : WikiRow) : Wiki N :=
  let cursor := wk_reviewed_through w in
  let through := wc_reviewed_through update in
  let! _ := refuse_if (negb (wc_expected_revision update =? wk_revision w)%N || (through <? cursor)%N)
              WkConflict in
  let! known := (if (through =? 0)%N then ret true else message_in room through) in
  let! _ := refuse_if (negb known) WkInvalidInput in
  let! existing := query (fun t => pages_of t room) in
  let! changed := check_pages room through existing [] (wc_pages update) in
  let is_changed := negb (bool_decide (changed = [])) in
  let! next := require WkStorage (checked_add64 (wk_revision w) (if is_changed then 1 else 0)) in
  let! _ := publish_pages room principal (wc_reason update) next at_ changed in
  let! _ := execute WkStorage [next; through; at_]
    (update_wiki room (published_wiki next through at_ is_changed human_edit)) in
  let! _ := settle_batches room principal update lease human_edit is_changed next in
  ret next.

(** @src store/wiki.rs fn commit_wiki_checked *)
Definition db_commit_wiki_checked (room principal : string) (update : WikiCommit) (at_ : N)
    (lease : option WikiLease) (human_edit : bool) : Wiki N :=
  if commit_refused update then stop WkInvalidInput
  else transaction_if (
    let! wiki := query (fun t => t_wiki t !! room) in
    let! w := require WkNotConfigured wiki in
    let! _ := refuse_if (negb human_edit && negb (bool_decide (wk_editor w = principal))) WkNotEditor in
    let! _ := refuse_if (human_edit && (negb (is_none lease)
                         || negb (wc_reviewed_through update =? wk_reviewed_through w)%N)) WkConflict in
    let! accepted := match lease with
                     | Some lease => check_lease room principal update lease (wk_reviewed_through w) at_
                     | None => ret None
                     end in
    match accepted with
    | Some revision => leave revision
    | None => let! next := publish room principal update at_ lease human_edit w in commit next
    end).

(** @src store/wiki.rs fn commit_wiki *)
Definition db_commit_wiki (room principal : string) (update : WikiCommit) (at_ : N) : Wiki N :=
  db_commit_wiki_checked room principal update at_ None false.

(** The snapshot is read before the transaction. *)
(** @src store/wiki.rs fn edit_wiki_page *)
Definition db_edit_wiki_page (room actor slug : string) (edit : WikiPageEdit) (at_ : N) : Wiki N :=
  let! read := query (fun t => db_wiki_snapshot t room) in
  match read with
  | Err e => stop e
  | Ok snapshot =>
      let update := mkWikiCommit (we_expected_revision edit) (ws_reviewed_through snapshot)
        "human page edit; not a conversation review"
        [mkWikiPage slug (we_title edit) (we_body edit) [] 0] in
      db_commit_wiki_checked room actor update at_ None true
  end.

(** @src store/wiki.rs fn finish_wiki_review *)
Definition db_finish_wiki_review (room principal : string) (update : WikiCommit) (lease : WikiLease)
    (at_ : N) : Wiki N :=
  db_commit_wiki_checked room principal update at_ (Some lease) false.
End wiki.

(** * Which pages of a wiki an agent is given

    crates/server/src/store/wiki_context.rs: an agent selects pages, or has them
    offered, and acknowledges what its runtime took in; and how recently the
    runtime of an editor reported. *)

Section context.
Context `{Unicode}.
Implicit Types t : Tables.

(** The agents with a selection, the latest request first; requests of the same
    time are in no particular order. *)
(** @src store/wiki_context.rs fn wiki_context_requests *)
Definition db_wiki_context_requests t (room : string) : list WikiContextRequest :=
  let rows := omap (fun '(r, principal, s) =>
    if bool_decide (r = room) then
      p ← t_principals t !! principal;
      if bool_decide (pr_kind p = "agent"%string) && is_none (pr_disabled_at p)
      then Some (s, mkWikiContextRequest (pr_display_name p) (sl_slugs s) (sl_reason s) (sl_version s))
      else None
    else None) (map_to_list (t_selection t)) in
  map snd (take 128 (rev (sort_by_N (fun r => sl_requested_at r.1) rows))).

(** @src store/wiki_context.rs:59-61 wiki_native_ready *)
Definition known_runtime (runtime : string) : bool :=
  bool_decide (runtime = "codex"%string) || bool_decide (runtime = "claude"%string).
(** @src store/wiki_context.rs fn wiki_native_ready *)
Definition db_wiki_native_ready (room principal runtime : string) (at_ : N) : Wiki unit :=
  if negb (known_runtime runtime) then stop WkInvalidInput
  else
    let! _ := execute WkStorage [at_] (fun t =>
      Some (with_t_runtime (<[(room, principal) := (runtime, at_)]> (t_runtime t)) t, 1)) in
    ret tt.

(** @src store/wiki_context.rs fn wiki_editor_runtime_ready *)
Definition db_wiki_editor_runtime_ready t (room principal : string) (at_ : N) : result bool WikiError :=
  if negb (binds [at_; at_ - 120000]%N) then Err WkStorage
  else Ok (match t_runtime t !! (room, principal) with
           | Some (_, ready_at) => (ready_at <=? at_)%N && (at_ - 120000 <=? ready_at)%N
           | None => false
           end).

(** @src store/wiki_context.rs:92-111 select_wiki_context *)
Definition selection_refused (selection : WikiContextSelection) : bool :=
  bool_decide (wcs_slugs selection = []) || (16 <? length (wcs_slugs selection))%nat
  || str_is_empty (trim (wcs_reason selection)) || (1024 <? String.length (wcs_reason selection))%nat
  || existsb bad_slug (wcs_slugs selection) || negb (bool_decide (NoDup (wcs_slugs selection))).

(** The same selection again changes nothing. *)
(** @src store/wiki_context.rs fn select_wiki_context *)
Definition db_select_wiki_context (room principal : string) (selection : WikiContextSelection) (at_ : N)
    : Wiki unit :=
  if selection_refused selection then stop WkInvalidInput
  else
    let! _ := execute WkStorage [at_] (fun t =>
      match t_selection t !! (room, principal) with
      | None =>
          Some (with_t_selection (<[(room, principal) :=
            mkSelectionRow (wcs_slugs selection) (wcs_reason selection) 1 at_]> (t_selection t)) t, 1)
      | Some s =>
          if bool_decide (sl_slugs s = wcs_slugs selection) && bool_decide (sl_reason s = wcs_reason selection)
          then Some (t, 0)
          else Some (with_t_selection (<[(room, principal) :=
            mkSelectionRow (wcs_slugs selection) (wcs_reason selection) (sl_version s + 1) at_]>
              (t_selection t)) t, 1)
      end) in
    ret tt.

(** @src store/wiki_context.rs fn wiki_context_for *)
Definition db_wiki_context_for t (room principal : string) : result WikiContext WikiError :=
  match t_wiki t !! room with
  | None => Err WkNotConfigured
  | Some w =>
      let '(slugs, version) :=
        match t_selection t !! (room, principal) with
        | Some s => (sl_slugs s, sl_version s)
        | None => (["overview"; "working"]%string, 0%N)
        end in
      let published slug :=
        p ← t_pages t !! (room, slug);
        if (0 <? pg_revision p)%N
        then Some (mkWikiPage slug (pg_title p) (pg_body p) (pg_sources p) (pg_revision p)) else None in
      Ok (mkWikiContext room (wk_revision w) version slugs (omap published slugs)
            (List.filter (fun slug => is_none (published slug)) slugs))
  end.

(** [u8::is_ascii_hexdigit] *)
Definition hex_digit (a : ascii) : bool := ascii_in 48 57 a || ascii_in 65 70 a || ascii_in 97 102 a.
(** @src store/wiki_context.rs:176-182 accept_wiki_context *)
Definition ack_refused (ack : WikiContextAck) : bool :=
  str_is_empty (wca_context_id ack) || (256 <? String.length (wca_context_id ack))%nat
  || negb (String.length (wca_packet_id ack) =? 64)%nat || negb (all_bytes hex_digit (wca_packet_id ack)).

Definition receipt_of (ack : WikiContextAck) (row : string * string * N * N * N) : option (N * N) :=
  let '(context_id, packet_id, revision, version, _) := row in
  if bool_decide (context_id = wca_context_id ack) && bool_decide (packet_id = wca_packet_id ack)
  then Some (revision, version) else None.

(** @src store/wiki_context.rs:221-235 accept_wiki_context *)
Definition insert_context_receipt (room principal : string) (ack : WikiContextAck) (at_ : N)
    : Wiki unit :=
  let! _ := execute WkStorage [wca_revision ack; wca_selection_version ack; at_] (fun t =>
    let rows := default [] (t_context_receipts t !! (room, principal)) in
    Some (with_t_context_receipts (<[(room, principal) :=
      (wca_context_id ack, wca_packet_id ack, wca_revision ack, wca_selection_version ack, at_) :: rows]>
        (t_context_receipts t)) t, 1)) in
  let! _ := execute WkStorage [] (fun t =>
    let rows := default [] (t_context_receipts t !! (room, principal)) in
    Some (with_t_context_receipts (<[(room, principal) := take 128 rows]> (t_context_receipts t)) t,
          length rows - 128)) in
  ret tt.

(** @src store/wiki_context.rs fn accept_wiki_context *)
Definition db_accept_wiki_context (room principal : string) (ack : WikiContextAck) (at_ : N) : Wiki unit :=
  if ack_refused ack then stop WkInvalidInput
  else transaction_if (
    let! prior := query (fun t =>
      head (omap (receipt_of ack) (default [] (t_context_receipts t !! (room, principal))))) in
    match prior with
    | Some value =>
        if bool_decide (value = (wca_revision ack, wca_selection_version ack)) then leave tt
        else stop WkConflict
    | None =>
        let! current := query (fun t => wk_revision <$> t_wiki t !! room) in
        let! version := query (fun t => default 0%N (sl_version <$> t_selection t !! (room, principal))) in
        let! _ := refuse_if (negb (bool_decide (current = Some (wca_revision ack)))
                             || negb (version =? wca_selection_version ack)%N) WkConflict in
        let! _ := insert_context_receipt room principal ack at_ in
        commit tt
    end).
End context.
