(* ===== verification/WikiOps.v ===== *)
(** * The wiki in the hub

    crates/server/src/hub.rs: the methods of the hub on the wiki of a room.  They
    are thin: the store decides, and the hub adds the clock, the identities behind
    names and the davets of the room.  Without a database only the checks that
    come before the connection is taken are made. *)

From Stdlib Require Import Ascii.
From S2P Require Import Prelude Text Protocol StoreApi Sql Tables Hub Access Membership Rooms Identity.
From S2P Require Import Memory WikiTypes WikiMaintenance Wiki.

Open Scope loca_scope.

Class WikiStore (S : Type) : Type := {
  store_wiki_snapshot : S -> string -> result WikiSnapshot WikiError;
  store_wiki_page : S -> string -> string -> result WikiPageSnapshot WikiError;
  store_wiki_maintenance_rooms : S -> result (list string) WikiError;
  store_wiki_batch_status : S -> string -> result (option BatchStatus) WikiError;
  store_wiki_editor_runtime_ready : S -> string -> string -> N -> result bool WikiError;
  store_wiki_context_for : S -> string -> string -> result WikiContext WikiError;
  store_wiki_context_requests : S -> string -> result (list WikiContextRequest) WikiError;
  store_remove_wiki_page :
    string -> string -> string -> WikiPageRemoval -> N -> S -> S * result N WikiError;
  store_configure_wiki : string -> string -> bool -> N -> S -> S * result unit WikiError;
  store_commit_wiki : string -> string -> WikiCommit -> N -> S -> S * result N WikiError;
  store_edit_wiki_page : string -> string -> string -> WikiPageEdit -> N -> S -> S * result N WikiError;
  store_finish_wiki_review :
    string -> string -> WikiCommit -> WikiLease -> N -> S -> S * result N WikiError;
  store_schedule_wiki_review : string -> N -> S -> S * result bool WikiError;
  store_cancel_wiki_review : string -> S -> S * result unit WikiError;
  store_claim_wiki_review : string -> string -> N -> S -> S * result (option WikiBatch) WikiError;
  store_renew_wiki_review : string -> string -> WikiLease -> N -> S -> S * result N WikiError;
  store_wiki_native_ready : string -> string -> string -> N -> S -> S * result unit WikiError;
  store_select_wiki_context :
    string -> string -> WikiContextSelection -> N -> S -> S * result unit WikiError;
  store_accept_wiki_context : string -> string -> WikiContextAck -> N -> S -> S * result unit WikiError;
}.

(** [Err(InvalidInput)] when the input is refused, or else no connection. *)
Definition unavailable {S A} (refused : bool) (s : S) : S * result A WikiError :=
  (s, Err (if refused then WkInvalidInput else WkPersistenceUnavailable)).

#[export] Instance memory_only_wiki `{Unicode} : WikiStore unit := {|
  store_wiki_snapshot _ _ := Err WkPersistenceUnavailable;
  store_wiki_page _ _ _ := Err WkPersistenceUnavailable;
  store_wiki_maintenance_rooms _ := Err WkPersistenceUnavailable;
  store_wiki_batch_status _ _ := Err WkPersistenceUnavailable;
  store_wiki_editor_runtime_ready _ _ _ _ := Err WkPersistenceUnavailable;
  store_wiki_context_for _ _ _ := Err WkPersistenceUnavailable;
  store_wiki_context_requests _ _ := Err WkPersistenceUnavailable;
  store_remove_wiki_page _ _ slug removal _ := unavailable (removal_refused slug removal);
  store_configure_wiki _ editor _ interval := unavailable (configuration_refused editor interval);
  store_commit_wiki _ _ update _ := unavailable (commit_refused update);
  store_edit_wiki_page _ _ _ _ _ := unavailable false;
  store_finish_wiki_review _ _ update _ _ := unavailable (commit_refused update);
  store_schedule_wiki_review _ _ := unavailable false;
  store_cancel_wiki_review _ := unavailable false;
  store_claim_wiki_review _ _ _ := unavailable false;
  store_renew_wiki_review _ _ _ _ := unavailable false;
  store_wiki_native_ready _ _ runtime _ := unavailable (negb (known_runtime runtime));
  store_select_wiki_context _ _ selection _ := unavailable (selection_refused selection);
  store_accept_wiki_context _ _ ack _ := unavailable (ack_refused ack);
|}.
#[export] Instance db_wiki `{Unicode} : WikiStore (Conn Tables) := {|
  store_wiki_snapshot c := db_wiki_snapshot (tables c);
  store_wiki_page c := db_wiki_page (tables c);
  store_wiki_maintenance_rooms c := Ok (db_wiki_maintenance_rooms (tables c));
  store_wiki_batch_status c room := Ok (db_wiki_batch_status (tables c) room);
  store_wiki_editor_runtime_ready c := db_wiki_editor_runtime_ready (tables c);
  store_wiki_context_for c := db_wiki_context_for (tables c);
  store_wiki_context_requests c room := Ok (db_wiki_context_requests (tables c) room);
  store_remove_wiki_page := db_remove_wiki_page;
  store_configure_wiki := db_configure_wiki;
  store_commit_wiki := db_commit_wiki;
  store_edit_wiki_page := db_edit_wiki_page;
  store_finish_wiki_review := db_finish_wiki_review;
  store_schedule_wiki_review := db_schedule_wiki_review;
  store_cancel_wiki_review := db_cancel_wiki_review;
  store_claim_wiki_review := db_claim_wiki_review;
  store_renew_wiki_review := db_renew_wiki_review;
  store_wiki_native_ready := db_wiki_native_ready;
  store_select_wiki_context := db_select_wiki_context;
  store_accept_wiki_context := db_accept_wiki_context;
|}.

(** ** The hub *)

(** The methods of the hub that may write a wiki, and the passing of time. *)
Inductive WikiOp : Type :=
  | OpTime (clock : N)
  | OpTick
  | OpConfigure (room editor : string) (enabled : bool) (interval : N)
  | OpCommit (room principal : string) (update : WikiCommit)
  | OpEdit (room actor slug : string) (edit : WikiPageEdit)
  | OpRemove (room principal slug : string) (removal : WikiPageRemoval)
  | OpClaim (room principal : string)
  | OpRenew (room principal : string) (lease : WikiLease)
  | OpFinish (room principal : string) (update : WikiCommit) (lease : WikiLease)
  | OpReady (room principal runtime : string)
  | OpSelect (room principal : string) (selection : WikiContextSelection)
  | OpOffer (room : string) (actor : option string) (operator : bool) (target : string)
      (selection : WikiContextSelection)
  | OpAccept (room principal : string) (ack : WikiContextAck).

Section hub.
Context {St : Type} `{StoreBase St} `{IdentityStore St} `{MemoryStore St} `{WikiStore St}.
Implicit Types h : Hub St.

(** @src hub fn wiki_snapshot *)
Definition wiki_snapshot h (room : string) : result WikiSnapshot WikiError :=
  store_wiki_snapshot (h_store h) room.
(** @src hub fn wiki_page *)
Definition wiki_page h (room slug : string) : result WikiPageSnapshot WikiError :=
  store_wiki_page (h_store h) room slug.
(** @src hub fn wiki_batch_status *)
Definition wiki_batch_status h (room : string) : result (option BatchStatus) WikiError :=
  store_wiki_batch_status (h_store h) room.
(** @src hub fn wiki_context_for *)
Definition wiki_context_for h (room principal : string) : result WikiContext WikiError :=
  store_wiki_context_for (h_store h) room principal.

(** Where the loca is closed, what is pending is cancelled; an error is only
    logged. *)
(** @src hub:3591-3597 tick_wiki *)
Definition tick_wiki_room h (room : string) : Hub St :=
  if is_writable h room
  then (run_store (store_schedule_wiki_review room (h_clock h)) h).1
  else (run_store (store_cancel_wiki_review room) h).1.
(** @src hub fn tick_wiki *)
Definition tick_wiki h : Hub St :=
  if negb (is_persistent (h_store h)) then h
  else
    match store_wiki_maintenance_rooms (h_store h) with
    | Ok rooms => foldl tick_wiki_room h rooms
    | Err _ => h
    end.

(** @src hub fn claim_wiki_review *)
Definition claim_wiki_review (room principal : string) h : Hub St * result (option WikiBatch) WikiError :=
  run_store (store_claim_wiki_review room principal (h_clock h)) h.
(** @src hub fn finish_wiki_review *)
Definition finish_wiki_review (room principal : string) (update : WikiCommit) (lease : WikiLease) h
    : Hub St * result N WikiError :=
  run_store (store_finish_wiki_review room principal update lease (h_clock h)) h.
(** @src hub fn renew_wiki_review *)
Definition renew_wiki_review (room principal : string) (lease : WikiLease) h
    : Hub St * result N WikiError :=
  run_store (store_renew_wiki_review room principal lease (h_clock h)) h.
(** @src hub fn commit_wiki *)
Definition commit_wiki (room principal : string) (update : WikiCommit) h : Hub St * result N WikiError :=
  run_store (store_commit_wiki room principal update (h_clock h)) h.
(** @src hub fn remove_wiki_page *)
Definition remove_wiki_page (room principal slug : string) (removal : WikiPageRemoval) h
    : Hub St * result N WikiError :=
  run_store (store_remove_wiki_page room principal slug removal (h_clock h)) h.
(** @src hub fn edit_wiki_page *)
Definition edit_wiki_page (room actor slug : string) (edit : WikiPageEdit) h
    : Hub St * result N WikiError :=
  run_store (store_edit_wiki_page room actor slug edit (h_clock h)) h.
(** @src hub fn wiki_native_ready *)
Definition wiki_native_ready (room principal runtime : string) h : Hub St * result unit WikiError :=
  run_store (store_wiki_native_ready room principal runtime (h_clock h)) h.
(** @src hub fn select_wiki_context *)
Definition select_wiki_context (room principal : string) (selection : WikiContextSelection) h
    : Hub St * result unit WikiError :=
  run_store (store_select_wiki_context room principal selection (h_clock h)) h.
(** @src hub fn accept_wiki_context *)
Definition accept_wiki_context (room principal : string) (ack : WikiContextAck) h
    : Hub St * result unit WikiError :=
  run_store (store_accept_wiki_context room principal ack (h_clock h)) h.

(** The one agent of that name. *)
(** @src hub:3655-3664 configure_wiki *)
Definition agent_named h (name : string) : result PrincipalIdentity WikiError :=
  match active_principals_named (h_store h) name with
  | Err _ => Err WkStorage
  | Ok [principal] => if bool_decide (pi_kind principal = Agent) then Ok principal else Err WkInvalidInput
  | Ok _ => Err WkInvalidInput
  end.

(** @src hub fn configure_wiki *)
Definition configure_wiki (room editor : string) (enabled : bool) (interval : N) h
    : Hub St * result unit WikiError :=
  match agent_named h editor with
  | Err e => (h, Err e)
  | Ok agent =>
      let ready :=
        if enabled then store_wiki_editor_runtime_ready (h_store h) room (pi_id agent) (h_clock h)
        else Ok true in
      match ready with
      | Err e => (h, Err e)
      | Ok false => (h, Err WkConflict)
      | Ok true => run_store (store_configure_wiki room (pi_id agent) enabled interval) h
      end
  end.

Definition invited_here h (room name : string) : bool :=
  existsb (fun i => bool_decide (inv_name i = name)) (invites_of h room).

(** Whether the caller may ask for or offer contexts: an operator, or the editor,
    for whom the snapshot is read. *)
(** @src hub:3700-3702 wiki_context_requests *)
Definition editor_or_operator h (room : string) (principal : option string) (operator : bool)
    : result unit WikiError :=
  if operator then Ok tt
  else
    match wiki_snapshot h room with
    | Err e => Err e
    | Ok s => if bool_decide (principal = Some (ws_editor_principal s)) then Ok tt else Err WkNotEditor
    end.

(** @src hub fn wiki_context_requests *)
Definition wiki_context_requests h (room : string) (principal : option string) (operator : bool)
    : result (list WikiContextRequest) WikiError :=
  match editor_or_operator h room principal operator with
  | Err e => Err e
  | Ok _ =>
      match store_wiki_context_requests (h_store h) room with
      | Err e => Err e
      | Ok requests => Ok (List.filter (fun r => invited_here h room (wq_target r)) requests)
      end
  end.

(** The snapshot is read for an operator too. *)
(** @src hub fn offer_wiki_context *)
Definition offer_wiki_context (room : string) (actor : option string) (operator : bool) (target : string)
    (selection : WikiContextSelection) h : Hub St * result unit WikiError :=
  match wiki_snapshot h room with
  | Err e => (h, Err e)
  | Ok s =>
      if negb operator && negb (bool_decide (actor = Some (ws_editor_principal s)))
      then (h, Err WkNotEditor)
      else
        match agent_named h target with
        | Err e => (h, Err e)
        | Ok agent =>
            if negb (invited_here h room target) then (h, Err WkInvalidInput)
            else select_wiki_context room (pi_id agent) selection h
        end
  end.

Definition wiki_op (op : WikiOp) h : Hub St :=
  match op with
  | OpTime clock => with_h_clock clock h
  | OpTick => tick_wiki h
  | OpConfigure room editor enabled interval => (configure_wiki room editor enabled interval h).1
  | OpCommit room principal update => (commit_wiki room principal update h).1
  | OpEdit room actor slug edit => (edit_wiki_page room actor slug edit h).1
  | OpRemove room principal slug removal => (remove_wiki_page room principal slug removal h).1
  | OpClaim room principal => (claim_wiki_review room principal h).1
  | OpRenew room principal lease => (renew_wiki_review room principal lease h).1
  | OpFinish room principal update lease => (finish_wiki_review room principal update lease h).1
  | OpReady room principal runtime => (wiki_native_ready room principal runtime h).1
  | OpSelect room principal selection => (select_wiki_context room principal selection h).1
  | OpOffer room actor operator target selection => (offer_wiki_context room actor operator target selection h).1
  | OpAccept room principal ack => (accept_wiki_context room principal ack h).1
  end.
Definition wiki_ops (ops : list WikiOp) h : Hub St := foldl (fun h op => wiki_op op h) h ops.
End hub.
