(* ===== verification/Attachments.v ===== *)
(** * The attachments of the rooms

    crates/server/src/store/attachment_index.rs: the tables that say which file
    waits or is cited where, the quotas, the claim by a message and the sweep.
    The files themselves are behind the classes of BlobFiles.v.  [Storage] is the
    store of a server with a database: its connection, and the files when their
    directory could be opened. *)

From Stdlib Require Import ZArith.
From S2P Require Import Prelude Text Protocol StoreApi Sql Tables Hub Membership.
From S2P Require Import Identity Admission StoreMessages BlobFiles Boot.

Open Scope loca_scope.

(** @src store/attachment_index.rs enum AttachError *)
Inductive AttachError : Type :=
  | AttDisabled
  | AttQuotaRoom
  | AttQuotaBuilding
  | AttStorage.
#[global] Instance AttachError_eq_dec : EqDecision AttachError.
Proof. solve_decision. Defined.

(** @src store/attachment_index.rs struct BlobServe *)
Record BlobServe : Type := mkBlobServe {
  serve_bytes : string;
  serve_mime : string;
  serve_name : string;
}.

(** @src store.rs:77-86 Store *)
Record Storage (D : Type) : Type := mkStorage {
  st_conn : Conn Tables;
  st_blobs : option D;
}.
Arguments mkStorage {_} _ _.
Arguments st_conn {_} _.
Arguments st_blobs {_} _.

(** A [u64] stored as the [i64] of the same bits. *)
Definition as_i64 (n : N) : Z := if (n <=? i64_max)%N then Z.of_N n else (Z.of_N n - 2 ^ 64)%Z.
Definition i64_min_z : Z := (- 2 ^ 63)%Z.
Definition i64_max_z : Z := (2 ^ 63 - 1)%Z.
(** [i64::saturating_sub] *)
Definition i64_saturating_sub (a b : Z) : Z := Z.max i64_min_z (Z.min (a - b) i64_max_z).

(** The sum of a column; one that is no [i64] is an error of the query. *)
(** @src store/attachment_index.rs fn sum_i64 *)
Definition sum_i64 (sizes : list N) : dbres N :=
  let total := foldr Z.add 0%Z (map as_i64 sizes) in
  if ((i64_min_z <=? total) && (total <=? i64_max_z))%Z then Ok (Z.to_N (Z.max total 0))
  else Err DbError.

Section index.
Context `{Digest}.
Implicit Types t : Tables.

(** A file cited in the room. *)
Definition cited_in t (room sha : string) : option ((string * N * string) * RefRow) :=
  select_where (fun k _ => bool_decide (k.1.1 = room) && bool_decide (k.2 = sha)) (t_refs t).

(** @src store/attachment_index.rs fn row_exists *)
Definition row_exists t (sha : string) : bool := negb (is_none (t_blobs t !! sha)).

(** @src store/attachment_index.rs fn room_has_sha *)
Definition room_has_sha t (room sha : string) : bool :=
  negb (is_none (cited_in t room sha)) || negb (is_none (t_pending t !! (sha, room))).

(** The files of a room, each once. *)
(** @src store/attachment_index.rs:110-116 put_pending_attachment *)
Definition room_files t (room : string) : gset (string * N) :=
  list_to_set (omap (fun kr => if decide (kr.1.1.1 = room) then Some (kr.1.2, rf_size kr.2) else None)
                 (map_to_list (t_refs t)))
  ∪ list_to_set (omap (fun kr => if decide (kr.1.2 = room) then Some (kr.1.1, pd_size kr.2) else None)
                   (map_to_list (t_pending t))).
Definition room_used t (room : string) : dbres N := sum_i64 (map snd (elements (room_files t room))).
Definition building_used t : dbres N := sum_i64 (map bl_size (values (t_blobs t))).

(** Whether there is room for one more file: what is new is weighed. *)
(** @src store/attachment_index.rs:97-122 put_pending_attachment *)
Definition check_quota t (room sha : string) (size room_max building_max : N)
    : result unit AttachError :=
  let? _ :=
    if row_exists t sha then Ok tt
    else
      match building_used t with
      | Err _ => Err AttStorage
      | Ok used => if (building_max <? sat_add64 used size)%N then Err AttQuotaBuilding else Ok tt
      end in
  if room_has_sha t room sha then Ok tt
  else
    match room_used t room with
    | Err _ => Err AttStorage
    | Ok used => if (room_max <? sat_add64 used size)%N then Err AttQuotaRoom else Ok tt
    end.

(** The rows of an upload: two statements, each of its own. *)
(** @src store/attachment_index.rs:128-141 put_pending_attachment *)
Definition record_upload (room uploader name mime sha : string) (size now : N)
    : Sql Tables db_error unit :=
  let! _ := execute DbError [] (fun t =>
    let '(blobs, n) := insert_or_ignore sha (mkBlobRow mime size now) (t_blobs t) in
    Some (with_t_blobs blobs t, n)) in
  let! _ := execute DbError [] (fun t =>
    Some (with_t_pending (<[(sha, room) := mkPendingRow uploader name mime size now]> (t_pending t)) t,
          1)) in
  ret tt.

Section files.
Context {D : Type} `{BlobFiles D}.
Implicit Types s : Storage D.

(** @src store/attachment_index.rs fn attachments_enabled *)
Definition db_attachments_enabled s : bool := negb (is_none (st_blobs s)).

(** The file is written first, then its rows. *)
(** @src store/attachment_index.rs fn put_pending_attachment *)
Definition db_put_pending_attachment (room uploader name mime bytes : string)
    (now room_max building_max : N) s : Storage D * result Attachment AttachError :=
  match st_blobs s with
  | None => (s, Err AttDisabled)
  | Some d =>
      let sha := sha_hex bytes in
      let size := N.of_nat (String.length bytes) in
      match check_quota (tables (st_conn s)) room sha size room_max building_max with
      | Err e => (s, Err e)
      | Ok _ =>
          let '(d, written) := file_put bytes d in
          match written with
          | Err _ => (mkStorage (st_conn s) (Some d), Err AttStorage)
          | Ok _ =>
              let '(c, recorded) := record_upload room uploader name mime sha size now (st_conn s) in
              (mkStorage c (Some d),
               match recorded with
               | Err _ => Err AttStorage
               | Ok _ => Ok (mkAttachment sha sha name mime size)
               end)
          end
      end
  end.

(** @src store/attachment_index.rs fn read_room_attachment *)
Definition db_read_room_attachment s (room id : string) : option BlobServe :=
  d ← st_blobs s;
  '(_, r) ← cited_in (tables (st_conn s)) room id;
  match file_read d id with
  | Ok bytes => Some (mkBlobServe bytes (rf_mime r) (rf_name r))
  | Err _ => None
  end.

(** ** The sweep *)

Definition is_cited t (sha : string) : bool :=
  existsb (fun kr => bool_decide (kr.1.2 = sha)) (map_to_list (t_refs t)).
Definition is_pending t (sha : string) : bool :=
  existsb (fun kr => bool_decide (kr.1.1 = sha)) (map_to_list (t_pending t)).

(** @src store/attachment_index.rs:272-288 sweep_attachments *)
Definition orphans t : list string :=
  List.filter (fun sha => negb (is_cited t sha) && negb (is_pending t sha)) (keys (t_blobs t)).

Definition expire_pending (cutoff : Z) : Sql Tables db_error nat :=
  execute DbError [] (fun t =>
    Some (with_t_pending (delete_where (fun _ r => (as_i64 (pd_created_at r) <? cutoff)%Z)
                            (t_pending t)) t, 0)).
Definition delete_blob_row (sha : string) : Sql Tables db_error nat :=
  execute DbError [] (fun t => Some (with_t_blobs (delete sha (t_blobs t)) t, 1)).

(** The file goes first, and the row only with it. *)
(** @src store/attachment_index.rs:289-298 sweep_attachments *)
Definition sweep_one (cdn : Conn Tables * D * nat) (sha : string) : Conn Tables * D * nat :=
  let '(c, d, deleted) := cdn in
  let '(d, gone) := file_delete sha d in
  match gone with
  | Ok _ => let '(c, _) := delete_blob_row sha c in (c, d, S deleted)
  | Err _ => (c, d, deleted)
  end.

(** @src store/attachment_index.rs fn sweep_attachments *)
Definition db_sweep_attachments (now ttl_ms : N) s : Storage D * nat :=
  match st_blobs s with
  | None => (s, 0)
  | Some d =>
      let cutoff := i64_saturating_sub (as_i64 now) (as_i64 ttl_ms) in
      let '(c, _) := expire_pending cutoff (st_conn s) in
      let '(c, d, deleted) := foldl sweep_one (c, d, 0) (orphans (tables c)) in
      (mkStorage c (Some d), deleted)
  end.
End files.
End index.

(** ** The methods of the store the hub uses *)

Class AttachmentStore (S : Type) : Type := {
  store_attachments_enabled : S -> bool;
  store_put_pending_attachment :
    string -> string -> string -> string -> string -> N -> N -> N ->
    S -> S * result Attachment AttachError;
  store_read_room_attachment : S -> string -> string -> option BlobServe;
  store_sweep_attachments : N -> N -> S -> S * nat;
}.

#[export] Instance memory_only_attachments : AttachmentStore unit := {|
  store_attachments_enabled _ := false;
  store_put_pending_attachment _ _ _ _ _ _ _ _ s := (s, Err AttDisabled);
  store_read_room_attachment _ _ _ := None;
  store_sweep_attachments _ _ s := (s, 0);
|}.
#[export] Instance db_attachment_store {D} `{Digest} `{BlobFiles D} : AttachmentStore (Storage D) := {|
  store_attachments_enabled := db_attachments_enabled;
  store_put_pending_attachment := db_put_pending_attachment;
  store_read_room_attachment := db_read_room_attachment;
  store_sweep_attachments := db_sweep_attachments;
|}.

(** On the connection alone, for what is said of the tables only: the files answer
    as a parameter without a state says. *)
#[export] Instance db_attachment_rows `{Digest} `{BlobFiles unit} : AttachmentStore (Conn Tables) := {|
  store_attachments_enabled _ := true;
  store_put_pending_attachment room uploader name mime bytes now room_max building_max c :=
    let '(s, put) :=
      db_put_pending_attachment room uploader name mime bytes now room_max building_max (mkStorage c (Some tt)) in
    (st_conn s, put);
  store_read_room_attachment c := db_read_room_attachment (mkStorage c (Some tt));
  store_sweep_attachments now ttl_ms c :=
    let '(s, removed) := db_sweep_attachments now ttl_ms (mkStorage c (Some tt)) in (st_conn s, removed);
|}.

(** ** The other methods work on the connection *)

Section connection.
Context {D : Type} `{Digest} `{WallClock}.

Definition on_conn {A} (f : Conn Tables -> Conn Tables * A) (s : Storage D) : Storage D * A :=
  let '(c, a) := f (st_conn s) in (mkStorage c (st_blobs s), a).

#[export] Instance storage_base : StoreBase (Storage D) := {|
  is_persistent s := is_persistent (st_conn s);
  principal_id_for_member_record s := principal_id_for_member_record (st_conn s);
|}.
#[export] Instance storage_identity : IdentityStore (Storage D) := {|
  principal_for_credential s := principal_for_credential (st_conn s);
  active_principal s := active_principal (st_conn s);
  active_master_principal s := active_master_principal (st_conn s);
  credential_is_revoked s := credential_is_revoked (st_conn s);
  credential_id_for_secret s := credential_id_for_secret (st_conn s);
  loca_operator s := loca_operator (st_conn s);
  store_member_suspended s := store_member_suspended (st_conn s);
  principal_session_active s := principal_session_active (st_conn s);
  save_admin_session token name kind expires := on_conn (save_admin_session token name kind expires);
  delete_admin_session token := on_conn (delete_admin_session token);
  save_principal_session secret pid cid at_ expires :=
    on_conn (save_principal_session secret pid cid at_ expires);
  revoke_principal_session secret at_ := on_conn (revoke_principal_session secret at_);
  insert_invite inv := on_conn (insert_invite inv);
  store_revoke_invite token at_ := on_conn (store_revoke_invite token at_);
  store_revoke_invites_for room name at_ := on_conn (store_revoke_invites_for room name at_);
  add_member m := on_conn (add_member m);
  revoke_member_cascade token at_ := on_conn (revoke_member_cascade token at_);
  suspend_member token reason at_ := on_conn (suspend_member token reason at_);
  resume_member token := on_conn (resume_member token);
  set_ban room name kind at_ := on_conn (set_ban room name kind at_);
  clear_ban room name kind := on_conn (clear_ban room name kind);
  store_add_smaster token name at_ := on_conn (store_add_smaster token name at_);
  store_revoke_smaster token at_ := on_conn (store_revoke_smaster token at_);
|}.
End connection.

(** ** The hub *)

(** The environment of the process. *)
Class Environment : Type := { env_var : string -> option string }.

(** @src hub const ATTACHMENT_MAX_BYTES_DEFAULT *)
Definition ATTACHMENT_MAX_BYTES_DEFAULT : N := 10 * 1024 * 1024.
(** @src hub const ATTACHMENT_ROOM_MAX_BYTES_DEFAULT *)
Definition ATTACHMENT_ROOM_MAX_BYTES_DEFAULT : N := 200 * 1024 * 1024.
(** @src hub const ATTACHMENT_BUILDING_MAX_BYTES_DEFAULT *)
Definition ATTACHMENT_BUILDING_MAX_BYTES_DEFAULT : N := 2 * 1024 * 1024 * 1024.
(** @src hub const ATTACHMENT_PENDING_TTL_MS_DEFAULT *)
Definition ATTACHMENT_PENDING_TTL_MS_DEFAULT : N := 60 * 60 * 1000.

Section hub.
Context {St : Type} `{Environment} `{AttachmentStore St}.
Implicit Types h : Hub St.

(** @src hub fn attachment_env_u64 *)
Definition attachment_env_u64 (key : string) (default_ : N) : N :=
  default default_ (v ← env_var key; n ← parse_u64 v; if (0 <? n)%N then Some n else None).

(** @src hub fn attachment_max_bytes *)
Definition attachment_max_bytes : N :=
  attachment_env_u64 "ATTACHMENT_MAX_BYTES" ATTACHMENT_MAX_BYTES_DEFAULT.

(** @src hub fn attachments_enabled *)
Definition attachments_enabled h : bool := store_attachments_enabled (h_store h).

(** @src hub fn put_pending_attachment *)
Definition put_pending_attachment (room uploader name mime bytes : string) h
    : Hub St * result Attachment AttachError :=
  let '(s, put) := store_put_pending_attachment room uploader name mime bytes (h_clock h)
    (attachment_env_u64 "ATTACHMENT_ROOM_MAX_BYTES" ATTACHMENT_ROOM_MAX_BYTES_DEFAULT)
    (attachment_env_u64 "ATTACHMENT_BUILDING_MAX_BYTES" ATTACHMENT_BUILDING_MAX_BYTES_DEFAULT)
    (h_store h) in
  (with_h_store s h, put).

(** @src hub fn read_room_attachment *)
Definition read_room_attachment h (room id : string) : option BlobServe :=
  store_read_room_attachment (h_store h) room id.

(** @src hub fn sweep_attachments *)
Definition sweep_attachments h : Hub St * nat :=
  let '(s, removed) := store_sweep_attachments (h_clock h)
    (attachment_env_u64 "ATTACHMENT_PENDING_TTL_MS" ATTACHMENT_PENDING_TTL_MS_DEFAULT)
    (h_store h) in
  (with_h_store s h, removed).
End hub.
