(* ===== verification/Sockets.v ===== *)
(** * Websocket sessions

    crates/server/src/main.rs: who may open a socket on a room, and what happens on
    it until it closes.  [ws_session] awaits between its sends, so a session is a
    state machine: a stage, and one step for each thing it can wake up for.
    Between two steps anything else may happen in the hub.  The two clocks are not
    related: deadlines are instants of the monotonic one, which a step is given.
    Whether a send to the client succeeds is an oracle of the socket. *)

From Stdlib Require Import Ascii.
From S2P Require Import Prelude Text Protocol StoreApi Hub Seats Attention Chat Access Membership Rooms Queries Boot.
From S2P Require Import Memory Attachments Http.

Open Scope loca_scope.

(** ** What is sent to a client *)

(** The frames of the lobby's socket. *)
Inductive LobbyFrame : Type :=
  | LF_Ready (name : string) (invites : list (string * string))
  | LF_Called (room token : string)
  | LF_Revoked
  | LF_Suspended.

Inductive WsOut : Type :=
  | OutFrame (f : ServerFrame)
  | OutLobby (f : LobbyFrame)
  | OutPing
  | OutClose.

(** The sending half: what was sent, and which of the next sends fail. *)
Record Sink : Type := mkSink {
  sk_sent : list WsOut;
  sk_faults : list bool;
}.
Definition sink_send (o : WsOut) (s : Sink) : Sink * bool :=
  match sk_faults s with
  | true :: faults => (mkSink (sk_sent s) faults, false)
  | faults => (mkSink (sk_sent s ++ [o]) (tail faults), true)
  end.
(** @src main.rs fn send_frame *)
Definition send_frame (f : ServerFrame) (s : Sink) : Sink * bool := sink_send (OutFrame f) s.

(** ** The door *)

(** @src main.rs struct WsCredentials *)
Record WsCredentials : Type := mkWsCredentials {
  wsc_admin : option string;
  wsc_davet : option string;
  wsc_session : option string;
}.

(** @src main.rs enum WsFilter *)
Inductive WsFilter : Type :=
  | WsAll
  | WsMessages
  | WsMentions.
#[global] Instance WsFilter_eq_dec : EqDecision WsFilter.
Proof. solve_decision. Defined.

(** The arguments of [ws_session]. *)
(** @src main.rs:1259-1274 ws_session *)
Record WsParams : Type := mkWsParams {
  wp_room : string;
  wp_identity : string;
  wp_name : string;
  wp_kind : SenderType;
  wp_filter : WsFilter;
  wp_turn_max : nat;
  wp_turn_idle_ms : N;
  wp_turn_max_wait_ms : N;
  wp_credentials : WsCredentials;
  wp_watch_only : bool;
  wp_is_caretaker : bool;
}.

(** The query of a URL: of a name that is repeated, the last value. *)
Abbreviation Query := (gmap string string).

Section door.
Context {St : Type} `{Unicode} `{HeaderText} `{Environment} `{StoreBase St} `{IdentityStore St}.
Implicit Types h : Hub St.
Implicit Types headers : HeaderMap.
Implicit Types q : Query.

(** A header that is repeated is given as its values joined by commas. *)
(** @src main.rs fn websocket_credential *)
Definition websocket_credential headers (prefix : string) : option string :=
  value ← header headers "sec-websocket-protocol";
  credential ← head (omap (fun p => strip_prefix (trim p) prefix)
                       (split_on (fun c => bool_decide (c = ","%string)) value));
  if str_is_empty credential then None else Some credential.

(** @src main.rs fn legacy_ws_query_auth *)
Definition legacy_ws_query_auth : bool :=
  bool_decide (env_var "LEGACY_WS_QUERY_AUTH" = Some "1"%string)
  || bool_decide (env_var "LEGACY_WS_QUERY_AUTH" = Some "true"%string).

(** @src main.rs fn live_session *)
Definition live_session (cr : WsCredentials) h : Hub St * option SessionIdentity :=
  session_identity (wsc_session cr) h.

(** @src main.rs fn allowed *)
Definition ws_allowed (cr : WsCredentials) (room name : string) h : Hub St * bool :=
  let '(h, session) := live_session cr h in
  (h, if negb (is_none (wsc_session cr)) && is_none session then false
      else bool_decide (enter_decision h room (wsc_admin cr) (wsc_davet cr) session (Some name) = Allowed)).

(** @src main.rs fn is_admin *)
Definition ws_is_admin (cr : WsCredentials) h : Hub St * bool :=
  if is_admin h (wsc_admin cr) then (h, true) else is_admin_session (wsc_session cr) h.

(** @src main.rs:1016-1023 ws_handler *)
Definition ws_credentials headers q : WsCredentials :=
  let from prefix name :=
    or_else (websocket_credential headers prefix) (if legacy_ws_query_auth then q !! name else None) in
  mkWsCredentials (from "loca.admin." "admin"%string) (from "loca.room." "token"%string)
    (from "loca.session." "session"%string).

(** Whose name the connection has: the session's, the davet's, the member's, or
    what the query says. *)
(** @src main.rs:1062-1076 ws_handler *)
Definition ws_name (session : option SessionIdentity) (davet : option Invite) (member : option Membership)
    q : string :=
  default (default "anon"%string (q !! "name"%string))
    (or_else (sess_name <$> session) (or_else (inv_name <$> davet) (mb_name <$> member))).
(** @src main.rs:1077-1091 ws_handler *)
Definition ws_kind (session : option SessionIdentity) (davet : option Invite) (member : option Membership)
    q : SenderType :=
  let of_kind k := if bool_decide (k = "agent"%string) then Agent else User in
  match session, davet, member with
  | Some idy, _, _ => sess_kind idy
  | None, Some invite, _ => of_kind (inv_kind invite)
  | None, None, Some m => of_kind (mb_kind m)
  | None, None, None => of_kind (default "" (q !! "type"%string))
  end.
(** @src main.rs:1099-1103 ws_handler *)
Definition ws_filter q : WsFilter :=
  if bool_decide (q !! "filter"%string = Some "msg"%string) then WsMessages
  else if bool_decide (q !! "filter"%string = Some "mentions"%string) then WsMentions else WsAll.

(** A number of the query, or else the room's, within bounds. *)
Definition query_clamped (v : option string) (default_ lo hi : N) : N :=
  clamp (default default_ (v ≫= parse_u64)) lo hi.

Definition truthy (v : option string) : bool :=
  bool_decide (v = Some "1"%string) || bool_decide (v = Some "true"%string).

(** @src main.rs fn ws_handler *)
Definition ws_handler headers q h : Hub St * result WsParams Response :=
  let room := default (h_home_room h) (q !! "room"%string) in
  let in_query := existsb (fun k => negb (is_none (q !! k))) ["admin"; "token"; "session"]%string in
  if in_query && negb legacy_ws_query_auth
  then (h, Err (refuse BAD_REQUEST "WebSocket credentials belong in Sec-WebSocket-Protocol, not the URL"))
  else
    let cr := ws_credentials headers q in
    let '(h, session) := session_identity (wsc_session cr) h in
    if negb (is_none (wsc_session cr)) && is_none session
    then (h, Err (refuse UNAUTHORIZED "invalid session token"))
    else
      match enter_decision h room (wsc_admin cr) (wsc_davet cr) session (q !! "name"%string) with
      | Banned => (h, Err (refuse FORBIDDEN "banned from this room"))
      | Denied => (h, Err (refuse UNAUTHORIZED "davet required for this loca"))
      | Allowed =>
          if negb (admin_open h) && negb (room_exists h room)
          then (h, Err (refuse NOT_FOUND "loca does not exist; create it first"))
          else
            let davet := token ← wsc_davet cr; invite_for h room (Some token) in
            let member := token ← wsc_davet cr; member_for_credential h (Some token) in
            let name := ws_name session davet member q in
            let s := settings h room in
            let idle := query_clamped (or_else (q !! "turn_idle_ms"%string) (q !! "turn_wait_ms"%string))
                          (rs_turn_idle_ms s) 100 30000 in
            let caretaker := is_caretaker h name in
            (h, Ok (mkWsParams room
                      (seat_identity h (wsc_admin cr) (wsc_davet cr) session (wsc_session cr) name)
                      name (ws_kind session davet member q) (ws_filter q)
                      (N.to_nat (query_clamped (q !! "turn_max"%string) (rs_turn_max_messages s) 1 16))
                      idle
                      (query_clamped (q !! "turn_max_wait_ms"%string) (rs_turn_max_wait_ms s) idle 60000)
                      cr
                      (truthy (q !! "watch"%string)
                       || caretaker && negb (bool_decide (room = h_home_room h)))
                      caretaker))
      end.
End door.

(** ** The state of a session *)

(** Messages that wait to be sent as one turn, and when they must be: a quiet
    deadline that slides, and a hard one that does not. *)
(** @src main.rs:1394-1396 ws_session *)
Record TurnQueue : Type := mkTurnQueue {
  tq_pending : list Message;
  tq_idle : option N;
  tq_hard : option N;
}.
Definition empty_turn : TurnQueue := mkTurnQueue [] None None.

(** Where a session is: what it sends first, one item after the other; the loop;
    the closing handshake; its end. *)
Inductive Stage : Type :=
  | Greeting
  | Outbox
  | Replaying (care : list CareSignal)
  | Backlog
  | Roster
  | Looping
  | Closing (evicted : bool)
  | Ended.

(** @src main.rs:1276-1294 ws_session *)
Record Socket : Type := mkSocket {
  so_params : WsParams;
  so_session_id : N;
  so_principal_id : option string;
  so_history : list Message;
  so_replayed : list string;
  so_turn : TurnQueue;
  so_sink : Sink;
  so_stage : Stage;
}.
Definition with_so_replayed (v : list string) (s : Socket) : Socket :=
  mkSocket (so_params s) (so_session_id s) (so_principal_id s) (so_history s) v (so_turn s) (so_sink s) (so_stage s).
Definition with_so_turn (v : TurnQueue) (s : Socket) : Socket :=
  mkSocket (so_params s) (so_session_id s) (so_principal_id s) (so_history s) (so_replayed s) v (so_sink s) (so_stage s).
Definition with_so_sink (v : Sink) (s : Socket) : Socket :=
  mkSocket (so_params s) (so_session_id s) (so_principal_id s) (so_history s) (so_replayed s) (so_turn s) v (so_stage s).
Definition with_so_stage (v : Stage) (s : Socket) : Socket :=
  mkSocket (so_params s) (so_session_id s) (so_principal_id s) (so_history s) (so_replayed s) (so_turn s) (so_sink s) v.

(** @src proto enum ClientFrame *)
Inductive ClientFrame : Type :=
  | CF_Send (target : option string) (text : string) (reply_to : option N) (op_id : option string)
  | CF_Control (cmd : string)
  | CF_Typing (on : bool).

(** What a session can wake up for.  A step of the greeting or of the closing is
    [EvContinue]; a text that is no frame is [EvText None]. *)
Inductive WsEvent : Type :=
  | EvContinue
  | EvFrame (now : N) (frame : ServerFrame)
  | EvLagged
  | EvBusClosed
  | EvPing
  | EvDeadline (now : N)
  | EvText (frame : option ClientFrame)
  | EvOther
  | EvGone.

Section session.
Context {St : Type} `{Unicode} `{Csprng} `{StoreBase St} `{IdentityStore St} `{MessageStore St}
  `{WorkStore St} `{CareStore St} `{RoomStore St} `{MemoryStore St}.
Implicit Types h : Hub St.
Implicit Types s : Socket.
Implicit Types p : WsParams.

(** @src main.rs fn msg_addresses *)
Definition msg_addresses (m : Message) (name : string) (accepts_all : bool) : bool :=
  let all_is_a_call := accepts_all && negb (bool_decide (msg_kind m = Announce)) in
  bool_decide (msg_target m = Some name) || bool_decide (msg_reply_to_sender m = Some name)
  || all_is_a_call && bool_decide (msg_target m = Some "all"%string)
  || existsb (fun tok => bool_decide (tok = "@" +:+ to_lowercase name)
                         || all_is_a_call && bool_decide (tok = "@all"%string))
       (split_on token_separator (to_lowercase (msg_text m))).

(** *** Entering *)

(** The seat is full: the socket is told so. *)
(** @src main.rs:1299-1308 ws_session *)
Definition full_notice : ServerFrame :=
  SF_Control ("loca full (" +:+ dec (N.of_nat LOCA_KAPASITE)
              +:+ " seats). ask the master for a seat, or watch with ?watch=1").

(** Up to the first await: the session's id and principal, the receiver, the
    history and the seat. *)
(** @src main.rs:1279-1311 ws_session *)
Definition ws_enter p (sink : Sink) h : Hub St * Socket :=
  let '(h, session_id) := fetch_next_id h in
  let '(h, session) := live_session (wp_credentials p) h in
  let principal_id :=
    or_else (session ≫= sess_principal_id)
      (principal_id_for_invite h (wp_room p) (wsc_davet (wp_credentials p))) in
  let '(h, history) := subscribe (wp_room p) h in
  let '(h, seated) :=
    if wp_watch_only p then (h, true)
    else join_room (wp_room p) (wp_identity p) (wp_name p) (wp_kind p) session_id h in
  if (seated : bool)
  then (h, mkSocket p session_id principal_id history [] empty_turn sink Greeting)
  else (h, mkSocket p session_id principal_id history [] empty_turn (send_frame full_notice sink).1 Ended).

(** [if !watch_only { hub.leave(&room, &identity); } return;] *)
Definition ws_abandon s h : Hub St * Socket :=
  ((if wp_watch_only (so_params s) then h else leave (wp_room (so_params s)) (wp_identity (so_params s)) h),
   with_so_stage Ended s).

(** A send of the greeting, which goes on to [next] when it succeeds. *)
Definition greet (f : ServerFrame) (next : Stage) s h : Hub St * Socket :=
  let '(sink, sent) := send_frame f (so_sink s) in
  let s := with_so_sink sink s in
  if (sent : bool) then (h, with_so_stage next s) else ws_abandon s h.

(** What of the outbox is replayed: envelopes of this room. *)
(** @src main.rs:1340-1347 ws_session *)
Definition care_to_replay s h : list CareSignal :=
  List.filter (fun signal => bool_decide (sig_room signal = wp_room (so_params s)))
    (pending_care_scoped h (wp_room (so_params s)) (wp_name (so_params s)) (so_principal_id s)).

Definition events_only s : bool := negb (bool_decide (wp_filter (so_params s) = WsAll)).

(** @src main.rs:1316-1334 ws_session *)
Definition greet_memory s h : Hub St * Socket :=
  if wp_watch_only (so_params s) then (h, with_so_stage Outbox s)
  else
    match loca_memory_snapshot h (wp_room (so_params s)) with
    | Err _ => ws_abandon s h
    | Ok memory =>
        greet (server_frame_memory (wp_room (so_params s)) memory) Outbox s h
    end.
(** @src main.rs:1348-1358 ws_session *)
Definition greet_care (care : list CareSignal) s h : Hub St * Socket :=
  match care with
  | [] => (h, with_so_stage (if events_only s then Looping else Backlog) s)
  | signal :: care =>
      greet (SF_Care signal) (Replaying care) (with_so_replayed (so_replayed s ++ [sig_id signal]) s) h
  end.
(** The roster is sent whether or not the client still takes it. *)
(** @src main.rs:1371-1379 ws_session *)
Definition greet_roster s h : Hub St * Socket :=
  let '(sink, _) := send_frame (SF_Members (members h (wp_room (so_params s)))) (so_sink s) in
  (h, with_so_stage Looping (with_so_sink sink s)).

(** *** Sending *)

(** @src main.rs fn send_memory_version *)
Definition send_memory_version (room : string) (sink : Sink) h : Sink * bool :=
  send_frame (SF_MemoryVersion room (match loca_memory_version h room with Ok v => v | Err _ => 0%N end)) sink.

(** @src main.rs fn send_turn *)
Definition send_turn (room : string) (messages : list Message) (sink : Sink) h : Sink * bool :=
  let frame := match messages with [m] => SF_Msg m | _ => SF_Turn messages end in
  let '(sink, sent) := send_memory_version room sink h in
  if (sent : bool) then send_frame frame sink else (sink, false).

(** [break] *)
Definition ws_break (evicted : bool) s h : Hub St * Socket := (h, with_so_stage (Closing evicted) s).

(** The pending messages go out as one turn. *)
Definition flush_turn s h : Hub St * Socket :=
  let '(sink, sent) := send_turn (wp_room (so_params s)) (tq_pending (so_turn s)) (so_sink s) h in
  let s := with_so_turn empty_turn (with_so_sink sink s) in
  if (sent : bool) then (h, s) else ws_break false s h.

(** *** Frames of the room *)

(** @src main.rs:1453-1469 ws_session *)
Definition passes_filter s (frame : ServerFrame) : bool :=
  match frame with
  | SF_Msg _ | SF_Memory _ _ _ _ _ _ _ _ _ _ _ _ _ _ | SF_MemoryVersion _ _ => true
  | SF_Reaction r => bool_decide (mre_owner r = wp_name (so_params s))
                     || negb (events_only s)
  | SF_Control _ | SF_Care _ => negb (bool_decide (wp_filter (so_params s) = WsMessages))
  | _ => negb (events_only s)
  end.

(** A care envelope is for this room, and one re-homed from another room for its
    owner only. *)
(** @src main.rs:1479-1498 ws_session *)
Definition care_in_place s (signal : CareSignal) : bool :=
  let p := so_params s in
  bool_decide (sig_room signal = wp_room p)
  && (str_is_empty (sig_source_room signal) || bool_decide (sig_source_room signal = wp_room p)
      || bool_decide (sig_owner signal = Some (wp_name p))).

(** @src main.rs:1508-1526 ws_session *)
Definition care_addressed s (signal : CareSignal) : bool :=
  match sig_owner_principal_id signal with
  | Some pid => bool_decide (so_principal_id s = Some pid)
  | None =>
      bool_decide (sig_owner signal = Some (wp_name (so_params s)))
      || match sig_audience signal with
         | AudienceGroup names => bool_decide (wp_name (so_params s) ∈ names)
         | _ => false
         end
  end.

(** Who hears a message of a room in the mode of mentions: its sender, whom it
    addresses, everybody while the room is live, and the lead. *)
(** @src main.rs:1527-1535 ws_session *)
Definition message_heard s h (m : Message) : bool :=
  let p := so_params s in
  let accepts_all := negb (wp_is_caretaker p) || bool_decide (wp_room p = h_home_room h) in
  bool_decide (msg_sender m = wp_name p) || msg_addresses m (wp_name p) accepts_all
  || is_live h (wp_room p) || is_lead h (wp_room p) (wp_name p).

(** @src main.rs:1507-1536 ws_session *)
Definition mention_passes s h (frame : ServerFrame) : bool :=
  if negb (bool_decide (wp_filter (so_params s) = WsMentions)) then true
  else
    match frame with
    | SF_Care signal => care_addressed s signal
    | SF_Msg m => message_heard s h m
    | _ => true
    end.

(** @src main.rs:1393-1393 ws_session *)
Definition batching s : bool :=
  bool_decide (wp_filter (so_params s) = WsMentions) && (1 <? wp_turn_max (so_params s))%nat.

(** A message joins the turn; an announcement takes the turn out with it. *)
(** @src main.rs:1538-1576 ws_session *)
Definition queue_message (now : N) (m : Message) s h : Hub St * Socket :=
  let q := so_turn s in
  let p := so_params s in
  let pending := tq_pending q ++ [m] in
  if decide (msg_kind m = Announce) then flush_turn (with_so_turn (mkTurnQueue pending (tq_idle q) (tq_hard q)) s) h
  else if decide (msg_sender m = wp_name p) then (h, s)
  else
    let hard := if (length pending =? 1)%nat then Some (now + wp_turn_max_wait_ms p)%N else tq_hard q in
    let s := with_so_turn (mkTurnQueue pending (Some (now + wp_turn_idle_ms p)%N) hard) s in
    if (wp_turn_max p <=? length pending)%nat then flush_turn s h else (h, s).

(** What says how new the memory is goes before these. *)
Definition wakes (frame : ServerFrame) : bool :=
  match frame with SF_Msg _ | SF_Turn _ | SF_Care _ | SF_Reaction _ => true | _ => false end.

(** @src main.rs:1578-1590 ws_session *)
Definition forward (frame : ServerFrame) s h : Hub St * Socket :=
  let '(sink, sent) :=
    if wakes frame then send_memory_version (wp_room (so_params s)) (so_sink s) h else (so_sink s, true) in
  let '(sink, sent) := if (sent : bool) then send_frame frame sink else (sink, false) in
  let s := with_so_sink sink s in
  if (sent : bool) then (h, s) else ws_break false s h.

(** What is done with a frame the connection may see. *)
(** @src main.rs:1453-1590 ws_session *)
Definition deliver (now : N) (frame : ServerFrame) s h : Hub St * Socket :=
  if negb (passes_filter s frame) then (h, s)
  else
    let s :=
      match frame with
      | SF_Control cmd =>
          if batching s && bool_decide (cmd = "stop"%string) then with_so_turn empty_turn s else s
      | _ => s
      end in
    if match frame with SF_Care signal => negb (care_in_place s signal) | _ => false end then (h, s)
    else if negb (mention_passes s h frame) then (h, s)
    else
      match frame with
      | SF_Msg m => if batching s then queue_message now m s h else forward frame s h
      | _ => forward frame s h
      end.

(** A summon of a caretaker is a message to the caretaker it names, and nothing to
    anybody else. *)
(** @src main.rs:1408-1416 ws_session *)
Definition unwrap_summon s (frame : ServerFrame) : option ServerFrame :=
  match frame with
  | SF_Caretaker m =>
      if wp_is_caretaker (so_params s) && msg_addresses m (wp_name (so_params s)) false
      then Some (SF_Msg m) else None
  | _ => Some frame
  end.

(** @src main.rs:1402-1450 ws_session *)
Definition on_frame (now : N) (frame : ServerFrame) s h : Hub St * Socket :=
  let p := so_params s in
  match unwrap_summon s frame with
  | None => (h, s)
  | Some frame =>
      if match frame with SF_Care signal => bool_decide (sig_id signal ∈ so_replayed s) | _ => false end
      then (h, s)
      else
        match frame with
        | SF_Evicted _ who session =>
            if bool_decide (who = wp_identity p) && negb (session =? so_session_id s)%N
            then ws_break true (with_so_sink (send_frame frame (so_sink s)).1 s) h
            else (h, s)
        | SF_Kicked who _ =>
            if decide (who = wp_name p)
            then ws_break false (with_so_sink (send_frame frame (so_sink s)).1 s) h
            else (h, s)
        | _ =>
            let '(h, allowed) := ws_allowed (wp_credentials p) (wp_room p) (wp_name p) h in
            if (allowed : bool) then deliver now frame s h else ws_break false s h
        end
  end.

(** *** The other events *)

(** @src main.rs:1601-1604 ws_session *)
Definition on_ping s h : Hub St * Socket :=
  let p := so_params s in
  let '(h, allowed) := ws_allowed (wp_credentials p) (wp_room p) (wp_name p) h in
  if negb allowed then ws_break false s h
  else
    let '(sink, sent) := sink_send OutPing (so_sink s) in
    let s := with_so_sink sink s in
    if (sent : bool) then (h, s) else ws_break false s h.

(** When the queue must go out. *)
(** @src main.rs:1605-1611 ws_session *)
Definition turn_deadline (q : TurnQueue) : option N :=
  match tq_idle q, tq_hard q with
  | Some idle, Some hard => Some (N.min idle hard)
  | Some idle, None => Some idle
  | None, hard => hard
  end.

(** @src main.rs:1605-1626 ws_session *)
Definition on_deadline (now : N) s h : Hub St * Socket :=
  match turn_deadline (so_turn s) with
  | None => (h, s)
  | Some deadline =>
      if (now <? deadline)%N then (h, s)
      else
        match tq_pending (so_turn s) with
        | [] => (h, with_so_turn empty_turn s)
        | _ => flush_turn s h
        end
  end.

(** @src main.rs fn handle_client_frame *)
Definition handle_client_frame p (is_admin has_session : bool) (frame : option ClientFrame) h : Hub St :=
  if wp_watch_only p then h
  else
    match frame with
    | Some (CF_Send target text reply_to op_id) =>
        if h_require_sessions h && negb has_session then h
        else if negb (str_is_empty (trim text))
                && match op_id with Some id => (String.length id <=? 128)%nat | None => true end
        then (post (wp_room p)
                (mkPostMessage Say (wp_name p) (wp_kind p) target text reply_to op_id [])
                false (wp_identity p) h).1
        else h
    | Some (CF_Control cmd) => if is_admin then control (wp_room p) cmd h else h
    | Some (CF_Typing on) => typing (wp_room p) (wp_name p) on h
    | None => h
    end.

(** @src main.rs:1628-1643 ws_session *)
Definition on_text (frame : option ClientFrame) s h : Hub St * Socket :=
  let p := so_params s in
  let '(h, allowed) := ws_allowed (wp_credentials p) (wp_room p) (wp_name p) h in
  if negb allowed then ws_break false s h
  else
    let '(h, admin) := ws_is_admin (wp_credentials p) h in
    let '(h, session) := live_session (wp_credentials p) h in
    (handle_client_frame p admin (negb (is_none session)) frame h, s).

(** The closing handshake, and the seat, unless a newer connection has it. *)
(** @src main.rs:1649-1656 ws_session *)
Definition on_closing (evicted : bool) s h : Hub St * Socket :=
  let p := so_params s in
  ((if wp_watch_only p || evicted then h else leave (wp_room p) (wp_identity p) h),
   with_so_stage Ended (with_so_sink (sink_send OutClose (so_sink s)).1 s)).

(** One step of a session; an event its stage does not wait for is none. *)
(** @src main.rs fn ws_session *)
Definition ws_step (e : WsEvent) s h : Hub St * Socket :=
  match so_stage s, e with
  | Greeting, EvContinue => greet_memory s h
  | Outbox, EvContinue => greet_care (care_to_replay s h) s h
  | Replaying care, EvContinue => greet_care care s h
  | Backlog, EvContinue => greet (SF_History (so_history s)) Roster s h
  | Roster, EvContinue => greet_roster s h
  | Looping, EvFrame now frame => on_frame now frame s h
  | Looping, (EvLagged | EvBusClosed | EvGone) => ws_break false s h
  | Looping, EvPing => on_ping s h
  | Looping, EvDeadline now => on_deadline now s h
  | Looping, EvText frame => on_text frame s h
  | Closing evicted, EvContinue => on_closing evicted s h
  | _, _ => (h, s)
  end.
Definition ws_run (l : list WsEvent) (hs : Hub St * Socket) : Hub St * Socket :=
  foldl (fun hs e => ws_step e hs.2 hs.1) hs l.
End session.

(** ** The socket of the lobby

    routes/lobby.rs: presence and routing for the holder of a membership. *)

(** What the lobby's socket still has to send before its loop, or where it is. *)
Inductive LobbyStage : Type :=
  | LobbyReady (snapshot : list Invite)
  | LobbyCalling (calls : list Invite)
  | LobbyLooping
  | LobbyEnded.

(** @src routes/lobby.rs:153-160 lobby_ws_session *)
Record LobbySocket : Type := mkLobbySocket {
  ls_member : Membership;
  ls_sink : Sink;
  ls_stage : LobbyStage;
}.
Inductive LobbyWsEvent : Type :=
  | LvContinue
  | LvEvent (event : LobbyEvent)
  | LvLagged
  | LvClosed
  | LvPing
  | LvOther
  | LvGone.

(** @src hub fn member *)
Definition lobby_event_member (event : LobbyEvent) : string :=
  match event with
  | Called member _ _ | MembershipRevoked member | MembershipSuspended member => member
  end.

Section lobby.
Context {St : Type} `{Unicode} `{HeaderText} `{Environment} `{StoreBase St} `{IdentityStore St}.
Implicit Types h : Hub St.
Implicit Types s : LobbySocket.

(** @src routes/lobby.rs fn lobby_ws_handler *)
Definition lobby_ws_handler (headers : HeaderMap) (q : Query) h : result Membership Response :=
  if negb (is_none (q !! "membership"%string)) && negb legacy_ws_query_auth
  then Err (refuse BAD_REQUEST "WebSocket credentials belong in Sec-WebSocket-Protocol, not the URL")
  else
    match or_else (websocket_credential headers "loca.membership.")
            (if legacy_ws_query_auth then q !! "membership"%string else None) with
    | None => Err (refuse UNAUTHORIZED "membership required")
    | Some token =>
        match member_for_credential h (Some token) with
        | None => Err (refuse UNAUTHORIZED "invalid membership")
        | Some member => Ok member
        end
    end.

(** @src routes/lobby.rs:156-161 lobby_ws_session *)
Definition lobby_ws_enter (member : Membership) (sink : Sink) h : Hub St * LobbySocket :=
  let h := lobby_join (mb_token member) h in
  (h, mkLobbySocket member sink (LobbyReady (invites_for_member h (mb_token member)))).

(** Every way out leaves the lobby. *)
(** @src routes/lobby.rs:254-255 lobby_ws_session *)
Definition lobby_end s h : Hub St * LobbySocket :=
  (lobby_leave (mb_token (ls_member s)) h, mkLobbySocket (ls_member s) (ls_sink s) LobbyEnded).

(** A send, after which the session is at [next] when it succeeded. *)
Definition lobby_send (o : WsOut) (next : LobbyStage) s h : Hub St * LobbySocket :=
  let '(sink, sent) := sink_send o (ls_sink s) in
  if (sent : bool) then (h, mkLobbySocket (ls_member s) sink next)
  else lobby_end (mkLobbySocket (ls_member s) sink (ls_stage s)) h.

Definition called_frame (invite : Invite) : WsOut := OutLobby (LF_Called (inv_room invite) (inv_token invite)).

(** The calls that were missed, until one fails. *)
(** @src routes/lobby.rs:221-238 lobby_ws_session *)
Fixpoint lobby_replay (calls : list Invite) (sink : Sink) : Sink * bool :=
  match calls with
  | [] => (sink, true)
  | invite :: calls =>
      let '(sink, sent) := sink_send (called_frame invite) sink in
      if (sent : bool) then lobby_replay calls sink else (sink, false)
  end.

(** @src routes/lobby.rs:197-220 lobby_ws_session *)
Definition on_lobby_event (event : LobbyEvent) s h : Hub St * LobbySocket :=
  if negb (bool_decide (lobby_event_member event = mb_token (ls_member s))) then (h, s)
  else
    let last frame :=
      lobby_end (mkLobbySocket (ls_member s) (sink_send (OutLobby frame) (ls_sink s)).1 (ls_stage s)) h in
    match event with
    | Called _ room token => lobby_send (OutLobby (LF_Called room token)) LobbyLooping s h
    | MembershipRevoked _ => last LF_Revoked
    | MembershipSuspended _ => last LF_Suspended
    end.

(** @src routes/lobby.rs:162-252 lobby_ws_session *)
Definition lobby_ws_step (e : LobbyWsEvent) s h : Hub St * LobbySocket :=
  match ls_stage s, e with
  | LobbyReady snapshot, LvContinue =>
      lobby_send (OutLobby (LF_Ready (mb_name (ls_member s)) (map (fun i => (inv_room i, inv_token i)) snapshot)))
        (LobbyCalling snapshot) s h
  | LobbyCalling [], LvContinue => (h, mkLobbySocket (ls_member s) (ls_sink s) LobbyLooping)
  | LobbyCalling (invite :: calls), LvContinue => lobby_send (called_frame invite) (LobbyCalling calls) s h
  | LobbyLooping, LvEvent event => on_lobby_event event s h
  | LobbyLooping, LvLagged =>
      let '(sink, sent) := lobby_replay (invites_for_member h (mb_token (ls_member s))) (ls_sink s) in
      let s := mkLobbySocket (ls_member s) sink LobbyLooping in
      if (sent : bool) then (h, s) else lobby_end s h
  | LobbyLooping, LvPing => lobby_send OutPing LobbyLooping s h
  | LobbyLooping, (LvClosed | LvGone) => lobby_end s h
  | _, _ => (h, s)
  end.
End lobby.
