(* ===== verification/Server.v ===== *)
(** * The server as a sequence of operations

    Every request handler, websocket event and periodic task of the server is
    one call of an operation of the hub, made while it holds the hub's locks.
    [op] lists these calls and [run_op] performs one; where the handlers of
    crates/server/src/routes/ ask [is_writable] before they call the hub, the
    question is part of the operation: in the sources these are two calls, each with
    its own locks, and what another request may do between them is left out
    (an example of what that can be is [a_late_task_reopens_a_sealed_room] of
    Building.v). *)

From Stdlib Require Import Ascii.
From S2P Require Import Prelude Text Net Protocol StoreApi Hub Work Waits Seats Attention Chat Access.
From S2P Require Import Membership Joins Rooms Scheduler Memory WikiOps Attachments.

Inductive op : Type :=
  (* the clock, and the periodic tasks *)
  | OpClock (now : N)
  | OpTickCare
  | OpExpireLive
  (* websocket connections *)
  | OpSubscribe (room : string)
  | OpJoin (room identity name : string) (kind : SenderType) (session : N)
  | OpLeave (room identity : string)
  | OpTyping (room name : string) (on : bool)
  | OpControl (room cmd : string)
  | OpLobbyJoin (member : string)
  | OpLobbyLeave (member : string)
  | OpNextSession
  (* messages *)
  | OpPost (room : string) (body : PostMessage) (is_admin : bool) (principal : string)
  | OpReact (room : string) (message_id : N) (principal reactor emoji : string) (active : bool)
  (* declared work *)
  | OpCreateTask (room : string) (req : CreateTask)
  | OpUpdateTask (room : string) (id : N) (req : UpdateTask) (is_operator : bool)
  | OpCreateGoal (room : string) (req : CreateGoal)
  | OpUpdateGoal (room : string) (id : N) (req : UpdateGoal)
  | OpSetWait (room : string) (req : SetWait)
  | OpClearWait (room waiter : string)
  (* attention *)
  | OpCreateAttention (room : string) (req : CreateAttention)
  | OpClaimAttention (room id actor : string)
  | OpResolveAttention (room id actor : string) (pid : option string) (is_operator : bool)
  | OpAckCare (signal_id owner : string) (pid : option string)
  | OpReportRuntime (name : string) (update : RuntimeHealthUpdate)
  (* running a room *)
  | OpSetLead (room : string) (lead : option string) (by_ : string)
  | OpSetMode (room : string) (mode : ChatMode)
  | OpSetSettings (room : string) (req : SetSettings)
  | OpModerate (room : string) (action : ModAction) (name : string)
  | OpDeleteRoom (room : string)
  | OpCreateLoca (room : string) (actor : RequestAuthority)
  | OpAppointOperator (room target : string) (actor : RequestAuthority)
  | OpRevokeOperator (room : string) (actor : RequestAuthority)
  | OpJournal (room by_ : string) (by_type : SenderType) (text : string)
  | OpCreateNote (room : string) (req : CreateNote)
  | OpUpdateNote (room key : string) (req : UpdateNote) (is_operator : bool)
  | OpDeleteNote (room key : string)
  (* the memory, the wiki and the files of a room *)
  | OpMemoryOwner (room : string) (owner : option string)
  | OpWriteShort (room : string) (actor : SessionIdentity) (text : string)
  | OpAppendLong (room : string) (actor : SessionIdentity) (text : string)
  | OpWiki (o : WikiOp)
  | OpUpload (room uploader name mime bytes : string)
  | OpSweepFiles
  (* the building *)
  | OpCreateSession (req : CreateSession) (davet : option Invite) (grant : option AdminSessionGrant)
  | OpResolveSession (token : string)
  | OpRevokeSession (token : string)
  | OpAdmitMember (name kind by_ : string)
  | OpRevokeMember (token : string)
  | OpSuspendMember (reference : string) (suspended : bool) (reason : string)
  | OpInvite (member room by_ : string)
  | OpRevokeInvite (token : string)
  | OpAddSmaster (name : string)
  | OpRevokeSmaster (token : string)
  | OpRotatePairing (ttl_ms : N)
  | OpConsumePairing (candidate : string)
  | OpCreateCredential (principal_id label : string)
  | OpRevokeCredential (principal_id credential_id : string)
  (* join requests *)
  | OpMintStock (count : nat) (ttl_ms : N)
  | OpCreateJoin (name kind : string) (ip : IpAddr)
  | OpApproveJoin (id by_ : string)
  | OpDenyJoin (id by_ : string)
  | OpClaimBootstrap (id secret : string)
  | OpAckBootstrap (id secret : string).

Section server.
Context {St : Type} `{Unicode} `{Csprng} `{Digest} `{StoreBase St} `{MessageStore St}
  `{WorkStore St} `{CareStore St} `{RoomStore St} `{IdentityStore St} `{OperatorStore St}
  `{AdmissionStore St} `{CredentialStore St} `{MemoryStore St} `{WikiStore St}
  `{Environment} `{AttachmentStore St}.
Implicit Types h : Hub St.

(** [if !hub.is_writable(&id) { return (StatusCode::CONFLICT, ..) }], and the call that
    follows, as one step. *)
(** @src routes/work.rs:13-15 create_task *)
Definition when_writable {A} (room : string) (f : Hub St -> Hub St * A) h : Hub St :=
  if is_writable h room then (f h).1 else h.

Definition run_op (o : op) h : Hub St :=
  match o with
  | OpClock now => with_h_clock now h
  | OpTickCare => tick_care h
  | OpExpireLive => expire_live h
  | OpSubscribe room => (subscribe room h).1
  | OpJoin room identity name kind session => (join_room room identity name kind session h).1
  | OpLeave room identity => leave room identity h
  | OpTyping room name on => typing room name on h
  | OpControl room cmd => control room cmd h
  | OpLobbyJoin member => lobby_join member h
  | OpLobbyLeave member => lobby_leave member h
  | OpNextSession => (fetch_next_id h).1
  | OpPost room body is_admin principal => (post room body is_admin principal h).1
  | OpReact room id principal reactor emoji active =>
      (set_reaction room id principal reactor emoji active h).1
  | OpCreateTask room req => when_writable room (create_task room req) h
  | OpUpdateTask room id req op => when_writable room (update_task room id req op) h
  | OpCreateGoal room req => when_writable room (create_goal room req) h
  | OpUpdateGoal room id req => when_writable room (update_goal room id req) h
  | OpSetWait room req => when_writable room (set_wait room req) h
  | OpClearWait room waiter => when_writable room (clear_wait room waiter) h
  | OpCreateAttention room req => when_writable room (create_attention room req) h
  | OpClaimAttention room id actor => when_writable room (claim_attention room id actor) h
  | OpResolveAttention room id actor pid op =>
      when_writable room (resolve_attention room id actor pid op) h
  | OpAckCare sid owner pid => (ack_care sid owner pid h).1
  | OpReportRuntime name update => (report_runtime_health name update h).1
  | OpSetLead room lead by_ => when_writable room (set_lead room lead by_) h
  | OpSetMode room mode => when_writable room (set_mode room mode) h
  | OpSetSettings room req => (set_settings room req h).1
  | OpModerate room action name => (moderate room action name h).1
  | OpDeleteRoom room => (delete_room room h).1
  | OpCreateLoca room actor => (create_loca room actor h).1
  | OpAppointOperator room target actor => (appoint_loca_operator room target actor h).1
  | OpRevokeOperator room actor => (revoke_loca_operator room actor h).1
  | OpJournal room by_ by_type text => when_writable room (append_journal room by_ by_type text) h
  | OpCreateNote room req => when_writable room (create_note room req) h
  | OpUpdateNote room key req op => when_writable room (update_note room key req op) h
  | OpDeleteNote room key => when_writable room (delete_note room key) h
  | OpMemoryOwner room owner => (set_memory_owner room owner h).1
  | OpWriteShort room actor text => (write_short_memory room actor text h).1
  | OpAppendLong room actor text => (append_long_memory room actor text h).1
  | OpWiki o => wiki_op o h
  | OpUpload room uploader name mime bytes => (put_pending_attachment room uploader name mime bytes h).1
  | OpSweepFiles => (sweep_attachments h).1
  | OpCreateSession req davet grant => (create_session_scoped req davet grant h).1
  | OpResolveSession token => (session_identity (Some token) h).1
  | OpRevokeSession token => (revoke_session token h).1
  | OpAdmitMember name kind by_ => (admit_member name kind by_ h).1
  | OpRevokeMember token => (revoke_member token h).1
  | OpSuspendMember reference suspended reason =>
      (set_member_suspended reference suspended reason h).1
  | OpInvite member room by_ => (invite_member_to_room member room by_ h).1
  | OpRevokeInvite token => (revoke_invite token h).1
  | OpAddSmaster name => (add_smaster name h).1
  | OpRevokeSmaster token => (revoke_smaster token h).1
  | OpRotatePairing ttl => (rotate_admin_pairing_for ttl h).1
  | OpConsumePairing candidate => (consume_admin_pairing candidate h).1
  | OpCreateCredential pid label => (create_profile_credential pid label h).1
  | OpRevokeCredential pid cid => (revoke_profile_credential pid cid h).1
  | OpMintStock count ttl => (mint_admission_stock count ttl h).1
  | OpCreateJoin name kind ip => (create_join_request name kind ip h).1
  | OpApproveJoin id by_ => (approve_join_request id by_ h).1
  | OpDenyJoin id by_ => (deny_join_request id by_ h).1
  | OpClaimBootstrap id secret => (claim_join_request_bootstrap id secret h).1
  | OpAckBootstrap id secret => (ack_join_request_bootstrap id secret h).1
  end.

(** The operations in the order the locks serialise them. *)
Definition run_ops (l : list op) h : Hub St := foldl (fun h o => run_op o h) h l.
End server.
