(* ===== verification/ServerFacts.v ===== *)
(** * Properties of the whole server

    The invariants of the components hold together, in every state the server
    reaches by any sequence of operations, and what was sealed stays sealed. *)

From Stdlib Require Import Ascii.
From S2P Require Import Prelude Text Protocol StoreApi Hub Ledger Work WorkFacts Waits WaitFacts.
From S2P Require Import Seats Attention Chat ChatFacts Access Membership AccessFacts Rooms.
From S2P Require Import RoomFacts Scheduler SchedulerFacts Server.

(** ** The invariant *)

(** The mode and the settings are in range. *)
Definition conf_ok (r : Room) : Prop := settings_ok (r_settings r) /\ mode_ok (r_mode r).

Record room_ok (r : Room) : Prop := {
  ro_work : work_inv r;
  ro_waits : waits_inv r;
  ro_seats : seats_inv r;
  ro_ops : ops_inv r;
  ro_conf : conf_ok r;
}.

Lemma room_ok_room_with s : settings_ok s -> room_ok (room_with Free s 1).
Proof.
  intros Hs. constructor.
  - apply work_inv_room_with.
  - apply waits_inv_room_with.
  - apply seats_inv_room_with.
  - apply ops_inv_room_with.
  - by split.
Qed.

(** Which part of a room an operation may change. *)
Inductive part : Type := PWork | PWaits | PSeats | PConf | PNone.

Definition same_but (p : part) (r r' : Room) : Prop :=
  (p = PWork \/ (r_goals r' = r_goals r /\ r_tasks r' = r_tasks r)) /\
  (p = PWaits \/ r_waits r' = r_waits r) /\
  (p = PSeats \/ r_members r' = r_members r) /\
  (p = PConf \/ r_mode r' = r_mode r) /\
  (p = PConf \/ r_settings r' = r_settings r) /\
  r_operations r' = r_operations r /\ r_operation_order r' = r_operation_order r.

Lemma same_but_refl p r : same_but p r r.
Proof. unfold same_but. tauto. Qed.

Lemma same_but_wire r r' : wire_eq r r' -> same_but PNone r r'.
Proof. intros (tx & m & a & ->). unfold same_but. cbn. tauto. Qed.

(** What is left to show of the part that changed. *)
Definition part_ok (p : part) (r : Room) : Prop :=
  match p with
  | PWork => work_inv r
  | PWaits => waits_inv r
  | PSeats => seats_inv r
  | PConf => conf_ok r /\ work_inv r
  | PNone => True
  end.

Lemma room_ok_same_but p r r' :
  same_but p r r' -> part_ok p r' -> room_ok r -> room_ok r'.
Proof.
  intros (Hwork & Hwaits & Hseats & Hmode & Hset & Hops & Hord) Hp [Iw Ia Is Io [Ic Im]].
  assert (Hlead : p <> PConf -> rs_lead (r_settings r') = rs_lead (r_settings r)).
  { intros Hne. destruct Hset as [|E]; [done|by rewrite E]. }
  constructor.
  - destruct p; try exact Hp; try (destruct Hwork as [|[Eg Et]]; [done|];
      eapply work_inv_ext; [exact Eg|exact Et|by apply Hlead|exact Iw]).
    exact (proj2 Hp).
  - destruct p; try exact Hp; (destruct Hwaits as [|E]; [done|]); by eapply waits_inv_ext.
  - destruct p; try exact Hp; (destruct Hseats as [|E]; [done|]); by eapply seats_inv_ext.
  - by eapply ops_inv_ext.
  - destruct p; try exact (proj1 Hp);
      (destruct Hmode as [|Em]; [done|]); (destruct Hset as [|Es]; [done|]);
      (split; [by rewrite Es|by rewrite Em]).
Qed.

(** Lookup in a room map after writes to one room. *)
Ltac rooms_of_one :=
  cbn; repeat first
    [ rewrite lookup_insert_eq | rewrite lookup_insert_ne by done ]; try done.
Ltac same_parts := unfold same_but; room_frame; tauto.
(** An operation that failed before it touched the room. *)
Ltac one_room_refused :=
  constructor; [by constructor|intros ? ?; rooms_of_one|first
    [ by left
    | right; eexists; split; [cbn; rewrite ?lookup_insert_eq; reflexivity|apply same_but_refl]]].
Ltac stored :=
  lazymatch goal with
  | |- context [run_store ?f ?h] =>
      let h2 := fresh "h2" in let w := fresh "w" in let E := fresh "Hst" in
      destruct (run_store f h) as [h2 w] eqn:E; apply run_store_state in E as [-> _];
      destruct w as [?|?]
  end.

Section facts.
Context {St : Type} `{Unicode} `{Csprng} `{Digest} `{StoreBase St} `{MessageStore St}
  `{WorkStore St} `{CareStore St} `{RoomStore St} `{IdentityStore St} `{OperatorStore St}.
Implicit Types h : Hub St.

(** Rooms are well formed, davets are counted, new rooms start well formed, and
    a sealed room is not in memory. *)
Record building_ok h : Prop := {
  bo_rooms : all_rooms room_ok h;
  bo_davets : davets_inv h;
  bo_default : settings_ok (h_default_settings h);
  bo_sealed : forall n, is_deleted h n = true -> h_rooms h !! n = None;
}.

Lemma building_entry h n : building_ok h -> room_ok (entry_room n h).
Proof.
  intros Hb. apply all_rooms_entry; [apply Hb|]. apply room_ok_room_with, Hb.
Qed.

(** The rest of the building, as an operation on one room leaves it. *)
Record outer_le h h' : Prop := {
  ol_default : h_default_settings h' = h_default_settings h;
  ol_deleted : h_deleted h' = h_deleted h;
  ol_home : h_home_room h' = h_home_room h;
  ol_invites : h_invites h' ⊆ h_invites h;
  ol_members : h_members h' ⊆ h_members h;
}.

#[local] Instance outer_le_refl : Reflexive outer_le.
Proof. by constructor. Qed.
#[local] Instance outer_le_trans : Transitive outer_le.
Proof. intros h1 h2 h3 [? ? ? ? ?] [? ? ? ? ?]. constructor; try congruence; by etrans. Qed.

Lemma outer_is_deleted h h' n : outer_le h h' -> is_deleted h' n = is_deleted h n.
Proof. intros [? Hd Hh ? ?]. unfold is_deleted. by rewrite Hd, Hh. Qed.

(** Every room of [h'] is a room of [h], or one that may exist, after [R]. *)
Lemma building_ok_step (R : string -> Room -> Room -> Prop) h h' :
  outer_le h h' ->
  (forall n r', h_rooms h' !! n = Some r' ->
     (exists r, h_rooms h !! n = Some r /\ R n r r') \/
     (is_deleted h n = false /\ R n (entry_room n h) r')) ->
  (forall n r r', R n r r' -> room_ok r -> room_ok r') ->
  building_ok h -> building_ok h'.
Proof.
  intros Ho Hrooms HR Hb. constructor.
  - intros n r' Hr'. destruct (Hrooms n r' Hr') as [(r & Hr & Hrr)|[_ Hrr]].
    + eapply HR; [exact Hrr|]. by eapply bo_rooms.
    + eapply HR; [exact Hrr|]. by apply building_entry.
  - eapply davets_inv_ext; [apply Ho|apply Ho|apply Hb].
  - rewrite (ol_default _ _ Ho). apply Hb.
  - intros n Hdel. rewrite (outer_is_deleted _ _ _ Ho) in Hdel.
    destruct (h_rooms h' !! n) as [r'|] eqn:Hr'; [|done]. exfalso.
    destruct (Hrooms n r' Hr') as [(r & Hr & _)|[Hn _]]; [|congruence].
    by rewrite (bo_sealed _ Hb n Hdel) in Hr.
Qed.

(** An operation on one room. *)
Record one_room (p : part) (room : string) h h' : Prop := {
  or_outer : outer_le h h';
  or_other : forall n, n <> room -> h_rooms h' !! n = h_rooms h !! n;
  or_room : h_rooms h' !! room = h_rooms h !! room \/
    exists r', h_rooms h' !! room = Some r' /\ same_but p (entry_room room h) r';
}.

Lemma one_room_ok p room h h' :
  one_room p room h h' -> is_deleted h room = false \/ is_Some (h_rooms h !! room) ->
  (building_ok h -> all_rooms (part_ok p) h') -> building_ok h -> building_ok h'.
Proof.
  intros [Ho Hother Hroom] Hlive Hpart Hb. specialize (Hpart Hb).
  apply (building_ok_step (fun n r r' => same_but p r r' /\ part_ok p r') h h'); [done| |..|done].
  - intros n r' Hr'. pose proof (Hpart _ _ Hr') as Hok. destruct (decide (n = room)) as [->|Hne].
    + destruct Hroom as [E|(r2 & Hr2 & Hs)].
      * left. exists r'. rewrite <- E. split; [done|]. split; [apply same_but_refl|done].
      * rewrite Hr2 in Hr'. injection Hr' as <-.
        destruct (h_rooms h !! room) as [r|] eqn:Hr.
        -- left. exists r. rewrite (entry_room_Some _ _ _ Hr) in Hs. by split.
        -- right. destruct Hlive as [?|[? ?]]; [|done]. by split.
    + left. exists r'. rewrite <- Hother by done. split; [done|].
      split; [apply same_but_refl|done].
  - intros n r r' [Hs Hp] Hok. by eapply room_ok_same_but.
Qed.

(** The parts of all rooms, from the building's invariant. *)
Lemma building_parts h : building_ok h ->
  work_ok h /\ all_rooms waits_inv h /\ all_rooms seats_inv h /\ all_rooms ops_inv h /\
  all_rooms conf_ok h.
Proof.
  intros Hb. split; [|split; [|split; [|split]]]; intros n r Hr; apply (bo_rooms _ Hb n r Hr).
Qed.

Lemma building_ok_wire h h' :
  rooms_wire h h' -> outer_le h h' -> building_ok h -> building_ok h'.
Proof.
  intros Hw Ho. apply (building_ok_step (fun _ r r' => wire_eq r r')); [done| |].
  - intros n r' Hr'. left. specialize (Hw n). rewrite Hr' in Hw.
    destruct (h_rooms h !! n) as [r|]; [|done]. eauto.
  - intros n r r' Hwr Hok. by apply (room_ok_same_but PNone r r'); [apply same_but_wire| |].
Qed.

Lemma building_ok_same h h' :
  h_rooms h' = h_rooms h -> outer_le h h' -> building_ok h -> building_ok h'.
Proof.
  intros Hr. apply building_ok_wire. intros n. rewrite Hr.
  destruct (h_rooms h !! n); cbn; [reflexivity|done].
Qed.

(** *** Operations on one room *)

Lemma create_task_one room req h : one_room PWork room h (create_task room req h).1.
Proof.
  unfold create_task. stored; cbn [fst]; [|one_room_refused].
  constructor; [by constructor|intros ? ?; rooms_of_one|right].
  eexists. split; [rooms_of_one|]. rewrite entry_room_mut. same_parts.
Qed.

Lemma create_goal_one room req h : one_room PWork room h (create_goal room req h).1.
Proof.
  unfold create_goal. destruct (rs_lead _); [|one_room_refused].
  destruct (any_value _ _); [one_room_refused|].
  destruct (normalize_goal_tasks _ _ _); [|one_room_refused].
  set (goal := if all_goal_tasks_done _ _ then _ else _). clearbody goal.
  stored; cbn [fst]; [|one_room_refused].
  constructor; [by constructor|intros ? ?; rooms_of_one|right].
  eexists. split; [rooms_of_one|]. rewrite entry_room_mut. same_parts.
Qed.

Lemma update_goal_one room id req h : one_room PWork room h (update_goal room id req h).1.
Proof.
  unfold update_goal. destruct (h_rooms h !! room) as [r|] eqn:Hr; [|one_room_refused].
  destruct (r_goals r !! id); [|one_room_refused].
  destruct (updated_goal _ _ _ _ _) as [goal|]; [|one_room_refused].
  set (progressed := negb _). clearbody progressed.
  destruct (if progressed then _ else _) as [h1 g'] eqn:Hg.
  assert (Hh1 : exists k, h1 = with_h_condition_generation k h).
  { destruct progressed; [|injection Hg as <- _; exists (h_condition_generation h); by destruct h].
    destruct (next_condition_generation _ _ _) as [h2 k] eqn:E.
    apply next_condition_generation_state in E as ->. injection Hg as <- _. eauto. }
  destruct Hh1 as [k ->]. stored; cbn [fst]; [|one_room_refused].
  constructor; [by constructor|intros ? ?; rooms_of_one|right].
  eexists. split; [rooms_of_one|]. rewrite (entry_room_Some _ _ _ Hr).
  unfold clear_condition. destruct progressed; same_parts.
Qed.

(** Drawing a generation moves the generation only. *)
Definition drew h h' : Prop := exists k, h' = with_h_condition_generation k h.

Lemma drew_refl h : drew h h.
Proof. exists (h_condition_generation h). by destruct h. Qed.

Lemma linked_goal_drew r task now h h' g :
  linked_goal_after_task_progress r task now h = (h', g) -> drew h h'.
Proof.
  unfold linked_goal_after_task_progress. destruct (find_value _ _); [|intros [= <- _]; apply drew_refl].
  destruct (r_goals r !! _); [|intros [= <- _]; apply drew_refl].
  destruct (next_condition_generation _ _ _) as [h2 k] eqn:E.
  apply next_condition_generation_state in E as ->. intros [= <- _]. by exists k.
Qed.

Lemma update_task_one room id req op h : one_room PWork room h (update_task room id req op h).1.
Proof.
  unfold update_task. destruct (h_rooms h !! room) as [r|] eqn:Hr; [|one_room_refused].
  destruct (r_tasks r !! id); [|one_room_refused].
  destruct (update_task_assignee _ _ _) as [[t1 moved]|]; [|one_room_refused].
  destruct (update_task_status _ _ _ _) as [[t2 changed]|]; [|one_room_refused].
  set (progressed := moved || changed). clearbody progressed.
  destruct (if progressed then _ else _) as [h1 t3] eqn:Ht.
  assert (drew h h1) as [k ->].
  { destruct progressed; [|injection Ht as <- _; apply drew_refl].
    destruct (next_condition_generation _ _ _) as [h2 k] eqn:E.
    apply next_condition_generation_state in E as ->. injection Ht as <- _. by exists k. }
  destruct (if progressed then linked_goal_after_task_progress _ _ _ _ else _) as [h2 g] eqn:Hg.
  assert (drew (with_h_condition_generation k h) h2) as [k' ->].
  { destruct progressed; [by eapply linked_goal_drew|]. injection Hg as <- _. apply drew_refl. }
  stored; cbn [fst]; [|one_room_refused].
  constructor; [by constructor|intros ? ?; rooms_of_one|right].
  eexists. split; [rooms_of_one|]. rewrite (entry_room_Some _ _ _ Hr).
  unfold clear_condition. destruct progressed, g; same_parts.
Qed.

Lemma set_wait_one room req h : one_room PWaits room h (set_wait room req h).1.
Proof.
  unfold set_wait. destruct (decide _); [one_room_refused|].
  destruct (match _ !! sw_by req with Some _ => _ | None => _ end); [one_room_refused|].
  destruct (next_condition_generation _ _ _) as [h1 k] eqn:E.
  apply next_condition_generation_state in E as ->.
  stored; cbn [fst]; [|one_room_refused].
  constructor; [by constructor|intros ? ?; rooms_of_one|right].
  eexists. split; [rooms_of_one|]. rewrite entry_room_mut. same_parts.
Qed.

Lemma clear_wait_one room waiter h : one_room PWaits room h (clear_wait room waiter h).1.
Proof.
  unfold clear_wait. destruct (h_rooms h !! room) as [r|] eqn:Hr; [|one_room_refused].
  case_bool_decide; [one_room_refused|]. stored; cbn [fst]; [|one_room_refused].
  constructor; [by constructor|intros ? ?; rooms_of_one|right].
  eexists. split; [rooms_of_one|]. rewrite (entry_room_Some _ _ _ Hr). same_parts.
Qed.

Lemma subscribe_one room h : one_room PNone room h (subscribe room h).1.
Proof.
  unfold subscribe. destruct (is_deleted h room); [one_room_refused|]. cbn [fst].
  constructor; [by constructor|intros ? ?; rooms_of_one|right].
  eexists. split; [rooms_of_one|apply same_but_refl].
Qed.

Lemma join_room_one room i name kind s h :
  one_room PSeats room h (join_room room i name kind s h).1.
Proof.
  unfold join_room. destruct (is_deleted h room); [one_room_refused|].
  destruct (_ && _); [one_room_refused|]. cbn [fst].
  constructor; [by constructor|intros ? ?; rooms_of_one|right].
  eexists. split; [rooms_of_one|]. rewrite entry_room_mut.
  destruct (r_members _ !! i) as [[[? ?] ?]|]; [destruct (additional_human_reader _ _ _ _)|];
    same_parts.
Qed.

Lemma leave_one room i h : one_room PSeats room h (leave room i h).
Proof.
  unfold leave. destruct (h_rooms h !! room) as [r|] eqn:Hr; [|one_room_refused].
  constructor; [by constructor|intros ? ?; rooms_of_one|right].
  eexists. split; [rooms_of_one|]. rewrite (entry_room_Some _ _ _ Hr).
  destruct (r_members r !! i) as [[[? ?] ?]|]; [destruct (decide _)|]; same_parts.
Qed.

Lemma create_attention_one room req h : one_room PNone room h (create_attention room req h).1.
Proof.
  unfold create_attention. destruct (h_rooms h !! room) as [r|] eqn:Hr; [|one_room_refused].
  destruct (resolve_attention_owner _ _ _) as [[owner names]|]; [|one_room_refused].
  cbn [secure_token]. stored; cbn [fst]; [|one_room_refused].
  constructor; [by constructor|intros ? ?; rooms_of_one|right].
  eexists. split; [rooms_of_one|]. rewrite (entry_room_Some _ _ _ Hr). same_parts.
Qed.

Lemma claim_attention_one room id actor h :
  one_room PNone room h (claim_attention room id actor h).1.
Proof.
  unfold claim_attention. destruct (h_rooms h !! room) as [r|] eqn:Hr; [|one_room_refused].
  destruct (r_attentions r !! id); [|one_room_refused].
  do 2 (destruct (negb _); [one_room_refused|]). stored; cbn [fst]; [|one_room_refused].
  destruct t; [|one_room_refused].
  constructor; [by constructor|intros ? ?; rooms_of_one|right].
  eexists. split; [rooms_of_one|]. rewrite (entry_room_Some _ _ _ Hr). same_parts.
Qed.

Lemma resolve_attention_one room id actor pid op h :
  one_room PNone room h (resolve_attention room id actor pid op h).1.
Proof.
  unfold resolve_attention. destruct (h_rooms h !! room) as [r|] eqn:Hr; [|one_room_refused].
  destruct (r_attentions r !! id); [|one_room_refused].
  destruct (if op then _ else _) as [[|]|]; [|one_room_refused..].
  destruct (decide _); [one_room_refused|]. stored; cbn [fst]; [|one_room_refused].
  destruct t; [|one_room_refused].
  constructor; [by constructor|intros ? ?; rooms_of_one|right].
  eexists. split; [rooms_of_one|]. rewrite (entry_room_Some _ _ _ Hr). same_parts.
Qed.

Lemma set_reaction_one room id p who emoji active h :
  one_room PNone room h (set_reaction room id p who emoji active h).1.
Proof.
  unfold set_reaction. do 2 (destruct (negb _); [one_room_refused|]).
  destruct (match message_owner _ _ _ with Ok _ => _ | Err _ => _ end); [|one_room_refused].
  destruct (decide _); [one_room_refused|]. stored; cbn [fst]; [|one_room_refused].
  cbn [with_h_store h_rooms]. destruct (h_rooms h !! room) as [r|] eqn:Hr; [|one_room_refused].
  constructor; [by constructor|intros ? ?; rooms_of_one|right].
  eexists. split; [rooms_of_one|]. rewrite (entry_room_Some _ _ _ Hr). same_parts.
Qed.

Lemma set_lead_one room lead by_ h : one_room PConf room h (set_lead room lead by_ h).1.
Proof.
  unfold set_lead. destruct (is_deleted h room); [one_room_refused|].
  destruct (_ && _); [one_room_refused|]. cbn [fetch_next_id].
  stored; cbn [fst]; [|one_room_refused].
  constructor; [by constructor|intros ? ?; rooms_of_one|right].
  eexists. split; [rooms_of_one|]. rewrite entry_room_mut. same_parts.
Qed.

Lemma set_mode_one room mode h : one_room PConf room h (set_mode room mode h).1.
Proof.
  unfold set_mode. destruct (is_deleted h room); [one_room_refused|].
  stored; cbn [fst]; [|one_room_refused].
  constructor; [by constructor|intros ? ?; rooms_of_one|right].
  eexists. split; [rooms_of_one|]. rewrite entry_room_mut. same_parts.
Qed.

Lemma set_settings_one room req h : one_room PConf room h (set_settings room req h).1.
Proof.
  unfold set_settings. destruct (is_deleted h room); [one_room_refused|].
  stored; cbn [fst]; [|one_room_refused].
  constructor; [by constructor|intros ? ?; rooms_of_one|right].
  eexists. split; [rooms_of_one|]. rewrite entry_room_mut.
  destruct (_ && _), (bool_decide _); same_parts.
Qed.

Lemma control_one room cmd h : one_room PNone room h (control room cmd h).
Proof.
  unfold control. destruct (h_rooms h !! room) as [r|] eqn:Hr; [|one_room_refused].
  constructor; [by constructor|intros ? ?; rooms_of_one|right].
  eexists. split; [rooms_of_one|]. rewrite (entry_room_Some _ _ _ Hr). same_parts.
Qed.

Lemma typing_one room name on h : one_room PNone room h (typing room name on h).
Proof.
  unfold typing. destruct (h_rooms h !! room) as [r|] eqn:Hr; [|one_room_refused].
  constructor; [by constructor|intros ? ?; rooms_of_one|right].
  eexists. split; [rooms_of_one|]. rewrite (entry_room_Some _ _ _ Hr). same_parts.
Qed.

Lemma append_journal_one room by_ ty text h :
  one_room PNone room h (append_journal room by_ ty text h).1.
Proof.
  unfold append_journal. stored; cbn [fst]; [|one_room_refused].
  constructor; [by constructor|intros ? ?; rooms_of_one|right].
  eexists. split; [rooms_of_one|]. rewrite entry_room_mut. same_parts.
Qed.

Lemma create_note_one room req h : one_room PNone room h (create_note room req h).1.
Proof.
  unfold create_note. destruct (match h_rooms h !! room with Some _ => _ | None => _ end);
    [one_room_refused|]. stored; cbn [fst]; [|one_room_refused].
  constructor; [by constructor|intros ? ?; rooms_of_one|right].
  eexists. split; [rooms_of_one|]. rewrite entry_room_mut. same_parts.
Qed.

Lemma update_note_one room key req op h : one_room PNone room h (update_note room key req op h).1.
Proof.
  unfold update_note. destruct (h_rooms h !! room) as [r|] eqn:Hr; [|one_room_refused].
  destruct (r_notes r !! key); [|one_room_refused]. stored; cbn [fst]; [|one_room_refused].
  constructor; [by constructor|intros ? ?; rooms_of_one|right].
  eexists. split; [rooms_of_one|]. rewrite (entry_room_Some _ _ _ Hr).
  destruct (_ || _); same_parts.
Qed.

Lemma delete_note_one room key h : one_room PNone room h (delete_note room key h).1.
Proof.
  unfold delete_note. destruct (h_rooms h !! room) as [r|] eqn:Hr; [|one_room_refused].
  destruct (bool_decide _); [one_room_refused|]. stored; cbn [fst]; [|one_room_refused].
  constructor; [by constructor|intros ? ?; rooms_of_one|right].
  eexists. split; [rooms_of_one|]. rewrite (entry_room_Some _ _ _ Hr). same_parts.
Qed.

Lemma announce_join_request_one name kind h :
  one_room PNone (h_home_room h) h (announce_join_request name kind h).
Proof.
  unfold announce_join_request.
  destruct (match h_rooms h !! h_home_room h with Some _ => _ | None => _ end) as [mode settings].
  cbn [fetch_next_id]. destruct (run_store _ _) as [h1 w] eqn:E.
  apply run_store_state in E as [-> _]. cbn [with_h_store with_h_next_id h_home_room].
  constructor; [by constructor|intros ? ?; rooms_of_one|right].
  eexists. split; [rooms_of_one|]. rewrite entry_room_mut. same_parts.
Qed.

Lemma find_attention_Some h id room a :
  find_attention h id = Some (room, a) ->
  exists r, h_rooms h !! room = Some r /\ r_attentions r !! id = Some a.
Proof.
  unfold find_attention. destruct (omap _ _) as [|x l] eqn:E; [done|]. intros [= ->].
  assert (Hin : (room, a) ∈ (room, a) :: l) by by left. rewrite <- E in Hin.
  apply list_elem_of_omap in Hin as ([n r] & Hr%elem_of_map_to_list & Hsel).
  cbn in Hsel. destruct (r_attentions r !! id) as [a'|] eqn:Ha; [|done].
  injection Hsel as -> ->. eauto.
Qed.

Lemma mark_delivered_ok id now h : building_ok h -> building_ok (mark_delivered id now h).
Proof.
  unfold mark_delivered. destruct (find_attention h id) as [[room a]|] eqn:E; [|done].
  apply find_attention_Some in E as (r & Hr & _).
  apply building_ok_wire; [|by constructor]. rewrite (entry_room_Some _ _ _ Hr).
  apply (rooms_wire_put _ _ _ _ Hr). etransitivity; [apply wire_eq_attentions|apply wire_eq_send].
Qed.

Lemma ack_care_ok sid owner pid h : building_ok h -> building_ok (ack_care sid owner pid h).1.
Proof.
  intros Hb. unfold ack_care. destruct (match h_care_deliveries h !! sid with Some _ => _ | None => _ end);
    [|done]. destruct (negb _); [done|]. stored; cbn [fst];
    [|by eapply building_ok_same, Hb; [|constructor]].
  destruct (_ || _); [|by eapply building_ok_same, Hb; [|constructor]]. cbn [fst].
  apply mark_delivered_ok. by eapply building_ok_same, Hb; [|constructor].
Qed.

(** *** Davets and members *)

Lemma retire_davets_outer l h : outer_le h (foldl retire_davet h l).
Proof.
  revert h. induction l as [|inv l IH]; intros h; [reflexivity|]. cbn [foldl].
  etransitivity; [|apply IH]. unfold retire_davet, close_connections, revoke_sessions_for_davet.
  destruct (str_is_empty _); destruct (h_rooms _ !! _); by constructor.
Qed.

Lemma drop_davets_outer l h : outer_le h (drop_davets l h).
Proof.
  constructor; try done. unfold drop_davets. cbn. generalize (h_invites h).
  induction l as [|inv l IH]; intros m; [done|]. cbn [foldl].
  etrans; [apply IH|apply delete_subseteq].
Qed.

Lemma retire_dropped l h :
  building_ok h -> building_ok (foldl retire_davet (drop_davets l h) l).
Proof.
  intros Hb. destruct (retire_davets_frame l (drop_davets l h)) as (Hw & _).
  eapply building_ok_wire; [exact Hw|apply retire_davets_outer|].
  by eapply building_ok_same, Hb; [|apply drop_davets_outer].
Qed.

Lemma revoke_invites_for_building room name h :
  building_ok h -> building_ok (revoke_invites_for room name h).1.
Proof.
  intros Hb. unfold revoke_invites_for. destruct (davets_where _ h) as [|i l]; [done|].
  stored; cbn [fst]; [|by eapply building_ok_same, Hb; [|constructor]].
  apply (retire_dropped (i :: l)). by eapply building_ok_same, Hb; [|constructor].
Qed.

Lemma revoke_invite_building token h : building_ok h -> building_ok (revoke_invite token h).1.
Proof.
  intros Hb. unfold revoke_invite. destruct (h_invites h !! token) as [inv|]; [|done].
  stored; cbn [fst]; [|by eapply building_ok_same, Hb; [|constructor]].
  destruct (retire_davets_frame [inv] (with_h_invites (delete token (h_invites h))
    (with_h_store (store_revoke_invite token (h_clock h) (h_store h)).1 h))) as (Hw & _).
  eapply (building_ok_wire _ _ Hw (retire_davets_outer [inv] _)).
  eapply building_ok_same, Hb; [done|]. constructor; try done. apply delete_subseteq.
Qed.

Lemma revoke_member_building token h : building_ok h -> building_ok (revoke_member token h).1.
Proof.
  intros Hb. unfold revoke_member. case_bool_decide; [done|].
  stored; cbn [fst]; [|by eapply building_ok_same, Hb; [|constructor]].
  set (h1 := with_h_store _ h).
  set (davets := davets_where _ h1).
  apply (building_ok_same (foldl retire_davet (drop_davets davets h1) davets)); [done| |].
  - constructor; try done. apply delete_subseteq.
  - apply retire_dropped. by eapply building_ok_same, Hb; [|constructor].
Qed.

Lemma close_all_building l h :
  building_ok h ->
  building_ok (foldl (fun h inv => close_connections (inv_room inv) (inv_name inv) h) h l).
Proof.
  revert h. induction l as [|inv l IH]; intros h Hb; [done|]. cbn [foldl]. apply IH.
  destruct (close_connections_frame (inv_room inv) (inv_name inv) h) as (Hw & _).
  eapply building_ok_wire, Hb; [exact Hw|]. unfold close_connections.
  destruct (h_rooms h !! _); by constructor.
Qed.

Lemma set_member_suspended_building reference b reason h :
  building_ok h -> building_ok (set_member_suspended reference b reason h).1.
Proof.
  intros Hb. unfold set_member_suspended. destruct (List.find _ _) as [token|]; [|done].
  destruct (negb b).
  { destruct (run_store _ _) as [h1 w] eqn:E. apply run_store_state in E as [-> _].
    by eapply building_ok_same, Hb; [|constructor]. }
  stored; cbn [fst]; [|by eapply building_ok_same, Hb; [|constructor]].
  destruct t; cbn [fst]; [|by eapply building_ok_same, Hb; [|constructor]].
  set (h1 := with_h_store _ h). set (davets := davets_where _ h1).
  apply (building_ok_same (foldl (fun h inv => close_connections (inv_room inv) (inv_name inv) h)
    (drop_davets davets h1) davets)); [done|by constructor|]. apply close_all_building.
  apply (building_ok_same h1); [done|apply drop_davets_outer|].
  by eapply building_ok_same, Hb; [|constructor].
Qed.

Lemma building_ok_davets h h' :
  h_rooms h' = h_rooms h -> h_default_settings h' = h_default_settings h ->
  h_deleted h' = h_deleted h -> h_home_room h' = h_home_room h ->
  davets_inv h' -> building_ok h -> building_ok h'.
Proof.
  intros Hr Hd Hdel Hh Hi [Ho _ Hs Hse]. constructor; try done.
  - intros n r. rewrite Hr. apply Ho.
  - by rewrite Hd.
  - intros n. unfold is_deleted. rewrite Hdel, Hh, Hr. apply Hse.
Qed.

Lemma invite_building member room by_ h :
  building_ok h -> building_ok (invite_member_to_room member room by_ h).1.
Proof.
  intros Hb. pose proof (invite_davets_ok member room by_ h (bo_davets _ Hb)) as Hi. eapply building_ok_davets, Hb; [..|exact Hi]; clear Hi;
    unfold invite_member_to_room; destruct (is_deleted h room); try done;
    destruct (negb _ && _); try done; destruct (member_of h _); try done;
    destruct (_ && _); try done; destruct (has_active_invite _ _ _); try done;
    destruct (_ <=? _)%nat; try done; cbn [new_invite_token secure_token];
    unfold add_invite, secure_token; destruct (_ && _); try done; cbn;
    destruct (is_deleted _ _); try done; stored; done.
Qed.

Lemma admit_member_building name kind by_ h :
  building_ok h -> building_ok (admit_member name kind by_ h).1.
Proof.
  intros Hb. unfold admit_member. destruct (member_by_name _ _); [done|].
  cbn [new_invite_token secure_token]. unfold new_invite_token, secure_token. cbn.
  stored; cbn [fst]; [|by eapply building_ok_same, Hb; [|constructor]].
  eapply building_ok_davets, Hb; try done. destruct (bo_davets _ Hb) as [Hk Hm Hc Hs].
  constructor; try done. cbn. intros tok m [[<- <-]|[_ Hm']]%lookup_insert_Some; [done|].
  by apply Hm.
Qed.

(** *** Moderation, sealing, expiry *)

Lemma moderate_store_building room action name h :
  building_ok h -> building_ok (moderate_store room action name h).1.
Proof.
  intros Hb. assert (Hst : forall (f : St -> St * dbres unit), building_ok (run_store f h).1).
  { intros f. destruct (run_store f h) as [h1 w] eqn:E. apply run_store_state in E as [-> _].
    by eapply building_ok_same, Hb; [|constructor]. }
  destruct action; cbn [moderate_store]; try apply Hst; try by apply revoke_invites_for_building.
  destruct (run_store _ h) as [h1 w] eqn:E. specialize (Hst (set_ban room name "ban" (h_clock h))).
  rewrite E in Hst. destruct w; [by apply revoke_invites_for_building|done].
Qed.

Lemma drop_seats_inv name r : seats_inv r -> seats_inv (drop_seats name r).
Proof.
  intros [Hc Hn]. constructor; cbn.
  - etrans; [apply map_subseteq_size, map_filter_subseteq|done].
  - intros i n k c [Hi _]%map_lookup_filter_Some. by eapply Hn.
Qed.

Lemma moderate_room_same action name r :
  same_but PSeats r (moderate_room action name r) /\
  (seats_inv r -> seats_inv (moderate_room action name r)).
Proof.
  split.
  - destruct action; same_parts.
  - intros Hs. pose proof (drop_seats_inv name r Hs) as Hd.
    destruct action; cbn; first [by eapply seats_inv_ext, Hd|by eapply seats_inv_ext, Hs].
Qed.

Lemma moderate_store_outer room action name h :
  h_deleted (moderate_store room action name h).1 = h_deleted h /\
  h_home_room (moderate_store room action name h).1 = h_home_room h.
Proof.
  assert (Hrev : forall h0, h_deleted (revoke_invites_for room name h0).1 = h_deleted h0 /\
    h_home_room (revoke_invites_for room name h0).1 = h_home_room h0).
  { intros h0. unfold revoke_invites_for. destruct (davets_where _ h0) as [|x l]; [done|].
    stored; [|done]. destruct (retire_davets_outer (x :: l) (drop_davets (x :: l)
      (with_h_store (store_revoke_invites_for room name (h_clock h0) (h_store h0)).1 h0))).
    cbn [fst]. by rewrite ol_deleted0, ol_home0. }
  destruct action; cbn [moderate_store]; try apply Hrev; try (stored; done).
  stored; [|done]. apply (Hrev (with_h_store _ h)).
Qed.

Lemma moderate_building room action name h :
  building_ok h -> building_ok (moderate room action name h).1.
Proof.
  intros Hb. unfold moderate. destruct (is_deleted h room) eqn:Hdel; [done|].
  pose proof (moderate_store_building room action name h Hb) as Hb1.
  destruct (moderate_store_outer room action name h) as [Hd Hh].
  destruct (moderate_store room action name h) as [h1 [?|]]; [|done]. cbn [fst] in *.
  rewrite entry_room_mut. unfold room_mut. rewrite put_room_put_room.
  destruct (moderate_room_same action name (entry_room room h1)) as [Hs Hseats].
  apply (one_room_ok PSeats room h1); [| |intros _|done].
  - constructor; [by constructor|intros ? ?; rooms_of_one|right].
    eexists. split; [rooms_of_one|done].
  - left. unfold is_deleted in *. by rewrite Hd, Hh.
  - apply all_rooms_put; [by apply building_parts|]. apply Hseats. by apply building_entry.
Qed.

Lemma delete_room_building room h : building_ok h -> building_ok (delete_room room h).1.
Proof.
  intros Hb. unfold delete_room. destruct (h_rooms h !! room) as [r|] eqn:Hr; [|done].
  destruct (negb _); [done|]. stored; cbn [fst]; [|by eapply building_ok_same, Hb; [|constructor]].
  destruct Hb as [Hrooms Hd Hs Hse]. constructor.
  - intros n r' Hr'. cbn in Hr'. apply lookup_delete_Some in Hr' as [_ Hr']. by eapply Hrooms.
  - by eapply davets_inv_ext, Hd.
  - done.
  - intros n. unfold is_deleted. cbn. rewrite andb_true_iff, negb_true_iff, bool_decide_eq_true.
    intros [Hhome Hn]. apply lookup_delete_None. destruct (decide (room = n)) as [|Hne]; [by left|].
    right. apply Hse. unfold is_deleted. rewrite Hhome. apply bool_decide_eq_true_2. set_solver.
Qed.

Lemma expire_room_live_one now h n : one_room PConf n h (expire_room_live now h n).
Proof.
  unfold expire_room_live. destruct (h_rooms h !! n) as [r|] eqn:Hr; [|one_room_refused].
  destruct (live_expired now r); [|one_room_refused]. stored;
    (constructor; [by constructor|intros ? ?; rooms_of_one|right]; eexists;
     split; [rooms_of_one|]; rewrite (entry_room_Some _ _ _ Hr); same_parts).
Qed.

Lemma settings_ok_live b s : settings_ok s -> settings_ok (with_rs_live b s).
Proof. intros [? ? ? ? ? ?]. by constructor. Qed.

Lemma expire_room_live_building now h n : building_ok h -> building_ok (expire_room_live now h n).
Proof.
  intros Hb. destruct (h_rooms h !! n) as [r|] eqn:Hr;
    [|unfold expire_room_live; by rewrite Hr].
  apply (one_room_ok PConf n h); [apply expire_room_live_one|right; eauto| |done].
  intros _. pose proof (bo_rooms _ Hb _ _ Hr) as [Hw _ _ _ [Hs Hm]].
  assert (Hall : all_rooms (part_ok PConf) h)
    by (intros m rm Hrm; destruct (bo_rooms _ Hb _ _ Hrm); by split).
  unfold expire_room_live. rewrite Hr. destruct (live_expired now r); [|done].
  stored; apply all_rooms_put; try done; (split; [split; cbn; [|done]|]).
  - by apply settings_ok_live.
  - by eapply work_inv_ext, Hw.
  - by do 2 apply settings_ok_live.
  - by eapply work_inv_ext, Hw.
Qed.

Lemma expire_live_building h : building_ok h -> building_ok (expire_live h).
Proof.
  intros Hb. unfold expire_live. generalize (keys (h_rooms h)). intros l.
  assert (Hl : forall h1, building_ok h1 -> building_ok (foldl (expire_room_live (h_clock h)) h1 l)).
  { induction l as [|n l IH]; intros h1 Hb1; [done|]. by apply IH, expire_room_live_building. }
  by apply Hl.
Qed.

Lemma create_loca_building room actor h :
  building_ok h -> building_ok (create_loca room actor h).1.
Proof.
  intros Hb. unfold create_loca. destruct (negb _); [done|].
  destruct (is_deleted h room) eqn:Hdel; [done|]. unfold room_exists.
  destruct (h_rooms h !! room) as [r|] eqn:Hr; [done|].
  destruct (if is_persistent _ && _ then _ else _) as [h1 a] eqn:E.
  assert (exists s, h1 = with_h_store s h) as [s ->].
  { assert (Hid : h = with_h_store (h_store h) h) by by destruct h.
    destruct (_ && _); [destruct (ra_principal_id actor); [|injection E as <- _; eauto]|];
      destruct (run_store _ h) as [h2 w] eqn:Es; apply run_store_state in Es as [-> _];
      injection E as <- _; eauto. }
  destruct a; cbn [fst]; [|by eapply building_ok_same, Hb; [|constructor]].
  apply (one_room_ok PNone room h); [|by left|intros _ ? ? ?; exact I|done].
  constructor; [by constructor|intros ? ?; rooms_of_one|right].
  eexists. split; [rooms_of_one|]. unfold entry_room. rewrite Hr. apply same_but_refl.
Qed.
End facts.
