(* ===== verification/Building.v ===== *)
(** * The invariant of the whole server

    Every operation of [Server.op] preserves [building_ok], and no operation
    unseals a room. *)

From Stdlib Require Import Ascii.
From S2P Require Import Prelude Text Net Protocol StoreApi Hub Ledger Work WorkFacts Waits WaitFacts.
From S2P Require Import Seats Attention Chat ChatFacts Access Membership AccessFacts Joins.
From S2P Require Import Rooms RoomFacts Scheduler SchedulerFacts Memory WikiOps Attachments.
From S2P Require Import Server ServerFacts.

Section facts.
Context {St : Type} `{Unicode} `{Csprng} `{Digest} `{StoreBase St} `{MessageStore St}
  `{WorkStore St} `{CareStore St} `{RoomStore St} `{IdentityStore St} `{OperatorStore St}
  `{AdmissionStore St} `{CredentialStore St}.
Implicit Types h : Hub St.

#[local] Existing Instances outer_le_refl outer_le_trans.

(** What every operation leaves alone. *)
Record kept h h' : Prop := {
  kp_home : h_home_room h' = h_home_room h;
  kp_deleted : h_deleted h ⊆ h_deleted h';
}.

#[local] Instance kept_refl : Reflexive kept.
Proof. by constructor. Qed.
#[local] Instance kept_trans : Transitive kept.
Proof. intros h1 h2 h3 [? ?] [? ?]. constructor; [congruence|set_solver]. Qed.

Lemma kept_outer h h' : outer_le h h' -> kept h h'.
Proof. intros [? Hd Hh ? ?]. constructor; [done|by rewrite Hd]. Qed.

Lemma kept_same h h' : h_home_room h' = h_home_room h -> h_deleted h' = h_deleted h -> kept h h'.
Proof. intros Hh Hd. constructor; [done|by rewrite Hd]. Qed.

(** ** Posting *)

Lemma next_generation_outer now k h h' g :
  next_condition_generation now k h = (h', g) -> outer_le h h'.
Proof. intros ->%next_condition_generation_state. by constructor. Qed.

Lemma publish_summon_outer room home h sig : outer_le h (publish_summon room home h sig).
Proof. unfold publish_summon. destruct home; by constructor. Qed.

Lemma publish_summons_outer room home sigs h :
  outer_le h (foldl (publish_summon room home) h sigs).
Proof.
  revert h. induction sigs as [|s sigs IH]; intros h; [reflexivity|]. cbn [foldl].
  etransitivity; [apply publish_summon_outer|apply IH].
Qed.

Lemma wait_wake_outer room r msg summons now h h' w :
  wait_wake room r msg summons now h = (h', w) -> outer_le h h'.
Proof.
  unfold wait_wake. destruct (answered_wait r msg summons) as [[target existing]|];
    [|by intros [= <- _]].
  destruct (next_condition_generation _ _ _) as [h1 g] eqn:Hg.
  apply next_generation_outer in Hg. cbn. intros [= <- _]. etransitivity; [exact Hg|by constructor].
Qed.

Lemma deliver_post_outer room home adm operation now msg h :
  outer_le h (deliver_post room home adm operation now msg h).1.
Proof.
  unfold deliver_post. destruct (wait_wake _ _ _ _ _ _) as [h1 wake] eqn:Hw.
  apply wait_wake_outer in Hw. destruct (advance_turn _ _) as [mode turn].
  destruct (run_store _ _) as [h2 w] eqn:Hs. apply run_store_state in Hs as [-> _].
  destruct w; cbn [fst]; [|etransitivity; [exact Hw|by constructor]].
  set (h3 := put_room room _ _). assert (Hw3 : outer_le h h3).
  { etransitivity; [exact Hw|by constructor]. }
  destruct (decide (room = h_home_room h3)); destruct wake as [[u sig]|]; cbn zeta.
  all: try (etransitivity; [exact Hw3|]; by constructor).
  - etransitivity; [exact Hw3|]. etransitivity; [apply publish_summons_outer|by constructor].
  - etransitivity; [exact Hw3|]. apply publish_summons_outer.
Qed.

Lemma post_outer room body adm p h : outer_le h (post room body adm p h).1.
Proof.
  unfold post. destruct (is_deleted h room); [done|].
  destruct (match _ <$> _ with Some _ => _ | None => _ end) as [[?|]|]; [done| |done].
  destruct (cited_attachments _ _ _) as [atts|]; [|done].
  unfold post_in_room. destruct (_ ≫= _); [by constructor|].
  destruct (rs_archived _); [by constructor|].
  destruct (post_gate _ _ _); [by constructor|].
  destruct (rate_check _ _ _ _) as [r [rej|]]; [by constructor|].
  destruct (reply_owner _ _ _ _ _); [|by constructor].
  destruct (build_message _ _ _ _ _ _) as [h1 msg] eqn:Hb.
  unfold build_message in Hb. cbn [fetch_next_id] in Hb.
  destruct (next_condition_generation _ _ _) as [h2 ts] eqn:Hg.
  apply next_generation_outer in Hg. injection Hb as <- _.
  etransitivity; [|apply deliver_post_outer]. etransitivity; [|exact Hg]. by constructor.
Qed.

(** A wait keeps its parties when only its marks are renewed. *)
Lemma waits_inv_renew r x w w' :
  r_waits r !! x = Some w -> wait_waiter w' = x -> wait_waiting_for w' = wait_waiting_for w ->
  waits_inv r -> waits_inv (with_r_waits (<[x := w']> (r_waits r)) r).
Proof.
  intros Hw Hx Hfor Hr. destruct (Hr x w Hw) as [_ Hne]. rewrite <- Hx at 1.
  apply waits_inv_insert; [done|]. congruence.
Qed.

Lemma room_ok_post_after r r' : post_after r r' -> ops_inv r' -> room_ok r -> room_ok r'.
Proof.
  intros [Em Es Eg Et Ew Emode] Hops [Iw Ia Is Io [Ic Im]]. constructor; [..|done|].
  - eapply work_inv_ext; [exact Eg|exact Et|by rewrite Es|done].
  - destruct Ew as [E|(x & e & u & He & E & Hx & Hfor)]; [exact (waits_inv_ext _ _ E Ia)|].
    apply (waits_inv_ext (with_r_waits (<[x := u]> (r_waits r)) r)); [exact E|].
    by apply (waits_inv_renew r x e u).
  - by eapply seats_inv_ext.
  - split; [by rewrite Es|]. destruct Emode as [->|[sender ->]]; [done|by apply advance_turn_ok].
Qed.

Lemma post_building room body adm p h :
  building_ok h -> building_ok (post room body adm p h).1.
Proof.
  intros Hb. destruct (is_deleted h room) eqn:Hdel; [unfold post; by rewrite Hdel|].
  pose proof (post_ops_ok room body adm p h ltac:(by apply building_parts)) as Hops.
  apply (building_ok_step (fun _ r r' => post_after r r' /\ ops_inv r') h);
    [apply post_outer| |intros n r r' [? ?]; by apply room_ok_post_after|done].
  destruct (post room body adm p h) as [h' res] eqn:E. cbn [fst] in *. intros n r' Hr'.
  pose proof (Hops n r' Hr') as Ho.
  destruct (post_room_after _ _ _ _ _ _ _ _ _ E Hr') as (r & Hr & Ha).
  destruct Hr as [Hr|[-> ->]]; [left; eauto|right; done].
Qed.

(** ** The scheduler *)

Lemma quiet_outer h h' : quiet h h' -> outer_le h h'.
Proof. intros (s & k & ->). by constructor. Qed.

Lemma emission_step_room_ok now r r' : emission_step now r r' -> room_ok r -> room_ok r'.
Proof.
  intros [|x w Hw _|key _] Hr;
    [done| |by apply (room_ok_same_but PNone r); [same_parts|..]].
  apply (room_ok_same_but PWaits r); [same_parts| |done].
  apply (waits_inv_renew r x w); [done| |done|apply Hr].
  by destruct (ro_waits r Hr x w Hw).
Qed.

Lemma tick_room_building h p n : building_ok h -> building_ok (tick_room (h, p) n).1.
Proof.
  intros Hb. unfold tick_room. destruct (h_rooms h !! n) as [r|] eqn:Hr; [|done].
  destruct (rs_archived _); [done|].
  destruct (room_emission _ _ _ _) as [h1 e] eqn:He. apply room_emission_ok in He as [Hq Hok].
  pose proof (building_ok_same _ _ (quiet_rooms _ _ Hq) (quiet_outer _ _ Hq) Hb) as Hb1.
  destruct e as [[r1 sigs]|]; [|done]. cbn [fst].
  destruct (Hok _ eq_refl) as [Hstep _]. cbn in Hstep.
  apply (building_ok_step (fun _ => emission_step (h_clock h)) h1); [by constructor| | |done].
  - intros m r'. cbn. intros [[<- <-]|[_ Hm]]%lookup_insert_Some; left.
    + exists r. by rewrite (quiet_rooms _ _ Hq).
    + exists r'. split; [done|constructor].
  - intros _ r2 r'. apply emission_step_room_ok.
Qed.

Lemma tick_room_outer h p n : outer_le h (tick_room (h, p) n).1.
Proof.
  unfold tick_room. destruct (h_rooms h !! n) as [r|]; [|done]. destruct (rs_archived _); [done|].
  destruct (room_emission _ _ _ _) as [h1 e] eqn:He. apply room_emission_ok in He as [Hq _].
  pose proof (quiet_outer _ _ Hq). destruct e as [[r1 sigs]|]; [|done].
  cbn [fst]. etransitivity; [done|by constructor].
Qed.

Lemma deliver_care_outer sig b h h' ok : deliver_care sig b h = (h', ok) -> outer_le h h'.
Proof.
  unfold deliver_care. destruct (sig_owner sig); [|by intros [= <- _]].
  destruct (if b then _ else _) as [h2 w] eqn:Hq.
  assert (outer_le h h2) as Ho.
  { destruct b; [by injection Hq as <- _|]. eapply quiet_outer, run_store_quiet, Hq. }
  destruct w; intros [= <- _]; [|done]. etransitivity; [exact Ho|by constructor].
Qed.

Lemma publish_care_signal_outer src sig b h : outer_le h (publish_care_signal src sig b h).
Proof.
  unfold publish_care_signal. destruct (_ || _); [done|].
  destruct (deliver_care sig b h) as [h1 ok] eqn:Hd. apply deliver_care_outer in Hd.
  destruct ok; [|done]. cbn [negb]. etransitivity; [exact Hd|].
  destruct (h_rooms h1 !! src); destruct (_ && _); by constructor.
Qed.

Lemma publish_care_signal_building src sig b h :
  building_ok h -> building_ok (publish_care_signal src sig b h).
Proof.
  intros Hb. apply (building_ok_step (fun _ => publish_eq) h);
    [apply publish_care_signal_outer| | |done].
  - intros n r' Hr'. destruct (h_rooms h !! n) as [r|] eqn:Hr.
    { destruct (publish_care_signal_ok src sig b h n r Hr) as (r2 & Hr2 & [Hp _] & _).
      rewrite Hr2 in Hr'. injection Hr' as <-. eauto. }
    right. unfold publish_care_signal in Hr'. destruct (_ || _); [congruence|].
    destruct (deliver_care sig b h) as [h1 ok] eqn:Hd.
    pose proof (deliver_care_outer _ _ _ _ _ Hd) as [Hdef _ _ _ _].
    apply deliver_care_rooms in Hd as [Hrooms Hhome].
    destruct ok; cbn [negb] in Hr'; [|congruence].
    set (h2 := match h_rooms h1 !! src with Some _ => _ | None => _ end) in Hr'.
    assert (Hh2 : h_rooms h2 !! n = None /\ h_home_room h2 = h_home_room h /\
      h_default_settings h2 = h_default_settings h).
    { subst h2. destruct (h_rooms h1 !! src) as [s|] eqn:Hs; [|by rewrite Hrooms].
      cbn. rewrite lookup_insert_ne, Hrooms; [done|]. intros ->. rewrite Hrooms in Hs. congruence. }
    destruct Hh2 as (Hn & Hhome2 & Hdef2). destruct (_ && _); [|congruence].
    cbn in Hr'. rewrite !Hhome2 in Hr'. destruct (decide (h_home_room h = n)) as [Heq|Hne];
      [|rewrite !lookup_insert_ne in Hr' by done; congruence].
    rewrite Heq, lookup_insert_eq in Hr'. injection Hr' as <-. split.
    + unfold is_deleted. by rewrite bool_decide_eq_true_2.
    + unfold entry_room. cbn. rewrite lookup_insert_eq, Hr. unfold entry_room. rewrite Hn, Hdef2.
      by do 2 eexists.
  - intros _ r r' (tx & a & ->). by apply (room_ok_same_but PNone r); [same_parts|..].
Qed.

Lemma tick_rooms_building l h p :
  building_ok h ->
  building_ok (foldl tick_room (h, p) l).1 /\ outer_le h (foldl tick_room (h, p) l).1.
Proof.
  revert h p. induction l as [|n l IH]; intros h p Hb; cbn [foldl]; [done|].
  pose proof (tick_room_building h p n Hb) as Hb1. pose proof (tick_room_outer h p n) as Ho1.
  destruct (tick_room (h, p) n) as [h1 p1]. destruct (IH h1 p1 Hb1) as [Hb2 Ho2].
  split; [done|by etransitivity].
Qed.

Lemma publish_all_building (pending : list (string * CareSignal)) h :
  building_ok h ->
  building_ok (foldl (fun h p => publish_care_signal p.1 p.2 true h) h pending) /\
  outer_le h (foldl (fun h p => publish_care_signal p.1 p.2 true h) h pending).
Proof.
  revert h. induction pending as [|[src sig] l IH]; intros h Hb; cbn [foldl]; [done|].
  destruct (IH _ (publish_care_signal_building src sig true h Hb)) as [Hb2 Ho2].
  split; [done|]. etransitivity; [apply publish_care_signal_outer|exact Ho2].
Qed.

Lemma tick_care_building h :
  building_ok h -> building_ok (tick_care h) /\ outer_le h (tick_care h).
Proof.
  intros Hb. unfold tick_care. destruct (tick_rooms_building (keys (h_rooms h)) h [] Hb) as [Hb1 Ho1].
  destruct (foldl tick_room _ _) as [h1 pending]. cbn [fst] in *.
  destruct (publish_all_building pending h1 Hb1) as [Hb2 Ho2]. split; [done|by etransitivity].
Qed.

(** ** Running a room *)

Lemma set_lead_work_ok room lead by_ h :
  building_ok h -> all_rooms (part_ok PConf) (set_lead room lead by_ h).1.
Proof.
  intros Hb. assert (Hall : all_rooms (part_ok PConf) h)
    by (intros m rm Hrm; destruct (bo_rooms _ Hb _ _ Hrm); by split).
  unfold set_lead. destruct (is_deleted h room); [done|].
  destruct (_ && _) eqn:Hlead; [done|]. cbn [fetch_next_id]. stored; [|done]. cbn [fst].
  rewrite entry_room_mut. unfold room_mut. rewrite put_room_put_room.
  apply all_rooms_put; [done|]. set (r0 := entry_room _ _).
  assert (Hr0 : r0 = entry_room room h) by done. clearbody r0. subst r0.
  pose proof (building_entry h room Hb) as [Hw _ _ _ [[? ? ? ? ? ?] Hm]].
  assert (Hset : settings h room = r_settings (entry_room room h)).
  { unfold settings, entry_room. by destruct (h_rooms h !! room). }
  rewrite Hset. split; [split; [by constructor|done]|].
  destruct Hw as [W1 W2 W3 W4 W5 W6 W7 W8 W9]. constructor; try done.
  cbn. intros i g Hg Hact ->. rewrite bool_decide_eq_true_2 in Hlead by done. cbn in Hlead.
  unfold entry_room in Hg. destruct (h_rooms h !! room) as [r|]; [|done].
  apply not_true_iff_false in Hlead. apply Hlead. apply any_value_true. exists i, g.
  split; [done|]. unfold goal_is_active. by rewrite Hact.
Qed.

Lemma set_mode_parts room m h :
  building_ok h -> all_rooms (part_ok PConf) (set_mode room m h).1.
Proof.
  intros Hb. assert (Hall : all_rooms (part_ok PConf) h)
    by (intros n rm Hrm; destruct (bo_rooms _ Hb _ _ Hrm); by split).
  pose proof (building_entry h room Hb) as [Hw _ _ _ [Hs Hm]].
  assert (He : part_ok PConf (entry_room room h)) by by split; [split|].
  unfold set_mode. destruct (is_deleted h room); [done|]. rewrite entry_room_mut. stored; cbn [fst].
  - unfold room_mut. apply all_rooms_put; [by apply all_rooms_put|].
    split; [split; [done|apply normalize_mode_ok]|by eapply work_inv_ext, Hw].
  - by apply all_rooms_put.
Qed.

Lemma set_settings_parts room req h :
  building_ok h -> all_rooms (part_ok PConf) (set_settings room req h).1.
Proof.
  intros Hb. assert (Hall : all_rooms (part_ok PConf) h)
    by (intros n rm Hrm; destruct (bo_rooms _ Hb _ _ Hrm); by split).
  pose proof (building_entry h room Hb) as [Hw _ _ _ [Hs Hm]].
  assert (He : part_ok PConf (entry_room room h)) by by split; [split|].
  unfold set_settings. destruct (is_deleted h room); [done|]. rewrite entry_room_mut.
  stored; cbn [fst]; [|by apply all_rooms_put].
  unfold room_mut. apply all_rooms_put; [by apply all_rooms_put|].
  destruct (_ && _), (bool_decide _);
    (split; [split; [by apply merge_settings_ok|done]|by eapply work_inv_ext, Hw]).
Qed.

(** ** Every operation *)

Definition step_ok h h' : Prop := building_ok h' /\ kept h h'.

(** An operation on one room that leaves a sealed room alone. *)
Lemma one_room_step p room h h' :
  one_room p room h h' -> (is_deleted h room = true -> h_rooms h !! room = None -> h' = h) ->
  (building_ok h -> all_rooms (part_ok p) h') -> building_ok h -> step_ok h h'.
Proof.
  intros Hone Hsealed Hp Hb. split; [|apply kept_outer, Hone].
  destruct (is_deleted h room) eqn:Hdel.
  - by rewrite (Hsealed eq_refl (bo_sealed _ Hb _ Hdel)).
  - by eapply one_room_ok, Hb; [|left|].
Qed.

Lemma none_part h : building_ok h -> all_rooms (part_ok PNone) h.
Proof. by intros _ n r _. Qed.

Lemma writable_step {A} p room (f : Hub St -> Hub St * A) h :
  one_room p room h (f h).1 -> (building_ok h -> all_rooms (part_ok p) (f h).1) ->
  building_ok h -> step_ok h (when_writable room f h).
Proof.
  intros Hone Hp Hb. unfold when_writable. destruct (is_writable h room) eqn:Hw; [|done].
  apply is_writable_true in Hw as [Hdel _].
  eapply one_room_step, Hb; [exact Hone| |exact Hp]. congruence.
Qed.

(** Nothing of the invariant is touched. *)
Definition calm h h' : Prop := h_rooms h' = h_rooms h /\ outer_le h h'.

#[local] Instance calm_refl : Reflexive calm.
Proof. by split. Qed.
#[local] Instance calm_trans : Transitive calm.
Proof. intros h1 h2 h3 [E1 O1] [E2 O2]. split; [congruence|by etransitivity]. Qed.

Lemma calm_step h h' : calm h h' -> building_ok h -> step_ok h h'.
Proof.
  intros [Hr Ho] Hb. split; [by eapply building_ok_same|by apply kept_outer].
Qed.

Lemma run_store_calm {A} (f : St -> St * A) h h' a : run_store f h = (h', a) -> calm h h'.
Proof. intros [-> _]%run_store_state. by split; [|constructor]. Qed.

Ltac calm := first [done|by split; [|constructor]].

Lemma session_identity_calm token h : calm h (session_identity token h).1.
Proof.
  unfold session_identity. destruct token as [t|]; [|done].
  destruct (h_sessions h !! t); [|done]. destruct (_ && _ && _); [calm|].
  destruct (_ && _); [|done]. destruct (sess_admin _); [|calm].
  destruct (run_store _ _) as [h1 w] eqn:E. apply run_store_calm in E.
  etransitivity; [|exact E]. calm.
Qed.

Lemma maybe_store_calm {A} (b : bool) (f : St -> St * A) x h h' a :
  (if b then run_store f h else (h, x)) = (h', a) -> calm h h'.
Proof. destruct b; [apply run_store_calm|by intros [= <- _]]. Qed.

Ltac maybe_stored h1 Hc :=
  lazymatch goal with
  | |- context [if ?b then run_store ?f ?h else (?h, ?x)] =>
      destruct (if b then run_store f h else (h, x)) as [h1 [[]|]] eqn:Hc;
      apply maybe_store_calm in Hc
  end.

Lemma revoke_session_calm token h : calm h (revoke_session token h).1.
Proof.
  unfold revoke_session. maybe_stored h1 Hc; [|exact Hc].
  destruct (run_store _ h1) as [h2 w] eqn:E2. apply run_store_calm in E2.
  assert (calm h h2) by by etransitivity. destruct w; [|done]. cbn [fst].
  etransitivity; [done|calm].
Qed.

Lemma create_session_calm req davet grant h : calm h (create_session_scoped req davet grant h).1.
Proof.
  unfold create_session_scoped. cbn [fetch_next_id secure_token].
  unfold fetch_next_id, secure_token. cbn beta iota zeta.
  set (h0 := with_h_entropy _ _). assert (calm h h0) as Hc0 by calm. clearbody h0.
  set (identity := match davet with Some _ => _ | None => _ end). clearbody identity.
  maybe_stored h1 Hc1; assert (calm h h1) as Hc by (by etransitivity); [|exact Hc].
  set (credential := match davet with Some _ => _ | None => _ end).
  clearbody credential.
  destruct (sess_principal_id identity), credential;
    [destruct (run_store _ h1) as [h2 w] eqn:E2; apply run_store_calm in E2|..];
    try (cbn [fst]; etransitivity; [exact Hc|calm]).
  assert (calm h h2) as Hc2 by by etransitivity.
  destruct w; [|done]. cbn [fst]. etransitivity; [exact Hc2|calm].
Qed.

Lemma operator_calm room target actor h :
  calm h (appoint_loca_operator room target actor h).1 /\
  calm h (revoke_loca_operator room actor h).1.
Proof.
  split.
  - unfold appoint_loca_operator. destruct (negb _); [done|].
    destruct (ra_principal_id actor); [|done].
    destruct (run_store _ _) as [h1 w] eqn:E. by apply run_store_calm in E.
  - unfold revoke_loca_operator. destruct (negb _); [done|].
    destruct (ra_principal_id actor); [|done]. destruct (loca_operator _ _); [|done].
    destruct (_ && _); [done|].
    destruct (run_store _ _) as [h1 w] eqn:E. by apply run_store_calm in E.
Qed.

Lemma smaster_calm name token h :
  calm h (add_smaster name h).1 /\ calm h (revoke_smaster token h).1.
Proof.
  split.
  - unfold add_smaster, new_invite_token, secure_token. cbn beta iota zeta. stored; calm.
  - unfold revoke_smaster. case_bool_decide; [done|]. stored; calm.
Qed.

Lemma pairing_calm ttl candidate h :
  calm h (rotate_admin_pairing_for ttl h).1 /\ calm h (consume_admin_pairing candidate h).1.
Proof.
  split.
  - unfold rotate_admin_pairing_for. destruct (str_is_empty _); calm.
  - unfold consume_admin_pairing. destruct (str_is_empty _); [calm|].
    destruct (_ <=? _)%N; [calm|]. destruct (negb _); calm.
Qed.

Lemma report_health_calm name update h : calm h (report_runtime_health name update h).1.
Proof. unfold report_runtime_health. destruct (_ || _ || _ || _); calm. Qed.

Lemma join_rate_calm ip h : calm h (join_request_rate_ok ip h).1.
Proof. unfold join_request_rate_ok. destruct (_ <=? _)%nat; calm. Qed.

Lemma lobby_calm member h : calm h (lobby_join member h) /\ calm h (lobby_leave member h).
Proof.
  split; [calm|]. unfold lobby_leave. destruct (h_lobby_online h !! member); calm.
Qed.

(** *** What stays, for the operations on davets *)

Ltac kept_done := first [done|by apply kept_same].

Lemma retire_davets_kept l h h1 : kept h h1 -> kept h (foldl retire_davet h1 l).
Proof. intros Hk. etransitivity; [exact Hk|]. apply kept_outer, retire_davets_outer. Qed.

Lemma drop_davets_kept l h : kept h (drop_davets l h).
Proof. apply kept_outer, drop_davets_outer. Qed.

Lemma retire_dropped_kept l h h1 :
  kept h h1 -> kept h (foldl retire_davet (drop_davets l h1) l).
Proof. intros Hk. apply retire_davets_kept. etransitivity; [exact Hk|apply drop_davets_kept]. Qed.

Lemma close_all_kept l h :
  kept h (foldl (fun h inv => close_connections (inv_room inv) (inv_name inv) h) h l).
Proof.
  revert h. induction l as [|inv l IH]; intros h; [done|]. cbn [foldl].
  etransitivity; [|apply IH]. unfold close_connections. destruct (h_rooms h !! _); kept_done.
Qed.

Lemma revoke_invites_for_kept room name h : kept h (revoke_invites_for room name h).1.
Proof.
  unfold revoke_invites_for. destruct (davets_where _ h) as [|i l]; [done|].
  stored; cbn [fst]; [|kept_done]. apply (retire_dropped_kept (i :: l)). kept_done.
Qed.

Lemma revoke_invite_kept token h : kept h (revoke_invite token h).1.
Proof.
  unfold revoke_invite. destruct (h_invites h !! token) as [inv|]; [|done].
  stored; cbn [fst]; [|kept_done]. apply (retire_davets_kept [inv]). kept_done.
Qed.

Lemma revoke_member_kept token h : kept h (revoke_member token h).1.
Proof.
  unfold revoke_member. case_bool_decide; [done|]. stored; cbn [fst]; [|kept_done].
  set (h1 := with_h_store _ h). set (davets := davets_where _ h1).
  transitivity (foldl retire_davet (drop_davets davets h1) davets); [|kept_done].
  apply retire_dropped_kept. kept_done.
Qed.

Lemma set_member_suspended_kept reference b reason h :
  kept h (set_member_suspended reference b reason h).1.
Proof.
  unfold set_member_suspended. destruct (List.find _ _) as [token|]; [|done].
  destruct (negb b).
  { destruct (run_store _ _) as [h1 w] eqn:E. apply run_store_state in E as [-> _]. kept_done. }
  stored; cbn [fst]; [|kept_done]. destruct t; cbn [fst]; [|kept_done].
  set (h1 := with_h_store _ h). set (davets := davets_where _ h1).
  transitivity (drop_davets davets h1);
    [etransitivity; [|apply drop_davets_kept]; kept_done|].
  etransitivity; [apply close_all_kept|kept_done].
Qed.

Lemma admit_member_kept name kind by_ h : kept h (admit_member name kind by_ h).1.
Proof.
  unfold admit_member. destruct (member_by_name _ _); [done|].
  unfold new_invite_token, secure_token. cbn beta iota zeta. stored; kept_done.
Qed.

Lemma invite_kept member room by_ h : kept h (invite_member_to_room member room by_ h).1.
Proof.
  unfold invite_member_to_room. destruct (is_deleted h room); [done|].
  destruct (negb _ && _); [done|]. destruct (member_of h _); [|done].
  destruct (_ && _); [done|]. destruct (has_active_invite _ _ _); [done|].
  destruct (_ <=? _)%nat; [done|]. unfold add_invite, new_invite_token, secure_token.
  cbn beta iota zeta. destruct (_ && _); [kept_done|].
  cbn. destruct (is_deleted _ _); [kept_done|]. stored; kept_done.
Qed.

Lemma ack_care_kept sid owner pid h : kept h (ack_care sid owner pid h).1.
Proof.
  unfold ack_care. destruct (match h_care_deliveries h !! sid with Some _ => _ | None => _ end);
    [|done]. destruct (negb _); [done|]. stored; cbn [fst]; [|kept_done].
  destruct (_ || _); [|kept_done]. cbn [fst].
  unfold mark_delivered. destruct (find_attention _ _) as [[? ?]|]; kept_done.
Qed.

Lemma moderate_kept room action name h : kept h (moderate room action name h).1.
Proof.
  unfold moderate. destruct (is_deleted h room); [done|].
  destruct (moderate_store_outer room action name h) as [Hd Hh].
  destruct (moderate_store room action name h) as [h1 [?|]]; by apply kept_same.
Qed.

Lemma delete_room_kept room h : kept h (delete_room room h).1.
Proof.
  unfold delete_room. destruct (h_rooms h !! room); [|done]. destruct (negb _); [done|].
  stored; [|kept_done]. constructor; [done|]. cbn. set_solver.
Qed.

Lemma create_loca_kept room actor h : kept h (create_loca room actor h).1.
Proof.
  unfold create_loca. destruct (negb _); [done|]. destruct (is_deleted h room); [done|].
  destruct (room_exists h room); [done|].
  destruct (_ && _); [destruct (ra_principal_id actor); [|kept_done]|]; stored; kept_done.
Qed.

Lemma expire_live_kept h : kept h (expire_live h).
Proof.
  unfold expire_live. generalize (keys (h_rooms h)). intros l.
  enough (forall h1, kept h1 (foldl (expire_room_live (h_clock h)) h1 l)) by done.
  induction l as [|n l IH]; intros h1; [done|]. cbn [foldl]. etransitivity; [|apply IH].
  apply kept_outer, expire_room_live_one.
Qed.

Lemma subscribe_sealed room h : is_deleted h room = true -> (subscribe room h).1 = h.
Proof. intros Hd. unfold subscribe. by rewrite Hd. Qed.

(** *** The memory, the wiki and the files of a room *)

Section rooms_things.
Context `{MemoryStore St} `{WikiStore St} `{Environment} `{AttachmentStore St}.

Lemma broadcast_memory_one room h : one_room PNone room h (broadcast_memory_snapshot room h).
Proof.
  unfold broadcast_memory_snapshot. destruct (loca_memory_snapshot h room); [|one_room_refused].
  destruct (h_rooms h !! room) as [r|] eqn:Hr; [|one_room_refused].
  constructor; [by constructor|intros ? ?; rooms_of_one|right].
  eexists. split; [rooms_of_one|]. rewrite (entry_room_Some _ _ _ Hr). same_parts.
Qed.

Lemma broadcast_memory_step room h : building_ok h -> step_ok h (broadcast_memory_snapshot room h).
Proof.
  intros Hb. eapply one_room_step, Hb; [apply broadcast_memory_one| |by intros _ n r _].
  intros _ Hn. unfold broadcast_memory_snapshot. rewrite Hn. by destruct (loca_memory_snapshot h room).
Qed.

(** A write of the store, and then the new memory to the room. *)
Lemma memory_step {A} (f : St -> St * A) room h h1 a :
  run_store f h = (h1, a) -> building_ok h -> step_ok h (broadcast_memory_snapshot room h1).
Proof.
  intros E%run_store_calm Hb. destruct (calm_step h h1 E Hb) as [Hb1 Hk1].
  destruct (broadcast_memory_step room h1 Hb1) as [Hb2 Hk2]. split; [done|by etransitivity].
Qed.

Lemma memory_ops_step room h : building_ok h ->
  (forall owner, step_ok h (set_memory_owner room owner h).1)
  /\ (forall actor text, step_ok h (write_short_memory room actor text h).1)
  /\ (forall actor text, step_ok h (append_long_memory room actor text h).1).
Proof.
  intros Hb. unfold set_memory_owner, write_short_memory, append_long_memory. split_and!; intros.
  - destruct (owner_principal owner h); [|done]. destruct (run_store _ h) as [h1 w] eqn:E.
    destruct w; [by eapply memory_step|]. by apply calm_step, Hb; eapply run_store_calm.
  - destruct (run_store _ h) as [h1 w] eqn:E.
    destruct w; [by eapply memory_step|]. by apply calm_step, Hb; eapply run_store_calm.
  - destruct (run_store _ h) as [h1 w] eqn:E.
    destruct w; [by eapply memory_step|]. by apply calm_step, Hb; eapply run_store_calm.
Qed.

Lemma run_calm {A} (f : St -> St * A) h : calm h (run_store f h).1.
Proof. by eapply run_store_calm, surjective_pairing. Qed.

Lemma tick_wiki_calm h : calm h (tick_wiki h).
Proof.
  unfold tick_wiki. destruct (negb _); [done|]. destruct (store_wiki_maintenance_rooms _) as [rooms|]; [|done].
  revert h. induction rooms as [|room rooms IH]; intros h; [done|]. cbn [foldl]. etransitivity; [|apply IH].
  unfold tick_wiki_room. destruct (is_writable h room); apply run_calm.
Qed.

Lemma wiki_op_calm o h : calm h (wiki_op o h).
Proof.
  destruct o; cbn [wiki_op]; try apply run_calm; [calm|apply tick_wiki_calm|..].
  - unfold configure_wiki. destruct (agent_named _ _); [|done].
    destruct (if enabled then _ else _) as [[]|]; [apply run_calm|done..].
  - unfold offer_wiki_context. destruct (wiki_snapshot _ _); [|done]. destruct (_ && _); [done|].
    destruct (agent_named _ _); [|done]. destruct (negb _); [done|apply run_calm].
Qed.

Lemma files_calm room uploader name mime bytes h :
  calm h (put_pending_attachment room uploader name mime bytes h).1 /\ calm h (sweep_attachments h).1.
Proof.
  unfold put_pending_attachment, sweep_attachments.
  split; [destruct (store_put_pending_attachment _ _ _ _ _ _ _ _ _)|destruct (store_sweep_attachments _ _ _)]; calm.
Qed.
End rooms_things.

Context `{MemoryStore St} `{WikiStore St} `{Environment} `{AttachmentStore St}.

Lemma room_ops_ok o h : building_ok h ->
  match o with
  | OpSubscribe _ | OpJoin _ _ _ _ _ | OpLeave _ _ | OpTyping _ _ _ | OpControl _ _
  | OpReact _ _ _ _ _ _ | OpSetSettings _ _ =>
      step_ok h (run_op o h)
  | _ => True
  end.
Proof.
  intros Hb. pose proof (building_parts h Hb) as (Hwork & Hwaits & Hseats & _ & Hconf).
  destruct o; try exact I; cbn [run_op].
  - eapply one_room_step, Hb; [apply subscribe_one|intros Hd _; by apply subscribe_sealed|].
    by intros _ n r _.
  - eapply one_room_step, Hb; [apply join_room_one|intros Hd _; unfold join_room; by rewrite Hd|].
    intros _. by apply join_room_seats_ok.
  - eapply one_room_step, Hb; [apply leave_one|intros _ Hn; unfold leave; by rewrite Hn|].
    intros _. by apply leave_seats_ok.
  - eapply one_room_step, Hb; [apply typing_one|intros _ Hn; unfold typing; by rewrite Hn|].
    by intros _ n r _.
  - eapply one_room_step, Hb; [apply control_one|intros _ Hn; unfold control; by rewrite Hn|].
    by intros _ n r _.
  - eapply one_room_step, Hb; [apply set_reaction_one| |by intros _ n r _].
    intros Hd _. unfold set_reaction, is_writable. rewrite Hd. by destruct (negb _).
  - eapply one_room_step, Hb; [apply set_settings_one|intros Hd _; unfold set_settings; by rewrite Hd|].
    intros _. by apply set_settings_parts.
Qed.

Lemma writable_ops_ok o h : building_ok h ->
  match o with
  | OpCreateTask _ _ | OpUpdateTask _ _ _ _ | OpCreateGoal _ _ | OpUpdateGoal _ _ _
  | OpSetWait _ _ | OpClearWait _ _ | OpCreateAttention _ _ | OpClaimAttention _ _ _
  | OpResolveAttention _ _ _ _ _ | OpSetLead _ _ _ | OpSetMode _ _ | OpJournal _ _ _ _
  | OpCreateNote _ _ | OpUpdateNote _ _ _ _ | OpDeleteNote _ _ => step_ok h (run_op o h)
  | _ => True
  end.
Proof.
  intros Hb. pose proof (building_parts h Hb) as (Hwork & Hwaits & _).
  destruct o; try exact I; cbn [run_op].
  - eapply writable_step, Hb; [apply create_task_one|intros _; by apply create_task_work_ok].
  - eapply writable_step, Hb; [apply update_task_one|intros _; by apply update_task_work_ok].
  - eapply writable_step, Hb; [apply create_goal_one|intros _; by apply create_goal_work_ok].
  - eapply writable_step, Hb; [apply update_goal_one|intros _; by apply update_goal_work_ok].
  - eapply writable_step, Hb; [apply set_wait_one|intros _; by apply set_wait_waits_ok].
  - eapply writable_step, Hb; [apply clear_wait_one|intros _; by apply clear_wait_waits_ok].
  - eapply writable_step, Hb; [apply create_attention_one|by intros _ n r _].
  - eapply writable_step, Hb; [apply claim_attention_one|by intros _ n r _].
  - eapply writable_step, Hb; [apply resolve_attention_one|by intros _ n r _].
  - eapply writable_step, Hb; [apply set_lead_one|by apply set_lead_work_ok].
  - eapply writable_step, Hb; [apply set_mode_one|by apply set_mode_parts].
  - eapply writable_step, Hb; [apply append_journal_one|by intros _ n r _].
  - eapply writable_step, Hb; [apply create_note_one|by intros _ n r _].
  - eapply writable_step, Hb; [apply update_note_one|by intros _ n r _].
  - eapply writable_step, Hb; [apply delete_note_one|by intros _ n r _].
Qed.

Lemma credential_calm principal label credential h :
  calm h (create_profile_credential principal label h).1 /\
  calm h (revoke_profile_credential principal credential h).1.
Proof.
  split.
  - unfold create_profile_credential, secure_token. cbn beta iota zeta.
    destruct (run_store _ _) as [h1 w] eqn:E. apply run_store_calm in E. cbn [fst].
    etransitivity; [|exact E]. calm.
  - unfold revoke_profile_credential. destruct (run_store _ _) as [h1 w] eqn:E.
    apply run_store_calm in E. destruct w; [|exact E]. cbn [fst].
    etransitivity; [exact E|]. destruct (legacy_credential_source _ _ _) as [[role token]|]; [|calm].
    case_decide; calm.
Qed.

Lemma secure_tokens_calm prefix bytes count h : calm h (secure_tokens prefix bytes count h).1.
Proof.
  revert h. induction count as [|count IH]; intros h; [done|]. cbn [secure_tokens].
  unfold secure_token. cbn beta iota zeta.
  destruct (secure_tokens _ _ _ _) as [h1 l] eqn:E. cbn [fst].
  transitivity (with_h_entropy (h_entropy h + 1) h); [calm|]. specialize (IH (with_h_entropy (h_entropy h + 1) h)). by rewrite E in IH.
Qed.

Lemma mint_stock_calm count ttl h : calm h (mint_admission_stock count ttl h).1.
Proof.
  unfold mint_admission_stock.
  pose proof (secure_tokens_calm "adm_" 24 count h) as Hc.
  destruct (secure_tokens _ _ _ _) as [h1 l]. destruct (run_store _ h1) as [h2 w] eqn:E.
  apply run_store_calm in E. destruct (admission_stock_counts _ _). by etransitivity.
Qed.

(** The announcement is the only part of a join request the rooms see. *)
Lemma create_join_step name kind ip h :
  building_ok h -> step_ok h (create_join_request name kind ip h).1.
Proof.
  intros Hb. unfold create_join_request.
  pose proof (join_rate_calm ip h) as Hc.
  destruct (join_request_rate_ok ip h) as [h1 ok]. cbn [fst] in Hc.
  destruct (negb ok); [by apply calm_step|]. destruct (_ || _); [by apply calm_step|].
  destruct (_ <=? _)%nat; [by apply calm_step|].
  unfold secure_token. cbn beta iota zeta. destruct (run_store _ _) as [h2 w] eqn:E.
  apply run_store_calm in E. cbn [fst].
  assert (calm h h2) as Hc2 by (etransitivity; [exact Hc|]; etransitivity; [|exact E]; calm).
  destruct (calm_step h h2 Hc2 Hb) as [Hb2 Hk2].
  enough (step_ok h2 (announce_join_request name kind h2)) as [? ?]
    by (split; [done|by etransitivity]).
  eapply one_room_step, Hb2; [apply announce_join_request_one| |by intros _ n r _].
  unfold is_deleted. by rewrite bool_decide_eq_true_2.
Qed.

Lemma approve_join_step id by_ h :
  building_ok h -> step_ok h (approve_join_request id by_ h).1.
Proof.
  intros Hb. unfold approve_join_request, new_invite_token, secure_token. cbn beta iota zeta.
  destruct (run_store _ _) as [h2 w] eqn:E. apply run_store_state in E as [-> _].
  set (h2 := with_h_store _ _). assert (calm h h2) as Hc by calm.
  destruct w as [m| | | |]; cbn [fst]; try by apply calm_step.
  destruct (calm_step h h2 Hc Hb) as [Hb2 Hk2]. split; [|by apply kept_same].
  eapply building_ok_davets, Hb2; try done. destruct (bo_davets _ Hb2) as [Hk Hm Hcap Hs].
  constructor; try done. cbn. intros tok m' [[<- <-]|[_ Hm']]%lookup_insert_Some; [done|].
  by apply Hm.
Qed.

Lemma run_op_ok o h : building_ok h -> step_ok h (run_op o h).
Proof.
  intros Hb. pose proof (room_ops_ok o h Hb) as Hroom. pose proof (writable_ops_ok o h Hb) as Hwr.
  destruct o; try exact Hroom; try exact Hwr; clear Hroom Hwr; cbn [run_op].
  - by apply calm_step; [calm|].
  - destruct (tick_care_building h Hb). split; [done|by apply kept_outer].
  - split; [by apply expire_live_building|apply expire_live_kept].
  - apply calm_step, Hb. apply lobby_calm.
  - apply calm_step, Hb. apply lobby_calm.
  - by apply calm_step; [calm|].
  - split; [by apply post_building|apply kept_outer, post_outer].
  - split; [by apply ack_care_ok|apply ack_care_kept].
  - apply calm_step, Hb. apply report_health_calm.
  - split; [by apply moderate_building|apply moderate_kept].
  - split; [by apply delete_room_building|apply delete_room_kept].
  - split; [by apply create_loca_building|apply create_loca_kept].
  - apply calm_step, Hb. by apply operator_calm.
  - apply calm_step, Hb. by apply (operator_calm room "").
  - by apply memory_ops_step.
  - by apply memory_ops_step.
  - by apply memory_ops_step.
  - apply calm_step, Hb. apply wiki_op_calm.
  - apply calm_step, Hb. by apply files_calm.
  - apply calm_step, Hb. by apply (files_calm "" "" "" "" "").
  - apply calm_step, Hb. apply create_session_calm.
  - apply calm_step, Hb. apply session_identity_calm.
  - apply calm_step, Hb. apply revoke_session_calm.
  - split; [by apply admit_member_building|apply admit_member_kept].
  - split; [by apply revoke_member_building|apply revoke_member_kept].
  - split; [by apply set_member_suspended_building|apply set_member_suspended_kept].
  - split; [by apply invite_building|apply invite_kept].
  - split; [by apply revoke_invite_building|apply revoke_invite_kept].
  - apply calm_step, Hb. by apply (smaster_calm name "").
  - apply calm_step, Hb. by apply (smaster_calm "" token).
  - apply calm_step, Hb. by apply (pairing_calm ttl_ms "").
  - apply calm_step, Hb. by apply (pairing_calm 0 candidate).
  - apply calm_step, Hb. by apply (credential_calm _ _ "").
  - apply calm_step, Hb. by apply (credential_calm _ "" _).
  - apply calm_step, Hb. apply mint_stock_calm.
  - by apply create_join_step.
  - by apply approve_join_step.
  - apply calm_step, Hb. by eapply run_store_calm, surjective_pairing.
  - apply calm_step, Hb. by eapply run_store_calm, surjective_pairing.
  - apply calm_step, Hb. by eapply run_store_calm, surjective_pairing.
Qed.

Lemma run_ops_ok l h : building_ok h -> step_ok h (run_ops l h).
Proof.
  unfold run_ops. revert h. induction l as [|o l IH]; intros h Hb; [done|]. cbn [foldl].
  destruct (run_op_ok o h Hb) as [Hb1 Hk1]. destruct (IH _ Hb1) as [Hb2 Hk2].
  split; [done|by etransitivity].
Qed.

Lemma kept_deleted h h' room : kept h h' -> is_deleted h room = true -> is_deleted h' room = true.
Proof.
  intros [Hh Hd] Hdel. unfold is_deleted in *. apply andb_true_iff in Hdel as [Hne Hin].
  rewrite Hh, Hne. cbn. apply bool_decide_eq_true in Hin. apply bool_decide_eq_true. set_solver.
Qed.

(** ** Properties *)

(** The invariant of the server: whatever requests, connections and periodic
    tasks arrive, in whatever order, and whichever writes fail, every room keeps
    well-formed goals, tasks, waits, seats, replay table, mode and settings, no
    room has more davets than seats, and no sealed room is in memory. *)
Theorem server_invariant l h : building_ok h -> building_ok (run_ops l h).
Proof. intros Hb. apply (run_ops_ok l h Hb). Qed.

(** A sealed room stays sealed: no sequence of operations brings it back to
    memory, and a message to it is refused at the end of any of them. *)
Theorem sealed_forever l room h body is_admin principal :
  building_ok h -> is_deleted h room = true ->
  h_rooms (run_ops l h) !! room = None /\
  post room body is_admin principal (run_ops l h) = (run_ops l h, Err RejDeleted).
Proof.
  intros Hb Hdel. destruct (run_ops_ok l h Hb) as [Hb' Hk].
  assert (is_deleted (run_ops l h) room = true) as Hdel' by by eapply kept_deleted.
  split; [by apply (bo_sealed _ Hb')|]. unfold post. by rewrite Hdel'.
Qed.
End facts.

(** ** Witnesses: a development server, with a sealed room *)

#[local] Existing Instance ascii_unicode.
#[local] Existing Instance counter_csprng.
#[local] Instance no_environment : Environment := {| env_var _ := None |}.
#[local] Instance zero_digest : Digest := {| sha256 _ := replicate 32 0%N |}.

Definition sealed_hub : Hub unit := with_h_deleted {["old"]} (empty_hub tt).

Lemma sealed_hub_ok : building_ok sealed_hub.
Proof.
  constructor; [done| |apply settings_default_ok|done].
  constructor; cbn; try done. intros room. unfold davets_of_room, davets_where, values.
  cbn. rewrite map_to_list_empty. cbn. unfold LOCA_KAPASITE. lia.
Qed.

Lemma server_invariant_witness :
  building_ok (run_ops
    [OpJoin "lab" "st_1" "ada" Agent 7;
     OpPost "lab" (mkPostMessage Say "ada" Agent None "hello" None None []) false "p";
     OpClock 5000; OpTickCare; OpDeleteRoom "lab"] sealed_hub).
Proof. exact (server_invariant _ sealed_hub sealed_hub_ok). Defined.

Lemma sealed_forever_witness :
  h_rooms (run_ops [OpSubscribe "old"; OpModerate "old" Mute "ada"] sealed_hub) !! "old"%string
    = None.
Proof.
  exact (proj1 (sealed_forever [OpSubscribe "old"; OpModerate "old" Mute "ada"] "old" sealed_hub
    (mkPostMessage Say "ada" Agent None "hello" None None []) false "p" sealed_hub_ok eq_refl)).
Defined.

(** What the operations of Server.v leave out: between the question of a handler and
    its call other requests may close the room and seal it.  The task is then declared
    in the sealed room, which is back in memory. *)
Lemma a_late_task_reopens_a_sealed_room :
  let h := room_mut "lab" (empty_hub tt) in
  let r := entry_room "lab" h in
  let closed := put_room "lab" (with_r_settings (with_rs_archived true (r_settings r)) r) h in
  let sealed := (delete_room "lab" closed).1 in
  let late := (create_task "lab" (mkCreateTask "work" None None "ada") sealed).1 in
  is_writable h "lab" = true /\ h_rooms sealed !! "lab"%string = None /\
  is_deleted late "lab" = true /\ is_Some (h_rooms late !! "lab"%string).
Proof. vm_compute. split_and!; [done..|]. by eexists. Qed.
