(* ===== verification/RouteWork.v ===== *)
(** * Handlers of tasks, goals, waits and attention

    crates/server/src/routes/work.rs and routes/attention.rs.  A handler gets
    the room of its path, the headers and the decoded body, and answers; the
    order of its checks is the order of the source. *)

From Stdlib Require Import Ascii.
From S2P Require Import Prelude Text Protocol StoreApi Hub Work Waits Attention Access Membership.
From S2P Require Import Rooms Queries Http Doors.

(** [body.by = by] *)
Definition with_ct_by (v : string) (r : CreateTask) : CreateTask :=
  mkCreateTask (ct_title r) (ct_from_message r) (ct_assigned_to r) v.
Definition with_ut_by (v : string) (r : UpdateTask) : UpdateTask :=
  mkUpdateTask (ut_status r) (ut_assigned_to r) v.
Definition with_cg_by (v : string) (r : CreateGoal) : CreateGoal :=
  mkCreateGoal (cg_outcome r) (cg_checkpoint r) (cg_stale_after_secs r) (cg_completion r)
    (cg_task_ids r) v.
Definition with_ug_by (v : string) (r : UpdateGoal) : UpdateGoal :=
  mkUpdateGoal (ug_outcome r) (ug_checkpoint r) (ug_stale_after_secs r) (ug_completion r)
    (ug_task_ids r) (ug_status r) v.
Definition with_sw_by (v : string) (r : SetWait) : SetWait :=
  mkSetWait (sw_waiting_for r) (sw_reason r) v.
Definition with_ca_by (v : string) (r : CreateAttention) : CreateAttention :=
  mkCreateAttention (ca_subject r) (ca_audience r) v.

Definition read_only : Response := refuse CONFLICT "this loca is closed — read-only".
Definition bad_session (code : StatusCode) : Response := refuse code "invalid or missing session".

Section work.
Context {St : Type} `{Unicode} `{HeaderText} `{StoreBase St} `{IdentityStore St} `{WorkStore St}.
Implicit Types h : Hub St.
Implicit Types headers : HeaderMap.

(** [if !hub.is_writable(&id) { return CONFLICT }] around the rest. *)
Definition if_writable (room : string) (rest : Hub St -> Hub St * Response) h
    : Hub St * Response :=
  if negb (is_writable h room) then (h, read_only) else rest h.

(** [let by = match actor_of(..) { .. }] around the rest. *)
Definition as_actor headers (claimed : string)
    (rest : string -> Hub St -> Hub St * Response) h : Hub St * Response :=
  let '(h, by_) := actor_of headers claimed h in
  match by_ with
  | Err code => (h, bad_session code)
  | Ok by_ => rest by_ h
  end.

(** The operator guard around the rest. *)
Definition as_operator (room : string) headers (name refusal : string)
    (rest : Hub St -> Hub St * Response) h : Hub St * Response :=
  let '(h, operator) := may_operate room headers name h in
  if negb operator then (h, refuse FORBIDDEN refusal) else rest h.

(** ** Tasks *)

(** @src routes/work.rs fn list_tasks *)
Definition list_tasks_route (room : string) headers : Hub St -> Hub St * Response :=
  with_access room headers (fun h => (h, (OK, BTasks (tasks h room)))).

(** @src routes/work.rs fn create_task *)
Definition create_task_route (room : string) headers (body : CreateTask)
    : Hub St -> Hub St * Response :=
  with_access room headers (if_writable room (fun h =>
    if str_is_empty (trim (ct_title body)) then (h, refuse BAD_REQUEST "empty title")
    else
      as_actor headers (ct_by body) (fun by_ =>
        as_operator room headers by_ "declaring a task takes operator authority in this loca"
          (fun h =>
             let '(h, made) := create_task room (with_ct_by by_ body) h in
             (h, match made with
                 | Ok task => (CREATED, BTask task)
                 | Err _ => refuse SERVICE_UNAVAILABLE "could not save task — try again"
                 end))) h)).

(** @src routes/work.rs fn update_task *)
Definition update_task_route (room : string) (tid : N) headers (body : UpdateTask)
    : Hub St -> Hub St * Response :=
  with_access room headers (if_writable room (
    as_actor headers (ut_by body) (fun by_ h =>
      let '(h, is_op) := may_operate room headers by_ h in
      let '(h, updated) := update_task room tid (with_ut_by by_ body) is_op h in
      (h, match updated with
          | Ok t => (OK, BTask t)
          | Err TaskErrNotFound => refuse NOT_FOUND "no such task"
          | Err TaskErrForbidden => refuse FORBIDDEN
              "house rules: agents take/finish their own tasks; cancel/reopen/reassign is the operator's"
          | Err TaskErrStorage => refuse SERVICE_UNAVAILABLE "could not save task — try again"
          end)))).

(** ** Goals *)

(** [2_592_000] seconds: 30 days. *)
Definition MAX_STALE_SECS : N := 2592000.

Definition is_some_and {A} (f : A -> bool) (o : option A) : bool :=
  match o with Some x => f x | None => false end.

(** @src routes/work.rs fn list_goals *)
Definition list_goals_route (room : string) headers : Hub St -> Hub St * Response :=
  with_access room headers (fun h => (h, (OK, BGoals (goals h room)))).

(** The goal as the handler trims it. *)
(** @src routes/work.rs:91-98 create_goal *)
Definition trimmed_goal (body : CreateGoal) : CreateGoal :=
  {| cg_outcome := trim (cg_outcome body);
     cg_checkpoint :=
       match cg_checkpoint body with
       | Some c => if str_is_empty (trim c) then None else Some (trim c)
       | None => None
       end;
     cg_stale_after_secs := cg_stale_after_secs body; cg_completion := cg_completion body;
     cg_task_ids := cg_task_ids body; cg_by := cg_by body |}.

(** @src routes/work.rs fn create_goal *)
Definition create_goal_route (room : string) headers (body : CreateGoal)
    : Hub St -> Hub St * Response :=
  with_access room headers (if_writable room (fun h =>
    let body := trimmed_goal body in
    if str_is_empty (cg_outcome body) then (h, refuse BAD_REQUEST "empty goal outcome")
    else if is_some_and (fun secs => (MAX_STALE_SECS <? secs)%N) (cg_stale_after_secs body)
    then (h, refuse BAD_REQUEST "stale_after_secs must be at most 30 days")
    else
      as_actor headers (cg_by body) (fun by_ =>
        as_operator room headers by_ "defining a goal takes operator authority in this loca"
          (fun h =>
             let '(h, made) := create_goal room (with_cg_by by_ body) h in
             (h, match made with
                 | Ok goal => (CREATED, BGoal goal)
                 | Err GoalErrActiveExists =>
                     refuse CONFLICT "this loca already has an active goal — close it first"
                 | Err GoalErrLeadRequired =>
                     refuse CONFLICT "Goal cannot be activated — select a Lead first"
                 | Err GoalErrInvalidTasks =>
                     refuse BAD_REQUEST "all_tasks requires existing task ids from this loca"
                 | Err GoalErrStorage =>
                     refuse SERVICE_UNAVAILABLE "could not save goal — try again"
                 | Err GoalErrNotFound => unreachable
                 end))) h)).

(** @src routes/work.rs:159-167 update_goal *)
Definition trimmed_goal_update (body : UpdateGoal) : UpdateGoal :=
  mkUpdateGoal (trim <$> ug_outcome body) (trim <$> ug_checkpoint body)
    (ug_stale_after_secs body) (ug_completion body) (ug_task_ids body) (ug_status body)
    (ug_by body).

(** @src routes/work.rs fn update_goal *)
Definition update_goal_route (room : string) (gid : N) headers (body : UpdateGoal)
    : Hub St -> Hub St * Response :=
  with_access room headers (if_writable room (fun h =>
    let body := trimmed_goal_update body in
    if is_some_and str_is_empty (ug_outcome body)
    then (h, refuse BAD_REQUEST "empty goal outcome")
    else if is_some_and (fun secs => (MAX_STALE_SECS <? secs)%N)
              (ug_stale_after_secs body ≫= id)
    then (h, refuse BAD_REQUEST "stale_after_secs must be at most 30 days")
    else
      as_actor headers (ug_by body) (fun by_ =>
        as_operator room headers by_ "changing a goal takes operator authority in this loca"
          (fun h =>
             let '(h, updated) := update_goal room gid (with_ug_by by_ body) h in
             (h, match updated with
                 | Ok goal => (OK, BGoal goal)
                 | Err GoalErrNotFound => refuse NOT_FOUND "no such goal"
                 | Err GoalErrActiveExists =>
                     refuse CONFLICT "another goal is already active"
                 | Err GoalErrLeadRequired =>
                     refuse CONFLICT "Goal cannot be activated — select a Lead first"
                 | Err GoalErrInvalidTasks =>
                     refuse BAD_REQUEST "all_tasks requires existing task ids from this loca"
                 | Err GoalErrStorage =>
                     refuse SERVICE_UNAVAILABLE "could not save goal — try again"
                 end))) h)).

(** ** Waits *)

(** @src routes/work.rs fn list_waits *)
Definition list_waits_route (room : string) headers : Hub St -> Hub St * Response :=
  with_access room headers (fun h => (h, (OK, BWaits (waits h room)))).

(** @src routes/work.rs fn set_wait *)
Definition set_wait_route (room : string) headers (body : SetWait)
    : Hub St -> Hub St * Response :=
  with_access room headers (if_writable room (fun h =>
    let body := mkSetWait (trim (sw_waiting_for body)) (trim (sw_reason body)) (sw_by body) in
    if str_is_empty (sw_waiting_for body) || str_is_empty (sw_reason body)
    then (h, refuse BAD_REQUEST "waiting_for and reason are required")
    else
      as_actor headers (sw_by body) (fun by_ h =>
        let '(h, made) := set_wait room (with_sw_by by_ body) h in
        (h, match made with
            | Ok wait => (CREATED, BWait wait)
            | Err WaitErrSelfWait =>
                refuse BAD_REQUEST "a participant cannot wait for itself"
            | Err WaitErrStorage => refuse SERVICE_UNAVAILABLE "could not save wait — try again"
            | Err WaitErrNotFound => unreachable
            end)) h)).

(** @src routes/work.rs fn clear_wait *)
Definition clear_wait_route (room name : string) headers (claimed : string)
    : Hub St -> Hub St * Response :=
  with_access room headers (if_writable room (
    as_actor headers claimed (fun actor h =>
      let '(h, is_operator) := may_operate room headers actor h in
      if negb (bool_decide (actor = name)) && negb is_operator
      then (h, refuse FORBIDDEN "only the waiter or a loca operator may clear this wait")
      else
        let '(h, cleared) := clear_wait room name h in
        (h, match cleared with
            | Ok _ => (NO_CONTENT, BNone)
            | Err WaitErrNotFound => refuse NOT_FOUND "no such wait"
            | Err WaitErrStorage =>
                refuse SERVICE_UNAVAILABLE "could not clear wait — try again"
            | Err WaitErrSelfWait => unreachable
            end)))).
End work.

(** ** Attention *)

Section attention.
Context {St : Type} `{Unicode} `{HeaderText} `{Csprng} `{StoreBase St} `{IdentityStore St}
  `{CareStore St}.
Implicit Types h : Hub St.
Implicit Types headers : HeaderMap.

(** @src routes/attention.rs fn report_runtime_health *)
Definition report_runtime_health_route headers (body : RuntimeHealthUpdate) h
    : Hub St * Response :=
  match member_token_of headers with
  | None => (h, refuse UNAUTHORIZED "membership required")
  | Some token =>
      match member_for_credential h (Some token) with
      | None => (h, refuse UNAUTHORIZED "valid membership required")
      | Some member =>
          let '(h, health) := report_runtime_health (mb_name member) body h in
          (h, match health with
              | Some health => (OK, BRuntime health)
              | None => refuse BAD_REQUEST "invalid runtime health"
              end)
      end
  end.

(** @src routes/attention.rs fn list_attentions *)
Definition list_attentions_route (room : string) headers : Hub St -> Hub St * Response :=
  with_access room headers (fun h => (h, (OK, BAttentions (attentions h room)))).

(** @src routes/attention.rs fn create_attention *)
Definition create_attention_route (room : string) headers (body : CreateAttention)
    : Hub St -> Hub St * Response :=
  with_access room headers (if_writable room (fun h =>
    let body := mkCreateAttention (trim (ca_subject body)) (ca_audience body) (ca_by body) in
    if str_is_empty (ca_subject body) then (h, refuse BAD_REQUEST "empty attention subject")
    else
      as_actor headers (ca_by body) (fun by_ =>
        as_operator room headers by_
          "creating attention takes operator authority in this loca"
          (fun h =>
             let '(h, made) := create_attention room (with_ca_by by_ body) h in
             (h, match made with
                 | Ok attention => (CREATED, BAttention attention)
                 | Err AttnErrNoRecipient => refuse CONFLICT
                     "attention has no recipient — name a lead or choose a person/group"
                 | Err AttnErrNotFound => refuse NOT_FOUND "no such loca"
                 | Err AttnErrStorage =>
                     refuse SERVICE_UNAVAILABLE "could not save attention — try again"
                 | Err AttnErrForbidden | Err AttnErrConflict => unreachable
                 end))) h)).

(** @src routes/attention.rs fn attention_response *)
Definition attention_response (r : result Attention AttentionError) : Response :=
  match r with
  | Ok attention => (OK, BAttention attention)
  | Err AttnErrNotFound => refuse NOT_FOUND "no such attention"
  | Err AttnErrForbidden =>
      refuse FORBIDDEN "only the selected owner may claim; owner or operator may resolve"
  | Err AttnErrConflict => refuse CONFLICT "attention is already claimed or resolved"
  | Err AttnErrStorage => refuse SERVICE_UNAVAILABLE "could not update attention — try again"
  | Err AttnErrNoRecipient => unreachable
  end.

(** The door of an attention: the room's own, or the caretaker who owns it.
    The rest is told whether the caller may enter the room. *)
(** @src routes/attention.rs:100-113 claim_attention *)
Definition attention_door (room attention_id : string) headers (claimed : string)
    (rest : string -> bool -> Hub St -> Hub St * Response) h : Hub St * Response :=
  if is_deleted h room then (h, refuse NOT_FOUND "this loca no longer exists")
  else
    as_actor headers claimed (fun actor h =>
      let '(h, decision) := room_decision_of room headers h in
      match decision with
      | Allowed => if_writable room (rest actor true) h
      | Banned => (h, refuse FORBIDDEN "banned from this loca")
      | Denied =>
          if caretaker_owns_attention h room attention_id actor
          then if_writable room (rest actor false) h
          else (h, refuse UNAUTHORIZED "davet required for this loca")
      end) h.

(** @src routes/attention.rs fn claim_attention *)
Definition claim_attention_route (room attention_id : string) headers (claimed : string)
    : Hub St -> Hub St * Response :=
  attention_door room attention_id headers claimed (fun actor _ h =>
    let '(h, done_) := claim_attention room attention_id actor h in
    (h, attention_response done_)).

(** @src routes/attention.rs fn resolve_attention *)
Definition resolve_attention_route (room attention_id : string) headers (claimed : string)
    : Hub St -> Hub St * Response :=
  attention_door room attention_id headers claimed (fun actor source_access h =>
    let '(h, is_operator) :=
      if source_access then may_operate room headers actor h else (h, false) in
    let '(h, session) :=
      match session_of headers with
      | Some token => session_identity (Some token) h
      | None => (h, None)
      end in
    let '(h, done_) :=
      resolve_attention room attention_id actor (session ≫= sess_principal_id) is_operator h in
    (h, attention_response done_)).

(** @src routes/attention.rs fn ack_care *)
Definition ack_care_route (room signal_id : string) headers (claimed : string)
    : Hub St -> Hub St * Response :=
  with_access room headers (as_actor headers claimed (fun actor h =>
    let '(h, session) :=
      match session_of headers with
      | Some token => session_identity (Some token) h
      | None => (h, None)
      end in
    let principal_id :=
      or_else (session ≫= sess_principal_id)
        (principal_id_for_invite h room (member_token_of headers)) in
    let '(h, acked) := ack_care signal_id actor principal_id h in
    (h, match acked with
        | Ok true => (NO_CONTENT, BNone)
        | Ok false => refuse NOT_FOUND "no pending care signal for this identity"
        | Err _ => refuse SERVICE_UNAVAILABLE
            "could not acknowledge care signal — reconnect to retry"
        end))).
End attention.
