(* ===== verification/RouteRooms.v ===== *)
(** * Handlers of rooms and their content

    crates/server/src/routes/rooms.rs, and routes/content.rs without the memory:
    running a room, and its messages, reactions, journal, notes and search. *)

From Stdlib Require Import Ascii.
From S2P Require Import Prelude Text Protocol StoreApi Hub Attention Chat Access Membership Rooms.
From S2P Require Import Queries Http Doors RouteWork.

(** [name.chars().any(char::is_control)]: the control characters are the ASCII
    ones and U+0080 to U+009F. *)
Definition is_control (c : string) : bool :=
  match c with
  | String a EmptyString => ascii_in 0 31 a || ascii_in 127 127 a
  | String a (String b EmptyString) => bool_decide (a = "194"%char) && ascii_in 128 159 b
  | _ => false
  end.

(** [body.sender = ..] and the like. *)
Definition with_pm_sender (name : string) (kind : SenderType) (b : PostMessage) : PostMessage :=
  mkPostMessage (pm_kind b) name kind (pm_target b) (pm_text b) (pm_reply_to b) (pm_op_id b)
    (pm_attachments b).
Definition with_cn_by (v : string) (r : CreateNote) : CreateNote :=
  mkCreateNote (cn_key r) (cn_title r) (cn_body r) v (cn_by_type r) (cn_can_write r).
Definition with_un_by (v : string) (r : UpdateNote) : UpdateNote :=
  mkUpdateNote (un_title r) (un_body r) v (un_by_type r) (un_can_write r).

Section rooms.
Context {St : Type} `{Unicode} `{HeaderText} `{Digest} `{Csprng} `{StoreBase St}
  `{IdentityStore St} `{ReadStore St} `{MessageStore St} `{RoomStore St} `{OperatorStore St}
  `{CareStore St}.
Implicit Types h : Hub St.
Implicit Types headers : HeaderMap.

Definition not_operator : Response :=
  refuse UNAUTHORIZED "operator authority required for this loca".

(** The operator guard of the routes that take a bare path. *)
Definition if_room_operator (room : string) headers (rest : Hub St -> Hub St * Response) h
    : Hub St * Response :=
  let '(h, operator) := is_room_operator_req room headers h in
  if negb operator then (h, not_operator) else rest h.

(** [if !is_admin_req(..) { return refusal }] around the rest. *)
Definition if_admin headers (refusal : Response) (rest : Hub St -> Hub St * Response) h
    : Hub St * Response :=
  let '(h, admin) := is_admin_req headers h in
  if negb admin then (h, refusal) else rest h.
Definition if_master headers (refusal : Response) (rest : Hub St -> Hub St * Response) h
    : Hub St * Response :=
  let '(h, master) := is_master_req headers h in
  if negb master then (h, refusal) else rest h.

(** ** Locas and their operators *)

(** @src routes/rooms.rs fn create_loca_route *)
Definition create_loca_route headers (name : string) h : Hub St * Response :=
  let name := trim name in
  if str_is_empty name || (128 <? String.length name)%nat || existsb is_control (chars name)
  then (h, refuse BAD_REQUEST "invalid loca name")
  else
    let '(h, actor) := resolve_authority (admin_token_of headers) (session_of headers) h in
    let '(h, created) := create_loca name actor h in
    (h, match created with
        | Ok assignment => (CREATED, BLocaCreated name assignment)
        | Err OaeAuthorityRequired => refuse FORBIDDEN "Building authority required"
        | Err OaeConflict => refuse CONFLICT "loca already exists or is permanently sealed"
        | Err _ => refuse SERVICE_UNAVAILABLE "could not create loca and operator"
        end).

(** @src routes/rooms.rs fn get_loca_operator *)
Definition get_loca_operator_route (room : string) headers : Hub St -> Hub St * Response :=
  with_access room headers (fun h =>
    let '(h, admin) := is_admin_req headers h in
    let history := if admin then loca_operator_history (h_store h) room else [] in
    (h, (OK, BOperators (master_principal h) (loca_operator (h_store h) room) history))).

(** @src routes/rooms.rs fn appoint_loca_operator_route *)
Definition appoint_loca_operator_route (room : string) headers (principal_id : string)
    : Hub St -> Hub St * Response :=
  with_access room headers (fun h =>
    let '(h, actor) := resolve_authority (admin_token_of headers) (session_of headers) h in
    let '(h, appointed) := appoint_loca_operator room (trim principal_id) actor h in
    (h, match appointed with
        | Ok assignment => (CREATED, BOperator assignment)
        | Err OaeAuthorityRequired => refuse FORBIDDEN "Building authority required"
        | Err OaeEmptySeatRequired => refuse CONFLICT
            "Smaster may appoint only while the explicit operator seat is empty"
        | Err OaePrincipalNotFound => refuse NOT_FOUND "no such active profile"
        | Err OaePrincipalMustBeHuman =>
            refuse BAD_REQUEST "Loca Operator must be a human profile"
        | Err _ => refuse SERVICE_UNAVAILABLE "could not appoint operator — try again"
        end)).

(** @src routes/rooms.rs fn revoke_loca_operator_route *)
Definition revoke_loca_operator_route (room : string) headers : Hub St -> Hub St * Response :=
  with_access room headers (fun h =>
    let '(h, actor) := resolve_authority (admin_token_of headers) (session_of headers) h in
    let '(h, revoked) := revoke_loca_operator room actor h in
    (h, match revoked with
        | Ok _ => (NO_CONTENT, BNone)
        | Err OaeAuthorityRequired => refuse FORBIDDEN "Building authority required"
        | Err OaeMasterProtected =>
            refuse FORBIDDEN "Smaster cannot remove an appointment made by Master"
        | Err OaeNotFound => refuse NOT_FOUND "no appointed operator"
        | Err OaeConflict => refuse CONFLICT "operator appointment changed; retry"
        | Err _ => refuse SERVICE_UNAVAILABLE "could not remove operator — try again"
        end)).

(** You see the locas you may enter. *)
(** @src routes/rooms.rs fn list_rooms *)
Definition list_rooms_route headers h : Hub St * Response :=
  let '(h, session) := session_identity (session_of headers) h in
  (h, (OK, BRooms (room_summaries_for h (fun room =>
     bool_decide (enter_decision h room (admin_token_of headers) (member_token_of headers)
                    session None = Allowed))))).

(** ** Reading a room *)

(** @src routes/rooms.rs fn get_members *)
Definition get_members_route (room : string) headers : Hub St -> Hub St * Response :=
  with_access room headers (fun h => (h, (OK, BMembers (members h room)))).

(** [value.clamp(1, 1_000)] *)
Definition clamp_nat (v lo hi : nat) : nat := Nat.min (Nat.max v lo) hi.

(** [since] and [limit] are the query parameters that parse as numbers. *)
(** @src routes/rooms.rs fn get_messages *)
Definition get_messages_route (room : string) headers (since : option N) (limit : option nat)
    : Hub St -> Hub St * Response :=
  with_access room headers (fun h =>
    (h, match since with
        | None => (OK, BMessages (recent_messages h room))
        | Some since =>
            match messages_after h room since (clamp_nat (default 200 limit) 1 1000) with
            | Ok messages => (OK, BMessages messages)
            | Err _ => refuse SERVICE_UNAVAILABLE "could not read message archive — retry"
            end
        end)).

(** @src routes/rooms.rs fn get_mode *)
Definition get_mode_route (room : string) headers : Hub St -> Hub St * Response :=
  with_access room headers (fun h => (h, (OK, BMode (mode h room)))).
(** @src routes/rooms.rs fn get_settings *)
Definition get_settings_route (room : string) headers : Hub St -> Hub St * Response :=
  with_access room headers (fun h => (h, (OK, BSettings (settings h room)))).
(** @src routes/rooms.rs fn get_mod *)
Definition get_mod_route (room : string) headers : Hub St -> Hub St * Response :=
  with_access room headers (fun h => (h, (OK, BModState (mod_state h room)))).

(** ** Running a room *)

(** @src routes/rooms.rs fn set_mode *)
Definition set_mode_route (room : string) headers (mode' : ChatMode)
    : Hub St -> Hub St * Response :=
  if_room_operator room headers (if_writable room (fun h =>
    let '(h, set) := set_mode room mode' h in
    (h, match set with
        | Ok mode' => (OK, BMode mode')
        | Err _ => refuse SERVICE_UNAVAILABLE "could not save mode — try again"
        end))).

(** @src routes/rooms.rs fn set_lead *)
Definition set_lead_route (room : string) headers (lead : option string)
    : Hub St -> Hub St * Response :=
  if_room_operator room headers (if_writable room (fun h =>
    let '(h, session) := session_identity (session_of headers) h in
    let by_ := default "operator"%string (sess_name <$> session) in
    let '(h, set) := set_lead room lead by_ h in
    (h, match set with
        | Ok settings => (OK, BSettings settings)
        | Err LeadActiveGoal => refuse CONFLICT
            "Active Goal requires a Lead — transfer the Lead or close the Goal first"
        | Err LeadStorage => refuse SERVICE_UNAVAILABLE "could not save lead — try again"
        end))).

Definition positive (o : option N) : bool :=
  match o with Some v => (0 <? v)%N | None => false end.

(** Whether the request turns a reminder on. *)
(** @src routes/rooms.rs:295-303 set_settings *)
Definition enables_reminder (body : SetSettings) (current : RoomSettings) : bool :=
  positive (ss_care_goal_secs body) || positive (ss_care_task_secs body)
  || positive (ss_care_wait_secs body) || positive (ss_care_silence_secs body)
  || (negb (bool_decide (ss_care_recipient body = None))
      && ((0 <? rs_care_goal_secs current)%N || (0 <? rs_care_task_secs current)%N
          || (0 <? rs_care_wait_secs current)%N || (0 <? rs_care_silence_secs current)%N)).

(** @src routes/rooms.rs fn set_settings *)
Definition set_settings_route (room : string) headers (body : SetSettings)
    : Hub St -> Hub St * Response :=
  if_room_operator room headers (fun h =>
    let '(h, admin) := is_admin_req headers h in
    if negb admin && (negb (bool_decide (ss_operators body = None))
                      || negb (bool_decide (ss_archived body = None)))
    then (h, refuse FORBIDDEN "Building authority required for governance changes")
    else if is_deleted h room then (h, refuse CONFLICT "this loca is permanently sealed")
    else if (match ss_care_recipient body with
             | Some (RecipientPerson name) => negb (valid_identity_name name)
             | _ => false
             end)
    then (h, refuse BAD_REQUEST "reminder recipient must be a valid Loca identity name")
    else
      let current := settings h room in
      let recipient := default (rs_care_recipient current) (ss_care_recipient body) in
      if enables_reminder body current && bool_decide (recipient = RecipientLead)
         && bool_decide (rs_lead current = None)
      then (h, refuse BAD_REQUEST
              "select a room lead or another reminder recipient before enabling reminders")
      else
        let '(h, set) := set_settings room body h in
        (h, match set with
            | Ok settings => (OK, BSettings settings)
            | Err _ => refuse SERVICE_UNAVAILABLE "could not save settings — try again"
            end)).

(** @src routes/rooms.rs fn delete_room *)
Definition delete_room_route (room : string) headers : Hub St -> Hub St * Response :=
  if_master headers (UNAUTHORIZED, BNone) (fun h =>
    let '(h, deleted) := delete_room room h in
    (h, (match deleted with
         | Ok true => NO_CONTENT
         | Ok false => NOT_FOUND
         | Err DelNotArchived => CONFLICT
         | Err DelStorage => SERVICE_UNAVAILABLE
         end, BNone))).

(** @src routes/rooms.rs fn moderate *)
Definition moderate_route (room : string) headers (action : ModAction) (name : string)
    : Hub St -> Hub St * Response :=
  if_room_operator room headers (fun h =>
    let '(h, done_) := moderate room action name h in
    (h, match done_ with
        | Ok state => (OK, BModState state)
        | Err _ => refuse SERVICE_UNAVAILABLE "could not save moderation — try again"
        end)).
End rooms.

(** ** What a room holds: messages, reactions, the journal, notes and search *)

Section content.
Context {St : Type} `{Unicode} `{HeaderText} `{Digest} `{Csprng} `{StoreBase St}
  `{IdentityStore St} `{ReadStore St} `{MessageStore St} `{RoomStore St} `{CareStore St}.
Implicit Types h : Hub St.
Implicit Types headers : HeaderMap.

(** ** Messages *)

(** The body under the identity of the session, if there is one; the refusals
    of an unknown or a missing session. *)
(** @src routes/content.rs:281-297 post_message *)
Definition session_sender headers (session : option SessionIdentity) (body : PostMessage) h
    : result PostMessage Response :=
  match session with
  | Some idy => Ok (with_pm_sender (sess_name idy) (sess_kind idy) body)
  | None =>
      if negb (bool_decide (session_of headers = None))
      then Err (refuse UNAUTHORIZED "invalid session token")
      else if h_require_sessions h
      then Err (refuse UNAUTHORIZED "session token required (POST /sessions)")
      else Ok body
  end.

(** The owner of an operation id. *)
(** @src routes/content.rs:298-307 post_message *)
Definition post_principal (session : option SessionIdentity) (body : PostMessage) : string :=
  match session ≫= sess_member with
  | Some member => "mb:" +:+ member
  | None =>
      (match pm_sender_type body with Agent => "agent" | User => "user" end)
        +:+ ":" +:+ pm_sender body
  end.

(** @src routes/content.rs:319-333 post_message *)
Definition post_reject_response (reject : PostReject) : Response :=
  let code :=
    if is_rate_limit reject then TOO_MANY_REQUESTS
    else if bool_decide (reject = RejStorage) then SERVICE_UNAVAILABLE
    else if is_bad_request reject then BAD_REQUEST
    else FORBIDDEN in
  refuse code (post_reject_message reject).

(** @src routes/content.rs fn post_message *)
Definition post_message_route (room : string) headers (body : PostMessage)
    : Hub St -> Hub St * Response :=
  with_access room headers (fun h =>
    if str_is_empty (trim (pm_text body)) && bool_decide (pm_attachments body = [])
    then (h, refuse BAD_REQUEST "empty text")
    else if is_some_and (fun id => (128 <? String.length id)%nat) (pm_op_id body)
    then (h, refuse BAD_REQUEST "op_id is too long")
    else
      let '(h, session) := session_identity (session_of headers) h in
      match session_sender headers session body h with
      | Err refusal => (h, refusal)
      | Ok body =>
          let principal := post_principal session body in
          let '(h, is_admin) :=
            if admin_open h then (h, true) else is_admin_req headers h in
          let '(h, posted) := post room body is_admin principal h in
          (h, match posted with
              | Ok msg => (CREATED, BMessage msg)
              | Err reject => post_reject_response reject
              end)
      end).

(** @src routes/content.rs fn get_reactions *)
Definition get_reactions_route (room : string) headers : Hub St -> Hub St * Response :=
  with_access room headers (fun h => (h, (OK, BReactions (reactions h room)))).

(** @src routes/content.rs fn set_reaction *)
Definition set_reaction_route (room : string) (message_id : N) headers
    (body : SetMessageReaction) : Hub St -> Hub St * Response :=
  with_access room headers (fun h =>
    let '(h, session) := session_identity (session_of headers) h in
    if bool_decide (session = None) && negb (bool_decide (session_of headers = None))
    then (h, refuse UNAUTHORIZED "invalid session token")
    else if bool_decide (session = None) && h_require_sessions h
    then (h, refuse UNAUTHORIZED "session token required")
    else
      let reactor := default (smr_reactor body) (sess_name <$> session) in
      if str_is_empty (trim reactor) then (h, refuse BAD_REQUEST "reactor required")
      else
        let principal :=
          match session ≫= sess_member with
          | Some m => "mb:" +:+ m
          | None => "reactor:" +:+ reactor
          end in
        let '(h, set) :=
          set_reaction room message_id principal reactor (smr_emoji body) (smr_active body) h in
        (h, match set with
            | Ok event => (OK, BReaction event)
            | Err ReactInvalidEmoji => refuse BAD_REQUEST "unsupported reaction"
            | Err ReactNotFound => refuse NOT_FOUND "message not found"
            | Err ReactOwnMessage => refuse CONFLICT "cannot react to your own message"
            | Err ReactReadOnly => refuse CONFLICT "this loca is closed — read-only"
            | Err ReactStorage => refuse SERVICE_UNAVAILABLE "could not save reaction"
            end)).

(** ** Journal *)

(** @src routes/content.rs fn get_journal *)
Definition get_journal_route (room : string) headers : Hub St -> Hub St * Response :=
  with_access room headers (fun h => (h, (OK, BJournal (journal h room)))).

(** @src routes/content.rs fn post_journal *)
Definition post_journal_route (room : string) headers (body : CreateJournalEntry)
    : Hub St -> Hub St * Response :=
  with_access room headers (if_writable room (fun h =>
    if str_is_empty (trim (cj_text body)) then (h, refuse BAD_REQUEST "an entry needs words")
    else
      let '(h, actor) :=
        mutation_actor headers (default "anon"%string (cj_by body))
          (default Agent (cj_by_type body)) h in
      match actor with
      | Err status => (h, (status, BNone))
      | Ok (by_, by_type) =>
          let '(h, written) := append_journal room by_ by_type (trim (cj_text body)) h in
          (h, match written with
              | Ok entry => (CREATED, BJournalEntry entry)
              | Err _ => refuse SERVICE_UNAVAILABLE "could not save journal entry — try again"
              end)
      end)).

(** ** Notes *)

(** @src routes/content.rs fn get_notes *)
Definition get_notes_route (room : string) headers : Hub St -> Hub St * Response :=
  with_access room headers (fun h => (h, (OK, BNotes (notes h room)))).

(** @src routes/content.rs fn get_note *)
Definition get_note_route (room key : string) headers : Hub St -> Hub St * Response :=
  with_access room headers (fun h =>
    (h, match note h room key with
        | Some note => (OK, BNote note)
        | None => refuse NOT_FOUND "no such note"
        end)).

(** @src routes/content.rs fn create_note *)
Definition create_note_route (room : string) headers (body : CreateNote)
    : Hub St -> Hub St * Response :=
  with_access room headers (if_writable room (fun h =>
    if str_is_empty (trim (cn_key body)) then (h, refuse BAD_REQUEST "empty key")
    else
      let '(h, actor) := actor_of headers (cn_by body) h in
      match actor with
      | Err status => (h, (status, BNone))
      | Ok actor =>
          let '(h, made) := create_note room (with_cn_by actor body) h in
          (h, match made with
              | Ok note => (CREATED, BNote note)
              | Err NoteExists => refuse CONFLICT "note exists — use PUT to update"
              | Err NoteNotFound => refuse NOT_FOUND "no such room"
              | Err NoteStorage => refuse SERVICE_UNAVAILABLE "could not save note — try again"
              end)
      end)).

(** @src routes/content.rs fn update_note *)
Definition update_note_route (room key : string) headers (body : UpdateNote)
    : Hub St -> Hub St * Response :=
  with_access room headers (if_writable room (fun h =>
    let '(h, is_operator) := is_admin_req headers h in
    let '(h, actor) := actor_of headers (un_by body) h in
    match actor with
    | Err status => (h, (status, BNone))
    | Ok actor =>
        let '(h, updated) := update_note room key (with_un_by actor body) is_operator h in
        (h, match updated with
            | Ok note => (OK, BNote note)
            | Err NoteNotFound => refuse NOT_FOUND "no such note — use POST to create"
            | Err NoteExists => refuse CONFLICT "conflict"
            | Err NoteStorage => refuse SERVICE_UNAVAILABLE "could not save note — try again"
            end)
    end)).

(** @src routes/content.rs fn delete_note *)
Definition delete_note_route (room key : string) headers : Hub St -> Hub St * Response :=
  with_access room headers (fun h =>
    let '(h, actor) := mutation_actor headers "" User h in
    match actor with
    | Err status => (h, (status, BNone))
    | Ok _ =>
        if negb (is_writable h room) then (h, (CONFLICT, BNone))
        else
          let '(h, deleted) := delete_note room key h in
          (h, (match deleted with
               | Ok true => NO_CONTENT
               | Ok false => NOT_FOUND
               | Err _ => SERVICE_UNAVAILABLE
               end, BNone))
    end).

(** @src routes/content.rs fn note_history *)
Definition note_history_route (room key : string) headers : Hub St -> Hub St * Response :=
  with_access room headers (fun h =>
    (h, match note_history h room key with
        | Ok history => (OK, BNotes history)
        | Err _ => (SERVICE_UNAVAILABLE, BNone)
        end)).

(** [q] and [limit] are the query parameters. *)
(** @src routes/content.rs fn search_room *)
Definition search_room_route (room : string) headers (q : option string) (limit : option nat)
    : Hub St -> Hub St * Response :=
  with_access room headers (fun h =>
    let needle := default ""%string q in
    (h, if str_is_empty (trim needle) then refuse BAD_REQUEST "missing q"
        else
          match search h room needle (Nat.min (default 50 limit) 200) with
          | Ok (messages, notes) => (OK, BSearch messages notes)
          | Err _ => (SERVICE_UNAVAILABLE, BNone)
          end)).
End content.
