(* ===== verification/RouteMembers.v ===== *)
(** * Handlers of profiles, members, sessions, join requests and davets

    crates/server/src/routes/membership.rs, and the davet routes of routes/rooms.rs
    and routes/lobby.rs: who is called into a room and who releases its seat. *)

From Stdlib Require Import Ascii.
From S2P Require Import Prelude Text Net Protocol StoreApi Hub Attention Access Membership Joins.
From S2P Require Import Rooms Queries Http Doors RouteWork RouteRooms.

(** ** Values of requests *)

(** [value.parse::<u64>().ok()] *)
Fixpoint parse_digits (acc : N) (s : string) : option N :=
  match s with
  | EmptyString => Some acc
  | String a rest =>
      if ascii_in 48 57 a then
        let acc := (acc * 10 + (N_of_ascii a - 48))%N in
        if (acc <=? u64_max)%N then parse_digits acc rest else None
      else None
  end.
Definition parse_u64 (s : string) : option N :=
  let digits := match s with String "+"%char rest => rest | _ => s end in
  if str_is_empty digits then None else parse_digits 0 digits.

(** [hours.checked_mul(60 * 60 * 1000)] *)
Definition hours_ms (hours : N) : option N :=
  let ms := (hours * (60 * 60 * 1000))%N in
  if (ms <=? u64_max)%N then Some ms else None.

(** @src routes/membership.rs fn pairing_ttl_ms *)
Definition pairing_ttl_ms (ttl_hours : option string) : result N string :=
  let hours :=
    match ttl_hours with
    | Some value => ok_or (parse_u64 value) "ttl_hours must be a whole number"%string
    | None => Ok (ADMIN_SESSION_TTL_MS / (60 * 60 * 1000))%N
    end in
  match hours with
  | Err e => Err e
  | Ok hours =>
      match hours_ms hours with
      | None => Err "ttl_hours is too large"%string
      | Some ttl_ms =>
          if (MIN_ADMIN_SESSION_TTL_MS <=? ttl_ms)%N && (ttl_ms <=? MAX_ADMIN_SESSION_TTL_MS)%N
          then Ok ttl_ms
          else Err "session duration must be between 1 hour and 365 days"%string
      end
  end.

(** @src routes/membership.rs fn admission_ttl_ms *)
Definition admission_ttl_ms (ttl_hours : option N) : result N string :=
  match hours_ms (default 24%N ttl_hours) with
  | None => Err "ttl_hours is too large"%string
  | Some ms =>
      if (60 * 60 * 1000 <=? ms)%N && (ms <=? 90 * 24 * 60 * 60 * 1000)%N then Ok ms
      else Err "ttl_hours must be between 1 and 2160 (90 days)"%string
  end.

Section members.
Context {St : Type} `{Unicode} `{HeaderText} `{Digest} `{Csprng} `{StoreBase St}
  `{IdentityStore St} `{MessageStore St} `{ReadStore St} `{CredentialStore St}
  `{AdmissionStore St}.
Implicit Types h : Hub St.
Implicit Types headers : HeaderMap.

(** @src routes/membership.rs fn valid_agent_name *)
Definition valid_agent_name (name : string) : bool :=
  negb (str_is_empty name) && (String.length name <=? 64)%nat
  && all_bytes (fun a => ascii_alphanumeric a || name_punctuation a) name.

(** The address a join request is counted under: behind a loopback proxy, the
    last forwarded address that parses. *)
(** @src routes/membership.rs fn client_ip *)
Definition client_ip headers (peer : IpAddr) : IpAddr :=
  if is_loopback peer then
    match header headers "x-forwarded-for" with
    | Some xff =>
        default peer
          (head (omap (fun s => parse_ip (trim s))
                   (rev (split_on (fun c => bool_decide (c = ","%string)) xff))))
    | None => peer
    end
  else peer.

(** [.get("name").and_then(..).unwrap_or("").trim()] *)
Definition trimmed (field : option string) : string := trim (default ""%string field).

(** ** Profiles *)

(** A handler of a verified profile. *)
(** @src routes/membership.rs fn request_principal *)
Definition request_principal headers h : Hub St * option string :=
  let '(h, authority) := resolve_authority (admin_token_of headers) (session_of headers) h in
  (h, ra_principal_id authority).
Definition if_principal headers (rest : string -> Hub St -> Hub St * Response) h
    : Hub St * Response :=
  let '(h, principal) := request_principal headers h in
  match principal with
  | None => (h, refuse UNAUTHORIZED "verified profile required")
  | Some principal_id => rest principal_id h
  end.

(** @src routes/membership.rs:27-43 profile_view *)
Definition loca_roles h (room principal_id display_name : string) : list string :=
  (if (match loca_operator (h_store h) room with
       | Some a => bool_decide (loa_principal_id a = principal_id) | None => false end)
   then ["operator"%string] else [])
  ++ (if is_lead h room display_name then ["lead"%string] else [])
  ++ ["participant"%string].

(** @src routes/membership.rs fn profile_view *)
Definition profile_view_route headers (room : option string) h : Hub St * Response :=
  let '(h, authority) := resolve_authority (admin_token_of headers) (session_of headers) h in
  match ra_principal_id authority with
  | None => (h, refuse UNAUTHORIZED "verified profile required")
  | Some principal_id =>
      match ra_display_name authority with
      | None => (h, refuse UNAUTHORIZED "active profile required")
      | Some display_name =>
          let room := match room with
                      | Some room => if str_is_empty room then None else Some room
                      | None => None
                      end in
          let locas := (fun room => (room, loca_roles h room principal_id display_name)) <$> room in
          let '(h, session) := session_identity (session_of headers) h in
          let credential :=
            credential_id_for_request h (admin_token_of headers) (session_of headers) in
          (h, (OK, BProfile principal_id display_name authority locas
                     (sess_expires_at <$> session) (session ≫= fun _ => credential)))
      end
  end.

(** @src routes/membership.rs fn list_profile_credentials *)
Definition list_profile_credentials_route headers : Hub St -> Hub St * Response :=
  if_principal headers (fun principal_id h =>
    let current := credential_id_for_request h (admin_token_of headers) (session_of headers) in
    (h, (OK, BCredentials (map (fun credential =>
       (credential, bool_decide (current = Some (cred_id credential))))
       (list_credentials (h_store h) principal_id))))).

(** @src routes/membership.rs fn create_profile_credential_route *)
Definition create_profile_credential_route headers (label : string)
    : Hub St -> Hub St * Response :=
  if_principal headers (fun principal_id h =>
    let label := trim label in
    if str_is_empty label || (64 <? String.length label)%nat || existsb is_control (chars label)
    then (h, refuse BAD_REQUEST "credential label must be 1-64 visible characters")
    else
      let '(h, created) := create_profile_credential principal_id label h in
      (h, match created with
          | Ok (credential, secret) => (CREATED, BCredential credential secret)
          | Err _ => refuse SERVICE_UNAVAILABLE "could not create credential — try again"
          end)).

(** @src routes/membership.rs fn revoke_profile_credential_route *)
Definition revoke_profile_credential_route headers (credential_id : string)
    : Hub St -> Hub St * Response :=
  if_principal headers (fun principal_id h =>
    let '(h, revoked) := revoke_profile_credential principal_id credential_id h in
    (h, match revoked with
        | Ok _ => (NO_CONTENT, BNone)
        | Err CredNotFound => refuse NOT_FOUND "no such credential"
        | Err CredRootRecovery =>
            refuse CONFLICT "root recovery credential cannot be revoked here"
        | Err CredStorage => refuse SERVICE_UNAVAILABLE "could not revoke credential — try again"
        end)).

(** ** Members *)

(** @src routes/membership.rs fn list_members *)
Definition list_members_route headers : Hub St -> Hub St * Response :=
  if_admin headers (refuse UNAUTHORIZED "master only") (fun h =>
    (h, (OK, BMemberships (map (fun member =>
       (member_management_id (mb_token member), member)) (memberships h))))).

(** @src routes/membership.rs fn list_profiles *)
Definition list_profiles_route headers : Hub St -> Hub St * Response :=
  if_admin headers (refuse FORBIDDEN "Building authority required") (fun h =>
    (h, (OK, BProfiles (profiles h)))).

(** @src routes/membership.rs fn admit_member *)
Definition admit_member_route headers (name kind : option string) : Hub St -> Hub St * Response :=
  if_admin headers (refuse UNAUTHORIZED "master only") (fun h =>
    let name := trimmed name in
    if str_is_empty name then (h, refuse BAD_REQUEST "a member needs a name")
    else
      let kind := default "agent"%string kind in
      if negb (bool_decide (kind = "agent"%string)) && negb (bool_decide (kind = "user"%string))
      then (h, refuse BAD_REQUEST "kind must be 'agent' or 'user'")
      else
        let '(h, admitted) := admit_member name kind (signed_by headers h) h in
        (h, match admitted with
            | Ok member => (CREATED, BMembership member)
            | Err _ => refuse SERVICE_UNAVAILABLE "could not save member — try again"
            end)).

(** @src routes/membership.rs fn set_member_suspension_route *)
Definition set_member_suspension_route headers (reference : string) (suspended : option bool)
    (reason : option string) : Hub St -> Hub St * Response :=
  if_master headers (refuse FORBIDDEN "Master authority required") (fun h =>
    if negb (member_suspension_supported h)
    then (h, refuse CONFLICT "Suspension requires a persistent Building")
    else
      match suspended with
      | None => (h, refuse BAD_REQUEST "suspended must be a boolean")
      | Some suspended =>
          let reason := trimmed reason in
          if (500 <? String.length reason)%nat
          then (h, refuse BAD_REQUEST "reason is too long")
          else
            let '(h, set) := set_member_suspended reference suspended reason h in
            (h, match set with
                | Ok true => (OK, BSuspended suspended)
                | Ok false => refuse NOT_FOUND "membership or suspension not found"
                | Err _ => refuse SERVICE_UNAVAILABLE "could not save membership state"
                end)
      end).

(** @src routes/membership.rs fn revoke_member_route *)
Definition revoke_member_route headers (token : string) : Hub St -> Hub St * Response :=
  if_master headers (refuse FORBIDDEN "Master authority required") (fun h =>
    let '(h, revoked) := revoke_member_ref token h in
    (h, match revoked with
        | Ok true => (OK, BText "revoked")
        | Ok false => refuse NOT_FOUND "no such member"
        | Err _ => refuse SERVICE_UNAVAILABLE "could not save revocation — try again"
        end)).

(** @src routes/membership.rs fn list_residents *)
Definition list_residents_route headers : Hub St -> Hub St * Response :=
  if_admin headers (refuse UNAUTHORIZED "master only") (fun h => (h, (OK, BResidents (residents h)))).

(** The caretaker's view of the building: its own session, membership or davet
    is enough. *)
(** @src routes/membership.rs fn caretaker_residents *)
Definition caretaker_residents_route headers h : Hub St * Response :=
  let '(h, session) := session_identity (session_of headers) h in
  let actor :=
    or_else (sess_name <$> session)
      (token ← member_token_of headers;
       or_else (mb_name <$> member_for_credential h (Some token))
         (inv_name <$> invite_by_token h token)) in
  match actor with
  | None => (h, refuse UNAUTHORIZED "caretaker identity required")
  | Some actor =>
      if negb (is_caretaker h actor) then (h, refuse FORBIDDEN "configured caretaker only")
      else (h, (OK, BResidents (residents h)))
  end.

(** ** Second masters *)

(** @src routes/membership.rs fn list_smasters *)
Definition list_smasters_route headers : Hub St -> Hub St * Response :=
  if_master headers (refuse UNAUTHORIZED "master only") (fun h =>
    (h, (OK, BSmasters (map (fun p => (smaster_management_id p.1, p.2)) (smasters h))))).

(** @src routes/membership.rs fn create_smaster *)
Definition create_smaster_route headers (name : option string) : Hub St -> Hub St * Response :=
  if_master headers (refuse UNAUTHORIZED "only the master appoints a smaster") (fun h =>
    let name := trimmed name in
    if str_is_empty name then (h, refuse BAD_REQUEST "a smaster needs a name")
    else
      let '(h, added) := add_smaster name h in
      (h, match added with
          | Ok token => (CREATED, BSmaster token name)
          | Err _ => refuse SERVICE_UNAVAILABLE "could not save smaster — try again"
          end)).

(** @src routes/membership.rs fn revoke_smaster_route *)
Definition revoke_smaster_route headers (token : string) : Hub St -> Hub St * Response :=
  if_master headers (refuse UNAUTHORIZED "only the master revokes a smaster") (fun h =>
    let '(h, revoked) := revoke_smaster_ref token h in
    (h, match revoked with
        | Ok true => (OK, BText "revoked")
        | Ok false => refuse NOT_FOUND "no such smaster"
        | Err _ => refuse SERVICE_UNAVAILABLE "could not save revocation — try again"
        end)).

(** ** Who am I *)

(** @src routes/membership.rs fn whoami *)
Definition whoami_route headers h : Hub St * Response :=
  let '(h, session) := session_identity (session_of headers) h in
  match session with
  | Some idy => (h, (OK, BWhoSession idy))
  | None =>
      let token := member_token_of headers in
      match member_for_credential h token with
      | Some m =>
          (h, (OK, BWhoMember m (map inv_room (invites_for_member h (mb_token m)))))
      | None =>
          match token ≫= invite_room h with
          | Some loca => (h, (OK, BWhoDavet loca))
          | None =>
              if is_member h token then (h, (OK, BWhoBuilding))
              else (h, refuse UNAUTHORIZED "no davet")
          end
      end
  end.

(** @src routes/membership.rs fn claim_membership *)
Definition claim_membership_route headers h : Hub St * Response :=
  let member :=
    token ← member_token_of headers;
    or_else (member_for_credential h (Some token))
      (invite ← invite_by_token h token; member_of h (Some (inv_member invite))) in
  (h, match member with
      | None => refuse UNAUTHORIZED "a live davet is required"
      | Some member => (OK, BClaimed member)
      end).

(** ** Sessions *)

(** What an admission to [/sessions] carries beyond a davet: the paired or
    presented authority. *)
(** @src routes/membership.rs:519-536 create_session_route *)
Definition session_grant headers (paired_admin_ttl : option N) (token : option string)
    (davet : option Invite) h : option AdminSessionGrant :=
  match paired_admin_ttl with
  | Some ttl => Some (master_pairing_grant ttl h)
  | None =>
      if bool_decide (davet = None) && negb (bool_decide (admin_token_of headers = None))
      then admin_session_grant (admin_token_of headers) ADMIN_SESSION_TTL_MS h
      else if bool_decide (davet = None)
              && (negb (bool_decide (member_for_credential h token = None))
                  || bool_decide (ra_building_role (credential_authority h token)
                                  = Some RoleSmaster))
      then admin_session_grant token ADMIN_SESSION_TTL_MS h
      else None
  end.

(** The pairing code is consumed first, whatever the rest of the request. *)
(** @src routes/membership.rs fn create_session_route *)
Definition create_session_route headers (body : CreateSession) h : Hub St * Response :=
  let '(h, paired_admin_ttl) :=
    match pairing_code_of headers with
    | Some code => consume_admin_pairing code h
    | None => (h, None)
    end in
  let paired_admin := negb (bool_decide (paired_admin_ttl = None)) in
  let token := if paired_admin then None else member_token_of headers in
  let supplied := admin_token_of headers in
  let credential := credential_authority h supplied in
  let credential_principal := negb (bool_decide (ra_principal_id credential = None)) in
  let personal := credential_authority h token in
  if negb (bool_decide (supplied = None)) && negb credential_principal
     && negb (is_building_admin credential)
  then (h, refuse UNAUTHORIZED "credential revoked or unknown")
  else if negb paired_admin && negb (is_member h token)
          && bool_decide (member_for_credential h token = None)
          && negb (is_invite_token h token) && negb credential_principal
          && bool_decide (ra_principal_id personal = None)
  then (h, refuse UNAUTHORIZED "davet required")
  else
    let davet := token ≫= invite_by_token h in
    let grant := session_grant headers paired_admin_ttl token davet h in
    if str_is_empty (trim (cs_name body)) && bool_decide (davet = None)
       && (match grant with Some _ => false | None => true end)
    then (h, refuse BAD_REQUEST "empty name")
    else
      let '(h, created) := create_session_scoped body davet grant h in
      (h, match created with
          | Ok session => (CREATED, BSession session)
          | Err _ => refuse SERVICE_UNAVAILABLE
              "could not persist the admin session — try again"
          end).

(** @src routes/membership.rs fn create_pairing_route *)
Definition create_pairing_route headers (ttl_hours : option string) : Hub St -> Hub St * Response :=
  if_master headers (refuse UNAUTHORIZED "master required") (fun h =>
    match pairing_ttl_ms ttl_hours with
    | Err message => (h, refuse BAD_REQUEST message)
    | Ok ttl_ms =>
        let '(h, rotated) := rotate_admin_pairing_for ttl_ms h in
        (h, match rotated with
            | Some (code, expires_at) =>
                (CREATED, BPairing code (ttl_ms / (60 * 60 * 1000)) expires_at)
            | None => refuse CONFLICT "ADMIN_TOKEN is not configured"
            end)
    end).

(** @src routes/membership.rs fn delete_session_route *)
Definition delete_session_route headers h : Hub St * Response :=
  match session_of headers with
  | None => (h, refuse UNAUTHORIZED "session token required")
  | Some token =>
      let '(h, revoked) := revoke_session token h in
      (h, match revoked with
          | Ok true => (NO_CONTENT, BNone)
          | Ok false => refuse UNAUTHORIZED "invalid or expired session"
          | Err _ => refuse SERVICE_UNAVAILABLE "could not revoke the session — try again"
          end)
  end.

(** ** Admission stock and join requests *)

Definition no_stock_authority : Response := refuse UNAUTHORIZED "building admin required".

(** @src routes/membership.rs fn create_admission_stock_route *)
Definition create_admission_stock_route headers (count : N) (ttl_hours : option N)
    : Hub St -> Hub St * Response :=
  if_admin headers no_stock_authority (fun h =>
    if (count =? 0)%N || (100 <? count)%N
    then (h, refuse BAD_REQUEST "count must be between 1 and 100")
    else
      match admission_ttl_ms ttl_hours with
      | Err message => (h, refuse BAD_REQUEST message)
      | Ok ttl_ms =>
          let '(h, (minted, total, available)) :=
            mint_admission_stock (N.to_nat count) ttl_ms h in
          (h, (CREATED, BStock (Some minted) total available))
      end).

(** @src routes/membership.rs fn get_admission_stock_route *)
Definition get_admission_stock_route headers : Hub St -> Hub St * Response :=
  if_admin headers no_stock_authority (fun h =>
    let '(total, available) := admission_stock_summary h in
    (h, (OK, BStock None total available))).

(** @src routes/membership.rs fn create_join_request_route *)
Definition create_join_request_route headers (peer : IpAddr) (name : string)
    (kind : option string) h : Hub St * Response :=
  let name := trim name in
  if negb (valid_agent_name name)
  then (h, refuse BAD_REQUEST
          "name must be 1-64 ASCII letters, digits, dot, dash, or underscore")
  else
    let kind := default "agent"%string kind in
    if negb (bool_decide (kind = "agent"%string)) && negb (bool_decide (kind = "user"%string))
    then (h, refuse BAD_REQUEST "kind must be 'agent' or 'user'")
    else
      let '(h, created) := create_join_request name kind (client_ip headers peer) h in
      (h, match created with
          | JoinCreated id secret => (CREATED, BJoinRequest id secret)
          | JoinNameTaken => refuse CONFLICT "that name already exists — choose another"
          | JoinBacklogFull =>
              refuse TOO_MANY_REQUESTS "too many pending join requests — try again later"
          end).

(** A handler that needs the request's secret. *)
Definition if_join_secret headers (rest : string -> Hub St -> Hub St * Response) h
    : Hub St * Response :=
  match join_secret_of headers with
  | None => (h, refuse UNAUTHORIZED "x-join-secret header required")
  | Some secret => rest secret h
  end.

(** @src routes/membership.rs fn get_join_request_route *)
Definition get_join_request_route headers (id : string) : Hub St -> Hub St * Response :=
  if_join_secret headers (fun secret h =>
    (h, match join_request_view h id secret with
        | Some (status, _, bootstrap_ready) => (OK, BJoinView status bootstrap_ready)
        | None => refuse NOT_FOUND "unknown request or secret"
        end)).

(** @src routes/membership.rs fn bootstrap_join_request_route *)
Definition bootstrap_join_request_route headers (id : string) : Hub St -> Hub St * Response :=
  if_join_secret headers (fun secret h =>
    let '(h, claimed) := claim_join_request_bootstrap id secret h in
    (h, match claimed with
        | Some mb => (CREATED, BDavet mb)
        | None => refuse NOT_FOUND "not approved, already finalized, or bad secret"
        end)).

(** @src routes/membership.rs fn ack_join_request_route *)
Definition ack_join_request_route headers (id : string) : Hub St -> Hub St * Response :=
  if_join_secret headers (fun secret h =>
    let '(h, acked) := ack_join_request_bootstrap id secret h in
    (h, match acked with
        | Some _ => (OK, BAcknowledged)
        | None => refuse NOT_FOUND "unknown request or secret, or not approved"
        end)).

(** @src routes/membership.rs fn list_join_requests_route *)
Definition list_join_requests_route headers : Hub St -> Hub St * Response :=
  if_admin headers no_stock_authority (fun h =>
    (h, (OK, BJoinPending (list_pending_join_requests h)))).

(** @src routes/membership.rs fn approve_join_request_route *)
Definition approve_join_request_route headers (id : string) : Hub St -> Hub St * Response :=
  if_admin headers no_stock_authority (fun h =>
    let '(h, approved) := approve_join_request id (signed_by headers h) h in
    (h, match approved with
        | Approved => (OK, BStatus "approved")
        | AlreadyDecided => (OK, BStatus "already_decided")
        | ApproveNameTaken =>
            refuse CONFLICT "that name already belongs to a member — request refused"
        | NoStock => refuse CONFLICT "no admission stock — mint more with POST /admission-stock"
        | ApproveFailed => refuse SERVICE_UNAVAILABLE "could not issue membership — try again"
        end)).

(** @src routes/membership.rs fn deny_join_request_route *)
Definition deny_join_request_route headers (id : string) : Hub St -> Hub St * Response :=
  if_admin headers no_stock_authority (fun h =>
    let '(h, denied) := deny_join_request id (signed_by headers h) h in
    (h, if denied then (OK, BStatus "denied") else refuse CONFLICT "request is not pending")).
End members.

(** ** Davets *)

Section building.
Context {St : Type} `{Unicode} `{HeaderText} `{Digest} `{Csprng} `{StoreBase St}
  `{IdentityStore St} `{ReadStore St}.
Implicit Types h : Hub St.
Implicit Types headers : HeaderMap.

(** ** Davets *)

(** @src routes/rooms.rs:377-408 create_invite *)
Definition invite_error_response (e : InviteError) : Response :=
  match e with
  | InvAlreadyInvited => refuse CONFLICT "already holds a davet for this loca"
  | InvMemberNotFound => refuse CONFLICT "this agent does not belong to the building yet"
  | InvFull => refuse CONFLICT "this loca is full — no free seat"
  | InvReserved =>
      refuse FORBIDDEN "iye is reserved for Building authority and configured caretakers"
  | InvStorage => refuse SERVICE_UNAVAILABLE "could not save davet — try again"
  | InvMissingRoom => refuse NOT_FOUND "create the loca before issuing a davet"
  | InvSealed => refuse CONFLICT "this loca is permanently sealed"
  end.

(** @src routes/rooms.rs fn create_invite *)
Definition create_invite_route (room : string) headers (name : string)
    : Hub St -> Hub St * Response :=
  if_admin headers (refuse UNAUTHORIZED "master only") (fun h =>
    let name := trim name in
    if str_is_empty name
    then (h, refuse BAD_REQUEST "name required — a davet is given to someone")
    else
      match member_by_name h name with
      | None => (h, refuse CONFLICT "this agent does not belong to the building yet")
      | Some member =>
          let '(h, invited) :=
            invite_member_to_room (mb_token member) room (signed_by headers h) h in
          (h, match invited with
              | Ok inv => (OK, BInvite inv)
              | Err e => invite_error_response e
              end)
      end).

(** @src routes/rooms.rs fn list_invites *)
Definition list_invites_route (room : string) headers : Hub St -> Hub St * Response :=
  if_admin headers (refuse UNAUTHORIZED "master only") (fun h =>
    (h, (OK, BInvites (map (fun invite =>
       (invite_management_id (inv_token invite), member_management_id (inv_member invite),
        invite)) (invites_of h room))))).

(** @src routes/rooms.rs fn revoke_invite *)
Definition revoke_invite_route (room token : string) headers : Hub St -> Hub St * Response :=
  if_admin headers (refuse UNAUTHORIZED "master only") (fun h =>
    if (match invite_by_ref h token with
        | Some inv => negb (bool_decide (inv_room inv = room))
        | None => false
        end)
    then (h, refuse NOT_FOUND "no such davet in this loca")
    else
      let '(h, master) := is_master_req headers h in
      let issued_by_master :=
        match invite_by_token h token with
        | Some i => bool_decide (inv_issued_by i = "master"%string)
        | None => false
        end in
      if negb master && issued_by_master
      then (h, refuse FORBIDDEN "the master issued this davet — only the master ends it")
      else
        let '(h, revoked) := revoke_invite_ref token h in
        (h, match revoked with
            | Ok true => (OK, BText "revoked")
            | Ok false => refuse NOT_FOUND "no such davet"
            | Err _ => refuse SERVICE_UNAVAILABLE "could not save revocation — try again"
            end)).

(** @src routes/lobby.rs fn call_into_loca *)
Definition call_into_loca_route (room : string) headers (name : option string)
    : Hub St -> Hub St * Response :=
  if_admin headers (refuse UNAUTHORIZED "only the master calls someone in") (fun h =>
    let name := trim (default ""%string name) in
    if str_is_empty name then (h, refuse BAD_REQUEST "who?")
    else
      match member_by_name h name with
      | None => (h, refuse NOT_FOUND "not a building member — admit them first")
      | Some member =>
          let '(h, invited) :=
            invite_member_to_room (mb_token member) room (signed_by headers h) h in
          (h, match invited with
              | Ok inv => (CREATED, BCalled name room (inv_token inv))
              | Err InvAlreadyInvited => (OK, BAlreadyCalled name)
              | Err InvMemberNotFound =>
                  refuse NOT_FOUND "not a building member — admit them first"
              | Err InvFull => refuse CONFLICT "this loca is full — no free seat"
              | Err InvReserved =>
                  refuse FORBIDDEN "iye is reserved for master, smaster, loca-dev and loca-care"
              | Err InvStorage => refuse SERVICE_UNAVAILABLE "could not save davet — try again"
              | Err InvMissingRoom => refuse NOT_FOUND "create the loca before issuing a davet"
              | Err InvSealed => refuse CONFLICT "this loca is permanently sealed"
              end)
      end).

(** The davet of the caller for this room: the one presented, or the one of the
    session's member. *)
(** @src routes/lobby.rs:93-104 release_self_from_loca *)
Definition own_davet (room : string) headers h : Hub St * option Invite :=
  match member_token_of headers ≫= (fun token => invite_for h room (Some token)) with
  | Some invite => (h, Some invite)
  | None =>
      let '(h, session) := session_identity (session_of headers) h in
      (h, match session with
          | None => None
          | Some idy =>
              match sess_member idy, sess_loca idy with
              | Some member, Some loca =>
                  if decide (loca = room)
                  then List.find (fun invite => bool_decide (inv_room invite = room))
                         (invites_for_member h member)
                  else None
              | _, _ => None
              end
          end)
  end.

(** @src routes/lobby.rs fn release_self_from_loca *)
Definition release_self_route (room : string) headers h : Hub St * Response :=
  let '(h, invite) := own_davet room headers h in
  match invite with
  | None => (h, refuse UNAUTHORIZED "your own davet/session for this loca is required")
  | Some invite =>
      let '(h, revoked) := revoke_invite (inv_token invite) h in
      (h, match revoked with
          | Ok true => (NO_CONTENT, BNone)
          | Ok false => refuse NOT_FOUND "davet already ended"
          | Err _ => refuse SERVICE_UNAVAILABLE "could not release the seat — try again"
          end)
  end.
End building.
