(* ===== verification/RouteMemory.v ===== *)
(** * Handlers of the memory of a room

    crates/server/src/routes/content.rs: who may set the owner, write and append,
    and what is read. *)

From Stdlib Require Import Ascii.
From S2P Require Import Prelude Text Protocol StoreApi Hub Access Membership Queries Boot Memory Http Doors RouteWork RouteRooms.

Section memory_routes.
Context {St : Type} `{Unicode} `{HeaderText} `{StoreBase St} `{IdentityStore St} `{MemoryStore St}.
Implicit Types h : Hub St.
Implicit Types headers : HeaderMap.

(** @src routes/content.rs fn memory_actor *)
Definition memory_actor headers h : Hub St * result SessionIdentity Response :=
  match session_of headers with
  | None => (h, Err (refuse UNAUTHORIZED "session token required"))
  | Some token =>
      let '(h, session) := session_identity (Some token) h in
      (h, match session with
          | Some idy => Ok idy
          | None => Err (refuse UNAUTHORIZED "invalid session token")
          end)
  end.

Definition no_persistence : Response :=
  refuse SERVICE_UNAVAILABLE "loca memory requires persistent storage in this deployment".
Definition not_configured : Response := refuse NOT_FOUND "memory is not configured for this loca".

(** @src routes/content.rs fn memory_write_error *)
Definition memory_write_error (error : MemoryWriteError) : Response :=
  match error with
  | MwPersistenceUnavailable => no_persistence
  | MwOwnerUnassigned => refuse CONFLICT "memory owner is not assigned for this loca"
  | MwNotOwner => refuse FORBIDDEN "only the memory owner may write"
  | MwShortTooLarge => refuse PAYLOAD_TOO_LARGE "short memory exceeds the 4 KiB limit"
  | MwEntryTooLarge =>
      refuse PAYLOAD_TOO_LARGE "long-memory entry exceeds the 8 KiB wake-injection budget"
  | MwLongTooLarge =>
      refuse PAYLOAD_TOO_LARGE
        "long memory is a finite append-only ledger (64 KiB); existing entries remain readable, but no further entries can be appended"
  | MwStorage => refuse SERVICE_UNAVAILABLE "could not save loca memory — try again"
  end.

(** The name behind a session, or else behind a member credential or a davet. *)
(** @src routes/content.rs:60-69 caretaker_memory *)
Definition caller_name headers h : Hub St * option string :=
  let '(h, session) := session_identity (session_of headers) h in
  (h, match session with
      | Some idy => Some (sess_name idy)
      | None =>
          token ← member_token_of headers;
          or_else (mb_name <$> member_for_credential h (Some token))
                  (inv_name <$> invite_by_token h token)
      end).

(** @src routes/content.rs fn caretaker_memory *)
Definition caretaker_memory headers h : Hub St * Response :=
  let '(h, actor) := caller_name headers h in
  if negb (is_some_and (is_caretaker h) actor)
  then (h, refuse FORBIDDEN "configured caretaker only")
  else (h, match loca_memory_metadata h with
           | Ok rows => (OK, BMemoryMetadata rows)
           | Err _ => (SERVICE_UNAVAILABLE, BNone)
           end).

(** [.map(str::trim).filter(|v| !v.is_empty())] *)
Definition trimmed (s : option string) : option string :=
  match s with
  | Some v => let v := trim v in if str_is_empty v then None else Some v
  | None => None
  end.

(** @src routes/content.rs fn set_loca_memory_owner *)
Definition set_loca_memory_owner (room : string) headers (owner : option string)
    : Hub St -> Hub St * Response :=
  with_access room headers (fun h =>
    let '(h, master) := is_master_req headers h in
    if negb master then (h, refuse FORBIDDEN "only the master may assign memory ownership")
    else
      let '(h, set) := set_memory_owner room (trimmed owner) h in
      (h, match set with
          | Ok _ => (NO_CONTENT, BNone)
          | Err OwnerNotOne => refuse CONFLICT "memory owner must be one active Building identity"
          | Err OwnerStorage => (SERVICE_UNAVAILABLE, BNone)
          end)).

(** @src routes/content.rs fn get_loca_memory *)
Definition get_loca_memory (room : string) headers : Hub St -> Hub St * Response :=
  with_access room headers (fun h =>
    (h, if negb (memory_persistence_available (h_store h)) then no_persistence
        else match loca_memory h room with
             | Ok (Some memory) => (OK, BMemory memory)
             | Ok None => not_configured
             | Err _ => (SERVICE_UNAVAILABLE, BNone)
             end)).

(** @src routes/content.rs fn get_loca_memory_snapshot *)
Definition get_loca_memory_snapshot (room : string) headers : Hub St -> Hub St * Response :=
  with_access room headers (fun h =>
    (h, match loca_memory_snapshot h room with
        | Ok snapshot => (OK, BMemoryFrame (server_frame_memory room snapshot))
        | Err _ => (SERVICE_UNAVAILABLE, BNone)
        end)).

(** What both writing handlers check first. *)
(** @src routes/content.rs:145-154 write_short_memory *)
Definition as_memory_writer headers (room text : string)
    (rest : SessionIdentity -> Hub St -> Hub St * Response) : Hub St -> Hub St * Response :=
  with_access room headers (if_writable room (fun h =>
    if str_is_empty (trim text) then (h, refuse BAD_REQUEST "memory text is empty")
    else
      let '(h, actor) := memory_actor headers h in
      match actor with Err response => (h, response) | Ok actor => rest actor h end)).

(** @src routes/content.rs fn write_short_memory *)
Definition write_short_memory_route (room : string) headers (text : string)
    : Hub St -> Hub St * Response :=
  as_memory_writer headers room text (fun actor h =>
    let '(h, written) := write_short_memory room actor (trim text) h in
    (h, match written with
        | Ok memory => (OK, BMemory memory)
        | Err error => memory_write_error error
        end)).

(** @src routes/content.rs fn append_long_memory *)
Definition append_long_memory_route (room : string) headers (text : string)
    : Hub St -> Hub St * Response :=
  as_memory_writer headers room text (fun actor h =>
    let '(h, written) := append_long_memory room actor (trim text) h in
    (h, match written with
        | Ok entry => (CREATED, BMemoryEntry entry)
        | Err error => memory_write_error error
        end)).

(** [after_id] and [limit] are the query parameters that parse as numbers. *)
(** @src routes/content.rs fn list_long_memory_entries *)
Definition list_long_memory_entries (room : string) headers (after_id : option N) (limit : option nat)
    : Hub St -> Hub St * Response :=
  with_access room headers (fun h =>
    (h, if negb (memory_persistence_available (h_store h)) then no_persistence
        else
          match loca_memory_entries h room (default 0%N after_id) (clamp_nat (default 50 limit) 1 200) with
          | Ok page => (OK, BMemoryEntries page)
          | Err MrPersistenceUnavailable => no_persistence
          | Err MrNotConfigured => not_configured
          | Err MrInvariantViolation =>
              refuse CONFLICT "loca memory provenance is inconsistent with long memory"
          | Err MrStorage => (SERVICE_UNAVAILABLE, BNone)
          end)).
End memory_routes.
