(* ===== verification/RouteWiki.v ===== *)
(** * Handlers of the wiki

    crates/server/src/routes/wiki.rs: who may read, edit, configure and review the
    wiki of a loca. *)

From Stdlib Require Import Ascii.
From S2P Require Import Prelude Text Protocol StoreApi Tables WikiTypes Hub Access Membership Rooms Http Doors.
From S2P Require Import Memory WikiOps.

Section wiki_routes.
Context {St : Type} `{HeaderText} `{StoreBase St} `{IdentityStore St} `{MemoryStore St} `{WikiStore St}.
Implicit Types h : Hub St.
Implicit Types headers : HeaderMap.

(** @src routes/wiki.rs fn error *)
Definition wiki_error (e : WikiError) : Response :=
  match e with
  | WkPersistenceUnavailable | WkStorage => refuse SERVICE_UNAVAILABLE "wiki storage unavailable"
  | WkNotConfigured => refuse NOT_FOUND "wiki not configured"
  | WkPageNotFound => refuse NOT_FOUND "wiki page not found"
  | WkNotEditor => refuse FORBIDDEN "assigned wiki editor only"
  | WkConflict => refuse CONFLICT "reread wiki before retrying"
  | WkInvalidInput => refuse BAD_REQUEST "invalid wiki update"
  end.
(** [match .. { Ok(a) => f(a), Err(e) => error(e) }] *)
Definition wiki_answer {A} (f : A -> Response) (r : result A WikiError) : Response :=
  match r with Ok a => f a | Err e => wiki_error e end.

Definition wiki_read_only : Response := refuse CONFLICT "loca is read-only".
Definition if_wiki_writable (room : string) (rest : Hub St -> Hub St * Response) h : Hub St * Response :=
  if negb (is_writable h room) then (h, wiki_read_only) else rest h.

(** [hub.session_identity(session_of(&headers)).and_then(|a| a.principal_id)] *)
Definition session_principal headers h : Hub St * option string :=
  let '(h, session) := session_identity (session_of headers) h in
  (h, session ≫= sess_principal_id).
(** The rest, for a session of a principal, or else a refusal. *)
Definition as_principal headers (refusal : Response) (rest : string -> Hub St -> Hub St * Response) h
    : Hub St * Response :=
  let '(h, principal) := session_principal headers h in
  match principal with Some principal => rest principal h | None => (h, refusal) end.
(** [hub.is_loca_operator(&access.room, admin_token_of(..), session_of(..), "")] *)
Definition room_operator (room : string) headers h : Hub St * bool :=
  is_loca_operator room (admin_token_of headers) (session_of headers) "" h.

(** @src routes/wiki.rs fn get_wiki *)
Definition get_wiki (room : string) headers : Hub St -> Hub St * Response :=
  with_access room headers (fun h =>
    (h, wiki_answer (fun snapshot => (OK, BWiki snapshot)) (wiki_snapshot h room))).

(** @src routes/wiki.rs fn get_wiki_page *)
Definition get_wiki_page (room slug : string) headers : Hub St -> Hub St * Response :=
  with_access room headers (fun h =>
    (h, wiki_answer (fun page => (OK, BWikiPage page)) (wiki_page h room slug))).

(** @src routes/wiki.rs fn remove_wiki_page *)
Definition remove_wiki_page_route (room slug : string) headers (body : WikiPageRemoval)
    : Hub St -> Hub St * Response :=
  with_access room headers (if_wiki_writable room
    (as_principal headers (refuse UNAUTHORIZED "principal-bound editor session required")
      (fun principal h =>
        let '(h, removed) := remove_wiki_page room principal slug body h in
        (h, wiki_answer (fun revision => (OK, BPageRevision room slug revision)) removed)))).

(** @src routes/wiki.rs fn edit_wiki_page *)
Definition edit_wiki_page_route (room slug : string) headers (body : WikiPageEdit)
    : Hub St -> Hub St * Response :=
  with_access room headers (if_wiki_writable room (fun h =>
    let '(h, operator) := room_operator room headers h in
    if negb operator then (h, refuse FORBIDDEN "loca operator required")
    else
      let '(h, principal) := session_principal headers h in
      let actor := match principal with Some id => "operator:" +:+ id | None => "operator:master" end in
      let '(h, edited) := edit_wiki_page room actor slug body h in
      (h, wiki_answer (fun revision => (OK, BPageRevision room slug revision)) edited))).

(** @src routes/wiki.rs struct WikiConfiguration *)
Record WikiConfiguration : Type := mkWikiConfiguration {
  wcf_editor : string;
  wcf_enabled : bool;
  wcf_interval_messages : N;
}.

(** @src routes/wiki.rs fn configure_wiki *)
Definition configure_wiki_route `{Unicode} (room : string) headers (body : WikiConfiguration)
    : Hub St -> Hub St * Response :=
  with_access room headers (if_wiki_writable room (fun h =>
    let '(h, operator) := room_operator room headers h in
    if negb operator then (h, refuse FORBIDDEN "loca operator required")
    else
      let '(h, configured) :=
        configure_wiki room (trim (wcf_editor body)) (wcf_enabled body) (wcf_interval_messages body) h in
      (h, wiki_answer (fun _ => (NO_CONTENT, BNone)) configured))).

(** @src routes/wiki.rs fn commit_wiki *)
Definition commit_wiki_route (room : string) headers (body : WikiCommit) : Hub St -> Hub St * Response :=
  with_access room headers (if_wiki_writable room (fun h =>
    let '(h, session) := session_identity (session_of headers) h in
    match session with
    | None => (h, refuse UNAUTHORIZED "valid session required")
    | Some actor =>
        match sess_principal_id actor with
        | None => (h, refuse FORBIDDEN "principal-bound editor required")
        | Some principal =>
            let '(h, committed) := commit_wiki room principal body h in
            (h, wiki_answer (fun revision => (OK, BRevision revision)) committed)
        end
    end)).

Definition principal_required : Response := refuse UNAUTHORIZED "principal-bound session required".

(** @src routes/wiki.rs fn claim_wiki_review *)
Definition claim_wiki_review_route (room : string) headers : Hub St -> Hub St * Response :=
  with_access room headers (if_wiki_writable room (as_principal headers principal_required
    (fun principal h =>
      let '(h, claimed) := claim_wiki_review room principal h in
      (h, wiki_answer (fun batch => (OK, BWikiBatch batch)) claimed)))).

(** @src routes/wiki.rs fn renew_wiki_review *)
Definition renew_wiki_review_route (room : string) headers (lease : WikiLease)
    : Hub St -> Hub St * Response :=
  with_access room headers (if_wiki_writable room (as_principal headers principal_required
    (fun principal h =>
      let '(h, renewed) := renew_wiki_review room principal lease h in
      (h, wiki_answer (fun expires => (OK, BLeaseExpires expires)) renewed)))).

(** @src routes/wiki.rs fn finish_wiki_review *)
Definition finish_wiki_review_route (room : string) headers (lease : WikiLease) (review : WikiCommit)
    : Hub St -> Hub St * Response :=
  with_access room headers (if_wiki_writable room (as_principal headers principal_required
    (fun principal h =>
      let '(h, finished) := finish_wiki_review room principal review lease h in
      (h, wiki_answer (fun revision => (OK, BRevision revision)) finished)))).

(** @src routes/wiki.rs fn wiki_maintenance_status *)
Definition wiki_maintenance_status (room : string) headers : Hub St -> Hub St * Response :=
  with_access room headers (fun h =>
    (h, wiki_answer (fun status => (OK, BBatchStatus status)) (wiki_batch_status h room))).

(** @src routes/wiki.rs fn wiki_native_ready *)
Definition wiki_native_ready_route (room : string) headers (runtime : string)
    : Hub St -> Hub St * Response :=
  with_access room headers (fun h =>
    let '(h, session) := session_identity (session_of headers) h in
    match session with
    | None => (h, (UNAUTHORIZED, BNone))
    | Some actor =>
        if negb (bool_decide (sess_kind actor = Agent)) || negb (is_writable h room)
        then (h, (FORBIDDEN, BNone))
        else
          match sess_principal_id actor with
          | None => (h, (UNAUTHORIZED, BNone))
          | Some principal =>
              let '(h, noted) := wiki_native_ready room principal runtime h in
              (h, wiki_answer (fun _ => (OK, BDone "ready")) noted)
          end
    end).

(** @src routes/wiki.rs fn wiki_context *)
Definition wiki_context (room : string) headers : Hub St -> Hub St * Response :=
  with_access room headers (as_principal headers (UNAUTHORIZED, BNone) (fun principal h =>
    (h, wiki_answer (fun context => (OK, BWikiContext context)) (wiki_context_for h room principal)))).

(** [if !hub.is_writable(..) { return StatusCode::CONFLICT }] *)
Definition if_writable_status (room : string) (rest : Hub St -> Hub St * Response) h
    : Hub St * Response :=
  if negb (is_writable h room) then (h, (CONFLICT, BNone)) else rest h.

(** @src routes/wiki.rs fn wiki_context_request *)
Definition wiki_context_request (room : string) headers (body : WikiContextSelection)
    : Hub St -> Hub St * Response :=
  with_access room headers (as_principal headers (UNAUTHORIZED, BNone) (fun principal =>
    if_writable_status room (fun h =>
      let '(h, selected) := select_wiki_context room principal body h in
      (h, wiki_answer (fun _ => (OK, BDone "requested")) selected)))).

(** @src routes/wiki.rs fn wiki_context_accept *)
Definition wiki_context_accept (room : string) headers (body : WikiContextAck)
    : Hub St -> Hub St * Response :=
  with_access room headers (as_principal headers (UNAUTHORIZED, BNone) (fun principal =>
    if_writable_status room (fun h =>
      let '(h, accepted) := accept_wiki_context room principal body h in
      (h, wiki_answer (fun _ => (OK, BDone "accepted")) accepted)))).

(** @src routes/wiki.rs fn wiki_context_offer *)
Definition wiki_context_offer (room : string) headers (target : string) (selection : WikiContextSelection)
    : Hub St -> Hub St * Response :=
  with_access room headers (if_writable_status room (fun h =>
    let '(h, principal) := session_principal headers h in
    let '(h, operator) := room_operator room headers h in
    let '(h, offered) := offer_wiki_context room principal operator target selection h in
    (h, wiki_answer (fun _ => (OK, BDone "offered")) offered))).

(** @src routes/wiki.rs fn wiki_context_requests *)
Definition wiki_context_requests_route (room : string) headers : Hub St -> Hub St * Response :=
  with_access room headers (fun h =>
    let '(h, principal) := session_principal headers h in
    let '(h, operator) := room_operator room headers h in
    (h, wiki_answer (fun requests => (OK, BWikiRequests requests))
          (wiki_context_requests h room principal operator))).
End wiki_routes.
