(* ===== verification/RouteAttachments.v ===== *)
(** * Handlers of the attachments

    crates/server/src/routes/attachments.rs: what an upload is, what it is called,
    and how a file is served. *)

From Stdlib Require Import Ascii.
From Stdlib Require String.
From S2P Require Import Prelude Text Protocol StoreApi Hub Access Membership Http Doors Attachments.

(** [HeaderValue::from_str]: whether a text may stand in a header. *)
Class HeaderValueText : Type := { header_value : string -> bool }.

(** ** Bytes *)

Definition bytes_of (s : string) : list N := map N_of_ascii (String.list_ascii_of_string s).
Definition byte_string (l : list N) : string := String.string_of_list_ascii (map ascii_of_N l).

Definition within (lo hi b : N) : bool := (lo <=? b)%N && (b <=? hi)%N.
Definition continuation (b : N) : bool := within 128 191 b.

(** [std::str::from_utf8]: the well-formed sequences of the Unicode standard. *)
Fixpoint utf8_valid (l : list N) : bool :=
  match l with
  | [] => true
  | a :: rest =>
      if (a <? 128)%N then utf8_valid rest
      else if within 194 223 a then
        match rest with b :: rest => continuation b && utf8_valid rest | _ => false end
      else if within 224 239 a then
        match rest with
        | b :: c :: rest =>
            within (if (a =? 224)%N then 160 else 128) (if (a =? 237)%N then 159 else 191) b
            && continuation c && utf8_valid rest
        | _ => false
        end
      else if within 240 244 a then
        match rest with
        | b :: c :: d :: rest =>
            within (if (a =? 240)%N then 144 else 128) (if (a =? 244)%N then 143 else 191) b
            && continuation c && continuation d && utf8_valid rest
        | _ => false
        end
      else false
  end.

Definition starts_with (l prefix : list N) : bool := bool_decide (take (length prefix) l = prefix).

(** ** What a file is *)

(** @src routes/attachments.rs fn sniff_mime *)
Definition sniff_mime (bytes : string) : option string :=
  let l := bytes_of bytes in
  if starts_with l [137; 80; 78; 71; 13; 10; 26; 10]%N then Some "image/png"%string
  else if starts_with l [255; 216; 255]%N then Some "image/jpeg"%string
  else if (12 <=? length l)%nat && bool_decide (take 4 l = bytes_of "RIFF")
          && bool_decide (take 4 (drop 8 l) = bytes_of "WEBP")
  then Some "image/webp"%string
  else if starts_with l (bytes_of "%PDF-") then Some "application/pdf"%string
  else if negb (existsb (N.eqb 0) l) && utf8_valid l then Some "text/plain"%string
  else None.

Section names.
Context `{Unicode}.

(** @src routes/attachments.rs fn mime_matches *)
Definition mime_matches (claimed sniffed : string) : bool :=
  let c := map_ascii ascii_lower
             (trim (default "" (head (split_on (fun c => bool_decide (c = ";"%string)) claimed)))) in
  if bool_decide (sniffed = "text/plain"%string) then
    bool_decide (c ∈ ["text/plain"; "text/markdown"; "text/x-markdown"]%string)
  else bool_decide (c = sniffed).

(** [char::is_control]: the general category Cc. *)
Definition is_control (c : string) : bool :=
  match bytes_of c with
  | [a] => (a <? 32)%N || (a =? 127)%N
  | [a; b] => (a =? 194)%N && within 128 159 b
  | _ => false
  end.

(** @src routes/attachments.rs fn default_name *)
Definition default_name (sniffed : string) : string :=
  if bool_decide (sniffed = "image/png"%string) then "attachment.png"
  else if bool_decide (sniffed = "image/jpeg"%string) then "attachment.jpg"
  else if bool_decide (sniffed = "image/webp"%string) then "attachment.webp"
  else if bool_decide (sniffed = "application/pdf"%string) then "attachment.pdf"
  else "attachment.txt".

(** The last character boundary up to [end_]. *)
(** @src routes/attachments.rs:256-259 cap_bytes *)
Fixpoint boundary (s : string) (end_ : nat) : nat :=
  match end_ with
  | O => O
  | S e =>
      match String.get (S e) s with
      | Some a => if continuation (N_of_ascii a) then boundary s e else S e
      | None => if (S e =? String.length s)%nat then S e else boundary s e
      end
  end.
(** @src routes/attachments.rs fn cap_bytes *)
Definition cap_bytes (s : string) (max : nat) : string :=
  if (String.length s <=? max)%nat then s else String.substring 0 (boundary s max) s.

(** @src routes/attachments.rs fn sanitize_filename *)
Definition sanitize_filename (raw : option string) (sniffed : string) : string :=
  let cleaned := concat_chars
    (map (fun c => if bool_decide (c = "/"%string) || bool_decide (c = "\"%string) then "_"%string else c)
       (List.filter (fun c => negb (is_control c)) (chars (default "" raw)))) in
  let capped := cap_bytes (trim cleaned) 255 in
  if str_is_empty capped then default_name sniffed else capped.

(** The double quote, which a Rocq string cannot hold. *)
Definition quote : string := String (ascii_of_N 34) EmptyString.

(** @src routes/attachments.rs fn disposition_safe *)
Definition disposition_safe (name : string) : string :=
  concat_chars
    (map (fun c => if bool_decide (c = quote) || bool_decide (c = "\"%string) then "_"%string else c)
       (chars name)).
End names.

(** ** The handlers *)

Section attachments.
Context {St : Type} `{Unicode} `{HeaderText} `{HeaderValueText} `{Digest} `{Environment}
  `{StoreBase St} `{IdentityStore St} `{AttachmentStore St}.
Implicit Types h : Hub St.
Implicit Types headers : HeaderMap.

Definition no_attachments : Response :=
  refuse SERVICE_UNAVAILABLE "attachments are not available on this server".

(** @src routes/attachments.rs:35-58 upload_attachment *)
Definition uploader_of headers (identity : option SessionIdentity) h : result string Response :=
  match identity with
  | Some idy =>
      Ok (match sess_member idy with
          | Some m => "mb:" +:+ m
          | None => (match sess_kind idy with Agent => "agent" | User => "user" end) +:+ ":" +:+ sess_name idy
          end)
  | None =>
      if negb (bool_decide (session_of headers = None)) then Err (refuse UNAUTHORIZED "invalid session token")
      else if h_require_sessions h then Err (refuse UNAUTHORIZED "session token required")
      else Ok "anon"%string
  end.

(** What the bytes are, when that is allowed and what the header says. *)
(** @src routes/attachments.rs:60-96 upload_attachment *)
Definition checked_type headers (body : string) : result string Response :=
  if str_is_empty body then Err (refuse BAD_REQUEST "empty file")
  else if (attachment_max_bytes <? N.of_nat (String.length body))%N
  then Err (refuse PAYLOAD_TOO_LARGE "file exceeds the 10 MB attachment limit")
  else
    match sniff_mime body with
    | None =>
        Err (refuse UNSUPPORTED_MEDIA_TYPE
               "unsupported file type (allowed: png, jpeg, webp, pdf, txt, md)")
    | Some sniffed =>
        match header headers "content-type" with
        | Some claimed =>
            if mime_matches claimed sniffed then Ok sniffed
            else Err (refuse UNSUPPORTED_MEDIA_TYPE
                        "file content does not match the declared content-type")
        | None => Ok sniffed
        end
    end.

(** @src routes/attachments.rs:103-127 upload_attachment *)
Definition upload_answer (put : result Attachment AttachError) : Response :=
  match put with
  | Ok att => (CREATED, BAttachment att)
  | Err AttDisabled => no_attachments
  | Err AttQuotaRoom => refuse PAYLOAD_TOO_LARGE "this loca's attachment quota is full"
  | Err AttQuotaBuilding => refuse PAYLOAD_TOO_LARGE "the building's attachment storage is full"
  | Err AttStorage => refuse SERVICE_UNAVAILABLE "could not store the file — try again"
  end.

(** @src routes/attachments.rs fn upload_attachment *)
Definition upload_attachment (room : string) headers (body : string) : Hub St -> Hub St * Response :=
  with_access room headers (fun h =>
    if negb (attachments_enabled h) then (h, no_attachments)
    else
      let '(h, identity) := session_identity (session_of headers) h in
      match uploader_of headers identity h with
      | Err refusal => (h, refusal)
      | Ok uploader =>
          match checked_type headers body with
          | Err refusal => (h, refusal)
          | Ok sniffed =>
              let name := sanitize_filename (header headers "x-filename") sniffed in
              let '(h, put) := put_pending_attachment room uploader name sniffed body h in
              (h, upload_answer put)
          end
      end).

(** [HeaderValue::from_str(v).unwrap_or(d)] *)
Definition header_or (v d : string) : string := if header_value v then v else d.

(** @src routes/attachments.rs fn get_attachment *)
Definition get_attachment (room : string) headers (id : string) : Hub St -> Hub St * Response :=
  with_access room headers (fun h =>
    if negb (attachments_enabled h) then (h, no_attachments)
    else
      match read_room_attachment h room id with
      | None => (h, refuse NOT_FOUND "no such attachment in this loca")
      | Some serve =>
          (h, (OK, BFile (header_or (serve_mime serve) "application/octet-stream")
                 (header_or ("attachment; filename=" +:+ quote +:+ disposition_safe (serve_name serve) +:+ quote)
                    "attachment")
                 (serve_bytes serve)))
      end).
End attachments.
