(* ===== verification/Router.v ===== *)
(** * The router

    crates/server/src/main.rs: the routes of the HTTP interface, and the gate
    in front of them.  The requests that serve the embedded files (the web client,
    documents, skill bundles) have no constructor here; the two that open a
    websocket are in Sockets.v.  The master's desk is a second interface on a port of
    its own, with neither gate nor sessions. *)

From Stdlib Require Import Ascii.
From S2P Require Import Prelude Text Net Protocol StoreApi Hub Attention Chat Access Membership.
From S2P Require Import Joins Rooms Queries Http Doors RouteWork RouteRooms.
From S2P Require Import WikiTypes Memory WikiOps Attachments RouteMembers.
From S2P Require Import RouteMemory RouteWiki RouteAttachments.

(** What follows [/rooms/:id] in a request, with its body. *)
Inductive room_request : Type :=
  | CallIntoLoca (name : option string)
  | ReleaseSelf
  | GetMessages (since : option N) (limit : option nat)
  | PostMessageTo (body : PostMessage)
  | GetReactions
  | SetReaction (message_id : N) (body : SetMessageReaction)
  | GetMembers
  | GetMode
  | SetMode (mode : ChatMode)
  | SetLead (lead : option string)
  | GetOperators
  | AppointOperator (principal_id : string)
  | RevokeOperator
  | GetSettings
  | PutSettings (body : SetSettings)
  | GetModeration
  | Moderate (action : ModAction) (name : string)
  | DeleteRoom
  | ListInvites
  | CreateInvite (name : string)
  | RevokeInvite (token : string)
  | GetNotes
  | PostNote (body : CreateNote)
  | GetNote (key : string)
  | PutNote (key : string) (body : UpdateNote)
  | DeleteNote (key : string)
  | NoteHistory (key : string)
  | SearchRoom (q : option string) (limit : option nat)
  | GetJournal
  | PostJournal (body : CreateJournalEntry)
  | ListTasks
  | PostTask (body : CreateTask)
  | PatchTask (tid : N) (body : UpdateTask)
  | ListGoals
  | PostGoal (body : CreateGoal)
  | PatchGoal (gid : N) (body : UpdateGoal)
  | ListAttentions
  | PostAttention (body : CreateAttention)
  | ClaimAttention (attention_id actor : string)
  | ResolveAttention (attention_id actor : string)
  | ListWaits
  | PostWait (body : SetWait)
  | DeleteWait (name actor : string)
  | AckCare (signal_id actor : string)
  | GetMemory
  | GetMemorySnapshot
  | PutMemoryOwner (owner : option string)
  | PutShortMemory (text : string)
  | PostMemoryEntry (text : string)
  | GetMemoryEntries (after_id : option N) (limit : option nat)
  | GetWiki
  | GetWikiPage (slug : string)
  | PutWikiPage (slug : string) (body : WikiPageEdit)
  | DeleteWikiPage (slug : string) (body : WikiPageRemoval)
  | PutWikiConfig (body : WikiConfiguration)
  | PostWikiReview (body : Tables.WikiCommit)
  | GetWikiMaintenance
  | ClaimWikiReview
  | RenewWikiReview (lease : WikiLease)
  | FinishWikiReview (lease : WikiLease) (review : Tables.WikiCommit)
  | PostWikiRuntime (runtime : string)
  | GetWikiContext
  | PostWikiContext (body : WikiContextSelection)
  | AcceptWikiContext (body : WikiContextAck)
  | OfferWikiContext (target : string) (selection : WikiContextSelection)
  | GetWikiContextRequests
  | PostAttachment (body : string)
  | GetAttachment (id : string).

(** The other paths. *)
Inductive street_request : Type :=
  | PostSession (body : CreateSession)
  | DeleteSession
  | PostPairing (ttl_hours : option string)
  | GetStock
  | PostStock (count : N) (ttl_hours : option N)
  | ListJoinRequests
  | PostJoinRequest (name : string) (kind : option string)
  | GetJoinRequest (id : string)
  | ApproveJoinRequest (id : string)
  | DenyJoinRequest (id : string)
  | BootstrapJoinRequest (id : string)
  | AckJoinRequest (id : string)
  | Whoami
  | Profile (room : option string)
  | ListCredentials
  | PostCredential (label : string)
  | DeleteCredential (credential_id : string)
  | ClaimMembership
  | ListMembers
  | PostMember (name kind : option string)
  | ListProfiles
  | CareResidents
  | PostRuntimeHealth (body : RuntimeHealthUpdate)
  | DeleteMember (token : string)
  | SuspendMember (reference : string) (suspended : option bool) (reason : option string)
  | ListResidents
  | ListSmasters
  | PostSmaster (name : option string)
  | DeleteSmaster (token : string)
  | ListRooms
  | PostRoom (name : string)
  | CareMemory
  | Health.

(** A request under [/rooms/:id], or another, or one under [/rooms/:id] whose
    segments do not decode. *)
Inductive request : Type :=
  | InRoom (room : string) (r : room_request)
  | Street (r : street_request)
  | Undecodable (path : string).

(** How a decoded segment is written in a path: percent-encoding. *)
Class PathText : Type := { encode_segment : string -> string }.

(** @src main.rs:419-548 main *)
Definition room_suffix `{PathText} (r : room_request) : string :=
  match r with
  | CallIntoLoca _ => "/call"
  | ReleaseSelf => "/release"
  | GetMessages _ _ | PostMessageTo _ => "/messages"
  | GetReactions => "/reactions"
  | SetReaction message_id _ => "/messages/" +:+ dec message_id +:+ "/reactions"
  | GetMembers => "/members"
  | GetMode | SetMode _ => "/mode"
  | SetLead _ => "/lead"
  | GetOperators | AppointOperator _ | RevokeOperator => "/operators"
  | GetSettings | PutSettings _ => "/settings"
  | GetModeration | Moderate _ _ => "/moderate"
  | DeleteRoom => ""
  | ListInvites | CreateInvite _ => "/invites"
  | RevokeInvite token => "/invites/" +:+ encode_segment token
  | GetNotes | PostNote _ => "/notes"
  | GetNote key | PutNote key _ | DeleteNote key => "/notes/" +:+ encode_segment key
  | NoteHistory key => "/notes/" +:+ encode_segment key +:+ "/history"
  | SearchRoom _ _ => "/search"
  | GetJournal | PostJournal _ => "/journal"
  | ListTasks | PostTask _ => "/tasks"
  | PatchTask tid _ => "/tasks/" +:+ dec tid
  | ListGoals | PostGoal _ => "/goals"
  | PatchGoal gid _ => "/goals/" +:+ dec gid
  | ListAttentions | PostAttention _ => "/attentions"
  | ClaimAttention id _ => "/attentions/" +:+ encode_segment id +:+ "/claim"
  | ResolveAttention id _ => "/attentions/" +:+ encode_segment id +:+ "/resolve"
  | ListWaits | PostWait _ => "/waits"
  | DeleteWait name _ => "/waits/" +:+ encode_segment name
  | AckCare signal_id _ => "/care/" +:+ encode_segment signal_id +:+ "/ack"
  | GetMemory => "/memory"
  | GetMemorySnapshot => "/memory/snapshot"
  | PutMemoryOwner _ => "/memory/owner"
  | PutShortMemory _ => "/memory/short"
  | PostMemoryEntry _ | GetMemoryEntries _ _ => "/memory/entries"
  | GetWiki => "/wiki"
  | GetWikiPage slug | PutWikiPage slug _ | DeleteWikiPage slug _ => "/wiki/pages/" +:+ encode_segment slug
  | PutWikiConfig _ => "/wiki/config"
  | PostWikiReview _ => "/wiki/review"
  | GetWikiMaintenance => "/wiki/maintenance"
  | ClaimWikiReview => "/wiki/maintenance/claim"
  | RenewWikiReview _ => "/wiki/maintenance/renew"
  | FinishWikiReview _ _ => "/wiki/maintenance/finish"
  | PostWikiRuntime _ => "/wiki/runtime"
  | GetWikiContext | PostWikiContext _ => "/wiki/context"
  | AcceptWikiContext _ => "/wiki/context/accept"
  | OfferWikiContext _ _ => "/wiki/context/offer"
  | GetWikiContextRequests => "/wiki/context/requests"
  | PostAttachment _ => "/attachments"
  | GetAttachment id => "/attachments/" +:+ encode_segment id
  end.

(** @src main.rs:360-429 main *)
Definition street_path `{PathText} (r : street_request) : string :=
  match r with
  | PostSession _ | DeleteSession => "/sessions"
  | PostPairing _ => "/pairings"
  | GetStock | PostStock _ _ => "/admission-stock"
  | ListJoinRequests | PostJoinRequest _ _ => "/join-requests"
  | GetJoinRequest id => "/join-requests/" +:+ encode_segment id
  | ApproveJoinRequest id => "/join-requests/" +:+ encode_segment id +:+ "/approve"
  | DenyJoinRequest id => "/join-requests/" +:+ encode_segment id +:+ "/deny"
  | BootstrapJoinRequest id => "/join-requests/" +:+ encode_segment id +:+ "/bootstrap"
  | AckJoinRequest id => "/join-requests/" +:+ encode_segment id +:+ "/ack"
  | Whoami => "/whoami"
  | Profile _ => "/profile"
  | ListCredentials | PostCredential _ => "/profile/credentials"
  | DeleteCredential id => "/profile/credentials/" +:+ encode_segment id
  | ClaimMembership => "/membership/claim"
  | ListMembers | PostMember _ _ => "/members"
  | ListProfiles => "/profiles"
  | CareResidents => "/care/residents"
  | PostRuntimeHealth _ => "/runtime/health"
  | DeleteMember token => "/members/" +:+ encode_segment token
  | SuspendMember reference _ _ => "/members/" +:+ encode_segment reference +:+ "/suspension"
  | ListResidents => "/residents"
  | ListSmasters | PostSmaster _ => "/smasters"
  | DeleteSmaster token => "/smasters/" +:+ encode_segment token
  | ListRooms | PostRoom _ => "/rooms"
  | CareMemory => "/care/memory"
  | Health => "/health"
  end.

Section router.
Context {St : Type} `{Unicode} `{HeaderText} `{PathText} `{Digest} `{Csprng} `{StoreBase St}
  `{IdentityStore St} `{MessageStore St} `{WorkStore St} `{CareStore St} `{RoomStore St}
  `{OperatorStore St} `{ReadStore St} `{CredentialStore St} `{AdmissionStore St}
  `{MemoryStore St} `{WikiStore St} `{HeaderValueText} `{Environment} `{AttachmentStore St}.
Implicit Types h : Hub St.
Implicit Types headers : HeaderMap.

(** [env!("CARGO_PKG_VERSION")] *)
Definition version : string := "0.12.10".

(** @src main.rs fn health *)
Definition health h : Hub St * Response :=
  (h, (OK, BHealth version (h_epoch h) (negb (is_member h None)) (admin_open h)
             (sort_strings (elements (h_caretakers h))) (h_home_room h))).

(** @src main.rs:419-548 main *)
Definition room_handler (room : string) headers (r : room_request) : Hub St -> Hub St * Response :=
  match r with
  | CallIntoLoca name => call_into_loca_route room headers name
  | ReleaseSelf => release_self_route room headers
  | GetMessages since limit => get_messages_route room headers since limit
  | PostMessageTo body => post_message_route room headers body
  | GetReactions => get_reactions_route room headers
  | SetReaction message_id body => set_reaction_route room message_id headers body
  | GetMembers => get_members_route room headers
  | GetMode => get_mode_route room headers
  | SetMode mode => set_mode_route room headers mode
  | SetLead lead => set_lead_route room headers lead
  | GetOperators => get_loca_operator_route room headers
  | AppointOperator principal_id => appoint_loca_operator_route room headers principal_id
  | RevokeOperator => revoke_loca_operator_route room headers
  | GetSettings => get_settings_route room headers
  | PutSettings body => set_settings_route room headers body
  | GetModeration => get_mod_route room headers
  | Moderate action name => moderate_route room headers action name
  | DeleteRoom => delete_room_route room headers
  | ListInvites => list_invites_route room headers
  | CreateInvite name => create_invite_route room headers name
  | RevokeInvite token => revoke_invite_route room token headers
  | GetNotes => get_notes_route room headers
  | PostNote body => create_note_route room headers body
  | GetNote key => get_note_route room key headers
  | PutNote key body => update_note_route room key headers body
  | DeleteNote key => delete_note_route room key headers
  | NoteHistory key => note_history_route room key headers
  | SearchRoom q limit => search_room_route room headers q limit
  | GetJournal => get_journal_route room headers
  | PostJournal body => post_journal_route room headers body
  | ListTasks => list_tasks_route room headers
  | PostTask body => create_task_route room headers body
  | PatchTask tid body => update_task_route room tid headers body
  | ListGoals => list_goals_route room headers
  | PostGoal body => create_goal_route room headers body
  | PatchGoal gid body => update_goal_route room gid headers body
  | ListAttentions => list_attentions_route room headers
  | PostAttention body => create_attention_route room headers body
  | ClaimAttention id actor => claim_attention_route room id headers actor
  | ResolveAttention id actor => resolve_attention_route room id headers actor
  | ListWaits => list_waits_route room headers
  | PostWait body => set_wait_route room headers body
  | DeleteWait name actor => clear_wait_route room name headers actor
  | AckCare signal_id actor => ack_care_route room signal_id headers actor
  | GetMemory => get_loca_memory room headers
  | GetMemorySnapshot => get_loca_memory_snapshot room headers
  | PutMemoryOwner owner => set_loca_memory_owner room headers owner
  | PutShortMemory text => write_short_memory_route room headers text
  | PostMemoryEntry text => append_long_memory_route room headers text
  | GetMemoryEntries after_id limit => list_long_memory_entries room headers after_id limit
  | GetWiki => get_wiki room headers
  | GetWikiPage slug => get_wiki_page room slug headers
  | PutWikiPage slug body => edit_wiki_page_route room slug headers body
  | DeleteWikiPage slug body => remove_wiki_page_route room slug headers body
  | PutWikiConfig body => configure_wiki_route room headers body
  | PostWikiReview body => commit_wiki_route room headers body
  | GetWikiMaintenance => wiki_maintenance_status room headers
  | ClaimWikiReview => claim_wiki_review_route room headers
  | RenewWikiReview lease => renew_wiki_review_route room headers lease
  | FinishWikiReview lease review => finish_wiki_review_route room headers lease review
  | PostWikiRuntime runtime => wiki_native_ready_route room headers runtime
  | GetWikiContext => wiki_context room headers
  | PostWikiContext body => wiki_context_request room headers body
  | AcceptWikiContext body => wiki_context_accept room headers body
  | OfferWikiContext target selection => wiki_context_offer room headers target selection
  | GetWikiContextRequests => wiki_context_requests_route room headers
  | PostAttachment body => upload_attachment room headers body
  | GetAttachment id => get_attachment room headers id
  end.

(** @src main.rs:360-429 main *)
Definition street_handler headers (peer : IpAddr) (r : street_request)
    : Hub St -> Hub St * Response :=
  match r with
  | PostSession body => create_session_route headers body
  | DeleteSession => delete_session_route headers
  | PostPairing ttl_hours => create_pairing_route headers ttl_hours
  | GetStock => get_admission_stock_route headers
  | PostStock count ttl_hours => create_admission_stock_route headers count ttl_hours
  | ListJoinRequests => list_join_requests_route headers
  | PostJoinRequest name kind => create_join_request_route headers peer name kind
  | GetJoinRequest id => get_join_request_route headers id
  | ApproveJoinRequest id => approve_join_request_route headers id
  | DenyJoinRequest id => deny_join_request_route headers id
  | BootstrapJoinRequest id => bootstrap_join_request_route headers id
  | AckJoinRequest id => ack_join_request_route headers id
  | Whoami => whoami_route headers
  | Profile room => profile_view_route headers room
  | ListCredentials => list_profile_credentials_route headers
  | PostCredential label => create_profile_credential_route headers label
  | DeleteCredential id => revoke_profile_credential_route headers id
  | ClaimMembership => claim_membership_route headers
  | ListMembers => list_members_route headers
  | PostMember name kind => admit_member_route headers name kind
  | ListProfiles => list_profiles_route headers
  | CareResidents => caretaker_residents_route headers
  | PostRuntimeHealth body => report_runtime_health_route headers body
  | DeleteMember token => revoke_member_route headers token
  | SuspendMember reference suspended reason =>
      set_member_suspension_route headers reference suspended reason
  | ListResidents => list_residents_route headers
  | ListSmasters => list_smasters_route headers
  | PostSmaster name => create_smaster_route headers name
  | DeleteSmaster token => revoke_smaster_route headers token
  | ListRooms => list_rooms_route headers
  | PostRoom name => create_loca_route headers name
  | CareMemory => caretaker_memory headers
  | Health => health
  end.

(** The answer to a request: the gate, then the handler; the [Path] extractor
    of the handler refuses what does not decode. *)
(** @src main.rs:550-554 main *)
Definition serve headers (peer : IpAddr) (r : request) : Hub St -> Hub St * Response :=
  match r with
  | InRoom room r =>
      require_membership ("/rooms/" +:+ encode_segment room +:+ room_suffix r)
        (Some (Some room)) headers (room_handler room headers r)
  | Street r =>
      require_membership (street_path r) (Some None) headers (street_handler headers peer r)
  | Undecodable path =>
      require_membership ("/rooms/" +:+ path) None headers
        (fun h => (h, refuse BAD_REQUEST "Invalid URL"))
  end.

(** ** The master's desk *)

(** [const ADMIN_CONSOLE_HEADER] *)
(** @src main.rs const ADMIN_CONSOLE_HEADER *)
Definition ADMIN_CONSOLE_HEADER : string := "x-loca-console".

(** A request on the desk's port; a field of a JSON body is [None] unless it has the
    type it is read at. *)
Inductive desk_request : Type :=
  | DeskState
  | DeskAdmit (name kind : option string)
  | DeskInvite (loca name : option string)
  | DeskPairing (ttl_hours : option string)
  | DeskJoins
  | DeskApprove (id : string)
  | DeskDeny (id : string)
  | DeskMint (count ttl_hours : option N).

(** @src main.rs fn admin_console_write_allowed *)
Definition admin_console_write_allowed headers : bool :=
  bool_decide (header headers ADMIN_CONSOLE_HEADER = Some "1"%string).

Definition desk_write headers (f : Hub St -> Hub St * Response) h : Hub St * Response :=
  if admin_console_write_allowed headers then f h
  else (h, refuse FORBIDDEN "master desk request required").

(** @src main.rs fn admin_console_state *)
Definition admin_console_state h : Hub St * Response :=
  (h, (OK, BDesk (room_summaries_for h (fun _ => true)) (residents h)
             (default "http://127.0.0.1:8787"%string (env_var "PUBLIC_SERVER_URL")))).

(** @src main.rs fn admin_console_admit *)
Definition admin_console_admit headers (name kind : option string) : Hub St -> Hub St * Response :=
  desk_write headers (fun h =>
    let name := trim (default ""%string name) in
    if str_is_empty name then (h, refuse BAD_REQUEST "agent name required")
    else
      let kind := default "agent"%string kind in
      if negb (bool_decide (kind = "agent"%string)) && negb (bool_decide (kind = "user"%string))
      then (h, refuse BAD_REQUEST "kind must be agent or user")
      else
        let '(h, admitted) := admit_member name kind "master-console" h in
        (h, match admitted with
            | Ok member => (CREATED, BDeskMember (mb_name member) (mb_kind member))
            | Err _ => refuse SERVICE_UNAVAILABLE "could not save building member"
            end)).

(** @src main.rs:797-838 admin_console_invite *)
Definition desk_invited (invited : result Invite InviteError) : Response :=
  match invited with
  | Ok i => (CREATED, BDeskDavet (inv_token i) (inv_room i) (inv_name i) (inv_kind i))
  | Err InvAlreadyInvited => refuse CONFLICT "agent already has a davet for this loca"
  | Err InvMemberNotFound => refuse CONFLICT "agent is not a building member — add them first"
  | Err InvFull => refuse CONFLICT "loca is full — release a seat first"
  | Err InvReserved => refuse FORBIDDEN "iye is reserved for master, smaster, loca-dev and loca-care"
  | Err InvStorage => refuse SERVICE_UNAVAILABLE "could not save davet"
  | Err InvMissingRoom => refuse NOT_FOUND "create the loca before issuing a davet"
  | Err InvSealed => refuse CONFLICT "this loca is permanently sealed"
  end.
(** @src main.rs:770-796 admin_console_invite *)
Definition admin_console_invite headers (loca name : option string) : Hub St -> Hub St * Response :=
  desk_write headers (fun h =>
    let loca := trim (default ""%string loca) in
    let name := trim (default ""%string name) in
    if str_is_empty loca || str_is_empty name
    then (h, refuse BAD_REQUEST "loca and agent are required")
    else
      match member_by_name h name with
      | None => (h, refuse CONFLICT "agent is not a building member — add them first")
      | Some member =>
          let '(h, invited) := invite_member_to_room (mb_token member) loca "master" h in
          (h, desk_invited invited)
      end).

(** @src main.rs fn admin_console_pairing *)
Definition admin_console_pairing headers (ttl_hours : option string) : Hub St -> Hub St * Response :=
  desk_write headers (fun h =>
    match pairing_ttl_ms ttl_hours with
    | Err message => (h, refuse BAD_REQUEST message)
    | Ok ttl_ms =>
        let '(h, rotated) := rotate_admin_pairing_for ttl_ms h in
        (h, match rotated with
            | Some (code, expires_at) => (CREATED, BPairing code (ttl_ms / (60 * 60 * 1000)) expires_at)
            | None => refuse CONFLICT "ADMIN_TOKEN is not configured"
            end)
    end).

(** @src main.rs fn admin_console_join_requests *)
Definition admin_console_join_requests h : Hub St * Response :=
  let '(total, available) := admission_stock_summary h in
  (h, (OK, BDeskJoins (list_pending_join_requests h) total available)).

(** @src main.rs fn admin_console_approve_join_request *)
Definition admin_console_approve_join_request headers (id : string) : Hub St -> Hub St * Response :=
  desk_write headers (fun h =>
    let '(h, approved) := approve_join_request id "master-console" h in
    (h, match approved with
        | Approved => (OK, BStatus "approved")
        | AlreadyDecided => refuse CONFLICT "already decided"
        | ApproveNameTaken => refuse CONFLICT "that name already exists — choose another"
        | NoStock => refuse CONFLICT "no admission stock — mint some first"
        | ApproveFailed => refuse SERVICE_UNAVAILABLE "could not approve — try again"
        end)).

(** @src main.rs fn admin_console_deny_join_request *)
Definition admin_console_deny_join_request headers (id : string) : Hub St -> Hub St * Response :=
  desk_write headers (fun h =>
    let '(h, denied) := deny_join_request id "master-console" h in
    (h, if (denied : bool) then (OK, BStatus "denied") else refuse CONFLICT "already decided or not found")).

(** @src main.rs fn admin_console_mint_stock *)
Definition admin_console_mint_stock headers (count ttl_hours : option N) : Hub St -> Hub St * Response :=
  desk_write headers (fun h =>
    let count := default 0%N count in
    if (count =? 0)%N || (100 <? count)%N
    then (h, refuse BAD_REQUEST "count must be between 1 and 100")
    else
      match hours_ms (default 24%N ttl_hours) with
      | None => (h, refuse BAD_REQUEST "ttl_hours is too large")
      | Some ttl_ms =>
          if negb ((60 * 60 * 1000 <=? ttl_ms)%N && (ttl_ms <=? 90 * 24 * 60 * 60 * 1000)%N)
          then (h, refuse BAD_REQUEST "ttl_hours must be between 1 and 2160 (90 days)")
          else
            let '(h, (minted, total, available)) := mint_admission_stock (N.to_nat count) ttl_ms h in
            (h, (CREATED, BStock (Some minted) total available))
      end).

(** @src main.rs:314-333 main *)
Definition desk headers (r : desk_request) : Hub St -> Hub St * Response :=
  match r with
  | DeskState => admin_console_state
  | DeskAdmit name kind => admin_console_admit headers name kind
  | DeskInvite loca name => admin_console_invite headers loca name
  | DeskPairing ttl_hours => admin_console_pairing headers ttl_hours
  | DeskJoins => admin_console_join_requests
  | DeskApprove id => admin_console_approve_join_request headers id
  | DeskDeny id => admin_console_deny_join_request headers id
  | DeskMint count ttl_hours => admin_console_mint_stock headers count ttl_hours
  end.
End router.
