(* ===== verification/RouterFacts.v ===== *)
(** * What a request can do

    Every request of Router.v looks up sessions and then performs at most one
    operation of Server.v; so what Building.v proves of sequences of operations
    holds of HTTP traffic. *)

From Stdlib Require Import Ascii.
From S2P Require Import Prelude Text Net Protocol StoreApi Hub Ledger Work WorkFacts Waits.
From S2P Require Import Seats Attention AttentionFacts Chat Access Membership Joins.
From S2P Require Import Rooms Scheduler WikiTypes Memory WikiOps Attachments Server ServerFacts Building.
From S2P Require Import Queries Http Doors RouteWork RouteRooms RouteMembers.
From S2P Require Import RouteMemory RouteWiki RouteAttachments Router.

#[local] Existing Instance calm_trans.
#[local] Existing Instance calm_refl.

Section facts.
Context {St : Type} `{Unicode} `{HeaderText} `{PathText} `{Digest} `{Csprng} `{StoreBase St}
  `{IdentityStore St} `{MessageStore St} `{WorkStore St} `{CareStore St} `{RoomStore St}
  `{OperatorStore St} `{ReadStore St} `{CredentialStore St} `{AdmissionStore St}
  `{MemoryStore St} `{WikiStore St} `{HeaderValueText} `{Environment} `{AttachmentStore St}.
Implicit Types h : Hub St.
Implicit Types headers : HeaderMap.

(** ** Sequences of operations *)

Lemma run_ops_app l1 l2 h : run_ops (l1 ++ l2) h = run_ops l2 (run_ops l1 h).
Proof. apply foldl_app. Qed.

(** Only sessions were looked up. *)
Definition authed h h' : Prop := exists ts, h' = run_ops (map OpResolveSession ts) h.

#[local] Instance authed_refl : Reflexive authed.
Proof. by exists []. Qed.
#[local] Instance authed_trans : Transitive authed.
Proof.
  intros h1 h2 h3 [l1 ->] [l2 ->]. exists (l1 ++ l2). by rewrite map_app, run_ops_app.
Qed.

Lemma session_identity_authed token h : authed h (session_identity token h).1.
Proof. destruct token as [t|]; [|done]. by exists [t]. Qed.

Lemma authed_calm h h' : authed h h' -> calm h h'.
Proof.
  intros [ts ->]. revert h. induction ts as [|t ts IH]; intros h; [by split|].
  cbn. etransitivity; [|apply IH]. apply (session_identity_calm (Some t)).
Qed.

Lemma calm_writable h h' room : calm h h' -> is_writable h' room = is_writable h room.
Proof.
  intros [Hr Ho]. unfold is_writable, is_deleted, is_archived.
  by rewrite Hr, (ol_deleted _ _ Ho), (ol_home _ _ Ho).
Qed.

(** ** What a request did *)

(** Session lookups, then nothing, or one operation of which the answer is not
    that the caller is unknown. *)
Definition handled h (p : Hub St * Response) : Prop :=
  p.2.1 <> Panicked /\
  (authed h p.1 \/
   p.2.1 <> UNAUTHORIZED /\ exists h1 o, authed h h1 /\ p.1 = run_op o h1).

Lemma handled_after h h1 p : authed h h1 -> handled h1 p -> handled h p.
Proof.
  intros Ha [Hp [Hq|[Hu (h2 & o & Hq & E)]]]; (split; [done|]).
  - left. by etransitivity.
  - right. split; [done|]. exists h2, o. split; [by etransitivity|done].
Qed.

Lemma handled_quiet h code body : code <> Panicked -> handled h (h, (code, body)).
Proof. intros Hc. split; [done|by left]. Qed.

Lemma handled_refuse h code text : code <> Panicked -> handled h (h, refuse code text).
Proof. apply handled_quiet. Qed.

Lemma handled_op o h h1 (resp : Response) :
  h1 = run_op o h -> resp.1 <> Panicked -> resp.1 <> UNAUTHORIZED -> handled h (h1, resp).
Proof. intros -> Hp Hu. split; [done|]. right. split; [done|]. by exists h, o. Qed.

(** A lookup before the rest of a handler. *)
Lemma handled_let {A} (m : Hub St * A) h (k : Hub St -> A -> Hub St * Response) :
  authed h m.1 -> (forall h1 x, authed h h1 -> m = (h1, x) -> handled h1 (k h1 x)) ->
  handled h (let '(h1, x) := m in k h1 x).
Proof.
  intros Ha Hk. destruct m as [h1 x]. apply (handled_after _ h1); [done|]. by apply Hk.
Qed.

(** An operation at the end of a handler. *)
Lemma handled_last {A} o h (m : Hub St * A) (resp : A -> Response) :
  m.1 = run_op o h ->
  (forall h1 x, m = (h1, x) -> (resp x).1 <> Panicked /\ (resp x).1 <> UNAUTHORIZED) ->
  handled h (let '(h1, x) := m in (h1, resp x)).
Proof.
  intros E Hr. destruct m as [h1 x]. cbn in E. destruct (Hr h1 x eq_refl).
  by apply (handled_op o).
Qed.

(** ** Lookups *)

Lemma resolve_authority_authed admin session h : authed h (resolve_authority admin session h).1.
Proof.
  unfold resolve_authority. pose proof (session_identity_authed session h) as Ha.
  destruct (session_identity session h) as [h1 [s|]]; [|done].
  by destruct (sess_principal_id s).
Qed.

Lemma authed_pair {A B} h (m : Hub St * A) (k : Hub St -> A -> Hub St * B) :
  authed h m.1 -> (forall h1 x, authed h1 (k h1 x).1) ->
  authed h (let '(h1, x) := m in k h1 x).1.
Proof. intros Ha Hk. destruct m as [h1 x]. by etransitivity; [|apply Hk]. Qed.

Ltac authed :=
  repeat (apply authed_pair; [|intros ? ?]);
  repeat lazymatch goal with
  | |- authed _ (match ?x with _ => _ end).1 => destruct x
  end;
  first [done|apply session_identity_authed|apply resolve_authority_authed].

Lemma is_admin_req_authed headers h : authed h (is_admin_req headers h).1.
Proof. unfold is_admin_req. authed. Qed.
Lemma is_master_req_authed headers h : authed h (is_master_req headers h).1.
Proof. unfold is_master_req. authed. Qed.
Lemma is_loca_operator_authed room a s name h : authed h (is_loca_operator room a s name h).1.
Proof. unfold is_loca_operator. authed. Qed.
Lemma mutation_actor_authed headers c k h : authed h (mutation_actor headers c k h).1.
Proof. unfold mutation_actor. authed. Qed.
Lemma actor_of_authed headers c h : authed h (actor_of headers c h).1.
Proof.
  unfold actor_of. apply authed_pair; [apply session_identity_authed|]. intros h1 s.
  destruct (h_require_sessions h1); [done|].
  apply authed_pair; [apply resolve_authority_authed|]. intros h2 a. authed.
Qed.
Lemma room_decision_authed room headers h : authed h (room_decision_of room headers h).1.
Proof. unfold room_decision_of. authed. Qed.
Lemma may_operate_authed room headers name h : authed h (may_operate room headers name h).1.
Proof.
  unfold may_operate. apply authed_pair; [apply is_admin_req_authed|]. intros h1 [|]; [done|].
  apply is_loca_operator_authed.
Qed.
Lemma room_operator_authed room headers h : authed h (is_room_operator_req room headers h).1.
Proof.
  unfold is_room_operator_req. apply authed_pair; [apply is_admin_req_authed|].
  intros h1 [|]; [done|]. apply authed_pair; [apply session_identity_authed|]. intros h2 s.
  destruct (str_is_empty _); [done|]. apply is_loca_operator_authed.
Qed.
Lemma room_access_authed room headers h : authed h (room_access room headers h).1.
Proof.
  unfold room_access. destruct (is_deleted h room); [done|].
  apply authed_pair; [apply room_decision_authed|]. done.
Qed.
Lemma known_caller_authed headers h : authed h (known_caller headers h).1.
Proof.
  unfold known_caller.
  apply authed_pair; [destruct (session_of headers); [apply session_identity_authed|done]|].
  intros h1 s. apply authed_pair; [apply resolve_authority_authed|]. done.
Qed.
Lemma request_principal_authed headers h : authed h (request_principal headers h).1.
Proof. unfold request_principal. authed. Qed.
Lemma own_davet_authed room headers h : authed h (own_davet room headers h).1.
Proof.
  unfold own_davet. destruct (_ ≫= _); [done|].
  apply authed_pair; [apply session_identity_authed|]. intros h1 s. done.
Qed.
Lemma session_when_authed headers h :
  authed h (match session_of headers with
            | Some token => session_identity (Some token) h
            | None => (h, None)
            end).1.
Proof. destruct (session_of headers); [apply session_identity_authed|done]. Qed.

(** ** Answers the hub does not give *)

Ltac branches :=
  repeat (case_match; try (cbn; by intros [=]); simplify_eq/=); try (cbn; by intros [=]).

Lemma normalize_goal_tasks_error room c ids e :
  normalize_goal_tasks room c ids = Err e -> e = GoalErrInvalidTasks.
Proof. unfold normalize_goal_tasks. intros Hn. by repeat (case_match; simplify_eq/=). Qed.

Lemma create_goal_never room req h : (create_goal room req h).2 <> Err GoalErrNotFound.
Proof.
  unfold create_goal. cbn zeta. destruct (rs_lead _); [|by intros [=]].
  destruct (any_value _ _); [by intros [=]|].
  destruct (normalize_goal_tasks _ _ _) as [ids|e] eqn:E.
  - destruct (run_store _ _) as [h1 [?|?]]; by intros [=].
  - apply normalize_goal_tasks_error in E as ->. by intros [=].
Qed.

Lemma set_wait_never room req h : (set_wait room req h).2 <> Err WaitErrNotFound.
Proof.
  unfold set_wait. case_decide; [by intros [=]|]. cbn zeta.
  destruct (match r_waits _ !! _ with Some _ => _ | None => _ end); [by intros [=]|].
  destruct (next_condition_generation _ _ _) as [h1 since].
  destruct (run_store _ _) as [h2 [?|?]]; by intros [=].
Qed.

Lemma clear_wait_never room waiter h : (clear_wait room waiter h).2 <> Err WaitErrSelfWait.
Proof.
  unfold clear_wait. destruct (h_rooms h !! room); [|by intros [=]].
  case_bool_decide; [by intros [=]|]. destruct (run_store _ _) as [h2 [?|?]]; by intros [=].
Qed.

Lemma create_attention_never room req h :
  (create_attention room req h).2 <> Err AttnErrForbidden /\
  (create_attention room req h).2 <> Err AttnErrConflict.
Proof.
  unfold create_attention. destruct (h_rooms h !! room); [|split; by intros [=]].
  destruct (resolve_attention_owner _ _ _) as [[owner ps]|]; [|split; by intros [=]].
  unfold secure_token. cbn beta iota zeta.
  destruct (run_store _ _) as [h2 [?|?]]; split; by intros [=].
Qed.

Lemma claim_attention_never room id actor h :
  (claim_attention room id actor h).2 <> Err AttnErrNoRecipient.
Proof.
  unfold claim_attention. destruct (h_rooms h !! room); [|by intros [=]].
  destruct (r_attentions _ !! id); [|by intros [=]].
  destruct (negb _); [by intros [=]|]. destruct (negb _); [by intros [=]|].
  destruct (run_store _ _) as [h2 [[]|?]]; by intros [=].
Qed.

Lemma resolve_attention_never room id actor pid op h :
  (resolve_attention room id actor pid op h).2 <> Err AttnErrNoRecipient.
Proof. unfold resolve_attention. branches. Qed.

(** An unknown caller is refused as such. *)
Lemma actor_of_error headers c h e : (actor_of headers c h).2 = Err e -> e = UNAUTHORIZED.
Proof. unfold actor_of. intros E. by repeat (case_match; simplify_eq/=). Qed.
Lemma mutation_actor_error headers c k h e :
  (mutation_actor headers c k h).2 = Err e -> e = UNAUTHORIZED.
Proof. unfold mutation_actor. intros E. by repeat (case_match; simplify_eq/=). Qed.

(** ** The combinators of the handlers *)

Lemma with_access_handled room headers f h :
  (forall h1, authed h h1 -> handled h1 (f h1)) -> handled h (with_access room headers f h).
Proof.
  intros Hf. unfold with_access. apply handled_let; [apply room_access_authed|].
  intros h1 [[]|refusal] Ha E; [by apply Hf|].
  unfold room_access in E. destruct (is_deleted h room); [simplify_eq; by apply handled_refuse|].
  destruct (room_decision_of _ _ _) as [h2 []]; simplify_eq; by apply handled_refuse.
Qed.

Lemma if_writable_handled room f h :
  (is_writable h room = true -> handled h (f h)) -> handled h (if_writable room f h).
Proof.
  intros Hf. unfold if_writable. destruct (is_writable h room); cbn; [by apply Hf|].
  by apply handled_refuse.
Qed.

Lemma as_actor_handled headers c f h :
  (forall h1 by_, authed h h1 -> handled h1 (f by_ h1)) -> handled h (as_actor headers c f h).
Proof.
  intros Hf. unfold as_actor. apply handled_let; [apply actor_of_authed|].
  intros h1 [by_|code] Ha E; [by apply Hf|]. apply handled_refuse.
  assert (code = UNAUTHORIZED) as -> by (eapply actor_of_error; by rewrite E). done.
Qed.

Lemma as_operator_handled room headers name refusal f h :
  (forall h1, authed h h1 -> handled h1 (f h1)) ->
  handled h (as_operator room headers name refusal f h).
Proof.
  intros Hf. unfold as_operator. apply handled_let; [apply may_operate_authed|].
  intros h1 [] Ha _; cbn; [by apply Hf|by apply handled_refuse].
Qed.

Lemma if_admin_handled headers refusal f h :
  refusal.1 <> Panicked -> (forall h1, authed h h1 -> handled h1 (f h1)) ->
  handled h (if_admin headers refusal f h).
Proof.
  intros Hr Hf. unfold if_admin. apply handled_let; [apply is_admin_req_authed|].
  intros h1 [] Ha _; cbn; [by apply Hf|]. by split; [|left].
Qed.

Lemma if_master_handled headers refusal f h :
  refusal.1 <> Panicked -> (forall h1, authed h h1 -> handled h1 (f h1)) ->
  handled h (if_master headers refusal f h).
Proof.
  intros Hr Hf. unfold if_master. apply handled_let; [apply is_master_req_authed|].
  intros h1 [] Ha _; cbn; [by apply Hf|]. by split; [|left].
Qed.

Lemma if_room_operator_handled room headers f h :
  (forall h1, authed h h1 -> handled h1 (f h1)) ->
  handled h (if_room_operator room headers f h).
Proof.
  intros Hf. unfold if_room_operator. apply handled_let; [apply room_operator_authed|].
  intros h1 [] Ha _; cbn; [by apply Hf|by apply handled_refuse].
Qed.

Lemma if_principal_handled headers f h :
  (forall h1 pid, authed h h1 -> handled h1 (f pid h1)) -> handled h (if_principal headers f h).
Proof.
  intros Hf. unfold if_principal. apply handled_let; [apply request_principal_authed|].
  intros h1 [pid|] Ha _; [by apply Hf|by apply handled_refuse].
Qed.

Lemma if_join_secret_handled headers f h :
  (forall secret, handled h (f secret h)) -> handled h (if_join_secret headers f h).
Proof.
  intros Hf. unfold if_join_secret. destruct (join_secret_of headers); [apply Hf|].
  by apply handled_refuse.
Qed.

Lemma attention_door_handled room id headers c f h :
  (forall h1 actor source, authed h h1 -> is_writable h1 room = true ->
     handled h1 (f actor source h1)) ->
  handled h (attention_door room id headers c f h).
Proof.
  intros Hf. unfold attention_door. destruct (is_deleted h room); [by apply handled_refuse|].
  apply as_actor_handled. intros h1 actor Ha. apply handled_let; [apply room_decision_authed|].
  intros h2 [] Ha2 _; [| |by apply handled_refuse].
  - apply if_writable_handled. intros Hw. apply Hf; [by etransitivity|done].
  - destruct (caretaker_owns_attention _ _ _ _); [|by apply handled_refuse].
    apply if_writable_handled. intros Hw. apply Hf; [by etransitivity|done].
Qed.

Lemma if_wiki_writable_handled room f h :
  (is_writable h room = true -> handled h (f h)) -> handled h (if_wiki_writable room f h).
Proof.
  intros Hf. unfold if_wiki_writable. destruct (is_writable h room); cbn; [by apply Hf|].
  by apply handled_refuse.
Qed.

Lemma if_writable_status_handled room f h :
  (is_writable h room = true -> handled h (f h)) -> handled h (if_writable_status room f h).
Proof.
  intros Hf. unfold if_writable_status. destruct (is_writable h room); cbn; [by apply Hf|].
  by apply handled_quiet.
Qed.

Lemma session_principal_authed headers h : authed h (session_principal headers h).1.
Proof. unfold session_principal. authed. Qed.
Lemma caller_name_authed headers h : authed h (caller_name headers h).1.
Proof. unfold caller_name. authed. Qed.
Lemma memory_actor_authed headers h : authed h (memory_actor headers h).1.
Proof. unfold memory_actor. destruct (session_of headers); [|done]. authed. Qed.
Lemma memory_actor_error headers h e : (memory_actor headers h).2 = Err e -> e.1 = UNAUTHORIZED.
Proof. unfold memory_actor. intros E. by repeat (case_match; simplify_eq/=). Qed.

Lemma as_principal_handled headers refusal f h :
  refusal.1 <> Panicked -> (forall h1 pid, authed h h1 -> handled h1 (f pid h1)) ->
  handled h (as_principal headers refusal f h).
Proof.
  intros Hr Hf. unfold as_principal. apply handled_let; [apply session_principal_authed|].
  intros h1 [pid|] Ha _; [by apply Hf|]. by split; [|left].
Qed.

Lemma as_memory_writer_handled headers room text f h :
  (forall h1 actor, handled h1 (f actor h1)) -> handled h (as_memory_writer headers room text f h).
Proof.
  intros Hf. unfold as_memory_writer. apply with_access_handled. intros h1 _.
  apply if_writable_handled. intros _. destruct (str_is_empty _); [by apply handled_refuse|].
  apply handled_let; [apply memory_actor_authed|]. intros h2 [actor|e] _ E; [apply Hf|].
  destruct e as [code body]. apply handled_quiet.
  assert (code = UNAUTHORIZED) as -> by (eapply (memory_actor_error headers h1 (code, body)); by rewrite E). done.
Qed.

(** ** The handlers *)

(** The answer of an operation is neither a panic nor an unknown caller. *)
Ltac answered :=
  repeat lazymatch goal with
  | |- context [match ?x with _ => _ end] => destruct x
  end; split; discriminate.

(** [operation o]: the last step is the operation [o]. *)
Tactic Notation "operation" open_constr(o) :=
  eapply (handled_last o);
  [cbn [run_op wiki_op]; unfold when_writable;
   try match goal with Hw : is_writable ?h ?r = true |- _ => rewrite Hw end; reflexivity|].
Tactic Notation "operation" open_constr(o) "as" simple_intropattern(x) simple_intropattern(E) :=
  operation o; intros ? x E.

(** The room is as writable in the hub a lookup leaves. *)
Ltac carry Ha :=
  try match goal with
  | Hw : is_writable _ ?r = true |- _ =>
      rewrite <- (calm_writable _ _ r (authed_calm _ _ Ha)) in Hw
  end.

(** One check of a handler. *)
Ltac check :=
  let Ha := fresh "Ha" in
  lazymatch goal with
  | |- handled _ (with_access _ _ _ _) => apply with_access_handled; intros ? Ha
  | |- handled _ (if_writable _ _ _) => apply if_writable_handled; intros ?
  | |- handled _ (as_actor _ _ _ _) => apply as_actor_handled; intros ? ? Ha; carry Ha
  | |- handled _ (as_operator _ _ _ _ _ _) => apply as_operator_handled; intros ? Ha; carry Ha
  | |- handled _ (if_admin _ _ _ _) => apply if_admin_handled; [discriminate|intros ? Ha]
  | |- handled _ (if_master _ _ _ _) => apply if_master_handled; [discriminate|intros ? Ha]
  | |- handled _ (if_room_operator _ _ _ _) => apply if_room_operator_handled; intros ? Ha
  | |- handled _ (if_principal _ _ _) => apply if_principal_handled; intros ? ? Ha
  | |- handled _ (if_join_secret _ _ _) => apply if_join_secret_handled; intros ?
  | |- handled _ (if_wiki_writable _ _ _) => apply if_wiki_writable_handled; intros ?
  | |- handled _ (if_writable_status _ _ _) => apply if_writable_status_handled; intros ?
  | |- handled _ (as_principal _ _ _ _) => apply as_principal_handled; [discriminate|intros ? ? Ha; carry Ha]
  | |- handled _ (as_memory_writer _ _ _ _ _) => apply as_memory_writer_handled; intros ? ?
  | |- handled _ (attention_door _ _ _ _ _ _) => apply attention_door_handled; intros ? ? ? Ha ?
  | |- handled ?h (?h, _) =>
      split; [cbn; try discriminate; repeat case_match; discriminate|left; reflexivity]
  | |- handled _ (if ?b then _ else _) => destruct b eqn:?
  | |- handled _ (match ?x with Some _ => _ | None => _ end) => destruct x
  end.

Ltac looked :=
  match goal with
  | |- authed _ (if ?b then _ else _).1 => destruct b; [done|looked]
  | |- authed _ (if ?b then _ else _).1 => destruct b; [looked|done]
  | |- _ => done
  | |- _ => first [apply session_identity_authed|apply resolve_authority_authed
      |apply is_admin_req_authed|apply is_master_req_authed|apply may_operate_authed
      |apply actor_of_authed|apply mutation_actor_authed|apply own_davet_authed
      |apply session_when_authed|apply session_principal_authed|apply caller_name_authed
      |unfold room_operator; apply is_loca_operator_authed]
  end.

(** A lookup before the rest. *)
Ltac lookup :=
  apply handled_let; [looked|let Ha := fresh "Ha" in intros ? ? Ha ?; carry Ha].

Ltac handle := repeat first [progress cbn beta|check|lookup].

(** The hub does not give this answer. *)
Ltac never E lemma := exfalso; eapply lemma; rewrite E; reflexivity.

(** The last step, whose answer is [E]. *)
Tactic Notation "finish" open_constr(o) := operation o; intros ? ? ?; answered.

Section room_requests.
Variables (room : string) (headers : HeaderMap) (h : Hub St).

Lemma create_task_handled body : handled h (create_task_route room headers body h).
Proof. unfold create_task_route. handle. finish (OpCreateTask room _). Qed.

Lemma update_task_handled tid body : handled h (update_task_route room tid headers body h).
Proof. unfold update_task_route. handle. finish (OpUpdateTask room tid _ _). Qed.

Lemma create_goal_handled body : handled h (create_goal_route room headers body h).
Proof.
  unfold create_goal_route. cbv zeta. handle. operation (OpCreateGoal room _) as g E.
  destruct g as [g|[]]; try (split; discriminate). never E create_goal_never.
Qed.

Lemma update_goal_handled gid body : handled h (update_goal_route room gid headers body h).
Proof. unfold update_goal_route. cbv zeta. handle. finish (OpUpdateGoal room gid _). Qed.

Lemma set_wait_handled body : handled h (set_wait_route room headers body h).
Proof.
  unfold set_wait_route. cbv zeta. handle. operation (OpSetWait room _) as w E.
  destruct w as [w|[]]; try (split; discriminate). never E set_wait_never.
Qed.

Lemma clear_wait_handled name claimed : handled h (clear_wait_route room name headers claimed h).
Proof.
  unfold clear_wait_route. handle. operation (OpClearWait room _) as w E.
  destruct w as [w|[]]; try (split; discriminate). never E clear_wait_never.
Qed.

Lemma create_attention_handled body : handled h (create_attention_route room headers body h).
Proof.
  unfold create_attention_route. cbv zeta. handle. operation (OpCreateAttention room _) as a E.
  destruct a as [a|[]]; try (split; discriminate).
  - never E (fun r q h => proj1 (create_attention_never r q h)).
  - never E (fun r q h => proj2 (create_attention_never r q h)).
Qed.

Lemma attention_answered r :
  r <> Err AttnErrNoRecipient ->
  (attention_response r).1 <> Panicked /\ (attention_response r).1 <> UNAUTHORIZED.
Proof. destruct r as [a|[]]; try done; by split. Qed.

Lemma claim_attention_handled id claimed :
  handled h (claim_attention_route room id headers claimed h).
Proof.
  unfold claim_attention_route. handle. operation (OpClaimAttention room id _) as a E.
  apply attention_answered. intros ->. never E claim_attention_never.
Qed.

Lemma resolve_attention_handled id claimed :
  handled h (resolve_attention_route room id headers claimed h).
Proof.
  unfold resolve_attention_route. handle. operation (OpResolveAttention room id _ _ _) as a E.
  apply attention_answered. intros ->. never E resolve_attention_never.
Qed.

Lemma ack_care_handled id claimed : handled h (ack_care_route room id headers claimed h).
Proof. unfold ack_care_route. handle. finish (OpAckCare id _ _). Qed.

Lemma post_rejected_code e :
  (post_reject_response e).1 <> Panicked /\ (post_reject_response e).1 <> UNAUTHORIZED.
Proof.
  unfold post_reject_response, refuse. cbn [fst].
  repeat lazymatch goal with |- context [if ?b then _ else _] => destruct b end; by split.
Qed.

Lemma session_sender_code session body h1 e :
  session_sender headers session body h1 = Err e -> e.1 <> Panicked.
Proof. unfold session_sender. intros E. by repeat (case_match; simplify_eq/=). Qed.

Lemma post_message_handled body : handled h (post_message_route room headers body h).
Proof.
  unfold post_message_route. handle.
  destruct (session_sender headers x body h0) as [b|e] eqn:Es.
  - handle. operation (OpPost room _ _ _) as m E.
    destruct m as [m|e]; [by split|]. apply post_rejected_code.
  - apply session_sender_code in Es. destruct e as [code text]. by apply handled_quiet.
Qed.

Lemma set_reaction_handled id body : handled h (set_reaction_route room id headers body h).
Proof. unfold set_reaction_route. handle. finish (OpReact room id _ _ _ _). Qed.

Lemma post_journal_handled body : handled h (post_journal_route room headers body h).
Proof.
  unfold post_journal_route. handle. destruct x as [[by_ by_type]|code].
  - handle. finish (OpJournal room _ _ _).
  - apply handled_quiet. assert (code = UNAUTHORIZED) as -> by
      (eapply mutation_actor_error; match goal with E : _ = (_, Err code) |- _ => by rewrite E end).
    done.
Qed.

Lemma actor_refused h1 h2 c code :
  actor_of headers c h1 = (h2, Err code) -> handled h2 (h2, (code, BNone)).
Proof.
  intros E. apply handled_quiet.
  assert (code = UNAUTHORIZED) as -> by (eapply actor_of_error; by rewrite E). done.
Qed.

Lemma create_note_handled body : handled h (create_note_route room headers body h).
Proof.
  unfold create_note_route. handle. destruct x as [actor|code]; [|by eapply actor_refused].
  finish (OpCreateNote room _).
Qed.

Lemma update_note_handled key body : handled h (update_note_route room key headers body h).
Proof.
  unfold update_note_route. handle. destruct x0 as [actor|code]; [|by eapply actor_refused].
  finish (OpUpdateNote room key _ _).
Qed.

Lemma delete_note_handled key : handled h (delete_note_route room key headers h).
Proof.
  unfold delete_note_route. handle. destruct x as [actor|code].
  - destruct (is_writable h0 room) eqn:Hw; cbn [negb]; [|by apply handled_quiet].
    finish (OpDeleteNote room key).
  - apply handled_quiet. assert (code = UNAUTHORIZED) as -> by
      (eapply mutation_actor_error; match goal with E : _ = (_, Err code) |- _ => by rewrite E end).
    done.
Qed.

(** Requests that only read. *)
Lemma room_reads_handled r :
  match r with
  | GetMessages _ _ | GetReactions | GetMembers | GetMode | GetOperators | GetSettings
  | GetModeration | GetNotes | GetNote _ | NoteHistory _ | SearchRoom _ _ | GetJournal
  | ListTasks | ListGoals | ListAttentions | ListWaits | ListInvites =>
      handled h (room_handler room headers r h)
  | _ => True
  end.
Proof.
  destruct r; try exact I; cbn [room_handler];
    unfold get_messages_route, get_reactions_route, get_members_route, get_mode_route,
      get_loca_operator_route, get_settings_route, get_mod_route, get_notes_route,
      get_note_route, note_history_route, search_room_route, get_journal_route,
      list_tasks_route, list_goals_route, list_attentions_route, list_waits_route,
      list_invites_route; cbv zeta; by handle.
Qed.

(** *** Running a room *)

Lemma set_mode_handled mode : handled h (set_mode_route room headers mode h).
Proof. unfold set_mode_route. handle. finish (OpSetMode room _). Qed.

Lemma set_lead_handled lead : handled h (set_lead_route room headers lead h).
Proof. unfold set_lead_route. handle. finish (OpSetLead room _ _). Qed.

Lemma set_settings_handled body : handled h (set_settings_route room headers body h).
Proof. unfold set_settings_route. cbv zeta. handle. finish (OpSetSettings room _). Qed.

Lemma delete_room_handled : handled h (delete_room_route room headers h).
Proof. unfold delete_room_route. handle. finish (OpDeleteRoom room). Qed.

Lemma moderate_handled action name : handled h (moderate_route room headers action name h).
Proof. unfold moderate_route. handle. finish (OpModerate room _ _). Qed.

Lemma appoint_operator_handled pid :
  handled h (appoint_loca_operator_route room headers pid h).
Proof. unfold appoint_loca_operator_route. handle. finish (OpAppointOperator room _ _). Qed.

Lemma revoke_operator_handled : handled h (revoke_loca_operator_route room headers h).
Proof. unfold revoke_loca_operator_route. handle. finish (OpRevokeOperator room _). Qed.

(** *** Davets *)

Lemma create_invite_handled name : handled h (create_invite_route room headers name h).
Proof.
  unfold create_invite_route. cbv zeta. handle. operation (OpInvite _ room _) as i E.
  destruct i as [i|[]]; by split.
Qed.

Lemma call_into_loca_handled name : handled h (call_into_loca_route room headers name h).
Proof.
  unfold call_into_loca_route. cbv zeta. handle. operation (OpInvite _ room _) as i E.
  destruct i as [i|[]]; by split.
Qed.

(** A revocation under a reference is one of the davet, or of none. *)
Lemma revoke_invite_handled token : handled h (revoke_invite_route room token headers h).
Proof.
  unfold revoke_invite_route. cbv zeta. handle.
  unfold revoke_invite_ref.
  lazymatch goal with |- handled ?h _ => destruct (invite_by_ref h token) as [i|] end.
  - finish (OpRevokeInvite _).
  - by apply handled_refuse.
Qed.

Lemma release_self_handled : handled h (release_self_route room headers h).
Proof. unfold release_self_route. handle. finish (OpRevokeInvite _). Qed.

(** *** The memory, the wiki and the files *)

Lemma memory_error_code e :
  (memory_write_error e).1 <> Panicked /\ (memory_write_error e).1 <> UNAUTHORIZED.
Proof. destruct e; split; discriminate. Qed.

Lemma memory_handled :
  (forall owner, handled h (set_loca_memory_owner room headers owner h))
  /\ (forall text, handled h (write_short_memory_route room headers text h))
  /\ (forall text, handled h (append_long_memory_route room headers text h)).
Proof.
  unfold set_loca_memory_owner, write_short_memory_route, append_long_memory_route. split_and!; intros; handle.
  - finish (OpMemoryOwner room _).
  - operation (OpWriteShort room _ _) as m E. destruct m; [by split|apply memory_error_code].
  - operation (OpAppendLong room _ _) as m E. destruct m; [by split|apply memory_error_code].
Qed.

Lemma wiki_answered {A} (f : A -> Response) r :
  (forall a, (f a).1 <> Panicked /\ (f a).1 <> UNAUTHORIZED) ->
  (wiki_answer f r).1 <> Panicked /\ (wiki_answer f r).1 <> UNAUTHORIZED.
Proof. intros Hf. destruct r as [a|[]]; [apply Hf|by split..]. Qed.

Lemma wiki_pages_handled :
  (forall slug edit, handled h (edit_wiki_page_route room slug headers edit h))
  /\ (forall slug removal, handled h (remove_wiki_page_route room slug headers removal h))
  /\ (forall body, handled h (configure_wiki_route room headers body h))
  /\ (forall review, handled h (commit_wiki_route room headers review h)).
Proof.
  unfold edit_wiki_page_route, remove_wiki_page_route, configure_wiki_route, commit_wiki_route.
  split_and!; intros; cbv zeta; handle.
  - operation (OpWiki (OpEdit room _ slug _)) as r E. by apply wiki_answered.
  - operation (OpWiki (OpRemove room _ slug _)) as r E. by apply wiki_answered.
  - operation (OpWiki (OpConfigure room _ _ _)) as r E. by apply wiki_answered.
  - operation (OpWiki (OpCommit room _ _)) as r E. by apply wiki_answered.
Qed.

Lemma wiki_reviews_handled :
  handled h (claim_wiki_review_route room headers h)
  /\ (forall lease, handled h (renew_wiki_review_route room headers lease h))
  /\ (forall lease review, handled h (finish_wiki_review_route room headers lease review h))
  /\ (forall runtime, handled h (wiki_native_ready_route room headers runtime h)).
Proof.
  unfold claim_wiki_review_route, renew_wiki_review_route, finish_wiki_review_route, wiki_native_ready_route.
  split_and!; intros; handle.
  - operation (OpWiki (OpClaim room _)) as r E. by apply wiki_answered.
  - operation (OpWiki (OpRenew room _ _)) as r E. by apply wiki_answered.
  - operation (OpWiki (OpFinish room _ _ _)) as r E. by apply wiki_answered.
  - operation (OpWiki (OpReady room _ _)) as r E. by apply wiki_answered.
Qed.

Lemma wiki_contexts_handled :
  (forall selection, handled h (wiki_context_request room headers selection h))
  /\ (forall ack, handled h (wiki_context_accept room headers ack h))
  /\ (forall target selection, handled h (wiki_context_offer room headers target selection h)).
Proof.
  unfold wiki_context_request, wiki_context_accept, wiki_context_offer. split_and!; intros; handle.
  - operation (OpWiki (OpSelect room _ _)) as r E. by apply wiki_answered.
  - operation (OpWiki (OpAccept room _ _)) as r E. by apply wiki_answered.
  - operation (OpWiki (OpOffer room _ _ target _)) as r E. by apply wiki_answered.
Qed.

Lemma checked_type_code body e :
  checked_type headers body = Err e -> e.1 <> Panicked.
Proof. unfold checked_type. intros E. by repeat (case_match; simplify_eq/=). Qed.

Lemma upload_handled body : handled h (upload_attachment room headers body h).
Proof.
  unfold upload_attachment. handle.
  destruct (uploader_of headers x h0) as [uploader|e] eqn:Eu.
  - destruct (checked_type headers body) as [sniffed|e] eqn:Ec.
    + cbv zeta. operation (OpUpload room _ _ _ _) as put E.
      by destruct put as [|[]].
    + apply checked_type_code in Ec. destruct e. by apply handled_quiet.
  - destruct e as [code text]. apply handled_quiet.
    assert (code = UNAUTHORIZED) as ->; [|done]. clear -Eu. unfold uploader_of in Eu.
    by repeat (case_match; simplify_eq/=).
Qed.

(** Requests that only read. *)
Lemma things_reads_handled r :
  match r with
  | GetMemory | GetMemorySnapshot | GetMemoryEntries _ _ | GetWiki | GetWikiPage _ | GetWikiMaintenance
  | GetWikiContext | GetWikiContextRequests | GetAttachment _ => handled h (room_handler room headers r h)
  | _ => True
  end.
Proof.
  destruct r; try exact I; cbn [room_handler];
    unfold get_loca_memory, get_loca_memory_snapshot, list_long_memory_entries, get_wiki, get_wiki_page,
      wiki_maintenance_status, wiki_context, wiki_context_requests_route, get_attachment,
      wiki_answer, wiki_error, no_persistence, not_configured, refuse; cbv zeta; by handle.
Qed.

(** Every request under [/rooms/:id]. *)
Lemma room_handler_handled r : handled h (room_handler room headers r h).
Proof.
  pose proof (room_reads_handled r) as Hread. pose proof (things_reads_handled r) as Hread2.
  destruct r; try exact Hread; try exact Hread2; clear Hread Hread2; cbn [room_handler].
  - apply call_into_loca_handled.
  - apply release_self_handled.
  - apply post_message_handled.
  - apply set_reaction_handled.
  - apply set_mode_handled.
  - apply set_lead_handled.
  - apply appoint_operator_handled.
  - apply revoke_operator_handled.
  - apply set_settings_handled.
  - apply moderate_handled.
  - apply delete_room_handled.
  - apply create_invite_handled.
  - apply revoke_invite_handled.
  - apply create_note_handled.
  - apply update_note_handled.
  - apply delete_note_handled.
  - apply post_journal_handled.
  - apply create_task_handled.
  - apply update_task_handled.
  - apply create_goal_handled.
  - apply update_goal_handled.
  - apply create_attention_handled.
  - apply claim_attention_handled.
  - apply resolve_attention_handled.
  - apply set_wait_handled.
  - apply clear_wait_handled.
  - apply ack_care_handled.
  - by apply memory_handled.
  - by apply memory_handled.
  - by apply memory_handled.
  - by apply wiki_pages_handled.
  - by apply wiki_pages_handled.
  - by apply wiki_pages_handled.
  - by apply wiki_pages_handled.
  - by apply wiki_reviews_handled.
  - by apply wiki_reviews_handled.
  - by apply wiki_reviews_handled.
  - by apply wiki_reviews_handled.
  - by apply wiki_contexts_handled.
  - by apply wiki_contexts_handled.
  - by apply wiki_contexts_handled.
  - apply upload_handled.
Qed.
End room_requests.

(** ** The other requests *)

Section street_requests.
Variables (headers : HeaderMap) (peer : IpAddr) (h : Hub St).

(** Requests that only read. *)
Lemma street_reads_handled r :
  match r with
  | GetStock | ListJoinRequests | GetJoinRequest _ | Whoami | Profile _ | ListCredentials
  | ClaimMembership | ListMembers | ListProfiles | CareResidents | ListResidents | ListSmasters
  | ListRooms | CareMemory | Health => handled h (street_handler headers peer r h)
  | _ => True
  end.
Proof.
  destruct r; try exact I; cbn [street_handler];
    unfold get_admission_stock_route, list_join_requests_route, get_join_request_route,
      whoami_route, profile_view_route, list_profile_credentials_route, claim_membership_route,
      list_members_route, list_profiles_route, caretaker_residents_route, list_residents_route,
      list_smasters_route, list_rooms_route, admission_stock_summary, caretaker_memory, health;
    cbv zeta; handle; try destruct (admission_stock_counts _ _); by handle.
Qed.

Lemma create_pairing_handled ttl : handled h (create_pairing_route headers ttl h).
Proof.
  unfold create_pairing_route. handle. destruct (pairing_ttl_ms ttl); [|by apply handled_refuse].
  finish (OpRotatePairing _).
Qed.

Lemma create_stock_handled count ttl :
  handled h (create_admission_stock_route headers count ttl h).
Proof.
  unfold create_admission_stock_route. handle.
  destruct (admission_ttl_ms ttl) as [ttl_ms|]; [|by apply handled_refuse].
  destruct (mint_admission_stock _ _ _) as [h2 [[minted total] available]] eqn:E.
  apply (handled_op (OpMintStock (N.to_nat count) ttl_ms)); [|done..]. cbn [run_op]. by rewrite E.
Qed.

Lemma create_join_handled name kind :
  handled h (create_join_request_route headers peer name kind h).
Proof. unfold create_join_request_route. cbv zeta. handle. finish (OpCreateJoin _ _ _). Qed.

Lemma join_decisions_handled id :
  handled h (approve_join_request_route headers id h) /\
  handled h (deny_join_request_route headers id h) /\
  handled h (bootstrap_join_request_route headers id h) /\
  handled h (ack_join_request_route headers id h).
Proof.
  unfold approve_join_request_route, deny_join_request_route, bootstrap_join_request_route,
    ack_join_request_route. split_and!; handle.
  - finish (OpApproveJoin id _).
  - finish (OpDenyJoin id _).
  - finish (OpClaimBootstrap id _).
  - finish (OpAckBootstrap id _).
Qed.

Lemma credentials_handled label id :
  handled h (create_profile_credential_route headers label h) /\
  handled h (revoke_profile_credential_route headers id h).
Proof.
  unfold create_profile_credential_route, revoke_profile_credential_route.
  split; cbv zeta; handle.
  - finish (OpCreateCredential _ _).
  - finish (OpRevokeCredential _ _).
Qed.

Lemma admit_member_handled name kind : handled h (admit_member_route headers name kind h).
Proof. unfold admit_member_route. cbv zeta. handle. finish (OpAdmitMember _ _ _). Qed.

Lemma suspend_member_handled reference suspended reason :
  handled h (set_member_suspension_route headers reference suspended reason h).
Proof.
  unfold set_member_suspension_route. cbv zeta. handle. finish (OpSuspendMember _ _ _).
Qed.

Lemma revoke_member_handled token : handled h (revoke_member_route headers token h).
Proof.
  unfold revoke_member_route, revoke_member_ref. handle.
  lazymatch goal with |- context [List.find ?f ?l] => destruct (List.find f l) end.
  - finish (OpRevokeMember _).
  - by apply handled_refuse.
Qed.

Lemma create_smaster_handled name : handled h (create_smaster_route headers name h).
Proof. unfold create_smaster_route. cbv zeta. handle. finish (OpAddSmaster _). Qed.

Lemma revoke_smaster_handled token : handled h (revoke_smaster_route headers token h).
Proof.
  unfold revoke_smaster_route, revoke_smaster_ref. handle.
  lazymatch goal with |- context [List.find ?f ?l] => destruct (List.find f l) end.
  - finish (OpRevokeSmaster _).
  - by apply handled_refuse.
Qed.

Lemma report_health_handled body : handled h (report_runtime_health_route headers body h).
Proof. unfold report_runtime_health_route. handle. finish (OpReportRuntime _ _). Qed.

Lemma create_loca_handled name : handled h (create_loca_route headers name h).
Proof. unfold create_loca_route. cbv zeta. handle. finish (OpCreateLoca _ _). Qed.

(** The two requests on a session are judged apart: a login may consume a
    pairing code before it takes the session, and a logout that finds no session
    has still written to the store. *)
Definition one_step (r : street_request) : Prop :=
  match r with PostSession _ | DeleteSession => False | _ => True end.

Lemma street_handler_handled r : one_step r -> handled h (street_handler headers peer r h).
Proof.
  intros Hone. pose proof (street_reads_handled r) as Hread.
  destruct r; try done; try exact Hread; clear Hread Hone; cbn [street_handler].
  - apply create_pairing_handled.
  - apply create_stock_handled.
  - apply create_join_handled.
  - apply join_decisions_handled.
  - apply join_decisions_handled.
  - apply join_decisions_handled.
  - apply join_decisions_handled.
  - apply (credentials_handled label "").
  - apply (credentials_handled "" credential_id).
  - apply admit_member_handled.
  - apply report_health_handled.
  - apply revoke_member_handled.
  - apply suspend_member_handled.
  - apply create_smaster_handled.
  - apply revoke_smaster_handled.
  - apply create_loca_handled.
Qed.

End street_requests.

(** *** The gate *)

Lemma require_membership_handled path params headers next h :
  (forall h1, authed h h1 -> handled h1 (next h1)) ->
  handled h (require_membership path params headers next h).
Proof.
  intros Hn. unfold require_membership. destruct (is_public_path path); [by apply Hn|].
  cbv zeta. apply handled_let; [apply resolve_authority_authed|]. intros h1 authority Ha _.
  destruct (_ && _ && _); [by apply handled_refuse|].
  destruct (match header headers ROOM_HEADER with Some _ => _ | None => _ end);
    [by apply handled_refuse|].
  apply handled_let; [apply known_caller_authed|]. intros h2 [] Ha2 _; [|by apply handled_refuse].
  assert (handled h2 (next h2)) as Hnext by (apply Hn; by etransitivity).
  destruct (_ && _); [|done]. destruct params as [params|]; [|by apply handled_refuse].
  destruct (match params with Some _ => _ | None => _ end); [by apply handled_refuse|done].
Qed.

Definition request_one_step (r : request) : Prop :=
  match r with Street r => one_step r | _ => True end.

Lemma serve_handled headers peer r h :
  request_one_step r -> handled h (serve headers peer r h).
Proof.
  intros Hone. destruct r as [room r|r|path]; cbn [serve];
    apply require_membership_handled; intros h1 Ha.
  - apply room_handler_handled.
  - by apply street_handler_handled.
  - by apply handled_refuse.
Qed.

(** *** Logging in and out *)

(** The next check of a handler that refuses. *)
Ltac next_check :=
  lazymatch goal with
  | |- context [(if ?b then (_, refuse _ _) else _).1] => destruct b
  | |- context [(if ?b then (_, refuse _ _) else _).2] => destruct b
  end.

(** The operations a request performs after it looked sessions up, and its status.
    A login consumes the pairing code it was given, then may create a session; a
    logout revokes one; any other request performs at most one operation, and none
    when it answers that the caller is unknown. *)
Definition request_ops headers (r : request) (status : StatusCode) (ops : list op) : Prop :=
  match r with
  | Street (PostSession body) =>
      exists login, ops = option_list (OpConsumePairing <$> pairing_code_of headers) ++ login /\
        (login = [] \/ status <> UNAUTHORIZED /\ exists davet grant, login = [OpCreateSession body davet grant])
  | Street DeleteSession => ops = option_list (OpRevokeSession <$> session_of headers)
  | _ => ops = [] \/ status <> UNAUTHORIZED /\ exists o, ops = [o]
  end.

Lemma create_session_ops headers body h :
  exists ops, (create_session_route headers body h).1 = run_ops ops h /\
    request_ops headers (Street (PostSession body)) (create_session_route headers body h).2.1 ops.
Proof.
  unfold create_session_route, request_ops. cbv zeta.
  set (first := match pairing_code_of headers with Some _ => _ | None => _ end).
  set (l1 := option_list (OpConsumePairing <$> pairing_code_of headers)).
  assert (first.1 = run_ops l1 h) as E1.
  { subst first l1. by destruct (pairing_code_of headers) as [code|]. }
  destruct first as [h1 ttl]. cbn [fst] in E1. subst h1.
  do 3 (next_check; [exists l1; split; [done|]; exists []; rewrite app_nil_r; by split; [|left]|]).
  lazymatch goal with |- context [create_session_scoped ?b ?d ?g ?h] =>
    exists (l1 ++ [OpCreateSession b d g]); rewrite run_ops_app;
    change (run_ops [OpCreateSession b d g] h) with (create_session_scoped b d g h).1;
    destruct (create_session_scoped b d g h) as [h2 [?|?]]
  end; (split; [done|]); eexists; (split; [done|]); right; (split; [done|]); by eexists _, _.
Qed.

Lemma create_session_code headers body h :
  (create_session_route headers body h).2.1 <> Panicked.
Proof.
  unfold create_session_route. cbv zeta.
  destruct (match pairing_code_of headers with Some _ => _ | None => _ end) as [h1 ttl].
  do 3 (next_check; [discriminate|]).
  destruct (create_session_scoped _ _ _ _) as [h2 [?|?]]; discriminate.
Qed.

Lemma delete_session_ops headers h :
  (delete_session_route headers h).1
    = run_ops (option_list (OpRevokeSession <$> session_of headers)) h /\
  (delete_session_route headers h).2.1 <> Panicked.
Proof.
  unfold delete_session_route. destruct (session_of headers) as [t|]; [|by split].
  destruct (revoke_session t h) as [h1 r] eqn:E. split; [|by destruct r as [[]|]].
  cbn. by rewrite E.
Qed.

Lemma serve_login headers peer body h :
  serve headers peer (Street (PostSession body)) h = create_session_route headers body h.
Proof. done. Qed.
Lemma serve_logout headers peer h :
  serve headers peer (Street DeleteSession) h = delete_session_route headers h.
Proof. done. Qed.

Lemma handled_ops h p : handled h p -> exists l, p.1 = run_ops l h.
Proof.
  intros [_ [[ts E]|[_ (h1 & o & [ts ->] & E)]]]; [by eexists|].
  exists (map OpResolveSession ts ++ [o]). by rewrite run_ops_app, E.
Qed.

Lemma serve_ops headers peer r h : exists l, (serve headers peer r h).1 = run_ops l h.
Proof.
  destruct r as [room r|r|path];
    [by apply handled_ops, serve_handled| |by apply handled_ops, serve_handled].
  destruct r; try by apply handled_ops, serve_handled.
  - destruct (create_session_ops headers body h) as (l & E & _). by exists l.
  - eexists. apply delete_session_ops.
Qed.

(** ** What a refusal leaves *)

(** The rooms, the seals and who belongs to the building. *)
Record same_building h h' : Prop := {
  sb_rooms : h_rooms h' = h_rooms h;
  sb_deleted : h_deleted h' = h_deleted h;
  sb_invites : h_invites h' = h_invites h;
  sb_members : h_members h' = h_members h;
  sb_smasters : h_smasters h' = h_smasters h;
  sb_lobby : h_lobby_tx h' = h_lobby_tx h;
}.

#[local] Instance same_building_refl : Reflexive same_building.
Proof. by constructor. Qed.
#[local] Instance same_building_trans : Transitive same_building.
Proof. intros h1 h2 h3 [] []. constructor; congruence. Qed.

Ltac same := first [done|by constructor].

Lemma run_store_same {A} (f : St -> St * A) h h' a :
  run_store f h = (h', a) -> same_building h h'.
Proof. intros [-> _]%run_store_state. same. Qed.

Lemma session_identity_same token h : same_building h (session_identity token h).1.
Proof.
  unfold session_identity. destruct token as [t|]; [|done].
  destruct (h_sessions h !! t); [|done]. destruct (_ && _ && _); [same|].
  destruct (_ && _); [|done]. destruct (sess_admin _); [|same].
  destruct (run_store _ _) as [h1 w] eqn:E. apply run_store_same in E.
  etransitivity; [|exact E]. same.
Qed.

Lemma authed_same h h' : authed h h' -> same_building h h'.
Proof.
  intros [ts ->]. revert h. induction ts as [|t ts IH]; intros h; [done|].
  cbn. etransitivity; [|apply IH]. apply (session_identity_same (Some t)).
Qed.

Lemma consume_pairing_same code h : same_building h (consume_admin_pairing code h).1.
Proof.
  unfold consume_admin_pairing. destruct (str_is_empty _); [same|].
  destruct (_ <=? _)%N; [same|]. destruct (negb _); same.
Qed.

Lemma revoke_session_same token h : same_building h (revoke_session token h).1.
Proof.
  unfold revoke_session.
  destruct (match h_sessions h !! token with Some _ => _ | None => _ end).
  - destruct (run_store _ h) as [h1 w] eqn:E1. apply run_store_same in E1. destruct w; [|done].
    destruct (run_store _ h1) as [h2 w] eqn:E2. apply run_store_same in E2.
    assert (same_building h h2) as Hs by (by etransitivity).
    destruct w; cbn; [etransitivity; [exact Hs|same]|exact Hs].
  - destruct (run_store _ h) as [h2 w] eqn:E2. apply run_store_same in E2.
    destruct w; cbn; [etransitivity; [exact E2|same]|exact E2].
Qed.

Lemma delete_session_same headers h : same_building h (delete_session_route headers h).1.
Proof.
  unfold delete_session_route. destruct (session_of headers) as [t|]; [|done].
  pose proof (revoke_session_same t h). by destruct (revoke_session t h) as [h1 r].
Qed.

(** A login that is refused as unknown only looked at the pairing code. *)
Lemma create_session_same headers body h :
  (create_session_route headers body h).2.1 = UNAUTHORIZED ->
  same_building h (create_session_route headers body h).1.
Proof.
  unfold create_session_route. cbv zeta.
  set (first := match pairing_code_of headers with Some _ => _ | None => _ end).
  assert (same_building h first.1) as Hs.
  { subst first. destruct (pairing_code_of headers) as [code|]; [|done].
    apply consume_pairing_same. }
  destruct first as [h1 ttl]. cbn [fst] in Hs.
  do 3 (next_check; [done|]).
  destruct (create_session_scoped _ _ _ _) as [h2 [?|?]]; discriminate.
Qed.

(** ** The master's desk *)

(** What a request on the desk's port does: nothing, or one operation that its header
    allows. *)
Definition at_desk headers h (p : Hub St * Response) : Prop :=
  p.2.1 <> Panicked /\
  (p.1 = h \/ admin_console_write_allowed headers = true /\ exists o, p.1 = run_op o h).

Lemma desk_quiet headers h resp : resp.1 <> Panicked -> at_desk headers h (h, resp).
Proof. intros Hr. split; [done|by left]. Qed.
Lemma desk_write_one headers f h :
  (forall h, (f h).2.1 <> Panicked /\ ((f h).1 = h \/ exists o, (f h).1 = run_op o h)) ->
  at_desk headers h (desk_write headers f h).
Proof.
  intros Hf. unfold desk_write. destruct (admin_console_write_allowed headers) eqn:Ha; [|by apply desk_quiet].
  destruct (Hf h) as [Hp [E|E]]; (split; [done|]); [by left|by right].
Qed.
Lemma desk_one headers r h : at_desk headers h (desk headers r h).
Proof.
  destruct r as [|name kind|loca name|ttl| |id|id|count ttl]; cbn [desk].
  - by apply desk_quiet.
  - apply desk_write_one. clear h. intros h. cbv zeta. destruct (str_is_empty _); [by split; [|left]|].
    destruct (_ && _); [by split; [|left]|].
    pose proof (eq_refl : run_op (OpAdmitMember (trim (default ""%string name)) (default "agent"%string kind) "master-console") h
      = (admit_member (trim (default ""%string name)) (default "agent"%string kind) "master-console" h).1) as E.
    destruct (admit_member _ _ _ _) as [h1 w]. split; [by destruct w|]. right. by eexists.
  - apply desk_write_one. clear h. intros h. cbv zeta. destruct (_ || _); [by split; [|left]|].
    destruct (member_by_name _ _) as [m|]; [|by split; [|left]].
    pose proof (eq_refl : run_op (OpInvite (mb_token m) (trim (default ""%string loca)) "master") h
      = (invite_member_to_room (mb_token m) (trim (default ""%string loca)) "master" h).1) as E.
    destruct (invite_member_to_room _ _ _ _) as [h1 w].
    split; [by destruct w as [|[]]|]. right. by eexists.
  - apply desk_write_one. clear h. intros h. destruct (pairing_ttl_ms ttl) as [ms|]; [|by split; [|left]].
    pose proof (eq_refl : run_op (OpRotatePairing ms) h = (rotate_admin_pairing_for ms h).1) as E.
    destruct (rotate_admin_pairing_for _ _) as [h1 w]. split; [by destruct w as [[]|]|]. right. by eexists.
  - unfold admin_console_join_requests. destruct (admission_stock_summary h). by apply desk_quiet.
  - apply desk_write_one. clear h. intros h.
    pose proof (eq_refl : run_op (OpApproveJoin id "master-console") h = (approve_join_request id "master-console" h).1) as E.
    destruct (approve_join_request _ _ _) as [h1 w]. split; [by destruct w|]. right. by eexists.
  - apply desk_write_one. clear h. intros h.
    pose proof (eq_refl : run_op (OpDenyJoin id "master-console") h = (deny_join_request id "master-console" h).1) as E.
    destruct (deny_join_request _ _ _) as [h1 w]. split; [by destruct w|]. right. by eexists.
  - apply desk_write_one. clear h. intros h. cbv zeta. destruct (_ || _); [by split; [|left]|].
    destruct (hours_ms _) as [ms|]; [|by split; [|left]]. destruct (negb _); [by split; [|left]|].
    pose proof (eq_refl : run_op (OpMintStock (N.to_nat (default 0%N count)) ms) h
      = (mint_admission_stock (N.to_nat (default 0%N count)) ms h).1) as E.
    destruct (mint_admission_stock _ _ _) as [h1 [[a b] c]]. split; [done|]. right. by eexists.
Qed.

(** ** Traffic *)

(** What reaches the server: requests, on either interface, websocket connections
    and the periodic tasks. *)
Inductive event : Type :=
  | Http (headers : HeaderMap) (peer : IpAddr) (r : request)
  | Desk (headers : HeaderMap) (r : desk_request)
  | Other (o : op).

Definition on_event h (e : event) : Hub St :=
  match e with
  | Http headers peer r => (serve headers peer r h).1
  | Desk headers r => (desk headers r h).1
  | Other o => run_op o h
  end.

Lemma events_ops l h : exists ops, foldl on_event h l = run_ops ops h.
Proof.
  revert h. induction l as [|e l IH]; intros h; [by exists []|]. cbn [foldl].
  destruct (IH (on_event h e)) as [ops ->].
  assert (exists ops1, on_event h e = run_ops ops1 h) as [ops1 ->].
  { destruct e as [headers peer r|headers r|o]; [apply serve_ops| |by exists [o]].
    destruct (desk_one headers r h) as [_ [E|[_ [o E]]]]; [by exists []|by exists [o]]. }
  exists (ops1 ++ ops). by rewrite run_ops_app.
Qed.

Lemma step_or_session r :
  request_one_step r \/ (exists body, r = Street (PostSession body)) \/ r = Street DeleteSession.
Proof.
  destruct r as [room r|r|path]; [by left| |by left].
  destruct r; try by left.
  all: right; first [by left; eexists|by right].
Qed.

(** ** Properties *)

(** C13: What a request does is a sequence of session lookups and then the operations
    of [request_ops]: at most one for every request but the login, which may consume
    a pairing code before it creates a session; and none when the answer is that the
    caller is unknown, a login's pairing code and a logout apart.  The question
    [is_writable] that a handler asks before it changes a room is a part of the
    operation here ([when_writable]): what another request may do between that
    question and the change is not modelled. *)
Theorem request_is_atomic headers peer r h :
  let answer := serve headers peer r h in
  exists sessions ops, request_ops headers r answer.2.1 ops /\
    answer.1 = run_ops (map OpResolveSession sessions ++ ops) h.
Proof.
  cbv zeta. destruct (step_or_session r) as [Hone|[[body ->]| ->]].
  - destruct (serve_handled headers peer r h Hone) as [_ Hh].
    assert (exists ts ops, (ops = [] \/ (serve headers peer r h).2.1 <> UNAUTHORIZED /\ exists o, ops = [o])
      /\ (serve headers peer r h).1 = run_ops (map OpResolveSession ts ++ ops) h) as (ts & ops & Hops & E).
    { destruct Hh as [[ts E]|[Hu (h1 & o & [ts ->] & E)]].
      - exists ts, []. rewrite app_nil_r. by split; [left|].
      - exists ts, [o]. rewrite run_ops_app. split; [right|exact E]. split; [done|by eexists]. }
    exists ts, ops. split; [|done]. destruct r as [|[]|]; try exact Hops; by destruct Hone.
  - destruct (create_session_ops headers body h) as (ops & E & Hops). by exists [], ops.
  - exists [], (option_list (OpRevokeSession <$> session_of headers)). split; [done|].
    rewrite serve_logout. apply delete_session_ops.
Qed.

(** C26: An unknown caller changes nothing: a request answered 401, whatever it
    asked for, leaves the rooms, the seals, the davets, the memberships, the
    second masters and the lobby as they were. *)
Theorem unauthorized_changes_nothing headers peer r h :
  (serve headers peer r h).2.1 = UNAUTHORIZED -> same_building h (serve headers peer r h).1.
Proof.
  destruct (step_or_session r) as [Hone|[[body ->]| ->]].
  - destruct (serve_handled headers peer r h Hone) as [_ [Ha|[Hu _]]]; [|done].
    intros _. by apply authed_same.
  - rewrite serve_login. apply create_session_same.
  - rewrite serve_logout. intros _. apply delete_session_same.
Qed.

(** No request reaches an [unreachable!()]: the errors the handlers exclude are
    never returned by the operations they call. *)
Theorem no_request_panics headers peer r h : (serve headers peer r h).2.1 <> Panicked.
Proof.
  destruct (step_or_session r) as [Hone|[[body ->]| ->]].
  - by apply (serve_handled headers peer r h Hone).
  - rewrite serve_login. apply create_session_code.
  - rewrite serve_logout. apply delete_session_ops.
Qed.

(** The master's desk: a request on its port never reaches an [unreachable!()];
    without the header of the desk's own page it changes nothing, and with it it
    performs at most one operation of the hub. *)
Theorem desk_is_guarded headers r h :
  (desk headers r h).2.1 <> Panicked /\
  ((desk headers r h).1 = h \/
   header headers ADMIN_CONSOLE_HEADER = Some "1"%string /\ exists o, (desk headers r h).1 = run_op o h).
Proof.
  destruct (desk_one headers r h) as [Hp [E|[Ha E]]]; (split; [done|]); [by left|right].
  split; [|done]. by apply bool_decide_eq_true in Ha.
Qed.

(** The invariant of the server under traffic: whatever requests, websocket
    events and periodic tasks arrive, in whatever order, every room stays well
    formed and no room overfull, and a room that was sealed stays out of memory
    and refuses messages. *)
Theorem traffic_invariant l h :
  building_ok h ->
  let h' := foldl on_event h l in
  building_ok h' /\
  forall room, is_deleted h room = true ->
    h_rooms h' !! room = None /\
    forall body is_admin principal, post room body is_admin principal h' = (h', Err RejDeleted).
Proof.
  intros Hb. destruct (events_ops l h) as [ops ->]. cbv zeta.
  destruct (run_ops_ok ops h Hb) as [Hb' Hk]. split; [done|]. intros room Hd.
  assert (is_deleted (run_ops ops h) room = true) as Hd' by by eapply kept_deleted.
  split; [by apply (bo_sealed _ Hb')|]. intros body is_admin principal. unfold post.
  by rewrite Hd'.
Qed.
End facts.

(** ** Witnesses: requests to a development server *)

#[local] Existing Instance ascii_unicode.
#[local] Existing Instance counter_csprng.
#[local] Existing Instance zero_digest.
#[local] Instance plain_text : HeaderText := {| header_to_str v := Some v |}.
#[local] Existing Instance no_environment.
#[local] Instance any_value : HeaderValueText := {| header_value _ := true |}.
#[local] Instance plain_path : PathText := {| encode_segment s := s |}.

Definition localhost : IpAddr := V4 [127; 0; 0; 1]%N.

Lemma request_is_atomic_witness :
  let answer := serve {[ADMIN_HEADER := "root"%string]} localhost (Street (PostRoom "lab")) sealed_hub in
  exists sessions ops,
    request_ops {[ADMIN_HEADER := "root"%string]} (Street (PostRoom "lab")) answer.2.1 ops /\
    answer.1 = run_ops (map OpResolveSession sessions ++ ops) sealed_hub.
Proof.
  exact (request_is_atomic {[ADMIN_HEADER := "root"%string]} localhost (Street (PostRoom "lab"))
    sealed_hub).
Defined.

Lemma unauthorized_changes_nothing_witness :
  same_building sealed_hub
    (serve ∅ localhost (InRoom "lab" (PostTask (mkCreateTask "work" None None "ada")))
       sealed_hub).1.
Proof. apply unauthorized_changes_nothing. vm_compute. reflexivity. Defined.

Lemma traffic_invariant_witness :
  building_ok (foldl on_event sealed_hub
    [Http {[ADMIN_HEADER := "root"%string]} localhost (Street (PostRoom "lab"));
     Other OpTickCare;
     Http {[ADMIN_HEADER := "root"%string]} localhost (InRoom "lab" DeleteRoom)]).
Proof. exact (proj1 (traffic_invariant _ sealed_hub sealed_hub_ok)). Defined.
