(* ===== verification/PolicyFacts.v ===== *)
(** * Who may do what

    An access policy, as a table from requests to the role they take, and the
    proof that the handlers of Router.v enforce it: a request that succeeds was
    made by a caller with that role. *)

From Stdlib Require Import Ascii.
From S2P Require Import Prelude Text Net Protocol StoreApi Hub Attention Access Membership.
From S2P Require Import AccessFacts Joins.
From S2P Require Import Rooms Memory WikiOps Attachments Building Queries Http Doors RouteWork.
From S2P Require Import RouteRooms RouteMembers RouteMemory RouteWiki.
From S2P Require Import RouteAttachments Router RouterFacts.

(** ** The policy *)

Inductive role : Type :=
  | Anyone
  | Session
  | Principal
  | OperatorOf (room : string)
  | Admin
  | Master.

(** The role a request takes.  The others are decided by the door of the room,
    by the secret of a join request, or inside the operation. *)
Definition room_role (room : string) (r : room_request) : role :=
  match r with
  | DeleteRoom | PutMemoryOwner _ => Master
  | ListInvites | CreateInvite _ | RevokeInvite _ | CallIntoLoca _ => Admin
  | SetMode _ | SetLead _ | PutSettings _ | Moderate _ _
  | PostTask _ | PostGoal _ | PatchGoal _ _ | PostAttention _
  | PutWikiPage _ _ | PutWikiConfig _ => OperatorOf room
  | PutShortMemory _ | PostMemoryEntry _ => Session
  | DeleteWikiPage _ _ | PostWikiReview _ | ClaimWikiReview | RenewWikiReview _ | FinishWikiReview _ _
  | PostWikiRuntime _ | GetWikiContext | PostWikiContext _ | AcceptWikiContext _ => Principal
  | _ => Anyone
  end.

Definition street_role (r : street_request) : role :=
  match r with
  | PostPairing _ | DeleteMember _ | SuspendMember _ _ _
  | ListSmasters | PostSmaster _ | DeleteSmaster _ => Master
  | GetStock | PostStock _ _ | ListJoinRequests | ApproveJoinRequest _ | DenyJoinRequest _
  | ListMembers | PostMember _ _ | ListProfiles | ListResidents => Admin
  | _ => Anyone
  end.

Definition request_role (r : request) : role :=
  match r with
  | InRoom room r => room_role room r
  | Street r => street_role r
  | Undecodable _ => Anyone
  end.

Definition successful (code : StatusCode) : bool :=
  match code with OK | CREATED | NO_CONTENT => true | _ => false end.

Section policy.
Context {St : Type} `{Unicode} `{HeaderText} `{PathText} `{Digest} `{Csprng} `{StoreBase St}
  `{IdentityStore St} `{MessageStore St} `{WorkStore St} `{CareStore St} `{RoomStore St}
  `{OperatorStore St} `{ReadStore St} `{CredentialStore St} `{AdmissionStore St}
  `{MemoryStore St} `{WikiStore St} `{HeaderValueText} `{Environment} `{AttachmentStore St}.
Implicit Types h : Hub St.
Implicit Types headers : HeaderMap.

(** The authority a request carries. *)
Definition authority_of headers h : RequestAuthority :=
  (resolve_authority (admin_token_of headers) (session_of headers) h).2.

(** The operator of a room is a building authority or the appointed principal.  A
    development server takes everybody, and a building without a database still
    goes by the names in the room's settings. *)
Definition operates (room : string) headers h : Prop :=
  is_building_admin (authority_of headers h) = true \/ admin_open h = true \/
  (exists a, loca_operator (h_store h) room = Some a /\
     ra_principal_id (authority_of headers h) = Some (loa_principal_id a)) \/
  (is_persistent (h_store h) = false /\
   exists r, h_rooms h !! room = Some r /\ rs_operators (r_settings r) <> []).

(** The caller's session, and the principal it was taken for. *)
Definition in_session headers h (idy : SessionIdentity) : Prop :=
  (session_identity (session_of headers) h).2 = Some idy.

Definition has_role headers h (r : role) : Prop :=
  match r with
  | Anyone => True
  | Session => exists idy, in_session headers h idy
  | Principal => exists idy pid, in_session headers h idy /\ sess_principal_id idy = Some pid
  | OperatorOf room => operates room headers h
  | Admin => is_building_admin (authority_of headers h) = true
  | Master => is_master_authority (authority_of headers h) = true
  end.

(** ** Looking a session up twice *)

Lemma session_identity_cases t h :
  (session_identity (Some t) h).1 = h \/
  (session_identity (Some t) h).2 = None /\ h_sessions (session_identity (Some t) h).1 !! t = None.
Proof.
  unfold session_identity. destruct (h_sessions h !! t) as [s|]; [|by left].
  destruct (_ && _ && _); [right; cbn; by rewrite lookup_delete_eq|].
  destruct (_ && _); [|by left]. right.
  destruct (sess_admin s); [|cbn; by rewrite lookup_delete_eq].
  destruct (run_store _ _) as [h1 w] eqn:Es. apply run_store_state in Es as [-> _].
  cbn. by rewrite lookup_delete_eq.
Qed.

Lemma session_identity_idem token h :
  session_identity token (session_identity token h).1 = session_identity token h.
Proof.
  destruct token as [t|]; [|done]. destruct (session_identity_cases t h) as [E|[E1 E2]].
  - by rewrite E.
  - destruct (session_identity (Some t) h) as [h1 r]. cbn in *. subst r. by rewrite E2.
Qed.

(** The hub once the caller's session was looked up. *)
Definition looked_up headers h : Hub St := (session_identity (session_of headers) h).1.

Definition settled headers h : Prop :=
  (session_identity (session_of headers) h).1 = h.

Lemma looked_up_settled headers h : settled headers (looked_up headers h).
Proof. unfold settled, looked_up. by rewrite session_identity_idem. Qed.

Lemma settled_session headers h :
  settled headers h ->
  session_identity (session_of headers) h = (h, (session_identity (session_of headers) h).2).
Proof. unfold settled. intros E. by rewrite (surjective_pairing (session_identity _ h)), E at 1. Qed.

Lemma resolve_looked_up headers h :
  resolve_authority (admin_token_of headers) (session_of headers) h
    = resolve_authority (admin_token_of headers) (session_of headers) (looked_up headers h).
Proof. unfold resolve_authority, looked_up. by rewrite session_identity_idem. Qed.

Lemma settled_authority headers h :
  settled headers h ->
  resolve_authority (admin_token_of headers) (session_of headers) h = (h, authority_of headers h).
Proof.
  intros Hs. unfold authority_of, resolve_authority. rewrite (settled_session _ _ Hs).
  destruct (session_identity _ h).2 as [s|]; [|done]. by destruct (sess_principal_id s).
Qed.

Lemma settled_admin headers h :
  settled headers h ->
  is_admin_req headers h = (h, is_building_admin (authority_of headers h)) /\
  is_master_req headers h = (h, is_master_authority (authority_of headers h)).
Proof.
  intros Hs. unfold is_admin_req, is_master_req. by rewrite (settled_authority _ _ Hs).
Qed.

Lemma settled_operator room name headers h :
  settled headers h ->
  (is_loca_operator room (admin_token_of headers) (session_of headers) name h).1 = h /\
  ((is_loca_operator room (admin_token_of headers) (session_of headers) name h).2 = true ->
   operates room headers h).
Proof.
  intros Hs. unfold is_loca_operator. rewrite (settled_authority _ _ Hs). split; [done|]. cbn.
  unfold operates. destruct (is_building_admin _); [by left|].
  destruct (admin_open h); [by right; left|]. intros Hop. right; right.
  destruct (ra_principal_id _) as [pid|], (loca_operator _ _) as [a|]; cbn in Hop.
  1: left; exists a; apply bool_decide_eq_true in Hop; by subst.
  all: right; destruct (is_persistent _); [done|]; split; [done|].
  all: destruct (h_rooms h !! room) as [r|]; [|done]; exists r; split; [done|].
  all: apply bool_decide_eq_true in Hop; by intros E; rewrite E, elem_of_nil in Hop.
Qed.

(** *** The guards, from any hub *)

Lemma is_admin_looked_up headers h :
  is_admin_req headers h
    = (looked_up headers h, is_building_admin (authority_of headers (looked_up headers h))).
Proof.
  transitivity (is_admin_req headers (looked_up headers h)).
  - unfold is_admin_req. by rewrite resolve_looked_up.
  - apply settled_admin, looked_up_settled.
Qed.

Lemma is_master_looked_up headers h :
  is_master_req headers h
    = (looked_up headers h, is_master_authority (authority_of headers (looked_up headers h))).
Proof.
  transitivity (is_master_req headers (looked_up headers h)).
  - unfold is_master_req. by rewrite resolve_looked_up.
  - apply settled_admin, looked_up_settled.
Qed.

Lemma looked_up_idem headers h : looked_up headers (looked_up headers h) = looked_up headers h.
Proof. apply looked_up_settled. Qed.

(** What an operator guard lets through. *)
Definition operator_guard (room : string) headers h (p : Hub St * bool) : Prop :=
  p.1 = looked_up headers h /\ (p.2 = true -> operates room headers (looked_up headers h)).

Lemma may_operate_guard room headers name h :
  operator_guard room headers h (may_operate room headers name h).
Proof.
  unfold may_operate. rewrite is_admin_looked_up.
  destruct (is_building_admin _) eqn:E; [by split; [|left]|].
  destruct (settled_operator room name headers (looked_up headers h)) as [E1 E2];
    [apply looked_up_settled|]. by split.
Qed.

Lemma room_operator_guard room headers h :
  operator_guard room headers h (is_room_operator_req room headers h).
Proof.
  unfold is_room_operator_req. rewrite is_admin_looked_up.
  pose proof (looked_up_settled headers h) as Hs.
  destruct (is_building_admin _) eqn:E; [by split; [|left]|].
  rewrite (settled_session _ _ Hs). destruct (str_is_empty _); [done|].
  destruct (settled_operator room (default "" (sess_name <$>
    (session_identity (session_of headers) (looked_up headers h)).2)) headers _ Hs) as [E1 E2].
  by split.
Qed.

Lemma actor_of_looked_up headers c h : (actor_of headers c h).1 = looked_up headers h.
Proof.
  unfold actor_of. pose proof (looked_up_settled headers h) as Hs.
  rewrite (surjective_pairing (session_identity (session_of headers) h)).
  change ((session_identity (session_of headers) h).1) with (looked_up headers h).
  destruct (h_require_sessions _); [done|].
  rewrite (settled_authority _ _ Hs). by repeat case_match.
Qed.

(** ** What a handler granted *)

Definition granted (P : Prop) (p : Hub St * Response) : Prop :=
  successful p.2.1 = true -> P.

Lemma granted_refuse P h code text : successful code = false -> granted P (h, refuse code text).
Proof. intros E. unfold granted. cbn. by rewrite E. Qed.

Lemma if_admin_granted headers refusal rest h h0 :
  successful refusal.1 = false -> looked_up headers h = h0 ->
  granted (has_role headers h0 Admin) (if_admin headers refusal rest h).
Proof.
  intros Hr <-. unfold if_admin. rewrite is_admin_looked_up. cbn [has_role].
  destruct (is_building_admin _); [done|]. unfold granted. cbn. by rewrite Hr.
Qed.

Lemma if_master_granted headers refusal rest h h0 :
  successful refusal.1 = false -> looked_up headers h = h0 ->
  granted (has_role headers h0 Master) (if_master headers refusal rest h).
Proof.
  intros Hr <-. unfold if_master. rewrite is_master_looked_up. cbn [has_role].
  destruct (is_master_authority _); [done|]. unfold granted. cbn. by rewrite Hr.
Qed.

Lemma if_room_operator_granted room headers rest h h0 :
  looked_up headers h = h0 ->
  granted (has_role headers h0 (OperatorOf room)) (if_room_operator room headers rest h).
Proof.
  intros <-. unfold if_room_operator. destruct (room_operator_guard room headers h) as [_ Hop].
  destruct (is_room_operator_req _ _ _) as [h1 []]; [|by apply granted_refuse].
  intros _. by apply Hop.
Qed.

Lemma as_operator_granted room headers name refusal rest h h0 :
  looked_up headers h = h0 ->
  granted (has_role headers h0 (OperatorOf room)) (as_operator room headers name refusal rest h).
Proof.
  intros <-. unfold as_operator. destruct (may_operate_guard room headers name h) as [_ Hop].
  destruct (may_operate _ _ _ _) as [h1 []]; [|by apply granted_refuse].
  intros _. by apply Hop.
Qed.

Lemma with_access_granted room headers P f h :
  granted P (f (looked_up headers h)) -> granted P (with_access room headers f h).
Proof.
  intros Hf. unfold with_access, room_access.
  destruct (is_deleted h room); [by apply granted_refuse|].
  unfold room_decision_of. rewrite (surjective_pairing (session_identity _ h)).
  destruct (enter_decision _ _ _ _ _ _); [exact Hf|by apply granted_refuse..].
Qed.

Lemma if_writable_granted room P f h : granted P (f h) -> granted P (if_writable room f h).
Proof.
  intros Hf. unfold if_writable. destruct (is_writable h room); [done|by apply granted_refuse].
Qed.

Lemma if_wiki_writable_granted room P f h : granted P (f h) -> granted P (if_wiki_writable room f h).
Proof.
  intros Hf. unfold if_wiki_writable. destruct (is_writable h room); [done|by apply granted_refuse].
Qed.

(** The guards of the owner of a memory and of the pages of a wiki. *)
Lemma master_guard_granted headers rest h h0 :
  looked_up headers h = h0 ->
  granted (has_role headers h0 Master)
    (let '(h1, master) := is_master_req headers h in
     if negb master then (h1, refuse FORBIDDEN "only the master may assign memory ownership") else rest h1).
Proof.
  intros <-. rewrite is_master_looked_up. cbn [has_role]. destruct (is_master_authority _); [done|].
  by apply granted_refuse.
Qed.
Lemma wiki_operator_granted room headers rest h :
  settled headers h ->
  granted (has_role headers h (OperatorOf room))
    (let '(h1, operator) := room_operator room headers h in
     if negb operator then (h1, refuse FORBIDDEN "loca operator required") else rest h1).
Proof.
  intros Hs. unfold room_operator. destruct (settled_operator room "" headers h Hs) as [E1 E2].
  destruct (is_loca_operator _ _ _ _ _) as [h1 []]; [|by apply granted_refuse].
  intros _. by apply E2.
Qed.

Lemma if_writable_status_granted room P f h : granted P (f h) -> granted P (if_writable_status room f h).
Proof.
  intros Hf. unfold if_writable_status. destruct (is_writable h room); [done|done].
Qed.

(** The guards of who writes a memory and who reviews a wiki. *)
Lemma settled_pair {A} headers (k : Hub St -> option SessionIdentity -> A) h :
  settled headers h ->
  (let '(h1, s) := session_identity (session_of headers) h in k h1 s)
    = k h (session_identity (session_of headers) h).2.
Proof. intros Hs. by rewrite (settled_session _ _ Hs). Qed.

Lemma as_principal_granted headers refusal rest h :
  successful refusal.1 = false -> settled headers h ->
  granted (has_role headers h Principal) (as_principal headers refusal rest h).
Proof.
  intros Hr Hs. unfold as_principal, session_principal. rewrite settled_pair by done. cbn [has_role].
  unfold in_session. destruct (session_identity _ h).2 as [idy|]; cbn; [|unfold granted; cbn; by rewrite Hr].
  destruct (sess_principal_id idy) as [pid|] eqn:E; [|unfold granted; cbn; by rewrite Hr].
  intros _. by exists idy, pid.
Qed.

Lemma as_memory_writer_granted headers room text rest h :
  granted (has_role headers (looked_up headers h) Session) (as_memory_writer headers room text rest h).
Proof.
  unfold as_memory_writer. apply with_access_granted, if_writable_granted.
  destruct (str_is_empty _); [by apply granted_refuse|]. pose proof (looked_up_settled headers h) as Hs.
  revert Hs. generalize (looked_up headers h). intros h1 Hs. unfold memory_actor. cbn [has_role]. unfold in_session.
  pose proof (settled_session _ _ Hs) as E.
  destruct (session_of headers) as [token|]; [|by apply granted_refuse]. rewrite E.
  destruct (session_identity (Some token) h1).2 as [idy|]; [|by apply granted_refuse].
  intros _. by exists idy.
Qed.

Lemma as_actor_granted headers c P f h :
  (forall by_, granted P (f by_ (looked_up headers h))) -> granted P (as_actor headers c f h).
Proof.
  intros Hf. unfold as_actor. pose proof (actor_of_looked_up headers c h) as E.
  destruct (actor_of headers c h) as [h1 [by_|code]] eqn:Ea; cbn in E; subst h1; [apply Hf|].
  assert (code = UNAUTHORIZED) as -> by (eapply actor_of_error; by rewrite Ea).
  by apply granted_refuse.
Qed.

Lemma require_membership_granted path params headers P next h :
  granted P (next h) -> granted P (next (looked_up headers h)) ->
  granted P (require_membership path params headers next h).
Proof.
  intros Hh Hl. unfold require_membership. destruct (is_public_path path); [done|]. cbv zeta.
  rewrite resolve_looked_up. pose proof (looked_up_settled headers h) as Hs.
  rewrite (settled_authority _ _ Hs). destruct (_ && _ && _); [by apply granted_refuse|].
  destruct (match header headers ROOM_HEADER with Some _ => _ | None => _ end);
    [by apply granted_refuse|].
  unfold known_caller.
  assert (match session_of headers with
          | Some t => session_identity (Some t) (looked_up headers h)
          | None => (looked_up headers h, None)
          end = session_identity (session_of headers) (looked_up headers h)) as ->
    by by destruct (session_of headers).
  rewrite (settled_session _ _ Hs), (settled_authority _ _ Hs).
  destruct (_ || _); [|by apply granted_refuse]. destruct (_ && _); [|done].
  destruct params as [params|]; [|by apply granted_refuse].
  destruct (match params with Some _ => _ | None => _ end); [by apply granted_refuse|done].
Qed.

(** *** The handlers with a role *)

Ltac grant :=
  cbv zeta;
  repeat lazymatch goal with
  | |- granted _ (with_access _ _ _ _) => apply with_access_granted
  | |- granted _ (if_writable _ _ _) => apply if_writable_granted
  | |- granted _ (if_wiki_writable _ _ _) => apply if_wiki_writable_granted
  | |- granted _ (if_writable_status _ _ _) => apply if_writable_status_granted
  | |- granted _ (as_actor _ _ _ _) => apply as_actor_granted; intros ?
  | |- granted _ (if _ then (_, refuse _ _) else _) =>
      lazymatch goal with |- granted _ (if ?b then _ else _) =>
        destruct b; [by apply granted_refuse|] end
  end;
  rewrite ?looked_up_idem;
  first [apply if_admin_granted|apply if_master_granted|apply if_room_operator_granted
        |apply as_operator_granted|apply master_guard_granted
        |apply wiki_operator_granted|apply as_principal_granted; [done|]|apply as_memory_writer_granted];
  first [apply looked_up_settled|by rewrite ?looked_up_idem].

(** These two look the session up themselves. *)
Lemma commit_wiki_granted room headers body h :
  granted (has_role headers (looked_up headers h) Principal) (commit_wiki_route room headers body h).
Proof.
  unfold commit_wiki_route. apply with_access_granted, if_wiki_writable_granted.
  rewrite settled_pair by apply looked_up_settled. cbn [has_role]. unfold in_session.
  destruct (session_identity _ (looked_up headers h)).2 as [idy|]; [|by apply granted_refuse].
  destruct (sess_principal_id idy) as [pid|] eqn:E; [|by apply granted_refuse].
  intros _. by exists idy, pid.
Qed.
Lemma native_ready_granted room headers runtime h :
  granted (has_role headers (looked_up headers h) Principal) (wiki_native_ready_route room headers runtime h).
Proof.
  unfold wiki_native_ready_route. apply with_access_granted.
  rewrite settled_pair by apply looked_up_settled. cbn [has_role]. unfold in_session.
  destruct (session_identity _ (looked_up headers h)).2 as [idy|]; [|done].
  destruct (_ || _); [done|]. destruct (sess_principal_id idy) as [pid|] eqn:E; [|done].
  intros _. by exists idy, pid.
Qed.

Lemma room_handler_granted room headers r h :
  granted (has_role headers (looked_up headers h) (room_role room r))
    (room_handler room headers r h).
Proof.
  destruct r; cbn [room_role room_handler]; try done;
    unfold call_into_loca_route, set_mode_route, set_lead_route, set_settings_route,
      moderate_route, delete_room_route, list_invites_route, create_invite_route,
      revoke_invite_route, create_task_route, create_goal_route, update_goal_route,
      create_attention_route, set_loca_memory_owner, edit_wiki_page_route, configure_wiki_route,
      write_short_memory_route, append_long_memory_route, remove_wiki_page_route, claim_wiki_review_route,
      renew_wiki_review_route, finish_wiki_review_route, wiki_context, wiki_context_request,
      wiki_context_accept; first [apply commit_wiki_granted|apply native_ready_granted|grant].
Qed.

Lemma street_handler_granted headers peer r h :
  granted (has_role headers (looked_up headers h) (street_role r))
    (street_handler headers peer r h).
Proof.
  destruct r; cbn [street_role street_handler]; try done;
    unfold create_pairing_route, get_admission_stock_route, create_admission_stock_route,
      list_join_requests_route, approve_join_request_route, deny_join_request_route,
      list_members_route, admit_member_route, list_profiles_route, revoke_member_route,
      set_member_suspension_route, list_residents_route, list_smasters_route,
      create_smaster_route, revoke_smaster_route; grant.
Qed.

Lemma serve_granted headers peer r h :
  granted (has_role headers (looked_up headers h) (request_role r)) (serve headers peer r h).
Proof.
  destruct r as [room r|r|path]; cbn [request_role serve]; [| |done].
  - apply require_membership_granted; [apply room_handler_granted|].
    rewrite <- (looked_up_idem headers h) at 1. apply room_handler_granted.
  - apply require_membership_granted; [apply street_handler_granted|].
    rewrite <- (looked_up_idem headers h) at 1. apply street_handler_granted.
Qed.

Lemma revoke_invite_ok token inv h :
  h_invites h !! token = Some inv ->
  (store_revoke_invite token (h_clock h) (h_store h)).2 = Ok tt ->
  (revoke_invite token h).2 = Ok true /\ h_invites (revoke_invite token h).1 !! token = None.
Proof.
  intros E Hst. unfold revoke_invite. rewrite E. unfold run_store.
  destruct (store_revoke_invite _ _ _) as [s w]. cbn in Hst. subst w. cbn. split; [done|].
  destruct (retire_davet_frame
    (with_h_invites (delete token (h_invites h)) (with_h_store s h)) inv) as (_ & Hi & _).
  cbn in Hi. rewrite Hi. apply lookup_delete_eq.
Qed.

(** ** Properties *)

(** C14: The access policy is enforced: a request that succeeds was made by a caller
    with the role the policy asks for.  Only the master seals rooms, ends or
    suspends memberships, pairs browsers and makes or unmakes second masters; only a
    building authority admits members, hands out and revokes davets and decides
    join requests; only an operator of the room runs it, declares its tasks, goals
    and attention and edits its wiki; the memory is written in a session, and a wiki
    is reviewed, and its context taken, in the session of a principal. *)
Theorem policy_enforced headers peer r h :
  successful (serve headers peer r h).2.1 = true ->
  has_role headers (looked_up headers h) (request_role r).
Proof. apply serve_granted. Qed.

(** What protects the master's davets from a second master is the form of the
    request: a davet the master issued is not revoked when the second master names
    it by its token, and is revoked when it names it by its management id. *)
Theorem masters_davet_guard room headers inv h :
  settled headers h ->
  is_building_admin (authority_of headers h) = true ->
  is_master_authority (authority_of headers h) = false ->
  let token := inv_token inv in
  let id := invite_management_id token in
  h_invites h !! token = Some inv -> inv_room inv = room -> inv_issued_by inv = "master"%string ->
  invite_by_token h token = Some inv -> invite_by_ref h token = Some inv ->
  invite_by_ref h id = Some inv -> h_invites h !! id = None ->
  (store_revoke_invite token (h_clock h) (h_store h)).2 = Ok tt ->
  revoke_invite_route room token headers h
    = (h, refuse FORBIDDEN "the master issued this davet — only the master ends it") /\
  (revoke_invite_route room id headers h).2 = (OK, BText "revoked") /\
  h_invites (revoke_invite_route room id headers h).1 !! token = None.
Proof.
  intros Hs Ha Hm token id Hinv Hroom Hby Ht Hrt Hri Hid Hst.
  destruct (settled_admin headers h Hs) as [Ea Em].
  unfold revoke_invite_route, if_admin. rewrite !Ea, !Ha. cbn [negb].
  rewrite Hrt, Hri, (bool_decide_eq_true_2 _ Hroom). cbn [negb]. rewrite Em, Hm, Ht.
  rewrite (bool_decide_eq_true_2 _ Hby). cbn [negb andb]. split; [done|].
  assert (invite_by_token h id = None) as -> by (unfold invite_by_token; by rewrite Hid).
  cbn [negb andb]. unfold revoke_invite_ref. rewrite Hri.
  destruct (revoke_invite_ok token inv h Hinv Hst) as [E1 E2].
  fold token. destruct (revoke_invite token h) as [h1 w]. cbn in E1. by subst w.
Qed.
End policy.

(** ** Witnesses: a building with a second master, and a davet of the master *)

#[local] Existing Instance ascii_unicode.
#[local] Existing Instance counter_csprng.
#[local] Existing Instance plain_text.
#[local] Existing Instance plain_path.
#[local] Existing Instance any_value.
#[local] Existing Instance no_environment.
#[local] Instance head_digest : Digest :=
  {| sha256 s := replicate 32 (N.of_nat (String.length s)) |}.

Definition masters_davet : Invite :=
  mkInvite "dv_1" "lab" "mb_ada" "ada" "agent" 900 "master".

Definition second_hub : Hub unit :=
  with_h_smasters {["sm_1" := "bea"%string]}
    (with_h_invites {["dv_1" := masters_davet]}
      (with_h_rooms {["lab" := room_with Free room_settings_default 1]} (empty_hub tt))).

Definition second_headers : HeaderMap := {[ADMIN_HEADER := "sm_1"%string]}.

Lemma policy_enforced_witness :
  has_role {[ADMIN_HEADER := "root"%string]}
    (looked_up {[ADMIN_HEADER := "root"%string]} second_hub) Master.
Proof.
  apply (policy_enforced _ localhost (Street (PostSmaster (Some "cyd"%string)))).
  vm_compute. reflexivity.
Defined.

Lemma masters_davet_guard_witness :
  revoke_invite_route "lab" "dv_1" second_headers second_hub
    = (second_hub, refuse FORBIDDEN "the master issued this davet — only the master ends it") /\
  (revoke_invite_route "lab" (invite_management_id "dv_1") second_headers second_hub).2
    = (OK, BText "revoked") /\
  h_invites (revoke_invite_route "lab" (invite_management_id "dv_1") second_headers second_hub).1
    !! "dv_1"%string = None.
Proof.
  apply (masters_davet_guard "lab" second_headers masters_davet second_hub);
    vm_compute; reflexivity.
Defined.
