(* ===== verification/BlobFacts.v ===== *)
(** * The files of the attachments: facts

    What [put], [read] and [delete] of store/attachments.rs do to the tree: which
    entries they may touch, what is read after a write, and that nothing outside
    the store changes whatever lies in it. *)

From Stdlib Require Import Ascii.
From Stdlib Require String.
From S2P Require Import Prelude Text StoreApi Sql Hub Membership BlobFiles.

Open Scope loca_scope.

(** ** Running a computation *)

(** From a tree in [P], a run that ends well ends in [Q], one that fails in [R]. *)
Definition spec {A} (P : Files -> Prop) (m : Io A) (Q : A -> Files -> Prop) (R : Files -> Prop)
    : Prop :=
  forall c, P (tables c) ->
    match m c with (c', Ok a) => Q a (tables c') | (c', Err _) => R (tables c') end.

Section rules.
Context {A B : Type}.
Implicit Types P R : Files -> Prop.

Lemma spec_bind P (m : Io A) Q (k : A -> Io B) Q' R :
  spec P m Q R -> (forall a, spec (Q a) (k a) Q' R) -> spec P (bind m k) Q' R.
Proof.
  intros Hm Hk c HP. specialize (Hm c HP). unfold bind. destruct (m c) as [c1 [a|e]]; [|done].
  exact (Hk a c1 Hm).
Qed.

Lemma spec_catch P (m : Io A) Q R (k : result A io_error -> Io B) Q' R' :
  spec P m Q R -> (forall a, spec (Q a) (k (Ok a)) Q' R') ->
  (forall e, spec R (k (Err e)) Q' R') -> spec P (catch m k) Q' R'.
Proof.
  intros Hm Ho He c HP. specialize (Hm c HP). unfold catch. destruct (m c) as [c1 [a|e]].
  - exact (Ho a c1 Hm).
  - exact (He e c1 Hm).
Qed.

Lemma spec_ret (a : A) P (Q : A -> Files -> Prop) R : (forall fs, P fs -> Q a fs) -> spec P (ret a) Q R.
Proof. intros HQ c HP. by apply HQ. Qed.

Lemma spec_stop e P (Q : A -> Files -> Prop) R : (forall fs, P fs -> R fs) -> spec P (stop e) Q R.
Proof. intros HR c HP. by apply HR. Qed.

Lemma spec_query P (f : Files -> A) (Q : A -> Files -> Prop) R :
  (forall fs, P fs -> Q (f fs) fs) -> spec P (query f) Q R.
Proof. intros HQ c HP. by apply HQ. Qed.

Lemma spec_pre P P' (m : Io A) Q R : (forall fs, P fs -> P' fs) -> spec P' m Q R -> spec P m Q R.
Proof. intros HP Hm c H. by apply Hm, HP. Qed.

Lemma spec_post P (m : Io A) Q Q' R R' :
  spec P m Q R -> (forall a fs, Q a fs -> Q' a fs) -> (forall fs, R fs -> R' fs) -> spec P m Q' R'.
Proof.
  intros Hm HQ HR c HP. specialize (Hm c HP). destruct (m c) as [c1 [a|e]]; [by apply HQ|by apply HR].
Qed.
End rules.

(** A step changes the tree as it says, or leaves it. *)
Lemma spec_step P (f : Files -> result Files io_error) (Q : unit -> Files -> Prop) R :
  (forall fs, P fs -> R fs) -> (forall fs fs', P fs -> f fs = Ok fs' -> Q tt fs') ->
  spec P (io_step f) Q R.
Proof.
  intros HR HQ c HP. unfold io_step. destruct (next_fault c); [by apply HR|].
  destruct (f (tables c)) as [fs|e] eqn:Ef; [by eapply HQ|by apply HR].
Qed.

(** ** Walking *)

Lemma split_last_snoc p x : split_last (p ++ [x]) = Some (p, x).
Proof. induction p as [|y p IH]; [done|]. cbn. by rewrite IH. Qed.

(** Every directory on the way is a real one. *)
Definition anchored (d : Path) (fs : Files) : Prop :=
  forall q, q `prefix_of` d -> q <> [] -> exists mode, entries fs !! q = Some (Dir mode).

Lemma entry_at_snoc fs p x : entry_at fs (p ++ [x]) = entries fs !! (p ++ [x]).
Proof. by destruct p. Qed.

Lemma anchored_snoc d x fs mode :
  anchored d fs -> entries fs !! (d ++ [x]) = Some (Dir mode) -> anchored (d ++ [x]) fs.
Proof.
  intros Ha E q Hq Hne. destruct (decide (q = d ++ [x])) as [->|Hd]; [by eexists|].
  apply Ha; [|done]. destruct Hq as [k Hk]. destruct k as [|y k _] using rev_ind.
  - rewrite app_nil_r in Hk. congruence.
  - rewrite app_assoc in Hk. apply app_inj_tail in Hk as [-> _]. by exists k.
Qed.

Lemma anchored_prefix d q fs : anchored d fs -> q `prefix_of` d -> anchored q fs.
Proof. intros Ha Hq r Hr. apply Ha. by etransitivity. Qed.

Lemma anchored_entry d x fs : anchored (d ++ [x]) fs -> exists m, entries fs !! (d ++ [x]) = Some (Dir m).
Proof. intros Ha. apply Ha; [done|]. by destruct d. Qed.

Lemma walk_cons fs links cur x rest :
  walk fs links cur (x :: rest) =
    match entry_at fs (cur ++ [x]) with
    | None => Err NotFound
    | Some (Dir _) => walk fs links (cur ++ [x]) rest
    | Some (Symlink target) =>
        match links with O => Err OtherIo | S links => walk fs links [] (target ++ rest) end
    | Some _ => Err OtherIo
    end.
Proof. by destruct links. Qed.

(** Along real directories a path leads where it says. *)
Lemma walk_through fs links more rest : forall cur,
  anchored (cur ++ rest) fs -> walk fs links cur (rest ++ more) = walk fs links (cur ++ rest) more.
Proof.
  induction rest as [|x rest IH]; intros cur Ha; [by rewrite app_nil_r|].
  cbn [app]. rewrite walk_cons, entry_at_snoc. destruct (Ha (cur ++ [x])) as [m ->].
  { exists rest. by rewrite <- app_assoc. }
  { by destruct cur. }
  rewrite IH by by rewrite <- app_assoc. by rewrite <- app_assoc.
Qed.

Lemma walk_nil fs links cur : walk fs links cur [] = Ok cur.
Proof. by destruct links. Qed.

Lemma locate_in d x fs : anchored d fs -> locate fs (d ++ [x]) = Ok (d ++ [x]).
Proof.
  intros Ha. unfold locate. rewrite split_last_snoc.
  pose proof (walk_through fs LINKS_MAX [] d [] Ha) as Hw. rewrite app_nil_r, walk_nil in Hw.
  by rewrite Hw.
Qed.

(** Nothing lies below a directory that is missing. *)
Lemma locate_missing d x y fs :
  anchored d fs -> entries fs !! (d ++ [x]) = None -> locate fs ((d ++ [x]) ++ [y]) = Err NotFound.
Proof.
  intros Ha Hn. unfold locate. rewrite split_last_snoc, walk_through by done.
  cbn [app]. by rewrite walk_cons, entry_at_snoc, Hn.
Qed.

Lemma put_entry_lookup p e fs q :
  entries (put_entry p e fs) !! q = if decide (q = p) then Some e else entries fs !! q.
Proof. cbn. case_decide; [subst; apply lookup_insert_eq|by rewrite lookup_insert_ne]. Qed.

Lemma drop_entry_lookup p fs q :
  entries (drop_entry p fs) !! q = if decide (q = p) then None else entries fs !! q.
Proof. cbn. case_decide; [subst; apply lookup_delete_eq|by rewrite lookup_delete_ne]. Qed.

Lemma anchored_dir d p m fs : anchored d fs -> anchored d (put_entry p (Dir m) fs).
Proof.
  intros Ha q Hq Hne. rewrite put_entry_lookup. case_decide; [by eexists|by apply Ha].
Qed.

Lemma anchored_put d p e fs : ~ p `prefix_of` d -> anchored d fs -> anchored d (put_entry p e fs).
Proof.
  intros Hp Ha q Hq Hne. rewrite put_entry_lookup. case_decide; [congruence|by apply Ha].
Qed.

Lemma anchored_drop d p fs : ~ p `prefix_of` d -> anchored d fs -> anchored d (drop_entry p fs).
Proof.
  intros Hp Ha q Hq Hne. rewrite drop_entry_lookup. case_decide; [congruence|by apply Ha].
Qed.

(** ** One directory *)

Definition is_dir (fs : Files) (p : Path) : Prop := exists m, entries fs !! p = Some (Dir m).
(** Nothing, or a directory. *)
Definition may_dir (fs : Files) (p : Path) : Prop :=
  match entries fs !! p with None | Some (Dir _) => True | _ => False end.

Lemma follow_dir fs d x links :
  anchored d fs -> is_dir fs (d ++ [x]) -> follow fs links (d ++ [x]) = Ok (d ++ [x]).
Proof.
  intros Ha [m Em]. destruct links; cbn -[entry_at locate]; rewrite locate_in by done;
    cbn -[entry_at]; by rewrite entry_at_snoc, Em.
Qed.

(** What may hold of the tree around a directory that is made sure of. *)
Lemma set_mode_spec (I : Files -> Prop) d x mode :
  (forall fs, I fs -> anchored d fs /\ is_dir fs (d ++ [x])) ->
  (forall fs m, I fs -> is_dir fs (d ++ [x]) -> I (put_entry (d ++ [x]) (Dir m) fs)) ->
  spec I (set_mode (d ++ [x]) mode) (fun _ => I) I.
Proof.
  intros Hd Hput. apply spec_step; [done|]. intros fs fs' HI. destruct (Hd fs HI) as [Ha Hdir].
  rewrite follow_dir by done. destruct Hdir as [m Em]. rewrite entry_at_snoc, Em. intros Hok.
  assert (fs' = put_entry (d ++ [x]) (Dir mode) fs) as ->
    by (destruct d; injection Hok as <-; done).
  apply Hput; [done|by exists m].
Qed.

Lemma ensure_dir_spec (I : Files -> Prop) d x :
  (forall fs, I fs -> anchored d fs) ->
  (forall fs m, I fs -> may_dir fs (d ++ [x]) -> I (put_entry (d ++ [x]) (Dir m) fs)) ->
  spec I (ensure_dir (d ++ [x])) (fun _ fs => I fs /\ is_dir fs (d ++ [x])) I.
Proof.
  intros Ha Hput. set (p := d ++ [x]).
  assert (spec (fun fs => I fs /\ is_dir fs p) (set_mode p DIR_MODE)
            (fun _ fs => I fs /\ is_dir fs p) I) as Hset.
  { eapply spec_post; [apply (set_mode_spec (fun fs => I fs /\ is_dir fs p))| |]; try done.
    - intros fs [HI Hd]. split; [by apply Ha|done].
    - intros fs m [HI Hd] _. split.
      + apply Hput; [done|]. destruct Hd as [m' Em]. unfold may_dir. fold p. by rewrite Em.
      + exists m. by rewrite put_entry_lookup, decide_True.
    - by intros fs [HI _]. }
  unfold ensure_dir. eapply spec_bind.
  { apply (spec_query _ _ (fun found fs => I fs /\ found = symlink_metadata fs p)). by split. }
  intros found. assert (forall fs, I fs -> symlink_metadata fs p = ok_or (entries fs !! p) NotFound)
    as Hmeta.
  { intros fs HI. unfold symlink_metadata, p. rewrite locate_in by by apply Ha.
    by rewrite entry_at_snoc. }
  destruct found as [[m|m data|t|]|e].
  - eapply spec_pre; [|exact Hset]. intros fs [HI Hm]. rewrite Hmeta in Hm by done. split; [done|].
    exists m. by destruct (entries fs !! p); simplify_eq/=.
  - by apply spec_stop; intros fs [HI _].
  - by apply spec_stop; intros fs [HI _].
  - by apply spec_stop; intros fs [HI _].
  - destruct e; try (by apply spec_stop; intros fs [HI _]).
    apply (spec_bind _ _ (fun _ fs => I fs /\ is_dir fs p)); [|by intros _].
    apply spec_step; [by intros fs [HI _]|]. intros fs fs' [HI Hm] Hmk. rewrite Hmeta in Hm by done.
    unfold make_entry in Hmk. unfold p in Hmk. rewrite locate_in in Hmk by by apply Ha.
    rewrite entry_at_snoc in Hmk. fold p in Hmk.
    destruct (entries fs !! p) as [e|] eqn:Ep; [done|]. injection Hmk as <-. split.
    + apply Hput; [done|]. unfold may_dir. fold p. by rewrite Ep.
    + exists 493%N. by rewrite put_entry_lookup, decide_True.
Qed.

(** ** Writing a blob *)

Lemma path_ne {A} (p q : list A) : length p <> length q -> p <> q.
Proof. by intros Hl ->. Qed.
(** Paths of different lengths, or with different last components, differ. *)
Ltac paths_differ :=
  let E := fresh in
  intros E; first
    [ apply (f_equal length) in E; rewrite ?length_app in E; cbn in E; lia
    | apply app_inj_tail in E as [? E]; congruence ].

Lemma long_prefix (p q : Path) : length q < length p -> ~ p `prefix_of` q.
Proof. intros Hl Hp. apply prefix_length in Hp. lia. Qed.

Lemma shard_not_tmp sha : shard_of sha <> "tmp"%string.
Proof. by destruct sha as [|a [|b [|c sha]]]. Qed.

Section put.
Context `{Digest} `{ProcessStamp}.
Variables (base : Path) (name : string) (bytes : string).
Let root : Path := base ++ [name].
Let bs : BlobStore := mkBlobStore root.
Let sha : string := sha_hex bytes.
Let tmp_dir : Path := root ++ ["tmp"%string].
Let shard : Path := root ++ [shard_of sha].
Let final_path : Path := shard ++ [sha].
Implicit Types fs : Files.

Local Ltac differ := unfold final_path, shard, tmp_dir; paths_differ.

(** The entry holds a file of this id that can be read. *)
Definition good_file (id : string) (e : option Entry) : Prop :=
  exists m d, e = Some (Reg m d) /\ sha_hex d = id
    /\ (N.of_nat (String.length d) <= MAX_BLOB_BYTES)%N.

(** One entry before and after a write: the directories of the store come to be or
    change their mode, files come and go in [tmp], and the file of the blob
    changes unless it was good. *)
Definition written_at (p : Path) (e e' : option Entry) : Prop :=
  e' = e
  \/ (p = root \/ p = tmp_dir \/ p = shard)
     /\ match e with None | Some (Dir _) => True | _ => False end
     /\ (exists m, e' = Some (Dir m))
  \/ (exists n, p = tmp_dir ++ [n])
  \/ p = final_path /\ ~ good_file sha e.
Definition written fs fs' : Prop := forall p, written_at p (entries fs !! p) (entries fs' !! p).

(** Up to the question whether the blob is there, its file has not changed. *)
Definition prepared fs fs' : Prop :=
  written fs fs' /\ entries fs' !! final_path = entries fs !! final_path.

Lemma written_refl fs : written fs fs.
Proof. intros p. by left. Qed.

Lemma written_step fs fs1 fs2 :
  written fs fs1 ->
  (forall p, entries fs2 !! p = entries fs1 !! p \/ written_at p (entries fs !! p) (entries fs2 !! p)) ->
  written fs fs2.
Proof. intros H1 H2 p. destruct (H2 p) as [->|Hw]; [apply H1|done]. Qed.

Lemma written_dir fs fs1 p m :
  p = root \/ p = tmp_dir \/ p = shard ->
  written fs fs1 -> may_dir fs1 p -> written fs (put_entry p (Dir m) fs1).
Proof.
  intros Hp Hw Hm. eapply written_step; [done|]. intros q. rewrite put_entry_lookup.
  case_decide as Hq; [subst q|by left]. right. right. left. split; [done|]. split; [|by eexists].
  unfold may_dir in Hm. destruct (Hw p) as [He|[(_ & He & _)|[[n Hn]|[Hf _]]]]; [by rewrite <- He|done| |].
  - exfalso. destruct Hp as [-> | [-> | -> ] ]; revert Hn; differ.
  - exfalso. destruct Hp as [-> | [-> | -> ] ]; revert Hf; differ.
Qed.

Lemma prepared_dir fs fs1 p m :
  p = root \/ p = tmp_dir \/ p = shard ->
  prepared fs fs1 -> may_dir fs1 p -> prepared fs (put_entry p (Dir m) fs1).
Proof.
  intros Hp [Hw Hf] Hm. split; [by apply written_dir|]. rewrite put_entry_lookup, decide_False; [done|].
  destruct Hp as [-> | [-> | -> ] ]; differ.
Qed.

Lemma written_tmp fs fs1 fs2 n :
  written fs fs1 -> (forall p, p <> tmp_dir ++ [n] -> entries fs2 !! p = entries fs1 !! p) ->
  written fs fs2.
Proof.
  intros Hw Hs. eapply written_step; [done|]. intros p.
  destruct (decide (p = tmp_dir ++ [n])) as [->|Hn]; [|left; by apply Hs].
  right. right. right. left. by eexists.
Qed.

(** The directories of the store, as they are while the file is written. *)
Definition at_work fs fs' : Prop :=
  written fs fs' /\ ~ good_file sha (entries fs !! final_path)
  /\ anchored tmp_dir fs' /\ anchored shard fs'.

Lemma at_work_tmp fs fs1 fs2 n :
  at_work fs fs1 -> (forall p, p <> tmp_dir ++ [n] -> entries fs2 !! p = entries fs1 !! p) ->
  at_work fs fs2.
Proof.
  intros (Hw & Hg & Ha & Hs) He. split; [by eapply written_tmp|]. split; [done|].
  split; intros q Hq Hne; rewrite He; try (by apply Ha); try (by apply Hs); intros ->;
    revert Hq; apply long_prefix; unfold shard, tmp_dir; rewrite !length_app; cbn; lia.
Qed.

Lemma at_work_final fs fs1 fs2 :
  at_work fs fs1 -> (forall p, p <> final_path -> entries fs2 !! p = entries fs1 !! p) ->
  at_work fs fs2.
Proof.
  intros (Hw & Hg & Ha & Hs) He. split; [|split; [done|]].
  - eapply written_step; [done|]. intros p. destruct (decide (p = final_path)) as [->|Hn].
    + right. right. right. by right.
    + left. by apply He.
  - split; intros q Hq Hne; rewrite He; try (by apply Ha); try (by apply Hs); intros ->;
      revert Hq; apply long_prefix; unfold final_path, shard, tmp_dir; rewrite !length_app; cbn; lia.
Qed.

Lemma tmp_not_final n : tmp_dir ++ [n] <> final_path.
Proof.
  intros E. unfold final_path in E. apply app_inj_tail in E as [E _]. unfold shard, tmp_dir in E.
  apply app_inj_tail in E as [_ E]. by apply (shard_not_tmp sha).
Qed.

(** What is at the place of the blob when it was stored. *)
Definition stored fs : Prop :=
  exists m d, entries fs !! final_path = Some (Reg m d) /\ sha_hex d = sha
    /\ (d = bytes \/ (N.of_nat (String.length d) <= MAX_BLOB_BYTES)%N).

Lemma read_at_in d x id fs b :
  anchored d fs ->
  read_at fs (d ++ [x]) (Some id) = Ok b <->
  (exists m, entries fs !! (d ++ [x]) = Some (Reg m b)) /\ sha_hex b = id
    /\ (N.of_nat (String.length b) <= MAX_BLOB_BYTES)%N.
Proof.
  intros Ha. unfold read_at, read_no_follow. rewrite locate_in by done. cbn -[entry_at].
  rewrite entry_at_snoc. destruct (entries fs !! (d ++ [x])) as [[m|m data|t|]|];
    try (split; [done|by intros ([? [=]] & _)]).
  destruct (N.ltb_spec MAX_BLOB_BYTES (N.of_nat (String.length data))) as [Hl|Hl].
  - split; [done|]. intros ([m' [= -> ->]] & _ & Hs). lia.
  - case_bool_decide as Hid; split.
    + intros [= <-]. eauto.
    + by intros ([m' [= -> ->]] & _).
    + done.
    + by intros ([m' [= -> ->]] & ? & _).
Qed.

Section work.
Variables (fs0 : Files) (n : string).
Let tmp : Path := tmp_dir ++ [n].
Definition loaded (data : string) fs : Prop :=
  at_work fs0 fs /\ exists m, entries fs !! tmp = Some (Reg m data).

Lemma work_tmp_locate fs : at_work fs0 fs -> locate fs tmp = Ok tmp.
Proof. intros (_ & _ & Ha & _). by apply locate_in. Qed.
Lemma work_final_locate fs : at_work fs0 fs -> locate fs final_path = Ok final_path.
Proof. intros (_ & _ & _ & Ha). by apply locate_in. Qed.

Lemma open_new_spec mode : spec (at_work fs0) (open_new tmp mode) (fun _ => loaded "") (at_work fs0).
Proof.
  apply spec_step; [done|]. intros fs fs' Hw. unfold make_entry. rewrite work_tmp_locate by done.
  cbn -[entry_at]. destruct (entry_at fs tmp); [done|]. intros [= <-]. split.
  - eapply at_work_tmp; [done|]. intros p Hp. rewrite put_entry_lookup. by rewrite decide_False.
  - exists mode. by rewrite put_entry_lookup, decide_True.
Qed.

Lemma write_all_spec data :
  spec (loaded data) (write_all tmp bytes) (fun _ => loaded bytes) (at_work fs0).
Proof.
  apply spec_step; [by intros fs [Hw _]|]. intros fs fs' [Hw [m Em]]. rewrite work_tmp_locate by done.
  cbn -[entry_at]. unfold tmp. rewrite entry_at_snoc. fold tmp. rewrite Em. intros [= <-]. split.
  - eapply at_work_tmp; [done|]. intros p Hp. rewrite put_entry_lookup. by rewrite decide_False.
  - exists m. by rewrite put_entry_lookup, decide_True.
Qed.

Lemma chmod_spec mode :
  spec (loaded bytes) (set_mode tmp mode) (fun _ => loaded bytes) (at_work fs0).
Proof.
  apply spec_step; [by intros fs [Hw _]|]. intros fs fs' [Hw [m Em]].
  assert (follow fs LINKS_MAX tmp = Ok tmp) as ->.
  { cbn -[entry_at locate]. rewrite work_tmp_locate by done. cbn -[entry_at].
    unfold tmp. rewrite entry_at_snoc. fold tmp. by rewrite Em. }
  unfold tmp. rewrite entry_at_snoc. fold tmp. rewrite Em. intros [= <-]. split.
  - eapply at_work_tmp; [done|]. intros p Hp. rewrite put_entry_lookup. by rewrite decide_False.
  - exists mode. by rewrite put_entry_lookup, decide_True.
Qed.

Lemma rename_spec :
  spec (loaded bytes) (rename tmp final_path) (fun _ fs => at_work fs0 fs /\ stored fs) (loaded bytes).
Proof.
  apply spec_step; [done|]. intros fs fs' [Hw [m Em]].
  rewrite work_tmp_locate, work_final_locate by done. cbn -[entry_at].
  unfold tmp, final_path. rewrite !entry_at_snoc. fold tmp. fold final_path. rewrite Em.
  intros Hok.
  assert (fs' = put_entry final_path (Reg m bytes) (drop_entry tmp fs)) as ->.
  { by destruct (entries fs !! final_path) as [[]|]; simplify_eq Hok. }
  split.
  - eapply at_work_final; [eapply at_work_tmp; [exact Hw|]|].
    + intros p Hp. rewrite drop_entry_lookup. by rewrite decide_False.
    + intros p Hp. rewrite put_entry_lookup. by rewrite decide_False.
  - exists m, bytes. rewrite put_entry_lookup, decide_True by done. eauto.
Qed.

Lemma remove_final_spec : spec (loaded bytes) (remove_file final_path) (fun _ => loaded bytes) (at_work fs0).
Proof.
  apply spec_step; [by intros fs [Hw _]|]. intros fs fs' [Hw [m Em]].
  rewrite work_final_locate by done. cbn -[entry_at]. intros Hok.
  assert (fs' = drop_entry final_path fs) as ->.
  { by destruct (entry_at fs final_path) as [[]|]; simplify_eq Hok. }
  split.
  - eapply at_work_final; [done|]. intros p Hp. rewrite drop_entry_lookup. by rewrite decide_False.
  - exists m. rewrite drop_entry_lookup. rewrite decide_False by apply tmp_not_final. done.
Qed.

Lemma publish_spec :
  spec (loaded bytes) (publish tmp final_path sha) (fun _ fs => at_work fs0 fs /\ stored fs) (at_work fs0).
Proof.
  eapply spec_catch; [apply rename_spec| |].
  - intros a. by apply spec_ret.
  - intros e. eapply spec_bind.
    { apply (spec_query _ _ (fun there fs =>
        loaded bytes fs /\ there = is_ok (read_at fs final_path (Some sha)))). by split. }
    intros [].
    + apply spec_ret. intros fs [[Hw _] Hr]. split; [done|].
      destruct (read_at fs final_path (Some sha)) as [b|] eqn:Er; [|done].
      destruct Hw as (_ & _ & _ & Hs). apply read_at_in in Er as ([m Em] & Hb & Hl); [|done].
      exists m, b. eauto.
    + eapply spec_bind.
      { apply (spec_query _ _ (fun _ => loaded bytes)). by intros fs [Hl _]. }
      intros [].
      * eapply spec_bind; [apply remove_final_spec|]. intros ?.
        eapply spec_post; [apply rename_spec|done|]. by intros fs [Hw _].
      * apply spec_stop. by intros fs [Hw _].
Qed.

(** The directory of the blob is synced, and the temporary file removed. *)
Lemma fsync_dir_spec P d : spec P (fsync_dir d) (fun _ => P) P.
Proof.
  eapply spec_bind; [apply (spec_query _ _ (fun _ => P)); done|].
  intros [p|e]; [|by apply spec_stop]. apply spec_step; [done|]. by intros fs fs' HP [= <-].
Qed.

Lemma remove_tmp_spec (P : Files -> Prop) :
  (forall fs, P fs -> at_work fs0 fs) -> (forall fs, P fs -> P (drop_entry tmp fs)) ->
  spec P (remove_file tmp) (fun _ => P) P.
Proof.
  intros Hw Hd. apply spec_step; [done|]. intros fs fs' HP. rewrite work_tmp_locate by by apply Hw.
  cbn -[entry_at]. intros Hok.
  assert (fs' = drop_entry tmp fs) as ->.
  { by destruct (entry_at fs tmp) as [[]|]; simplify_eq Hok. }
  by apply Hd.
Qed.

Lemma at_work_drop fs : at_work fs0 fs -> at_work fs0 (drop_entry tmp fs).
Proof.
  intros Hw. eapply at_work_tmp; [done|]. intros p Hp. rewrite drop_entry_lookup.
  by rewrite decide_False.
Qed.

Lemma stored_drop fs : stored fs -> stored (drop_entry tmp fs).
Proof.
  intros (m & d & Em & Hd). exists m, d. rewrite drop_entry_lookup, decide_False; [done|].
  intros E. by apply (tmp_not_final n).
Qed.

Lemma write_spec :
  spec (at_work fs0)
    (with_temp_guard tmp (
       let! _ := open_new tmp FILE_MODE in
       let! _ := write_all tmp bytes in
       let! _ := sync_all in
       let! _ := set_mode tmp FILE_MODE in
       let! _ := publish tmp final_path sha in
       let! _ := fsync_dir shard in
       ret sha))
    (fun a fs => a = sha /\ at_work fs0 fs /\ stored fs) (at_work fs0).
Proof.
  apply (spec_catch _ _ (fun a fs => a = sha /\ at_work fs0 fs /\ stored fs) (at_work fs0)).
  - eapply spec_bind; [apply open_new_spec|]. intros ?.
    eapply spec_bind; [apply write_all_spec|]. intros ?.
    eapply (spec_bind _ _ (fun _ => loaded bytes)).
    { apply spec_step; [by intros fs [Hw _]|]. by intros fs fs' HP [= <-]. } intros ?.
    eapply spec_bind; [apply chmod_spec|]. intros ?.
    eapply spec_bind; [apply publish_spec|]. intros ?.
    eapply spec_bind; [eapply spec_post; [apply fsync_dir_spec|done|]; by intros fs [Hw _]|].
    intros ?. by apply spec_ret.
  - intros a. eapply spec_catch.
    { apply (remove_tmp_spec (fun fs => a = sha /\ at_work fs0 fs /\ stored fs)).
      - by intros fs (_ & Hw & _).
      - intros fs (Ea & Hw & Hs). split; [done|]. split; [by apply at_work_drop|by apply stored_drop]. }
    all: intros ? c HP; exact HP.
  - intros e. eapply spec_catch.
    { apply (remove_tmp_spec (at_work fs0)); [done|]. apply at_work_drop. }
    all: intros ? c HP; exact HP.
Qed.
End work.

(** What a write may have done to the tree, however it ended. *)
Definition put_frame fs fs' : Prop :=
  written fs fs' /\ (entries fs' !! final_path = entries fs !! final_path \/ is_dir fs' shard).

Lemma prepared_frame fs fs' : prepared fs fs' -> put_frame fs fs'.
Proof. intros [Hw Hf]. split; [done|by left]. Qed.
Lemma at_work_frame fs fs' : at_work fs fs' -> put_frame fs fs'.
Proof. intros (Hw & _ & _ & Ha). split; [done|right; by apply anchored_entry]. Qed.

Lemma ensure_spec fs0 d x (I : Files -> Prop) :
  d ++ [x] = root \/ d ++ [x] = tmp_dir \/ d ++ [x] = shard ->
  (forall fs p m, I fs -> I (put_entry p (Dir m) fs)) ->
  spec (fun fs => (prepared fs0 fs /\ anchored d fs) /\ I fs) (ensure_dir (d ++ [x]))
    (fun _ fs => (prepared fs0 fs /\ anchored (d ++ [x]) fs) /\ I fs) (put_frame fs0).
Proof.
  intros Hp Hput. eapply spec_post.
  - apply (ensure_dir_spec (fun fs => (prepared fs0 fs /\ anchored d fs) /\ I fs)).
    + by intros fs [[_ Ha] _].
    + intros fs m [[Hw Ha] HI] Hm. split; [|by apply Hput].
      split; [by apply prepared_dir|by apply anchored_dir].
  - intros a fs [[[Hw Ha] HI] [m Hd]]. split; [|done]. split; [done|by eapply anchored_snoc].
  - intros fs [[Hw _] _]. by apply prepared_frame.
Qed.

(** The outcome of looking where the blob goes. *)
Lemma dedup_in fs r :
  anchored shard fs -> dedup final_path sha fs = Ok r ->
  if r then good_file sha (entries fs !! final_path) else ~ good_file sha (entries fs !! final_path).
Proof.
  intros Ha. unfold dedup, symlink_metadata. unfold final_path. rewrite locate_in by done.
  cbn -[entry_at]. rewrite entry_at_snoc. fold final_path.
  destruct (entries fs !! final_path) as [[m|m data|t|]|] eqn:Ef; cbn; try done.
  - intros [= <-]. destruct (read_at fs final_path (Some sha)) as [b|] eqn:Er; cbn.
    + apply read_at_in in Er as ([m' Em] & Hb); [|done]. exists m', b. by rewrite <- Ef.
    + intros (m' & d & [= -> ->] & Hd & Hl).
      assert (read_at fs final_path (Some sha) = Ok d) as Hr.
      { apply read_at_in; [done|]. split; [by eexists|done]. }
      congruence.
  - intros [= <-]. by intros (m & d & ? & _).
Qed.

Lemma put_spec fs0 :
  anchored base fs0 ->
  spec (fun fs => fs = fs0) (put bs bytes)
    (fun a fs => a = sha /\ put_frame fs0 fs /\ anchored shard fs /\ stored fs) (put_frame fs0).
Proof.
  intros Ha. unfold put. fold sha. cbn [bs_root bs]. fold tmp_dir. fold shard.
  eapply spec_bind.
  { eapply spec_pre; [|apply (ensure_spec fs0 base name (fun _ => True)); [by left|done]].
    intros fs ->. split; [|done]. split; [|done]. split; [apply written_refl|done]. }
  intros ?. eapply spec_bind.
  { apply (ensure_spec fs0 root "tmp" (fun _ => True)); [right; by left|done]. }
  intros ?. eapply spec_bind.
  { eapply spec_pre; [|apply (ensure_spec fs0 root (shard_of sha) (anchored tmp_dir));
      [right; by right|by intros; apply anchored_dir]].
    intros fs [[Hw Ht] _]. split; [|done]. split; [done|].
    eapply anchored_prefix; [exact Ht|]. by apply prefix_app_r. }
  intros ?. fold shard. fold final_path. eapply spec_bind.
  { apply (spec_query _ _ (fun found fs =>
      ((prepared fs0 fs /\ anchored shard fs) /\ anchored tmp_dir fs)
      /\ found = dedup final_path sha fs)). by split. }
  intros [[]|e].
  - apply spec_ret. intros fs [[[Hw Hs] _] Hd]. split; [done|]. split; [by apply prepared_frame|].
    split; [done|]. symmetry in Hd. apply dedup_in in Hd as (m & d & Em & Hd & Hl); [|done].
    exists m, d. eauto.
  - eapply (spec_bind _ _ (fun _ => at_work fs0)).
    { intros c [[[[Hw Hf] Hs] Ht] Hd]. cbn -[wrap_add64]. symmetry in Hd. apply dedup_in in Hd; [|done].
      split; [exact Hw|]. split; [by rewrite <- Hf|]. split; [exact Ht|exact Hs]. }
    intros n. assert (root ++ ["tmp"%string] ++ [n] = tmp_dir ++ [n]) as -> by apply app_assoc.
    eapply spec_post; [apply (write_spec fs0 n)| |].
    + intros id fs (-> & Hw & Hst). split; [done|]. split; [by apply at_work_frame|]. split; [|done].
      apply Hw.
    + apply at_work_frame.
  - apply spec_stop. intros fs [[[Hw _] _] _]. by apply prepared_frame.
Qed.

(** Whatever lies in the tree, a write changes nothing outside the store. *)
Lemma put_frame_contained fs fs' p :
  put_frame fs fs' -> ~ root `prefix_of` p -> entries fs' !! p = entries fs !! p.
Proof.
  intros [Hw _] Hp. destruct (Hw p) as [He|[(Hd & _)|[[n ->]|[-> _]]]]; [done| | |]; destruct Hp.
  - destruct Hd as [-> | [-> | -> ] ]; [done|by apply prefix_app_r..].
  - unfold tmp_dir. rewrite <- app_assoc. by apply prefix_app_r.
  - unfold final_path, shard. rewrite <- app_assoc. by apply prefix_app_r.
Qed.
End put.

(** ** The store as a whole *)

(** The hash is thirty-two bytes. *)
Class DigestLaws `{Digest} : Prop := {
  sha256_length : forall s, length (sha256 s) = 32;
  sha256_bytes : forall s, Forall (fun b => (b < 256)%N) (sha256 s);
}.

Section tree.
Context `{Digest} `{ProcessStamp}.
Variables (base : Path) (name : string).
Let root : Path := base ++ [name].
Let bs : BlobStore := mkBlobStore root.
Implicit Types fs : Files.

Local Ltac differ := unfold root; paths_differ.

Definition shard_dir (id : string) : Path := root ++ [shard_of id].
Definition blob_path (id : string) : Path := shard_dir id ++ [id].

(** The directories are real ones, and a file lies in a directory. *)
Definition sound fs : Prop :=
  anchored root fs
  /\ forall id, may_dir fs (shard_dir id)
       /\ (entries fs !! blob_path id <> None -> is_dir fs (shard_dir id)).

Lemma path_for_id id : path_for bs id = if is_sha256_hex id then Some (blob_path id) else None.
Proof.
  unfold path_for, blob_path, shard_dir. rewrite <- app_assoc. by destruct (is_sha256_hex id).
Qed.

Lemma sound_shard fs id :
  sound fs -> entries fs !! blob_path id <> None -> anchored (shard_dir id) fs.
Proof.
  intros [Ha Hs] Hn. destruct (proj2 (Hs id) Hn) as [m Em]. by eapply anchored_snoc.
Qed.

(** In a sound tree a read is the lookup of one entry. *)
Lemma read_sound fs id b :
  sound fs ->
  read bs fs id = Ok b <->
  is_sha256_hex id = true /\ (exists m, entries fs !! blob_path id = Some (Reg m b))
    /\ sha_hex b = id /\ (N.of_nat (String.length b) <= MAX_BLOB_BYTES)%N.
Proof.
  intros Hs. unfold read. rewrite path_for_id. destruct (is_sha256_hex id); cbn [ok_or].
  2: { split; [done|by intros [? _]]. }
  destruct (entries fs !! blob_path id) as [e|] eqn:Ee.
  - assert (anchored (shard_dir id) fs) as Ha by (apply sound_shard; [done|by rewrite Ee]).
    unfold blob_path at 1. rewrite read_at_in by done. fold (blob_path id). rewrite Ee. tauto.
  - split; [|by intros (_ & [? [=]] & _)]. destruct Hs as [Ha Hs]. destruct (Hs id) as [Hm _].
    unfold may_dir in Hm. destruct (entries fs !! shard_dir id) as [[m| | |]|] eqn:Ed; try done.
    + unfold blob_path at 1. rewrite read_at_in by by eapply anchored_snoc. fold (blob_path id).
      rewrite Ee. by intros ([? [=]] & _).
    + unfold read_at, read_no_follow, blob_path, shard_dir. by rewrite locate_missing.
Qed.

(** The entry of a blob before and after a write of [bytes]. *)
Lemma written_blob bytes fs fs' id :
  written base name bytes fs fs' ->
  entries fs' !! blob_path id = entries fs !! blob_path id
  \/ id = sha_hex bytes /\ ~ good_file id (entries fs !! blob_path id).
Proof.
  intros Hw. destruct (Hw (blob_path id)) as [He|[(Hd & _)|[[n Hn]|[Hf Hg]]]]; [by left| | |].
  - exfalso. unfold blob_path, shard_dir in Hd. destruct Hd as [E|[E|E]]; revert E; differ.
  - exfalso. unfold blob_path, shard_dir in Hn. apply app_inj_tail in Hn as [Hn _].
    apply app_inj_tail in Hn as [_ Hn]. by eapply shard_not_tmp.
  - right. unfold blob_path in Hf. apply app_inj_tail in Hf as [_ ->]. done.
Qed.

Lemma put_frame_sound bytes fs fs' :
  put_frame base name bytes fs fs' -> sound fs -> sound fs'.
Proof.
  intros [Hw Hf] [Ha Hs].
  assert (forall q, is_dir fs q -> length q <= length root + 1 -> is_dir fs' q) as Hdir.
  { intros q [m Em] Hl. destruct (Hw q) as [He|[(_ & _ & Hd)|[[n ->]|[-> _]]]].
    - exists m. by rewrite He.
    - done.
    - unfold root in Hl. rewrite !length_app in Hl. cbn in Hl. lia.
    - unfold root in Hl. rewrite !length_app in Hl. cbn in Hl. lia. }
  split.
  - intros q Hq Hne. apply Hdir; [by apply Ha|]. apply prefix_length in Hq. lia.
  - intros id. destruct (Hs id) as [Hm Hd]. split.
    + unfold may_dir in *.
      destruct (Hw (shard_dir id)) as [He|[(_ & _ & [m Hm'])|[[n E]|[E _]]]].
      * by rewrite He.
      * by rewrite Hm'.
      * exfalso. unfold shard_dir in E. revert E. differ.
      * exfalso. unfold shard_dir in E. revert E. differ.
    + intros Hn. destruct (written_blob bytes fs fs' id Hw) as [He|[-> Hg]].
      * apply Hdir; [apply Hd; by rewrite <- He|]. unfold shard_dir. rewrite length_app. cbn. lia.
      * destruct Hf as [He|Hd']; [|exact Hd'].
        apply Hdir; [apply Hd; intros Hx; apply Hn; by transitivity (entries fs !! blob_path (sha_hex bytes))|]. unfold shard_dir. rewrite length_app. cbn. lia.
Qed.

(** ** Deleting *)

Definition removed id fs fs' : Prop := fs' = fs \/ fs' = drop_entry (blob_path id) fs.

(** At most the entry of the blob goes, a link there itself and not what it
    names; where it was gone it stays gone. *)
Lemma delete_spec fs0 id :
  anchored root fs0 ->
  spec (fun fs => fs = fs0) (blob_delete bs id)
    (fun _ fs => removed id fs0 fs
       /\ (is_sha256_hex id = true -> is_dir fs0 (shard_dir id) -> entries fs !! blob_path id = None))
    (fun fs => fs = fs0).
Proof.
  intros Ha c <-. unfold blob_delete. rewrite path_for_id.
  destruct (is_sha256_hex id); cbn [bs_root bs]; [|by split; [left|]].
  fold (shard_dir id). unfold delete_no_follow, bind, query. unfold shard_dir at 1.
  rewrite locate_in by done. cbn -[entry_at shard_dir]. rewrite entry_at_snoc. fold (shard_dir id).
  destruct (entries (tables c) !! shard_dir id) as [[m|m data|t|]|] eqn:Ed; try done.
  2: { cbn. split; [by left|]. intros _ [m Em]. congruence. }
  unfold catch, io_step. destruct (next_fault c); [done|].
  fold (blob_path id). unfold blob_path. rewrite entry_at_snoc. fold (blob_path id).
  destruct (entries (tables c) !! blob_path id) as [[m'|m' data|t|]|] eqn:Ee; cbn -[drop_entry blob_path].
  1: done.
  1-3: split; [by right|]; intros _ _; by rewrite drop_entry_lookup, decide_True.
  split; [by left|done].
Qed.

Lemma removed_contained id fs fs' p :
  removed id fs fs' -> ~ root `prefix_of` p -> entries fs' !! p = entries fs !! p.
Proof.
  intros [->| ->] Hp; [done|]. rewrite drop_entry_lookup, decide_False; [done|]. intros ->.
  apply Hp. unfold blob_path, shard_dir. rewrite <- app_assoc. by apply prefix_app_r.
Qed.

Lemma removed_sound id fs fs' : removed id fs fs' -> sound fs -> sound fs'.
Proof.
  intros [->| ->] [Ha Hs]; [done|].
  assert (forall q, q <> blob_path id -> entries (drop_entry (blob_path id) fs) !! q = entries fs !! q)
    as Hq by (intros q Hq; by rewrite drop_entry_lookup, decide_False).
  assert (forall id', shard_dir id' <> blob_path id) as Hne.
  { intros id'. unfold blob_path, shard_dir. differ. }
  split.
  - apply anchored_drop; [|done]. apply long_prefix. unfold blob_path, shard_dir, root.
    rewrite !length_app. cbn. lia.
  - intros id'. destruct (Hs id') as [Hm Hd]. unfold may_dir, is_dir. rewrite (Hq _ (Hne id')).
    split; [done|]. rewrite drop_entry_lookup. case_decide; [done|]. exact Hd.
Qed.

Lemma sound_anchored fs : sound fs -> anchored root fs.
Proof. by intros [Ha _]. Qed.
Lemma sound_base fs : sound fs -> anchored base fs.
Proof. intros [Ha _]. eapply anchored_prefix; [exact Ha|]. by apply prefix_app_r. Qed.

Lemma hex_digit_ok n :
  (n < 16)%N -> ascii_in 48 57 (hex_digit n) || ascii_in 97 102 (hex_digit n) = true.
Proof.
  intros Hn. unfold hex_digit, ascii_in. destruct (N.ltb_spec n 10).
  - rewrite N_ascii_embedding by lia. apply orb_true_iff. left. apply andb_true_iff.
    split; apply N.leb_le; lia.
  - rewrite N_ascii_embedding by lia. apply orb_true_iff. right. apply andb_true_iff.
    split; apply N.leb_le; lia.
Qed.

Lemma list_ascii_app s t :
  String.list_ascii_of_string (s +:+ t)
  = (String.list_ascii_of_string s ++ String.list_ascii_of_string t)%list.
Proof.
  induction s as [|a s IH]; [done|].
  change (a :: String.list_ascii_of_string (s +:+ t)
          = a :: (String.list_ascii_of_string s ++ String.list_ascii_of_string t)%list).
  by rewrite IH.
Qed.

Lemma hex_bytes_ok l :
  Forall (fun b => (b < 256)%N) l ->
  forallb (fun a => ascii_in 48 57 a || ascii_in 97 102 a) (String.list_ascii_of_string (hex_bytes l))
    = true.
Proof.
  induction 1 as [|b l Hb Hl IH]; [done|]. cbn [hex_bytes]. rewrite list_ascii_app, forallb_app, IH.
  cbn [hex_byte String.list_ascii_of_string forallb].
  rewrite !hex_digit_ok; [done| |].
  - apply N.mod_lt. lia.
  - apply N.Div0.div_lt_upper_bound. lia.
Qed.

Lemma sha_hex_ok `{!DigestLaws} bytes : is_sha256_hex (sha_hex bytes) = true.
Proof.
  unfold is_sha256_hex, sha_hex. rewrite hex_bytes_ok by apply sha256_bytes.
  by rewrite hex_bytes_length, sha256_length, bool_decide_eq_true_2.
Qed.

(** A blob that could be read is not touched by a write. *)
Lemma put_frame_reads bytes fs fs' id found :
  sound fs -> put_frame base name bytes fs fs' ->
  read bs fs id = Ok found -> read bs fs' id = Ok found.
Proof.
  intros Hs Hf Hr. apply read_sound in Hr as (Hid & [m Em] & Hh & Hl); [|done].
  apply read_sound; [by eapply put_frame_sound|]. split; [done|]. split; [|done]. exists m.
  destruct Hf as [Hw _]. destruct (written_blob bytes fs fs' id Hw) as [-> | [_ Hg]]; [done|].
  destruct Hg. by exists m, found.
Qed.
End tree.

(** ** The promise to the index *)

Section laws.
Context `{Digest} `{ProcessStamp} `{!DigestLaws}.
Variables (base : Path) (name : string).
Let bs : BlobStore := mkBlobStore (base ++ [name]).
#[local] Existing Instance disk_files.
Implicit Types c : Conn Files.
Abbreviation sound_disk := (fun c => sound base name (tables c)).

(** What a write leaves. *)
Lemma put_run bytes c :
  sound_disk c ->
  put_frame base name bytes (tables c) (tables (put bs bytes c).1)
  /\ forall id, (put bs bytes c).2 = Ok id ->
       id = sha_hex bytes /\ stored base name bytes (tables (put bs bytes c).1).
Proof.
  intros Hs. pose proof (put_spec base name bytes _ (sound_base base name _ Hs) c eq_refl) as Hp.
  fold bs in Hp. destruct (put bs bytes c) as [c' [sha|e]]; cbn in *; [|done].
  destruct Hp as (-> & Hf & _ & Hst). split; [done|]. by intros id [= <-].
Qed.

Lemma delete_run id c :
  sound_disk c ->
  removed base name id (tables c) (tables (blob_delete bs id c).1)
  /\ (is_ok (blob_delete bs id c).2 = true -> is_sha256_hex id = true ->
      is_dir (tables c) (shard_dir base name id) ->
      entries (tables (blob_delete bs id c).1) !! blob_path base name id = None).
Proof.
  intros Hs. pose proof (delete_spec base name _ id (sound_anchored base name _ Hs) c eq_refl) as Hp.
  fold bs in Hp. destruct (blob_delete bs id c) as [c' [u|e]]; cbn in *.
  - destruct Hp as [Hr Hn]. done.
  - split; [left; done|done].
Qed.

#[local] Obligation Tactic := idtac.
#[export] Program Instance disk_laws : @BlobLaws (Conn Files) _ (disk_files bs) := {|
  files_sound := sound_disk;
|}.
Next Obligation.
  intros bytes c Hs. destruct (put_run bytes c Hs) as [Hf _]. by eapply put_frame_sound.
Qed.
Next Obligation.
  intros id c Hs. destruct (delete_run id c Hs) as [Hr _]. by eapply removed_sound.
Qed.
Next Obligation.
  intros bytes c sha Hs Hok. by apply (put_run bytes c Hs).
Qed.
Next Obligation.
  intros bytes c sha Hs Hok Hl. destruct (put_run bytes c Hs) as [Hf Ho].
  destruct (Ho sha Hok) as [-> (m & d & Em & Hd & Hsz)]. exists d. cbn. fold bs.
  apply read_sound; [by eapply put_frame_sound|]. split; [by apply sha_hex_ok|].
  split; [by exists m|]. split; [done|]. by destruct Hsz as [->|].
Qed.
Next Obligation.
  intros bytes c sha found Hs Hr. destruct (put_run bytes c Hs) as [Hf _].
  cbn in Hr |- *. fold bs in Hr |- *. eapply put_frame_reads; [exact Hs|exact Hf|exact Hr].
Qed.
Next Obligation.
  intros c sha found. cbn. unfold read. destruct (path_for _ sha) as [p|]; [|done]. cbn.
  unfold read_at. destruct (read_no_follow (tables c) p) as [b|]; [|done]. cbn.
  case_bool_decide; [|done]. by intros [= <-].
Qed.
Next Obligation.
  intros c sha found. cbn. unfold read. destruct (path_for _ sha) as [p|]; [|done]. cbn.
  unfold read_at, read_no_follow. destruct (locate (tables c) p) as [ep|]; [|done]. cbn.
  destruct (entry_at _ _) as [[m|m data| |]|]; try done.
  destruct (N.ltb_spec MAX_BLOB_BYTES (N.of_nat (String.length data))); [done|]. cbn.
  case_bool_decide; [|done]. by intros [= <-].
Qed.
Next Obligation.
  intros id c found Hs Hok Hr. cbn in Hr. destruct (delete_run id c Hs) as [Hrem Hn].
  pose proof (removed_sound _ _ _ _ _ Hrem Hs) as Hs'.
  apply read_sound in Hr as (Hid & [m Em] & _); [|done].
  assert (is_dir (tables c) (shard_dir base name id)) as Hd.
  { destruct Hs as [_ Hs]. apply Hs. destruct Hrem as [E|E]; fold bs in Em; rewrite E in Em.
    - by rewrite Em.
    - rewrite drop_entry_lookup in Em. by case_decide. }
  fold bs in Em. rewrite (Hn Hok Hid Hd) in Em. done.
Qed.
Next Obligation.
  intros id other c found Hs Hne Hr. cbn in Hr |- *. fold bs in Hr |- *.
  destruct (delete_run id c Hs) as [Hrem _]. pose proof (removed_sound _ _ _ _ _ Hrem Hs) as Hs'.
  apply read_sound in Hr as (Hid & [m Em] & Hr); [|done]. apply read_sound; [done|].
  split; [done|]. split; [|done]. exists m.
  destruct Hrem as [-> | ->]; [done|]. rewrite drop_entry_lookup, decide_False; [done|].
  intros E. unfold blob_path in E. apply app_inj_tail in E as [_ E]. congruence.
Qed.
Next Obligation.
  intros id other c found Hs Hr. cbn in Hr |- *. fold bs in Hr |- *.
  destruct (delete_run id c Hs) as [Hrem _]. pose proof (removed_sound _ _ _ _ _ Hrem Hs) as Hs'.
  apply read_sound in Hr as (Hid & [m Em] & Hr); [|done]. apply read_sound; [done|].
  split; [done|]. split; [|done]. exists m.
  destruct Hrem as [E|E]; rewrite E in Em; [done|]. rewrite drop_entry_lookup in Em. by case_decide.
Qed.
End laws.
