(* ===== verification/SkillFacts.v ===== *)
(** * The skill library: theorems

    What [verify] accepts is the embedded library and nothing else, and an install
    restores it from whatever an interrupted install or a change by hand left. *)

From Stdlib Require Import Ascii.
From Stdlib Require String.
From S2P Require Import Prelude Text StoreApi Sql Hub Membership BlobFiles BlobFacts Skills.

Open Scope loca_scope.

(** ** Paths below a directory *)

Lemma strip_path_app d r : strip_path d (d ++ r) = Some r.
Proof. induction d as [|x d IH]; [done|]. cbn. by rewrite bool_decide_eq_true_2. Qed.

Lemma strip_path_Some d p r : strip_path d p = Some r <-> p = d ++ r.
Proof.
  split; [|intros ->; apply strip_path_app]. revert p.
  induction d as [|x d IH]; intros p; [by intros [= ->]|]. destruct p as [|y p]; [done|]. cbn.
  case_bool_decide as E; [|done]. intros ->%IH. by subst.
Qed.

Lemma under_true d p : under d p = true <-> d `prefix_of` p.
Proof.
  unfold under. destruct (strip_path d p) as [r|] eqn:E; cbn.
  - apply strip_path_Some in E as ->. split; [by exists r|done].
  - split; [done|]. intros [r ->]. by rewrite strip_path_app in E.
Qed.

Lemma under_false d p : under d p = false <-> ~ d `prefix_of` p.
Proof. rewrite <- under_true. by destruct (under d p). Qed.

Lemma under_app d r : under d (d ++ r) = true.
Proof. apply under_true. by exists r. Qed.

Lemma under_refl d : under d d = true.
Proof. by apply under_true. Qed.

Lemma under_sibling d x y r : x <> y -> under (d ++ [x]) ((d ++ [y]) ++ r) = false.
Proof.
  intros Hne. apply under_false. intros [s Es]. rewrite <- !app_assoc in Es.
  apply app_inv_head in Es. by injection Es as ->.
Qed.

Lemma under_trans a b p : under a b = true -> under b p = true -> under a p = true.
Proof. rewrite !under_true. by transitivity b. Qed.

(** ** What a directory holds *)

(** Every entry lies in a directory. *)
Definition closed (fs : Files) : Prop :=
  forall p x, is_Some (entries fs !! (p ++ [x])) -> p = [] \/ is_dir fs p.

Section tree.
Implicit Types fs : Files.

Lemma elem_of_children fs d name :
  name ∈ children fs d <-> is_Some (entries fs !! (d ++ [name])).
Proof.
  unfold children. rewrite list_elem_of_omap. split.
  - intros ([p e] & Hin%elem_of_map_to_list & E). cbn in E.
    destruct (strip_path d p) as [[|x [|? ?]]|] eqn:Es; simplify_eq.
    apply strip_path_Some in Es as ->. by exists e.
  - intros [e E]. exists (d ++ [name], e). rewrite elem_of_map_to_list. split; [done|].
    cbn. by rewrite strip_path_app.
Qed.

Lemma NoDup_children fs d : NoDup (children fs d).
Proof.
  unfold children. pose proof (NoDup_fst_map_to_list (entries fs)) as Hnd.
  induction (map_to_list (entries fs)) as [|[p e] l IH]; [constructor|].
  cbn in Hnd. apply NoDup_cons in Hnd as [Hp Hnd]. cbn.
  destruct (strip_path d p) as [[|x [|y r]]|] eqn:Es; cbn; [by apply IH| |by apply IH|by apply IH].
  apply NoDup_cons. split; [|by apply IH]. intros ([q e'] & Hin & E)%list_elem_of_omap. cbn in E.
  destruct (strip_path d q) as [[|z [|? ?]]|] eqn:Eq; simplify_eq.
  apply strip_path_Some in Es as ->, Eq as ->. apply Hp, list_elem_of_fmap. by exists (d ++ [x], e').
Qed.

Lemma tree_depth_above fs p : is_Some (entries fs !! p) -> length p < tree_depth fs.
Proof.
  intros [e E]. unfold tree_depth. apply Nat.lt_succ_r.
  apply elem_of_map_to_list in E. induction (map_to_list (entries fs)) as [|kv l IH].
  - by apply elem_of_nil in E.
  - apply elem_of_cons in E as [<-|E]; cbn; [lia|]. apply IH in E. cbn in E. lia.
Qed.

Lemma closed_above fs p q : closed fs -> p <> [] -> is_Some (entries fs !! (p ++ q)) ->
  q = [] \/ is_dir fs p.
Proof.
  intros Hc Hp. induction q as [|x q IH] using rev_ind; [by left|]. intros Hs. right.
  rewrite app_assoc in Hs. apply Hc in Hs as [Hs|[m Em]]; [by destruct p|].
  destruct IH as [->|Hd]; [by exists (Dir m)| |done]. rewrite app_nil_r in Em. by exists m.
Qed.

Lemma closed_anchored fs d x : closed fs -> is_Some (entries fs !! (d ++ [x])) -> anchored d fs.
Proof.
  intros Hc Hs q [r ->] Hq. rewrite <- app_assoc in Hs.
  by destruct (closed_above fs q (r ++ [x]) Hc Hq Hs) as [E|Hd]; [destruct r|].
Qed.

Lemma closed_dir_anchored fs d : closed fs -> d = [] \/ is_dir fs d -> anchored d fs.
Proof.
  intros Hc [->|[m Em]]; [by intros q ->%prefix_nil_inv Hq|].
  intros q [r ->] Hq. destruct (closed_above fs q r Hc Hq) as [->|Hd]; [by eexists| |done].
  rewrite app_nil_r in Em. by exists m.
Qed.

(** What lies at or below a path is the path itself or lies below a child. *)
Definition below_names (d : Path) (names : list string) (p : Path) : bool :=
  existsb (fun x => under (d ++ [x]) p) names.

Lemma under_split fs d p : closed fs -> is_Some (entries fs !! p) ->
  under d p = bool_decide (p = d) || below_names d (children fs d) p.
Proof.
  intros Hc Hs. apply eq_true_iff_eq. rewrite under_true, orb_true_iff, bool_decide_eq_true.
  unfold below_names. rewrite existsb_exists. split.
  - intros [[|x r] ->]; [left; by rewrite app_nil_r|]. right. exists x.
    rewrite <- list_elem_of_In, elem_of_children.
    assert (d ++ x :: r = (d ++ [x]) ++ r) as E by by rewrite <- app_assoc. rewrite E in Hs |- *.
    split; [|apply under_app]. destruct (closed_above fs (d ++ [x]) r Hc) as [->|[m Em]];
      [by destruct d|done|by rewrite app_nil_r in Hs|by exists (Dir m)].
  - intros [->|(x & _ & Hu)]; [done|]. apply under_true in Hu. etransitivity; [|exact Hu]. by exists [x].
Qed.

Lemma read_dir_ok fs d x : closed fs -> is_dir fs (d ++ [x]) ->
  read_dir fs (d ++ [x]) = Ok (children fs (d ++ [x])).
Proof.
  intros Hc Hd. unfold read_dir. rewrite follow_dir; [|eapply closed_anchored; [done|]|done].
  - destruct Hd as [m Em]. by rewrite entry_at_snoc, Em.
  - destruct Hd as [m ->]. done.
Qed.

Lemma symlink_metadata_ok fs d x : anchored d fs ->
  symlink_metadata fs (d ++ [x]) = ok_or (entries fs !! (d ++ [x])) NotFound.
Proof. intros Ha. unfold symlink_metadata. rewrite locate_in by done. by rewrite entry_at_snoc. Qed.

Lemma follow_in fs links d x : anchored d fs ->
  follow fs links (d ++ [x]) =
    match entries fs !! (d ++ [x]) with
    | None => Err NotFound
    | Some (Symlink target) =>
        match links with O => Err OtherIo | S links => follow fs links target end
    | Some _ => Ok (d ++ [x])
    end.
Proof.
  intros Ha. destruct links; cbn -[entry_at locate]; by rewrite locate_in, entry_at_snoc.
Qed.

Lemma metadata_in fs d x e : anchored d fs -> entries fs !! (d ++ [x]) = Some e ->
  (forall target, e <> Symlink target) -> metadata fs (d ++ [x]) = Ok e.
Proof.
  intros Ha E He. unfold metadata. rewrite follow_in, E by done.
  destruct e; try by rewrite entry_at_snoc, E. by destruct (He target).
Qed.
End tree.

(** ** [verify] *)

Section verify.
Context `{Library} `{Digest}.
Implicit Types fs : Files.
Implicit Types (files : FileMap) (dirs : DirSet) (root d : Path).

(** An entry as the manifests want it. *)
Definition wanted fs (root : Path) files dirs (rel : Path) : Prop :=
  match entries fs !! (root ++ rel) with
  | None => True
  | Some (Dir mode) => readonly mode = true /\ rel ∈ dirs
  | Some (Reg mode data) => readonly mode = true /\ files !! rel = Some (sha_hex data)
  | Some _ => False
  end.
Definition file_there fs (root rel : Path) : bool :=
  match entries fs !! (root ++ rel) with Some (Reg _ _) => true | _ => false end.
Definition dir_there fs (root rel : Path) : bool :=
  match entries fs !! (root ++ rel) with Some (Dir _) => true | _ => false end.

(** The check of the part [Q] of a tree: the entries are wanted, and struck off. *)
Definition checked_part fs root (Q : Path -> bool) files dirs (o : option (FileMap * DirSet)) : Prop :=
  match o with
  | Some (files', dirs') =>
      (forall rel, Q (root ++ rel) = true -> wanted fs root files dirs rel)
      /\ (forall rel, files' !! rel = if Q (root ++ rel) && file_there fs root rel then None else files !! rel)
      /\ (forall rel, rel ∈ dirs' <-> rel ∈ dirs /\ Q (root ++ rel) && dir_there fs root rel = false)
  | None => exists rel, Q (root ++ rel) = true /\ ~ wanted fs root files dirs rel
  end.

Lemma wanted_ext fs root files dirs files' dirs' rel :
  files' !! rel = files !! rel -> (rel ∈ dirs' <-> rel ∈ dirs) ->
  wanted fs root files' dirs' rel <-> wanted fs root files dirs rel.
Proof. intros Ef Ed. unfold wanted. destruct (entries fs !! _) as [[]|]; rewrite ?Ef, ?Ed; done. Qed.

(** One part after another. *)
Lemma checked_then fs root (Q1 Q2 : Path -> bool) files dirs files1 dirs1 o :
  (forall p, Q1 p = true -> Q2 p = true -> False) ->
  checked_part fs root Q1 files dirs (Some (files1, dirs1)) ->
  checked_part fs root Q2 files1 dirs1 o ->
  checked_part fs root (fun p => Q1 p || Q2 p) files dirs o.
Proof.
  intros Hdis (Hw & Hf & Hd).
  assert (forall rel, Q2 (root ++ rel) = true ->
    wanted fs root files1 dirs1 rel <-> wanted fs root files dirs rel) as Hsame.
  { intros rel Hq. assert (Q1 (root ++ rel) = false) as Hq1.
    { destruct (Q1 _) eqn:E; [|done]. by destruct (Hdis (root ++ rel)). }
    apply wanted_ext; [by rewrite Hf, Hq1|]. rewrite Hd, Hq1. tauto. }
  destruct o as [[files2 dirs2]|]; cbn.
  - intros (Hw2 & Hf2 & Hd2). split_and!.
    + intros rel [Hq|Hq]%orb_true_iff; [by apply Hw|]. by apply Hsame; [|apply Hw2].
    + intros rel. rewrite Hf2, Hf. by destruct (Q1 _), (Q2 _), (file_there fs root rel).
    + intros rel. rewrite Hd2, Hd. destruct (Q1 _), (Q2 _), (dir_there fs root rel); cbn; tauto.
  - intros (rel & Hq & Hn). exists rel. rewrite Hq, orb_true_r. split; [done|]. by rewrite <- Hsame.
Qed.

Lemma checked_refused fs root (Q Q' : Path -> bool) files dirs :
  (forall p, Q p = true -> Q' p = true) ->
  checked_part fs root Q files dirs None -> checked_part fs root Q' files dirs None.
Proof. intros Hq (rel & Hr & Hn). exists rel. auto. Qed.

(** Only what is there counts. *)
Lemma checked_ext fs root (Q Q' : Path -> bool) files dirs o :
  (forall p, is_Some (entries fs !! p) -> Q p = Q' p) ->
  checked_part fs root Q files dirs o -> checked_part fs root Q' files dirs o.
Proof.
  intros Hq. destruct o as [[files' dirs']|]; cbn.
  - intros (Hw & Hf & Hd). split_and!.
    + intros rel Hr. unfold wanted. destruct (entries fs !! (root ++ rel)) as [e|] eqn:E; [|done].
      rewrite <- Hq in Hr by by rewrite E. specialize (Hw rel Hr). unfold wanted in Hw. by rewrite E in Hw.
    + intros rel. rewrite Hf. unfold file_there. destruct (entries fs !! (root ++ rel)) eqn:E.
      * by rewrite Hq by by rewrite E.
      * by rewrite !andb_false_r.
    + intros rel. rewrite Hd. unfold dir_there. destruct (entries fs !! (root ++ rel)) eqn:E.
      * by rewrite Hq by by rewrite E.
      * by rewrite !andb_false_r.
  - intros (rel & Hr & Hn). exists rel. split; [|done]. rewrite <- Hq; [done|].
    destruct (entries fs !! (root ++ rel)) eqn:E; [done|]. exfalso. apply Hn. unfold wanted. by rewrite E.
Qed.

(** One entry alone. *)
Lemma checked_file fs root rel mode data want files dirs :
  entries fs !! (root ++ rel) = Some (Reg mode data) -> readonly mode = true ->
  files !! rel = Some want -> sha_hex data = want ->
  checked_part fs root (fun p => bool_decide (p = root ++ rel)) files dirs (Some (delete rel files, dirs)).
Proof.
  intros E Hr Hf Hsha. cbn. split_and!.
  - intros r ->%bool_decide_eq_true%app_inv_head. unfold wanted. rewrite E. subst. done.
  - intros r. destruct (decide (r = rel)) as [->|Hne].
    + by rewrite lookup_delete_eq, bool_decide_eq_true_2; unfold file_there; rewrite ?E.
    + rewrite lookup_delete_ne, bool_decide_eq_false_2 by (done || by intros ?%app_inv_head). done.
  - intros r. destruct (decide (r = rel)) as [->|Hne].
    + unfold dir_there. rewrite E, andb_false_r. tauto.
    + rewrite bool_decide_eq_false_2 by by intros ?%app_inv_head. tauto.
Qed.

Lemma checked_dir fs root rel mode files dirs :
  entries fs !! (root ++ rel) = Some (Dir mode) -> readonly mode = true -> rel ∈ dirs ->
  checked_part fs root (fun p => bool_decide (p = root ++ rel)) files dirs (Some (files, dirs ∖ {[rel]})).
Proof.
  intros E Hr Hd. cbn. split_and!.
  - intros r ->%bool_decide_eq_true%app_inv_head. unfold wanted. by rewrite E.
  - intros r. destruct (decide (r = rel)) as [->|Hne].
    + unfold file_there. by rewrite E, andb_false_r.
    + by rewrite bool_decide_eq_false_2 by by intros ?%app_inv_head.
  - intros r. rewrite elem_of_difference, elem_of_singleton. destruct (decide (r = rel)) as [->|Hne].
    + rewrite bool_decide_eq_true_2 by done. unfold dir_there. rewrite E. cbn. split; by intros [? ?].
    + rewrite bool_decide_eq_false_2 by by intros ?%app_inv_head. cbn. tauto.
Qed.

Lemma checked_unwanted fs root (Q : Path -> bool) files dirs rel :
  Q (root ++ rel) = true -> ~ wanted fs root files dirs rel -> checked_part fs root Q files dirs None.
Proof. intros Hq Hn. by exists rel. Qed.

Lemma below_names_path d names x : x ∈ names -> below_names d names (d ++ [x]) = true.
Proof.
  intros Hx. apply existsb_exists. exists x. split; [by apply list_elem_of_In|].
  apply under_true. done.
Qed.

Lemma below_names_disjoint d x names p :
  x ∉ names -> under (d ++ [x]) p = true -> below_names d names p = true -> False.
Proof.
  intros Hx Hu (y & Hy%list_elem_of_In & Hv)%existsb_exists.
  apply under_true in Hu as [r ->]. rewrite under_sibling in Hv; [done|]. by intros ->.
Qed.

(** Nothing at or above a directory lies below a name in it. *)
Lemma below_self d names : below_names d names d = false.
Proof.
  apply not_true_is_false. intros (x & _ & [r Hr]%under_true)%existsb_exists.
  apply (f_equal length) in Hr. rewrite !length_app in Hr. cbn in Hr. lia.
Qed.

Section tree_check.
Variables (fs : Files) (root : Path).
Hypothesis Hclosed : closed fs.

Lemma check_names_part (below : Path -> FileMap -> DirSet -> result (option (FileMap * DirSet)) io_error)
    rel names :
  anchored (root ++ rel) fs ->
  (forall x, x ∈ names -> is_dir fs (root ++ rel ++ [x]) -> forall files dirs, exists o,
     below (root ++ rel ++ [x]) files dirs = Ok o
     /\ checked_part fs root
          (below_names (root ++ rel ++ [x]) (children fs (root ++ rel ++ [x]))) files dirs o) ->
  NoDup names -> (forall x, x ∈ names -> is_Some (entries fs !! (root ++ rel ++ [x]))) ->
  forall files dirs, exists o,
    check_names below fs root (root ++ rel) names files dirs = Ok o
    /\ checked_part fs root (below_names (root ++ rel) names) files dirs o.
Proof.
  intros Ha Hbelow. induction names as [|x names IH]; intros Hnd Hin files dirs.
  { exists (Some (files, dirs)). split; [done|]. cbn. split_and!; [done|done|]. intros r. tauto. }
  apply NoDup_cons in Hnd as [Hx Hnd].
  assert (forall x, x ∈ names -> is_Some (entries fs !! (root ++ rel ++ [x]))) as Hin'
    by (intros; apply Hin; by right).
  assert (forall x, x ∈ names -> is_dir fs (root ++ rel ++ [x]) -> forall files dirs, exists o,
     below (root ++ rel ++ [x]) files dirs = Ok o
     /\ checked_part fs root
          (below_names (root ++ rel ++ [x]) (children fs (root ++ rel ++ [x]))) files dirs o) as Hbelow'
    by (intros; apply Hbelow; [by right|done]).
  specialize (IH Hbelow' Hnd Hin'). clear Hin' Hbelow'.
  destruct (Hin x) as [e E]; [by left|].
  assert (Hself : below_names (root ++ rel) (x :: names) (root ++ rel ++ [x]) = true).
  { rewrite app_assoc. apply below_names_path. by left. }
  assert (forall files1 dirs1 o,
    checked_part fs root (under (root ++ rel ++ [x])) files dirs (Some (files1, dirs1)) ->
    checked_part fs root (below_names (root ++ rel) names) files1 dirs1 o ->
    checked_part fs root (below_names (root ++ rel) (x :: names)) files dirs o) as Hthen.
  { intros files1 dirs1 o H1 H2. eapply checked_ext; [|eapply checked_then; [|exact H1|exact H2] ].
    - intros p _. cbn. by rewrite <- app_assoc.
    - intros p Hu. rewrite app_assoc in Hu. by eapply below_names_disjoint. }
  cbn [check_names]. rewrite symlink_metadata_ok, <- !app_assoc, E by done. cbn [ok_or].
  assert (strip_path root (root ++ rel ++ [x]) = Some (rel ++ [x])) as Estrip by apply strip_path_app.
  destruct e as [mode|mode data|target|].
  - destruct (readonly mode) eqn:Hr; cbn [negb].
    2: { exists None. split; [done|]. eapply checked_unwanted; [exact Hself|].
         unfold wanted. rewrite E. intros [Hr' _]. congruence. }
    rewrite Estrip. cbn [ok_or]. case_bool_decide as Hd; cbn [negb].
    2: { exists None. split; [done|]. eapply checked_unwanted; [exact Hself|].
         unfold wanted. rewrite E. by intros [_ ?]. }
    destruct (Hbelow x) with (files := files) (dirs := dirs ∖ {[rel ++ [x]]}) as (o & -> & Ho);
      [by left|by exists mode|].
    pose proof (checked_dir fs root (rel ++ [x]) mode files dirs E Hr Hd) as Hone.
    assert (checked_part fs root (under (root ++ rel ++ [x])) files dirs o) as Hall.
    { eapply checked_ext; [|eapply checked_then; [|exact Hone|exact Ho] ].
      - intros p Hp. cbn. by rewrite (under_split fs).
      - intros p ->%bool_decide_eq_true Hb. by rewrite below_self in Hb. }
    destruct o as [[files1 dirs1]|].
    + destruct (IH files1 dirs1) as (o & -> & Hrest). exists o. split; [done|]. by eapply Hthen.
    + exists None. split; [done|]. eapply checked_refused; [|exact Hall].
      intros p Hp. cbn. by rewrite <- app_assoc, Hp.
  - destruct (readonly mode) eqn:Hr; cbn [negb].
    2: { exists None. split; [done|]. eapply checked_unwanted; [exact Hself|].
         unfold wanted. rewrite E. intros [Hr' _]. congruence. }
    rewrite Estrip. cbn [ok_or].
    assert (~ wanted fs root files dirs (rel ++ [x]) ->
      checked_part fs root (below_names (root ++ rel) (x :: names)) files dirs None) as Hbad.
    { intros Hn. eapply checked_unwanted; [exact Hself|done]. }
    destruct (files !! (rel ++ [x])) as [want|] eqn:Ef.
    2: { exists None. split; [done|]. apply Hbad. unfold wanted. rewrite E. intros [_ ?]. congruence. }
    unfold read_file. rewrite app_assoc, metadata_in with (e := Reg mode data); [|done|by rewrite <- app_assoc|done].
    case_bool_decide as Hsha.
    2: { exists None. split; [done|]. apply Hbad. unfold wanted. rewrite E. intros [_ ?]. congruence. }
    destruct (IH (delete (rel ++ [x]) files) dirs) as (o & -> & Hrest). exists o. split; [done|].
    eapply Hthen; [|exact Hrest]. eapply checked_ext; [|by eapply checked_file].
    intros p [e' E']. apply eq_true_iff_eq. rewrite bool_decide_eq_true, under_true. split; [intros ->; by exists []; rewrite app_nil_r|].
    intros [r ->]. destruct (closed_above fs (root ++ rel ++ [x]) r Hclosed) as [->|[m Em]].
    + by destruct root, rel.
    + by exists e'.
    + by rewrite app_nil_r.
    + congruence.
  - exists None. split; [done|]. eapply checked_unwanted; [exact Hself|]. unfold wanted. rewrite E. tauto.
  - exists None. split; [done|]. eapply checked_unwanted; [exact Hself|]. unfold wanted. rewrite E. tauto.
Qed.

Lemma check_tree_part fuel : forall rel files dirs,
  root ++ rel <> [] -> is_dir fs (root ++ rel) -> tree_depth fs <= length (root ++ rel) + fuel ->
  exists o, check_tree fuel fs root (root ++ rel) files dirs = Ok o
    /\ checked_part fs root (below_names (root ++ rel) (children fs (root ++ rel))) files dirs o.
Proof.
  induction fuel as [|fuel IH]; intros rel files dirs Hne Hd Hf.
  { destruct Hd as [m Em]. pose proof (tree_depth_above fs (root ++ rel)) as Hl. rewrite Em in Hl.
    assert (length (root ++ rel) < tree_depth fs) by (apply Hl; by eexists). lia. }
  cbn [check_tree]. destruct (exists_last Hne) as (p & y & Ep).
  assert (read_dir fs (root ++ rel) = Ok (children fs (root ++ rel))) as ->
    by (rewrite Ep in *; by apply read_dir_ok).
  apply check_names_part.
  - apply closed_dir_anchored; [done|by right].
  - intros x Hx Hxd files' dirs'. apply IH; [by destruct root, rel|done|].
    rewrite app_assoc, length_app. cbn. lia.
  - apply NoDup_children.
  - intros x Hx%elem_of_children. by rewrite app_assoc.
Qed.
End tree_check.

(** The tree below [root] is the one of the manifests: these files with these
    hashes, the directories above them, nothing else, all of it read-only. *)
Definition holds_exactly fs root files dirs : Prop :=
  forall rel,
    match rel, entries fs !! (root ++ rel) with
    | _ :: _, Some (Dir mode) => readonly mode = true /\ rel ∈ dirs /\ files !! rel = None
    | _ :: _, Some (Reg mode data) => readonly mode = true /\ files !! rel = Some (sha_hex data) /\ rel ∉ dirs
    | _ :: _, Some _ => False
    | _, _ => files !! rel = None /\ rel ∉ dirs
    end.

Definition library_installed fs root : Prop :=
  (exists mode, entries fs !! root = Some (Dir mode) /\ readonly mode = true)
  /\ exists files dirs, expected_entries = Ok (files, dirs) /\ holds_exactly fs root files dirs.

Lemma holds_exactly_checked fs root files dirs o :
  closed fs -> root <> [] ->
  checked_part fs root (below_names root (children fs root)) files dirs o ->
  (exists files' dirs', o = Some (files', dirs') /\ files' = ∅ /\ dirs' = ∅) <-> holds_exactly fs root files dirs.
Proof.
  intros Hc Hne Ho.
  assert (forall rel, is_Some (entries fs !! (root ++ rel)) ->
    below_names root (children fs root) (root ++ rel) = bool_decide (rel <> [])) as HQ.
  { intros rel Hs. pose proof (under_split fs root (root ++ rel) Hc Hs) as Hu.
    rewrite under_app in Hu. destruct rel as [|x rel].
    - by rewrite app_nil_r, below_self.
    - rewrite bool_decide_eq_false_2 in Hu.
      + rewrite orb_false_l in Hu. by rewrite <- Hu.
      + intros E. rewrite <- (app_nil_r root) in E at 2. by apply app_inv_head in E. }
  split.
  - intros (files' & dirs' & -> & -> & ->). destruct Ho as (Hw & Hf & Hd). intros rel.
    specialize (Hw rel). specialize (Hf rel). specialize (Hd rel). rewrite lookup_empty in Hf.
    assert (~ (rel ∈ (∅ : DirSet))) as Hnil by set_solver. unfold wanted, file_there, dir_there in *.
    destruct (entries fs !! (root ++ rel)) as [e|] eqn:E.
    + rewrite HQ in * by by rewrite E. destruct rel as [|x rel]; [cbn in *; split; [done|tauto] |].
      rewrite bool_decide_eq_true_2 in * by done. specialize (Hw eq_refl). rewrite E.
      destruct e; cbn in *; try done; split_and!; try tauto; try done; intuition congruence.
    + rewrite !andb_false_r in *. assert (files !! rel = None /\ rel ∉ dirs) by (split; [done|tauto]).
      destruct rel; [done|by rewrite E].
  - intros Hex. destruct o as [[files' dirs']|].
    + exists files', dirs'. split; [done|]. destruct Ho as (Hw & Hf & Hd). split.
      * apply map_empty. intros rel. rewrite Hf. specialize (Hex rel). unfold file_there.
        destruct (entries fs !! (root ++ rel)) as [e|] eqn:E.
        2: { rewrite andb_false_r. destruct rel; [|rewrite E in Hex]; by destruct Hex. }
        rewrite HQ by by rewrite E. destruct rel; [by destruct Hex|]. rewrite E in Hex.
        rewrite bool_decide_eq_true_2 by done. destruct e; cbn; try done. by destruct Hex as (_ & _ & ?).
      * apply elem_of_equiv_empty_L. intros rel. rewrite Hd. specialize (Hex rel). unfold dir_there.
        destruct (entries fs !! (root ++ rel)) as [e|] eqn:E.
        2: { intros [Hin _]. destruct rel; [|rewrite E in Hex]; by destruct Hex. }
        rewrite HQ by by rewrite E. destruct rel; [intros [? _]; by destruct Hex|]. rewrite E in Hex.
        rewrite bool_decide_eq_true_2 by done. destruct e; cbn; intros [Hin ?]; try done.
        by destruct Hex as (_ & _ & Hex).
    + exfalso. destruct Ho as (rel & Hq & Hn). apply Hn. unfold wanted. specialize (Hex rel).
      destruct (entries fs !! (root ++ rel)) as [e|] eqn:E; [|done].
      rewrite HQ in Hq by by rewrite E. destruct rel; [done|]. rewrite E in Hex.
      destruct e; tauto.
Qed.

Lemma verify_accepts fs d x :
  closed fs -> anchored d fs -> verify fs (d ++ [x]) = Ok true <-> library_installed fs (d ++ [x]).
Proof.
  intros Hc Ha. unfold verify, library_installed. rewrite symlink_metadata_ok by done.
  set (root := d ++ [x]). assert (root <> []) as Hne by by destruct d.
  destruct (entries fs !! root) as [[mode|mode data|target|]|] eqn:E; cbn [ok_or];
    try (split; [done|by intros [(? & ? & ?) _]]).
  destruct (readonly mode) eqn:Hr; cbn [negb];
    [|split; [done|intros [(? & ? & ?) _]; congruence]].
  destruct expected_entries as [[files dirs]|e] eqn:Ee;
    [|split; [done|by intros (_ & ? & ? & ? & _)]].
  destruct (check_tree_part fs root Hc (tree_depth fs) [] files dirs) as (o & Ec & Ho);
    rewrite ?app_nil_r; [done|by exists mode|lia|].
  rewrite app_nil_r in Ec, Ho. rewrite Ec.
  pose proof (holds_exactly_checked fs root files dirs o Hc Hne Ho) as Hex.
  assert ((exists files' dirs', o = Some (files', dirs') /\ files' = ∅ /\ dirs' = ∅) <->
    match o with
    | Some (files', dirs') => Ok (E := io_error) (bool_decide (files' = ∅) && bool_decide (dirs' = ∅))
    | None => Ok false
    end = Ok true) as Ho'.
  { destruct o as [[files' dirs']|].
    - split; [by intros (? & ? & [= -> ->] & -> & ->)|].
      intros [= [Hf%bool_decide_eq_true Hd%bool_decide_eq_true]%andb_true_iff]. by exists files', dirs'.
    - split; [by intros (? & ? & ? & _)|done]. }
  rewrite <- Ho', Hex. split.
  - intros Hh. split; [by exists mode|]. by exists files, dirs.
  - intros [_ (files' & dirs' & [= <- <-] & Hh)]. done.
Qed.
End verify.

(** ** Running without a failing operation *)

(** From the tree [fs] the computation ends well with [a] and leaves [fs']. *)
Definition leads {A} (m : Io A) (fs : Files) (a : A) (fs' : Files) : Prop :=
  m (mkConn fs []) = (mkConn fs' [], Ok a).

Section leads.
Context {A B : Type}.
Implicit Types fs : Files.

Lemma leads_bind (m : Io A) (k : A -> Io B) fs a fs1 b fs2 :
  leads m fs a fs1 -> leads (k a) fs1 b fs2 -> leads (bind m k) fs b fs2.
Proof. unfold leads, bind. by intros ->. Qed.

Lemma leads_catch (m : Io A) (k : result A io_error -> Io B) fs a fs1 b fs2 :
  leads m fs a fs1 -> leads (k (Ok a)) fs1 b fs2 -> leads (catch m k) fs b fs2.
Proof. unfold leads, catch. by intros ->. Qed.

Lemma leads_query (f : Files -> A) (k : A -> Io B) fs b fs2 :
  leads (k (f fs)) fs b fs2 -> leads (bind (query f) k) fs b fs2.
Proof. done. Qed.

Lemma leads_look (f : Files -> result A io_error) (k : A -> Io B) fs a b fs2 :
  f fs = Ok a -> leads (k a) fs b fs2 -> leads (bind (look f) k) fs b fs2.
Proof. intros E Hk. eapply leads_bind; [|exact Hk]. unfold leads, look, bind, query, give. cbn. by rewrite E. Qed.

Lemma leads_give (a : A) (k : A -> Io B) fs b fs2 :
  leads (k a) fs b fs2 -> leads (bind (give (Ok a)) k) fs b fs2.
Proof. done. Qed.

Lemma leads_eq (m : Io A) fs a fs1 fs2 : leads m fs a fs1 -> fs1 = fs2 -> leads m fs a fs2.
Proof. by intros ? ->. Qed.

Lemma leads_ret (a : A) fs : leads (ret a) fs a fs.
Proof. done. Qed.
End leads.

Lemma leads_step (f : Files -> result Files io_error) fs fs' :
  f fs = Ok fs' -> leads (io_step f) fs tt fs'.
Proof. intros E. unfold leads, io_step, next_fault. cbn. by rewrite E. Qed.

Lemma step_fails (f : Files -> result Files io_error) fs e :
  f fs = Err e -> io_step f (mkConn fs []) = (mkConn fs [], Err e).
Proof. intros E. unfold io_step, next_fault, past_fault. cbn. by rewrite E. Qed.

(** A loop whose i-th round goes from the i-th tree to the next. *)
Lemma leads_for_each {A} (f : A -> Io unit) (state : list A -> Files) (l : list A) : forall done,
  (forall d x rest, done ++ l = d ++ x :: rest -> leads (f x) (state d) tt (state (d ++ [x]))) ->
  leads (for_each f l) (state done) tt (state (done ++ l)).
Proof.
  induction l as [|x l IH]; intros dn Hf; [by rewrite app_nil_r|]. cbn.
  eapply leads_bind; [by apply (Hf dn x l)|]. rewrite (app_assoc dn [x] l : dn ++ x :: l = _).
  apply IH. intros d y rest E. apply (Hf d y rest). by rewrite <- E, <- app_assoc.
Qed.

(** ** Modes *)

Lemma readonly_of_ldiff mode : readonly (readonly_mode true mode) = true.
Proof.
  unfold readonly, readonly_mode. apply N.eqb_eq. apply N.bits_inj. intros i.
  rewrite N.land_spec, N.ldiff_spec, N.bits_0. by destruct (N.testbit mode i), (N.testbit WRITE_BITS i).
Qed.

Lemma owner_write_of_lor mode : owner_write (readonly_mode false mode) = true.
Proof. unfold owner_write, readonly_mode. by rewrite N.lor_spec, orb_comm. Qed.

Lemma readonly_mode_twice ro mode : readonly_mode ro (readonly_mode ro mode) = readonly_mode ro mode.
Proof.
  unfold readonly_mode. destruct ro.
  - apply N.bits_inj. intros i. rewrite !N.ldiff_spec. by destruct (N.testbit mode i), (N.testbit WRITE_BITS i).
  - by rewrite <- N.lor_assoc, N.lor_diag.
Qed.

Definition remode_entry (ro : bool) (e : Entry) : Entry :=
  match e with
  | Dir mode => Dir (readonly_mode ro mode)
  | Reg mode data => Reg (readonly_mode ro mode) data
  | e => e
  end.

Lemma remode_entry_twice ro e : remode_entry ro (remode_entry ro e) = remode_entry ro e.
Proof. destruct e; cbn; by rewrite ?readonly_mode_twice. Qed.

(** The tree with the modes of a part of it set. *)
Definition remode (ro : bool) (Q : Path -> bool) (fs : Files) : Files :=
  with_entries (map_imap (fun p e => Some (if Q p then remode_entry ro e else e)) (entries fs)) fs.
(** The tree without a part of it. *)
Definition clear (Q : Path -> bool) (fs : Files) : Files :=
  with_entries (filter (fun e => Q e.1 = false) (entries fs)) fs.

Lemma files_eq (fs fs' : Files) :
  (forall p, entries fs !! p = entries fs' !! p) -> temp_counter fs = temp_counter fs' -> fs = fs'.
Proof.
  destruct fs as [es n], fs' as [es' n']. cbn. intros Hp ->. f_equal. by apply map_eq.
Qed.

Section trees.
Implicit Types (fs : Files) (Q : Path -> bool) (ro : bool) (p d : Path).

Lemma remode_lookup ro Q fs p :
  entries (remode ro Q fs) !! p = (if Q p then remode_entry ro else id) <$> entries fs !! p.
Proof. cbn. rewrite map_lookup_imap. destruct (entries fs !! p); cbn; by destruct (Q p). Qed.

Lemma remode_is_Some ro Q fs p : is_Some (entries (remode ro Q fs) !! p) <-> is_Some (entries fs !! p).
Proof. rewrite remode_lookup. apply fmap_is_Some. Qed.

Lemma remode_is_dir ro Q fs p : is_dir (remode ro Q fs) p <-> is_dir fs p.
Proof.
  unfold is_dir. rewrite remode_lookup. destruct (entries fs !! p) as [e|]; cbn; [|naive_solver].
  destruct (Q p), e; cbn; split; intros [m Em]; simplify_eq; by eexists.
Qed.

Lemma remode_closed ro Q fs : closed fs -> closed (remode ro Q fs).
Proof. intros Hc p x Hs%remode_is_Some%Hc. by rewrite remode_is_dir. Qed.

Lemma remode_anchored ro Q fs d : anchored d fs -> anchored d (remode ro Q fs).
Proof. intros Ha q Hq Hne. by apply remode_is_dir, Ha. Qed.

Lemma remode_remode ro Q Q' fs : remode ro Q' (remode ro Q fs) = remode ro (fun p => Q p || Q' p) fs.
Proof.
  apply files_eq; [|done]. intros p. rewrite !remode_lookup.
  destruct (entries fs !! p) as [e|]; [|by destruct (Q p), (Q' p)].
  destruct (Q p), (Q' p); cbn; by rewrite ?remode_entry_twice.
Qed.

Lemma remode_ext ro Q Q' fs :
  (forall p, is_Some (entries fs !! p) -> Q p = Q' p) -> remode ro Q fs = remode ro Q' fs.
Proof.
  intros Hq. apply files_eq; [|done]. intros p. rewrite !remode_lookup.
  destruct (entries fs !! p) as [e|] eqn:E; [|by destruct (Q p), (Q' p)]. by rewrite Hq by by rewrite E.
Qed.

Lemma clear_lookup Q fs p : entries (clear Q fs) !! p = if Q p then None else entries fs !! p.
Proof.
  cbn. destruct (Q p) eqn:E.
  - apply map_lookup_filter_None_2. right. intros e _. cbn. congruence.
  - destruct (entries fs !! p) eqn:Ep.
    + by apply map_lookup_filter_Some_2.
    + apply map_lookup_filter_None_2. by left.
Qed.

Lemma clear_ext Q Q' fs :
  (forall p, is_Some (entries fs !! p) -> Q p = Q' p) -> clear Q fs = clear Q' fs.
Proof.
  intros Hq. apply files_eq; [|done]. intros p. rewrite !clear_lookup.
  destruct (entries fs !! p) as [e|] eqn:E; [|by destruct (Q p), (Q' p)]. by rewrite Hq by by rewrite E.
Qed.

Lemma clear_clear Q Q' fs : clear Q' (clear Q fs) = clear (fun p => Q p || Q' p) fs.
Proof.
  apply files_eq; [|done]. intros p. rewrite !clear_lookup. by destruct (Q p), (Q' p).
Qed.

Lemma drop_entry_clear p fs : drop_entry p fs = clear (fun q => bool_decide (q = p)) fs.
Proof.
  apply files_eq; [|done]. intros q. rewrite drop_entry_lookup, clear_lookup.
  by case_decide; case_bool_decide.
Qed.

(** A whole subtree may go. *)
Lemma clear_closed Q fs :
  (forall p x, Q p = true -> Q (p ++ [x]) = true) -> closed fs -> closed (clear Q fs).
Proof.
  intros Hq Hc p x. rewrite clear_lookup. destruct (Q (p ++ [x])) eqn:E; [by intros []|].
  intros [->|[m Em]]%Hc; [by left|]. right. exists m. rewrite clear_lookup.
  destruct (Q p) eqn:Ep; [|done]. by rewrite Hq in E.
Qed.

(** ** [set_readonly] and the walks over a tree *)

Lemma set_readonly_leads ro fs d x e :
  anchored d fs -> entries fs !! (d ++ [x]) = Some e -> (forall target, e <> Symlink target) ->
  leads (set_readonly (d ++ [x]) ro) fs tt (remode ro (fun p => bool_decide (p = d ++ [x])) fs).
Proof.
  intros Ha E He. unfold set_readonly. eapply leads_look; [by apply metadata_in|].
  assert (forall e', e' = remode_entry ro e ->
    put_entry (d ++ [x]) e' fs = remode ro (fun p => bool_decide (p = d ++ [x])) fs) as Hput.
  { intros e' ->. apply files_eq; [|done]. intros p. rewrite put_entry_lookup, remode_lookup.
    case_decide as Ep; [subst; rewrite E; by rewrite bool_decide_eq_true_2|].
    rewrite bool_decide_eq_false_2 by done. by destruct (entries fs !! p). }
  assert (follow fs LINKS_MAX (d ++ [x]) = Ok (d ++ [x])) as Hf.
  { rewrite follow_in, E by done. destruct e; try done. by destruct (He target). }
  destruct e as [m|m data|target|]; try by destruct (He target).
  - apply leads_step. rewrite Hf, entry_at_snoc, E. rewrite <- (Hput _ eq_refl). by destruct d.
  - apply leads_step. by rewrite Hf, entry_at_snoc, E, <- (Hput _ eq_refl).
  - apply leads_step. rewrite Hf, entry_at_snoc, E. f_equal. rewrite <- (Hput _ eq_refl).
    apply files_eq; [|done]. intros p. rewrite put_entry_lookup. case_decide; [by subst|done].
Qed.

Lemma children_remode ro Q fs d x : x ∈ children (remode ro Q fs) d <-> x ∈ children fs d.
Proof. by rewrite !elem_of_children, remode_is_Some. Qed.

Lemma below_names_ext d names names' p :
  (forall x, x ∈ names <-> x ∈ names') -> below_names d names p = below_names d names' p.
Proof.
  intros Hn. apply eq_true_iff_eq. unfold below_names. rewrite !existsb_exists.
  setoid_rewrite <- list_elem_of_In. by setoid_rewrite Hn.
Qed.

Lemma below_names_snoc d names x p :
  below_names d (names ++ [x]) p = below_names d names p || under (d ++ [x]) p.
Proof. unfold below_names. rewrite existsb_app. cbn. by rewrite orb_false_r. Qed.

(** What both walks do with the names in a directory. *)
Lemma remode_names_leads ro (f : string -> Io unit) fs d :
  closed fs -> is_dir fs d ->
  (forall done x, x ∈ children fs d ->
     leads (f x) (remode ro (below_names d done) fs) tt
       (remode ro (under (d ++ [x])) (remode ro (below_names d done) fs))) ->
  forall names, (forall x, x ∈ names -> x ∈ children fs d) ->
  leads (for_each f names) fs tt (remode ro (below_names d names) fs).
Proof.
  intros Hc Hd Hf names Hin.
  assert (remode ro (below_names d []) fs = fs) as E0.
  { apply files_eq; [|done]. intros p. rewrite remode_lookup. cbn. by destruct (entries fs !! p). }
  rewrite <- E0 at 1. apply (leads_for_each f (fun done => remode ro (below_names d done) fs) names []).
  intros dn x rest E. eapply leads_eq; [apply Hf|].
  - apply Hin. cbn in E. rewrite E, elem_of_app. right. by left.
  - rewrite remode_remode. apply remode_ext. intros p _. by rewrite below_names_snoc.
Qed.

(** No path is longer. *)
Definition bounded (n : nat) fs : Prop := forall p, is_Some (entries fs !! p) -> length p < n.

Lemma bounded_tree_depth fs : bounded (tree_depth fs) fs.
Proof. intros p. apply tree_depth_above. Qed.

Lemma bounded_remode n ro Q fs : bounded n fs -> bounded n (remode ro Q fs).
Proof. intros Hb p Hs%remode_is_Some. by apply Hb. Qed.

Lemma depth_left n fs p fuel :
  bounded n fs -> is_Some (entries fs !! p) -> n <= length p + fuel ->
  exists fuel', fuel = S fuel' /\ forall x, n <= length (p ++ [x]) + fuel'.
Proof.
  intros Hb Hs%Hb Hf. destruct fuel as [|fuel]; [lia|]. exists fuel. split; [done|].
  intros x. rewrite length_app. cbn. lia.
Qed.

Definition no_link (e : Entry) : Prop := match e with Dir _ | Reg _ _ => True | _ => False end.

(** Nothing lies below what is no directory. *)
Lemma leaf_under fs d x e p :
  closed fs -> entries fs !! (d ++ [x]) = Some e -> (forall m, e <> Dir m) ->
  is_Some (entries fs !! p) -> under (d ++ [x]) p = bool_decide (p = d ++ [x]).
Proof.
  intros Hc E He Hs. apply eq_true_iff_eq. rewrite bool_decide_eq_true, under_true.
  split; [|intros ->; by exists []; rewrite app_nil_r].
  intros [r ->]. destruct (closed_above fs (d ++ [x]) r Hc) as [->|[m Em]];
    [by destruct d|done|by rewrite app_nil_r|]. rewrite E in Em. injection Em as Em. by destruct (He m).
Qed.

Lemma make_writable_leads n fuel : forall fs d x e,
  closed fs -> bounded n fs -> entries fs !! (d ++ [x]) = Some e -> n <= length (d ++ [x]) + fuel ->
  leads (make_writable_recursive fuel (d ++ [x])) fs tt (remode false (under (d ++ [x])) fs).
Proof.
  induction fuel as [|fuel IH]; intros fs d x e Hc Hb E Hf.
  { destruct (depth_left n fs (d ++ [x]) 0 Hb) as (? & ? & _); [by eexists|done|done]. }
  assert (anchored d fs) as Ha by (eapply closed_anchored; [done|by rewrite E]).
  cbn [make_writable_recursive]. eapply leads_look; [by rewrite symlink_metadata_ok, E|].
  assert ((forall m, e <> Dir m) ->
    remode false (fun p => bool_decide (p = d ++ [x])) fs = remode false (under (d ++ [x])) fs) as Hleaf.
  { intros He. apply remode_ext. intros p Hs. by erewrite leaf_under. }
  destruct e as [m|m data|target|].
  - eapply leads_catch; [by eapply set_readonly_leads|].
    set (fs1 := remode false (fun p => bool_decide (p = d ++ [x])) fs).
    assert (closed fs1) as Hc1 by by apply remode_closed.
    assert (is_dir fs1 (d ++ [x])) as Hd1 by by (apply remode_is_dir; exists m).
    eapply leads_look; [by apply read_dir_ok|]. eapply leads_eq.
    { apply (remode_names_leads false); [done|done| |by intros].
         intros dn y Hy%elem_of_children.
         destruct (proj2 (remode_is_Some false (below_names (d ++ [x]) dn) fs1 _) Hy) as [e' E'].
         eapply IH; [by apply remode_closed|by do 2 apply bounded_remode|exact E'|].
         rewrite length_app in Hf |- *. rewrite length_app. cbn in Hf |- *. lia. }
    unfold fs1. rewrite remode_remode. apply remode_ext. intros p Hs.
    rewrite (under_split fs) by done. f_equal. apply below_names_ext. intros y. apply children_remode.
  - eapply leads_catch; [by eapply set_readonly_leads|]. by rewrite Hleaf.
  - eapply leads_eq; [apply leads_ret|]. rewrite <- Hleaf by done. apply files_eq; [|done]. intros p.
    rewrite remode_lookup. case_bool_decide as Ep; [subst; by rewrite E|]. by destruct (entries fs !! p).
  - eapply leads_catch; [by eapply set_readonly_leads|]. by rewrite Hleaf.
Qed.

Lemma make_readonly_leads n fuel : forall fs d x e,
  closed fs -> bounded n fs -> entries fs !! (d ++ [x]) = Some e ->
  (forall p e, under (d ++ [x]) p = true -> entries fs !! p = Some e -> no_link e) ->
  n <= length (d ++ [x]) + fuel ->
  leads (make_readonly_recursive fuel (d ++ [x])) fs tt (remode true (under (d ++ [x])) fs).
Proof.
  induction fuel as [|fuel IH]; intros fs d x e Hc Hb E Hno Hf.
  { destruct (depth_left n fs (d ++ [x]) 0 Hb) as (? & ? & _); [by eexists|done|done]. }
  assert (anchored d fs) as Ha by (eapply closed_anchored; [done|by rewrite E]).
  assert (no_link e) as He by (eapply (Hno (d ++ [x])); [by apply under_true|done]).
  cbn [make_readonly_recursive]. apply leads_query. unfold path_is_dir at 1.
  rewrite (metadata_in fs d x e) by (done || by intros t ->).
  destruct e as [m|m data|target|]; try done.
  - assert (is_dir fs (d ++ [x])) as Hd by by exists m.
    eapply leads_bind.
    { eapply leads_look; [by apply read_dir_ok|].
      apply (remode_names_leads true); [done|done| |by intros].
      intros dn y Hy%elem_of_children.
      destruct (proj2 (remode_is_Some true (below_names (d ++ [x]) dn) fs _) Hy) as [e' E'].
      eapply IH; [by apply remode_closed|by apply bounded_remode|exact E'| |].
      - intros p e2 Hu. rewrite remode_lookup. destruct (entries fs !! p) as [e1|] eqn:E1; [|done].
        intros [= <-]. eapply (Hno p) in E1; [by destruct (below_names _ _ p), e1|].
        eapply under_trans; [|exact Hu]. apply under_app.
      - rewrite length_app in Hf |- *. rewrite length_app. cbn in Hf |- *. lia. }
    set (fs1 := remode true _ fs).
    assert (exists m', entries fs1 !! (d ++ [x]) = Some (Dir m')) as [m' E1].
    { apply (remode_is_dir true). by exists m. }
    eapply leads_eq;
      [eapply set_readonly_leads; [by apply remode_anchored|exact E1|done]|].
    unfold fs1. rewrite remode_remode. apply remode_ext. intros p Hs.
    by rewrite (under_split fs), orb_comm by done.
  - eapply leads_bind; [apply leads_ret|].
    eapply leads_eq; [by eapply set_readonly_leads|].
    apply remode_ext. intros p Hs. by erewrite leaf_under.
Qed.

(** ** Removal *)

Definition dirs_writable d fs : Prop :=
  forall p m, under d p = true -> entries fs !! p = Some (Dir m) -> owner_write m = true.

Lemma below_names_up d names p x : below_names d names p = true -> below_names d names (p ++ [x]) = true.
Proof.
  unfold below_names. rewrite !existsb_exists. intros (y & Hy & Hu). exists y. split; [done|].
  apply under_true. apply under_true in Hu. etransitivity; [exact Hu|]. by exists [x].
Qed.

Lemma parent_writable_snoc fs d x :
  parent_writable fs (d ++ [x]) =
    match entry_at fs d with Some (Dir mode) => owner_write mode | _ => false end.
Proof. unfold parent_writable. by rewrite split_last_snoc. Qed.

Lemma entry_at_clear Q fs d : Q d = false -> entry_at (clear Q fs) d = entry_at fs d.
Proof. intros Hq. destruct d; [done|]. cbn -[clear]. by rewrite clear_lookup, Hq. Qed.

Lemma children_none fs d : (forall x, entries fs !! (d ++ [x]) = None) -> children fs d = [].
Proof.
  intros Hn. destruct (children fs d) as [|x l] eqn:E; [done|].
  assert (x ∈ children fs d) as Hx by (rewrite E; by left).
  apply elem_of_children in Hx. rewrite Hn in Hx. by destruct Hx.
Qed.

Lemma unlink_leads fs d x e :
  closed fs -> entries fs !! (d ++ [x]) = Some e -> (forall m, e <> Dir m) ->
  parent_writable fs (d ++ [x]) = true ->
  leads (unlink (d ++ [x])) fs tt (clear (under (d ++ [x])) fs).
Proof.
  intros Hc E He Hp. eapply leads_eq; [apply leads_step|].
  - rewrite locate_in, entry_at_snoc, E by (eapply closed_anchored; [done|by rewrite E]).
    destruct e; [by destruct (He mode)|by rewrite Hp..].
  - rewrite drop_entry_clear. apply clear_ext. intros p Hs. by erewrite leaf_under.
Qed.

Lemma rmdir_leads fs d x m :
  anchored d fs -> entries fs !! (d ++ [x]) = Some (Dir m) -> children fs (d ++ [x]) = [] ->
  parent_writable fs (d ++ [x]) = true ->
  leads (rmdir (d ++ [x])) fs tt (clear (fun p => bool_decide (p = d ++ [x])) fs).
Proof.
  intros Ha E Hn Hp. apply leads_step.
  by rewrite locate_in, entry_at_snoc, E, Hn, Hp, drop_entry_clear.
Qed.

Lemma remove_below_leads n fuel : forall fs d x m,
  closed fs -> bounded n fs -> entries fs !! (d ++ [x]) = Some (Dir m) ->
  dirs_writable (d ++ [x]) fs -> parent_writable fs (d ++ [x]) = true ->
  n <= length (d ++ [x]) + fuel ->
  leads (remove_below fuel (d ++ [x])) fs tt (clear (under (d ++ [x])) fs).
Proof.
  induction fuel as [|fuel IH]; intros fs d x m Hc Hb E Hw Hp Hf.
  { destruct (depth_left n fs (d ++ [x]) 0 Hb) as (? & ? & _); [by eexists|done|done]. }
  assert (anchored d fs) as Ha by (eapply closed_anchored; [done|by rewrite E]).
  assert (is_dir fs (d ++ [x])) as Hd by by exists m.
  set (p := d ++ [x]) in *. cbn [remove_below].
  eapply leads_look; [by apply read_dir_ok|].
  set (state := fun done => clear (below_names p done) fs).
  assert (forall dn, closed (state dn)) as Hcs.
  { intros dn. apply clear_closed; [|done]. intros q y. apply below_names_up. }
  assert (state [] = fs) as E0.
  { apply files_eq; [|done]. intros q. unfold state. by rewrite clear_lookup. }
  assert (forall dn, entry_at (state dn) p = Some (Dir m)) as Hself.
  { intros dn. unfold state. rewrite entry_at_clear by apply below_self. unfold p. by rewrite entry_at_snoc. }
  eapply leads_bind.
  { rewrite <- E0 at 2. apply (leads_for_each _ state (children fs p) []).
    intros dn y rest El. cbn in El.
    pose proof (NoDup_children fs p) as Hnd. rewrite El in Hnd.
    assert (y ∈ children fs p) as Hy by (rewrite El, elem_of_app; right; by left).
    assert (y ∉ dn) as Hyd.
    { apply NoDup_app in Hnd as (_ & Hdis & _). intros Hin. by eapply Hdis; [|left]. }
    apply elem_of_children in Hy as [e Ey].
    assert (entries (state dn) !! (p ++ [y]) = Some e) as Es.
    { unfold state. rewrite clear_lookup.
      destruct (below_names p dn (p ++ [y])) eqn:Eb; [|done]. exfalso.
      eapply below_names_disjoint; [exact Hyd| |exact Eb]. by apply under_true. }
    assert (parent_writable (state dn) (p ++ [y]) = true) as Hpw.
    { rewrite parent_writable_snoc, Hself. eapply Hw; [|exact E]. by apply under_true. }
    eapply leads_eq with (fs1 := clear (under (p ++ [y])) (state dn)).
    2: { unfold state. rewrite clear_clear. apply clear_ext. intros q _. by rewrite below_names_snoc. }
    apply leads_query. rewrite symlink_metadata_ok, Es
      by (eapply closed_anchored; [apply Hcs|by rewrite Es]).
    destruct e as [m'|m' data|target|]; cbn [ok_or]; try by eapply unlink_leads.
    apply IH with (m := m'); try done.
    - intros q Hq. apply Hb. revert Hq. unfold state. rewrite clear_lookup.
      by destruct (below_names p dn q); [intros []|].
    - intros q mq Hu. unfold state. rewrite clear_lookup. destruct (below_names p dn q); [done|].
      apply Hw. eapply under_trans; [|exact Hu]. apply under_app.
    - rewrite length_app. cbn. lia. }
  cbn [app]. set (s := state (children fs p)).
  assert (anchored d s) as Has.
  { apply closed_dir_anchored; [apply Hcs|]. destruct d as [|y0 d0 _] using rev_ind; [by left|right].
    destruct (Ha (d0 ++ [y0])) as [m0 E0']; [done|by destruct d0|]. exists m0. unfold s, state.
    rewrite clear_lookup. destruct (below_names p _ _) eqn:Eb; [|done]. exfalso.
    apply existsb_exists in Eb as (z & _ & Hz). apply under_true, prefix_length in Hz.
    unfold p in Hz. rewrite !length_app in Hz. cbn in Hz. lia. }
  eapply leads_eq.
  { apply (rmdir_leads s d x m); [done| | |].
    - rewrite <- entry_at_snoc. apply Hself.
    - apply children_none. intros y. unfold s, state. fold p. rewrite clear_lookup.
      destruct (entries fs !! (p ++ [y])) eqn:Ey; [|by destruct (below_names _ _ _)].
      by rewrite below_names_path by by (apply elem_of_children; eexists).
    - unfold p in Hp. rewrite parent_writable_snoc in Hp |- *. unfold s, state. rewrite entry_at_clear; [done|].
      apply not_true_is_false. intros (z & _ & Hz)%existsb_exists. apply under_true, prefix_length in Hz.
      unfold p in Hz. rewrite !length_app in Hz. cbn in Hz. lia. }
  unfold s, state. rewrite clear_clear. apply clear_ext. intros q Hq.
  by rewrite (under_split fs), orb_comm by done.
Qed.

Lemma remove_tree_leads fs d x :
  closed fs -> anchored d fs -> may_dir fs (d ++ [x]) -> parent_writable fs (d ++ [x]) = true ->
  leads (remove_tree (d ++ [x])) fs tt (clear (under (d ++ [x])) fs).
Proof.
  intros Hc Ha Hm Hp. unfold remove_tree. apply leads_query. unfold may_dir in Hm.
  destruct (entries fs !! (d ++ [x])) as [[m|m data|target|]|] eqn:E; try done.
  - unfold path_exists. rewrite (metadata_in fs d x (Dir m)) by done. cbn [is_ok negb].
    apply leads_query. eapply leads_catch.
    { eapply make_writable_leads; [done|apply bounded_tree_depth|exact E|].
      rewrite length_app. cbn. lia. }
    set (fs1 := remode false (under (d ++ [x])) fs).
    assert (entries fs1 !! (d ++ [x]) = Some (Dir (readonly_mode false m))) as E1.
    { unfold fs1. rewrite remode_lookup, E. cbn. by rewrite (proj2 (under_true _ _)). }
    eapply leads_catch; [|apply leads_ret]. eapply leads_look.
    { rewrite symlink_metadata_ok, E1 by by apply remode_anchored. done. }
    apply leads_query. eapply leads_eq.
    { eapply remove_below_leads; [by apply remode_closed|apply bounded_tree_depth|exact E1| | |].
      - intros p mp Hu. unfold fs1. rewrite remode_lookup, Hu. destruct (entries fs !! p) as [e|]; [|done].
        destruct e; try done. cbn. intros [= <-]. apply owner_write_of_lor.
      - rewrite parent_writable_snoc in Hp |- *. destruct d as [|y d _] using rev_ind; [done|].
        rewrite entry_at_snoc in Hp |- *. unfold fs1. rewrite remode_lookup.
        rewrite (proj2 (under_false _ _)); [by destruct (entries fs !! (d ++ [y]))|].
        intros Hu%prefix_length. rewrite !length_app in Hu. cbn in Hu. lia.
      - rewrite length_app. cbn. lia. }
    apply files_eq; [|done]. intros p. rewrite !clear_lookup. destruct (under (d ++ [x]) p) eqn:Eu; [done|].
    unfold fs1. rewrite remode_lookup, Eu. by destruct (entries fs !! p).
  - unfold path_exists, metadata. rewrite follow_in, E by done. cbn [is_ok negb].
    eapply leads_eq; [apply leads_ret|]. apply files_eq; [|done]. intros p. rewrite clear_lookup.
    destruct (under (d ++ [x]) p) eqn:Eu; [|done]. apply under_true in Eu as [r ->].
    destruct (entries fs !! ((d ++ [x]) ++ r)) as [e|] eqn:Ep; [|done].
    destruct (closed_above fs (d ++ [x]) r Hc) as [->|[m Em]]; [by destruct d|by eexists| |congruence].
    rewrite app_nil_r in Ep. congruence.
Qed.

(** ** Moving a tree *)

Lemma moved_lookup (from to : Path) (es : gmap Path Entry) q :
  (list_to_map (omap (fun e => (fun rel => (to ++ rel, e.2)) <$> strip_path from e.1) (map_to_list es))
    : gmap Path Entry) !! q
  = strip_path to q ≫= fun r => es !! (from ++ r).
Proof.
  assert (forall q e, (q, e) ∈ omap (fun e => (fun rel => (to ++ rel, e.2)) <$> strip_path from e.1)
      (map_to_list es) <-> exists r, q = to ++ r /\ es !! (from ++ r) = Some e) as Hin.
  { intros q' e. rewrite list_elem_of_omap. split.
    - intros ([p e'] & Hp%elem_of_map_to_list & Es). cbn in Es.
      destruct (strip_path from p) as [r|] eqn:Er; [|done]. injection Es as <- <-.
      apply strip_path_Some in Er as ->. by exists r.
    - intros (r & -> & E). exists (from ++ r, e). split; [by apply elem_of_map_to_list|].
      cbn. by rewrite strip_path_app. }
  assert ((forall e, ~ exists r, q = to ++ r /\ es !! (from ++ r) = Some e) ->
    (list_to_map (omap (fun e => (fun rel => (to ++ rel, e.2)) <$> strip_path from e.1)
      (map_to_list es)) : gmap Path Entry) !! q = None) as Hnone.
  { intros Hno. apply not_elem_of_list_to_map_1. intros ([q' e] & -> & He)%list_elem_of_fmap.
    apply Hin in He. by eapply Hno. }
  destruct (strip_path to q) as [r|] eqn:Eq; cbn.
  - apply strip_path_Some in Eq as ->. destruct (es !! (from ++ r)) as [e|] eqn:E.
    + apply elem_of_list_to_map_1'; [|apply Hin; by exists r].
      intros e' (r' & Er & E')%Hin. apply app_inv_head in Er as <-. congruence.
    + apply Hnone. intros e (r' & Er & E'). apply app_inv_head in Er as <-. congruence.
  - apply Hnone. intros e (r & -> & _). by rewrite strip_path_app in Eq.
Qed.

Lemma move_lookup from to es q :
  move_tree from to es !! q =
    match strip_path to q with
    | Some r => es !! (from ++ r)
    | None => if under from q then None else es !! q
    end.
Proof.
  unfold move_tree.
  assert (filter (fun e : Path * Entry => (under from e.1 || under to e.1) = false) es !! q
    = if under from q || under to q then None else es !! q) as Hf.
  { destruct (under from q || under to q) eqn:E.
    - apply map_lookup_filter_None_2. right. intros e _. cbn. congruence.
    - destruct (es !! q) eqn:Eq; [by apply map_lookup_filter_Some_2|].
      apply map_lookup_filter_None_2. by left. }
  destruct (strip_path to q) as [r|] eqn:Eq.
  - destruct (es !! (from ++ r)) as [e|] eqn:E.
    + apply lookup_union_Some_l. by rewrite moved_lookup, Eq.
    + rewrite lookup_union_r by by rewrite moved_lookup, Eq. rewrite Hf. unfold under at 2.
      by rewrite Eq, orb_true_r.
  - rewrite lookup_union_r by by rewrite moved_lookup, Eq. rewrite Hf. unfold under at 2. rewrite Eq. cbn.
    by rewrite orb_false_r.
Qed.

(** A directory moves to another name of its parent. *)
Lemma move_closed fs d a b :
  closed fs -> a <> b -> is_dir fs (d ++ [a]) ->
  closed (with_entries (move_tree (d ++ [a]) (d ++ [b]) (entries fs)) fs).
Proof.
  intros Hc Hab Ha. cbn.
  assert (forall p, under (d ++ [a]) p = false -> under (d ++ [b]) p = false -> is_dir fs p ->
    is_dir (with_entries (move_tree (d ++ [a]) (d ++ [b]) (entries fs)) fs) p) as Hstay.
  { intros p Hpa Hpb [m Em]. exists m. cbn. rewrite move_lookup, Hpa.
    unfold under in Hpb. by destruct (strip_path (d ++ [b]) p). }
  assert (forall r, is_dir fs ((d ++ [a]) ++ r) ->
    is_dir (with_entries (move_tree (d ++ [a]) (d ++ [b]) (entries fs)) fs) ((d ++ [b]) ++ r)) as Hmoved.
  { intros r [m Em]. exists m. cbn. by rewrite move_lookup, strip_path_app. }
  intros p x. cbn. rewrite move_lookup. destruct (strip_path (d ++ [b]) (p ++ [x])) as [r|] eqn:Er.
  - apply strip_path_Some in Er. destruct r as [|y r _] using rev_ind.
    + rewrite app_nil_r in Er. apply app_inj_tail in Er as [-> ->]. intros _.
      destruct Ha as [m Em]. destruct (Hc d a) as [->|Hd]; [by eexists|by left|right].
      apply Hstay; [| |done]; apply under_false; intros Hp%prefix_length; rewrite length_app in Hp; cbn in Hp; lia.
    + rewrite app_assoc in Er. apply app_inj_tail in Er as [-> ->]. rewrite app_assoc.
      intros [Hn|Hd]%Hc; [by destruct d|]. right. by apply Hmoved.
  - destruct (under (d ++ [a]) (p ++ [x])) eqn:Eu; [by intros []|]. intros [->|Hd]%Hc; [by left|right].
    apply Hstay; [| |done].
    + apply not_true_is_false. intros Hu. rewrite (under_trans _ p) in Eu; [done|done|].
      apply under_true. by eexists.
    + apply not_true_is_false. intros Hu. pose proof (under_trans (d ++ [b]) p (p ++ [x]) Hu) as Hu'.
      unfold under at 2 in Hu'. rewrite Er in Hu'. cbn in Hu'.
      assert (false = true); [apply Hu', under_true; by eexists|done].
Qed.
End trees.

(** ** Opening for writing *)

Lemma put_put p e e' fs : put_entry p e' (put_entry p e fs) = put_entry p e' fs.
Proof. unfold put_entry, with_entries. cbn. by rewrite insert_insert_eq. Qed.

Lemma open_at_in fs links d x : anchored d fs ->
  match entries fs !! (d ++ [x]) with
  | None => parent_writable fs (d ++ [x]) = true
  | Some (Reg mode _) => owner_write mode = true
  | _ => False
  end -> open_at fs links (d ++ [x]) = Ok (d ++ [x]).
Proof.
  intros Ha Hok. destruct links; cbn -[locate entry_at]; rewrite locate_in, entry_at_snoc by done;
    destruct (entries fs !! (d ++ [x])) as [[]|]; try done; by rewrite Hok.
Qed.
