(* ===== verification/SkillRecover.v ===== *)
(** * The skill library: installs that fail

    Whatever operation fails in an install, and wherever, the tree it leaves is one
    from which the next install succeeds, and nothing but the entries of the current
    version is touched.  So an install in which nothing fails heals any of them. *)

From Stdlib Require Import Ascii.
From Stdlib Require String.
From S2P Require Import Prelude Text StoreApi Sql Hub Membership BlobFiles BlobFacts Skills SkillFacts.

Open Scope loca_scope.

Section recover.
Context `{Library} `{Digest} `{ProcessStamp} `{LockWait}.
Variables (base : Path) (lib : string).
Let root : Path := base ++ [lib].
Implicit Types (fs : Files) (k n : N) (p d : Path) (x s : string).

Definition suffix_of n : string := pretty process_id +:+ "-" +:+ pretty nanos_now +:+ "-" +:+ pretty n.
Definition staging_name n : string := ".staging-" +:+ suffix_of n.
Definition tmp_name n : string := ".current." +:+ suffix_of n +:+ ".tmp".
Definition lock_name : string := ".install.lock".

(** The names in [root] an install may touch. *)
Definition own_name x : bool :=
  bool_decide (x = VERSION) || bool_decide (x = "current"%string) || bool_decide (x = lock_name)
  || starts_with x ".staging-" || starts_with x ".current.".
Definition touched p : bool :=
  match strip_path root p with Some (x :: _) => own_name x | _ => false end.
(** Everything else is as it was, but that [root] may have been made. *)
Definition untouched fs fs' : Prop :=
  forall p, touched p = false ->
    entries fs' !! p = entries fs !! p \/ p = root /\ entries fs !! root = None.

(** A directory an install can work in: no link or file in place of the version, no
    directory in place of its pointer or its lock, and names of its own to come. *)
Record ready fs : Prop := {
  rd_closed : closed fs;
  rd_base : anchored base fs;
  rd_root : match entries fs !! root with
            | None => parent_writable fs root = true
            | Some (Dir m) => owner_write m = true
            | _ => False
            end;
  rd_version : may_dir fs (root ++ [VERSION]);
  rd_current : ~ is_dir fs (root ++ ["current"%string]);
  rd_lock : match entries fs !! (root ++ [lock_name]) with
            | None => True
            | Some (Reg m _) => owner_write m = true
            | _ => False
            end;
  rd_fresh : forall n, (temp_counter fs <= n)%N ->
    entries fs !! (root ++ [staging_name n]) = None /\ entries fs !! (root ++ [tmp_name n]) = None;
}.

Lemma suffix_inj n m : suffix_of n = suffix_of m -> n = m.
Proof.
  unfold suffix_of. intros E. do 4 apply (inj (String.append _)) in E. by apply (inj pretty).
Qed.

Lemma staging_name_inj n m : staging_name n = staging_name m -> n = m.
Proof. intros E. apply (inj (String.append _)) in E. by apply suffix_inj. Qed.

Lemma string_length_app (a b : string) : String.length (a +:+ b) = String.length a + String.length b.
Proof. induction a as [|c a IH]; [done|]. exact (f_equal S IH). Qed.

Lemma string_app_inj_r (a b t : string) : a +:+ t = b +:+ t -> a = b.
Proof.
  revert b. induction a as [|c a IH]; intros [|c' b] E.
  - done.
  - apply (f_equal String.length) in E. rewrite !string_length_app in E. cbn in E. lia.
  - apply (f_equal String.length) in E. rewrite !string_length_app in E. cbn in E. lia.
  - injection E as -> E. f_equal. by apply IH.
Qed.

Lemma tmp_name_inj n m : tmp_name n = tmp_name m -> n = m.
Proof.
  unfold tmp_name. intros E. apply (inj (String.append _)) in E.
  by apply string_app_inj_r, suffix_inj in E.
Qed.

Lemma own_staging n : own_name (staging_name n) = true.
Proof. unfold own_name, staging_name. rewrite starts_with_app. by rewrite !orb_true_r. Qed.
Lemma own_tmp n : own_name (tmp_name n) = true.
Proof. unfold own_name, tmp_name. rewrite starts_with_app. by rewrite !orb_true_r. Qed.
Lemma own_version : own_name VERSION = true.
Proof. done. Qed.

Lemma touched_own x r : own_name x = true -> touched (root ++ x :: r) = true.
Proof. intros Hx. unfold touched. by rewrite strip_path_app. Qed.

Lemma touched_under x p : own_name x = true -> under (root ++ [x]) p = true -> touched p = true.
Proof. intros Hx [r ->]%under_true. rewrite <- app_assoc. by apply touched_own. Qed.

Lemma touched_prefix p : p `prefix_of` root -> touched p = false.
Proof.
  intros [r Er]. unfold touched. destruct (strip_path root p) as [q|] eqn:E; [|done].
  apply strip_path_Some in E. destruct q as [|x q]; [done|]. exfalso.
  apply (f_equal length) in E. rewrite Er, !length_app in E. cbn in E. lia.
Qed.

#[local] Instance untouched_preorder : PreOrder untouched.
Proof.
  split; [by intros fs p _; left|]. intros a b c Hab Hbc p Hp.
  destruct (Hbc p Hp) as [->|[-> Hn]]; [by apply Hab|].
  destruct (Hab root Hp) as [E|E]; [|by right]. right. split; [done|congruence].
Qed.

(** ** Between two steps of an install *)

Variable fs0 : Files.

(** The directory is there, and the names from [k] on are free. *)
Record inside k fs : Prop := {
  in_ready : ready fs;
  in_root : is_dir fs root;
  in_counter : temp_counter fs = k;
  in_frame : untouched fs0 fs;
}.

(** A name below which an install may work when [k] names were given. *)
Definition workable k x : Prop := x = VERSION \/ exists j, (j < k)%N /\ x = staging_name j.

Lemma workable_own k x : workable k x -> own_name x = true.
Proof. intros [->|(j & _ & ->)]; [apply own_version|apply own_staging]. Qed.

Lemma names_differ k x n :
  workable k x -> (k <= n)%N ->
  x <> staging_name n /\ x <> tmp_name n /\ x <> "current"%string /\ x <> lock_name.
Proof.
  intros [->|(j & Hj & ->)] Hn; [done|]. split_and!; [|done..].
  intros ->%staging_name_inj. lia.
Qed.

Lemma inside_closed k fs : inside k fs -> closed fs.
Proof. intros Hi. apply (rd_closed _ (in_ready _ _ Hi)). Qed.

Lemma inside_anchored k fs : inside k fs -> anchored root fs.
Proof.
  intros Hi. apply closed_dir_anchored; [by eapply inside_closed|right; by eapply in_root].
Qed.

Lemma inside_parent k fs x : inside k fs -> parent_writable fs (root ++ [x]) = true.
Proof.
  intros Hi. rewrite parent_writable_snoc. destruct (in_root _ _ Hi) as [m Em].
  unfold root in *. rewrite entry_at_snoc, Em. pose proof (rd_root _ (in_ready _ _ Hi)) as Hr.
  unfold root in Hr. by rewrite Em in Hr.
Qed.

Lemma under_root_other x y : x <> y -> under (root ++ [x]) (root ++ [y]) = false.
Proof.
  intros Hne. pose proof (under_sibling root x y [] Hne) as Hu. by rewrite app_nil_r in Hu.
Qed.

(** A step below the names. *)
Lemma inside_change k fs fs' :
  inside k fs ->
  (forall p, (forall x, workable k x -> under (root ++ [x]) p = false) -> entries fs' !! p = entries fs !! p) ->
  temp_counter fs' = temp_counter fs -> closed fs' -> may_dir fs' (root ++ [VERSION]) ->
  inside k fs'.
Proof.
  intros Hi Hout Hn Hc Hm. pose proof (in_ready _ _ Hi) as Hr.
  assert (forall p, p `prefix_of` root -> entries fs' !! p = entries fs !! p) as Hup.
  { intros p Hp. apply Hout. intros x _. apply under_false. intros Hu. apply prefix_length in Hu, Hp.
    rewrite length_app in Hu. cbn in Hu. lia. }
  assert (forall y, (forall x, workable k x -> x <> y) ->
    entries fs' !! (root ++ [y]) = entries fs !! (root ++ [y])) as Hsib.
  { intros y Hy. apply Hout. intros x Hx. by apply under_root_other, Hy. }
  split.
  - split.
    + done.
    + intros q Hq Hne. rewrite Hup; [by apply (rd_base _ Hr)|].
      etransitivity; [exact Hq|]. unfold root. by exists [lib].
    + rewrite Hup by done. destruct (in_root _ _ Hi) as [m Em].
      pose proof (rd_root _ Hr) as Hw. by rewrite Em in *.
    + done.
    + unfold is_dir. rewrite Hsib; [apply (rd_current _ Hr)|].
      intros x Hx. by apply (names_differ k x k).
    + rewrite Hsib; [apply (rd_lock _ Hr)|]. intros x Hx. by apply (names_differ k x k).
    + intros n Hle. rewrite Hn in Hle. pose proof Hle as Hk. rewrite (in_counter _ _ Hi) in Hk.
      rewrite !Hsib; [by apply (rd_fresh _ Hr)|intros x Hx; by apply (names_differ k x n)..].
  - unfold is_dir. rewrite Hup by done. apply (in_root _ _ Hi).
  - rewrite Hn. apply (in_counter _ _ Hi).
  - etransitivity; [apply (in_frame _ _ Hi)|]. intros p Hp. left. apply Hout. intros x Hx.
    destruct (under (root ++ [x]) p) eqn:Eu; [|done].
    by rewrite (touched_under x p (workable_own k x Hx) Eu) in Hp.
Qed.

(** ** Single steps *)

Definition same_kind (e e' : Entry) : Prop :=
  match e, e' with
  | Dir _, Dir _ | Reg _ _, Reg _ _ | Symlink _, Symlink _ | Special, Special => True
  | _, _ => False
  end.

Lemma put_closed p e e' fs :
  closed fs -> entries fs !! p = Some e -> same_kind e e' -> closed (put_entry p e' fs).
Proof.
  intros Hc E Hk q y. rewrite put_entry_lookup. unfold is_dir. rewrite put_entry_lookup.
  intros Hs. assert (is_Some (entries fs !! (q ++ [y]))) as [->|[m Em]]%Hc
    by (case_decide as Eq; [rewrite Eq, E; by eexists|done]).
  - by left.
  - right. clear Hs. case_decide as Eq; [|by exists m]. subst. rewrite E in Em. injection Em as ->.
    destruct e'; try done. by eexists.
Qed.

Lemma put_new_closed d x e fs :
  closed fs -> is_dir fs d -> entries fs !! (d ++ [x]) = None -> closed (put_entry (d ++ [x]) e fs).
Proof.
  intros Hc Hd E q y. unfold is_dir. rewrite !put_entry_lookup. case_decide as Eq.
  - apply app_inj_tail in Eq as [-> _]. intros _. right. destruct Hd as [m Em]. exists m.
    rewrite decide_False; [done|]. intros Eq. congruence.
  - intros [->|[m Em]]%Hc; [by left|right]. exists m. rewrite decide_False; [done|]. congruence.
Qed.

Lemma drop_closed p fs : closed fs -> (forall y, entries fs !! (p ++ [y]) = None) -> closed (drop_entry p fs).
Proof.
  intros Hc Hn q y. unfold is_dir. rewrite !drop_entry_lookup. case_decide; [by intros []|].
  intros Hs. destruct (Hc q y Hs) as [->|[m Em]]; [by left|right]. exists m.
  rewrite decide_False; [done|]. intros ->. rewrite Hn in Hs. by destruct Hs.
Qed.

Lemma not_dir_nothing p e fs : closed fs -> p <> [] -> entries fs !! p = Some e -> (forall m, e <> Dir m) ->
  forall y, entries fs !! (p ++ [y]) = None.
Proof.
  intros Hc Hp E He y. destruct (entries fs !! (p ++ [y])) eqn:Ey; [|done]. exfalso.
  destruct (Hc p y) as [?|[m Em]]; [by eexists|done|]. rewrite E in Em. injection Em as Em. by destruct (He m).
Qed.

(** At or below a name. *)
Definition place x d y : Prop := under (root ++ [x]) (d ++ [y]) = true.

Lemma place_down x d y z : place x d y -> place x (d ++ [y]) z.
Proof. intros Hu. eapply under_trans; [exact Hu|]. apply under_app. Qed.

Lemma place_top x : place x root x.
Proof. apply under_refl. Qed.

Lemma place_change k x d y fs fs' :
  inside k fs -> workable k x -> place x d y ->
  (forall p, p <> d ++ [y] -> entries fs' !! p = entries fs !! p) ->
  temp_counter fs' = temp_counter fs -> closed fs' ->
  (d ++ [y] = root ++ [VERSION] -> may_dir fs' (d ++ [y])) -> inside k fs'.
Proof.
  intros Hi Hx Hu Hout Hn Hc Hm. apply (inside_change k fs fs'); try done.
  - intros p Hp. apply Hout. intros ->. specialize (Hp x Hx). unfold place in Hu. congruence.
  - destruct (decide (d ++ [y] = root ++ [VERSION])) as [E|E]; [rewrite <- E; by apply Hm|].
    unfold may_dir. rewrite Hout by congruence. apply (rd_version _ (in_ready _ _ Hi)).
Qed.

Lemma inside_put k x d y e e' fs :
  inside k fs -> workable k x -> place x d y -> entries fs !! (d ++ [y]) = Some e -> same_kind e e' ->
  inside k (put_entry (d ++ [y]) e' fs).
Proof.
  intros Hi Hx Hp E Hk. eapply place_change; [exact Hi|exact Hx|exact Hp| |done| |].
  - intros p Hne. by rewrite put_entry_lookup, decide_False.
  - by eapply put_closed; [eapply inside_closed| |].
  - intros Ev. pose proof (rd_version _ (in_ready _ _ Hi)) as Hv. rewrite <- Ev in Hv.
    unfold may_dir in *. rewrite E in Hv. rewrite put_entry_lookup, decide_True by done. by destruct e, e'.
Qed.

Lemma inside_drop k x d y fs :
  inside k fs -> workable k x -> place x d y -> (forall z, entries fs !! ((d ++ [y]) ++ [z]) = None) ->
  inside k (drop_entry (d ++ [y]) fs).
Proof.
  intros Hi Hx Hp Hn. eapply place_change; [exact Hi|exact Hx|exact Hp| |done| |].
  - intros p Hne. by rewrite drop_entry_lookup, decide_False.
  - apply drop_closed; [by eapply inside_closed|done].
  - intros _. unfold may_dir. by rewrite drop_entry_lookup, decide_True.
Qed.

Lemma anchored_same d p e e' fs :
  anchored d fs -> entries fs !! p = Some e -> same_kind e e' -> anchored d (put_entry p e' fs).
Proof.
  intros Ha E Hk q Hq Hne. rewrite put_entry_lookup. case_decide as Eq; [|by apply Ha].
  subst. destruct (Ha p Hq Hne) as [m Em]. rewrite E in Em. injection Em as ->.
  destruct e'; try done. by eexists.
Qed.

(** ** Rules *)

Definition keeps_inv {A} (I : Files -> Prop) (m : Io A) : Prop := spec I m (fun _ => I) I.

Lemma spec_look {A} P (f : Files -> result A io_error) (Q : A -> Files -> Prop) R :
  (forall fs a, P fs -> f fs = Ok a -> Q a fs) -> (forall fs, P fs -> R fs) -> spec P (look f) Q R.
Proof.
  intros HQ HR c HP. unfold look, bind, query, give. destruct (f (tables c)) eqn:E; [by apply HQ|by apply HR].
Qed.

Lemma spec_give {A B} (I : Files -> Prop) (r : result A io_error) (k : A -> Io B) :
  (forall a, r = Ok a -> keeps_inv I (k a)) -> keeps_inv I (bind (give r) k).
Proof. intros Hk c Hc. destruct r as [a|e]; [by apply (Hk a)|done]. Qed.

Lemma spec_for_each {A} (I : Files -> Prop) (f : A -> Io unit) (l : list A) :
  (forall a : A, a ∈ l -> keeps_inv I (f a)) -> keeps_inv I (for_each f l).
Proof.
  intros Hf. induction l as [|a l IH]; [by apply spec_ret|]. eapply spec_bind; [apply Hf; by left|intros []; apply IH; intros b Hb; apply Hf; by right].
Qed.

(** [set_permissions] of an entry that is no link *)
Lemma io_chmod_spec (I : Files -> Prop) d y mode :
  (forall fs, I fs -> anchored d fs) ->
  (forall fs target, I fs -> entries fs !! (d ++ [y]) <> Some (Symlink target)) ->
  (forall fs e e', I fs -> entries fs !! (d ++ [y]) = Some e -> same_kind e e' ->
    I (put_entry (d ++ [y]) e' fs)) ->
  keeps_inv I (set_permissions (d ++ [y]) mode).
Proof.
  intros Ha Hl Hput. apply spec_step; [done|]. intros fs fs' HI.
  rewrite follow_in by by apply Ha. pose proof (Hl fs) as Hln.
  destruct (entries fs !! (d ++ [y])) as [[m|m data|t|]|] eqn:E; try done.
  - rewrite entry_at_snoc, E. intros Hok.
    assert (fs' = put_entry (d ++ [y]) (Dir mode) fs) as -> by (destruct d; by injection Hok as <-).
    by eapply Hput.
  - rewrite entry_at_snoc, E. intros [= <-]. by eapply Hput.
  - by destruct (Hln t HI).
  - rewrite entry_at_snoc, E. by intros [= <-].
Qed.

Lemma set_readonly_spec (I : Files -> Prop) d y ro :
  (forall fs, I fs -> anchored d fs) ->
  (forall fs target, I fs -> entries fs !! (d ++ [y]) <> Some (Symlink target)) ->
  (forall fs e e', I fs -> entries fs !! (d ++ [y]) = Some e -> same_kind e e' ->
    I (put_entry (d ++ [y]) e' fs)) ->
  keeps_inv I (set_readonly (d ++ [y]) ro).
Proof.
  intros Ha Hl Hput. eapply spec_bind; [by apply (spec_look I _ (fun _ => I))|].
  intros e. destruct e; by apply io_chmod_spec.
Qed.

(** An entry of a kind. *)
Definition kind_is (P : Entry -> Prop) p fs : Prop := exists e, entries fs !! p = Some e /\ P e.
Definition dir_entry (e : Entry) : Prop := match e with Dir _ => True | _ => False end.
Definition leaf_entry (e : Entry) : Prop := match e with Reg _ _ | Special => True | _ => False end.

Lemma kind_put (P : Entry -> Prop) p q e e' fs :
  (forall e e', P e -> same_kind e e' -> P e') ->
  kind_is P p fs -> entries fs !! q = Some e -> same_kind e e' -> kind_is P p (put_entry q e' fs).
Proof.
  intros HP (e1 & E1 & He1) E Hk. unfold kind_is. rewrite put_entry_lookup.
  case_decide as Eq; [|by exists e1]. subst. exists e'. split; [done|]. eapply HP; [|exact Hk]. congruence.
Qed.

Lemma kind_is_dir p fs : kind_is dir_entry p fs -> is_dir fs p.
Proof. intros (e & E & He). destruct e; try done. by eexists. Qed.

(** ** The walks *)

Section walks.
Variables (k : N) (X : string) (E0 : Files -> Prop).
Hypothesis HX : workable k X.
(** Something that does not depend on what lies below the name. *)
Hypothesis HE0 : forall fs fs', E0 fs ->
  (forall p, under (root ++ [X]) p = false -> entries fs' !! p = entries fs !! p) -> E0 fs'.

(** What a step keeps: the rest, and the way down to [d]. *)
Definition working d fs : Prop := inside k fs /\ E0 fs /\ anchored d fs.

Lemma working_anchored d fs : working d fs -> anchored d fs.
Proof. by intros (_ & _ & Ha). Qed.

Lemma working_up d y fs : working (d ++ [y]) fs -> working d fs.
Proof. intros (Hi & He & Ha). split_and!; [done|done|]. eapply anchored_prefix; [exact Ha|]. by exists [y]. Qed.

Lemma working_down d y fs : working d fs -> is_dir fs (d ++ [y]) -> working (d ++ [y]) fs.
Proof. intros (Hi & He & Ha) [m Em]. split_and!; [done|done|]. by eapply anchored_snoc. Qed.

Lemma extra_put d y e fs : place X d y -> E0 fs -> E0 (put_entry (d ++ [y]) e fs).
Proof.
  intros Hp He. eapply HE0; [exact He|]. intros p Hu. rewrite put_entry_lookup, decide_False; [done|].
  intros ->. unfold place in Hp. congruence.
Qed.

Lemma extra_drop d y fs : place X d y -> E0 fs -> E0 (drop_entry (d ++ [y]) fs).
Proof.
  intros Hp He. eapply HE0; [exact He|]. intros p Hu. rewrite drop_entry_lookup, decide_False; [done|].
  intros ->. unfold place in Hp. congruence.
Qed.

Lemma working_put d y e e' fs q :
  working q fs -> place X d y -> entries fs !! (d ++ [y]) = Some e -> same_kind e e' ->
  working q (put_entry (d ++ [y]) e' fs).
Proof.
  intros (Hi & He & Ha) Hp E Hk. split_and!;
    [by eapply inside_put|by apply extra_put|by eapply anchored_same].
Qed.

Lemma working_drop d y fs :
  working d fs -> place X d y -> (forall z, entries fs !! ((d ++ [y]) ++ [z]) = None) ->
  working d (drop_entry (d ++ [y]) fs).
Proof.
  intros (Hi & He & Ha) Hp Hn. split_and!; [by eapply inside_drop|by apply extra_drop|].
  apply anchored_drop; [|done]. apply long_prefix. rewrite length_app. cbn. lia.
Qed.

Lemma set_readonly_working d y q ro (P : Entry -> Prop) :
  place X d y -> (forall e e', P e -> same_kind e e' -> P e') ->
  (forall target, ~ P (Symlink target)) -> d `prefix_of` q ->
  keeps_inv (fun fs => working q fs /\ kind_is P (d ++ [y]) fs) (set_readonly (d ++ [y]) ro).
Proof.
  intros Hp HP Hl Hq. apply set_readonly_spec.
  - intros fs [Hw _]. eapply anchored_prefix; [by eapply working_anchored|done].
  - intros fs target [_ (e & E & He)] E'. rewrite E in E'. injection E' as ->. by eapply Hl.
  - intros fs e e' [Hw Hk] E Hs. split; [by eapply working_put|by eapply kind_put].
Qed.

Lemma make_writable_spec fuel : forall d y, place X d y ->
  keeps_inv (working d) (make_writable_recursive fuel (d ++ [y])).
Proof.
  induction fuel as [|fuel IH]; intros d y Hp; [by apply spec_stop|]. cbn [make_writable_recursive].
  eapply spec_bind.
  { apply (spec_look _ _ (fun e fs => working d fs /\ entries fs !! (d ++ [y]) = Some e)); [|done].
    intros fs e Hw. unfold symlink_metadata. rewrite locate_in, entry_at_snoc by by apply working_anchored.
    destruct (entries fs !! (d ++ [y])); [|done]. by intros [= ->]. }
  intros e. destruct e as [m|m data|t|].
  - eapply spec_pre.
    { intros fs [Hw E]. assert (working d fs /\ kind_is dir_entry (d ++ [y]) fs) as Hk; [|exact Hk].
      split; [done|]. by exists (Dir m). }
    eapply spec_catch.
    { apply (set_readonly_working d y d false dir_entry); [done|by intros [] []|by intros t []|done]. }
    all: intros ?; eapply spec_pre; [intros fs [Hw Hk]; exact (working_down d y fs Hw (kind_is_dir _ _ Hk))|].
    all: eapply spec_post with (Q := fun _ => working (d ++ [y])) (R := working (d ++ [y]));
      [|intros []|]; try apply working_up.
    all: eapply spec_bind; [by apply (spec_look _ _ (fun _ => working (d ++ [y])))|].
    all: intros names; apply spec_for_each; intros z _; by apply IH, place_down.
  - eapply spec_pre.
    { intros fs [Hw E]. assert (working d fs /\ kind_is leaf_entry (d ++ [y]) fs) as Hk; [|exact Hk].
      split; [done|]. by exists (Reg m data). }
    eapply spec_catch.
    { apply (set_readonly_working d y d false leaf_entry); [done|by intros [] []|by intros t []|done]. }
    all: intros ?; apply spec_ret || idtac; by intros fs [Hw _].
  - apply spec_ret. by intros fs [Hw _].
  - eapply spec_pre.
    { intros fs [Hw E]. assert (working d fs /\ kind_is leaf_entry (d ++ [y]) fs) as Hk; [|exact Hk].
      split; [done|]. by exists Special. }
    eapply spec_catch.
    { apply (set_readonly_working d y d false leaf_entry); [done|by intros [] []|by intros t []|done]. }
    all: intros ?; apply spec_ret || idtac; by intros fs [Hw _].
Qed.

Lemma unlink_spec d y : place X d y -> keeps_inv (working d) (unlink (d ++ [y])).
Proof.
  intros Hp. apply spec_step; [done|]. intros fs fs' Hw. rewrite locate_in, entry_at_snoc by by apply working_anchored.
  destruct (entries fs !! (d ++ [y])) as [e|] eqn:E; [|done].
  assert ((forall m, e <> Dir m) -> forall z, entries fs !! ((d ++ [y]) ++ [z]) = None) as Hn.
  { intros He. eapply not_dir_nothing; [by eapply inside_closed, Hw|by destruct d|exact E|done]. }
  destruct e; try done; destruct (parent_writable _ _); try done; intros [= <-];
    apply working_drop; try done; by apply Hn.
Qed.

Lemma rmdir_spec d y : place X d y ->
  spec (working (d ++ [y])) (rmdir (d ++ [y])) (fun _ => working d) (working d).
Proof.
  intros Hp. apply spec_step; [apply working_up|]. intros fs fs' Hw%working_up.
  rewrite locate_in, entry_at_snoc by by apply working_anchored.
  destruct (entries fs !! (d ++ [y])) as [[m|m data|t|]|] eqn:E; try done.
  destruct (children fs (d ++ [y])) as [|z l] eqn:Ec; [|done].
  destruct (parent_writable _ _); [|done]. intros [= <-]. apply working_drop; [done|done|].
  intros z. destruct (entries fs !! ((d ++ [y]) ++ [z])) eqn:Ez; [|done]. exfalso.
  assert (z ∈ children fs (d ++ [y])) as Hz by (apply elem_of_children; by eexists).
  rewrite Ec in Hz. by apply elem_of_nil in Hz.
Qed.

Lemma remove_below_spec fuel : forall d y, place X d y ->
  spec (working (d ++ [y])) (remove_below fuel (d ++ [y])) (fun _ => working d) (working d).
Proof.
  induction fuel as [|fuel IH]; intros d y Hp; [apply spec_stop, working_up|]. cbn [remove_below].
  eapply spec_bind; [apply (spec_look _ _ (fun _ => working (d ++ [y]))); [done|apply working_up]|].
  intros names. apply (spec_bind _ _ (fun _ => working (d ++ [y]))); [|intros []; by apply rmdir_spec].
  eapply spec_post; [apply (spec_for_each (working (d ++ [y])))|by intros [] fs|apply working_up].
  intros z _. eapply spec_bind.
  { apply (spec_query _ _ (fun e fs => working (d ++ [y]) fs
      /\ e = symlink_metadata fs ((d ++ [y]) ++ [z]))). by intros fs Hw. }
  intros e. assert (place X (d ++ [y]) z) as Hz by by apply place_down.
  assert (forall fs, working (d ++ [y]) fs ->
    symlink_metadata fs ((d ++ [y]) ++ [z]) = ok_or (entries fs !! ((d ++ [y]) ++ [z])) NotFound) as Hm.
  { intros fs Hw. by apply symlink_metadata_ok, working_anchored. }
  destruct e as [[m|m data|t|]|e].
  - eapply spec_pre; [|by apply IH]. intros fs [Hw E]. apply working_down; [done|].
    rewrite Hm in E by done. exists m. by destruct (entries fs !! _); simplify_eq/=.
  - eapply spec_pre; [|by apply unlink_spec]. by intros fs [Hw _].
  - eapply spec_pre; [|by apply unlink_spec]. by intros fs [Hw _].
  - eapply spec_pre; [|by apply unlink_spec]. by intros fs [Hw _].
  - destruct e; (apply spec_ret || apply spec_stop); by intros fs [Hw _].
Qed.

Lemma remove_tree_spec d y : place X d y -> keeps_inv (working d) (remove_tree (d ++ [y])).
Proof.
  intros Hp. eapply spec_bind; [by apply (spec_query _ _ (fun _ => working d))|]. intros there.
  destruct there; cbn [negb]; [|by apply spec_ret].
  eapply spec_bind; [by apply (spec_query _ _ (fun _ => working d))|]. intros fuel.
  assert (keeps_inv (working d) (catch (remove_dir_all (d ++ [y])) (fun r =>
    match r with Ok _ | Err NotFound => ret tt | Err e => stop e end))) as Hrm.
  { eapply spec_catch with (Q := fun _ => working d) (R := working d).
    - eapply spec_bind.
      { apply (spec_look _ _ (fun e fs => working d fs /\ entries fs !! (d ++ [y]) = Some e)); [|done].
        intros fs e Hw. rewrite symlink_metadata_ok by by apply working_anchored.
        destruct (entries fs !! (d ++ [y])); [|done]. by intros [= ->]. }
      intros e. destruct e as [m|m data|t|].
      + eapply spec_bind.
        { apply (spec_query _ _ (fun _ => working (d ++ [y]))). intros fs [Hw E].
          apply working_down; [done|]. by exists m. }
        intros n. by apply remove_below_spec.
      + apply spec_stop. by intros fs [Hw _].
      + eapply spec_pre; [|by apply unlink_spec]. by intros fs [Hw _].
      + apply spec_stop. by intros fs [Hw _].
    - intros ?. by apply spec_ret.
    - intros e. destruct e; by (apply spec_ret || apply spec_stop). }
  eapply spec_catch; [by apply make_writable_spec|intros ?; exact Hrm|intros ?; exact Hrm].
Qed.
End walks.

(** ** The staging directory *)

Section staging.
Variables (k : N) (s : string).
Hypothesis Hs : workable k s.
Hypothesis Hver : s <> VERSION.

(** A directory, if anything, with no link and nothing special below it. *)
Definition clean fs : Prop := forall r e, entries fs !! (root ++ s :: r) = Some e ->
  no_link e /\ (r = [] -> dir_entry e).
Definition making fs : Prop := inside k fs /\ clean fs.

Lemma snoc_cons (r : Path) : exists d y, root ++ s :: r = d ++ [y] /\ place s d y
  /\ (r = [] /\ d = root /\ y = s \/ exists r', r = r' ++ [y] /\ d = root ++ s :: r').
Proof.
  destruct r as [|y r' _] using rev_ind.
  - exists root, s. split_and!; [done|by apply place_top|by left].
  - exists (root ++ s :: r'), y. split_and!; [by rewrite <- app_assoc| |right; by exists r'].
    apply under_true. exists (r' ++ [y]). by rewrite <- !app_assoc.
Qed.

Lemma making_no_link fs q r t : making fs -> q `prefix_of` root ++ s :: r -> q <> [] ->
  entries fs !! q <> Some (Symlink t).
Proof.
  intros [Hi Hc] Hq Hne E. assert (root `prefix_of` root ++ s :: r) as Hr by by eexists.
  destruct (prefix_weak_total _ _ _ Hq Hr) as [Hup|[r' ->]].
  - destruct (inside_anchored _ _ Hi q Hup Hne) as [m Em]. congruence.
  - destruct r' as [|x r'].
    + rewrite app_nil_r in E. destruct (in_root _ _ Hi) as [m Em]. congruence.
    + assert (x = s) as ->.
      { destruct Hq as [w Hw]. rewrite <- app_assoc in Hw. apply app_inv_head in Hw. by injection Hw as -> _. }
      by apply Hc in E as [E _].
Qed.

Lemma walk_clean fs links rest : forall cur p,
  (forall q t, q `prefix_of` cur ++ rest -> q <> [] -> entries fs !! q <> Some (Symlink t)) ->
  anchored cur fs -> walk fs links cur rest = Ok p -> p = cur ++ rest /\ anchored (cur ++ rest) fs.
Proof.
  induction rest as [|x rest IH]; intros cur p Hno Ha.
  - rewrite walk_nil, app_nil_r. by intros [= <-].
  - rewrite walk_cons, entry_at_snoc. pose proof (Hno (cur ++ [x])) as Hx.
    assert (cur ++ x :: rest = (cur ++ [x]) ++ rest) as Eq by by rewrite <- app_assoc.
    rewrite Eq in *.
    destruct (entries fs !! (cur ++ [x])) as [[m|m data|t|]|] eqn:E; try done.
    + apply IH; [done|by eapply anchored_snoc].
    + exfalso. apply (Hx t); [by eexists|by destruct cur|done].
Qed.

(** A path below it is what it says. *)
Lemma locate_clean fs d y r p :
  making fs -> d ++ [y] = root ++ s :: r -> locate fs (d ++ [y]) = Ok p -> p = d ++ [y] /\ anchored d fs.
Proof.
  intros Hm E. unfold locate. rewrite split_last_snoc.
  destruct (walk fs LINKS_MAX [] d) as [d'|e] eqn:Ew; [|done]. intros [= <-].
  apply walk_clean in Ew as [-> Ha]; [done| |].
  - intros q t [w Hw] Hne. eapply making_no_link; [done| |done]. rewrite <- E. cbn in Hw. rewrite Hw.
    exists (w ++ [y]). by rewrite <- app_assoc.
  - intros q Hq%prefix_nil_inv Hne. done.
Qed.

Lemma not_version d y r : d ++ [y] = root ++ s :: r -> d ++ [y] <> root ++ [VERSION].
Proof. intros E E'. rewrite E in E'. apply app_inv_head in E'. by injection E' as ?. Qed.

(** A file or directory made or changed there. *)
Lemma making_put fs d y r e :
  making fs -> d ++ [y] = root ++ s :: r -> place s d y -> is_dir fs d ->
  no_link e -> (r = [] -> dir_entry e) ->
  (entries fs !! (d ++ [y]) = None \/ exists e', entries fs !! (d ++ [y]) = Some e' /\ same_kind e' e) ->
  making (put_entry (d ++ [y]) e fs).
Proof.
  intros [Hi Hc] E Hp Hd He Hre Hold. split.
  - eapply place_change; [exact Hi|exact Hs|exact Hp| |done| |].
    + intros q Hne. by rewrite put_entry_lookup, decide_False.
    + destruct Hold as [Hn|(e' & E' & Hk)].
      * by apply put_new_closed; [eapply inside_closed| |].
      * by eapply put_closed; [eapply inside_closed| |].
    + intros Ev. by destruct (not_version _ _ _ E).
  - intros r' e'. rewrite put_entry_lookup. case_decide as Eq; [|apply Hc]. intros [= <-]. split; [done|].
    rewrite E in Eq. apply app_inv_head in Eq. by injection Eq as ->.
Qed.

Lemma anchored_is_dir fs d : anchored d fs -> d <> [] -> is_dir fs d.
Proof. intros Ha Hne. by apply Ha. Qed.

Lemma place_parent_ne d y r : d ++ [y] = root ++ s :: r -> d <> [].
Proof.
  intros E ->. apply (f_equal length) in E. unfold root in E. rewrite !length_app in E. cbn in E. lia.
Qed.

Lemma mkdir_making r : keeps_inv making (mkdir (root ++ s :: r)).
Proof.
  destruct (snoc_cons r) as (d & y & E & Hp & _). rewrite E.
  apply spec_step; [done|]. intros fs fs' Hm.
  destruct (locate fs (d ++ [y])) as [p|e] eqn:El; [|done].
  apply (locate_clean fs d y r) in El as [-> Ha]; [|done|done].
  rewrite entry_at_snoc. destruct (entries fs !! (d ++ [y])) eqn:En; [done|].
  destruct (parent_writable fs _); [|done]. intros [= <-].
  eapply making_put; [done|done|done| |done|done|by left]. apply anchored_is_dir; [done|]. by eapply place_parent_ne.
Qed.

Lemma mkdir_above p : p `prefix_of` root -> keeps_inv making (mkdir p).
Proof.
  intros Hp. apply spec_step; [done|]. intros fs fs' [Hi Hc].
  destruct p as [|y d _] using rev_ind; [done|].
  pose proof (anchored_prefix _ _ _ (inside_anchored _ _ Hi) Hp) as Ha.
  destruct (anchored_entry _ _ _ Ha) as [m Em].
  rewrite locate_in, entry_at_snoc, Em; [done|]. eapply anchored_prefix; [exact Ha|]. by exists [y].
Qed.

Lemma make_dirs_making l :
  (rev l `prefix_of` root \/ exists r, rev l = root ++ s :: r) -> keeps_inv making (make_dirs l).
Proof.
  induction l as [|x l IH]; intros Hl.
  - cbn. eapply spec_catch; [by apply mkdir_above, prefix_nil|by intros []; apply spec_ret|].
    intros e. destruct e; try by apply spec_stop.
    all: eapply spec_bind; [by apply (spec_query _ _ (fun _ => making))|].
    all: intros []; by (apply spec_ret || apply spec_stop).
  - assert (keeps_inv making (mkdir (rev (x :: l)))) as Hmk.
    { destruct Hl as [Hl|[r ->]]; [by apply mkdir_above|apply mkdir_making]. }
    assert (keeps_inv making (make_dirs l)) as Hup.
    { apply IH. cbn in Hl. destruct Hl as [Hl|[r Hr]].
      - left. etransitivity; [|exact Hl]. by exists [x].
      - destruct r as [|z r _] using rev_ind.
        + left. apply app_inj_tail in Hr as [-> _]. done.
        + right. exists r. change (root ++ s :: r ++ [z]) with (root ++ (s :: r) ++ [z]) in Hr.
          rewrite app_assoc in Hr. by apply app_inj_tail in Hr as [-> _]. }
    assert (forall e, keeps_inv making
      (let! there := query (fun fs => path_is_dir fs (rev (x :: l))) in
       if there : bool then ret tt else stop e)) as Hthere.
    { intros e. eapply spec_bind; [by apply (spec_query _ _ (fun _ => making))|].
      intros []; by (apply spec_ret || apply spec_stop). }
    cbn [make_dirs]. eapply spec_catch; [exact Hmk|by intros []; apply spec_ret|].
    intros e. destruct e; try apply Hthere.
    eapply spec_bind; [exact Hup|]. intros []. eapply spec_catch; [exact Hmk|by intros []; apply spec_ret|].
    intros e. apply Hthere.
Qed.

(** The entry it leads to. *)
Lemma locate_making fs d y r p :
  making fs -> d ++ [y] = root ++ s :: r -> locate fs (d ++ [y]) = Ok p ->
  p = d ++ [y] /\ anchored d fs /\ forall t, entries fs !! (d ++ [y]) <> Some (Symlink t).
Proof.
  intros Hm E El. destruct (locate_clean fs d y r p Hm E El) as [-> Ha]. split_and!; [done|done|].
  intros t. apply (making_no_link fs _ r); [done|by rewrite E|by destruct d].
Qed.

Lemma open_at_making fs links d y r p :
  making fs -> d ++ [y] = root ++ s :: r -> open_at fs links (d ++ [y]) = Ok p ->
  p = d ++ [y] /\ anchored d fs
  /\ match entries fs !! (d ++ [y]) with None | Some (Reg _ _) => True | _ => False end.
Proof.
  intros Hm E Ho.
  assert (exists p', locate fs (d ++ [y]) = Ok p') as [p' El].
  { destruct links; cbn -[locate entry_at] in Ho; destruct (locate _ _); try done; by eexists. }
  destruct (locate_making fs d y r p' Hm E El) as (-> & Ha & Hno).
  destruct links; cbn -[locate entry_at] in Ho; rewrite El, entry_at_snoc in Ho;
    destruct (entries fs !! (d ++ [y])) as [[m|m data|t|]|]; try done; try (by destruct (Hno t));
    repeat case_match; simplify_eq; done.
Qed.

Lemma follow_making fs links d y r p :
  making fs -> d ++ [y] = root ++ s :: r -> follow fs links (d ++ [y]) = Ok p -> p = d ++ [y] /\ anchored d fs.
Proof.
  intros Hm E Ho.
  assert (exists p', locate fs (d ++ [y]) = Ok p') as [p' El].
  { destruct links; cbn -[locate entry_at] in Ho; destruct (locate _ _); try done; by eexists. }
  destruct (locate_making fs d y r p' Hm E El) as (-> & Ha & Hno).
  destruct links; cbn -[locate entry_at] in Ho; rewrite El, entry_at_snoc in Ho;
    destruct (entries fs !! (d ++ [y])) as [[m|m data|t|]|]; try done; try (by destruct (Hno t));
    by injection Ho as <-.
Qed.

Lemma fs_write_making r bytes : r <> [] -> keeps_inv making (fs_write (root ++ s :: r) bytes).
Proof.
  intros Hr. destruct (snoc_cons r) as (d & y & E & Hp & _). rewrite E. eapply spec_bind with (Q := fun _ => making).
  - apply spec_step; [done|]. intros fs fs' Hm.
    destruct (open_at fs LINKS_MAX (d ++ [y])) as [p|e] eqn:Eo; [|done].
    apply (open_at_making fs _ d y r) in Eo as (-> & Ha & Hk); [|done|done]. rewrite entry_at_snoc.
    assert (is_dir fs d) as Hd by (apply anchored_is_dir; [done|by eapply place_parent_ne]).
    destruct (entries fs !! (d ++ [y])) as [[m|m data|t|]|] eqn:En; try done; intros [= <-].
    + eapply making_put; try done. right. by eexists.
    + eapply making_put; try done. by left.
  - intros []. apply spec_step; [done|]. intros fs fs' Hm.
    destruct (follow fs LINKS_MAX (d ++ [y])) as [p|e] eqn:Eo; [|done].
    apply (follow_making fs _ d y r) in Eo as (-> & Ha); [|done|done]. rewrite entry_at_snoc.
    assert (is_dir fs d) as Hd by (apply anchored_is_dir; [done|by eapply place_parent_ne]).
    destruct (entries fs !! (d ++ [y])) as [[m|m data|t|]|] eqn:En; try done; intros [= <-].
    eapply making_put; try done. right. by eexists.
Qed.

Lemma extract_entry_making e :
  (forall z, e = Ok z -> ze_name z <> Some []) -> keeps_inv making (extract_entry (root ++ [s]) e).
Proof.
  intros Hne. apply spec_give. intros z Hz. apply spec_give. intros rel Hrel.
  assert (rel <> []) as Hr.
  { intros ->. apply (Hne z Hz). destruct (ze_name z); [|done]. by injection Hrel as ->. }
  rewrite <- app_assoc. cbn [app].
  destruct (negb _); [by apply spec_stop|]. destruct (ze_is_dir z).
  { apply make_dirs_making. rewrite rev_involutive. right. by eexists. }
  apply (spec_bind _ _ (fun _ => making)).
  { destruct (snoc_cons rel) as (d & y & E & _ & Hd). rewrite E, split_last_snoc.
    apply make_dirs_making. rewrite rev_involutive.
    destruct Hd as [(_ & -> & _)|(r' & _ & ->)]; [by left|right; by eexists]. }
  intros []. apply spec_give. intros buf _. by apply fs_write_making.
Qed.

Lemma set_readonly_making r ro : keeps_inv making (set_readonly (root ++ s :: r) ro).
Proof.
  destruct (snoc_cons r) as (d & y & E & Hp & _). rewrite E.
  assert (forall mode, keeps_inv making (set_permissions (d ++ [y]) mode)) as Hset.
  { intros mode. apply spec_step; [done|]. intros fs fs' Hm.
    destruct (follow fs LINKS_MAX (d ++ [y])) as [p|e] eqn:Eo; [|done].
    apply (follow_making fs _ d y r) in Eo as (-> & Ha); [|done|done]. rewrite entry_at_snoc.
    assert (is_dir fs d) as Hd by (apply anchored_is_dir; [done|by eapply place_parent_ne]).
    destruct (entries fs !! (d ++ [y])) as [[m|m data|t|]|] eqn:En; try done; intros Hok.
    - assert (fs' = put_entry (d ++ [y]) (Dir mode) fs) as -> by (destruct d; by injection Hok as <-).
      eapply making_put; try done. right. by eexists.
    - injection Hok as <-. eapply making_put; try done.
      + rewrite <- E in En. by apply (proj2 Hm) in En as [_ Hd'].
      + right. by eexists.
    - by injection Hok as <-.
    - by injection Hok as <-.
    - by injection Hok as <-. }
  eapply spec_bind; [by apply (spec_look making _ (fun _ => making))|]. intros e. destruct e; apply Hset.
Qed.

Lemma make_readonly_making fuel : forall r, keeps_inv making (make_readonly_recursive fuel (root ++ s :: r)).
Proof.
  induction fuel as [|fuel IH]; intros r; [by apply spec_stop|]. cbn [make_readonly_recursive].
  eapply spec_bind; [by apply (spec_query _ _ (fun _ => making))|]. intros dir.
  eapply spec_bind with (Q := fun _ => making); [|intros []; apply set_readonly_making].
  destruct dir; [|by apply spec_ret].
  eapply spec_bind; [by apply (spec_look making _ (fun _ => making))|]. intros names.
  apply spec_for_each. intros name _. rewrite <- app_assoc. apply IH.
Qed.

Lemma extract_all_making :
  (forall b l z, b ∈ BUNDLES -> zip_archive (b_zip b) = Ok l -> Ok z ∈ l -> ze_name z <> Some []) ->
  keeps_inv making (extract_all (root ++ [s])).
Proof.
  intros Hne. apply (spec_bind _ _ (fun _ => making)).
  - apply spec_for_each. intros b Hb. apply spec_give. intros l Hl.
    apply spec_for_each. intros e He. apply extract_entry_making. intros z ->. by eapply Hne.
  - intros []. eapply spec_bind; [by apply (spec_query _ _ (fun _ => making))|]. intros fuel.
    apply make_readonly_making.
Qed.

Lemma promote_making : keeps_inv making (fs_rename (root ++ [s]) (root ++ [VERSION])).
Proof.
  apply spec_step; [done|]. intros fs fs' [Hi Hc].
  rewrite !locate_in, !entry_at_snoc by by eapply inside_anchored.
  destruct (negb _); [done|].
  destruct (entries fs !! (root ++ [s])) as [e|] eqn:E; [|done].
  destruct (Hc [] e E) as [_ Hd]. specialize (Hd eq_refl). destruct e as [m|m data|t|]; try done.
  destruct (negb (owner_write m)); [done|].
  rewrite bool_decide_eq_false_2 by (intros [_ ?]%app_inj_tail; done).
  destruct (under (root ++ [s]) (root ++ [VERSION])); [done|].
  assert (fs' = with_entries (move_tree (root ++ [s]) (root ++ [VERSION]) (entries fs)) fs -> making fs') as Hmv.
  { intros ->. split.
    - apply (inside_change k fs); [done| |done| |].
      + intros p Hp. cbn. rewrite move_lookup, Hp by done.
        pose proof (Hp VERSION) as Hv. unfold under in Hv.
        destruct (strip_path (root ++ [VERSION]) p); [|done]. by discriminate (Hv (or_introl eq_refl)).
      + apply move_closed; [by eapply inside_closed|done|by exists m].
      + unfold may_dir. cbn. rewrite move_lookup.
        assert (strip_path (root ++ [VERSION]) (root ++ [VERSION]) = Some []) as ->
          by (apply strip_path_Some; by rewrite app_nil_r).
        by rewrite app_nil_r, E.
    - intros r e. cbn. rewrite move_lookup.
      pose proof (under_sibling root VERSION s r) as Hu. rewrite <- app_assoc in Hu. unfold under in Hu.
      cbn [app] in Hu. destruct (strip_path (root ++ [VERSION]) (root ++ s :: r)) as [q|].
      { cbn in Hu. assert (true = false) by (apply Hu; congruence). done. }
      assert (under (root ++ [s]) (root ++ s :: r) = true) as ->; [|done].
      apply under_true. exists r. by rewrite <- app_assoc. }
  destruct (entries fs !! (root ++ [VERSION])) as [[m'|m' data|t|]|] eqn:Ev; try done.
  - destruct (children fs (root ++ [VERSION])); [|done]. intros [= <-]. by apply Hmv.
  - intros [= <-]. by apply Hmv.
Qed.
End staging.

(** ** Steps at single files *)

(** A step at the pointer, the lock, or a temporary file. *)
Lemma inside_change_file k fs fs' :
  inside k fs ->
  (forall p, p <> root ++ ["current"%string] -> p <> root ++ [lock_name] ->
     (forall j, (j < k)%N -> p <> root ++ [tmp_name j]) -> entries fs' !! p = entries fs !! p) ->
  temp_counter fs' = temp_counter fs -> closed fs' ->
  ~ is_dir fs' (root ++ ["current"%string]) ->
  match entries fs' !! (root ++ [lock_name]) with
  | None => True
  | Some (Reg m _) => owner_write m = true
  | _ => False
  end ->
  inside k fs'.
Proof.
  intros Hi Hout Hn Hc Hcur Hlock. pose proof (in_ready _ _ Hi) as Hr.
  assert (forall p, p `prefix_of` root -> entries fs' !! p = entries fs !! p) as Hup.
  { intros p Hp. apply Hout; [..|intros j _]; intros ->; apply prefix_length in Hp;
      rewrite length_app in Hp; cbn in Hp; lia. }
  assert (forall x, x <> "current"%string -> x <> lock_name -> (forall j, (j < k)%N -> x <> tmp_name j) ->
    entries fs' !! (root ++ [x]) = entries fs !! (root ++ [x])) as Hsib.
  { intros x H1' H2' H3'. apply Hout; [..|intros j Hj]; intros [_ E]%app_inj_tail; try done. by eapply H3'. }
  split.
  - split; try done.
    + intros q Hq Hne. rewrite Hup; [by apply (rd_base _ Hr)|].
      etransitivity; [exact Hq|]. unfold root. by exists [lib].
    + rewrite Hup by done. destruct (in_root _ _ Hi) as [m Em].
      pose proof (rd_root _ Hr) as Hw. by rewrite Em in *.
    + unfold may_dir. rewrite Hsib; [apply (rd_version _ Hr)|done..].
    + intros n Hle. rewrite Hn in Hle. pose proof Hle as Hk. rewrite (in_counter _ _ Hi) in Hk.
      rewrite !Hsib; [by apply (rd_fresh _ Hr)|done|done|intros j Hj|done|done|intros j Hj].
      * intros E%tmp_name_inj. lia.
      * done.
  - unfold is_dir. rewrite Hup by done. apply (in_root _ _ Hi).
  - rewrite Hn. apply (in_counter _ _ Hi).
  - etransitivity; [apply (in_frame _ _ Hi)|]. intros p Hp. left.
    apply Hout; [..|intros j _]; intros ->; by rewrite touched_own in Hp by (done || apply own_tmp).
Qed.

(** A name is given. *)
Lemma inside_next k fs :
  inside k fs -> (k < u64_max)%N -> inside (k + 1) (mkFiles (entries fs) (wrap_add64 (temp_counter fs) 1)).
Proof.
  intros Hi Hk. pose proof (in_ready _ _ Hi) as Hr. destruct Hr as [Hc Hb Hro Hv Hcu Hl Hf].
  assert (wrap_add64 (temp_counter fs) 1 = (k + 1)%N) as Hn.
  { rewrite (in_counter _ _ Hi). apply wrap_add64_small. lia. }
  split; [split; try done| |done|].
  - intros n Hle. cbn in Hle. rewrite Hn in Hle. apply Hf. rewrite (in_counter _ _ Hi). lia.
  - apply (in_root _ _ Hi).
  - apply (in_frame _ _ Hi).
Qed.

Definition named k (name : string) fs : Prop :=
  inside (k + 1) fs /\ name = suffix_of k
  /\ entries fs !! (root ++ [staging_name k]) = None /\ entries fs !! (root ++ [tmp_name k]) = None.

Lemma unique_suffix_spec k R : (k < u64_max)%N -> spec (inside k) unique_suffix (named k) R.
Proof.
  intros Hk c Hi. cbn. split; [by apply inside_next|]. split; [by rewrite (in_counter _ _ Hi)|].
  apply (rd_fresh _ (in_ready _ _ Hi)). by rewrite (in_counter _ _ Hi).
Qed.

(** ** An install, step by step *)

Definition well_named : Prop :=
  forall b l z, b ∈ BUNDLES -> zip_archive (b_zip b) = Ok l -> Ok z ∈ l -> ze_name z <> Some [].
Hypothesis Hnamed : well_named.

Lemma inside_working k x fs : inside k fs -> working k (fun _ => True) root fs.
Proof. intros Hi. split_and!; [done|done|by eapply inside_anchored]. Qed.

Lemma remove_tree_inside k x : workable k x -> keeps_inv (inside k) (remove_tree (root ++ [x])).
Proof.
  intros Hx. eapply spec_pre; [intros fs; by apply (inside_working k x)|].
  eapply spec_post; [apply (remove_tree_spec k x (fun _ => True) Hx); [done|apply place_top]|..].
  - by intros [] fs [Hi _].
  - by intros fs [Hi _].
Qed.

Lemma lock_version_spec k : keeps_inv (inside k) (set_readonly (root ++ [VERSION]) true).
Proof.
  apply set_readonly_spec.
  - intros fs Hi. by eapply inside_anchored.
  - intros fs t Hi E. pose proof (rd_version _ (in_ready _ _ Hi)) as Hv. unfold may_dir in Hv. by rewrite E in Hv.
  - intros fs e e' Hi E Hk. eapply inside_put; [done|by left|apply place_top|done|done].
Qed.

Section reinstalling.
Variable k : N.
Let s : string := staging_name k.

Lemma staging_workable : workable (k + 1) s.
Proof. right. exists k. split; [lia|done]. Qed.

Lemma staging_not_version : s <> VERSION.
Proof. done. Qed.

Lemma clean_of_missing fs : inside (k + 1) fs -> entries fs !! (root ++ [s]) = None -> making (k + 1) s fs.
Proof.
  intros Hi E. split; [done|]. intros r e Er. exfalso.
  assert (root ++ s :: r = (root ++ [s]) ++ r) as Eq by by rewrite <- app_assoc. rewrite Eq in Er.
  destruct (closed_above fs (root ++ [s]) r) as [->|[m Em]].
  - by eapply inside_closed.
  - by destruct root.
  - by eexists.
  - rewrite app_nil_r in Er. congruence.
  - congruence.
Qed.

Lemma remove_missing_spec :
  spec (fun fs => inside (k + 1) fs /\ entries fs !! (root ++ [s]) = None) (remove_tree (root ++ [s]))
    (fun _ => making (k + 1) s) (inside (k + 1)).
Proof.
  intros c [Hi E]. unfold remove_tree, bind, query, path_exists, metadata.
  rewrite follow_in, E by by eapply inside_anchored. by apply clean_of_missing.
Qed.

Lemma remove_version_making : keeps_inv (making (k + 1) s) (remove_tree (root ++ [VERSION])).
Proof.
  eapply spec_pre with (P' := working (k + 1) (clean s) root).
  { intros fs [Hi Hc]. split_and!; [done|done|by eapply inside_anchored]. }
  eapply spec_post; [apply (remove_tree_spec (k + 1) VERSION (clean s)); [by left| |apply place_top]|..].
  - intros fs fs' Hc Hout r e. rewrite Hout; [apply Hc|].
    assert (root ++ s :: r = (root ++ [s]) ++ r) as -> by by rewrite <- app_assoc.
    by apply under_sibling.
  - by intros [] fs (Hi & Hc & _).
  - by intros fs (Hi & Hc & _).
Qed.

Lemma making_inside fs : making (k + 1) s fs -> inside (k + 1) fs.
Proof. by intros [Hi _]. Qed.

Lemma stage_spec :
  spec (making (k + 1) s) (stage fs_rename (root ++ [s]) (root ++ [VERSION]))
    (fun _ => inside (k + 1)) (inside (k + 1)).
Proof.
  assert (forall m : Io unit, keeps_inv (making (k + 1) s) m ->
    spec (making (k + 1) s) m (fun _ => making (k + 1) s) (inside (k + 1))) as Hin.
  { intros m Hm. eapply spec_post; [exact Hm|done|apply making_inside]. }
  unfold stage. eapply spec_bind; [apply Hin, extract_all_making; [apply staging_workable|done|done]|intros []].
  eapply spec_bind; [apply Hin, remove_version_making|intros []].
  eapply spec_bind; [apply Hin, set_readonly_making; [apply staging_workable|done]|intros []].
  eapply spec_bind; [apply Hin, promote_making; [apply staging_workable|done]|intros []].
  eapply spec_pre; [apply making_inside|apply lock_version_spec].
Qed.

Lemma reinstall_spec : (k < u64_max)%N ->
  spec (inside k) (reinstall fs_rename root (root ++ [VERSION])) (fun _ => inside (k + 1))
    (fun fs => inside k fs \/ inside (k + 1) fs).
Proof.
  intros Hk. unfold reinstall.
  eapply spec_bind; [eapply spec_post; [apply remove_tree_inside; by left|done|by left]|intros []].
  eapply spec_bind; [by apply unique_suffix_spec|]. intros name.
  apply spec_pre with (P' := fun fs => (inside (k + 1) fs /\ entries fs !! (root ++ [s]) = None)
    /\ name = suffix_of k); [by intros fs (? & ? & ? & _)|].
  intros c [Hc ->]. revert c Hc.
  assert (spec (fun fs => inside (k + 1) fs /\ entries fs !! (root ++ [s]) = None)
    (let! _ := remove_tree (root ++ [s]) in
     let! _ := create_dir_all (root ++ [s]) in
     catch (stage fs_rename (root ++ [s]) (root ++ [VERSION])) (fun staged =>
       match staged with
       | Ok _ => ret tt
       | Err primary => catch (remove_tree (root ++ [s])) (fun _ => stop primary)
       end)) (fun _ => inside (k + 1)) (inside (k + 1))) as Hall.
  { eapply spec_bind; [apply remove_missing_spec|intros []].
    eapply spec_bind.
    { eapply spec_post; [apply (make_dirs_making (k + 1) s staging_workable staging_not_version)|done|apply making_inside].
      right. exists []. by rewrite rev_involutive. }
    intros []. eapply spec_catch; [apply stage_spec|by intros []; apply spec_ret|].
    intros e. eapply spec_catch; [apply remove_tree_inside, staging_workable|..]; intros ?; by apply spec_stop. }
  exact (spec_post _ _ _ _ _ (fun fs => inside k fs \/ inside (k + 1) fs) Hall
    (fun _ _ Hi => Hi) (fun _ Hi => or_intror Hi)).
Qed.
End reinstalling.

Lemma open_write_lock_spec k : keeps_inv (inside k) (open_write (root ++ [lock_name]) false).
Proof.
  apply spec_step; [done|]. intros fs fs' Hi. pose proof (rd_lock _ (in_ready _ _ Hi)) as Hl.
  pose proof (inside_anchored _ _ Hi) as Ha.
  rewrite open_at_in, entry_at_snoc; [|done|].
  2: { destruct (entries fs !! (root ++ [lock_name])) as [[]|]; try done. by eapply inside_parent. }
  assert (forall e', (exists m data, e' = Reg m data /\ owner_write m = true) ->
    (entries fs !! (root ++ [lock_name]) = None
     \/ exists e, entries fs !! (root ++ [lock_name]) = Some e /\ same_kind e e') ->
    inside k (put_entry (root ++ [lock_name]) e' fs)) as Hput.
  { intros e' (m & data & -> & Hw) Hold. apply (inside_change_file k fs); [done| |done| | |].
    - intros p _ Hne _. by rewrite put_entry_lookup, decide_False.
    - destruct Hold as [Hn|(e & E & Hk)].
      + apply put_new_closed; [by eapply inside_closed|by eapply in_root|done].
      + eapply put_closed; [by eapply inside_closed|done|done].
    - unfold is_dir. rewrite put_entry_lookup, decide_False by by intros [_ ?]%app_inj_tail.
      apply (rd_current _ (in_ready _ _ Hi)).
    - by rewrite put_entry_lookup, decide_True. }
  destruct (entries fs !! (root ++ [lock_name])) as [[m|m data|t|]|] eqn:E; try done; intros [= <-].
  - apply Hput; [by exists m, data|]. right. by eexists.
  - apply Hput; [by exists 420%N, ""%string|by left].
Qed.

Lemma wait_for_lock_spec (I : Files -> Prop) fuel : forall n : nat, keeps_inv I (wait_for_lock fuel n).
Proof.
  induction fuel as [|fuel IH]; intros n; [by apply spec_stop|]. cbn.
  destruct (try_lock n); [by apply spec_ret| |by apply spec_stop].
  destruct (_ <=? _)%N; [by apply spec_stop|apply IH].
Qed.

Lemma acquire_spec k : keeps_inv (inside k) (acquire root).
Proof.
  eapply spec_bind; [apply open_write_lock_spec|intros []]. apply wait_for_lock_spec.
Qed.

(** The temporary file of the pointer. *)
Definition tmp_ok k fs : Prop :=
  inside (k + 1) fs
  /\ match entries fs !! (root ++ [tmp_name k]) with None | Some (Reg _ _) => True | _ => False end.

Lemma tmp_put k m data fs : tmp_ok k fs -> tmp_ok k (put_entry (root ++ [tmp_name k]) (Reg m data) fs).
Proof.
  intros [Hi Hk]. split; [|by rewrite put_entry_lookup, decide_True].
  apply (inside_change_file (k + 1) fs); [done| |done| | |].
  - intros p _ _ Hne. rewrite put_entry_lookup, decide_False; [done|]. apply Hne. lia.
  - destruct (entries fs !! (root ++ [tmp_name k])) as [[]|] eqn:E; try done.
    + eapply put_closed; [by eapply inside_closed|done|done].
    + apply put_new_closed; [by eapply inside_closed|by eapply in_root|done].
  - unfold is_dir. rewrite put_entry_lookup, decide_False by by intros [_ ?]%app_inj_tail.
    apply (rd_current _ (in_ready _ _ Hi)).
  - rewrite put_entry_lookup, decide_False by by intros [_ ?]%app_inj_tail.
    apply (rd_lock _ (in_ready _ _ Hi)).
Qed.

Lemma write_tmp_spec k bytes : keeps_inv (tmp_ok k) (fs_write (root ++ [tmp_name k]) bytes).
Proof.
  apply (spec_bind _ _ (fun _ => tmp_ok k)).
  - apply spec_step; [done|]. intros fs fs' Ht. pose proof Ht as [Hi Hk].
    pose proof (inside_anchored _ _ Hi) as Ha.
    destruct (entries fs !! (root ++ [tmp_name k])) as [[m|m data|t|]|] eqn:E; try done.
    + destruct (open_at fs LINKS_MAX (root ++ [tmp_name k])) as [p|e] eqn:Eo; [|done].
      assert (p = root ++ [tmp_name k]) as ->.
      { unfold LINKS_MAX in Eo. cbn -[locate entry_at] in Eo. rewrite locate_in, entry_at_snoc, E in Eo by done.
        destruct (owner_write m); [by injection Eo as <-|done]. }
      rewrite entry_at_snoc, E. intros [= <-]. by apply tmp_put.
    + rewrite open_at_in, entry_at_snoc, E; [|done|rewrite E; by eapply inside_parent].
      intros [= <-]. by apply tmp_put.
  - intros []. apply spec_step; [done|]. intros fs fs' Ht. pose proof Ht as [Hi Hk].
    rewrite follow_in by by eapply inside_anchored.
    destruct (entries fs !! (root ++ [tmp_name k])) as [[m|m data|t|]|] eqn:E; try done.
    rewrite entry_at_snoc, E. intros [= <-]. by apply tmp_put.
Qed.

Lemma point_spec k :
  spec (tmp_ok k) (fs_rename (root ++ [tmp_name k]) (root ++ ["current"%string])) (fun _ => inside (k + 1))
    (inside (k + 1)).
Proof.
  apply spec_step; [by intros fs [Hi _]|]. intros fs fs' [Hi Hk].
  pose proof (inside_anchored _ _ Hi) as Ha. rewrite !locate_in, !entry_at_snoc by done.
  destruct (negb _); [done|].
  destruct (entries fs !! (root ++ [tmp_name k])) as [[m|m data|t|]|] eqn:E; try done.
  intros Hok. assert (fs' = put_entry (root ++ ["current"%string]) (Reg m data)
    (drop_entry (root ++ [tmp_name k]) fs)) as ->.
  { destruct (entries fs !! (root ++ ["current"%string])) as [[]|]; try done; by injection Hok as <-. }
  assert (closed (drop_entry (root ++ [tmp_name k]) fs)) as Hc.
  { apply drop_closed; [by eapply inside_closed|].
    eapply not_dir_nothing; [by eapply inside_closed|by destruct root|exact E|done]. }
  assert (root ++ ["current"%string] <> root ++ [tmp_name k]) as Hne by by intros [_ ?]%app_inj_tail.
  apply (inside_change_file (k + 1) fs); [done| |done| | |].
  - intros p Hp _ Ht. rewrite put_entry_lookup, decide_False, drop_entry_lookup, decide_False; [done| |done].
    apply Ht. lia.
  - destruct (entries fs !! (root ++ ["current"%string])) as [e|] eqn:Ec.
    + assert (forall m, e <> Dir m) as Hnd.
      { intros m' ->. apply (rd_current _ (in_ready _ _ Hi)). by eexists. }
      intros q y. unfold is_dir. rewrite !put_entry_lookup. case_decide as Eq.
      * apply app_inj_tail in Eq as [-> _]. intros _. right. destruct (in_root _ _ Hi) as [mr Er].
        exists mr. rewrite decide_False, drop_entry_lookup, decide_False; [done|..];
          intros Eq; apply (f_equal length) in Eq; rewrite length_app in Eq; cbn in Eq; lia.
      * intros [->|[m' Em]]%Hc; [by left|right]. exists m'. rewrite decide_False; [done|].
        intros ->. rewrite drop_entry_lookup, decide_False, Ec in Em by done. injection Em as ->. by eapply Hnd.
    + apply put_new_closed; [done| |by rewrite drop_entry_lookup, decide_False].
      destruct (in_root _ _ Hi) as [mr Er]. exists mr. rewrite drop_entry_lookup, decide_False; [done|].
      intros Eq. apply (f_equal length) in Eq. rewrite length_app in Eq. cbn in Eq. lia.
  - intros [m' Em]. by rewrite put_entry_lookup, decide_True in Em.
  - rewrite put_entry_lookup, decide_False, drop_entry_lookup, decide_False by by intros [_ ?]%app_inj_tail.
    apply (rd_lock _ (in_ready _ _ Hi)).
Qed.

Lemma set_current_spec k version : (k < u64_max)%N ->
  spec (inside k) (set_current root version) (fun _ => inside (k + 1)) (inside (k + 1)).
Proof.
  intros Hk. eapply spec_bind; [by apply unique_suffix_spec|]. intros name.
  apply spec_pre with (P' := fun fs => tmp_ok k fs /\ name = suffix_of k).
  { intros fs (Hi & En & _ & Ht). split; [|done]. split; [done|]. by rewrite Ht. }
  intros c [Hc ->]. revert c Hc.
  assert (spec (tmp_ok k) (let! _ := fs_write (root ++ [tmp_name k]) version in
    fs_rename (root ++ [tmp_name k]) (root ++ ["current"%string])) (fun _ => inside (k + 1)) (inside (k + 1))) as Hall.
  { apply (spec_bind _ _ (fun _ => tmp_ok k)); [|intros []; apply point_spec].
    eapply spec_post; [apply write_tmp_spec|done|by intros fs [Hi _]]. }
  exact Hall.
Qed.

(** ** The whole install *)

(** Before the directory is there. *)
Definition outside k fs : Prop :=
  ready fs /\ entries fs !! root = None /\ temp_counter fs = k /\ untouched fs0 fs.
Definition started k fs : Prop := inside k fs \/ outside k fs.

Lemma started_base k fs : started k fs -> anchored base fs.
Proof. intros [Hi|[Hr _]]; [apply (rd_base _ (in_ready _ _ Hi))|apply (rd_base _ Hr)]. Qed.

Lemma mkdir_base k p : p `prefix_of` base -> keeps_inv (started k) (mkdir p).
Proof.
  intros Hp. apply spec_step; [done|]. intros fs fs' Hst.
  pose proof (anchored_prefix _ _ _ (started_base _ _ Hst) Hp) as Ha.
  destruct p as [|y d _] using rev_ind; [done|]. destruct (anchored_entry _ _ _ Ha) as [m Em].
  rewrite locate_in, entry_at_snoc, Em; [done|]. eapply anchored_prefix; [exact Ha|]. by exists [y].
Qed.

Lemma make_dirs_base k l : rev l `prefix_of` base -> keeps_inv (started k) (make_dirs l).
Proof.
  induction l as [|x l IH]; intros Hp.
  - cbn. eapply spec_catch; [by apply mkdir_base|by intros []; apply spec_ret|].
    intros e. destruct e; try by apply spec_stop.
    all: eapply spec_bind; [by apply (spec_query _ _ (fun _ => started k))|].
    all: intros []; by (apply spec_ret || apply spec_stop).
  - assert (forall e, keeps_inv (started k)
      (let! there := query (fun fs => path_is_dir fs (rev (x :: l))) in
       if there : bool then ret tt else stop e)) as Hthere.
    { intros e. eapply spec_bind; [by apply (spec_query _ _ (fun _ => started k))|].
      intros []; by (apply spec_ret || apply spec_stop). }
    assert (keeps_inv (started k) (make_dirs l)) as Hup.
    { apply IH. etransitivity; [|exact Hp]. by exists [x]. }
    cbn [make_dirs]. eapply spec_catch; [by apply mkdir_base|by intros []; apply spec_ret|].
    intros e. destruct e; try apply Hthere.
    eapply spec_bind; [exact Hup|intros []]. eapply spec_catch; [by apply mkdir_base|by intros []; apply spec_ret|].
    intros e. apply Hthere.
Qed.

Lemma root_entry_at fs : entry_at fs root = entries fs !! root.
Proof. apply entry_at_snoc. Qed.

Lemma no_children_of_missing fs p : closed fs -> p <> [] -> entries fs !! p = None ->
  forall x, entries fs !! (p ++ [x]) = None.
Proof.
  intros Hc Hp E x. destruct (entries fs !! (p ++ [x])) eqn:Ex; [|done]. exfalso.
  destruct (Hc p x) as [?|[m Em]]; [by eexists|done|congruence].
Qed.

(** The directory is made. *)
Lemma outside_made k fs : outside k fs -> inside k (put_entry root (Dir 493) fs).
Proof.
  intros (Hr & E & Hn & Hf). pose proof Hr as [Hc Hb Hro Hv Hcu Hl Hfr].
  assert (root <> []) as Hne.
  { intros Eq. apply (f_equal length) in Eq. unfold root in Eq. rewrite length_app in Eq. cbn in Eq. lia. }
  assert (forall x, entries (put_entry root (Dir 493) fs) !! (root ++ [x]) = None) as Hnone.
  { intros x. rewrite put_entry_lookup, decide_False.
    - by apply no_children_of_missing.
    - intros Eq. apply (f_equal length) in Eq. rewrite length_app in Eq. cbn in Eq. lia. }
  assert (base = [] \/ is_dir fs base) as Hbase.
  { destruct (decide (base = [])) as [Eb|Eb]; [by left|right]. by apply Hb. }
  split; [split| |done|].
  - intros q y. rewrite put_entry_lookup. intros Hs.
    assert (q = [] \/ is_dir fs q) as Hq.
    { case_decide as Eq; [|by apply (Hc q y)]. apply app_inj_tail in Eq as [-> _]. done. }
    destruct Hq as [->|[m Em]]; [by left|right]. exists m. rewrite put_entry_lookup, decide_False; [done|].
    intros ->. congruence.
  - apply anchored_put; [|done]. apply long_prefix. unfold root. rewrite length_app. cbn. lia.
  - by rewrite put_entry_lookup, decide_True.
  - unfold may_dir. by rewrite Hnone.
  - intros [m Em]. by rewrite Hnone in Em.
  - by rewrite Hnone.
  - intros n _. by rewrite !Hnone.
  - exists 493%N. by rewrite put_entry_lookup, decide_True.
  - intros p Hp. destruct (Hf p Hp) as [Ep|Ep]; [|by right]. destruct (decide (p = root)) as [->|Hpr].
    + destruct (Hf root) as [Er|[_ Er]]; [by apply touched_prefix|right..]; (split; [done|congruence]).
    + left. by rewrite put_entry_lookup, decide_False.
Qed.

Lemma mkdir_root_spec k : spec (started k) (mkdir root) (fun _ => inside k) (started k).
Proof.
  apply spec_step; [done|]. intros fs fs' Hst. pose proof (started_base _ _ Hst) as Hb.
  assert (locate fs root = Ok root) as -> by by apply locate_in. rewrite root_entry_at.
  destruct Hst as [Hi|Ho].
  - destruct (in_root _ _ Hi) as [m ->]. done.
  - pose proof Ho as (Hr & -> & _). destruct (parent_writable fs root); [|done]. intros [= <-].
    by apply outside_made.
Qed.

Lemma root_there_spec k e : spec (started k)
  (let! there := query (fun fs => path_is_dir fs root) in if there : bool then ret tt else stop e)
  (fun _ => inside k) (started k).
Proof.
  eapply spec_bind.
  { apply (spec_query _ _ (fun there fs => started k fs /\ there = path_is_dir fs root)). by split. }
  intros there. destruct there; [|by apply spec_stop; intros fs [? _]]. apply spec_ret.
  intros fs [[Hi|Ho] Ht]; [done|]. exfalso. destruct Ho as (Hr & E & _).
  unfold path_is_dir, metadata, root in Ht. rewrite follow_in in Ht by apply (rd_base _ Hr).
  fold root in Ht. by rewrite E in Ht.
Qed.

Lemma create_root_spec k : spec (started k) (create_dir_all root) (fun _ => inside k) (started k).
Proof.
  unfold create_dir_all. assert (rev root = lib :: rev base) as -> by apply rev_unit.
  cbn [make_dirs]. assert (rev (lib :: rev base) = root) as -> by (cbn; by rewrite rev_involutive).
  eapply spec_catch; [apply mkdir_root_spec|by intros []; apply spec_ret|].
  intros e. destruct e; try apply root_there_spec.
  apply (spec_bind _ _ (fun _ => started k)).
  { apply make_dirs_base. by rewrite rev_involutive. }
  intros []. eapply spec_catch; [apply mkdir_root_spec|by intros []; apply spec_ret|].
  intros e. apply root_there_spec.
Qed.

(** Whatever fails: what is left is ready again, and nothing else was touched. *)
Lemma install_spec k : (k + 1 < u64_max)%N ->
  spec (started k) (install_versioned root)
    (fun _ fs => exists k', (k' <= k + 2)%N /\ started k' fs) (fun fs => exists k', (k' <= k + 2)%N /\ started k' fs).
Proof.
  intros Hk.
  assert (forall k' fs, (k' <= k + 2)%N -> inside k' fs -> exists k', (k' <= k + 2)%N /\ started k' fs) as Hin.
  { intros k' fs Hle Hi. exists k'. split; [done|by left]. }
  unfold install_versioned, install_versioned_with.
  eapply spec_bind.
  { eapply spec_post; [apply create_root_spec|done|]. intros fs Hst. exists k. split; [lia|done]. }
  intros []. eapply spec_bind.
  { eapply spec_post; [apply acquire_spec|done|]. intros fs Hi. eapply Hin; [|exact Hi]. lia. }
  intros []. eapply spec_bind; [by apply (spec_query _ _ (fun _ => inside k))|]. intros intact.
  apply (spec_bind _ _ (fun _ fs => exists k', (k' <= k + 1)%N /\ inside k' fs)).
  { destruct intact.
    - apply spec_ret. intros fs Hi. exists k. split; [lia|done].
    - eapply spec_post; [apply reinstall_spec; lia|..].
      + intros [] fs Hi. exists (k + 1)%N. split; [lia|done].
      + intros fs [Hi|Hi]; (eapply Hin; [|exact Hi]; lia). }
  intros [] c (k' & Hle & Hi).
  assert (spec (inside k') (let! _ := set_current root VERSION in ret (root ++ [VERSION]))
    (fun _ fs => exists k', (k' <= k + 2)%N /\ started k' fs)
    (fun fs => exists k', (k' <= k + 2)%N /\ started k' fs)) as Hset; [|exact (Hset c Hi)].
  eapply spec_bind.
  - eapply spec_post; [apply set_current_spec; lia|done|]. intros fs Hfs. eapply Hin; [|exact Hfs]. lia.
  - intros []. apply spec_ret. intros fs Hfs. eapply Hin; [|exact Hfs]. lia.
Qed.
End recover.

(** *** The result of an install, whatever fails *)

Section any_install.
Context `{Library} `{Digest} `{ProcessStamp} `{LockWait}.

Lemma install_keeps_ready base lib fs script :
  well_named -> ready base lib fs -> (temp_counter fs + 1 < u64_max)%N ->
  let fs' := tables (install_versioned (base ++ [lib]) (mkConn fs script)).1 in
  ready base lib fs' /\ (temp_counter fs' <= temp_counter fs + 2)%N /\ untouched base lib fs fs'.
Proof.
  intros Hn Hr Hk. cbv zeta.
  assert (started base lib fs (temp_counter fs) fs) as Hst.
  { pose proof (rd_root _ _ _ Hr) as Hro.
    destruct (entries fs !! (base ++ [lib])) as [[m|m data|t|]|] eqn:E; try done.
    - left. split; [done|by exists m|done|]. intros p _. by left.
    - right. split_and!; [done|done|done|]. intros p _. by left. }
  pose proof (install_spec base lib fs Hn (temp_counter fs) Hk (mkConn fs script) Hst) as Hi.
  destruct (install_versioned _ _) as [c [a|e]]; cbn;
    (destruct Hi as (k' & Hle & [Hi|(Hr' & _ & Hc & Hf)]);
      [split_and!; [apply Hi|by rewrite (in_counter _ _ _ _ _ Hi)|apply (in_frame _ _ _ _ _ Hi)]
      |split_and!; [done|by rewrite Hc|done] ]).
Qed.
End any_install.
