(* ===== verification/SkillInstall.v ===== *)
(** * The skill library: installing

    An install in which no operation fails ends with the embedded library in place,
    whatever was there; one that fails at any point leaves a tree from which the
    next one succeeds. *)

From Stdlib Require Import Ascii.
From Stdlib Require String.
From S2P Require Import Prelude Text StoreApi Sql Hub Membership BlobFiles BlobFacts Skills SkillFacts.
From S2P Require Import SkillRecover.

Open Scope loca_scope.

(** ** The embedded archives and their manifests *)

(** A directory on the way to [p]. *)
Definition above (d p : Path) : Prop := d <> [] /\ exists x r, p = d ++ x :: r.

Lemma elem_of_ancestors d p : d ∈ ancestors p <-> above d p.
Proof.
  unfold ancestors, above. rewrite list_elem_of_fmap. split.
  - intros (n & -> & Hn). apply list_elem_of_In, in_rev, in_seq in Hn.
    destruct (drop n p) as [|x r] eqn:E.
    { apply (f_equal length) in E. rewrite length_drop in E. cbn in E. lia. }
    split.
    + intros E'. apply (f_equal length) in E'. rewrite length_take in E'. cbn in E'. lia.
    + exists x, r. by rewrite <- E, take_drop.
  - intros (Hne & x & r & ->). exists (length d). split; [by rewrite take_app_length|].
    apply list_elem_of_In, in_rev. rewrite rev_involutive. apply in_seq.
    rewrite length_app. destruct d; [done|]. cbn. lia.
Qed.

Section library.
Context `{Library} `{Digest}.
Implicit Types (files : FileMap) (dirs : DirSet) (fs : Files).

(** The directories are those above the files. *)
Definition dirs_of files dirs : Prop :=
  forall d, d ∈ dirs <-> exists p, is_Some (files !! p) /\ above d p.

Lemma expect_files_dirs l : forall files dirs files' dirs',
  dirs_of files dirs -> expect_files l files dirs = Ok (files', dirs') -> dirs_of files' dirs'.
Proof.
  induction l as [|[[name|] sha] l IH]; intros files dirs files' dirs' Hd; cbn;
    [by intros [= <- <-]| |done].
  destruct sha as [sha|]; [|done]. cbn. apply IH. intros d.
  rewrite elem_of_union, elem_of_list_to_set, elem_of_ancestors, (Hd d). split.
  - intros [Ha|(p & Hp & Ha)]; [exists (path_of name); by rewrite lookup_insert_eq|].
    exists p. split; [|done]. destruct (decide (p = path_of name)) as [->|];
      [by rewrite lookup_insert_eq|by rewrite lookup_insert_ne].
  - intros (p & Hp & Ha). destruct (decide (p = path_of name)) as [->|]; [by left|right].
    rewrite lookup_insert_ne in Hp by done. by exists p.
Qed.

Lemma expect_bundles_dirs l : forall files dirs files' dirs',
  dirs_of files dirs -> expect_bundles l files dirs = Ok (files', dirs') -> dirs_of files' dirs'.
Proof.
  induction l as [|b l IH]; intros files dirs files' dirs' Hd; cbn; [by intros [= <- <-]|].
  destruct (manifest_files (b_manifest b)) as [m|e]; [|done].
  destruct m as [listed|]; [|done]. cbn.
  destruct (expect_files listed files dirs) as [[files1 dirs1]|e] eqn:E; [|done].
  apply IH. by eapply expect_files_dirs.
Qed.

Lemma expected_dirs files dirs : expected_entries = Ok (files, dirs) -> dirs_of files dirs.
Proof.
  apply expect_bundles_dirs. intros d. split; [set_solver|].
  intros (p & Hp & _). rewrite lookup_empty in Hp. by destruct Hp.
Qed.

(** A good entry of an archive: a listed file with the bytes of its hash, or a
    directory above listed files. *)
Definition good_zip_entry files dirs (e : result ZipEntry io_error) : Prop :=
  exists z rel, e = Ok z /\ ze_name z = Some rel
    /\ if ze_is_dir z then rel ∈ dirs
       else exists data, ze_data z = Ok data /\ files !! rel = Some (sha_hex data).

(** What the build promises: the manifests can be read and tell files from
    directories, every archive holds good entries, and every listed file is in one. *)
Record coherent files dirs : Prop := {
  co_expected : expected_entries = Ok (files, dirs);
  co_named : files !! [] = None;
  co_apart : forall p, p ∈ dirs -> files !! p = None;
  co_archives : forall b, b ∈ BUNDLES -> exists l, zip_archive (b_zip b) = Ok l
    /\ forall e, e ∈ l -> good_zip_entry files dirs e;
  co_complete : forall p, is_Some (files !! p) -> exists b l z,
    b ∈ BUNDLES /\ zip_archive (b_zip b) = Ok l /\ Ok z ∈ l /\ ze_name z = Some p /\ ze_is_dir z = false;
}.

(** ** Loops over what may come in any order *)

Definition grows fs fs' : Prop :=
  forall p, is_Some (entries fs !! p) -> is_Some (entries fs' !! p).

#[local] Instance grows_preorder : PreOrder grows.
Proof. split; [by intros fs p|intros a b c Hab Hbc p Hp; by apply Hbc, Hab]. Qed.

Lemma leads_all {A} (P : Files -> Prop) (G : A -> Files -> Prop) (f : A -> Io unit) l :
  (forall x fs fs', G x fs -> grows fs fs' -> G x fs') ->
  (forall x fs, x ∈ l -> P fs -> exists fs', leads (f x) fs tt fs' /\ P fs' /\ grows fs fs' /\ G x fs') ->
  forall fs, P fs -> exists fs', leads (for_each f l) fs tt fs' /\ P fs' /\ grows fs fs'
    /\ forall x, x ∈ l -> G x fs'.
Proof.
  intros Hg. induction l as [|x l IH]; intros Hf fs HP.
  { exists fs. split_and!; [apply leads_ret|done|done|]. by intros x ?%elem_of_nil. }
  destruct (Hf x fs) as (fs1 & H1 & HP1 & Hgr & HG); [by left|done|].
  destruct IH with (fs := fs1) as (fs2 & H2 & HP2 & Hgr2 & HG2); [|done|].
  { intros y fs' Hy. apply Hf. by right. }
  exists fs2. split_and!; [by eapply leads_bind|done|by etransitivity|].
  intros y [->|Hy]%elem_of_cons; [by eapply Hg|by apply HG2].
Qed.

(** ** Unpacking *)

Section unpack.
Variables (files : FileMap) (dirs : DirSet) (up : Path) (s : string) (fs0 : Files).
Hypothesis Hco : coherent files dirs.
Let staging : Path := up ++ [s].

(** A tree in the making: below [staging] directories and listed files only, all of
    which can be written, and everything else as it was. *)
Record unpacking (fs : Files) : Prop := {
  un_closed : closed fs;
  un_anchored : anchored up fs;
  un_staging : exists m, entries fs !! staging = Some (Dir m) /\ owner_write m = true;
  un_inside : forall r e, r <> [] -> entries fs !! (staging ++ r) = Some e ->
    match e with
    | Dir m => owner_write m = true /\ r ∈ dirs
    | Reg m data => owner_write m = true /\ files !! r = Some (sha_hex data)
    | _ => False
    end;
  un_outside : forall p, under staging p = false -> entries fs !! p = entries fs0 !! p;
  un_counter : temp_counter fs = temp_counter fs0;
}.

Lemma dirs_up r x : r ++ [x] ∈ dirs -> r = [] \/ r ∈ dirs.
Proof.
  pose proof (expected_dirs _ _ (co_expected _ _ Hco)) as Hd. rewrite (Hd (r ++ [x])), (Hd r).
  intros (p & Hp & _ & y & t & ->). destruct r as [|z r]; [by left|right].
  eexists. split; [exact Hp|]. split; [done|]. exists x, (y :: t). by rewrite <- app_assoc.
Qed.

Lemma files_up r x : is_Some (files !! (r ++ [x])) -> r = [] \/ r ∈ dirs.
Proof.
  pose proof (expected_dirs _ _ (co_expected _ _ Hco)) as Hd. rewrite (Hd r). intros Hp.
  destruct r as [|z r]; [by left|right]. eexists. split; [exact Hp|]. split; [done|]. by exists x, [].
Qed.

Section step.
Variable fs : Files.
Hypothesis Hun : unpacking fs.

Lemma unpacking_anchored r : is_dir fs (staging ++ r) -> anchored (staging ++ r) fs.
Proof. intros Hd. apply closed_dir_anchored; [apply Hun|by right]. Qed.

Lemma staging_is_dir : is_dir fs staging.
Proof. destruct (un_staging _ Hun) as (m & E & _). by exists m. Qed.

Lemma inside_writable r : is_dir fs (staging ++ r) ->
  forall x, parent_writable fs (staging ++ r ++ [x]) = true.
Proof.
  intros [m Em] x. rewrite app_assoc, parent_writable_snoc.
  assert (entry_at fs (staging ++ r) = Some (Dir m)) as ->.
  { unfold entry_at. destruct (staging ++ r) eqn:E; [|done].
    apply (f_equal length) in E. unfold staging in E. rewrite !length_app in E. cbn in E. lia. }
  destruct r as [|y r].
  - rewrite app_nil_r in Em. destruct (un_staging _ Hun) as (m' & E & Hw). rewrite E in Em. by simplify_eq.
  - apply (un_inside _ Hun) in Em as [? _]; done.
Qed.

(** A new entry in a directory of the tree. *)
Lemma unpacking_put r x e :
  is_dir fs (staging ++ r) ->
  match e with
  | Dir m => owner_write m = true /\ r ++ [x] ∈ dirs /\ (is_Some (entries fs !! (staging ++ r ++ [x])) ->
                                                          is_dir fs (staging ++ r ++ [x]))
  | Reg m data => owner_write m = true /\ files !! (r ++ [x]) = Some (sha_hex data)
  | _ => False
  end ->
  unpacking (put_entry (staging ++ r ++ [x]) e fs).
Proof.
  intros Hd He. set (p := staging ++ r ++ [x]).
  assert (Hfile : forall m data, e = Reg m data -> ~ is_dir fs p).
  { intros m data -> [m' Em]. unfold p in Em. apply (un_inside _ Hun) in Em as [_ Hin]; [|by destruct r].
    destruct He as [_ He]. rewrite (co_apart _ _ Hco) in He by done. done. }
  assert (forall q, is_dir fs q -> is_dir (put_entry p e fs) q) as Hkeep.
  { intros q [m Em]. unfold is_dir. rewrite put_entry_lookup. case_decide as E; [subst q|by exists m].
    destruct e as [m' | m' data| |]; [by exists m'| |done|done].
    exfalso. apply (Hfile m' data); [done|]. by exists m. }
  split.
  - intros q y. rewrite put_entry_lookup. case_decide as E.
    + intros _. right. apply Hkeep. unfold p in E. rewrite app_assoc in E.
      by apply app_inj_tail in E as [-> _].
    + intros [->|Hq]%(un_closed _ Hun); [by left|right; by apply Hkeep].
  - intros q Hq Hne. by apply Hkeep, (un_anchored _ Hun).
  - destruct (un_staging _ Hun) as (m & E & Hw). exists m. rewrite put_entry_lookup, decide_False; [done|].
    intros E'. apply (f_equal length) in E'. unfold p in E'. rewrite !length_app in E'. cbn in E'. lia.
  - intros q e' Hq. rewrite put_entry_lookup. case_decide as E; [|by apply (un_inside _ Hun)].
    unfold p in E. apply app_inv_head in E as ->. intros [= <-]. destruct e; tauto.
  - intros q Hq. rewrite put_entry_lookup, decide_False; [by apply (un_outside _ Hun)|].
    intros ->. unfold p in Hq. by rewrite under_app in Hq.
  - apply (un_counter _ Hun).
Qed.

Lemma grows_put p e : grows fs (put_entry p e fs).
Proof. intros q Hq. rewrite put_entry_lookup. by case_decide. Qed.

(** A directory of the library is there, or no path through it leads anywhere. *)
Lemma dir_or_nothing r : r = [] \/ r ∈ dirs ->
  is_dir fs (staging ++ r)
  \/ forall more, walk fs LINKS_MAX [] ((staging ++ r) ++ more) = Err NotFound.
Proof.
  induction r as [|x r IH] using rev_ind; intros Hr.
  { left. rewrite app_nil_r. apply staging_is_dir. }
  destruct Hr as [Hr|Hr]; [by destruct r|]. destruct (IH (dirs_up r x Hr)) as [Hd|Hn].
  - destruct (entries fs !! (staging ++ r ++ [x])) as [e|] eqn:E.
    + left. pose proof (un_inside _ Hun (r ++ [x]) e) as Hin.
      assert (r ++ [x] <> []) as Hne by by destruct r. specialize (Hin Hne E).
      destruct e as [m|m data|t|]; [by exists m| |done|done]. exfalso.
      destruct Hin as [_ Hf]. by rewrite (co_apart _ _ Hco) in Hf.
    + right. intros more. rewrite app_assoc, <- (app_assoc (staging ++ r)).
      rewrite walk_through by by apply unpacking_anchored.
      cbn [app]. rewrite walk_cons, entry_at_snoc, <- app_assoc, E. done.
  - right. intros more. rewrite app_assoc, <- (app_assoc (staging ++ r)). apply Hn.
Qed.
End step.

Lemma mkdir_there fs p x : anchored p fs -> is_dir fs (p ++ [x]) ->
  mkdir (p ++ [x]) (mkConn fs []) = (mkConn fs [], Err AlreadyExists)
  /\ path_is_dir fs (p ++ [x]) = true.
Proof.
  intros Ha [m Em]. split.
  - apply step_fails. by rewrite locate_in, entry_at_snoc, Em.
  - unfold path_is_dir. by rewrite (metadata_in _ _ _ _ Ha Em).
Qed.

(** [create_dir_all] of a directory that is there. *)
Lemma make_dirs_there fs p x : anchored p fs -> is_dir fs (p ++ [x]) ->
  leads (make_dirs (rev (p ++ [x]))) fs tt fs.
Proof.
  intros Ha Hd. destruct (mkdir_there fs p x Ha Hd) as [Hmk Hthere].
  rewrite rev_unit. unfold leads. cbn -[rev mkdir]. unfold catch.
  rewrite <- rev_unit, rev_involutive, Hmk. cbn. by rewrite Hthere.
Qed.

(** One that is missing where it can be made. *)
Lemma make_dirs_missing fs p x : anchored p fs -> entries fs !! (p ++ [x]) = None ->
  parent_writable fs (p ++ [x]) = true ->
  leads (make_dirs (rev (p ++ [x]))) fs tt (put_entry (p ++ [x]) (Dir 493) fs).
Proof.
  intros Ha E Hp. rewrite rev_unit. unfold leads. cbn -[rev mkdir].
  rewrite <- rev_unit, rev_involutive. eapply leads_catch; [|apply leads_ret].
  apply leads_step. by rewrite locate_in, entry_at_snoc, E, Hp.
Qed.

(** One below a missing one. *)
Lemma make_dirs_deep fs p x fs1 fs2 :
  locate fs (p ++ [x]) = Err NotFound ->
  leads (make_dirs (rev p)) fs tt fs1 ->
  mkdir (p ++ [x]) (mkConn fs1 []) = (mkConn fs2 [], Ok tt)
  \/ fs2 = fs1 /\ mkdir (p ++ [x]) (mkConn fs1 []) = (mkConn fs1 [], Err AlreadyExists)
       /\ path_is_dir fs1 (p ++ [x]) = true ->
  leads (make_dirs (rev (p ++ [x]))) fs tt fs2.
Proof.
  intros Hl Hup Hmk. rewrite rev_unit. unfold leads. cbn -[rev mkdir].
  rewrite <- rev_unit, rev_involutive. unfold catch at 1.
  assert (mkdir (p ++ [x]) (mkConn fs []) = (mkConn fs [], Err NotFound)) as ->
    by (apply step_fails; by rewrite Hl).
  eapply leads_bind; [exact Hup|]. unfold leads, catch. destruct Hmk as [->|(-> & -> & Hd)]; [done|].
  cbn. by rewrite Hd.
Qed.

Lemma locate_not_found fs p x :
  (forall more, walk fs LINKS_MAX [] (p ++ more) = Err NotFound) -> locate fs (p ++ [x]) = Err NotFound.
Proof. intros Hw. unfold locate. rewrite split_last_snoc. specialize (Hw []). rewrite app_nil_r in Hw. by rewrite Hw. Qed.

Lemma create_dir_all_unpacking r : r = [] \/ r ∈ dirs -> forall fs, unpacking fs ->
  exists fs', leads (create_dir_all (staging ++ r)) fs tt fs' /\ unpacking fs' /\ grows fs fs'
    /\ is_dir fs' (staging ++ r).
Proof.
  unfold create_dir_all. induction r as [|x r IH] using rev_ind; intros Hr fs Hun.
  { exists fs. rewrite app_nil_r. split_and!; [|done|done|by apply staging_is_dir].
    apply make_dirs_there; [apply Hun|by apply staging_is_dir]. }
  destruct Hr as [Hr|Hr]; [by destruct r|]. pose proof (dirs_up r x Hr) as Hup.
  assert (forall fs, unpacking fs -> is_Some (entries fs !! (staging ++ r ++ [x])) ->
    is_dir fs (staging ++ r ++ [x])) as Hthere.
  { intros fs' Hun' [e E]. pose proof (un_inside _ Hun' (r ++ [x]) e) as Hin.
    assert (r ++ [x] <> []) as Hne by by destruct r. specialize (Hin Hne E).
    destruct e as [m|m data|t|]; [by exists m| |done|done]. exfalso.
    destruct Hin as [_ Hf]. by rewrite (co_apart _ _ Hco) in Hf. }
  assert (forall fs, unpacking fs -> is_dir fs (staging ++ r) ->
    exists fs', unpacking fs' /\ grows fs fs' /\ is_dir fs' (staging ++ r ++ [x]) /\
      (mkdir (staging ++ r ++ [x]) (mkConn fs []) = (mkConn fs' [], Ok tt)
       \/ fs' = fs /\ mkdir (staging ++ r ++ [x]) (mkConn fs []) = (mkConn fs [], Err AlreadyExists)
            /\ path_is_dir fs (staging ++ r ++ [x]) = true)) as Hmk.
  { intros fs1 Hun1 Hd. pose proof (unpacking_anchored fs1 Hun1 r Hd) as Ha.
    destruct (entries fs1 !! (staging ++ r ++ [x])) as [e|] eqn:E.
    - exists fs1. assert (is_dir fs1 (staging ++ r ++ [x])) as Hd' by (apply Hthere; [done|by rewrite E]).
      split_and!; [done|done|done|]. right. split; [done|]. rewrite app_assoc in Hd' |- *.
      by apply mkdir_there.
    - exists (put_entry (staging ++ r ++ [x]) (Dir 493) fs1). split_and!.
      + apply unpacking_put; [done|done|]. split_and!; [done|done|]. rewrite E. by intros [].
      + apply grows_put.
      + exists 493%N. by rewrite put_entry_lookup, decide_True.
      + left. pose proof (inside_writable fs1 Hun1 r Hd x) as Hpw. rewrite app_assoc in Hpw, E |- *.
        apply leads_step. by rewrite locate_in, entry_at_snoc, E, Hpw. }
  destruct (dir_or_nothing fs Hun r Hup) as [Hd|Hn].
  - destruct (Hmk fs Hun Hd) as (fs' & Hun' & Hg & Hd' & [Hm|(-> & Hm & Hp)]).
    + exists fs'. split_and!; [|done|done|done]. rewrite app_assoc in Hm |- *. rewrite rev_unit.
      unfold leads. cbn -[rev mkdir]. rewrite <- rev_unit, rev_involutive.
      eapply leads_catch; [exact Hm|apply leads_ret].
    + exists fs. split_and!; [|done|done|done]. rewrite app_assoc in Hd' |- *.
      apply make_dirs_there; [|done]. by apply unpacking_anchored.
  - destruct (IH Hup fs Hun) as (fs1 & Hl1 & Hun1 & Hg1 & Hd1).
    destruct (Hmk fs1 Hun1 Hd1) as (fs' & Hun' & Hg & Hd' & Hm). exists fs'.
    split_and!; [|done|by etransitivity|done]. rewrite app_assoc in Hm |- *.
    eapply make_dirs_deep; [by apply locate_not_found|exact Hl1|exact Hm].
Qed.

Lemma open_write_leads fs d x truncate : anchored d fs ->
  match entries fs !! (d ++ [x]) with
  | None => parent_writable fs (d ++ [x]) = true
  | Some (Reg mode _) => owner_write mode = true
  | _ => False
  end ->
  leads (open_write (d ++ [x]) truncate) fs tt
    (put_entry (d ++ [x])
       match entries fs !! (d ++ [x]) with
       | Some (Reg mode data) => Reg mode (if truncate then "" else data)
       | _ => Reg 420 ""
       end fs).
Proof.
  intros Ha Hok. apply leads_step. rewrite open_at_in, entry_at_snoc by done.
  by destruct (entries fs !! (d ++ [x])) as [[]|].
Qed.

Lemma anchored_put_file d x e fs : anchored d fs -> anchored d (put_entry (d ++ [x]) e fs).
Proof. apply anchored_put, long_prefix. rewrite length_app. cbn. lia. Qed.

Lemma fs_write_leads fs d x bytes : anchored d fs ->
  match entries fs !! (d ++ [x]) with
  | None => parent_writable fs (d ++ [x]) = true
  | Some (Reg mode _) => owner_write mode = true
  | _ => False
  end ->
  leads (fs_write (d ++ [x]) bytes) fs tt
    (put_entry (d ++ [x])
       (Reg match entries fs !! (d ++ [x]) with Some (Reg mode _) => mode | _ => 420%N end bytes) fs).
Proof.
  intros Ha Hok. eapply leads_bind; [by apply open_write_leads|]. apply leads_step.
  rewrite follow_in by by apply anchored_put_file. rewrite put_entry_lookup, decide_True by done.
  destruct (entries fs !! (d ++ [x])) as [[]|] eqn:E; try done;
    by rewrite entry_at_snoc, put_entry_lookup, decide_True, put_put.
Qed.

Lemma write_unpacking fs r x data :
  unpacking fs -> is_dir fs (staging ++ r) -> files !! (r ++ [x]) = Some (sha_hex data) ->
  exists fs', leads (fs_write (staging ++ r ++ [x]) data) fs tt fs' /\ unpacking fs' /\ grows fs fs'
    /\ is_Some (entries fs' !! (staging ++ r ++ [x])).
Proof.
  intros Hun Hd Hf. eexists. split_and!.
  - rewrite app_assoc. apply fs_write_leads; [by apply unpacking_anchored|]. rewrite <- app_assoc.
    destruct (entries fs !! (staging ++ r ++ [x])) as [e|] eqn:E; [|by apply inside_writable].
    apply (un_inside _ Hun) in E; [|by destruct r]. destruct e as [m|m old|t|]; try done.
    + destruct E as [_ E]. by rewrite (co_apart _ _ Hco) in Hf.
    + apply E.
  - rewrite <- app_assoc. apply unpacking_put; [done|done|]. split; [|done].
    destruct (entries fs !! (staging ++ r ++ [x])) as [[]|] eqn:E; try done.
    by apply (un_inside _ Hun) in E as [? _]; [|destruct r].
  - apply grows_put.
  - rewrite <- app_assoc, put_entry_lookup, decide_True by done. done.
Qed.

(** Whether the file of an entry is there. *)
Definition entry_unpacked (e : result ZipEntry io_error) fs : Prop :=
  forall z rel, e = Ok z -> ze_name z = Some rel -> is_Some (entries fs !! (staging ++ rel)).

Lemma extract_entry_unpacking e fs : good_zip_entry files dirs e -> unpacking fs ->
  exists fs', leads (extract_entry staging e) fs tt fs' /\ unpacking fs' /\ grows fs fs'
    /\ entry_unpacked e fs'.
Proof.
  intros (z & rel & -> & Hname & Hz) Hun.
  assert (forall fs', is_Some (entries fs' !! (staging ++ rel)) -> entry_unpacked (Ok z) fs') as Hdone.
  { intros fs' Hs z' rel' [= <-] Hn. rewrite Hname in Hn. by injection Hn as <-. }
  assert (forall fs' (Q : Prop), leads
     (if ze_is_dir z then create_dir_all (staging ++ rel)
      else
        let! _ := match split_last (staging ++ rel) with
                  | Some (parent, _) => create_dir_all parent
                  | None => ret tt
                  end in
        let! buf := give (ze_data z) in fs_write (staging ++ rel) buf) fs tt fs' ->
    leads (extract_entry staging (Ok z)) fs tt fs') as Hto.
  { intros fs' _ Hl. unfold extract_entry. apply leads_give. rewrite Hname. apply leads_give.
    by rewrite under_app. }
  destruct (ze_is_dir z).
  - destruct (create_dir_all_unpacking rel (or_intror Hz) fs Hun) as (fs' & Hl & Hun' & Hg & [m Em]).
    exists fs'. split_and!; [by apply (Hto _ True)|done|done|]. apply Hdone. by exists (Dir m).
  - destruct Hz as (data & Hdata & Hf). destruct rel as [|x r _] using rev_ind.
    { by rewrite (co_named _ _ Hco) in Hf. }
    destruct (create_dir_all_unpacking r) with (fs := fs) as (fs1 & Hl1 & Hun1 & Hg1 & Hd1);
      [eapply files_up; by eexists|done|].
    destruct (write_unpacking fs1 r x data Hun1 Hd1 Hf) as (fs' & Hl & Hun' & Hg & Hs).
    exists fs'. split_and!; [|done|by etransitivity|by apply Hdone]. apply (Hto _ True).
    rewrite app_assoc, split_last_snoc, <- app_assoc. eapply leads_bind; [exact Hl1|].
    rewrite Hdata. by apply leads_give.
Qed.

Lemma entry_unpacked_grows e fs fs' : entry_unpacked e fs -> grows fs fs' -> entry_unpacked e fs'.
Proof. intros He Hg z rel Ez Hn. by eapply Hg, He. Qed.

Lemma extract_one_unpacking b fs : b ∈ BUNDLES -> unpacking fs ->
  exists fs', leads (extract_one b staging) fs tt fs' /\ unpacking fs' /\ grows fs fs'
    /\ forall l e, zip_archive (b_zip b) = Ok l -> e ∈ l -> entry_unpacked e fs'.
Proof.
  intros Hb Hun. destruct (co_archives _ _ Hco b Hb) as (l & El & Hl).
  destruct (leads_all unpacking entry_unpacked (extract_entry staging) l) with (fs := fs)
    as (fs' & Hr & Hun' & Hg & Hall); [by apply entry_unpacked_grows| |done|].
  { intros e fs1 He Hun1. apply extract_entry_unpacking; [by apply Hl|done]. }
  exists fs'. split_and!; [|done|done|].
  - unfold extract_one, extract_zip. rewrite El. by apply leads_give.
  - intros l' e El' He. rewrite El in El'. injection El' as <-. by apply Hall.
Qed.

(** Every listed file is there. *)
Lemma extract_bundles_unpacking fs : unpacking fs ->
  exists fs', leads (for_each (fun b => extract_one b staging) BUNDLES) fs tt fs' /\ unpacking fs'
    /\ forall p, is_Some (files !! p) -> is_Some (entries fs' !! (staging ++ p)).
Proof.
  intros Hun. destruct (leads_all unpacking
    (fun b fs => forall l e, zip_archive (b_zip b) = Ok l -> e ∈ l -> entry_unpacked e fs)
    (fun b => extract_one b staging) BUNDLES) with (fs := fs) as (fs' & Hr & Hun' & _ & Hall); [| |done|].
  - intros b fs1 fs2 Hb Hg l e El He. eapply entry_unpacked_grows; [by eapply Hb|done].
  - intros b fs1 Hb Hun1. by apply extract_one_unpacking.
  - exists fs'. split_and!; [done|done|]. intros p Hp.
    destruct (co_complete _ _ Hco p Hp) as (b & l & z & Hb & El & Hz & Hn & _).
    by apply (Hall b Hb l (Ok z) El Hz z p).
Qed.

(** The library as it is staged: with the right content and locked but for nothing. *)
Definition staged fs : Prop :=
  closed fs /\ anchored up fs
  /\ (exists m, entries fs !! staging = Some (Dir m))
  /\ holds_exactly fs staging files dirs
  /\ (forall p, under staging p = false -> entries fs !! p = entries fs0 !! p)
  /\ temp_counter fs = temp_counter fs0.

Lemma unpacked_holds fs :
  unpacking fs -> (forall p, is_Some (files !! p) -> is_Some (entries fs !! (staging ++ p))) ->
  holds_exactly (remode true (under staging) fs) staging files dirs.
Proof.
  intros Hun Hall rel.
  pose proof (expected_dirs _ _ (co_expected _ _ Hco)) as Hdirs.
  destruct rel as [|x rel].
  { split; [apply (co_named _ _ Hco)|]. rewrite (Hdirs []). by intros (p & _ & Hne & _). }
  set (r := x :: rel). rewrite remode_lookup, under_app.
  destruct (entries fs !! (staging ++ r)) as [e|] eqn:E; cbn [fmap option_fmap option_map].
  - apply (un_inside _ Hun) in E; [|done]. destruct e as [m|m data|t|]; try done; cbn.
    + destruct E as [_ E]. split_and!; [apply readonly_of_ldiff|done|by apply (co_apart _ _ Hco)].
    + destruct E as [_ E]. split_and!; [apply readonly_of_ldiff|done|].
      intros Hd%(co_apart _ _ Hco). congruence.
  - split.
    + destruct (files !! r) as [sha|] eqn:Ef; [|done]. destruct (Hall r) as [e Ee]; [by eexists|]. congruence.
    + rewrite (Hdirs r). intros (p & Hp & _ & y & t & ->). specialize (Hall _ Hp).
      rewrite app_assoc in Hall. destruct (closed_above fs (staging ++ r) (y :: t)) as [?|[m Em]]; try done.
      * apply Hun.
      * by destruct staging.
      * congruence.
Qed.

Lemma extract_all_staged fs : unpacking fs ->
  exists fs', leads (extract_all staging) fs tt fs' /\ staged fs'.
Proof.
  intros Hun. destruct (extract_bundles_unpacking fs Hun) as (fs1 & Hl & Hun1 & Hall).
  destruct (un_staging _ Hun1) as (m & Em & Hw).
  exists (remode true (under staging) fs1). split.
  - eapply leads_bind; [exact Hl|]. apply leads_query. eapply make_readonly_leads.
    + apply Hun1.
    + apply bounded_tree_depth.
    + exact Em.
    + intros p e [r ->]%under_true E. destruct r as [|x r].
      * rewrite app_nil_r in E. fold staging in E. rewrite Em in E. by injection E as <-.
      * apply (un_inside _ Hun1) in E; [|done]. by destruct e.
    + rewrite length_app. cbn. lia.
  - split_and!.
    + apply remode_closed, Hun1.
    + apply remode_anchored, Hun1.
    + exists (readonly_mode true m). by rewrite remode_lookup, Em, under_refl.
    + by apply unpacked_holds.
    + intros p Hp. rewrite remode_lookup, Hp. rewrite <- (un_outside _ Hun1) by done.
      by destruct (entries fs1 !! p).
    + apply (un_counter _ Hun1).
Qed.
End unpack.
End library.

(** ** An install in which nothing fails *)

Lemma leads_spec {A} (m : Io A) fs a fs' P Q R : leads m fs a fs' -> spec P m Q R -> P fs -> Q a fs'.
Proof. intros Hl Hm HP. specialize (Hm (mkConn fs []) HP). by rewrite Hl in Hm. Qed.

Section heal.
Context `{Library} `{Digest} `{ProcessStamp} `{LockWait}.
Variables (files : FileMap) (dirs : DirSet) (base : Path) (lib : string) (fs0 : Files).
Hypothesis Hco : coherent files dirs.
Hypothesis Hlock : try_lock 0 = Locked.
Let root : Path := base ++ [lib].
Let version_dir : Path := root ++ [VERSION].
Abbreviation inside := (inside base lib fs0).
Abbreviation making := (making base lib fs0).

Lemma coherent_named : well_named.
Proof.
  intros b l z Hb El Hz En. destruct (co_archives _ _ Hco b Hb) as (l' & El' & Hl).
  rewrite El in El'. injection El' as <-. destruct (Hl _ Hz) as (z' & rel & [= <-] & En' & Hg).
  rewrite En in En'. injection En' as <-. destruct (ze_is_dir z).
  - apply (expected_dirs _ _ (co_expected _ _ Hco)) in Hg as (p & _ & Hne & _). done.
  - destruct Hg as (data & _ & Hf). by rewrite (co_named _ _ Hco) in Hf.
Qed.

Lemma create_root_leads k fs : started base lib fs0 k fs ->
  exists fs', leads (create_dir_all root) fs tt fs' /\ inside k fs'.
Proof.
  intros Hst. assert (exists fs', leads (create_dir_all root) fs tt fs') as [fs' Hl].
  { destruct Hst as [Hi|(Hr & E & _)].
    - exists fs. apply make_dirs_there; [apply (rd_base _ _ _ (in_ready _ _ _ _ _ Hi))|apply (in_root _ _ _ _ _ Hi)].
    - eexists. apply make_dirs_missing; [apply (rd_base _ _ _ Hr)|done|].
      pose proof (rd_root _ _ _ Hr) as Hp. by rewrite E in Hp. }
  exists fs'. split; [done|]. by eapply (leads_spec _ _ _ _ _ _ _ Hl (create_root_spec base lib fs0 k)).
Qed.

Lemma acquire_leads k fs : inside k fs -> exists fs', leads (acquire root) fs tt fs' /\ inside k fs'.
Proof.
  intros Hi. assert (exists fs', leads (acquire root) fs tt fs') as [fs' Hl].
  { eexists. unfold acquire. eapply leads_bind.
    - apply open_write_leads; [by eapply inside_anchored|].
      pose proof (rd_lock _ _ _ (in_ready _ _ _ _ _ Hi)) as Hl. unfold lock_name in Hl. fold root in Hl.
      destruct (entries fs !! (root ++ [".install.lock"%string])) as [[]|]; try done. by eapply inside_parent.
    - unfold LOCK_TRIES. cbn [wait_for_lock]. rewrite Hlock. apply leads_ret. }
  exists fs'. split; [done|]. by eapply (leads_spec _ _ _ _ _ _ _ Hl (acquire_spec base lib fs0 k)).
Qed.

Lemma remove_missing_leads fs d x : anchored d fs -> entries fs !! (d ++ [x]) = None ->
  leads (remove_tree (d ++ [x])) fs tt fs.
Proof.
  intros Ha E. unfold remove_tree. apply leads_query. unfold path_exists, metadata.
  by rewrite follow_in, E.
Qed.

Lemma unique_suffix_leads k fs : inside k fs -> (k < u64_max)%N ->
  exists fs', leads unique_suffix fs (suffix_of k) fs' /\ named base lib fs0 k (suffix_of k) fs'
    /\ entries fs' = entries fs.
Proof.
  intros Hi Hk. eexists. assert (leads unique_suffix fs (suffix_of k)
    (mkFiles (entries fs) (wrap_add64 (temp_counter fs) 1))) as Hl.
  { unfold leads, unique_suffix, unique_name, suffix_of. cbn [tables faults].
    by rewrite (in_counter _ _ _ _ _ Hi). }
  split_and!; [exact Hl| |done].
  eapply (leads_spec _ _ _ _ _ _ _ Hl (unique_suffix_spec base lib fs0 k (fun _ => True) Hk)). done.
Qed.

(** The staged tree takes the place of the version. *)
Lemma stage_leads k fs :
  inside (k + 1) fs -> entries fs !! version_dir = None ->
  unpacking files dirs root (staging_name k) fs fs ->
  exists fs', leads (stage fs_rename (root ++ [staging_name k]) version_dir) fs tt fs'
    /\ library_installed fs' version_dir.
Proof.
  intros Hi Ev Hun. set (s := staging_name k).
  assert (making (k + 1) s fs) as Hm.
  { split; [done|]. intros r e Er. destruct r as [|x r].
    - destruct (un_staging _ _ _ _ _ _ Hun) as (m & E & _).
      change (entries fs !! (root ++ [s]) = Some e) in Er. change (entries fs !! (root ++ [s]) = Some (Dir m)) in E.
      rewrite E in Er. by injection Er as <-.
    - split; [|done]. assert (root ++ s :: x :: r = (root ++ [s]) ++ x :: r) as Eq by by rewrite <- app_assoc.
      change (entries fs !! (root ++ s :: x :: r) = Some e) in Er.
      rewrite Eq in Er. apply (un_inside _ _ _ _ _ _ Hun) in Er; [|done]. by destruct e. }
  destruct (extract_all_staged files dirs root s fs Hco fs Hun) as (fs1 & Hl1 & Hst).
  destruct Hst as (Hc1 & Ha1 & [m1 Em1] & Hex1 & Hout1 & _).
  assert (making (k + 1) s fs1) as Hm1.
  { refine (leads_spec _ _ _ _ (making (k + 1) s) (fun _ => making (k + 1) s) _ Hl1 _ Hm).
    apply extract_all_making; [by apply staging_workable|done|apply coherent_named]. }
  assert (entries fs1 !! version_dir = None) as Ev1.
  { rewrite Hout1; [done|]. apply (under_root_other base lib). done. }
  assert (leads (remove_tree version_dir) fs1 tt fs1) as Hl2 by by apply remove_missing_leads.
  assert (leads (set_readonly (root ++ [s]) false) fs1 tt
    (remode false (fun p => bool_decide (p = root ++ [s])) fs1)) as Hl3
    by (eapply set_readonly_leads; [done|exact Em1|done]).
  set (fs2 := remode false _ fs1) in Hl3.
  assert (making (k + 1) s fs2) as [Hi2 _].
  { refine (leads_spec _ _ _ _ (making (k + 1) s) (fun _ => making (k + 1) s) _ Hl3 _ Hm1).
    apply (set_readonly_making base lib fs0 (k + 1) s); [by apply staging_workable|done]. }
  assert (anchored root fs2) as Ha2 by by eapply inside_anchored.
  assert (entries fs2 !! (root ++ [s]) = Some (Dir (readonly_mode false m1))) as Es2.
  { unfold fs2. by rewrite remode_lookup, Em1, bool_decide_eq_true_2. }
  assert (entries fs2 !! version_dir = None) as Ev2 by (unfold fs2; by rewrite remode_lookup, Ev1).
  set (fs3 := with_entries (move_tree (root ++ [s]) version_dir (entries fs2)) fs2).
  assert (leads (fs_rename (root ++ [s]) version_dir) fs2 tt fs3) as Hl4.
  { apply leads_step. unfold version_dir in *. rewrite !locate_in, !entry_at_snoc, Es2, Ev2 by done.
    rewrite !(inside_parent base lib fs0 (k + 1) fs2) by done. cbn [andb negb].
    rewrite owner_write_of_lor. cbn [negb].
    rewrite bool_decide_eq_false_2 by (intros [_ ?]%app_inj_tail; done).
    assert (under (root ++ [s]) (root ++ [VERSION]) = false) as -> by by apply (under_root_other base lib).
    done. }
  assert (forall r, entries fs3 !! (version_dir ++ r) = entries fs2 !! ((root ++ [s]) ++ r)) as Hmv.
  { intros r. unfold fs3. cbn. by rewrite move_lookup, strip_path_app. }
  assert (anchored root fs3) as Ha3.
  { intros q Hq Hne. destruct (Ha2 q Hq Hne) as [m Em]. exists m. unfold fs3. cbn. rewrite move_lookup.
    assert (forall x, under (root ++ [x]) q = false) as Hu.
    { intros x. apply under_false. intros Hp%prefix_length. apply prefix_length in Hq.
      rewrite length_app in Hp. cbn in Hp. lia. }
    pose proof (Hu VERSION) as Hv. unfold under in Hv. fold version_dir in Hv.
    destruct (strip_path version_dir q); [done|]. by rewrite Hu. }
  assert (entries fs3 !! version_dir = Some (Dir (readonly_mode false m1))) as Ev3.
  { specialize (Hmv []). rewrite !app_nil_r in Hmv. by rewrite Hmv. }
  eexists. split.
  { unfold stage. eapply leads_bind; [exact Hl1|]. eapply leads_bind; [exact Hl2|].
    eapply leads_bind; [exact Hl3|]. eapply leads_bind; [exact Hl4|].
    eapply set_readonly_leads; [done|exact Ev3|done]. }
  split.
  - eexists. split; [by rewrite remode_lookup, Ev3, bool_decide_eq_true_2|]. apply readonly_of_ldiff.
  - exists files, dirs. split; [apply (co_expected _ _ Hco)|]. intros rel. specialize (Hex1 rel).
    destruct rel as [|x rel]; [done|].
    assert (forall d, bool_decide (d ++ x :: rel = d) = false) as Hne.
    { intros d. apply bool_decide_eq_false_2. intros Eq. rewrite <- (app_nil_r d) in Eq at 2.
      by apply app_inv_head in Eq. }
    rewrite remode_lookup, Hne, Hmv. unfold fs2. rewrite remode_lookup, Hne.
    by destruct (entries fs1 !! ((root ++ [s]) ++ x :: rel)).
Qed.

Lemma reinstall_leads k fs : inside k fs -> (k < u64_max)%N ->
  exists fs', leads (reinstall fs_rename root version_dir) fs tt fs' /\ inside (k + 1) fs'
    /\ library_installed fs' version_dir.
Proof.
  intros Hi Hk. set (s := staging_name k).
  assert (exists fs', leads (reinstall fs_rename root version_dir) fs tt fs'
    /\ library_installed fs' version_dir) as (fs' & Hl & Hin).
  2: { exists fs'. split_and!; [done| |done].
       eapply (leads_spec _ _ _ _ _ _ _ Hl (reinstall_spec base lib fs0 coherent_named k Hk)). done. }
  assert (leads (remove_tree version_dir) fs tt (clear (under version_dir) fs)) as Hl1.
  { apply remove_tree_leads; [by eapply inside_closed|by eapply inside_anchored| |by eapply inside_parent].
    apply (rd_version _ _ _ (in_ready _ _ _ _ _ Hi)). }
  assert (inside k (clear (under version_dir) fs)) as Hi1.
  { eapply (leads_spec _ _ _ _ _ _ _ Hl1 (remove_tree_inside base lib fs0 k VERSION (or_introl eq_refl))). done. }
  destruct (unique_suffix_leads k _ Hi1 Hk) as (fs2 & Hl2 & (Hi2 & _ & Hs2 & _) & Ee2).
  change (entries fs2 !! (root ++ [s]) = None) in Hs2.
  assert (entries fs2 !! version_dir = None) as Ev2.
  { rewrite Ee2, clear_lookup, under_refl. done. }
  assert (anchored root fs2) as Ha2 by by eapply inside_anchored.
  assert (closed fs2) as Hc2 by by eapply inside_closed.
  assert (leads (remove_tree (root ++ [s])) fs2 tt fs2) as Hl3 by by apply remove_missing_leads.
  set (fs3 := put_entry (root ++ [s]) (Dir 493) fs2).
  assert (leads (create_dir_all (root ++ [s])) fs2 tt fs3) as Hl4.
  { apply make_dirs_missing; [done|done|by eapply inside_parent]. }
  assert (making (k + 1) s fs3) as [Hi3 _].
  { refine (leads_spec _ _ _ _ (making (k + 1) s) (fun _ => making (k + 1) s) _ Hl4 _
      (clean_of_missing base lib fs0 k fs2 Hi2 Hs2)).
    apply make_dirs_making; [by apply staging_workable|done|]. right. exists []. by rewrite rev_involutive. }
  assert (root ++ [s] <> []) as Hne by by destruct root.
  assert (unpacking files dirs root s fs3 fs3) as Hun.
  { split; try done.
    - by eapply inside_closed.
    - by eapply inside_anchored.
    - exists 493%N. split; [|done]. unfold fs3. by rewrite put_entry_lookup, decide_True.
    - intros r e Hr E. exfalso. unfold fs3 in E. rewrite put_entry_lookup, decide_False in E.
      + destruct (closed_above fs2 (root ++ [s]) r Hc2 Hne) as [->|[m Em]]; [by eexists|done|congruence].
      + intros Eq. rewrite <- (app_nil_r (root ++ [s])) in Eq at 2. by apply app_inv_head in Eq. }
  assert (entries fs3 !! version_dir = None) as Ev3.
  { unfold fs3. rewrite put_entry_lookup, decide_False; [done|]. by intros [_ ?]%app_inj_tail. }
  destruct (stage_leads k fs3 Hi3 Ev3 Hun) as (fs4 & Hl5 & Hin). exists fs4. split; [|done].
  unfold reinstall. eapply leads_bind; [exact Hl1|]. eapply leads_bind; [exact Hl2|].
  eapply leads_bind; [exact Hl3|]. eapply leads_bind; [exact Hl4|].
  eapply leads_catch; [exact Hl5|apply leads_ret].
Qed.

(** What lies at the version says whether the library is installed. *)
Lemma installed_same fs fs' :
  (forall p, under version_dir p = true -> entries fs' !! p = entries fs !! p) ->
  library_installed fs version_dir -> library_installed fs' version_dir.
Proof.
  intros Hp [(m & E & Hm) (fl & dr & Ee & Hex)]. split.
  - exists m. by rewrite Hp by apply under_refl.
  - exists fl, dr. split; [done|]. intros rel. specialize (Hex rel).
    destruct rel; [done|]. by rewrite Hp by apply under_app.
Qed.

Lemma set_current_leads k fs : inside k fs -> (k < u64_max)%N ->
  exists fs', leads (set_current root VERSION) fs tt fs'
    /\ (forall p, under version_dir p = true -> entries fs' !! p = entries fs !! p)
    /\ exists m, entries fs' !! (root ++ ["current"%string]) = Some (Reg m VERSION).
Proof.
  intros Hi Hk. destruct (unique_suffix_leads k fs Hi Hk) as (fs1 & Hl1 & (Hi1 & _ & _ & Ht) & Ee1).
  set (tmp := root ++ [tmp_name k]). change (entries fs1 !! tmp = None) in Ht.
  assert (anchored root fs1) as Ha1 by by eapply inside_anchored.
  set (fs2 := put_entry tmp (Reg 420 VERSION) fs1).
  assert (leads (fs_write tmp VERSION) fs1 tt fs2) as Hl2.
  { eapply leads_eq; [apply fs_write_leads; [done|]|].
    - change (root ++ [tmp_name k]) with tmp. rewrite Ht. by eapply inside_parent.
    - change (root ++ [tmp_name k]) with tmp. by rewrite Ht. }
  assert (tmp_ok base lib fs0 k fs2) as [Hi2 _].
  { apply tmp_put. split; [done|]. by rewrite (Ht : entries fs1 !! ((base ++ [lib]) ++ [tmp_name k]) = None). }
  assert (tmp <> root ++ ["current"%string]) as Hne by by intros [_ ?]%app_inj_tail.
  set (fs3 := put_entry (root ++ ["current"%string]) (Reg 420 VERSION) (drop_entry tmp fs2)).
  assert (leads (fs_rename tmp (root ++ ["current"%string])) fs2 tt fs3) as Hl3.
  { apply leads_step. unfold tmp. rewrite !locate_in, !entry_at_snoc by by eapply inside_anchored.
    rewrite !(inside_parent base lib fs0 (k + 1) fs2) by done. cbn [andb negb]. fold tmp.
    assert (entries fs2 !! tmp = Some (Reg 420 VERSION)) as ->
      by (unfold fs2; by rewrite put_entry_lookup, decide_True).
    destruct (entries fs2 !! (root ++ ["current"%string])) as [[m|m d|t|]|] eqn:Ec; try done.
    destruct (rd_current _ _ _ (in_ready _ _ _ _ _ Hi2)). by exists m. }
  exists fs3. split_and!.
  - unfold set_current. eapply leads_bind; [exact Hl1|]. eapply leads_bind; [exact Hl2|exact Hl3].
  - intros p Hp. unfold fs3, fs2.
    assert (forall x, x <> VERSION -> p <> root ++ [x]) as Hpx.
    { intros x Hx ->. assert (under version_dir (root ++ [x]) = false)
        by (apply (under_root_other base lib); congruence). congruence. }
    rewrite put_entry_lookup, decide_False by by apply Hpx.
    rewrite drop_entry_lookup, decide_False by by apply Hpx.
    rewrite put_entry_lookup, decide_False by by apply Hpx. by rewrite Ee1.
  - exists 420%N. unfold fs3. by rewrite put_entry_lookup, decide_True.
Qed.

Lemma install_leads k fs : started base lib fs0 k fs -> (k + 1 < u64_max)%N ->
  exists fs', leads (install_versioned root) fs version_dir fs'
    /\ library_installed fs' version_dir
    /\ (exists m, entries fs' !! (root ++ ["current"%string]) = Some (Reg m VERSION))
    /\ closed fs' /\ anchored root fs'.
Proof.
  intros Hst Hk. destruct (create_root_leads k fs Hst) as (fs1 & Hl1 & Hi1).
  destruct (acquire_leads k fs1 Hi1) as (fs2 & Hl2 & Hi2).
  assert (closed fs2) as Hc2 by by eapply inside_closed.
  assert (anchored root fs2) as Ha2 by by eapply inside_anchored.
  pose proof (verify_accepts fs2 root VERSION Hc2 Ha2) as Hver. fold version_dir in Hver.
  set (intact := path_is_dir fs2 version_dir && match verify fs2 version_dir with Ok b => b | Err _ => false end).
  assert (exists k' fs3, (k' <= k + 1)%N /\ inside k' fs3
    /\ leads (if intact then ret tt else reinstall fs_rename root version_dir) fs2 tt fs3
    /\ library_installed fs3 version_dir) as (k' & fs3 & Hk' & Hi3 & Hl3 & Hin3).
  { destruct intact eqn:Ei.
    - exists k, fs2. split_and!; [lia|done|apply leads_ret|]. apply Hver.
      apply andb_true_iff in Ei as [_ Ei]. by destruct (verify fs2 version_dir) as [[]|].
    - destruct (reinstall_leads k fs2 Hi2) as (fs3 & Hl3 & Hi3 & Hin3); [lia|].
      by exists (k + 1)%N, fs3. }
  destruct (set_current_leads k' fs3 Hi3) as (fs4 & Hl4 & Hsame & Hcur); [lia|].
  assert (inside (k' + 1) fs4) as Hi4.
  { eapply (leads_spec _ _ _ _ _ _ _ Hl4 (set_current_spec base lib fs0 k' VERSION _)). done. Unshelve. lia. }
  exists fs4. split_and!; [|by eapply installed_same|done|by eapply inside_closed|by eapply inside_anchored].
  unfold install_versioned, install_versioned_with.
  eapply leads_bind; [exact Hl1|]. eapply leads_bind; [exact Hl2|]. apply leads_query.
  eapply leads_bind; [exact Hl3|]. eapply leads_bind; [exact Hl4|apply leads_ret].
Qed.
End heal.

(** ** The library *)

Section results.
Context `{Unicode} `{Library} `{Digest} `{ProcessStamp} `{LockWait}.

(** C25: [verify] accepts a directory when it holds exactly the embedded library: every
    file of the manifests with the bytes of its hash, the directories above them and
    nothing else, no link among them, all of it and itself read-only. *)
Theorem verify_is_exact fs d x :
  closed fs -> anchored d fs ->
  verify fs (d ++ [x]) = Ok true <-> library_installed fs (d ++ [x]).
Proof. apply verify_accepts. Qed.

(** Installs one after another, each with operations that fail. *)
Definition after_installs (root : Path) (scripts : list (list bool)) (fs : Files) : Files :=
  fold_left (fun fs script => tables (install_versioned root (mkConn fs script)).1) scripts fs.

Lemma after_installs_ready base lib scripts : forall fs,
  well_named -> ready base lib fs ->
  (temp_counter fs + 2 * N.of_nat (length scripts) < u64_max)%N ->
  let fs' := after_installs (base ++ [lib]) scripts fs in
  ready base lib fs' /\ (temp_counter fs' <= temp_counter fs + 2 * N.of_nat (length scripts))%N
  /\ untouched base lib fs fs'.
Proof.
  induction scripts as [|script scripts IH]; intros fs Hn Hr Hk; cbv zeta.
  { split_and!; [done|cbn; lia|]. intros p _. by left. }
  cbn [length] in Hk. pose proof (install_keeps_ready base lib fs script Hn Hr ltac:(lia)) as Hi.
  cbv zeta in Hi. destruct Hi as (Hr1 & Hc1 & Hu1).
  destruct (IH _ Hn Hr1 ltac:(lia)) as (Hr2 & Hc2 & Hu2). cbn [length].
  split_and!; [done|unfold after_installs in *; cbn [fold_left]; lia|].
  eapply (untouched_preorder base lib); [exact Hu1|exact Hu2].
Qed.

Lemma started_of_ready base lib fs : ready base lib fs -> started base lib fs (temp_counter fs) fs.
Proof.
  intros Hr. pose proof (rd_root _ _ _ Hr) as Hro.
  destruct (entries fs !! (base ++ [lib])) as [[m|m data|t|]|] eqn:E; try done.
  - left. split; [done|by exists m|done|]. intros p _. by left.
  - right. split_and!; [done|done|done|]. intros p _. by left.
Qed.

Lemma current_dir_is fs base lib m : trim VERSION = VERSION -> closed fs -> anchored (base ++ [lib]) fs ->
  entries fs !! ((base ++ [lib]) ++ ["current"%string]) = Some (Reg m VERSION) ->
  is_dir fs ((base ++ [lib]) ++ [VERSION]) ->
  current_dir fs (base ++ [lib]) = Some ((base ++ [lib]) ++ [VERSION]).
Proof.
  intros Ht Hc Ha E [mv Ev]. unfold current_dir, read_file. rewrite (metadata_in _ _ _ _ Ha E) by done.
  rewrite Ht. assert (path_of VERSION = [VERSION]) as -> by reflexivity.
  assert (path_join (base ++ [lib]) [VERSION] = (base ++ [lib]) ++ [VERSION]) as -> by reflexivity.
  unfold path_is_dir. by rewrite (metadata_in _ _ _ _ Ha Ev).
Qed.

(** C24: However many installs were cut short and wherever, and whatever lies in the
    version's directory, the next install in which nothing fails answers the
    directory of the version, which then holds exactly the embedded library; the
    pointer names it, and no other version and no other file was touched by any of
    them. *)
Theorem skill_library_heals base lib files dirs scripts fs :
  coherent files dirs -> try_lock 0 = Locked -> trim VERSION = VERSION -> ready base lib fs ->
  (temp_counter fs + 2 * N.of_nat (length scripts) + 1 < u64_max)%N ->
  exists fs', install_versioned (base ++ [lib]) (mkConn (after_installs (base ++ [lib]) scripts fs) [])
      = (mkConn fs' [], Ok ((base ++ [lib]) ++ [VERSION]))
    /\ verify fs' ((base ++ [lib]) ++ [VERSION]) = Ok true
    /\ library_installed fs' ((base ++ [lib]) ++ [VERSION])
    /\ current_dir fs' (base ++ [lib]) = Some ((base ++ [lib]) ++ [VERSION])
    /\ untouched base lib fs fs'.
Proof.
  intros Hco Hl Ht Hr Hk. pose proof (coherent_named files dirs Hco) as Hn.
  destruct (after_installs_ready base lib scripts fs Hn Hr ltac:(lia)) as (Hr1 & Hc1 & Hu1).
  set (fs1 := after_installs (base ++ [lib]) scripts fs) in *.
  destruct (install_leads files dirs base lib fs1 Hco Hl (temp_counter fs1) fs1)
    as (fs' & Hrun & Hin & [m Em] & Hc & Ha); [by apply started_of_ready|lia|].
  exists fs'. split_and!; [done| |done| |].
  - by apply verify_accepts.
  - destruct Hin as [(mv & Ev & _) _]. eapply current_dir_is; [done|done|done|exact Em|by exists mv].
  - pose proof (install_keeps_ready base lib fs1 [] Hn Hr1 ltac:(lia)) as (_ & _ & Hu2).
    unfold leads in Hrun. rewrite Hrun in Hu2. eapply (untouched_preorder base lib); [exact Hu1|exact Hu2].
Qed.
End results.

(** ** Witnesses: a library of one skill *)

#[local] Existing Instance ascii_unicode.
#[local] Instance plain_digest : Digest :=
  {| sha256 s := take 32 (map N_of_ascii (String.list_ascii_of_string s) ++ replicate 32 0%N) |}.
#[local] Instance desktop : ProcessStamp := {| process_id := 7; nanos_now := 1000 |}.
#[local] Instance free_lock : LockWait := {| try_lock _ := Locked; elapsed_ms k := (50 * N.of_nat k)%N |}.
#[local] Instance one_skill : Library := {|
  BUNDLES := [mkBundle "loca" "archive" "manifest"];
  zip_archive _ := Ok [Ok (mkZipEntry (Some ["loca"; "SKILL.md"]%string) false (Ok "read me"%string))];
  manifest_files _ := Ok (Some [(Some "loca/SKILL.md"%string, Some (sha_hex "read me"))]);
|}.
Definition skill_files : FileMap := {[["loca"; "SKILL.md"]%string := sha_hex "read me"]}.
Definition skill_dirs : DirSet := {[["loca"]%string]}.

Lemma one_skill_coherent : coherent skill_files skill_dirs.
Proof.
  split.
  - vm_compute. reflexivity.
  - reflexivity.
  - by intros p ->%elem_of_singleton.
  - intros b ->%list_elem_of_singleton. eexists. split; [reflexivity|].
    intros e ->%list_elem_of_singleton. eexists _, _. split; [reflexivity|]. split; [reflexivity|].
    exists "read me"%string. split; [reflexivity|]. apply lookup_singleton_eq.
  - intros p [sha E]. unfold skill_files in E. apply lookup_singleton_Some in E as [<- _]. eexists _, _, _.
    split; [by left|]. split; [reflexivity|]. split; [by left|]. done.
Qed.

(** A check of [closed]. *)
Definition closed_check (fs : Files) : bool :=
  forallb (fun e => match split_last e.1 with
                    | Some ([], _) | None => true
                    | Some (d, _) => match entries fs !! d with Some (Dir _) => true | _ => false end
                    end) (map_to_list (entries fs)).

Lemma closed_checked fs : closed_check fs = true -> closed fs.
Proof.
  intros Hc p x [e E]. unfold closed_check in Hc. rewrite forallb_forall in Hc.
  specialize (Hc (p ++ [x], e)). rewrite <- list_elem_of_In, elem_of_map_to_list in Hc. specialize (Hc E).
  cbn in Hc. rewrite split_last_snoc in Hc. destruct p as [|y p]; [by left|right].
  destruct (entries fs !! (y :: p)) as [[m|m d|t|]|] eqn:Ep; try done. by exists m.
Qed.

Definition installed_skill : Files :=
  mkFiles (<[["v"%string] := Dir 365]> (<[["v"; "loca"]%string := Dir 365]>
    {[["v"; "loca"; "SKILL.md"]%string := Reg 292 "read me"]})) 0.

Lemma verify_is_exact_witness : library_installed installed_skill ["v"%string].
Proof.
  apply (proj1 (verify_is_exact installed_skill [] "v"
    (closed_checked installed_skill ltac:(vm_compute; reflexivity))
    ltac:(intros q Hq%prefix_nil_inv Hne; done))).
  vm_compute. reflexivity.
Defined.

(** A home with a broken install: a changed file, a link that leads out of the
    library, a leftover directory. *)
Definition broken_home : Files :=
  mkFiles (<[["home"%string] := Dir 493]> (<[["home"; "lib"]%string := Dir 493]>
    (<[["home"; "lib"; "0.12.9"]%string := Dir 365]>
    (<[["home"; "lib"; "0.12.9"; "notes"]%string := Reg 292 "old"]>
    (<[["home"; "lib"; VERSION]%string := Dir 365]>
    (<[["home"; "lib"; VERSION; "loca"]%string := Dir 365]>
    (<[["home"; "lib"; VERSION; "loca"; "out"]%string := Symlink ["home"%string]]>
      {[["home"; "lib"; VERSION; "loca"; "SKILL.md"]%string := Reg 420 "changed"]}))))))) 0.

Lemma broken_home_ready : ready ["home"%string] "lib" broken_home.
Proof.
  split.
  - apply closed_checked. vm_compute. reflexivity.
  - intros q Hq Hne. destruct q as [|x q]; [done|]. apply prefix_cons_inv_1 in Hq as Hx. subst x.
    apply prefix_cons_inv_2, prefix_nil_inv in Hq as ->. exists 493%N. reflexivity.
  - reflexivity.
  - exact I.
  - intros [m Em]. discriminate Em.
  - exact I.
  - intros n _. unfold broken_home, staging_name, tmp_name.
    split; cbn [entries]; rewrite !lookup_insert_ne by done; by apply lookup_singleton_ne.
Qed.

(** Two installs are cut short, one while it unpacks and one at the promotion. *)
Lemma skill_library_heals_witness : exists fs',
  (install_versioned ["home"; "lib"]%string
     (mkConn (after_installs ["home"; "lib"]%string
        [replicate 12 false ++ [true]; replicate 9 false ++ [true; true] ] broken_home) [])).1 = mkConn fs' []
  /\ library_installed fs' ["home"; "lib"; VERSION]%string
  /\ entries fs' !! ["home"; "lib"; "0.12.9"; "notes"]%string = Some (Reg 292 "old").
Proof.
  destruct (@skill_library_heals ascii_unicode one_skill plain_digest desktop free_lock
    ["home"%string] "lib" skill_files skill_dirs
    [replicate 12 false ++ [true]; replicate 9 false ++ [true; true] ] broken_home one_skill_coherent
    eq_refl ltac:(vm_compute; reflexivity) broken_home_ready ltac:(vm_compute; reflexivity))
    as (fs' & Hrun & _ & Hin & _ & Hu).
  exists fs'. split; [exact (f_equal fst Hrun)|]. split; [exact Hin|].
  destruct (Hu ["home"; "lib"; "0.12.9"; "notes"]%string) as [->|[E _]]; [reflexivity|reflexivity|discriminate E].
Defined.

(** ** What does not heal *)

(** [remove_tree] takes a link that leads nowhere for nothing, so that the promotion
    finds it in its way; a file in place of the directory is refused by the removal.
    Either way every install fails, this one and the next. *)
Example link_in_place_of_the_version_stays :
  let home := put_entry ["home"; "lib"; VERSION]%string (Symlink ["nowhere"%string])
    (mkFiles (<[["home"%string] := Dir 493]> {[["home"; "lib"]%string := Dir 493]}) 0) in
  let '(c, r) := install_versioned ["home"; "lib"]%string (mkConn home []) in
  r = Err OtherIo /\ (install_versioned ["home"; "lib"]%string c).2 = Err OtherIo.
Proof. vm_compute. done. Qed.

Example file_in_place_of_the_version_stays :
  let home := put_entry ["home"; "lib"; VERSION]%string (Reg 420 "")
    (mkFiles (<[["home"%string] := Dir 493]> {[["home"; "lib"]%string := Dir 493]}) 0) in
  let '(c, r) := install_versioned ["home"; "lib"]%string (mkConn home []) in
  r = Err OtherIo /\ (install_versioned ["home"; "lib"]%string c).2 = Err OtherIo.
Proof. vm_compute. done. Qed.

(** The wait for the lock ends: while every sleep takes its time, the last of its tries
    is one that got the lock, that failed, or that came after the thirty seconds. *)
Lemma lock_wait_ends `{LockWait} c :
  (forall k, (LOCK_SLEEP_MS * N.of_nat k <= elapsed_ms k)%N) ->
  exists k, k < LOCK_TRIES /\ wait_for_lock LOCK_TRIES 0 c =
    (c, match try_lock k with Locked => Ok tt | WouldBlock => Err InvalidData | LockFailed e => Err e end)
    /\ (try_lock k = WouldBlock -> (LOCK_WAIT_MS <= elapsed_ms k)%N).
Proof.
  intros Hs.
  assert (forall fuel k, 601 <= fuel + k -> k <= 600 -> exists j, j < 601 /\ wait_for_lock fuel k c =
      (c, match try_lock j with Locked => Ok tt | WouldBlock => Err InvalidData | LockFailed e => Err e end)
    /\ (try_lock j = WouldBlock -> (LOCK_WAIT_MS <= elapsed_ms j)%N)) as Hall.
  { induction fuel as [|fuel IH]; intros k Hk Hle; [lia|]. cbn [wait_for_lock].
    destruct (try_lock k) as [| |e] eqn:Et.
    - exists k. rewrite Et. split_and!; [lia|done|done].
    - destruct (LOCK_WAIT_MS <=? elapsed_ms k)%N eqn:Ew.
      + apply N.leb_le in Ew. exists k. rewrite Et. split_and!; [lia|done|done].
      + apply N.leb_gt in Ew. specialize (Hs k). unfold LOCK_WAIT_MS, LOCK_SLEEP_MS in *. apply IH; lia.
    - exists k. rewrite Et. split_and!; [lia|done|done]. }
  apply Hall; unfold LOCK_TRIES; lia.
Qed.
