(* ===== verification/MemoryFacts.v ===== *)
(** * The memory of a room: theorems

    The long text is the join of its entries at all times, nothing of it is ever
    lost, what is handed out is its longest recent part that fits, and the pages
    of its entries end and miss none. *)

From Stdlib Require Import Ascii.
From Stdlib Require String.
From S2P Require Import Prelude Text Protocol StoreApi Sql Tables Hub Access Membership Queries Http Doors RouteWork.
From S2P Require Import Identity Operators Admission Boot Memory RouteMemory.

Open Scope loca_scope.

Implicit Types t : Tables.
Implicit Types c : Conn Tables.

(** ** The entries of a room, in order *)

Lemma sort_by_N_unique {A} (key : A -> N) (l l' : list A) :
  StronglySorted (by_N key) l' -> l ≡ₚ l' ->
  (forall x y, x ∈ l' -> y ∈ l' -> key x = key y -> x = y) -> sort_by_N key l = l'.
Proof.
  intros Hs Hp Hu. apply (StronglySorted_unique_strong (by_N key)).
  - intros x y Hx Hy Hxy Hyx. rewrite sort_by_N_Permutation, Hp in Hx. apply Hu; [done..|].
    unfold by_N in *. lia.
  - apply sort_by_N_sorted.
  - done.
  - by rewrite sort_by_N_Permutation.
Qed.

Lemma filter_Permutation_bool {A} (f : A -> bool) l l' : l ≡ₚ l' -> List.filter f l ≡ₚ List.filter f l'.
Proof.
  induction 1 as [|x l l' _ IH|x y l|l1 l2 l3 _ IH1 _ IH2]; cbn; [done| | |by etrans].
  - destruct (f x); [by constructor|done].
  - destruct (f x), (f y); [apply Permutation_swap|done..].
Qed.

Lemma elem_of_room_entries t room id r :
  (id, r) ∈ room_entries t room <-> t_entries t !! id = Some r /\ me_room r = room.
Proof.
  unfold room_entries. rewrite sort_by_N_Permutation, list_elem_of_In, filter_In, <- list_elem_of_In.
  rewrite elem_of_map_to_list. cbn. by rewrite bool_decide_eq_true.
Qed.

Lemma room_entries_sorted t room : StronglySorted (by_N fst) (room_entries t room).
Proof. apply sort_by_N_sorted. Qed.

Lemma max_of_le (l : list N) x : x ∈ l -> (x <= max_of l)%N.
Proof.
  induction l as [|y l IH]; [by intros ?%elem_of_nil|].
  change (max_of (y :: l)) with (N.max y (max_of l)).
  intros [->|Hin]%elem_of_cons; [lia|]. specialize (IH Hin). lia.
Qed.

Lemma next_entry_fresh t id r : t_entries t !! id = Some r -> (id < next_entry_id t)%N.
Proof.
  intros E. unfold next_entry_id. assert (id ∈ keys (t_entries t)) as Hin by (apply elem_of_keys; eauto).
  apply max_of_le in Hin. lia.
Qed.

(** A new entry goes to the end of its room. *)
Lemma room_entries_append t r room :
  room_entries (with_t_entries (<[next_entry_id t := r]> (t_entries t)) t) room
    = room_entries t room ++ (if decide (me_room r = room) then [(next_entry_id t, r)] else []).
Proof.
  set (id := next_entry_id t).
  assert (t_entries t !! id = None) as Hn.
  { destruct (t_entries t !! id) as [r'|] eqn:E; [|done]. apply next_entry_fresh in E. unfold id in E. lia. }
  assert (forall e, e ∈ room_entries t room -> (e.1 < id)%N) as Hlt.
  { intros [k r'] [E _]%elem_of_room_entries. by apply next_entry_fresh in E. }
  apply sort_by_N_unique.
  - case_decide; [|rewrite app_nil_r; apply room_entries_sorted].
    apply StronglySorted_app_2.
    + intros x y Hx Hy%list_elem_of_singleton. subst y. unfold by_N. cbn. specialize (Hlt x Hx). lia.
    + apply room_entries_sorted.
    + repeat constructor.
  - cbn [t_entries with_t_entries]. rewrite (filter_Permutation_bool _ _ _ (map_to_list_insert (t_entries t) id r Hn)).
    cbn [List.filter snd]. case_decide as Hr.
    + rewrite bool_decide_eq_true_2 by done. rewrite Permutation_app_comm. cbn.
      constructor. unfold room_entries. by rewrite sort_by_N_Permutation.
    + rewrite bool_decide_eq_false_2, app_nil_r by done. unfold room_entries. by rewrite sort_by_N_Permutation.
  - assert (forall x, x ∈ room_entries t room ++ (if decide (me_room r = room) then [(id, r)] else []) ->
      x ∈ room_entries t room \/ x = (id, r)) as Hin.
    { intros x [Hx|Hx]%elem_of_app; [by left|]. case_decide; [|by apply elem_of_nil in Hx].
      right. by apply list_elem_of_singleton in Hx. }
    intros x y [Hx| ->]%Hin [Hy| ->]%Hin E; try done.
    + destruct x as [k1 r1], y as [k2 r2]. cbn in E. subst k2.
      apply elem_of_room_entries in Hx as [E1 _], Hy as [E2 _]. congruence.
    + specialize (Hlt x Hx). cbn in E. lia.
    + specialize (Hlt y Hy). cbn in E. lia.
Qed.

(** ** What the writes keep *)

Record memory_ok t : Prop := {
  mo_row : forall room m, t_memory t !! room = Some m ->
    mm_long m = join_entries (entry_texts (room_entries t room))
    /\ (bytes_N (mm_long m) <= LONG_MEMORY_HARD_BYTES)%N
    /\ String.length (mm_short m) <= SHORT_MEMORY_MAX_BYTES;
  mo_entry : forall id r, t_entries t !! id = Some r ->
    is_Some (t_memory t !! me_room r) /\ me_text r <> ""%string
    /\ String.length (me_text r) <= LONG_MEMORY_ENTRY_MAX_BYTES /\ (0 < id <= i64_max)%N;
}.

(** Entries are never removed or changed, and a long text only grows. *)
Record memory_grew t t' : Prop := {
  mg_entries : t_entries t ⊆ t_entries t';
  mg_long : forall room m, t_memory t !! room = Some m ->
    exists m' more, t_memory t' !! room = Some m' /\ mm_long m' = mm_long m +:+ more;
}.
Lemma string_app_nil s : s +:+ "" = s.
Proof. induction s as [|a s IH]; [done|]. change (String a (s +:+ "") = String a s). by rewrite IH. Qed.
Lemma string_app_length s1 s2 : String.length (s1 +:+ s2) = String.length s1 + String.length s2.
Proof.
  induction s1 as [|a s1 IH]; [done|]. change (S (String.length (s1 +:+ s2)) = S (String.length s1) + String.length s2).
  by rewrite IH.
Qed.

#[local] Instance grew_refl : Reflexive memory_grew.
Proof. intros t. constructor; [done|]. intros room m Hm. exists m, ""%string. by rewrite string_app_nil. Qed.
#[local] Instance grew_trans : Transitive memory_grew.
Proof.
  intros t1 t2 t3 [E1 L1] [E2 L2]. constructor; [by etrans|]. intros room m Hm.
  destruct (L1 room m Hm) as (m2 & a & Hm2 & La). destruct (L2 room m2 Hm2) as (m3 & b & Hm3 & Lb).
  exists m3, (a +:+ b). split; [done|]. by rewrite Lb, La, <- string_app_assoc.
Qed.

Lemma join_snoc l x :
  join_entries (l ++ [x]) = match l with [] => x | _ => join_entries l +:+ separator +:+ x end.
Proof.
  unfold join_entries. induction l as [|y l IH]; [done|]. cbn [app].
  destruct l as [|z l]; [done|]. cbn [app] in *.
  change (y +:+ separator +:+ String.concat separator (z :: l ++ [x])
          = (y +:+ separator +:+ String.concat separator (z :: l)) +:+ separator +:+ x).
  rewrite IH. by rewrite <- !string_app_assoc.
Qed.

Lemma join_empty l : Forall (fun s => s <> ""%string) l -> join_entries l = ""%string -> l = [].
Proof.
  intros Hl Hj. destruct Hl as [|x l Hx Hl]; [done|]. exfalso. unfold join_entries in Hj.
  destruct x as [|a x]; [done|]. by destruct l.
Qed.

Lemma entry_texts_nonempty t room : memory_ok t -> Forall (fun s => s <> ""%string) (entry_texts (room_entries t room)).
Proof.
  intros [_ He]. apply Forall_fmap, Forall_forall. intros [id r] [E _]%elem_of_room_entries.
  by destruct (He id r E) as (_ & Hn & _).
Qed.

(** A row that keeps the long text. *)
Lemma memory_ok_row t room m' :
  memory_ok t ->
  mm_long m' = default ""%string (mm_long <$> t_memory t !! room) ->
  String.length (mm_short m') <= SHORT_MEMORY_MAX_BYTES ->
  memory_ok (with_t_memory (<[room := m']> (t_memory t)) t).
Proof.
  intros Hok Hl Hs. pose proof Hok as [Hr He]. constructor; cbn.
  - intros room' m0 [[<- <-]|[Hne Hm]]%lookup_insert_Some.
    2: { by apply Hr. }
    change (room_entries (with_t_memory (<[room := m']> (t_memory t)) t) room) with (room_entries t room).
    split_and!; [| |done]; rewrite Hl; destruct (t_memory t !! room) as [m|] eqn:E; cbn.
    + by apply Hr.
    + destruct (room_entries t room) as [|[id r] l] eqn:Er; [done|]. exfalso.
      assert ((id, r) ∈ room_entries t room) as Hin by (rewrite Er; by left).
      apply elem_of_room_entries in Hin as [Hid <-]. destruct (He id r Hid) as ([m Hm] & _). congruence.
    + destruct (Hr room m E) as (_ & Hb & _). exact Hb.
    + unfold bytes_N. cbn. unfold LONG_MEMORY_HARD_BYTES. lia.
  - intros id r E. destruct (He id r E) as ([m Hm] & Hrest). split; [|done].
    destruct (decide (me_room r = room)) as [->|Hne]; [by rewrite lookup_insert_eq|].
    rewrite lookup_insert_ne by done. by eexists.
Qed.

Lemma memory_grew_row t room m' :
  (forall m, t_memory t !! room = Some m -> mm_long m' = mm_long m) ->
  memory_grew t (with_t_memory (<[room := m']> (t_memory t)) t).
Proof.
  intros Hl. constructor; [done|]. intros room' m Hm. cbn. destruct (decide (room' = room)) as [->|Hne].
  - exists m', ""%string. rewrite lookup_insert_eq, string_app_nil. split; [done|]. by apply Hl.
  - exists m, ""%string. rewrite lookup_insert_ne, string_app_nil by done. done.
Qed.

Definition keeps_memory t t' : Prop := memory_ok t -> memory_ok t' /\ memory_grew t t'.
Lemma keeps_memory_refl t : keeps_memory t t.
Proof. intros Hok. by split. Qed.
Lemma keeps_memory_trans t1 t2 t3 : keeps_memory t1 t2 -> keeps_memory t2 t3 -> keeps_memory t1 t3.
Proof. intros H12 H23 Hok. destruct (H12 Hok) as [Hok2 G1]. destruct (H23 Hok2) as [Hok3 G2]. split; [done|by etrans]. Qed.

Lemma set_owner_keeps room owner pid c :
  keeps_memory (tables c) (tables (db_set_memory_owner room owner pid c).1).
Proof.
  unfold db_set_memory_owner, unit_of, bind. destruct (execute _ _ _ c) as [c' [n|e]] eqn:Ex.
  2: { apply execute_err in Ex as [Ex _]. cbn. rewrite Ex. apply keeps_memory_refl. }
  apply execute_ok in Ex as [Ex _]. injection Ex as Ex _. cbn. rewrite <- Ex. intros Hok.
  destruct (t_memory (tables c) !! room) as [m|] eqn:Em; (split; [apply memory_ok_row; [done| |]|apply memory_grew_row]);
    cbn; rewrite ?Em; try done.
  - by apply (mo_row _ Hok room m Em).
  - by intros ? [= <-].
  - lia.
Qed.

Lemma write_short_keeps room actor text at_ c :
  keeps_memory (tables c) (tables (db_write_short_memory room actor text at_ c).1).
Proof.
  unfold db_write_short_memory, bind at 1.
  destruct (transaction _ _ c) as [c' [n|e]] eqn:Et.
  2: { apply transaction_err in Et. cbn. rewrite Et. apply keeps_memory_refl. }
  assert (forall A (k : option LocaMemory -> Sql Tables MemoryWriteError A),
    (forall o cc, tables (k o cc).1 = tables cc) ->
    tables (bind (query (fun t => db_loca_memory t room)) k c').1 = tables c') as Hq.
  { intros A k Hk. unfold bind, query. apply Hk. }
  rewrite Hq; [|by intros [m|] cc]. clear Hq.
  apply transaction_ok in Et as (c2 & Hok & ->). apply bind_ok in Hok as (c3 & [] & Hreq & Hok).
  apply bind_ok in Hreq as (c4 & refused & [-> Href]%query_ok & Hreq).
  destruct refused as [e|]; [done|]. injection Hreq as <-. cbn [tables past_fault] in *.
  destruct (SHORT_MEMORY_MAX_BYTES <? String.length text)%nat eqn:El; [done|].
  apply Nat.ltb_ge in El. apply execute_ok in Hok as [Hok _]. cbn in Hok.
  destruct (t_memory (tables c) !! room) as [m|] eqn:Em; injection Hok as Hok _; rewrite <- Hok;
    [|apply keeps_memory_refl].
  intros Hmem. split; [apply memory_ok_row; cbn; [done| |done]; by rewrite Em|].
  apply memory_grew_row. intros m0 Hm0. cbn. congruence.
Qed.

Lemma empty_text s : str_is_empty s = true -> s = ""%string.
Proof. apply bool_decide_eq_true. Qed.

(** What one committed append does to the tables. *)
Definition appended t (room name text : string) (at_ : N) (m : MemoryRow) : Tables :=
  let t := with_t_entries (<[next_entry_id t := mkEntryRow room text name at_]> (t_entries t)) t in
  with_t_memory
    (<[room := mkMemoryRow (mm_owner m) (mm_owner_principal_id m) (mm_short m)
        (if str_is_empty (mm_long m) then text else mm_long m +:+ separator +:+ text)
        (mm_short_updated_at m) (Some at_) (mm_version m + 1)]> (t_memory t)) t.

(** An append that answers has put its entry at the end; one that is refused
    changed nothing. *)
Lemma append_effect room actor text at_ c c' e :
  db_append_long_memory room actor text at_ c = (c', Ok e) ->
  exists m, t_memory (tables c) !! room = Some m
  /\ memory_owner_check (tables c) room actor = None
  /\ String.length text <= LONG_MEMORY_ENTRY_MAX_BYTES
  /\ (bytes_N (mm_long m) + (if 0 <? bytes_N (mm_long m) then 2 else 0) + bytes_N text
       <= LONG_MEMORY_HARD_BYTES)%N
  /\ (next_entry_id (tables c) <= i64_max)%N
  /\ tables c' = appended (tables c) room (ma_name actor) text at_ m
  /\ lme_id e = next_entry_id (tables c) /\ lme_text e = text.
Proof.
  intros Et. apply transaction_ok in Et as (c2 & Hok & ->). apply bind_ok in Hok as (c3 & [] & Hreq & Hok).
  apply bind_ok in Hreq as (c4 & refused & [-> Href]%query_ok & Hreq). cbn [tables past_fault] in Href.
  destruct refused as [?|]; [done|]. injection Hreq as <-.
  destruct (t_memory (tables c) !! room) as [m|] eqn:Em.
  2: { unfold memory_owner_check in Href. by rewrite Em in Href. }
  destruct (LONG_MEMORY_ENTRY_MAX_BYTES <? String.length text)%nat eqn:El; [done|].
  apply bind_ok in Hok as (c5 & current & [-> ->]%query_ok & Hok).
  cbn [tables past_fault] in Hok. rewrite Em in Hok. cbn [fmap option_fmap option_map default from_option id] in Hok.
  destruct (_ <? _)%N eqn:Eh in Hok; [done|].
  apply bind_ok in Hok as (c6 & k & [-> ->]%query_ok & Hok).
  apply bind_ok in Hok as (c7 & n1 & Hins & Hok). apply bind_ok in Hok as (c8 & n2 & Hupd & Hok).
  apply ret_ok in Hok as [-> ->].
  apply execute_ok in Hins as [Hins Hb]. cbn [tables past_fault] in Hins, Hb.
  unfold insert_row in Hins.
  destruct (t_entries (tables c) !! next_entry_id (tables c)); [done|]. injection Hins as Hins _.
  apply execute_ok in Hupd as [Hupd _]. rewrite <- Hins in Hupd. cbn in Hupd. rewrite Em in Hupd.
  injection Hupd as Hupd _. exists m.
  split_and!; try done.
  - by apply Nat.ltb_ge.
  - by apply N.ltb_ge.
  - unfold binds in Hb. cbn in Hb. apply andb_prop in Hb as [Hb _]. by apply N.leb_le in Hb.
Qed.

Lemma bytes_app a b : bytes_N (a +:+ b) = (bytes_N a + bytes_N b)%N.
Proof. unfold bytes_N. rewrite string_app_length. lia. Qed.

Lemma long_empty t room m :
  memory_ok t -> t_memory t !! room = Some m -> mm_long m = ""%string -> room_entries t room = [].
Proof.
  intros Hok Hm Hl. destruct (mo_row _ Hok room m Hm) as (Hj & _).
  assert (entry_texts (room_entries t room) = []) as He.
  { apply join_empty; [by apply entry_texts_nonempty|]. congruence. }
  by destruct (room_entries t room).
Qed.

Lemma appended_keeps t room name text at_ m :
  t_memory t !! room = Some m -> text <> ""%string ->
  String.length text <= LONG_MEMORY_ENTRY_MAX_BYTES ->
  (bytes_N (mm_long m) + (if 0 <? bytes_N (mm_long m) then 2 else 0) + bytes_N text
     <= LONG_MEMORY_HARD_BYTES)%N ->
  (next_entry_id t <= i64_max)%N ->
  keeps_memory t (appended t room name text at_ m).
Proof.
  intros Hm Hne Hlen Hbytes Hid Hok. pose proof Hok as [Hr He].
  assert (t_entries t !! next_entry_id t = None) as Hfresh.
  { destruct (t_entries t !! next_entry_id t) as [r'|] eqn:E; [|done]. apply next_entry_fresh in E. lia. }
  set (new := mkEntryRow room text name at_).
  assert (forall r', room_entries (appended t room name text at_ m) r'
            = room_entries t r' ++ (if decide (room = r') then [(next_entry_id t, new)] else [])) as Hent.
  { intros r'. apply (room_entries_append t new r'). }
  split; constructor.
  - intros r' m'. cbn [t_memory appended with_t_memory]. intros [[<- <-]|[Hn Hm']]%lookup_insert_Some.
    2: { rewrite Hent, decide_False, app_nil_r by done. by apply Hr. }
    rewrite Hent, decide_True by done. destruct (Hr room m Hm) as (Hj & Hb & Hs). cbn [mm_long mm_short].
    unfold entry_texts. rewrite map_app. cbn [map snd]. rewrite join_snoc. fold (entry_texts (room_entries t room)).
    split_and!; [| |done].
    + destruct (str_is_empty (mm_long m)) eqn:El.
      * apply empty_text in El. by rewrite (long_empty t room m).
      * rewrite Hj. destruct (entry_texts (room_entries t room)) eqn:Ee; [|done].
        rewrite Hj in El. done.
    + destruct (str_is_empty (mm_long m)) eqn:El; [lia|]. rewrite !bytes_app.
      change (bytes_N separator) with 2%N.
      destruct (0 <? bytes_N (mm_long m))%N eqn:E0; [lia|]. apply N.ltb_ge in E0.
      destruct (mm_long m); [done|]. unfold bytes_N in E0. cbn in E0. lia.
  - intros id r. cbn [t_entries appended with_t_memory with_t_entries t_memory].
    intros [[<- <-]|[Hn E]]%lookup_insert_Some.
    + cbn. rewrite lookup_insert_eq. split_and!; try done. unfold next_entry_id. lia.
    + destruct (He id r E) as ([m' Hm'] & Hrest). split; [|done].
      destruct (decide (me_room r = room)) as [->|Hd]; [rewrite lookup_insert_eq; by eexists|].
      rewrite lookup_insert_ne by done. by eexists.
  - cbn. by apply insert_subseteq.
  - intros r' m' Hm'. cbn [t_memory appended with_t_memory with_t_entries].
    destruct (decide (r' = room)) as [->|Hd].
    + rewrite lookup_insert_eq. assert (m' = m) as -> by congruence.
      destruct (str_is_empty (mm_long m)) eqn:El.
      * apply empty_text in El. eexists _, text. split; [done|]. cbn. by rewrite El.
      * by eexists _, _.
    + rewrite lookup_insert_ne by done. exists m', ""%string. by rewrite string_app_nil.
Qed.

Lemma append_keeps room actor text at_ c :
  text <> ""%string ->
  keeps_memory (tables c) (tables (db_append_long_memory room actor text at_ c).1).
Proof.
  intros Hne. destruct (db_append_long_memory room actor text at_ c) as [c' [e|e]] eqn:Ea.
  2: { apply transaction_err in Ea. cbn. rewrite Ea. apply keeps_memory_refl. }
  apply append_effect in Ea as (m & Hm & _ & Hl & Hb & Hi & Ht & _). cbn. rewrite Ht.
  by apply appended_keeps.
Qed.

(** ** What an agent that wakes is given *)

Lemma join_cons_length x l :
  String.length (join_entries (x :: l))
    = String.length x + match l with [] => 0 | _ => 2 + String.length (join_entries l) end.
Proof.
  unfold join_entries. destruct l as [|y l]; [cbn; lia|].
  change (String.concat separator (x :: y :: l)) with (x +:+ separator +:+ String.concat separator (y :: l)).
  rewrite !string_app_length. cbn. lia.
Qed.

Lemma join_app_length l1 l2 :
  String.length (join_entries l2) <= String.length (join_entries (l1 ++ l2))
  /\ (Forall (fun s => s <> ""%string) l1 -> l1 <> [] ->
      String.length (join_entries l2) < String.length (join_entries (l1 ++ l2))).
Proof.
  induction l1 as [|x l1 [IH _]]; [by split|]. cbn [app]. rewrite join_cons_length. split.
  - destruct (l1 ++ l2); [|lia]. cbn in *. lia.
  - intros [Hx _]%Forall_cons _. destruct (l1 ++ l2) as [|y l] eqn:E; [|lia].
    apply app_nil in E as [_ ->]. destruct x; [done|]. cbn. lia.
Qed.

Definition small (e : N * EntryRow) : Prop := String.length (me_text e.2) <= LONG_MEMORY_ENTRY_MAX_BYTES.

Lemma inject_closed l sel n u :
  Forall small l -> foldl inject (mkInjection sel n true u) l = mkInjection sel n true u.
Proof.
  induction 1 as [|e l He _ IH]; [done|]. cbn [foldl]. rewrite <- IH at 2. f_equal.
  unfold inject, small in *. cbn [ij_closed]. by rewrite (proj2 (Nat.ltb_ge _ _) He).
Qed.

(** From the newest on, the entries are taken until one does not fit. *)
Lemma inject_open l sel :
  Forall small l ->
  exists taken left closed,
    entry_texts l = taken ++ left
    /\ foldl inject (mkInjection sel (String.length (join_entries (rev sel))) false []) l
       = mkInjection (sel ++ taken) (String.length (join_entries (rev (sel ++ taken)))) closed []
    /\ (String.length (join_entries (rev sel)) <= LONG_MEMORY_ENTRY_MAX_BYTES ->
        String.length (join_entries (rev (sel ++ taken))) <= LONG_MEMORY_ENTRY_MAX_BYTES)
    /\ (forall x left', left = x :: left' ->
        LONG_MEMORY_ENTRY_MAX_BYTES < String.length (join_entries (x :: rev (sel ++ taken)))).
Proof.
  intros Hl. revert sel. induction Hl as [|e l He Hl IH]; intros sel.
  - exists [], [], false. rewrite (app_nil_r sel). by split_and!.
  - cbn [foldl]. unfold inject at 2. cbn [ij_closed ij_bytes ij_selected ij_uninjectable].
    rewrite (proj2 (Nat.ltb_ge _ _) He).
    set (size := String.length (join_entries (rev sel)) + _ + _).
    assert (size = String.length (join_entries (me_text e.2 :: rev sel))) as Hsize.
    { subst size. rewrite join_cons_length. destruct sel as [|y sel]; [cbn; lia|].
      destruct (rev (y :: sel)) eqn:E; [|lia]. apply (f_equal length) in E. rewrite length_rev in E. done. }
    destruct (size <=? LONG_MEMORY_ENTRY_MAX_BYTES)%nat eqn:Es.
    + apply Nat.leb_le in Es. destruct (IH (sel ++ [me_text e.2])) as (taken & left & closed & Ht & Hf & Hb & Hm).
      assert (rev (sel ++ [me_text e.2]) = me_text e.2 :: rev sel) as Hrev by apply rev_app_distr.
      rewrite Hrev, <- Hsize in Hf, Hb. exists (me_text e.2 :: taken), left, closed.
      assert (sel ++ me_text e.2 :: taken = (sel ++ [me_text e.2]) ++ taken) as -> by (by rewrite <- app_assoc).
      split_and!; [exact (f_equal (cons (me_text e.2)) Ht)|exact Hf|intros _; by apply Hb|exact Hm].
    + exists [], (entry_texts (e :: l)), true. rewrite (app_nil_r sel), inject_closed by done.
      split_and!; [done|done|done|]. intros x left' [= <- _]. apply Nat.leb_gt in Es. lia.
Qed.

(** C39: What is handed out of a room's long text is the join of its newest entries,
    as many as fit into 8 KiB: the next older one would not have fitted.  The
    numbers of omitted bytes and entries are exact, the text is called truncated
    just when an entry is left out, no entry is unfit to be handed out, and the
    text never disagrees with its entries. *)
Theorem snapshot_is_the_longest_recent_part t room m :
  memory_ok t -> t_memory t !! room = Some m ->
  exists older recent s,
    entry_texts (room_entries t room) = older ++ recent
    /\ db_loca_memory_snapshot t room = Some s
    /\ lm_long (lms_memory s) = join_entries recent
    /\ String.length (join_entries recent) <= LONG_MEMORY_ENTRY_MAX_BYTES
    /\ (forall older' x, older = older' ++ [x] ->
        LONG_MEMORY_ENTRY_MAX_BYTES < String.length (join_entries (x :: recent)))
    /\ lms_long_omitted_entries s = length older
    /\ lms_long_omitted_bytes s + String.length (join_entries recent) = String.length (mm_long m)
    /\ (lms_long_truncated s = true <-> older <> [])
    /\ lms_provenance_inconsistent s = false /\ lms_long_uninjectable_entry_ids s = [].
Proof.
  intros Hok Hm. destruct (mo_row _ Hok room m Hm) as (Hj & _).
  set (entries := rev (room_entries t room)).
  assert (Forall small entries) as Hsmall.
  { apply Forall_rev, Forall_forall. intros [id r] [E _]%elem_of_room_entries.
    by destruct (mo_entry _ Hok id r E) as (_ & _ & Hs & _). }
  destruct (inject_open entries [] Hsmall) as (taken & left & closed & Ht & Hf & Hb & Hx).
  cbn [app rev] in Hf, Hb, Hx.
  assert (entry_texts (room_entries t room) = rev left ++ rev taken) as Hsplit.
  { rewrite <- rev_app_distr, <- Ht. unfold entries, entry_texts. by rewrite map_rev, rev_involutive. }
  assert (Forall (fun s => s <> ""%string) (rev left)) as Hne.
  { pose proof (entry_texts_nonempty t room Hok) as Hn. rewrite Hsplit in Hn. by apply Forall_app in Hn as [? _]. }
  destruct (join_app_length (rev left) (rev taken)) as [Hle Hlt].
  eexists (rev left), (rev taken), _. split; [done|]. split.
  { unfold db_loca_memory_snapshot, db_loca_memory. rewrite Hm. cbn [option_bind mbind]. fold entries.
    unfold injected. change (mkInjection [] 0 false []) with (mkInjection [] (String.length (join_entries [])) false []). rewrite Hf. reflexivity. }
  cbn [lms_memory lm_long lms_long_omitted_entries lms_long_omitted_bytes lms_long_truncated
    lms_provenance_inconsistent lms_long_uninjectable_entry_ids ij_selected ij_uninjectable].
  rewrite Hj, Hsplit. split_and!; try done.
  - apply Hb. cbn. unfold LONG_MEMORY_ENTRY_MAX_BYTES. lia.
  - intros older' x Hold. apply (Hx x (rev older')).
    rewrite <- (rev_involutive left), Hold. by rewrite rev_app_distr.
  - unfold entries. rewrite length_rev. apply (f_equal length) in Hsplit.
    unfold entry_texts in Hsplit. rewrite length_map, length_app, !length_rev in Hsplit. rewrite length_rev. lia.
  - lia.
  - rewrite Nat.ltb_lt. split.
    + intros Hpos Hnil. rewrite Hnil in Hpos. cbn [app] in Hpos. lia.
    + intros Hold. specialize (Hlt Hne Hold). lia.
  - apply negb_false_iff, bool_decide_eq_true. rewrite <- Hsplit. unfold entries, entry_texts.
    by rewrite map_rev, rev_involutive.
Qed.

(** ** The requests that write *)

Section requests.
Context `{Unicode} `{HeaderText} `{Digest} `{WallClock}.
Implicit Types h : Hub (Conn Tables).

Definition disk h : Tables := tables (h_store h).

(** The requests to the three writing handlers, with the text of their body. *)
Inductive MemoryRequest : Type :=
  | OwnerRequest (room : string) (headers : HeaderMap) (owner : option string)
  | ShortRequest (room : string) (headers : HeaderMap) (text : string)
  | LongRequest (room : string) (headers : HeaderMap) (text : string).
Definition serve_memory (req : MemoryRequest) h : Hub (Conn Tables) * Response :=
  match req with
  | OwnerRequest room headers owner => set_loca_memory_owner room headers owner h
  | ShortRequest room headers text => write_short_memory_route room headers text h
  | LongRequest room headers text => append_long_memory_route room headers text h
  end.

Definition same_memory t t' : Prop :=
  t_memory t' = t_memory t /\ t_entries t' = t_entries t.
Lemma keeps_memory_same t t' :
  t_memory t' = t_memory t -> t_entries t' = t_entries t -> keeps_memory t t'.
Proof.
  intros Em Ee [Hr He]. split; constructor; unfold room_entries in *; rewrite ?Em, ?Ee; try done.
  intros room m Hm. exists m, ""%string. by rewrite string_app_nil.
Qed.

#[local] Instance same_memory_refl : Reflexive same_memory.
Proof. by intros t. Qed.
#[local] Instance same_memory_trans : Transitive same_memory.
Proof. intros t1 t2 t3 [E1 E2] [E3 E4]. split; congruence. Qed.
Lemma delete_session_keeps token c :
  keeps_memory (tables c) (tables (db_delete_admin_session token c).1).
Proof.
  assert (Sql.keeps same_memory (db_delete_admin_session token)) as Hk.
  { apply keeps_bind; [exact _|apply keeps_execute; [exact _|]|intros ?; apply keeps_bind; [exact _|apply keeps_execute; [exact _|]|]].
    - by intros t t' n [= <- _].
    - intros t t' n. unfold revoke_sessions, on_table. cbn. by intros [= <- _].
    - intros ?. apply keeps_ret, _. }
  destruct (Hk c). by apply keeps_memory_same.
Qed.
Lemma run_store_store {A B} (f : Conn Tables -> Conn Tables * A) h (b : B) :
  h_store (let '(h, _) := run_store f h in (h, b)).1 = (f (h_store h)).1.
Proof. unfold run_store. by destruct (f (h_store h)). Qed.

Definition kept h h' : Prop := keeps_memory (disk h) (disk h').
Lemma kept_trans h1 h2 h3 : kept h1 h2 -> kept h2 h3 -> kept h1 h3.
Proof. apply keeps_memory_trans. Qed.

Lemma session_keeps token h : kept h (session_identity token h).1.
Proof.
  unfold kept, session_identity. destruct token as [token|]; [|apply keeps_memory_refl].
  destruct (h_sessions h !! token) as [idy|]; [|apply keeps_memory_refl].
  destruct (_ && _ && _); [apply keeps_memory_refl|]. destruct (_ && _); [|apply keeps_memory_refl].
  destruct (sess_admin idy); [|apply keeps_memory_refl].
  unfold disk. rewrite run_store_store. apply delete_session_keeps.
Qed.
Lemma authority_keeps token session h : kept h (resolve_authority token session h).1.
Proof.
  unfold resolve_authority. pose proof (session_keeps session h) as Hs.
  destruct (session_identity session h) as [h1 [idy|]]; [|done]. by destruct (sess_principal_id idy).
Qed.
Lemma access_keeps room headers handler h :
  (forall h', kept h' (handler h').1) -> kept h (with_access room headers handler h).1.
Proof.
  intros Hh. unfold with_access, room_access. destruct (is_deleted h room); [apply keeps_memory_refl|].
  unfold room_decision_of. pose proof (session_keeps (session_of headers) h) as Hs.
  destruct (session_identity _ h) as [h1 session]. cbn in Hs.
  destruct (enter_decision _ _ _ _ _ _); [|done..]. eapply kept_trans; [exact Hs|apply Hh].
Qed.

(** A handler of the hub that runs one store operation and announces it. *)
Lemma run_keeps {A E B} (f : Conn Tables -> Conn Tables * result A E) room (e : E -> B) (k : A -> B) h :
  keeps_memory (disk h) (tables (f (h_store h)).1) ->
  kept h (let '(h, written) := run_store f h in
           match written with
           | Err x => (h, e x)
           | Ok a => (broadcast_memory_snapshot room h, k a)
           end).1.
Proof.
  intros Hf. unfold kept, disk, run_store in *. destruct (f (h_store h)) as [c [a|x]]; cbn in *; [|done].
  by destruct (h_rooms h !! room).
Qed.
Lemma set_owner_hub_keeps room owner h : kept h (set_memory_owner room owner h).1.
Proof.
  unfold set_memory_owner. destruct (owner_principal owner h) as [pid|e]; [|apply keeps_memory_refl].
  apply (run_keeps _ room (fun _ => Err OwnerStorage) (fun _ => Ok tt)), set_owner_keeps.
Qed.
Lemma write_short_hub_keeps room actor text h : kept h (write_short_memory room actor text h).1.
Proof. apply (run_keeps _ room Err Ok), write_short_keeps. Qed.
Lemma append_long_hub_keeps room actor text h :
  text <> ""%string -> kept h (append_long_memory room actor text h).1.
Proof. intros Hne. apply (run_keeps _ room Err Ok), append_keeps, Hne. Qed.

Lemma writer_keeps headers room text rest h :
  (trim text <> ""%string -> forall actor h', kept h' (rest actor h').1) ->
  kept h (as_memory_writer headers room text rest h).1.
Proof.
  intros Hr. apply access_keeps. intros h1. unfold if_writable.
  destruct (is_writable h1 room); [|apply keeps_memory_refl]. cbn [negb].
  destruct (str_is_empty (trim text)) eqn:Et; [apply keeps_memory_refl|].
  apply bool_decide_eq_false in Et. unfold memory_actor.
  destruct (session_of headers) as [token|]; [|apply keeps_memory_refl].
  pose proof (session_keeps (Some token) h1) as Hs.
  destruct (session_identity (Some token) h1) as [h2 [idy|]]; [|done].
  eapply kept_trans; [exact Hs|]. by apply Hr.
Qed.

Lemma serve_keeps req h : kept h (serve_memory req h).1.
Proof.
  destruct req as [room headers owner|room headers text|room headers text]; cbn [serve_memory].
  - apply access_keeps. intros h1. unfold is_master_req.
    pose proof (authority_keeps (admin_token_of headers) (session_of headers) h1) as Hs.
    destruct (resolve_authority _ _ h1) as [h2 authority]. destruct (negb _); [done|].
    eapply kept_trans; [exact Hs|]. pose proof (set_owner_hub_keeps room (trimmed owner) h2) as Ho.
    by destruct (set_memory_owner room (trimmed owner) h2).
  - apply writer_keeps. intros _ actor h1. pose proof (write_short_hub_keeps room actor (trim text) h1) as Hw.
    by destruct (write_short_memory room actor (trim text) h1).
  - apply writer_keeps. intros Hne actor h1. pose proof (append_long_hub_keeps room actor (trim text) h1 Hne) as Hw.
    by destruct (append_long_memory room actor (trim text) h1).
Qed.

Definition serve_all (reqs : list MemoryRequest) h : Hub (Conn Tables) :=
  foldl (fun h req => (serve_memory req h).1) h reqs.

(** C9: Whatever requests to set an owner, to replace the short text and to append
    to the long one are served, by whom, in which rooms and with which writes of
    the disk failing: the long text of every room is the join of its entries in the
    order of their ids, the texts and entries stay within their limits, no entry
    is lost or changed, and every long text only grew at its end. *)
Theorem memory_is_its_entries (reqs : list MemoryRequest) h :
  memory_ok (disk h) ->
  memory_ok (disk (serve_all reqs h)) /\ memory_grew (disk h) (disk (serve_all reqs h)).
Proof.
  revert h. induction reqs as [|req reqs IH]; intros h Hok; [by split|].
  destruct (serve_keeps req h Hok) as [Hok1 Hg1]. destruct (IH _ Hok1) as [Hok2 Hg2].
  split; [done|]. etransitivity; [exact Hg1|exact Hg2].
Qed.
End requests.

(** ** The pages of the entries *)

Lemma filter_true_all {A} (f : A -> bool) l : (forall x, x ∈ l -> f x = true) -> List.filter f l = l.
Proof.
  induction l as [|x l IH]; [done|]. intros Hf. cbn. rewrite Hf by (by left).
  f_equal. apply IH. intros y Hy. apply Hf. by right.
Qed.

Lemma list_snoc_take {A} (l : list A) n :
  0 < n -> n <= length l -> exists front x, take n l = front ++ [x] /\ l = (front ++ [x]) ++ drop n l.
Proof.
  intros Hn Hl. destruct (exists_last (l := take n l)) as (front & x & E).
  - intros E. apply (f_equal length) in E. rewrite length_take in E. cbn in E. lia.
  - exists front, x. rewrite <- E. by rewrite take_drop.
Qed.

Section pages.
Context `{Unicode}.
Implicit Types h : Hub (Conn Tables).

(** A client that asks for one page after the other, from the one after [after_id]
    on, as long as the answer names where to go on; [None] when it gets an error or
    has asked [requests] times. *)
Fixpoint follow_pages (requests : nat) h (room : string) (after_id : N) (limit : nat)
    : option (list LocaMemoryEntryProvenance) :=
  match requests with
  | O => None
  | S requests =>
      match loca_memory_entries h room after_id limit with
      | Err _ => None
      | Ok page =>
          match lmep_next_after_id page with
          | None => Some (lmep_entries page)
          | Some next => app (lmep_entries page) <$> follow_pages requests h room next limit
          end
      end
  end.

Lemma room_entries_ids t room : NoDup (map fst (room_entries t room)).
Proof.
  unfold room_entries. rewrite sort_by_N_Permutation.
  pose proof (NoDup_fst_map_to_list (t_entries t)) as Hn. revert Hn.
  generalize (map_to_list (t_entries t)). induction l as [|e l IH]; [done|]. cbn.
  intros [Hnin Hn]%NoDup_cons. destruct (bool_decide _); [|by apply IH]. cbn. constructor; [|by apply IH].
  intros Hin. apply Hnin. apply list_elem_of_fmap in Hin as (e' & -> & Hin). apply list_elem_of_fmap.
  exists e'. split; [done|]. rewrite list_elem_of_In, filter_In in Hin. by apply list_elem_of_In, Hin.
Qed.

(** What comes after an entry is the rest of the list. *)
Lemma after_entry (l1 l2 : list (N * EntryRow)) x :
  StronglySorted (by_N fst) (l1 ++ x :: l2) -> NoDup (map fst (l1 ++ x :: l2)) ->
  List.filter (fun e => (x.1 <? e.1)%N) (l1 ++ x :: l2) = l2.
Proof.
  induction l1 as [|y l1 IH]; cbn [app map List.filter].
  - intros [_ Hs]%StronglySorted_inv [Hx _]%NoDup_cons. rewrite N.ltb_irrefl.
    rewrite Forall_forall in Hs. apply filter_true_all. intros e He. apply N.ltb_lt.
    specialize (Hs e He). unfold by_N in Hs.
    assert (x.1 <> e.1) as Hne by (intros E; apply Hx; rewrite E; by apply list_elem_of_fmap_2).
    lia.
  - intros [Hs Hy]%StronglySorted_inv [_ Hn]%NoDup_cons. rewrite Forall_forall in Hy.
    assert (by_N fst y x) as Hyx by (apply Hy; set_solver). unfold by_N in Hyx.
    rewrite (proj2 (N.ltb_ge _ _)) by done. by apply IH.
Qed.

Lemma pages_from h room limit m requests l1 rest after_id :
  memory_ok (disk h) -> t_memory (disk h) !! room = Some m -> 0 < limit ->
  room_entries (disk h) room = l1 ++ rest ->
  (after_id <= i64_max)%N ->
  List.filter (fun e => (after_id <? e.1)%N) (room_entries (disk h) room) = rest ->
  0 < requests -> length rest <= requests * limit ->
  follow_pages requests h room after_id limit = Some (map entry_provenance rest).
Proof.
  intros Hok Hm Hlimit. revert l1 rest after_id.
  induction requests as [|requests IH]; intros l1 rest after_id Hent Hafter Hrest Hpos Hlen; [lia|].
  cbn [follow_pages loca_memory_entries store_loca_memory_entries db_memory].
  unfold db_loca_memory_entries. fold (disk h). rewrite Hm.
  destruct (mo_row _ Hok room m Hm) as (Hj & _).
  rewrite bool_decide_eq_true_2 by done. cbn [negb].
  assert (binds [after_id] = true) as -> by (unfold binds; cbn; rewrite andb_true_r; by apply N.leb_le).
  cbn [negb lmep_next_after_id lmep_entries]. rewrite Hrest.
  rewrite <- fmap_take, take_take, Nat.min_l by lia.
  destruct (limit <? length (take (limit + 1) rest))%nat eqn:El.
  2: { apply Nat.ltb_ge in El. rewrite length_take in El. by rewrite take_ge by lia. }
  apply Nat.ltb_lt in El. rewrite length_take in El.
  destruct (list_snoc_take rest limit) as (front & x & Htake & Hsplit); [lia..|].
  assert (last (entry_provenance <$> take limit rest) = Some (entry_provenance x)) as ->.
  { rewrite Htake, fmap_app. apply last_snoc. }
  destruct x as [id r]. cbn [fmap option_fmap option_map lmp_id entry_provenance].
  assert (room_entries (disk h) room = (l1 ++ front) ++ (id, r) :: drop limit rest) as Hent'.
  { by rewrite Hent, Hsplit at 1; rewrite <- !app_assoc. }
  assert ((id, r) ∈ room_entries (disk h) room) as Hin by (rewrite Hent'; set_solver).
  apply elem_of_room_entries in Hin as [Hin _]. destruct (mo_entry _ Hok id r Hin) as (_ & _ & _ & _ & Hid).
  rewrite (IH (l1 ++ front ++ [(id, r)]) (drop limit rest) id).
  - cbn [option_map]. f_equal. rewrite <- (take_drop limit rest) at 3. by rewrite map_app.
  - rewrite Hent'. by rewrite <- !app_assoc.
  - done.
  - pose proof (after_entry (l1 ++ front) (drop limit rest) (id, r)) as Ha. rewrite <- Hent' in Ha.
    apply Ha; [apply room_entries_sorted|apply room_entries_ids].
  - destruct requests; [|lia]. cbn in Hlen. lia.
  - rewrite length_drop. lia.
Qed.

(** C40: Reading the entries of a room page by page ends, and the pages together are
    every entry once, in the order they were appended, each with who decided it and
    when: a client that follows [next_after_id] needs one request for every [limit]
    entries and at most one more. *)
Theorem following_the_pages_reads_every_entry h room m limit :
  memory_ok (disk h) -> t_memory (disk h) !! room = Some m -> 0 < limit ->
  follow_pages (S (length (room_entries (disk h) room) / limit)) h room 0 limit
    = Some (map entry_provenance (room_entries (disk h) room)).
Proof.
  intros Hok Hm Hlimit. apply (pages_from h room limit m _ []); try done.
  - apply filter_true_all. intros [id r] [E _]%elem_of_room_entries.
    destruct (mo_entry _ Hok id r E) as (_ & _ & _ & Hid & _). by apply N.ltb_lt.
  - lia.
  - pose proof (Nat.mul_succ_div_gt (length (room_entries (disk h) room)) limit). lia.
Qed.
End pages.

(** ** Witnesses: the memory of a first room *)

#[local] Existing Instance ascii_unicode.
#[local] Instance first_digest : Digest := {| sha256 _ := replicate 32 0%N |}.
#[local] Instance first_clock : WallClock := {| current_time_ms := 1000 |}.
#[local] Instance first_headers : HeaderText := {| header_to_str v := Some v |}.

(** A house without a master key, where the fourth write of the disk fails: it is the
    first of the first append. *)
Definition first_house : Hub (Conn Tables) := {|
  h_rooms := ∅; h_deleted := ∅; h_next_id := 1; h_condition_generation := 0;
  h_clock := 1000; h_entropy := 0; h_admin_token := ""; h_room_token := "";
  h_store := mkConn no_tables [false; true]; h_default_settings := room_settings_default;
  h_epoch := 1; h_members := ∅; h_smasters := ∅;
  h_sessions := {["st_1" := mkSessionIdentity None RoleMaster "op" User None None true 9000000]};
  h_admin_pairing := mkAdminPairing "pair_00" 43200000 301000;
  h_join_create_times := ∅; h_require_sessions := true; h_require_invite := true;
  h_invites := ∅; h_lobby_tx := []; h_lobby_online := ∅; h_runtime_health := ∅;
  h_care_deliveries := ∅; h_home_room := "home"; h_reserved_room := "home";
  h_caretakers := ∅ |}.
Definition op_headers : HeaderMap := {["x-session-token" := "st_1"]}%string.
Definition first_requests : list MemoryRequest :=
  [OwnerRequest "lab" op_headers (Some "op"%string);
   LongRequest "lab" op_headers "not saved"; LongRequest "lab" op_headers " ship on Friday ";
   ShortRequest "lab" op_headers "busy"; LongRequest "lab" op_headers "ada leads"].
Definition remembered : Hub (Conn Tables) := serve_all first_requests first_house.

Lemma first_house_ok : memory_ok (disk first_house).
Proof.
  constructor.
  - intros room m Hm. by destruct (lookup_empty_Some (M := gmap _) room m Hm).
  - intros id r Hr. by destruct (lookup_empty_Some (M := gmap _) id r Hr).
Qed.

Lemma memory_is_its_entries_witness :
  memory_ok (disk remembered)
  /\ mm_long <$> t_memory (disk remembered) !! "lab"%string = Some ("ship on Friday" +:+ separator +:+ "ada leads").
Proof.
  split; [|vm_compute; reflexivity].
  exact (proj1 (memory_is_its_entries first_requests first_house first_house_ok)).
Defined.

Lemma serve_all_ok reqs h : memory_ok (disk h) -> memory_ok (disk (serve_all reqs h)).
Proof.
  revert h. induction reqs as [|req reqs IH]; intros h Hok; [done|]. by apply IH, (serve_keeps req h).
Qed.
Lemma remembered_ok : memory_ok (disk remembered).
Proof. apply serve_all_ok, first_house_ok. Qed.
Definition lab_memory : MemoryRow :=
  mkMemoryRow (Some "op"%string) None "busy" ("ship on Friday" +:+ separator +:+ "ada leads")
    (Some 1000%N) (Some 1000%N) 4.
Lemma lab_remembered : t_memory (disk remembered) !! "lab"%string = Some lab_memory.
Proof. vm_compute. reflexivity. Qed.

Lemma snapshot_is_the_longest_recent_part_witness :
  exists s, db_loca_memory_snapshot (disk remembered) "lab" = Some s /\ lms_provenance_inconsistent s = false.
Proof.
  destruct (snapshot_is_the_longest_recent_part (disk remembered) "lab" lab_memory remembered_ok lab_remembered)
    as (older & recent & s & _ & Hs & _ & _ & _ & _ & _ & _ & Hi & _).
  exists s. split; [exact Hs|exact Hi].
Defined.

Lemma two_remembered : length (room_entries (disk remembered) "lab") = 2.
Proof. vm_compute. reflexivity. Qed.

Lemma following_the_pages_reads_every_entry_witness :
  follow_pages 3 remembered "lab" 0 1
    = Some (map entry_provenance (room_entries (disk remembered) "lab")).
Proof.
  pose proof (following_the_pages_reads_every_entry remembered "lab" lab_memory 1 remembered_ok lab_remembered
    Nat.lt_0_1) as Hp.
  rewrite two_remembered in Hp. exact Hp.
Defined.
