(* ===== verification/WikiFacts.v ===== *)
(** * The wiki: what its operations keep

    A batch of messages to review moves along one state machine; at most one is
    pending in a room, and it fits the wiki as it is; histories, receipts and leases
    only grow, revisions and cursors never go back. *)

From Stdlib Require Import Ascii.
From Stdlib Require String.
From S2P Require Import Prelude Text Protocol StoreApi Sql Tables Hub Doors Identity Operators.
From S2P Require Import StoreAttention StoreWork StoreMessages WikiTypes WikiMaintenance Wiki.

Open Scope loca_scope.

Implicit Types t : Tables.
Implicit Types c : Conn Tables.
Implicit Types b : BatchRow.

(** ** Inversion of the steps of the wiki's transactions *)

Lemma refuse_if_ok (cond : bool) e c c' a : refuse_if cond e c = (c', Ok a) -> cond = false /\ c' = c.
Proof. destruct cond; [done|]. by intros [= <- _]. Qed.
Lemma require_ok {A} e (o : option A) c c' a : require e o c = (c', Ok a) -> o = Some a /\ c' = c.
Proof. destruct o; [|done]. by intros [= <- <-]. Qed.
Lemma read_ok {A} params (f : Tables -> A) c c' a :
  read params f c = (c', Ok a) -> binds params = true /\ a = f (tables c) /\ c' = c.
Proof. unfold read. destruct (binds params); [|done]. by intros [= <- <-]. Qed.

Lemma transaction_if_cases {A} (m : Wiki (bool * A)) c c' r :
  transaction_if m c = (c', r) ->
  tables c' = tables c
  \/ exists a c2, r = Ok a /\ m (past_fault c) = (c2, Ok (true, a)) /\ tables c' = tables c2.
Proof.
  unfold transaction_if. destruct (next_fault c); [intros [= <- _]; by left|].
  destruct (m (past_fault c)) as [c2 [[[|] a]|e]]; [|intros [= <- _]; by left..].
  destruct (next_fault c2); intros [= <- <-]; [by left|]. right. by exists a, c2.
Qed.
Lemma keeps_transaction_if {A} (R : relation Tables) `{!Reflexive R} (m : Wiki (bool * A)) :
  Sql.keeps R m -> Sql.keeps R (transaction_if m).
Proof.
  intros Hm c. destruct (transaction_if m c) as [c' r] eqn:E. cbn.
  apply transaction_if_cases in E as [-> |(a & c2 & _ & E & ->)]; [done|].
  pose proof (Hm (past_fault c)) as Hc. by rewrite E in Hc.
Qed.
Lemma transaction_cases {A} (m : Wiki A) c c' r :
  transaction WkStorage m c = (c', r) ->
  tables c' = tables c
  \/ exists a c2, r = Ok a /\ m (past_fault c) = (c2, Ok a) /\ tables c' = tables c2.
Proof.
  destruct r as [a|e]; intros Et; [right|left; by apply transaction_err in Et].
  apply transaction_ok in Et as (c2 & Hm & Et). by exists a, c2.
Qed.

Ltac wiki_step :=
  match goal with
  | H : refuse_if _ _ _ = (_, Ok _) |- _ => apply refuse_if_ok in H as [? ->]
  | H : require _ _ _ = (_, Ok _) |- _ => apply require_ok in H as [? ->]
  | H : read _ _ _ = (_, Ok _) |- _ => apply read_ok in H as (? & ? & ->)
  | H : leave _ _ = (_, Ok (true, _)) |- _ => discriminate H
  | H : commit _ _ = (_, Ok (true, _)) |- _ => injection H as <- <-
  | _ => sql_step
  end.
Ltac wiki := repeat wiki_step.

(** ** The states of a batch *)

(** [leases] are the times at which the epochs of the batches began. *)
Inductive batch_step (leases : gmap (N * N) N) (id : N) : BatchRow -> BatchRow -> Prop :=
  | batch_claim b expires started :
      bt_status b = BatchQueued \/ bt_status b = BatchRunning -> (bt_attempts b < 3)%N ->
      leases !! (id, bt_epoch b + 1)%N = Some started -> (expires <= started + MAX_WORKER_MS)%N ->
      batch_step leases id b (claimed_batch (bt_epoch b + 1) expires b)
  | batch_renew b expires started :
      bt_status b = BatchRunning ->
      leases !! (id, bt_epoch b) = Some started -> (expires <= started + MAX_WORKER_MS)%N ->
      batch_step leases id b (with_bt_lease_expires_at expires b)
  | batch_block b :
      bt_status b = BatchRunning -> bt_attempts b = 3%N -> batch_step leases id b (with_bt_status BatchBlocked b)
  | batch_cancel b : batch_active b = true -> batch_step leases id b (with_bt_status BatchCancelled b)
  | batch_complete b :
      bt_status b = BatchRunning -> batch_step leases id b (with_bt_status BatchCompleted b).

Lemma batch_step_mono l l' id b b' : l ⊆ l' -> batch_step l id b b' -> batch_step l' id b b'.
Proof.
  intros Hl Hs. destruct Hs; econstructor; eauto; by eapply lookup_weaken.
Qed.

(** What no step changes, and that only active batches move. *)
Definition same_window b b' : Prop :=
  bt_room b' = bt_room b /\ bt_editor b' = bt_editor b /\ bt_after b' = bt_after b
  /\ bt_through b' = bt_through b.
Lemma batch_step_window l id b b' : batch_step l id b b' -> same_window b b' /\ batch_active b = true.
Proof.
  unfold batch_active.
  destruct 1 as [b e s Hst _ _ _|b e s Hst _ _|b Hst _|b Hst|b Hst]; (split; [done|]).
  - by destruct Hst as [-> | ->].
  - by rewrite Hst.
  - by rewrite Hst.
  - done.
  - by rewrite Hst.
Qed.

(** ** The invariant of the batches *)

Record core_ok t : Prop := {
  co_one : forall i j b b', t_batches t !! i = Some b -> t_batches t !! j = Some b' ->
    bt_room b = bt_room b' -> batch_active b = true -> batch_active b' = true -> i = j;
  co_epoch : forall i b, t_batches t !! i = Some b ->
    bt_epoch b = bt_attempts b /\ (bt_attempts b <= 3)%N
    /\ (bt_status b = BatchQueued -> bt_attempts b = 0%N);
  co_lease : forall i b, t_batches t !! i = Some b -> bt_status b = BatchRunning ->
    exists started, t_leases t !! (i, bt_epoch b) = Some started
      /\ (bt_lease_expires_at b <= started + MAX_WORKER_MS)%N;
  co_epochs : forall i e s, t_leases t !! (i, e) = Some s ->
    exists b, t_batches t !! i = Some b /\ (e <= bt_epoch b)%N;
  co_receipt : forall room i e r, t_receipts t !! (room, i, e) = Some r ->
    exists b, t_batches t !! i = Some b /\ bt_status b = BatchCompleted /\ bt_epoch b = e
      /\ bt_room b = room;
}.

(** A pending batch starts where the wiki was reviewed to, and is its editor's. *)
Definition fits t b : Prop :=
  exists w, t_wiki t !! bt_room b = Some w /\ wk_enabled w = true /\ wk_editor w = bt_editor b
  /\ wk_reviewed_through w = bt_after b /\ (bt_after b < bt_through b)%N.
Definition active_fits t : Prop :=
  forall i b, t_batches t !! i = Some b -> batch_active b = true -> fits t b.

(** One step of some batches. *)
Definition moved t t' : Prop :=
  forall i, match t_batches t !! i with
            | None => t_batches t' !! i = None
            | Some b => exists b', t_batches t' !! i = Some b' /\ (b' = b \/ batch_step (t_leases t') i b b')
            end.

Lemma moved_back t t' i b' : moved t t' -> t_batches t' !! i = Some b' ->
  exists b, t_batches t !! i = Some b /\ (b' = b \/ batch_step (t_leases t') i b b').
Proof.
  intros Hm Hb'. specialize (Hm i). destruct (t_batches t !! i) as [b|]; [|congruence].
  destruct Hm as (b'' & E & Hs). exists b. split; [done|]. congruence.
Qed.
Lemma moved_active t t' i b' : moved t t' -> t_batches t' !! i = Some b' -> batch_active b' = true ->
  exists b, t_batches t !! i = Some b /\ batch_active b = true /\ same_window b b'.
Proof.
  intros Hm Hb' Ha. destruct (moved_back t t' i b' Hm Hb') as (b & Hb & [-> |Hs]); [by exists b|].
  apply batch_step_window in Hs as [Hw Hb2]. by exists b.
Qed.

Lemma core_moved t t' :
  moved t t' -> t_leases t ⊆ t_leases t' ->
  (forall i e s, t_leases t' !! (i, e) = Some s -> t_leases t !! (i, e) = Some s
    \/ exists b, t_batches t' !! i = Some b /\ (e <= bt_epoch b)%N) ->
  (forall room i e r, t_receipts t' !! (room, i, e) = Some r -> t_receipts t !! (room, i, e) = Some r
    \/ exists b, t_batches t' !! i = Some b /\ bt_status b = BatchCompleted /\ bt_epoch b = e
         /\ bt_room b = room) ->
  core_ok t -> core_ok t'.
Proof.
  intros Hm Hsub Hl Hr [H1 H2 H3 H4 H5]. constructor.
  - intros i j b b' Hi Hj Hroom Ha Ha'.
    destruct (moved_active t t' i b Hm Hi Ha) as (b0 & Hb0 & Ha0 & (Er & _)).
    destruct (moved_active t t' j b' Hm Hj Ha') as (b1 & Hb1 & Ha1 & (Er' & _)).
    apply (H1 i j b0 b1); congruence.
  - intros i b' Hb'. destruct (moved_back t t' i b' Hm Hb') as (b & Hb & [-> |Hs]); [by apply (H2 i)|].
    destruct (H2 i b Hb) as (He & Ha & Hq). destruct Hs; cbn; (split_and!; [lia|lia|done]).
  - intros i b' Hb' Hrun. destruct (moved_back t t' i b' Hm Hb') as (b & Hb & [-> |Hs]).
    + destruct (H3 i b Hb Hrun) as (s & Hs & Hx). exists s. split; [by eapply lookup_weaken|done].
    + destruct Hs as [b x s _ _ Hx Hle|b x s _ Hx Hle|b Hst|b Hst|b Hst]; try done; by exists s.
  - intros i e s Hs. destruct (Hl i e s Hs) as [Hold|Hnew]; [|done].
    destruct (H4 i e s Hold) as (b & Hb & He). specialize (Hm i). rewrite Hb in Hm.
    destruct Hm as (b' & Hb' & [-> |Hst]); [by exists b|]. exists b'. split; [done|].
    destruct Hst; cbn; lia.
  - intros room i e r Hrec. destruct (Hr room i e r Hrec) as [Hold|Hnew]; [|done].
    destruct (H5 room i e r Hold) as (b & Hb & Hc & He & Hroom). specialize (Hm i). rewrite Hb in Hm.
    destruct Hm as (b' & Hb' & [-> |Hst]); [by exists b|]. exfalso.
    apply batch_step_window in Hst as [_ Ha]. unfold batch_active in Ha. by rewrite Hc in Ha.
Qed.

Lemma fits_moved t t' :
  moved t t' -> t_wiki t' = t_wiki t -> active_fits t -> active_fits t'.
Proof.
  intros Hm Hw Hf i b' Hb' Ha. destruct (moved_active t t' i b' Hm Hb' Ha) as (b & Hb & Ha0 & Er & Ee & Ea & Et).
  unfold fits. rewrite Hw, Er, Ee, Ea, Et. by apply (Hf i b).
Qed.

(** ** The invariant of the pages *)

(** [limit] is the revision of the wiki of a room. *)
Record pages_ok (limit : string -> option N) t : Prop := {
  po_page : forall room slug p, t_pages t !! (room, slug) = Some p ->
    exists n, limit room = Some n /\ (pg_revision p <= n)%N
    /\ (pg_revision p = 0%N -> pg_body p = ""%string /\ pg_sources p = [])
    /\ ((0 < pg_revision p)%N -> exists r, t_history t !! (room, slug, pg_revision p) = Some r
          /\ hs_title r = pg_title p /\ hs_body r = pg_body p /\ hs_sources r = pg_sources p);
  po_history : forall room slug n r, t_history t !! (room, slug, n) = Some r ->
    exists m, limit room = Some m /\ (1 <= n <= m)%N;
}.
Definition wiki_limit t (room : string) : option N := wk_revision <$> t_wiki t !! room.

Lemma pages_same limit limit' t t' :
  (forall room, limit' room = limit room) -> t_pages t' = t_pages t -> t_history t' = t_history t ->
  pages_ok limit t -> pages_ok limit' t'.
Proof.
  intros El Ep Eh [Hp Hh]. constructor; rewrite ?Ep, ?Eh.
  - intros room slug p Hs. rewrite El. by apply Hp.
  - intros room slug n r Hs. rewrite El. by eapply Hh.
Qed.

Record wiki_ok t : Prop := {
  wo_core : core_ok t;
  wo_fits : active_fits t;
  wo_pages : pages_ok (wiki_limit t) t;
}.

(** What time does to a wiki. *)
Record wiki_grew t t' : Prop := {
  wg_wiki : forall room w, t_wiki t !! room = Some w ->
    exists w', t_wiki t' !! room = Some w' /\ (wk_revision w <= wk_revision w')%N
    /\ (wk_reviewed_through w <= wk_reviewed_through w')%N;
  wg_history : t_history t ⊆ t_history t';
  wg_receipts : t_receipts t ⊆ t_receipts t';
  wg_leases : t_leases t ⊆ t_leases t';
  wg_batch : forall i b, t_batches t !! i = Some b ->
    exists b', t_batches t' !! i = Some b' /\ rtc (batch_step (t_leases t') i) b b';
}.

#[export] Instance wiki_grew_refl : Reflexive wiki_grew.
Proof.
  intros t. constructor; try done.
  - intros room w Hw. exists w. split_and!; [done|lia|lia].
  - intros i b Hb. by exists b.
Qed.
#[export] Instance wiki_grew_trans : Transitive wiki_grew.
Proof.
  intros t1 t2 t3 [W1 H1 R1 L1 B1] [W2 H2 R2 L2 B2]. constructor; try (by etrans).
  - intros room w Hw. destruct (W1 room w Hw) as (w2 & Hw2 & Hr & Hc).
    destruct (W2 room w2 Hw2) as (w3 & Hw3 & Hr' & Hc'). exists w3. split_and!; [done|lia|lia].
  - intros i b Hb. destruct (B1 i b Hb) as (b2 & Hb2 & Hs). destruct (B2 i b2 Hb2) as (b3 & Hb3 & Hs').
    exists b3. split; [done|]. etrans; [|exact Hs'].
    apply (rtc_subrel (batch_step (t_leases t2) i)); [|done]. intros x y. by apply batch_step_mono.
Qed.

Definition keeps_wiki t t' : Prop := wiki_ok t -> wiki_ok t' /\ wiki_grew t t'.
Lemma keeps_wiki_refl t : keeps_wiki t t.
Proof. intros Hok. by split. Qed.
Lemma keeps_wiki_trans t1 t2 t3 : keeps_wiki t1 t2 -> keeps_wiki t2 t3 -> keeps_wiki t1 t3.
Proof. intros H12 H23 Hok. destruct (H12 Hok) as [Hok2 G1]. destruct (H23 Hok2) as [Hok3 G2]. split; [done|by etrans]. Qed.

Lemma moved_grew t t' : moved t t' -> forall i b, t_batches t !! i = Some b ->
  exists b', t_batches t' !! i = Some b' /\ rtc (batch_step (t_leases t') i) b b'.
Proof.
  intros Hm i b Hb. specialize (Hm i). rewrite Hb in Hm. destruct Hm as (b' & Hb' & [-> |Hs]); [by exists b|].
  exists b'. split; [done|by apply rtc_once].
Qed.

(** Steps of batches that leave the wiki, its pages and the history alone. *)
Lemma keeps_moved t t' :
  t_wiki t' = t_wiki t -> t_pages t' = t_pages t -> t_history t' = t_history t ->
  t_receipts t' = t_receipts t -> moved t t' -> t_leases t ⊆ t_leases t' ->
  (forall i e s, t_leases t' !! (i, e) = Some s -> t_leases t !! (i, e) = Some s
    \/ exists b, t_batches t' !! i = Some b /\ (e <= bt_epoch b)%N) ->
  keeps_wiki t t'.
Proof.
  intros Ew Ep Eh Er Hm Hsub Hl [Hc Hf Hp]. split; constructor; try done.
  - apply (core_moved t t'); try done. intros room i e r. rewrite Er. by left.
  - by apply (fits_moved t t').
  - eapply pages_same, Hp; [|done..]. intros room. unfold wiki_limit. by rewrite Ew.
  - rewrite Ew. intros room w Hw. exists w. split_and!; [done|lia|lia].
  - by rewrite Eh.
  - by rewrite Er.
  - by apply moved_grew.
Qed.

Lemma update_moved p f t t' :
  t_batches t' = (update_where p f (t_batches t)).1 ->
  (forall i b, t_batches t !! i = Some b -> p i b = true -> batch_step (t_leases t') i b (f b)) ->
  moved t t'.
Proof.
  intros E Hs i. rewrite E, update_where_lookup. destruct (t_batches t !! i) as [b|] eqn:Hb; [|done].
  cbn. eexists. split; [done|]. destruct (p i b) eqn:Hp; [right; by apply Hs|by left].
Qed.

(** A statement on the batches alone. *)
Lemma batches_keep t p f :
  (forall i b, t_batches t !! i = Some b -> p i b = true -> batch_step (t_leases t) i b (f b)) ->
  keeps_wiki t (with_t_batches (update_where p f (t_batches t)).1 t).
Proof.
  intros Hs. apply keeps_moved; try done.
  - by apply (update_moved p f).
  - by left.
Qed.
Lemma cancel_keeps t p :
  (forall i b, p i b = true -> batch_active b = true) ->
  keeps_wiki t (with_t_batches (update_where p (with_bt_status BatchCancelled) (t_batches t)).1 t).
Proof. intros Hp. apply batches_keep. intros i b _ Hb. apply batch_cancel. by eapply Hp. Qed.

(** ** The operations of maintenance *)

Section maintenance.
Context `{Unicode}.

Lemma cancel_review_keeps room c : keeps_wiki (tables c) (tables (db_cancel_wiki_review room c).1).
Proof.
  unfold db_cancel_wiki_review, bind. destruct (execute _ _ _ c) as [c' [n|e]] eqn:Ex; cbn.
  - apply execute_ok in Ex as [Ex _]. injection Ex as Ex _. rewrite <- Ex.
    apply cancel_keeps. intros i b Hab. by apply andb_prop in Hab as [_ Ha].
  - apply execute_err in Ex as [-> _]. apply keeps_wiki_refl.
Qed.

Lemma next_batch_fresh t i b : t_batches t !! i = Some b -> (i < next_batch_id t)%N.
Proof.
  intros E. unfold next_batch_id. assert (i ∈ keys (t_batches t)) as Hin by (apply elem_of_keys; eauto).
  revert Hin. generalize (keys (t_batches t)). induction l as [|x l IH]; [by intros ?%elem_of_nil|].
  change (foldr N.max 0%N (x :: l)) with (N.max x (foldr N.max 0%N l)).
  intros [-> |Hin]%elem_of_cons; [lia|]. specialize (IH Hin). lia.
Qed.

(** A new batch, queued in a room without a pending one. *)
Lemma insert_batch_keeps t i b t' n :
  insert_batch i b t = Some (t', n) -> bt_status b = BatchQueued -> bt_epoch b = 0%N -> bt_attempts b = 0%N ->
  fits t b -> keeps_wiki t t'.
Proof.
  unfold insert_batch. destruct (is_none _) eqn:Ea; [|done]. cbn [negb]. unfold insert_row.
  destruct (t_batches t !! i) eqn:Ei; [done|]. intros [= <- _] Hq He Hat Hfits [Hc Hf Hp].
  assert (forall j b', t_batches t !! j = Some b' -> bt_room b' = bt_room b -> batch_active b' = false) as Hnone.
  { intros j b' Hj Er. unfold is_none in Ea. destruct (select_where _ _) eqn:Es; [done|].
    pose proof (proj1 (select_where_None _ _) Es j b' Hj) as Hn. cbn in Hn. unfold room_batch in Hn.
    by rewrite bool_decide_eq_true_2 in Hn. }
  split.
  - constructor; [|intros j b'; cbn; intros [[<- <-]|[Hne Hj]]%lookup_insert_Some; [done|exact (Hf j b' Hj)]|by eapply pages_same, Hp].
    destruct Hc as [H1 H2 H3 H4 H5]. constructor; cbn.
    + intros j k b1 b2 [[<- <-]|[Hj Hb1]]%lookup_insert_Some [[<- <-]|[Hk Hb2]]%lookup_insert_Some Er Ha1 Ha2.
      * done.
      * by rewrite (Hnone k b2 Hb2) in Ha2 by done.
      * by rewrite (Hnone j b1 Hb1) in Ha1 by done.
      * by apply (H1 j k b1 b2).
    + intros j b1 [[<- <-]|[Hj Hb1]]%lookup_insert_Some; [|by apply (H2 j)]. rewrite He, Hat. split_and!; done.
    + intros j b1 [[<- <-]|[Hj Hb1]]%lookup_insert_Some Hrun; [congruence|by apply (H3 j)].
    + intros j e s Hs. destruct (H4 j e s Hs) as (b1 & Hb1 & Hle). exists b1. split; [|done].
      rewrite lookup_insert_ne; [done|]. intros ->. congruence.
    + intros room j e r Hr. destruct (H5 room j e r Hr) as (b1 & Hb1 & Hrest). exists b1. split; [|done].
      rewrite lookup_insert_ne; [done|]. intros ->. congruence.
  - constructor; cbn; try done.
    + intros room w Hw. exists w. split_and!; [done|lia|lia].
    + intros j b1 Hb1. exists b1. split; [|done]. rewrite lookup_insert_ne; [done|]. intros ->. congruence.
Qed.

Lemma elem_of_messages_where t p m :
  m ∈ messages_where t p <-> exists k r, t_messages t !! k = Some r /\ p r = true /\ m = message_from_row r.
Proof.
  unfold messages_where. rewrite sort_by_N_Permutation, list_elem_of_fmap. split.
  - intros (r & -> & Hr). rewrite list_elem_of_In, filter_In, <- list_elem_of_In in Hr. destruct Hr as [Hr Hp].
    apply elem_of_values in Hr as [k Hk]. by exists k, r.
  - intros (k & r & Hk & Hp & ->). exists r. split; [done|].
    rewrite list_elem_of_In, filter_In, <- list_elem_of_In. split; [|done]. apply elem_of_values. by exists k.
Qed.

Lemma review_input_after t room cursor e : e ∈ review_inputs t room cursor -> (cursor < e.1)%N.
Proof.
  unfold review_inputs. intros He. apply elem_of_take in He as (i & He & _).
  apply list_elem_of_lookup_2, list_elem_of_fmap in He as (m & -> & Hm).
  apply elem_of_messages_where in Hm as (k & r & _ & Hp & ->). apply andb_prop in Hp as [_ Hp].
  by apply N.ltb_lt in Hp.
Qed.

(** The end of the window that is queued. *)
Definition window_end (inputs : list (N * N)) : N :=
  default 0%N (fst <$> inputs !! (Nat.min (length inputs) MAX_BATCH_MESSAGES - 1)).
Lemma window_end_in inputs : inputs <> [] -> exists e, e ∈ inputs /\ window_end inputs = e.1.
Proof.
  intros Hne. unfold window_end.
  destruct (lookup_lt_is_Some_2 inputs (Nat.min (length inputs) MAX_BATCH_MESSAGES - 1)) as [e He].
  { destruct inputs; [done|]. unfold MAX_BATCH_MESSAGES. cbn [length]. lia. }
  rewrite He. exists e. split; [by eapply list_elem_of_lookup_2|done].
Qed.

Lemma schedule_effect room at_ c c' r :
  db_schedule_wiki_review room at_ c = (c', r) ->
  tables c' = tables c
  \/ exists w reason n, r = Ok true /\ t_wiki (tables c) !! room = Some w /\ wk_enabled w = true
     /\ review_reason (review_inputs (tables c) room (wk_reviewed_through w)) (wk_interval w) at_ = Some reason
     /\ insert_batch (next_batch_id (tables c))
          (mkBatchRow room (wk_editor w) (wk_reviewed_through w)
             (window_end (review_inputs (tables c) room (wk_reviewed_through w))) BatchQueued reason at_ 0 0 0)
          (tables c) = Some (tables c', n).
Proof.
  intros [E|(a & c2 & -> & Hm & ->)]%transaction_if_cases; [by left|right].
  cbn [tables past_fault] in Hm. wiki. subst. cbn [tables past_fault] in Hm.
  destruct (t_wiki (tables c) !! room) as [w|] eqn:Ew; [|by wiki].
  destruct (wk_enabled w) eqn:Een; [|by wiki]. cbn [negb] in Hm. wiki. subst. cbn [tables past_fault] in Hm.
  match goal with Hm : (if ?b then _ else _) _ = _ |- _ => destruct b; [by wiki|] end.
  wiki. subst. cbn [tables past_fault] in Hm.
  destruct (review_reason _ _ _) as [reason|] eqn:Er in Hm; [|by wiki].
  wiki. subst. cbn [tables past_fault] in *.
  match goal with Hi : insert_batch _ _ _ = _ |- _ => exists w, reason; eexists; split_and!; [done..|exact Hi] end.
Qed.

Lemma review_reason_inputs inputs interval at_ reason :
  review_reason inputs interval at_ = Some reason -> inputs <> [].
Proof. by destruct inputs. Qed.

Lemma schedule_keeps room at_ c : keeps_wiki (tables c) (tables (db_schedule_wiki_review room at_ c).1).
Proof.
  destruct (db_schedule_wiki_review room at_ c) as [c' r] eqn:E. cbn.
  apply schedule_effect in E as [-> |(w & reason & n & _ & Hw & Hen & Hr & Hi)]; [apply keeps_wiki_refl|].
  eapply insert_batch_keeps; [exact Hi|done..|]. exists w. split_and!; try done. cbn.
  apply review_reason_inputs, window_end_in in Hr as (e & He & ->). by apply review_input_after in He.
Qed.

Lemma on_update {K V} `{Countable K} (get : Tables -> gmap K V) put p f t t' n :
  on_table get put (update_where p f) t = Some (t', n) -> t' = put (update_where p f (get t)).1 t.
Proof. unfold on_table. destruct (update_where p f (get t)). by intros [= <- _]. Qed.

(** What a claim that hands out a batch did: [t1] is left by the blocking of what
    is exhausted. *)
Definition claimed t room principal (at_ : N) (id : N) b t' : Prop :=
  claimable_batch t room principal at_ = Some (id, b)
  /\ t_leases t !! (id, bt_epoch b + 1)%N = None
  /\ t' = with_t_leases (<[(id, bt_epoch b + 1)%N := at_]> (t_leases t))
            (with_t_batches (update_where (fun k _ => bool_decide (k = id))
               (claimed_batch (bt_epoch b + 1) (at_ + LEASE_MS)) (t_batches t)).1 t).
Definition blocked t room (at_ : N) : Tables :=
  with_t_batches (update_where (fun _ b => room_batch room b && bool_decide (bt_status b = BatchRunning)
                     && (bt_lease_expires_at b <=? at_)%N && (3 <=? bt_attempts b)%N)
       (with_bt_status BatchBlocked) (t_batches t)).1 t.

Lemma claim_review_effect room principal at_ c c' r :
  db_claim_wiki_review room principal at_ c = (c', r) ->
  tables c' = tables c
  \/ exists w, t_wiki (tables c) !! room = Some w /\ wk_enabled w = true /\ wk_editor w = principal
     /\ ((r = Ok None /\ tables c' = blocked (tables c) room at_)
         \/ exists id b, claimed (blocked (tables c) room at_) room principal at_ id b (tables c')
            /\ r = Ok (Some (mkWikiBatch (mkWikiLease id (bt_epoch b + 1)) room (bt_after b) (bt_through b)
                  (bt_reason b) (at_ + LEASE_MS) (bt_attempts b + 1)
                  (review_messages (tables c) room (bt_after b) (bt_through b))))).
Proof.
  intros [E|(a & c2 & -> & Hm & ->)]%transaction_if_cases; [by left|right].
  wiki. subst. cbn [tables past_fault] in *.
  match goal with Hr : _ = Some ?w, Hp : negb (bool_decide (wk_editor ?w = _)) = false |- _ =>
    rename w into wk; rename Hr into Hw; apply negb_false_iff, bool_decide_eq_true in Hp as Hed end.
  destruct (wk_enabled wk) eqn:Een; [|by wiki]. cbn [negb] in Hm. wiki. subst. cbn [tables past_fault] in *.
  match goal with Hb : block_exhausted _ _ _ = Some (tables ?c1, _) |- _ =>
    apply on_update in Hb as Hblock; fold (blocked (tables c) room at_) in Hblock; rename c1 into cb end.
  exists wk. split_and!; [done..|]. rewrite Hblock in Hm.
  destruct (claimable_batch (blocked (tables c) room at_) room (wk_editor wk) at_) as [[id b]|] eqn:Ej.
  2: { wiki. subst. by left. }
  right. exists id, b. wiki. subst. cbn [tables past_fault] in *.
  unfold checked_add64 in *. repeat (case_match; simplify_eq).
  match goal with Hu : update_batch _ _ _ = Some _ |- _ => apply on_update in Hu as Hupd end.
  match goal with Hi : insert_row _ _ _ = _, Ht : with_t_leases _ _ = tables ?cl |- _ =>
    unfold insert_row in Hi; rewrite Hupd in Hi, Ht; cbn [t_leases with_t_batches] in Hi;
    rewrite Hblock in Hi, Ht; case_match; [done|]; injection Hi as <- _; rename Ht into Hlast end.
  rewrite <- Hlast. by split_and!.
Qed.

Lemma blocked_keeps t room at_ : wiki_ok t -> keeps_wiki t (blocked t room at_).
Proof.
  intros Hok. apply batches_keep. intros i b Hb Hp. apply andb_prop in Hp as [Hp Ha].
  apply andb_prop in Hp as [Hp _]. apply andb_prop in Hp as [_ Hr]. apply N.leb_le in Ha.
  apply batch_block; [by apply bool_decide_eq_true in Hr|].
  destruct (co_epoch _ (wo_core _ Hok) i b Hb) as (_ & Hle & _). lia.
Qed.

Lemma claimable_batch_ok t room principal at_ id b :
  claimable_batch t room principal at_ = Some (id, b) ->
  t_batches t !! id = Some b /\ bt_room b = room /\ bt_editor b = principal
  /\ (bt_status b = BatchQueued \/ bt_status b = BatchRunning /\ (bt_lease_expires_at b <= at_)%N).
Proof.
  unfold claimable_batch. intros [Hb Hp]%select_where_Some. split; [done|].
  apply andb_prop in Hp as [Hp Hst]. apply andb_prop in Hp as [Hroom Hed].
  split_and!; [by apply bool_decide_eq_true in Hroom|by apply bool_decide_eq_true in Hed|].
  apply orb_prop in Hst as [Hq|Hr]; [left; by apply bool_decide_eq_true in Hq|right].
  apply andb_prop in Hr as [Hr Hx]. split; [by apply bool_decide_eq_true in Hr|by apply N.leb_le in Hx].
Qed.

(** What is left by the blocking has been tried less than three times. *)
Lemma claimable_attempts t room principal at_ id b :
  wiki_ok t -> claimable_batch (blocked t room at_) room principal at_ = Some (id, b) ->
  (bt_attempts b < 3)%N /\ (bt_status b = BatchQueued \/ bt_status b = BatchRunning).
Proof.
  intros Hok (Hb & Hroom & _ & Hst)%claimable_batch_ok.
  destruct (blocked_keeps t room at_ Hok Hok) as [Hok' _].
  destruct (co_epoch _ (wo_core _ Hok') id b Hb) as (_ & Hle & Hq).
  destruct Hst as [Hst|[Hst Hx]]; [rewrite (Hq Hst); split; [lia|by left]|]. split; [|by right].
  unfold blocked in Hb. cbn [t_batches with_t_batches] in Hb. rewrite update_where_lookup in Hb.
  destruct (t_batches t !! id) as [b0|] eqn:E; [|done]. cbn in Hb. injection Hb as Hb.
  destruct (room_batch room b0 && _ && _ && _) eqn:Ep; subst b; [done|].
  unfold room_batch in Ep. rewrite !bool_decide_eq_true_2 in Ep by done. cbn in Ep.
  apply N.leb_le in Hx. rewrite Hx in Ep. cbn in Ep. apply N.leb_gt in Ep. done.
Qed.

Lemma claimed_keeps t room principal at_ id b t' :
  (bt_attempts b < 3)%N -> bt_status b = BatchQueued \/ bt_status b = BatchRunning ->
  claimed t room principal at_ id b t' -> keeps_wiki t t'.
Proof.
  intros Ha Hst (Hc & Hn & ->). apply claimable_batch_ok in Hc as (Hb & _).
  apply keeps_moved; try done.
  - intros i. cbn. rewrite map_lookup_imap. destruct (t_batches t !! i) as [b0|] eqn:E; [|done]. cbn.
    eexists. split; [done|]. case_bool_decide as Hi; [right|by left]. subst i.
    assert (b0 = b) as -> by congruence. apply (batch_claim _ _ _ _ at_); [done..| |].
    + by rewrite lookup_insert_eq.
    + unfold LEASE_MS, MAX_WORKER_MS. lia.
  - cbn. by apply insert_subseteq.
  - intros i e s. cbn. intros [[[= <- <-] <-]|[_ Hs]]%lookup_insert_Some; [right|by left].
    rewrite map_lookup_imap, Hb. cbn. rewrite bool_decide_eq_true_2 by done. eexists. split; [done|]. cbn. lia.
Qed.

Lemma claim_keeps room principal at_ c :
  keeps_wiki (tables c) (tables (db_claim_wiki_review room principal at_ c).1).
Proof.
  destruct (db_claim_wiki_review room principal at_ c) as [c' r] eqn:E. cbn. intros Hok.
  apply claim_review_effect in E as [-> |(w & _ & _ & _ & [[_ ->]|(id & b & Hcl & _)])].
  - by apply keeps_wiki_refl.
  - by apply blocked_keeps.
  - apply (keeps_wiki_trans _ (blocked (tables c) room at_)); [by apply blocked_keeps| |done].
    destruct (claimable_attempts (tables c) room principal at_ id b Hok (proj1 Hcl)) as [Ha Hst].
    by eapply claimed_keeps.
Qed.

(** ** Leases *)

(** What makes a lease valid. *)
Definition holds_lease t room principal (lease : WikiLease) (at_ : N) : Prop :=
  exists b w, t_batches t !! wl_batch_id lease = Some b /\ t_wiki t !! room = Some w
  /\ bt_epoch b = wl_epoch lease /\ bt_room b = room /\ bt_editor b = principal
  /\ bt_status b = BatchRunning /\ (at_ < bt_lease_expires_at b)%N
  /\ wk_enabled w = true /\ wk_editor w = principal.

Lemma lease_valid_ok room principal lease at_ c c' :
  lease_valid room principal lease at_ c = (c', Ok true) ->
  c' = c /\ holds_lease (tables c) room principal lease at_.
Proof.
  intros (_ & Hv & ->)%read_ok. split; [done|]. symmetry in Hv.
  destruct (t_batches (tables c) !! wl_batch_id lease) as [b|] eqn:Eb; [|done].
  destruct (t_wiki (tables c) !! room) as [w|] eqn:Ew; [|done]. exists b, w.
  unfold room_batch in Hv. rewrite !andb_true_iff, N.eqb_eq, N.ltb_lt, !bool_decide_eq_true in Hv.
  destruct Hv as ((((((He & Hr) & Hp) & Hs) & Hx) & Hen) & Hed).
  split_and!; try done. congruence.
Qed.

Lemma renew_effect room principal lease at_ c c' r :
  db_renew_wiki_review room principal lease at_ c = (c', r) ->
  tables c' = tables c
  \/ exists expires started, r = Ok expires /\ holds_lease (tables c) room principal lease at_
     /\ t_leases (tables c) !! (wl_batch_id lease, wl_epoch lease) = Some started
     /\ (at_ < expires <= started + MAX_WORKER_MS)%N
     /\ tables c' = with_t_batches (update_where (fun k _ => bool_decide (k = wl_batch_id lease))
           (with_bt_lease_expires_at expires) (t_batches (tables c))).1 (tables c).
Proof.
  intros [E|(a & c2 & -> & Hm & ->)]%transaction_cases; [by left|right].
  apply bind_ok in Hm as (c1 & valid & Hv & Hm). wiki. subst. cbn [tables past_fault] in *.
  destruct valid; [|done]. apply lease_valid_ok in Hv as [-> Hv]. cbn [tables past_fault] in *.
  destruct a2 as [started existing].
  destruct (t_leases (tables c) !! (wl_batch_id lease, wl_epoch lease)) as [s|] eqn:El; [|done].
  wiki. unfold checked_add64 in *. repeat (case_match; simplify_eq/=).
  match goal with Hu : update_batch _ _ _ = Some _ |- _ => apply on_update in Hu as Hupd end.
  match goal with Hx : (?e <=? at_)%N = false |- _ => apply N.leb_gt in Hx; exists e, started end.
  destruct (t_batches (tables c) !! wl_batch_id lease); [|done]. simplify_eq/=.
  split_and!; try done. lia.
Qed.

Lemma renew_keeps room principal lease at_ c :
  keeps_wiki (tables c) (tables (db_renew_wiki_review room principal lease at_ c).1).
Proof.
  destruct (db_renew_wiki_review room principal lease at_ c) as [c' r] eqn:E. cbn.
  apply renew_effect in E as [-> |(expires & started & _ & Hv & Hl & [_ Hx] & ->)]; [apply keeps_wiki_refl|].
  apply batches_keep. intros i b Hb Hi%bool_decide_eq_true. subst i.
  destruct Hv as (b' & w & Hb' & _ & He & _ & _ & Hs & _). assert (b' = b) as -> by congruence.
  apply (batch_renew _ _ _ _ started); [done| |done]. by rewrite He.
Qed.
End maintenance.
