(* ===== verification/WikiPublish.v ===== *)
(** * The wiki: what publishing does

    The effect of a configuration, a removal and a publication on the tables, and
    that they keep the invariant of the wiki. *)

From Stdlib Require Import Ascii.
From Stdlib Require String.
From S2P Require Import Prelude Text Protocol StoreApi Sql Tables Hub Doors Identity Operators.
From S2P Require Import StoreAttention StoreWork StoreMessages WikiTypes WikiMaintenance Wiki.
From S2P Require Import WikiFacts.

Open Scope loca_scope.

Implicit Types t : Tables.
Implicit Types c : Conn Tables.
Implicit Types b : BatchRow.

(** Only the pages and the history differ. *)
Definition same_but_pages t t' : Prop :=
  t_wiki t' = t_wiki t /\ t_batches t' = t_batches t /\ t_leases t' = t_leases t
  /\ t_receipts t' = t_receipts t /\ t_messages t' = t_messages t.

(** The revision of one room is [next], the others are as before. *)
Definition limit_at (limit : string -> option N) (room : string) (next : N) (r : string) : option N :=
  if decide (r = room) then Some next else limit r.

Lemma pages_limit limit room rev next t :
  pages_ok limit t -> limit room = Some rev -> (rev <= next)%N -> pages_ok (limit_at limit room next) t.
Proof.
  intros [Hp Hh] Hl Hle. constructor.
  - intros r slug p Hs. destruct (Hp r slug p Hs) as (n & Hn & Hb & Hrest). unfold limit_at.
    case_decide as E; [subst r|by exists n]. exists next. assert (n = rev) as -> by congruence.
    split_and!; [done|lia|by destruct Hrest..].
  - intros r slug n h Hs. destruct (Hh r slug n h Hs) as (m & Hm & Hb). unfold limit_at.
    case_decide as E; [subst r|by exists m]. exists next. assert (m = rev) as -> by congruence. split; [done|lia].
Qed.

Section publish.
Context `{Unicode}.

(** ** Configuring *)

Definition configured_row t room editor enabled interval : WikiRow :=
  match t_wiki t !! room with
  | None => mkWikiRow editor enabled interval 0 0 None None
  | Some w => mkWikiRow editor enabled interval (wk_revision w) (wk_reviewed_through w)
                (wk_reviewed_at w) (wk_edited_at w)
  end.
Definition with_first_page room slug title t : Tables :=
  with_t_pages (insert_or_ignore (room, slug) (mkPageRow title "" [] 0) (t_pages t)).1 t.
(** What pending work the new configuration ends. *)
Definition superseded room editor enabled (id : N) b : bool :=
  active_in room id b && (negb (bool_decide (bt_editor b = editor)) || negb enabled).
Definition cancelled p t : Tables :=
  with_t_batches (update_where p (with_bt_status BatchCancelled) (t_batches t)).1 t.
Definition configured t room editor enabled interval : Tables :=
  with_first_page room "working" "Working area" (with_first_page room "overview" "Overview"
    (with_t_wiki (<[room := configured_row t room editor enabled interval]> (t_wiki t))
      (cancelled (superseded room editor enabled) t))).

Lemma on_insert_or_ignore {K V} `{Countable K} (get : Tables -> gmap K V) put k v t t' n :
  on_table get put (insert_or_ignore k v) t = Some (t', n) -> t' = put (insert_or_ignore k v (get t)).1 t.
Proof. unfold on_table. destruct (insert_or_ignore k v (get t)). by intros [= <- _]. Qed.

Lemma configure_effect room editor enabled interval c c' r :
  db_configure_wiki room editor enabled interval c = (c', r) ->
  tables c' = tables c
  \/ r = Ok tt /\ configuration_refused editor interval = false
     /\ tables c' = configured (tables c) room editor enabled interval.
Proof.
  unfold db_configure_wiki. destruct (configuration_refused editor interval); [intros [= <- _]; by left|].
  intros [E|([] & c2 & -> & Hm & ->)]%transaction_cases; [by left|right]. wiki. subst.
  match goal with Hc : cancel_where _ _ = Some _ |- _ => apply on_update in Hc as Ec end.
  match goal with Hf : first_page _ "overview"%string _ _ = _, Hg : first_page _ "working"%string _ _ = _,
    Hw : Some (with_t_wiki _ _, _) = _ |- _ =>
    apply on_insert_or_ignore in Hf as Eo, Hg as Eg; injection Hw as Ew _ end.
  split_and!; [done..|]. rewrite Ec in Ew. rewrite Eg, Eo, <- Ew. reflexivity.
Qed.

Lemma first_page_ok limit t room slug title n :
  limit room = Some n -> pages_ok limit t -> pages_ok limit (with_first_page room slug title t).
Proof.
  intros Hl [Hp Hh]. constructor; [|done]. intros r s p. cbn. unfold insert_or_ignore.
  destruct (t_pages t !! (room, slug)); [by apply Hp|]. cbn.
  intros [[[= <- <-] <-]|[_ Hs]]%lookup_insert_Some; [|by apply Hp].
  exists n. cbn. split_and!; [done|lia|done|lia].
Qed.

(** A row that keeps the revision keeps the bounds. *)
Lemma row_limit t room row :
  (forall w, t_wiki t !! room = Some w -> wk_revision row = wk_revision w) ->
  pages_ok (wiki_limit t) t ->
  pages_ok (fun r => wk_revision <$> <[room := row]> (t_wiki t) !! r) t.
Proof.
  intros Hrow [Hp Hh]. unfold wiki_limit in *.
  assert (forall r n, wk_revision <$> t_wiki t !! r = Some n ->
    wk_revision <$> <[room := row]> (t_wiki t) !! r = Some n) as Hl.
  { intros r n Hn. destruct (decide (r = room)) as [->|Er]; [|by rewrite lookup_insert_ne].
    rewrite lookup_insert_eq. destruct (t_wiki t !! room) as [w|] eqn:Ew; [|done]. cbn in *.
    by rewrite (Hrow w eq_refl). }
  constructor.
  - intros r slug p Hs. destruct (Hp r slug p Hs) as (n & Hn%Hl & Hrest). by exists n.
  - intros r slug n h Hs. destruct (Hh r slug n h Hs) as (m & Hm%Hl & Hrest). by exists m.
Qed.

Lemma superseded_active room editor enabled i b :
  superseded room editor enabled i b = true -> batch_active b = true.
Proof. intros Hp. apply andb_prop in Hp as [Hp _]. by apply andb_prop in Hp as [_ Hp]. Qed.

(** What stays pending in the room is the new editor's, and the wiki is enabled. *)
Lemma not_superseded t room editor enabled i b :
  t_batches (cancelled (superseded room editor enabled) t) !! i = Some b -> batch_active b = true ->
  bt_room b = room -> t_batches t !! i = Some b /\ bt_editor b = editor /\ enabled = true.
Proof.
  unfold cancelled. cbn [t_batches with_t_batches]. rewrite update_where_lookup.
  destruct (t_batches t !! i) as [b0|]; [|done]. cbn. intros [= Hb] Ha Er.
  destruct (superseded room editor enabled i b0) eqn:Ep; subst b; [by cbn in Ha|].
  unfold superseded, active_in, room_batch in Ep. rewrite Ha, (bool_decide_eq_true_2 _ Er) in Ep. cbn in Ep.
  apply orb_false_iff in Ep as [Ep1 Ep2]. apply negb_false_iff in Ep1, Ep2.
  by apply bool_decide_eq_true in Ep1.
Qed.

Lemma configured_fits t room editor enabled interval :
  active_fits (cancelled (superseded room editor enabled) t) ->
  active_fits (configured t room editor enabled interval).
Proof.
  intros Hf i b Hb Ha.
  change (t_batches (cancelled (superseded room editor enabled) t) !! i = Some b) in Hb.
  destruct (Hf i b Hb Ha) as (w & Hw & Hen & Hed & Hcur & Hlt). change (t_wiki t !! bt_room b = Some w) in Hw.
  unfold fits. cbn. destruct (decide (bt_room b = room)) as [Er|Er].
  2: { exists w. by rewrite lookup_insert_ne. }
  destruct (not_superseded _ _ _ _ _ _ Hb Ha Er) as (_ & Hed' & Hen'). rewrite Er in *.
  rewrite lookup_insert_eq. eexists. split; [done|]. unfold configured_row. rewrite Hw. by split_and!.
Qed.

Lemma configured_keeps t room editor enabled interval :
  keeps_wiki t (configured t room editor enabled interval).
Proof.
  intros Hok.
  destruct (cancel_keeps t (superseded room editor enabled) (superseded_active _ _ _) Hok) as [[Hc Hf _] Hg].
  fold (cancelled (superseded room editor enabled) t) in Hc, Hf, Hg.
  set (row := configured_row t room editor enabled interval).
  assert (forall w, t_wiki t !! room = Some w ->
    wk_revision row = wk_revision w /\ wk_reviewed_through row = wk_reviewed_through w) as Hrow.
  { intros w Hw. subst row. unfold configured_row. by rewrite Hw. }
  split; constructor; try done.
  - by destruct Hc.
  - by apply configured_fits.
  - apply (first_page_ok _ _ _ _ _ (wk_revision row)), (first_page_ok _ _ _ _ _ (wk_revision row));
      try (unfold wiki_limit; cbn; by rewrite lookup_insert_eq).
    eapply pages_same, (row_limit t room row), (wo_pages _ Hok); try done.
    intros w Hw. by apply Hrow.
  - cbn. fold row. intros r w Hw. destruct (decide (r = room)) as [->|Er].
    + rewrite lookup_insert_eq. destruct (Hrow w Hw) as [E1 E2]. exists row. rewrite E1, E2.
      split_and!; [done|lia|lia].
    + rewrite lookup_insert_ne by done. exists w. split_and!; [done|lia|lia].
  - intros i b Hb. by apply (wg_batch _ _ Hg).
Qed.

Lemma configure_keeps room editor enabled interval c :
  keeps_wiki (tables c) (tables (db_configure_wiki room editor enabled interval c).1).
Proof.
  destruct (db_configure_wiki room editor enabled interval c) as [c' r] eqn:E. cbn.
  apply configure_effect in E as [-> |(_ & _ & ->)]; [apply keeps_wiki_refl|apply configured_keeps].
Qed.

(** ** Publishing pages *)

Definition page_row (next : N) (page : WikiPage) : PageRow :=
  mkPageRow (wp_title page) (wp_body page) (wp_sources page) next.
Definition history_row principal reason at_ (page : WikiPage) : HistoryRow :=
  mkHistoryRow (wp_title page) (wp_body page) (wp_sources page) principal reason at_.

(** One page is written, and its version is new in the history. *)
Lemma publish_page_cons room principal reason next at_ page changed c c' :
  publish_pages room principal reason next at_ (page :: changed) c = (c', Ok tt) ->
  exists c1, publish_pages room principal reason next at_ changed c1 = (c', Ok tt)
  /\ t_history (tables c) !! (room, wp_slug page, next) = None
  /\ tables c1 = with_t_history (<[(room, wp_slug page, next) := history_row principal reason at_ page]>
                    (t_history (tables c)))
                   (with_t_pages (<[(room, wp_slug page) := page_row next page]> (t_pages (tables c))) (tables c)).
Proof.
  cbn [publish_pages]. intros Hm.
  apply bind_ok in Hm as (c1 & n1 & [E1 _]%execute_ok & Hm).
  apply bind_ok in Hm as (c2 & n2 & [E2 _]%execute_ok & Hm). injection E1 as E1 _.
  unfold insert_row in E2. rewrite <- E1 in E2. cbn [t_history with_t_pages] in E2.
  destruct (t_history (tables c) !! (room, wp_slug page, next)) eqn:Eh; [done|]. injection E2 as E2 _.
  exists c2. by rewrite <- E2.
Qed.

Lemma publish_pages_same room principal reason next at_ changed c c' :
  publish_pages room principal reason next at_ changed c = (c', Ok tt) ->
  same_but_pages (tables c) (tables c') /\ t_history (tables c) ⊆ t_history (tables c').
Proof.
  revert c. induction changed as [|page changed IH]; intros c Hm.
  { apply ret_ok in Hm as [-> _]. by split. }
  apply publish_page_cons in Hm as (c1 & Hm & Hn & E1). apply IH in Hm as [Hsame Hsub]. rewrite E1 in Hsame, Hsub.
  split; [exact Hsame|]. etrans; [|exact Hsub]. cbn. by apply insert_subseteq.
Qed.

Lemma publish_pages_lookup room principal reason next at_ changed c c' :
  publish_pages room principal reason next at_ changed c = (c', Ok tt) ->
  NoDup (map wp_slug changed) ->
  (forall k, (forall page, page ∈ changed -> k <> (room, wp_slug page)) ->
     t_pages (tables c') !! k = t_pages (tables c) !! k)
  /\ (forall page, page ∈ changed -> t_pages (tables c') !! (room, wp_slug page) = Some (page_row next page)
       /\ t_history (tables c') !! (room, wp_slug page, next) = Some (history_row principal reason at_ page)).
Proof.
  revert c. induction changed as [|page changed IH]; intros c Hm Hnd.
  { apply ret_ok in Hm as [-> _]. split; [done|]. by intros q ?%elem_of_nil. }
  cbn [map] in Hnd. apply NoDup_cons in Hnd as [Hnin Hnd].
  apply publish_page_cons in Hm as (c1 & Hm & Hn & E1).
  pose proof (publish_pages_same _ _ _ _ _ _ _ _ Hm) as [_ Hsub].
  apply IH in Hm as [Hout Hin]; [|done]. split.
  - intros k Hk. rewrite Hout by (intros q Hq; apply Hk; by right). rewrite E1. cbn.
    apply lookup_insert_ne. intros <-. by apply (Hk page); [left|].
  - intros q [-> |Hq]%elem_of_cons; [|by apply Hin]. split.
    + rewrite Hout; [rewrite E1; cbn; apply lookup_insert_eq|]. intros q Hq [= E].
      apply Hnin. rewrite E. by apply list_elem_of_fmap_2.
    + eapply lookup_weaken, Hsub. rewrite E1. cbn. apply lookup_insert_eq.
Qed.

Lemma publish_pages_ok room principal reason next at_ changed c c' limit :
  publish_pages room principal reason next at_ changed c = (c', Ok tt) ->
  limit room = Some next -> (changed <> [] -> (1 <= next)%N) ->
  pages_ok limit (tables c) -> pages_ok limit (tables c').
Proof.
  intros Hm Hl Hnext Hok. revert c Hm Hok. induction changed as [|page changed IH]; intros c Hm Hok.
  { by apply ret_ok in Hm as [-> _]. }
  assert (1 <= next)%N as H1 by (by apply Hnext).
  apply publish_page_cons in Hm as (c1 & Hm & Hn & E1).
  apply (IH ltac:(intros _; by apply Hnext) c1 Hm). rewrite E1. destruct Hok as [Hp Hh]. constructor; cbn.
  - intros r slug p [[[= <- <-] <-]|[_ Hs]]%lookup_insert_Some; cbn.
    + exists next. split_and!; [done|lia|lia|]. intros _. eexists. rewrite lookup_insert_eq. by split_and!.
    + destruct (Hp r slug p Hs) as (n & Hn0 & Hle & Hz & Hpos). exists n. split_and!; try done.
      intros H0. destruct (Hpos H0) as (h & Hh0 & Hrest). exists h. split; [|done].
      by eapply lookup_weaken, insert_subseteq.
  - intros r slug n h [[[= <- <- <-] <-]|[_ Hs]]%lookup_insert_Some; [|by eapply Hh].
    exists next. split; [done|lia].
Qed.

(** ** Removing *)

Definition removed t room slug principal reason next at_ (p : PageRow) : Tables :=
  cancelled (active_in room)
    (with_t_wiki (update_where (fun k _ => bool_decide (k = room)) (fun w =>
        mkWikiRow (wk_editor w) (wk_enabled w) (wk_interval w) next (wk_reviewed_through w)
          (wk_reviewed_at w) (Some at_)) (t_wiki t)).1
      (with_t_pages (delete (room, slug) (t_pages t))
        (with_t_history (<[(room, slug, next) := mkHistoryRow (pg_title p) (pg_body p) (pg_sources p)
            principal reason at_]> (t_history t)) t))).

Lemma remove_effect room principal slug removal at_ c c' r :
  db_remove_wiki_page room principal slug removal at_ c = (c', r) ->
  tables c' = tables c
  \/ exists w p, t_wiki (tables c) !! room = Some w /\ wk_editor w = principal
     /\ wk_revision w = wr_expected_revision removal /\ r = Ok (wk_revision w + 1)%N
     /\ removal_refused slug removal = false
     /\ t_pages (tables c) !! (room, slug) = Some p
     /\ t_history (tables c) !! (room, slug, wk_revision w + 1)%N = None
     /\ tables c' = removed (tables c) room slug principal ("page removed: " +:+ wr_reason removal)
          (wk_revision w + 1) at_ p.
Proof.
  unfold db_remove_wiki_page. destruct (removal_refused slug removal) eqn:Eref; [intros [= <- _]; by left|].
  intros [E|(a & c2 & -> & Hm & ->)]%transaction_cases; [by left|right]. wiki. subst.
  match goal with Hw : t_wiki _ !! room = Some ?w0 |- _ => rename w0 into w; rename Hw into Ew end.
  match goal with He : negb (bool_decide (wk_editor w = _)) = false, Hv : negb (_ =? _)%N = false,
      Hn : checked_add64 _ _ = Some _, Hz : negb (_ =? 1)%nat = false, Ha : archive_page _ _ _ _ _ _ _ = _ |- _ =>
    apply negb_false_iff in He, Hv, Hz; apply bool_decide_eq_true in He; apply N.eqb_eq in Hv;
    apply Nat.eqb_eq in Hz; unfold checked_add64 in Hn; case_match; [|done]; injection Hn as <-;
    unfold archive_page in Ha; rename Ha into Harch end.
  cbn [tables past_fault] in *. subst.
  destruct (t_pages (tables c) !! (room, slug)) as [p|] eqn:Ep; [|by injection Harch].
  unfold insert_row in Harch. destruct (t_history (tables c) !! _) eqn:Eh in Harch; [done|].
  injection Harch as E1.
  match goal with Hd : Some (with_t_pages _ _, _) = _, Hu : update_wiki _ _ _ = _,
      Hx : cancel_where _ _ = _ |- _ =>
    injection Hd as E2 _; apply on_update in Hu as E3; apply on_update in Hx as E4 end.
  exists w, p. split_and!; try done. rewrite E4, E3, <- E2, <- E1. reflexivity.
Qed.

(** What is pending after all of a room was cancelled is pending elsewhere. *)
Lemma active_elsewhere t room i b :
  t_batches (cancelled (active_in room) t) !! i = Some b -> batch_active b = true ->
  t_batches t !! i = Some b /\ bt_room b <> room.
Proof.
  unfold cancelled. cbn [t_batches with_t_batches]. rewrite update_where_lookup.
  destruct (t_batches t !! i) as [b0|]; [|done]. cbn. intros [= Hb] Ha.
  destruct (active_in room i b0) eqn:Ep; subst b; [by cbn in Ha|]. split; [done|].
  unfold active_in, room_batch in Ep. rewrite Ha, andb_true_r in Ep. by apply bool_decide_eq_false in Ep.
Qed.
Lemma active_in_active room i b : active_in room i b = true -> batch_active b = true.
Proof. by intros [_ Hp]%andb_prop. Qed.

Lemma one_row room f t r :
  (update_where (fun k _ => bool_decide (k = room)) f (t_wiki t)).1 !! r
    = if decide (r = room) then f <$> t_wiki t !! room else t_wiki t !! r.
Proof.
  rewrite update_where_lookup. case_decide as E.
  - subst r. destruct (t_wiki t !! room); [|done]. cbn. by rewrite bool_decide_eq_true_2.
  - destruct (t_wiki t !! r); [|done]. cbn. by rewrite bool_decide_eq_false_2.
Qed.

(** A new row of the wiki with the batches of the room cancelled. *)
Lemma cancelled_room_fits t t' room :
  (forall r, r <> room -> t_wiki t' !! r = t_wiki t !! r) ->
  t_batches t' = t_batches (cancelled (active_in room) t) -> active_fits t -> active_fits t'.
Proof.
  intros Hw Hb Hf i b Hi Ha. rewrite Hb in Hi.
  destruct (active_elsewhere t room i b Hi Ha) as [Hi0 Hne]. destruct (Hf i b Hi0 Ha) as (w & Hw0 & Hrest).
  exists w. by rewrite Hw.
Qed.

Lemma removed_keeps t room slug principal reason at_ w p :
  t_wiki t !! room = Some w -> t_pages t !! (room, slug) = Some p ->
  t_history t !! (room, slug, wk_revision w + 1)%N = None ->
  keeps_wiki t (removed t room slug principal reason (wk_revision w + 1) at_ p).
Proof.
  intros Hw Hp Hh Hok. set (next := (wk_revision w + 1)%N) in *.
  destruct (cancel_keeps t (active_in room) (active_in_active room) Hok) as [[Hc _ _] Hg].
  fold (cancelled (active_in room) t) in Hc, Hg.
  split; constructor; try done.
  - by destruct Hc.
  - apply (cancelled_room_fits t _ room); [|done|apply Hok]. intros r Hr. cbn [t_wiki removed cancelled with_t_batches with_t_wiki].
    by rewrite one_row, decide_False.
  - assert (pages_ok (limit_at (wiki_limit t) room next) t) as [Hpg Hhs].
    { apply (pages_limit _ _ (wk_revision w)); [apply Hok| |lia]. unfold wiki_limit. by rewrite Hw. }
    apply (pages_same (limit_at (wiki_limit t) room next) _
             (with_t_pages (delete (room, slug) (t_pages t)) (with_t_history
                (<[(room, slug, next) := mkHistoryRow (pg_title p) (pg_body p) (pg_sources p) principal reason at_]>
                  (t_history t)) t))); [|done..|].
    + intros r. unfold wiki_limit, limit_at. cbn [t_wiki removed cancelled with_t_batches with_t_wiki].
      rewrite one_row. case_decide; [by rewrite Hw|done].
    + constructor; cbn.
      * intros r s q [_ Hs]%lookup_delete_Some. destruct (Hpg r s q Hs) as (n & Hn & Hle & Hz & Hpos).
        exists n. split_and!; try done. intros H0. destruct (Hpos H0) as (h & Hh0 & Hrest). exists h.
        split; [by eapply lookup_weaken, insert_subseteq|done].
      * intros r s n h [[[= <- <- <-] <-]|[_ Hs]]%lookup_insert_Some; [|by eapply Hhs].
        exists next. unfold limit_at. rewrite decide_True by done. split; [done|lia].
  - intros r w0 Hw0. cbn [t_wiki removed cancelled with_t_batches with_t_wiki]. rewrite one_row.
    case_decide as Er; [subst r|exists w0; split_and!; [done|lia|lia]].
    assert (w0 = w) as -> by congruence. rewrite Hw. eexists. split; [done|]. cbn. lia.
  - cbn. by apply insert_subseteq.
  - intros i b Hb. by apply (wg_batch _ _ Hg).
Qed.

Lemma remove_keeps room principal slug removal at_ c :
  keeps_wiki (tables c) (tables (db_remove_wiki_page room principal slug removal at_ c).1).
Proof.
  destruct (db_remove_wiki_page room principal slug removal at_ c) as [c' r] eqn:E. cbn.
  apply remove_effect in E as [-> |(w & p & Hw & _ & _ & _ & _ & Hp & Hh & ->)]; [apply keeps_wiki_refl|].
  by apply removed_keeps.
Qed.

(** ** Accepting a review or an edit *)

(** What a lease is held to: it was not used, it is valid, and the update covers
    the window of its batch. *)
Definition lease_fits t room principal (update : WikiCommit) (lease : option WikiLease) (w : WikiRow)
    (at_ : N) : Prop :=
  match lease with
  | None => True
  | Some lease =>
      t_receipts t !! (room, wl_batch_id lease, wl_epoch lease) = None
      /\ holds_lease t room principal lease at_
      /\ exists b, t_batches t !! wl_batch_id lease = Some b
         /\ bt_after b = wk_reviewed_through w /\ bt_through b = wc_reviewed_through update
  end.

Definition settled t room principal (update : WikiCommit) (lease : option WikiLease)
    (human_edit changed : bool) (next : N) : Tables :=
  match lease with
  | Some lease =>
      with_t_batches (update_where (fun k _ => bool_decide (k = wl_batch_id lease))
          (with_bt_status BatchCompleted) (t_batches t)).1
        (with_t_receipts (<[(room, wl_batch_id lease, wl_epoch lease) := mkReceiptRow principal update next]>
            (t_receipts t)) t)
  | None =>
      if human_edit && changed then cancelled (active_in room) t
      else if negb human_edit
      then cancelled (fun id b => active_in room id b && (bt_after b <? wc_reviewed_through update)%N) t
      else t
  end.

(** What an accepted update did: [t1] has the pages. *)
Record accepted t room principal (update : WikiCommit) (at_ : N) (lease : option WikiLease)
    (human_edit : bool) (next : N) t' : Prop := {
  ac_wiki : exists w, t_wiki t !! room = Some w
    /\ (human_edit = true \/ wk_editor w = principal)
    /\ (human_edit = true -> lease = None /\ wc_reviewed_through update = wk_reviewed_through w)
    /\ lease_fits t room principal update lease w at_
    /\ wc_expected_revision update = wk_revision w
    /\ (wk_reviewed_through w <= wc_reviewed_through update)%N
    /\ (wc_reviewed_through update <> 0%N ->
        exists r, t_messages t !! wc_reviewed_through update = Some r /\ in_room room r = true)
    /\ exists changed c0 c1 c2,
         check_pages room (wc_reviewed_through update) (pages_of t room) [] (wc_pages update) c0
           = (c1, Ok changed)
         /\ tables c0 = t /\ tables c1 = t
         /\ next = (wk_revision w + if bool_decide (changed = []) then 0 else 1)%N
         /\ publish_pages room principal (wc_reason update) next at_ changed c1 = (c2, Ok tt)
         /\ t' = settled (with_t_wiki (update_where (fun k _ => bool_decide (k = room))
                    (published_wiki next (wc_reviewed_through update) at_
                       (negb (bool_decide (changed = []))) human_edit) (t_wiki (tables c2))).1 (tables c2))
                  room principal update lease human_edit (negb (bool_decide (changed = []))) next;
}.

Lemma check_lease_fresh room principal update lease cursor at_ c c' :
  check_lease room principal update lease cursor at_ c = (c', Ok None) ->
  c' = c /\ t_receipts (tables c) !! (room, wl_batch_id lease, wl_epoch lease) = None
  /\ holds_lease (tables c) room principal lease at_
  /\ exists b, t_batches (tables c) !! wl_batch_id lease = Some b
     /\ bt_after b = cursor /\ bt_through b = wc_reviewed_through update.
Proof.
  unfold check_lease. intros Hm. apply bind_ok in Hm as (c1 & receipt & (_ & -> & ->)%read_ok & Hm).
  destruct (t_receipts _ !! _) as [rc|]; [by case_match|].
  apply bind_ok in Hm as (c1 & valid & Hv & Hm). wiki.
  destruct valid; [|done]. apply lease_valid_ok in Hv as [-> Hv].
  match goal with Hx : negb _ || negb _ = false |- _ =>
    apply orb_false_iff in Hx as [Hx1 Hx2]; apply negb_false_iff in Hx1, Hx2;
    apply N.eqb_eq in Hx1, Hx2 end.
  subst. split_and!; [done..|]. eexists. split; [done|]. by split.
Qed.

Lemma check_sources_pure room through sources c c' :
  check_sources room through sources c = (c', Ok tt) ->
  c' = c /\ forall s, s ∈ sources -> (s <= through)%N
    /\ exists r, t_messages (tables c) !! s = Some r /\ in_room room r = true.
Proof.
  revert c. induction sources as [|s sources IH]; intros c Hm.
  { apply ret_ok in Hm as [-> _]. split; [done|]. by intros s ?%elem_of_nil. }
  cbn [check_sources] in Hm. wiki. unfold message_in in *. wiki. subst.
  match goal with Hs : (through <? s)%N = false, Hk : negb _ = false |- _ =>
    apply N.ltb_ge in Hs; apply negb_false_iff in Hk end.
  apply IH in Hm as [-> Hall]. split; [done|]. intros x [-> |Hx]%elem_of_cons; [|by apply Hall].
  split; [done|]. destruct (t_messages (tables c) !! s) as [r|]; [by exists r|done].
Qed.

Lemma check_pages_pure room through existing seen pages c c' changed :
  check_pages room through existing seen pages c = (c', Ok changed) ->
  c' = c /\ changed = List.filter (fun page => negb (page_unchanged existing page)) pages
  /\ NoDup (map wp_slug pages) /\ (forall page, page ∈ pages -> wp_slug page ∉ seen)
  /\ (forall page s, page ∈ pages -> s ∈ wp_sources page -> (s <= through)%N
       /\ exists r, t_messages (tables c) !! s = Some r /\ in_room room r = true).
Proof.
  revert seen c changed. induction pages as [|page pages IH]; intros seen c changed Hm.
  { apply ret_ok in Hm as [-> ->]. split_and!; [done|done|by apply NoDup_nil|by intros q ?%elem_of_nil|].
    by intros q s ?%elem_of_nil. }
  cbn [check_pages] in Hm. wiki. subst.
  match goal with Hs : check_sources _ _ _ _ = (_, Ok ?u), Hp : check_pages _ _ _ _ _ _ = _,
      Hb : bad_page _ _ = false |- _ =>
    destruct u; apply check_sources_pure in Hs as [-> Hsrc]; apply IH in Hp as (-> & -> & Hnd & Hseen & Hall);
    unfold bad_page in Hb; rewrite !orb_false_iff in Hb; destruct Hb as (((((_ & Hslug) & _) & _) & _) & _);
    apply bool_decide_eq_false in Hslug end.
  split_and!.
  - done.
  - cbn [List.filter]. by destruct (page_unchanged existing page).
  - cbn [map]. constructor; [|done]. intros Hin. apply list_elem_of_fmap in Hin as (q & Hq & Hin).
    apply (Hseen q Hin). rewrite <- Hq. by left.
  - intros q [-> |Hq]%elem_of_cons; [done|]. intros Hin. apply (Hseen q Hq). by right.
  - intros q s0 [-> |Hq]%elem_of_cons Hs0; [by apply Hsrc|by apply (Hall q)].
Qed.

Lemma settle_spec room principal update lease human_edit changed next c c' :
  settle_batches room principal update lease human_edit changed next c = (c', Ok tt) ->
  tables c' = settled (tables c) room principal update lease human_edit changed next
  /\ (forall l, lease = Some l -> t_receipts (tables c) !! (room, wl_batch_id l, wl_epoch l) = None).
Proof.
  unfold settle_batches, settled. destruct lease as [lease|].
  - intros Hm. wiki.
    match goal with Hr : match insert_row _ _ _ with _ => _ end = _, Hu : update_batch _ _ _ = _ |- _ =>
      apply on_update in Hu; unfold insert_row in Hr; rename Hr into Er, Hu into Eu end.
    destruct (t_receipts (tables c) !! _) eqn:Hn in Er; [done|]. injection Er as Er _.
    rewrite Eu, <- Er. split; [done|]. by intros l [= <-].
  - destruct (human_edit && changed); [|destruct (negb human_edit)]; intros Hm; wiki; (split; [|done]); try done.
    all: match goal with Hx : cancel_where _ _ = _ |- _ => by apply on_update in Hx end.
Qed.

Lemma publish_effect room principal update at_ lease human_edit w c c' next :
  publish room principal update at_ lease human_edit w c = (c', Ok next) ->
  t_wiki (tables c) !! room = Some w ->
  (human_edit = true \/ wk_editor w = principal) ->
  (human_edit = true -> lease = None /\ wc_reviewed_through update = wk_reviewed_through w) ->
  lease_fits (tables c) room principal update lease w at_ ->
  accepted (tables c) room principal update at_ lease human_edit next (tables c').
Proof.
  intros Hm Hw Hed Hhu Hl. unfold publish in Hm.
  apply bind_ok in Hm as (c1 & u & [Hc ->]%refuse_if_ok & Hm). apply orb_false_iff in Hc as [Hrev Hcur].
  apply negb_false_iff, N.eqb_eq in Hrev. apply N.ltb_ge in Hcur.
  apply bind_ok in Hm as (c1 & known & Hk & Hm).
  apply bind_ok in Hm as (c2 & u2 & [Hknown ->]%refuse_if_ok & Hm). apply negb_false_iff in Hknown. subst known.
  assert (c1 = c /\ (wc_reviewed_through update <> 0%N ->
    exists r, t_messages (tables c) !! wc_reviewed_through update = Some r /\ in_room room r = true)) as [-> Hmsg].
  { destruct (_ =? 0)%N eqn:E0; [apply N.eqb_eq in E0; by apply ret_ok in Hk as [-> _]|].
    apply read_ok in Hk as (_ & Hk & ->). split; [done|]. intros _.
    destruct (t_messages _ !! _) as [r|]; [by exists r|done]. }
  apply bind_ok in Hm as (c2 & existing & [-> ->]%query_ok & Hm).
  apply bind_ok in Hm as (c2 & changed & Hch & Hm).
  pose proof Hch as Hch0. apply check_pages_pure in Hch0 as (-> & _).
  apply bind_ok in Hm as (c3 & next0 & [Hnext ->]%require_ok & Hm).
  apply bind_ok in Hm as (c3 & [] & Hpub & Hm). apply bind_ok in Hm as (c4 & n & [Hupd _]%execute_ok & Hm).
  apply bind_ok in Hm as (c5 & [] & Hset & [-> ->]%ret_ok).
  apply on_update in Hupd. apply settle_spec in Hset as [Hset _].
  unfold checked_add64 in Hnext. case_match; [|done]. injection Hnext as <-.
  constructor. exists w. split_and!; try done. eexists changed, c, c, c3. split_and!; try done.
  - destruct (bool_decide (changed = [])); done.
  - by rewrite Hset, Hupd.
Qed.

(** The body of the transaction. *)
Definition commit_body room principal update at_ lease human_edit : Wiki (bool * N) :=
  let! wiki := query (fun t => t_wiki t !! room) in
  let! w := require WkNotConfigured wiki in
  let! _ := refuse_if (negb human_edit && negb (bool_decide (wk_editor w = principal))) WkNotEditor in
  let! _ := refuse_if (human_edit && (negb (is_none lease)
                       || negb (wc_reviewed_through update =? wk_reviewed_through w)%N)) WkConflict in
  let! acc := match lease with
              | Some lease => check_lease room principal update lease (wk_reviewed_through w) at_
              | None => ret None
              end in
  match acc with
  | Some revision => leave revision
  | None => let! next := publish room principal update at_ lease human_edit w in commit next
  end.

Lemma commit_body_ok room principal update at_ lease human_edit c c' next :
  commit_body room principal update at_ lease human_edit c = (c', Ok (true, next)) ->
  accepted (tables c) room principal update at_ lease human_edit next (tables c').
Proof.
  intros Hm.
  apply bind_ok in Hm as (c3 & wiki & [-> ->]%query_ok & Hm).
  apply bind_ok in Hm as (c3 & w & [Hw ->]%require_ok & Hm).
  apply bind_ok in Hm as (c3 & u & [Hed ->]%refuse_if_ok & Hm).
  apply bind_ok in Hm as (c3 & u2 & [Hhu ->]%refuse_if_ok & Hm).
  apply bind_ok in Hm as (c3 & acc & Hacc & Hm). destruct acc as [rev|]; [by wiki|].
  apply bind_ok in Hm as (c4 & next0 & Hpub & Hm). wiki.
  assert (c3 = c /\ lease_fits (tables c) room principal update lease w at_) as [-> Hl].
  { destruct lease as [l|]; [|by apply ret_ok in Hacc as [-> _]].
    apply check_lease_fresh in Hacc as (-> & Hn & Hv & Hb). by split. }
  apply (publish_effect room principal update at_ lease human_edit w); try done.
  - destruct human_edit; [by left|right]. cbn in Hed. apply negb_false_iff in Hed. by apply bool_decide_eq_true in Hed.
  - intros ->. cbn in Hhu. apply orb_false_iff in Hhu as [Hh1 Hh2]. apply negb_false_iff in Hh1, Hh2.
    apply N.eqb_eq in Hh2. split; [by destruct lease|done].
Qed.

Lemma commit_effect room principal update at_ lease human_edit c c' r :
  db_commit_wiki_checked room principal update at_ lease human_edit c = (c', r) ->
  tables c' = tables c
  \/ exists next, r = Ok next /\ commit_refused update = false
     /\ accepted (tables c) room principal update at_ lease human_edit next (tables c').
Proof.
  unfold db_commit_wiki_checked. destruct (commit_refused update) eqn:Eref; [intros [= <- _]; by left|].
  intros [E|(next & c2 & -> & Hm & ->)]%transaction_if_cases; [by left|right].
  exists next. split_and!; [done..|]. by apply commit_body_ok in Hm.
Qed.

(** The batches after an accepted update. *)
Lemma settled_moved t t2 room principal update lease human_edit changed next w at_ :
  t_batches t2 = t_batches t -> t_leases t2 = t_leases t ->
  lease_fits t room principal update lease w at_ ->
  moved t (settled t2 room principal update lease human_edit changed next).
Proof.
  intros Eb El Hl. unfold settled. destruct lease as [l|].
  - destruct Hl as (_ & (b & w0 & Hb & _ & _ & _ & _ & Hrun & _) & _).
    eapply update_moved; [cbn; by rewrite Eb|]. intros i b0 Hb0 Hi%bool_decide_eq_true. subst i.
    apply batch_complete. congruence.
  - destruct (human_edit && changed); [|destruct (negb human_edit)].
    + eapply update_moved; [cbn; by rewrite Eb|]. intros i b Hb Ha. by eapply batch_cancel, active_in_active.
    + eapply update_moved; [cbn; by rewrite Eb|]. intros i b Hb Ha. apply andb_prop in Ha as [Ha _].
      by eapply batch_cancel, active_in_active.
    + intros i. rewrite Eb. destruct (t_batches t !! i) as [b|]; [|done]. exists b. by split; [|left].
Qed.

Lemma settled_receipts t2 room principal update lease human_edit changed next r i e rc :
  t_receipts (settled t2 room principal update lease human_edit changed next) !! (r, i, e) = Some rc ->
  t_receipts t2 !! (r, i, e) = Some rc
  \/ exists l, lease = Some l /\ r = room /\ i = wl_batch_id l /\ e = wl_epoch l
     /\ rc = mkReceiptRow principal update next.
Proof.
  unfold settled. destruct lease as [l|].
  - cbn. intros [[[= <- <- <-] <-]|[_ Hr]]%lookup_insert_Some; [right; by exists l|by left].
  - destruct (human_edit && changed); [|destruct (negb human_edit)]; by left.
Qed.

Lemma settled_rest t2 room principal update lease human_edit changed next :
  let t' := settled t2 room principal update lease human_edit changed next in
  t_wiki t' = t_wiki t2 /\ t_leases t' = t_leases t2 /\ t_pages t' = t_pages t2
  /\ t_history t' = t_history t2
  /\ ((forall l, lease = Some l -> t_receipts t2 !! (room, wl_batch_id l, wl_epoch l) = None) ->
      t_receipts t2 ⊆ t_receipts t').
Proof.
  unfold settled. destruct lease as [l|]; [|destruct (human_edit && changed); [|destruct (negb human_edit)]];
    (split_and!; [done..|]); try done.
  intros Hn. cbn. apply insert_subseteq. by apply Hn.
Qed.

(** What is still pending in the room was queued from the cursor that stays. *)
Lemma settled_pending t t2 room principal update lease human_edit changed next w at_ i b :
  wiki_ok t -> t_wiki t !! room = Some w -> t_batches t2 = t_batches t ->
  lease_fits t room principal update lease w at_ ->
  (wk_reviewed_through w <= wc_reviewed_through update)%N ->
  (human_edit = true -> lease = None /\ wc_reviewed_through update = wk_reviewed_through w) ->
  t_batches (settled t2 room principal update lease human_edit changed next) !! i = Some b ->
  batch_active b = true -> bt_room b = room ->
  t_batches t !! i = Some b /\ wc_reviewed_through update = wk_reviewed_through w.
Proof.
  intros Hok Hw Eb Hl Hle Hhu Hb Ha Er. unfold settled in Hb. destruct lease as [l|].
  - exfalso. cbn in Hb. rewrite map_lookup_imap, Eb in Hb.
    destruct (t_batches t !! i) as [b0|] eqn:E0; [|done]. cbn in Hb. injection Hb as Hb.
    case_bool_decide as Hi; [by subst b|]. subst b0.
    destruct Hl as (_ & (b1 & w1 & Hb1 & _ & _ & Hr1 & _ & Hrun & _) & _).
    apply Hi, (co_one _ (wo_core _ Hok) _ _ b b1); try done; [congruence|]. unfold batch_active. by rewrite Hrun.
  - destruct human_edit.
    + destruct (Hhu eq_refl) as [_ Hc]. destruct changed; cbn in Hb; [|by rewrite Eb in Hb].
      exfalso. destruct (active_elsewhere t2 room i b Hb Ha) as [_ Hne]. done.
    + cbn in Hb. rewrite map_lookup_imap, Eb in Hb. destruct (t_batches t !! i) as [b0|] eqn:E0; [|done].
      cbn in Hb. injection Hb as Hb. destruct (active_in room i b0 && _) eqn:Ep; subst b; [done|].
      unfold active_in, room_batch in Ep. rewrite Ha, (bool_decide_eq_true_2 _ Er) in Ep. cbn in Ep.
      apply N.ltb_ge in Ep. split; [done|].
      destruct (wo_fits _ Hok i b0 E0 Ha) as (w' & Hw' & _ & _ & Hc & _). rewrite Er in Hw'.
      assert (w' = w) as -> by congruence. lia.
Qed.

Lemma accepted_keeps t room principal update at_ lease human_edit next t' :
  accepted t room principal update at_ lease human_edit next t' -> keeps_wiki t t'.
Proof.
  intros [(w & Hw & _ & Hhu & Hl & _ & Hcur & _ & changed & c0 & c1 & c2 & _ & _ & E1 & Hnext & Hpub & ->)] Hok.
  set (is_changed := negb (bool_decide (changed = []))).
  set (row := published_wiki next (wc_reviewed_through update) at_ is_changed human_edit w).
  destruct (publish_pages_same _ _ _ _ _ _ _ _ Hpub) as [(Sw & Sb & Sl & Sr & _) Hhist].
  assert (pages_ok (limit_at (wiki_limit t) room next) (tables c2)) as Hpages.
  { eapply publish_pages_ok; [exact Hpub|unfold limit_at; by rewrite decide_True| |].
    - intros Hne. rewrite Hnext, bool_decide_eq_false_2 by done. lia.
    - rewrite E1. apply (pages_limit _ _ (wk_revision w)); [apply Hok|unfold wiki_limit; by rewrite Hw|lia]. }
  rewrite E1 in Sw, Sb, Sl, Sr, Hhist.
  set (t2 := with_t_wiki _ (tables c2)).
  destruct (settled_rest t2 room principal update lease human_edit is_changed next) as (Rw & Rl & Rp & Rh & Rr).
  assert (moved t (settled t2 room principal update lease human_edit is_changed next)) as Hmoved.
  { by apply (settled_moved t t2 _ _ _ _ _ _ _ w at_). }
  assert (forall r, t_wiki t2 !! r = if decide (r = room) then Some row else t_wiki t !! r) as Hrow.
  { intros r. subst t2. cbn [t_wiki with_t_wiki]. rewrite one_row, Sw. case_decide; [by rewrite Hw|done]. }
  split; constructor.
  - apply (core_moved t); [done|by rewrite Rl; subst t2; cbn; rewrite Sl| | |apply Hok].
    + intros i e s. rewrite Rl. subst t2. cbn. rewrite Sl. by left.
    + intros r i e rc [Hr|(l & -> & -> & -> & -> & ->)]%settled_receipts.
      { left. subst t2. cbn in Hr. by rewrite Sr in Hr. }
      right. destruct Hl as (_ & (b & w0 & Hb & _ & He & Hroom & _) & _).
      exists (with_bt_status BatchCompleted b). split_and!; [|done..].
      cbn. rewrite map_lookup_imap, Sb, Hb. cbn. by rewrite bool_decide_eq_true_2.
  - intros i b Hb Ha. unfold fits. rewrite Rw, Hrow. case_decide as Er.
    + destruct (settled_pending t t2 _ _ _ _ _ _ _ w at_ i b Hok Hw Sb Hl Hcur Hhu Hb Ha Er) as [Hb0 Hsame].
      destruct (wo_fits _ Hok i b Hb0 Ha) as (w' & Hw' & Hen & Hed & Hc & Hlt). rewrite Er in Hw'.
      assert (w' = w) as -> by congruence. exists row. split_and!; try done. cbn. congruence.
    + destruct (moved_active _ _ i b Hmoved Hb Ha) as (b0 & Hb0 & Ha0 & Hroom & Hed & Haf & Hth).
      destruct (wo_fits _ Hok i b0 Hb0 Ha0) as (w' & Hw' & Hrest). exists w'.
      rewrite Hroom, Hed, Haf, Hth. by split.
  - eapply pages_same, Hpages; [|done..]. intros r. unfold wiki_limit, limit_at. rewrite Rw, Hrow.
    by case_decide.
  - intros r w0 Hw0. rewrite Rw, Hrow. case_decide as Er; [subst r|exists w0; split_and!; [done|lia|lia]].
    assert (w0 = w) as -> by congruence. exists row. split; [done|]. cbn. lia.
  - rewrite Rh. exact Hhist.
  - etrans; [|apply Rr]; [subst t2; cbn; by rewrite Sr|].
    intros l ->. destruct Hl as (Hn & _). subst t2. cbn. by rewrite Sr.
  - rewrite Rl. subst t2. cbn. by rewrite Sl.
  - by apply moved_grew.
Qed.

Lemma commit_keeps room principal update at_ lease human_edit c :
  keeps_wiki (tables c) (tables (db_commit_wiki_checked room principal update at_ lease human_edit c).1).
Proof.
  destruct (db_commit_wiki_checked room principal update at_ lease human_edit c) as [c' r] eqn:E. cbn.
  apply commit_effect in E as [-> |(next & _ & _ & Ha)]; [apply keeps_wiki_refl|by eapply accepted_keeps].
Qed.
Lemma edit_keeps room actor slug edit at_ c :
  keeps_wiki (tables c) (tables (db_edit_wiki_page room actor slug edit at_ c).1).
Proof.
  unfold db_edit_wiki_page, bind, query. destruct (db_wiki_snapshot (tables c) room); [apply commit_keeps|].
  apply keeps_wiki_refl.
Qed.
End publish.
