(* ===== verification/Reviews.v ===== *)
(** * The wiki: theorems

    Whatever is asked of the wikis of the house, their reviews move along one state
    machine, and what is published stays on record; a review is accepted at most
    once, for the window its lease was given; a worker whose lease has passed to
    another never publishes again. *)

From Stdlib Require Import Ascii.
From Stdlib Require String.
From S2P Require Import Prelude Text Protocol StoreApi Sql Tables Hub Access Membership Rooms Doors Identity Operators Admission.
From S2P Require Import StoreAttention StoreWork StoreMessages Memory MemoryFacts.
From S2P Require Import WikiTypes WikiMaintenance Wiki WikiOps WikiFacts WikiPublish.

Open Scope loca_scope.

Implicit Types t : Tables.
Implicit Types c : Conn Tables.
Implicit Types b : BatchRow.

(** ** What does not concern reviews *)

Definition same_wiki t t' : Prop :=
  t_wiki t' = t_wiki t /\ t_pages t' = t_pages t /\ t_history t' = t_history t
  /\ t_batches t' = t_batches t /\ t_leases t' = t_leases t /\ t_receipts t' = t_receipts t.
#[local] Instance same_wiki_refl : Reflexive same_wiki.
Proof. by intros t. Qed.
#[local] Instance same_wiki_trans : Transitive same_wiki.
Proof. intros t1 t2 t3 (?&?&?&?&?&?) (?&?&?&?&?&?). split_and!; congruence. Qed.

Lemma same_wiki_keeps t t' : same_wiki t t' -> keeps_wiki t t'.
Proof.
  intros (Ew & Ep & Eh & Eb & El & Er). apply keeps_moved; try done.
  - intros i. rewrite Eb. destruct (t_batches t !! i) as [b|]; [|done]. exists b. by split; [|left].
  - by rewrite El.
  - rewrite El. by left.
Qed.

Section context.
Context `{Unicode}.

(** A statement that answers with tables that hold the same wiki. *)
Lemma statement_same e params (stmt : Tables -> option (Tables * nat)) :
  (forall t t' n, stmt t = Some (t', n) -> same_wiki t t') ->
  Sql.keeps same_wiki (let! _ := execute (E := WikiError) e params stmt in ret tt).
Proof.
  intros Hs. apply keeps_bind; [exact _|by apply keeps_execute|]. intros ?. apply keeps_ret, _.
Qed.

Lemma native_ready_same room principal runtime at_ :
  Sql.keeps same_wiki (db_wiki_native_ready room principal runtime at_).
Proof.
  unfold db_wiki_native_ready. destruct (negb _); [apply keeps_stop, _|].
  apply statement_same. by intros t t' n [= <- _].
Qed.
Lemma select_context_same room principal selection at_ :
  Sql.keeps same_wiki (db_select_wiki_context room principal selection at_).
Proof.
  unfold db_select_wiki_context. destruct (selection_refused selection); [apply keeps_stop, _|].
  apply statement_same. intros t t' n. repeat case_match; by intros [= <- _].
Qed.
Lemma accept_context_same room principal ack at_ :
  Sql.keeps same_wiki (db_accept_wiki_context room principal ack at_).
Proof.
  unfold db_accept_wiki_context. destruct (ack_refused ack); [apply keeps_stop, _|].
  apply keeps_transaction_if; [exact _|]. apply keeps_bind; [exact _|apply keeps_query, _|]. intros [value|].
  { case_bool_decide; [apply keeps_ret, _|apply keeps_stop, _]. }
  do 3 (apply keeps_bind; [exact _|first [apply keeps_query, _ | unfold refuse_if; case_match;
    [apply keeps_stop, _|apply keeps_ret, _]]|intros ?]).
  apply keeps_bind; [exact _| |intros ?; apply keeps_ret, _].
  unfold insert_context_receipt. apply keeps_bind; [exact _|apply keeps_execute; [exact _|]|intros ?].
  - by intros t t' n [= <- _].
  - apply statement_same. by intros t t' n [= <- _].
Qed.
End context.

(** ** Everything that is asked of the wikis *)

Section ops.
Context `{Unicode} `{Digest} `{WallClock}.
Implicit Types h : Hub (Conn Tables).


Lemma run_disk {A} (f : Conn Tables -> Conn Tables * A) h : disk (run_store f h).1 = tables (f (h_store h)).1.
Proof. unfold run_store. by destruct (f (h_store h)). Qed.

Lemma tick_keeps h : keeps_wiki (disk h) (disk (tick_wiki h)).
Proof.
  unfold tick_wiki. destruct (negb _); [apply keeps_wiki_refl|]. cbn [store_wiki_maintenance_rooms db_wiki].
  generalize (db_wiki_maintenance_rooms (tables (h_store h))). intros rooms. revert h.
  induction rooms as [|room rooms IH]; intros h; [apply keeps_wiki_refl|]. cbn [foldl].
  eapply keeps_wiki_trans; [|apply IH]. unfold tick_wiki_room.
  destruct (is_writable h room); rewrite run_disk; [apply schedule_keeps|apply cancel_review_keeps].
Qed.

Lemma wiki_op_keeps op h : keeps_wiki (disk h) (disk (wiki_op op h)).
Proof.
  destruct op; cbn [wiki_op].
  - apply keeps_wiki_refl.
  - apply tick_keeps.
  - unfold configure_wiki. destruct (agent_named h editor); [|apply keeps_wiki_refl].
    destruct (if enabled then _ else _) as [[|]|]; [|apply keeps_wiki_refl..].
    rewrite run_disk. apply configure_keeps.
  - unfold commit_wiki. rewrite run_disk. apply commit_keeps.
  - unfold edit_wiki_page. rewrite run_disk. apply edit_keeps.
  - unfold remove_wiki_page. rewrite run_disk. apply remove_keeps.
  - unfold claim_wiki_review. rewrite run_disk. apply claim_keeps.
  - unfold renew_wiki_review. rewrite run_disk. apply renew_keeps.
  - unfold finish_wiki_review. rewrite run_disk. apply commit_keeps.
  - unfold wiki_native_ready. rewrite run_disk. apply same_wiki_keeps, native_ready_same.
  - unfold select_wiki_context. rewrite run_disk. apply same_wiki_keeps, select_context_same.
  - unfold offer_wiki_context. destruct (wiki_snapshot h room); [|apply keeps_wiki_refl].
    destruct (_ && _); [apply keeps_wiki_refl|]. destruct (agent_named h target); [|apply keeps_wiki_refl].
    destruct (negb _); [apply keeps_wiki_refl|]. unfold select_wiki_context. rewrite run_disk.
    apply same_wiki_keeps, select_context_same.
  - unfold accept_wiki_context. rewrite run_disk. apply same_wiki_keeps, accept_context_same.
Qed.

Lemma wiki_ops_keep ops h : keeps_wiki (disk h) (disk (wiki_ops ops h)).
Proof.
  revert h. induction ops as [|op ops IH]; intros h; [apply keeps_wiki_refl|]. cbn.
  eapply keeps_wiki_trans; [apply wiki_op_keeps|apply IH].
Qed.

(** C4: Whatever is asked of the wikis of the house, at any times and with any
    writes of the disk failing: at most one review is pending in a room, it is of
    the present editor of an enabled wiki and starts at the cursor of the wiki; no
    batch is handed out more than three times and no lease outlives half an hour;
    every published page is in the history as it is read; and batches only move
    along the state machine [batch_step], while revisions, cursors, the history,
    the leases and the receipts never go back. *)
Theorem reviews_follow_their_state_machine ops h :
  wiki_ok (disk h) -> wiki_ok (disk (wiki_ops ops h)) /\ wiki_grew (disk h) (disk (wiki_ops ops h)).
Proof. apply wiki_ops_keep. Qed.

(** ** One review, one publication *)

Lemma transaction_if_ok {A} (m : Wiki (bool * A)) c c' a :
  transaction_if m c = (c', Ok a) ->
  exists done c2, m (past_fault c) = (c2, Ok (done, a))
    /\ tables c' = if (done : bool) then tables c2 else tables c.
Proof.
  unfold transaction_if. destruct (next_fault c); [done|].
  destruct (m (past_fault c)) as [c2 [[[|] x]|e]]; [|intros [= <- <-]; by exists false, c2|done].
  destruct (next_fault c2); [done|]. intros [= <- <-]. by exists true, c2.
Qed.

(** A review under a lease answers with the revision of its receipt, or publishes. *)
Lemma finish_ok room principal update lease at_ c c' rev :
  db_finish_wiki_review room principal update lease at_ c = (c', Ok rev) ->
  commit_refused update = false /\ binds [wl_batch_id lease; wl_epoch lease] = true
  /\ (tables c' = tables c
      /\ t_receipts (tables c) !! (room, wl_batch_id lease, wl_epoch lease)
         = Some (mkReceiptRow principal update rev)
      \/ accepted (tables c) room principal update at_ (Some lease) false rev (tables c')).
Proof.
  intros Hf. unfold db_finish_wiki_review in Hf. pose proof Hf as Hf0.
  unfold db_commit_wiki_checked in Hf. destruct (commit_refused update); [done|]. split; [done|].
  apply transaction_if_ok in Hf as (flag & c2 & Hm & Et).
  change (commit_body room principal update at_ (Some lease) false (past_fault c) = (c2, Ok (flag, rev))) in Hm.
  assert (binds [wl_batch_id lease; wl_epoch lease] = true /\ (flag = false ->
    t_receipts (tables c) !! (room, wl_batch_id lease, wl_epoch lease)
      = Some (mkReceiptRow principal update rev))) as [Hb Hrec].
  { unfold commit_body in Hm.
    apply bind_ok in Hm as (c3 & wiki & [-> ->]%query_ok & Hm).
    apply bind_ok in Hm as (c3 & w & [Hw ->]%require_ok & Hm).
    apply bind_ok in Hm as (c3 & u & [_ ->]%refuse_if_ok & Hm).
    apply bind_ok in Hm as (c3 & u2 & [_ ->]%refuse_if_ok & Hm).
    apply bind_ok in Hm as (c3 & acc & Hacc & Hm).
    unfold check_lease in Hacc. apply bind_ok in Hacc as (c4 & receipt & (Hb & -> & ->)%read_ok & Hacc).
    split; [done|]. intros ->. cbn [tables past_fault] in Hacc.
    destruct acc as [rev0|]; [injection Hm as _ ->|by wiki].
    destruct (t_receipts (tables c) !! _) as [[e q n]|] eqn:Er in Hacc; [|by apply bind_ok in Hacc as (c5 & valid & _ & Hacc); wiki].
    destruct (bool_decide _ && _) eqn:Eb in Hacc; [|done]. injection Hacc as _ <-.
    cbn in Eb. apply andb_prop in Eb as [He Hq]. apply bool_decide_eq_true in He, Hq. by subst. }
  split; [done|]. destruct flag; [right|left; by split; [|apply Hrec]].
  rewrite Et. by apply commit_body_ok in Hm.
Qed.

(** C16: A review that is accepted under a lease is either the repetition of one that
    was accepted under it before, and changes nothing; or its lease is the current
    one of a batch that runs for the editor of the enabled wiki and has not run
    out, the review was written against the present revision, and it covers just
    the window of the batch: from the cursor of the wiki to the bound fixed when it
    was queued, which is the cursor afterwards.  The batch is then completed and
    the receipt of the review kept. *)
Theorem accepted_review_covers_its_window room principal update lease h h' rev :
  finish_wiki_review room principal update lease h = (h', Ok rev) ->
  (disk h' = disk h
   /\ t_receipts (disk h) !! (room, wl_batch_id lease, wl_epoch lease)
      = Some (mkReceiptRow principal update rev))
  \/ (holds_lease (disk h) room principal lease (h_clock h)
      /\ exists b w w', t_batches (disk h) !! wl_batch_id lease = Some b
         /\ t_wiki (disk h) !! room = Some w /\ t_wiki (disk h') !! room = Some w'
         /\ wc_expected_revision update = wk_revision w
         /\ wk_reviewed_through w = bt_after b /\ wc_reviewed_through update = bt_through b
         /\ wk_reviewed_through w' = bt_through b /\ wk_revision w' = rev
         /\ wk_reviewed_at w' = Some (h_clock h)
         /\ t_batches (disk h') !! wl_batch_id lease = Some (with_bt_status BatchCompleted b)
         /\ t_receipts (disk h') !! (room, wl_batch_id lease, wl_epoch lease)
            = Some (mkReceiptRow principal update rev)).
Proof.
  unfold finish_wiki_review, run_store, disk. cbn [store_finish_wiki_review db_wiki].
  destruct (db_finish_wiki_review _ _ _ _ _ _) as [c' r] eqn:E. intros [= <- ->]. cbn [h_store with_h_store].
  apply finish_ok in E as (_ & _ & [[E Hr]|[Ha]]); [by left|right].
  destruct Ha as (w & Hw & _ & _ & (_ & Hl & b & Hb & Haf & Hth) & Hrev & _ & _ & changed & c0 & c1 & c2 & _ & _ & E1 & _ & Hpub & ->).
  split; [done|]. apply publish_pages_same in Hpub as [(Sw & Sb & _) _]. rewrite E1 in Sw, Sb.
  exists b, w. eexists. split_and!; try done.
  - cbn. rewrite map_lookup_imap, Sw, Hw. cbn. by rewrite bool_decide_eq_true_2.
  - done.
  - done.
  - done.
  - cbn. rewrite map_lookup_imap, Sb, Hb. cbn. by rewrite bool_decide_eq_true_2.
  - cbn. by rewrite lookup_insert_eq.
Qed.

Lemma finish_disk room principal update lease h :
  finish_wiki_review room principal update lease h
    = (with_h_store (db_finish_wiki_review room principal update lease (h_clock h) (h_store h)).1 h,
       (db_finish_wiki_review room principal update lease (h_clock h) (h_store h)).2).
Proof.
  unfold finish_wiki_review, run_store. cbn [store_finish_wiki_review db_wiki].
  by destruct (db_finish_wiki_review _ _ _ _ _ _).
Qed.

(** With the receipt there, nothing else is accepted under the lease. *)
Lemma receipted_finish room principal update lease h r0 :
  t_receipts (disk h) !! (room, wl_batch_id lease, wl_epoch lease) = Some r0 ->
  let '(h', r) := finish_wiki_review room principal update lease h in
  disk h' = disk h /\ (forall rev, r = Ok rev -> r0 = mkReceiptRow principal update rev).
Proof.
  intros Hr. rewrite finish_disk. unfold disk in *. cbn [h_store with_h_store].
  destruct (db_finish_wiki_review _ _ _ _ _ _) as [c' [rev|e]] eqn:E; cbn.
  - apply finish_ok in E as (_ & _ & [[E Hr']|[Ha]]).
    + split; [done|]. intros rev' [= <-]. congruence.
    + destruct Ha as (w & _ & _ & _ & (Hn & _) & _). congruence.
  - apply commit_effect in E as [E|(next & [=] & _)]. by split.
Qed.

Lemma renew_ok room principal lease at_ c c' expires :
  db_renew_wiki_review room principal lease at_ c = (c', Ok expires) ->
  holds_lease (tables c) room principal lease at_.
Proof.
  intros (c2 & Hm & _)%transaction_ok. apply bind_ok in Hm as (c1 & valid & Hv & Hm). wiki.
  destruct valid; [|done]. by apply lease_valid_ok in Hv as [_ Hv].
Qed.

(** The repetition of an accepted review, to the editor and without faults. *)
Lemma repeated_finish room principal update lease at_ c w rev :
  commit_refused update = false -> binds [wl_batch_id lease; wl_epoch lease] = true ->
  faults c = [] -> t_wiki (tables c) !! room = Some w -> wk_editor w = principal ->
  t_receipts (tables c) !! (room, wl_batch_id lease, wl_epoch lease) = Some (mkReceiptRow principal update rev) ->
  (db_finish_wiki_review room principal update lease at_ c).2 = Ok rev.
Proof.
  intros Hc Hb Hf Hw He Hr. unfold db_finish_wiki_review, db_commit_wiki_checked. rewrite Hc.
  unfold transaction_if, next_fault. rewrite Hf. cbn [head default from_option id].
  unfold bind, query, require, ret, refuse_if, check_lease, read, past_fault, leave. cbn [tables].
  rewrite Hw. cbn. rewrite bool_decide_eq_true_2 by done. cbn. cbn in Hb. rewrite Hb. cbn. rewrite Hr.
  unfold bind, ret. cbn. by rewrite !bool_decide_eq_true_2 by done.
Qed.

(** A review is accepted at most once under a lease.  Whatever happens
    afterwards, and who asks: another review under the same lease is refused and
    changes nothing, and the same one sent again changes nothing either; while its
    sender is still the editor and the disk works, it is answered as it was the
    first time. *)
Theorem a_review_is_accepted_once room principal update lease h h1 rev ops :
  wiki_ok (disk h) ->
  finish_wiki_review room principal update lease h = (h1, Ok rev) ->
  let h2 := wiki_ops ops h1 in
  (forall p u, let '(h3, r) := finish_wiki_review room p u lease h2 in
     disk h3 = disk h2 /\ (forall rev', r = Ok rev' -> p = principal /\ u = update /\ rev' = rev))
  /\ (forall w, t_wiki (disk h2) !! room = Some w -> wk_editor w = principal -> faults (h_store h2) = [] ->
      (finish_wiki_review room principal update lease h2).2 = Ok rev).
Proof.
  intros Hok Hf h2.
  assert (wiki_ok (disk h1)) as Hok1.
  { pose proof (commit_keeps room principal update (h_clock h) (Some lease) false (h_store h)) as Hk.
    rewrite finish_disk in Hf. injection Hf as <- _. by apply Hk. }
  assert (t_receipts (disk h2) !! (room, wl_batch_id lease, wl_epoch lease)
          = Some (mkReceiptRow principal update rev)) as Hr.
  { destruct (wiki_ops_keep ops h1 Hok1) as [_ Hg]. eapply lookup_weaken, (wg_receipts _ _ Hg).
    rewrite finish_disk in Hf. injection Hf as <- Hf. unfold disk. cbn [h_store with_h_store].
    destruct (db_finish_wiki_review _ _ _ _ _ _) as [c' r] eqn:E. cbn in *. subst r.
    apply finish_ok in E as (_ & _ & [[-> Hr]|[(w & _ & _ & _ & _ & _ & _ & _ & changed & c0 & c1 & c2 & _ & _ & _ & _ & _ & ->)]]);
      [done|]. cbn. by rewrite lookup_insert_eq. }
  split.
  - intros p u. pose proof (receipted_finish room p u lease h2 _ Hr) as Hx.
    destruct (finish_wiki_review room p u lease h2) as [h3 r]. destruct Hx as [Hd Hx]. split; [done|].
    intros rev' Er. specialize (Hx rev' Er). by injection Hx.
  - intros w Hw He Hfault. rewrite finish_disk in *. cbn [snd].
    injection Hf as _ Hf. destruct (db_finish_wiki_review _ _ _ _ (h_clock h) (h_store h)) as [c' r] eqn:E.
    cbn in Hf. subst r. apply finish_ok in E as (Hc & Hb & _).
    by apply (repeated_finish _ _ _ _ _ _ w).
Qed.

(** ** Workers that were overtaken *)

(** The lease is of an earlier epoch, or its batch was given up. *)
Definition overtaken (lease : WikiLease) b : Prop :=
  (wl_epoch lease < bt_epoch b)%N \/ bt_status b = BatchBlocked \/ bt_status b = BatchCancelled.

Lemma overtaken_step l lease id b b' : batch_step l id b b' -> overtaken lease b -> overtaken lease b'.
Proof.
  intros Hs Ho. destruct Ho as [He|Hst].
  - left. destruct Hs; cbn; lia.
  - right. destruct Hs as [b e s [Hq|Hq] _ _ _|b e s Hq _ _|b Hq _|b Hq|b Hq]; cbn;
      [destruct Hst; congruence..|by left|by right|destruct Hst; congruence].
Qed.
Lemma overtaken_steps l lease id b b' : rtc (batch_step l id) b b' -> overtaken lease b -> overtaken lease b'.
Proof. induction 1 as [|b1 b2 b3 Hs _ IH]; [done|]. intros Ho. by eapply IH, overtaken_step. Qed.

Lemma overtaken_not_held t room principal lease at_ b :
  wiki_ok t -> t_batches t !! wl_batch_id lease = Some b -> overtaken lease b ->
  ~ holds_lease t room principal lease at_
  /\ t_receipts t !! (room, wl_batch_id lease, wl_epoch lease) = None.
Proof.
  intros Hok Hb Ho. split.
  - intros (b' & w & Hb' & _ & He & _ & _ & Hr & _). assert (b' = b) as -> by congruence.
    destruct Ho as [Ho|[Ho|Ho]]; [lia|congruence..].
  - destruct (t_receipts t !! _) as [r|] eqn:Er; [|done].
    destruct (co_receipt _ (wo_core _ Hok) _ _ _ _ Er) as (b' & Hb' & Hc & He & _).
    assert (b' = b) as -> by congruence. destruct Ho as [Ho|[Ho|Ho]]; [lia|congruence..].
Qed.

(** C19: Once a batch was handed out again, or was blocked or cancelled (by an edit, a
    removal, a new editor, a closed room), the worker that held the earlier lease
    never publishes and never renews it: whatever happens in between, its requests
    are refused and change nothing. *)
Theorem an_overtaken_worker_never_publishes room principal update lease h b ops :
  wiki_ok (disk h) -> t_batches (disk h) !! wl_batch_id lease = Some b -> overtaken lease b ->
  let h2 := wiki_ops ops h in
  let '(h3, finished) := finish_wiki_review room principal update lease h2 in
  let '(h4, renewed) := renew_wiki_review room principal lease h2 in
  disk h3 = disk h2 /\ disk h4 = disk h2
  /\ (exists e, finished = Err e) /\ (exists e, renewed = Err e).
Proof.
  intros Hok Hb Ho h2. destruct (wiki_ops_keep ops h Hok) as [Hok2 Hg]. fold h2 in Hok2, Hg.
  destruct (wg_batch _ _ Hg _ b Hb) as (b2 & Hb2 & Hsteps). apply (overtaken_steps _ lease) in Hsteps; [|done].
  destruct (overtaken_not_held (disk h2) room principal lease (h_clock h2) b2 Hok2 Hb2 Hsteps) as [Hheld Hrec].
  rewrite finish_disk. unfold renew_wiki_review, run_store. cbn [store_renew_wiki_review db_wiki].
  destruct (db_renew_wiki_review room principal lease (h_clock h2) (h_store h2)) as [c4 r4] eqn:E4.
  destruct (db_finish_wiki_review room principal update lease (h_clock h2) (h_store h2)) as [c3 r3] eqn:E3.
  cbn [fst snd]. unfold disk in *. cbn [h_store with_h_store]. split_and!.
  - apply commit_effect in E3 as [E|(next & _ & _ & [(w & _ & _ & _ & (_ & Hl & _) & _)])]; done.
  - apply renew_effect in E4 as [E|(expires & started & _ & Hl & _)]; done.
  - destruct r3 as [rev|e]; [|by exists e]. apply finish_ok in E3 as (_ & _ & [[_ Hr]|[(w & _ & _ & _ & (_ & Hl & _) & _)]]);
      [congruence|done].
  - destruct r4 as [expires|e]; [|by exists e]. exfalso. by apply renew_ok in E4.
Qed.

(** ** What is read after a publication *)

Lemma elem_of_pages_of t room q :
  q ∈ pages_of t room -> exists p, t_pages t !! (room, wp_slug q) = Some p
    /\ pg_title p = wp_title q /\ pg_body p = wp_body q /\ pg_sources p = wp_sources q.
Proof.
  unfold pages_of. intros (slug & _ & E)%list_elem_of_omap.
  destruct (t_pages t !! (room, slug)) as [p|] eqn:Ep; [|done]. cbn in E. injection E as <-. cbn. by exists p.
Qed.

Lemma page_unchanged_row t room page :
  page_unchanged (pages_of t room) page = true ->
  exists p, t_pages t !! (room, wp_slug page) = Some p
    /\ pg_title p = wp_title page /\ pg_body p = wp_body page /\ pg_sources p = wp_sources page.
Proof.
  unfold page_unchanged. intros (q & Hq & Hs)%existsb_exists. apply list_elem_of_In in Hq.
  rewrite !andb_true_iff, !bool_decide_eq_true in Hs. destruct Hs as (((Es & Et) & Eb) & Eo).
  apply elem_of_pages_of in Hq as (p & Hp & ? & ? & ?). exists p. rewrite <- Es. split_and!; [done|congruence..].
Qed.

Lemma NoDup_map_filter {A B} (f : A -> B) (p : A -> bool) l :
  NoDup (map f l) -> NoDup (map f (List.filter p l)).
Proof.
  induction l as [|x l IH]; [done|]. cbn. intros [Hnin Hnd]%NoDup_cons. destruct (p x); [|by apply IH].
  cbn. constructor; [|by apply IH]. intros (y & Ey & Hin)%list_elem_of_fmap. apply Hnin, list_elem_of_fmap.
  exists y. split; [done|]. rewrite list_elem_of_In, filter_In in Hin. apply list_elem_of_In, Hin.
Qed.
Lemma NoDup_map_inj {A B} (f : A -> B) l x y :
  NoDup (map f l) -> x ∈ l -> y ∈ l -> f x = f y -> x = y.
Proof.
  induction l as [|z l IH]; [by intros _ ?%elem_of_nil|]. cbn. intros [Hnin Hnd]%NoDup_cons.
  intros [-> |Hx]%elem_of_cons [-> |Hy]%elem_of_cons E; [done| | |by apply IH]; exfalso; apply Hnin.
  - rewrite E. by apply list_elem_of_fmap_2.
  - rewrite <- E. by apply list_elem_of_fmap_2.
Qed.

(** Without a lease every commit that answers was accepted. *)
Lemma commit_accepted room principal update at_ c c' rev :
  db_commit_wiki room principal update at_ c = (c', Ok rev) ->
  accepted (tables c) room principal update at_ None false rev (tables c').
Proof.
  unfold db_commit_wiki, db_commit_wiki_checked. destruct (commit_refused update); [done|].
  intros (flag & c2 & Hm & Et)%transaction_if_ok.
  change (commit_body room principal update at_ None false (past_fault c) = (c2, Ok (flag, rev))) in Hm.
  destruct flag; [rewrite Et; by apply commit_body_ok in Hm|]. exfalso. unfold commit_body in Hm.
  do 4 apply bind_ok in Hm as (? & ? & ? & Hm). apply bind_ok in Hm as (? & acc & [-> ->]%ret_ok & Hm).
  apply bind_ok in Hm as (? & ? & ? & Hm). by injection Hm.
Qed.

(** The pages after an update was accepted without a lease: [next] is the revision
    of the changed ones. *)
Lemma accepted_pages t room principal update at_ next t' :
  accepted t room principal update at_ None false next t' ->
  let changed := List.filter (fun page => negb (page_unchanged (pages_of t room) page)) (wc_pages update) in
  exists w, t_wiki t' !! room = Some w /\ wk_revision w = next
  /\ wk_reviewed_through w = wc_reviewed_through update
  /\ next = (wc_expected_revision update + if bool_decide (changed = []) then 0 else 1)%N
  /\ NoDup (map wp_slug (wc_pages update))
  /\ (forall page s, page ∈ wc_pages update -> s ∈ wp_sources page -> (s <= wc_reviewed_through update)%N
        /\ exists r, t_messages t !! s = Some r /\ in_room room r = true)
  /\ (forall k, (forall page, page ∈ changed -> k <> (room, wp_slug page)) -> t_pages t' !! k = t_pages t !! k)
  /\ (forall page, page ∈ changed -> t_pages t' !! (room, wp_slug page) = Some (page_row next page)
        /\ t_history t' !! (room, wp_slug page, next) = Some (history_row principal (wc_reason update) at_ page)).
Proof.
  intros [(w & Hw & _ & _ & _ & Hrev & _ & _ & changed0 & c0 & c1 & c2 & Hch & E0 & E1 & Hnext & Hpub & Ht')].
  apply check_pages_pure in Hch as (-> & -> & Hnd & _ & Hsrc). rewrite E0 in Hsrc. intros changed.
  fold changed in Hnext, Hpub, Ht'.
  pose proof (publish_pages_same _ _ _ _ _ _ _ _ Hpub) as [(Sw & _) _].
  apply publish_pages_lookup in Hpub as [Hout Hin]; [|by apply NoDup_map_filter]. rewrite E1 in Hout.
  exists (published_wiki next (wc_reviewed_through update) at_ (negb (bool_decide (changed = []))) false w).
  rewrite Ht'. cbn [settled cancelled negb andb t_wiki t_pages t_history with_t_batches with_t_wiki].
  split_and!; try done; [|congruence].
  rewrite one_row, decide_True, Sw, E1, Hw by done. done.
Qed.

(** C20: After the editor's review is accepted, every page it names is read as it was
    written there, under the revision that was answered; every other page, of this
    and of every other room, is as before.  The revision grows by one if some page
    changed and stays otherwise, and each changed page is in the history under the
    new revision, with who wrote it and why.  What a page cites are messages of its
    room, none of them after what the review covers. *)
Theorem a_publication_is_what_readers_see room principal update h h' rev :
  commit_wiki room principal update h = (h', Ok rev) ->
  let changed := List.filter (fun page => negb (page_unchanged (pages_of (disk h) room) page)) (wc_pages update) in
  rev = (wc_expected_revision update + if bool_decide (changed = []) then 0 else 1)%N
  /\ (forall page, page ∈ wc_pages update -> exists s, wiki_page h' room (wp_slug page) = Ok s
        /\ wps_revision s = rev /\ wps_reviewed_through s = wc_reviewed_through update
        /\ wp_title (wps_page s) = wp_title page /\ wp_body (wps_page s) = wp_body page
        /\ wp_sources (wps_page s) = wp_sources page)
  /\ (forall r slug, r <> room \/ slug ∉ map wp_slug (wc_pages update) ->
        t_pages (disk h') !! (r, slug) = t_pages (disk h) !! (r, slug))
  /\ (forall page, page ∈ changed -> t_history (disk h') !! (room, wp_slug page, rev)
        = Some (history_row principal (wc_reason update) (h_clock h) page))
  /\ (forall page s, page ∈ wc_pages update -> s ∈ wp_sources page -> (s <= wc_reviewed_through update)%N
        /\ exists r, t_messages (disk h) !! s = Some r /\ in_room room r = true).
Proof.
  unfold commit_wiki, run_store, disk. cbn [store_commit_wiki db_wiki].
  destruct (db_commit_wiki _ _ _ _ _) as [c' r] eqn:E. intros [= <- ->]. cbn [h_store with_h_store].
  apply commit_accepted, accepted_pages in E as (w & Ew & Er & Ec & Hrev & Hnd & Hsrc & Hout & Hin).
  set (changed := List.filter _ (wc_pages update)) in *. set (t := tables (h_store h)) in *.
  assert (forall page, page ∈ changed <-> page_unchanged (pages_of t room) page = false /\ page ∈ wc_pages update) as Hc.
  { intros page. subst changed. rewrite !list_elem_of_In, filter_In, negb_true_iff. tauto. }
  split_and!; [done| | | |done].
  - intros page Hpage. unfold wiki_page. cbn [h_store with_h_store store_wiki_page db_wiki]. unfold db_wiki_page.
    rewrite Ew. destruct (page_unchanged (pages_of t room) page) eqn:Eu.
    + apply page_unchanged_row in Eu as Hrow. destruct Hrow as (p & Hp & ? & ? & ?).
      rewrite Hout, Hp; [eexists; split; [done|]; by split_and!|]. intros q [Hq Hq']%Hc [= Es].
      by rewrite (NoDup_map_inj _ _ page q Hnd Hpage Hq' Es), Hq in Eu.
    + destruct (Hin page) as [-> _]; [by apply Hc|]. eexists. split; [done|]. by split_and!.
  - intros r slug Hne. apply Hout. intros page [_ Hp]%Hc [= -> ->]. destruct Hne as [Hne|Hne]; [done|].
    by apply Hne, list_elem_of_fmap_2.
  - intros page Hp. by apply Hin.
Qed.
End ops.

(** ** Witnesses: the wiki of a first room *)

#[local] Existing Instance ascii_unicode.
#[local] Instance wiki_digest : Digest := {| sha256 _ := replicate 32 0%N |}.
#[local] Instance wiki_clock : WallClock := {| current_time_ms := 1000 |}.

Definition said (id : N) (text : string) : MessageRow :=
  mkMessageRow (mkMessage id "lab" "ada" User None text Say None None 1000 []) None None.
(** Three messages, and an agent that may be an editor. *)
Definition first_tables : Tables :=
  with_t_messages {[1%N := said 1 "we ship on Friday"; 2%N := said 2 "no, Monday"; 3%N := said 3 "ok"]}
    (with_t_principals {["p_1"%string := mkPrincipalRow "ed" "agent" "member" 0 None]} no_tables).
Definition first_wiki_house : Hub (Conn Tables) := empty_hub (mkConn first_tables []).
Definition set_up : list WikiOp :=
  [OpReady "lab" "p_1" "codex"; OpConfigure "lab" "ed" true 3; OpTick; OpClaim "lab" "p_1"].
Definition claimed_house : Hub (Conn Tables) := wiki_ops set_up first_wiki_house.
Definition first_lease : WikiLease := mkWikiLease 1 1.
Definition noted : WikiCommit :=
  mkWikiCommit 0 3 "noted" [mkWikiPage "working" "Working area" "we ship on Monday" [1; 2]%N 0].

Lemma first_tables_ok : wiki_ok first_tables.
Proof.
  assert (forall K `{Countable K} V (k : K) (v : V), (∅ : gmap K V) !! k = Some v -> False) as Hn.
  { intros K ? ? V k v Hv. by rewrite lookup_empty in Hv. }
  constructor; [constructor|intros ? ? Hv|constructor]; try (intros *; intros Hv; by apply Hn in Hv).
  all: try (intros *; intros Hv; exfalso; exact (Hn _ _ _ _ _ _ Hv)).
  exfalso; exact (Hn _ _ _ _ _ _ Hv).
Qed.

Lemma claimed_house_ok : wiki_ok (disk claimed_house).
Proof. apply wiki_ops_keep, first_tables_ok. Qed.

Lemma reviews_follow_their_state_machine_witness :
  wiki_ok (disk claimed_house)
  /\ bt_status <$> t_batches (disk claimed_house) !! 1%N = Some BatchRunning.
Proof.
  split; [|vm_compute; reflexivity].
  exact (proj1 (reviews_follow_their_state_machine set_up first_wiki_house first_tables_ok)).
Defined.

Definition reviewed_house : Hub (Conn Tables) := (finish_wiki_review "lab" "p_1" noted first_lease claimed_house).1.
Lemma noted_accepted : (finish_wiki_review "lab" "p_1" noted first_lease claimed_house).2 = Ok 1%N.
Proof. vm_compute. reflexivity. Qed.
Lemma noted_run : finish_wiki_review "lab" "p_1" noted first_lease claimed_house = (reviewed_house, Ok 1%N).
Proof. rewrite <- noted_accepted. apply surjective_pairing. Qed.
Lemma no_receipt_yet : t_receipts (disk claimed_house) !! ("lab"%string, 1%N, 1%N) = None.
Proof. vm_compute. reflexivity. Qed.

Lemma accepted_review_covers_its_window_witness :
  holds_lease (disk claimed_house) "lab" "p_1" first_lease (h_clock claimed_house).
Proof.
  destruct (accepted_review_covers_its_window "lab" "p_1" noted first_lease claimed_house reviewed_house 1 noted_run)
    as [[_ Hr]|[Hl _]]; [|exact Hl].
  exfalso. cbn [wl_batch_id wl_epoch first_lease] in Hr. rewrite no_receipt_yet in Hr. discriminate Hr.
Defined.

Lemma a_review_is_accepted_once_witness :
  (finish_wiki_review "lab" "p_1" noted first_lease (wiki_ops [OpTime 99999999; OpTick] reviewed_house)).2 = Ok 1%N.
Proof.
  destruct (a_review_is_accepted_once "lab" "p_1" noted first_lease claimed_house reviewed_house 1
    [OpTime 99999999; OpTick] claimed_house_ok noted_run) as [_ Hsame].
  refine (Hsame (mkWikiRow "p_1" true 3 1 3 (Some 1000%N) (Some 1000%N)) _ eq_refl _);
    vm_compute; reflexivity.
Defined.

(** The lease runs out, and the batch is claimed again. *)
Definition taken_over : Hub (Conn Tables) := wiki_ops [OpTime 400000; OpClaim "lab" "p_1"] claimed_house.
Definition taken_batch : BatchRow :=
  mkBatchRow "lab" "p_1" 0 3 BatchRunning "message_threshold" 1000 2 2 700000.
Lemma taken_over_ok : wiki_ok (disk taken_over).
Proof. apply wiki_ops_keep, claimed_house_ok. Qed.
Lemma taken_over_batch : t_batches (disk taken_over) !! wl_batch_id first_lease = Some taken_batch.
Proof. vm_compute. reflexivity. Qed.

Lemma an_overtaken_worker_never_publishes_witness :
  exists e, (finish_wiki_review "lab" "p_1" noted first_lease (wiki_ops [OpTime 800000] taken_over)).2 = Err e.
Proof.
  pose proof (an_overtaken_worker_never_publishes "lab" "p_1" noted first_lease taken_over taken_batch
    [OpTime 800000] taken_over_ok taken_over_batch (or_introl eq_refl)) as Ht.
  cbv zeta in Ht.
  destruct (finish_wiki_review "lab" "p_1" noted first_lease (wiki_ops [OpTime 800000] taken_over)) as [h3 finished].
  destruct (renew_wiki_review "lab" "p_1" first_lease (wiki_ops [OpTime 800000] taken_over)) as [h4 renewed].
  destruct Ht as (_ & _ & [e He] & _). exists e. exact He.
Defined.

Definition configured_house : Hub (Conn Tables) :=
  wiki_ops [OpReady "lab" "p_1" "codex"; OpConfigure "lab" "ed" true 3] first_wiki_house.
Lemma noted_committed : (commit_wiki "lab" "p_1" noted configured_house).2 = Ok 1%N.
Proof. vm_compute. reflexivity. Qed.

Lemma a_publication_is_what_readers_see_witness :
  exists s, wiki_page (commit_wiki "lab" "p_1" noted configured_house).1 "lab" "working" = Ok s
    /\ wp_body (wps_page s) = "we ship on Monday"%string.
Proof.
  assert (commit_wiki "lab" "p_1" noted configured_house
    = ((commit_wiki "lab" "p_1" noted configured_house).1, Ok 1%N)) as E.
  { rewrite <- noted_committed. apply surjective_pairing. }
  destruct (a_publication_is_what_readers_see "lab" "p_1" noted configured_house _ 1 E) as (_ & Hp & _).
  destruct (Hp (mkWikiPage "working" "Working area" "we ship on Monday" [1; 2]%N 0)) as (s & Hs & _ & _ & _ & Hb & _).
  { apply list_elem_of_singleton. reflexivity. }
  exists s. split; [exact Hs|exact Hb].
Defined.
