(* ===== verification/ReviewRounds.v ===== *)
(** * The wiki: every message is reviewed

    An editor that keeps claiming what is queued and finishing it is handed every
    message of the room once, in order, and the cursor of the wiki reaches the last
    of them. *)

From Stdlib Require Import Ascii.
From Stdlib Require String.
From S2P Require Import Prelude Text Protocol StoreApi Sql Tables Hub Doors Identity Operators.
From S2P Require Import StoreAttention StoreWork StoreMessages MemoryFacts.
From S2P Require Import WikiTypes WikiMaintenance Wiki WikiFacts WikiPublish Reviews.

Open Scope loca_scope.

Implicit Types t : Tables.
Implicit Types b : BatchRow.

(** ** Lists sorted by a key *)

Definition before {A} (key : A -> N) (x y : A) : Prop := (key x < key y)%N.

Lemma strictly_sorted {A} (key : A -> N) l :
  StronglySorted (by_N key) l -> NoDup (map key l) -> StronglySorted (before key) l.
Proof.
  induction 1 as [|x l Hs IH Hx]; cbn; [constructor|]. intros [Hnin Hnd]%NoDup_cons.
  constructor; [by apply IH|]. rewrite Forall_forall in *. intros y Hy. specialize (Hx y Hy).
  unfold before, by_N in *. assert (key x <> key y); [|lia]. intros E. apply Hnin. rewrite E. by apply list_elem_of_fmap_2.
Qed.

Lemma filter_none {A} (f : A -> bool) l : (forall x, x ∈ l -> f x = false) -> List.filter f l = [].
Proof.
  induction l as [|x l IH]; [done|]. intros Hf. cbn. rewrite Hf by (by left). apply IH. intros y Hy. apply Hf. by right.
Qed.

(** A key in a sorted list cuts it in two. *)
Lemma cut_at {A} (key : A -> N) l1 x l2 :
  StronglySorted (before key) (l1 ++ x :: l2) ->
  List.filter (fun y => (key y <=? key x)%N) (l1 ++ x :: l2) = l1 ++ [x]
  /\ List.filter (fun y => (key x <? key y)%N) (l1 ++ x :: l2) = l2.
Proof.
  intros Hs. apply StronglySorted_app in Hs as (H1 & _ & H2).
  apply StronglySorted_inv in H2 as [H2 Hx]. rewrite Forall_forall in Hx. unfold before in *.
  rewrite !List.filter_app. cbn. rewrite N.leb_refl, N.ltb_irrefl. split.
  - rewrite filter_true_all, filter_none; [done| |].
    + intros y Hy. apply N.leb_gt. by apply Hx.
    + intros y Hy. apply N.leb_le. specialize (H1 y x Hy ltac:(by left)). lia.
  - rewrite filter_none, filter_true_all; [done| |].
    + intros y Hy. apply N.ltb_lt. by apply Hx.
    + intros y Hy. apply N.ltb_ge. specialize (H1 y x Hy ltac:(by left)). lia.
Qed.

(** ** The messages of a room *)

Section messages.
Context `{Unicode}.

(** A message is kept under its id. *)
Definition messages_keyed t : Prop :=
  forall k r, t_messages t !! k = Some r -> msg_id (mg_message r) = k.

Lemma messages_ids t p : messages_keyed t -> NoDup (map msg_id (messages_where t p)).
Proof.
  intros Hk. unfold messages_where. rewrite sort_by_N_Permutation.
  pose proof (NoDup_fst_map_to_list (t_messages t)) as Hnd. unfold values.
  assert (forall k r, (k, r) ∈ map_to_list (t_messages t) -> msg_id (mg_message r) = k) as Hl.
  { intros k r Hin%elem_of_map_to_list. by apply Hk. }
  revert Hnd Hl. generalize (map_to_list (t_messages t)). induction l as [|[k r] l IH]; [done|].
  cbn. intros [Hnin Hnd]%NoDup_cons Hl.
  assert (forall k r, (k, r) ∈ l -> msg_id (mg_message r) = k) as Hl' by (intros; apply Hl; by right).
  destruct (p r); [|by apply IH]. cbn. constructor; [|by apply IH].
  intros (m & Em & (r' & -> & Hr')%list_elem_of_fmap)%list_elem_of_fmap. cbn in Em.
  rewrite list_elem_of_In, filter_In, <- list_elem_of_In in Hr'. destruct Hr' as [Hr' _].
  apply list_elem_of_fmap in Hr' as ([k' r''] & -> & Hin). cbn in Em. apply Hnin.
  rewrite (Hl k r) in Em by (by left). rewrite (Hl' k' r'' Hin) in Em. rewrite Em.
  by apply (list_elem_of_fmap_2 fst _ (k', r'')).
Qed.

Lemma messages_sorted t p : messages_keyed t -> StronglySorted (before msg_id) (messages_where t p).
Proof. intros Hk. apply strictly_sorted; [apply sort_by_N_sorted|by apply messages_ids]. Qed.

Lemma filter_Permutation_map {A B} (f : A -> B) (q : B -> bool) l :
  map f (List.filter (fun x => q (f x)) l) = List.filter q (map f l).
Proof. induction l as [|x l IH]; [done|]. cbn. destruct (q (f x)); cbn; by rewrite IH. Qed.
Lemma filter_filter_and {A} (p q : A -> bool) l :
  List.filter (fun x => p x && q x) l = List.filter q (List.filter p l).
Proof. induction l as [|x l IH]; [done|]. cbn. destruct (p x); cbn; [destruct (q x)|]; by rewrite IH. Qed.
Lemma filter_sorted {A} (R : relation A) (q : A -> bool) l : StronglySorted R l -> StronglySorted R (List.filter q l).
Proof.
  induction 1 as [|x l Hs IH Hx]; [constructor|]. cbn. destruct (q x); [|done]. constructor; [done|].
  rewrite Forall_forall in *. intros y Hy. apply Hx. rewrite list_elem_of_In, filter_In in Hy. apply list_elem_of_In, Hy.
Qed.

(** A further condition on the id selects from the sorted list. *)
Lemma messages_where_and t p (q : N -> bool) :
  messages_keyed t ->
  messages_where t (fun r => p r && q (msg_id (mg_message r)))
    = List.filter (fun m => q (msg_id m)) (messages_where t p).
Proof.
  intros Hk. apply sort_by_N_unique.
  - apply filter_sorted, sort_by_N_sorted.
  - rewrite (filter_filter_and p (fun r => q (msg_id (mg_message r)))).
    rewrite (filter_Permutation_map message_from_row (fun m => q (msg_id m))).
    apply filter_Permutation_bool. unfold messages_where. by rewrite sort_by_N_Permutation.
  - intros x y Hx Hy. rewrite list_elem_of_In, filter_In, <- list_elem_of_In in Hx, Hy.
    apply (NoDup_map_inj msg_id (messages_where t p)); [by apply messages_ids|apply Hx|apply Hy].
Qed.

(** The messages that were not reviewed yet. *)
Definition pending t (room : string) (cursor : N) : list Message :=
  messages_where t (fun r => reviewable room r && (cursor <? msg_id (mg_message r))%N).

(** A window: what is handed out, and what is pending after it. *)
Lemma window_cut t room cursor l1 x l2 :
  messages_keyed t -> pending t room cursor = l1 ++ x :: l2 ->
  messages_where t (fun r => reviewable room r && (cursor <? msg_id (mg_message r))%N
                             && (msg_id (mg_message r) <=? msg_id x)%N) = l1 ++ [x]
  /\ pending t room (msg_id x) = l2.
Proof.
  intros Hk Hp. pose proof (messages_sorted t (fun r => reviewable room r && (cursor <? msg_id (mg_message r))%N) Hk) as Hs.
  fold (pending t room cursor) in Hs. rewrite Hp in Hs.
  destruct (cut_at msg_id l1 x l2 Hs) as [Hle Hgt]. split.
  - rewrite (messages_where_and t _ (fun i => (i <=? msg_id x)%N)) by done. fold (pending t room cursor).
    by rewrite Hp.
  - rewrite <- Hgt. rewrite <- Hp. unfold pending.
    rewrite <- (messages_where_and t _ (fun i => (msg_id x <? i)%N)) by done.
    assert (cursor < msg_id x)%N as Hlt.
    { assert (x ∈ pending t room cursor) as Hin by (rewrite Hp; set_solver).
      apply elem_of_messages_where in Hin as (k & r & _ & Hr & ->). apply andb_prop in Hr as [_ Hr].
      by apply N.ltb_lt in Hr. }
    unfold messages_where. do 2 f_equal. apply List.filter_ext. intros r.
    destruct (reviewable room r); [|done]. cbn.
    destruct (N.ltb_spec (msg_id x) (msg_id (mg_message r))); [|by rewrite andb_false_r].
    rewrite (proj2 (N.ltb_lt _ _)) by lia. done.
Qed.
End messages.

(** ** Running without faults *)

Lemma bind_run {A B} (m : Wiki A) (k : A -> Wiki B) c c1 a : m c = (c1, Ok a) -> bind m k c = k a c1.
Proof. intros E. unfold bind. by rewrite E. Qed.
Lemma execute_run params stmt t t' n :
  binds params = true -> stmt t = Some (t', n) ->
  execute WkStorage params stmt (mkConn t []) = (mkConn t' [], Ok n).
Proof. intros Hb Hs. by apply (execute_faultless _ _ _ (mkConn t [])). Qed.
Lemma transaction_if_run {A} (m : Wiki (bool * A)) t t' a :
  m (mkConn t []) = (mkConn t' [], Ok (true, a)) ->
  transaction_if m (mkConn t []) = (mkConn t' [], Ok a).
Proof.
  intros Hm. unfold transaction_if, next_fault. cbn. unfold past_fault. cbn. by rewrite Hm.
Qed.

Lemma transaction_if_leave {A} (m : Wiki (bool * A)) t t' a :
  m (mkConn t []) = (mkConn t' [], Ok (false, a)) ->
  transaction_if m (mkConn t []) = (mkConn t [], Ok a).
Proof.
  intros Hm. unfold transaction_if, next_fault. cbn. unfold past_fault. cbn. by rewrite Hm.
Qed.

Lemma binds_all params : Forall (fun n => (n <= i64_max)%N) params -> binds params = true.
Proof. intros Hp. apply forallb_forall. intros x Hx. rewrite Forall_forall in Hp. apply N.leb_le, Hp. by apply list_elem_of_In. Qed.

(** A room whose reviews are up to date: no batch is pending and the house works. *)
Record ready t (room editor : string) (w : WikiRow) (at_ : N) (rounds : nat) : Prop := {
  rd_ok : wiki_ok t;
  rd_wiki : t_wiki t !! room = Some w;
  rd_enabled : wk_enabled w = true;
  rd_editor : wk_editor w = editor;
  rd_revision : (wk_revision w <= i64_max)%N;
  rd_free : forall i b, t_batches t !! i = Some b -> bt_room b = room -> batch_active b = false;
  rd_keyed : messages_keyed t;
  rd_messages : forall i r, t_messages t !! i = Some r ->
    (i <= i64_max)%N /\ (msg_ts (mg_message r) + MAX_PENDING_AGE_MS <= at_)%N;
  rd_clock : (at_ + LEASE_MS <= i64_max)%N;
  rd_ids : (next_batch_id t + N.of_nat rounds <= i64_max)%N;
}.

Section rounds.
Context `{Unicode}.

Definition review_of (w : WikiRow) (b : WikiBatch) (reason : string) : WikiCommit :=
  mkWikiCommit (wk_revision w) (wb_through_id b) reason [].

(** What is queued, claimed and finished for the messages up to [through]. *)
Definition queued_batch room editor cursor through reason at_ : BatchRow :=
  mkBatchRow room editor cursor through BatchQueued reason at_ 0 0 0.
Definition after_schedule t room editor cursor through reason at_ : Tables :=
  with_t_batches (<[next_batch_id t := queued_batch room editor cursor through reason at_]> (t_batches t)) t.

Lemma oldest_is_old inputs at_ :
  inputs <> [] -> (forall e : N * N, e ∈ inputs -> (e.2 + MAX_PENDING_AGE_MS <= at_)%N) ->
  forall interval, exists reason, review_reason inputs interval at_ = Some reason.
Proof.
  intros Hne Hall interval. unfold review_reason.
  assert (exists oldest, min_of (map snd inputs) = Some oldest /\ (oldest + MAX_PENDING_AGE_MS <= at_)%N) as (o & -> & Ho).
  { destruct inputs as [|e inputs]; [done|]. cbn. eexists. split; [done|].
    specialize (Hall e ltac:(by left)). assert (foldr N.min e.2 (map snd inputs) <= e.2)%N; [|lia].
    clear. induction (map snd inputs) as [|x l IH]; cbn; lia. }
  cbn. destruct (_ <=? _)%N; [by eexists|]. rewrite (proj2 (N.leb_le _ _)) by lia. by eexists.
Qed.

(** A pending message comes after the cursor, and its id can be stored. *)
Lemma pending_id t room editor w at_ n x :
  ready t room editor w at_ n -> x ∈ pending t room (wk_reviewed_through w) ->
  (wk_reviewed_through w < msg_id x <= i64_max)%N
  /\ exists r, t_messages t !! msg_id x = Some r /\ in_room room r = true.
Proof.
  intros Hr (k & r & Hk & Hp & ->)%elem_of_messages_where. apply andb_prop in Hp as [Hrev Hp].
  apply N.ltb_lt in Hp. pose proof (rd_keyed _ _ _ _ _ _ Hr k r Hk) as Hid. cbn in *.
  destruct (rd_messages _ _ _ _ _ _ Hr k r Hk) as [Hle _]. rewrite Hid in *. split; [done|]. exists r.
  split; [done|]. unfold reviewable in Hrev. apply andb_prop in Hrev as [Hrev _]. by apply andb_prop in Hrev as [Hrev _].
Qed.

Lemma no_active t room editor w at_ n : ready t room editor w at_ n ->
  select_where (fun _ b => room_batch room b && batch_active b) (t_batches t) = None.
Proof.
  intros Hr. apply select_where_None. intros i b Hb. unfold room_batch. case_bool_decide; [|done].
  by rewrite (rd_free _ _ _ _ _ _ Hr i b).
Qed.

Lemma schedule_run t room editor w at_ n l1 x l2 :
  ready t room editor w at_ (S n) -> pending t room (wk_reviewed_through w) = (l1 ++ [x]) ++ l2 ->
  (length (l1 ++ [x]) = 100 \/ length (l1 ++ [x]) < 100 /\ l2 = []) ->
  exists reason, db_schedule_wiki_review room at_ (mkConn t [])
    = (mkConn (after_schedule t room editor (wk_reviewed_through w) (msg_id x) reason at_) [], Ok true).
Proof.
  intros Hr Hp Hlen.
  set (inputs := review_inputs t room (wk_reviewed_through w)).
  assert (inputs = take 1000 (map (fun m => (msg_id m, msg_ts m)) ((l1 ++ [x]) ++ l2))) as Ei.
  { subst inputs. unfold review_inputs. fold (pending t room (wk_reviewed_through w)). by rewrite Hp. }
  assert (inputs <> []) as Hne by (rewrite Ei; by destruct l1).
  destruct (oldest_is_old inputs at_ Hne) with (interval := wk_interval w) as [reason Hreason].
  { intros e He. rewrite Ei in He. apply elem_of_take in He as (i & He & _).
    apply list_elem_of_lookup_2, list_elem_of_fmap in He as (m & -> & Hm). rewrite <- Hp in Hm.
    apply elem_of_messages_where in Hm as (k & r & Hk & _ & ->). by apply (rd_messages _ _ _ _ _ _ Hr k r). }
  assert (default 0%N (fst <$> inputs !! (Nat.min (length inputs) MAX_BATCH_MESSAGES - 1)) = msg_id x) as Hthrough.
  { rewrite Ei. unfold MAX_BATCH_MESSAGES. rewrite length_take, length_map, !length_app. cbn [length].
    rewrite length_app in Hlen. cbn [length] in Hlen.
    assert (Nat.min (Nat.min 1000 (length l1 + 1 + length l2)) 100 - 1 = length l1) as ->.
    { destruct Hlen as [Hlen|[Hlen ->]]; cbn [length]; lia. }
    rewrite lookup_take_lt by lia. rewrite list_lookup_fmap.
    rewrite lookup_app_l by (rewrite length_app; cbn; lia). by rewrite list_lookup_middle. }
  exists reason. apply transaction_if_run.
  rewrite (bind_run _ _ _ (mkConn t []) (Some w)); [|unfold query; cbn; by rewrite (rd_wiki _ _ _ _ _ _ Hr)].
  rewrite (rd_enabled _ _ _ _ _ _ Hr). cbn [negb].
  rewrite (bind_run _ _ _ (mkConn t []) false);
    [|unfold query; cbn [tables]; by rewrite (no_active _ _ _ _ _ _ Hr)].
  rewrite (bind_run _ _ _ (mkConn t []) inputs); [|done]. rewrite Hreason.
  rewrite (bind_run _ _ _ (mkConn t []) (next_batch_id t)); [|done]. cbv zeta. rewrite Hthrough.
  rewrite (rd_editor _ _ _ _ _ _ Hr).
  erewrite bind_run; [reflexivity|]. apply execute_run.
  - destruct (pending_id t room editor w at_ (S n) x Hr) as [Hx _]; [rewrite Hp; set_solver|].
    pose proof (rd_ids _ _ _ _ _ _ Hr). pose proof (rd_clock _ _ _ _ _ _ Hr).
    apply binds_all. repeat constructor; lia.
  - unfold insert_batch. cbn [bt_room]. rewrite (no_active _ _ _ _ _ _ Hr). cbn [negb is_none].
    unfold insert_row. destruct (t_batches t !! next_batch_id t) as [b|] eqn:Eb; [|done].
    apply next_batch_fresh in Eb. lia.
Qed.

(** ** Claiming what was queued *)

Definition after_claim t room editor cursor through reason at_ : Tables :=
  let id := next_batch_id t in
  with_t_leases (<[(id, 1%N) := at_]> (t_leases t))
    (with_t_batches (<[id := claimed_batch 1 (at_ + LEASE_MS) (queued_batch room editor cursor through reason at_)]>
        (t_batches t)) t).

Lemma update_none {K V} `{Countable K} (p : K -> V -> bool) f (m : gmap K V) :
  (forall k v, m !! k = Some v -> p k v = false) -> (update_where p f m).1 = m.
Proof.
  intros Hp. apply map_eq. intros k. rewrite update_where_lookup. destruct (m !! k) as [v|] eqn:E; [|done].
  cbn. by rewrite (Hp k v E).
Qed.
Lemma update_one_row {K V} `{Countable K} f (m : gmap K V) k v :
  (update_where (fun k' _ => bool_decide (k' = k)) f (<[k := v]> m)).1 = <[k := f v]> m.
Proof.
  apply map_eq. intros k'. rewrite update_where_lookup. destruct (decide (k' = k)) as [->|Hne].
  - rewrite !lookup_insert_eq. cbn. by rewrite bool_decide_eq_true_2.
  - rewrite !lookup_insert_ne by done. destruct (m !! k'); [|done]. cbn. by rewrite bool_decide_eq_false_2.
Qed.
Lemma batches_same t : with_t_batches (t_batches t) t = t.
Proof. by destruct t. Qed.
Lemma on_batches_run p f t m :
  (update_where p f (t_batches t)).1 = m ->
  exists n, on_table t_batches with_t_batches (update_where p f) t = Some (with_t_batches m t, n).
Proof. intros <-. unfold on_table. destruct (update_where p f (t_batches t)) as [m n]. by exists n. Qed.

(** The batches of a ready room with the one that was queued. *)
Lemma scheduled_batches t room editor w at_ n q i b :
  ready t room editor w at_ n -> <[next_batch_id t := q]> (t_batches t) !! i = Some b ->
  i = next_batch_id t /\ b = q \/ t_batches t !! i = Some b /\ (bt_room b = room -> batch_active b = false).
Proof.
  intros Hr [[<- <-]|[Hne Hb]]%lookup_insert_Some; [by left|right]. split; [done|]. by apply (rd_free _ _ _ _ _ _ Hr i).
Qed.
Lemma next_batch_none t : t_batches t !! next_batch_id t = None.
Proof. destruct (t_batches t !! next_batch_id t) as [b|] eqn:Eb; [|done]. apply next_batch_fresh in Eb. lia. Qed.

Lemma claimable_run t room editor w at_ n through reason :
  ready t room editor w at_ n ->
  claimable_batch (after_schedule t room editor (wk_reviewed_through w) through reason at_) room editor at_
  = Some (next_batch_id t, queued_batch room editor (wk_reviewed_through w) through reason at_).
Proof.
  intros Hr. unfold claimable_batch, room_batch. apply select_where_unique; [apply lookup_insert_eq| |].
  - apply andb_true_intro. split; [by rewrite !bool_decide_eq_true_2|done].
  - intros i b Hb Hp. apply (scheduled_batches t room editor w at_ n _ i b Hr) in Hb as [[-> ->]|[Hb Hact]]; [done|].
    exfalso. apply andb_prop in Hp as [Hp Hst]. apply andb_prop in Hp as [Hroom _].
    apply bool_decide_eq_true in Hroom. specialize (Hact Hroom). unfold batch_active in Hact.
    apply orb_prop in Hst as [Hst|Hst]; [apply bool_decide_eq_true in Hst; by rewrite Hst in Hact|].
    apply andb_prop in Hst as [Hst _]. apply bool_decide_eq_true in Hst. by rewrite Hst in Hact.
Qed.

Lemma nothing_exhausted t room editor w at_ n through reason :
  ready t room editor w at_ n ->
  let ts := after_schedule t room editor (wk_reviewed_through w) through reason at_ in
  exists k, block_exhausted room at_ ts = Some (ts, k).
Proof.
  intros Hr ts. destruct (on_batches_run (fun _ b => room_batch room b && bool_decide (bt_status b = BatchRunning)
    && (bt_lease_expires_at b <=? at_)%N && (3 <=? bt_attempts b)%N) (with_bt_status BatchBlocked) ts (t_batches ts))
    as [k Hk]; [|exists k; unfold block_exhausted; by rewrite Hk, batches_same].
  apply update_none. intros i b Hb. apply (scheduled_batches t room editor w at_ n _ i b Hr) in Hb as [[-> ->]|[Hb Hact]].
  - cbn. by rewrite andb_false_r.
  - unfold room_batch. case_bool_decide as Hroom; [|done]. specialize (Hact Hroom). unfold batch_active in Hact.
    case_bool_decide as Hst; [by rewrite Hst in Hact|done].
Qed.

Lemma claim_run t room editor w at_ n l1 x l2 reason :
  ready t room editor w at_ (S n) -> pending t room (wk_reviewed_through w) = (l1 ++ [x]) ++ l2 ->
  length (l1 ++ [x]) <= 100 ->
  db_claim_wiki_review room editor at_
    (mkConn (after_schedule t room editor (wk_reviewed_through w) (msg_id x) reason at_) [])
  = (mkConn (after_claim t room editor (wk_reviewed_through w) (msg_id x) reason at_) [],
     Ok (Some (mkWikiBatch (mkWikiLease (next_batch_id t) 1) room (wk_reviewed_through w) (msg_id x) reason
                 (at_ + LEASE_MS) 1 (l1 ++ [x])))).
Proof.
  intros Hr Hp Hlen. set (ts := after_schedule _ _ _ _ _ _ _). set (id := next_batch_id t).
  destruct (pending_id t room editor w at_ (S n) x Hr) as [Hx _]; [rewrite Hp; set_solver|].
  pose proof (rd_ids _ _ _ _ _ _ Hr) as Hids. pose proof (rd_clock _ _ _ _ _ _ Hr) as Hclock.
  unfold LEASE_MS, i64_max in *. destruct (nothing_exhausted t room editor w at_ (S n) (msg_id x) reason Hr) as [k Hk].
  pose proof (claimable_run t room editor w at_ (S n) (msg_id x) reason Hr) as Hcl.
  fold ts in Hk, Hcl. apply transaction_if_run.
  rewrite (bind_run _ _ _ (mkConn ts []) (Some w)); [|unfold query; cbn; by rewrite (rd_wiki _ _ _ _ _ _ Hr)].
  rewrite (bind_run _ _ _ (mkConn ts []) w); [|done].
  rewrite (bind_run _ _ _ (mkConn ts []) tt);
    [|by rewrite (rd_editor _ _ _ _ _ _ Hr), bool_decide_eq_true_2].
  rewrite (rd_enabled _ _ _ _ _ _ Hr). cbn [negb].
  rewrite (bind_run _ _ _ (mkConn ts []) k); [|apply execute_run; [apply binds_all; unfold i64_max; repeat constructor; lia|done]].
  erewrite bind_run; [|unfold query; cbn [tables]; by rewrite Hcl].
  cbn [bt_epoch bt_attempts bt_after bt_through bt_reason queued_batch].
  rewrite (bind_run _ _ _ (mkConn ts []) (at_ + LEASE_MS)%N).
  2: { unfold checked_add64. rewrite (proj2 (N.leb_le _ _)); [done|]. unfold LEASE_MS, u64_max. lia. }
  rewrite (bind_run _ _ _ (mkConn ts []) 1%N); [|done].
  destruct (on_batches_run (fun k' _ => bool_decide (k' = id)) (claimed_batch 1 (at_ + LEASE_MS)) ts _
    (update_one_row _ (t_batches t) id _)) as [k2 Hk2].
  erewrite bind_run; [|apply execute_run; [apply binds_all; unfold i64_max, LEASE_MS, id; repeat constructor; lia|exact Hk2]].
  rewrite (bind_run _ _ _ (mkConn (after_claim t room editor (wk_reviewed_through w) (msg_id x) reason at_) []) 1).
  2: { apply execute_run; [apply binds_all; unfold i64_max, id; repeat constructor; lia|].
    unfold insert_row. cbn [t_leases with_t_batches]. change (t_leases ts) with (t_leases t).
    destruct (t_leases t !! (next_batch_id t, 1%N)) as [s|] eqn:El; [|reflexivity].
    destruct (co_epochs _ (wo_core _ (rd_ok _ _ _ _ _ _ Hr)) _ _ _ El) as (b & Hb & _).
    by rewrite next_batch_none in Hb. }
  erewrite bind_run; [|done]. unfold commit, ret. repeat f_equal.
  unfold review_messages. cbn [tables]. change (t_messages (after_claim t room editor (wk_reviewed_through w) (msg_id x) reason at_)) with (t_messages t).
  pose proof (window_cut t room (wk_reviewed_through w) l1 x l2 (rd_keyed _ _ _ _ _ _ Hr)) as Hcut.
  rewrite <- app_assoc in Hp. destruct (Hcut Hp) as [Hw _].
  change (messages_where (after_claim t room editor (wk_reviewed_through w) (msg_id x) reason at_)) with (messages_where t).
  rewrite Hw. by rewrite take_ge.
Qed.

(** ** Finishing what was claimed *)

Definition no_pages (w : WikiRow) (through : N) (reason : string) : WikiCommit :=
  mkWikiCommit (wk_revision w) through reason [].
Definition reviewed (w : WikiRow) (through at_ : N) : WikiRow :=
  published_wiki (wk_revision w) through at_ false false w.
Definition after_finish t room editor (w : WikiRow) through cause reason at_ : Tables :=
  let id := next_batch_id t in
  with_t_batches (<[id := with_bt_status BatchCompleted (claimed_batch 1 (at_ + LEASE_MS)
      (queued_batch room editor (wk_reviewed_through w) through cause at_))]> (t_batches t))
    (with_t_receipts (<[(room, id, 1%N) := mkReceiptRow editor (no_pages w through reason) (wk_revision w)]>
        (t_receipts t))
      (with_t_wiki (<[room := reviewed w through at_]> (t_wiki t))
        (after_claim t room editor (wk_reviewed_through w) through cause at_))).

Lemma check_lease_run t room editor w at_ n through cause reason :
  ready t room editor w at_ (S n) ->
  let tc := after_claim t room editor (wk_reviewed_through w) through cause at_ in
  check_lease room editor (no_pages w through reason) (mkWikiLease (next_batch_id t) 1)
    (wk_reviewed_through w) at_ (mkConn tc []) = (mkConn tc [], Ok None).
Proof.
  intros Hr tc. pose proof (rd_ids _ _ _ _ _ _ Hr) as Hids. pose proof (rd_clock _ _ _ _ _ _ Hr) as Hclock.
  unfold check_lease, read. cbn [wl_batch_id wl_epoch].
  assert (binds [next_batch_id t; 1%N; at_] = true) as Hb3.
  { apply binds_all. unfold i64_max, LEASE_MS in *. repeat constructor; lia. }
  assert (binds [next_batch_id t; 1%N] = true) as ->.
  { unfold binds in *. cbn in *. rewrite !andb_true_iff in *. tauto. }
  erewrite (bind_run (query _)); [|done]. cbn [tables].
  change (t_receipts tc) with (t_receipts t).
  destruct (t_receipts t !! (room, next_batch_id t, 1%N)) as [rc|] eqn:Er.
  { destruct (co_receipt _ (wo_core _ (rd_ok _ _ _ _ _ _ Hr)) _ _ _ _ Er) as (b & Hb & _).
    by rewrite next_batch_none in Hb. }
  set (b := claimed_batch 1 (at_ + LEASE_MS) (queued_batch room editor (wk_reviewed_through w) through cause at_)).
  assert (t_batches tc !! next_batch_id t = Some b) as Hbatch by apply lookup_insert_eq.
  rewrite (bind_run _ _ _ (mkConn tc []) true).
  2: { unfold lease_valid, read. cbn [wl_batch_id wl_epoch]. rewrite Hb3. unfold query. cbn [tables].
    rewrite Hbatch. change (t_wiki tc) with (t_wiki t). rewrite (rd_wiki _ _ _ _ _ _ Hr). do 2 f_equal.
    unfold room_batch. cbn [bt_epoch bt_room bt_editor bt_status bt_lease_expires_at b claimed_batch queued_batch].
    rewrite (rd_editor _ _ _ _ _ _ Hr), (rd_enabled _ _ _ _ _ _ Hr), !bool_decide_eq_true_2 by done.
    rewrite (proj2 (N.ltb_lt _ _)); [done|]. unfold LEASE_MS. lia. }
  rewrite (bind_run _ _ _ (mkConn tc []) tt); [|done].
  rewrite (bind_run _ _ _ (mkConn tc []) (Some b)); [|unfold query; cbn [tables]; by rewrite Hbatch].
  rewrite (bind_run _ _ _ (mkConn tc []) b); [|done].
  rewrite (bind_run _ _ _ (mkConn tc []) tt); [done|].
  cbn [bt_after bt_through b claimed_batch queued_batch wc_reviewed_through no_pages].
  by rewrite !N.eqb_refl.
Qed.

Lemma publish_run t room editor w at_ n x cause reason :
  ready t room editor w at_ (S n) -> x ∈ pending t room (wk_reviewed_through w) ->
  publish room editor (no_pages w (msg_id x) reason) at_ (Some (mkWikiLease (next_batch_id t) 1)) false w
    (mkConn (after_claim t room editor (wk_reviewed_through w) (msg_id x) cause at_) [])
  = (mkConn (after_finish t room editor w (msg_id x) cause reason at_) [], Ok (wk_revision w)).
Proof.
  intros Hr Hx. destruct (pending_id t room editor w at_ (S n) x Hr Hx) as [Hid (r & Hmsg & Hroom)].
  pose proof (rd_ids _ _ _ _ _ _ Hr) as Hids. pose proof (rd_clock _ _ _ _ _ _ Hr) as Hclock.
  pose proof (rd_revision _ _ _ _ _ _ Hr) as Hrev. unfold LEASE_MS, i64_max in *.
  set (tc := after_claim _ _ _ _ _ _ _). unfold publish. cbn [wc_reviewed_through wc_expected_revision wc_pages no_pages].
  rewrite (bind_run _ _ _ (mkConn tc []) tt); [|rewrite N.eqb_refl, (proj2 (N.ltb_ge _ _)) by lia; done].
  rewrite (proj2 (N.eqb_neq _ _)) by lia.
  rewrite (bind_run _ _ _ (mkConn tc []) true).
  2: { unfold message_in, read. rewrite (binds_all [msg_id x]) by (repeat constructor; unfold i64_max; lia).
    unfold query. cbn [tables]. change (t_messages tc) with (t_messages t). by rewrite Hmsg, Hroom. }
  rewrite (bind_run _ _ _ (mkConn tc []) tt); [|done]. erewrite bind_run; [|done].
  rewrite (bind_run _ _ _ (mkConn tc []) []); [|done]. cbn [bool_decide negb].
  rewrite (bind_run _ _ _ (mkConn tc []) (wk_revision w)).
  2: { unfold checked_add64. cbn. rewrite N.add_0_r, (proj2 (N.leb_le _ _)); [done|]. unfold u64_max. lia. }
  rewrite (bind_run _ _ _ (mkConn tc []) tt); [|done].
  set (tw := with_t_wiki (<[room := reviewed w (msg_id x) at_]> (t_wiki t)) tc).
  assert (exists k, update_wiki room (published_wiki (wk_revision w) (msg_id x) at_ false false) tc = Some (tw, k)) as [k Hk].
  { unfold update_wiki, on_table. destruct (update_where _ _ (t_wiki tc)) as [m k] eqn:Em. exists k.
    apply (f_equal fst) in Em. cbn [fst] in Em. rewrite <- Em. unfold tw. do 3 f_equal. change (t_wiki tc) with (t_wiki t).
    apply map_eq. intros r0. rewrite one_row. case_decide as E; [subst r0|by rewrite lookup_insert_ne].
    rewrite lookup_insert_eq, (rd_wiki _ _ _ _ _ _ Hr). done. }
  rewrite (bind_run _ _ _ (mkConn tw []) k); [|apply execute_run; [apply binds_all; unfold i64_max; repeat constructor; lia|exact Hk]].
  rewrite (bind_run _ _ _ (mkConn (after_finish t room editor w (msg_id x) cause reason at_) []) tt); [done|].
  unfold settle_batches. cbn [wl_batch_id wl_epoch].
  set (tr := with_t_receipts (<[(room, next_batch_id t, 1%N) := mkReceiptRow editor (no_pages w (msg_id x) reason) (wk_revision w)]>
    (t_receipts t)) tw).
  rewrite (bind_run _ _ _ (mkConn tr []) 1).
  2: { apply execute_run; [apply binds_all; unfold i64_max; repeat constructor; lia|].
    unfold insert_row. change (t_receipts tw) with (t_receipts t).
    destruct (t_receipts t !! (room, next_batch_id t, 1%N)) as [rc|] eqn:Er; [|reflexivity].
    destruct (co_receipt _ (wo_core _ (rd_ok _ _ _ _ _ _ Hr)) _ _ _ _ Er) as (b & Hb & _).
    by rewrite next_batch_none in Hb. }
  destruct (on_batches_run (fun k' _ => bool_decide (k' = next_batch_id t)) (with_bt_status BatchCompleted) tr _
    (update_one_row _ (t_batches t) (next_batch_id t) _)) as [k2 Hk2].
  erewrite bind_run; [|apply execute_run; [apply binds_all; unfold i64_max; repeat constructor; lia|exact Hk2]].
  reflexivity.
Qed.

Lemma finish_run t room editor w at_ n x cause reason :
  ready t room editor w at_ (S n) -> x ∈ pending t room (wk_reviewed_through w) ->
  commit_refused (no_pages w (msg_id x) reason) = false ->
  db_finish_wiki_review room editor (no_pages w (msg_id x) reason) (mkWikiLease (next_batch_id t) 1) at_
    (mkConn (after_claim t room editor (wk_reviewed_through w) (msg_id x) cause at_) [])
  = (mkConn (after_finish t room editor w (msg_id x) cause reason at_) [], Ok (wk_revision w)).
Proof.
  intros Hr Hx Hc. unfold db_finish_wiki_review, db_commit_wiki_checked. rewrite Hc. apply transaction_if_run.
  set (tc := after_claim _ _ _ _ _ _ _).
  rewrite (bind_run _ _ _ (mkConn tc []) (Some w)); [|unfold query; cbn; by rewrite (rd_wiki _ _ _ _ _ _ Hr)].
  rewrite (bind_run _ _ _ (mkConn tc []) w); [|done].
  rewrite (bind_run _ _ _ (mkConn tc []) tt); [|by rewrite (rd_editor _ _ _ _ _ _ Hr), bool_decide_eq_true_2].
  rewrite (bind_run _ _ _ (mkConn tc []) tt); [|done].
  rewrite (bind_run _ _ _ (mkConn tc []) None); [|by apply (check_lease_run t room editor w at_ n)].
  erewrite bind_run; [|by apply (publish_run t room editor w at_ n)]. done.
Qed.

(** ** One round *)

(** What an editor does with one batch: it is queued, the editor claims it, reads
    the revision of the wiki and finishes without changing a page; the messages it
    was handed, or nothing when there was none or a step failed. *)
Definition review_round room editor reason at_ c : Conn Tables * option (list Message) :=
  let '(c, _) := db_schedule_wiki_review room at_ c in
  let '(c, claimed) := db_claim_wiki_review room editor at_ c in
  match claimed, db_wiki_snapshot (tables c) room with
  | Ok (Some batch), Ok s =>
      let update := mkWikiCommit (ws_revision s) (wb_through_id batch) reason [] in
      let '(c, finished) := db_finish_wiki_review room editor update (wb_lease batch) at_ c in
      (c, match finished with Ok _ => Some (wb_messages batch) | Err _ => None end)
  | _, _ => (c, None)
  end.

(** Rounds until there is nothing to review, [rounds] at most. *)
Fixpoint review_rounds (rounds : nat) room editor reason at_ c : Conn Tables * list Message :=
  match rounds with
  | O => (c, [])
  | S rounds =>
      match review_round room editor reason at_ c with
      | (c, None) => (c, [])
      | (c, Some messages) =>
          let '(c, rest) := review_rounds rounds room editor reason at_ c in (c, messages ++ rest)
      end
  end.

Lemma round_run t room editor w at_ n l1 x l2 reason :
  ready t room editor w at_ (S n) -> pending t room (wk_reviewed_through w) = (l1 ++ [x]) ++ l2 ->
  (length (l1 ++ [x]) = 100 \/ length (l1 ++ [x]) < 100 /\ l2 = []) ->
  commit_refused (no_pages w (msg_id x) reason) = false ->
  exists cause t', review_round room editor reason at_ (mkConn t []) = (mkConn t' [], Some (l1 ++ [x]))
  /\ t' = after_finish t room editor w (msg_id x) cause reason at_ /\ wiki_ok t'.
Proof.
  intros Hr Hp Hlen Hc.
  destruct (schedule_run t room editor w at_ n l1 x l2 Hr Hp Hlen) as [cause Hs].
  assert (length (l1 ++ [x]) <= 100) as Hle by (destruct Hlen as [Hlen|[Hlen _]]; lia).
  assert (x ∈ pending t room (wk_reviewed_through w)) as Hx by (rewrite Hp; set_solver).
  pose proof (claim_run t room editor w at_ n l1 x l2 cause Hr Hp Hle) as Hcl.
  pose proof (finish_run t room editor w at_ n x cause reason Hr Hx Hc) as Hf.
  eexists cause, _. split_and!; [|done|].
  - unfold review_round. rewrite Hs, Hcl. cbn [tables wb_through_id wb_lease wb_messages].
    unfold db_wiki_snapshot. change (t_wiki (after_claim t room editor (wk_reviewed_through w) (msg_id x) cause at_)) with (t_wiki t).
    rewrite (rd_wiki _ _ _ _ _ _ Hr). cbn [ws_revision]. fold (no_pages w (msg_id x) reason). by rewrite Hf.
  - pose proof (schedule_keeps room at_ (mkConn t [])) as K1. rewrite Hs in K1.
    pose proof (claim_keeps room editor at_ (mkConn (after_schedule t room editor (wk_reviewed_through w) (msg_id x) cause at_) [])) as K2.
    rewrite Hcl in K2.
    pose proof (commit_keeps room editor (no_pages w (msg_id x) reason) at_ (Some (mkWikiLease (next_batch_id t) 1)) false
      (mkConn (after_claim t room editor (wk_reviewed_through w) (msg_id x) cause at_) [])) as K3.
    unfold db_finish_wiki_review in Hf. rewrite Hf in K3. cbn [fst tables] in *.
    by apply K3, K2, K1, Hr.
Qed.

Lemma next_batch_insert t t' b :
  t_batches t' = <[next_batch_id t := b]> (t_batches t) -> (next_batch_id t' <= next_batch_id t + 1)%N.
Proof.
  intros E. unfold next_batch_id at 1. rewrite E.
  assert (forall i, i ∈ keys (<[next_batch_id t := b]> (t_batches t)) -> (i <= next_batch_id t)%N) as Hall.
  { intros i [b' [[<- _]|[_ Hb]]%lookup_insert_Some]%elem_of_keys; [lia|]. apply next_batch_fresh in Hb. lia. }
  revert Hall. generalize (keys (<[next_batch_id t := b]> (t_batches t))). intros l Hall.
  assert (foldr N.max 0%N l <= next_batch_id t)%N; [|lia].
  induction l as [|i l IH]; cbn; [lia|]. apply N.max_lub; [apply Hall; by left|apply IH; intros; apply Hall; by right].
Qed.

(** After a round the room is ready again, and what was handed out is reviewed. *)
Lemma round_ready t room editor w at_ n l1 x l2 cause reason :
  ready t room editor w at_ (S n) -> pending t room (wk_reviewed_through w) = (l1 ++ [x]) ++ l2 ->
  let t' := after_finish t room editor w (msg_id x) cause reason at_ in
  let w' := reviewed w (msg_id x) at_ in
  wiki_ok t' -> ready t' room editor w' at_ n /\ pending t' room (wk_reviewed_through w') = l2.
Proof.
  intros Hr Hp t' w' Hok. split.
  - constructor; try apply Hr; try done.
    + apply lookup_insert_eq.
    + intros i b. cbn. intros [[<- <-]|[_ Hb]]%lookup_insert_Some; [done|by apply (rd_free _ _ _ _ _ _ Hr i)].
    + pose proof (rd_ids _ _ _ _ _ _ Hr). pose proof (next_batch_insert t t' _ eq_refl). lia.
  - rewrite <- app_assoc in Hp. by destruct (window_cut t room _ l1 x l2 (rd_keyed _ _ _ _ _ _ Hr) Hp).
Qed.

Lemma schedule_idle t room editor w at_ n :
  ready t room editor w at_ n -> pending t room (wk_reviewed_through w) = [] ->
  db_schedule_wiki_review room at_ (mkConn t []) = (mkConn t [], Ok false).
Proof.
  intros Hr Hp. apply (transaction_if_leave _ t t).
  rewrite (bind_run _ _ _ (mkConn t []) (Some w)); [|unfold query; cbn; by rewrite (rd_wiki _ _ _ _ _ _ Hr)].
  rewrite (rd_enabled _ _ _ _ _ _ Hr). cbn [negb].
  rewrite (bind_run _ _ _ (mkConn t []) false);
    [|unfold query; cbn [tables]; by rewrite (no_active _ _ _ _ _ _ Hr)].
  rewrite (bind_run _ _ _ (mkConn t []) []); [done|].
  unfold query, review_inputs. cbn [tables]. fold (pending t room (wk_reviewed_through w)). by rewrite Hp.
Qed.

(** Nothing of the room is queued or runs. *)
Lemma ready_free t room editor w at_ n i b :
  ready t room editor w at_ n -> t_batches t !! i = Some b -> room_batch room b = true ->
  bt_status b <> BatchQueued /\ bt_status b <> BatchRunning.
Proof.
  intros Hr Hb Hroom%bool_decide_eq_true. pose proof (rd_free _ _ _ _ _ _ Hr i b Hb Hroom) as Ha.
  unfold batch_active in Ha. by destruct (bt_status b).
Qed.

Lemma claim_idle t room editor w at_ n :
  ready t room editor w at_ n ->
  db_claim_wiki_review room editor at_ (mkConn t []) = (mkConn t [], Ok None).
Proof.
  intros Hr.
  assert (exists k, block_exhausted room at_ t = Some (t, k)) as [k Hk].
  { destruct (on_batches_run (fun _ b => room_batch room b && bool_decide (bt_status b = BatchRunning)
      && (bt_lease_expires_at b <=? at_)%N && (3 <=? bt_attempts b)%N) (with_bt_status BatchBlocked) t (t_batches t))
      as [k Hk]; [|exists k; unfold block_exhausted; by rewrite Hk, batches_same].
    apply update_none. intros i b Hb. destruct (room_batch room b) eqn:Hroom; [|done].
    destruct (ready_free _ _ _ _ _ _ i b Hr Hb Hroom) as [_ Hst]. by rewrite bool_decide_eq_false_2. }
  assert (claimable_batch t room editor at_ = None) as Hcl.
  { unfold claimable_batch. apply select_where_None. intros i b Hb. destruct (room_batch room b) eqn:Hroom; [|done].
    destruct (ready_free _ _ _ _ _ _ i b Hr Hb Hroom) as [Hq Hst].
    rewrite !(bool_decide_eq_false_2 (bt_status b = _)) by done. apply andb_false_r. }
  apply transaction_if_run.
  rewrite (bind_run _ _ _ (mkConn t []) (Some w)); [|unfold query; cbn; by rewrite (rd_wiki _ _ _ _ _ _ Hr)].
  rewrite (bind_run _ _ _ (mkConn t []) w); [|done].
  rewrite (bind_run _ _ _ (mkConn t []) tt); [|by rewrite (rd_editor _ _ _ _ _ _ Hr), bool_decide_eq_true_2].
  rewrite (rd_enabled _ _ _ _ _ _ Hr). cbn [negb].
  rewrite (bind_run _ _ _ (mkConn t []) k).
  2: { apply execute_run; [|done]. pose proof (rd_clock _ _ _ _ _ _ Hr). apply binds_all. repeat constructor. lia. }
  erewrite bind_run; [|unfold query; cbn [tables]; by rewrite Hcl]. done.
Qed.

(** When nothing is pending a round does nothing. *)
Lemma round_idle t room editor w at_ n reason :
  ready t room editor w at_ n -> pending t room (wk_reviewed_through w) = [] ->
  review_round room editor reason at_ (mkConn t []) = (mkConn t [], None).
Proof.
  intros Hr Hp. unfold review_round.
  by rewrite (schedule_idle t room editor w at_ n Hr Hp), (claim_idle t room editor w at_ n Hr).
Qed.

(** The first hundred of a list that is not empty. *)
Lemma first_hundred {A} (l : list A) : l <> [] ->
  exists l1 x l2, l = (l1 ++ [x]) ++ l2
  /\ (length (l1 ++ [x]) = 100 \/ length (l1 ++ [x]) < 100 /\ l2 = []) /\ length l2 = length l - 100.
Proof.
  intros Hne. destruct (list_snoc_take l (Nat.min 100 (length l))) as (l1 & x & Ht & Hl); [destruct l; [done|cbn; lia]|lia|].
  exists l1, x, (drop (Nat.min 100 (length l)) l). split; [done|]. rewrite <- Ht, length_take, length_drop.
  destruct (le_lt_dec 100 (length l)) as [Hge|Hlt]; (split; [|lia]); [left; lia|right].
  split; [lia|]. apply drop_ge. lia.
Qed.

(** C10: Every message is reviewed.  In a room with an enabled wiki whose reviews are
    up to date, in a house whose disk works, an editor that goes round claiming
    what is queued and finishing it is handed every message that waits for review
    once, in the order of their ids and nothing else, one round for every hundred
    of them; then the cursor of the wiki is at the last of them, and nothing waits. *)
Theorem every_message_is_reviewed rounds t room editor w at_ reason :
  ready t room editor w at_ rounds -> commit_refused (no_pages w 0 reason) = false ->
  length (pending t room (wk_reviewed_through w)) <= 100 * rounds ->
  let '(c, handed) := review_rounds rounds room editor reason at_ (mkConn t []) in
  handed = pending t room (wk_reviewed_through w)
  /\ exists w', t_wiki (tables c) !! room = Some w'
     /\ wk_reviewed_through w' = default (wk_reviewed_through w)
          (msg_id <$> last (pending t room (wk_reviewed_through w)))
     /\ pending (tables c) room (wk_reviewed_through w') = [].
Proof.
  intros Hr Hc. revert t w Hr Hc. induction rounds as [|rounds IH]; intros t w Hr Hc Hlen.
  { cbn. assert (pending t room (wk_reviewed_through w) = []) as -> by (apply nil_length_inv; lia).
    split; [done|]. exists w. split_and!; [by apply Hr|done|]. apply nil_length_inv. cbn. lia. }
  cbn [review_rounds]. destruct (decide (pending t room (wk_reviewed_through w) = [])) as [Hp|Hp].
  { rewrite (round_idle t room editor w at_ (S rounds)) by done. rewrite Hp. split; [done|].
    exists w. split_and!; [by apply Hr|done|done]. }
  destruct (first_hundred _ Hp) as (l1 & x & l2 & Hsplit & Hh & Hl2).
  destruct (round_run t room editor w at_ rounds l1 x l2 reason Hr Hsplit Hh Hc) as (cause & t' & -> & -> & Hok').
  destruct (round_ready t room editor w at_ rounds l1 x l2 cause reason Hr Hsplit Hok') as [Hr' Hp'].
  set (t' := after_finish _ _ _ _ _ _ _ _) in *. set (w' := reviewed w (msg_id x) at_) in *.
  specialize (IH t' w' Hr' Hc). rewrite Hp' in IH.
  destruct (review_rounds rounds room editor reason at_ (mkConn t' [])) as [c rest].
  destruct IH as (-> & w2 & Hw2 & Hcur & Hdone); [lia|]. split; [by rewrite Hsplit|].
  exists w2. split_and!; [done| |done]. rewrite Hcur, Hsplit. destruct l2 as [|y l2].
  - by rewrite app_nil_r, last_snoc.
  - rewrite last_app. by destruct (last (y :: l2)) eqn:El; [|apply last_None in El].
Qed.
End rounds.

(** ** Witness: three messages of a first room *)

#[local] Existing Instance ascii_unicode.

Definition waiting_tables : Tables := disk configured_house.
Definition waiting_wiki : WikiRow := default (mkWikiRow "" false 0 0 0 None None) (t_wiki waiting_tables !! "lab"%string).

Lemma waiting_ready : ready waiting_tables "lab" "p_1" waiting_wiki 1000000 1.
Proof.
  assert (t_batches waiting_tables = ∅) as Eb by (vm_compute; reflexivity).
  assert (t_messages waiting_tables = t_messages first_tables) as Em by (vm_compute; reflexivity).
  constructor.
  - apply wiki_ops_keep, first_tables_ok.
  - vm_compute. reflexivity.
  - vm_compute. reflexivity.
  - vm_compute. reflexivity.
  - vm_compute. discriminate.
  - intros i b. rewrite Eb, lookup_empty. discriminate.
  - intros i r. rewrite Em. cbn [first_tables t_messages with_t_messages].
    intros [[<- <-]|[_ [[<- <-]|[_ [<- <-]%lookup_singleton_Some]]%lookup_insert_Some]]%lookup_insert_Some; reflexivity.
  - intros i r. rewrite Em. cbn [first_tables t_messages with_t_messages].
    intros [[<- <-]|[_ [[<- <-]|[_ [<- <-]%lookup_singleton_Some]]%lookup_insert_Some]]%lookup_insert_Some;
      split; vm_compute; discriminate.
  - vm_compute. discriminate.
  - vm_compute. discriminate.
Qed.
Lemma three_wait : map msg_id (pending waiting_tables "lab" (wk_reviewed_through waiting_wiki)) = [1; 2; 3]%N.
Proof. vm_compute. reflexivity. Qed.

Lemma every_message_is_reviewed_witness :
  map msg_id (review_rounds 1 "lab" "p_1" "noted" 1000000 (mkConn waiting_tables [])).2 = [1; 2; 3]%N.
Proof.
  assert (length (pending waiting_tables "lab" (wk_reviewed_through waiting_wiki)) <= 100 * 1) as Hlen.
  { rewrite <- (length_map msg_id), three_wait. cbn. lia. }
  assert (commit_refused (no_pages waiting_wiki 0 "noted") = false) as Hc by (vm_compute; reflexivity).
  pose proof (every_message_is_reviewed 1 waiting_tables "lab" "p_1" waiting_wiki 1000000 "noted" waiting_ready Hc Hlen) as Hm.
  destruct (review_rounds 1 "lab" "p_1" "noted" 1000000 (mkConn waiting_tables [])) as [c handed].
  destruct Hm as [-> _]. exact three_wait.
Defined.
