(* ===== verification/AttachmentFacts.v ===== *)
(** * The attachments: facts

    What is cited or waits in a room can always be read back; a message claims
    only what is there; quotas hold; the sweep takes the orphans and nothing
    else. *)

From Stdlib Require Import ZArith.
From S2P Require Import Prelude Text Protocol StoreApi Sql Tables Hub Membership Identity.
From S2P Require Import Operators StoreAttention StoreWork StoreMessages BlobFiles Boot Attachments.

Open Scope loca_scope.

Implicit Types t : Tables.

(** ** What a room may cite *)

Definition available t (room sha : string) : Prop :=
  (exists id r, t_refs t !! (room, id, sha) = Some r) \/ (exists r, t_pending t !! (sha, room) = Some r).

Lemma cited_in_Some t room sha k r :
  cited_in t room sha = Some (k, r) -> t_refs t !! k = Some r /\ k.1.1 = room /\ k.2 = sha.
Proof.
  intros [Hk Hp]%select_where_Some. apply andb_true_iff in Hp as [H1 H2].
  by rewrite bool_decide_eq_true in H1, H2.
Qed.

Lemma cited_in_None t room sha :
  cited_in t room sha = None <-> forall id, t_refs t !! (room, id, sha) = None.
Proof.
  unfold cited_in. rewrite select_where_None. split.
  - intros Hn id. destruct (t_refs t !! (room, id, sha)) as [r|] eqn:Er; [|done].
    specialize (Hn _ _ Er). cbn in Hn. by rewrite !bool_decide_eq_true_2 in Hn.
  - intros Hn [[r id] s] v Hv. cbn. destruct (decide (r = room)) as [->|]; [|by rewrite bool_decide_eq_false_2].
    destruct (decide (s = sha)) as [->|]; [by rewrite Hn in Hv|].
    rewrite (bool_decide_eq_false_2 (s = sha)) by done. apply andb_false_r.
Qed.

Lemma cited_in_is_Some t room sha :
  is_none (cited_in t room sha) = false <-> exists id r, t_refs t !! (room, id, sha) = Some r.
Proof.
  destruct (cited_in t room sha) as [[k r]|] eqn:E; cbn; split; try done.
  - intros _. apply cited_in_Some in E as (Ek & E1 & E2). destruct k as [[? id] ?]. cbn in *. subst.
    by eexists _, _.
  - rewrite cited_in_None in E. intros (id & r & Hr). by rewrite E in Hr.
Qed.

Lemma room_has_sha_available t room sha : room_has_sha t room sha = true <-> available t room sha.
Proof.
  unfold room_has_sha, available. rewrite orb_true_iff, !negb_true_iff, cited_in_is_Some.
  destruct (t_pending t !! (sha, room)) as [r|]; cbn; split; intros [Hc|Hp]; auto; try done.
  - right. by eexists.
  - by destruct Hp as [? [=]].
Qed.

Lemma claimable_available t room sha : claimable t room sha = true <-> available t room sha.
Proof. rewrite <- room_has_sha_available. unfold claimable, room_has_sha, cited_in. by rewrite orb_comm. Qed.

(** Nothing became available, and the table of the files is what it was. *)
Record no_new_files t t' : Prop := {
  nf_available : forall room sha, available t' room sha -> available t room sha;
  nf_blobs : t_blobs t' = t_blobs t;
}.
#[local] Instance no_new_refl : Reflexive no_new_files.
Proof. by constructor. Qed.
#[local] Instance no_new_trans : Transitive no_new_files.
Proof. intros t1 t2 t3 [A1 B1] [A2 B2]. constructor; [auto|congruence]. Qed.

Lemma no_new_same t t' :
  t_refs t' = t_refs t -> t_pending t' = t_pending t -> t_blobs t' = t_blobs t -> no_new_files t t'.
Proof. intros Er Ep Eb. constructor; [|done]. intros room sha. unfold available. by rewrite Er, Ep. Qed.

(** ** The claim of a message *)

Ltac files_stmt :=
  intros ? ? ?; unfold insert_message_row, delete_mark, put_mark, resolve_rows, ack_rows,
    upsert_attention, insert_row, on_table;
  cbv beta; intros ?; repeat case_match; simplify_eq; by apply no_new_same.

Ltac files_keeps :=
  repeat match goal with
  | |- keeps _ (ret _) => apply keeps_ret; apply _
  | |- keeps _ (stop _) => apply keeps_stop; apply _
  | |- keeps _ (query _) => apply keeps_query; apply _
  | |- keeps _ (transaction _ _) => apply keeps_transaction; [apply _|]
  | |- keeps _ (bind _ _) => apply keeps_bind; [apply _| |intros ?]
  | |- keeps _ (execute _ _ _) => apply keeps_execute; [apply _|]; files_stmt
  | |- keeps _ (unit_of _) => unfold unit_of
  | |- keeps _ (if ?b then _ else _) => destruct b
  | |- keeps _ (match ?o with _ => _ end) => destruct o
  | _ => solve [auto]
  end.

Section claim.
Context `{Digest} `{Unicode}.

Lemma files_write_attachment_refs m files : keeps no_new_files (write_attachment_refs m files).
Proof.
  induction files as [|a files IH]; cbn [write_attachment_refs]; [apply keeps_ret; apply _|].
  apply keeps_bind; [apply _| |].
  - apply keeps_execute; [apply _|]. intros t t' n. destruct (claimable t _ _) eqn:Ec; [|by intros [= <- _]].
    unfold insert_row. destruct (t_refs t !! _); [done|]. destruct (is_none _); [done|]. intros [= <- _].
    apply claimable_available in Ec. constructor; [|done]. intros room sha [(id & r & Hr)|[r Hr]].
    + cbn in Hr. apply lookup_insert_Some in Hr as [[[= <- <- <-] _]|[_ Hr]]; [done|left; by eexists _, _].
    + right. by eexists.
  - intros [|n]; [apply keeps_stop; apply _|]. apply keeps_bind; [apply _| |by intros _].
    apply keeps_execute; [apply _|]. intros t t' k [= <- _]. constructor; [|done].
    intros room sha [(id & r & Hr)|[r Hr]]; [left; by eexists _, _|]. cbn in Hr.
    apply lookup_delete_Some in Hr as [_ Hr]. right. by eexists.
Qed.

Lemma files_resolve_condition id at_ : keeps no_new_files (resolve_condition id at_).
Proof. unfold resolve_condition. files_keeps. Qed.
#[local] Hint Resolve files_write_attachment_refs files_resolve_condition : core.

Lemma files_resolve_cycles room at_ ids : keeps no_new_files (resolve_cycles room at_ ids).
Proof. induction ids; cbn [resolve_cycles]; files_keeps. Qed.
Lemma files_resolve_wait_attentions room waiter at_ :
  keeps no_new_files (db_resolve_wait_attentions room waiter at_).
Proof. unfold db_resolve_wait_attentions. files_keeps. apply files_resolve_cycles. Qed.
Lemma files_write_care room s : keeps no_new_files (write_care room s).
Proof. unfold write_care. cbv zeta. files_keeps. Qed.
#[local] Hint Resolve files_resolve_wait_attentions files_write_care : core.
Lemma files_write_cares place signals : keeps no_new_files (write_cares place signals).
Proof. induction signals; cbn [write_cares]; files_keeps. Qed.
Lemma files_write_room_state {E} (e : E) room mode settings :
  keeps no_new_files (write_room_state e room mode settings).
Proof. unfold write_room_state. files_keeps. Qed.
Lemma files_write_room_opt room state : keeps no_new_files (write_room_opt room state).
Proof. unfold write_room_opt. files_keeps; apply files_write_room_state. Qed.
Lemma files_place_message m operation : keeps no_new_files (place_message m operation).
Proof. unfold place_message, reset_silence_care. files_keeps. Qed.
Lemma files_require_unsealed room : keeps no_new_files (require_unsealed_room DbError room).
Proof. unfold require_unsealed_room. files_keeps. Qed.
#[local] Hint Resolve files_write_cares files_write_room_state files_write_room_opt
  files_place_message files_require_unsealed : core.

(** The ways a message is written. *)
Inductive message_write (m : Message) : (Conn Tables -> Conn Tables * dbres unit) -> Prop :=
  | write_plain operation : message_write m (db_insert_message m operation)
  | write_with_room mode settings operation :
      message_write m (db_insert_message_with_room m mode settings operation)
  | write_with_care state operation room signals :
      message_write m (db_insert_message_with_care m state operation room signals)
  | write_with_wake state operation room waiter at_ w wake :
      message_write m (db_insert_message_with_wait_wake m state operation room waiter at_ w wake).

Lemma files_message m f : message_write m f -> keeps no_new_files (f : Sql Tables db_error unit).
Proof.
  intros [op|mode settings op|state op room signals|state op room waiter at_ w wake].
  - unfold db_insert_message. files_keeps.
  - unfold db_insert_message_with_room. files_keeps.
  - unfold db_insert_message_with_care. files_keeps.
  - unfold db_insert_message_with_wait_wake, write_wait. files_keeps.
Qed.

(** A computation that cannot end well when a file is not available. *)
Definition refused {A} (room sha : string) (m : Sql Tables db_error A) : Prop :=
  forall c, ~ available (tables c) room sha -> is_ok (m c).2 = false.

Lemma refused_bind {A B} room sha (m : Sql Tables db_error A) (k : A -> Sql Tables db_error B) :
  keeps no_new_files m -> (forall a, refused room sha (k a)) -> refused room sha (bind m k).
Proof.
  intros Hm Hk c Hn. unfold bind. pose proof (Hm c) as [Ha _]. destruct (m c) as [c1 [a|e]]; [|done].
  apply Hk. cbn in Ha. auto.
Qed.
Lemma refused_first {A B} room sha (m : Sql Tables db_error A) (k : A -> Sql Tables db_error B) :
  refused room sha m -> refused room sha (bind m k).
Proof. intros Hm c Hn. unfold bind. specialize (Hm c Hn). by destruct (m c) as [c1 [a|e]]. Qed.
Lemma refused_transaction {A} room sha (m : Sql Tables db_error A) :
  refused room sha m -> refused room sha (transaction DbError m).
Proof.
  intros Hm c Hn. unfold transaction. destruct (next_fault c); [done|].
  specialize (Hm (past_fault c) Hn). by destruct (m (past_fault c)) as [c1 [a|e]].
Qed.

Lemma refused_refs m files a :
  a ∈ files -> refused (msg_room m) (att_sha256 a) (write_attachment_refs m files).
Proof.
  induction files as [|b files IH]; [by intros ?%elem_of_nil|].
  pose proof (files_write_attachment_refs m [b]) as Hb. intros Hin c Hn. cbn [write_attachment_refs].
  destruct (decide (a = b)) as [->|Hne].
  - unfold bind. destruct (execute _ _ _ c) as [c1 [n|e]] eqn:Ex; [|done].
    apply execute_ok in Ex as [Ex _]. destruct (claimable (tables c) _ _) eqn:Ec.
    + by apply claimable_available in Ec.
    + by injection Ex as _ <-.
  - apply elem_of_cons in Hin as [?|Hin]; [done|]. specialize (IH Hin).
    specialize (Hb c). cbn [write_attachment_refs] in Hb. unfold bind in *.
    destruct (execute _ _ _ c) as [c1 [[|n]|e]]; [done| |done].
    destruct (execute _ _ _ c1) as [c2 [n2|e]]; [|done]. apply IH.
    destruct Hb as [Ha _]. cbn in Ha. auto.
Qed.

Lemma refused_message m f a :
  message_write m f -> a ∈ msg_attachments m ->
  refused (msg_room m) (att_sha256 a) (f : Sql Tables db_error unit).
Proof.
  intros Hf Ha.
  assert (forall operation, refused (msg_room m) (att_sha256 a) (place_message m operation)) as Hp.
  { intros op. unfold place_message. apply refused_bind; [files_keeps|]. intros _.
    apply refused_bind; [unfold reset_silence_care; files_keeps|]. intros _. by apply refused_refs. }
  destruct Hf; apply refused_transaction;
    repeat first [apply Hp | apply refused_first, Hp | apply refused_bind; [by auto|intros _] ].
Qed.

(** What a claim that went through leaves. *)
Lemma claimed_refs m files c c' :
  write_attachment_refs m files c = (c', Ok tt) ->
  t_refs (tables c) ⊆ t_refs (tables c')
  /\ forall a, a ∈ files -> is_Some (t_refs (tables c') !! (msg_room m, msg_id m, att_sha256 a)).
Proof.
  revert c. induction files as [|b files IH]; intros c; cbn [write_attachment_refs].
  - intros [= <-]. split; [done|by intros ? ?%elem_of_nil].
  - intros Hok. apply bind_ok in Hok as (c1 & n & E1 & Hok). destruct n as [|n]; [done|].
    apply bind_ok in Hok as (c2 & n2 & E2 & Hok). apply execute_ok in E2 as [E2 _]. injection E2 as E2 _.
    destruct (IH c2 Hok) as [Hsub Hall].
    assert (t_refs (tables c2) = t_refs (tables c1)) as Er by by rewrite <- E2.
    apply execute_ok in E1 as [E1 _]. destruct (claimable _ _ _); [|done].
    unfold insert_row in E1. destruct (t_refs (tables c) !! _) eqn:Ef; [done|].
    destruct (is_none _); [done|]. injection E1 as E1 _. rewrite Er, <- E1 in Hsub. cbn in Hsub. split.
    + etrans; [|exact Hsub]. by apply insert_subseteq.
    + intros a [->|Hin]%elem_of_cons; [|by apply Hall].
      eexists. eapply lookup_weaken; [apply lookup_insert_eq|exact Hsub].
Qed.

Lemma inserted_refs m operation c c' :
  db_insert_message m operation c = (c', Ok tt) ->
  forall a, a ∈ msg_attachments m -> is_Some (t_refs (tables c') !! (msg_room m, msg_id m, att_sha256 a)).
Proof.
  unfold db_insert_message. intros (c2 & Hok & ->)%transaction_ok.
  apply bind_ok in Hok as (c3 & ? & _ & Hok). apply bind_ok in Hok as (c4 & ? & _ & Hok).
  apply bind_ok in Hok as (c5 & ? & _ & Hok). by apply claimed_refs in Hok as [_ Hok].
Qed.
End claim.

(** ** The sweep *)

Definition held t (sha : string) : Prop := exists room, available t room sha.

Lemma is_cited_spec t sha :
  is_cited t sha = true <-> exists room id r, t_refs t !! (room, id, sha) = Some r.
Proof.
  unfold is_cited. rewrite existsb_exists. split.
  - intros ([[[room id] s] r] & Hin%list_elem_of_In & Hs%bool_decide_eq_true). cbn in Hs. subst s.
    apply elem_of_map_to_list in Hin. by eexists _, _, _.
  - intros (room & id & r & Hr). exists ((room, id, sha), r). split; [|by apply bool_decide_eq_true].
    by apply list_elem_of_In, elem_of_map_to_list.
Qed.

Lemma is_pending_spec t sha : is_pending t sha = true <-> exists room r, t_pending t !! (sha, room) = Some r.
Proof.
  unfold is_pending. rewrite existsb_exists. split.
  - intros ([[s room] r] & Hin%list_elem_of_In & Hs%bool_decide_eq_true). cbn in Hs. subst s.
    apply elem_of_map_to_list in Hin. by eexists _, _.
  - intros (room & r & Hr). exists ((sha, room), r). split; [|by apply bool_decide_eq_true].
    by apply list_elem_of_In, elem_of_map_to_list.
Qed.

Lemma held_spec t sha : is_cited t sha || is_pending t sha = true <-> held t sha.
Proof.
  rewrite orb_true_iff, is_cited_spec, is_pending_spec. unfold held, available. naive_solver.
Qed.

Lemma elem_of_orphans t sha : sha ∈ orphans t <-> is_Some (t_blobs t !! sha) /\ ~ held t sha.
Proof.
  unfold orphans. rewrite list_elem_of_In, filter_In, <- list_elem_of_In, elem_of_keys.
  rewrite <- negb_orb, negb_true_iff, <- held_spec, not_true_iff_false. done.
Qed.

Lemma expire_no_new cutoff : keeps no_new_files (expire_pending cutoff).
Proof.
  apply keeps_execute; [apply _|]. intros t t' n [= <- _]. constructor; [|done].
  intros room sha [Hc|[r Hr]]; [by left|]. cbn in Hr. unfold delete_where in Hr.
  apply map_lookup_filter_Some in Hr as [Hr _]. right. by eexists.
Qed.

Lemma delete_blob_row_tables sha c :
  tables (delete_blob_row sha c).1 = tables c
  \/ tables (delete_blob_row sha c).1 = with_t_blobs (delete sha (t_blobs (tables c))) (tables c).
Proof.
  unfold delete_blob_row. destruct (execute _ _ _ c) as [c' [n|e]] eqn:Ex; cbn.
  - apply execute_ok in Ex as [Ex _]. right. by injection Ex.
  - apply execute_err in Ex as [Ex _]. by left.
Qed.

Section sweep.
Context `{Digest} {D : Type} `{BlobFiles D} `{!BlobLaws D}.
Implicit Types (c : Conn Tables) (d : D) (s : Storage D).

(** What one round of deletions leaves: the other tables, the files not on the
    list, and of those on it the rows whose file could not be deleted. *)
Record swept (l : list string) c d c' d' : Prop := {
  sp_sound : files_sound d -> files_sound d';
  sp_tables : exists blobs, tables c' = with_t_blobs blobs (tables c);
  sp_rows : forall sha, t_blobs (tables c') !! sha = t_blobs (tables c) !! sha
                        \/ sha ∈ l /\ t_blobs (tables c') !! sha = None;
  sp_files : forall sha b, files_sound d -> sha ∉ l -> file_read d sha = Ok b -> file_read d' sha = Ok b;
  sp_gone : forall sha, files_sound d -> is_Some (t_blobs (tables c) !! sha) ->
    t_blobs (tables c') !! sha = None -> forall b, file_read d' sha <> Ok b;
}.

Lemma sweep_one_swept sha c d n c' d' n' :
  sweep_one (c, d, n) sha = (c', d', n') -> swept [sha] c d c' d'.
Proof.
  unfold sweep_one. destruct (file_delete sha d) as [d1 r] eqn:Ed.
  assert (d1 = (file_delete sha d).1) as -> by by rewrite Ed.
  assert (forall other b, files_sound d -> other ∉ [sha] -> file_read d other = Ok b ->
    file_read (file_delete sha d).1 other = Ok b) as Hspare.
  { intros other b Hs Hn Hr. apply delete_spares; [done| |done]. intros <-. apply Hn. by left. }
  destruct r as [u|e].
  - pose proof (delete_blob_row_tables sha c) as Ht. destruct (delete_blob_row sha c) as [c1 r1]. cbn in Ht.
    intros [= <- <- _]. destruct Ht as [Ht|Ht]; constructor; rewrite ?Ht.
    + apply delete_keeps_sound.
    + exists (t_blobs (tables c)). by destruct (tables c).
    + by left.
    + done.
    + intros other _ [row Hrow] Hn. congruence.
    + apply delete_keeps_sound.
    + by eexists.
    + intros other. cbn. destruct (decide (other = sha)) as [->|Hne].
      * right. split; [by left|apply lookup_delete_eq].
      * left. by apply lookup_delete_ne.
    + done.
    + intros other Hs [row Hrow] Hn b. cbn in Hn. destruct (decide (other = sha)) as [->|Hne].
      * apply delete_removes; [done|]. by rewrite Ed.
      * rewrite lookup_delete_ne in Hn by done. congruence.
  - intros [= <- <- _]. constructor.
    + apply delete_keeps_sound.
    + exists (t_blobs (tables c)). by destruct (tables c).
    + by left.
    + done.
    + intros other _ [row Hrow] Hn. congruence.
Qed.

Lemma sweep_adds_nothing l : forall c d n c' d' n' sha b,
  files_sound d -> foldl sweep_one (c, d, n) l = (c', d', n') ->
  file_read d' sha = Ok b -> file_read d sha = Ok b.
Proof.
  induction l as [|x l IH]; intros c d n c' d' n' sha b Hs; cbn [foldl]; [by intros [= _ <- _]|].
  destruct (sweep_one (c, d, n) x) as [[c1 d1] n1] eqn:E1. intros El Hr.
  pose proof (sweep_one_swept _ _ _ _ _ _ _ E1) as H1.
  eapply IH in Hr; [|by apply H1|exact El].
  unfold sweep_one in E1. destruct (file_delete x d) as [d2 r] eqn:Ed.
  assert (d1 = (file_delete x d).1) as ->.
  { rewrite Ed. destruct r; [destruct (delete_blob_row x c)|]; by simplify_eq/=. }
  by eapply delete_adds_nothing.
Qed.

Lemma sweep_loop l : forall c d n c' d' n',
  foldl sweep_one (c, d, n) l = (c', d', n') -> swept l c d c' d'.
Proof.
  induction l as [|x l IH]; intros c d n c' d' n'; cbn [foldl].
  - intros [= <- <- _]. constructor; auto.
    + exists (t_blobs (tables c)). by destruct (tables c).
    + intros sha _ [r Hr] Hn. congruence.
  - destruct (sweep_one (c, d, n) x) as [[c1 d1] n1] eqn:E1. intros El.
    pose proof (sweep_one_swept _ _ _ _ _ _ _ E1) as [S1 [b1 T1] R1 F1 G1].
    pose proof (IH _ _ _ _ _ _ El) as [S2 [b2 T2] R2 F2 G2]. constructor.
    + auto.
    + exists b2. by rewrite T2, T1.
    + intros sha. destruct (R2 sha) as [->|[Hin Hn]].
      * destruct (R1 sha) as [->|[Hin Hn]]; [by left|right]. split; [|done].
        apply list_elem_of_singleton in Hin as ->. by left.
      * right. split; [by right|done].
    + intros sha b Hs Hn Hr. apply not_elem_of_cons in Hn as [Hx Hn]. apply F2; [auto|done|].
      apply F1; [done| |done]. by intros ->%list_elem_of_singleton.
    + intros sha Hs Hrow Hn b Hr.
      destruct (t_blobs (tables c1) !! sha) as [r|] eqn:Er.
      * eapply G2; [auto|by rewrite Er|done|exact Hr].
      * eapply (G1 sha Hs Hrow Er b). eapply sweep_adds_nothing; [by apply S1|exact El|exact Hr].
Qed.

(** The sweep of a store that has its files. *)
Lemma sweep_run now ttl c d s' n :
  db_sweep_attachments now ttl (mkStorage c (Some d)) = (s', n) ->
  let cutoff := i64_saturating_sub (as_i64 now) (as_i64 ttl) in
  let c1 := (expire_pending cutoff c).1 in
  exists c' d', s' = mkStorage c' (Some d') /\ swept (orphans (tables c1)) c1 d c' d'
    /\ foldl sweep_one (c1, d, 0) (orphans (tables c1)) = (c', d', n).
Proof.
  unfold db_sweep_attachments. cbn [st_blobs st_conn].
  destruct (expire_pending _ c) as [c1 r] eqn:Ee. cbn.
  destruct (foldl sweep_one _ _) as [[c' d'] k] eqn:El. intros [= <- <-].
  exists c', d'. split; [done|]. split; [by eapply sweep_loop|done].
Qed.

(** ** What is cited is there *)

(** The files of the ids in [P] can be read that some room may cite. *)
Definition all_filed (P : string -> Prop) s : Prop :=
  match st_blobs s with
  | None => forall room sha, ~ available (tables (st_conn s)) room sha
  | Some d =>
      files_sound d
      /\ forall room sha, available (tables (st_conn s)) room sha -> P sha -> exists b, file_read d sha = Ok b
  end.

Lemma all_filed_fewer (P P' : string -> Prop) s :
  (forall sha, P' sha -> P sha) -> all_filed P s -> all_filed P' s.
Proof.
  intros HP. unfold all_filed. destruct (st_blobs s); [|done]. intros [Hs Hf]. split; [done|]. eauto.
Qed.

Lemma all_filed_conn P c c' (b : option D) :
  no_new_files (tables c) (tables c') -> all_filed P (mkStorage c b) -> all_filed P (mkStorage c' b).
Proof.
  intros [Ha _]. unfold all_filed. cbn. destruct b as [d|].
  - intros [Hs Hf]. split; [done|]. intros room sha Hx. eapply Hf, Ha, Hx.
  - intros Hf room sha Hx. by eapply Hf, Ha.
Qed.

Lemma record_upload_available room uploader name mime sha size now c :
  forall room' sha',
    available (tables (record_upload room uploader name mime sha size now c).1) room' sha' ->
    available (tables c) room' sha' \/ room' = room /\ sha' = sha.
Proof.
  intros room' sha'. unfold record_upload, bind.
  destruct (execute _ _ _ c) as [c1 [n|e]] eqn:E1.
  2: { apply execute_err in E1 as [E1 _]. cbn. rewrite E1. by left. }
  apply execute_ok in E1 as [E1 _].
  assert (t_refs (tables c1) = t_refs (tables c) /\ t_pending (tables c1) = t_pending (tables c)) as [Er Ep].
  { destruct (insert_or_ignore _ _ _) as [bl k]. by injection E1 as <- _. }
  destruct (execute _ _ _ c1) as [c2 [n2|e]] eqn:E2.
  2: { apply execute_err in E2 as [E2 _]. cbn. unfold available. rewrite E2, Er, Ep. by left. }
  apply execute_ok in E2 as [E2 _]. injection E2 as E2 _. cbn. rewrite <- E2.
  unfold available. cbn. rewrite Er, Ep. intros [Hc|[r Hr]]; [by left; left|].
  apply lookup_insert_Some in Hr as [[[= -> ->] _]|[_ Hr]]; [by right|]. left. right. by eexists.
Qed.

Lemma put_filed P room uploader name mime bytes now rmax bmax s :
  (P (sha_hex bytes) -> (N.of_nat (String.length bytes) <= MAX_BLOB_BYTES)%N) -> all_filed P s ->
  all_filed P (db_put_pending_attachment room uploader name mime bytes now rmax bmax s).1.
Proof.
  intros Hl Hf. destruct s as [c [d|]]; [|done]. unfold db_put_pending_attachment. cbn.
  destruct (check_quota _ _ _ _ _ _); [|done]. destruct Hf as [Hs Hf].
  destruct (file_put bytes d) as [d' r] eqn:Ep.
  assert (d' = (file_put bytes d).1) as -> by by rewrite Ep.
  pose proof (put_keeps_sound bytes d Hs) as Hs'. destruct r as [id|e].
  - assert ((file_put bytes d).2 = Ok id) as Hok by by rewrite Ep.
    pose proof (put_names_hash _ _ _ Hs Hok) as ->.
    pose proof (record_upload_available room uploader name mime (sha_hex bytes)
                  (N.of_nat (String.length bytes)) now c) as Ha.
    destruct (record_upload _ _ _ _ _ _ _ c) as [c' r']. cbn. split; [done|].
    intros room' sha' [Hx|[-> ->]]%Ha HP; [|by apply (put_is_read _ _ _ Hs Hok), Hl].
    destruct (Hf room' sha' Hx HP) as [b' Hb']. exists b'. by apply put_loses_nothing.
  - split; [done|]. cbn. intros room' sha' Hx HP. destruct (Hf room' sha' Hx HP) as [b' Hb'].
    exists b'. by apply put_loses_nothing.
Qed.

Lemma sweep_filed P now ttl s : all_filed P s -> all_filed P (db_sweep_attachments now ttl s).1.
Proof.
  intros Hf. destruct s as [c [d|]]; [|done].
  destruct (db_sweep_attachments now ttl (mkStorage c (Some d))) as [s' n] eqn:Es.
  apply sweep_run in Es as (c' & d' & -> & Hsw & _). cbn. destruct Hf as [Hs Hf].
  set (c1 := (expire_pending _ c).1) in Hsw.
  pose proof (expire_no_new (i64_saturating_sub (as_i64 now) (as_i64 ttl)) c) as [Hc _]. fold c1 in Hc.
  destruct Hsw as [S [bl T] R F _]. split; [auto|]. intros room sha Hx HP.
  assert (available (tables c1) room sha) as Hx1 by by rewrite T in Hx.
  destruct (Hf room sha (Hc _ _ Hx1) HP) as [b Hb]. exists b. apply F; [done| |done].
  rewrite elem_of_orphans. intros [_ Hn]. apply Hn. by exists room.
Qed.
End sweep.

(** ** Quotas *)

Definition total (l : list N) : N := foldr N.add 0%N l.

#[local] Instance total_perm : Proper ((≡ₚ) ==> (=)) total.
Proof. intros l l' Hp. unfold total. induction Hp; cbn; lia. Qed.

Definition building_total t : N := total (map bl_size (values (t_blobs t))).
Definition room_total t (room : string) : N := total (map snd (elements (room_files t room))).

(** The sizes in the tables are lengths of files. *)
Definition sizes_fit t : Prop :=
  (forall sha r, t_blobs t !! sha = Some r -> (bl_size r <= i64_max)%N)
  /\ forall room sha n, (sha, n) ∈ room_files t room -> (n <= i64_max)%N.
(** A file has one size, wherever it is listed in a room. *)
Definition one_size t (sha : string) (size : N) : Prop :=
  forall room n, (sha, n) ∈ room_files t room -> n = size.

Lemma sum_i64_total l n :
  Forall (fun k => k <= i64_max)%N l -> sum_i64 l = Ok n -> n = total l /\ (n <= i64_max)%N.
Proof.
  intros Hl. unfold sum_i64.
  assert (foldr Z.add 0%Z (map as_i64 l) = Z.of_N (total l)) as ->.
  { induction Hl as [|k l Hk Hl IH]; [done|].
    change (total (k :: l)) with (k + total l)%N. cbn [map foldr]. rewrite IH. unfold as_i64.
    rewrite (proj2 (N.leb_le k i64_max)) by done. lia. }
  destruct (_ && _)%bool eqn:Hb; [|done]. apply andb_true_iff in Hb as [_ Hb%Z.leb_le].
  intros [= <-]. rewrite Z.max_l by lia. unfold i64_max_z in Hb. unfold i64_max. lia.
Qed.

Lemma elem_of_room_files t room sha n :
  (sha, n) ∈ room_files t room <->
  (exists id r, t_refs t !! (room, id, sha) = Some r /\ rf_size r = n)
  \/ (exists r, t_pending t !! (sha, room) = Some r /\ pd_size r = n).
Proof.
  unfold room_files. rewrite elem_of_union, !elem_of_list_to_set, !list_elem_of_omap. f_equiv; split.
  - intros ([[[room' id] sha'] r] & Hin & Hd). cbn in Hd. apply elem_of_map_to_list in Hin.
    case_decide as Hr; [|done]. subst. injection Hd as <- <-. by eexists _, _.
  - intros (id & r & Hr & <-). exists ((room, id, sha), r). split; [by apply elem_of_map_to_list|].
    cbn. by rewrite decide_True.
  - intros ([[sha' room'] r] & Hin & Hd). cbn in Hd. apply elem_of_map_to_list in Hin.
    case_decide as Hr; [|done]. subst. injection Hd as <- <-. by eexists.
  - intros (r & Hr & <-). exists ((sha, room), r). split; [by apply elem_of_map_to_list|].
    cbn. by rewrite decide_True.
Qed.

Lemma available_file t room sha :
  available t room sha <-> exists n, (sha, n) ∈ room_files t room.
Proof.
  unfold available. setoid_rewrite elem_of_room_files. naive_solver.
Qed.

(** The tables an upload may leave: untouched, with its file listed, or with the
    file listed and waiting in the room. *)
Definition listed (sha mime : string) (size now : N) t : Tables :=
  with_t_blobs (insert_or_ignore sha (mkBlobRow mime size now) (t_blobs t)).1 t.
Definition waiting (room uploader name mime sha : string) (size now : N) t : Tables :=
  with_t_pending (<[(sha, room) := mkPendingRow uploader name mime size now]> (t_pending t)) t.

Lemma record_upload_run room uploader name mime sha size now c :
  match record_upload room uploader name mime sha size now c with
  | (c', Ok _) => tables c' = waiting room uploader name mime sha size now (listed sha mime size now (tables c))
  | (c', Err _) => tables c' = tables c \/ tables c' = listed sha mime size now (tables c)
  end.
Proof.
  unfold record_upload, bind.
  destruct (execute _ _ _ c) as [c1 [n|e]] eqn:E1.
  2: { apply execute_err in E1 as [E1 _]. by left. }
  apply execute_ok in E1 as [E1 _].
  assert (tables c1 = listed sha mime size now (tables c)) as Ht.
  { unfold listed. destruct (insert_or_ignore _ _ _) as [bl k]. by injection E1. }
  destruct (execute _ _ _ c1) as [c2 [n2|e]] eqn:E2.
  - apply execute_ok in E2 as [E2 _]. injection E2 as E2 _. cbn. rewrite <- E2. unfold waiting. by rewrite Ht.
  - apply execute_err in E2 as [E2 _]. cbn. rewrite E2. by right.
Qed.

Lemma building_total_listed sha mime size now t :
  building_total (listed sha mime size now t)
    = if row_exists t sha then building_total t else (building_total t + size)%N.
Proof.
  unfold building_total, listed, row_exists, insert_or_ignore, values. cbn.
  destruct (t_blobs t !! sha) as [r|] eqn:Er; cbn; [done|].
  rewrite (map_to_list_insert _ _ _ Er). cbn. fold (total (map bl_size (map_to_list (t_blobs t)).*2)). lia.
Qed.

Lemma room_files_waiting room uploader name mime sha size now t room' :
  one_size t sha size ->
  room_files (waiting room uploader name mime sha size now t) room'
    = if decide (room' = room) then {[(sha, size)]} ∪ room_files t room' else room_files t room'.
Proof.
  intros Hone. apply set_eq. intros [s n].
  assert ((s, n) ∈ room_files (waiting room uploader name mime sha size now t) room' <->
          (room' = room /\ s = sha /\ n = size) \/ (s, n) ∈ room_files t room') as Hx.
  { rewrite !elem_of_room_files. cbn. split.
    - intros [Hc|(r & Hr & <-)]; [by right; left|].
      apply lookup_insert_Some in Hr as [[[= <- <-] <-]|[_ Hr]]; [by left|].
      right. right. by eexists.
    - intros [(-> & -> & ->)|[Hc|(r & Hr & <-)]]; [|by left|].
      + right. eexists. by rewrite lookup_insert_eq.
      + right. destruct (decide ((s, room') = (sha, room))) as [[= -> ->]|Hne].
        * eexists. split; [by rewrite lookup_insert_eq|]. cbn. symmetry. apply (Hone room).
          apply elem_of_room_files. right. by eexists.
        * eexists. by rewrite lookup_insert_ne by done. }
  rewrite Hx. case_decide as Hd; [|naive_solver].
  rewrite elem_of_union, elem_of_singleton. naive_solver.
Qed.

Lemma room_total_waiting room uploader name mime sha size now t room' :
  one_size t sha size ->
  room_total (waiting room uploader name mime sha size now t) room'
    = if decide (room' = room) then
        if room_has_sha t room sha then room_total t room' else (room_total t room' + size)%N
      else room_total t room'.
Proof.
  intros Hone. unfold room_total. rewrite room_files_waiting by done. case_decide as Hd; [subst room'|done].
  destruct (room_has_sha t room sha) eqn:Eh.
  - apply room_has_sha_available, available_file in Eh as [n Hn].
    rewrite (Hone _ _ Hn) in Hn. rewrite subseteq_union_1_L; [done|set_solver].
  - assert ((sha, size) ∉ room_files t room) as Hn.
    { intros Hn. apply not_true_iff_false in Eh. apply Eh, room_has_sha_available, available_file.
      by eexists. }
    rewrite (elements_union_singleton _ _ Hn). cbn. fold (total (map snd (elements (room_files t room)))). lia.
Qed.

Lemma room_files_listed sha mime size now t : room_files (listed sha mime size now t) = room_files t.
Proof. done. Qed.

(** What the check lets through fits. *)
Lemma check_quota_ok t room sha size rmax bmax :
  sizes_fit t -> (size <= i64_max)%N -> check_quota t room sha size rmax bmax = Ok tt ->
  (row_exists t sha = false -> (building_total t + size <= bmax)%N)
  /\ (room_has_sha t room sha = false -> (room_total t room + size <= rmax)%N).
Proof.
  intros [Hb Hr] Hs. unfold check_quota.
  assert (forall used max l, sum_i64 l = Ok used -> Forall (fun k => k <= i64_max)%N l ->
    (max <? sat_add64 used size)%N = false -> (total l + size <= max)%N) as Hfit.
  { intros used max l Hl Hf Hm. apply sum_i64_total in Hl as [-> Hu]; [|done].
    apply N.ltb_ge in Hm. rewrite sat_add64_small in Hm; [done|]. unfold i64_max, u64_max in *. lia. }
  assert (Forall (fun k => k <= i64_max)%N (map bl_size (values (t_blobs t)))) as Hfb.
  { apply Forall_fmap, Forall_forall. intros r Hin. unfold values in Hin.
    apply list_elem_of_fmap in Hin as ([k r'] & -> & Hin). apply elem_of_map_to_list in Hin. by eapply Hb. }
  assert (Forall (fun k => k <= i64_max)%N (map snd (elements (room_files t room)))) as Hfr.
  { apply Forall_fmap, Forall_forall. intros [s n] Hin%elem_of_elements. by eapply Hr. }
  destruct (row_exists t sha).
  - intros Hok. split; [done|]. intros Hn. rewrite Hn in Hok.
    destruct (room_used t room) as [used|] eqn:Eu; [|done].
    destruct (rmax <? _)%N eqn:Em; [done|]. by eapply Hfit.
  - destruct (building_used t) as [used|] eqn:Eu; [|done].
    destruct (bmax <? _)%N eqn:Em; [done|]. intros Hok. split; [intros _; by eapply Hfit|].
    intros Hn. rewrite Hn in Hok. destruct (room_used t room) as [used'|] eqn:Eu'; [|done].
    destruct (rmax <? _)%N eqn:Em'; [done|]. by eapply Hfit.
Qed.
