(* ===== verification/Files.v ===== *)
(** * The attachments: theorems

    What the uploads, the messages that cite them, the sweep and the file system
    promise together. *)

From Stdlib Require Import ZArith.
From Stdlib Require String.
From S2P Require Import Prelude Text Protocol StoreApi Sql Tables Hub Membership Identity.
From S2P Require Import Operators StoreAttention StoreWork StoreMessages BlobFiles BlobFacts.
From S2P Require Import Boot Attachments AttachmentFacts.

Open Scope loca_scope.

Section theorems.
Context `{Digest} `{Unicode} {D : Type} `{BlobFiles D} `{!BlobLaws D}.
Implicit Types (c : Conn Tables) (d : D) (s : Storage D).

(** What happens to the files of a server: uploads of any size, messages, sweeps, and
    writes to the other tables.  The step tells what was uploaded. *)
Inductive file_step : list string -> Storage D -> Storage D -> Prop :=
  | step_upload room uploader name mime bytes now rmax bmax s :
      file_step [bytes] s (db_put_pending_attachment room uploader name mime bytes now rmax bmax s).1
  | step_message m f s :
      message_write m f -> file_step [] s (mkStorage (f (st_conn s)).1 (st_blobs s))
  | step_sweep now ttl s : file_step [] s (db_sweep_attachments now ttl s).1
  | step_other c s :
      t_refs (tables c) = t_refs (tables (st_conn s)) ->
      t_pending (tables c) = t_pending (tables (st_conn s)) ->
      t_blobs (tables c) = t_blobs (tables (st_conn s)) ->
      file_step [] s (mkStorage c (st_blobs s)).

(** Steps one after another, with all that was uploaded. *)
Inductive file_run (s0 : Storage D) : list string -> Storage D -> Prop :=
  | run_start : file_run s0 [] s0
  | run_step ups up s s' : file_run s0 ups s -> file_step up s s' -> file_run s0 (ups ++ up) s'.

(** No file with this id was uploaded that is too large to be read back. *)
Definition readable_size (ups : list string) (sha : string) : Prop :=
  forall bytes, bytes ∈ ups -> sha_hex bytes = sha ->
    (N.of_nat (String.length bytes) <= MAX_BLOB_BYTES)%N.

Lemma file_step_filed ups up s s' : file_step up s s' ->
  all_filed (readable_size ups) s -> all_filed (readable_size (ups ++ up)) s'.
Proof.
  intros Hstep Hs. eapply (all_filed_fewer _ (readable_size (ups ++ up))) in Hs; cycle 1.
  { intros sha Hsz b Hb. apply Hsz. set_solver. }
  revert Hs. destruct Hstep as [room uploader name mime bytes now rmax bmax s0|m f s0 Hf|now ttl s0|c s0 E1 E2 E3]; intros Hs.
  - apply put_filed; [|done]. intros Hsz. apply Hsz; [set_solver|done].
  - destruct s0 as [c b]. eapply all_filed_conn; [|exact Hs]. apply (files_message m f Hf c).
  - by apply sweep_filed.
  - destruct s0 as [c0 b]. eapply all_filed_conn; [|exact Hs]. by apply no_new_same.
Qed.

(** A store before any upload. *)
Definition no_files s : Prop :=
  t_refs (tables (st_conn s)) = ∅ /\ t_pending (tables (st_conn s)) = ∅
  /\ match st_blobs s with Some d => files_sound d | None => True end.

Lemma no_files_filed P s : no_files s -> all_filed P s.
Proof.
  intros (Er & Ep & Hs).
  assert (forall room sha, ~ available (tables (st_conn s)) room sha) as Hn.
  { intros room sha. unfold available. rewrite Er, Ep. by intros [(? & ? & ?%lookup_empty_Some)|[? ?%lookup_empty_Some] ]. }
  unfold all_filed. destruct (st_blobs s) as [d|]; [|done]. split; [done|]. intros room sha Hx. by destruct (Hn room sha).
Qed.

(** C3: from a store without files, whatever uploads, messages, sweeps and other
    writes happened and whichever of their statements and file operations failed: an
    attachment is served in a room only when a message of that very room cites it,
    and the bytes served hash to its id; and every file a message of the room cites
    is served, those apart whose id is that of an upload of more than
    [MAX_BLOB_BYTES] (32 MiB), which [ATTACHMENT_MAX_BYTES] may be set to let in and
    which no read accepts. *)
Theorem cited_files_are_served s0 ups s room sha :
  no_files s0 -> file_run s0 ups s -> st_blobs s <> None ->
  let cites := exists id r, t_refs (tables (st_conn s)) !! (room, id, sha) = Some r in
  (forall served, db_read_room_attachment s room sha = Some served ->
     cites /\ sha_hex (serve_bytes served) = sha)
  /\ (cites -> readable_size ups sha -> is_Some (db_read_room_attachment s room sha)).
Proof.
  intros Hnew Hsteps Hb cites. subst cites.
  assert (all_filed (readable_size ups) s) as Hf.
  { clear Hb. induction Hsteps; [by apply no_files_filed|]. by eapply file_step_filed. }
  setoid_rewrite <- cited_in_is_Some. unfold db_read_room_attachment, all_filed in *.
  destruct (st_blobs s) as [d|]; [|done]. destruct Hf as [_ Hf]. cbn.
  destruct (cited_in (tables (st_conn s)) room sha) as [[k r]|] eqn:Ec; cbn; cycle 1.
  { by split. }
  split.
  - intros served. destruct (file_read d sha) as [b|] eqn:Er; [|done]. intros [= <-]. split; [done|].
    by eapply read_is_verified.
  - intros _ Hsz. assert (is_none (cited_in (tables (st_conn s)) room sha) = false) as Hc by by rewrite Ec.
    apply cited_in_is_Some in Hc. destruct (Hf room sha) as [b Hr]; [by left|done|]. rewrite Hr. by eexists.
Qed.

(** C21: an upload keeps the quotas: the files of the building and those of each
    room stay within the limits, whether it is accepted, refused or fails
    half-way; and a file the room already has is never refused for its size. *)
Theorem uploads_keep_the_quotas room uploader name mime bytes now rmax bmax s :
  let t := tables (st_conn s) in
  let size := N.of_nat (String.length bytes) in
  sizes_fit t -> one_size t (sha_hex bytes) size -> (size <= i64_max)%N ->
  let '(s', r) := db_put_pending_attachment room uploader name mime bytes now rmax bmax s in
  ((building_total t <= bmax)%N -> (building_total (tables (st_conn s')) <= bmax)%N)
  /\ (forall room', (room_total t room' <= rmax)%N -> (room_total (tables (st_conn s')) room' <= rmax)%N)
  /\ (row_exists t (sha_hex bytes) = true -> room_has_sha t room (sha_hex bytes) = true ->
      r <> Err AttQuotaRoom /\ r <> Err AttQuotaBuilding).
Proof.
  intros t size Hfit Hone Hsz. unfold db_put_pending_attachment.
  destruct (st_blobs s) as [d|]; [|done]. fold t size. set (sha := sha_hex bytes) in *.
  destruct (check_quota t room sha size rmax bmax) as [[]|e] eqn:Eq.
  2: { split; [done|]. split; [done|]. intros E1 E2. unfold check_quota in Eq. rewrite E1 in Eq.
       cbn in Eq. by rewrite E2 in Eq. }
  pose proof (check_quota_ok _ _ _ _ _ _ Hfit Hsz Eq) as [Hb Hr].
  destruct (file_put bytes d) as [d' [id|e]]; [|done].
  pose proof (record_upload_run room uploader name mime sha size now (st_conn s)) as Hrec.
  assert ((building_total t <= bmax)%N -> (building_total (listed sha mime size now t) <= bmax)%N) as Hbl.
  { rewrite building_total_listed. destruct (row_exists t sha); auto. }
  destruct (record_upload _ _ _ _ _ _ _ _) as [c' [[]|e]]; cbn; fold t in Hrec.
  - rewrite Hrec. split; [exact Hbl|]. split; [|done]. intros room' Hle.
    rewrite room_total_waiting by exact Hone.
    change (room_total (listed sha mime size now t) room') with (room_total t room').
    change (room_has_sha (listed sha mime size now t) room sha) with (room_has_sha t room sha).
    case_decide as Hd; [subst room'|done]. destruct (room_has_sha t room sha); auto.
  - destruct Hrec as [->| ->]; done.
Qed.

(** Without failing statements a sweep that deleted a file for every entry of its
    list has no row of them left. *)
Lemma sweep_complete l : forall c d n c' d' n',
  faults c = [] -> foldl sweep_one (c, d, n) l = (c', d', n') ->
  faults c' = [] /\ n' <= n + length l
  /\ (n' = n + length l -> forall sha, sha ∈ l -> t_blobs (tables c') !! sha = None).
Proof.
  induction l as [|x l IH]; intros c d n c' d' n' Hc; cbn [foldl].
  - intros [= <- _ <-]. split; [done|]. split; [lia|]. by intros _ ? ?%elem_of_nil.
  - destruct (sweep_one (c, d, n) x) as [[c1 d1] n1] eqn:E1. intros El.
    assert (faults c1 = [] /\ (n1 = n \/ n1 = S n /\ t_blobs (tables c1) !! x = None)) as [Hc1 Hn1].
    { unfold sweep_one in E1. destruct (file_delete x d) as [d2 [u|e]]; [|by simplify_eq; auto].
      unfold delete_blob_row in E1. erewrite execute_faultless in E1 by done.
      injection E1 as <- _ <-. split; [done|]. right. split; [done|]. apply lookup_delete_eq. }
    destruct (IH _ _ _ _ _ _ Hc1 El) as (Hc' & Hle & Hall). split; [done|]. cbn.
    destruct Hn1 as [->|[-> Hx]]; [split; lia|]. split; [lia|]. intros Heq sha Hin.
    destruct (decide (sha ∈ l)) as [Hl|Hl]; [apply Hall; [lia|done]|].
    apply elem_of_cons in Hin as [->|Hin]; [|done].
    destruct (sweep_loop _ _ _ _ _ _ _ El) as [_ _ R _ _]. destruct (R x) as [->|[_ Hn] ]; done.
Qed.

Lemma expire_faultless cutoff c :
  faults c = [] ->
  faults (expire_pending cutoff c).1 = []
  /\ t_refs (tables (expire_pending cutoff c).1) = t_refs (tables c)
  /\ forall sha room, t_pending (tables (expire_pending cutoff c).1) !! (sha, room)
       = (r ← t_pending (tables c) !! (sha, room);
          if (as_i64 (pd_created_at r) <? cutoff)%Z then None else Some r).
Proof.
  intros Hc. unfold expire_pending. erewrite execute_faultless by done. cbn. split; [done|].
  split; [done|]. intros sha room. unfold delete_where.
  destruct (t_pending (tables c) !! (sha, room)) as [r|] eqn:Er; cbn.
  - destruct (as_i64 (pd_created_at r) <? cutoff)%Z eqn:Eo.
    + apply map_lookup_filter_None. right. intros r' Hr'. cbn. assert (r' = r) as -> by congruence.
      by rewrite Eo.
    + apply map_lookup_filter_Some. done.
  - apply map_lookup_filter_None. by left.
Qed.

(** the sweep takes the orphans and nothing else.  A file that is cited or
    waits, in any room, keeps its row and can be read as before; a row that is
    gone was an orphan's, and its file is gone with it.  When no statement fails
    and every file could be deleted, no orphan is left, and of the uploads those
    remain that are younger than the time to live. *)
Theorem sweep_takes_the_orphans now ttl c d s' n :
  files_sound d -> db_sweep_attachments now ttl (mkStorage c (Some d)) = (s', n) ->
  let t' := tables (st_conn s') in
  let cutoff := i64_saturating_sub (as_i64 now) (as_i64 ttl) in
  exists d', st_blobs s' = Some d'
  /\ (forall sha, held t' sha ->
        t_blobs t' !! sha = t_blobs (tables c) !! sha
        /\ forall b, file_read d sha = Ok b -> file_read d' sha = Ok b)
  /\ (forall sha, is_Some (t_blobs (tables c) !! sha) -> t_blobs t' !! sha = None ->
        ~ held t' sha /\ forall b, file_read d' sha <> Ok b)
  /\ (faults c = [] -> n = length (orphans (tables (expire_pending cutoff c).1)) ->
        orphans t' = []
        /\ forall sha room, t_pending t' !! (sha, room) =
             (r ← t_pending (tables c) !! (sha, room);
              if (as_i64 (pd_created_at r) <? cutoff)%Z then None else Some r)).
Proof.
  intros Hs Hrun t' cutoff. apply sweep_run in Hrun as (c' & d' & -> & [S [bl T] R F G] & El).
  cbn in t'. subst t'. fold cutoff in S, T, R, F, G, El. cbn [st_blobs st_conn].
  set (c1 := (expire_pending cutoff c).1) in *.
  pose proof (expire_no_new cutoff c) as [Hav Hbl]. fold c1 in Hav, Hbl.
  assert (forall sha, held (tables c') sha <-> held (tables c1) sha) as Hheld.
  { intros sha. unfold held, available. by rewrite T. }
  exists d'. split; [done|]. split; [|split].
  - intros sha Hh%Hheld. assert (sha ∉ orphans (tables c1)) as Hno by (rewrite elem_of_orphans; tauto).
    rewrite <- Hbl. split; [destruct (R sha) as [E|[? _] ]; [exact E|done]|].
    intros b. by apply F.
  - intros sha Hrow Hn. rewrite <- Hbl in Hrow. split; [|by apply G].
    destruct (R sha) as [E|[Ho _] ]; [rewrite E in Hn; rewrite Hn in Hrow; by destruct Hrow|].
    apply elem_of_orphans in Ho as [_ Ho]. by rewrite Hheld.
  - intros Hc Hn. destruct (expire_faultless cutoff c Hc) as (Hc1 & _ & Hp). fold c1 in Hc1, Hp.
    destruct (sweep_complete _ _ _ _ _ _ _ Hc1 El) as (_ & _ & Hall). split.
    + destruct (orphans (tables c')) as [|sha l] eqn:Eo; [done|]. exfalso.
      assert (sha ∈ orphans (tables c')) as Hin by (rewrite Eo; by left).
      apply elem_of_orphans in Hin as [[row Hrow] Hh]. rewrite Hheld in Hh.
      assert (sha ∈ orphans (tables c1)) as Hin.
      { apply elem_of_orphans. split; [|done]. destruct (R sha) as [E|[_ E] ]; [by rewrite <- E, Hrow|congruence]. }
      rewrite (Hall Hn sha Hin) in Hrow. done.
    + intros sha room. rewrite T. apply Hp.
Qed.

(** C37: what was uploaded comes back.  A file of at most [MAX_BLOB_BYTES] (32 MiB)
    that was accepted in a room, and then cited there by an accepted message, is
    served in that room under the id the upload answered with, and what is served
    has the hash of what was sent.  A larger file, which is accepted where
    [ATTACHMENT_MAX_BYTES] is set above that bound, is never served. *)
Theorem upload_is_served_once_cited room uploader name mime bytes now rmax bmax s s1 att m operation c2 :
  match st_blobs s with Some d => files_sound d | None => True end ->
  db_put_pending_attachment room uploader name mime bytes now rmax bmax s = (s1, Ok att) ->
  att ∈ msg_attachments m -> msg_room m = room ->
  db_insert_message m operation (st_conn s1) = (c2, Ok tt) ->
  let answer := db_read_room_attachment (mkStorage c2 (st_blobs s1)) room (att_id att) in
  ((N.of_nat (String.length bytes) <= MAX_BLOB_BYTES)%N -> is_Some answer)
  /\ forall served, answer = Some served -> sha_hex (serve_bytes served) = sha_hex bytes
       /\ ((MAX_BLOB_BYTES < N.of_nat (String.length bytes))%N -> serve_bytes served <> bytes).
Proof.
  intros Hs Hput Hin Hroom Hins answer. subst answer. pose proof (inserted_refs _ _ _ _ Hins att Hin) as [r Hr].
  unfold db_put_pending_attachment in Hput. destruct (st_blobs s) as [d|]; [|done].
  destruct (check_quota _ _ _ _ _ _); [|done].
  destruct (file_put bytes d) as [d' [id|e]] eqn:Ep; [|done].
  destruct (record_upload _ _ _ _ _ _ _ _) as [c' [[]|e]]; [|done]. injection Hput as <- <-.
  cbn in Hr |- *. rewrite Hroom in Hr.
  assert ((file_put bytes d).2 = Ok id) as Hok by by rewrite Ep.
  pose proof (put_names_hash _ _ _ Hs Hok) as ->.
  assert (is_none (cited_in (tables c2) room (sha_hex bytes)) = false) as Hc
    by (apply cited_in_is_Some; by eexists _, _).
  destruct (cited_in _ _ _) as [[k row]|]; [|done]. cbn. split.
  - intros Hl. destruct (put_is_read _ _ _ Hs Hok Hl) as [b Hb]. rewrite Ep in Hb. cbn in Hb.
    rewrite Hb. by eexists.
  - intros served. destruct (file_read d' (sha_hex bytes)) as [b|] eqn:Hrd; [|done]. intros [= <-]. cbn.
    split; [by eapply read_is_verified|]. intros Hl ->. apply read_is_bounded in Hrd. lia.
Qed.

(** a message that cites a file its room does not have is refused as a whole,
    whichever way it is written: the tables are what they were. *)
Theorem missing_file_refuses_the_message m f a c :
  message_write m f -> a ∈ msg_attachments m -> ~ available (tables c) (msg_room m) (att_sha256 a) ->
  (f c).2 = Err DbError /\ tables (f c).1 = tables c.
Proof.
  intros Hf Ha Hn. pose proof (refused_message m f a Hf Ha c Hn) as Hr.
  destruct (f c) as [c' [[]|[]]] eqn:Ef; [done|]. split; [done|]. cbn.
  destruct Hf; by eapply transaction_err.
Qed.

(** a file whose first row could not be written is lost to the sweep: it can
    still be read, and no sweep ever deletes it. *)
Theorem unrecorded_file_is_never_swept now ttl c d s' n sha b :
  files_sound d -> t_blobs (tables c) !! sha = None -> file_read d sha = Ok b ->
  db_sweep_attachments now ttl (mkStorage c (Some d)) = (s', n) ->
  exists d', st_blobs s' = Some d' /\ file_read d' sha = Ok b.
Proof.
  intros Hs Hn Hr Hrun. apply sweep_run in Hrun as (c' & d' & -> & [_ _ _ F _] & _).
  exists d'. split; [done|]. apply F; [done| |done]. rewrite elem_of_orphans. intros [[row Hrow] _].
  pose proof (expire_no_new (i64_saturating_sub (as_i64 now) (as_i64 ttl)) c) as [_ Hbl]. congruence.
Qed.
End theorems.

(** ** On the file system *)

Section disk.
Context `{Digest} `{ProcessStamp} `{!DigestLaws}.
Implicit Types c : Conn Files.

(** C38: whatever lies in the directory of the store, a write or a delete changes no
    entry outside of it, however it ends; the way to that directory is one of real
    directories. *)
Theorem blobs_stay_in_their_tree base name bytes id c p :
  anchored base (tables c) -> ~ (base ++ [name]) `prefix_of` p ->
  let bs := mkBlobStore (base ++ [name]) in
  entries (tables (put bs bytes c).1) !! p = entries (tables c) !! p
  /\ (anchored (base ++ [name]) (tables c) ->
      entries (tables (blob_delete bs id c).1) !! p = entries (tables c) !! p).
Proof.
  intros Ha Hp bs. split.
  - pose proof (put_spec base name bytes _ Ha c eq_refl) as Hs. fold bs in Hs.
    destruct (put bs bytes c) as [c' [sha|e]]; cbn.
    + destruct Hs as (_ & Hf & _). by eapply put_frame_contained.
    + by eapply put_frame_contained.
  - intros Hr. pose proof (delete_spec base name _ id Hr c eq_refl) as Hs. fold bs in Hs.
    destruct (blob_delete bs id c) as [c' [u|e]]; cbn; [|by rewrite Hs].
    destruct Hs as [Hs _]. by eapply removed_contained.
Qed.

(** what [put] stored is read back by [read] under the id it answered with:
    content of that hash, whatever was in the place of the blob before (nothing, a
    damaged file, the blob itself) and however often the first attempts to publish
    it failed.  The bound of [read] is below what an operator may allow for
    uploads: a larger blob is stored and never read. *)
Theorem blob_round_trip base name bytes c c' id :
  anchored base (tables c) -> put (mkBlobStore (base ++ [name])) bytes c = (c', Ok id) ->
  id = sha_hex bytes
  /\ ((N.of_nat (String.length bytes) <= MAX_BLOB_BYTES)%N ->
      exists found, read (mkBlobStore (base ++ [name])) (tables c') id = Ok found
        /\ sha_hex found = sha_hex bytes)
  /\ ((MAX_BLOB_BYTES < N.of_nat (String.length bytes))%N ->
      read (mkBlobStore (base ++ [name])) (tables c') id <> Ok bytes).
Proof.
  intros Ha Hput. pose proof (put_spec base name bytes _ Ha c eq_refl) as Hs. rewrite Hput in Hs.
  destruct Hs as (-> & _ & Hsh & m & found & Ef & Hh & Hsz). split; [done|].
  assert (forall b, read (mkBlobStore (base ++ [name])) (tables c') (sha_hex bytes) = Ok b <->
    (exists m, entries (tables c') !! blob_path base name (sha_hex bytes) = Some (Reg m b))
      /\ sha_hex b = sha_hex bytes /\ (N.of_nat (String.length b) <= MAX_BLOB_BYTES)%N) as Hread.
  { intros b. unfold read. rewrite path_for_id, sha_hex_ok. cbn [ok_or]. by apply read_at_in. }
  split.
  - intros Hl. exists found. rewrite Hread. split; [|done]. split; [by exists m|]. split; [done|].
    by destruct Hsz as [->|].
  - intros Hl Hr. apply Hread in Hr as (_ & _ & Hr). lia.
Qed.
End disk.

(** ** Witnesses: a store with one directory *)

#[local] Existing Instance ascii_unicode.
#[local] Instance plain_digest : Digest :=
  {| sha256 s := take 32 (map Ascii.N_of_ascii (String.list_ascii_of_string s) ++ replicate 32 0%N) |}.
#[local] Instance plain_digest_laws : DigestLaws.
Proof.
  constructor; intros s; unfold sha256, plain_digest.
  - rewrite length_take, length_app, length_replicate. lia.
  - apply Forall_take, Forall_app. split; [|by apply Forall_replicate].
    apply Forall_fmap, Forall_forall. intros a _. apply Ascii.N_ascii_bounded.
Qed.
#[local] Instance first_process : ProcessStamp := {| process_id := 7; nanos_now := 1000 |}.

Definition srv : Path := ["srv"%string].
Definition root_dir : Path := srv ++ ["attachments"%string].
#[local] Instance srv_files : BlobFiles (Conn Files) := disk_files (mkBlobStore root_dir).
#[local] Instance srv_laws : BlobLaws (Conn Files) := disk_laws srv "attachments".

(** The disk on which the store was opened. *)
Definition bare_disk : Conn Files := mkConn (mkFiles {[srv := Dir 493]} 0) [].
Definition new_disk : Conn Files := (blob_store_new root_dir bare_disk).1.

Lemma srv_anchored (es : gmap Path Entry) m : es !! srv = Some (Dir m) -> anchored srv (mkFiles es 0).
Proof.
  intros E q Hq Hne. assert (q = srv) as ->; [|by exists m].
  destruct Hq as [k Hk]. destruct q as [|x q]; [done|]. injection Hk as <- Hk. by destruct q.
Qed.

Lemma new_disk_entries :
  tables new_disk
    = mkFiles (<[root_dir ++ ["tmp"%string] := Dir DIR_MODE]> (<[root_dir := Dir DIR_MODE]> {[srv := Dir 493]})) 0.
Proof. vm_compute. reflexivity. Qed.

Lemma new_disk_sound : files_sound new_disk.
Proof.
  cbn. rewrite new_disk_entries.
  assert (anchored srv (tables new_disk)) as Hs by (rewrite new_disk_entries; by eapply srv_anchored).
  rewrite new_disk_entries in Hs. split.
  - by eapply anchored_snoc.
  - intros id.
    assert (forall p, length p <> 1 -> length p <> 2 -> p <> root_dir ++ ["tmp"%string] ->
      entries (mkFiles (<[root_dir ++ ["tmp"%string] := Dir DIR_MODE]> (<[root_dir := Dir DIR_MODE]>
        {[srv := Dir 493]})) 0) !! p = None) as Hnone.
    { intros p H1 H2 H3. cbn. rewrite !lookup_insert_ne; [done|..]; by intros <-. }
    split.
    + unfold may_dir. rewrite Hnone; [done| | |]; unfold shard_dir; rewrite ?length_app; cbn; [lia|lia|].
      intros [= E]. by apply (shard_not_tmp id).
    + intros Hn. destruct Hn. apply Hnone; unfold blob_path, shard_dir; rewrite ?length_app; cbn; [lia|lia|].
      done.
Qed.

Definition first_store : Storage (Conn Files) := mkStorage (mkConn no_tables []) (Some new_disk).
Lemma first_store_new : no_files first_store.
Proof. split; [done|]. split; [done|]. exact new_disk_sound. Qed.

Definition picture : string := "not really a picture".
Definition upload : Storage (Conn Files) -> Storage (Conn Files) * result Attachment AttachError :=
  db_put_pending_attachment "lab" "mb:1" "a.txt" "text/plain" picture 1000 100 100.
Definition picture_id : string := sha_hex picture.
Definition picture_ref : Attachment := mkAttachment picture_id picture_id "a.txt" "text/plain" 20.
Definition citing : Message := mkMessage 1 "lab" "ada" Agent None "see" Say None None 2000 [picture_ref].
Definition cited : Storage (Conn Files) :=
  mkStorage (db_insert_message citing None (st_conn (upload first_store).1)).1
    (st_blobs (upload first_store).1).

Lemma picture_small : (N.of_nat (String.length picture) <= MAX_BLOB_BYTES)%N.
Proof. vm_compute. discriminate. Qed.

Lemma cited_reached : file_run first_store [picture] cited.
Proof.
  apply (run_step _ [picture] [] (upload first_store).1).
  { apply (run_step _ [] [picture] first_store); [apply run_start|].
    exact (step_upload "lab" "mb:1" "a.txt" "text/plain" picture 1000 100 100 first_store). }
  exact (step_message citing (db_insert_message citing None) (upload first_store).1
    (write_plain citing None)).
Qed.
Lemma picture_readable : readable_size [picture] picture_id.
Proof. intros b ->%list_elem_of_singleton _. exact picture_small. Qed.

Lemma cited_ref :
  t_refs (tables (st_conn cited)) !! ("lab"%string, 1%N, picture_id)
    = Some (mkRefRow "a.txt" "text/plain" 20 2000).
Proof. vm_compute. reflexivity. Qed.
Lemma cited_has_files : is_none (st_blobs cited) = false.
Proof. vm_compute. reflexivity. Qed.

Lemma cited_files_are_served_witness :
  is_Some (db_read_room_attachment cited "lab" picture_id).
Proof.
  refine (proj2 (cited_files_are_served first_store [picture] cited "lab" picture_id first_store_new cited_reached _) _ _).
  - pose proof cited_has_files as Hb. by destruct (st_blobs cited).
  - exists 1%N, (mkRefRow "a.txt" "text/plain" 20 2000). exact cited_ref.
  - exact picture_readable.
Defined.

Lemma no_files_listed room sha n : (sha, n) ∉ room_files no_tables room.
Proof.
  rewrite elem_of_room_files. intros [(id & r & Hr & _)|(r & Hr & _)].
  - by apply (lookup_empty_Some (M := gmap _) (room, id, sha) r).
  - by apply (lookup_empty_Some (M := gmap _) (sha, room) r).
Qed.
Lemma nothing_available room sha : ~ available no_tables room sha.
Proof. intros [n Hn]%available_file. by apply no_files_listed in Hn. Qed.

Lemma first_sizes : sizes_fit (tables (st_conn first_store)).
Proof.
  split; [|by intros room sha n Hin%no_files_listed].
  intros sha r Hr. by destruct (lookup_empty_Some (M := gmap _) sha r Hr).
Qed.
Lemma first_one_size : one_size (tables (st_conn first_store)) picture_id 20.
Proof. by intros room n Hin%no_files_listed. Qed.

Lemma uploads_keep_the_quotas_witness :
  (building_total (tables (st_conn (upload first_store).1)) <= 100)%N
  /\ (room_total (tables (st_conn (upload first_store).1)) "lab" <= 100)%N.
Proof.
  pose proof (uploads_keep_the_quotas "lab" "mb:1" "a.txt" "text/plain" picture 1000 100 100 first_store
    first_sizes first_one_size ltac:(vm_compute; discriminate)) as Hq.
  fold (upload first_store) in Hq. destruct (upload first_store) as [s' r].
  destruct Hq as (Hb & Hr & _). split; [apply Hb|apply Hr]; vm_compute; discriminate.
Defined.

(** The upload is never cited, and its hour passes. *)
Definition waiting_conn : Conn Tables := st_conn (upload first_store).1.
Definition waiting_disk : Conn Files := (file_put picture new_disk).1.
Lemma waiting_sound : files_sound waiting_disk.
Proof. apply put_keeps_sound, new_disk_sound. Qed.
Definition hour_later : Storage (Conn Files) * nat :=
  db_sweep_attachments 9000000 3600000 (mkStorage waiting_conn (Some waiting_disk)).
Lemma hour_later_count :
  hour_later.2 = length (orphans (tables (expire_pending
    (i64_saturating_sub (as_i64 9000000) (as_i64 3600000)) waiting_conn).1)).
Proof. vm_compute. reflexivity. Qed.
Lemma waiting_faultless : faults waiting_conn = [].
Proof. vm_compute. reflexivity. Qed.

Lemma sweep_takes_the_orphans_witness : orphans (tables (st_conn hour_later.1)) = [] /\ hour_later.2 = 1.
Proof.
  split; [|vm_compute; reflexivity].
  destruct (sweep_takes_the_orphans 9000000 3600000 waiting_conn waiting_disk hour_later.1 hour_later.2
    waiting_sound (surjective_pairing hour_later)) as (d' & _ & _ & _ & Hall).
  exact (proj1 (Hall waiting_faultless hour_later_count)).
Defined.

Lemma upload_accepted : (upload first_store).2 = Ok picture_ref.
Proof. vm_compute. reflexivity. Qed.
Lemma citing_accepted : (db_insert_message citing None (st_conn (upload first_store).1)).2 = Ok tt.
Proof. vm_compute. reflexivity. Qed.

Lemma upload_is_served_once_cited_witness :
  is_Some (db_read_room_attachment cited "lab" picture_id).
Proof.
  refine (proj1 (upload_is_served_once_cited "lab" "mb:1" "a.txt" "text/plain" picture 1000 100 100 first_store
    (upload first_store).1 picture_ref citing None _ new_disk_sound _ _ _ _) picture_small).
  - rewrite <- upload_accepted. apply surjective_pairing.
  - by left.
  - done.
  - rewrite <- citing_accepted. apply surjective_pairing.
Defined.

Lemma missing_file_refuses_the_message_witness :
  (db_insert_message citing None (mkConn no_tables [])).2 = Err DbError
  /\ tables (db_insert_message citing None (mkConn no_tables [])).1 = no_tables.
Proof.
  refine (missing_file_refuses_the_message citing (db_insert_message citing None) picture_ref
    (mkConn no_tables []) (write_plain citing None) _ _).
  - by left.
  - apply nothing_available.
Defined.

(** The first row of the upload is not written. *)
Definition torn : Storage (Conn Files) :=
  (upload (mkStorage (mkConn no_tables [true]) (Some new_disk))).1.
Lemma torn_run :
  upload (mkStorage (mkConn no_tables [true]) (Some new_disk))
    = (mkStorage (mkConn no_tables []) (Some waiting_disk), Err AttStorage).
Proof. vm_compute. reflexivity. Qed.
Lemma torn_file : file_read waiting_disk picture_id = Ok picture.
Proof. vm_compute. reflexivity. Qed.

Lemma unrecorded_file_is_never_swept_witness :
  exists d', st_blobs (db_sweep_attachments 9000000 3600000 torn).1 = Some d'
    /\ file_read d' picture_id = Ok picture.
Proof.
  assert (torn = mkStorage (mkConn no_tables []) (Some waiting_disk)) as Ht
    by (unfold torn; by rewrite torn_run).
  rewrite Ht. refine (unrecorded_file_is_never_swept 9000000 3600000 (mkConn no_tables []) waiting_disk _
    (db_sweep_attachments 9000000 3600000 (mkStorage (mkConn no_tables []) (Some waiting_disk))).2
    picture_id picture waiting_sound _ torn_file _).
  - done.
  - apply surjective_pairing.
Defined.

Lemma bare_anchored : anchored srv (tables bare_disk).
Proof. by eapply srv_anchored. Qed.

Lemma blobs_stay_in_their_tree_witness :
  entries (tables (put (mkBlobStore root_dir) picture bare_disk).1) !! srv = Some (Dir 493).
Proof.
  refine (eq_trans (proj1 (blobs_stay_in_their_tree srv "attachments" picture picture_id bare_disk srv
    bare_anchored _)) _).
  - intros Hp. apply prefix_length in Hp. cbn in Hp. lia.
  - done.
Defined.

Lemma picture_stored : (put (mkBlobStore root_dir) picture bare_disk).2 = Ok picture_id.
Proof. vm_compute. reflexivity. Qed.

Lemma blob_round_trip_witness :
  exists found, read (mkBlobStore root_dir) (tables (put (mkBlobStore root_dir) picture bare_disk).1) picture_id
      = Ok found /\ sha_hex found = sha_hex picture.
Proof.
  refine (proj1 (proj2 (blob_round_trip srv "attachments" picture bare_disk
    (put (mkBlobStore root_dir) picture bare_disk).1 picture_id bare_anchored _)) picture_small).
  rewrite <- picture_stored. apply surjective_pairing.
Defined.

(** A link in the place of a shard leads a read out of the store, to content of the
    right hash only. *)
Definition linked_disk : Files :=
  mkFiles (<[root_dir ++ [shard_of picture_id] := Symlink ["out"%string]]>
    (<[["out"; picture_id]%string := Reg 420 picture]> (<[["out"%string] := Dir 493]>
      (entries (tables new_disk))))) 0.
Example read_follows_a_linked_shard : read (mkBlobStore root_dir) linked_disk picture_id = Ok picture.
Proof. vm_compute. reflexivity. Qed.
