(* ===== verification/UploadFacts.v ===== *)
(** * Uploads: theorems

    What routes/attachments.rs lets in, and what it makes of a file name. *)

From Stdlib Require Import Ascii.
From Stdlib Require String.
From S2P Require Import Prelude Text Protocol StoreApi Hub Access Membership Http Doors Attachments.
From S2P Require Import Sql Tables BlobFiles Identity RouteAttachments.

(** ** Bytes of a text *)

Abbreviation letters := String.list_ascii_of_string.

Lemma letters_app s t : letters (s +:+ t) = (letters s ++ letters t)%list.
Proof.
  induction s as [|a s IH]; [done|].
  change (a :: letters (s +:+ t) = a :: (letters s ++ letters t)%list). by rewrite IH.
Qed.

Lemma letters_concat cs : letters (concat_chars cs) = concat (map letters cs).
Proof.
  unfold concat_chars. induction cs as [|c cs IH]; [done|]. cbn [map concat].
  rewrite <- IH. destruct cs as [|d cs]; cbn [String.concat].
  - cbn. by rewrite app_nil_r.
  - by rewrite !letters_app.
Qed.

Lemma elem_of_letters_concat a cs :
  a ∈ letters (concat_chars cs) <-> exists c, c ∈ cs /\ a ∈ letters c.
Proof.
  rewrite letters_concat, list_elem_of_In, in_concat. setoid_rewrite list_elem_of_In.
  setoid_rewrite in_map_iff. naive_solver.
Qed.

Lemma letters_length s : length (letters s) = String.length s.
Proof. induction s as [|a s IH]; [done|]. cbn. by rewrite IH. Qed.

Lemma elem_of_substring a n s : a ∈ letters (String.substring 0 n s) -> a ∈ letters s.
Proof.
  revert n. induction s as [|b s IH]; intros n; destruct n as [|n]; cbn; try done.
  - by intros ?%elem_of_nil.
  - intros [->|Hin]%elem_of_cons; [by left|right; by eapply IH].
Qed.

Lemma substring_length n s : String.length (String.substring 0 n s) <= n.
Proof.
  revert n. induction s as [|b s IH]; intros n; destruct n as [|n]; cbn; try lia.
  specialize (IH n). lia.
Qed.

Lemma drop_while_subset {A} (f : A -> bool) l x : x ∈ drop_while f l -> x ∈ l.
Proof.
  induction l as [|y l IH]; [done|]. cbn. destruct (f y); [|done]. intros Hin. right. by apply IH.
Qed.

Lemma elem_of_rev {A} (l : list A) x : x ∈ rev l <-> x ∈ l.
Proof. by rewrite !list_elem_of_In, <- in_rev. Qed.

Section names.
Context `{Unicode}.

Lemma elem_of_trim a s : a ∈ letters (trim s) -> a ∈ letters s.
Proof.
  unfold trim. rewrite elem_of_letters_concat. intros (c & Hc & Ha).
  rewrite <- (chars_concat s). change (String.concat "" (chars s)) with (concat_chars (chars s)).
  apply elem_of_letters_concat. exists c. split; [|done].
  apply elem_of_rev, drop_while_subset, elem_of_rev, drop_while_subset in Hc. done.
Qed.

Lemma boundary_le s n : boundary s n <= n.
Proof.
  induction n as [|n IH]; [done|]. cbn [boundary].
  destruct (String.get (S n) s) as [a|].
  - destruct (continuation _); lia.
  - destruct (_ =? _)%nat; lia.
Qed.

Lemma elem_of_cap_bytes a s n : a ∈ letters (cap_bytes s n) -> a ∈ letters s.
Proof. unfold cap_bytes. destruct (_ <=? _)%nat; [done|apply elem_of_substring]. Qed.

Lemma cap_bytes_length s n : String.length (cap_bytes s n) <= n.
Proof.
  unfold cap_bytes. destruct (Nat.leb_spec (String.length s) n); [done|].
  etrans; [apply substring_length|apply boundary_le].
Qed.

(** No control byte of ASCII, no separator of paths. *)
Definition harmless (a : ascii) : Prop :=
  (32 <= N_of_ascii a)%N /\ N_of_ascii a <> 127%N /\ a <> "/"%char /\ a <> "\"%char.

Lemma harmless_high a : (128 <= N_of_ascii a)%N -> harmless a.
Proof.
  intros Ha. split; [lia|]. split; [lia|]. split; intros ->; cbn in Ha; lia.
Qed.

Lemma default_name_harmless sniffed a : a ∈ letters (default_name sniffed) -> harmless a.
Proof.
  assert (forall s, forallb (fun a => (32 <=? N_of_ascii a)%N && negb (N_of_ascii a =? 127)%N
      && negb (Ascii.eqb a "/") && negb (Ascii.eqb a "\")) (letters s) = true ->
    a ∈ letters s -> harmless a) as Hall.
  { intros s Hs Hin%list_elem_of_In. eapply forallb_forall in Hs; [|exact Hin].
    rewrite !andb_true_iff, !negb_true_iff, N.leb_le, N.eqb_neq, !Ascii.eqb_neq in Hs.
    unfold harmless. tauto. }
  unfold default_name. repeat case_bool_decide; by apply Hall.
Qed.

Lemma default_name_length sniffed :
  1 <= String.length (default_name sniffed) <= 255.
Proof. unfold default_name. repeat case_bool_decide; cbn; lia. Qed.

Lemma cleaned_harmless raw a :
  a ∈ letters (concat_chars
    (map (fun c => if bool_decide (c = "/"%string) || bool_decide (c = "\"%string) then "_"%string else c)
       (List.filter (fun c => negb (is_control c)) (chars raw)))) -> harmless a.
Proof.
  rewrite elem_of_letters_concat. intros (c & Hc & Ha).
  apply list_elem_of_In, in_map_iff in Hc as (d & <- & [Hd Hctl]%filter_In).
  apply list_elem_of_In in Hd. apply negb_true_iff in Hctl.
  destruct (bool_decide (d = "/"%string) || bool_decide (d = "\"%string)) eqn:Esep.
  { apply elem_of_cons in Ha as [->|Ha%elem_of_nil]; [|done].
    unfold harmless. cbn. repeat split; try lia; done. }
  apply orb_false_iff in Esep as [E1%bool_decide_eq_false E2%bool_decide_eq_false].
  destruct (chars_bytes raw d Hd) as [Hl|Hb]; [|apply harmless_high; auto].
  destruct d as [|b [|? ?]]; try done. apply elem_of_cons in Ha as [->|Ha%elem_of_nil]; [|done].
  unfold is_control, bytes_of in Hctl. cbn [letters map] in Hctl.
  assert ((N_of_ascii b <? 32)%N || (N_of_ascii b =? 127)%N = false) as Hb.
  { exact Hctl. }
  apply orb_false_iff in Hb as [Hb1%N.ltb_ge Hb2%N.eqb_neq].
  split; [done|]. split; [done|]. split; intros ->; [by apply E1|by apply E2].
Qed.

Lemma elem_of_safe_disposition a name :
  a ∈ letters (disposition_safe name) -> a <> ascii_of_N 34 /\ a <> "\"%char.
Proof.
  unfold disposition_safe. rewrite elem_of_letters_concat. intros (c & Hc & Ha).
  apply list_elem_of_In, in_map_iff in Hc as (d & <- & Hd%list_elem_of_In).
  destruct (bool_decide (d = quote) || bool_decide (d = "\"%string)) eqn:Esep.
  { by apply elem_of_cons in Ha as [->|Ha%elem_of_nil]. }
  apply orb_false_iff in Esep as [E1%bool_decide_eq_false E2%bool_decide_eq_false].
  destruct (chars_bytes name d Hd) as [Hl|Hb].
  - destruct d as [|b [|? ?]]; try done. apply elem_of_cons in Ha as [->|Ha%elem_of_nil]; [|done].
    split; intros ->; [by apply E1|by apply E2].
  - specialize (Hb a Ha). split; intros ->; cbn in Hb; lia.
Qed.

(** the name an upload is stored under is never empty and never longer than
    255 bytes; it holds no separator of paths and no control byte, whatever the
    header said, and in the header it is served with neither a quote nor a
    backslash. *)
Theorem stored_names_are_harmless raw sniffed :
  let name := sanitize_filename raw sniffed in
  1 <= String.length name <= 255
  /\ (forall a, a ∈ letters name -> harmless a)
  /\ (forall a, a ∈ letters (disposition_safe name) -> a <> ascii_of_N 34 /\ a <> "\"%char).
Proof.
  cbv zeta. split; [|split; [|intros a; apply elem_of_safe_disposition] ].
  - unfold sanitize_filename. set (capped := cap_bytes _ _).
    destruct (str_is_empty capped) eqn:Ee; [apply default_name_length|].
    split; [|apply cap_bytes_length]. destruct capped; [done|cbn; lia].
  - intros a. unfold sanitize_filename. set (capped := cap_bytes _ _).
    destruct (str_is_empty capped); [apply default_name_harmless|].
    intros Ha%elem_of_cap_bytes%elem_of_trim. by eapply cleaned_harmless.
Qed.
End names.

(** ** What is let in *)

Definition allowed_types : list string :=
  ["image/png"; "image/jpeg"; "image/webp"; "application/pdf"; "text/plain"]%string.

Lemma sniff_allowed body m :
  sniff_mime body = Some m ->
  m ∈ allowed_types
  /\ (m = "text/plain"%string -> utf8_valid (bytes_of body) = true /\ 0%N ∉ bytes_of body).
Proof.
  unfold sniff_mime. set (l := bytes_of body).
  destruct (starts_with l _); [intros [= <-]; split; [set_solver|done]|].
  destruct (starts_with l _); [intros [= <-]; split; [set_solver|done]|].
  destruct (_ && _ && _)%bool; [intros [= <-]; split; [set_solver|done]|].
  destruct (starts_with l _); [intros [= <-]; split; [set_solver|done]|].
  destruct (negb (existsb (N.eqb 0) l) && utf8_valid l) eqn:Et; [|done].
  intros [= <-]. split; [set_solver|]. intros _. apply andb_true_iff in Et as [Hz Hv]. split; [done|].
  intros Hin. apply negb_true_iff, not_true_iff_false in Hz. apply Hz, existsb_exists.
  exists 0%N. split; [by apply list_elem_of_In|done].
Qed.

Section uploads.
Context {St : Type} `{Unicode} `{HeaderText} `{HeaderValueText} `{Digest} `{Environment}
  `{StoreBase St} `{IdentityStore St} `{AttachmentStore St}.
Implicit Types h : Hub St.
Implicit Types headers : HeaderMap.

Lemma checked_type_ok headers body m :
  checked_type headers body = Ok m ->
  sniff_mime body = Some m
  /\ (1 <= N.of_nat (String.length body) <= attachment_max_bytes)%N
  /\ (forall claimed, header headers "content-type" = Some claimed -> mime_matches claimed m = true).
Proof.
  unfold checked_type. destruct (str_is_empty body) eqn:Ee; [done|].
  destruct (N.ltb_spec attachment_max_bytes (N.of_nat (String.length body))) as [|Hl]; [done|].
  destruct (sniff_mime body) as [s|]; [|done].
  assert (1 <= String.length body)%nat as Hne by (destruct body; [done|cbn; lia]).
  destruct (header headers "content-type") as [c|].
  - destruct (mime_matches c s) eqn:Em; [|done]. intros [= <-]. split; [done|].
    split; [lia|]. by intros ? [= <-].
  - intros [= <-]. split; [done|]. split; [lia|done].
Qed.

Lemma with_access_created room headers f h h' b :
  with_access room headers f h = (h', (CREATED, b)) ->
  exists h1, room_access room headers h = (h1, Ok tt) /\ f h1 = (h', (CREATED, b)).
Proof.
  unfold with_access. destruct (room_access room headers h) as [h1 [[]|refusal]] eqn:Er.
  - intros E. by exists h1.
  - intros [= -> ->]. exfalso. unfold room_access in Er. destruct (is_deleted h room); [done|].
    by destruct (room_decision_of room headers h) as [h2 []].
Qed.

(** an upload is accepted only behind the door of its room, while attachments
    are on, when it is not empty, within the limit, of an allowed type by its own
    bytes and not declared as another; a text is valid UTF-8 without a NUL.  What
    is stored then is these bytes, under that type and a cleaned name, and the
    answer is the reference the store gave. *)
Theorem accepted_upload room headers body h h' b :
  upload_attachment room headers body h = (h', (CREATED, b)) ->
  exists h1 h2 identity uploader mime att,
    room_access room headers h = (h1, Ok tt)
    /\ attachments_enabled h1 = true
    /\ session_identity (session_of headers) h1 = (h2, identity)
    /\ uploader_of headers identity h2 = Ok uploader
    /\ (1 <= N.of_nat (String.length body) <= attachment_max_bytes)%N
    /\ sniff_mime body = Some mime /\ mime ∈ allowed_types
    /\ (mime = "text/plain"%string -> utf8_valid (bytes_of body) = true /\ 0%N ∉ bytes_of body)
    /\ (forall claimed, header headers "content-type" = Some claimed -> mime_matches claimed mime = true)
    /\ put_pending_attachment room uploader (sanitize_filename (header headers "x-filename") mime)
         mime body h2 = (h', Ok att)
    /\ b = BAttachment att.
Proof.
  intros (h1 & Hacc & E)%with_access_created.
  destruct (attachments_enabled h1) eqn:Een; [|done]. cbn in E.
  destruct (session_identity (session_of headers) h1) as [h2 identity] eqn:Eid.
  destruct (uploader_of headers identity h2) as [uploader|refusal] eqn:Eu.
  2: { exfalso. injection E as _ ->. unfold uploader_of in Eu. by repeat (case_match; simplify_eq/=). }
  destruct (checked_type headers body) as [mime|refusal] eqn:Ec.
  2: { exfalso. injection E as _ ->. unfold checked_type in Ec. by repeat (case_match; simplify_eq/=). }
  destruct (put_pending_attachment _ _ _ _ _ h2) as [h3 [att|e]] eqn:Ep; [|by destruct e].
  injection E as <- <-. apply checked_type_ok in Ec as (Hs & Hl & Hm).
  pose proof (sniff_allowed _ _ Hs) as [Ha Ht].
  exists h1, h2, identity, uploader, mime, att. split_and!; try done; lia.
Qed.
End uploads.

(** ** Witness: a picture in an open room *)

#[local] Existing Instance ascii_unicode.
#[local] Instance short_digest : Digest :=
  {| sha256 s := take 32 (map N_of_ascii (letters s) ++ replicate 32 0%N) |}.
#[local] Instance midday : WallClock := {| current_time_ms := 1000 |}.
#[local] Instance process : ProcessStamp := {| process_id := 7; nanos_now := 1000 |}.
#[local] Instance bare_env : Environment := {| env_var _ := None |}.
#[local] Instance any_header : HeaderText := {| header_to_str v := Some v |}.
#[local] Instance any_value_text : HeaderValueText := {| header_value _ := true |}.
#[local] Instance files_here : BlobFiles (Conn Files) := disk_files (mkBlobStore ["srv"; "attachments"]%string).

Definition open_house : Hub (Storage (Conn Files)) :=
  with_h_sessions {["st_1" := mkSessionIdentity None RoleMaster "op" User None None true 9000000]}
    (empty_hub (mkStorage (mkConn no_tables [])
      (Some (mkConn (mkFiles {[["srv"%string] := Dir 493]} 0) [])))).
Definition png : string := byte_string [137; 80; 78; 71; 13; 10; 26; 10]%N.
Definition png_headers : HeaderMap :=
  {["content-type" := "image/png"; "x-filename" := "../../etc/passwd"; "x-session-token" := "st_1"]}%string.
Definition png_upload : Hub (Storage (Conn Files)) * Response :=
  upload_attachment "lab" png_headers png open_house.

Lemma png_accepted :
  png_upload.2 = (CREATED, BAttachment (mkAttachment (sha_hex png) (sha_hex png)
                    ".._.._etc_passwd" "image/png" 8)).
Proof. vm_compute. reflexivity. Qed.

Lemma accepted_upload_witness : exists mime, sniff_mime png = Some mime /\ mime ∈ allowed_types.
Proof.
  destruct (accepted_upload "lab" png_headers png open_house png_upload.1
    (BAttachment (mkAttachment (sha_hex png) (sha_hex png) ".._.._etc_passwd" "image/png" 8)))
    as (h1 & h2 & identity & uploader & mime & att & _ & _ & _ & _ & _ & Hs & Ha & _).
  - rewrite <- png_accepted. apply surjective_pairing.
  - by exists mime.
Defined.
