(* ===== verification/StoreFacts.v ===== *)
(** * What the writes of the store leave alone

    The declared work of the rooms (tasks, goals, waits) and their seals are
    written by a few statements only; every other write of the store, those of the
    memory, the wiki and the files included, keeps them, whatever fails. *)

From S2P Require Import Prelude Text Protocol StoreApi Sql Tables Hub Access Membership WikiTypes.
From S2P Require Import Identity Operators Admission StoreAttention StoreWork.
From S2P Require Import StoreMessages BlobFiles Memory WikiMaintenance Wiki WikiOps.
From S2P Require Import Attachments WikiFacts.

Open Scope loca_scope.

Implicit Types t : Tables.
Implicit Types c : Conn Tables.

(** Whether a room is sealed on disk. *)
Definition sealed_row t (room : string) : bool :=
  match t_rooms t !! room with Some r => negb (is_none (rr_sealed_at r)) | None => false end.

(** No two messages of a room answer one operation of one principal. *)
Definition one_per_operation t : Prop := forall i j r r' p o,
  t_messages t !! i = Some r -> t_messages t !! j = Some r' ->
  msg_room (mg_message r) = msg_room (mg_message r') ->
  mg_principal r = Some p -> mg_principal r' = Some p -> mg_op_id r = Some o -> mg_op_id r' = Some o ->
  i = j.

(** A row of the outbox names the recipient its envelope names. *)
Definition addressed (o : OutboxRow) : Prop :=
  sig_owner (ob_signal o) = Some (ob_owner o)
  /\ sig_owner_principal_id (ob_signal o) = ob_owner_principal_id o.
Definition outbox_ok t : Prop := map_Forall (fun _ => addressed) (t_outbox t).

(** Nothing of the declared work and no seal changed, and no message was lost. *)
Record same_work t t' : Prop := {
  sw_tasks : t_tasks t' = t_tasks t;
  sw_goals : t_goals t' = t_goals t;
  sw_waits : t_waits t' = t_waits t;
  sw_sealed : forall room, sealed_row t' room = sealed_row t room;
  sw_messages : t_messages t ⊆ t_messages t';
  sw_operations : one_per_operation t -> one_per_operation t';
  sw_outbox : outbox_ok t -> outbox_ok t';
}.

#[export] Instance same_work_refl : Reflexive same_work.
Proof. by constructor. Qed.
#[export] Instance same_work_trans : Transitive same_work.
Proof.
  intros t1 t2 t3 [??? S1 M1 O1 B1] [??? S2 M2 O2 B2]. constructor; [congruence..| |by etrans|auto|auto].
  intros room. by rewrite S2, S1.
Qed.

(** A statement on other tables. *)
Lemma same_work_same t t' :
  t_tasks t' = t_tasks t -> t_goals t' = t_goals t -> t_waits t' = t_waits t ->
  t_rooms t' = t_rooms t -> t_messages t' = t_messages t -> (outbox_ok t -> outbox_ok t') -> same_work t t'.
Proof.
  intros ? ? ? Er Em ?. constructor; try done.
  - intros room. unfold sealed_row. by rewrite Er.
  - by rewrite Em.
  - unfold one_per_operation. by rewrite Em.
Qed.

(** An update of deliveries leaves their recipients alone. *)
Lemma outbox_updated p f t m n :
  update_where p f (t_outbox t) = (m, n) -> (forall o, addressed o -> addressed (f o)) ->
  outbox_ok t -> outbox_ok (with_t_outbox m t).
Proof.
  intros E Hf Hb k o Ho. cbn in Ho. rewrite (update_where_eq _ _ _ _ _ E) in Ho.
  apply fmap_Some in Ho as (o0 & Ho0 & ->). specialize (Hb k o0 Ho0). destruct (p k o0); auto.
Qed.
Lemma outbox_added k o t m n :
  insert_or_ignore k o (t_outbox t) = (m, n) -> addressed o -> outbox_ok t -> outbox_ok (with_t_outbox m t).
Proof.
  unfold insert_or_ignore. destruct (t_outbox t !! k); intros [= <- _] Ho Hb; [done|].
  by apply map_Forall_insert_2.
Qed.

(** A new message: under a fresh id, for an operation not answered before. *)
Lemma same_work_message m operation t t' n :
  insert_message_row m operation t = Some (t', n) -> same_work t t'.
Proof.
  unfold insert_message_row, insert_row.
  set (taken := match operation with Some _ => _ | None => _ end). destruct taken eqn:Et; [done|].
  destruct (t_messages t !! msg_id m) eqn:Em; [done|]. intros [= <- _].
  constructor; try done; cbn; [by apply insert_subseteq|].
  assert (forall j r p o, t_messages t !! j = Some r -> msg_room (mg_message r) = msg_room m ->
    mg_principal r = Some p -> mg_op_id r = Some o ->
    (fst <$> operation) = Some p -> (snd <$> operation) = Some o -> False) as Hnew.
  { intros j r p o Hj Hr Hp Ho Hop Hoo. destruct operation as [[p' o']|]; [|done].
    injection Hop as ->. injection Hoo as ->. apply negb_false_iff in Et.
    destruct (select_where _ _) eqn:Es in Et; [done|]. rewrite select_where_None in Es.
    specialize (Es j r Hj). by rewrite !bool_decide_eq_true_2 in Es. }
  intros Hone i j r r' p o. cbn.
  intros [[<- <-]|[_ Hi]]%lookup_insert_Some [[<- <-]|[_ Hj]]%lookup_insert_Some; cbn; try done.
  - intros ? ? ? ? ?. exfalso. by eapply (Hnew j r').
  - intros ? ? ? ? ?. exfalso. by eapply (Hnew i r).
  - by apply Hone.
Qed.

(** The statements of a computation, unfolded to what they do to the tables. *)
Create HintDb statements.
#[export] Hint Unfold on_table on_members on_stock on_joins update_join revoke_credentials
  revoke_sessions revoke_invites disable_principals insert_or_ignore_principal
  insert_or_ignore_credential insert_credential close_assignment resolve_rows ack_rows
  delete_mark put_mark upsert_attention : statements.

Ltac frame_stmt :=
  intros ? ? ?; lazymatch goal with |- insert_message_row _ _ _ = _ -> _ => apply same_work_message | _ =>
  autounfold with statements; cbv beta; intros ?;
  repeat case_match; simplify_eq; first [by apply same_work_same|by constructor
  |by apply same_work_same; [done..|]; eapply outbox_updated; [eassumption|]] end.

Ltac frame_keeps :=
  repeat match goal with
  | |- keeps _ (ret _) => apply keeps_ret; apply _
  | |- keeps _ (stop _) => apply keeps_stop; apply _
  | |- keeps _ (query _) => apply keeps_query; apply _
  | |- keeps _ (transaction _ _) => apply keeps_transaction; [apply _|]
  | |- keeps _ (bind _ _) => apply keeps_bind; [apply _| |intros ?]
  | |- keeps _ (execute _ _ _) => apply keeps_execute; [apply _|]; frame_stmt
  | |- keeps _ (unit_of _) => unfold unit_of
  | |- keeps _ (if ?b then _ else _) => destruct b
  | |- keeps _ (match ?o with _ => _ end) => destruct o
  | _ => solve [auto with frames]
  end.

Create HintDb frames.

Section frames.
Context `{Digest} `{WallClock}.

Lemma frame_insert_principal_credential {E} (e : E) role token name kind at_ label :
  keeps same_work (insert_principal_credential e role token name kind at_ label).
Proof. unfold insert_principal_credential. cbv zeta. frame_keeps. Qed.

Lemma frame_revoke_principal_credential {E} (e : E) token at_ :
  keeps same_work (revoke_principal_credential e token at_).
Proof. unfold revoke_principal_credential. cbv zeta. frame_keeps. Qed.

Lemma frame_resolve_condition id at_ : keeps same_work (resolve_condition id at_).
Proof. unfold resolve_condition. frame_keeps. Qed.

Lemma frame_resolve_cycles room at_ ids : keeps same_work (resolve_cycles room at_ ids).
Proof. induction ids; cbn [resolve_cycles]; frame_keeps. Qed.

Lemma frame_resolve_wait_attentions room waiter at_ :
  keeps same_work (db_resolve_wait_attentions room waiter at_).
Proof.
  unfold db_resolve_wait_attentions. frame_keeps; auto using frame_resolve_condition, frame_resolve_cycles.
Qed.

Lemma frame_write_care room s : keeps same_work (write_care room s).
Proof.
  unfold write_care. cbv zeta. destruct (sig_owner s) as [owner|] eqn:Ho; [|frame_keeps].
  frame_keeps. apply keeps_execute; [apply _|]. intros t t' n.
  destruct (insert_or_ignore _ _ _) as [m k] eqn:E. intros [= <- _]. apply same_work_same; [done..|].
  by eapply outbox_added.
Qed.

Lemma frame_write_cares place signals : keeps same_work (write_cares place signals).
Proof. induction signals; cbn [write_cares]; frame_keeps; auto using frame_write_care. Qed.

Lemma frame_write_room_state {E} (e : E) room mode settings :
  keeps same_work (write_room_state e room mode settings).
Proof.
  unfold write_room_state. frame_keeps.
  - apply keeps_execute; [apply _|]. intros t t' n He.
    assert (t' = t \/ sealed_row t room = false /\
      t' = with_t_rooms (<[room := mkRoomRow mode settings None]> (t_rooms t)) t) as [->|[Hs ->]].
    { unfold sealed_row. destruct (t_rooms t !! room) as [r|]; [destruct (is_none (rr_sealed_at r)) eqn:En|];
        injection He as <- _; auto. }
    + done.
    + constructor; try done. intros n'. unfold sealed_row in *. cbn.
      destruct (decide (n' = room)) as [->|Hne]; [by rewrite lookup_insert_eq|by rewrite lookup_insert_ne].
Qed.

Lemma frame_pause_room_attentions room at_ : keeps same_work (pause_room_attentions room at_).
Proof. unfold pause_room_attentions. frame_keeps. Qed.
Lemma frame_retire_room_attentions room at_ : keeps same_work (retire_room_attentions room at_).
Proof. unfold retire_room_attentions. frame_keeps. apply frame_pause_room_attentions. Qed.

Lemma frame_write_attachment_refs m files : keeps same_work (write_attachment_refs m files).
Proof. induction files; cbn [write_attachment_refs]; frame_keeps. Qed.

Lemma frame_place_message m operation : keeps same_work (place_message m operation).
Proof.
  unfold place_message, reset_silence_care. frame_keeps;
    auto using frame_resolve_condition, frame_write_attachment_refs.
Qed.

Lemma frame_mint_rows ids by_ created expires n :
  keeps same_work (mint_rows ids by_ created expires n).
Proof. revert n. induction ids; intros n; cbn [mint_rows]; frame_keeps. Qed.
End frames.
#[export] Hint Resolve frame_insert_principal_credential frame_revoke_principal_credential
  frame_resolve_condition frame_resolve_cycles frame_resolve_wait_attentions frame_write_care
  frame_write_cares frame_write_room_state frame_pause_room_attentions
  frame_retire_room_attentions frame_write_attachment_refs frame_place_message
  frame_mint_rows : frames.

(** The small computations the methods are made of. *)
Create HintDb methods.
#[export] Hint Unfold require_unsealed_room revoke_legacy_smaster validate_target
  validate_appointer fill_seat query_active require_active insert_assignment approval issue
  write_room_opt write_note : methods.

Ltac frame_method :=
  autounfold with methods; cbv zeta; frame_keeps.

(** A method of the store that keeps the declared work and the seals. *)
Definition silent {A} (f : Conn Tables -> Conn Tables * A) : Prop :=
  forall c, same_work (tables c) (tables (f c).1).

Lemma silent_keeps {E A} (m : Sql Tables E A) : keeps same_work m -> silent m.
Proof. done. Qed.

(** A method whose answer is computed from the end of its statements. *)
Lemma silent_map {E A B} (m : Sql Tables E A) (f : result A E -> B) :
  keeps same_work m -> silent (fun c => let '(c, r) := m c in (c, f r)).
Proof. intros Hm c. pose proof (Hm c) as Hc. by destruct (m c). Qed.

Create HintDb silent.
Ltac silent_method := first [apply silent_map|apply silent_keeps]; frame_method.

Section silent.
Context `{Digest} `{WallClock} `{Unicode}.

Lemma silent_enqueue_care room s : silent (enqueue_care room s).
Proof. change (silent (db_enqueue_care room s)). unfold db_enqueue_care. silent_method. Qed.
Lemma silent_enqueue_care_with_mark room key last count place s : silent (enqueue_care_with_mark room key last count place s).
Proof. change (silent (db_enqueue_care_with_mark room key last count place s)). unfold db_enqueue_care_with_mark. silent_method. Qed.
Lemma silent_enqueue_everyone_care room key last count signals : silent (enqueue_everyone_care room key last count signals).
Proof. change (silent (db_enqueue_everyone_care room key last count signals)). unfold db_enqueue_everyone_care. silent_method. Qed.
Lemma silent_store_claim_attention id by_ at_ : silent (store_claim_attention id by_ at_).
Proof. change (silent (db_claim_attention id by_ at_)). unfold db_claim_attention. silent_method. Qed.
Lemma silent_store_resolve_attention id at_ : silent (store_resolve_attention id at_).
Proof. change (silent (db_resolve_attention id at_)). unfold db_resolve_attention. silent_method. Qed.
Lemma silent_ack_care_scoped id owner pid at_ : silent (ack_care_scoped id owner pid at_).
Proof. change (silent (db_ack_care_scoped id owner pid at_)). unfold db_ack_care_scoped. silent_method. Qed.
Lemma silent_save_room room mode settings : silent (save_room room mode settings).
Proof. change (silent (db_save_room room mode settings)). unfold db_save_room. silent_method. Qed.
Lemma silent_store_append_journal e : silent (store_append_journal e).
Proof. change (silent (db_append_journal e)). unfold db_append_journal. silent_method. Qed.
Lemma silent_upsert_note room n : silent (upsert_note room n).
Proof. change (silent (db_upsert_note room n)). unfold db_upsert_note. silent_method. Qed.
Lemma silent_replace_note room n n' : silent (replace_note room n n').
Proof. change (silent (db_replace_note room n n')). unfold db_replace_note. silent_method. Qed.
Lemma silent_store_delete_note room key : silent (store_delete_note room key).
Proof. change (silent (db_delete_note room key)). unfold db_delete_note. silent_method. Qed.
Lemma silent_insert_message m operation : silent (insert_message m operation).
Proof. change (silent (db_insert_message m operation)). unfold db_insert_message. silent_method. Qed.
Lemma silent_insert_message_with_room m mode settings operation : silent (insert_message_with_room m mode settings operation).
Proof. change (silent (db_insert_message_with_room m mode settings operation)). unfold db_insert_message_with_room. silent_method. Qed.
Lemma silent_insert_message_with_care m state operation room signals : silent (insert_message_with_care m state operation room signals).
Proof. change (silent (db_insert_message_with_care m state operation room signals)). unfold db_insert_message_with_care. silent_method. Qed.
Lemma silent_set_message_reaction room id principal reactor emoji active at_ : silent (set_message_reaction room id principal reactor emoji active at_).
Proof. change (silent (db_set_message_reaction room id principal reactor emoji active at_)). unfold db_set_message_reaction. silent_method. Qed.
Lemma silent_save_admin_session token name kind expires_at : silent (save_admin_session token name kind expires_at).
Proof. change (silent (db_save_admin_session token name kind expires_at)). unfold db_save_admin_session. silent_method. Qed.
Lemma silent_delete_admin_session token : silent (delete_admin_session token).
Proof. change (silent (db_delete_admin_session token)). unfold db_delete_admin_session. silent_method. Qed.
Lemma silent_save_principal_session secret pid cid at_ expires_at : silent (save_principal_session secret pid cid at_ expires_at).
Proof. change (silent (db_save_principal_session secret pid cid at_ expires_at)). unfold db_save_principal_session. silent_method. Qed.
Lemma silent_revoke_principal_session secret at_ : silent (revoke_principal_session secret at_).
Proof. change (silent (db_revoke_principal_session secret at_)). unfold db_revoke_principal_session. silent_method. Qed.
Lemma silent_insert_invite inv : silent (insert_invite inv).
Proof. change (silent (db_insert_invite inv)). unfold db_insert_invite. silent_method. Qed.
Lemma silent_store_revoke_invite token at_ : silent (store_revoke_invite token at_).
Proof. change (silent (db_revoke_invite token at_)). unfold db_revoke_invite. silent_method. Qed.
Lemma silent_store_revoke_invites_for room name at_ : silent (store_revoke_invites_for room name at_).
Proof. change (silent (db_revoke_invites_for room name at_)). unfold db_revoke_invites_for. silent_method. Qed.
Lemma silent_add_member m : silent (add_member m).
Proof. change (silent (db_add_member m)). unfold db_add_member. silent_method. Qed.
Lemma silent_revoke_member_cascade token at_ : silent (revoke_member_cascade token at_).
Proof. change (silent (db_revoke_member_cascade token at_)). unfold db_revoke_member_cascade. silent_method. Qed.
Lemma silent_suspend_member token reason at_ : silent (suspend_member token reason at_).
Proof. change (silent (db_suspend_member token reason at_)). unfold db_suspend_member. silent_method. Qed.
Lemma silent_resume_member token : silent (resume_member token).
Proof. change (silent (db_resume_member token)). unfold db_resume_member. silent_method. Qed.
Lemma silent_set_ban room name kind at_ : silent (set_ban room name kind at_).
Proof. change (silent (db_set_ban room name kind at_)). unfold db_set_ban. silent_method. Qed.
Lemma silent_clear_ban room name kind : silent (clear_ban room name kind).
Proof. change (silent (db_clear_ban room name kind)). unfold db_clear_ban. silent_method. Qed.
Lemma silent_store_add_smaster token name at_ : silent (store_add_smaster token name at_).
Proof. change (silent (db_add_smaster token name at_)). unfold db_add_smaster. silent_method. Qed.
Lemma silent_store_revoke_smaster token at_ : silent (store_revoke_smaster token at_).
Proof. change (silent (db_revoke_smaster token at_)). unfold db_revoke_smaster. silent_method. Qed.
Lemma silent_create_room_with_operator room settings target at_ : silent (create_room_with_operator room settings target at_).
Proof. change (silent (db_create_room_with_operator room settings target at_)). unfold db_create_room_with_operator. silent_method. Qed.
Lemma silent_store_appoint_loca_operator room target by_ at_ : silent (store_appoint_loca_operator room target by_ at_).
Proof. change (silent (db_appoint_loca_operator room target by_ at_)). unfold db_appoint_loca_operator. silent_method. Qed.
Lemma silent_store_revoke_loca_operator room by_ at_ : silent (store_revoke_loca_operator room by_ at_).
Proof. change (silent (db_revoke_loca_operator room by_ at_)). unfold db_revoke_loca_operator. silent_method. Qed.
Lemma silent_create_credential pid label secret at_ : silent (create_credential pid label secret at_).
Proof. change (silent (db_create_credential pid label secret at_)). unfold db_create_credential. silent_method. Qed.
Lemma silent_revoke_credential pid cid at_ : silent (revoke_credential pid cid at_).
Proof. change (silent (db_revoke_credential pid cid at_)). unfold db_revoke_credential. silent_method. Qed.
Lemma silent_mint_admission_rights ids by_ at_ expires : silent (mint_admission_rights ids by_ at_ expires).
Proof. change (silent (db_mint_admission_rights ids by_ at_ expires)). unfold db_mint_admission_rights. silent_method. Qed.
Lemma silent_store_create_join_request id secret name kind at_ : silent (store_create_join_request id secret name kind at_).
Proof. change (silent (db_create_join_request id secret name kind at_)). unfold db_create_join_request. silent_method. Qed.
Lemma silent_approve_join_request_atomic id token by_ at_ : silent (approve_join_request_atomic id token by_ at_).
Proof.
  change (silent (db_approve_join_request id token by_ at_)). unfold db_approve_join_request.
  intros c. assert (keeps same_work (transaction TxnFailed (approval id token by_ at_))) as Hk
    by (autounfold with methods; cbv zeta; frame_keeps).
  specialize (Hk c). by destruct (transaction _ _ c) as [? [|]].
Qed.
Lemma silent_store_deny_join_request id by_ at_ : silent (store_deny_join_request id by_ at_).
Proof. change (silent (db_deny_join_request id by_ at_)). unfold db_deny_join_request. silent_method. Qed.
Lemma silent_store_claim_join_request_bootstrap id secret at_ : silent (store_claim_join_request_bootstrap id secret at_).
Proof.
  change (silent (db_claim_join_request_bootstrap id secret at_)). intros c.
  unfold db_claim_join_request_bootstrap. destruct (deliverable _ _ _) as [mb|]; [|done].
  revert c. silent_method.
Qed.
Lemma silent_store_ack_join_request_bootstrap id secret at_ : silent (store_ack_join_request_bootstrap id secret at_).
Proof.
  change (silent (db_ack_join_request_bootstrap id secret at_)). intros c.
  unfold db_ack_join_request_bootstrap. destruct (owned_request _ _ _) as [r|]; [|done].
  do 2 (destruct (negb _); [done|]). revert c. silent_method.
Qed.
End silent.
#[export] Hint Resolve silent_enqueue_care silent_enqueue_care_with_mark silent_enqueue_everyone_care silent_store_claim_attention silent_store_resolve_attention silent_ack_care_scoped silent_save_room silent_store_append_journal silent_upsert_note silent_replace_note silent_store_delete_note silent_insert_message silent_insert_message_with_room silent_insert_message_with_care silent_set_message_reaction silent_save_admin_session silent_delete_admin_session silent_save_principal_session silent_revoke_principal_session silent_insert_invite silent_store_revoke_invite silent_store_revoke_invites_for silent_add_member silent_revoke_member_cascade silent_suspend_member silent_resume_member silent_set_ban silent_clear_ban silent_store_add_smaster silent_store_revoke_smaster silent_create_room_with_operator silent_store_appoint_loca_operator silent_store_revoke_loca_operator silent_create_credential silent_revoke_credential silent_mint_admission_rights silent_store_create_join_request silent_approve_join_request_atomic silent_store_deny_join_request silent_store_claim_join_request_bootstrap silent_store_ack_join_request_bootstrap : silent.

(** ** What the writes of the work tables do *)

(** A computation that did [f] when it ended well, and nothing of the work when
    it did not. *)
Definition effect {E A} (f : Tables -> Tables) (m : Sql Tables E A) : Prop :=
  forall c, match m c with
            | (c', Ok _) => same_work (f (tables c)) (tables c')
            | (c', Err _) => same_work (tables c) (tables c')
            end.
(** The same, without a word on the end in an error. *)
Definition does {E A} (f : Tables -> Tables) (m : Sql Tables E A) : Prop :=
  forall c c' a, m c = (c', Ok a) -> same_work (f (tables c)) (tables c').

(** An update that reads nothing but the work. *)
Definition on_work (f : Tables -> Tables) : Prop :=
  forall t t', same_work t t' -> same_work (f t) (f t').

Definition put_task (k : Task) t : Tables :=
  with_t_tasks (<[(task_room k, task_id k) := k]> (t_tasks t)) t.
Definition put_goal (g : Goal) t : Tables :=
  with_t_goals (<[(goal_room g, goal_id g) := g]> (delete_where (displaced_by g) (t_goals t))) t.
Definition put_wait (w : WaitState) t : Tables :=
  with_t_waits (<[(wait_room w, wait_waiter w) := w]> (t_waits t)) t.
Definition drop_wait (room waiter : string) t : Tables :=
  with_t_waits (delete (room, waiter) (t_waits t)) t.

Lemma on_work_task k : on_work (put_task k).
Proof. intros t t' [Et Eg Ew Es Em Eo Eb]. constructor; try done; cbn; by rewrite Et. Qed.
Lemma on_work_goal g : on_work (put_goal g).
Proof. intros t t' [Et Eg Ew Es Em Eo Eb]. constructor; try done; cbn; by rewrite Eg. Qed.
Lemma on_work_wait w : on_work (put_wait w).
Proof. intros t t' [Et Eg Ew Es Em Eo Eb]. constructor; try done; cbn; by rewrite Ew. Qed.
Lemma on_work_drop room waiter : on_work (drop_wait room waiter).
Proof. intros t t' [Et Eg Ew Es Em Eo Eb]. constructor; try done; cbn; by rewrite Ew. Qed.
Lemma on_work_id : on_work id.
Proof. by intros t t'. Qed.

Lemma does_keeps {E A} (m : Sql Tables E A) : keeps same_work m -> does id m.
Proof. intros Hm c c' a Em. pose proof (Hm c) as Hc. by rewrite Em in Hc. Qed.

Lemma does_bind {E A B} f g (m : Sql Tables E A) (k : A -> Sql Tables E B) :
  on_work g -> does f m -> (forall a, does g (k a)) -> does (fun t => g (f t)) (bind m k).
Proof.
  intros Hg Hm Hk c c' b (c1 & a & E1 & E2)%bind_ok.
  etransitivity; [apply Hg, (Hm _ _ _ E1)|exact (Hk a _ _ _ E2)].
Qed.

Lemma effect_transaction {E A} (e : E) f (m : Sql Tables E A) :
  does f m -> effect f (transaction e m).
Proof.
  intros Hm c. destruct (transaction e m c) as [c' [a|e']] eqn:Et.
  - apply transaction_ok in Et as (c2 & Em & Et). cbn. rewrite Et. exact (Hm _ _ _ Em).
  - apply transaction_err in Et. cbn. by rewrite Et.
Qed.

Lemma effect_statement {E} (e : E) params f stmt :
  (forall t, exists n, stmt t = Some (f t, n)) -> effect f (unit_of (execute e params stmt)).
Proof.
  intros Hs c. unfold unit_of, bind. destruct (execute e params stmt c) as [c' [n|e']] eqn:Ex.
  - apply execute_ok in Ex as [Ex _]. destruct (Hs (tables c)) as [k Hk].
    rewrite Hk in Ex. injection Ex as Ex _. cbn. by rewrite Ex.
  - apply execute_err in Ex as [Ex _]. cbn. by rewrite Ex.
Qed.

Lemma effect_does {E A} f (m : Sql Tables E A) : effect f m -> does f m.
Proof. intros Hm c c' a Em. specialize (Hm c). by rewrite Em in Hm. Qed.

Lemma effect_write_task k : effect (put_task k) (write_task k).
Proof. apply effect_statement. intros t. by eexists. Qed.
Lemma effect_write_goal g : effect (put_goal g) (write_goal g).
Proof. apply effect_statement. intros t. by eexists. Qed.
Lemma effect_write_wait w : effect (put_wait w) (write_wait w).
Proof. apply effect_statement. intros t. by eexists. Qed.

Section effects.
Context `{Digest} `{WallClock} `{Unicode}.

Lemma frame_settle room key at_ : keeps same_work (settle room key at_).
Proof. unfold settle. frame_keeps. Qed.

Lemma effect_upsert_task k : effect (put_task k) (upsert_task k : Sql Tables db_error unit).
Proof. exact (effect_write_task k). Qed.
Lemma effect_upsert_goal g : effect (put_goal g) (upsert_goal g : Sql Tables db_error unit).
Proof. exact (effect_write_goal g). Qed.

Lemma effect_upsert_goal_with_care_reset g b :
  effect (put_goal g) (upsert_goal_with_care_reset g b : Sql Tables db_error unit).
Proof.
  apply effect_transaction, (does_bind (put_goal g) id).
  - apply on_work_id.
  - apply effect_does, effect_write_goal.
  - intros _. apply does_keeps. destruct b; [apply frame_settle|frame_keeps].
Qed.

Lemma effect_upsert_task_with_goal_progress k goal b :
  effect (fun t => match goal with Some g => put_goal g (put_task k t) | None => put_task k t end)
    (upsert_task_with_goal_progress k goal b : Sql Tables db_error unit).
Proof.
  apply effect_transaction.
  assert (keeps same_work (if b then settle (task_room k) (task_key k) (task_progress_at k)
    else ret tt)) as Hclear by (destruct b; [apply frame_settle|frame_keeps]).
  destruct goal as [g|].
  - apply (does_bind (put_task k) (put_goal g)); [apply on_work_goal|apply effect_does, effect_write_task|].
    intros _. apply (does_bind (put_goal g) id); [apply on_work_id|apply effect_does, effect_write_goal|].
    intros _. apply does_keeps, keeps_bind; [apply _|exact Hclear|]. intros _. apply frame_settle.
  - apply (does_bind (put_task k) id); [apply on_work_id|apply effect_does, effect_write_task|].
    intros _. apply does_keeps. frame_keeps.
Qed.

Lemma effect_replace_wait_with_care w at_ :
  effect (put_wait w) (replace_wait_with_care w at_ : Sql Tables db_error unit).
Proof.
  apply effect_transaction, (does_bind (put_wait w) id); [apply on_work_id|..].
  - apply effect_does, effect_write_wait.
  - intros _. apply does_keeps. frame_keeps.
Qed.

Lemma effect_store_delete_wait room waiter at_ :
  effect (drop_wait room waiter) (store_delete_wait room waiter at_ : Sql Tables db_error unit).
Proof.
  apply effect_transaction, (does_bind (drop_wait room waiter) id); [apply on_work_id|..].
  - intros c c' n [Ex _]%execute_ok. injection Ex as <- _. reflexivity.
  - intros _. apply does_keeps. frame_keeps.
Qed.

Lemma effect_enqueue_care_with_waits w room s :
  effect (put_wait w) (enqueue_care_with_waits [w] room s : Sql Tables db_error unit).
Proof.
  apply effect_transaction, (does_bind (put_wait w) id); [apply on_work_id|..].
  - apply (does_bind (put_wait w) id); [apply on_work_id|apply effect_does, effect_write_wait|].
    intros _. apply does_keeps. frame_keeps.
  - intros _. apply does_keeps. frame_keeps.
Qed.

Lemma effect_insert_message_with_wait_wake m state operation room waiter at_ w wake :
  effect (put_wait w)
    (insert_message_with_wait_wake m state operation room waiter at_ w wake
      : Sql Tables db_error unit).
Proof.
  apply effect_transaction.
  assert (forall f, on_work f -> forall (k : unit -> Sql Tables db_error unit) n,
    keeps same_work n -> does f (k tt) -> does f (bind n k)) as Hskip.
  { intros f Hf k n Hn Hk. apply (does_bind id f); [done|by apply does_keeps|by intros []]. }
  pose proof (on_work_wait w) as Hw.
  apply (Hskip _ Hw); [unfold require_unsealed_room; frame_keeps|].
  apply (Hskip _ Hw); [unfold write_room_opt; frame_keeps|].
  apply (Hskip _ Hw); [frame_keeps|]. apply (Hskip _ Hw); [frame_keeps|].
  apply (does_bind (put_wait w) id); [apply on_work_id|apply effect_does, effect_write_wait|].
  intros _. apply does_keeps. frame_keeps.
Qed.
End effects.

(** ** What the writes of the start leave alone *)

(** Nothing of the messages and the bans changed. *)
Record same_talk t t' : Prop := {
  tk_messages : t_messages t' = t_messages t;
  tk_bans : t_bans t' = t_bans t;
}.

#[export] Instance same_talk_refl : Reflexive same_talk.
Proof. by constructor. Qed.
#[export] Instance same_talk_trans : Transitive same_talk.
Proof. intros t1 t2 t3 [? ?] [? ?]. constructor; congruence. Qed.

(** A write that leaves the work, the messages and the bans. *)
Definition hushed {A} (f : Conn Tables -> Conn Tables * A) : Prop :=
  silent f /\ forall c, same_talk (tables c) (tables (f c).1).

Lemma hushed_keeps {E A} (m : Sql Tables E A) :
  keeps same_work m -> keeps same_talk m -> hushed m.
Proof. intros Hw Hm. split; [exact Hw|exact Hm]. Qed.

Section start.
Context `{Digest} `{WallClock}.

Lemma talk_insert_principal_credential {E} (e : E) role token name kind at_ label :
  keeps same_talk (insert_principal_credential e role token name kind at_ label).
Proof. unfold insert_principal_credential. cbv zeta. frame_keeps. Qed.
Lemma talk_write_room_state {E} (e : E) room mode settings :
  keeps same_talk (write_room_state e room mode settings).
Proof. unfold write_room_state. frame_keeps. Qed.
Lemma talk_pause_room_attentions room at_ : keeps same_talk (pause_room_attentions room at_).
Proof. unfold pause_room_attentions. frame_keeps. Qed.
#[local] Hint Resolve talk_insert_principal_credential talk_write_room_state
  talk_pause_room_attentions : frames.

Ltac hushed_method := apply hushed_keeps; frame_method.

Lemma hushed_ensure_master root name at_ : hushed (db_ensure_master_principal root name at_).
Proof. unfold db_ensure_master_principal. hushed_method. Qed.
Lemma hushed_appoint room target by_ at_ : hushed (db_appoint_loca_operator room target by_ at_).
Proof. unfold db_appoint_loca_operator. hushed_method. Qed.
Lemma hushed_save_room room mode settings : hushed (db_save_room room mode settings).
Proof. unfold db_save_room. hushed_method. Qed.
Lemma hushed_delete_admin_session token : hushed (db_delete_admin_session token).
Proof. unfold db_delete_admin_session. hushed_method. Qed.
Lemma hushed_add_member m : hushed (db_add_member m).
Proof. unfold db_add_member. hushed_method. Qed.
Lemma hushed_insert_invite inv : hushed (db_insert_invite inv).
Proof. unfold db_insert_invite. hushed_method. Qed.
Lemma hushed_revoke_invite token at_ : hushed (db_revoke_invite token at_).
Proof. unfold db_revoke_invite. hushed_method. Qed.

Lemma hushed_load_admin_sessions now : hushed (db_load_admin_sessions now).
Proof.
  assert (hushed (execute DbError [now] (fun t =>
      Some (with_t_admin_sessions
              (delete_where (fun _ a => (ad_expires_at a <=? now)%N) (t_admin_sessions t)) t, 1))))
    as [Hw Ht] by hushed_method.
  split; intros c; [specialize (Hw c)|specialize (Ht c)]; unfold db_load_admin_sessions;
    by destruct (execute _ _ _ c).
Qed.
End start.

(** ** The memory, the wiki and the files: quiet writes *)

#[local] Hint Unfold cancel_where update_batch update_wiki archive_page first_page insert_batch block_exhausted
  on_table : statements.

Ltac quiet :=
  repeat match goal with
  | |- Sql.keeps _ (transaction_if _) => apply keeps_transaction_if; [apply _|]
  | |- Sql.keeps _ (read _ _) => unfold read
  | |- Sql.keeps _ (require _ _) => unfold require
  | |- Sql.keeps _ (refuse_if _ _) => unfold refuse_if
  | |- Sql.keeps _ (leave _) => unfold leave
  | |- Sql.keeps _ (commit _) => unfold commit
  | _ => progress frame_keeps
  end.

Section quiet.
Context `{Unicode}.

(** ** The memory *)

Lemma quiet_memory room :
  (forall owner principal, silent (db_set_memory_owner room owner principal))
  /\ (forall actor text at_, silent (db_write_short_memory room actor text at_))
  /\ (forall actor text at_, silent (db_append_long_memory room actor text at_)).
Proof.
  unfold db_set_memory_owner, db_write_short_memory, db_append_long_memory, require_memory_owner, update_memory.
  split_and!; intros; apply silent_keeps; quiet.
Qed.

(** ** The wiki *)

Lemma quiet_reviews room :
  (forall at_, silent (db_schedule_wiki_review room at_)) /\ silent (db_cancel_wiki_review room)
  /\ (forall principal at_, silent (db_claim_wiki_review room principal at_))
  /\ (forall principal lease at_, silent (db_renew_wiki_review room principal lease at_)).
Proof.
  unfold db_schedule_wiki_review, db_cancel_wiki_review, db_claim_wiki_review, db_renew_wiki_review, lease_valid.
  split_and!; intros; apply silent_keeps; quiet.
Qed.

Lemma quiet_configuration room :
  (forall principal slug removal at_, silent (db_remove_wiki_page room principal slug removal at_))
  /\ (forall editor enabled interval, silent (db_configure_wiki room editor enabled interval)).
Proof.
  unfold db_remove_wiki_page, db_configure_wiki.
  split_and!; intros; apply silent_keeps; quiet.
Qed.

Lemma quiet_sources room through sources : Sql.keeps same_work (check_sources room through sources).
Proof. induction sources; cbn [check_sources]; unfold message_in; quiet; done. Qed.

Lemma quiet_pages room through existing seen pages :
  Sql.keeps same_work (check_pages room through existing seen pages).
Proof.
  revert seen. induction pages as [|page pages IH]; intros seen; cbn [check_pages]; quiet; auto using quiet_sources.
Qed.

Lemma quiet_publish_pages room principal reason next at_ pages :
  Sql.keeps same_work (publish_pages room principal reason next at_ pages).
Proof. induction pages; cbn [publish_pages]; quiet; done. Qed.

Lemma quiet_commit room principal update at_ lease human_edit :
  silent (db_commit_wiki_checked room principal update at_ lease human_edit).
Proof.
  apply silent_keeps. unfold db_commit_wiki_checked, publish, check_lease, lease_valid, message_in, settle_batches.
  quiet; auto using quiet_pages, quiet_publish_pages.
Qed.

Lemma quiet_edit room actor slug edit at_ : silent (db_edit_wiki_page room actor slug edit at_).
Proof.
  apply silent_keeps. unfold db_edit_wiki_page. apply keeps_bind; [apply _|apply keeps_query; apply _|].
  intros [s|e]; [apply quiet_commit|apply keeps_stop; apply _].
Qed.

Lemma quiet_contexts room principal :
  (forall runtime at_, silent (db_wiki_native_ready room principal runtime at_))
  /\ (forall selection at_, silent (db_select_wiki_context room principal selection at_))
  /\ (forall ack at_, silent (db_accept_wiki_context room principal ack at_)).
Proof.
  unfold db_wiki_native_ready, db_select_wiki_context, db_accept_wiki_context, insert_context_receipt.
  split_and!; intros; apply silent_keeps; quiet.
Qed.
End quiet.

(** ** The files *)

Section files.
Context `{Digest} `{BlobFiles unit}.

Lemma quiet_record room uploader name mime sha size now :
  silent (record_upload room uploader name mime sha size now).
Proof. apply silent_keeps. unfold record_upload. quiet. Qed.

Lemma quiet_upload room uploader name mime bytes now room_max building_max :
  silent (store_put_pending_attachment room uploader name mime bytes now room_max building_max).
Proof.
  intros c. cbn [store_put_pending_attachment db_attachment_rows]. unfold db_put_pending_attachment. cbn.
  destruct (check_quota _ _ _ _ _ _); [|done]. destruct (file_put bytes tt) as [d []]; [|done].
  pose proof (quiet_record room uploader name mime (sha_hex bytes) (N.of_nat (String.length bytes)) now c).
  by destruct (record_upload _ _ _ _ _ _ _ c) as [c' []].
Qed.

Lemma quiet_sweep now ttl_ms : silent (store_sweep_attachments now ttl_ms).
Proof.
  intros c. cbn [store_sweep_attachments db_attachment_rows]. unfold db_sweep_attachments. cbn [st_blobs st_conn].
  assert (silent (expire_pending (i64_saturating_sub (as_i64 now) (as_i64 ttl_ms)))) as He
    by (apply silent_keeps; unfold expire_pending; quiet).
  specialize (He c). destruct (expire_pending _ c) as [c1 r]. cbn [fst] in He.
  assert (forall l c d n, same_work (tables c) (tables (foldl sweep_one (c, d, n) l).1.1)) as Hf.
  { induction l as [|sha l IH]; intros c2 d n; [done|]. cbn [foldl sweep_one].
    destruct (file_delete sha d) as [d2 []]; [|apply IH].
    assert (silent (delete_blob_row sha)) as Hd by (apply silent_keeps; unfold delete_blob_row; quiet).
    specialize (Hd c2). destruct (delete_blob_row sha c2) as [c3 r3]. cbn [fst] in Hd.
    etransitivity; [exact Hd|apply IH]. }
  specialize (Hf (orphans (tables c1)) c1 tt 0).
  destruct (foldl sweep_one (c1, tt, 0) (orphans (tables c1))) as [[c2 d2] n2]. cbn [fst st_conn] in *.
  by etransitivity.
Qed.
End files.
