(* ===== verification/DurableFacts.v ===== *)
(** * What is on disk is what is in memory

    The hub on the tables of the store: whatever operations run and whichever
    writes fail, the tasks, goals and waits in memory are those on disk, and the
    rooms the hub calls sealed are those the disk calls sealed. *)

From Stdlib Require Import Ascii.
From S2P Require Import Prelude Text Net Protocol StoreApi Sql Tables Hub Ledger Work WorkFacts.
From S2P Require Import Waits WaitFacts Seats Attention Chat ChatFacts Access Membership Joins.
From S2P Require Import Rooms AccessFacts Scheduler RoomFacts SchedulerFacts Identity Operators.
From S2P Require Import Admission StoreAttention StoreWork StoreMessages Server.
From S2P Require Import ServerFacts Building StoreFacts.

Open Scope loca_scope.

Section durable.
Context `{Unicode} `{Csprng} `{Digest} `{WallClock}.
Implicit Types h : Hub (Conn Tables).
Implicit Types t : Tables.

Definition disk h : Tables := tables (h_store h).

(** ** Operations that leave the work on disk alone *)

Definition calls h h' : Prop := same_work (disk h) (disk h').

#[local] Instance calls_refl : Reflexive calls.
Proof. intros h. unfold calls. reflexivity. Qed.
#[local] Instance calls_trans : Transitive calls.
Proof. intros h1 h2 h3. unfold calls. by etransitivity. Qed.

Lemma calls_same h h' : h_store h' = h_store h -> calls h h'.
Proof. unfold calls, disk. by intros ->. Qed.

Lemma calls_run {A} (f : Conn Tables -> Conn Tables * A) h :
  silent f -> calls h (with_h_store (f (h_store h)).1 h).
Proof. intros Hf. apply Hf. Qed.

Lemma silent_run {A} (f : Conn Tables -> Conn Tables * A) t c :
  silent f -> same_work t (tables c) -> same_work t (tables (f c).1).
Proof. intros Hf Ht. etransitivity; [exact Ht|apply Hf]. Qed.

(** The store of a hub whose other fields were changed. *)
Ltac store_of :=
  cbn [with_h_admin_pairing with_h_care_deliveries with_h_clock with_h_condition_generation
    with_h_deleted with_h_entropy with_h_invites with_h_join_create_times with_h_lobby_online
    with_h_lobby_tx with_h_members with_h_next_id with_h_rooms with_h_runtime_health
    with_h_sessions with_h_smasters with_h_store put_room room_mut fetch_next_id secure_token
    new_invite_token fst snd h_store].
Ltac silent_end :=
  solve [unfold calls, disk; store_of;
    repeat first [reflexivity | assumption | apply silent_run; [solve [auto with silent nocore]|]]].
Ltac silently :=
  repeat (cbn beta iota zeta delta [secure_token fetch_next_id new_invite_token next_condition_generation];
    first
    [ silent_end
    | lazymatch goal with
      | |- context [run_store ?f ?h] =>
          let E := fresh "E" in
          destruct (run_store f h) as [? ?] eqn:E; apply run_store_state in E as [-> _]
      end
    | match goal with
      | |- context [match ?x with _ => _ end] =>
          lazymatch x with context [match _ with _ => _ end] => fail | _ => destruct x end
      end ]).

Lemma set_reaction_calls room id p who emoji active h : calls h (set_reaction room id p who emoji active h).1.
Proof. unfold set_reaction. silently. Qed.
Lemma create_attention_calls room req h : calls h (create_attention room req h).1.
Proof. unfold create_attention. silently. Qed.
Lemma claim_attention_calls room id actor h : calls h (claim_attention room id actor h).1.
Proof. unfold claim_attention. silently. Qed.
Lemma resolve_attention_calls room id actor pid op h : calls h (resolve_attention room id actor pid op h).1.
Proof. unfold resolve_attention. silently. Qed.
Lemma set_lead_calls room lead by_ h : calls h (set_lead room lead by_ h).1.
Proof. unfold set_lead. silently. Qed.
Lemma set_mode_calls room mode h : calls h (set_mode room mode h).1.
Proof. unfold set_mode. silently. Qed.
Lemma set_settings_calls room req h : calls h (set_settings room req h).1.
Proof. unfold set_settings. silently. Qed.
Lemma append_journal_calls room by_ ty text h : calls h (append_journal room by_ ty text h).1.
Proof. unfold append_journal. silently. Qed.
Lemma create_note_calls room req h : calls h (create_note room req h).1.
Proof. unfold create_note. silently. Qed.
Lemma update_note_calls room key req op h : calls h (update_note room key req op h).1.
Proof. unfold update_note. silently. Qed.
Lemma delete_note_calls room key h : calls h (delete_note room key h).1.
Proof. unfold delete_note. silently. Qed.
Lemma create_loca_calls room actor h : calls h (create_loca room actor h).1.
Proof. unfold create_loca. silently. Qed.
Lemma appoint_loca_operator_calls room target actor h : calls h (appoint_loca_operator room target actor h).1.
Proof. unfold appoint_loca_operator. silently. Qed.
Lemma revoke_loca_operator_calls room actor h : calls h (revoke_loca_operator room actor h).1.
Proof. unfold revoke_loca_operator. silently. Qed.
Lemma create_session_scoped_calls req davet grant h : calls h (create_session_scoped req davet grant h).1.
Proof. unfold create_session_scoped. silently. Qed.
Lemma session_identity_calls token h : calls h (session_identity token h).1.
Proof. unfold session_identity. silently. Qed.
Lemma revoke_session_calls token h : calls h (revoke_session token h).1.
Proof. unfold revoke_session. silently. Qed.
Lemma admit_member_calls name kind by_ h : calls h (admit_member name kind by_ h).1.
Proof. unfold admit_member. silently. Qed.
Lemma invite_member_to_room_calls member room by_ h : calls h (invite_member_to_room member room by_ h).1.
Proof. unfold invite_member_to_room, add_invite. silently. Qed.
Lemma add_smaster_calls name h : calls h (add_smaster name h).1.
Proof. unfold add_smaster. silently. Qed.
Lemma revoke_smaster_calls token h : calls h (revoke_smaster token h).1.
Proof. unfold revoke_smaster. silently. Qed.
Lemma rotate_admin_pairing_for_calls ttl h : calls h (rotate_admin_pairing_for ttl h).1.
Proof. unfold rotate_admin_pairing_for. silently. Qed.
Lemma consume_admin_pairing_calls candidate h : calls h (consume_admin_pairing candidate h).1.
Proof. unfold consume_admin_pairing. silently. Qed.
Lemma create_profile_credential_calls pid label h : calls h (create_profile_credential pid label h).1.
Proof. unfold create_profile_credential. silently. Qed.
Lemma revoke_profile_credential_calls pid cid h : calls h (revoke_profile_credential pid cid h).1.
Proof. unfold revoke_profile_credential. silently. Qed.
Lemma deny_join_request_calls id by_ h : calls h (deny_join_request id by_ h).1.
Proof. unfold deny_join_request. silently. Qed.
Lemma claim_join_request_bootstrap_calls id secret h : calls h (claim_join_request_bootstrap id secret h).1.
Proof. unfold claim_join_request_bootstrap. silently. Qed.
Lemma ack_join_request_bootstrap_calls id secret h : calls h (ack_join_request_bootstrap id secret h).1.
Proof. unfold ack_join_request_bootstrap. silently. Qed.
Lemma approve_join_request_calls id by_ h : calls h (approve_join_request id by_ h).1.
Proof. unfold approve_join_request. silently. Qed.
Lemma subscribe_calls room h : calls h (subscribe room h).1.
Proof. unfold subscribe. silently. Qed.
Lemma join_room_calls room i name kind session h : calls h (join_room room i name kind session h).1.
Proof. unfold join_room. silently. Qed.
Lemma report_runtime_health_calls name update h : calls h (report_runtime_health name update h).1.
Proof. unfold report_runtime_health. silently. Qed.
Lemma join_request_rate_ok_calls ip h : calls h (join_request_rate_ok ip h).1.
Proof. unfold join_request_rate_ok. silently. Qed.
Lemma leave_calls room i h : calls h (leave room i h).
Proof. unfold leave. silently. Qed.
Lemma typing_calls room name on h : calls h (typing room name on h).
Proof. unfold typing. silently. Qed.
Lemma control_calls room cmd h : calls h (control room cmd h).
Proof. unfold control. silently. Qed.
Lemma announce_calls name kind h : calls h (announce_join_request name kind h).
Proof. unfold announce_join_request. silently. Qed.
Lemma expire_room_live_calls now h n : calls h (expire_room_live now h n).
Proof. unfold expire_room_live. silently. Qed.

(** A loop of calls. *)
Lemma calls_foldl {A} (f : Hub (Conn Tables) -> A -> Hub (Conn Tables)) l h :
  (forall h x, calls h (f h x)) -> calls h (foldl f h l).
Proof.
  intros Hf. revert h. induction l as [|x l IH]; intros h; [reflexivity|]. cbn [foldl].
  etransitivity; [apply Hf|apply IH].
Qed.

Lemma expire_live_calls h : calls h (expire_live h).
Proof. apply calls_foldl. intros. apply expire_room_live_calls. Qed.

Lemma retire_davets_calls l h : calls h (foldl retire_davet h l).
Proof.
  apply calls_foldl. intros h1 inv. unfold retire_davet, close_connections, revoke_sessions_for_davet.
  silently.
Qed.
Lemma close_all_calls l h :
  calls h (foldl (fun h inv => close_connections (inv_room inv) (inv_name inv) h) h l).
Proof. apply calls_foldl. intros h1 inv. unfold close_connections. silently. Qed.

Lemma revoke_invites_for_calls room name h : calls h (revoke_invites_for room name h).1.
Proof.
  unfold revoke_invites_for. destruct (davets_where _ h) as [|i l]; [reflexivity|].
  stored; cbn [fst]; [|silently]. etransitivity; [|apply (retire_davets_calls (i :: l))].
  unfold drop_davets. silently.
Qed.
Lemma revoke_invite_calls token h : calls h (revoke_invite token h).1.
Proof.
  unfold revoke_invite. destruct (h_invites h !! token) as [inv|]; [|reflexivity].
  stored; cbn [fst]; [|silently]. etransitivity; [|apply (retire_davets_calls [inv])]. silently.
Qed.
Lemma revoke_member_calls token h : calls h (revoke_member token h).1.
Proof.
  unfold revoke_member. case_bool_decide; [reflexivity|]. stored; cbn [fst]; [|silently].
  set (h1 := with_h_store _ h). set (davets := davets_where _ h1).
  transitivity (foldl retire_davet (drop_davets davets h1) davets); [|by apply calls_same].
  etransitivity; [|apply retire_davets_calls]. subst h1. unfold drop_davets. silently.
Qed.
Lemma set_member_suspended_calls reference b reason h :
  calls h (set_member_suspended reference b reason h).1.
Proof.
  unfold set_member_suspended. destruct (List.find _ _) as [token|]; [|reflexivity].
  destruct (negb b); [silently|]. stored; cbn [fst]; [|silently].
  destruct t; cbn [fst]; [|silently].
  set (h1 := with_h_store _ h). set (davets := davets_where _ h1).
  transitivity (foldl (fun h inv => close_connections (inv_room inv) (inv_name inv) h)
    (drop_davets davets h1) davets); [|by apply calls_same].
  etransitivity; [|apply close_all_calls]. subst h1. unfold drop_davets. silently.
Qed.
Lemma moderate_calls room action name h : calls h (moderate room action name h).1.
Proof.
  unfold moderate. destruct (is_deleted h room); [reflexivity|].
  assert (calls h (moderate_store room action name h).1) as Hm.
  { destruct action; cbn [moderate_store]; try apply revoke_invites_for_calls; try solve [silently].
    destruct (run_store _ h) as [h1 w] eqn:E. apply run_store_state in E as [-> _].
    destruct w; [|silently]. etransitivity; [|apply revoke_invites_for_calls]. silently. }
  destruct (moderate_store room action name h) as [h1 [?|]]; [|exact Hm].
  etransitivity; [exact Hm|]. by apply calls_same.
Qed.
Lemma ack_care_calls sid owner pid h : calls h (ack_care sid owner pid h).1.
Proof.
  unfold ack_care.
  destruct (match h_care_deliveries h !! sid with Some _ => _ | None => _ end); [|reflexivity].
  destruct (negb _); [reflexivity|]. stored; cbn [fst]; [|silently].
  destruct (_ || _); [|silently]. cbn [fst]. unfold mark_delivered. silently.
Qed.

Lemma secure_tokens_calls prefix bytes count h : calls h (secure_tokens prefix bytes count h).1.
Proof.
  revert h. induction count as [|count IH]; intros h; [reflexivity|]. cbn [secure_tokens].
  unfold secure_token. cbn beta iota zeta.
  destruct (secure_tokens _ _ _ _) as [h1 l] eqn:E. cbn [fst].
  specialize (IH (with_h_entropy (h_entropy h + 1) h)). by rewrite E in IH.
Qed.
Lemma mint_stock_calls count ttl h : calls h (mint_admission_stock count ttl h).1.
Proof.
  unfold mint_admission_stock. pose proof (secure_tokens_calls "adm_" 24 count h) as Hc.
  destruct (secure_tokens _ _ _ _) as [h1 l]. etransitivity; [exact Hc|]. silently.
Qed.
Lemma create_join_calls name kind ip h : calls h (create_join_request name kind ip h).1.
Proof.
  unfold create_join_request. pose proof (join_request_rate_ok_calls ip h) as Hc.
  destruct (join_request_rate_ok ip h) as [h1 ok]. etransitivity; [exact Hc|].
  destruct (negb ok); [reflexivity|]. destruct (_ || _); [reflexivity|].
  destruct (_ <=? _)%nat; [reflexivity|]. unfold secure_token. cbn beta iota zeta.
  destruct (run_store _ _) as [h2 w] eqn:E. apply run_store_state in E as [-> _]. cbn [fst].
  etransitivity; [|apply announce_calls]. silently.
Qed.
(** ** Operations that leave the work in memory alone *)

(** The declared work of a room. *)
Definition same_maps (r r' : Room) : Prop :=
  r_tasks r' = r_tasks r /\ r_goals r' = r_goals r /\ r_waits r' = r_waits r.

Record undisturbed h h' : Prop := {
  ud_rooms : forall n, same_maps (entry_room n h) (entry_room n h');
  ud_deleted : h_deleted h' = h_deleted h;
}.

#[local] Instance undisturbed_refl : Reflexive undisturbed.
Proof. by constructor. Qed.
#[local] Instance undisturbed_trans : Transitive undisturbed.
Proof.
  intros h1 h2 h3 [R1 D1] [R2 D2]. constructor; [|congruence]. intros n.
  destruct (R1 n) as (? & ? & ?), (R2 n) as (? & ? & ?). unfold same_maps. split_and!; congruence.
Qed.

(** A room that is not in memory has no work. *)
Lemma entry_room_None n h :
  h_rooms h !! n = None -> entry_room n h = room_with Free (h_default_settings h) 1.
Proof. unfold entry_room. by intros ->. Qed.

Lemma undisturbed_rooms h h' :
  h_deleted h' = h_deleted h -> h_rooms h' = h_rooms h -> undisturbed h h'.
Proof.
  intros Hd Hr. constructor; [|done]. intros n. unfold entry_room. rewrite Hr.
  by destruct (h_rooms h !! n).
Qed.

Lemma undisturbed_put n r h :
  same_maps (entry_room n h) r -> undisturbed h (put_room n r h).
Proof.
  intros Hr. constructor; [|done]. intros m. unfold entry_room at 2. cbn.
  destruct (decide (n = m)) as [<-|Hne]; [by rewrite lookup_insert_eq|].
  by rewrite lookup_insert_ne.
Qed.

Lemma undisturbed_wire h h' :
  h_deleted h' = h_deleted h -> rooms_wire h h' -> undisturbed h h'.
Proof.
  intros Hd Hw. constructor; [|done]. intros n. specialize (Hw n). unfold entry_room.
  destruct (h_rooms h !! n), (h_rooms h' !! n); try done. cbn in *.
  by destruct Hw as (? & ? & ? & ->).
Qed.

Lemma undisturbed_calm h h' : calm h h' -> undisturbed h h'.
Proof. intros [Hr Ho]. apply undisturbed_rooms; [apply Ho|done]. Qed.

Lemma undisturbed_one p room h h' :
  p <> PWork -> p <> PWaits -> one_room p room h h' -> undisturbed h h'.
Proof.
  intros Hw1 Hw2 [Ho Hother Hroom]. constructor; [|apply Ho]. intros n.
  destruct (decide (n = room)) as [->|Hne].
  - destruct Hroom as [E|(r' & E & [?|[? ?]] & [?|?] & _)]; try done.
    + unfold entry_room. rewrite E. by destruct (h_rooms h !! room).
    + by rewrite (entry_room_Some _ _ _ E).
  - unfold entry_room. rewrite Hother by done. by destruct (h_rooms h !! n).
Qed.

(** ** The claim *)

(** The rows of a room are the work of [r]. *)
Record matches t (n : string) (r : Room) : Prop := {
  mt_tasks : forall id, t_tasks t !! (n, id) = r_tasks r !! id;
  mt_goals : forall id, t_goals t !! (n, id) = r_goals r !! id;
  mt_waits : forall who, t_waits t !! (n, who) = r_waits r !! who;
}.

(** Rows are filed under their own key. *)
Record keyed t : Prop := {
  ky_tasks : forall n id k, t_tasks t !! (n, id) = Some k -> task_room k = n /\ task_id k = id;
  ky_goals : forall n id g, t_goals t !! (n, id) = Some g -> goal_room g = n /\ goal_id g = id;
  ky_waits : forall n who w,
    t_waits t !! (n, who) = Some w -> wait_room w = n /\ wait_waiter w = who;
}.

(** So are the tasks, goals and waits of a room in memory. *)
Record filed (n : string) (r : Room) : Prop := {
  fl_tasks : forall id k, r_tasks r !! id = Some k -> task_room k = n /\ task_id k = id;
  fl_goals : forall id g, r_goals r !! id = Some g -> goal_room g = n /\ goal_id g = id;
  fl_waits : forall who w,
    r_waits r !! who = Some w -> wait_room w = n /\ wait_waiter w = who;
}.

(** The messages [M] among them, no operation answered twice, and every delivery
    addressed as its envelope says. *)
Record saved (M : gmap N MessageRow) h : Prop := {
  sv_keyed : keyed (disk h);
  sv_filed : forall n, filed n (entry_room n h);
  sv_rooms : forall n, n ∉ h_deleted h -> matches (disk h) n (entry_room n h);
  sv_sealed : forall n, sealed_row (disk h) n = true <-> n ∈ h_deleted h;
  sv_messages : M ⊆ t_messages (disk h);
  sv_operations : one_per_operation (disk h);
  sv_outbox : outbox_ok (disk h);
}.

Lemma keyed_same t t' : same_work t t' -> keyed t -> keyed t'.
Proof. intros [Et Eg Ew _ _ _ _] []. by constructor; rewrite ?Et, ?Eg, ?Ew. Qed.

Lemma matches_same t t' n r : same_work t t' -> matches t n r -> matches t' n r.
Proof. intros [Et Eg Ew _ _ _ _] []. by constructor; rewrite ?Et, ?Eg, ?Ew. Qed.

Lemma matches_maps t n r r' : same_maps r r' -> matches t n r -> matches t n r'.
Proof. intros (Et & Eg & Ew) []. by constructor; rewrite ?Et, ?Eg, ?Ew. Qed.

Lemma filed_maps n r r' : same_maps r r' -> filed n r -> filed n r'.
Proof. intros (Et & Eg & Ew) []. by constructor; rewrite ?Et, ?Eg, ?Ew. Qed.

Lemma saved_frame M h h' : calls h h' -> undisturbed h h' -> saved M h -> saved M h'.
Proof.
  intros Hc [Hr Hd] [Hk Hf Hm Hs Hg Ho Hb]. constructor.
  - by eapply keyed_same.
  - intros n. eapply filed_maps; [apply Hr|apply Hf].
  - intros n. rewrite Hd. intros Hn. eapply matches_same; [exact Hc|].
    eapply matches_maps; [apply Hr|]. by apply Hm.
  - intros n. rewrite Hd, (sw_sealed _ _ Hc n). apply Hs.
  - etrans; [exact Hg|apply Hc].
  - by apply Hc.
  - by apply Hc.
Qed.
(** ** The operations that change no work *)

Lemma retire_davets_undisturbed l h : undisturbed h (foldl retire_davet h l).
Proof.
  apply undisturbed_wire; [apply retire_davets_outer|apply retire_davets_frame].
Qed.
Lemma drop_davets_undisturbed l h : undisturbed h (drop_davets l h).
Proof. by apply undisturbed_rooms; [apply drop_davets_outer|]. Qed.
Lemma close_all_undisturbed l h :
  undisturbed h (foldl (fun h inv => close_connections (inv_room inv) (inv_name inv) h) h l).
Proof.
  revert h. induction l as [|inv l IH]; intros h; [done|]. cbn [foldl].
  etransitivity; [|apply IH].
  destruct (close_connections_frame (inv_room inv) (inv_name inv) h) as (Hw & _).
  apply undisturbed_wire, Hw. unfold close_connections. by destruct (h_rooms h !! _).
Qed.

Lemma stored_undisturbed s h : undisturbed h (with_h_store s h).
Proof. by apply undisturbed_rooms. Qed.

Lemma revoke_invites_for_undisturbed room name h :
  undisturbed h (revoke_invites_for room name h).1.
Proof.
  unfold revoke_invites_for. destruct (davets_where _ h) as [|i l]; [done|].
  stored; cbn [fst]; [|apply stored_undisturbed].
  etransitivity; [|apply (retire_davets_undisturbed (i :: l))].
  etransitivity; [|apply drop_davets_undisturbed]. apply stored_undisturbed.
Qed.
Lemma revoke_invite_undisturbed token h : undisturbed h (revoke_invite token h).1.
Proof.
  unfold revoke_invite. destruct (h_invites h !! token) as [inv|]; [|done].
  stored; cbn [fst]; [|apply stored_undisturbed].
  etransitivity; [|apply (retire_davets_undisturbed [inv])]. by apply undisturbed_rooms.
Qed.
Lemma revoke_member_undisturbed token h : undisturbed h (revoke_member token h).1.
Proof.
  unfold revoke_member. case_bool_decide; [done|]. stored; cbn [fst]; [|apply stored_undisturbed].
  set (h1 := with_h_store _ h). set (davets := davets_where _ h1).
  transitivity (foldl retire_davet (drop_davets davets h1) davets);
    [|by apply undisturbed_rooms].
  etransitivity; [|apply retire_davets_undisturbed].
  etransitivity; [|apply drop_davets_undisturbed]. apply stored_undisturbed.
Qed.
Lemma set_member_suspended_undisturbed reference b reason h :
  undisturbed h (set_member_suspended reference b reason h).1.
Proof.
  unfold set_member_suspended. destruct (List.find _ _) as [token|]; [|done].
  destruct (negb b).
  { destruct (run_store _ _) as [h1 w] eqn:E. apply run_store_state in E as [-> _].
    apply stored_undisturbed. }
  stored; cbn [fst]; [|apply stored_undisturbed]. destruct t; cbn [fst]; [|apply stored_undisturbed].
  set (h1 := with_h_store _ h). set (davets := davets_where _ h1).
  transitivity (foldl (fun h inv => close_connections (inv_room inv) (inv_name inv) h)
    (drop_davets davets h1) davets); [|by apply undisturbed_rooms].
  etransitivity; [|apply close_all_undisturbed].
  etransitivity; [|apply drop_davets_undisturbed]. apply stored_undisturbed.
Qed.
Lemma moderate_undisturbed room action name h : undisturbed h (moderate room action name h).1.
Proof.
  unfold moderate. destruct (is_deleted h room); [done|].
  assert (undisturbed h (moderate_store room action name h).1) as Hm.
  { destruct action; cbn [moderate_store]; try apply revoke_invites_for_undisturbed;
      try (stored; apply stored_undisturbed).
    stored; [|apply stored_undisturbed].
    etransitivity; [|apply revoke_invites_for_undisturbed]. apply stored_undisturbed. }
  destruct (moderate_store room action name h) as [h1 [?|]]; [|exact Hm]. cbn [fst] in *.
  etransitivity; [exact Hm|]. rewrite entry_room_mut. unfold room_mut. rewrite put_room_put_room.
  apply undisturbed_put.
  destruct (moderate_room_same action name (entry_room room h1)) as [([?|[? ?]] & [?|?] & _) _];
    done.
Qed.
Lemma create_loca_undisturbed room actor h : undisturbed h (create_loca room actor h).1.
Proof.
  unfold create_loca. destruct (negb _); [done|]. destruct (is_deleted h room); [done|].
  unfold room_exists. destruct (h_rooms h !! room) as [r|] eqn:Hr; [done|].
  assert (forall s, undisturbed h
      (put_room room (room_with Free (h_default_settings h) 1) (with_h_store s h))) as Hput.
  { intros s. etransitivity; [apply (stored_undisturbed s)|]. apply undisturbed_put.
    unfold entry_room. cbn. by rewrite Hr. }
  destruct (_ && _); [destruct (ra_principal_id actor); [|done]|];
    stored; cbn [fst]; first [apply stored_undisturbed|apply Hput].
Qed.
Lemma ack_care_undisturbed sid owner pid h : undisturbed h (ack_care sid owner pid h).1.
Proof.
  unfold ack_care.
  destruct (match h_care_deliveries h !! sid with Some _ => _ | None => _ end); [|done].
  destruct (negb _); [done|]. stored; cbn [fst]; [|apply stored_undisturbed].
  destruct (_ || _); [|apply stored_undisturbed]. cbn [fst]. unfold mark_delivered.
  destruct (find_attention _ _) as [[room a]|]; [|by apply undisturbed_rooms].
  etransitivity; [|apply undisturbed_put]; [by apply undisturbed_rooms|done].
Qed.
Lemma expire_live_undisturbed h : undisturbed h (expire_live h).
Proof.
  unfold expire_live. generalize (h_clock h). intros now. generalize (keys (h_rooms h)). intros l.
  revert h. induction l as [|n l IH]; intros h; [done|]. cbn [foldl]. etransitivity; [|apply IH].
  by eapply (undisturbed_one PConf), expire_room_live_one.
Qed.
Lemma create_join_undisturbed name kind ip h : undisturbed h (create_join_request name kind ip h).1.
Proof.
  unfold create_join_request. pose proof (join_rate_calm ip h) as Hc.
  destruct (join_request_rate_ok ip h) as [h1 ok]. apply undisturbed_calm in Hc. cbn [fst] in Hc.
  destruct (negb ok); [done|]. destruct (_ || _); [done|]. destruct (_ <=? _)%nat; [done|].
  unfold secure_token. cbn beta iota zeta.
  destruct (run_store _ _) as [h2 w] eqn:E. apply run_store_state in E as [-> _]. cbn [fst].
  etransitivity; [exact Hc|]. etransitivity; [|eapply (undisturbed_one PNone), announce_join_request_one; done].
  by apply undisturbed_rooms.
Qed.
Lemma approve_join_undisturbed id by_ h : undisturbed h (approve_join_request id by_ h).1.
Proof.
  unfold approve_join_request, new_invite_token, secure_token. cbn beta iota zeta.
  destruct (run_store _ _) as [h2 w] eqn:E. apply run_store_state in E as [-> _].
  destruct w as [m| | | |]; by apply undisturbed_rooms.
Qed.
Lemma admit_member_undisturbed name kind by_ h : undisturbed h (admit_member name kind by_ h).1.
Proof.
  unfold admit_member. destruct (member_by_name _ _); [done|].
  unfold new_invite_token, secure_token. cbn beta iota zeta. stored; by apply undisturbed_rooms.
Qed.
Lemma invite_undisturbed member room by_ h : undisturbed h (invite_member_to_room member room by_ h).1.
Proof.
  unfold invite_member_to_room. destruct (is_deleted h room); [done|].
  destruct (negb _ && _); [done|]. destruct (member_of h _); [|done].
  destruct (_ && _); [done|]. destruct (has_active_invite _ _ _); [done|].
  destruct (_ <=? _)%nat; [done|]. unfold add_invite, new_invite_token, secure_token.
  cbn beta iota zeta. destruct (_ && _); [by apply undisturbed_rooms|].
  cbn. destruct (is_deleted _ _); [by apply undisturbed_rooms|].
  stored; by apply undisturbed_rooms.
Qed.
End durable.

(** * The declared work *)

(** Every operation of the server keeps the tasks, goals, waits and seals of the
    disk and of the memory together. *)

Section durable.
Context `{Unicode} `{Csprng} `{Digest} `{WallClock}.
Implicit Types h : Hub (Conn Tables).
Implicit Types t : Tables.
Context (M : gmap N MessageRow).
#[local] Abbreviation saved := (saved M).

#[local] Existing Instances calls_refl calls_trans undisturbed_refl undisturbed_trans.

(** ** Updates of the rows of one room *)

Record local_to (room : string) (f : Tables -> Tables) : Prop := {
  lc_matches : forall t n r, n <> room -> matches t n r -> matches (f t) n r;
  lc_keyed : forall t, keyed t -> keyed (f t);
  lc_sealed : forall t n, sealed_row (f t) n = sealed_row t n;
  lc_messages : forall t, t_messages (f t) = t_messages t;
  lc_outbox : forall t, t_outbox (f t) = t_outbox t;
}.

Lemma local_task k : local_to (task_room k) (put_task k).
Proof.
  constructor; [intros t n r Hn []|intros t []|done..]; constructor; try done; cbn.
  - intros id. rewrite lookup_insert_ne; [done|congruence].
  - intros n id k'. rewrite lookup_insert_Some. intros [[[= <- <-] <-]|[_ ?]]; eauto.
Qed.

Lemma local_wait w : local_to (wait_room w) (put_wait w).
Proof.
  constructor; [intros t n r Hn []|intros t []|done..]; constructor; try done; cbn.
  - intros id. rewrite lookup_insert_ne; [done|congruence].
  - intros n who w'. rewrite lookup_insert_Some. intros [[[= <- <-] <-]|[_ ?]]; eauto.
Qed.

Lemma local_drop room waiter : local_to room (drop_wait room waiter).
Proof.
  constructor; [intros t n r Hn []|intros t []|done..]; constructor; try done; cbn.
  - intros id. rewrite lookup_delete_ne; [done|congruence].
  - intros n who w' [_ ?]%lookup_delete_Some. eauto.
Qed.

Lemma displaced_other g n id g' : n <> goal_room g -> displaced_by g (n, id) g' = false.
Proof.
  intros Hn. unfold displaced_by. rewrite (bool_decide_eq_false_2 ((n, id) = _)) by congruence.
  cbn. rewrite (bool_decide_eq_false_2 (n = _)) by done. by rewrite andb_false_r.
Qed.

Lemma local_goal g : local_to (goal_room g) (put_goal g).
Proof.
  constructor; [intros t n r Hn [Mt Mg Mw]|intros t []|done..]; constructor; try done; cbn.
  - intros id. rewrite lookup_insert_ne by congruence. unfold delete_where.
    rewrite <- (Mg id). apply option_eq. intros g'. rewrite map_lookup_filter_Some. cbn.
    rewrite displaced_other by done. tauto.
  - intros n id g'. rewrite lookup_insert_Some.
    intros [[[= <- <-] <-]|[_ [? _]%map_lookup_filter_Some]]; eauto.
Qed.

Lemma matches_task t r r' k :
  r_tasks r' = <[task_id k := k]> (r_tasks r) -> r_goals r' = r_goals r -> r_waits r' = r_waits r ->
  matches t (task_room k) r -> matches (put_task k t) (task_room k) r'.
Proof.
  intros Et Eg Ew []. constructor; cbn; rewrite ?Et, ?Eg, ?Ew; try done.
  intros id. destruct (decide (id = task_id k)) as [->|Hne]; [by rewrite !lookup_insert_eq|].
  rewrite !lookup_insert_ne by congruence. done.
Qed.

Lemma matches_wait t r r' w :
  r_waits r' = <[wait_waiter w := w]> (r_waits r) -> r_goals r' = r_goals r ->
  r_tasks r' = r_tasks r ->
  matches t (wait_room w) r -> matches (put_wait w t) (wait_room w) r'.
Proof.
  intros Ew Eg Et []. constructor; cbn; rewrite ?Et, ?Eg, ?Ew; try done.
  intros who. destruct (decide (who = wait_waiter w)) as [->|Hne]; [by rewrite !lookup_insert_eq|].
  rewrite !lookup_insert_ne by congruence. done.
Qed.

Lemma matches_drop t room r r' waiter :
  r_waits r' = delete waiter (r_waits r) -> r_goals r' = r_goals r -> r_tasks r' = r_tasks r ->
  matches t room r -> matches (drop_wait room waiter t) room r'.
Proof.
  intros Ew Eg Et []. constructor; cbn; rewrite ?Et, ?Eg, ?Ew; try done.
  intros who. destruct (decide (who = waiter)) as [->|Hne]; [by rewrite !lookup_delete_eq|].
  rewrite !lookup_delete_ne by congruence. done.
Qed.

(** The unique index on the active goal removes nothing: the room never has
    two. *)
Lemma matches_goal t r r' g :
  r_goals r' = <[goal_id g := g]> (r_goals r) -> r_tasks r' = r_tasks r -> r_waits r' = r_waits r ->
  work_inv r' ->
  matches t (goal_room g) r -> matches (put_goal g t) (goal_room g) r'.
Proof.
  intros Eg Et Ew Hinv [Mt Mg Mw]. constructor; cbn; rewrite ?Et, ?Ew; try done.
  intros id. pose proof (wi_one_active _ Hinv) as Hone. rewrite Eg in *.
  destruct (decide (id = goal_id g)) as [->|Hne]; [by rewrite !lookup_insert_eq|].
  rewrite !lookup_insert_ne by congruence. rewrite <- Mg. unfold delete_where.
  apply option_eq. intros g'. rewrite map_lookup_filter_Some. cbn.
  split; [tauto|]. intros Hg'. split; [done|]. unfold displaced_by.
  rewrite bool_decide_eq_false_2 by congruence. cbn. apply not_true_iff_false.
  intros [[Ha _]%andb_true_iff Ha']%andb_true_iff. apply bool_decide_eq_true in Ha, Ha'.
  apply Hne. apply (Hone id (goal_id g) g' g); [|by rewrite lookup_insert_eq|done|done].
  rewrite lookup_insert_ne by done. by rewrite <- Mg.
Qed.

Lemma filed_task n r r' k :
  r_tasks r' = <[task_id k := k]> (r_tasks r) -> r_goals r' = r_goals r -> r_waits r' = r_waits r ->
  task_room k = n -> filed n r -> filed n r'.
Proof.
  intros Et Eg Ew Hn []. constructor; rewrite ?Et, ?Eg, ?Ew; try done.
  intros id k' [[<- <-]|[_ ?]]%lookup_insert_Some; eauto.
Qed.
Lemma filed_goal n r r' g :
  r_goals r' = <[goal_id g := g]> (r_goals r) -> r_tasks r' = r_tasks r -> r_waits r' = r_waits r ->
  goal_room g = n -> filed n r -> filed n r'.
Proof.
  intros Eg Et Ew Hn []. constructor; rewrite ?Et, ?Eg, ?Ew; try done.
  intros id g' [[<- <-]|[_ ?]]%lookup_insert_Some; eauto.
Qed.
Lemma filed_wait n r r' w :
  r_waits r' = <[wait_waiter w := w]> (r_waits r) -> r_goals r' = r_goals r ->
  r_tasks r' = r_tasks r -> wait_room w = n -> filed n r -> filed n r'.
Proof.
  intros Ew Eg Et Hn []. constructor; rewrite ?Et, ?Eg, ?Ew; try done.
  intros who w' [[<- <-]|[_ ?]]%lookup_insert_Some; eauto.
Qed.
Lemma filed_drop n r r' waiter :
  r_waits r' = delete waiter (r_waits r) -> r_goals r' = r_goals r -> r_tasks r' = r_tasks r ->
  filed n r -> filed n r'.
Proof.
  intros Ew Eg Et []. constructor; rewrite ?Et, ?Eg, ?Ew; try done.
  intros who w' [_ ?]%lookup_delete_Some; eauto.
Qed.

(** ** An operation on the work of one room *)

Lemma saved_room f room h h' :
  local_to room f -> same_work (f (disk h)) (disk h') -> h_deleted h' = h_deleted h ->
  (forall n, n <> room -> same_maps (entry_room n h) (entry_room n h')) ->
  (matches (disk h) room (entry_room room h) ->
   matches (f (disk h)) room (entry_room room h')) ->
  (filed room (entry_room room h) -> filed room (entry_room room h')) ->
  saved h -> saved h'.
Proof.
  intros [Lm Lk Ls Le Lb] Hc Hd Hother Hroom Hfiled [Sk Sf Sm Ss Sg So Sb]. constructor.
  - eapply keyed_same; [exact Hc|]. by apply Lk.
  - intros n. destruct (decide (n = room)) as [->|Hne]; [by apply Hfiled, Sf|].
    eapply filed_maps; [by apply Hother|apply Sf].
  - intros n. rewrite Hd. intros Hn. eapply matches_same; [exact Hc|].
    destruct (decide (n = room)) as [->|Hne]; [by apply Hroom, Sm|].
    eapply matches_maps; [by apply Hother|]. apply Lm; [done|]. by apply Sm.
  - intros n. rewrite Hd, (sw_sealed _ _ Hc n), Ls. apply Ss.
  - rewrite <- Le in Sg. etrans; [exact Sg|apply Hc].
  - apply Hc. unfold one_per_operation. by rewrite Le.
  - apply Hc. unfold outbox_ok. by rewrite Lb.
Qed.

Lemma one_room_others p room h h' n :
  one_room p room h h' -> n <> room -> same_maps (entry_room n h) (entry_room n h').
Proof.
  intros [_ Ho _] Hn. unfold entry_room. rewrite Ho by done. by destruct (h_rooms h !! n).
Qed.

Lemma run_effect {A} f (m : Sql Tables db_error A) h h' w :
  effect f m -> run_store m h = (h', w) ->
  h' = with_h_store (h_store h') h /\
  match w with Ok _ => same_work (f (disk h)) (disk h') | Err _ => calls h h' end.
Proof.
  intros Hm [-> ->]%run_store_state. split; [done|]. specialize (Hm (h_store h)).
  unfold calls, disk. cbn. by destruct (m (h_store h)) as [c [?|?]].
Qed.

Lemma saved_mut room h : saved h -> saved (room_mut room h).
Proof. apply saved_frame; [by apply calls_same|]. by apply undisturbed_put. Qed.

Lemma saved_refused s h : calls h (with_h_store s h) -> saved h -> saved (with_h_store s h).
Proof. intros Hc. apply saved_frame; [exact Hc|apply stored_undisturbed]. Qed.

(** ** Tasks and goals *)

Lemma put_entry n r h : entry_room n (put_room n r h) = r.
Proof. apply entry_room_Some. cbn. by rewrite lookup_insert_eq. Qed.

Lemma put_entry_ne n m r h : m <> n -> entry_room m (put_room n r h) = entry_room m h.
Proof. intros Hn. unfold entry_room. cbn. by rewrite lookup_insert_ne. Qed.

Lemma create_task_saved room req h : saved h -> saved (create_task room req h).1.
Proof.
  intros Hs. pose proof (create_task_one room req h) as Hone. unfold create_task in *.
  set (k := {| task_id := _ |}) in *.
  destruct (run_store (upsert_task k) h) as [h1 w] eqn:E.
  apply (run_effect _ _ _ _ _ (effect_upsert_task k)) in E as [Eh Hw]. rewrite Eh in *.
  destruct w; cbn [fst] in *; [|by apply saved_refused].
  apply (saved_room (put_task k) room h); [apply (local_task k)|exact Hw|done|..|done].
  - intros m. by apply (one_room_others _ _ _ _ _ Hone).
  - rewrite put_entry, entry_room_mut. by apply (matches_task _ (entry_room room h) _ k).
  - rewrite put_entry, entry_room_mut. by apply (filed_task _ (entry_room room h) _ k).
Qed.

Lemma create_goal_saved room req h :
  work_ok h -> saved h -> saved (create_goal room req h).1.
Proof.
  intros Hok Hs. pose proof (create_goal_one room req h) as Hone.
  pose proof (create_goal_work_ok room req h Hok) as Hok'.
  unfold create_goal in *. destruct (rs_lead _); [|by apply saved_mut].
  destruct (any_value _ _); [by apply saved_mut|].
  destruct (normalize_goal_tasks _ _ _) as [ids|]; [|by apply saved_mut].
  set (g0 := {| goal_id := _ |}) in *.
  set (g := if all_goal_tasks_done _ _ then _ else _) in *.
  assert (goal_room g = room /\ goal_id g = r_next_goal_id (entry_room room h)) as [Hgr Hgi].
  { subst g g0. destruct (all_goal_tasks_done _ _); cbn; by rewrite entry_room_mut. }
  clearbody g. destruct (run_store (upsert_goal g) _) as [h1 w] eqn:E.
  apply (run_effect _ _ _ _ _ (effect_upsert_goal g)) in E as [Eh Hw]. rewrite Eh in *.
  destruct w; cbn [fst] in *.
  2: { apply saved_refused; [exact Hw|]. by apply saved_mut. }
  apply (saved_room (put_goal g) room h).
  - rewrite <- Hgr. apply local_goal.
  - exact Hw.
  - done.
  - intros m. by apply (one_room_others _ _ _ _ _ Hone).
  - rewrite put_entry, entry_room_mut. rewrite <- Hgr at 1 3.
    apply (matches_goal _ (entry_room room h)); cbn; [by rewrite Hgi|done|done|].
    apply (Hok' room). cbn. rewrite lookup_insert_eq. by rewrite entry_room_mut.
  - rewrite put_entry, entry_room_mut.
    apply (filed_goal _ (entry_room room h) _ g); cbn; [by rewrite Hgi|done..].
  - done.
Qed.

Lemma updated_goal_room r id now req prev g :
  updated_goal r id now req prev = Ok g -> goal_room g = goal_room prev.
Proof.
  intros (ids & _ & _ & _ & ->)%updated_goal_inv.
  assert (goal_room (requested_goal now req ids prev) = goal_room prev) as Hc.
  { unfold requested_goal, apply_goal_update, set_goal_status.
    destruct (ug_status req); [case_bool_decide|];
      destruct (ug_outcome req), (ug_checkpoint req), (ug_stale_after_secs req),
        (ug_completion req), (ug_task_ids req); done. }
  by destruct (_ && _).
Qed.

Lemma drew_undisturbed h h' : drew h h' -> undisturbed h h' /\ calls h h'.
Proof. intros [k ->]. split; [by apply undisturbed_rooms|by apply calls_same]. Qed.

Lemma update_goal_saved room id req h :
  work_ok h -> saved h -> saved (update_goal room id req h).1.
Proof.
  intros Hok Hs. pose proof (update_goal_one room id req h) as Hone.
  pose proof (update_goal_work_ok room id req h Hok) as Hok'.
  unfold update_goal in *. destruct (h_rooms h !! room) as [r|] eqn:Hr; [|done].
  destruct (r_goals r !! id) as [prev|] eqn:Hp; [|done].
  destruct (updated_goal _ _ _ _ _) as [goal|] eqn:Hg; [|done].
  pose proof (sv_filed _ _ Hs room) as Hfiled. rewrite (entry_room_Some _ _ _ Hr) in Hfiled.
  destruct (fl_goals _ _ Hfiled id prev Hp) as [Hpr Hpi].
  apply (updated_goal_ok _ _ _ _ _ _ (Hok _ _ Hr) Hp) in Hg as Hid. destruct Hid as [_ Hid].
  apply updated_goal_room in Hg. rewrite Hpr in Hg.
  set (progressed := negb _) in *. clearbody progressed.
  destruct (if progressed then _ else _) as [h1 g] eqn:Hgen.
  assert (drew h h1 /\ goal_room g = room /\ goal_id g = id) as ([k ->] & Hgr & Hgi).
  { destruct progressed; injection Hgen as <- <-; (split; [|done]); [by eexists|apply drew_refl]. }
  destruct (run_store _ _) as [h2 w] eqn:E.
  apply (run_effect _ _ _ _ _ (effect_upsert_goal_with_care_reset g progressed)) in E as [Eh Hw].
  rewrite Eh in *. assert (saved (with_h_condition_generation k h)) as Hs'.
  { eapply saved_frame, Hs; [by apply calls_same|by apply undisturbed_rooms]. }
  destruct w; cbn [fst] in *; [|by apply saved_refused].
  apply (saved_room (put_goal g) room h); [rewrite <- Hgr; apply local_goal|exact Hw|done|..|done].
  - intros m. by apply (one_room_others _ _ _ _ _ Hone).
  - rewrite put_entry, (entry_room_Some _ _ _ Hr). rewrite <- Hgr at 1 2.
    apply (matches_goal _ r);
      [destruct progressed; room_frame; by rewrite Hgi|destruct progressed; room_frame..|].
    apply (Hok' room). cbn. by rewrite lookup_insert_eq.
  - rewrite put_entry, (entry_room_Some _ _ _ Hr).
    apply (filed_goal _ r _ g);
      [destruct progressed; room_frame; by rewrite Hgi|destruct progressed; room_frame..|done].
Qed.

Lemma update_task_keeps req op now (k k1 k2 : Task) moved changed :
  update_task_assignee req op k = Ok (k1, moved) ->
  update_task_status req op now k1 = Ok (k2, changed) ->
  task_room k2 = task_room k /\ task_id k2 = task_id k.
Proof.
  intros (Ha & _)%update_task_assignee_ok. unfold update_task_status. rewrite Ha.
  destruct (ut_status req) as [st|]; [|by intros [= <- _]].
  destruct (negb _); [done|]. intros [= <- _]. by case_bool_decide.
Qed.

(** The goal that moves with the task is a goal of the room. *)
Lemma linked_goal_room r k now h h' g room :
  work_inv r -> filed room r -> linked_goal_after_task_progress r k now h = (h', Some g) ->
  goal_room g = room.
Proof.
  intros Hi Hf Hl. apply (linked_goal_spec _ _ _ _ _ _ Hi) in Hl as (g0 & p & Hg0 & _ & _ & _ & ->).
  destruct (fl_goals _ _ Hf _ _ Hg0) as [Hr _]. by destruct (forallb _ _).
Qed.

(** A task and the goal it moves. *)
Lemma update_task_saved room id req op h :
  work_ok h -> saved h -> saved (update_task room id req op h).1.
Proof.
  intros Hok Hs. pose proof (update_task_one room id req op h) as Hone.
  pose proof (update_task_work_ok room id req op h Hok) as Hok'.
  unfold update_task in *. destruct (h_rooms h !! room) as [r|] eqn:Hr; [|done].
  destruct (r_tasks r !! id) as [k|] eqn:Hk; [|done].
  destruct (update_task_assignee req op k) as [[k1 moved]|] eqn:Ha; [|done].
  destruct (update_task_status _ _ _ _) as [[k2 changed]|] eqn:Hst; [|done].
  pose proof (sv_filed _ _ Hs room) as Hfiled. rewrite (entry_room_Some _ _ _ Hr) in Hfiled.
  destruct (fl_tasks _ _ Hfiled id k Hk) as [Hkr Hki].
  destruct (update_task_keeps _ _ _ _ _ _ _ _ Ha Hst) as [Hr2 Hi2]. rewrite Hkr in Hr2. rewrite Hki in Hi2.
  set (progressed := moved || changed) in *. clearbody progressed.
  destruct (if progressed then let '(_, _) := _ in _ else (h, k2)) as [h1 k3] eqn:Hgen.
  assert (drew h h1 /\ task_room k3 = room /\ task_id k3 = id) as ([c1 ->] & Hkr3 & Hki3).
  { destruct progressed; injection Hgen as <- <-; (split; [|done]); [by eexists|apply drew_refl]. }
  destruct (if progressed then linked_goal_after_task_progress _ _ _ _ else _) as [h2 og] eqn:Hl.
  assert (drew h h2 /\ forall g, og = Some g -> goal_room g = room) as ([c2 ->] & Hgr).
  { destruct progressed; [|injection Hl as <- <-; split; [by eexists|done]]. split.
    - apply linked_goal_drew in Hl as [c ->]. by exists c.
    - intros g ->. by eapply linked_goal_room, Hl; [apply (Hok _ _ Hr)|]. }
  destruct (run_store _ _) as [h3 w] eqn:E.
  apply (run_effect _ _ _ _ _ (effect_upsert_task_with_goal_progress k3 og progressed)) in E as [Eh Hw].
  rewrite Eh in *. assert (saved (with_h_condition_generation c2 h)) as Hs'.
  { eapply saved_frame, Hs; [by apply calls_same|by apply undisturbed_rooms]. }
  destruct w; cbn [fst] in *; [|by apply saved_refused]. clear Hgen Hl.
  set (r1 := send (SF_Task k3) _) in *.
  assert (r_tasks r1 = <[task_id k3 := k3]> (r_tasks r) /\ r_goals r1 = r_goals r /\
    r_waits r1 = r_waits r) as (Et & Eg & Ew).
  { subst r1. rewrite Hki3. destruct progressed; room_frame. }
  clearbody r1. destruct og as [g|].
  - specialize (Hgr g eq_refl). set (r2 := send (SF_Goal g) _) in *.
    assert (r_tasks r2 = r_tasks r1 /\ r_goals r2 = <[goal_id g := g]> (r_goals r1) /\
      r_waits r2 = r_waits r1) as (Et2 & Eg2 & Ew2) by (subst r2; room_frame).
    assert (work_inv r2) as Hinv by (apply (Hok' room); cbn; by rewrite lookup_insert_eq).
    clearbody r2.
    apply (saved_room (fun t => put_goal g (put_task k3 t)) room h); [|exact Hw|done|..|done].
    + destruct (local_task k3) as [L1 L2 L3 L4 L5], (local_goal g) as [M1 M2 M3 M4 M5].
      rewrite Hkr3 in L1. rewrite Hgr in M1. constructor; [|by auto|by intros; rewrite M3|by intros; rewrite M4|by intros; rewrite M5].
      intros tb n rn Hn Hm. apply M1; [done|]. by apply L1.
    + intros m. by apply (one_room_others _ _ _ _ _ Hone).
    + rewrite put_entry, (entry_room_Some _ _ _ Hr). intros Hm. rewrite <- Hgr.
      apply (matches_goal _ r1); try done. rewrite Hgr, <- Hkr3.
      apply (matches_task _ r _ k3); [done..|]. by rewrite Hkr3.
    + rewrite put_entry, (entry_room_Some _ _ _ Hr). intros Hf.
      apply (filed_goal _ r1 _ g); try done. by apply (filed_task _ r _ k3).
  - apply (saved_room (put_task k3) room h);
      [rewrite <- Hkr3; apply local_task|exact Hw|done|..|done].
    + intros m. by apply (one_room_others _ _ _ _ _ Hone).
    + rewrite put_entry, (entry_room_Some _ _ _ Hr). rewrite <- Hkr3 at 1 2.
      by apply (matches_task _ r).
    + rewrite put_entry, (entry_room_Some _ _ _ Hr). by apply (filed_task _ r _ k3).
Qed.

(** ** Waits *)

Lemma set_wait_saved room req h : saved h -> saved (set_wait room req h).1.
Proof.
  intros Hs. pose proof (set_wait_one room req h) as Hone. unfold set_wait in *.
  destruct (decide _); [done|].
  destruct (match _ !! sw_by req with Some _ => _ | None => _ end); [by apply saved_mut|].
  destruct (next_condition_generation _ _ _) as [h1 since] eqn:Hg.
  apply next_condition_generation_state in Hg as ->. set (w := {| wait_room := _ |}) in *.
  destruct (run_store _ _) as [h2 res] eqn:E.
  apply (run_effect _ _ _ _ _ (effect_replace_wait_with_care w since)) in E as [Eh Hw].
  rewrite Eh in *.
  assert (saved (with_h_condition_generation since (room_mut room h))) as Hs'.
  { eapply saved_frame, saved_mut, Hs; [by apply calls_same|by apply undisturbed_rooms]. }
  destruct res; cbn [fst] in *; [|by apply saved_refused].
  apply (saved_room (put_wait w) room h); [apply (local_wait w)|exact Hw|done|..|done].
  - intros m. by apply (one_room_others _ _ _ _ _ Hone).
  - rewrite put_entry, entry_room_mut. apply (matches_wait _ (entry_room room h) _ w); room_frame.
  - rewrite put_entry, entry_room_mut. apply (filed_wait _ (entry_room room h) _ w); room_frame.
Qed.

Lemma clear_wait_saved room waiter h : saved h -> saved (clear_wait room waiter h).1.
Proof.
  intros Hs. pose proof (clear_wait_one room waiter h) as Hone. unfold clear_wait in *.
  destruct (h_rooms h !! room) as [r|] eqn:Hr; [|done]. case_bool_decide; [done|].
  destruct (run_store _ _) as [h2 res] eqn:E.
  apply (run_effect _ _ _ _ _ (effect_store_delete_wait room waiter (h_clock h))) in E as [Eh Hw].
  rewrite Eh in *. destruct res; cbn [fst] in *; [|by apply saved_refused].
  apply (saved_room (drop_wait room waiter) room h); [apply local_drop|exact Hw|done|..|done].
  - intros m. by apply (one_room_others _ _ _ _ _ Hone).
  - rewrite put_entry, (entry_room_Some _ _ _ Hr). apply matches_drop; room_frame.
  - rewrite put_entry, (entry_room_Some _ _ _ Hr). apply (filed_drop _ r _ waiter); room_frame.
Qed.
End durable.
