(* ===== verification/DurableOps.v ===== *)
(** * Durability of every operation

    Sealing, the reminder sweep and posting, and the theorem over sequences of
    operations. *)

From Stdlib Require Import Ascii.
From S2P Require Import Prelude Text Net Protocol StoreApi Sql Tables Hub Ledger Work WorkFacts Waits WaitFacts.
From S2P Require Import Seats Attention Chat ChatFacts Access Membership AccessFacts Joins.
From S2P Require Import Rooms RoomFacts Scheduler SchedulerFacts Server ServerFacts Building.
From S2P Require Import Identity Operators Admission StoreAttention StoreWork StoreMessages StoreFacts.
From S2P Require Import BlobFiles Memory WikiTypes WikiMaintenance Wiki WikiOps Attachments.
From S2P Require Import DurableFacts.

Open Scope loca_scope.

Section durable.
Context `{Unicode} `{Csprng} `{Digest} `{WallClock}.
Implicit Types h : Hub (Conn Tables).
Implicit Types t : Tables.
Context (M : gmap N MessageRow).
#[local] Abbreviation saved := (saved M).

#[local] Existing Instances calls_refl calls_trans undisturbed_refl undisturbed_trans.

(** ** Sealing *)

(** What [seal_room] does to the rooms. *)
Definition put_seal (room : string) (at_ : N) t : Tables :=
  with_t_rooms (update_where (fun k _ => bool_decide (k = room)) (with_rr_sealed_at (Some at_))
    (insert_or_ignore room (mkRoomRow Free room_settings_default None) (t_rooms t)).1).1 t.

Lemma put_seal_sealed room at_ t n :
  sealed_row (put_seal room at_ t) n = true <-> n = room \/ sealed_row t n = true.
Proof.
  unfold sealed_row, put_seal. cbn [t_rooms with_t_rooms].
  rewrite update_where_lookup. unfold insert_or_ignore.
  destruct (decide (n = room)) as [->|Hne].
  - destruct (t_rooms t !! room) as [r|] eqn:Er; cbn; rewrite ?Er, ?lookup_insert_eq; cbn;
      rewrite bool_decide_eq_true_2 by done; cbn; tauto.
  - destruct (t_rooms t !! room) as [r|]; cbn; rewrite ?lookup_insert_ne by done;
      (destruct (t_rooms t !! n) as [r'|]; cbn; [rewrite bool_decide_eq_false_2 by done|]; tauto).
Qed.

Lemma effect_seal_room room at_ :
  effect (put_seal room at_) (seal_room room at_ : Sql Tables db_error unit).
Proof.
  apply effect_transaction. intros c c' a (c1 & n & E1 & (c2 & k & E2 & E3)%bind_ok)%bind_ok.
  apply execute_ok in E1 as [E1 _]. apply execute_ok in E2 as [E2 _].
  assert (tables c2 = put_seal room at_ (tables c)) as E.
  { destruct (insert_or_ignore _ _ _) as [m i] eqn:Ei in E1. injection E1 as E1 _.
    unfold on_table in E2. destruct (update_where _ _ _) as [m' i'] eqn:Eu in E2.
    injection E2 as E2 _. rewrite <- E1 in Eu, E2. cbn in Eu, E2.
    unfold put_seal. rewrite Ei. cbn [fst]. rewrite Eu. cbn [fst]. rewrite <- E2.
    by destruct (tables c). }
  rewrite <- E. pose proof (frame_retire_room_attentions room at_ c2) as Hr. by rewrite E3 in Hr.
Qed.

Lemma delete_room_saved room h : saved h -> saved (delete_room room h).1.
Proof.
  intros Hs. unfold delete_room. destruct (h_rooms h !! room) as [r|] eqn:Hr; [|done].
  destruct (negb _); [done|]. destruct (run_store _ _) as [h1 w] eqn:E.
  apply (run_effect _ _ _ _ _ (effect_seal_room room (h_clock h))) in E as [Eh Hw].
  rewrite Eh in *. destruct w; cbn [fst]; [|by apply saved_refused].
  destruct Hs as [Sk Sf Sm Ss Sg So Sb].
  assert (forall n, n <> room -> same_maps (entry_room n h)
    (entry_room n (with_h_deleted ({[room]} ∪ h_deleted h)
      (with_h_rooms (delete room (h_rooms h)) (with_h_store (h_store h1) h))))) as Hother.
  { intros n Hn. unfold entry_room. cbn. by rewrite lookup_delete_ne. }
  constructor.
  - apply (keyed_same _ _ Hw). by destruct Sk.
  - intros n. destruct (decide (n = room)) as [->|Hn].
    + unfold entry_room. cbn. rewrite lookup_delete_eq. by constructor; cbn; intros ? ?;
        rewrite lookup_empty.
    + eapply filed_maps; [by apply Hother|apply Sf].
  - cbn. intros n [Hn Hd]%not_elem_of_union. apply not_elem_of_singleton in Hn.
    eapply matches_same; [exact Hw|]. eapply matches_maps; [by apply Hother|].
    by destruct (Sm n Hd).
  - intros n. cbn. rewrite elem_of_union, elem_of_singleton, <- Ss.
    rewrite <- put_seal_sealed, <- (sw_sealed _ _ Hw n). done.
  - etrans; [exact Sg|apply Hw].
  - by apply Hw.
  - by apply Hw.
Qed.
(** ** The reminder sweep *)

Lemma make_care_signal_calls name r draft h h' s :
  make_care_signal name r draft h = (h', s) -> calls h h'.
Proof. unfold make_care_signal, secure_token. intros [= <- _]. by apply calls_same. Qed.

(** What a step of the sweep does to the disk: nothing to the work, or the
    nudge of the wait that the room after it has. *)
Definition nudge_on_disk (r : Room) h h' (e : option emission) : Prop :=
  match e with
  | None => calls h h'
  | Some (r', _) =>
      (calls h h' /\ r_waits r' = r_waits r) \/
      exists x w w', r_waits r !! x = Some w /\
        wait_room w' = wait_room w /\ wait_waiter w' = wait_waiter w /\
        r_waits r' = <[x := w']> (r_waits r) /\ same_work (put_wait w' (disk h)) (disk h')
  end.

Lemma nudge_after r h1 h2 h3 e :
  calls h1 h2 -> nudge_on_disk r h2 h3 e -> nudge_on_disk r h1 h3 e.
Proof.
  intros Hc. destruct e as [[r' sigs]|]; cbn; [|by intros; etransitivity].
  intros [[Hc' ?]|(x & w & w' & ? & ? & ? & ? & Hp)]; [left; split; [by etransitivity|done]|right].
  exists x, w, w'. repeat (split; [done|]). transitivity (put_wait w' (disk h2)); [|exact Hp]. by apply on_work_wait.
Qed.

Lemma nudge_first {A} r (f : A -> Hub (Conn Tables) -> Hub (Conn Tables) * option emission) l h :
  (forall x h1, nudge_on_disk r h1 (f x h1).1 (f x h1).2) ->
  nudge_on_disk r h (first_emission f l h).1 (first_emission f l h).2.
Proof.
  intros Hf. revert h. induction l as [|x l IH]; intros h; cbn [first_emission]; [exact (calls_refl _)|].
  pose proof (Hf x h) as Hx. destruct (f x h) as [h1 [e|]]; [exact Hx|].
  eapply nudge_after, IH. exact Hx.
Qed.

(** A signal is made; the attempts that end here changed no work. *)
Ltac care_made :=
  lazymatch goal with
  | |- context [make_care_signal ?n ?r ?d ?h] =>
      let h1 := fresh "h1" in let s := fresh "s" in let Hm := fresh "Hm" in
      destruct (make_care_signal n r d h) as [h1 s] eqn:Hm;
      apply make_care_signal_calls in Hm; eapply nudge_after; [exact Hm|]; clear Hm
  end.
Ltac care_stored :=
  lazymatch goal with
  | |- context [run_store ?f ?h] =>
      let h2 := fresh "h2" in let w := fresh "w" in let E := fresh "E" in
      destruct (run_store f h) as [h2 w] eqn:E; apply run_store_state in E as [-> _];
      destruct w
  end.
Ltac care_silent :=
  cbn [fst snd nudge_on_disk]; try left; try split; try done; apply calls_run; auto with silent.

Lemma signal_cycle_disk name r owner cycle h :
  nudge_on_disk r h (signal_cycle name r owner cycle h).1
    (signal_cycle name r owner cycle h).2.
Proof.
  unfold signal_cycle. destruct (negb _); [exact (calls_refl _)|]. care_made.
  destruct (owned_or_done _ _ _); [exact (calls_refl _)|]. care_stored; care_silent.
Qed.

Lemma signal_wait_disk name r owner x h :
  nudge_on_disk r h (signal_wait name r owner x h).1 (signal_wait name r owner x h).2.
Proof.
  unfold signal_wait. destruct (r_waits r !! x) as [w|] eqn:Hx; [|exact (calls_refl _)].
  destruct (negb _); [exact (calls_refl _)|]. care_made. destruct (owned_or_done _ _ _); [exact (calls_refl _)|].
  destruct (run_store _ _) as [h2 res] eqn:E.
  apply (run_effect _ _ _ _ _ (effect_enqueue_care_with_waits _ _ _)) in E as [-> Hw].
  destruct res; cbn [fst snd nudge_on_disk]; [|exact Hw]. right. by exists x, w, (nudged (h_clock h) w).
Qed.

Lemma everyone_signals_calls name r rem attempt recipients signals h :
  calls h (everyone_signals name r rem attempt recipients signals h).1.
Proof.
  revert signals h. induction recipients as [|[pid who] l IH]; intros signals h;
    cbn [everyone_signals]; [reflexivity|]. destruct (negb _); [apply IH|].
  destruct (make_care_signal _ _ _ _) as [h1 s] eqn:Hm. apply make_care_signal_calls in Hm.
  etransitivity; [exact Hm|apply IH].
Qed.

Lemma signal_reminder_disk name r owner rem h :
  nudge_on_disk r h (signal_reminder name r owner rem h).1 (signal_reminder name r owner rem h).2.
Proof.
  unfold signal_reminder. destruct (negb _); [exact (calls_refl _)|].
  assert (nudge_on_disk r h (remind_one name r owner rem (care_mark r (rem_key rem)) h).1
    (remind_one name r owner rem (care_mark r (rem_key rem)) h).2) as Hone.
  { unfold remind_one. care_made. destruct (owned_or_done _ _ _); [exact (calls_refl _)|].
    destruct owner; [|destruct (negb _ || negb _); [exact (calls_refl _)|]]; care_stored; care_silent. }
  destruct (rs_care_recipient _); try exact Hone. unfold remind_everyone.
  destruct (generation_roster _ _ _ _ _) as [recipients|]; [|exact (calls_refl _)].
  pose proof (everyone_signals_calls name r rem
    (mark_signal_count (next_mark (care_mark r (rem_key rem)) (h_clock h))) recipients [] h) as Hc.
  destruct (everyone_signals _ _ _ _ _ _ _) as [h1 signals]. eapply nudge_after; [exact Hc|].
  destruct signals; [exact (calls_refl _)|]. care_stored; care_silent.
Qed.
Lemma room_emission_disk name r owner h :
  nudge_on_disk r h (room_emission name r owner h).1 (room_emission name r owner h).2.
Proof.
  unfold room_emission.
  set (cycles := if match owner with Some _ => true | None => false end then _ else _).
  set (names := if match owner with Some _ => true | None => false end then _ else _).
  pose proof (nudge_first r (signal_cycle name r owner) cycles h
    (fun x h1 => signal_cycle_disk name r owner x h1)) as Hc.
  destruct (first_emission (signal_cycle _ _ _) _ h) as [h1 [e|]]; [exact Hc|].
  eapply nudge_after; [exact Hc|]. clear Hc.
  pose proof (nudge_first r (signal_wait name r owner) names h1
    (fun x h1 => signal_wait_disk name r owner x h1)) as Hc.
  destruct (first_emission (signal_wait _ _ _) _ h1) as [h2 [e|]]; [exact Hc|].
  eapply nudge_after; [exact Hc|]. apply nudge_first. intros. apply signal_reminder_disk.
Qed.

Lemma quiet_undisturbed h h' : quiet h h' -> undisturbed h h'.
Proof. intros (s & k & ->). by apply undisturbed_rooms. Qed.

Lemma tick_room_saved h p n : saved h -> saved (tick_room (h, p) n).1.
Proof.
  intros Hs. unfold tick_room. destruct (h_rooms h !! n) as [r|] eqn:Hr; [|done].
  destruct (rs_archived _); [done|].
  pose proof (room_emission_disk n r (care_owner h n) h) as Hd.
  destruct (room_emission n r _ h) as [h1 e] eqn:He. apply room_emission_ok in He as [Hq Hok].
  cbn [fst snd] in Hd. pose proof (quiet_undisturbed _ _ Hq) as Hu.
  destruct e as [[r1 sigs]|]; [|by eapply saved_frame, Hs]. cbn [fst].
  destruct (Hok _ eq_refl) as [Hstep _]. cbn in Hstep.
  assert (r_tasks r1 = r_tasks r /\ r_goals r1 = r_goals r) as [Et Eg] by by destruct Hstep.
  pose proof (entry_room_Some _ _ _ Hr) as Hn. destruct Hd as [[Hc Ew]|Hd].
  - eapply saved_frame, Hs; [exact Hc|]. etransitivity; [exact Hu|]. apply undisturbed_put.
    destruct Hu as [Hu _]. specialize (Hu n). rewrite Hn in Hu. destruct Hu as (U1 & U2 & U3).
    split; [congruence|split; congruence].
  - destruct Hd as (x & w & w' & Hx & Hwr & Hww & Ew & Hp).
    pose proof (sv_filed _ _ Hs n) as Hf. rewrite Hn in Hf.
    destruct (fl_waits _ _ Hf x w Hx) as [Hwn Hwx]. rewrite Hwn in Hwr. rewrite Hwx in Hww.
    apply (saved_room M (put_wait w') n h);
      [rewrite <- Hwr; apply local_wait|exact Hp|apply Hu|..|done].
    + intros m Hm. rewrite put_entry_ne by done. apply Hu.
    + rewrite put_entry, Hn. rewrite <- Hwr at 1 2. apply (matches_wait _ r); [|done..].
      by rewrite Hww.
    + rewrite put_entry, Hn. apply (filed_wait _ r _ w'); [|done..]. by rewrite Hww.
Qed.

Lemma publish_care_signal_calls src sig b h : calls h (publish_care_signal src sig b h).
Proof.
  unfold publish_care_signal, deliver_care. destruct (_ || _); [reflexivity|].
  destruct (sig_owner sig) eqn:Ho; [destruct b; [|care_stored]|]; cbn [negb];
    try (apply calls_run; auto with silent);
    repeat case_match; unfold calls, disk; cbn; try reflexivity;
    apply (silent_enqueue_care (sig_room sig) sig).
Qed.

Lemma publish_care_signal_undisturbed src sig b h : undisturbed h (publish_care_signal src sig b h).
Proof.
  unfold publish_care_signal. destruct (_ || _); [done|].
  destruct (deliver_care sig b h) as [h1 ok] eqn:Hd.
  pose proof (ol_deleted _ _ (deliver_care_outer _ _ _ _ _ Hd)) as Hdel.
  apply deliver_care_rooms in Hd as [Hr _].
  destruct ok; cbn [negb]; [|by apply undisturbed_rooms].
  set (h2 := match h_rooms h1 !! src with Some _ => _ | None => _ end).
  assert (undisturbed h h2) as Hu2.
  { transitivity h1; [by apply undisturbed_rooms|]. subst h2.
    destruct (h_rooms h1 !! src) as [s|] eqn:Hs; [|done]. apply undisturbed_put.
    by rewrite (entry_room_Some _ _ _ Hs). }
  destruct (_ && _); [|done]. etransitivity; [exact Hu2|].
  rewrite entry_room_mut. unfold room_mut. rewrite put_room_put_room. by apply undisturbed_put.
Qed.

Lemma tick_care_saved h : saved h -> saved (tick_care h).
Proof.
  intros Hs. unfold tick_care.
  assert (forall l h p, saved h -> saved (foldl tick_room (h, p) l).1) as Hrooms.
  { induction l as [|n l IH]; intros h1 p Hs1; [done|]. cbn [foldl].
    pose proof (tick_room_saved h1 p n Hs1) as Hs2. destruct (tick_room (h1, p) n). by apply IH. }
  pose proof (Hrooms (keys (h_rooms h)) h [] Hs) as Hs1.
  destruct (foldl tick_room _ _) as [h1 pending]. cbn [fst] in Hs1. clear Hrooms Hs h.
  revert h1 Hs1. induction pending as [|x l IH]; intros h1 Hs1; [done|]. cbn [foldl]. apply IH.
  eapply saved_frame, Hs1; [apply publish_care_signal_calls|apply publish_care_signal_undisturbed].
Qed.
(** ** Posting *)

Lemma publish_summon_frame room home h sig :
  calls h (publish_summon room home h sig) /\ undisturbed h (publish_summon room home h sig).
Proof.
  unfold publish_summon. set (h1 := with_h_care_deliveries _ _).
  assert (calls h h1 /\ undisturbed h h1) as [Hc Hu].
  { split; [by apply calls_same|]. subst h1. set (r := send _ _).
    transitivity (put_room room r h); [by apply undisturbed_put|by apply undisturbed_rooms]. }
  destruct home as [x|]; [|done]. split.
  - etransitivity; [exact Hc|by apply calls_same].
  - etransitivity; [exact Hu|by apply undisturbed_put].
Qed.

Lemma publish_summons_frame room home sigs h :
  calls h (foldl (publish_summon room home) h sigs) /\
  undisturbed h (foldl (publish_summon room home) h sigs).
Proof.
  revert h. induction sigs as [|s sigs IH]; intros h; [split; reflexivity|]. cbn [foldl].
  destruct (publish_summon_frame room home h s) as [Hc Hu]. destruct (IH (publish_summon room home h s)).
  split; (etransitivity; [eassumption|done]).
Qed.

(** The wait a reply restarts is filed under the room and its waiter. *)
Lemma wait_wake_frame room r msg summons now h h' w :
  wait_wake room r msg summons now h = (h', w) ->
  calls h h' /\ undisturbed h h' /\
  forall u sig, w = Some (u, sig) -> wait_room u = room.
Proof.
  unfold wait_wake. destruct (answered_wait r msg summons) as [[target existing]|].
  - unfold next_condition_generation, secure_token. intros [= <- <-]. split_and!.
    + by apply calls_same.
    + by apply undisturbed_rooms.
    + by intros u sig [= <- _].
  - intros [= <- <-]. split_and!; [reflexivity|done|done].
Qed.

Lemma effect_silent {A} (f : Conn Tables -> Conn Tables * dbres A) h h' w :
  silent f -> run_store f h = (h', w) -> calls h h' /\ undisturbed h h'.
Proof.
  intros Hf [-> _]%run_store_state. split; [by apply calls_run|apply stored_undisturbed].
Qed.

Lemma persist_post_effect room home r msg operation moved now wake summons h h' w :
  run_store (persist_post room home r msg operation moved now wake summons) h = (h', w) ->
  undisturbed h h' /\
  match wake, w with
  | Some (u, _), Ok _ => same_work (put_wait u (disk h)) (disk h')
  | _, _ => calls h h'
  end.
Proof.
  unfold persist_post. destruct wake as [[u sig]|].
  - intros E. apply (run_effect _ _ _ _ _ (effect_insert_message_with_wait_wake _ _ _ _ _ _ _ _))
      in E as [-> Hw]. split; [apply stored_undisturbed|by destruct w].
  - destruct summons as [|s summons]; [destruct moved|]; intros [Hc Hu]%effect_silent;
      auto with silent; by destruct w.
Qed.

Lemma publish_wake_room room now u sig h :
  exists r, publish_wake room now u sig h
      = put_room room r (with_h_care_deliveries
          (<[sig_id sig := sig_attention_id sig]> (h_care_deliveries h)) h) /\
    r_tasks r = r_tasks (entry_room room h) /\ r_goals r = r_goals (entry_room room h) /\
    r_waits r = <[wait_waiter u := u]> (r_waits (entry_room room h)).
Proof. unfold publish_wake. eexists. split; [reflexivity|]. split_and!; room_frame. Qed.

Lemma commit_message_maps room msg now rec operation moved r :
  same_maps r (commit_message room msg now rec operation moved r).
Proof.
  destruct (commit_message_fields room msg now rec operation moved r) as [[] _].
  split; [done|by split].
Qed.

Lemma deliver_post_saved room home adm operation now msg h :
  saved h -> saved (deliver_post room home adm operation now msg h).1.
Proof.
  intros Hs. unfold deliver_post.
  destruct (wait_wake _ _ _ _ _ _) as [h1 wake] eqn:Hwk.
  apply wait_wake_frame in Hwk as (Hc1 & Hu1 & Hwake).
  destruct (advance_turn _ _) as [mode turn]. set (moved := with_r_mode mode _).
  destruct (run_store _ _) as [h2 w] eqn:E. apply persist_post_effect in E as [Hu2 Hw].
  assert (undisturbed h h2) as Hu by by etransitivity.
  assert (forall r, same_maps (entry_room room h) r -> undisturbed h2 (put_room room r h2)) as Hput.
  { intros r (R1 & R2 & R3). apply undisturbed_put.
    destruct (ud_rooms _ _ Hu room) as (U1 & U2 & U3). split; [congruence|split; congruence]. }
  destruct w as [[]|]; cbn [fst].
  2: { eapply saved_frame, Hs; [|by etransitivity; [exact Hu|by apply Hput]].
       etransitivity; [exact Hc1|]. destruct wake as [[]|]; exact Hw. }
  set (h3 := put_room room _ h2). assert (undisturbed h h3) as Hu3.
  { etransitivity; [exact Hu|]. apply Hput. by apply (commit_message_maps _ _ _ _ _ _ moved). }
  set (h4 := if decide _ then h3 else _).
  assert (calls h3 h4 /\ undisturbed h3 h4) as [Hc4 Hu4].
  { subst h4. destruct (decide _); [split; reflexivity|apply publish_summons_frame]. }
  clearbody h4. assert (undisturbed h h4) as Hu' by by etransitivity.
  destruct wake as [[u sig]|].
  2: { eapply saved_frame, Hs; [|done]. etransitivity; [exact Hc1|].
       etransitivity; [exact Hw|]. etransitivity; [by apply calls_same|exact Hc4]. }
  destruct (publish_wake_room room now u sig h4) as (r & -> & Et & Eg & Ew).
  destruct (ud_rooms _ _ Hu' room) as (U1 & U2 & U3).
  specialize (Hwake u sig eq_refl).
  apply (saved_room M (put_wait u) room h); [rewrite <- Hwake; apply local_wait| |apply Hu'|..|done].
  - transitivity (put_wait u (disk h1)); [by apply on_work_wait|].
    etransitivity; [exact Hw|exact Hc4].
  - intros m Hm. rewrite put_entry_ne by done. exact (ud_rooms _ _ Hu' m).
  - rewrite put_entry. rewrite <- Hwake at 1 3.
    apply (matches_wait _ (entry_room room h)); congruence.
  - rewrite put_entry. apply (filed_wait _ (entry_room room h) _ u); congruence.
Qed.

Lemma post_saved room body adm p h : saved h -> saved (post room body adm p h).1.
Proof.
  intros Hs. unfold post. destruct (is_deleted h room); [done|].
  destruct (match _ <$> _ with Some _ => _ | None => _ end) as [[?|]|]; [done| |done].
  destruct (cited_attachments _ _ _) as [atts|]; [|done].
  unfold post_in_room. rewrite entry_room_mut. pose proof (saved_mut M room h Hs) as Hm.
  destruct (_ ≫= _); [done|]. destruct (rs_archived _); [done|].
  destruct (post_gate _ _ _); [done|].
  destruct (rate_check _ _ _ _) as [r limited] eqn:Hrate.
  assert (saved (put_room room r (room_mut room h))) as Hs1.
  { unfold room_mut. rewrite put_room_put_room. eapply saved_frame, Hs; [by apply calls_same|].
    apply undisturbed_put. revert Hrate. unfold rate_check. repeat case_match; by intros [= <- _]. }
  destruct limited; [done|]. destruct (reply_owner _ _ _ _ _); [|done].
  destruct (build_message _ _ _ _ _ _) as [h1 msg] eqn:Hb. apply deliver_post_saved.
  unfold build_message, fetch_next_id, next_condition_generation in Hb. injection Hb as <- _.
  eapply saved_frame, Hs1; [by apply calls_same|by apply undisturbed_rooms].
Qed.
(** ** Every operation *)

Lemma writable_saved {A} room (f : Hub (Conn Tables) -> Hub (Conn Tables) * A) h :
  (saved h -> saved (f h).1) -> saved h -> saved (when_writable room f h).
Proof. intros Hf Hs. unfold when_writable. destruct (is_writable h room); [by apply Hf|done]. Qed.

Lemma calm_saved h h' : calls h h' -> calm h h' -> saved h -> saved h'.
Proof. intros Hc Hm. by apply saved_frame, undisturbed_calm. Qed.

(** An operation on one room, but not on its work. *)
Lemma one_saved p room h h' :
  p <> PWork -> p <> PWaits -> calls h h' -> one_room p room h h' -> saved h -> saved h'.
Proof. intros Hp1 Hp2 Hc Hone. apply saved_frame; [exact Hc|by eapply undisturbed_one, Hone]. Qed.

(** *** The memory, the wiki and the files of a room *)

Context `{Environment} `{BlobFiles unit}.

Lemma run_saved {A} (f : Conn Tables -> Conn Tables * A) h : silent f -> saved h -> saved (run_store f h).1.
Proof.
  intros Hf. apply calm_saved; [|apply run_calm].
  unfold run_store. pose proof (Hf (h_store h)) as Hc. by destruct (f (h_store h)).
Qed.

Lemma broadcast_saved room h : saved h -> saved (broadcast_memory_snapshot room h).
Proof.
  apply (one_saved PNone room); [done..| |apply broadcast_memory_one].
  apply calls_same. unfold broadcast_memory_snapshot. by repeat case_match.
Qed.

(** A write, and then the new memory to the room. *)
Lemma memory_saved {A E A' E'} (f : Conn Tables -> Conn Tables * result A E) room h
    (k : A -> result A' E') (e : E -> result A' E') :
  silent f -> saved h ->
  saved (let '(h1, written) := run_store f h in
         match written with
         | Err x => (h1, e x)
         | Ok a => (broadcast_memory_snapshot room h1, k a)
         end).1.
Proof.
  intros Hf Hs. pose proof (run_saved f h Hf Hs) as Hr. destruct (run_store f h) as [h1 [a|x]]; [|done].
  by apply broadcast_saved.
Qed.

Lemma memory_ops_saved room h : saved h ->
  (forall owner, saved (set_memory_owner room owner h).1)
  /\ (forall actor text, saved (write_short_memory room actor text h).1)
  /\ (forall actor text, saved (append_long_memory room actor text h).1).
Proof.
  intros Hs. split_and!; intros.
  - unfold set_memory_owner. destruct (owner_principal owner h) as [p|]; [|done].
    apply (memory_saved _ room h (fun _ => Ok tt)); [apply quiet_memory|done].
  - apply (memory_saved _ room h Ok Err); [apply quiet_memory|done].
  - apply (memory_saved _ room h Ok Err); [apply quiet_memory|done].
Qed.

Lemma tick_wiki_saved h : saved h -> saved (tick_wiki h).
Proof.
  unfold tick_wiki. destruct (negb _); [done|]. destruct (store_wiki_maintenance_rooms _) as [rooms|]; [|done].
  revert h. induction rooms as [|room rooms IH]; intros h Hs; [done|]. cbn [foldl]. apply IH.
  unfold tick_wiki_room. destruct (is_writable h room); apply run_saved; try done.
  - apply quiet_reviews.
  - apply quiet_reviews.
Qed.

Lemma wiki_op_saved o h : saved h -> saved (wiki_op o h).
Proof.
  intros Hs. destruct o; cbn [wiki_op]; try (apply run_saved; [|exact Hs]).
  - by eapply saved_frame, Hs; [apply calls_same|apply undisturbed_rooms].
  - by apply tick_wiki_saved.
  - unfold configure_wiki. destruct (agent_named _ _); [|done].
    destruct (if enabled then _ else _) as [[]|]; [|done..]. apply run_saved; [|done].
    apply quiet_configuration.
  - apply quiet_commit.
  - apply quiet_edit.
  - apply quiet_configuration.
  - apply quiet_reviews.
  - apply quiet_reviews.
  - apply quiet_commit.
  - apply quiet_contexts.
  - apply quiet_contexts.
  - unfold offer_wiki_context. destruct (wiki_snapshot _ _); [|done]. destruct (_ && _); [done|].
    destruct (agent_named _ _); [|done]. destruct (negb _); [done|]. apply run_saved; [|done].
    apply quiet_contexts.
  - apply quiet_contexts.
Qed.

Lemma files_saved room uploader name mime bytes h : saved h ->
  saved (put_pending_attachment room uploader name mime bytes h).1 /\ saved (sweep_attachments h).1.
Proof.
  intros Hs. pose proof (files_calm room uploader name mime bytes h) as [Hc1 Hc2].
  split; (eapply calm_saved, Hs; [|done]); unfold calls, disk, put_pending_attachment, sweep_attachments.
  - lazymatch goal with |- context [store_put_pending_attachment ?a ?b ?c ?d ?e ?f ?g ?i ?s] =>
      pose proof (quiet_upload a b c d e f g i s) as Hq; by destruct (store_put_pending_attachment a b c d e f g i s) end.
  - lazymatch goal with |- context [store_sweep_attachments ?a ?b ?s] =>
      pose proof (quiet_sweep a b s) as Hq; by destruct (store_sweep_attachments a b s) end.
Qed.

Lemma room_ops_saved o h : saved h ->
  match o with
  | OpSubscribe _ | OpJoin _ _ _ _ _ | OpLeave _ _ | OpTyping _ _ _ | OpControl _ _
  | OpReact _ _ _ _ _ _ | OpSetSettings _ _ | OpCreateAttention _ _ | OpClaimAttention _ _ _
  | OpResolveAttention _ _ _ _ _ | OpSetLead _ _ _ | OpSetMode _ _ | OpJournal _ _ _ _
  | OpCreateNote _ _ | OpUpdateNote _ _ _ _ | OpDeleteNote _ _ => saved (run_op o h)
  | _ => True
  end.
Proof.
  intros Hs. destruct o; try exact I; cbn [run_op]; try (apply writable_saved; [intros _|exact Hs]).
  - by eapply one_saved, Hs; [..|apply subscribe_calls|apply subscribe_one].
  - by eapply one_saved, Hs; [..|apply join_room_calls|apply join_room_one].
  - by eapply one_saved, Hs; [..|apply leave_calls|apply leave_one].
  - by eapply one_saved, Hs; [..|apply typing_calls|apply typing_one].
  - by eapply one_saved, Hs; [..|apply control_calls|apply control_one].
  - by eapply one_saved, Hs; [..|apply set_reaction_calls|apply set_reaction_one].
  - by eapply one_saved, Hs; [..|apply create_attention_calls|apply create_attention_one].
  - by eapply one_saved, Hs; [..|apply claim_attention_calls|apply claim_attention_one].
  - by eapply one_saved, Hs; [..|apply resolve_attention_calls|apply resolve_attention_one].
  - by eapply one_saved, Hs; [..|apply set_lead_calls|apply set_lead_one].
  - by eapply one_saved, Hs; [..|apply set_mode_calls|apply set_mode_one].
  - by eapply one_saved, Hs; [..|apply set_settings_calls|apply set_settings_one].
  - by eapply one_saved, Hs; [..|apply append_journal_calls|apply append_journal_one].
  - by eapply one_saved, Hs; [..|apply create_note_calls|apply create_note_one].
  - by eapply one_saved, Hs; [..|apply update_note_calls|apply update_note_one].
  - by eapply one_saved, Hs; [..|apply delete_note_calls|apply delete_note_one].
Qed.

Lemma work_ops_saved o h : building_ok h -> saved h ->
  match o with
  | OpCreateTask _ _ | OpUpdateTask _ _ _ _ | OpCreateGoal _ _ | OpUpdateGoal _ _ _
  | OpSetWait _ _ | OpClearWait _ _ | OpTickCare | OpPost _ _ _ _ | OpDeleteRoom _ =>
      saved (run_op o h)
  | _ => True
  end.
Proof.
  intros Hb Hs. pose proof (building_parts h Hb) as (Hwork & _).
  destruct o; try exact I; cbn [run_op]; try (apply writable_saved; [intros _|exact Hs]).
  - by apply tick_care_saved.
  - by apply post_saved.
  - by apply create_task_saved.
  - by apply update_task_saved.
  - by apply create_goal_saved.
  - by apply update_goal_saved.
  - by apply set_wait_saved.
  - by apply clear_wait_saved.
  - by apply delete_room_saved.
Qed.

Lemma run_op_saved o h : building_ok h -> saved h -> saved (run_op o h).
Proof.
  intros Hb Hs. pose proof (room_ops_saved o h Hs) as Hroom.
  pose proof (work_ops_saved o h Hb Hs) as Hwork.
  destruct o; try exact Hroom; try exact Hwork; clear Hroom Hwork; cbn [run_op].
  - by eapply saved_frame, Hs; [apply calls_same|apply undisturbed_rooms].
  - eapply saved_frame, Hs; [apply expire_live_calls|apply expire_live_undisturbed].
  - by eapply saved_frame, Hs; [apply calls_same|apply undisturbed_rooms].
  - eapply calm_saved, Hs; [|apply lobby_calm].
    apply calls_same. unfold lobby_leave. by destruct (h_lobby_online h !! member).
  - by eapply saved_frame, Hs; [apply calls_same|apply undisturbed_rooms].
  - eapply saved_frame, Hs; [apply ack_care_calls|apply ack_care_undisturbed].
  - eapply calm_saved, Hs; [apply report_runtime_health_calls|apply report_health_calm].
  - eapply saved_frame, Hs; [apply moderate_calls|apply moderate_undisturbed].
  - eapply saved_frame, Hs; [apply create_loca_calls|apply create_loca_undisturbed].
  - eapply calm_saved, Hs; [apply appoint_loca_operator_calls|by apply operator_calm].
  - eapply calm_saved, Hs; [apply revoke_loca_operator_calls|by apply (operator_calm room "")].
  - by apply memory_ops_saved.
  - by apply memory_ops_saved.
  - by apply memory_ops_saved.
  - by apply wiki_op_saved.
  - by apply files_saved.
  - by apply (files_saved "" "" "" "" "").
  - eapply calm_saved, Hs; [apply create_session_scoped_calls|apply create_session_calm].
  - eapply calm_saved, Hs; [apply session_identity_calls|apply session_identity_calm].
  - eapply calm_saved, Hs; [apply revoke_session_calls|apply revoke_session_calm].
  - eapply saved_frame, Hs; [apply admit_member_calls|apply admit_member_undisturbed].
  - eapply saved_frame, Hs; [apply revoke_member_calls|apply revoke_member_undisturbed].
  - eapply saved_frame, Hs; [apply set_member_suspended_calls|apply set_member_suspended_undisturbed].
  - eapply saved_frame, Hs; [apply invite_member_to_room_calls|apply invite_undisturbed].
  - eapply saved_frame, Hs; [apply revoke_invite_calls|apply revoke_invite_undisturbed].
  - eapply calm_saved, Hs; [apply add_smaster_calls|by apply (smaster_calm name "")].
  - eapply calm_saved, Hs; [apply revoke_smaster_calls|by apply (smaster_calm "" token)].
  - eapply calm_saved, Hs; [apply rotate_admin_pairing_for_calls|by apply (pairing_calm ttl_ms "")].
  - eapply calm_saved, Hs; [apply consume_admin_pairing_calls|by apply (pairing_calm 0 candidate)].
  - eapply calm_saved, Hs; [apply create_profile_credential_calls|by apply (credential_calm _ _ "")].
  - eapply calm_saved, Hs; [apply revoke_profile_credential_calls|by apply (credential_calm _ "" _)].
  - eapply calm_saved, Hs; [apply mint_stock_calls|apply mint_stock_calm].
  - eapply saved_frame, Hs; [apply create_join_calls|apply create_join_undisturbed].
  - eapply saved_frame, Hs; [apply approve_join_request_calls|apply approve_join_undisturbed].
  - eapply calm_saved, Hs; [apply deny_join_request_calls|by eapply run_store_calm, surjective_pairing].
  - eapply calm_saved, Hs;
      [apply claim_join_request_bootstrap_calls|by eapply run_store_calm, surjective_pairing].
  - eapply calm_saved, Hs;
      [apply ack_join_request_bootstrap_calls|by eapply run_store_calm, surjective_pairing].
Qed.

Lemma run_ops_saved l h : building_ok h -> saved h -> saved (run_ops l h).
Proof.
  unfold run_ops. revert h. induction l as [|o l IH]; intros h Hb Hs; [done|]. cbn [foldl].
  apply IH; [apply (run_op_ok o h Hb)|by apply run_op_saved].
Qed.
End durable.
