(* ===== verification/RestartFacts.v ===== *)
(** * Restarting the server

    What [Hub::build] reads back is what the tables hold: the tasks, goals and
    waits of every room that is not sealed survive a restart.  An older database is
    upgraded when it is opened, once. *)

From Stdlib Require Import Ascii.
From S2P Require Import Prelude Text Net Protocol StoreApi Sql Tables Hub Ledger Work WorkFacts Waits WaitFacts.
From S2P Require Import Seats Attention Chat ChatFacts Access Membership AccessFacts Joins.
From S2P Require Import Rooms RoomFacts Scheduler SchedulerFacts Server ServerFacts Building.
From S2P Require Import Identity Operators Admission StoreAttention StoreWork StoreMessages StoreFacts.
From S2P Require Import Boot DurableFacts DurableOps.

Open Scope loca_scope.

(** ** Reading rows back *)

Section by_key.
Context `{Countable K} {V : Type} (key : V -> K).

Lemma by_key_snoc l v : by_key key (l ++ [v]) = <[key v := v]> (by_key key l).
Proof. unfold by_key. by rewrite foldl_app. Qed.

(** A list without two values of one key, as a map. *)
Lemma by_key_lookup l k v :
  (forall v1 v2, v1 ∈ l -> v2 ∈ l -> key v1 = key v2 -> v1 = v2) ->
  by_key key l !! k = Some v <-> v ∈ l /\ key v = k.
Proof.
  revert v. induction l as [|x l IH] using rev_ind; intros v Hfun.
  { unfold by_key. cbn. rewrite lookup_empty, elem_of_nil. naive_solver. }
  rewrite by_key_snoc, lookup_insert_Some, IH by set_solver.
  rewrite elem_of_app, list_elem_of_singleton. split.
  - intros [[<- ->]|[Hne [Hin <-]]]; auto.
  - intros [[Hin| ->] <-]; [|by left]. destruct (decide (key x = key v)) as [E|Hne]; [|by right].
    left. split; [done|]. apply Hfun; set_solver.
Qed.

(** The rows of one room, filed under their own key, as a map. *)
Lemma by_key_room (m : gmap (string * K) V) room l :
  (forall v, v ∈ l <-> exists k, m !! (room, k) = Some v) ->
  (forall k v, m !! (room, k) = Some v -> key v = k) ->
  forall k, by_key key l !! k = m !! (room, k).
Proof.
  intros Hl Hk k. apply option_eq. intros v. rewrite by_key_lookup.
  - rewrite Hl. split; [|intros E; split; [by exists k|by apply Hk]].
    intros [[k' E] <-]. by rewrite (Hk _ _ E).
  - intros v1 v2 [k1 E1]%Hl [k2 E2]%Hl E. rewrite (Hk _ _ E1), (Hk _ _ E2) in E. congruence.
Qed.
End by_key.

Section rows.
Context `{Countable K} {V : Type}.

Lemma of_room_elem (m : gmap (string * K) V) room kv :
  kv ∈ of_room fst room m <-> kv.1.1 = room /\ m !! kv.1 = Some kv.2.
Proof.
  unfold of_room. rewrite list_elem_of_In, filter_In, <- list_elem_of_In.
  rewrite bool_decide_eq_true. destruct kv as [k v]. rewrite elem_of_map_to_list. cbn. tauto.
Qed.

Lemma of_room_values (m : gmap (string * K) V) room v :
  v ∈ map snd (of_room fst room m) <-> exists k, m !! (room, k) = Some v.
Proof.
  rewrite list_elem_of_fmap. split.
  - intros ([[n k] v'] & -> & [<- E]%of_room_elem). by exists k.
  - intros [k E]. exists ((room, k), v). by rewrite of_room_elem.
Qed.
End rows.

Section restart.
Context `{Unicode} `{Csprng} `{Digest} `{WallClock}.
Implicit Types h : Hub (Conn Tables).
Implicit Types t : Tables.

#[local] Existing Instances calls_refl calls_trans undisturbed_refl undisturbed_trans.

(** ** A room *)

Lemma sorted_values {K V} `{Countable K} (m : gmap (string * K) V) (key : V -> N) room v :
  v ∈ sort_by_N key (map snd (of_room fst room m)) <-> exists k, m !! (room, k) = Some v.
Proof. rewrite (sort_by_N_Permutation key). apply of_room_values. Qed.

Lemma waits_values t room w :
  w ∈ db_load_waits t room <-> exists k, t_waits t !! (room, k) = Some w.
Proof.
  unfold db_load_waits. rewrite <- (of_room_values (t_waits t) room w).
  rewrite !list_elem_of_fmap. setoid_rewrite (merge_sort_Permutation _). done.
Qed.

Lemma restore_room_work t room :
  r_tasks (restore_room t room) = by_key task_id (db_load_tasks t room) /\
  r_goals (restore_room t room) = by_key goal_id (db_load_goals t room) /\
  r_waits (restore_room t room) = by_key wait_waiter (db_load_waits t room).
Proof. unfold restore_room. destruct (stored_mode t room). done. Qed.

Lemma restore_room_matches t room : keyed t -> matches t room (restore_room t room).
Proof.
  intros [Kt Kg Kw]. destruct (restore_room_work t room) as (Et & Eg & Ew).
  constructor; intros k; rewrite ?Et, ?Eg, ?Ew; symmetry; apply by_key_room.
  - intros v. apply sorted_values.
  - intros i v E. by destruct (Kt _ _ _ E).
  - intros v. apply sorted_values.
  - intros i v E. by destruct (Kg _ _ _ E).
  - intros v. apply waits_values.
  - intros i v E. by destruct (Kw _ _ _ E).
Qed.

Lemma rooms_of_elem {K V} `{Countable K} (room : K -> V -> string) (m : gmap K V) k v :
  m !! k = Some v -> room k v ∈ rooms_of room m.
Proof.
  intros E. unfold rooms_of. apply elem_of_list_to_set, list_elem_of_fmap.
  exists (k, v). split; [done|]. by apply elem_of_map_to_list.
Qed.

Lemma sealed_rooms_elem t n : n ∈ db_sealed_rooms t <-> sealed_row t n = true.
Proof.
  unfold db_sealed_rooms, sealed_row. rewrite list_elem_of_fmap. split.
  - intros ([m r] & -> & Hin). apply list_elem_of_In, filter_In in Hin as [Hin Hr].
    apply list_elem_of_In, elem_of_map_to_list in Hin. cbn. by rewrite Hin.
  - destruct (t_rooms t !! n) as [r|] eqn:E; [|done]. intros Hr. exists (n, r). split; [done|].
    apply list_elem_of_In, filter_In. split; [|done]. by apply list_elem_of_In, elem_of_map_to_list.
Qed.

(** A room without a row has no work. *)
Lemma unstored_matches t n s :
  sealed_row t n = false -> n ∉ stored_rooms t -> matches t n (room_with Free s 1).
Proof.
  intros Hs Hn. assert (n ∉ db_sealed_rooms t) as Hns.
  { intros Hin%sealed_rooms_elem. congruence. }
  assert (forall (K V : Type) (EqK : EqDecision K) (CK : Countable K) (m : gmap (string * K) V) k,
    rooms_of (fun k _ => k.1) m ⊆ stored_rooms t ∪ list_to_set (db_sealed_rooms t) ->
    m !! (n, k) = None) as Hnone.
  { intros K V EqK CK m k Hsub. destruct (m !! (n, k)) as [v|] eqn:E; [|done].
    apply (rooms_of_elem (fun k _ => k.1)) in E. cbn in E. apply Hsub in E. set_solver. }
  constructor; intros k; cbn; rewrite lookup_empty; eapply Hnone;
    unfold stored_rooms; intros x Hx; destruct (decide (x ∈ db_sealed_rooms t)); set_solver.
Qed.

Lemma restore_rooms_entry h n :
  keyed (disk h) -> sealed_row (disk h) n = false ->
  matches (disk h) n (entry_room n (restore_rooms h)).
Proof.
  intros Hk Hs. unfold entry_room, restore_rooms. cbn [h_rooms with_h_rooms with_h_next_id
    with_h_condition_generation h_default_settings]. fold (disk h).
  destruct (list_to_map _ !! n) as [r|] eqn:E; cbn [default].
  - apply elem_of_list_to_map_2, list_elem_of_fmap in E as (m & [= <- ->] & _).
    by apply restore_room_matches.
  - apply unstored_matches; [done|]. intros Hin. apply not_elem_of_list_to_map_2 in E.
    apply E. rewrite <- list_fmap_compose. apply list_elem_of_fmap.
    exists n. split; [done|]. by apply elem_of_elements.
Qed.
(** ** The steps of the start *)

(** Nothing of the work, in memory or on disk, of the messages on disk, of the
    bans, and of the next message id. *)
Record still h h' : Prop := {
  sl_calls : calls h h';
  sl_rooms : undisturbed h h';
  sl_talk : same_talk (disk h) (disk h');
  sl_next : h_next_id h' = h_next_id h;
}.
#[local] Instance still_refl : Reflexive still.
Proof. intros h. by split. Qed.
#[local] Instance still_trans : Transitive still.
Proof.
  intros h1 h2 h3 [? ? ? ?] [? ? ? ?]. constructor; [by etransitivity..|congruence].
Qed.

Lemma still_same h h' :
  h_store h' = h_store h -> h_deleted h' = h_deleted h -> h_rooms h' = h_rooms h ->
  h_next_id h' = h_next_id h -> still h h'.
Proof.
  intros Hs Hd Hr Hn. constructor; [by apply calls_same|by apply undisturbed_rooms| |done].
  unfold disk. by rewrite Hs.
Qed.

Lemma still_run {A} (f : Conn Tables -> Conn Tables * A) h h' a :
  hushed f -> run_store f h = (h', a) -> still h h'.
Proof.
  intros [Hf Ht] [-> _]%run_store_state.
  constructor; [by apply calls_run|apply stored_undisturbed|apply Ht|done].
Qed.

Lemma still_put n r h : same_maps (entry_room n h) r -> still h (put_room n r h).
Proof. intros Hr. constructor; [by apply calls_same|by apply undisturbed_put|done|done]. Qed.

Lemma still_foldl {A} (f : Hub (Conn Tables) -> A -> Hub (Conn Tables)) l h :
  (forall h x, still h (f h x)) -> still h (foldl f h l).
Proof.
  intros Hf. revert h. induction l as [|x l IH]; intros h; [reflexivity|]. cbn [foldl].
  etransitivity; [apply Hf|apply IH].
Qed.

Lemma migrate_operator_still room settings h : still h (migrate_operator room settings h).1.
Proof.
  unfold migrate_operator. destruct (db_loca_operator _ _); [reflexivity|].
  destruct (rs_operators settings) as [|label [|]]; try reflexivity.
  destruct (db_active_human_principals_named _ _) as [|p [|]]; try reflexivity.
  destruct (db_active_master_principal _) as [master|]; [|reflexivity].
  destruct (run_store _ _) as [h1 made] eqn:E. eapply still_run, E.
  apply hushed_appoint.
Qed.

Lemma migrate_room_operators_still h entry : still h (migrate_room_operators h entry).
Proof.
  destruct entry as [room r]. unfold migrate_room_operators.
  pose proof (migrate_operator_still room (r_settings r) h) as Hm.
  destruct (migrate_operator _ _ _) as [h1 migrated]. cbn [fst] in Hm.
  destruct migrated; [|exact Hm]. destruct (run_store _ _) as [h2 saved] eqn:E.
  apply still_run in E; [|apply hushed_save_room].
  assert (still h h2) as Hs by by etransitivity. destruct saved; [|done].
  destruct (h_rooms h2 !! room) as [r2|] eqn:Er; [|done].
  etransitivity; [exact Hs|]. apply still_put. by rewrite (entry_room_Some _ _ _ Er).
Qed.

Lemma restore_sessions_still found h h' : restore_sessions found h = Some h' -> still h h'.
Proof.
  revert h. induction found as [|[[[token name] kind] expires] found IH]; intros h;
    cbn [restore_sessions]; [by intros [= <-]|].
  assert (forall h1 d, run_store (db_delete_admin_session token) h = (h1, d) -> still h h1) as Hd.
  { intros h1 d E. eapply still_run, E. apply hushed_delete_admin_session. }
  destruct (run_store _ h) as [h1 d] eqn:E. specialize (Hd _ _ eq_refl).
  assert (forall h2, still h h2 -> restore_sessions found h2 = Some h' -> still h h') as Hnext.
  { intros h2 Hs Hr. etransitivity; [exact Hs|by apply IH]. }
  destruct (db_principal_for_session _ _ _) as [p|]; [destruct (_ || _)|];
    try (destruct d; [|done]; by apply Hnext).
  apply Hnext. by apply still_same.
Qed.

Lemma load_sessions_still h h' : load_sessions h = Some h' -> still h h'.
Proof.
  unfold load_sessions. destruct (run_store _ _) as [h1 found] eqn:E.
  apply still_run in E; [|apply hushed_load_admin_sessions].
  destruct found; intros Hr%restore_sessions_still; by etransitivity.
Qed.

Lemma bind_orphan_still h token : still h (bind_orphan h token).
Proof.
  unfold bind_orphan. destruct (h_invites h !! token) as [i|]; [|reflexivity].
  destruct (match find_value _ _ with Some _ => _ | None => _ end) as [h1 member] eqn:Em.
  assert (still h h1) as Hs.
  { destruct (find_value _ _) as [m|]; [by injection Em as <- _|].
    unfold new_invite_token, secure_token in Em. cbn beta iota zeta in Em.
    destruct (run_store _ _) as [h2 w] eqn:E. injection Em as <- _.
    apply still_run in E; [|apply hushed_add_member].
    transitivity h2; [|by apply still_same]. etransitivity; [|exact E]. by apply still_same. }
  destruct (run_store _ _) as [h3 w] eqn:E. apply still_run in E; [|apply hushed_insert_invite].
  etransitivity; [exact Hs|]. etransitivity; [|exact E]. by apply still_same.
Qed.

Lemma revoke_stale_still stale h h' : revoke_stale stale h = Some h' -> still h h'.
Proof.
  revert h. induction stale as [|token stale IH]; intros h; cbn [revoke_stale]; [by intros [= <-]|].
  destruct (run_store _ _) as [h1 w] eqn:E.
  apply still_run in E; [|apply hushed_revoke_invite]. destruct w; [|done].
  intros Hr%IH. etransitivity; [exact E|]. etransitivity; [|exact Hr]. by apply still_same.
Qed.

Lemma clean_reserved_still h h' : clean_reserved h = Some h' -> still h h'.
Proof.
  unfold clean_reserved. destruct (str_is_empty _); [by intros [= <-]|apply revoke_stale_still].
Qed.

Lemma restore_home_still h : still h (restore_home h).
Proof. unfold restore_home. apply still_put. by destruct (r_journal _). Qed.

Lemma restore_ban_still h ban : still h (restore_ban h ban).
Proof.
  destruct ban as [[room name] kind]. unfold restore_ban. apply still_put.
  by repeat case_decide.
Qed.
(** ** The start *)

Lemma restore_rooms_sealed h n :
  sealed_row (disk h) n = true ->
  entry_room n (restore_rooms h) = room_with Free (h_default_settings h) 1.
Proof.
  intros Hs. apply sealed_rooms_elem in Hs. unfold entry_room, restore_rooms.
  cbn [h_rooms with_h_rooms with_h_next_id with_h_condition_generation h_default_settings].
  fold (disk h). rewrite not_elem_of_list_to_map_1; [done|].
  rewrite <- list_fmap_compose. intros (m & Em & Hin)%list_elem_of_fmap. cbn in Em. subst m.
  apply elem_of_elements in Hin. unfold stored_rooms in Hin. apply elem_of_difference in Hin as [_ Hin].
  apply Hin. by apply elem_of_list_to_set.
Qed.

(** What the steps between the rooms and the seals do. *)
Definition started (h : Hub (Conn Tables)) : option (Hub (Conn Tables)) :=
  let t := disk h in
  let h := with_h_members (by_key mb_token (db_load_members t)) h in
  let h := with_h_smasters (list_to_map (db_load_smasters t)) h in
  h ← load_sessions (migrate_operators h);
  h ← clean_reserved (bind_orphans h);
  Some (foldl restore_ban (restore_home h) (db_load_bans (disk (restore_home h)))).

Lemma started_still h h' : started h = Some h' -> still h h'.
Proof.
  unfold started. set (h1 := with_h_smasters _ _). assert (still h h1) as H1' by by apply still_same.
  pose proof (still_foldl migrate_room_operators (List.filter (fun e =>
    negb (bool_decide (rs_operators (r_settings e.2) = []))) (map_to_list (h_rooms h1))) h1
    migrate_room_operators_still) as H2'.
  fold (migrate_operators h1) in H2'.
  destruct (load_sessions _) as [h3|] eqn:E3; [|done]. apply load_sessions_still in E3.
  cbn [mbind option_bind].
  assert (still h3 (bind_orphans h3)) as H4' by (apply still_foldl; apply bind_orphan_still).
  destruct (clean_reserved _) as [h5|] eqn:E5; [|done]. apply clean_reserved_still in E5.
  cbn [mbind option_bind]. intros [= <-].
  etransitivity; [exact H1'|]. etransitivity; [exact H2'|]. etransitivity; [exact E3|].
  etransitivity; [exact H4'|]. etransitivity; [exact E5|].
  etransitivity; [apply restore_home_still|]. apply still_foldl. apply restore_ban_still.
Qed.

Lemma build_started cfg name ds epoch entropy c h :
  build cfg name ds epoch entropy c = Some h ->
  exists h0 h1, same_work (tables c) (disk h0) /\ same_talk (tables c) (disk h0) /\
    started (restore_rooms h0) = Some h1 /\
    h = with_h_deleted (list_to_set (db_sealed_rooms (disk h1))) h1.
Proof.
  unfold build. pose proof (hushed_ensure_master (cfg_admin_token cfg) name current_time_ms) as [Hc Ht].
  specialize (Hc c). specialize (Ht c).
  destruct (db_ensure_master_principal _ _ _ c) as [c1 ensured]. cbn [fst] in Hc, Ht.
  destruct ensured; [|done]. set (h0 := fresh_pairing _). cbv zeta.
  assert (tables c1 = disk (restore_rooms h0)) as -> by done.
  intros Hb. exists h0.
  destruct (started (restore_rooms h0)) as [h1|] eqn:Es; unfold started in Es; cbv zeta in Es.
  - exists h1. split; [exact Hc|]. split; [exact Ht|]. split; [done|]. revert Es Hb.
    destruct (load_sessions _) as [h3|]; [|done]. cbn [mbind option_bind].
    destruct (clean_reserved _) as [h5|]; [|done]. cbn [mbind option_bind].
    intros [= <-] [= <-]. done.
  - revert Es Hb. destruct (load_sessions _) as [h3|]; [|done]. cbn [mbind option_bind].
    destruct (clean_reserved _) as [h5|]; [|done]. done.
Qed.

Lemma matches_filed t n r : keyed t -> matches t n r -> filed n r.
Proof.
  intros [Kt Kg Kw] [Mt Mg Mw]. constructor; intros i x E.
  - apply Kt. by rewrite Mt.
  - apply Kg. by rewrite Mg.
  - apply Kw. by rewrite Mw.
Qed.

(** The server that starts is where the disk is. *)
Lemma build_saved cfg name ds epoch entropy c h :
  keyed (tables c) -> one_per_operation (tables c) -> outbox_ok (tables c) ->
  build cfg name ds epoch entropy c = Some h ->
  saved (t_messages (tables c)) h /\ same_work (tables c) (disk h).
Proof.
  intros Hk Ho Hb (h0 & h1 & Hc & _ & Hst & ->)%build_started. apply started_still in Hst as [Hc1 Hu1 _ _].
  change (disk (restore_rooms h0)) with (disk h0) in *.
  assert (same_work (disk h0) (disk h1)) as Hc1' by exact Hc1.
  assert (keyed (disk h0)) as Hk0 by by eapply keyed_same.
  assert (forall n, sealed_row (disk h1) n = false -> matches (disk h1) n (entry_room n h1)) as Hm.
  { intros n Hn. rewrite (sw_sealed _ _ Hc1') in Hn. eapply matches_same; [exact Hc1'|].
    eapply matches_maps; [apply Hu1|]. by apply restore_rooms_entry. }
  split; [|by etransitivity]. constructor.
  - by eapply keyed_same.
  - intros n. change (filed n (entry_room n h1)). destruct (sealed_row (disk h1) n) eqn:Hs.
    + eapply filed_maps; [apply Hu1|]. rewrite (sw_sealed _ _ Hc1') in Hs.
      rewrite restore_rooms_sealed by done. constructor; cbn; intros ? ?; by rewrite lookup_empty.
    + eapply matches_filed, Hm, Hs. by eapply keyed_same.
  - cbn. intros n Hn. apply Hm. apply not_true_iff_false. intros Hs. apply Hn.
    by apply elem_of_list_to_set, sealed_rooms_elem.
  - intros n. cbn. rewrite elem_of_list_to_set. symmetry. apply sealed_rooms_elem.
  - change (t_messages (tables c) ⊆ t_messages (disk h1)). etrans; [apply Hc|apply Hc1'].
  - by apply Hc1', Hc.
  - by apply Hc1', Hc.
Qed.
End restart.

(** ** Opening the database *)

Section opening.
Context `{Digest}.
Implicit Types t : Tables.

(** What a computation leaves alone at [t], whatever fails. *)
Definition fixed t : relation Tables := fun x y => x = t -> y = t.
#[local] Instance fixed_refl t : Reflexive (fixed t).
Proof. intros x E. exact E. Qed.
#[local] Instance fixed_trans t : Transitive (fixed t).
Proof. intros x y z Hxy Hyz E. auto. Qed.

Lemma fixed_query {E A B} t (f : Tables -> A) (k : A -> Sql Tables E B) :
  keeps (fixed t) (k (f t)) -> keeps (fixed t) (bind (query f) k).
Proof. intros Hk c Hc. apply (Hk c) in Hc as Hk'. unfold bind, query. cbn. by rewrite Hc. Qed.

Lemma fixed_execute {E} t (e : E) ps stmt :
  (forall t' n, stmt t = Some (t', n) -> t' = t) -> keeps (fixed t) (execute e ps stmt).
Proof. intros Hs. apply keeps_execute; [apply _|]. intros x y n Hx ->. by eapply Hs. Qed.

Lemma fixed_regardless {E E' A} t (m : Sql Tables E A) :
  keeps (fixed t) m -> keeps (fixed t) (regardless (E' := E') m).
Proof. intros Hm c. apply Hm. Qed.

Lemma fixed_on_table {E K V} `{Countable K} t (e : E) ps (get : Tables -> gmap K V) put f :
  put (get t) t = t -> (f (get t)).1 = get t -> keeps (fixed t) (execute e ps (on_table get put f)).
Proof.
  intros Hput Hf. apply fixed_execute. unfold on_table. intros t' n.
  destruct (f (get t)) as [v k]. cbn in Hf. subst v. by intros [= <- _].
Qed.

Lemma map_imap_id {K V} `{Countable K} (f : K -> V -> V) (m : gmap K V) :
  (forall k v, m !! k = Some v -> f k v = v) -> map_imap (fun k v => Some (f k v)) m = m.
Proof.
  intros Hf. apply map_eq. intros k. rewrite map_lookup_imap. destruct (m !! k) eqn:E; [|done].
  cbn. by rewrite Hf.
Qed.

(** ** The tables that an opening leaves as they are *)

Definition legacy_known t (role token : string) : Prop :=
  is_Some (t_principals t !! hashed_id "pr_" (role +:+ ":" +:+ token)) /\
  forall pid label at_ revoked_at, credential_conflicts t (hashed_id "cr_" (role +:+ ":" +:+ token))
    (mkCredentialRow pid label (secret_hash token) at_ None revoked_at
       (Some (role +:+ ":" +:+ secret_hash token))) = true.

Record upgraded t : Prop := {
  up_tasks : forall k x, t_tasks t !! k = Some x -> task_progress_at x = 0%N -> task_created_at x = 0%N;
  up_goals : forall k x, t_goals t !! k = Some x -> goal_progress_at x = 0%N -> goal_created_at x = 0%N;
  up_outbox : forall id o, t_outbox t !! id = Some o ->
    own_attention id o = o /\ named_signal o = ob_signal o /\ is_Some (t_attentions t !! ob_attention_id o);
  up_members : forall token m, t_members t !! token = Some m -> legacy_known t "member" token;
  up_smasters : forall token s, t_smasters t !! token = Some s -> legacy_known t "smaster" token;
}.

Lemma legacy_left_alone t role label token name kind at_ revoked_at :
  legacy_known t role token -> role <> "master"%string ->
  keeps (fixed t) (insert_legacy role label token name kind at_ revoked_at).
Proof.
  intros [[p Ep] Hc] Hr. unfold insert_legacy, unit_of.
  apply keeps_bind; [apply _| |intros _; apply keeps_bind; [apply _| |intros _; apply keeps_ret, _]].
  - apply fixed_execute. unfold insert_or_ignore_principal, insert_or_ignore. cbn.
    rewrite bool_decide_eq_false_2, Ep by done. cbn. intros t' n [= <- _]. by destruct t.
  - apply fixed_execute. unfold insert_or_ignore_credential. rewrite Hc. by intros t' n [= <- _].
Qed.

Lemma deliveries_left_alone t rows :
  upgraded t -> (forall id o, (id, o) ∈ rows -> t_outbox t !! id = Some o) ->
  keeps (fixed t) (promote_deliveries rows).
Proof.
  intros Hu. induction rows as [|[id o] rows IH]; intros Hin; cbn [promote_deliveries].
  { apply keeps_ret, _. }
  pose proof (Hin id o ltac:(by left)) as Eo. destruct (up_outbox t Hu _ _ Eo) as (_ & Hs & [a Ea]).
  apply keeps_bind; [apply _| |intros _; apply keeps_bind; [apply _| |intros _; apply IH; intros; apply Hin; by right]].
  - apply fixed_on_table; [by destruct t|]. cbn. apply (map_imap_id (fun k v => if bool_decide (k = id) then _ v else v)).
    intros k v Ev. case_bool_decide; [|done]. subst k. assert (v = o) as -> by congruence.
    rewrite Hs. by destruct o.
  - apply fixed_on_table; [by destruct t|]. unfold insert_or_ignore. by rewrite Ea.
Qed.

Lemma members_left_alone t rows :
  (forall token m, (token, m) ∈ rows -> legacy_known t "member" token) ->
  keeps (fixed t) (migrate_members rows).
Proof.
  induction rows as [|[token m] rows IH]; intros Hin; cbn [migrate_members]; [apply keeps_ret, _|].
  apply keeps_bind; [apply _| |intros _; apply IH; intros; eapply Hin; by right].
  apply legacy_left_alone; [|done]. eapply Hin. by left.
Qed.
Lemma smasters_left_alone t rows :
  (forall token s, (token, s) ∈ rows -> legacy_known t "smaster" token) ->
  keeps (fixed t) (migrate_smasters rows).
Proof.
  induction rows as [|[token s] rows IH]; intros Hin; cbn [migrate_smasters]; [apply keeps_ret, _|].
  apply keeps_bind; [apply _| |intros _; apply IH; intros; eapply Hin; by right].
  apply legacy_left_alone; [|done]. eapply Hin. by left.
Qed.

Lemma upgraded_left_alone t : upgraded t -> keeps (fixed t) (db_open true).
Proof.
  intros Hu. unfold db_open, backfill_progress, name_deliveries, migrate_legacy_principals.
  repeat (apply keeps_bind; [apply _| |intros _]); try (apply fixed_regardless);
    try (apply keeps_transaction; [apply _|]).
  - apply fixed_on_table; [by destruct t|]. cbn.
    apply (map_imap_id (fun k v => if (task_progress_at v =? 0)%N then _ v else v)).
    intros k v Ev. destruct (N.eqb_spec (task_progress_at v) 0) as [E|]; [|done].
    pose proof (up_tasks t Hu k v Ev E) as Ec. rewrite Ec, <- E. by destruct v.
  - apply fixed_on_table; [by destruct t|]. cbn.
    apply (map_imap_id (fun k v => if (goal_progress_at v =? 0)%N then _ v else v)).
    intros k v Ev. destruct (N.eqb_spec (goal_progress_at v) 0) as [E|]; [|done].
    pose proof (up_goals t Hu k v Ev E) as Ec. rewrite Ec, <- E. by destruct v.
  - apply fixed_on_table; [by destruct t|]. cbn. apply map_imap_id. intros k v Ev. by apply (up_outbox t Hu).
  - apply fixed_query. apply deliveries_left_alone; [done|]. intros id o. by rewrite elem_of_map_to_list.
  - apply fixed_query. apply keeps_bind; [apply _| |intros _].
    + apply members_left_alone. intros token m. rewrite elem_of_map_to_list. apply (up_members t Hu).
    + apply fixed_query, smasters_left_alone. intros token s. rewrite elem_of_map_to_list. apply (up_smasters t Hu).
  - apply keeps_ret, _.
Qed.

(** ** An opening upgrades the tables *)

(** Principals and credentials are added, the rest is as it was. *)
Record extends t t' : Prop := {
  ex_principals : forall id, is_Some (t_principals t !! id) -> is_Some (t_principals t' !! id);
  ex_credentials : t_credentials t ⊆ t_credentials t';
  ex_rest : t_tasks t' = t_tasks t /\ t_goals t' = t_goals t /\ t_outbox t' = t_outbox t
    /\ t_attentions t' = t_attentions t /\ t_members t' = t_members t /\ t_smasters t' = t_smasters t;
}.
#[local] Instance extends_refl : Reflexive extends.
Proof. intros t. by constructor. Qed.
#[local] Instance extends_trans : Transitive extends.
Proof.
  intros t1 t2 t3 [P1 C1 (?&?&?&?&?&?)] [P2 C2 (?&?&?&?&?&?)]. constructor; [auto|by etrans|].
  split_and!; congruence.
Qed.

Lemma select_where_none_mono {V} (p : string -> V -> bool) (m m' : gmap string V) :
  m ⊆ m' -> is_none (select_where p m) = false -> is_none (select_where p m') = false.
Proof.
  intros Hm. destruct (select_where p m) as [[k v]|] eqn:E; [intros _|done].
  apply select_where_Some in E as [Ek Hp]. destruct (select_where p m') eqn:E'; [done|].
  rewrite (proj1 (select_where_None p m') E' k v) in Hp; [done|]. by eapply lookup_weaken.
Qed.

Lemma conflicts_mono t t' id r :
  t_credentials t ⊆ t_credentials t' -> credential_conflicts t id r = true ->
  credential_conflicts t' id r = true.
Proof.
  intros Hm. unfold credential_conflicts, credential_with_hash. rewrite !orb_true_iff, !negb_true_iff.
  intros [[Hi|Hh]|Hs].
  - left; left. destruct (t_credentials t !! id) eqn:E; [|done]. by rewrite (lookup_weaken _ _ _ _ E Hm).
  - left; right. by eapply select_where_none_mono.
  - right. destruct (cr_legacy_source r); [|done]. apply negb_true_iff in Hs. apply negb_true_iff.
    by eapply select_where_none_mono.
Qed.

Lemma legacy_known_mono t t' role token :
  extends t t' -> legacy_known t role token -> legacy_known t' role token.
Proof.
  intros Hx [Hp Hc]. split; [by apply (ex_principals _ _ Hx)|]. intros.
  eapply conflicts_mono; [apply Hx|apply Hc].
Qed.

Lemma insert_principal_extends id p t t' n :
  insert_or_ignore_principal id p t = Some (t', n) -> extends t t'.
Proof.
  unfold insert_or_ignore_principal, insert_or_ignore. destruct (_ && _); [by intros [= <- _]|].
  destruct (t_principals t !! id) eqn:E; intros [= <- _]; constructor; try done.
  intros j. cbn. rewrite lookup_insert_is_Some'. auto.
Qed.
Lemma insert_legacy_credential_extends id r t t' n :
  insert_or_ignore_credential id r t = Some (t', n) ->
  extends t t' /\ credential_conflicts t' id r = true.
Proof.
  unfold insert_or_ignore_credential. destruct (credential_conflicts t id r) eqn:Ec; [by intros [= <- _]|].
  unfold insert_credential. rewrite Ec. destruct (is_none _); [done|]. intros [= <- _]. split.
  - constructor; [done| |done]. cbn. apply insert_subseteq.
    unfold credential_conflicts in Ec. by destruct (t_credentials t !! id).
  - unfold credential_conflicts. cbn. by rewrite lookup_insert_eq.
Qed.

Lemma legacy_inserted role label token name kind at_ revoked_at c c' u :
  role <> "master"%string ->
  insert_legacy role label token name kind at_ revoked_at c = (c', Ok u) ->
  extends (tables c) (tables c') /\ legacy_known (tables c') role token.
Proof.
  intros Hr. unfold insert_legacy. intros Hi. sql.
  match goal with H1 : insert_or_ignore_principal _ _ _ = _, H2 : insert_or_ignore_credential _ _ _ = _ |- _ =>
    pose proof (insert_principal_extends _ _ _ _ _ H1) as Hx1;
    apply insert_legacy_credential_extends in H2 as [Hx2 Hc];
    unfold insert_or_ignore_principal, insert_or_ignore in H1; cbn in H1;
    rewrite bool_decide_eq_false_2 in H1 by done; cbn in H1 end.
  split; [by etrans|]. split; [|intros; exact Hc]. apply (ex_principals _ _ Hx2).
  destruct (t_principals (tables c) !! _) eqn:E; cbn in *; simplify_eq.
  - match goal with H1 : Some _ = Some _ |- _ => idtac | H1 : with_t_principals _ _ = tables c0 |- _ => rewrite <- H1 end.
    cbn. by rewrite E.
  - match goal with H1 : with_t_principals _ _ = tables c0 |- _ => rewrite <- H1 end.
    cbn. by rewrite lookup_insert_eq.
Qed.

Lemma members_migrated rows c c' u :
  migrate_members rows c = (c', Ok u) -> extends (tables c) (tables c') /\
  forall token m, (token, m) ∈ rows -> legacy_known (tables c') "member" token.
Proof.
  revert c. induction rows as [|[token m] rows IH]; intros c; cbn [migrate_members].
  { intros [-> _]%ret_ok. split; [done|]. by intros ? ? ?%elem_of_nil. }
  intros (c1 & a & [Hx Hk]%legacy_inserted & [Hx' Hks]%IH)%bind_ok; [|done]. split; [by etrans|].
  intros tk m' [[= -> ->]|Hin]%elem_of_cons; [by eapply legacy_known_mono|by eapply Hks].
Qed.
Lemma smasters_migrated rows c c' u :
  migrate_smasters rows c = (c', Ok u) -> extends (tables c) (tables c') /\
  forall token s, (token, s) ∈ rows -> legacy_known (tables c') "smaster" token.
Proof.
  revert c. induction rows as [|[token s] rows IH]; intros c; cbn [migrate_smasters].
  { intros [-> _]%ret_ok. split; [done|]. by intros ? ? ?%elem_of_nil. }
  intros (c1 & a & [Hx Hk]%legacy_inserted & [Hx' Hks]%IH)%bind_ok; [|done]. split; [by etrans|].
  intros tk s' [[= -> ->]|Hin]%elem_of_cons; [by eapply legacy_known_mono|by eapply Hks].
Qed.

Lemma legacy_migrated c c' u :
  migrate_legacy_principals c = (c', Ok u) -> extends (tables c) (tables c') /\
  (forall token m, t_members (tables c') !! token = Some m -> legacy_known (tables c') "member" token) /\
  (forall token s, t_smasters (tables c') !! token = Some s -> legacy_known (tables c') "smaster" token).
Proof.
  unfold migrate_legacy_principals. intros (c2 & Hb & ->)%transaction_ok. sql. subst.
  match goal with H1 : migrate_members _ _ = _, H2 : migrate_smasters _ _ = _ |- _ =>
    apply members_migrated in H1 as [Hx1 Hm]; apply smasters_migrated in H2 as [Hx2 Hs] end.
  cbn [tables past_fault] in *.
  assert (extends (tables c) (tables c2)) as Hx by by etrans. split; [done|].
  pose proof (ex_rest _ _ Hx) as (_ & _ & _ & _ & Em & _).
  pose proof (ex_rest _ _ Hx2) as (_ & _ & _ & _ & _ & Es). split.
  - intros token m Hin. eapply legacy_known_mono; [exact Hx2|]. apply (Hm token m).
    rewrite elem_of_map_to_list. congruence.
  - intros token s Hin. apply (Hs token s). rewrite elem_of_map_to_list. congruence.
Qed.

Lemma deliveries_promoted rows : forall c c' u,
  NoDup rows.*1 -> (forall id o, (id, o) ∈ rows -> t_outbox (tables c) !! id = Some o) ->
  promote_deliveries rows c = (c', Ok u) ->
  exists O A, tables c' = with_t_attentions A (with_t_outbox O (tables c)) /\
    (forall id o, (id, o) ∈ rows ->
       O !! id = Some (with_signal (named_signal o) o) /\ is_Some (A !! ob_attention_id o)) /\
    (forall id, id ∉ rows.*1 -> O !! id = t_outbox (tables c) !! id) /\ t_attentions (tables c) ⊆ A.
Proof.
  induction rows as [|[id o] rows IH]; intros c c' u Hnd Hin; cbn [promote_deliveries].
  { intros [-> _]%ret_ok. exists (t_outbox (tables c)), (t_attentions (tables c)).
    split_and!; [by destruct (tables c)|by intros ? ? ?%elem_of_nil|done|done]. }
  apply NoDup_cons in Hnd as [Hni Hnd].
  intros (c1 & n1 & [E1 _]%execute_ok & Hb)%bind_ok. apply bind_ok in Hb as (c2 & n2 & [E2 _]%execute_ok & Hp).
  unfold on_table in E1, E2. cbn in E1. injection E1 as E1 _.
  destruct (insert_or_ignore _ _ _) as [A1 k] eqn:EA. injection E2 as E2 _.
  assert (t_attentions (tables c) ⊆ A1 /\ is_Some (A1 !! ob_attention_id o)) as [HA1 Ho].
  { revert EA. rewrite <- E1. unfold insert_or_ignore. cbn. destruct (t_attentions (tables c) !! _) eqn:E.
    - intros [= <- _]. by rewrite E.
    - intros [= <- _]. split; [by apply insert_subseteq|by rewrite lookup_insert_eq]. }
  assert (forall j, t_outbox (tables c2) !! j = (fun v => if bool_decide (j = id) then
     with_signal (named_signal o) v else v) <$> t_outbox (tables c) !! j) as HO.
  { intros j. rewrite <- E2, <- E1. cbn. rewrite map_lookup_imap. by destruct (t_outbox (tables c) !! j). }
  apply IH in Hp as (O & A & E & Hrows & Hrest & HA); [|done|]; cycle 1.
  { intros j v Hj. rewrite HO, (Hin j v) by by right. cbn. rewrite bool_decide_eq_false_2; [done|].
    intros ->. apply Hni. by apply (list_elem_of_fmap_2 fst) in Hj. }
  assert (A1 ⊆ A) as HA' by (revert HA; by rewrite <- E2, <- E1).
  exists O, A. split_and!.
  - rewrite E, <- E2, <- E1. done.
  - intros j v [[= -> ->]|Hj]%elem_of_cons; [|by apply Hrows]. split.
    + rewrite Hrest by done. rewrite HO, (Hin id o) by by left. cbn. by rewrite bool_decide_eq_true_2.
    + destruct Ho as [a Ea]. exists a. by eapply lookup_weaken.
  - intros j Hj. apply not_elem_of_cons in Hj as [Hne Hj]. rewrite Hrest, HO by done.
    rewrite bool_decide_eq_false_2 by done. by destruct (t_outbox (tables c) !! j).
  - by etrans.
Qed.

Lemma regardless_runs {E E' V} (e : E) (get : Tables -> V) put f c c' u :
  faults c = [] ->
  regardless (E' := E') (execute e [] (on_table get put f)) c = (c', Ok u) ->
  c' = mkConn (put (f (get (tables c))).1 (tables c)) [].
Proof.
  intros Hf. unfold regardless, execute, next_fault, on_table. rewrite Hf. cbn.
  destruct (f (get (tables c))) as [v n]. cbn. by intros [= <- _].
Qed.

Lemma rows_named c c1 c2 u v :
  faults c = [] -> backfill_progress c = (c1, Ok u) -> name_deliveries c1 = (c2, Ok v) ->
  (forall k x, t_tasks (tables c2) !! k = Some x -> task_progress_at x = 0%N -> task_created_at x = 0%N) /\
  (forall k x, t_goals (tables c2) !! k = Some x -> goal_progress_at x = 0%N -> goal_created_at x = 0%N) /\
  (forall id o, t_outbox (tables c2) !! id = Some o -> own_attention id o = o).
Proof.
  intros Hf. unfold backfill_progress, name_deliveries. intros (c3 & [] & E1 & E2)%bind_ok E3.
  apply regardless_runs in E1 as ->; [|done]. apply regardless_runs in E2 as ->; [|done].
  apply regardless_runs in E3 as ->; [|done]. cbn. split_and!.
  - intros k x. rewrite map_lookup_imap. intros (y & _ & [= <-])%bind_Some.
    destruct (N.eqb_spec (task_progress_at y) 0); [by cbn|done].
  - intros k x. rewrite map_lookup_imap. intros (y & _ & [= <-])%bind_Some.
    destruct (N.eqb_spec (goal_progress_at y) 0); [by cbn|done].
  - intros id o. rewrite map_lookup_imap. intros (y & _ & [= <-])%bind_Some.
    unfold own_attention. destruct (str_is_empty (ob_attention_id y)) eqn:E; [cbn|by rewrite E].
    by destruct (str_is_empty id).
Qed.

Lemma signal_named_once o :
  named_signal (with_signal (named_signal o) o) = named_signal o.
Proof.
  unfold named_signal. cbn. destruct (str_is_empty (sig_attention_id (ob_signal o))) eqn:E.
  - cbn. by destruct (str_is_empty (ob_attention_id o)).
  - by rewrite E.
Qed.

(** An opening in which nothing fails upgrades the tables. *)
Lemma opening_upgrades owner_column c c' u :
  faults c = [] -> db_open owner_column c = (c', Ok u) -> upgraded (tables c').
Proof.
  intros Hf. unfold db_open. intros (c1 & [] & E1 & Hb)%bind_ok. apply bind_ok in Hb as (c2 & [] & E2 & Hb).
  destruct (rows_named c c1 c2 _ _ Hf E1 E2) as (HT & HG & HO).
  apply bind_ok in Hb as (c3 & [] & (c3' & E3 & Et)%transaction_ok & Hb).
  apply bind_ok in E3 as (? & rows & [-> ->]%query_ok & E3). cbn [tables past_fault] in E3.
  apply deliveries_promoted in E3 as (O & A & E3 & Hrows & Hrest & _);
    [|apply NoDup_fst_map_to_list|intros id o; by rewrite elem_of_map_to_list].
  apply bind_ok in Hb as (c4 & [] & (Hx & Hm & Hs)%legacy_migrated & Hb).
  pose proof (ex_rest _ _ Hx) as (ET & EG & EO & EA & _ & _).
  assert (upgraded (tables c4)) as Hu.
  { rewrite Et, E3 in ET, EG, EO, EA. cbn in ET, EG, EO, EA. constructor; [by rewrite ET|by rewrite EG| |done|done].
    rewrite EO, EA. intros id o' Eo.
    destruct (t_outbox (tables c2) !! id) as [o|] eqn:E; cycle 1.
    { rewrite Hrest in Eo; [cbn in Eo; congruence|].
      intros ([j o] & -> & Hj%elem_of_map_to_list)%list_elem_of_fmap. cbn in *. congruence. }
    destruct (Hrows id o) as [Eid Ha]; [by apply elem_of_map_to_list|]. assert (o' = with_signal (named_signal o) o) as ->
      by congruence.
    split_and!; [|by apply signal_named_once|done]. pose proof (HO id o E) as Hown.
    unfold own_attention in *. cbn. destruct (str_is_empty (ob_attention_id o)); [|done].
    unfold with_signal. cbn. f_equal. by apply (f_equal ob_attention_id) in Hown. }
  destruct owner_column; [by apply ret_ok in Hb as [-> _]|].
  apply transaction_ok in Hb as (c5 & Hb & ->). sql. subst.
  match goal with H1 : Some _ = _, H2 : Some _ = _ |- _ => injection H1 as H1 _; injection H2 as H2 _ end.
  match goal with H0 : tables c4 = _, H1 : with_t_memory _ _ = _ |- _ => rewrite <- H1, <- H0 end.
  constructor; apply Hu.
Qed.

(** Opening an upgraded database again, whatever fails then, changes nothing: every
    key of an older version has its principal and its credential by now, every
    delivery its attention. *)
Theorem opening_again_changes_nothing owner_column c c' script :
  faults c = [] -> db_open owner_column c = (c', Ok tt) ->
  tables (db_open true (mkConn (tables c') script)).1 = tables c'.
Proof.
  intros Hf Ho. apply opening_upgrades in Ho as Hu; [|done]. by apply (upgraded_left_alone _ Hu).
Qed.
End opening.
