(* ===== verification/MessageFacts.v ===== *)
(** * Messages on disk

    An accepted message is on disk before it is announced, under a fresh id; a
    restart goes on counting after the last id and still knows the operations it
    has answered. *)

From Stdlib Require Import Ascii.
From S2P Require Import Prelude Text Net Protocol StoreApi Sql Tables Hub Ledger Work Waits Seats Attention.
From S2P Require Import Chat ChatFacts Access Membership Rooms Scheduler Server ServerFacts Building.
From S2P Require Import Identity Operators Admission StoreAttention StoreWork StoreMessages StoreFacts.
From S2P Require Import Boot DurableFacts DurableOps RestartFacts.
From S2P Require Import BlobFiles Memory WikiOps Attachments.

Open Scope loca_scope.

(** ** The statements of a message *)

Section statements.
Context `{Unicode} `{Digest} `{WallClock}.
Implicit Types t : Tables.

Lemma talk_resolve_condition id at_ : keeps same_talk (resolve_condition id at_).
Proof. unfold resolve_condition. frame_keeps. Qed.
#[local] Hint Resolve talk_resolve_condition : frames.
Lemma talk_resolve_cycles room at_ ids : keeps same_talk (resolve_cycles room at_ ids).
Proof. induction ids; cbn [resolve_cycles]; frame_keeps. Qed.
#[local] Hint Resolve talk_resolve_cycles : frames.
Lemma talk_resolve_wait_attentions room waiter at_ :
  keeps same_talk (db_resolve_wait_attentions room waiter at_).
Proof. unfold db_resolve_wait_attentions. frame_keeps. Qed.
Lemma talk_write_care room s : keeps same_talk (write_care room s).
Proof. unfold write_care. cbv zeta. frame_keeps. Qed.
#[local] Hint Resolve talk_write_care : frames.
Lemma talk_write_cares place signals : keeps same_talk (write_cares place signals).
Proof. induction signals; cbn [write_cares]; frame_keeps. Qed.
Lemma talk_write_wait w : keeps same_talk (write_wait w).
Proof. unfold write_wait. frame_keeps. Qed.
Lemma talk_write_attachment_refs m files : keeps same_talk (write_attachment_refs m files).
Proof. induction files; cbn [write_attachment_refs]; frame_keeps. Qed.
Lemma talk_room_state {E} (e : E) room mode settings :
  keeps same_talk (write_room_state e room mode settings).
Proof. unfold write_room_state. frame_keeps. Qed.
#[local] Hint Resolve talk_resolve_wait_attentions talk_write_cares talk_write_wait
  talk_write_attachment_refs talk_room_state : frames.

(** The row of a message, and what was free before it. *)
Definition message_row (m : Message) (operation : option (string * string)) : MessageRow :=
  mkMessageRow m (fst <$> operation) (snd <$> operation).
Record placed (m : Message) (operation : option (string * string)) t t' : Prop := {
  pl_fresh : t_messages t !! msg_id m = None;
  pl_row : t_messages t' = <[msg_id m := message_row m operation]> (t_messages t);
  pl_operation : forall p o, operation = Some (p, o) ->
    select_where (fun _ r => bool_decide (msg_room (mg_message r) = msg_room m)
      && bool_decide (mg_principal r = Some p) && bool_decide (mg_op_id r = Some o))
      (t_messages t) = None;
}.

Lemma placed_talk m operation t0 t1 t2 t3 :
  same_talk t0 t1 -> placed m operation t1 t2 -> same_talk t2 t3 -> placed m operation t0 t3.
Proof.
  intros [E1 _] [Hf Hr Ho] [E2 _]. constructor; [by rewrite <- E1|by rewrite E2, Hr, E1|].
  by rewrite <- E1.
Qed.

Lemma keeps_run {E A} (m : Sql Tables E A) c c' r :
  keeps same_talk m -> m c = (c', r) -> same_talk (tables c) (tables c').
Proof. intros Hm Em. pose proof (Hm c) as Hc. by rewrite Em in Hc. Qed.

Lemma insert_message_row_placed m operation t t' n :
  insert_message_row m operation t = Some (t', n) -> placed m operation t t'.
Proof.
  unfold insert_message_row, insert_row. intros Hi.
  destruct operation as [[p o]|]; cbn [negb] in Hi.
  - destruct (select_where _ _) eqn:Es in Hi; [done|]. cbn [is_none negb] in Hi.
    destruct (t_messages t !! msg_id m) eqn:Em; [done|]. injection Hi as <- _.
    constructor; try done. by intros p' o' [= <- <-].
  - destruct (t_messages t !! msg_id m) eqn:Em; [done|]. injection Hi as <- _. by constructor.
Qed.

Lemma place_message_placed m operation c c' a :
  place_message m operation c = (c', Ok a) -> placed m operation (tables c) (tables c').
Proof.
  intros (c1 & n & E1 & E2)%bind_ok. apply execute_ok in E1 as [E1 _].
  apply insert_message_row_placed in E1. eapply placed_talk; [reflexivity|exact E1|].
  eapply keeps_run, E2. unfold reset_silence_care. frame_keeps.
Qed.

Lemma require_unsealed_ok {E} (e : E) room c c' a :
  require_unsealed_room e room c = (c', Ok a) -> c' = c /\ sealed_row (tables c) room = false.
Proof.
  intros (c1 & b & E1 & E2)%bind_ok. apply query_ok in E1 as [-> ->].
  change (match t_rooms (tables c) !! room with
    | Some r => negb (is_none (rr_sealed_at r)) | None => false end)
    with (sealed_row (tables c) room) in E2.
  destruct (sealed_row _ _) eqn:Es; [done|]. apply ret_ok in E2 as [-> _]. done.
Qed.

Lemma write_room_state_unsealed {E} (e : E) room mode settings c c' a :
  write_room_state e room mode settings c = (c', Ok a) -> sealed_row (tables c) room = false.
Proof.
  intros (c1 & n & E1 & E2)%bind_ok. apply execute_ok in E1 as [E1 _]. unfold sealed_row.
  destruct (t_rooms (tables c) !! room) as [r|]; [|done].
  destruct (is_none (rr_sealed_at r)); [done|]. by injection E1 as _ <-.
Qed.
(** Before the message come the question whether the room is sealed and, when the
    turn moved, the state of the room; after it, what it settles and starts. *)
Lemma placed_transaction m operation (pre post : Sql Tables db_error unit) c c' a :
  (forall c c' a, pre c = (c', Ok a) ->
     same_talk (tables c) (tables c') /\ sealed_row (tables c) (msg_room m) = false) ->
  keeps same_talk post ->
  transaction DbError (let! _ := pre in let! _ := place_message m operation in post) c = (c', Ok a) ->
  placed m operation (tables c) (tables c') /\ sealed_row (tables c) (msg_room m) = false.
Proof.
  intros Hpre Hpost (c2 & Em & ->)%transaction_ok.
  apply bind_ok in Em as (c3 & u & E1 & (c4 & u' & E2 & E3)%bind_ok).
  destruct (Hpre _ _ _ E1) as [Ht Hs]. split; [|exact Hs].
  eapply placed_talk; [exact Ht|by eapply place_message_placed|]. by eapply keeps_run, E3.
Qed.

Lemma require_then_state m state c c' a :
  (let! _ := require_unsealed_room DbError (msg_room m) in write_room_opt (msg_room m) state) c
    = (c', Ok a) ->
  same_talk (tables c) (tables c') /\ sealed_row (tables c) (msg_room m) = false.
Proof.
  intros (c1 & u & [-> Hs]%require_unsealed_ok & E)%bind_ok. split; [|exact Hs].
  eapply keeps_run, E. unfold write_room_opt. frame_keeps.
Qed.

Lemma bind_assoc_run {A B C} (m : Sql Tables db_error A) (k : A -> Sql Tables db_error B)
    (k' : B -> Sql Tables db_error C) c :
  bind (bind m k) k' c = bind m (fun a => bind (k a) k') c.
Proof. unfold bind. by destruct (m c) as [? [?|?]]. Qed.

Lemma transaction_ext {A} (m m' : Sql Tables db_error A) c :
  (forall c, m c = m' c) -> transaction DbError m c = transaction DbError m' c.
Proof. intros Hm. unfold transaction. by rewrite Hm. Qed.

Lemma persist_post_placed room home r m operation moved now wake summons c c' a :
  msg_room m = room ->
  persist_post (St := Conn Tables) room home r m operation moved now wake summons c = (c', Ok a) ->
  placed m operation (tables c) (tables c') /\ sealed_row (tables c) room = false.
Proof.
  intros <-. unfold persist_post. destruct wake as [[w wake]|]; [|destruct summons as [|s summons]].
  - intros E. eapply (placed_transaction m operation
      (let! _ := require_unsealed_room DbError (msg_room m) in
       write_room_opt (msg_room m) (if moved then Some (r_mode r, r_settings r) else None))
      (let! _ := db_resolve_wait_attentions (msg_room m) (wait_waiter w) now in
       let! _ := write_wait w in write_care (msg_room m) wake)).
    + apply require_then_state.
    + frame_keeps.
    + etransitivity; [|exact E]. apply transaction_ext. intros c0. by rewrite bind_assoc_run.
  - destruct moved; intros E.
    + eapply (placed_transaction m operation
        (write_room_state DbError (msg_room m) (r_mode r) (r_settings r)) (ret tt)).
      * intros c1 c2 u Eu. split; [|by eapply write_room_state_unsealed].
        eapply keeps_run, Eu. frame_keeps.
      * frame_keeps.
      * etransitivity; [|exact E]. apply transaction_ext. intros c0. unfold bind.
        destruct (write_room_state _ _ _ _ c0) as [c1 [[]|]]; [|done].
        by destruct (place_message _ _ c1) as [c2 [[]|]].
    + eapply (placed_transaction m operation (require_unsealed_room DbError (msg_room m)) (ret tt)).
      * by intros c1 c2 u [-> Hs]%require_unsealed_ok.
      * frame_keeps.
      * etransitivity; [|exact E]. apply transaction_ext. intros c0. unfold bind.
        destruct (require_unsealed_room _ _ c0) as [c1 [[]|]]; [|done].
        by destruct (place_message _ _ c1) as [c2 [[]|]].
  - intros E. eapply (placed_transaction m operation
      (let! _ := require_unsealed_room DbError (msg_room m) in
       write_room_opt (msg_room m) (if moved then Some (r_mode r, r_settings r) else None))
      (write_cares (fun _ => home) (s :: summons))).
    + apply require_then_state.
    + apply talk_write_cares.
    + etransitivity; [|exact E]. apply transaction_ext. intros c0. by rewrite bind_assoc_run.
Qed.
End statements.

(** ** Posting *)

Section posting.
Context `{Unicode} `{Csprng} `{Digest} `{WallClock}.
Implicit Types h : Hub (Conn Tables).
Implicit Types t : Tables.

#[local] Existing Instances still_refl still_trans.

Lemma publish_summons_disk room home sigs h :
  disk (foldl (publish_summon room home) h sigs) = disk h.
Proof.
  revert h. induction sigs as [|s sigs IH]; intros h; [done|]. cbn [foldl]. rewrite IH.
  unfold publish_summon. by destruct home.
Qed.

Lemma wait_wake_disk room r msg summons now h h' w :
  wait_wake room r msg summons now h = (h', w) -> disk h' = disk h.
Proof.
  unfold wait_wake. destruct (answered_wait r msg summons) as [[target existing]|];
    [|by intros [= <- _]].
  unfold next_condition_generation, secure_token. by intros [= <- _].
Qed.

Lemma deliver_post_placed room home adm operation now msg h h' m :
  msg_room msg = room ->
  deliver_post room home adm operation now msg h = (h', Ok m) ->
  m = msg /\ placed msg operation (disk h) (disk h') /\ sealed_row (disk h) room = false.
Proof.
  intros Hroom. unfold deliver_post. destruct (wait_wake _ _ _ _ _ _) as [h1 wake] eqn:Hwk.
  apply wait_wake_disk in Hwk. destruct (advance_turn _ _) as [mode turn].
  set (f := persist_post _ _ _ _ _ _ _ _ _). destruct (run_store f h1) as [h2 w] eqn:E.
  apply run_store_state in E as [-> ->].
  destruct (f (h_store h1)) as [c' [[]|]] eqn:Ef; cbn [fst snd]; [|done].
  apply persist_post_placed in Ef; [|done]. intros [= <- <-]. split; [done|].
  unfold disk in Hwk. rewrite Hwk in Ef.
  set (h3 := if decide _ then _ else _).
  assert (disk h3 = tables c') as Hd.
  { subst h3. destruct (decide _); [done|]. by rewrite publish_summons_disk. }
  destruct wake as [[u sig]|]; [|by rewrite Hd].
  assert (disk (publish_wake room now u sig h3) = disk h3) as -> by done. by rewrite Hd.
Qed.

(** The two ways to an answer. *)
Lemma post_answers room body adm p h h' m :
  post room body adm p h = (h', Ok m) ->
  let operation := (fun id => (p, id)) <$> nonempty (pm_op_id body) in
  (exists key, operation = Some key /\ disk h' = disk h /\
     (message_by_operation (h_store h) room key.1 key.2 = Ok (Some m) \/
      r_operations (entry_room room h) !! key = Some m)) \/
  (placed m operation (disk h) (disk h') /\ sealed_row (disk h) room = false /\
   msg_room m = room).
Proof.
  unfold post. destruct (is_deleted h room); [done|]. cbv zeta.
  set (operation := _ <$> nonempty _).
  destruct (match operation with Some _ => _ | None => _ end) as [[found|]|] eqn:Hr; [| |done].
  { intros [= <- <-]. left. destruct operation as [[p' o]|]; [|done]. exists (p', o). auto. }
  destruct (cited_attachments _ _ _) as [atts|]; [|done].
  unfold post_in_room. rewrite entry_room_mut.
  destruct (operation ≫= _) as [found|] eqn:Hmem.
  { intros [= <- <-]. left. destruct operation as [key|]; [|done]. exists key. auto. }
  destruct (rs_archived _); [done|]. destruct (post_gate _ _ _); [done|].
  destruct (rate_check _ _ _ _) as [r limited]. destruct limited; [done|].
  destruct (reply_owner _ _ _ _ _); [|done].
  destruct (build_message _ _ _ _ _ _) as [h1 msg] eqn:Hb. intros E. right.
  unfold build_message, fetch_next_id, next_condition_generation in Hb. injection Hb as <- Hmsg.
  assert (msg_room msg = room) as Hroom by by subst.
  apply deliver_post_placed in E as (-> & Hp & Hs); [|done]. done.
Qed.

(** A row that answers an operation, found by it. *)
Lemma find_operation t i m p o :
  one_per_operation t -> t_messages t !! i = Some (message_row m (Some (p, o))) ->
  db_message_by_operation t (msg_room m) p o = Ok (Some (message_from_row (message_row m (Some (p, o))))).
Proof.
  intros Hone Hi. unfold db_message_by_operation.
  rewrite (select_where_unique _ _ i (message_row m (Some (p, o)))); [done|done| |].
  - unfold in_room. cbn. by rewrite !bool_decide_eq_true_2.
  - intros j r Hj [[Hr%bool_decide_eq_true Hp%bool_decide_eq_true]%andb_true_iff
      Ho%bool_decide_eq_true]%andb_true_iff.
    by eapply (Hone j i r (message_row m (Some (p, o)))).
Qed.

Lemma post_replays room body adm p o h i m :
  is_deleted h room = false -> nonempty (pm_op_id body) = Some o ->
  one_per_operation (disk h) ->
  t_messages (disk h) !! i = Some (message_row m (Some (p, o))) -> msg_room m = room ->
  post room body adm p h = (h, Ok (message_from_row (message_row m (Some (p, o))))).
Proof.
  intros Hdel Hop Hone Hi <-. unfold post. rewrite Hdel, Hop. cbn [fmap option_fmap option_map].
  change (message_by_operation (h_store h)) with (db_message_by_operation (disk h)).
  by rewrite (find_operation _ i m).
Qed.

(** ** Restarting *)

Lemma max_of_ge (l : list N) n : n ∈ l -> (n <= foldr N.max 0 l)%N.
Proof. induction l as [|x l IH]; intros Hin; [set_solver|]. cbn. apply elem_of_cons in Hin as [->|?%IH]; lia. Qed.

Lemma build_next_id cfg name ds epoch entropy c h i r :
  build cfg name ds epoch entropy c = Some h -> t_messages (tables c) !! i = Some r ->
  (i < h_next_id h)%N /\ t_messages (disk h) !! i = Some r.
Proof.
  intros (h0 & h1 & _ & [Hm _] & Hst & ->)%build_started Hi.
  apply started_still in Hst as [_ _ [Hm1 _] Hn].
  change (disk (restore_rooms h0)) with (disk h0) in Hm1. split.
  - change (i < h_next_id h1)%N. rewrite Hn.
    change (i < db_max_message_id (disk h0) + 1)%N. unfold db_max_message_id.
    enough (i <= foldr N.max 0 (keys (t_messages (disk h0))))%N by lia.
    apply max_of_ge, elem_of_keys. exists r. by rewrite Hm.
  - change (t_messages (disk h1) !! i = Some r). by rewrite Hm1, Hm.
Qed.

Lemma saved_with M i r h :
  saved M h -> t_messages (disk h) !! i = Some r -> saved {[i := r]} h.
Proof. intros [? ? ? ? ? ? ?] Hi. constructor; try done. by apply map_singleton_subseteq_l. Qed.

Context `{Environment} `{BlobFiles unit}.

(** A row of a message stays, in operation and at a restart, and the ids after it
    are later. *)
Lemma restart_keeps_row i r l h M cfg name ds epoch entropy f h2 :
  building_ok h -> saved M h -> t_messages (disk h) !! i = Some r ->
  build cfg name ds epoch entropy (mkConn (disk (run_ops l h)) f) = Some h2 ->
  t_messages (disk h2) !! i = Some r /\ one_per_operation (disk h2) /\ (i < h_next_id h2)%N.
Proof.
  intros Hb Hs Hi Hst. pose proof (saved_with M i r h Hs Hi) as Hs1.
  apply (run_ops_saved {[i := r]} l h Hb) in Hs1.
  assert (t_messages (disk (run_ops l h)) !! i = Some r) as Hi2.
  { apply (map_singleton_subseteq_l _ _ _), (sv_messages _ _ Hs1). }
  destruct (build_next_id _ _ _ _ _ _ _ _ _ Hst Hi2) as [Hn Hrow]. split; [done|]. split; [|done].
  eapply build_saved in Hst as [Hs2 _]; [apply Hs2|apply Hs1..].
Qed.

Lemma saved_less M t h : M ⊆ t_messages t -> saved (t_messages t) h -> saved M h.
Proof. intros HM []. constructor; try done. by etrans. Qed.
End posting.
