(* ===== verification/Durability.v ===== *)
(** * Durability: the properties

    What is on disk is what is in memory, what a restart brings back, and two
    ways in which sealing and starting do not agree. *)

From Stdlib Require Import Ascii.
From S2P Require Import Prelude Text Net Protocol StoreApi Sql Tables Hub Ledger Work WorkFacts Waits WaitFacts.
From S2P Require Import Seats Attention Chat ChatFacts Access Membership AccessFacts Joins.
From S2P Require Import Rooms RoomFacts Scheduler SchedulerFacts Server ServerFacts Building.
From S2P Require Import Identity Operators Admission StoreAttention StoreWork StoreMessages StoreFacts.
From S2P Require Import Queries Boot DurableFacts DurableOps RestartFacts MessageFacts.
From S2P Require Import BlobFiles Memory WikiOps Attachments.

Open Scope loca_scope.

Section durable.
Context `{Unicode} `{Csprng} `{Digest} `{WallClock} `{Environment} `{BlobFiles unit}.
Implicit Types h : Hub (Conn Tables).
Implicit Types t : Tables.

#[local] Existing Instances calls_refl calls_trans undisturbed_refl undisturbed_trans.

(** ** The disk and the memory *)

(** C1: Whatever requests, connections and sweeps arrive, in whatever order, and
    whichever writes fail, the tasks, goals and waits of every room are on disk
    what they are in memory, each under its own room and key, the rooms the hub
    calls sealed are the ones the disk calls sealed, no message is lost from the
    disk, and no operation of a client is answered by two messages. *)
Theorem work_is_durable M l h : building_ok h -> saved M h -> saved M (run_ops l h).
Proof. apply run_ops_saved. Qed.

(** C5: Restarting the server after any sequence of operations, on the disk they
    left, brings back exactly the tasks, goals and waits of every room that is
    not sealed, and the same sealed rooms; the messages are still there. *)
Theorem work_survives_restart M l h cfg name ds epoch entropy f h2 :
  building_ok h -> saved M h ->
  build cfg name ds epoch entropy (mkConn (disk (run_ops l h)) f) = Some h2 ->
  saved M h2 /\ h_deleted h2 = h_deleted (run_ops l h) /\
  forall n, n ∉ h_deleted (run_ops l h) ->
    same_maps (entry_room n (run_ops l h)) (entry_room n h2).
Proof.
  intros Hb Hs Hst. pose proof (run_ops_saved M l h Hb Hs) as [Hk _ Hm Hd Hg Ho Hob].
  apply build_saved in Hst as [Hs2 Hc]; [|exact Hk|exact Ho|exact Hob].
  assert (h_deleted h2 = h_deleted (run_ops l h)) as Hdel.
  { apply set_eq. intros n. rewrite <- Hd, <- (sv_sealed _ _ Hs2). cbn in Hc.
    by rewrite (sw_sealed _ _ Hc n). }
  split; [by eapply saved_less, Hs2|]. split; [done|]. intros n Hn.
  pose proof (Hm n Hn) as [Mt Mg Mw]. rewrite <- Hdel in Hn.
  pose proof (sv_rooms _ _ Hs2 n Hn) as [Nt Ng Nw].
  destruct Hc as [Et Eg Ew _ _ _ _]. cbn in Et, Eg, Ew.
  split; [|split]; apply map_eq; intros i; rewrite <- ?Nt, <- ?Ng, <- ?Nw, <- ?Mt, <- ?Mg, <- ?Mw;
    congruence.
Qed.

(** ** Messages *)

(** C11: A message is accepted only when it is on disk: either it answers an operation
    that had been answered before, and nothing was written, or its room is not
    sealed, its id and its operation were free, and its row was added to the
    messages of the disk, whatever else the transaction carried. *)
Theorem accepted_message_is_on_disk room body adm p h h' m :
  post room body adm p h = (h', Ok m) ->
  let operation := (fun id => (p, id)) <$> nonempty (pm_op_id body) in
  (exists key, operation = Some key /\ disk h' = disk h /\
     (message_by_operation (h_store h) room key.1 key.2 = Ok (Some m) \/
      r_operations (entry_room room h) !! key = Some m)) \/
  (placed m operation (disk h) (disk h') /\ sealed_row (disk h) room = false /\
   msg_room m = room).
Proof.
  intros E operation. destruct (post_answers _ _ _ _ _ _ _ E) as [Hreplay|Hnew]; [left|right].
  - destruct Hreplay as (key & Hop & Hd & Hm). exists key. done.
  - exact Hnew.
Qed.

(** C8: An operation that a client repeats after any later activity and a restart of
    the server is still answered with its first message, and writes nothing;
    every later message gets a later id. *)
Theorem operation_is_answered_once_across_restarts
    M room body adm p o h h' m l cfg name ds epoch entropy f h2 body' adm' :
  building_ok h -> saved M h ->
  pm_op_id body = Some o -> o <> ""%string ->
  message_by_operation (h_store h) room p o = Ok None ->
  r_operations (entry_room room h) !! (p, o) = None ->
  post room body adm p h = (h', Ok m) ->
  build cfg name ds epoch entropy (mkConn (disk (run_ops l h')) f) = Some h2 ->
  is_deleted h2 room = false -> pm_op_id body' = Some o ->
  post room body' adm' p h2 = (h2, Ok (message_from_row (message_row m (Some (p, o))))) /\
  (msg_id m < h_next_id h2)%N.
Proof.
  intros Hb Hs Hbody Ho Hfresh Hmem Hpost Hst Hdel Hbody'.
  pose proof (run_op_ok (OpPost room body adm p) h Hb) as [Hb' _].
  pose proof (run_op_saved M (OpPost room body adm p) h Hb Hs) as Hs'.
  cbn [run_op] in Hb', Hs'. rewrite Hpost in Hb', Hs'. cbn [fst] in Hb', Hs'.
  assert (nonempty (pm_op_id body) = Some o /\ nonempty (pm_op_id body') = Some o) as [E E'].
  { rewrite Hbody, Hbody'. cbn. unfold str_is_empty. by rewrite bool_decide_eq_false_2. }
  apply post_answers in Hpost as [([p' o'] & Hop & _ & Hm)|(Hpl & _ & Hroom)]; rewrite E in *.
  { injection Hop as <- <-. destruct Hm as [Hm|Hm]; cbn [fst snd] in Hm; congruence. }
  assert (t_messages (disk h') !! msg_id m = Some (message_row m (Some (p, o)))) as Hrow.
  { rewrite (pl_row _ _ _ _ Hpl). apply lookup_insert_eq. }
  destruct (restart_keeps_row (msg_id m) (message_row m (Some (p, o))) l h' M cfg name ds epoch
    entropy f h2 Hb' Hs' Hrow Hst) as (Hrow2 & Hone & Hnext).
  split; [|exact Hnext].
  eapply post_replays; [exact Hdel|exact E'|exact Hone|exact Hrow2|exact Hroom].
Qed.

(** ** Sealed rooms that come back *)

Lemma restore_bans_keeps l h room :
  is_Some (h_rooms h !! room) -> is_Some (h_rooms (foldl restore_ban h l) !! room).
Proof.
  revert h. induction l as [|[[x y] z] l IH]; intros h Hr; [done|]. cbn [foldl]. apply IH. cbn.
  apply lookup_insert_is_Some'. by right.
Qed.

Lemma restore_bans_room l h room who kind :
  (room, who, kind) ∈ l -> is_Some (h_rooms (foldl restore_ban h l) !! room).
Proof.
  revert h. induction l as [|[[x y] z] l IH]; intros h Hin; [set_solver|].
  cbn [foldl]. apply elem_of_cons in Hin as [[= <- <- <-]|Hin]; [|by apply IH].
  apply restore_bans_keeps. cbn. apply lookup_insert_is_Some'. by left.
Qed.

Lemma restore_bans_disk l h : disk (foldl restore_ban h l) = disk h.
Proof. revert h. induction l as [|[[x y] z] l IH]; intros h; [done|]. cbn [foldl]. by rewrite IH. Qed.

(** A started server has every room with a ban or a mute on its disk in memory,
    sealed or not: a sealed room whose operator ever banned somebody is listed
    again after a restart, while every attempt to enter it is refused as
    sealed. *)
Theorem sealed_room_with_ban_returns cfg name ds epoch entropy c h room who kind :
  build cfg name ds epoch entropy c = Some h ->
  is_Some (t_bans (disk h) !! (room, who, kind)) ->
  sealed_row (disk h) room = true -> room <> h_home_room h ->
  is_deleted h room = true /\ is_Some (h_rooms h !! room) /\
  room ∈ map sum_room (room_summaries_for h (fun _ => true)).
Proof.
  intros (h0 & h1 & _ & _ & Hst & ->)%build_started [at_ Hban] Hsealed Hhome.
  change (t_bans (disk h1) !! (room, who, kind) = Some at_) in Hban.
  change (sealed_row (disk h1) room = true) in Hsealed. change (room <> h_home_room h1) in Hhome.
  assert (is_Some (h_rooms h1 !! room)) as [r Hr].
  { unfold started in Hst. destruct (load_sessions _) as [h3|]; [|done].
    cbn [mbind option_bind] in Hst. destruct (clean_reserved _) as [h5|]; [|done].
    cbn [mbind option_bind] in Hst. injection Hst as <-. rewrite restore_bans_disk in Hban.
    apply (restore_bans_room _ _ _ who kind). unfold db_load_bans. apply elem_of_keys. by exists at_. }
  split; [|split; [by exists r|]].
  - unfold is_deleted. cbn. rewrite bool_decide_eq_false_2 by done. cbn.
    apply bool_decide_eq_true, elem_of_list_to_set. by apply sealed_rooms_elem.
  - unfold room_summaries_for. apply list_elem_of_fmap. cbn [h_rooms with_h_deleted].
    eexists (room_summary _ room r). split; [done|]. unfold sort_by_str.
    rewrite merge_sort_Permutation. apply list_elem_of_fmap. exists (room, r). split; [done|].
    apply list_elem_of_filter. split; [done|]. by apply elem_of_map_to_list.
Qed.
(** ** A sealed home *)

(** The home room can be archived and then sealed like any other, and the hub
    goes on treating it as open; but its row on the disk says sealed, so that
    from then on no message to it is accepted. *)
Theorem sealed_home_refuses_messages h h1 body adm p :
  delete_room (h_home_room h) h = (h1, Ok true) -> nonempty (pm_op_id body) = None ->
  is_deleted h1 (h_home_room h) = false /\
  exists e, (post (h_home_room h) body adm p h1).2 = Err e.
Proof.
  unfold delete_room. destruct (h_rooms h !! h_home_room h) as [r|]; [|done].
  destruct (negb _); [done|]. destruct (run_store _ _) as [h2 w] eqn:E.
  apply (run_effect _ _ _ _ _ (effect_seal_room _ _)) in E as [Eh Hw].
  destruct w; [|done]. intros [= <-] Hop. rewrite Eh. split.
  - unfold is_deleted. cbn. by rewrite bool_decide_eq_true_2.
  - set (h3 := with_h_deleted _ _).
    assert (sealed_row (disk h3) (h_home_room h) = true) as Hs.
    { change (disk h3) with (disk h2). rewrite (sw_sealed _ _ Hw).
      apply put_seal_sealed. by left. }
    destruct (post (h_home_room h) body adm p h3) as [h4 [m|e]] eqn:Ep; [|by exists e].
    apply post_answers in Ep as [(key & Hk & _)|(_ & Hu & _)]; [by rewrite Hop in Hk|congruence].
Qed.
End durable.

(** ** Witnesses: the first days of a server *)

#[local] Existing Instance ascii_unicode.
#[local] Existing Instance counter_csprng.
#[local] Instance text_digest : Digest :=
  {| sha256 s := take 32 (map Ascii.N_of_ascii (String.list_ascii_of_string s) ++ replicate 32 0%N) |}.
#[local] Existing Instance no_environment.
(** Files that take what they are given and hold nothing. *)
#[local] Instance no_files : BlobFiles unit := {|
  file_put bytes d := (d, Ok bytes);
  file_read d sha := Err NotFound;
  file_delete sha d := (d, Ok tt);
|}.
#[local] Instance noon : WallClock := {| current_time_ms := 1000 |}.

Definition first_day : Hub (Conn Tables) := empty_hub (mkConn no_tables []).

Lemma first_day_ok : building_ok first_day.
Proof.
  constructor; [done| |apply settings_default_ok|done].
  constructor; cbn; try done. intros room. unfold davets_of_room, davets_where, values.
  cbn. rewrite map_to_list_empty. cbn. unfold LOCA_KAPASITE. lia.
Qed.

Lemma first_day_saved : saved ∅ first_day.
Proof.
  constructor; [| |constructor| | | |]; cbn; try done; try (constructor; cbn; done).
Qed.

Definition config : HubConfig := mkHubConfig "root" "" true true "home" "home" {["loca-care"]}.
Definition hello (op : string) : PostMessage :=
  mkPostMessage Say "ada" Agent None "hello" None (Some op) [].


(** Work is declared, a message is posted, and the third write fails. *)
Definition busy : list op :=
  [OpCreateTask "lab" (mkCreateTask "map" None (Some "ada") "ada");
   OpPost "lab" (hello "op-1") false "pr_1"; OpSetWait "lab" (mkSetWait "bob" "review" "ada");
   OpClock 5000; OpTickCare; OpJoin "home" "st_1" "ada" Agent 7].

Lemma work_is_durable_witness : saved ∅ (run_ops busy first_day).
Proof. exact (work_is_durable ∅ busy first_day first_day_ok first_day_saved). Defined.

Definition restarted (h : Hub (Conn Tables)) : option (Hub (Conn Tables)) :=
  build config "root" room_settings_default 2 0 (mkConn (disk h) []).

Lemma busy_restarts : is_none (restarted (run_ops busy first_day)) = false.
Proof. vm_compute. reflexivity. Qed.
Lemma lab_is_open : "lab"%string ∉ h_deleted (run_ops busy first_day).
Proof. vm_compute. by intros ?. Qed.
Lemma lab_has_work :
  is_none (r_tasks (entry_room "lab" (run_ops busy first_day)) !! 1%N) = false.
Proof. vm_compute. reflexivity. Qed.

Lemma work_survives_restart_witness :
  match restarted (run_ops busy first_day) with
  | Some h2 => same_maps (entry_room "lab" (run_ops busy first_day)) (entry_room "lab" h2)
  | None => False
  end.
Proof.
  pose proof busy_restarts as Hb. destruct (restarted _) as [h2|] eqn:E; [|discriminate Hb].
  exact (proj2 (proj2 (work_survives_restart ∅ busy first_day config "root" room_settings_default 2 0
    [] h2 first_day_ok first_day_saved E)) "lab" lab_is_open).
Defined.

Lemma hello_accepted :
  is_ok (post "lab" (hello "op-1") false "pr_1" first_day).2 = true.
Proof. vm_compute. reflexivity. Qed.

Lemma accepted_message_is_on_disk_witness :
  match post "lab" (hello "op-1") false "pr_1" first_day with
  | (h', Ok m) => placed m (Some ("pr_1", "op-1")) (disk first_day) (disk h')
  | (_, Err _) => False
  end.
Proof.
  pose proof hello_accepted as Ha.
  destruct (post "lab" (hello "op-1") false "pr_1" first_day) as [h' [m|]] eqn:E; [|discriminate Ha].
  destruct (accepted_message_is_on_disk "lab" (hello "op-1") false "pr_1" first_day h' m E)
    as [(key & Hk & _ & [Hm|Hm])|(Hp & _)]; [| |exact Hp];
    injection Hk as <-; vm_compute in Hm; discriminate Hm.
Defined.

(** The same operation again: after its message, after more activity, and after
    a restart. *)
Definition said : Hub (Conn Tables) := (post "lab" (hello "op-1") false "pr_1" first_day).1.
Definition later_on : list op :=
  [OpPost "lab" (hello "op-2") false "pr_1"; OpClock 9000; OpTickCare].

Lemma hello_fresh : message_by_operation (h_store first_day) "lab" "pr_1" "op-1" = Ok None.
Proof. vm_compute. reflexivity. Qed.
Lemma said_restarts :
  match restarted (run_ops later_on said) with
  | Some h2 => is_deleted h2 "lab" = false | None => False end.
Proof. vm_compute. reflexivity. Qed.

Lemma operation_is_answered_once_across_restarts_witness :
  match restarted (run_ops later_on said), post "lab" (hello "op-1") false "pr_1" first_day with
  | Some h2, (_, Ok m) =>
      post "lab" (hello "op-1") true "pr_1" h2
        = (h2, Ok (message_from_row (message_row m (Some ("pr_1", "op-1"))))) /\
      (msg_id m < h_next_id h2)%N
  | _, _ => False
  end.
Proof.
  pose proof said_restarts as Hr. pose proof hello_accepted as Ha.
  destruct (restarted _) as [h2|] eqn:E; [|destruct Hr].
  destruct (post "lab" (hello "op-1") false "pr_1" first_day) as [h' [m|]] eqn:Ep; [|discriminate Ha].
  assert (said = h') as Hsaid by (unfold said; rewrite Ep; reflexivity). rewrite Hsaid in E.
  exact (operation_is_answered_once_across_restarts ∅ "lab" (hello "op-1") false "pr_1" "op-1"
    first_day h' m later_on config "root" room_settings_default 2 0 [] h2 (hello "op-1") true
    first_day_ok first_day_saved eq_refl ltac:(discriminate) hello_fresh eq_refl Ep E Hr eq_refl).
Defined.

(** A room with a mute is archived, sealed, and there again after a restart. *)
Definition archive : SetSettings :=
  mkSetSettings None None None (Some true) None None None None None None None None None None None
    None None.
Definition closed_lab : Hub (Conn Tables) :=
  run_ops [OpSubscribe "lab"; OpModerate "lab" Mute "bob"; OpSetSettings "lab" archive;
           OpDeleteRoom "lab"] first_day.

Lemma closed_lab_restarts :
  match restarted closed_lab with
  | Some h => negb (is_none (t_bans (disk h) !! ("lab", "bob", "mute")%string)) = true /\
      sealed_row (disk h) "lab" = true /\ bool_decide ("lab"%string = h_home_room h) = false
  | None => False
  end.
Proof. vm_compute. split; [|split]; reflexivity. Qed.

Lemma sealed_room_with_ban_returns_witness :
  match restarted closed_lab with
  | Some h => is_deleted h "lab" = true /\ is_Some (h_rooms h !! "lab"%string)
  | None => False
  end.
Proof.
  pose proof closed_lab_restarts as Hr. destruct (restarted closed_lab) as [h|] eqn:E; [|destruct Hr].
  destruct Hr as (Hb & Hs & Hh). apply bool_decide_eq_false in Hh.
  assert (is_Some (t_bans (disk h) !! ("lab", "bob", "mute")%string)) as Hban.
  { destruct (t_bans _ !! _); [by eexists|discriminate Hb]. }
  destruct (sealed_room_with_ban_returns config "root" room_settings_default 2 0
    (mkConn (disk closed_lab) []) h "lab" "bob" "mute" E Hban Hs Hh) as (Hd & Hroom & _).
  split; assumption.
Defined.

Definition closing_home : Hub (Conn Tables) :=
  run_ops [OpSubscribe "home"; OpSetSettings "home" archive] first_day.
Lemma home_closes : (delete_room "home" closing_home).2 = Ok true.
Proof. vm_compute. reflexivity. Qed.

Lemma sealed_home_refuses_messages_witness :
  exists e, (post "home" (mkPostMessage Say "ada" Agent None "hello" None None []) false "pr_1"
    (delete_room "home" closing_home).1).2 = Err e.
Proof.
  refine (proj2 (sealed_home_refuses_messages closing_home (delete_room "home" closing_home).1
    (mkPostMessage Say "ada" Agent None "hello" None None []) false "pr_1" _ eq_refl)).
  rewrite <- home_closes. apply surjective_pairing.
Defined.
