(* ===== verification/SocketFacts.v ===== *)
(** * What a websocket session does

    What the sessions of Sockets.v do to the server, whatever wakes them and
    whatever happened in the hub in between: which operations they make, what they
    send, to whom, and when. *)

From Stdlib Require Import Ascii.
From S2P Require Import Prelude Text Net Protocol StoreApi Hub Ledger Work WorkFacts Waits.
From S2P Require Import Seats Attention AttentionFacts Chat Access Membership Joins.
From S2P Require Import Rooms Scheduler WikiTypes Memory WikiOps Attachments Server ServerFacts Building.
From S2P Require Import Queries Http Doors RouteWork RouteRooms RouteMembers.
From S2P Require Import RouteMemory RouteWiki RouteAttachments Router RouterFacts Sockets.

Open Scope loca_scope.

Section facts.
Context {St : Type} `{Unicode} `{HeaderText} `{PathText} `{Digest} `{Csprng} `{StoreBase St}
  `{IdentityStore St} `{MessageStore St} `{WorkStore St} `{CareStore St} `{RoomStore St}
  `{OperatorStore St} `{ReadStore St} `{CredentialStore St} `{AdmissionStore St}
  `{MemoryStore St} `{WikiStore St} `{HeaderValueText} `{Environment} `{AttachmentStore St}.
Implicit Types h : Hub St.
Implicit Types s : Socket.
Implicit Types p : WsParams.

#[local] Existing Instances authed_refl authed_trans.

(** ** The operations of a session *)

Lemma ws_allowed_authed cr room name h : authed h (ws_allowed cr room name h).1.
Proof.
  unfold ws_allowed, live_session. pose proof (session_identity_authed (wsc_session cr) h) as Ha.
  by destruct (session_identity _ h).
Qed.
Lemma ws_is_admin_authed cr h : authed h (ws_is_admin cr h).1.
Proof.
  unfold ws_is_admin, is_admin_session. destruct (is_admin _ _); [done|].
  pose proof (resolve_authority_authed None (wsc_session cr) h) as Ha.
  by destruct (resolve_authority _ _ _).
Qed.

(** What a session may ask of the hub while its connection is open. *)
Definition own_op p (h0 : Hub St) (o : op) : Prop :=
  let cr := wp_credentials p in
  (ws_allowed cr (wp_room p) (wp_name p) h0).2 = true /\
  let h1 := (ws_allowed cr (wp_room p) (wp_name p) h0).1 in
  ((exists on, o = OpTyping (wp_room p) (wp_name p) on)
   \/ (exists cmd, o = OpControl (wp_room p) cmd /\ (ws_is_admin cr h1).2 = true)
   \/ (exists body, o = OpPost (wp_room p) body false (wp_identity p)
        /\ pm_sender body = wp_name p /\ pm_sender_type body = wp_kind p
        /\ pm_kind body = Say /\ pm_attachments body = []
        /\ let look := live_session cr (ws_is_admin cr h1).1 in
           h_require_sessions look.1 = true -> look.2 <> None)).

(** What a step does to the hub: session lookups, and then nothing, or the seat is
    left, or one operation of the connection's own; a watcher does nothing. *)
Definition session_effect p h h' : Prop :=
  exists h1, authed h h1 /\
    (h' = h1 \/ wp_watch_only p = false /\ exists o, h' = run_op o h1 /\
       (o = OpLeave (wp_room p) (wp_identity p) \/ own_op p h o)).

Lemma effect_none p h h' : authed h h' -> session_effect p h h'.
Proof. intros Ha. exists h'. by split; [|left]. Qed.
Lemma effect_op p h h1 o : authed h h1 -> wp_watch_only p = false ->
  (o = OpLeave (wp_room p) (wp_identity p) \/ own_op p h o) -> session_effect p h (run_op o h1).
Proof. intros Ha Hw Ho. exists h1. split; [done|]. right. split; [done|]. by exists o. Qed.

Lemma abandon_effect s h : session_effect (so_params s) h (ws_abandon s h).1.
Proof.
  unfold ws_abandon. cbn [fst]. destruct (wp_watch_only _) eqn:Hw; [by apply effect_none|].
  apply (effect_op _ _ h (OpLeave _ _)); [done..|by left].
Qed.
Lemma greet_effect f next s h : session_effect (so_params s) h (greet f next s h).1.
Proof.
  unfold greet. destruct (send_frame _ _) as [sink [|]]; [by apply effect_none|].
  apply (abandon_effect (with_so_sink sink s)).
Qed.

Lemma flush_hub s h : (flush_turn s h).1 = h.
Proof. unfold flush_turn. by destruct (send_turn _ _ _ _) as [? [|]]. Qed.
Lemma forward_hub f s h : (forward f s h).1 = h.
Proof. unfold forward. destruct (if wakes f then _ else _) as [sink [|]]; [destruct (send_frame _ _) as [? [|]]|]; done. Qed.
Lemma queue_hub now m s h : (queue_message now m s h).1 = h.
Proof.
  unfold queue_message. do 2 (case_decide; [try apply flush_hub; done|]).
  destruct (_ <=? _)%nat; [apply flush_hub|done].
Qed.
Lemma deliver_hub now f s h : (deliver now f s h).1 = h.
Proof.
  unfold deliver. destruct f; cbn; repeat (case_match; try done); first [apply queue_hub|apply forward_hub].
Qed.

Lemma on_frame_authed now f s h : authed h (on_frame now f s h).1.
Proof.
  unfold on_frame. destruct (unwrap_summon s f) as [g|]; [|done].
  destruct (match g with SF_Care _ => _ | _ => _ end); [done|].
  assert (authed h
    (let '(h, allowed) := ws_allowed (wp_credentials (so_params s)) (wp_room (so_params s)) (wp_name (so_params s)) h in
     if (allowed : bool) then deliver now g s h else ws_break false s h).1) as Hd.
  { pose proof (ws_allowed_authed (wp_credentials (so_params s)) (wp_room (so_params s)) (wp_name (so_params s)) h) as Ha.
    destruct (ws_allowed _ _ _ h) as [h1 [|]]; [by rewrite deliver_hub|done]. }
  destruct g; first [exact Hd|clear Hd; case_match; reflexivity].
Qed.

Lemma on_ping_authed s h : authed h (on_ping s h).1.
Proof.
  unfold on_ping. pose proof (ws_allowed_authed (wp_credentials (so_params s)) (wp_room (so_params s)) (wp_name (so_params s)) h) as Ha.
  destruct (ws_allowed _ _ _ h) as [h1 [|]]; [|done]. cbn [negb]. by destruct (sink_send _ _) as [? [|]].
Qed.
Lemma on_deadline_hub now s h : (on_deadline now s h).1 = h.
Proof.
  unfold on_deadline. destruct (turn_deadline _); [|done]. destruct (_ <? _)%N; [done|].
  destruct (tq_pending _); [done|]. apply flush_hub.
Qed.

Lemma on_text_effect frame s h : session_effect (so_params s) h (on_text frame s h).1.
Proof.
  unfold on_text. set (p := so_params s). set (cr := wp_credentials p).
  pose proof (ws_allowed_authed cr (wp_room p) (wp_name p) h) as Ha.
  destruct (ws_allowed cr _ _ h) as [h1 [|]] eqn:E1; cbn [negb]; [|by apply effect_none].
  pose proof (ws_is_admin_authed cr h1) as Hb. destruct (ws_is_admin cr h1) as [h2 admin] eqn:E2.
  pose proof (session_identity_authed (wsc_session cr) h2) as Hc.
  unfold live_session. destruct (session_identity (wsc_session cr) h2) as [h3 session] eqn:E3.
  cbn [fst] in *. assert (authed h h3) as Had by (etransitivity; [exact Ha|]; by etransitivity).
  unfold handle_client_frame. destruct (wp_watch_only p) eqn:Hw; [by apply effect_none|].
  destruct frame as [[target text reply_to op_id|cmd|on]|]; [| | |by apply effect_none].
  - destruct (_ && negb _) eqn:Hs; [by apply effect_none|].
    destruct (negb _ && _); [|by apply effect_none].
    apply (effect_op _ _ h3 (OpPost _ _ false _) Had Hw). right. unfold own_op. fold p cr. cbv zeta. rewrite E1. split; [done|].
    right; right. eexists. do 5 (split; [done|]). cbn [fst]. rewrite E2. cbn [fst].
    unfold live_session. rewrite E3. cbn [fst snd]. intros Hr ->. by rewrite Hr in Hs.
  - destruct admin; [|by apply effect_none].
    apply (effect_op _ _ h3 (OpControl _ _) Had Hw). right. unfold own_op. fold p cr. cbv zeta. rewrite E1. split; [done|].
    right; left. eexists. split; [done|]. cbn [fst]. by rewrite E2.
  - apply (effect_op _ _ h3 (OpTyping _ _ _) Had Hw). right. unfold own_op. fold p cr. cbv zeta. rewrite E1. split; [done|].
    left. by eexists.
Qed.

(** ** Entering *)

Lemma enter_ops p sink h : exists ops, (ws_enter p sink h).1 = run_ops ops h.
Proof.
  unfold ws_enter, live_session. cbn [fetch_next_id]. unfold fetch_next_id.
  pose proof (session_identity_authed (wsc_session (wp_credentials p)) (run_op OpNextSession h)) as [ts Ha].
  cbn [run_op fetch_next_id fst] in Ha. unfold fetch_next_id in Ha. cbn [fst] in Ha.
  destruct (session_identity _ _) as [h1 session]. cbn [fst] in Ha. subst h1.
  destruct (subscribe _ _) as [h2 history] eqn:E2.
  assert (h2 = run_ops ([OpNextSession] ++ map OpResolveSession ts ++ [OpSubscribe (wp_room p)]) h) as Hh2.
  { rewrite !run_ops_app. cbn [run_ops foldl run_op fetch_next_id fst]. unfold fetch_next_id, run_ops in *.
    cbn [fst]. by rewrite E2. }
  destruct (wp_watch_only p); [by eexists|].
  destruct (join_room _ _ _ _ _ _) as [h3 seated] eqn:E3. exists (([OpNextSession] ++ map OpResolveSession ts ++
    [OpSubscribe (wp_room p)]) ++ [OpJoin (wp_room p) (wp_identity p) (wp_name p) (wp_kind p) (h_next_id h)]).
  rewrite run_ops_app, <- Hh2. cbn [run_ops foldl run_op]. rewrite E3. by destruct seated.
Qed.

Lemma effect_ops p h h' : session_effect p h h' -> exists ops, h' = run_ops ops h.
Proof.
  intros (h1 & [ts ->] & [->|(_ & o & -> & _)]); [by eexists|].
  exists (map OpResolveSession ts ++ [o]). by rewrite run_ops_app.
Qed.

Lemma ws_step_effect e s h : session_effect (so_params s) h (ws_step e s h).1.
Proof.
  unfold ws_step. destruct (so_stage s) as [| |care| | | |evicted|], e; try by apply effect_none.
  - unfold greet_memory. destruct (wp_watch_only _) eqn:Hw; [by apply effect_none|].
    destruct (loca_memory_snapshot _ _); [apply greet_effect|apply abandon_effect].
  - unfold greet_care. destruct (care_to_replay s h) as [|signal care]; [by apply effect_none|].
    apply (greet_effect _ _ (with_so_replayed _ s)).
  - unfold greet_care. destruct care as [|signal care]; [by apply effect_none|].
    apply (greet_effect _ _ (with_so_replayed _ s)).
  - apply greet_effect.
  - unfold greet_roster. destruct (send_frame _ _). by apply effect_none.
  - apply effect_none, on_frame_authed.
  - apply effect_none, on_ping_authed.
  - apply effect_none. by rewrite on_deadline_hub.
  - apply on_text_effect.
  - unfold on_closing. cbn [fst]. destruct (wp_watch_only _) eqn:Hw; [by apply effect_none|].
    destruct evicted; [by apply effect_none|]. apply (effect_op _ _ h (OpLeave _ _)); [done..|by left].
Qed.

(** ** What a session sends *)

(** The messages, and the care envelopes, that were sent to the client. *)
Definition frame_messages (f : ServerFrame) : list Message :=
  match f with SF_Msg m => [m] | SF_Turn l => l | _ => [] end.
Definition told (k : Sink) : list Message :=
  flat_map (fun o => match o with OutFrame f => frame_messages f | _ => [] end) (sk_sent k).
Definition frame_care (f : ServerFrame) : list CareSignal :=
  match f with SF_Care signal => [signal] | _ => [] end.
Definition cared (k : Sink) : list CareSignal :=
  flat_map (fun o => match o with OutFrame f => frame_care f | _ => [] end) (sk_sent k).

Definition out_frame (f : WsOut -> Prop) (k k' : Sink) : Prop :=
  exists new, sk_sent k' = sk_sent k ++ new /\ Forall f new.

Lemma send_told f k :
  let '(k', sent) := send_frame f k in
  told k' = told k ++ (if sent then frame_messages f else [])
  /\ cared k' = cared k ++ (if sent then frame_care f else []).
Proof.
  unfold send_frame, sink_send, told, cared. destruct (sk_faults k) as [|[|] faults]; cbn [sk_sent tail];
    rewrite ?flat_map_app; cbn; by rewrite ?app_nil_r.
Qed.

(** A ping and a closing frame carry nothing. *)
Lemma sink_quiet o k : match o with OutFrame _ => False | _ => True end ->
  told (sink_send o k).1 = told k /\ cared (sink_send o k).1 = cared k.
Proof.
  intros Ho. unfold sink_send, told, cared. destruct (sk_faults k) as [|[|] faults]; cbn [fst sk_sent tail];
    rewrite ?flat_map_app; destruct o; try done; cbn; by rewrite ?app_nil_r.
Qed.

Lemma send_version_told room k h :
  told (send_memory_version room k h).1 = told k /\ cared (send_memory_version room k h).1 = cared k.
Proof.
  unfold send_memory_version. pose proof (send_told (SF_MemoryVersion room
    (match loca_memory_version h room with Ok v => v | Err _ => 0%N end)) k) as Hs.
  destruct (send_frame _ k) as [k' sent]. cbn [frame_messages frame_care fst] in *.
  destruct sent; by rewrite !app_nil_r in Hs.
Qed.

Lemma send_turn_told room l k h :
  let '(k', sent) := send_turn room l k h in
  told k' = told k ++ (if sent then l else []) /\ cared k' = cared k.
Proof.
  unfold send_turn. set (f := match l with [m] => SF_Msg m | _ => SF_Turn l end).
  assert (frame_messages f = l /\ frame_care f = []) as [Hm Hc] by by destruct l as [|m [|]].
  pose proof (send_version_told room k h) as [Ht Hca].
  destruct (send_memory_version room k h) as [k1 [|]]; cbn [fst] in *; [|by rewrite app_nil_r].
  pose proof (send_told f k1) as Hs. destruct (send_frame f k1) as [k2 sent]. destruct Hs as [-> ->].
  rewrite Hm, Hc, Ht, Hca. by destruct sent; rewrite ?app_nil_r.
Qed.

(** ** The queue of a session *)

Definition pending s : list Message := tq_pending (so_turn s).

(** Only a connection in the mode of mentions queues messages, fewer than make a
    turn; a queue that is not empty has both its deadlines. *)
Record turn_ok s : Prop := {
  to_empty : pending s = [] -> so_turn s = empty_turn;
  to_batching : pending s <> [] -> batching s = true;
  to_deadlines : pending s <> [] -> is_Some (tq_idle (so_turn s)) /\ is_Some (tq_hard (so_turn s));
  to_length : pending s <> [] -> (length (pending s) < wp_turn_max (so_params s))%nat;
}.

Lemma turn_ok_empty s : so_turn s = empty_turn -> turn_ok s.
Proof. unfold pending. intros E. constructor; unfold pending; rewrite E; done. Qed.

(** The messages of a frame the session hears, of those it may see: the ones that
    address it or that it follows, and that are not its own echo. *)
Definition seen s h (frame : ServerFrame) : list Message :=
  match frame with
  | SF_Msg m =>
      let echo := batching s && bool_decide (msg_sender m = wp_name (so_params s))
                  && negb (bool_decide (msg_kind m = Announce)) in
      if mention_passes s h frame && negb echo then [m] else []
  | SF_Turn l => if passes_filter s frame then l else []
  | _ => []
  end.
(** The messages an event lets the session hear. *)
Definition heard s h (e : WsEvent) : list Message :=
  let p := so_params s in
  let '(h1, allowed) := ws_allowed (wp_credentials p) (wp_room p) (wp_name p) h in
  match e with
  | EvFrame _ frame =>
      match unwrap_summon s frame with Some f => if (allowed : bool) then seen s h1 f else [] | None => [] end
  | _ => []
  end.
Definition is_stop (f : ServerFrame) : Prop := f = SF_Control "stop".

(** The session is closing, or over. *)
Definition over s : Prop := match so_stage s with Closing _ | Ended => True | _ => False end.

(** What became of the queue in a step that let the session hear [ms]: the
    connection closes; the messages wait; they are sent; or they are dropped, as an
    operator asked. *)
Inductive turn_move s (ms : list Message) (stop : Prop) s' : Prop :=
  | TmCloses : over s' ->
      told (so_sink s') `prefix_of` told (so_sink s) ++ pending s ++ ms -> turn_move s ms stop s'
  | TmWaits : so_stage s' = Looping -> told (so_sink s') = told (so_sink s) ->
      pending s' = pending s ++ ms ->
      (pending s <> [] -> tq_hard (so_turn s') = tq_hard (so_turn s)) -> turn_move s ms stop s'
  | TmSent : so_stage s' = Looping -> told (so_sink s') = told (so_sink s) ++ pending s ++ ms ->
      pending s' = [] -> turn_move s ms stop s'
  | TmStopped : stop -> so_stage s' = Looping -> told (so_sink s') = told (so_sink s) ->
      pending s' = [] -> turn_move s ms stop s'.

Lemma flush_told s h :
  let s' := (flush_turn s h).2 in
  so_params s' = so_params s /\ so_turn s' = empty_turn /\ cared (so_sink s') = cared (so_sink s) /\
  ((so_stage s' = so_stage s /\ told (so_sink s') = told (so_sink s) ++ pending s)
   \/ (so_stage s' = Closing false /\ told (so_sink s') = told (so_sink s))).
Proof.
  unfold flush_turn. pose proof (send_turn_told (wp_room (so_params s)) (tq_pending (so_turn s)) (so_sink s) h) as Hs.
  destruct (send_turn _ _ _ _) as [k [|]]; destruct Hs as [Ht Hc]; cbn; do 3 (split; [done|]);
    [by left|right]. by rewrite app_nil_r in Ht.
Qed.

Lemma forward_told f s h :
  let s' := (forward f s h).2 in
  so_params s' = so_params s /\ so_turn s' = so_turn s /\
  ((so_stage s' = so_stage s /\ told (so_sink s') = told (so_sink s) ++ frame_messages f
    /\ cared (so_sink s') = cared (so_sink s) ++ frame_care f)
   \/ (so_stage s' = Closing false /\ told (so_sink s') = told (so_sink s)
      /\ cared (so_sink s') = cared (so_sink s))).
Proof.
  unfold forward. set (first := if wakes f then _ else _).
  assert (told first.1 = told (so_sink s) /\ cared first.1 = cared (so_sink s)) as [Ht Hc].
  { subst first. destruct (wakes f); [apply send_version_told|done]. }
  destruct first as [k [|]]; cbn [fst] in *; [|cbn; by eauto 10].
  pose proof (send_told f k) as Hs. destruct (send_frame f k) as [k' [|]]; destruct Hs as [Ht' Hc']; cbn;
    do 2 (split; [done|]); [left|right]; rewrite Ht', Hc', Ht, Hc; by rewrite ?app_nil_r.
Qed.

(** The queue goes out with the messages that came. *)
Lemma flush_move s q ms stop h : so_stage s = Looping -> tq_pending q = pending s ++ ms ->
  let s' := (flush_turn (with_so_turn q s) h).2 in turn_move s ms stop s' /\ turn_ok s'.
Proof.
  intros Hl Hq s'. destruct (flush_told (with_so_turn q s) h) as (_ & Hturn & _ & Hcase). fold s' in Hturn, Hcase.
  split; [|by apply turn_ok_empty]. unfold pending in Hcase. cbn in Hcase. rewrite Hq in Hcase.
  destruct Hcase as [[Hst Ht]|[Hst Ht]].
  - apply TmSent; [congruence|by rewrite Ht|]. unfold pending. by rewrite Hturn.
  - apply TmCloses; [by unfold over; rewrite Hst|]. rewrite Ht. by apply prefix_app_r.
Qed.

Lemma stays s stop : so_stage s = Looping -> turn_move s [] stop s.
Proof. intros Hl. apply TmWaits; [done..| |done]. by rewrite app_nil_r. Qed.
Lemma closes s s' ms stop : over s' -> told (so_sink s') = told (so_sink s) ->
  turn_move s ms stop s'.
Proof. intros Hs Ht. apply TmCloses; [done|]. rewrite Ht. by apply prefix_app_r. Qed.

Lemma queue_move now m s stop h : so_stage s = Looping -> turn_ok s -> batching s = true ->
  let ms := if bool_decide (msg_sender m = wp_name (so_params s)) && negb (bool_decide (msg_kind m = Announce))
            then [] else [m] in
  let s' := (queue_message now m s h).2 in turn_move s ms stop s' /\ turn_ok s'.
Proof.
  intros Hl Hok Hb. unfold queue_message. destruct (decide (msg_kind m = Announce)) as [Ha|Ha].
  { rewrite (bool_decide_eq_true_2 _ Ha), andb_false_r. by apply flush_move. }
  rewrite (bool_decide_eq_false_2 _ Ha), andb_true_r. case_decide as Hs.
  { rewrite bool_decide_eq_true_2 by done. cbn. split; [by apply stays|done]. }
  rewrite bool_decide_eq_false_2 by done. cbv zeta.
  set (q := mkTurnQueue _ _ _). destruct (_ <=? _)%nat eqn:Hfull; [by apply flush_move|].
  apply Nat.leb_gt in Hfull. split.
  - apply TmWaits; [done..|]. intros Hp. cbn.
    destruct (_ =? _)%nat eqn:Hone; [|done]. apply Nat.eqb_eq in Hone. rewrite length_app in Hone. cbn in Hone.
    destruct Hp. unfold pending. destruct (tq_pending (so_turn s)); [done|]. cbn in Hone. lia.
  - constructor; unfold pending; cbn [snd with_so_turn so_turn q tq_pending so_params tq_idle tq_hard].
    + intros E. by destruct (tq_pending (so_turn s)).
    + done.
    + intros _. split; [by eexists|]. destruct (_ =? _)%nat eqn:Hone; [by eexists|].
      apply to_deadlines; [done|]. unfold pending. intros E. by rewrite E in Hone.
    + done.
Qed.

Lemma turn_ok_same s s' : so_params s' = so_params s -> so_turn s' = so_turn s -> turn_ok s -> turn_ok s'.
Proof.
  intros Hp Ht [He Hb Hd Hl]. constructor; unfold pending, batching in *; rewrite ?Ht, ?Hp; done.
Qed.
Lemma not_batching s : turn_ok s -> batching s = false -> pending s = [].
Proof.
  intros Hok Hb. destruct (pending s) as [|m l] eqn:Hp; [done|].
  pose proof (to_batching s Hok) as Hq. rewrite Hp, Hb in Hq. by specialize (Hq ltac:(done)).
Qed.

(** A frame that is no message goes past the queue. *)
Lemma forward_move f s stop h : so_stage s = Looping -> turn_ok s -> frame_messages f = [] \/ batching s = false ->
  let s' := (forward f s h).2 in turn_move s (frame_messages f) stop s' /\ turn_ok s'.
Proof.
  intros Hl Hok Hf s'. destruct (forward_told f s h) as (Hp & Hturn & Hcase). fold s' in Hp, Hturn, Hcase.
  split; [|by eapply turn_ok_same]. destruct Hcase as [(Hst & Ht & _)|(Hst & Ht & _)];
    [|by apply closes; [unfold over; rewrite Hst|]].
  destruct Hf as [Hf|Hf].
  - rewrite Hf in *. apply TmWaits; [congruence|by rewrite Ht, app_nil_r| |intros _; by rewrite Hturn].
    unfold pending. by rewrite Hturn, app_nil_r.
  - pose proof (not_batching s Hok Hf) as Hn. apply TmSent; [congruence|by rewrite Hn, Ht|].
    unfold pending in *. by rewrite Hturn.
Qed.

Lemma stop_forward_move s h : so_stage s = Looping ->
  let s' := (forward (SF_Control "stop") (with_so_turn empty_turn s) h).2 in
  turn_move s [] (is_stop (SF_Control "stop")) s' /\ turn_ok s'.
Proof.
  intros Hl s'. destruct (forward_told (SF_Control "stop") (with_so_turn empty_turn s) h) as (Hp & Hturn & Hcase).
  fold s' in Hp, Hturn, Hcase. split; [|by apply turn_ok_empty].
  destruct Hcase as [(Hst & Ht & _)|(Hst & Ht & _)]; [|by apply closes; [unfold over; rewrite Hst|]].
  apply TmStopped; [done|by rewrite Hst|by rewrite Ht, app_nil_r|]. unfold pending. by rewrite Hturn.
Qed.

Lemma deliver_move now g s h : so_stage s = Looping -> turn_ok s ->
  let s' := (deliver now g s h).2 in turn_move s (seen s h g) (is_stop g) s' /\ turn_ok s'.
Proof.
  intros Hl Hok. unfold deliver, seen. destruct (negb (passes_filter s g)) eqn:Hpass.
  { apply negb_true_iff in Hpass. cbn [snd]. split; [|done].
    destruct g; try (by apply stays); [discriminate|]. rewrite Hpass. by apply stays. }
  apply negb_false_iff in Hpass.
  assert (forall f, frame_messages f = [] ->
    let s' := (if negb (mention_passes s h f) then (h, s) else forward f s h).2 in
    turn_move s [] (is_stop f) s' /\ turn_ok s') as Hquiet.
  { intros f Hf. destruct (negb (mention_passes s h f)); [split; [by apply stays|done]|].
    pose proof (forward_move f s (is_stop f) h Hl Hok (or_introl Hf)) as Hm. by rewrite Hf in Hm. }
  destruct g; try by apply Hquiet.
  - destruct (mention_passes s h _); [|split; [by apply stays|done]]. cbn [negb andb].
    destruct (batching s) eqn:Hb; cbn [andb negb].
    + pose proof (queue_move now message s (is_stop (SF_Msg message)) h Hl Hok Hb) as Hq. cbv zeta in Hq.
      by destruct (_ && _).
    + apply (forward_move (SF_Msg message) s _ h Hl Hok). by right.
  - rewrite Hpass. cbn [passes_filter] in Hpass.
    assert (batching s = false) as Hb.
    { unfold events_only, batching in *. apply negb_true_iff, negb_false_iff, bool_decide_eq_true in Hpass.
      rewrite bool_decide_eq_false_2; [done|congruence]. }
    assert (mention_passes s h (SF_Turn messages) = true) as ->.
    { unfold mention_passes. by case_match. }
    apply (forward_move (SF_Turn messages) s _ h Hl Hok). by right.
  - destruct (batching s && _) eqn:Hstop; [|by apply Hquiet].
    apply andb_true_iff in Hstop as [_ ->%bool_decide_eq_true].
    assert (mention_passes (with_so_turn empty_turn s) h (SF_Control "stop") = true) as ->.
    { unfold mention_passes. by case_match. }
    by apply stop_forward_move.
  - destruct (negb (care_in_place _ _)); [split; [by apply stays|done]|by apply Hquiet].
Qed.

Lemma unwrap_stop s f g : unwrap_summon s f = Some g -> is_stop g -> is_stop f.
Proof. unfold is_stop. intros Hu ->. destruct f; cbn in Hu; try congruence. by case_match. Qed.
Lemma turn_move_stop s ms (stop stop' : Prop) s' : (stop -> stop') -> turn_move s ms stop s' -> turn_move s ms stop' s'.
Proof. intros Hs []; [by apply TmCloses|by apply TmWaits|by apply TmSent|apply TmStopped; auto]. Qed.

Lemma on_frame_move now f s h : so_stage s = Looping -> turn_ok s ->
  let s' := (on_frame now f s h).2 in
  turn_move s (heard s h (EvFrame now f)) (is_stop f) s' /\ turn_ok s'.
Proof.
  intros Hl Hok. unfold heard. set (p := so_params s).
  destruct (ws_allowed _ _ _ h) as [h1 allowed] eqn:Ea. unfold on_frame. fold p.
  destruct (unwrap_summon s f) as [g|] eqn:Hu; [|by split; [apply stays|]].
  assert (forall b k, told k = told (so_sink s) ->
    turn_move s [] (is_stop f) (with_so_stage (Closing b) (with_so_sink k s))
    /\ turn_ok (with_so_stage (Closing b) (with_so_sink k s))) as Hclose.
  { intros b k Hk. split; [by apply closes|]. by eapply turn_ok_same, Hok. }
  assert (let s' := (if allowed then deliver now g s h1 else ws_break false s h1).2 in
    turn_move s (if allowed then seen s h1 g else []) (is_stop f) s' /\ turn_ok s') as Hd.
  { destruct allowed.
    - destruct (deliver_move now g s h1 Hl Hok) as [Hm Ht]. split; [|done].
      eapply turn_move_stop, Hm. by eapply unwrap_stop.
    - split; [by apply closes|]. by eapply turn_ok_same, Hok. }
  rewrite Ea.
  destruct g; try exact Hd.
  - assert ((if allowed then seen s h1 (SF_Kicked name banned) else []) = []) as -> by by destruct allowed.
    case_decide; [|by split; [apply stays|]]. apply Hclose.
    pose proof (send_told (SF_Kicked name banned) (so_sink s)) as Hs.
    destruct (send_frame _ _) as [k [|]]; destruct Hs as [Hs _]; cbn in *; by rewrite app_nil_r in Hs.
  - assert ((if allowed then seen s h1 (SF_Evicted name identity session) else []) = []) as -> by by destruct allowed.
    destruct (_ && _); [|by split; [apply stays|]]. apply Hclose.
    pose proof (send_told (SF_Evicted name identity session) (so_sink s)) as Hs.
    destruct (send_frame _ _) as [k [|]]; destruct Hs as [Hs _]; cbn in *; by rewrite app_nil_r in Hs.
  - case_bool_decide; [|exact Hd]. split; [|done]. destruct allowed; by apply stays.
Qed.

(** An operator's stop reaches the session. *)
Definition stop_event (e : WsEvent) : Prop := exists now, e = EvFrame now (SF_Control "stop").

Lemma heard_nothing s h e : (forall now f, e <> EvFrame now f) -> heard s h e = [].
Proof. intros He. unfold heard. destruct (ws_allowed _ _ _ h). destruct e; try done. by destruct (He now frame). Qed.

Lemma on_ping_move s h : so_stage s = Looping -> turn_ok s ->
  turn_move s [] False (on_ping s h).2 /\ turn_ok (on_ping s h).2.
Proof.
  intros Hl Hok. unfold on_ping. destruct (ws_allowed _ _ _ h) as [h1 [|]]; cbn [negb].
  - pose proof (proj1 (sink_quiet OutPing (so_sink s) I)) as Ht.
    destruct (sink_send _ _) as [k [|]]; cbn [fst] in Ht;
      (split; [|by eapply turn_ok_same, Hok]); [|by apply closes].
    apply TmWaits; cbn; [done..| |done]. by rewrite app_nil_r.
  - split; [by apply closes|by eapply turn_ok_same, Hok].
Qed.

Lemma on_deadline_move now s h : so_stage s = Looping -> turn_ok s ->
  turn_move s [] False (on_deadline now s h).2 /\ turn_ok (on_deadline now s h).2.
Proof.
  intros Hl Hok. unfold on_deadline. destruct (turn_deadline _); [|split; [by apply stays|done]].
  destruct (_ <? _)%N; [split; [by apply stays|done]|].
  destruct (tq_pending _) as [|m l] eqn:Hp.
  - split; [|by apply turn_ok_empty]. apply TmWaits; cbn; [done..| |].
    + unfold pending. cbn. by rewrite Hp.
    + unfold pending. by rewrite Hp.
  - pose proof (flush_move s (so_turn s) [] False h Hl) as Hf. cbv zeta in Hf.
    assert (with_so_turn (so_turn s) s = s) as E by by destruct s.
    rewrite E in Hf. apply Hf. unfold pending. by rewrite app_nil_r.
Qed.

Lemma step_move e s h : so_stage s = Looping -> turn_ok s ->
  let s' := (ws_step e s h).2 in turn_move s (heard s h e) (stop_event e) s' /\ turn_ok s'.
Proof.
  intros Hl Hok s'. subst s'. unfold ws_step. rewrite Hl.
  assert (turn_move s [] (stop_event e) s /\ turn_ok s) as Hstays by (split; [by apply stays|done]).
  assert (turn_move s [] (stop_event e) (with_so_stage (Closing false) s)
    /\ turn_ok (with_so_stage (Closing false) s)) as Hcloses.
  { split; [by apply closes|by eapply turn_ok_same, Hok]. }
  assert (forall s' : Socket, turn_move s [] False s' /\ turn_ok s' -> turn_move s [] (stop_event e) s' /\ turn_ok s') as Hw.
  { intros s' [Hm Ht]. split; [|done]. by eapply turn_move_stop, Hm. }
  destruct e as [|now f| | | |now|frame| |]; rewrite ?heard_nothing by done; try exact Hstays; try exact Hcloses.
  - destruct (on_frame_move now f s h Hl Hok) as [Hm Ht]. split; [|done].
    eapply turn_move_stop, Hm. unfold is_stop, stop_event. intros ->. by exists now.
  - by apply Hw, on_ping_move.
  - by apply Hw, on_deadline_move.
  - unfold on_text. destruct (ws_allowed _ _ _ h) as [h1 [|]]; cbn [negb]; [|exact Hcloses].
    destruct (ws_is_admin _ _). by destruct (live_session _ _).
Qed.

Lemma greet_turn f next s h : so_turn (greet f next s h).2 = so_turn s.
Proof. unfold greet. by destruct (send_frame _ _) as [? [|]]. Qed.
(** Before and after the loop no message waits for its turn. *)
Lemma step_turn e s h : so_stage s <> Looping -> so_turn (ws_step e s h).2 = so_turn s.
Proof.
  intros Hl. unfold ws_step. destruct (so_stage s) as [| |care| | | |evicted|], e; try done.
  - unfold greet_memory. case_match; [done|]. destruct (loca_memory_snapshot _ _); [apply greet_turn|done].
  - unfold greet_care. case_match; [done|]. by rewrite greet_turn.
  - unfold greet_care. case_match; [done|]. by rewrite greet_turn.
  - apply greet_turn.
  - unfold greet_roster. by destruct (send_frame _ _).
Qed.

Lemma step_over e s h : over s -> over (ws_step e s h).2 /\ told (so_sink (ws_step e s h).2) = told (so_sink s).
Proof.
  unfold over, ws_step. destruct (so_stage s) as [| | | | | |evicted|] eqn:Hs; try done.
  - intros _. destruct e; cbn [snd]; rewrite ?Hs; try done. cbn. split; [done|].
    by apply (sink_quiet OutClose).
  - intros _. destruct e; cbn [snd]; by rewrite ?Hs.
Qed.

(** *** Over the life of a connection *)

(** The session after the events of [l], each with the hub as it was then. *)
Definition ws_trace (l : list (Hub St * WsEvent)) s : Socket :=
  foldl (fun s he => (ws_step he.2 s he.1).2) s l.

(** What a step keeps of a session. *)
Definition same_session s s' : Prop :=
  so_params s' = so_params s /\ so_session_id s' = so_session_id s /\ so_principal_id s' = so_principal_id s.
#[local] Instance same_session_refl : Reflexive same_session.
Proof. by intros s. Qed.
#[local] Instance same_session_trans : Transitive same_session.
Proof. intros s1 s2 s3 (? & ? & ?) (? & ? & ?). unfold same_session. intuition congruence. Qed.

Lemma greet_same f next s h : same_session s (greet f next s h).2.
Proof. unfold greet, ws_abandon. by destruct (send_frame _ _) as [? [|]]. Qed.
Lemma flush_same s h : same_session s (flush_turn s h).2.
Proof. unfold flush_turn. by destruct (send_turn _ _ _ _) as [? [|]]. Qed.
Lemma forward_same f s h : same_session s (forward f s h).2.
Proof.
  unfold forward. destruct (if wakes f then _ else _) as [k [|]]; [|done]. by destruct (send_frame _ _) as [? [|]].
Qed.
Lemma queue_same now m s h : same_session s (queue_message now m s h).2.
Proof.
  unfold queue_message. case_decide; [apply (flush_same (with_so_turn _ s))|]. case_decide; [done|].
  case_match; [apply (flush_same (with_so_turn _ s))|done].
Qed.
Lemma deliver_same now f s h : same_session s (deliver now f s h).2.
Proof.
  unfold deliver. destruct f; cbn; repeat (case_match; try done);
    first [apply queue_same|apply forward_same|apply (forward_same _ (with_so_turn _ s))].
Qed.
Lemma on_frame_same now f s h : same_session s (on_frame now f s h).2.
Proof.
  unfold on_frame. destruct (unwrap_summon s f) as [g|]; [|done]. case_match; [done|].
  assert (same_session s (let '(h, allowed) := ws_allowed (wp_credentials (so_params s)) (wp_room (so_params s)) (wp_name (so_params s)) h in
     if (allowed : bool) then deliver now g s h else ws_break false s h).2) as Hd.
  { destruct (ws_allowed _ _ _ h) as [h1 [|]]; [apply deliver_same|done]. }
  destruct g; first [exact Hd|clear Hd; by case_match].
Qed.

Lemma step_same e s h : same_session s (ws_step e s h).2.
Proof.
  unfold ws_step. destruct (so_stage s) as [| |care| | | |evicted|], e; try done.
  - unfold greet_memory, ws_abandon. case_match; [done|]. case_match; [apply greet_same|done].
  - unfold greet_care. case_match; [done|]. apply (greet_same _ _ (with_so_replayed _ s)).
  - unfold greet_care. case_match; [done|]. apply (greet_same _ _ (with_so_replayed _ s)).
  - apply greet_same.
  - unfold greet_roster. by destruct (send_frame _ _).
  - apply on_frame_same.
  - unfold on_ping. destruct (ws_allowed _ _ _ h) as [h1 [|]]; [|done]. cbn. by destruct (sink_send _ _) as [? [|]].
  - unfold on_deadline. case_match; [|done]. case_match; [done|]. case_match; [done|]. apply flush_same.
  - unfold on_text. destruct (ws_allowed _ _ _ h) as [h1 [|]]; [|done]. cbn.
    destruct (ws_is_admin _ _). by destruct (live_session _ _).
Qed.

Lemma step_turn_ok e s h : turn_ok s -> turn_ok (ws_step e s h).2.
Proof.
  intros Hok. assert ({so_stage s = Looping} + {so_stage s <> Looping}) as [Hl|Hl].
  { destruct (so_stage s); (by left) || (by right). }
  - by apply step_move.
  - eapply turn_ok_same, Hok; [apply step_same|by apply step_turn].
Qed.

Lemma heard_same s s' h e : same_session s s' -> heard s' h e = heard s h e.
Proof.
  intros (Hp & _ & Hpid). unfold heard, unwrap_summon, seen, batching, passes_filter, mention_passes, message_heard,
    care_addressed, events_only.
  by rewrite Hp, Hpid.
Qed.

(** Every message a connection hears is told once and in order: what was sent and
    what waits is all it heard, unless an operator stopped it. *)
Lemma trace_told l s : so_stage s = Looping -> turn_ok s -> Forall (fun he => ~ stop_event he.2) l ->
  let all := told (so_sink s) ++ pending s ++ flat_map (fun he => heard s he.1 he.2) l in
  let s' := ws_trace l s in
  (so_stage s' = Looping /\ turn_ok s' /\ told (so_sink s') ++ pending s' = all)
  \/ (over s' /\ told (so_sink s') `prefix_of` all).
Proof.
  revert s. induction l as [|[h e] l IH]; intros s Hl Hok Hstop.
  { left. cbn. by rewrite app_nil_r. }
  apply Forall_cons in Hstop as [Hns Hstop]. cbn [ws_trace foldl fst snd flat_map].
  destruct (step_move e s h Hl Hok) as [Hm Hok']. set (s1 := (ws_step e s h).2) in *.
  pose proof (step_same e s h) as Hsame. fold s1 in Hsame.
  assert (flat_map (fun he => heard s1 he.1 he.2) l = flat_map (fun he => heard s he.1 he.2) l) as Eheard.
  { apply flat_map_ext. intros he. by apply heard_same. }
  assert (forall s2, over s2 -> over (ws_trace l s2) /\ told (so_sink (ws_trace l s2)) = told (so_sink s2)) as Hover.
  { clear. induction l as [|[h e] l IH]; intros s2 Ho; [done|]. cbn [ws_trace foldl].
    destruct (step_over e s2 h Ho) as [Ho' Ht']. destruct (IH _ Ho') as [Ho2 Ht2]. split; [done|]. by rewrite <- Ht'. }
  destruct Hm as [Ho Hpre|Hst Ht Hp _|Hst Ht Hp|Hs]; [| | |done].
  - right. destruct (Hover s1 Ho) as [Ho' Ht']. split; [done|]. unfold ws_trace in Ht'. rewrite Ht'.
    etransitivity; [exact Hpre|]. rewrite !app_assoc. by apply prefix_app_r.
  - specialize (IH s1 Hst Hok' Hstop). rewrite Ht, Hp, Eheard, <- app_assoc in IH. exact IH.
  - specialize (IH s1 Hst Hok' Hstop). rewrite Ht, Hp, Eheard, <- !app_assoc in IH. exact IH.
Qed.

Lemma trace_over l s : over s -> over (ws_trace l s) /\ told (so_sink (ws_trace l s)) = told (so_sink s).
Proof.
  revert s. induction l as [|[h e] l IH]; intros s Ho; [done|]. cbn [ws_trace foldl].
  destruct (step_over e s h Ho) as [Ho' Ht']. destruct (IH _ Ho') as [Ho2 Ht2]. split; [done|]. by rewrite <- Ht'.
Qed.

(** What waits at first is sent, or waits under the same hard deadline. *)
Lemma trace_waits l s : so_stage s = Looping -> turn_ok s -> pending s <> [] ->
  Forall (fun he => ~ stop_event he.2) l ->
  let s' := ws_trace l s in
  over s' \/
  so_stage s' = Looping /\ turn_ok s' /\
  (told (so_sink s) ++ pending s `prefix_of` told (so_sink s')
   \/ told (so_sink s') = told (so_sink s) /\ pending s `prefix_of` pending s'
      /\ tq_hard (so_turn s') = tq_hard (so_turn s)).
Proof.
  intros Hl Hok Hp. induction l as [|[h e] l IH] using rev_ind; intros Hstop; [by eauto 10|].
  apply Forall_app in Hstop as [Hstop [Hns _]%Forall_cons]. specialize (IH Hstop). cbn [snd] in Hns.
  unfold ws_trace. rewrite foldl_app. cbn [foldl fst snd]. fold (ws_trace l s).
  set (s1 := ws_trace l s) in *.
  destruct IH as [Ho|(Hl1 & Hok1 & Hcase)]; [left; by apply step_over|].
  destruct (step_move e s1 h Hl1 Hok1) as [Hm Hok2].
  destruct Hm as [Ho _|Hst Ht Hq Hh|Hst Ht Hq|Hs]; [by left|right|right|done]; do 2 (split; [done|]).
  - destruct Hcase as [Hpre|(Ht1 & Hp1 & Hh1)]; [left; by rewrite Ht|].
    right. split; [congruence|]. split; [rewrite Hq; by apply prefix_app_r|]. rewrite Hh; [done|].
    intros E. rewrite E in Hp1. by apply prefix_nil_inv in Hp1.
  - left. rewrite Ht. destruct Hcase as [Hpre|(Ht1 & Hp1 & _)]; [by apply prefix_app_r|].
    rewrite Ht1. apply prefix_app. by apply prefix_app_r.
Qed.

Lemma deadline_sends now s h : so_stage s = Looping -> turn_ok s ->
  (forall t, tq_hard (so_turn s) = Some t -> (t <= now)%N) -> pending s <> [] ->
  let s' := (ws_step (EvDeadline now) s h).2 in
  over s' \/ told (so_sink s') = told (so_sink s) ++ pending s.
Proof.
  intros Hl Hok Hnow Hp. unfold ws_step. rewrite Hl. unfold on_deadline, turn_deadline.
  destruct (to_deadlines s Hok Hp) as [[idle Hi] [hard Hh]]. rewrite Hi, Hh. apply Hnow in Hh.
  assert ((now <? N.min idle hard)%N = false) as -> by (apply N.ltb_ge; lia).
  unfold pending in Hp. destruct (tq_pending (so_turn s)) as [|m q] eqn:Hq; [done|].
  destruct (flush_told s h) as (_ & _ & _ & [[Hst Ht]|[Hst Ht]]); [right|left; unfold over; by rewrite Hst].
  done.
Qed.

(** What a step makes of the deadline of an empty queue. *)
Definition opens_at (now : N) s s' : Prop :=
  so_turn s' = so_turn s \/ so_turn s' = empty_turn
  \/ (tq_pending (so_turn s) = [] -> tq_hard (so_turn s') = Some (now + wp_turn_max_wait_ms (so_params s))%N).
Lemma queue_opens now m s h : opens_at now s (queue_message now m s h).2.
Proof.
  unfold queue_message. case_decide; [right; left; by apply flush_told|]. case_decide; [by left|].
  case_match; [right; left; by apply flush_told|]. right; right. cbn. by intros ->.
Qed.
Lemma forward_opens now f s h : opens_at now s (forward f s h).2.
Proof. left. apply forward_told. Qed.
Lemma deliver_opens now f s h : opens_at now s (deliver now f s h).2.
Proof.
  unfold deliver. destruct f; cbn; repeat (case_match; try by left);
    first [apply queue_opens|apply forward_opens|by right; left].
Qed.
Lemma on_frame_opens now f s h : opens_at now s (on_frame now f s h).2.
Proof.
  unfold on_frame. destruct (unwrap_summon s f) as [g|]; [|by left]. case_match; [by left|].
  assert (opens_at now s (let '(h, allowed) := ws_allowed (wp_credentials (so_params s)) (wp_room (so_params s)) (wp_name (so_params s)) h in
     if (allowed : bool) then deliver now g s h else ws_break false s h).2) as Hd.
  { destruct (ws_allowed _ _ _ h) as [h1 [|]]; [apply deliver_opens|by left]. }
  destruct g; first [exact Hd|clear Hd; case_match; by left].
Qed.

(** ** Care envelopes *)

(** An envelope of this room: for whoever the connection is, or, on a connection
    that is not in the mode of mentions, one that is not somebody else's from
    another room. *)
Definition care_fits s (signal : CareSignal) : Prop :=
  sig_room signal = wp_room (so_params s)
  /\ (care_addressed s signal = true
      \/ wp_filter (so_params s) <> WsMentions /\ care_in_place s signal = true).
(** What the outbox replays is for the reader it was asked for. *)
Definition replay_scoped h : Prop := forall room owner pid signal,
  In signal (pending_care_scoped h room owner pid) ->
  match sig_owner_principal_id signal with
  | Some p => pid = Some p
  | None => sig_owner signal = Some owner
  end.

Definition staged s : list CareSignal := match so_stage s with Replaying care => care | _ => [] end.
(** Every envelope that was sent, and that is about to be, fits. *)
Definition care_private s : Prop := Forall (care_fits s) (cared (so_sink s)) /\ Forall (care_fits s) (staged s).

Lemma care_fits_same s s' signal : same_session s s' -> care_fits s signal -> care_fits s' signal.
Proof. intros (Hp & _ & Hpid). unfold care_fits, care_addressed, care_in_place. by rewrite Hp, Hpid. Qed.

Lemma care_step s s' new : same_session s s' -> cared (so_sink s') = cared (so_sink s) ++ new ->
  Forall (care_fits s) new -> Forall (care_fits s) (staged s') -> care_private s -> care_private s'.
Proof.
  intros Hs Hc Hn Hst [Hp _].
  assert (forall l, Forall (care_fits s) l -> Forall (care_fits s') l) as Hw.
  { intros l Hl. eapply Forall_impl; [exact Hl|]. intros signal. by apply care_fits_same. }
  split; apply Hw; [|done]. rewrite Hc. by apply Forall_app.
Qed.
(** Nothing of the kind was sent. *)
Lemma care_quiet s s' : same_session s s' -> cared (so_sink s') = cared (so_sink s) -> staged s' = [] ->
  care_private s -> care_private s'.
Proof. intros Hs Hc Hst. eapply (care_step s s' []); [done|by rewrite app_nil_r|done|by rewrite Hst]. Qed.

Lemma greet_care_private f next s h :
  Forall (care_fits s) (frame_care f) ->
  Forall (care_fits s) (match next with Replaying care => care | _ => [] end) ->
  care_private s -> care_private (greet f next s h).2.
Proof.
  intros Hf Hn Hp. unfold greet, ws_abandon. pose proof (send_told f (so_sink s)) as Hs.
  destruct (send_frame f _) as [k [|]]; destruct Hs as [_ Hc].
  - by eapply care_step, Hp.
  - eapply care_quiet, Hp; [done| |done]. cbn. by rewrite Hc, app_nil_r.
Qed.

Lemma to_replay_fits s h : replay_scoped h -> Forall (care_fits s) (care_to_replay s h).
Proof.
  intros Hr. apply Forall_forall. intros signal Hin. unfold care_to_replay in Hin.
  rewrite list_elem_of_In, filter_In in Hin. destruct Hin as [Hin Hroom%bool_decide_eq_true].
  split; [done|]. left. apply Hr in Hin. unfold care_addressed.
  destruct (sig_owner_principal_id signal) as [pid|]; rewrite Hin; by rewrite bool_decide_eq_true_2.
Qed.

Lemma greet_care_step care s h : Forall (care_fits s) care -> care_private s ->
  care_private (greet_care care s h).2.
Proof.
  intros Hc Hp. unfold greet_care. destruct care as [|signal care].
  { eapply care_quiet, Hp; [done..|]. by destruct (events_only s). }
  apply Forall_cons in Hc as [Hs Hc].
  assert (forall g, care_fits s g -> care_fits (with_so_replayed (so_replayed s ++ [sig_id signal]) s) g) as Hw.
  { intros g. by apply care_fits_same. }
  apply greet_care_private.
  - cbn. apply Forall_singleton. by apply Hw.
  - eapply Forall_impl; [exact Hc|exact Hw].
  - eapply care_step with (new := []), Hp; [done|by rewrite app_nil_r|done|]. apply Hp.
Qed.

Lemma flush_private s h : staged s = [] -> care_private s -> care_private (flush_turn s h).2.
Proof.
  intros Hst Hp. destruct (flush_told s h) as (Hpar & _ & Hc & Hcase).
  eapply care_quiet, Hp; [apply flush_same|done|].
  unfold staged in *. by destruct Hcase as [[-> _]|[-> _]].
Qed.
Lemma forward_private f s h : staged s = [] -> Forall (care_fits s) (frame_care f) -> care_private s ->
  care_private (forward f s h).2.
Proof.
  intros Hst Hf Hp. destruct (forward_told f s h) as (_ & _ & [(Es & _ & Hc)|(Es & _ & Hc)]).
  - eapply care_step, Hp; [apply forward_same|exact Hc|done|]. unfold staged in *. by rewrite Es, Hst.
  - eapply care_quiet, Hp; [apply forward_same|exact Hc|]. unfold staged. by rewrite Es.
Qed.
Lemma queue_private now m s h : staged s = [] -> care_private s -> care_private (queue_message now m s h).2.
Proof.
  intros Hst Hp. assert (forall q, care_private (with_so_turn q s)) as Hq.
  { intros q. eapply care_quiet, Hp; [done..|]. exact Hst. }
  unfold queue_message. case_decide; [by apply flush_private|]. case_decide; [done|].
  case_match; [by apply flush_private|apply Hq].
Qed.

(** A care envelope that is let through fits. *)
Lemma let_through s h signal :
  negb (care_in_place s signal) = false -> negb (mention_passes s h (SF_Care signal)) = false ->
  care_fits s signal.
Proof.
  intros Hplace%negb_false_iff Hm%negb_false_iff. unfold mention_passes in Hm.
  pose proof Hplace as Hroom. unfold care_in_place in Hroom. apply andb_true_iff in Hroom as [Hroom%bool_decide_eq_true _].
  split; [done|]. case_bool_decide; cbn [negb] in Hm; [by left|by right].
Qed.

Lemma deliver_private now f s h : staged s = [] -> care_private s -> care_private (deliver now f s h).2.
Proof.
  intros Hst Hp. assert (forall q, care_private (with_so_turn q s)) as Hq.
  { intros q. eapply care_quiet, Hp; [done..|]. exact Hst. }
  assert (forall g, frame_care g = [] -> care_private (if negb (mention_passes s h g) then (h, s) else forward g s h).2) as Hquiet.
  { intros g Hg. case_match; [done|]. apply forward_private; [done| |done]. by rewrite Hg. }
  unfold deliver. destruct (negb (passes_filter s f)); [done|]. destruct f; try by apply Hquiet.
  - case_match; [done|]. destruct (batching s); [by apply queue_private|by apply forward_private].
  - destruct (_ && _); [|by apply Hquiet]. case_match; [apply Hq|]. by apply forward_private.
  - destruct (negb (care_in_place s signal)) eqn:Hplace; [done|].
    destruct (negb (mention_passes _ _ _)) eqn:Hm; [done|]. apply forward_private; [done| |done].
    apply Forall_singleton. by eapply let_through.
Qed.

Lemma on_frame_private now f s h : staged s = [] -> care_private s -> care_private (on_frame now f s h).2.
Proof.
  intros Hst Hp. unfold on_frame. destruct (unwrap_summon s f) as [g|]; [|done].
  destruct (match g with SF_Care _ => _ | _ => _ end); [done|].
  assert (forall b, care_private (with_so_stage (Closing b) s)) as Hclose.
  { intros b. by eapply care_quiet, Hp. }
  assert (care_private (let '(h, allowed) := ws_allowed (wp_credentials (so_params s)) (wp_room (so_params s)) (wp_name (so_params s)) h in
     if (allowed : bool) then deliver now g s h else ws_break false s h).2) as Hd.
  { destruct (ws_allowed _ _ _ h) as [h1 [|]]; [by apply deliver_private|apply Hclose]. }
  assert (forall b, frame_care g = [] -> care_private (with_so_stage (Closing b) (with_so_sink (send_frame g (so_sink s)).1 s))) as Hlast.
  { intros b Hg. pose proof (send_told g (so_sink s)) as Hs. rewrite Hg in Hs.
    destruct (send_frame g _) as [k [|]]; destruct Hs as [_ Hs]; rewrite app_nil_r in Hs; by eapply care_quiet, Hp. }
  destruct g; first [exact Hd|clear Hd; case_match; [by apply Hlast|done]].
Qed.

Lemma step_care e s h : replay_scoped h -> care_private s -> care_private (ws_step e s h).2.
Proof.
  intros Hr Hp. unfold ws_step.
  assert (forall st, match st with Replaying _ => False | _ => True end -> care_private (with_so_stage st s)) as Hst.
  { intros st Hn. eapply care_quiet, Hp; [done..|]. by destruct st. }
  destruct (so_stage s) as [| |care| | | |evicted|] eqn:Es, e; try done; try by apply Hst.
  - unfold greet_memory, ws_abandon. case_match; [by apply Hst|].
    destruct (loca_memory_snapshot _ _) as [memory|]; [|by apply Hst].
    apply greet_care_private; [by destruct memory|done..].
  - apply greet_care_step; [by apply to_replay_fits|done].
  - apply greet_care_step; [|done]. destruct Hp as [_ Hp]. unfold staged in Hp. by rewrite Es in Hp.
  - by apply greet_care_private.
  - unfold greet_roster. pose proof (send_told (SF_Members (members h (wp_room (so_params s)))) (so_sink s)) as Hs.
    destruct (send_frame _ _) as [k [|]]; destruct Hs as [_ Hs]; rewrite app_nil_r in Hs; by eapply care_quiet, Hp.
  - apply on_frame_private; [|done]. unfold staged. by rewrite Es.
  - unfold on_ping. destruct (ws_allowed _ _ _ h) as [h1 [|]]; [|by apply Hst]. cbn [negb].
    pose proof (proj2 (sink_quiet OutPing (so_sink s) I)) as Ht.
    destruct (sink_send _ _) as [k [|]]; cbn [fst] in Ht; (eapply care_quiet, Hp; [done..|]); [|done].
    unfold staged. cbn. by rewrite Es.
  - unfold on_deadline. assert (staged s = []) as Hs by (unfold staged; by rewrite Es).
    destruct (turn_deadline _); [|done]. destruct (_ <? _)%N; [done|].
    destruct (tq_pending _); [|by apply flush_private]. eapply care_quiet, Hp; [done..|exact Hs].
  - unfold on_text. destruct (ws_allowed _ _ _ h) as [h1 [|]]; [|by apply Hst]. cbn.
    destruct (ws_is_admin _ _). by destruct (live_session _ _).
  - unfold on_closing.
    pose proof (proj2 (sink_quiet OutClose (so_sink s) I)) as Ht.
    by eapply care_quiet, Hp.
Qed.

(** ** Properties *)

(** C12: A session acts only for itself: whatever wakes it, it looks up sessions and
    then does nothing, or leaves its own seat, or performs one operation that its
    credentials still allow: typing, a message under its own name, kind and
    identity, without an operator's privilege, or a control command while it has
    the authority of an admin.  A watcher performs none of these. *)
Theorem session_acts_only_for_itself e s h : session_effect (so_params s) h (ws_step e s h).1.
Proof. apply ws_step_effect. Qed.

(** C6: Every message a connection hears is told once and in order: over any events,
    and whatever happens in the hub in between, the messages sent, then those that
    wait for their turn, are exactly those heard since, in their order; when the
    connection breaks, a first part of them was sent.  Only an operator's stop
    drops messages. *)
Theorem messages_are_told_once_in_order l s :
  so_stage s = Looping -> turn_ok s -> Forall (fun he => ~ stop_event he.2) l ->
  let all := told (so_sink s) ++ pending s ++ flat_map (fun he => heard s he.1 he.2) l in
  let s' := ws_trace l s in
  (so_stage s' = Looping /\ told (so_sink s') ++ pending s' = all)
  \/ (over s' /\ told (so_sink s') `prefix_of` all).
Proof.
  intros Hl Hok Hs. destruct (trace_told l s Hl Hok Hs) as [(? & _ & ?)|?]; [by left|by right].
Qed.


(** A frame about this connection itself: it is evicted, or sent away. *)
Definition own_notice s (f : ServerFrame) : Prop :=
  match f with
  | SF_Kicked who _ => who = wp_name (so_params s)
  | SF_Evicted _ who session => who = wp_identity (so_params s) /\ session <> so_session_id s
  | _ => False
  end.

(** A frame a session passes over before it asks whether it is still let in: a summon
    of another caretaker, a reminder told at the greeting already, the eviction or
    the removal of somebody else. *)
Definition for_others s (f : ServerFrame) : bool :=
  match f with
  | SF_Caretaker m => negb (wp_is_caretaker (so_params s) && msg_addresses m (wp_name (so_params s)) false)
  | SF_Care signal => bool_decide (sig_id signal ∈ so_replayed s)
  | SF_Kicked who _ => negb (bool_decide (who = wp_name (so_params s)))
  | SF_Evicted _ who session =>
      negb (bool_decide (who = wp_identity (so_params s)) && negb (session =? so_session_id s)%N)
  | _ => false
  end.

(** The credentials of a session no longer open its room. *)
Definition shut_out s h : Prop :=
  (ws_allowed (wp_credentials (so_params s)) (wp_room (so_params s)) (wp_name (so_params s)) h).2 = false.

Lemma on_frame_revoked now f s h :
  shut_out s h ->
  let s' := (on_frame now f s h).2 in
  if for_others s f then s' = s
  else s' = with_so_stage (Closing false) s
    \/ (own_notice s f /\ over s' /\ so_sink s' = (send_frame f (so_sink s)).1).
Proof.
  unfold shut_out. intros Ha. unfold on_frame, for_others.
  assert (forall g, (let '(h, allowed) := ws_allowed (wp_credentials (so_params s)) (wp_room (so_params s)) (wp_name (so_params s)) h in
     if (allowed : bool) then deliver now g s h else ws_break false s h).2 = with_so_stage (Closing false) s) as Hd.
  { intros g. by destruct (ws_allowed _ _ _ h) as [h1 [|]]. }
  destruct f; cbn [unwrap_summon]; try (left; exact (Hd _)).
  all: match goal with
  | |- context [msg_addresses] => destruct (_ && _); cbn [negb]; [left; exact (Hd _)|done]
  | |- context [sig_id] => case_bool_decide; [done|left; exact (Hd _)]
  | |- context [SF_Kicked] =>
      case_decide; [rewrite bool_decide_eq_true_2 by done|by rewrite bool_decide_eq_false_2]; right; done
  | |- _ => destruct (_ && _) eqn:E; cbn [negb]; [right|done];
      apply andb_true_iff in E as [E1%bool_decide_eq_true E2%negb_true_iff%N.eqb_neq]; done
  end.
Qed.

Lemma shut_out_step e s h : so_stage s = Looping -> turn_ok s -> shut_out s h ->
  let s' := (ws_step e s h).2 in
  turn_ok s' /\ (over s' /\ told (so_sink s') `prefix_of` told (so_sink s) ++ pending s
    \/ so_stage s' = Looping /\ told (so_sink s') ++ pending s' = told (so_sink s) ++ pending s).
Proof.
  intros Hl Hok Ha. destruct (step_move e s h Hl Hok) as [Hm Hok']. cbv zeta. split; [done|].
  assert (heard s h e = []) as Hh.
  { unfold heard. unfold shut_out in Ha. destruct (ws_allowed _ _ _ h) as [h1 a]. cbn in Ha. subst a.
    destruct e; try done. by destruct (unwrap_summon _ _). }
  rewrite Hh in Hm. destruct Hm as [Ho Hp|Hs Ht Hp _|Hs Ht Hp|[now ->] Hs _ _].
  - left. by rewrite app_nil_r in Hp.
  - right. split; [done|]. by rewrite Ht, Hp, app_nil_r.
  - right. split; [done|]. by rewrite Ht, Hp, !app_nil_r.
  - exfalso. unfold ws_step in Hs. rewrite Hl in Hs.
    destruct (on_frame_revoked now (SF_Control "stop") s h Ha) as [E|([] & _)]. by rewrite E in Hs.
Qed.

Lemma shut_out_trace l s : so_stage s = Looping -> turn_ok s ->
  Forall (fun he => shut_out s he.1) l ->
  told (so_sink (ws_trace l s)) `prefix_of` told (so_sink s) ++ pending s.
Proof.
  revert s. induction l as [|[h e] l IH]; intros s Hl Hok Hs; [by apply prefix_app_r|].
  apply Forall_cons in Hs as [Ha Hs]. cbn [ws_trace foldl fst snd].
  destruct (shut_out_step e s h Hl Hok Ha) as (Hok' & [[Ho Ht]|[Hl' Ht]]).
  - destruct (trace_over l _ Ho) as [_ E]. unfold ws_trace in E. by rewrite E.
  - rewrite <- Ht. apply IH; [done..|]. destruct (step_same e s h) as (Ep & _).
    eapply Forall_impl; [exact Hs|]. intros he. unfold shut_out. cbn. by rewrite Ep.
Qed.

(** C18: A connection whose credentials died is cut off.  As soon as it wakes up for a
    ping, a text, or a frame of the room that is not for others only, it closes,
    having sent nothing but the notice of its own eviction or removal; and it does
    nothing in the hub.  Whatever happens while they are dead, it is told no message
    that came after they died: at most the messages of the turn that waited already,
    which still goes out at its deadline, because that branch does not ask. *)
Theorem revoked_connection_is_cut_off e s h : so_stage s = Looping -> shut_out s h ->
  let s' := (ws_step e s h).2 in
  authed h (ws_step e s h).1 /\
  match e with
  | EvPing | EvText _ | EvLagged | EvBusClosed | EvGone => s' = with_so_stage (Closing false) s
  | EvFrame _ f =>
      if for_others s f then s' = s
      else s' = with_so_stage (Closing false) s
        \/ (own_notice s f /\ over s' /\ so_sink s' = (send_frame f (so_sink s)).1)
  | EvDeadline now => s' = (on_deadline now s h).2
  | EvContinue | EvOther => s' = s
  end /\
  (turn_ok s -> forall l, Forall (fun he => shut_out s he.1) l ->
     told (so_sink (ws_trace l s)) `prefix_of` told (so_sink s) ++ pending s).
Proof.
  intros Hl Ha s'. subst s'. split_and!.
  - unfold ws_step. rewrite Hl. destruct e; try done.
    + apply on_frame_authed.
    + apply on_ping_authed.
    + by rewrite on_deadline_hub.
    + unfold on_text. pose proof (ws_allowed_authed (wp_credentials (so_params s)) (wp_room (so_params s)) (wp_name (so_params s)) h) as Hb.
      unfold shut_out in Ha. by destruct (ws_allowed _ _ _ h) as [h1 [|]].
  - unfold ws_step. rewrite Hl. destruct e; try done.
    + by apply on_frame_revoked.
    + unfold on_ping. unfold shut_out in Ha. by destruct (ws_allowed _ _ _ h) as [h1 [|]].
    + unfold on_text. unfold shut_out in Ha. by destruct (ws_allowed _ _ _ h) as [h1 [|]].
  - intros Hok l. by apply shut_out_trace.
Qed.

Lemma ws_handler_authed headers q h : authed h (ws_handler headers q h).1.
Proof.
  unfold ws_handler. destruct (_ && negb _); [done|].
  pose proof (session_identity_authed (wsc_session (ws_credentials headers q)) h) as Ha.
  destruct (session_identity _ _) as [h1 session]. repeat (case_match; try exact Ha).
Qed.

(** What the door makes of a connection's parameters. *)
Record params_ok (home : string) p : Prop := {
  po_turn_max : (1 <= wp_turn_max p <= 16)%nat;
  po_idle : (100 <= wp_turn_idle_ms p <= 30000)%N;
  po_max_wait : (wp_turn_idle_ms p <= wp_turn_max_wait_ms p <= 60000)%N;
  po_caretaker : wp_is_caretaker p = true -> wp_room p <> home -> wp_watch_only p = true;
}.

Lemma query_clamped_bounds v d lo hi : (lo <= hi)%N -> (lo <= query_clamped v d lo hi <= hi)%N.
Proof. apply clamp_bounds. Qed.

Lemma ws_handler_sound headers q h h' p : ws_handler headers q h = (h', Ok p) ->
  authed h h' /\ params_ok (h_home_room h') p /\
  (wsc_session (wp_credentials p) <> None -> (live_session (wp_credentials p) h).2 <> None) /\
  enter_decision h' (wp_room p) (wsc_admin (wp_credentials p)) (wsc_davet (wp_credentials p))
    (live_session (wp_credentials p) h).2 (q !! "name"%string) = Allowed /\
  (admin_open h' = true \/ room_exists h' (wp_room p) = true).
Proof.
  unfold ws_handler. destruct (_ && negb _); [done|]. set (cr := ws_credentials headers q).
  pose proof (session_identity_authed (wsc_session cr) h) as Ha. unfold live_session.
  destruct (session_identity (wsc_session cr) h) as [h1 session] eqn:Es. cbn [fst] in Ha.
  destruct (_ && is_none session) eqn:Hs; [done|]. destruct (enter_decision _ _ _ _ _ _) eqn:Ed; try done.
  destruct (negb (admin_open h1) && _) eqn:Hr; [done|]. intros [= <- <-]. cbn [wp_credentials wp_room]. rewrite Es.
  split; [done|]. split; [|split; [|split; [done|]]].
  - constructor; cbn.
    + pose proof (query_clamped_bounds (q !! "turn_max"%string) (rs_turn_max_messages (settings h1 (default (h_home_room h) (q !! "room"%string)))) 1 16). lia.
    + by apply query_clamped_bounds.
    + apply query_clamped_bounds. by refine (N.le_trans _ 30000 _ (proj2 (query_clamped_bounds _ _ 100 30000 _)) _).
    + intros -> Hn. rewrite bool_decide_eq_false_2 by done. by rewrite orb_true_r.
  - cbn [snd]. intros Hc ->. revert Hs Hc. by destruct (wsc_session cr).
  - apply andb_false_iff in Hr as [Hr|Hr]; apply negb_false_iff in Hr; auto.
Qed.

(** Who gets a socket: its session is live if it names one, the door of the room
    lets it in, the room exists unless the building is open, and what it may ask
    for stays within bounds: turns of 1 to 16 messages, quiet and hard deadlines of
    at most half a minute and a minute, and a caretaker only watches a room that is
    not its home. *)
Theorem door_of_the_socket headers q h h' p : ws_handler headers q h = (h', Ok p) ->
  authed h h' /\ params_ok (h_home_room h') p /\
  (wsc_session (wp_credentials p) <> None -> (live_session (wp_credentials p) h).2 <> None) /\
  enter_decision h' (wp_room p) (wsc_admin (wp_credentials p)) (wsc_davet (wp_credentials p))
    (live_session (wp_credentials p) h).2 (q !! "name"%string) = Allowed /\
  (admin_open h' = true \/ room_exists h' (wp_room p) = true).
Proof. apply ws_handler_sound. Qed.
End facts.

(** ** Witnesses: an agent that listens for its name *)

#[local] Existing Instance ascii_unicode.
#[local] Existing Instance counter_csprng.
#[local] Existing Instance zero_digest.
#[local] Existing Instance no_environment.
#[local] Existing Instance plain_text.
#[local] Existing Instance plain_path.
#[local] Existing Instance any_value.

Definition ada_params (admin : string) : WsParams :=
  mkWsParams "lab" "mb:ada" "ada" Agent WsMentions 3 1000 5000 (mkWsCredentials (Some admin) None None) false false.
Definition to_ada (id : N) (text : string) : Message :=
  mkMessage id "lab" "bob" User (Some "ada"%string) text Say None None 7 [].
Definition ada_listens (admin : string) : Socket :=
  mkSocket (ada_params admin) 1 None [] [] empty_turn (mkSink [] []) Looping.
(** One message waits. *)
Definition ada_waits : Socket :=
  (ws_step (EvFrame 100 (SF_Msg (to_ada 1 "first"))) (ada_listens "root") sealed_hub).2.

Lemma ada_listens_ok admin : turn_ok (ada_listens admin).
Proof. by apply turn_ok_empty. Qed.
Lemma ada_waits_ok : so_stage ada_waits = Looping /\ turn_ok ada_waits.
Proof. split; [by vm_compute|]. apply step_turn_ok, ada_listens_ok. Qed.

(** Two messages for ada, one for nobody, and the deadline. *)
Definition ada_hears : list (Hub unit * WsEvent) :=
  [(sealed_hub, EvFrame 100 (SF_Msg (to_ada 1 "first")));
   (sealed_hub, EvFrame 200 (SF_Msg (mkMessage 2 "lab" "bob" User None "aside" Say None None 7 [])));
   (sealed_hub, EvFrame 300 (SF_Msg (to_ada 3 "second")));
   (sealed_hub, EvPing); (sealed_hub, EvDeadline 5100)].
Lemma nobody_stops : Forall (fun he => ~ stop_event he.2) ada_hears.
Proof. repeat constructor; cbn; by intros [? ?]. Qed.

Lemma messages_are_told_once_in_order_witness :
  flat_map (fun he => heard (ada_listens "root") he.1 he.2) ada_hears = [to_ada 1 "first"; to_ada 3 "second"] /\
  told (so_sink (ws_trace ada_hears (ada_listens "root"))) = [to_ada 1 "first"; to_ada 3 "second"].
Proof.
  split; [by vm_compute|].
  destruct (messages_are_told_once_in_order ada_hears (ada_listens "root") eq_refl (ada_listens_ok "root") nobody_stops)
    as [[_ E]|[Ho _]].
  - assert (pending (ws_trace ada_hears (ada_listens "root")) = []) as Hp by by vm_compute.
    rewrite Hp, app_nil_r in E. rewrite E. by vm_compute.
  - by vm_compute in Ho.
Defined.


Lemma revoked_connection_is_cut_off_witness :
  (ws_step EvPing (ada_listens "wrong") sealed_hub).2 = with_so_stage (Closing false) (ada_listens "wrong").
Proof.
  refine (proj1 (proj2 (revoked_connection_is_cut_off EvPing (ada_listens "wrong") sealed_hub eq_refl _))).
  by vm_compute.
Defined.

Definition root_asks : HeaderMap := {["sec-websocket-protocol"%string := "loca.v1, loca.admin.root"%string]}.
Definition ada_asks : Query :=
  <["room"%string := "lab"%string]> (<["name"%string := "ada"%string]> {["turn_max"%string := "99"%string]}).
Definition lab_hub : Hub unit := room_mut "lab" sealed_hub.
Definition let_in : WsParams :=
  match (ws_handler root_asks ada_asks lab_hub).2 with Ok p => p | Err _ => ada_params "" end.

Lemma let_in_ok : ws_handler root_asks ada_asks lab_hub = (lab_hub, Ok let_in).
Proof. by vm_compute. Qed.

Lemma door_of_the_socket_witness : wp_name let_in = "ada"%string /\ params_ok "home" let_in.
Proof.
  split; [by vm_compute|].
  exact (proj1 (proj2 (door_of_the_socket root_asks ada_asks lab_hub lab_hub let_in let_in_ok))).
Defined.
