(* ===== verification/Connections.v ===== *)
(** * The server with its connections

    The hub together with every websocket that is open on it: requests, periodic
    tasks and the steps of the sessions interleave as they please.  What holds of
    the whole; what a takeover of a seat does; and what the lobby's sockets tell. *)

From Stdlib Require Import Ascii.
From S2P Require Import Prelude Text Net Protocol StoreApi Sql Tables Hub Ledger Work WorkFacts Waits.
From S2P Require Import Seats Attention AttentionFacts Chat Access Membership Joins.
From S2P Require Import Rooms Scheduler WikiTypes Memory WikiOps Attachments Server ServerFacts Building.
From S2P Require Import Identity Operators Admission StoreAttention StoreWork StoreMessages BlobFiles.
From S2P Require Import Queries Http Doors RouteWork RouteRooms RouteMembers StoreFacts DurableFacts DurableOps.
From S2P Require Import RouteMemory RouteWiki RouteAttachments Router RouterFacts Sockets SocketFacts Durability.

Open Scope loca_scope.

Section system.
Context {St : Type} `{Unicode} `{HeaderText} `{PathText} `{Digest} `{Csprng} `{StoreBase St}
  `{IdentityStore St} `{MessageStore St} `{WorkStore St} `{CareStore St} `{RoomStore St}
  `{OperatorStore St} `{ReadStore St} `{CredentialStore St} `{AdmissionStore St}
  `{MemoryStore St} `{WikiStore St} `{HeaderValueText} `{Environment} `{AttachmentStore St}.
Implicit Types h : Hub St.

(** ** The system *)

(** A connection of a room or of the lobby, let in by its handler and, once it is
    upgraded, with its session. *)
Inductive Connection : Type :=
  | Upgrading (p : WsParams)
  | Session (s : Socket)
  | LobbyUpgrading (member : Membership)
  | LobbySession (s : LobbySocket).

Record System : Type := mkSystem {
  sys_hub : Hub St;
  sys_connections : gmap N Connection;
}.

(** What happens to the server: anything that needs no socket; a handshake; an
    upgrade, after which the sends on the socket fail as [faults] says; and an event
    of a session. *)
Inductive Traffic : Type :=
  | Plain (e : event)
  | Handshake (id : N) (headers : HeaderMap) (q : Query)
  | LobbyHandshake (id : N) (headers : HeaderMap) (q : Query)
  | Upgrade (id : N) (faults : list bool)
  | OnSession (id : N) (e : WsEvent)
  | OnLobby (id : N) (e : LobbyWsEvent).

Definition connect (id : N) (c : Connection) (y : System) : System :=
  mkSystem (sys_hub y) (<[id := c]> (sys_connections y)).

Definition on_traffic (y : System) (e : Traffic) : System :=
  let h := sys_hub y in
  let cs := sys_connections y in
  match e with
  | Plain e => mkSystem (on_event h e) cs
  | Handshake id headers q =>
      let '(h, answer) := ws_handler headers q h in
      match answer, cs !! id with
      | Ok p, None => connect id (Upgrading p) (mkSystem h cs)
      | _, _ => mkSystem h cs
      end
  | LobbyHandshake id headers q =>
      match lobby_ws_handler headers q h, cs !! id with
      | Ok member, None => connect id (LobbyUpgrading member) y
      | _, _ => y
      end
  | Upgrade id faults =>
      match cs !! id with
      | Some (Upgrading p) =>
          let '(h, s) := ws_enter p (mkSink [] faults) h in connect id (Session s) (mkSystem h cs)
      | Some (LobbyUpgrading member) =>
          let '(h, s) := lobby_ws_enter member (mkSink [] faults) h in
          connect id (LobbySession s) (mkSystem h cs)
      | _ => y
      end
  | OnSession id e =>
      match cs !! id with
      | Some (Session s) =>
          let '(h, s) := ws_step e s h in connect id (Session s) (mkSystem h cs)
      | _ => y
      end
  | OnLobby id e =>
      match cs !! id with
      | Some (LobbySession s) =>
          let '(h, s) := lobby_ws_step e s h in connect id (LobbySession s) (mkSystem h cs)
      | _ => y
      end
  end.

(** ** The lobby's sockets *)

(** A step of the lobby's session leaves the hub alone, or leaves the lobby, once. *)
Definition lobby_open (s : LobbySocket) : bool := match ls_stage s with LobbyEnded => false | _ => true end.

Lemma lobby_send_effect o next s h : lobby_open s = true -> next <> LobbyEnded ->
  let '(h', s') := lobby_send o next s h in
  ls_member s' = ls_member s /\
  h' = (if lobby_open s' then h else lobby_leave (mb_token (ls_member s)) h).
Proof.
  intros Ho Hn. unfold lobby_send. destruct (sink_send _ _) as [k [|]]; [|done].
  split; [done|]. unfold lobby_open. cbn. by destruct next.
Qed.

Ltac quiet := cbn beta iota; split_and!.
Lemma lobby_step_effect e s h :
  let '(h', s') := lobby_ws_step e s h in
  ls_member s' = ls_member s /\ (lobby_open s = false -> lobby_open s' = false) /\
  h' = (if lobby_open s && negb (lobby_open s') then lobby_leave (mb_token (ls_member s)) h else h).
Proof.
  unfold lobby_ws_step.
  assert (forall o next, lobby_open s = true -> next <> LobbyEnded ->
    let '(h', s') := lobby_send o next s h in
    ls_member s' = ls_member s /\ (lobby_open s = false -> lobby_open s' = false) /\
    h' = (if lobby_open s && negb (lobby_open s') then lobby_leave (mb_token (ls_member s)) h else h)) as Hsend.
  { intros o next Ho Hn. pose proof (lobby_send_effect o next s h Ho Hn) as Hs.
    destruct (lobby_send _ _ _ _) as [h' s']. destruct Hs as [Hm Hh]. rewrite Ho. split; [done|]. split; [done|].
    cbn. by destruct (lobby_open s'). }
  assert (forall h', h' = (if lobby_open s && negb (lobby_open s) then lobby_leave (mb_token (ls_member s)) h' else h')) as Hsame.
  { intros h'. by destruct (lobby_open s). }
  destruct (ls_stage s) as [snapshot|[|invite calls]| |] eqn:Es.
  all: assert (lobby_open s = match ls_stage s with LobbyEnded => false | _ => true end) as Eo by done;
    rewrite Es in Eo.
  - destruct e; try by quiet. by apply Hsend.
  - destruct e; try by quiet. rewrite Eo. by quiet.
  - destruct e; try by quiet. by apply Hsend.
  - destruct e; try (by quiet); try (by apply Hsend).
    + unfold on_lobby_event. destruct (negb (bool_decide _)); [by quiet|].
      destruct event; [by apply Hsend|rewrite Eo; by quiet..].
    + destruct (lobby_replay _ _) as [k [|]]; rewrite Eo; by quiet.
    + rewrite Eo. by quiet.
    + rewrite Eo. by quiet.
  - destruct e; by quiet.
Qed.

(** ** Every event is a sequence of operations *)

Lemma traffic_step_ops y e : exists ops, sys_hub (on_traffic y e) = run_ops ops (sys_hub y).
Proof.
  destruct y as [h cs]. destruct e as [e|id headers q|id headers q|id faults|id e|id e]; cbn [on_traffic sys_hub sys_connections].
  - destruct (events_ops [e] h) as [ops Ho]. by exists ops.
  - destruct (ws_handler_authed headers q h) as [ts Ha].
    exists (map OpResolveSession ts). rewrite <- Ha. destruct (ws_handler _ _ _) as [h1 [p|r]]; [|done].
    by destruct (cs !! id).
  - exists []. destruct (lobby_ws_handler _ _ _); [|done]. by destruct (cs !! id).
  - destruct (cs !! id) as [[p|s|member|s]|]; try by exists [].
    + destruct (enter_ops p (mkSink [] faults) h) as [ops Ho]. exists ops. by destruct (ws_enter _ _ _).
    + by exists [OpLobbyJoin (mb_token member)].
  - destruct (cs !! id) as [[p|s|member|s]|]; try by exists [].
    destruct (effect_ops _ _ _ (ws_step_effect e s h)) as [ops Ho]. exists ops. by destruct (ws_step _ _ _).
  - destruct (cs !! id) as [[p|s|member|s]|]; try by exists [].
    pose proof (lobby_step_effect e s h) as Hl. destruct (lobby_ws_step _ _ _) as [h' s'].
    destruct Hl as (_ & _ & Hh). subst h'. cbn [sys_hub connect].
    destruct (_ && _); [by exists [OpLobbyLeave (mb_token (ls_member s))]|by exists []].
Qed.

Lemma traffic_ops l y : exists ops, sys_hub (foldl on_traffic y l) = run_ops ops (sys_hub y).
Proof.
  revert y. induction l as [|e l IH]; intros y; [by exists []|]. cbn [foldl].
  destruct (traffic_step_ops y e) as [ops1 E1]. destruct (IH (on_traffic y e)) as [ops2 E2].
  exists (ops1 ++ ops2). by rewrite run_ops_app, <- E1.
Qed.

(** ** What holds of every connection *)

Definition connection_ok (home : string) (c : Connection) : Prop :=
  match c with
  | Upgrading p => params_ok home p
  | Session s => params_ok home (so_params s) /\ turn_ok s
  | _ => True
  end.
Definition system_ok (y : System) : Prop :=
  building_ok (sys_hub y) /\ map_Forall (fun _ => connection_ok (h_home_room (sys_hub y))) (sys_connections y).

Lemma ws_enter_start p sink h : let s := (ws_enter p sink h).2 in
  so_params s = p /\ so_turn s = empty_turn /\ (so_stage s = Greeting \/ so_stage s = Ended)
  /\ (wp_watch_only p = true -> so_stage s = Greeting).
Proof.
  unfold ws_enter. destruct (fetch_next_id h) as [h1 id]. destruct (live_session _ h1) as [h2 session].
  destruct (subscribe _ _) as [h3 history]. destruct (wp_watch_only p); [cbn; auto|].
  destruct (join_room _ _ _ _ _ _) as [h4 [|]]; cbn; split_and!; auto; done.
Qed.

Lemma traffic_step_connections y e :
  system_ok y -> map_Forall (fun _ => connection_ok (h_home_room (sys_hub y))) (sys_connections (on_traffic y e)).
Proof.
  destruct y as [h cs]. intros [Hb Hc]. cbn [sys_hub sys_connections] in *.
  assert (forall id c, connection_ok (h_home_room h) c ->
    map_Forall (fun _ => connection_ok (h_home_room h)) (<[id := c]> cs)) as Hnew.
  { intros id c Hok. by apply map_Forall_insert_2. }
  destruct e as [e|id headers q|id headers q|id faults|id e|id e]; cbn [on_traffic sys_hub sys_connections].
  - done.
  - destruct (ws_handler headers q h) as [h1 [p|r]] eqn:Eh; [|done]. destruct (cs !! id) eqn:Ei; [done|].
    apply ws_handler_sound in Eh as (Ha & Hp & _). apply Hnew.
    by rewrite <- (ol_home _ _ (proj2 (authed_calm _ _ Ha))).
  - destruct (lobby_ws_handler _ _ _); [|done]. destruct (cs !! id); [done|]. by apply Hnew.
  - destruct (cs !! id) as [[p|s|member|s]|] eqn:Ei; try done.
    + specialize (Hc _ _ Ei). destruct (ws_enter_start p (mkSink [] faults) h) as (Hp & Ht & _).
      destruct (ws_enter _ _ _) as [h1 s]. cbn [snd] in *. apply Hnew. cbn. rewrite Hp. split; [done|].
      by apply turn_ok_empty.
    + by apply Hnew.
  - destruct (cs !! id) as [[p|s|member|s]|] eqn:Ei; try done. specialize (Hc _ _ Ei). destruct Hc as [Hp Ht].
    pose proof (step_same e s h) as (Hsp & _ & _). pose proof (step_turn_ok e s h Ht) as Hst.
    destruct (ws_step _ _ _) as [h1 s1]. cbn [snd] in *. apply Hnew. cbn. by rewrite Hsp.
  - destruct (cs !! id) as [[p|s|member|s]|] eqn:Ei; try done.
    destruct (lobby_ws_step _ _ _) as [h1 s1]. by apply Hnew.
Qed.

(** ** Taking a seat over *)

(** A connection that closes for an eviction never touches the hub again. *)
Definition stays_out s : Prop := so_stage s = Closing true \/ so_stage s = Ended.
Lemma stays_out_step e s h : stays_out s -> (ws_step e s h).1 = h /\ stays_out (ws_step e s h).2.
Proof.
  unfold stays_out, ws_step. intros [Es|Es]; rewrite Es; destruct e; cbn; rewrite ?orb_true_r; auto.
Qed.
Lemma stays_out_trace l s : stays_out s -> stays_out (ws_trace l s).
Proof.
  revert s. induction l as [|[h e] l IH]; intros s Hs; [done|]. cbn [ws_trace foldl]. apply IH.
  by apply stays_out_step.
Qed.
(** The notice of an eviction by another connection. *)
Lemma eviction_step now name session s h : so_stage s = Looping -> session <> so_session_id s ->
  let '(h', s') := ws_step (EvFrame now (SF_Evicted name (wp_identity (so_params s)) session)) s h in
  h' = h /\ so_stage s' = Closing true.
Proof.
  intros Hl Hs. unfold ws_step, on_frame. rewrite Hl. cbn [unwrap_summon].
  rewrite bool_decide_eq_true_2 by done. apply N.eqb_neq in Hs. by rewrite Hs.
Qed.

Lemma authed_room h h' room : authed h h' -> entry_room room h' = entry_room room h.
Proof.
  intros Ha. unfold entry_room. pose proof (authed_calm _ _ Ha) as [-> Ho]. by rewrite (ol_default _ _ Ho).
Qed.

(** A connection enters a seat that is taken: the same human's further device shares
    it, anything else takes it over. *)
Lemma enter_taken_seat p sink h n k c :
  wp_watch_only p = false -> is_deleted h (wp_room p) = false ->
  r_members (entry_room (wp_room p) h) !! wp_identity p = Some (n, k, c) ->
  let r := entry_room (wp_room p) h in
  let '(h', s) := ws_enter p sink h in
  let r' := entry_room (wp_room p) h' in
  so_stage s = Greeting /\ so_session_id s = h_next_id h /\ h_rooms h' !! wp_room p = Some r' /\
  if decide (n = wp_name p /\ k = User /\ wp_kind p = User)
  then r_members r' = <[wp_identity p := (n, k, sat_add64 c 1)]> (r_members r) /\
    r_tx r' = r_tx r ++ [SF_Members (member_list r')]
  else r_members r' = <[wp_identity p := (wp_name p, wp_kind p, 1%N)]> (r_members r) /\
    r_tx r' = r_tx r ++ [SF_Evicted (wp_name p) (wp_identity p) (h_next_id h); SF_Members (member_list r')].
Proof.
  intros Hw Hd Hseat r. unfold ws_enter. unfold fetch_next_id. set (h1 := with_h_next_id _ h).
  pose proof (session_identity_authed (wsc_session (wp_credentials p)) h1) as Ha. unfold live_session.
  destruct (session_identity _ h1) as [h2 session]. cbn [fst] in Ha.
  pose proof (authed_room _ _ (wp_room p) Ha) as Hr. change (entry_room _ h1) with r in Hr.
  assert (is_deleted h2 (wp_room p) = false) as Hd2.
  { rewrite (outer_is_deleted _ _ _ (proj2 (authed_calm _ _ Ha))). exact Hd. }
  unfold subscribe. rewrite Hd2, Hw. cbv zeta. unfold join_room.
  change (is_deleted (room_mut (wp_room p) h2) (wp_room p)) with (is_deleted h2 (wp_room p)).
  rewrite Hd2. cbv zeta. rewrite !entry_room_mut, Hr. fold r in Hseat. unfold additional_human_reader.
  rewrite Hseat. rewrite (bool_decide_eq_false_2 (Some _ = None)) by done. cbn [andb].
  rewrite <- !bool_decide_and. destruct (decide _) as [Hs|Hs];
    [rewrite bool_decide_eq_true_2 by tauto|rewrite bool_decide_eq_false_2 by tauto];
    unfold entry_room at 1 2 3 4, put_room; cbn [h_rooms with_h_rooms]; rewrite !lookup_insert_eq; cbn;
    rewrite <- ?app_assoc; done.
Qed.

(** ** What the lobby tells *)

(** The session after the events of [l], each with the hub as it was then. *)
Definition lobby_trace (l : list (Hub St * LobbyWsEvent)) (s : LobbySocket) : LobbySocket :=
  foldl (fun s he => (lobby_ws_step he.2 s he.1).2) s l.

Section telling.
Context (known : string -> string -> Prop) (member : Membership).

Definition told_known (o : WsOut) : Prop :=
  match o with OutLobby (LF_Called room token) => known room token | _ => True end.
Definition known_invites (l : list Invite) : Prop := Forall (fun i => known (inv_room i) (inv_token i)) l.
(** Only known calls were sent, or are about to be. *)
Definition lobby_private (s : LobbySocket) : Prop :=
  ls_member s = member /\ Forall told_known (sk_sent (ls_sink s)) /\
  known_invites (match ls_stage s with LobbyReady l | LobbyCalling l => l | _ => [] end).

Ltac privately := unfold lobby_private; split_and!; first [done|by constructor].

Lemma sink_send_all o k : told_known o -> Forall told_known (sk_sent k) -> Forall told_known (sk_sent (sink_send o k).1).
Proof.
  intros Ho Hk. unfold sink_send. destruct (sk_faults k) as [|[|] faults]; cbn; [|done|];
    (apply Forall_app_2; [done|by apply Forall_singleton]).
Qed.
Lemma lobby_replay_all l k : known_invites l -> Forall told_known (sk_sent k) ->
  Forall told_known (sk_sent (lobby_replay l k).1).
Proof.
  revert k. induction l as [|i l IH]; intros k Hl Hk; [done|]. apply Forall_cons in Hl as [Hi Hl].
  cbn [lobby_replay]. pose proof (sink_send_all (called_frame i) k Hi Hk) as Hs.
  destruct (sink_send _ _) as [k' [|]]; [by apply IH|done].
Qed.
Lemma lobby_send_private o next s h : told_known o ->
  known_invites (match next with LobbyReady l | LobbyCalling l => l | _ => [] end) ->
  lobby_private s -> lobby_private (lobby_send o next s h).2.
Proof.
  intros Ho Hn (Hm & Hs & _). unfold lobby_send, lobby_end. pose proof (sink_send_all o (ls_sink s) Ho Hs) as Hk.
  destruct (sink_send _ _) as [k [|]]; privately.
Qed.

Lemma lobby_step_private e s h :
  known_invites (invites_for_member h (mb_token member)) ->
  (forall room token, e = LvEvent (Called (mb_token member) room token) -> known room token) ->
  lobby_private s -> lobby_private (lobby_ws_step e s h).2.
Proof.
  intros Hinv Hev Hp. pose proof Hp as (Hm & Hs & Hst). unfold lobby_ws_step.
  assert (forall k, Forall told_known (sk_sent k) -> lobby_private (mkLobbySocket (ls_member s) k LobbyEnded)) as Hend.
  { intros k Hk. privately. }
  destruct (ls_stage s) as [l|[|i l]| |] eqn:Es; destruct e; try exact Hp.
  - by apply lobby_send_private.
  - privately.
  - apply Forall_cons in Hst as [Hi Hl]. by apply lobby_send_private.
  - unfold on_lobby_event. destruct (negb (bool_decide _)) eqn:Ed; [done|].
    apply negb_false_iff, bool_decide_eq_true in Ed. rewrite Hm in Ed. destruct event; cbn in Ed; subst.
    + apply lobby_send_private; [by apply Hev|done..].
    + by apply Hend, sink_send_all.
    + by apply Hend, sink_send_all.
  - pose proof (lobby_replay_all _ (ls_sink s) Hinv Hs) as Hr. rewrite Hm.
    destruct (lobby_replay _ _) as [k [|]]; privately.
  - by apply Hend.
  - by apply lobby_send_private.
  - by apply Hend.
Qed.
End telling.

(** ** Properties *)

(** C2: The invariant of the server with its connections: whatever handshakes,
    requests, frames, pings, deadlines, texts, failures of sends and periodic tasks
    arrive, in whatever order, every room stays well formed and no room overfull, a
    sealed room stays out of memory and refuses messages, and every connection keeps
    to what its door set: a caretaker away from home only watches, and a queue of
    messages is shorter than a turn, has both its deadlines, and is empty on a
    connection that does not batch. *)
Theorem connected_server_invariant l y : system_ok y ->
  let y' := foldl on_traffic y l in
  system_ok y' /\
  forall room, is_deleted (sys_hub y) room = true ->
    h_rooms (sys_hub y') !! room = None /\
    forall body is_admin principal,
      post room body is_admin principal (sys_hub y') = (sys_hub y', Err RejDeleted).
Proof.
  intros [Hb Hc]. cbv zeta. split.
  - revert y Hb Hc. induction l as [|e l IH]; intros y Hb Hc; [done|]. cbn [foldl].
    destruct (traffic_step_ops y e) as [ops Ho]. pose proof (run_ops_ok ops (sys_hub y) Hb) as [Hb' Hk].
    rewrite <- Ho in Hb', Hk. apply IH; [done|]. rewrite (kp_home _ _ Hk).
    by apply traffic_step_connections.
  - intros room Hd. destruct (traffic_ops l y) as [ops ->].
    destruct (run_ops_ok ops (sys_hub y) Hb) as [Hb' Hk].
    assert (is_deleted (run_ops ops (sys_hub y)) room = true) as Hd' by by eapply kept_deleted.
    split; [by apply (bo_sealed _ Hb')|]. intros body is_admin principal. unfold post. by rewrite Hd'.
Qed.

(** C17: A connection that enters a taken seat keeps it.  When it is a further device of
    the human who sits there, the seat is shared: it counts one connection more,
    nobody is evicted, and it is still held when one of the connections leaves.
    Otherwise the seat is taken over: it is held under the new connection's name and
    counted once, the room is told, and a connection of that seat that the notice
    reaches closes and never touches the hub again, so that it cannot free the seat
    of the new one. *)
Theorem takeover_keeps_the_seat p sink h n k c :
  wp_watch_only p = false -> is_deleted h (wp_room p) = false ->
  r_members (entry_room (wp_room p) h) !! wp_identity p = Some (n, k, c) ->
  let '(h', s2) := ws_enter p sink h in
  let r := entry_room (wp_room p) h in
  let r' := entry_room (wp_room p) h' in
  let notice := SF_Evicted (wp_name p) (wp_identity p) (so_session_id s2) in
  so_stage s2 = Greeting /\
  if decide (n = wp_name p /\ k = User /\ wp_kind p = User)
  then r_members r' !! wp_identity p = Some (n, k, sat_add64 c 1) /\
    r_tx r' = r_tx r ++ [SF_Members (member_list r')] /\
    ((1 <= c < u64_max)%N ->
     r_members (entry_room (wp_room p) (leave (wp_room p) (wp_identity p) h')) !! wp_identity p = Some (n, k, c))
  else r_members r' !! wp_identity p = Some (wp_name p, wp_kind p, 1%N) /\
    r_tx r' = r_tx r ++ [notice; SF_Members (member_list r')] /\
    forall s now h1, so_stage s = Looping -> so_session_id s <> so_session_id s2 ->
      wp_identity (so_params s) = wp_identity p ->
      let '(h2, s1) := ws_step (EvFrame now notice) s h1 in
      h2 = h1 /\ so_stage s1 = Closing true /\
      forall l e h3, (ws_step e (ws_trace l s1) h3).1 = h3.
Proof.
  intros Hw Hd Hseat. pose proof (enter_taken_seat p sink h n k c Hw Hd Hseat) as He. cbv zeta in He.
  destruct (ws_enter p sink h) as [h' s2]. destruct He as (Hg & Hs2 & Hr' & He). cbv zeta. rewrite Hs2.
  split; [done|]. destruct (decide _); destruct He as [Hm Ht]; rewrite Hm, lookup_insert_eq.
  - do 2 (split; [done|]). intros Hc. unfold leave. rewrite Hr', Hm, lookup_insert_eq.
    unfold sat_add64, sat_sub. rewrite N.min_l by lia. rewrite N.add_sub.
    rewrite decide_False by lia. unfold entry_room at 1, put_room. cbn [h_rooms with_h_rooms]. rewrite !lookup_insert_eq. cbn. by rewrite lookup_insert_eq.
  - do 2 (split; [done|]). intros s now h1 Hl Hid Hi. rewrite <- Hi.
    pose proof (eviction_step now (wp_name p) (h_next_id h) s h1 Hl (not_eq_sym Hid)) as Hev.
    destruct (ws_step _ s h1) as [h2 s1]. destruct Hev as [-> Hst]. do 2 (split; [done|]).
    intros l e h3. apply stays_out_step, stays_out_trace. by left.
Qed.

End system.

(** ** On the tables of the store *)

Section disk.
Context `{Unicode} `{HeaderText} `{PathText} `{Csprng} `{Digest} `{WallClock} `{HeaderValueText}
  `{Environment} `{BlobFiles unit} `{ReadStore (Conn Tables)}.
Implicit Types h : Hub (Conn Tables).

(** A delivery is read by the principal it names, or by the name it names. *)
Lemma saved_replay_scoped M h : saved M h -> replay_scoped h.
Proof.
  intros Hs room owner pid signal. unfold pending_care_scoped. rewrite filter_In. intros [Hin _].
  change (In signal (db_pending_care_scoped (disk h) room owner pid)) in Hin.
  unfold db_pending_care_scoped in Hin. rewrite filter_In in Hin. destruct Hin as [Hin _].
  apply in_map_iff in Hin as ([k o] & <- & Hin). rewrite <- list_elem_of_In, merge_sort_Permutation in Hin.
  apply list_elem_of_In, filter_In in Hin as [Hin Hd]. apply list_elem_of_In, elem_of_map_to_list in Hin.
  destruct (sv_outbox _ _ Hs k o Hin) as [Ho Hp]. cbn [snd] in *. rewrite Hp, Ho.
  apply andb_true_iff in Hd as [_ Hd]. unfold delivered_to in Hd.
  by destruct (ob_owner_principal_id o); apply bool_decide_eq_true in Hd; rewrite Hd.
Qed.

Definition connections_private (y : System (St := Conn Tables)) : Prop :=
  map_Forall (fun _ c => match c with Session s => care_private s | _ => True end) (sys_connections y).

Lemma enter_private p faults h : care_private (ws_enter p (mkSink [] faults) h).2.
Proof.
  unfold ws_enter. destruct (fetch_next_id h) as [h1 id]. destruct (live_session _ h1) as [h2 session].
  destruct (subscribe _ _) as [h3 history].
  assert (forall k st, cared k = [] -> match st with Replaying _ => False | _ => True end ->
    care_private (mkSocket p id (or_else (session ≫= sess_principal_id)
      (principal_id_for_invite h2 (wp_room p) (wsc_davet (wp_credentials p)))) history [] empty_turn k st)) as Hk.
  { intros k st Hc Hst. split; cbn; [by rewrite Hc|]. unfold staged. cbn. by destruct st. }
  destruct (wp_watch_only p); [by apply Hk|].
  destruct (join_room _ _ _ _ _ _) as [h4 [|]]; [by apply Hk|]. apply Hk; [|done].
  pose proof (send_told full_notice (mkSink [] faults)) as Hs.
  by destruct (send_frame _ _) as [k [|]]; destruct Hs as [_ Hs].
Qed.

Lemma traffic_step_private y e : replay_scoped (sys_hub y) -> connections_private y ->
  connections_private (on_traffic y e).
Proof.
  destruct y as [h cs]. intros Hr Hc. unfold connections_private in *. cbn [sys_hub sys_connections] in *.
  assert (forall id c, match c with Session s => care_private s | _ => True end ->
    map_Forall (fun _ c => match c with Session s => care_private s | _ => True end) (<[id := c]> cs)) as Hnew.
  { intros id c Hok. by apply map_Forall_insert_2. }
  destruct e as [e|id headers q|id headers q|id faults|id e|id e]; cbn [on_traffic sys_hub sys_connections]; [done|..].
  - destruct (ws_handler headers q h) as [h1 [p|r]]; [|done]. destruct (cs !! id); [done|by apply Hnew].
  - destruct (lobby_ws_handler _ _ _); [|done]. destruct (cs !! id); [done|by apply Hnew].
  - destruct (cs !! id) as [[p|s|member|s]|] eqn:Ei; try done; [|by apply Hnew].
    pose proof (enter_private p faults h) as Hp. destruct (ws_enter _ _ _) as [h1 s]. by apply Hnew.
  - destruct (cs !! id) as [[p|s|member|s]|] eqn:Ei; try done.
    pose proof (step_care e s h Hr (Hc _ _ Ei)) as Hp. destruct (ws_step _ _ _) as [h1 s1]. by apply Hnew.
  - destruct (cs !! id) as [[p|s|member|s]|] eqn:Ei; try done.
    destruct (lobby_ws_step _ _ _) as [h1 s1]. by apply Hnew.
Qed.

(** C7: A reminder goes to whom it names: whatever arrives at the server and whichever
    writes fail, an envelope that was sent on a connection is of its room; and on a
    connection in the mode of mentions it names the principal the connection is
    authenticated as, or, when it names none, the connection's name or a group the
    name is in.  The outbox that is replayed to a connection that reconnects keeps
    to the same rule, in any mode. *)
Theorem reminders_go_to_whom_they_name M l y id s signal :
  system_ok y -> saved M (sys_hub y) -> connections_private y ->
  sys_connections (foldl on_traffic y l) !! id = Some (Session s) ->
  OutFrame (SF_Care signal) ∈ sk_sent (so_sink s) ->
  sig_room signal = wp_room (so_params s) /\
  (wp_filter (so_params s) = WsMentions ->
   match sig_owner_principal_id signal with
   | Some pid => so_principal_id s = Some pid
   | None => sig_owner signal = Some (wp_name (so_params s))
       \/ exists names, sig_audience signal = AudienceGroup names /\ wp_name (so_params s) ∈ names
   end).
Proof.
  intros [Hb _] Hs Hp Hid Hin.
  assert (connections_private (foldl on_traffic y l)) as Hp'.
  { clear Hid. revert y Hb Hs Hp. induction l as [|e l IH]; intros y Hb Hs Hp; [done|]. cbn [foldl].
    destruct (traffic_step_ops y e) as [ops Ho]. apply IH.
    - rewrite Ho. by apply run_ops_ok.
    - rewrite Ho. by apply run_ops_saved.
    - apply traffic_step_private; [by eapply saved_replay_scoped|done]. }
  specialize (Hp' id _ Hid). destruct Hp' as [Hc _]. rewrite Forall_forall in Hc.
  assert (signal ∈ cared (so_sink s)) as Hsig.
  { apply list_elem_of_In, in_flat_map. exists (OutFrame (SF_Care signal)). split; [by apply list_elem_of_In|by left]. }
  destruct (Hc _ Hsig) as [Hroom Hfit]. split; [done|]. intros Hm.
  destruct Hfit as [Ha|[Hn _]]; [|done]. unfold care_addressed in Ha.
  destruct (sig_owner_principal_id signal); [by apply bool_decide_eq_true in Ha|].
  apply orb_true_iff in Ha as [Ha%bool_decide_eq_true|Ha]; [by left|right].
  destruct (sig_audience signal); try done. apply bool_decide_eq_true in Ha. by eexists.
Qed.
End disk.

(** ** Witnesses: the sockets of a development server *)

#[local] Existing Instance ascii_unicode.
#[local] Existing Instance counter_csprng.
#[local] Existing Instance no_environment.
#[local] Existing Instance plain_text.
#[local] Existing Instance plain_path.
#[local] Existing Instance any_value.

Section memory_only.
#[local] Existing Instance zero_digest.

(** A client opens a socket and speaks. *)
Definition a_day : list Traffic :=
  [Plain (Http {[ADMIN_HEADER := "root"%string]} localhost (Street (PostRoom "lab")));
   Handshake 1 root_asks ada_asks; Upgrade 1 []; OnSession 1 EvContinue; OnSession 1 EvContinue;
   OnSession 1 (EvText (Some (CF_Send None "hello" None None))); Plain (Other OpTickCare)].
Definition quiet_server : System (St := unit) := mkSystem sealed_hub ∅.
Lemma quiet_server_ok : system_ok quiet_server.
Proof. split; [exact sealed_hub_ok|]. apply map_Forall_empty. Qed.

Lemma connected_server_invariant_witness : system_ok (foldl on_traffic quiet_server a_day).
Proof. exact (proj1 (connected_server_invariant a_day quiet_server quiet_server_ok)). Defined.

(** Ada is seated, and comes back on another connection. *)
Definition ada_seated : Hub unit :=
  run_ops [OpNextSession; OpSubscribe "lab"; OpJoin "lab" "mb:ada" "ada" Agent 1] sealed_hub.
Lemma takeover_keeps_the_seat_witness :
  let '(h', s2) := ws_enter (ada_params "root") (mkSink [] []) ada_seated in
  so_stage s2 = Greeting.
Proof.
  pose proof (takeover_keeps_the_seat (ada_params "root") (mkSink [] []) ada_seated
    "ada" Agent 1 eq_refl ltac:(by vm_compute) ltac:(by vm_compute)) as Ht.
  destruct (ws_enter _ _ _) as [h' s2]. exact (proj1 Ht).
Defined.

(** A connection that breaks before the notice of its eviction reaches it does free
    the seat of the new one. *)
Lemma a_late_close_frees_the_new_seat :
  let '(h1, s2) := ws_enter (ada_params "root") (mkSink [] []) ada_seated in
  let '(h2, s1) := ws_run [EvGone; EvContinue] (h1, ada_listens "root") in
  so_stage s2 = Greeting /\ is_Some (r_members (entry_room "lab" h1) !! "mb:ada"%string) /\
  so_stage s1 = Ended /\ r_members (entry_room "lab" h2) = ∅.
Proof. vm_compute. split_and!; [done|by eexists|done..]. Qed.

(** A turn that waits is sent at its deadline to a connection whose key no longer
    opens the door. *)
Lemma a_turn_outlives_its_credentials :
  let s := with_so_turn (mkTurnQueue [to_ada 1 "first"] (Some 1100%N) (Some 5100%N)) (ada_listens "wrong") in
  (ws_allowed (wp_credentials (so_params s)) "lab" "ada" sealed_hub).2 = false /\
  told (so_sink (ws_step (EvDeadline 1100) s sealed_hub).2) = [to_ada 1 "first"].
Proof. by vm_compute. Qed.

(** A connection that takes every frame is sent a reminder that names somebody
    else's principal. *)
Lemma a_stream_of_everything_sees_personal_reminders :
  let p := mkWsParams "lab" "@master" "eve" User WsAll 3 1000 5000 (mkWsCredentials (Some "root"%string) None None) false false in
  let s := mkSocket p 1 None [] [] empty_turn (mkSink [] []) Looping in
  let signal := mkCareSignal "care_1" "" "lab" "" TaskReminder (AudiencePerson "ada") (Some "ada"%string)
    (Some "pr_ada"%string) None None [] "" "scheduler" [] 1 1 false Running in
  care_addressed s signal = false /\
  OutFrame (SF_Care signal) ∈ sk_sent (so_sink (ws_step (EvFrame 10 (SF_Care signal)) s sealed_hub).2).
Proof. split; [by vm_compute|]. apply list_elem_of_In. vm_compute. auto. Qed.

Definition bob_member : Membership := mkMembership "mb_bob" "bob" "user" 1 "master".
(** A socket of the lobby that lagged past the revocation of its membership stays. *)
Lemma a_lagged_lobby_outlives_its_membership :
  let s := mkLobbySocket bob_member (mkSink [] []) LobbyLooping in
  member_for_credential sealed_hub (Some "mb_bob"%string) = None /\
  ls_stage (lobby_ws_step LvLagged s sealed_hub).2 = LobbyLooping.
Proof. by vm_compute. Qed.
End memory_only.

Section on_disk.
#[local] Existing Instance text_digest.
#[local] Existing Instance no_files.
#[local] Existing Instance noon.
(** No search index: reads that answer nothing. *)
#[local] Instance no_reads : ReadStore (Conn Tables) := {|
  message_reactions _ _ := Ok [];
  store_note_history _ _ _ := Ok [];
  search_messages _ _ _ _ := Ok [];
  store_messages_after _ _ _ _ := Ok None;
  loca_operator_history _ _ := [];
  active_principals _ := [];
|}.

Definition for_ada : CareSignal :=
  mkCareSignal "care_1" "" "lab" "" WaitOverdue (AudiencePerson "ada") (Some "ada"%string) None None None [] "" "scheduler" [] 1 1 false Running.
Definition ada_online : System (St := Conn Tables) := mkSystem first_day {[1%N := Session (ada_listens "root")]}.

Lemma ada_online_ok : system_ok ada_online.
Proof.
  split; [exact first_day_ok|]. apply map_Forall_singleton. split; [|apply ada_listens_ok].
  by constructor; cbn; try lia.
Qed.

Lemma reminders_go_to_whom_they_name_witness :
  exists s, sys_connections (foldl on_traffic ada_online [OnSession 1 (EvFrame 10 (SF_Care for_ada))]) !! 1%N = Some (Session s)
    /\ OutFrame (SF_Care for_ada) ∈ sk_sent (so_sink s) /\ sig_room for_ada = wp_room (so_params s).
Proof.
  eexists. split; [by vm_compute|].
  match goal with |- ?a /\ _ => assert a as Hin by (apply list_elem_of_In; vm_compute; auto) end.
  split; [exact Hin|].
  refine (proj1 (reminders_go_to_whom_they_name ∅ [OnSession 1 (EvFrame 10 (SF_Care for_ada))] ada_online 1%N _ for_ada
    ada_online_ok first_day_saved _ _ Hin)); [|by vm_compute].
  apply map_Forall_singleton. by split; constructor.
Defined.
End on_disk.
