(* ===== verification/AdmissionFacts.v ===== *)
(** * Admission, proved

    The approval transaction spends one right for one membership or changes
    nothing, the tables implement an abstract ledger, and the credential of an
    approved request reaches its requester and nobody else. *)

From S2P Require Import Prelude Text Net Protocol StoreApi Sql Tables Hub Access Membership.
From S2P Require Import Identity Operators Admission.
From Stdlib Require Ascii String.

Open Scope loca_scope.

Section facts.
Context `{Digest} `{WallClock}.
Implicit Types t : Tables.
Implicit Types c : Conn Tables.

(** ** A new credential *)

(** Nothing in the tables was made from this secret. *)
Definition fresh_secret (role token : string) t : Prop :=
  str_is_empty token = false /\
  t_principals t !! hashed_id "pr_" (role +:+ ":" +:+ token) = None /\
  credential_conflicts t (hashed_id "cr_" (role +:+ ":" +:+ token))
    (mkCredentialRow "" "" (secret_hash token) 0 None None
       (Some (role +:+ ":" +:+ secret_hash token))) = false.

Lemma conflicts_same t t' id (c c' : CredentialRow) :
  t_credentials t' = t_credentials t -> cr_secret_hash c' = cr_secret_hash c ->
  cr_legacy_source c' = cr_legacy_source c ->
  credential_conflicts t' id c' = credential_conflicts t id c.
Proof.
  unfold credential_conflicts, credential_with_hash. by intros -> -> ->.
Qed.

Lemma secret_proves t token id (c : CredentialRow) p :
  str_is_empty token = false ->
  credential_with_hash t (secret_hash token) = None ->
  is_none (cr_revoked_at c) = true -> cr_secret_hash c = secret_hash token ->
  t_principals t !! cr_principal_id c = Some p -> is_none (pr_disabled_at p) = true ->
  db_principal_for_credential (with_t_credentials (<[id := c]> (t_credentials t)) t) token
    = Some (principal_identity (cr_principal_id c) p).
Proof.
  intros He Hfree Hc Hh Hp Hd. unfold db_principal_for_credential. rewrite He.
  assert (credential_with_hash (with_t_credentials (<[id := c]> (t_credentials t)) t)
    (secret_hash token) = Some (id, c)) as ->.
  { apply select_where_unique; cbn; [by rewrite lookup_insert_eq|by apply bool_decide_eq_true|].
    intros k' c' [[<- <-]|[_ E]]%lookup_insert_Some Hk'; [done|].
    by rewrite (proj1 (select_where_None _ _) Hfree k' c' E) in Hk'. }
  cbn. rewrite Hc. unfold active_principal_row. cbn. rewrite Hp. cbn. by rewrite Hd.
Qed.

Lemma insert_credential_proves {E} (e : E) role token name kind at_ label c c' u :
  role <> "master"%string -> fresh_secret role token (tables c) ->
  insert_principal_credential e role token name kind at_ label c = (c', Ok u) ->
  db_principal_for_credential (tables c') token
    = Some {| pi_id := hashed_id "pr_" (role +:+ ":" +:+ token); pi_display_name := name;
              pi_kind := parse_sender_type kind; pi_role := parse_building_role role |}.
Proof.
  intros Hrole (He & Hp & Hc) Hi. unfold insert_principal_credential in Hi. sql.
  unfold insert_or_ignore_principal in H1. cbn [pr_building_role] in H1.
  rewrite bool_decide_eq_false_2 in H1 by done. cbn [andb] in H1.
  unfold insert_or_ignore in H1. rewrite Hp in H1. injection H1 as E1 _.
  set (p := mkPrincipalRow _ _ _ _ _) in E1.
  assert (tables c0 = with_t_principals (<[hashed_id "pr_" (role +:+ ":" +:+ token) := p]>
    (t_principals (tables c))) (tables c)) as E0 by done.
  unfold insert_or_ignore_credential, insert_credential in H2. rewrite E0 in H2.
  rewrite (conflicts_same (tables c) _ _
    (mkCredentialRow "" "" (secret_hash token) 0 None None
       (Some (role +:+ ":" +:+ secret_hash token)))), Hc in H2 by done.
  cbn [t_principals with_t_principals cr_principal_id] in H2.
  rewrite lookup_insert_eq in H2. cbn [orb is_none] in H2. injection H2 as E2 _.
  rewrite <- E2. apply orb_false_iff in Hc as [[_ Hh]%orb_false_iff _].
  etransitivity; [apply (secret_proves (with_t_principals (<[hashed_id "pr_"
    (role +:+ ":" +:+ token) := p]> (t_principals (tables c))) (tables c)) token _ _ p)|];
    [done| |done|done|by apply lookup_insert_eq|done|].
  { change (credential_with_hash (tables c) (secret_hash token) = None).
    cbn in Hh. by destruct (credential_with_hash (tables c) (secret_hash token)). }
  unfold principal_identity. cbn. f_equal. f_equal. unfold parse_sender_type.
  by destruct (decide (kind = "agent"%string)).
Qed.

(** ** The approval transaction *)

Definition consumed_row (name : string) (now : N) (s : StockRow) : StockRow :=
  mkStockRow (sk_minted_by s) (sk_created_at s) (sk_expires_at s) (Some now) (Some name).

(** What an approval that commits did. *)
Record approval_done (id mb by_ : string) (now : N) t t' (m : Membership) : Prop := {
  ad_request : exists r, t_joins t !! id = Some r /\ jr_status r = JoinPending /\
    live_member_named t (jr_name r) = false /\
    m = mkMembership mb (jr_name r) (jr_kind r) now by_ /\
    t_joins t' = <[id := approved_row mb by_ now r]> (t_joins t) /\
    exists right_id s, oldest_right t now = Some right_id /\
      t_stock t !! right_id = Some s /\ sk_consumed_at s = None /\
      t_stock t' = <[right_id := consumed_row (jr_name r) now s]> (t_stock t);
  ad_fresh : t_members t !! mb = None;
  ad_member : t_members t' = <[mb := mkMemberRow (mb_name m) (mb_kind m) now by_ None]> (t_members t);
  ad_suspended : t_member_suspensions t' = t_member_suspensions t;
  ad_proves : fresh_secret "member" mb t ->
    db_principal_for_credential t' mb = Some {| pi_id := hashed_id "pr_" ("member:" +:+ mb);
      pi_display_name := mb_name m; pi_kind := parse_sender_type (mb_kind m);
      pi_role := RoleMember |};
}.

Lemma insert_principal_frame id p t t' n :
  insert_or_ignore_principal id p t = Some (t', n) -> exists P, t' = with_t_principals P t.
Proof.
  unfold insert_or_ignore_principal. destruct (_ && _).
  - intros [= <- <-]. exists (t_principals t). by destruct t.
  - destruct (insert_or_ignore _ _ _). intros [= <- <-]. by eexists.
Qed.

Lemma insert_credential_row_frame id r t t' n :
  insert_or_ignore_credential id r t = Some (t', n) -> exists C, t' = with_t_credentials C t.
Proof.
  unfold insert_or_ignore_credential, insert_credential. destruct (credential_conflicts _ _ _).
  - intros [= <- <-]. exists (t_credentials t). by destruct t.
  - destruct (_ || _); [done|]. intros [= <- <-]. by eexists.
Qed.

Lemma insert_credential_frame {E} (e : E) role token name kind at_ label c c' u :
  insert_principal_credential e role token name kind at_ label c = (c', Ok u) ->
  exists P C, tables c' = with_t_credentials C (with_t_principals P (tables c)).
Proof.
  unfold insert_principal_credential. intros Hi. sql.
  apply insert_principal_frame in H1 as [P E1]. apply insert_credential_row_frame in H2 as [C E2].
  exists P, C. by rewrite E2, E1.
Qed.

Lemma update_join_effect id p f t t' n :
  update_join id p f t = Some (t', n) ->
  match t_joins t !! id with
  | Some r => if p r then t' = with_t_joins (<[id := f r]> (t_joins t)) t /\ n = 1
              else t' = t /\ n = 0
  | None => t' = t /\ n = 0
  end.
Proof.
  unfold update_join, on_table. rewrite update_key. destruct (t_joins t !! id) as [r|].
  - destruct (p r); intros [= <- <-]; [done|]. by destruct t.
  - intros [= <- <-]. by destruct t.
Qed.

Lemma issue_ok id mb by_ now name kind right_id c c' m :
  issue id mb by_ now name kind right_id c = (c', Ok m) ->
  exists r s P C,
    t_joins (tables c) !! id = Some r /\ jr_status r = JoinApproving /\
    t_stock (tables c) !! right_id = Some s /\ sk_consumed_at s = None /\
    t_members (tables c) !! mb = None /\
    m = mkMembership mb name kind now by_ /\
    tables c' =
      with_t_joins (<[id := approved_row mb by_ now r]> (t_joins (tables c)))
        (with_t_credentials C (with_t_principals P
          (with_t_members (<[mb := mkMemberRow name kind now by_ None]> (t_members (tables c)))
            (with_t_stock (<[right_id := consumed_row name now s]> (t_stock (tables c)))
               (tables c))))) /\
    (fresh_secret "member" mb (tables c) ->
     db_principal_for_credential (tables c') mb = Some {| pi_id := hashed_id "pr_" ("member:" +:+ mb);
       pi_display_name := name; pi_kind := parse_sender_type kind; pi_role := RoleMember |}).
Proof.
  unfold issue. intros Hi. sql. unfold on_table in H1. rewrite update_key in H1.
  destruct (t_stock (tables c) !! right_id) as [s|] eqn:Es; [|by injection H1 as _ <-].
  destruct (is_none (sk_consumed_at s)) eqn:Hs; [|by injection H1 as _ <-].
  injection H1 as E1 <-. cbn [negb Nat.eqb] in Hi. sql.
  unfold on_members, insert_row in H1. rewrite <- E1 in H1. cbn in H1.
  destruct (t_members (tables c) !! mb) eqn:Em; [done|]. injection H1 as E2 _.
  pose proof H2 as Hproves. apply insert_credential_frame in H2 as (P & C & E3).
  apply update_join_effect in H3. rewrite E3, <- E2 in H3. cbn in H3.
  destruct (t_joins (tables c) !! id) as [r|] eqn:Er; [|by destruct H3 as [_ ->]].
  destruct (is_status JoinApproving r) eqn:Hr; [|by destruct H3 as [_ ->]].
  destruct H3 as [E4 ->]. cbn [negb Nat.eqb] in Hi. sql.
  apply bool_decide_eq_true in Hr. exists r, s, P, C. split_and!; try done.
  { by destruct (sk_consumed_at s). }
  intros Hfresh. apply insert_credential_proves in Hproves; [|done|by rewrite <- E2].
  rewrite E3, <- E2 in Hproves. rewrite E4. exact Hproves.
Qed.

Lemma approval_ok id mb by_ now c c' m :
  approval id mb by_ now c = (c', Ok m) ->
  approval_done id mb by_ now (tables c) (tables c') m.
Proof.
  unfold approval. intros Ha. sql.
  apply update_join_effect in H1. destruct (t_joins (tables c) !! id) as [r|] eqn:Er;
    [|by destruct H1 as [_ ->]].
  destruct (is_status JoinPending r) eqn:Hp; [|by destruct H1 as [_ ->]].
  destruct H1 as [E1 ->]. cbn [negb Nat.eqb] in Ha. sql. subst a.
  rewrite E1 in Ha. cbn in Ha. rewrite lookup_insert_eq in Ha.
  sql. rewrite E1 in H1. destruct a; [done|]. sql. rewrite E1 in H2.
  destruct a as [right_id|]; [|done].
  apply issue_ok in Ha as (r' & s & P & C & Hj & _ & Hs & Hc & Hm & -> & E2 & Hproves).
  rewrite E1 in *. cbn in Hj. rewrite lookup_insert_eq in Hj. injection Hj as <-.
  apply bool_decide_eq_true in Hp.
  constructor; [|done|by rewrite E2|by rewrite E2|exact Hproves].
  exists r. split_and!; try done; [by rewrite E2; cbn; rewrite insert_insert_eq|].
  exists right_id, s. split_and!; try done. by rewrite E2.
Qed.

(** A refusal is no commit. *)
Definition refuses {A} (m : Sql Tables ApproveTxn A) : Prop :=
  forall c c' e member, m c = (c', Err e) -> e <> TxnCommitted member.

Lemma refuses_bind {A B} (m : Sql Tables ApproveTxn A) (k : A -> Sql Tables ApproveTxn B) :
  refuses m -> (forall a, refuses (k a)) -> refuses (bind m k).
Proof.
  intros Hm Hk c c' e member. unfold bind. destruct (m c) as [c1 [a|e1]] eqn:E.
  - apply Hk.
  - intros [= <- <-]. by eapply Hm.
Qed.

Lemma refuses_execute e params stmt :
  (forall member, e <> TxnCommitted member) -> refuses (execute e params stmt).
Proof. intros He c c' e' member [_ ->]%execute_err. apply He. Qed.

Ltac refuses :=
  repeat first
    [ apply refuses_bind; [|intros ?]
    | apply refuses_execute; intros ?; discriminate
    | match goal with |- refuses (if ?b then _ else _) => destruct b end
    | match goal with |- refuses (match ?o with Some _ => _ | None => _ end) => destruct o end
    | match goal with |- refuses (stop _) => intros ? ? ? ? [= <- <-]; discriminate end
    | match goal with |- refuses (query _) => by intros ? ? ? ? [=] end
    | match goal with |- refuses (ret _) => by intros ? ? ? ? [=] end ].

Lemma approval_refuses id mb by_ now : refuses (approval id mb by_ now).
Proof.
  unfold approval, issue, insert_principal_credential, unit_of. cbv zeta. refuses.
Qed.

(** Either everything or nothing. *)
Lemma db_approve_cases id mb by_ now c c' out :
  db_approve_join_request id mb by_ now c = (c', out) ->
  match out with
  | TxnCommitted m => approval_done id mb by_ now (tables c) (tables c') m
  | _ => tables c' = tables c
  end.
Proof.
  unfold db_approve_join_request.
  destruct (transaction _ _ c) as [c1 [m|e]] eqn:E; intros [= <- <-].
  - apply transaction_ok in E as (c2 & Hm & ->). by apply approval_ok in Hm.
  - pose proof (transaction_err _ _ _ _ _ E) as Ht. destruct e; try done.
    exfalso. revert E. unfold transaction. destruct (next_fault c); [done|].
    destruct (approval _ _ _ _ _) as [c2 [m|e]] eqn:Ea; [by destruct (next_fault c2)|].
    intros [= <- ->]. by apply (approval_refuses id mb by_ now _ _ _ member Ea).
Qed.

(** ** The life of a request *)

(** What the outside sees of a request: it waits, it was denied, its credential
    waits to be fetched, or the credential was handed over. *)
Inductive request_state : Type :=
  | Waiting
  | Refused
  | Issued (mb : string)
  | HandedOver.

Definition request_state_of (r : JoinRow) : option request_state :=
  match jr_status r, jr_mb_token r, jr_bootstrap_acked_at r with
  | JoinPending, None, None => Some Waiting
  | JoinDenied, None, None => Some Refused
  | JoinApproved, Some mb, None => Some (Issued mb)
  | JoinApproved, None, Some _ => Some HandedOver
  | _, _, _ => None
  end.

(** The ledger: the requests with their names and states, and how many rights
    were minted and spent. *)
Record AdmissionLedger : Type := mkLedger {
  lg_requests : gmap string (string * request_state);
  lg_minted : nat;
  lg_spent : nat;
}.

Inductive ledger_step : AdmissionLedger -> AdmissionLedger -> Prop :=
  | LMint n l :
      ledger_step l (mkLedger (lg_requests l) (lg_minted l + n) (lg_spent l))
  | LRequest id name l :
      lg_requests l !! id = None ->
      ledger_step l (mkLedger (<[id := (name, Waiting)]> (lg_requests l)) (lg_minted l) (lg_spent l))
  | LApprove id name mb l :
      lg_requests l !! id = Some (name, Waiting) -> lg_spent l < lg_minted l ->
      ledger_step l
        (mkLedger (<[id := (name, Issued mb)]> (lg_requests l)) (lg_minted l) (S (lg_spent l)))
  | LDeny id name l :
      lg_requests l !! id = Some (name, Waiting) ->
      ledger_step l (mkLedger (<[id := (name, Refused)]> (lg_requests l)) (lg_minted l) (lg_spent l))
  | LHandOver id name mb l :
      lg_requests l !! id = Some (name, Issued mb) ->
      ledger_step l
        (mkLedger (<[id := (name, HandedOver)]> (lg_requests l)) (lg_minted l) (lg_spent l)).

Definition ledger_of t : AdmissionLedger := {|
  lg_requests := omap (fun r => (fun s => (jr_name r, s)) <$> request_state_of r) (t_joins t);
  lg_minted := size (t_stock t);
  lg_spent := count_where (fun s => negb (is_none (sk_consumed_at s))) t |}.

(** Every row is in one of the four states: no [approving] is ever left. *)
Definition joins_ok t : Prop :=
  forall id r, t_joins t !! id = Some r -> is_Some (request_state_of r).

(** ** The operations *)

Inductive admission_op : Type :=
  | AMint (ids : list string) (minted_by : string) (created_at expires_at : N)
  | ARequest (id secret name kind : string) (created_at : N)
  | AApprove (id mb_token by_ : string) (now : N)
  | ADeny (id by_ : string) (now : N)
  | AClaim (id secret : string) (now : N)
  | AAck (id secret : string) (now : N).

Definition admit_op (o : admission_op) c : Conn Tables :=
  match o with
  | AMint ids by_ created expires => (db_mint_admission_rights ids by_ created expires c).1
  | ARequest id secret name kind at_ => (db_create_join_request id secret name kind at_ c).1
  | AApprove id mb by_ now => (db_approve_join_request id mb by_ now c).1
  | ADeny id by_ now => (db_deny_join_request id by_ now c).1
  | AClaim id secret now => (db_claim_join_request_bootstrap id secret now c).1
  | AAck id secret now => (db_ack_join_request_bootstrap id secret now c).1
  end.

(** One operation is at most one step of the ledger. *)
Definition refines t t' : Prop :=
  joins_ok t -> joins_ok t' /\ (ledger_of t' = ledger_of t \/ ledger_step (ledger_of t) (ledger_of t')).

Lemma refines_same t t' : t' = t -> refines t t'.
Proof. intros ->. by split; [|left]. Qed.

(** A request that moved from one state to another. *)
Lemma ledger_join t id r r' s :
  t_joins t !! id = Some r -> request_state_of r' = Some s -> jr_name r' = jr_name r ->
  lg_requests (ledger_of (with_t_joins (<[id := r']> (t_joins t)) t))
    = <[id := (jr_name r, s)]> (lg_requests (ledger_of t)).
Proof.
  intros Er Hs Hn. cbn. erewrite omap_insert_Some; [done|]. by rewrite Hs, <- Hn.
Qed.

Lemma joins_ok_insert t t' id r s :
  joins_ok t -> request_state_of r = Some s -> t_joins t' = <[id := r]> (t_joins t) -> joins_ok t'.
Proof.
  intros Hok Hs Ej id' r'. rewrite Ej, lookup_insert_Some. intros [[<- <-]|[_ E]]; [done|].
  by eapply Hok.
Qed.

Lemma state_lookup t id r s :
  t_joins t !! id = Some r -> request_state_of r = Some s ->
  lg_requests (ledger_of t) !! id = Some (jr_name r, s).
Proof. intros Er Hs. cbn. rewrite lookup_omap, Er. cbn. by rewrite Hs. Qed.

Lemma waiting_row r : is_Some (request_state_of r) -> jr_status r = JoinPending ->
  request_state_of r = Some Waiting /\ jr_mb_token r = None /\ jr_bootstrap_acked_at r = None.
Proof.
  unfold request_state_of. intros [s E] Hp. rewrite Hp in *.
  by destruct (jr_mb_token r), (jr_bootstrap_acked_at r).
Qed.

Lemma mint_rows_ok ids by_ created expires n c c' k :
  mint_rows ids by_ created expires n c = (c', Ok k) ->
  exists S, tables c' = with_t_stock S (tables c) /\ size S = size (t_stock (tables c)) + length ids /\
    length (List.filter (fun s => negb (is_none (sk_consumed_at s))) (values S))
      = length (List.filter (fun s => negb (is_none (sk_consumed_at s)))
                  (values (t_stock (tables c)))).
Proof.
  revert n c. induction ids as [|id ids IH]; intros n c; cbn [mint_rows]; intros Hm; sql.
  - exists (t_stock (tables c)). split_and!; [by destruct (tables c)|cbn; lia|done].
  - unfold on_stock, insert_row in H1.
    destruct (t_stock (tables c) !! id) eqn:E; [done|]. injection H1 as E1 _.
    apply IH in Hm as (S & E2 & Hsz & Hc). exists S. rewrite <- E1 in E2, Hsz, Hc. cbn in *.
    split_and!; [done| |].
    + rewrite Hsz, map_size_insert_None by done. lia.
    + rewrite Hc, count_insert_new by done. done.
Qed.

Lemma mint_refines ids by_ created expires c :
  refines (tables c) (tables (db_mint_admission_rights ids by_ created expires c).1).
Proof.
  destruct (db_mint_admission_rights ids by_ created expires c) as [c' [n|e]] eqn:E; cbn [fst];
    [|by apply refines_same; eapply transaction_err].
  apply transaction_ok in E as (c2 & Hm & ->).
  apply mint_rows_ok in Hm as (S & -> & Hsz & Hc). cbn in Hsz, Hc.
  intros Hok. split; [done|]. right.
  assert (ledger_of (with_t_stock S (tables c))
    = mkLedger (lg_requests (ledger_of (tables c)))
        (lg_minted (ledger_of (tables c)) + length ids) (lg_spent (ledger_of (tables c)))) as E.
  { unfold ledger_of, count_where. cbn. by rewrite Hsz, Hc. }
  cbn [past_fault tables]. rewrite E. constructor.
Qed.

Lemma request_refines id secret name kind at_ c :
  refines (tables c) (tables (db_create_join_request id secret name kind at_ c).1).
Proof.
  unfold db_create_join_request, unit_of, bind.
  destruct (execute _ _ _ _) as [c' [n|e]] eqn:E; cbn [fst ret];
    [|apply execute_err in E as [E _]; by apply refines_same].
  apply execute_ok in E as [E _]. unfold on_joins, insert_row in E.
  destruct (t_joins (tables c) !! id) eqn:Ej; [done|]. injection E as E _.
  intros Hok. rewrite <- E. set (row := mkJoinRow _ _ _ _ _ _ _ _ _ _). split.
  { by apply (joins_ok_insert (tables c) _ id row Waiting). }
  right.
  assert (ledger_of (with_t_joins (<[id := row]> (t_joins (tables c))) (tables c))
    = mkLedger (<[id := (name, Waiting)]> (lg_requests (ledger_of (tables c))))
        (lg_minted (ledger_of (tables c))) (lg_spent (ledger_of (tables c)))) as ->.
  { unfold ledger_of. cbn. by erewrite omap_insert_Some. }
  apply LRequest. cbn. by rewrite lookup_omap, Ej.
Qed.

(** A request that takes a step nobody else takes part in. *)
Definition own_step (s s' : request_state) : Prop :=
  s' = s \/ s = Waiting /\ s' = Refused \/ (exists mb, s = Issued mb) /\ s' = HandedOver.

Lemma row_refines t t' id r r' s s' :
  t_joins t !! id = Some r -> request_state_of r = Some s ->
  jr_name r' = jr_name r -> request_state_of r' = Some s' -> own_step s s' ->
  t' = with_t_joins (<[id := r']> (t_joins t)) t -> refines t t'.
Proof.
  intros Er Hs Hn Hs' Hstep -> Hok. split; [by apply (joins_ok_insert t _ id r' s')|].
  assert (ledger_of (with_t_joins (<[id := r']> (t_joins t)) t)
    = mkLedger (<[id := (jr_name r, s')]> (lg_requests (ledger_of t)))
        (lg_minted (ledger_of t)) (lg_spent (ledger_of t))) as ->.
  { pose proof (ledger_join t id r r' s' Er Hs' Hn) as El.
    unfold ledger_of in *. cbn in *. by rewrite El. }
  pose proof (state_lookup t id r s Er Hs) as Hl.
  destruct Hstep as [->|[[-> ->]|[[mb ->] ->]]].
  - left. rewrite insert_id by done. by destruct (ledger_of t).
  - right. by apply LDeny.
  - right. by eapply LHandOver.
Qed.

(** A conditional update of one request. *)
Lemma update_join_refines id p f c :
  (forall r s, t_joins (tables c) !! id = Some r -> request_state_of r = Some s -> p r = true ->
     jr_name (f r) = jr_name r /\ exists s', request_state_of (f r) = Some s' /\ own_step s s') ->
  forall e params, refines (tables c) (tables (execute (E := db_error) e params (update_join id p f) c).1).
Proof.
  intros Hf e params. destruct (execute _ _ _ _) as [c' [n|e']] eqn:E; cbn [fst];
    [|apply execute_err in E as [E _]; by apply refines_same].
  apply execute_ok in E as [E _]. apply update_join_effect in E.
  destruct (t_joins (tables c) !! id) as [r|] eqn:Er; [|apply refines_same; by destruct E].
  destruct (p r) eqn:Hp; [|apply refines_same; by destruct E]. destruct E as [E _].
  intros Hok. destruct (Hok id r Er) as [s Hs].
  destruct (Hf r s eq_refl Hs Hp) as (Hn & s' & Hs' & Hstep).
  by apply (row_refines _ _ id r (f r) s s').
Qed.

Lemma deny_refines id by_ now c :
  refines (tables c) (tables (db_deny_join_request id by_ now c).1).
Proof.
  unfold db_deny_join_request.
  lazymatch goal with |- context [execute ?e ?ps (update_join _ ?p ?f) _] =>
    pose proof (update_join_refines id p f c) as Hr end.
  destruct (execute _ _ _ c) as [c' n] eqn:E. cbn [fst].
  rewrite <- (f_equal fst E : _ = c'). apply Hr.
  intros r s _ Hs Hp%bool_decide_eq_true. split; [done|].
  destruct (waiting_row r (mk_is_Some _ _ Hs) Hp) as (Hw & Hmb & Hack).
  exists Refused. split; [|right; left; split; [congruence|done]].
  unfold request_state_of. cbn. by rewrite Hmb, Hack.
Qed.

Lemma claim_refines id secret now c :
  refines (tables c) (tables (db_claim_join_request_bootstrap id secret now c).1).
Proof.
  unfold db_claim_join_request_bootstrap. destruct (deliverable _ _ _); [|by apply refines_same].
  lazymatch goal with |- context [execute ?e ?ps (update_join _ ?p ?f) _] =>
    pose proof (update_join_refines id p f c) as Hr end.
  destruct (execute _ _ _ c) as [c' n] eqn:E. cbn [fst].
  rewrite <- (f_equal fst E : _ = c'). apply Hr.
  intros r s' _ Hs _. split; [done|]. exists s'. split; [done|by left].
Qed.

Lemma approved_state r : is_Some (request_state_of r) -> jr_status r = JoinApproved ->
  jr_bootstrap_acked_at r = None -> exists mb, request_state_of r = Some (Issued mb).
Proof.
  unfold request_state_of. intros [s E] Hp Ha. rewrite Hp, Ha in *.
  destruct (jr_mb_token r) as [mb|]; [by exists mb|done].
Qed.

Lemma ack_refines id secret now c :
  refines (tables c) (tables (db_ack_join_request_bootstrap id secret now c).1).
Proof.
  unfold db_ack_join_request_bootstrap.
  destruct (owned_request (tables c) id secret) as [r|] eqn:Eo; [|by apply refines_same].
  destruct (is_status JoinApproved r) eqn:Hap; cbn [negb]; [|by apply refines_same].
  destruct (is_none (jr_bootstrap_acked_at r)) eqn:Hack; cbn [negb]; [|by apply refines_same].
  unfold owned_request in Eo. destruct (t_joins (tables c) !! id) as [r'|] eqn:Er; [|done].
  cbn in Eo. case_bool_decide; [|done]. injection Eo as ->.
  lazymatch goal with |- context [execute ?e ?ps (update_join _ ?p ?f) _] =>
    pose proof (update_join_refines id p f c) as Hr end.
  destruct (execute _ _ _ c) as [c' n] eqn:E. cbn [fst].
  rewrite <- (f_equal fst E : _ = c'). apply Hr.
  intros r0 s Er0 Hs Hack'. assert (r0 = r) as -> by congruence. split; [done|].
  exists HandedOver.
  destruct (approved_state r) as [mb Hmb]; [by exists s| | |].
  - by apply bool_decide_eq_true in Hap.
  - by destruct (jr_bootstrap_acked_at r).
  - apply bool_decide_eq_true in Hap. split.
    + unfold request_state_of. cbn. by rewrite Hap.
    + right; right. split; [|done]. exists mb. congruence.
Qed.

Lemma spend_right (S : gmap string StockRow) now name right_id s :
  S !! right_id = Some s -> sk_consumed_at s = None ->
  let S' := <[right_id := consumed_row name now s]> S in
  let spent S := length (List.filter (fun s => negb (is_none (sk_consumed_at s))) (values S)) in
  size S' = size S /\ spent S' = (spent S + 1)%nat /\ (spent S < size S)%nat.
Proof.
  intros Es Hs. cbn zeta.
  pose proof (count_insert (fun s => negb (is_none (sk_consumed_at s))) S right_id s
    (consumed_row name now s) Es) as Hc. cbn in Hc. rewrite Hs in Hc. cbn in Hc.
  assert (size (<[right_id := consumed_row name now s]> S) = size S) as Hsz
    by (apply map_size_insert_Some; by exists s).
  split_and!; [done|lia|].
  pose proof (List.filter_length_le (fun s => negb (is_none (sk_consumed_at s)))
    (values (<[right_id := consumed_row name now s]> S))) as Hle.
  rewrite length_values, Hsz in Hle. lia.
Qed.

Lemma approve_refines id mb by_ now c :
  refines (tables c) (tables (db_approve_join_request id mb by_ now c).1).
Proof.
  destruct (db_approve_join_request id mb by_ now c) as [c' out] eqn:E. cbn [fst].
  apply db_approve_cases in E. destruct out as [m| | | |]; try by apply refines_same.
  destruct E as [(r & Er & Hp & _ & -> & Ej & right_id & s & _ & Es & Hs & Est) _ _ _].
  intros Hok. destruct (waiting_row r (Hok id r Er) Hp) as (Hw & _ & Hack).
  assert (request_state_of (approved_row mb by_ now r) = Some (Issued mb)) as Hs'.
  { unfold request_state_of. cbn. by rewrite Hack. }
  split; [by apply (joins_ok_insert _ _ id _ _ Hok Hs')|]. right.
  pose proof (state_lookup (tables c) id r Waiting Er Hw) as Hl.
  destruct (spend_right _ now (jr_name r) right_id s Es Hs) as (Hsz & Hsp & Hlt).
  assert (ledger_of (tables c') = mkLedger
    (<[id := (jr_name r, Issued mb)]> (lg_requests (ledger_of (tables c))))
    (lg_minted (ledger_of (tables c))) (S (lg_spent (ledger_of (tables c))))) as ->.
  { unfold ledger_of, count_where. rewrite Ej, Est. cbn [lg_requests lg_minted lg_spent].
    f_equal; [|done|lia]. by erewrite omap_insert_Some by (by rewrite Hs'). }
  by apply (LApprove id (jr_name r) mb).
Qed.

Lemma admit_op_refines o c : refines (tables c) (tables (admit_op o c)).
Proof.
  destruct o; cbn [admit_op]; auto using mint_refines, request_refines, approve_refines,
    deny_refines, claim_refines, ack_refines.
Qed.

(** C22: refinement.  The SQL of the admission flow (rights in stock, requests, the
    approval transaction, the delivery of the credential) implements the ledger of
    requests and rights: under every outcome of every write, one call changes
    nothing the ledger shows or is exactly one of its steps, and it leaves every
    request waiting, refused, issued or handed over, never half approved. *)
Theorem admission_refines o c :
  joins_ok (tables c) ->
  joins_ok (tables (admit_op o c)) /\
  (ledger_of (tables (admit_op o c)) = ledger_of (tables c) \/
   ledger_step (ledger_of (tables c)) (ledger_of (tables (admit_op o c)))).
Proof. apply admit_op_refines. Qed.

(** ** What the ledger keeps *)

(** Whether a request has been given a membership. *)
Definition is_issued (s : request_state) : bool :=
  match s with Issued _ | HandedOver => true | _ => false end.
Definition issued_count (l : AdmissionLedger) : nat :=
  length (List.filter (fun ns => is_issued ns.2) (values (lg_requests l))).

(** One right was spent for every membership issued, and no right twice. *)
Definition balanced (l : AdmissionLedger) : Prop :=
  issued_count l = lg_spent l /\ (lg_spent l <= lg_minted l)%nat.

Lemma ledger_step_balanced l l' : ledger_step l l' -> balanced l -> balanced l'.
Proof.
  unfold balanced, issued_count.
  intros [n l0|id name l0 Hn|id name mb l0 Hl Hlt|id name l0 Hl|id name mb l0 Hl] [Hb Hle];
    cbn [lg_requests lg_minted lg_spent]; (split; [|lia]); try done.
  - by rewrite count_insert_new by done.
  - pose proof (count_insert (fun ns => is_issued ns.2) (lg_requests l0) id _ (name, Issued mb) Hl)
      as Hc. cbn in Hc. lia.
  - pose proof (count_insert (fun ns => is_issued ns.2) (lg_requests l0) id _ (name, Refused) Hl)
      as Hc. cbn in Hc. lia.
  - pose proof (count_insert (fun ns => is_issued ns.2) (lg_requests l0) id _ (name, HandedOver) Hl)
      as Hc. cbn in Hc. lia.
Qed.

Fixpoint admit_ops (os : list admission_op) c : Conn Tables :=
  match os with [] => c | o :: os => admit_ops os (admit_op o c) end.

Lemma admit_ops_kept os c :
  joins_ok (tables c) -> balanced (ledger_of (tables c)) ->
  joins_ok (tables (admit_ops os c)) /\ balanced (ledger_of (tables (admit_ops os c))).
Proof.
  revert c. induction os as [|o os IH]; intros c Hok Hb; [done|]. cbn [admit_ops].
  destruct (admit_op_refines o c Hok) as [Hok' [Hsame|Hstep]]; apply IH; try done.
  - by rewrite Hsame.
  - by apply (ledger_step_balanced _ _ Hstep).
Qed.

(** invariant.  Every membership issued through admission cost exactly one
    minted right: from an empty store, after any sequence of mints, requests,
    approvals, denials, deliveries and acknowledgements, with any writes failing,
    the requests that were approved are as many as the rights spent, which never
    exceed the rights minted. *)
Theorem admission_conserves_rights os c :
  t_joins (tables c) = ∅ -> t_stock (tables c) = ∅ ->
  balanced (ledger_of (tables (admit_ops os c))).
Proof.
  intros Ej Es. apply admit_ops_kept.
  - intros id r. by rewrite Ej, lookup_empty.
  - unfold balanced, issued_count, ledger_of, count_where. rewrite Ej, Es. cbn.
    by rewrite omap_empty.
Qed.

(** ** Delivery *)

(** A fetch notes when it happened, and what can be fetched stays the same. *)
Lemma claim_effect id secret now c c' got :
  db_claim_join_request_bootstrap id secret now c = (c', got) ->
  got = deliverable (tables c) id secret /\
  (forall id' s', deliverable (tables c') id' s' = deliverable (tables c) id' s') /\
  db_principal_for_credential (tables c') = db_principal_for_credential (tables c).
Proof.
  unfold db_claim_join_request_bootstrap.
  destruct (deliverable (tables c) id secret) as [mb|] eqn:Ed; [|by intros [= <- <-]].
  destruct (execute _ _ _ c) as [c1 [n|e]] eqn:E; intros [= <- <-];
    [|apply execute_err in E as [E _]; by rewrite E].
  apply execute_ok in E as [E _]. apply update_join_effect in E.
  destruct (t_joins (tables c) !! id) as [r|] eqn:Er; [|by destruct E as [-> _]].
  destruct (is_none _); destruct E as [E _]; [|by rewrite E].
  rewrite E. split_and!; [done| |done]. intros id' s'. unfold deliverable, owned_request. cbn.
  destruct (decide (id' = id)) as [->|Hne]; [|by rewrite lookup_insert_ne].
  rewrite lookup_insert_eq, Er. cbn. by case_bool_decide.
Qed.

(** An acknowledgement that took effect erased the credential. *)
Lemma ack_effect id secret now c c' :
  db_ack_join_request_bootstrap id secret now c = (c', Some true) ->
  (exists r, t_joins (tables c') !! id = Some r /\ jr_mb_token r = None) /\
  db_principal_for_credential (tables c') = db_principal_for_credential (tables c).
Proof.
  unfold db_ack_join_request_bootstrap. destruct (owned_request _ _ _) as [r|] eqn:Eo; [|done].
  destruct (negb (is_status _ _)); [done|]. destruct (negb (is_none _)); [done|].
  destruct (execute _ _ _ c) as [c1 [n|e]] eqn:E; [|done]. intros [= <- Hn].
  apply Nat.eqb_eq in Hn as ->.
  apply execute_ok in E as [E _]. apply update_join_effect in E.
  destruct (t_joins (tables c) !! id) as [r'|] eqn:Er; [|by destruct E].
  destruct (is_none _); [|by destruct E]. destruct E as [E _]. rewrite E. split; [|done].
  eexists. cbn. by rewrite lookup_insert_eq.
Qed.

Lemma delivered_nothing t id r secret :
  t_joins t !! id = Some r -> jr_mb_token r = None -> deliverable t id secret = None.
Proof.
  intros Er Hmb. unfold deliverable, owned_request. rewrite Er. cbn.
  case_bool_decide; [|done]. cbn. by rewrite Hmb.
Qed.

Lemma approved_deliverable id mb by_ now t t' m r secret :
  joins_ok t -> t_joins t !! id = Some r -> approval_done id mb by_ now t t' m ->
  deliverable t' id secret
    = if bool_decide (jr_secret_hash r = secret_hash secret) then Some mb else None.
Proof.
  intros Hok Er [(r' & Er' & Hp & _ & -> & Ej & _) _ _ _ _]. assert (r' = r) as -> by congruence.
  destruct (waiting_row r (Hok id r Er) Hp) as (_ & _ & Hack).
  unfold deliverable, owned_request. rewrite Ej, lookup_insert_eq. cbn.
  case_bool_decide; [|done]. cbn. unfold is_status. cbn. by rewrite Hack.
Qed.

(** C28: round trip.  The credential of an approved request reaches who asked.  After
    an approval that committed, the holder of the request's secret fetches the new
    membership's credential, as often as needed, and it proves a member of the
    requested name and kind; any other secret fetches nothing; and once the holder
    has acknowledged it the server has forgotten it, while it still proves that
    member. *)
Theorem credential_delivery_round_trip id secret mb by_ now c c1 m r :
  joins_ok (tables c) -> t_joins (tables c) !! id = Some r ->
  jr_secret_hash r = secret_hash secret -> fresh_secret "member" mb (tables c) ->
  db_approve_join_request id mb by_ now c = (c1, TxnCommitted m) ->
  let who := Some {| pi_id := hashed_id "pr_" ("member:" +:+ mb); pi_display_name := jr_name r;
                     pi_kind := parse_sender_type (jr_kind r); pi_role := RoleMember |} in
  forall now2 c2 got, db_claim_join_request_bootstrap id secret now2 c1 = (c2, got) ->
    got = Some mb /\
    (forall now3, (db_claim_join_request_bootstrap id secret now3 c2).2 = Some mb) /\
    db_principal_for_credential (tables c2) mb = who /\
    (forall other now3, secret_hash other <> secret_hash secret ->
       (db_claim_join_request_bootstrap id other now3 c2).2 = None) /\
    (forall now3 c3, db_ack_join_request_bootstrap id secret now3 c2 = (c3, Some true) ->
       (forall other now4, (db_claim_join_request_bootstrap id other now4 c3).2 = None) /\
       db_principal_for_credential (tables c3) mb = who).
Proof.
  intros Hok Er Hsec Hfresh Ha%db_approve_cases who now2 c2 got Hclaim. cbn in Ha.
  pose proof (fun s => approved_deliverable id mb by_ now _ _ m r s Hok Er Ha) as Hdel.
  destruct Ha as [(r' & Er' & _ & _ & -> & _) _ _ _ Hproves].
  assert (r' = r) as -> by congruence. specialize (Hproves Hfresh). cbn in Hproves.
  apply claim_effect in Hclaim as (-> & Hsame & Hp).
  assert (forall s now' c', (db_claim_join_request_bootstrap id s now' c').2
    = deliverable (tables c') id s) as Hgot.
  { intros s now' c'. destruct (db_claim_join_request_bootstrap id s now' c') eqn:E.
    by apply claim_effect in E as [-> _]. }
  split_and!.
  - rewrite Hdel. by rewrite bool_decide_eq_true_2.
  - intros now3. rewrite Hgot, Hsame, Hdel. by rewrite bool_decide_eq_true_2.
  - by rewrite Hp.
  - intros other now3 Hne. rewrite Hgot, Hsame, Hdel. rewrite bool_decide_eq_false_2; [done|congruence].
  - intros now3 c3 [(r3 & Er3 & Hmb) Hp3]%ack_effect. split; [|by rewrite Hp3, Hp].
    intros other now4. rewrite Hgot. by apply (delivered_nothing _ _ r3).
Qed.

End facts.

(** ** Witnesses: one right in stock, and a request that waits for it *)

#[local] Instance text_digest : Digest :=
  {| sha256 s := take 32 (map Ascii.N_of_ascii (String.list_ascii_of_string s) ++ replicate 32 0%N) |}.
#[local] Instance noon : WallClock := {| current_time_ms := 1000 |}.

Definition opening_day : Conn Tables :=
  admit_ops [AMint ["right"] "root" 1 5000; ARequest "jr_1" "secret" "ada" "agent" 2]
    (mkConn no_tables []).
Definition ada_request : JoinRow :=
  mkJoinRow (secret_hash "secret") "ada" "agent" JoinPending 2 None None None None None.

Lemma opening_day_ok : joins_ok (tables opening_day).
Proof.
  assert (t_joins (tables opening_day) = {["jr_1" := ada_request]}) as E by (vm_compute; reflexivity).
  intros id r. rewrite E, lookup_singleton_Some. intros [<- <-]. by eexists.
Qed.

Lemma admission_refines_witness :
  let c := admit_op (AApprove "jr_1" "mb" "root" 10) opening_day in
  joins_ok (tables c) /\
  (ledger_of (tables c) = ledger_of (tables opening_day) \/
   ledger_step (ledger_of (tables opening_day)) (ledger_of (tables c))).
Proof. apply admission_refines, opening_day_ok. Defined.

Lemma admission_conserves_rights_witness :
  balanced (ledger_of (tables (admit_ops
    [AMint ["right"] "root" 1 5000; ARequest "jr_1" "secret" "ada" "agent" 2;
     AApprove "jr_1" "mb" "root" 10; AClaim "jr_1" "secret" 11; AAck "jr_1" "secret" 12]
    (mkConn no_tables [false; false; false; true])))).
Proof. apply admission_conserves_rights; reflexivity. Defined.

Definition approved_conn : Conn Tables :=
  (db_approve_join_request "jr_1" "mb" "root" 10 opening_day).1.

Lemma approved_commits : db_approve_join_request "jr_1" "mb" "root" 10 opening_day
  = (approved_conn, TxnCommitted (mkMembership "mb" "ada" "agent" 10 "root")).
Proof. vm_compute. reflexivity. Qed.
Lemma mb_fresh : fresh_secret "member" "mb" (tables opening_day).
Proof. split; [|split]; vm_compute; reflexivity. Qed.
Lemma ada_waits : t_joins (tables opening_day) !! "jr_1" = Some ada_request.
Proof. vm_compute. reflexivity. Qed.

Lemma credential_delivery_round_trip_witness :
  (db_claim_join_request_bootstrap "jr_1" "secret" 11 approved_conn).2 = Some "mb"%string.
Proof.
  refine (proj1 (credential_delivery_round_trip "jr_1" "secret" "mb" "root" 10 opening_day
    approved_conn _ ada_request opening_day_ok ada_waits eq_refl mb_fresh approved_commits 11
    (db_claim_join_request_bootstrap "jr_1" "secret" 11 approved_conn).1 _ (surjective_pairing _))).
Defined.
