(* ===== verification/OperatorFacts.v ===== *)
(** * The operator's seat, proved

    A room has at most one active operator, the assignments are a history that
    only grows, and an appointment that is answered is the one in force. *)

From S2P Require Import Prelude Protocol StoreApi Sql Tables Hub Membership Identity Operators.

Open Scope loca_scope.

Implicit Types t : Tables.
Implicit Types c : Conn Tables.

(** What the unique index and the foreign keys keep. *)
Record seat_ok t : Prop := {
  so_one : forall k k' a a', t_assignments t !! k = Some a -> t_assignments t !! k' = Some a' ->
    as_room a = as_room a' -> as_revoked_at a = None -> as_revoked_at a' = None -> k = k';
  so_principal : forall k a, t_assignments t !! k = Some a ->
    is_Some (t_principals t !! as_principal_id a);
}.

(** Every row stays as it is, or is closed at [at_]. *)
Definition history_kept (at_ : N) t t' : Prop :=
  forall k a, t_assignments t !! k = Some a ->
    t_assignments t' !! k = Some a \/
    as_revoked_at a = None /\ t_assignments t' !! k = Some (with_as_revoked_at (Some at_) a).

Lemma history_kept_refl at_ t : history_kept at_ t t.
Proof. by left. Qed.

Lemma is_none_true {A} (o : option A) : is_none o = true <-> o = None.
Proof. by destruct o. Qed.

Lemma is_active_in_true room a :
  is_active_in room a = true <-> as_room a = room /\ as_revoked_at a = None.
Proof. unfold is_active_in. by rewrite andb_true_iff, bool_decide_eq_true, is_none_true. Qed.

(** The id of a new row is not in use. *)
Lemma next_assignment_id_fresh t : t_assignments t !! next_assignment_id t = None.
Proof.
  destruct (t_assignments t !! next_assignment_id t) as [a|] eqn:E; [|done]. exfalso.
  assert (next_assignment_id t ∈ keys (t_assignments t)) as Hin.
  { unfold keys. apply list_elem_of_fmap. exists (next_assignment_id t, a).
    split; [done|]. by apply elem_of_map_to_list. }
  unfold next_assignment_id in Hin at 1. revert Hin.
  generalize (keys (t_assignments t)) as ks.
  assert (forall ks k, k ∈ ks -> (k <= foldr N.max 0 ks)%N) as Hmax.
  { intros ks k. induction ks as [|k' ks IH]; [by intros ?%elem_of_nil|].
    intros [->|Hk]%elem_of_cons; cbn; [|specialize (IH Hk)]; lia. }
  intros ks Hin%Hmax. lia.
Qed.

Lemma insert_assignment_ok room p by_ role at_ c c' u :
  insert_assignment room p by_ role at_ c = (c', Ok u) ->
  is_Some (t_principals (tables c) !! p) /\
  (forall k a, t_assignments (tables c) !! k = Some a -> is_active_in room a = false) /\
  tables c' = with_t_assignments (<[next_assignment_id (tables c) :=
    mkAssignmentRow room p by_ (role_str role) at_ None]> (t_assignments (tables c))) (tables c).
Proof.
  unfold insert_assignment, unit_of. intros (c1 & n & [E _]%execute_ok & [-> _]%ret_ok)%bind_ok.
  destruct (t_principals (tables c) !! p); [|done].
  destruct (is_none (t_principals (tables c) !! by_)); [done|].
  destruct (select_where _ _) eqn:Es; [done|]. injection E as E _.
  split_and!; [done|by apply select_where_None|done].
Qed.

Lemma close_assignment_ok {X} (e : X) p at_ params c c' n :
  execute e params (close_assignment p at_) c = (c', Ok n) ->
  t_principals (tables c') = t_principals (tables c) /\
  forall k, t_assignments (tables c') !! k
    = (fun a => if p a then with_as_revoked_at (Some at_) a else a) <$> t_assignments (tables c) !! k.
Proof.
  intros [E _]%execute_ok. unfold close_assignment, on_table in E.
  pose proof (update_where_lookup (fun (_ : N) a => p a) (with_as_revoked_at (Some at_))
    (t_assignments (tables c))) as Hl.
  destruct (update_where _ _ _) as [m k]. injection E as E _. by rewrite <- E.
Qed.

Lemma write_room_state_ok {X} (e : X) room mode settings c c' u :
  write_room_state e room mode settings c = (c', Ok u) ->
  exists R, tables c' = with_t_rooms R (tables c).
Proof.
  unfold write_room_state. intros (c1 & n & [E _]%execute_ok & Hr)%bind_ok.
  assert (c' = c1) as -> by (destruct n; [done|by apply ret_ok in Hr as [-> _]]).
  destruct (t_rooms (tables c) !! room) as [r|]; [destruct (is_none (rr_sealed_at r))|];
    injection E as E _; rewrite <- E; [by eexists| |by eexists].
  exists (t_rooms (tables c)). by destruct (tables c).
Qed.

(** ** Each statement keeps the seats *)

Lemma insert_seat t room p by_ role at_ :
  seat_ok t -> is_Some (t_principals t !! p) ->
  (forall k a, t_assignments t !! k = Some a -> is_active_in room a = false) ->
  let t' := with_t_assignments (<[next_assignment_id t :=
    mkAssignmentRow room p by_ role at_ None]> (t_assignments t)) t in
  seat_ok t' /\ history_kept at_ t t'.
Proof.
  intros [Hone Hp] Hpr Hfree t'. split; [constructor|].
  - intros k k' a a'. cbn. rewrite !lookup_insert_Some.
    intros [[<- <-]|[Hne Ea]] [[<- <-]|[Hne' Ea']]; cbn; intros Hr Ha Ha'; [done| | |by eapply Hone].
    + specialize (Hfree k' a' Ea'). exfalso.
      by rewrite (proj2 (is_active_in_true room a')) in Hfree by done.
    + specialize (Hfree k a Ea). exfalso.
      by rewrite (proj2 (is_active_in_true room a)) in Hfree by done.
  - intros k a. cbn. rewrite lookup_insert_Some. intros [[<- <-]|[_ Ea]]; [done|by eapply Hp].
  - intros k a Ea. left. cbn. rewrite lookup_insert_ne; [done|].
    intros <-. by rewrite next_assignment_id_fresh in Ea.
Qed.

Lemma close_seat t t' p at_ :
  seat_ok t -> (forall a, p a = true -> as_revoked_at a = None) ->
  t_principals t' = t_principals t ->
  (forall k, t_assignments t' !! k
    = (fun a => if p a then with_as_revoked_at (Some at_) a else a) <$> t_assignments t !! k) ->
  seat_ok t' /\ history_kept at_ t t'.
Proof.
  intros [Hone Hp] Hpa Epr El. split; [constructor|].
  - intros k k' a a'. rewrite !El.
    intros (b & Eb & ->)%fmap_Some (b' & Eb' & ->)%fmap_Some.
    destruct (p b), (p b'); try done. by apply Hone.
  - intros k a. rewrite El, Epr. intros (b & Eb & ->)%fmap_Some.
    specialize (Hp k b Eb). by destruct (p b).
  - intros k a Ea. rewrite El, Ea. cbn. destruct (p a) eqn:E; [right|by left]. split; [|done].
    by apply Hpa.
Qed.

(** What a seat answers is the active row, and an empty answer no row at all. *)
Lemma loca_operator_Some t room o :
  db_loca_operator t room = Some o ->
  exists k a, t_assignments t !! k = Some a /\ is_active_in room a = true /\
    assignment_from_row t a = Some o /\ loa_principal_id o = as_principal_id a.
Proof.
  unfold db_loca_operator. destruct (select_where _ _) as [[k a]|] eqn:Es; [|done]. cbn.
  intros E. apply select_where_Some in Es as [Ea Hp]. exists k, a. split_and!; try done.
  unfold assignment_from_row in E. by destruct (t_principals t !! _); [injection E as <-|].
Qed.

Lemma loca_operator_None t room :
  seat_ok t -> db_loca_operator t room = None ->
  forall k a, t_assignments t !! k = Some a -> is_active_in room a = false.
Proof.
  intros Hok. unfold db_loca_operator. destruct (select_where _ _) as [[k a]|] eqn:Es.
  - cbn. apply select_where_Some in Es as [Ea _]. destruct (so_principal t Hok k a Ea) as [p Ep].
    unfold assignment_from_row. by rewrite Ep.
  - by intros _; apply select_where_None.
Qed.

(** ** The three operations *)

Lemma transaction_inv {A} (m : Sql Tables LocaOperatorError A) c c' r (P : Tables -> Prop) :
  transaction LoeStorage m c = (c', r) -> P (tables c) ->
  (forall c0 c1 a, tables c0 = tables c -> m c0 = (c1, Ok a) -> P (tables c1)) -> P (tables c').
Proof.
  intros E H0 Hm. destruct r as [a|e].
  - apply transaction_ok in E as (c2 & E & ->). by eapply Hm; [|exact E].
  - by apply transaction_err in E as ->.
Qed.

Lemma validate_target_ok p c c' u :
  validate_target p c = (c', Ok u) ->
  c' = c /\ exists r, enabled (tables c) p = Some r /\ pr_kind r = "human"%string.
Proof.
  unfold validate_target. intros (c1 & r & [-> ->]%query_ok & E)%bind_ok.
  destruct (enabled (tables c) p) as [r|]; [|done]. destruct (decide _); [|done].
  apply ret_ok in E as [-> _]. split; [done|]. by exists r.
Qed.
Lemma validate_appointer_ok p c c' role :
  validate_appointer p c = (c', Ok role) ->
  c' = c /\ exists r, enabled (tables c) p = Some r /\ role = parse_role (pr_building_role r).
Proof.
  unfold validate_appointer. intros (c1 & r & [-> ->]%query_ok & E)%bind_ok.
  destruct (enabled (tables c) p) as [r|]; [|done].
  apply ret_ok in E as [-> ->]. split; [done|]. by exists r.
Qed.
Lemma require_active_ok room e c c' a :
  require_active room e c = (c', Ok a) -> c' = c /\ db_loca_operator (tables c) room = Some a.
Proof.
  unfold require_active, query_active. intros (c1 & r & [-> ->]%query_ok & E)%bind_ok.
  destruct (db_loca_operator (tables c) room); [|done]. by apply ret_ok in E as [-> ->].
Qed.

Lemma fill_seat_ok room p by_ role at_ c c' a :
  fill_seat room p by_ role at_ c = (c', Ok a) -> seat_ok (tables c) ->
  seat_ok (tables c') /\ history_kept at_ (tables c) (tables c') /\
  db_loca_operator (tables c') room = Some a /\ loa_principal_id a = p /\
  t_principals (tables c') = t_principals (tables c).
Proof.
  unfold fill_seat. intros (c1 & u & Hi & Hr)%bind_ok Hok.
  apply insert_assignment_ok in Hi as (Hp & Hfree & E1).
  apply require_active_ok in Hr as [-> Ha].
  destruct (insert_seat (tables c) room p by_ (role_str role) at_ Hok Hp Hfree) as [Hok' Hk].
  rewrite <- E1 in Hok', Hk. split_and!; try done; [|by rewrite E1].
  apply loca_operator_Some in Ha as (k & b & Eb & Hb & _ & ->).
  apply is_active_in_true in Hb as [Hr Hn]. rewrite E1 in Eb. cbn in Eb.
  apply lookup_insert_Some in Eb as [[_ <-]|[_ Eb]]; [done|].
  specialize (Hfree k b Eb). by rewrite (proj2 (is_active_in_true room b)) in Hfree.
Qed.

(** What one operation does to the seats. *)
Definition seats_kept (at_ : N) t t' : Prop := seat_ok t' /\ history_kept at_ t t'.

Lemma seats_kept_refl at_ t : seat_ok t -> seats_kept at_ t t.
Proof. by split; [|apply history_kept_refl]. Qed.

(** Rows closed and then one added. *)
Lemma history_kept_trans at_ t1 t2 t3 :
  history_kept at_ t1 t2 -> history_kept at_ t2 t3 -> history_kept at_ t1 t3.
Proof.
  intros H1 H2 k a Ea. destruct (H1 k a Ea) as [E|[Hn E]]; [by apply H2|].
  right. split; [done|]. by destruct (H2 k _ E) as [E'|[Hn' _]].
Qed.

(** What an appointment that is answered did. *)
Record appointed (room p by_ : string) (at_ : N) t t' (o : LocaOperatorAssignment) : Prop := {
  ap_kept : seats_kept at_ t t';
  ap_in_force : db_loca_operator t' room = Some o;
  ap_principal : loa_principal_id o = p;
  ap_human : exists r, enabled t p = Some r /\ pr_kind r = "human"%string;
  ap_authority : exists r, enabled t by_ = Some r /\
    (parse_role (pr_building_role r) = RoleMaster \/
     parse_role (pr_building_role r) = RoleSmaster /\
     (db_loca_operator t room = None \/ t' = t));
}.

Lemma appoint_ok room p by_ at_ c c' o :
  seat_ok (tables c) -> db_appoint_loca_operator room p by_ at_ c = (c', Ok o) ->
  appointed room p by_ at_ (tables c) (tables c') o.
Proof.
  intros Hok (c2 & E & ->)%transaction_ok. revert E.
  intros (c3 & u & [-> Ht]%validate_target_ok & E)%bind_ok.
  apply bind_ok in E as (c4 & role & [-> (rb & Eb & Hrole)]%validate_appointer_ok & E).
  destruct (decide (role = RoleMember)) as [|Hnm]; [done|].
  apply bind_ok in E as (c5 & cur & [-> ->]%query_ok & E). cbn [tables past_fault] in *.
  destruct (db_loca_operator (tables c) room) as [cur|] eqn:Ecur.
  - destruct (decide (loa_principal_id cur = p)) as [<-|Hne].
    + apply ret_ok in E as [-> ->]. constructor; try done; [by apply seats_kept_refl|].
      exists rb. split; [done|]. rewrite <- Hrole. destruct role; [by left| |done].
      right. split; [done|by right].
    + destruct (decide (role = RoleSmaster)) as [|Hns]; [done|].
      apply bind_ok in E as (c6 & n & Hc & E). apply close_assignment_ok in Hc as [Epr El].
      destruct (close_seat (tables c) (tables c6) (is_active_in room) at_ Hok) as [Hok' Hk];
        [by intros a [_ Ha]%is_active_in_true|done|done|].
      apply fill_seat_ok in E as (Hok2 & Hk2 & Ha & Hp & _); [|done].
      constructor; try done.
      { split; [done|]. by apply (history_kept_trans at_ _ (tables c6)). }
      exists rb. split; [done|]. left. rewrite <- Hrole. by destruct role.
  - apply fill_seat_ok in E as (Hok2 & Hk2 & Ha & Hp & _); [|done].
    constructor; try done. exists rb. split; [done|]. rewrite <- Hrole.
    destruct role; [by left| |done]. right. split; [done|by left].
Qed.

Lemma appoint_keeps room p by_ at_ c :
  seat_ok (tables c) ->
  seats_kept at_ (tables c) (tables (db_appoint_loca_operator room p by_ at_ c).1).
Proof.
  intros Hok. destruct (db_appoint_loca_operator room p by_ at_ c) as [c' [o|e]] eqn:E; cbn [fst].
  - by apply appoint_ok in E as [].
  - apply transaction_err in E as ->. by apply seats_kept_refl.
Qed.

Lemma rooms_frame t R : seat_ok t -> seat_ok (with_t_rooms R t).
Proof. by intros [Ho Hp]; constructor. Qed.

Lemma create_keeps room settings founder at_ c :
  seat_ok (tables c) ->
  seats_kept at_ (tables c) (tables (db_create_room_with_operator room settings founder at_ c).1).
Proof.
  intros Hok. destruct (db_create_room_with_operator room settings founder at_ c) as [c' r] eqn:E.
  cbn [fst]. apply (transaction_inv _ _ _ _ (seats_kept at_ (tables c)) E);
    [by apply seats_kept_refl|]. clear E.
  intros c0 c1 o E0 (c3 & u & [-> Ht]%validate_target_ok & E)%bind_ok.
  apply bind_ok in E as (c4 & role & [-> _]%validate_appointer_ok & E).
  destruct (decide (role = RoleMember)); [done|].
  apply bind_ok in E as (c5 & ex & [-> _]%query_ok & E).
  apply bind_ok in E as (c6 & cur & [-> _]%query_ok & E).
  destruct (ex || negb (is_none cur)); [done|].
  apply bind_ok in E as (c7 & u2 & [R E7]%write_room_state_ok & E).
  assert (fill_seat room founder founder role at_ c7 = (c1, Ok o)) as (Hok' & Hk & _)%fill_seat_ok
    by done.
  - split; [done|]. by rewrite E7, E0 in Hk.
  - rewrite E7, E0. by apply rooms_frame.
Qed.

Lemma revoke_keeps room expected at_ c :
  seat_ok (tables c) ->
  seats_kept at_ (tables c) (tables (db_revoke_loca_operator room expected at_ c).1).
Proof.
  intros Hok. destruct (db_revoke_loca_operator room expected at_ c) as [c' r] eqn:E.
  cbn [fst]. apply (transaction_inv _ _ _ _ (seats_kept at_ (tables c)) E);
    [by apply seats_kept_refl|]. clear E.
  intros c0 c1 o E0 (c3 & cur & [-> _]%require_active_ok & E)%bind_ok.
  destruct (negb _); [done|]. apply bind_ok in E as (c4 & n & Hc & E).
  apply close_assignment_ok in Hc as [Epr El]. rewrite E0 in Epr, El.
  assert (c1 = c4) as -> by (destruct (n =? 1)%nat; [by apply ret_ok in E as [-> _]|done]).
  eapply close_seat; [done| |done|exact El].
  intros a [[_ Ha]%is_active_in_true _]%andb_true_iff. done.
Qed.

(** ** The theorems *)

Inductive operator_op : Type :=
  | OCreate (room : string) (settings : RoomSettings) (founder : string) (at_ : N)
  | OAppoint (room principal_id by_ : string) (at_ : N)
  | ORevoke (room expected : string) (at_ : N).

Definition seat_op (o : operator_op) c : Conn Tables :=
  match o with
  | OCreate room settings founder at_ => (db_create_room_with_operator room settings founder at_ c).1
  | OAppoint room p by_ at_ => (db_appoint_loca_operator room p by_ at_ c).1
  | ORevoke room expected at_ => (db_revoke_loca_operator room expected at_ c).1
  end.

Fixpoint seat_ops (os : list operator_op) c : Conn Tables :=
  match os with [] => c | o :: os => seat_ops os (seat_op o c) end.

(** A row of the history stays the row it was, up to its end. *)
Definition same_assignment (a a' : AssignmentRow) : Prop :=
  a' = with_as_revoked_at (as_revoked_at a') a /\
  (as_revoked_at a <> None -> as_revoked_at a' = as_revoked_at a).

Lemma seat_ops_kept os c :
  seat_ok (tables c) ->
  seat_ok (tables (seat_ops os c)) /\
  forall k a, t_assignments (tables c) !! k = Some a ->
    exists a', t_assignments (tables (seat_ops os c)) !! k = Some a' /\ same_assignment a a'.
Proof.
  revert c. induction os as [|o os IH]; intros c Hok.
  - split; [done|]. intros k a Ea. exists a. split; [done|]. split; [by destruct a|done].
  - assert (exists at_, seats_kept at_ (tables c) (tables (seat_op o c))) as (at_ & Hok' & Hk).
    { destruct o; cbn [seat_op]; eexists;
        [by apply create_keeps|by apply appoint_keeps|by apply revoke_keeps]. }
    destruct (IH _ Hok') as [Hok2 Hall]. split; [done|]. intros k a Ea. cbn [seat_ops].
    destruct (Hk k a Ea) as [E|[Hn E]]; [by apply Hall|].
    destruct (Hall k _ E) as (a' & Ea' & Heq & Hsame). exists a'. split; [done|].
    split; [by rewrite Heq|]. by rewrite Hn.
Qed.

(** C34: invariant.  A room never has two operators, and its history is never
    rewritten: after any sequence of foundings, appointments and revocations, with
    any writes failing, at most one assignment of each room is open, every
    assignment ever made is still there with the same people and dates, and one
    that was closed keeps the date it was closed at. *)
Theorem one_operator_and_history os c :
  seat_ok (tables c) ->
  let t' := tables (seat_ops os c) in
  (forall k k' a a', t_assignments t' !! k = Some a -> t_assignments t' !! k' = Some a' ->
     as_room a = as_room a' -> as_revoked_at a = None -> as_revoked_at a' = None -> k = k') /\
  forall k a, t_assignments (tables c) !! k = Some a ->
    exists a', t_assignments t' !! k = Some a' /\ same_assignment a a'.
Proof.
  intros Hok. destruct (seat_ops_kept os c Hok) as [[Hone _] Hall]. by split.
Qed.

(** functional.  An appointment that is answered is in force: the room's operator
    is the principal named, an enabled human, appointed by an enabled master, or by
    a second master who found the seat empty or so filled already.  A second master
    never displaces an operator, even when two of them raced for the empty seat.
    One that is refused changed nothing. *)
Theorem appointment_in_force room p by_ at_ c :
  seat_ok (tables c) ->
  match db_appoint_loca_operator room p by_ at_ c with
  | (c', Ok o) =>
      db_loca_operator (tables c') room = Some o /\ loa_principal_id o = p /\
      (exists r, enabled (tables c) p = Some r /\ pr_kind r = "human"%string) /\
      (exists r, enabled (tables c) by_ = Some r /\
         (parse_role (pr_building_role r) = RoleMaster \/
          parse_role (pr_building_role r) = RoleSmaster /\
          forall q, db_loca_operator (tables c) room = Some q -> q = o))
  | (c', Err _) => tables c' = tables c
  end.
Proof.
  intros Hok. destruct (db_appoint_loca_operator room p by_ at_ c) as [c' [o|e]] eqn:E.
  - apply appoint_ok in E as [_ Hf Hp Hh (r & Er & Hr)]; [|done]. split_and!; try done.
    exists r. split; [done|]. destruct Hr as [Hr|[Hr Hs]]; [by left|right]. split; [done|].
    intros q Eq. destruct Hs as [Hs|Hs]; [by rewrite Hs in Eq|congruence].
  - by apply transaction_err in E.
Qed.

(** ** Witnesses: a human founds a room, and another takes the seat *)

Definition people : Tables := with_t_principals
  {["pr_m" := mkPrincipalRow "max" "human" "master" 1 None;
    "pr_s" := mkPrincipalRow "sue" "human" "smaster" 2 None]} no_tables.

Lemma people_ok : seat_ok people.
Proof.
  assert (t_assignments people = ∅) as E by done.
  constructor; rewrite E; intros *; by rewrite lookup_empty.
Qed.

Definition lab_turns : list operator_op :=
  [OCreate "lab" room_settings_default "pr_s" 5; OAppoint "lab" "pr_m" "pr_m" 6; ORevoke "lab" "pr_m" 7].

Lemma one_operator_and_history_witness :
  (exists a, t_assignments (tables (seat_ops lab_turns (mkConn people []))) !! 2%N = Some a) /\
  (forall k k' a a', let t' := tables (seat_ops lab_turns (mkConn people [])) in
    t_assignments t' !! k = Some a -> t_assignments t' !! k' = Some a' ->
    as_room a = as_room a' -> as_revoked_at a = None -> as_revoked_at a' = None -> k = k').
Proof.
  split; [eexists; vm_compute; reflexivity|].
  apply (proj1 (one_operator_and_history lab_turns (mkConn people []) people_ok)).
Defined.

Lemma appointment_in_force_witness :
  exists c o, db_appoint_loca_operator "lab" "pr_m" "pr_s" 6 (mkConn people []) = (c, Ok o) /\
    db_loca_operator (tables c) "lab" = Some o.
Proof.
  pose proof (appointment_in_force "lab" "pr_m" "pr_s" 6 (mkConn people []) people_ok) as Ha.
  destruct (db_appoint_loca_operator "lab" "pr_m" "pr_s" 6 (mkConn people [])) as [c [o|e]] eqn:E.
  - exists c, o. by destruct Ha.
  - by vm_compute in E.
Defined.
