(* ===== verification/IdentityFacts.v ===== *)
(** * Identity, proved

    A revoked credential stays revoked through every write of the store, a
    suspension silences a member until it is lifted, and a revoked member is
    gone for good. *)

From S2P Require Import Prelude Protocol StoreApi Sql Tables Hub Access Membership.
From S2P Require Import Identity Operators Admission Boot.

Open Scope loca_scope.

Section facts.
Context `{Digest} `{WallClock}.
Implicit Types t : Tables.
Implicit Types c : Conn Tables.

(** ** What every write keeps of the credentials *)

(** No two credentials are for one secret: the hash is UNIQUE. *)
Definition hashes_unique t : Prop :=
  forall i j a b, t_credentials t !! i = Some a -> t_credentials t !! j = Some b ->
    cr_secret_hash a = cr_secret_hash b -> i = j.

(** A credential stays with its secret and its principal, and once revoked it
    stays revoked, one root credential apart. *)
Definition same_credential (spare : option string) (id : string) (a b : CredentialRow) : Prop :=
  cr_secret_hash b = cr_secret_hash a /\ cr_principal_id b = cr_principal_id a /\
  (spare <> Some id -> cr_revoked_at a <> None -> cr_revoked_at b = cr_revoked_at a).
Definition credentials_kept (spare : option string) t t' : Prop :=
  hashes_unique t ->
  hashes_unique t' /\
  forall id a, t_credentials t !! id = Some a ->
    exists b, t_credentials t' !! id = Some b /\ same_credential spare id a b.

#[local] Instance credentials_kept_refl spare : Reflexive (credentials_kept spare).
Proof. intros t Hu. split; [done|]. intros id a Ea. by exists a. Qed.
#[local] Instance credentials_kept_trans spare : Transitive (credentials_kept spare).
Proof.
  intros t1 t2 t3 K12 K23 Hu. destruct (K12 Hu) as [Hu2 K]. destruct (K23 Hu2) as [Hu3 K'].
  split; [done|]. intros id a Ea. destruct (K id a Ea) as (b & Eb & Hh & Hp & Hr).
  destruct (K' id b Eb) as (d & Ed & Hh' & Hp' & Hr'). exists d. split; [done|].
  split_and!; [congruence|congruence|]. intros Hs Ha. rewrite Hr'; [by apply Hr|done|].
  by rewrite Hr.
Qed.

Lemma credentials_same spare t t' : t_credentials t' = t_credentials t -> credentials_kept spare t t'.
Proof.
  intros E Hu. unfold hashes_unique. rewrite E. split; [done|]. intros id a Ea. by exists a.
Qed.

Lemma kept_on_table {V} spare (get : Tables -> V) put f t t' n :
  (forall v t, t_credentials (put v t) = t_credentials t) ->
  on_table get put f t = Some (t', n) -> credentials_kept spare t t'.
Proof.
  intros Hput. unfold on_table. destruct (f (get t)). intros [= <- _]. by apply credentials_same.
Qed.

Lemma kept_insert spare id r t t' n :
  insert_credential id r t = Some (t', n) -> credentials_kept spare t t'.
Proof.
  unfold insert_credential, credential_conflicts.
  destruct (t_credentials t !! id) eqn:Eid; [done|]. cbn [is_none negb orb].
  destruct (credential_with_hash t (cr_secret_hash r)) eqn:Eh; [done|]. cbn [is_none negb orb].
  destruct (_ || _); [done|]. intros [= <- _] Hu.
  assert (forall j b, t_credentials t !! j = Some b -> cr_secret_hash b <> cr_secret_hash r) as Hne.
  { intros j b Ej Hb. pose proof (proj1 (select_where_None _ _) Eh j b Ej) as Hf. cbn in Hf.
    by rewrite bool_decide_eq_true_2 in Hf. }
  split.
  - intros i j a b. cbn. rewrite !lookup_insert_Some.
    intros [[<- <-]|[_ Ea]] [[<- <-]|[_ Eb]] Hab; [done| | |by eapply Hu].
    + by destruct (Hne j b Eb).
    + by destruct (Hne i a Ea).
  - intros j b Ej. exists b. split; [|done]. cbn. rewrite lookup_insert_ne; [done|congruence].
Qed.

Lemma kept_update spare p f t t' n :
  (forall id a, p id a = true -> same_credential spare id a (f a)) ->
  on_table t_credentials with_t_credentials (update_where p f) t = Some (t', n) ->
  credentials_kept spare t t'.
Proof.
  intros Hf. unfold on_table. pose proof (update_where_lookup p f (t_credentials t)) as Hl.
  destruct (update_where _ _ _) as [m k]. intros [= <- _] Hu. cbn in Hl. 
  assert (forall id a, t_credentials t !! id = Some a -> same_credential spare id a
    (if p id a then f a else a)) as Hsame.
  { intros id a _. destruct (p id a) eqn:Ep; [by apply Hf|done]. }
  split.
  - intros i j a b. cbn. rewrite !Hl.
    intros (a0 & Ea & ->)%fmap_Some (b0 & Eb & ->)%fmap_Some Hab.
    destruct (Hsame i a0 Ea) as [Ha _], (Hsame j b0 Eb) as [Hb _].
    apply (Hu i j a0 b0 Ea Eb). congruence.
  - intros id a Ea. cbn. rewrite Hl, Ea. eexists. split; [done|]. by apply Hsame.
Qed.

Lemma kept_insert_or_ignore spare id r t t' n :
  insert_or_ignore_credential id r t = Some (t', n) -> credentials_kept spare t t'.
Proof.
  unfold insert_or_ignore_credential. destruct (credential_conflicts _ _ _); [|apply kept_insert].
  intros [= <- _]. by apply credentials_same.
Qed.

Lemma kept_insert_principal spare id r t t' n :
  insert_or_ignore_principal id r t = Some (t', n) -> credentials_kept spare t t'.
Proof.
  unfold insert_or_ignore_principal.
  destruct (_ && _); [|destruct (insert_or_ignore _ _ _)]; intros [= <- _]; by apply credentials_same.
Qed.

Lemma kept_revoke spare p at_ t t' n :
  revoke_credentials p at_ t = Some (t', n) -> credentials_kept spare t t'.
Proof.
  apply kept_update. intros id a [_ Ha]%andb_true_iff. split_and!; [done|done|].
  by destruct (cr_revoked_at a).
Qed.

(** Statements on other tables. *)
Lemma kept_sessions spare p at_ t t' n :
  revoke_sessions p at_ t = Some (t', n) -> credentials_kept spare t t'.
Proof. by apply kept_on_table. Qed.
Lemma kept_invites spare p at_ t t' n :
  revoke_invites p at_ t = Some (t', n) -> credentials_kept spare t t'.
Proof. by apply kept_on_table. Qed.
Lemma kept_principals spare p at_ t t' n :
  disable_principals p at_ t = Some (t', n) -> credentials_kept spare t t'.
Proof. by apply kept_on_table. Qed.

Lemma kept_on_members spare f t t' n :
  on_members f t = Some (t', n) -> credentials_kept spare t t'.
Proof. unfold on_members. destruct (f _) as [[m k]|]; [|done]. intros [= <- _]. by apply credentials_same. Qed.
Lemma kept_on_stock spare f t t' n :
  on_stock f t = Some (t', n) -> credentials_kept spare t t'.
Proof. unfold on_stock. destruct (f _) as [[m k]|]; [|done]. intros [= <- _]. by apply credentials_same. Qed.
Lemma kept_on_joins spare f t t' n :
  on_joins f t = Some (t', n) -> credentials_kept spare t t'.
Proof. unfold on_joins. destruct (f _) as [[m k]|]; [|done]. intros [= <- _]. by apply credentials_same. Qed.
Lemma kept_join spare id p f t t' n :
  update_join id p f t = Some (t', n) -> credentials_kept spare t t'.
Proof. by apply kept_on_table. Qed.

(** The row that is already there is opened again. *)
Lemma kept_reinstate id row t t' n :
  match t_credentials t !! id with
  | Some r => Some (with_t_credentials (<[id := with_cr_revoked_at None r]> (t_credentials t)) t, 1)
  | None => insert_credential id row t
  end = Some (t', n) -> credentials_kept (Some id) t t'.
Proof.
  destruct (t_credentials t !! id) as [r|] eqn:Er; [|apply kept_insert].
  intros [= <- _]. apply (kept_update _ (fun k _ => bool_decide (k = id)) (with_cr_revoked_at None) _ _
    (update_where (fun k (_ : CredentialRow) => bool_decide (k = id)) (with_cr_revoked_at None)
       (t_credentials t)).2).
  - intros j a ->%bool_decide_eq_true. by split_and!.
  - unfold on_table. destruct (update_where _ _ _) as [m k] eqn:Eu. cbn. do 3 f_equal.
    apply map_eq. intros j. pose proof (update_where_lookup (fun k _ => bool_decide (k = id))
      (with_cr_revoked_at None) (t_credentials t) j) as Hl. rewrite Eu in Hl. cbn in Hl. rewrite Hl.
    destruct (decide (j = id)) as [->|Hne].
    + rewrite lookup_insert_eq, Er. cbn. by rewrite bool_decide_eq_true_2.
    + rewrite lookup_insert_ne by done. destruct (t_credentials t !! j); [|done]. cbn.
      by rewrite bool_decide_eq_false_2.
Qed.

(** A computation: its statements are dispatched to the lemmas above. *)
Ltac kept_stmt :=
  intros ? ? ?; cbv beta;
  lazymatch goal with
  | |- insert_credential _ _ _ = _ -> _ => apply kept_insert
  | |- insert_or_ignore_credential _ _ _ = _ -> _ => apply kept_insert_or_ignore
  | |- insert_or_ignore_principal _ _ _ = _ -> _ => apply kept_insert_principal
  | |- on_members _ _ = _ -> _ => apply kept_on_members
  | |- on_stock _ _ = _ -> _ => apply kept_on_stock
  | |- on_joins _ _ = _ -> _ => apply kept_on_joins
  | |- update_join _ _ _ _ = _ -> _ => apply kept_join
  | |- revoke_credentials _ _ _ = _ -> _ => apply kept_revoke
  | |- revoke_sessions _ _ _ = _ -> _ => apply kept_sessions
  | |- revoke_invites _ _ _ = _ -> _ => apply kept_invites
  | |- disable_principals _ _ _ = _ -> _ => apply kept_principals
  | |- on_table _ _ _ _ = _ -> _ => by apply kept_on_table
  | |- close_assignment _ _ _ = _ -> _ => by apply kept_on_table
  | |- _ => first [ intros ?; repeat case_match; simplify_eq; by apply credentials_same
                  | apply kept_reinstate ]
  end.
Ltac kept :=
  repeat match goal with
  | |- keeps _ (ret _) => apply keeps_ret; apply _
  | |- keeps _ (stop _) => apply keeps_stop; apply _
  | |- keeps _ (query _) => apply keeps_query; apply _
  | |- keeps _ (transaction _ _) => apply keeps_transaction; [apply _|]
  | |- keeps _ (bind _ _) => apply keeps_bind; [apply _| |intros ?]
  | |- keeps _ (execute _ _ _) => apply keeps_execute; [apply _|]; kept_stmt
  | |- keeps _ (unit_of _) => unfold unit_of
  | |- keeps _ (if ?b then _ else _) => destruct b
  | |- keeps _ (match ?o with _ => _ end) => destruct o
  | _ => solve [auto with writes]
  end.

Lemma keeps_insert_principal_credential {E} spare (e : E) role token name kind at_ label :
  keeps (credentials_kept spare) (insert_principal_credential e role token name kind at_ label).
Proof. unfold insert_principal_credential. kept. Qed.

Lemma keeps_revoke_principal_credential {E} spare (e : E) token at_ :
  keeps (credentials_kept spare) (revoke_principal_credential e token at_).
Proof. unfold revoke_principal_credential. kept. Qed.

Lemma keeps_write_room_state {E} spare (e : E) room mode settings :
  keeps (credentials_kept spare) (write_room_state e room mode settings).
Proof. unfold write_room_state. kept. Qed.

Lemma keeps_insert_assignment spare room p by_ role at_ :
  keeps (credentials_kept spare) (insert_assignment room p by_ role at_).
Proof. unfold insert_assignment. kept. Qed.

Lemma keeps_mint_rows spare ids by_ created expires n :
  keeps (credentials_kept spare) (mint_rows ids by_ created expires n).
Proof.
  revert n. induction ids as [|id ids IH]; intros n; cbn [mint_rows]; kept. apply IH.
Qed.

Lemma keeps_regardless {E E' A} spare (m : Sql Tables E A) :
  keeps (credentials_kept spare) m -> keeps (credentials_kept spare) (regardless (E' := E') m).
Proof. intros Hm c. apply Hm. Qed.

Lemma keeps_promote_deliveries spare rows :
  keeps (credentials_kept spare) (promote_deliveries rows).
Proof. induction rows as [|[id o] rows IH]; cbn [promote_deliveries]; kept. apply IH. Qed.

Lemma keeps_insert_legacy spare role label token name kind at_ revoked_at :
  keeps (credentials_kept spare) (insert_legacy role label token name kind at_ revoked_at).
Proof. unfold insert_legacy. kept. Qed.

Lemma keeps_migrate_members spare rows : keeps (credentials_kept spare) (migrate_members rows).
Proof.
  induction rows as [|[token m] rows IH]; cbn [migrate_members]; kept; [|apply IH].
  apply keeps_insert_legacy.
Qed.
Lemma keeps_migrate_smasters spare rows : keeps (credentials_kept spare) (migrate_smasters rows).
Proof.
  induction rows as [|[token r] rows IH]; cbn [migrate_smasters]; kept; [|apply IH].
  apply keeps_insert_legacy.
Qed.

Lemma keeps_db_open spare owner_column : keeps (credentials_kept spare) (db_open owner_column).
Proof.
  unfold db_open, backfill_progress, name_deliveries, migrate_legacy_principals, bind_owners.
  pose proof (keeps_promote_deliveries spare). pose proof (keeps_migrate_members spare).
  pose proof (keeps_migrate_smasters spare). kept; auto;
    apply (keeps_regardless spare); kept.
Qed.

(** ** The writes of the store *)

Inductive store_write : Type :=
  | WSuspend (token reason : string) (at_ : N)
  | WResume (token : string)
  | WCreateCredential (principal_id label secret : string) (at_ : N)
  | WRevokeCredential (principal_id credential_id : string) (at_ : N)
  | WSaveSession (secret principal_id credential_id : string) (created_at expires_at : N)
  | WRevokeSession (secret : string) (at_ : N)
  | WEnsureMaster (root name : string) (at_ : N)
  | WSaveAdminSession (token name : string) (kind : SenderType) (expires_at : N)
  | WDeleteAdminSession (token : string)
  | WInsertInvite (inv : Invite)
  | WRevokeInvite (token : string) (at_ : N)
  | WRevokeInvitesFor (room name : string) (at_ : N)
  | WAddMember (m : Membership)
  | WRevokeMember (token : string) (at_ : N)
  | WSetBan (room name kind : string) (at_ : N)
  | WClearBan (room name kind : string)
  | WAddSmaster (token name : string) (at_ : N)
  | WRevokeSmaster (token : string) (at_ : N)
  | WCreateRoom (room : string) (settings : RoomSettings) (founder : string) (at_ : N)
  | WAppoint (room principal_id by_ : string) (at_ : N)
  | WRevokeOperator (room expected : string) (at_ : N)
  | WMint (ids : list string) (minted_by : string) (created_at expires_at : N)
  | WRequest (id secret name kind : string) (created_at : N)
  | WApprove (id mb_token by_ : string) (now : N)
  | WDeny (id by_ : string) (now : N)
  | WClaim (id secret : string) (now : N)
  | WAck (id secret : string) (now : N)
  | WOpen (owner_column : bool).

Definition write (w : store_write) c : Conn Tables :=
  match w with
  | WSuspend token reason at_ => (db_suspend_member token reason at_ c).1
  | WResume token => (db_resume_member token c).1
  | WCreateCredential p label secret at_ => (db_create_credential p label secret at_ c).1
  | WRevokeCredential p id at_ => (db_revoke_credential p id at_ c).1
  | WSaveSession s p id at_ ends => (db_save_principal_session s p id at_ ends c).1
  | WRevokeSession s at_ => (db_revoke_principal_session s at_ c).1
  | WEnsureMaster root name at_ => (db_ensure_master_principal root name at_ c).1
  | WSaveAdminSession token name kind ends => (db_save_admin_session token name kind ends c).1
  | WDeleteAdminSession token => (db_delete_admin_session token c).1
  | WInsertInvite inv => (db_insert_invite inv c).1
  | WRevokeInvite token at_ => (db_revoke_invite token at_ c).1
  | WRevokeInvitesFor room name at_ => (db_revoke_invites_for room name at_ c).1
  | WAddMember m => (db_add_member m c).1
  | WRevokeMember token at_ => (db_revoke_member_cascade token at_ c).1
  | WSetBan room name kind at_ => (db_set_ban room name kind at_ c).1
  | WClearBan room name kind => (db_clear_ban room name kind c).1
  | WAddSmaster token name at_ => (db_add_smaster token name at_ c).1
  | WRevokeSmaster token at_ => (db_revoke_smaster token at_ c).1
  | WCreateRoom room settings founder at_ => (db_create_room_with_operator room settings founder at_ c).1
  | WAppoint room p by_ at_ => (db_appoint_loca_operator room p by_ at_ c).1
  | WRevokeOperator room expected at_ => (db_revoke_loca_operator room expected at_ c).1
  | WMint ids by_ created expires => (db_mint_admission_rights ids by_ created expires c).1
  | WRequest id secret name kind at_ => (db_create_join_request id secret name kind at_ c).1
  | WApprove id mb by_ now => (db_approve_join_request id mb by_ now c).1
  | WDeny id by_ now => (db_deny_join_request id by_ now c).1
  | WClaim id secret now => (db_claim_join_request_bootstrap id secret now c).1
  | WAck id secret now => (db_ack_join_request_bootstrap id secret now c).1
  | WOpen owner_column => (db_open owner_column c).1
  end.

(** The credential that a start of the server with this root key reinstates. *)
Definition reinstated (w : store_write) : option string :=
  match w with
  | WEnsureMaster root _ _ => Some (hashed_id "cr_" ("master:" +:+ root))
  | _ => None
  end.

Lemma kept_fst {E A} spare (m : Sql Tables E A) c :
  keeps (credentials_kept spare) m -> credentials_kept spare (tables c) (tables (m c).1).
Proof. intros Hm. apply Hm. Qed.

Create HintDb writes.
#[local] Hint Unfold db_create_credential db_revoke_credential revoke_legacy_smaster
  db_save_principal_session
  db_revoke_principal_session db_save_admin_session db_delete_admin_session db_insert_invite
  require_unsealed_room
  db_revoke_invite db_revoke_invites_for db_add_member db_revoke_member_cascade db_set_ban
  db_clear_ban db_add_smaster db_revoke_smaster db_create_room_with_operator
  db_appoint_loca_operator db_revoke_loca_operator db_mint_admission_rights
  db_create_join_request validate_target validate_appointer fill_seat query_active
  require_active approval issue : writes.
#[local] Hint Resolve keeps_insert_principal_credential keeps_revoke_principal_credential
  keeps_write_room_state keeps_insert_assignment keeps_mint_rows : writes.

Lemma fst_of {S A B} (x : S * A) (f : A -> B) : (let '(c, r) := x in (c, f r)).1 = x.1.
Proof. by destruct x. Qed.

Lemma approve_fst (x : Conn Tables * result Membership ApproveTxn) :
  (match x with (c, Ok m) => (c, TxnCommitted m) | (c, Err e) => (c, e) end).1 = x.1.
Proof. by destruct x as [c [m|e]]. Qed.

Lemma write_kept w c : credentials_kept (reinstated w) (tables c) (tables (write w c)).
Proof.
  destruct w; cbn [write reinstated];
    try (apply kept_fst; autounfold with writes; kept; auto with writes; fail).
  - unfold db_suspend_member. rewrite fst_of. apply kept_fst. kept.
  - unfold db_resume_member. rewrite fst_of. apply kept_fst. kept.
  - unfold db_ensure_master_principal. destruct (str_is_empty root); [by apply credentials_same|].
    apply kept_fst. kept.
  - unfold db_approve_join_request. rewrite approve_fst. apply kept_fst. autounfold with writes. kept.
  - unfold db_deny_join_request. rewrite fst_of. apply kept_fst. kept.
  - unfold db_claim_join_request_bootstrap. destruct (deliverable _ _ _); [|by apply credentials_same].
    rewrite fst_of. apply kept_fst. kept.
  - unfold db_ack_join_request_bootstrap. destruct (owned_request _ _ _); [|by apply credentials_same].
    destruct (negb _); [by apply credentials_same|]. destruct (negb _); [by apply credentials_same|].
    rewrite fst_of. apply kept_fst. kept.
  - apply kept_fst, keeps_db_open.
Qed.

Fixpoint writes (ws : list store_write) c : Conn Tables :=
  match ws with [] => c | w :: ws => writes ws (write w c) end.

Lemma writes_kept ws id c a :
  hashes_unique (tables c) -> t_credentials (tables c) !! id = Some a ->
  cr_revoked_at a <> None -> Forall (fun w => reinstated w <> Some id) ws ->
  exists b, t_credentials (tables (writes ws c)) !! id = Some b /\
    cr_revoked_at b = cr_revoked_at a /\ cr_secret_hash b = cr_secret_hash a /\
    hashes_unique (tables (writes ws c)).
Proof.
  intros Hu Ea Ha Hws. revert c a Hu Ea Ha.
  induction Hws as [|w ws Hw _ IH]; intros c a Hu Ea Ha; [by exists a|].
  destruct (write_kept w c Hu) as [Hu' K]. destruct (K id a Ea) as (b & Eb & Hh & _ & Hr).
  specialize (Hr Hw Ha). cbn [writes].
  destruct (IH _ b Hu' Eb) as (d & Ed & Hrd & Hhd & Hud); [congruence|].
  exists d. split_and!; first [done|congruence].
Qed.

(** The credential of a secret, found by its hash. *)
Lemma credential_found t id a secret :
  hashes_unique t -> t_credentials t !! id = Some a -> cr_secret_hash a = secret_hash secret ->
  credential_with_hash t (secret_hash secret) = Some (id, a).
Proof.
  intros Hu Ea Ha. apply select_where_unique; [done|by apply bool_decide_eq_true|].
  intros k v Ek Hv%bool_decide_eq_true. apply (Hu k id v a Ek Ea). congruence.
Qed.

(** C27: invariant.  Revocation is final.  A credential that was revoked, and keeps
    its date through any sequence of the store's writes on identity, operators and
    admission and of openings of the database, which migrate old keys, whatever fails, is never accepted again and opens no session; only a
    restart of the server with the very root key it was made from reinstates it. *)
Theorem revoked_credential_stays_revoked ws id a c secret :
  hashes_unique (tables c) -> t_credentials (tables c) !! id = Some a ->
  cr_revoked_at a <> None -> cr_secret_hash a = secret_hash secret ->
  Forall (fun w => reinstated w <> Some id) ws ->
  let t' := tables (writes ws c) in
  db_principal_for_credential t' secret = None /\
  db_credential_id_for_secret t' secret = None /\
  db_credential_is_revoked t' secret = true /\
  forall session now s, t_principal_sessions t' !! secret_hash session = Some s ->
    ps_credential_id s = id -> db_principal_for_session t' session now = None.
Proof.
  intros Hu Ea Ha Hsec Hws t'.
  destruct (writes_kept ws id c a Hu Ea Ha Hws) as (b & Eb & Hr & Hh & Hu').
  fold t' in Eb, Hu'. clearbody t'.
  assert (credential_with_hash t' (secret_hash secret) = Some (id, b)) as Ec.
  { apply credential_found; [done|done|congruence]. }
  assert (is_none (cr_revoked_at b) = false) as Hn by (rewrite Hr; by destruct (cr_revoked_at a)).
  split_and!.
  - unfold db_principal_for_credential. rewrite Ec. cbn. rewrite Hn. by destruct (str_is_empty _).
  - unfold db_credential_id_for_secret. rewrite Ec. cbn. by rewrite Hn.
  - unfold db_credential_is_revoked. by rewrite Ec, Hn.
  - intros session now s Es Hs. unfold db_principal_for_session, live_session.
    rewrite Es. cbn. rewrite Hs, Eb. cbn. by rewrite Hn, andb_false_r.
Qed.

(** ** Suspension *)

(** An update that was run, on whichever table. *)
Lemma on_update_ok {E V} (e : E) ps (get : Tables -> gmap string V) put p f c c' n :
  execute e ps (fun t => on_table get put (update_where (p t) f) t) c = (c', Ok n) ->
  exists M, tables c' = put M (tables c) /\ forall id,
    M !! id = (fun r => if p (tables c) id r then f r else r) <$> get (tables c) !! id.
Proof.
  intros [Ex _]%execute_ok. unfold on_table in Ex.
  destruct (update_where _ _ _) as [M k] eqn:Eu. injection Ex as Ex _. exists M.
  split; [done|]. intros id. exact (update_where_eq _ _ _ _ _ Eu id).
Qed.

Lemma disable_ok {E} (e : E) ps p at_ c c' n :
  execute e ps (fun t => disable_principals (p t) at_ t) c = (c', Ok n) ->
  exists P, tables c' = with_t_principals P (tables c) /\ forall id, P !! id
    = (fun r => if p (tables c) id && is_none (pr_disabled_at r)
                then with_pr_disabled_at (Some at_) r else r) <$> t_principals (tables c) !! id.
Proof.
  apply (on_update_ok e ps t_principals with_t_principals
    (fun t id r => p t id && is_none (pr_disabled_at r))).
Qed.
Lemma revoke_sessions_ok {E} (e : E) ps p at_ c c' n :
  execute e ps (revoke_sessions p at_) c = (c', Ok n) ->
  exists S, tables c' = with_t_principal_sessions S (tables c) /\ forall id, S !! id
    = (fun r => if p id r && is_none (ps_revoked_at r)
                then with_ps_revoked_at (Some at_) r else r) <$> t_principal_sessions (tables c) !! id.
Proof.
  apply (on_update_ok e ps t_principal_sessions with_t_principal_sessions (fun _ id r => p id r && is_none (ps_revoked_at r))).
Qed.
Lemma revoke_invites_ok {E} (e : E) ps p at_ c c' n :
  execute e ps (revoke_invites p at_) c = (c', Ok n) ->
  exists I, tables c' = with_t_invites I (tables c) /\ forall id, I !! id
    = (fun r => if p id r && is_none (ir_revoked_at r)
                then with_ir_revoked_at (Some at_) r else r) <$> t_invites (tables c) !! id.
Proof.
  apply (on_update_ok e ps t_invites with_t_invites (fun _ id r => p id r && is_none (ir_revoked_at r))).
Qed.
Lemma revoke_credentials_ok {E} (e : E) ps p at_ c c' n :
  execute e ps (revoke_credentials p at_) c = (c', Ok n) ->
  exists C, tables c' = with_t_credentials C (tables c) /\ forall id, C !! id
    = (fun r => if p id r && is_none (cr_revoked_at r)
                then with_cr_revoked_at (Some at_) r else r) <$> t_credentials (tables c) !! id.
Proof.
  apply (on_update_ok e ps t_credentials with_t_credentials (fun _ id r => p id r && is_none (cr_revoked_at r))).
Qed.
Lemma members_ok {E} (e : E) ps p f c c' n :
  execute e ps (on_table t_members with_t_members (update_where p f)) c = (c', Ok n) ->
  exists M, tables c' = with_t_members M (tables c) /\ forall id,
    M !! id = (fun r => if p id r then f r else r) <$> t_members (tables c) !! id.
Proof. apply (on_update_ok e ps t_members with_t_members (fun _ => p)). Qed.

(** What a suspension that is answered [true] did. *)
Record suspended (token principal : string) (at_ : N) t t' : Prop := {
  sd_principal : member_principal t token = Some principal;
  sd_credentials : t_credentials t' = t_credentials t;
  sd_members : t_members t' = t_members t;
  sd_mark : is_Some (t_member_suspensions t' !! token);
  sd_principals : forall id, t_principals t' !! id
    = (fun r => if bool_decide (id = principal) && is_none (pr_disabled_at r)
                then with_pr_disabled_at (Some at_) r else r) <$> t_principals t !! id;
  sd_sessions : forall id, t_principal_sessions t' !! id
    = (fun r => if bool_decide (ps_principal_id r = principal) && is_none (ps_revoked_at r)
                then with_ps_revoked_at (Some at_) r else r) <$> t_principal_sessions t !! id;
  sd_invites : forall id, t_invites t' !! id
    = (fun r => if bool_decide (inv_member (ir_invite r) = token) && is_none (ir_revoked_at r)
                then with_ir_revoked_at (Some at_) r else r) <$> t_invites t !! id;
}.

Lemma suspend_done token reason at_ c c' :
  db_suspend_member token reason at_ c = (c', Ok true) ->
  exists principal, suspended token principal at_ (tables c) (tables c').
Proof.
  unfold db_suspend_member. destruct (transaction _ _ c) as [c1 [b|e]] eqn:Et; [|by destruct e].
  intros [= <- ->]. apply transaction_ok in Et as (c2 & Hm & ->).
  apply bind_ok in Hm as (c3 & pr & [-> ->]%query_ok & Hm). cbn [tables past_fault] in Hm.
  destruct (member_principal (tables c) token) as [principal|] eqn:Ep; [|done]. exists principal.
  apply bind_ok in Hm as (c3 & n1 & [H1 _]%execute_ok & Hm).
  apply bind_ok in Hm as (c4 & n2 & H2 & Hm).
  apply (disable_ok _ _ (fun _ id => bool_decide (id = principal))) in H2 as (P & E2 & HP).
  apply bind_ok in Hm as (c5 & n3 & (S & E3 & HS)%revoke_sessions_ok & Hm).
  apply bind_ok in Hm as (c6 & n4 & (I & E4 & HI)%revoke_invites_ok & Hm).
  apply ret_ok in Hm as [-> _].
  unfold on_table in H1. destruct (insert_or_ignore token (at_, reason) _) as [M k] eqn:Em.
  injection H1 as E1 _. cbn [tables past_fault] in *.
  rewrite <- E1 in *. rewrite E2 in *. rewrite E3 in *. rewrite E4. cbn in *.
  constructor; try done. unfold insert_or_ignore in Em.
  destruct (t_member_suspensions (tables c) !! token) as [x|] eqn:Ex; injection Em as <- _; cbn.
  - by exists x.
  - rewrite lookup_insert_eq. by eexists.
Qed.

(** A principal that is disabled is nobody. *)
Lemma disabled_proves_nothing t secret principal :
  (forall id a, credential_with_hash t (secret_hash secret) = Some (id, a) ->
     cr_principal_id a = principal) ->
  active_principal_row t principal = None -> db_principal_for_credential t secret = None.
Proof.
  intros Hc Hp. unfold db_principal_for_credential. destruct (str_is_empty secret); [done|].
  destruct (credential_with_hash t _) as [[id a]|] eqn:Ec; [|done]. cbn.
  rewrite (Hc id a eq_refl). by destruct (is_none _).
Qed.

Lemma disabled_no_session t session now principal s :
  t_principal_sessions t !! secret_hash session = Some s -> ps_principal_id s = principal ->
  active_principal_row t principal = None -> db_principal_for_session t session now = None.
Proof.
  intros Es Hs Hp. unfold db_principal_for_session, live_session. rewrite Es. cbn.
  destruct (t_credentials t !! _); [|done]. cbn. destruct (_ && _); [|done]. by rewrite Hs, Hp.
Qed.

Lemma suspended_inactive token principal at_ t t' :
  suspended token principal at_ t t' -> active_principal_row t' principal = None.
Proof.
  intros [_ _ _ _ Hp _ _]. unfold active_principal_row. rewrite Hp.
  destruct (t_principals t !! principal) as [r|]; [|done]. cbn.
  rewrite bool_decide_eq_true_2 by done. cbn. destruct (is_none (pr_disabled_at r)) eqn:E; [done|].
  by rewrite E.
Qed.

(** What lifting a suspension did. *)
Lemma resume_done token c c' :
  db_resume_member token c = (c', Ok true) ->
  t_credentials (tables c') = t_credentials (tables c) /\
  t_principal_sessions (tables c') = t_principal_sessions (tables c) /\
  t_invites (tables c') = t_invites (tables c) /\
  t_member_suspensions (tables c') !! token = None /\
  forall id, t_principals (tables c') !! id
    = (fun r => if proves (tables c) (secret_hash token) id
                   && bool_decide (pr_building_role r = "member"%string)
                then with_pr_disabled_at None r else r) <$> t_principals (tables c) !! id.
Proof.
  unfold db_resume_member. destruct (transaction _ _ c) as [c1 [b|e]] eqn:Et; [|by destruct e].
  intros [= <- ->]. apply transaction_ok in Et as (c2 & Hm & ->).
  apply bind_ok in Hm as (c3 & n & [H1 _]%execute_ok & Hm). destruct n as [|n]; [done|].
  apply bind_ok in Hm as (c4 & n2 & [H2 _]%execute_ok & [-> _]%ret_ok).
  cbn [tables past_fault] in H1. destruct (_ && _); [|done]. injection H1 as E1 _.
  unfold on_table in H2. destruct (update_where _ _ _) as [P k] eqn:Eu. injection H2 as E2 _.
  rewrite <- E2. cbn [t_credentials t_principal_sessions t_invites t_member_suspensions
    with_t_principals t_principals]. rewrite <- E1 in *. cbn. split_and!; try done.
  - apply lookup_delete_eq.
  - intros id. exact (update_where_eq _ _ _ _ _ Eu id).
Qed.

Lemma member_principal_proves t token principal :
  member_principal t token = Some principal ->
  proves t (secret_hash token) principal = true /\
  (forall id a, credential_with_hash t (secret_hash token) = Some (id, a) ->
     cr_principal_id a = principal) /\
  exists p, t_principals t !! principal = Some p /\ pr_building_role p = "member"%string.
Proof.
  unfold member_principal. destruct (t_members t !! token) as [m|]; [|done]. cbn.
  destruct (credential_with_hash t (secret_hash token)) as [[id a]|] eqn:Ec; [|done]. cbn.
  destruct (t_principals t !! cr_principal_id a) as [p|] eqn:Ep; [|done]. cbn.
  destruct (is_none _ && _) eqn:E; [|done]. intros [= <-].
  apply andb_true_iff in E as [_ Hr%bool_decide_eq_true].
  split_and!; [unfold proves; rewrite Ec; by apply bool_decide_eq_true|congruence|by exists p].
Qed.

Lemma refuse_suspended inv c c' r :
  is_Some (t_member_suspensions (tables c) !! inv_member inv) ->
  db_insert_invite inv c = (c', r) -> r = Err DbError /\ tables c' = tables c.
Proof.
  intros [x Ex] Hi. split; [|destruct r as [u|e]; [|by eapply transaction_err]].
  - revert Hi. unfold db_insert_invite, transaction. destruct (next_fault c); [by intros [= _ <-]|].
    unfold bind at 1, query. cbn [tables past_fault]. rewrite Ex. cbn. by intros [= _ <-].
  - exfalso. apply transaction_ok in Hi as (c2 & Hm & _).
    apply bind_ok in Hm as (c3 & b & [-> ->]%query_ok & Hm).
    cbn [tables past_fault] in Hm. by rewrite Ex in Hm.
Qed.

Lemma proved_identity t token who :
  db_principal_for_credential t token = Some who ->
  str_is_empty token = false /\ exists id a p,
    credential_with_hash t (secret_hash token) = Some (id, a) /\ is_none (cr_revoked_at a) = true /\
    t_principals t !! cr_principal_id a = Some p /\ pr_disabled_at p = None /\
    who = principal_identity (cr_principal_id a) p.
Proof.
  unfold db_principal_for_credential. destruct (str_is_empty token); [done|].
  destruct (credential_with_hash t _) as [[id a]|]; [|done]. cbn.
  destruct (is_none (cr_revoked_at a)) eqn:Er; [|done]. unfold active_principal_row.
  destruct (t_principals t !! _) as [p|] eqn:Ep; [|done]. cbn.
  destruct (pr_disabled_at p) eqn:Ed; [done|]. intros [= <-]. split; [done|]. by exists id, a, p.
Qed.

(** Sessions and davets that an update closed. *)
Lemma sessions_closed t t' principal at_ session now s :
  (forall id, t_principal_sessions t' !! id
    = (fun r => if bool_decide (ps_principal_id r = principal) && is_none (ps_revoked_at r)
                then with_ps_revoked_at (Some at_) r else r) <$> t_principal_sessions t !! id) ->
  t_principal_sessions t !! secret_hash session = Some s -> ps_principal_id s = principal ->
  db_principal_for_session t' session now = None.
Proof.
  intros HS Es Hp. unfold db_principal_for_session, live_session. rewrite HS, Es. cbn.
  rewrite (bool_decide_eq_true_2 _ Hp). cbn. destruct (is_none (ps_revoked_at s)) eqn:En; cbn.
  - by destruct (t_credentials t' !! _).
  - destruct (t_credentials t' !! _); [|done]. cbn. by rewrite En.
Qed.

Lemma invites_closed t t' token at_ inv :
  (forall id, t_invites t' !! id
    = (fun r => if bool_decide (inv_member (ir_invite r) = token) && is_none (ir_revoked_at r)
                then with_ir_revoked_at (Some at_) r else r) <$> t_invites t !! id) ->
  In inv (db_load_invites t') -> inv_member inv <> token.
Proof.
  intros HI. unfold db_load_invites. intros (r & <- & [Hr Hn]%filter_In)%in_map_iff Hm.
  apply list_elem_of_In, list_elem_of_fmap in Hr as ((id & r') & -> & Er%elem_of_map_to_list).
  cbn in *. rewrite HI in Er. apply fmap_Some in Er as (r0 & Er0 & ->).
  destruct (is_none (ir_revoked_at r0)) eqn:Ern.
  - rewrite andb_true_r in *. by case_bool_decide.
  - rewrite andb_false_r in *. congruence.
Qed.

(** C33: round trip.  A suspension is complete and comes off cleanly.  From the answer
    on, no credential of the member's principal proves anyone, no session of it is
    live, none of its davets is loaded and no new one is taken; when the suspension
    is lifted the member's own credential proves exactly who it did before, while
    the sessions and davets that were ended stay ended. *)
Theorem suspension_round_trip token reason at_ c c1 who :
  db_principal_for_credential (tables c) token = Some who ->
  db_suspend_member token reason at_ c = (c1, Ok true) ->
  let silenced t := forall session now s, t_principal_sessions (tables c) !! secret_hash session = Some s ->
    ps_principal_id s = pi_id who -> db_principal_for_session t session now = None in
  let davetless t := forall inv, In inv (db_load_invites t) -> inv_member inv <> token in
  db_principal_for_credential (tables c1) token = None /\
  silenced (tables c1) /\ davetless (tables c1) /\
  (forall inv, inv_member inv = token -> (db_insert_invite inv c1).2 = Err DbError) /\
  forall c2, db_resume_member token c1 = (c2, Ok true) ->
    db_principal_for_credential (tables c2) token = Some who /\
    silenced (tables c2) /\ davetless (tables c2).
Proof.
  intros Hwho (principal & Hs)%suspend_done silenced davetless.
  apply proved_identity in Hwho as (He & id & a & p & Ec & Ha & Ep & Hd & ->).
  destruct (member_principal_proves _ _ _ (sd_principal _ _ _ _ _ Hs)) as (Hpr & Hc & p' & Ep' & Hrole).
  pose proof (suspended_inactive _ _ _ _ _ Hs) as Hoff. destruct Hs as [_ Ecr _ Hmark HP HS HI].
  assert (cr_principal_id a = principal) as Hap by (by eapply Hc). subst principal.
  assert (p' = p) as -> by congruence.
  assert (credential_with_hash (tables c1) = credential_with_hash (tables c)) as Ech.
  { unfold credential_with_hash. by rewrite Ecr. }
  split_and!.
  - eapply disabled_proves_nothing; [|exact Hoff]. by rewrite Ech.
  - intros session now s. by apply (sessions_closed _ _ _ _ session now s HS).
  - intros inv. by apply (invites_closed _ _ _ _ inv HI).
  - intros inv Hm. destruct (db_insert_invite inv c1) as [c' r] eqn:E.
    apply refuse_suspended in E as [-> _]; [done|by rewrite Hm].
  - intros c2 (Ecr2 & Es2 & Ei2 & _ & HP2)%resume_done.
    split_and!.
    + unfold db_principal_for_credential. rewrite He.
      assert (credential_with_hash (tables c2) (secret_hash token) = Some (id, a)) as ->.
      { unfold credential_with_hash. by rewrite Ecr2, Ecr. }
      cbn. rewrite Ha. unfold active_principal_row. rewrite HP2, HP, Ep. cbn.
      unfold proves. rewrite Ech, Ec. rewrite !bool_decide_eq_true_2 by done. cbn. rewrite Hd. cbn.
      by rewrite Hrole.
    + intros session now s. apply (sessions_closed _ _ _ at_ session now s). by rewrite Es2.
    + intros inv. apply (invites_closed (tables c) _ _ at_ inv). by rewrite Ei2.
Qed.

(** ** Revocation of a member *)

(** The credential with the hash of the token, once its credentials are closed. *)
Definition closed_credential at_ (a : CredentialRow) : CredentialRow :=
  if is_none (cr_revoked_at a) then with_cr_revoked_at (Some at_) a else a.

Lemma credential_closed t t' hash at_ id a :
  hashes_unique t -> credential_with_hash t hash = Some (id, a) ->
  (forall id, t_credentials t' !! id
    = (fun r => if bool_decide (cr_secret_hash r = hash) && is_none (cr_revoked_at r)
                then with_cr_revoked_at (Some at_) r else r) <$> t_credentials t !! id) ->
  credential_with_hash t' hash = Some (id, closed_credential at_ a).
Proof.
  intros Hu [Ea Hh]%select_where_Some HC. cbn in Hh. apply select_where_unique.
  - rewrite HC, Ea. cbn. by rewrite Hh.
  - apply bool_decide_eq_true in Hh. apply bool_decide_eq_true. unfold closed_credential.
    by destruct (is_none _).
  - intros k v. rewrite HC. intros (b & Eb & ->)%fmap_Some Hv%bool_decide_eq_true.
    apply bool_decide_eq_true in Hh. apply (Hu k id b a Eb Ea). rewrite Hh, <- Hv.
    by destruct (_ && _).
Qed.

Lemma closed_credential_revoked at_ a : is_none (cr_revoked_at (closed_credential at_ a)) = false.
Proof. unfold closed_credential. by destruct (is_none (cr_revoked_at a)) eqn:E. Qed.

(** What revoking a member did. *)
Record member_removed (token : string) (at_ : N) t t' : Prop := {
  rm_sessions : t_principal_sessions t' = t_principal_sessions t;
  rm_members : forall id, t_members t' !! id
    = (fun r => if bool_decide (id = token) && is_none (mr_revoked_at r)
                then with_mr_revoked_at (Some at_) r else r) <$> t_members t !! id;
  rm_invites : forall id, t_invites t' !! id
    = (fun r => if bool_decide (inv_member (ir_invite r) = token) && is_none (ir_revoked_at r)
                then with_ir_revoked_at (Some at_) r else r) <$> t_invites t !! id;
  rm_credentials : forall id, t_credentials t' !! id
    = (fun r => if bool_decide (cr_secret_hash r = secret_hash token) && is_none (cr_revoked_at r)
                then with_cr_revoked_at (Some at_) r else r) <$> t_credentials t !! id;
  rm_principals : forall id, t_principals t' !! id
    = (fun r => if proves t' (secret_hash token) id && is_none (pr_disabled_at r)
                then with_pr_disabled_at (Some at_) r else r) <$> t_principals t !! id;
}.

Lemma revoke_done token at_ c c1 u :
  db_revoke_member_cascade token at_ c = (c1, Ok u) ->
  member_removed token at_ (tables c) (tables c1).
Proof.
  intros (c2 & Hm & ->)%transaction_ok.
  apply bind_ok in Hm as (c3 & n1 & (M & E3 & HM)%members_ok & Hm).
  apply bind_ok in Hm as (c4 & n2 & (I & E4 & HI)%revoke_invites_ok & Hm).
  unfold revoke_principal_credential, unit_of in Hm.
  apply bind_ok in Hm as (c5 & n3 & (C & E5 & HC)%revoke_credentials_ok & Hm).
  apply bind_ok in Hm as (c6 & n4 & (P & E6 & HP)%disable_ok & [-> _]%ret_ok).
  cbn [tables past_fault] in *. rewrite E6 in *. rewrite E5 in *. rewrite E4 in *. rewrite E3 in *.
  by constructor.
Qed.

Lemma resume_refused token c :
  (forall m, t_members (tables c) !! token = Some m -> mr_revoked_at m <> None) ->
  (db_resume_member token c).2 <> Ok true /\ tables (db_resume_member token c).1 = tables c.
Proof.
  intros Hm. destruct (db_resume_member token c) as [c' r] eqn:E. cbn [fst snd]. revert E.
  unfold db_resume_member. destruct (transaction _ _ c) as [c1 [b|e]] eqn:Et; cycle 1.
  { intros [= <- <-]. split; [by destruct e|by eapply transaction_err]. }
  apply transaction_ok in Et as (c2 & Hb & _).
  apply bind_ok in Hb as (c3 & n & [Hx _]%execute_ok & Hb). cbn [tables past_fault] in Hx.
  destruct (t_members (tables c) !! token) as [m|]; cbn in Hx; [|by injection Hx as _ <-].
  specialize (Hm m eq_refl). destruct (mr_revoked_at m); [|done]. cbn in Hx.
  by injection Hx as _ <-.
Qed.

Lemma members_closed t t' token at_ m :
  member_removed token at_ t t' -> In m (db_load_members t') -> mb_token m <> token.
Proof.
  intros [_ HM _ _ _]. unfold db_load_members.
  intros ([k r] & <- & [Hr Hn]%filter_In)%in_map_iff Hk. cbn in *. subst k.
  apply list_elem_of_In, elem_of_map_to_list in Hr. rewrite HM in Hr.
  apply fmap_Some in Hr as (r0 & _ & ->). rewrite bool_decide_eq_true_2 in Hn by done. cbn in Hn.
  destruct (is_none (mr_revoked_at r0)) eqn:E0; cbn in Hn; [done|congruence].
Qed.

(** safety.  Revoking a member leaves nothing behind: the credential of its
    membership proves nobody and reads as revoked, no session of its principal is
    live, it is no longer loaded as a member and none of its davets is loaded; and
    no lifting of a suspension brings it back.  If any of the writes fails, nothing
    is revoked at all. *)
Theorem member_revocation_is_final token at_ c who :
  hashes_unique (tables c) -> db_principal_for_credential (tables c) token = Some who ->
  match db_revoke_member_cascade token at_ c with
  | (c1, Ok _) =>
      db_principal_for_credential (tables c1) token = None /\
      db_credential_is_revoked (tables c1) token = true /\
      (forall session now s, t_principal_sessions (tables c1) !! secret_hash session = Some s ->
         ps_principal_id s = pi_id who -> db_principal_for_session (tables c1) session now = None) /\
      (forall m, In m (db_load_members (tables c1)) -> mb_token m <> token) /\
      (forall inv, In inv (db_load_invites (tables c1)) -> inv_member inv <> token) /\
      (db_resume_member token c1).2 <> Ok true /\
      tables (db_resume_member token c1).1 = tables c1
  | (c1, Err _) => tables c1 = tables c
  end.
Proof.
  intros Hu Hwho. destruct (db_revoke_member_cascade token at_ c) as [c1 [u|e]] eqn:Et;
    [|by apply transaction_err in Et].
  apply revoke_done in Et as Hd. apply proved_identity in Hwho as (He & id & a & p & Ec & Ha & Ep & _ & ->).
  pose proof (credential_closed _ _ _ at_ id a Hu Ec (rm_credentials _ _ _ _ Hd)) as Ec'.
  pose proof (closed_credential_revoked at_ a) as Hcl.
  assert (active_principal_row (tables c1) (cr_principal_id a) = None) as Hoff.
  { unfold active_principal_row. rewrite (rm_principals _ _ _ _ Hd), Ep. cbn.
    unfold proves. rewrite Ec', bool_decide_eq_true_2; [cbn|by unfold closed_credential; destruct (is_none _)].
    destruct (is_none (pr_disabled_at p)) eqn:E; [done|]. by rewrite E. }
  assert ((db_resume_member token c1).2 <> Ok true /\
    tables (db_resume_member token c1).1 = tables c1) as Hres.
  { apply resume_refused. intros m Em. rewrite (rm_members _ _ _ _ Hd) in Em.
    apply fmap_Some in Em as (m0 & _ & ->). rewrite bool_decide_eq_true_2 by done. cbn.
    destruct (mr_revoked_at m0) eqn:E; [by cbn; rewrite E|done]. }
  split_and!.
  - unfold db_principal_for_credential. rewrite He, Ec'. cbn. by rewrite Hcl.
  - unfold db_credential_is_revoked. by rewrite Ec', Hcl.
  - intros session now s Es Hs. by apply (disabled_no_session _ _ _ (cr_principal_id a) s).
  - intros m. by apply (members_closed _ _ token at_ m Hd).
  - intros inv. by apply (invites_closed _ _ _ at_ inv (rm_invites _ _ _ _ Hd)).
  - apply Hres.
  - apply Hres.
Qed.
End facts.

(** ** Witnesses: a member with a session and a davet *)

From Stdlib Require Ascii String.

#[local] Instance text_digest : Digest :=
  {| sha256 s := take 32 (map Ascii.N_of_ascii (String.list_ascii_of_string s) ++ replicate 32 0%N) |}.
#[local] Instance noon : WallClock := {| current_time_ms := 1000 |}.

Definition house : Conn Tables :=
  writes [WAddMember (mkMembership "mb" "ada" "agent" 1 "root");
          WSaveSession "session" (hashed_id "pr_" "member:mb") (hashed_id "cr_" "member:mb") 2 0;
          WInsertInvite (mkInvite "dv" "lab" "mb" "ada" "agent" 3 "master")]
    (mkConn no_tables []).

Definition ada_credential : CredentialRow :=
  mkCredentialRow (hashed_id "pr_" "member:mb") "Member access" (secret_hash "mb") 1 None None
    (Some ("member:" +:+ secret_hash "mb")).
Definition ada : PrincipalIdentity := {|
  pi_id := hashed_id "pr_" "member:mb"; pi_display_name := "ada"; pi_kind := Agent;
  pi_role := RoleMember |}.

Lemma one_credential_unique t id a :
  t_credentials t = {[id := a]} -> hashes_unique t.
Proof.
  intros E i j x y. rewrite E. by intros [<- _]%lookup_singleton_Some [<- _]%lookup_singleton_Some.
Qed.

Lemma house_unique : hashes_unique (tables house).
Proof.
  apply (one_credential_unique _ (hashed_id "cr_" "member:mb") ada_credential).
  vm_compute. reflexivity.
Qed.
Lemma ada_proved : db_principal_for_credential (tables house) "mb" = Some ada.
Proof. vm_compute. reflexivity. Qed.

Definition house_revoked : Conn Tables := write (WRevokeMember "mb" 10) house.
Lemma house_revoked_unique : hashes_unique (tables house_revoked).
Proof.
  apply (one_credential_unique _ (hashed_id "cr_" "member:mb") (with_cr_revoked_at (Some 10%N) ada_credential)).
  vm_compute. reflexivity.
Qed.

Definition later : list store_write :=
  [WAddMember (mkMembership "mb" "ada" "agent" 20 "root"); WResume "mb"; WOpen false].
Lemma revoked_row : t_credentials (tables house_revoked) !! hashed_id "cr_" "member:mb"
  = Some (with_cr_revoked_at (Some 10%N) ada_credential).
Proof. vm_compute. reflexivity. Qed.
Lemma later_spares id : Forall (fun w => reinstated w <> Some id) later.
Proof. by repeat constructor. Qed.

Lemma revoked_credential_stays_revoked_witness :
  db_principal_for_credential (tables (writes later house_revoked)) "mb" = None.
Proof.
  exact (proj1 (revoked_credential_stays_revoked later (hashed_id "cr_" "member:mb")
    (with_cr_revoked_at (Some 10%N) ada_credential) house_revoked "mb" house_revoked_unique revoked_row
    ltac:(done) eq_refl (later_spares _))).
Defined.

Definition house_suspended : Conn Tables := write (WSuspend "mb" "noise" 10) house.
Lemma house_suspended_ok : db_suspend_member "mb" "noise" 10 house = (house_suspended, Ok true).
Proof. vm_compute. reflexivity. Qed.

Lemma suspension_round_trip_witness :
  db_principal_for_credential (tables house_suspended) "mb" = None.
Proof.
  exact (proj1 (suspension_round_trip "mb" "noise" 10 house house_suspended ada ada_proved
    house_suspended_ok)).
Defined.

Lemma member_revocation_is_final_witness :
  (db_resume_member "mb" house_revoked).2 <> Ok true.
Proof.
  assert (db_revoke_member_cascade "mb" 10 house = (house_revoked, Ok tt)) as E
    by (vm_compute; reflexivity).
  pose proof (member_revocation_is_final "mb" 10 house ada house_unique ada_proved) as Hm.
  rewrite E in Hm. apply Hm.
Defined.
